(* ===== verification/_CoqProject ===== *)
-Q . S2P
Prelude.v
Text.v
Common.v
Errors.v
Secrets.v
Tables.v
Float64.v
FloatRounding.v
NodeApi.v
World.v
Samples.v
HostNuma.v
VmConfig.v
Hooks.v
Vms.v
Jobs.v
Storage.v
Gpus.v
Hosts.v
HostDeploy.v
StorageObjects.v
Scheduler.v
Ipv4.v
Netfilter.v
Networks.v
Devices.v
Catalog.v
SecurityGroups.v
NetworkPolicy.v
NetworkOps.v
NodeFirewall.v
FirewallFacts.v
FirewallCorrect.v
NodeIsolation.v
VpcIsolation.v
NodeConfig.v
NodeManager.v
NodeWire.v
NodeManagerFacts.v
NodeVms.v
NodeFirecracker.v
NodeService.v
NodeBridge.v
NodeVxlan.v
HostFs.v
NodeOverlayBd.v
NodeImages.v
NodeStorage.v
NodeFiles.v
NodeFileFacts.v
SandboxTables.v
CreateRequest.v
VmLifecycle.v
VmCreate.v
Sandboxes.v
SandboxInvariant.v
Hotplug.v
VmOps.v
Backups.v
Migration.v
Commit.v
Transfers.v
PoolOps.v
HaMonitor.v
VmMonitor.v
HostOps.v
