(* ===== verification/Prelude.v ===== *)
(** * The qarax control plane

    qarax manages virtual machines on a set of hosts.  The control plane
    ([src/qarax/src]) keeps its state in PostgreSQL, serves an HTTP API, runs
    background monitors, and calls a gRPC agent on every host.  This library
    models the control plane's own logic: the tables and the statements on them,
    the scheduler, the lifecycle of a VM and the monitors that repair drift; and
    of the agent ([src/qarax-node/src]) the packet filter it programs, the managers of
    its VMs, the service that dispatches to them, the networks of the host, its layered
    images and its storage backends.

    ** How the program is modelled

    A handler, a monitor cycle or a background task is a function in the effect
    monad of [World.v]: it takes an oracle and a world and returns the next world
    and a [Result].  The world holds the committed tables, the private copy of an
    open transaction, a step counter and the log of what left the process (node
    calls with their replies, webhook requests, status events, spawned tasks).
    The oracle decides, step by step, which statements the database refuses, what
    the nodes and webhook servers answer, which identifiers are drawn and what the
    clock says.  Theorems quantify over the oracle; [served o] says that the
    database refuses nothing.  A table is a [gmap] from its primary key, a
    statement a function on tables with its constraints written out, a
    transaction a private copy that is published or dropped.  Rows that other
    transactions have locked, which [SKIP LOCKED] queries pass over, are
    arguments.  Machine integers keep their width, doubles are IEEE 754 binary64.

    ** The parts and their files

    - [Prelude.v], [Text.v]: [Result], identifiers, JSON, text order, integers of
      fixed width, Rust's string functions; tactics and hints.
    - [Common.v]: [common/src]: CPU lists, architecture names.
    - [Errors.v], [Secrets.v]: [errors.rs], [secret_provider.rs].
    - [Tables.v]: the row types of [model/*.rs] and the database.
    - [Float64.v], [FloatRounding.v]: the double arithmetic of the scheduling query and
      of the resize check, exact on integers and within one rounding otherwise.
    - [NodeApi.v]: the calls of the node agent ([proto/node.proto],
      [grpc_client.rs]).
    - [World.v], [Samples.v]: the effect monad, its reasoning rules; sample rows.
    - [HostNuma.v], [Jobs.v], [Gpus.v], [Hosts.v], [Devices.v], [Catalog.v],
      [SecurityGroups.v], [SandboxTables.v]: the statements of [model/*.rs] on the
      tables they are named after; [Catalog.v] holds templates, instance types,
      boot sources, snapshots, backups and consoles.
    - [VmConfig.v], [Vms.v]: [model/vms.rs]: the configuration document of a VM,
      resolution of create requests, every statement on the vms table.
    - [Hooks.v]: [model/lifecycle_hooks.rs] and [hook_executor.rs].
    - [Storage.v]: [model/storage_pools.rs] and the attachment checks of the VM
      handlers; [StorageObjects.v]: [model/storage_objects.rs], the accounting
      triggers of the migrations and [storage_cleanup.rs].
    - [HostDeploy.v]: [host_deployer.rs].
    - [Scheduler.v]: [pick_host_tx] of [model/hosts.rs].
    - [Ipv4.v], [Networks.v]: [model/networks.rs], the gateway and DHCP
      computations of [handlers/network/handler.rs], the allocation loop of
      [handlers/vm/handler.rs].
    - [NetworkPolicy.v]: [network_policy.rs]; [NetworkOps.v]: the other handlers of
      [handlers/network/handler.rs].
    - Of the agent: [Netfilter.v], what [iptables] promises (chains, rules, what
      they decide about a packet) as a class with a simulator; [NodeFirewall.v]:
      [networking/iptables.rs] and the validators of [networking/mod.rs] in a monad
      that keeps the kernel after every command; [FirewallFacts.v]: triples about
      commands and the stages of a swap; [FirewallCorrect.v], [NodeIsolation.v]:
      the verdicts of the chains; [FirewallCorrect.v] and [VpcIsolation.v] compose them with
      what the server computes from the tables.
    - [NodeConfig.v]: [cloud_hypervisor/manager/config.rs], the configuration of the
      hypervisor; [NodeManager.v]: [cloud_hypervisor/manager.rs] with [helpers.rs],
      [lifecycle.rs], [migration.rs], [hotplug.rs] in a monad over the state of a
      host (VMs, TAP devices, files, processes) whose oracle ends every command;
      [NodeManagerFacts.v], [NodeVms.v]: the theorems about it; [NodeWire.v]: a wire
      format the examples run on.
    - [NodeFirecracker.v]: [firecracker/mod.rs] and [helpers.rs], the second
      hypervisor; [NodeService.v]: the trait of [vmm/mod.rs], its implementations and
      the handlers of [services/vm/mod.rs] over it, with the laws of a manager as a
      class; [NodeBridge.v]: [networking/bridge.rs], [dhcp.rs] and the handlers that
      attach and detach a network; [NodeVxlan.v]: [networking/vxlan.rs], the overlays
      of the VPCs between hosts.
    - [HostFs.v]: paths, files and directories of a host; [NodeOverlayBd.v]:
      [overlaybd/manager.rs], [image_preflight.rs] and [oci_config.rs], an image as a
      block device through configfs; [NodeImages.v]: the theorems about mounting;
      [NodeStorage.v]: [storage/*.rs] and the handlers that attach and detach a pool;
      its layered backend is the [StorageBackend] that [NodeManager.v] is written
      against.
    - [NodeFiles.v]: [services/file_transfer] and [snapshot.rs], the files of a node;
      [NodeFileFacts.v]: the theorems about them.
    - Of [handlers/vm/handler.rs]: [CreateRequest.v] (the request a node gets),
      [VmCreate.v] (creation, from an image too), [VmLifecycle.v] (start with its
      task, stop, force stop, pause, resume), [Hotplug.v] (disks, interfaces,
      security groups of a VM), [VmOps.v] (resize, snapshots, restore, delete,
      preflight), [Migration.v], [Commit.v].  [Backups.v]: [handlers/backup].
    - [Sandboxes.v]: [sandbox_runtime.rs], [sandbox_pool_manager.rs],
      [sandbox_reaper.rs] and [handlers/sandbox]; [SandboxInvariant.v]: the
      theorems about them.
    - [Transfers.v]: [model/transfers.rs], [transfer_executor.rs] and
      [handlers/transfer]; [PoolOps.v]: [handlers/storage_pool] and the creation of
      [handlers/storage_object].
    - [HaMonitor.v]: [ha_monitor.rs]; [VmMonitor.v]: [vm_monitor.rs];
      [HostOps.v]: [handlers/host] and [resource_monitor.rs].

    The HA monitor and the evacuation call the scheduler, the GPU table, the
    storage checks, the start handler and the migration; the handlers call the
    tables; sandboxes are built from VM creation and start; a status update
    enqueues hook deliveries.  The files are listed in that order.

    ** What the theorems show

    - Safety of the monitors and tasks under every pattern of failures: failover
      only from hosts that stayed dead, a VM reported running only after its node
      accepted it, a migration that deletes the source only after the target has
      the VM, a commit that swaps a disk only after the copy, no GPU or exclusive
      disk handed out twice, a reaper that spares active sandboxes.
    - What each operation does on success and that it changes nothing else; that a
      refused operation leaves the tables as they were; that every background task
      ends its job or transfer.
    - Invariants of the tables: the storage ledger (a refinement of an abstract
      ledger by every storage operation), the owner of a sandbox VM, jobs, budgets
      of the hosts after a placement (integral ratios) or a resize (any ratio, up to one
      rounding).
    - The packet filter of a node: at every moment of a synchronisation a packet is
      judged by the old rules or by all of the new ones, afterwards exactly as the
      security groups in the database say; isolation chains drop exactly the
      blocked subnets, which are those of the attached networks outside the VPC.
    - The VMs of a node: whatever fails, every process the manager started belongs
      to one registered VM; deleting a VM undoes its creation; a restart of the agent
      finds a VM with the devices it had; a NUMA placement keeps the memory size.
    - The service of a node: not-found is answered exactly when no hypervisor knows
      the VM; a microVM starts at most once; a network card moved onto a bridge never
      leaves its address without a place.
    - The images of a node: whatever failed while an image was mounted, an unmount
      leaves nothing of the VM; a mapping is known again after a restart.
    - The files of a node: a download replaces a file at once or not at all, a device
      is copied exactly, a deletion removes the files of one object and no others,
      snapshots only are removed as snapshots, one lock per path.
    - Backups: a restore returns to the tables of the backup; data goes before the
      record.  Networks: a host that joined a VPC is known to all its hosts; a node
      that synchronised its overlays has exactly the devices, addresses, peers and
      routes the server sent.
    - Round trips (CPU lists, shell quoting, templates), the order the scheduler
      and the allocator promise (best host, least address), termination of the
      search and waiting loops, retry limits.  The overlays that the hosts of a VPC
      compute independently agree.
    - Behaviour that is stated as it is although it looks unintended: a VM that
      stays pending, a cleanup that removes a resident VM, a monitor that breaks
      the commit guard, an allocation loop that never ends, races between two
      starts, two LUN registrations, the pool manager and a claim, a firewall whose
      jump comes before the isolation of its network, a VM that no start on its node
      can revive after a forced stop.

    ** Parameters, fuel, limits

    Code of other libraries is a parameter: the text of identifiers ([UuidText]),
    the collation of the database ([Collation]), the JSON form of a placement
    policy ([PolicySerde]), the text of network addresses ([PgInet]), the SSH
    library, time stamps and error texts, the kernel and [iptables] ([Iptables]:
    a command that succeeds has its documented effect, one that fails none), the
    binary form of a configuration ([ConfigCodec]), the storage backend of a node
    ([StorageBackend]), rtnetlink ([Rtnetlink]), what [ip] and [bridge] print ([IpTool]),
    image references ([OciReference]), JSON texts ([JsonText]).  The classes have instances the witnesses use.

    Loops over lists are structural.  [pick_failover_host] and the search for an
    evacuation target run on one unit of fuel more than there are hosts and are
    shown never to run out; the waiting loops of a deployment take the sixty-one
    iterations their deadline allows, while its SSH channel is an infinite sequence of
    events (a message, the end, or nothing) read with any fuel: the deployment is shown to
    end when the channel is closed and never to end when it is not; a sandbox watcher runs over the list of its
    wake-ups; the loop that empties a parent chain takes one step per listed line
    and is shown to end within them; the copy of a device takes one step per byte of it
    at most; the address allocation loop takes any fuel, and is shown to need one
    iteration, or to spend any amount.

    Statements of one computation run without interference from others, except
    where a theorem interleaves two computations; concurrent tasks of one cycle
    run one after the other.  A refused statement has no effect and lets the code go on
    in its transaction; a refused COMMIT publishes nothing.  The clock counts seconds; time
    stamps that no condition reads are not columns.  [pg_dump] and [pg_restore] are the copy
    of all tables that the flags in use document, all or nothing.  On an overlay device the
    removal of an address removes that address only, and routes are kept per device.

    ** Not modelled

    The audit log; console, metrics and exec, which forward
    to the node; routing and serialization.  The rest of the node agent, the command
    line client and the guest init are mostly I/O: the guest agent protocol,
    host information, consoles. *)

From stdpp Require Export base gmap strings list list_numbers sorting pretty.
From Stdlib Require Export ZArith Lia.

Declare Scope qarax_scope.
Delimit Scope qarax_scope with qarax.
#[global] Open Scope Z_scope.

(** ** Fallible computations

    Rust's [Result<A, E>], with stdpp's monad notation for the [?] operator. *)

Inductive result (E A : Type) : Type :=
| Ok (a : A)
| Err (e : E).
Arguments Ok {E A} a.
Arguments Err {E A} e.

#[global] Instance result_ret {E} : MRet (result E) := fun A a => Ok a.
#[global] Instance result_bind {E} : MBind (result E) := fun A B f r =>
  match r with Ok a => f a | Err e => Err e end.
#[global] Instance result_fmap {E} : FMap (result E) := fun A B f r =>
  match r with Ok a => Ok (f a) | Err e => Err e end.

Definition is_ok {E A} (r : result E A) : bool :=
  match r with Ok _ => true | Err _ => false end.

(** [Option::ok_or]. *)
Definition ok_or {E A} (e : E) (o : option A) : result E A :=
  match o with Some a => Ok a | None => Err e end.

(** [Result::map_err]. *)
Definition map_err {E F A} (f : E -> F) (r : result E A) : result F A :=
  match r with Ok a => Ok a | Err e => Err (f e) end.

(** [Option::or]. *)
Definition opt_or {A} (a b : option A) : option A :=
  match a with Some _ => a | None => b end.

(** Run a fallible check over a list, stopping at the first error: the shape of
    every [for x in xs { check(x)?; }] loop. *)
Fixpoint for_each {E A} (f : A -> result E unit) (l : list A) : result E unit :=
  match l with
  | [] => Ok tt
  | x :: l' => f x ≫= fun _ => for_each f l'
  end.

(** ** Machine integers *)

Definition in_range (lo hi n : Z) : bool := (lo <=? n) && (n <=? hi).
Definition i32_min : Z := -2147483648.
Definition i32_max : Z := 2147483647.
Definition i64_min : Z := -9223372036854775808.
Definition i64_max : Z := 9223372036854775807.
Definition u8_max : Z := 255.
Definition u16_max : Z := 65535.
Definition u32_max : Z := 4294967295.
Definition u64_max : Z := 18446744073709551615.

(** [as i32] from a wider integer: keep the low 32 bits, two's complement. *)
Definition as_i32 (n : Z) : Z :=
  let m := n mod 4294967296 in
  if m <=? i32_max then m else m - 4294967296.

(** [i64] arithmetic wraps around. *)
Definition as_i64 (n : Z) : Z :=
  let m := n mod 18446744073709551616 in
  if m <=? i64_max then m else m - 18446744073709551616.

(** [as u16] from a wider integer. *)
Definition as_u16 (n : Z) : Z := n mod 65536.

(** ** Identifiers

    [uuid::Uuid] is a 128-bit number.  Its textual form is code of the [uuid]
    crate: a class of formatters with the one law the program relies on, that
    parsing what was printed gives the identifier back. *)

Abbreviation Uuid := N.

Class UuidText := {
  uuid_to_string : Uuid -> string;
  uuid_parse_str : string -> option Uuid;
  uuid_parse_to_string : forall u, uuid_parse_str (uuid_to_string u) = Some u
}.

Lemma uuid_to_string_inj `{UuidText} u v :
  uuid_to_string u = uuid_to_string v -> u = v.
Proof.
  intros E. apply (f_equal uuid_parse_str) in E.
  rewrite !uuid_parse_to_string in E. by simplify_eq.
Qed.

(** A formatter that meets the law: the binary digits of the number, least
    significant first. *)
Fixpoint positive_bits (p : positive) : string :=
  match p with
  | xH => "1"
  | xO q => String (Ascii.Ascii false false false false true true false false) (positive_bits q)
  | xI q => String (Ascii.Ascii true false false false true true false false) (positive_bits q)
  end.
Fixpoint bits_positive (s : string) : option positive :=
  match s with
  | EmptyString => None
  | String (Ascii.Ascii b _ _ _ _ _ _ _) EmptyString => if b then Some xH else None
  | String (Ascii.Ascii b _ _ _ _ _ _ _) s' => (if b then xI else xO) <$> bits_positive s'
  end.

Lemma bits_positive_positive_bits p : bits_positive (positive_bits p) = Some p.
Proof.
  induction p as [q IH|q IH|]; [| |done]; simpl; rewrite IH; simpl; by destruct q.
Qed.

Definition binary_uuid_text : UuidText.
Proof.
  refine {| uuid_to_string u := match u with N0 => EmptyString | Npos p => positive_bits p end;
            uuid_parse_str s := match s with EmptyString => Some N0
                                | _ => Npos <$> bits_positive s end |}.
  intros [|p]; [done|]. pose proof (bits_positive_positive_bits p) as E.
  destruct (positive_bits p); [done|]. by rewrite E.
Defined.

(** ** JSON values

    [serde_json::Value].  Objects are maps from keys to values; numbers are
    restricted to integers, the only ones the modelled code stores. *)

#[warnings="-register-all"]
Inductive json : Type :=
| JNull
| JBool (b : bool)
| JNumber (n : Z)
| JString (s : string)
| JArray (l : list json)
| JObject (m : gmap string json).

(** [Value::get] with a string key. *)
Definition json_get (j : json) (k : string) : option json :=
  match j with JObject m => m !! k | _ => None end.
Definition json_as_bool (j : json) : option bool :=
  match j with JBool b => Some b | _ => None end.
Definition json_as_str (j : json) : option string :=
  match j with JString s => Some s | _ => None end.
(** [Value::as_i64]. *)
Definition json_as_i64 (j : json) : option Z :=
  match j with JNumber n => if in_range i64_min i64_max n then Some n else None | _ => None end.
Definition json_is_object (j : json) : bool :=
  match j with JObject _ => true | _ => false end.
Definition json_is_null (j : json) : bool :=
  match j with JNull => true | _ => false end.

(** ** Text order

    [ORDER BY] on a text column follows the collation of the database: a total
    order on strings the program does not choose. *)

Class Collation := {
  coll_le : relation string;
  coll_le_dec :: RelDecision coll_le;
  coll_le_trans :: Transitive coll_le;
  coll_le_total :: Total coll_le;
  coll_le_antisym :: AntiSymm (=) coll_le
}.

(** An order that meets the laws: strings compared by their binary encoding. *)
Definition encoding_collation : Collation.
Proof.
  refine {| coll_le := fun x y => (encode x <= encode y)%positive |}.
  - intros x y. apply _.
  - intros x y z Hxy Hyz. by etransitivity.
  - intros x y. apply Pos.le_total.
  - intros x y Hxy Hyx. apply (inj encode). by apply Pos.le_antisym.
Defined.

(** ** Automation *)

Create HintDb qarax.

(** Split every match, conditional and boolean connective the goal or the
    context is stuck on, using the equations found on the way. *)
Ltac crush_step :=
  first [ progress simplify_eq/=
        | case_match
        | match goal with
          | H : context [match ?x with _ => _ end] |- _ => destruct x eqn:?
          | H : (_ && _)%bool = true |- _ => apply andb_true_iff in H as [? ?]
          | H : (_ || _)%bool = false |- _ => apply orb_false_iff in H as [? ?]
          | H : (_ <=? _)%Z = true |- _ => apply Z.leb_le in H
          | H : (_ <=? _)%Z = false |- _ => apply Z.leb_gt in H
          | H : (_ <? _)%Z = true |- _ => apply Z.ltb_lt in H
          | H : (_ <? _)%Z = false |- _ => apply Z.ltb_ge in H
          | H : (_ =? _)%Z = true |- _ => apply Z.eqb_eq in H
          | H : (_ =? _)%Z = false |- _ => apply Z.eqb_neq in H
          | H : bool_decide _ = true |- _ => apply bool_decide_eq_true in H
          | H : bool_decide _ = false |- _ => apply bool_decide_eq_false in H
          | H : negb _ = true |- _ => apply negb_true_iff in H
          | H : negb _ = false |- _ => apply negb_false_iff in H
          end ].
Ltac crush := repeat crush_step; try done; try lia.

(** ** Shared lemmas *)

Lemma in_range_spec lo hi n : in_range lo hi n = true <-> lo <= n <= hi.
Proof. unfold in_range. rewrite andb_true_iff, !Z.leb_le. done. Qed.

Lemma result_bind_ok {E A B} (f : A -> result E B) (r : result E A) b :
  r ≫= f = Ok b <-> exists a, r = Ok a /\ f a = Ok b.
Proof. destruct r; simpl; split; [eauto | by intros (?&[= ->]&?) | done | by intros (?&?&?)]. Qed.

Lemma result_seq_ok {E A} (r : result E unit) (k : result E A) a :
  r ≫= (fun _ => k) = Ok a <-> r = Ok tt /\ k = Ok a.
Proof. destruct r as [[]|]; simpl; naive_solver. Qed.

Lemma for_each_ok {E A} (f : A -> result E unit) (l : list A) :
  for_each f l = Ok tt <-> Forall (fun x => f x = Ok tt) l.
Proof.
  induction l as [|x l IH]; simpl; [split; auto|].
  rewrite Forall_cons, result_bind_ok. setoid_rewrite IH.
  split; [intros ([]&?&?) | intros [? ?]; exists tt]; auto.
Qed.

Lemma ok_or_ok {E A} (e : E) (o : option A) a : ok_or e o = Ok a <-> o = Some a.
Proof. destruct o; simpl; split; congruence. Qed.

Lemma opt_or_is_Some {A} (a b : option A) :
  is_Some (opt_or a b) <-> is_Some a \/ is_Some b.
Proof. destruct a, b; simpl; split; intros; naive_solver. Qed.

Lemma opt_or_None {A} (a b : option A) : opt_or a b = None <-> a = None /\ b = None.
Proof. destruct a, b; simpl; naive_solver. Qed.

Lemma as_i32_id n : in_range i32_min i32_max n = true -> as_i32 n = n.
Proof.
  rewrite in_range_spec. unfold as_i32, i32_min, i32_max. intros [? ?].
  destruct (decide (0 <= n)).
  - rewrite Z.mod_small by lia. by destruct (Z.leb_spec n 2147483647); [|lia].
  - replace (n mod 4294967296) with (n + 4294967296).
    + destruct (Z.leb_spec (n + 4294967296) 2147483647); lia.
    + rewrite <- (Z.mod_unique n 4294967296 (-1) (n + 4294967296)); lia.
Qed.

Lemma as_i64_id n : i64_min <= n <= i64_max -> as_i64 n = n.
Proof.
  unfold as_i64, i64_min, i64_max. intros [? ?]. destruct (decide (0 <= n)).
  - rewrite Z.mod_small by lia. by destruct (Z.leb_spec n 9223372036854775807); [|lia].
  - replace (n mod 18446744073709551616) with (n + 18446744073709551616).
    + destruct (Z.leb_spec (n + 18446744073709551616) 9223372036854775807); lia.
    + rewrite <- (Z.mod_unique n 18446744073709551616 (-1) (n + 18446744073709551616)); lia.
Qed.

(** *** Lexicographic orders: [ORDER BY a, b] *)

Definition lex {A} (R S : relation A) : relation A := fun x y => R x y /\ (R y x -> S x y).

#[global] Instance lex_dec {A} (R S : relation A) `{!RelDecision R} `{!RelDecision S} :
  RelDecision (lex R S).
Proof.
  intros x y. unfold lex. destruct (decide (R x y)); [|right; tauto].
  destruct (decide (R y x)); [|left; tauto].
  destruct (decide (S x y)); [left; tauto|right; tauto].
Defined.

#[global] Instance lex_total {A} (R S : relation A) `{!RelDecision R} `{!Total R} `{!Total S} :
  Total (lex R S).
Proof.
  intros x y. unfold lex. destruct (total R x y), (total S x y), (decide (R x y)), (decide (R y x));
    tauto.
Qed.

#[global] Instance lex_trans {A} (R S : relation A) `{!Transitive R} `{!Transitive S} :
  Transitive (lex R S).
Proof.
  intros x y z [Rxy Sxy] [Ryz Syz]. split; [by transitivity y|]. intros Rzx.
  transitivity y; [apply Sxy; by transitivity z|apply Syz; by transitivity x].
Qed.

(** Sorting by a key. *)
Definition on_key {A B} (R : relation B) (f : A -> B) : relation A := fun x y => R (f x) (f y).
#[global] Instance on_key_dec {A B} (R : relation B) (f : A -> B) `{!RelDecision R} :
  RelDecision (on_key R f).
Proof. intros x y. unfold on_key. apply _. Defined.
#[global] Instance on_key_total {A B} (R : relation B) (f : A -> B) `{!Total R} : Total (on_key R f).
Proof. intros x y. apply (total R). Qed.
#[global] Instance on_key_trans {A B} (R : relation B) (f : A -> B) `{!Transitive R} :
  Transitive (on_key R f).
Proof. intros x y z. apply (transitivity (R := R)). Qed.

(** [ASC NULLS LAST]. *)
Definition nulls_last {A} (R : relation A) : relation (option A) := fun x y =>
  match x, y with Some a, Some b => R a b | _, None => True | None, Some _ => False end.
#[global] Instance nulls_last_dec {A} (R : relation A) `{!RelDecision R} : RelDecision (nulls_last R).
Proof. intros [x|] [y|]; simpl; apply _. Defined.
#[global] Instance nulls_last_total {A} (R : relation A) `{!Total R} : Total (nulls_last R).
Proof. intros [x|] [y|]; simpl; auto using total. Qed.
#[global] Instance nulls_last_trans {A} (R : relation A) `{!Transitive R} :
  Transitive (nulls_last R).
Proof. intros [x|] [y|] [z|]; simpl; try done. apply (transitivity (R := R)). Qed.

(** The first element of a sorted list is minimal. *)
Lemma head_merge_sort {A} (R : relation A) `{!RelDecision R} `{!Total R} `{!Transitive R} l x :
  head (merge_sort R l) = Some x -> x ∈ l /\ Forall (fun y => R x y) l.
Proof.
  intros Hhd. pose proof (StronglySorted_merge_sort R l) as Hsort.
  assert (merge_sort R l ≡ₚ l) as Hperm by apply merge_sort_Permutation.
  destruct (merge_sort R l) as [|y l']; [done|]. simplify_eq/=. split.
  - rewrite <- Hperm. set_solver.
  - rewrite <- Hperm. inversion Hsort; subst. constructor; [|done].
    by destruct (total R x x).
Qed.

Lemma head_merge_sort_None {A} (R : relation A) `{!RelDecision R} l :
  head (merge_sort R l) = None <-> l = [].
Proof.
  assert (merge_sort R l ≡ₚ l) as Hperm by apply merge_sort_Permutation. split.
  - destruct (merge_sort R l) as [|y l']; [|done]. intros _. by apply Permutation_nil.
  - by intros ->.
Qed.

Lemma NoDup_take {A} (n : nat) (l : list A) : NoDup l -> NoDup (take n l).
Proof. rewrite <- (take_drop n l) at 1. by intros (?&_&_)%NoDup_app. Qed.

Lemma alter_as_insert {K A} `{Countable K} (f : A -> A) (k : K) (m : gmap K A) (x : A) :
  m !! k = Some x -> alter f k m = <[k := f x]> m.
Proof.
  intros Hk. apply map_eq. intros i. destruct (decide (i = k)) as [->|].
  - by rewrite lookup_alter_eq, Hk, lookup_insert_eq.
  - by rewrite lookup_alter_ne, lookup_insert_ne by done.
Qed.

#[export] Hint Resolve as_i32_id : qarax.
#[export] Hint Rewrite @result_bind_ok @for_each_ok @ok_or_ok : qarax.

(** A set made of a list has at most as many elements. *)
Lemma size_list_to_set_le (l : list Uuid) :
  (size (list_to_set l : gset Uuid) <= length l)%nat.
Proof.
  induction l as [|x l IH]; [done|]. simpl. rewrite size_union_alt, size_singleton.
  pose proof (subseteq_size (list_to_set l ∖ {[x]}) (list_to_set l : gset Uuid) ltac:(set_solver)). lia.
Qed.

(** ** Filtered lists *)

Lemma filter_perm {A} (p : A -> bool) l1 l2 : l1 ≡ₚ l2 -> List.filter p l1 ≡ₚ List.filter p l2.
Proof.
  induction 1 as [|x l1 l2 _ IH|x y l|l1 l2 l3 _ IH1 _ IH2]; simpl; [done| | |by etransitivity].
  - destruct (p x); by rewrite IH.
  - destruct (p x), (p y); try done. apply Permutation_swap.
Qed.

#[global] Instance filter_proper {A} (p : A -> bool) :
  Proper ((≡ₚ) ==> (≡ₚ)) (List.filter p).
Proof. intros l1 l2. apply filter_perm. Qed.
