(* ===== verification/Text.v ===== *)
(** * Text: the string operations of Rust's standard library the program uses

    Strings are byte strings; the operations are given on ASCII text, which is
    what the parsers of this program accept.  [split], [split_once], [trim],
    [to_ascii_lowercase], integer [parse] and decimal formatting, with the
    lemmas that relate parsing and printing. *)

From S2P Require Import Prelude.
From Stdlib Require Import Ascii.
#[local] Open Scope Z_scope.

(** ** Whitespace and blank strings *)

(** [char::is_whitespace] on ASCII: tab, line feed, vertical tab, form feed,
    carriage return and space. *)
Definition is_whitespace (c : Ascii.ascii) : bool :=
  let n := Ascii.N_of_ascii c in
  ((9 <=? n)%N && (n <=? 13)%N) || (n =? 32)%N.

Fixpoint trim_start (s : string) : string :=
  match s with
  | EmptyString => EmptyString
  | String c s' => if is_whitespace c then trim_start s' else s
  end.

Fixpoint trim_end (s : string) : string :=
  match s with
  | EmptyString => EmptyString
  | String c s' =>
      match trim_end s' with
      | EmptyString => if is_whitespace c then EmptyString else String c EmptyString
      | t => String c t
      end
  end.

(** [str::trim]. *)
Definition trim (s : string) : string := trim_end (trim_start s).

(** [s.trim().is_empty()]. *)
Definition is_blank (s : string) : bool :=
  match trim s with EmptyString => true | _ => false end.

(** ** Splitting *)

(** [str::split] with a one-character pattern. *)
Fixpoint str_split (sep : Ascii.ascii) (s : string) : list string :=
  match s with
  | EmptyString => [EmptyString]
  | String c s' =>
      if Ascii.eqb c sep then EmptyString :: str_split sep s'
      else match str_split sep s' with
           | [] => [String c EmptyString]
           | p :: ps => String c p :: ps
           end
  end.

(** [str::split_once] with a one-character pattern: the first occurrence. *)
Fixpoint split_once (sep : Ascii.ascii) (s : string) : option (string * string) :=
  match s with
  | EmptyString => None
  | String c s' =>
      if Ascii.eqb c sep then Some (EmptyString, s')
      else match split_once sep s' with
           | Some (a, b) => Some (String c a, b)
           | None => None
           end
  end.

(** [<[&str]>::join]. *)
Fixpoint join (sep : string) (l : list string) : string :=
  match l with
  | [] => EmptyString
  | [s] => s
  | s :: l' => s +:+ sep +:+ join sep l'
  end.

(** [str::strip_prefix] and [str::strip_suffix]. *)
Fixpoint strip_prefix (p s : string) : option string :=
  match p, s with
  | EmptyString, _ => Some s
  | String a p', String b s' => if Ascii.eqb a b then strip_prefix p' s' else None
  | String _ _, EmptyString => None
  end.

Fixpoint strip_suffix (p s : string) : option string :=
  if String.eqb p s then Some EmptyString
  else match s with
       | EmptyString => None
       | String c s' => String c <$> strip_suffix p s'
       end.

(** [str::split_whitespace]: the maximal runs of other characters. *)
Fixpoint split_at_whitespace (s : string) : list string :=
  match s with
  | EmptyString => [EmptyString]
  | String c s' =>
      if is_whitespace c then EmptyString :: split_at_whitespace s'
      else match split_at_whitespace s' with
           | [] => [String c EmptyString]
           | p :: ps => String c p :: ps
           end
  end.
Definition split_whitespace (s : string) : list string :=
  List.filter (fun p => negb (String.eqb p "")) (split_at_whitespace s).

(** [str::lines]: the pieces a line feed ends, without a carriage return before
    it, and a last piece that is not empty. *)
Definition newline : Ascii.ascii := Ascii.Ascii false true false true false false false false.
Definition carriage_return : string :=
  String (Ascii.Ascii true false true true false false false false) EmptyString.
Fixpoint ended_lines (parts : list string) : list string :=
  match parts with
  | [] => []
  | [s] => if String.eqb s "" then [] else [s]
  | s :: parts' => default s (strip_suffix carriage_return s) :: ended_lines parts'
  end.
Definition str_lines (s : string) : list string := ended_lines (str_split newline s).

(** [str::starts_with]. *)
Definition starts_with (p s : string) : bool :=
  match strip_prefix p s with Some _ => true | None => false end.

(** ** Case *)

Definition lower_char (c : Ascii.ascii) : Ascii.ascii :=
  let n := Ascii.N_of_ascii c in
  if ((65 <=? n)%N && (n <=? 90)%N) then Ascii.ascii_of_N (n + 32) else c.

Definition upper_char (c : Ascii.ascii) : Ascii.ascii :=
  let n := Ascii.N_of_ascii c in
  if ((97 <=? n)%N && (n <=? 122)%N) then Ascii.ascii_of_N (n - 32) else c.

(** [str::to_ascii_lowercase]. *)
Fixpoint to_ascii_lowercase (s : string) : string :=
  match s with
  | EmptyString => EmptyString
  | String c s' => String (lower_char c) (to_ascii_lowercase s')
  end.

(** ** Integers *)

Definition digit_val (c : Ascii.ascii) : option Z :=
  let n := Z.of_N (Ascii.N_of_ascii c) in
  if in_range 48 57 n then Some (n - 48) else None.

Fixpoint parse_digits (acc : Z) (s : string) : option Z :=
  match s with
  | EmptyString => Some acc
  | String c s' =>
      match digit_val c with
      | Some d => parse_digits (acc * 10 + d) s'
      | None => None
      end
  end.

(** The digits of an integer literal: at least one. *)
Definition parse_magnitude (s : string) : option Z :=
  match s with EmptyString => None | _ => parse_digits 0 s end.

Definition checked (lo hi : Z) (o : option Z) : option Z :=
  match o with
  | Some n => if in_range lo hi n then Some n else None
  | None => None
  end.

(** [str::parse] at an unsigned type with maximum [hi]: an optional [+]. *)
Definition parse_unsigned (hi : Z) (s : string) : option Z :=
  checked 0 hi
    (match s with
     | String "+"%char s' => parse_magnitude s'
     | _ => parse_magnitude s
     end).

(** [str::parse] at a signed type: an optional sign. *)
Definition parse_signed (lo hi : Z) (s : string) : option Z :=
  checked lo hi
    (match s with
     | String "+"%char s' => parse_magnitude s'
     | String "-"%char s' => Z.opp <$> parse_magnitude s'
     | _ => parse_magnitude s
     end).

Definition parse_i32 : string -> option Z := parse_signed i32_min i32_max.
Definition parse_u8 : string -> option Z := parse_unsigned u8_max.
Definition parse_u16 : string -> option Z := parse_unsigned u16_max.
Definition parse_u32 : string -> option Z := parse_unsigned u32_max.
Definition parse_u64 : string -> option Z := parse_unsigned u64_max.

(** The number of characters of a UTF-8 string: its bytes less the
    continuation bytes. *)
Fixpoint char_count (s : string) : Z :=
  match s with
  | EmptyString => 0
  | String c s' =>
      let n := Ascii.nat_of_ascii c in
      (if ((128 <=? n) && (n <? 192))%nat then 0 else 1) + char_count s'
  end.

(** [format!("{}", n)] for a non-negative integer. *)
Definition fmt_nat (n : Z) : string := pretty (Z.to_N n).

(** ** Whitespace lemmas *)

Lemma trim_end_app_nonws c s :
  is_whitespace c = false -> exists t, trim_end (String c s) = String c t.
Proof. simpl. intros ->. destruct (trim_end s); eauto. Qed.

Lemma trim_start_spec s :
  trim_start s = EmptyString \/
  exists c t, trim_start s = String c t /\ is_whitespace c = false.
Proof.
  induction s as [|c s IH]; simpl; [by left|].
  destruct (is_whitespace c) eqn:E; [done|right; eauto].
Qed.

(** A string is blank exactly when every character of it is white space. *)
Lemma is_blank_spec s :
  is_blank s = true <-> Forall (fun c => is_whitespace c = true) (String.list_ascii_of_string s).
Proof.
  unfold is_blank, trim. induction s as [|c s IH]; simpl; [by split|].
  rewrite Forall_cons. destruct (is_whitespace c) eqn:E.
  - rewrite IH. naive_solver.
  - destruct (trim_end_app_nonws c s E) as [t ->]. naive_solver.
Qed.

Lemma trim_end_idem s : trim_end (trim_end s) = trim_end s.
Proof.
  induction s as [|c s IH]; simpl; [done|].
  destruct (trim_end s) as [|c' t] eqn:E.
  - destruct (is_whitespace c) eqn:Ew; simpl; [done|by rewrite Ew].
  - change (trim_end (String c (String c' t)))
      with (match trim_end (String c' t) with
            | EmptyString => if is_whitespace c then EmptyString else String c EmptyString
            | t => String c t end).
    by rewrite IH.
Qed.

(** Trimming twice is trimming once. *)
Lemma trim_idem s : trim (trim s) = trim s.
Proof.
  unfold trim. destruct (trim_start_spec s) as [->|(c&t&->&Hc)]; [done|].
  destruct (trim_end_app_nonws c t Hc) as [u Hu].
  rewrite Hu. simpl trim_start. rewrite Hc, <- Hu. apply trim_end_idem.
Qed.

(** ** Case lemmas *)

Lemma lower_char_idem c : lower_char (lower_char c) = lower_char c.
Proof. by destruct c as [[] [] [] [] [] [] [] []]. Qed.

Lemma is_whitespace_lower c : is_whitespace (lower_char c) = is_whitespace c.
Proof. by destruct c as [[] [] [] [] [] [] [] []]. Qed.

Lemma lower_idem s : to_ascii_lowercase (to_ascii_lowercase s) = to_ascii_lowercase s.
Proof. induction s as [|c s IH]; simpl; [done|]. by rewrite lower_char_idem, IH. Qed.

Lemma trim_start_lower s : trim_start (to_ascii_lowercase s) = to_ascii_lowercase (trim_start s).
Proof.
  induction s as [|c s IH]; simpl; [done|]. rewrite is_whitespace_lower.
  by destruct (is_whitespace c).
Qed.

Lemma trim_end_lower s : trim_end (to_ascii_lowercase s) = to_ascii_lowercase (trim_end s).
Proof.
  induction s as [|c s IH]; simpl; [done|]. rewrite IH, is_whitespace_lower.
  destruct (trim_end s); simpl; [by destruct (is_whitespace c)|done].
Qed.

Lemma trim_lower s : trim (to_ascii_lowercase s) = to_ascii_lowercase (trim s).
Proof. unfold trim. by rewrite trim_start_lower, trim_end_lower. Qed.

(** ** Splitting lemmas *)

Definition no_char (sep : Ascii.ascii) (s : string) : Prop :=
  Forall (fun c => c <> sep) (String.list_ascii_of_string s).

Lemma split_nonempty sep s : str_split sep s <> [].
Proof. destruct s; simpl; [done|]. by repeat case_match. Qed.

Lemma split_no_sep sep s : no_char sep s -> str_split sep s = [s].
Proof.
  unfold no_char. induction s as [|c s IH]; simpl; [done|].
  rewrite Forall_cons. intros [Hc Hs]. apply Ascii.eqb_neq in Hc as ->. by rewrite IH.
Qed.

Lemma split_app_sep sep s t :
  no_char sep s -> str_split sep (s +:+ String sep t) = s :: str_split sep t.
Proof.
  unfold no_char. induction s as [|c s IH]; simpl.
  - by rewrite Ascii.eqb_refl.
  - rewrite Forall_cons. intros [Hc Hs]. apply Ascii.eqb_neq in Hc as ->. by rewrite IH.
Qed.

Lemma split_join sep (l : list string) :
  l <> [] -> Forall (no_char sep) l -> str_split sep (join (String sep EmptyString) l) = l.
Proof.
  induction l as [|s l IH]; [done|]. rewrite Forall_cons. intros _ [Hs Hl].
  destruct l as [|s' l].
  - by apply split_no_sep.
  - change (str_split sep (s +:+ String sep (join (String sep EmptyString) (s' :: l)))
            = s :: s' :: l).
    rewrite split_app_sep by done. f_equal. by apply IH.
Qed.

Lemma split_once_none sep s : no_char sep s -> split_once sep s = None.
Proof.
  unfold no_char. induction s as [|c s IH]; simpl; [done|].
  rewrite Forall_cons. intros [Hc Hs]. apply Ascii.eqb_neq in Hc as ->. by rewrite IH.
Qed.

Lemma split_once_app sep s t :
  no_char sep s -> split_once sep (s +:+ String sep t) = Some (s, t).
Proof.
  unfold no_char. induction s as [|c s IH]; simpl.
  - by rewrite Ascii.eqb_refl.
  - rewrite Forall_cons. intros [Hc Hs]. apply Ascii.eqb_neq in Hc as ->. by rewrite IH.
Qed.

Lemma list_ascii_app s t :
  String.list_ascii_of_string (s +:+ t)
  = String.list_ascii_of_string s ++ String.list_ascii_of_string t.
Proof. induction s as [|c s IH]; simpl; [done|by rewrite IH]. Qed.

Lemma no_char_app sep s t : no_char sep (s +:+ t) <-> no_char sep s /\ no_char sep t.
Proof. unfold no_char. by rewrite list_ascii_app, Forall_app. Qed.

(** ** Decimal lemmas *)

Definition is_digit (c : Ascii.ascii) : Prop := is_Some (digit_val c).

Definition all_digits (s : string) : Prop :=
  Forall is_digit (String.list_ascii_of_string s).

Lemma digit_val_pretty (x : N) :
  (x < 10)%N -> digit_val (pretty_N_char x) = Some (Z.of_N x).
Proof.
  intros H. assert (x = 0 \/ x = 1 \/ x = 2 \/ x = 3 \/ x = 4 \/ x = 5 \/ x = 6
    \/ x = 7 \/ x = 8 \/ x = 9)%N as D by lia.
  repeat destruct D as [->|D]; try subst; reflexivity.
Qed.

Lemma pretty_N_go_digits x s : all_digits s -> all_digits (pretty_N_go x s).
Proof.
  revert s. induction (N.lt_wf_0 x) as [x _ IH]. intros s Hs.
  destruct (decide (0 < x)%N).
  - rewrite pretty_N_go_step by done. apply IH.
    + by apply N.div_lt.
    + unfold all_digits in *. simpl. rewrite Forall_cons. split; [|done].
      exists (Z.of_N (x mod 10)). apply digit_val_pretty. by apply N.mod_lt.
  - by replace x with 0%N by lia.
Qed.

Lemma parse_digits_pretty_go x s :
  parse_digits 0 (pretty_N_go x s) = parse_digits (Z.of_N x) s.
Proof.
  revert s. induction (N.lt_wf_0 x) as [x _ IH]. intros s.
  destruct (decide (0 < x)%N).
  - rewrite pretty_N_go_step by done. rewrite IH by (by apply N.div_lt). simpl.
    rewrite digit_val_pretty by (by apply N.mod_lt). f_equal.
    rewrite N2Z.inj_div, N2Z.inj_mod. pose proof (Z.div_mod (Z.of_N x) 10). lia.
  - by replace x with 0%N by lia.
Qed.

Lemma pretty_N_go_nonempty x s : s <> EmptyString -> pretty_N_go x s <> EmptyString.
Proof.
  revert s. induction (N.lt_wf_0 x) as [x _ IH]. intros s Hs.
  destruct (decide (0 < x)%N).
  - rewrite pretty_N_go_step by done. apply IH; [by apply N.div_lt|done].
  - by replace x with 0%N by lia.
Qed.

Lemma fmt_nat_unfold n :
  fmt_nat n = if decide (0 < n) then pretty_N_go (Z.to_N n) EmptyString else "0"%string.
Proof.
  unfold fmt_nat, pretty, pretty_N. destruct (decide (0 < n)).
  - by rewrite decide_False by lia.
  - by rewrite decide_True by lia.
Qed.

Lemma fmt_nat_all_digits n : all_digits (fmt_nat n).
Proof.
  rewrite fmt_nat_unfold. destruct (decide (0 < n)).
  - apply pretty_N_go_digits. unfold all_digits. by constructor.
  - unfold all_digits. simpl. repeat constructor. by eexists.
Qed.

Lemma parse_magnitude_fmt_nat n : 0 <= n -> parse_magnitude (fmt_nat n) = Some n.
Proof.
  intros Hn. rewrite fmt_nat_unfold. destruct (decide (0 < n)) as [Hp|Hp].
  - unfold parse_magnitude.
    assert (pretty_N_go (Z.to_N n) EmptyString <> EmptyString) as Hne.
    { rewrite pretty_N_go_step by lia. by apply pretty_N_go_nonempty. }
    case_match; [done|]. rewrite <- H, parse_digits_pretty_go. simpl. f_equal. lia.
  - by replace n with 0 by lia.
Qed.

Lemma fmt_nat_head n c s : fmt_nat n = String c s -> is_digit c.
Proof.
  intros E. pose proof (fmt_nat_all_digits n) as D. unfold all_digits in D.
  rewrite E in D. simpl in D. by apply Forall_cons in D as [? ?].
Qed.

(** Printing a number and parsing it back, at every width that holds it. *)
Lemma parse_unsigned_fmt_nat hi n :
  0 <= n <= hi -> parse_unsigned hi (fmt_nat n) = Some n.
Proof.
  intros H. unfold parse_unsigned. destruct (fmt_nat n) as [|c s] eqn:E.
  - pose proof (parse_magnitude_fmt_nat n) as P. rewrite E in P. simpl in P. by discriminate P; lia.
  - assert (c <> "+"%char) as Hc.
    { intros ->. apply fmt_nat_head in E as [? D]. vm_compute in D. done. }
    replace (match c with "+"%char => parse_magnitude s | _ => parse_magnitude (String c s) end)
      with (parse_magnitude (String c s)).
    + rewrite <- E, parse_magnitude_fmt_nat by lia. simpl.
      by replace (in_range 0 hi n) with true by (symmetry; apply in_range_spec; lia).
    + destruct c as [[] [] [] [] [] [] [] []]; done.
Qed.

Lemma parse_i32_fmt_nat n : 0 <= n <= i32_max -> parse_i32 (fmt_nat n) = Some n.
Proof.
  intros H. unfold parse_i32, parse_signed. destruct (fmt_nat n) as [|c s] eqn:E.
  - pose proof (parse_magnitude_fmt_nat n) as P. rewrite E in P. by discriminate P; lia.
  - apply fmt_nat_head in E as Hd.
    replace (match c with "+"%char => parse_magnitude s | "-"%char => Z.opp <$> parse_magnitude s
             | _ => parse_magnitude (String c s) end)
      with (parse_magnitude (String c s)).
    + rewrite <- E, parse_magnitude_fmt_nat by lia. simpl.
      replace (in_range i32_min i32_max n) with true; [done|].
      symmetry; apply in_range_spec. unfold i32_min. lia.
    + destruct Hd as [d Hd].
      destruct c as [[] [] [] [] [] [] [] []]; try done; vm_compute in Hd; done.
Qed.

Lemma all_digits_no_char sep s : digit_val sep = None -> all_digits s -> no_char sep s.
Proof.
  intros Hn. unfold all_digits, no_char. intros H.
  eapply Forall_impl; [exact H|]. intros c [d Hd] ->. congruence.
Qed.

Lemma fmt_nat_no_char sep n : digit_val sep = None -> no_char sep (fmt_nat n).
Proof. intros H. apply all_digits_no_char; [done|apply fmt_nat_all_digits]. Qed.

#[export] Hint Resolve fmt_nat_no_char fmt_nat_all_digits : qarax.

(** ** Ordered sets

    [BTreeSet<String>] and [BTreeSet<(String, String)>]: the elements without
    repetition, in order.  Rust orders strings by their bytes. *)

Definition text_le (x y : string) : Prop := String.leb x y = true.
#[global] Instance text_le_dec : RelDecision text_le.
Proof. intros x y. unfold text_le. apply _. Defined.

Lemma text_compare_trans x y z c :
  String.compare x y = c -> String.compare y z = c -> String.compare x z = c.
Proof.
  revert y z. induction x as [|a x IH]; intros [|b y] [|d z]; simpl; try congruence.
  unfold Ascii.compare.
  destruct (N.compare_spec (N_of_ascii a) (N_of_ascii b)) as [E1|L1|G1],
    (N.compare_spec (N_of_ascii b) (N_of_ascii d)) as [E2|L2|G2]; intros H1 H2; subst;
    try discriminate;
    (destruct (N.compare_spec (N_of_ascii a) (N_of_ascii d)) as [E3|L3|G3]; try done; try lia).
  by eapply IH.
Qed.

Lemma text_le_spec x y : text_le x y <-> String.compare x y <> Gt.
Proof. unfold text_le, String.leb. by destruct (String.compare x y). Qed.

#[global] Instance text_le_trans : Transitive text_le.
Proof.
  intros x y z. rewrite !text_le_spec. intros Hxy Hyz.
  destruct (String.compare x y) eqn:E1; [|clear Hxy|done].
  - by apply String.compare_eq_iff in E1 as ->.
  - destruct (String.compare y z) eqn:E2; [|clear Hyz|done].
    + apply String.compare_eq_iff in E2 as <-. by rewrite E1.
    + by rewrite (text_compare_trans x y z Lt).
Qed.
#[global] Instance text_le_total : Total text_le.
Proof. intros x y. unfold text_le. apply String.leb_total. Qed.
#[global] Instance text_le_antisym : AntiSymm (=) text_le.
Proof. intros x y. unfold text_le. apply String.leb_antisym. Qed.

Definition pair_le : relation (string * string) := lex (on_key text_le fst) (on_key text_le snd).
#[global] Instance pair_le_dec : RelDecision pair_le.
Proof. unfold pair_le. apply _. Defined.

Definition btree_set {A} (R : relation A) `{!RelDecision R} `{!EqDecision A} (l : list A) : list A :=
  merge_sort R (remove_dups l).

Lemma elem_of_btree_set {A} (R : relation A) `{!RelDecision R} `{!EqDecision A} (l : list A) x :
  x ∈ btree_set R l <-> x ∈ l.
Proof. unfold btree_set. rewrite merge_sort_Permutation. apply elem_of_remove_dups. Qed.

(** A set does not depend on the order or the multiplicity of the insertions. *)
Lemma btree_set_ext {A} (R : relation A) `{!RelDecision R} `{!EqDecision A}
    `{!Total R} `{!Transitive R} `{!AntiSymm (=) R} (l1 l2 : list A) :
  (forall x, x ∈ l1 <-> x ∈ l2) -> btree_set R l1 = btree_set R l2.
Proof.
  intros Heq. apply (StronglySorted_unique R);
    [apply (StronglySorted_merge_sort R)..|].
  unfold btree_set. rewrite !merge_sort_Permutation.
  apply NoDup_Permutation; [apply NoDup_remove_dups..|]. intros x. by rewrite !elem_of_remove_dups.
Qed.

Lemma string_length_app (s t : string) :
  String.length (s +:+ t) = (String.length s + String.length t)%nat.
Proof. induction s as [|a s IH]; simpl; [done|]. by rewrite IH. Qed.

Lemma append_inj_r (s t u : string) : s +:+ u = t +:+ u -> s = t.
Proof.
  revert t. induction s as [|a s IH]; intros [|b t] Heq; simpl in *; [done| | |].
  - exfalso. apply (f_equal String.length) in Heq. simpl in Heq. rewrite !string_length_app in Heq. simpl in Heq. lia.
  - exfalso. apply (f_equal String.length) in Heq. simpl in Heq. rewrite !string_length_app in Heq. simpl in Heq. lia.
  - injection Heq as -> Heq. by rewrite (IH t).
Qed.

(** ** Words *)

(** A word of a command line: not empty, no whitespace. *)
Definition is_word (s : string) : Prop :=
  s <> EmptyString /\ Forall (fun c => is_whitespace c = false) (String.list_ascii_of_string s).

Lemma split_at_whitespace_app w c s :
  Forall (fun c => is_whitespace c = false) (String.list_ascii_of_string w) ->
  is_whitespace c = true ->
  split_at_whitespace (w +:+ String c s) = w :: split_at_whitespace s.
Proof.
  induction w as [|d w IH]; intros Hw Hc; simpl; [by rewrite Hc|].
  inversion Hw as [|? ? Hd Hw']; subst. by rewrite Hd, IH.
Qed.

Lemma split_at_whitespace_word w :
  Forall (fun c => is_whitespace c = false) (String.list_ascii_of_string w) ->
  split_at_whitespace w = [w].
Proof.
  induction w as [|d w IH]; intros Hw; simpl; [done|].
  inversion Hw as [|? ? Hd Hw']; subst. by rewrite Hd, IH.
Qed.

Lemma split_whitespace_join l : Forall is_word l -> split_whitespace (join " " l) = l.
Proof.
  unfold split_whitespace. induction l as [|w [|v l] IH]; intros Hl; [done| |].
  - inversion Hl as [|? ? [Hne Hw] _]; subst. simpl. rewrite split_at_whitespace_word by done.
    simpl. by destruct (String.eqb_spec w "").
  - inversion Hl as [|? ? [Hne Hw] Hl']; subst. change (join " " (w :: v :: l)) with
      (w +:+ String " " (join " " (v :: l))).
    rewrite split_at_whitespace_app by done. cbn [List.filter].
    destruct (String.eqb_spec w ""); [done|]. cbn [negb]. by rewrite IH.
Qed.

Lemma strip_prefix_app p s : strip_prefix p (p +:+ s) = Some s.
Proof. induction p as [|c p IH]; simpl; [done|]. by rewrite Ascii.eqb_refl. Qed.

Lemma append_inj_l (p s t : string) : p +:+ s = p +:+ t -> s = t.
Proof. induction p as [|c p IH]; simpl; [done|]. intros [= E]. auto. Qed.

Lemma append_empty_r (s : string) : s +:+ "" = s.
Proof. induction s as [|c s IH]; [done|]. change (String c (s +:+ "") = String c s). by rewrite IH. Qed.
