(* ===== verification/Common.v ===== *)
(** * Common: the shared helpers of the [common] crate

    [cpu_list.rs] (cpulist strings such as [0-3,8]) and [architecture.rs]
    (architecture names).  The theorems show that an expanded cpulist is sorted
    and is exactly the set of CPUs the string denotes, and that normalising an
    architecture name is idempotent. *)

From S2P Require Import Prelude Text.
From Stdlib Require Import Ascii.
#[local] Open Scope Z_scope.

Module CpuList.

(** One comma-separated part of the list: a range, a number, or nothing. *)
Definition expand_part (part : string) : list Z :=
  let part := trim part in
  if String.eqb part EmptyString then []
  else match split_once "-"%char part with
       | Some (start, end_) =>
           match parse_i32 start, parse_i32 end_ with
           | Some s, Some e => seqZ s (e - s + 1)
           | _, _ => []
           end
       | None =>
           match parse_i32 part with
           | Some n => [n]
           | None => []
           end
       end.

Definition expand_cpu_list (cpu_list : string) : list Z :=
  merge_sort Z.le (concat (expand_part <$> str_split ","%char cpu_list)).

(** *** The cpulist syntax, as a printer of inclusive ranges *)

Definition render_range (r : Z * Z) : string :=
  if r.1 =? r.2 then fmt_nat r.1 else fmt_nat r.1 +:+ "-" +:+ fmt_nat r.2.

Definition render_cpu_list (rs : list (Z * Z)) : string :=
  join "," (render_range <$> rs).

Definition range_cpus (r : Z * Z) : list Z := seqZ r.1 (r.2 - r.1 + 1).

Definition valid_range (r : Z * Z) : Prop := 0 <= r.1 <= r.2 /\ r.2 <= i32_max.

(** *** Lemmas *)

Lemma digit_not_whitespace c : is_digit c -> is_whitespace c = false.
Proof.
  intros [d Hd]. destruct c as [[] [] [] [] [] [] [] []]; try done; vm_compute in Hd; done.
Qed.

Lemma trim_start_digits s : all_digits s -> trim_start s = s.
Proof.
  destruct s as [|c s]; [done|]. unfold all_digits. simpl. rewrite Forall_cons.
  intros [Hc _]. by rewrite digit_not_whitespace.
Qed.

Lemma trim_end_nonws s :
  Forall (fun c => is_whitespace c = false) (String.list_ascii_of_string s) -> trim_end s = s.
Proof.
  induction s as [|c s IH]; simpl; [done|]. rewrite Forall_cons. intros [Hc Hs].
  rewrite IH, Hc by done. by destruct s.
Qed.

Lemma trim_nonws s :
  Forall (fun c => is_whitespace c = false) (String.list_ascii_of_string s) -> trim s = s.
Proof.
  intros H. unfold trim. replace (trim_start s) with s; [by apply trim_end_nonws|].
  destruct s as [|c s]; [done|]. simpl in *. apply Forall_cons in H as [-> _]. done.
Qed.

Lemma fmt_nat_nonws n :
  Forall (fun c => is_whitespace c = false) (String.list_ascii_of_string (fmt_nat n)).
Proof.
  eapply Forall_impl; [apply fmt_nat_all_digits|]. apply digit_not_whitespace.
Qed.

Lemma fmt_nat_ne_empty n : fmt_nat n <> EmptyString.
Proof.
  rewrite fmt_nat_unfold. destruct (decide (0 < n)); [|done].
  rewrite pretty_N_go_step by lia. by apply pretty_N_go_nonempty.
Qed.

Lemma render_range_nonws r :
  Forall (fun c => is_whitespace c = false) (String.list_ascii_of_string (render_range r)).
Proof.
  unfold render_range. destruct (r.1 =? r.2); [apply fmt_nat_nonws|].
  rewrite !list_ascii_app, !Forall_app. repeat split; try apply fmt_nat_nonws.
  simpl. by repeat constructor.
Qed.

Lemma render_range_no_comma r : no_char ","%char (render_range r).
Proof.
  unfold render_range. destruct (r.1 =? r.2); [by apply fmt_nat_no_char|].
  rewrite !no_char_app. repeat split; try (by apply fmt_nat_no_char).
  unfold no_char. simpl. by repeat constructor.
Qed.

(** A printed range expands to exactly its CPUs. *)
Lemma expand_render_range r : valid_range r -> expand_part (render_range r) = range_cpus r.
Proof.
  intros [[H1 H2] H3]. unfold expand_part. rewrite trim_nonws by apply render_range_nonws.
  unfold render_range, range_cpus. destruct (Z.eqb_spec r.1 r.2) as [E|E].
  - destruct (String.eqb_spec (fmt_nat r.1) EmptyString) as [F|F].
    { by apply fmt_nat_ne_empty in F. }
    rewrite split_once_none by (by apply fmt_nat_no_char).
    rewrite parse_i32_fmt_nat by lia. by replace (r.2 - r.1 + 1) with 1 by lia.
  - destruct (String.eqb_spec (fmt_nat r.1 +:+ "-" +:+ fmt_nat r.2) EmptyString) as [F|F].
    { pose proof (fmt_nat_ne_empty r.1). by destruct (fmt_nat r.1). }
    change ("-" +:+ fmt_nat r.2) with (String "-"%char (fmt_nat r.2)).
    rewrite split_once_app by (by apply fmt_nat_no_char).
    by rewrite !parse_i32_fmt_nat by lia.
Qed.

Lemma expand_render_parts rs :
  Forall valid_range rs -> rs <> [] ->
  concat (expand_part <$> str_split ","%char (render_cpu_list rs)) = concat (range_cpus <$> rs).
Proof.
  intros H Hne. unfold render_cpu_list. rewrite split_join.
  - f_equal. clear Hne. induction H as [|r rs Hr _ IH]; [done|].
    rewrite !fmap_cons, expand_render_range by done. by f_equal.
  - by destruct rs.
  - apply Forall_fmap, Forall_true. intros r. apply render_range_no_comma.
Qed.

Lemma elem_of_range_cpus n r : n ∈ range_cpus r <-> r.1 <= n <= r.2.
Proof. unfold range_cpus. rewrite elem_of_seqZ. lia. Qed.

(** *** Properties *)

(** The expansion is sorted, whatever the input string. *)
Theorem expand_cpu_list_sorted s : StronglySorted Z.le (expand_cpu_list s).
Proof. apply StronglySorted_merge_sort; apply _. Qed.

(** The expansion holds exactly the CPUs of the parts, duplicates included. *)
Theorem expand_cpu_list_perm s :
  expand_cpu_list s ≡ₚ concat (expand_part <$> str_split ","%char s).
Proof. apply merge_sort_Permutation. Qed.

(** C: printing a list of ranges and expanding it gives the CPUs of the ranges. *)
Theorem expand_render_cpu_list rs n :
  Forall valid_range rs -> rs <> [] ->
  StronglySorted Z.le (expand_cpu_list (render_cpu_list rs)) /\
  (n ∈ expand_cpu_list (render_cpu_list rs) <-> exists r, r ∈ rs /\ r.1 <= n <= r.2).
Proof.
  intros H Hne. split; [apply expand_cpu_list_sorted|].
  rewrite expand_cpu_list_perm, expand_render_parts by done.
  rewrite list_elem_of_In, in_concat. setoid_rewrite <- list_elem_of_In.
  setoid_rewrite list_elem_of_fmap. split.
  - intros (l&(r&->&Hr)&Hn). exists r. by rewrite <- elem_of_range_cpus.
  - intros (r&Hr&Hn). exists (range_cpus r). rewrite elem_of_range_cpus. eauto.
Qed.

Lemma expand_render_cpu_list_witness :
  8 ∈ expand_cpu_list (render_cpu_list [(8, 8); (0, 3)]) /\
  expand_cpu_list "8,0-3" = [0; 1; 2; 3; 8].
Proof.
  split; [|by vm_compute].
  apply expand_render_cpu_list.
  - repeat constructor; simpl; unfold i32_max; lia.
  - done.
  - exists (8, 8). split; [set_solver | simpl; lia].
Defined.

End CpuList.

Module Architecture.

Definition normalize_architecture (value : string) : option string :=
  let trimmed := trim value in
  if String.eqb trimmed EmptyString then None
  else
    let lower := to_ascii_lowercase trimmed in
    Some (if String.eqb lower "amd64" then "x86_64"
          else if String.eqb lower "arm64" then "aarch64"
          else lower)%string.

(** [std::env::consts::ARCH] is a constant of the build. *)
Definition current_architecture (arch : string) : string :=
  default arch (normalize_architecture arch).

Lemma lower_empty s : to_ascii_lowercase s = EmptyString <-> s = EmptyString.
Proof. by destruct s. Qed.

(** Normalising is idempotent: a normalised name is a fixed point, so comparing
    the stored name of a host with the stored name of a VM is well defined. *)
Theorem normalize_architecture_idem a b :
  normalize_architecture a = Some b -> normalize_architecture b = Some b.
Proof.
  unfold normalize_architecture. destruct (String.eqb_spec (trim a) EmptyString) as [|Hne]; [done|].
  intros [= <-].
  destruct (String.eqb_spec (to_ascii_lowercase (trim a)) "amd64"); [done|].
  destruct (String.eqb_spec (to_ascii_lowercase (trim a)) "arm64"); [done|].
  rewrite trim_lower, trim_idem, lower_idem.
  destruct (String.eqb_spec (to_ascii_lowercase (trim a)) EmptyString) as [E|_].
  { by apply (proj1 (lower_empty _)) in E. }
  by rewrite !(proj2 (String.eqb_neq _ _)).
Qed.

Lemma normalize_architecture_idem_witness :
  normalize_architecture "x86_64" = Some "x86_64"%string.
Proof. apply (normalize_architecture_idem " AMD64 "). by vm_compute. Defined.

End Architecture.
