(* ===== verification/Errors.v ===== *)
(** * Errors: [qarax/src/errors.rs]

    The error type every handler returns and the conversion from database
    errors, with the message built for a violated unique constraint. *)

From S2P Require Import Prelude Text.
From Stdlib Require Import Ascii.
#[local] Open Scope Z_scope.

(** What the program observes of [sqlx::Error]: a missing row, an error
    reported by the server with its SQLSTATE and constraint, anything else
    (connection lost, timeout, decoding). *)
Inductive SqlxError : Type :=
| RowNotFound
| Database (code : option string) (constraint : option string)
| OtherSqlx.

#[global] Instance SqlxError_eq_dec : EqDecision SqlxError.
Proof. solve_decision. Defined.

Inductive Error : Type :=
| Sqlx (e : SqlxError)
| InvalidEntity (field code : string)
| UnprocessableEntity (msg : string)
| Conflict (msg : string)
| InternalServerError
| NotFound
| Unauthorized.

#[global] Instance Error_eq_dec : EqDecision Error.
Proof. solve_decision. Defined.

(** The [#[error(..)]] attributes: the text of an error. *)
Definition error_to_string (e : Error) : string :=
  match e with
  | Sqlx _ => "an internal database error occurred"
  | InvalidEntity _ _ => "validation error in request body"
  | UnprocessableEntity msg => msg
  | Conflict msg => msg
  | InternalServerError => "internal server error"
  | NotFound => "not found"
  | Unauthorized => "missing or invalid API token"
  end.

(** [s.strip_suffix('s').unwrap_or(s)] with its first letter in upper case. *)
Definition to_singular_title (s : string) : string :=
  match default s (strip_suffix "s" s) with
  | EmptyString => EmptyString
  | String c rest => String (upper_char c) rest
  end.

Definition unique_violation_message (constraint : option string) : string :=
  let fallback := "resource with this value already exists"%string in
  match constraint with
  | None => fallback
  | Some c =>
      match split_once "_"%char c with
      | None => fallback
      | Some (resource, rest) =>
          let second := match split_once "_"%char rest with
                        | Some (p, _) => p
                        | None => rest
                        end in
          let field := default second
            (strip_prefix (resource +:+ "_") c ≫= strip_suffix "_key") in
          to_singular_title resource +:+ " with this " +:+ field +:+ " already exists"
      end
  end.

(** [impl From<sqlx::Error> for Error]. *)
Definition from_sqlx (err : SqlxError) : Error :=
  match err with
  | RowNotFound => NotFound
  | Database code constraint =>
      if bool_decide (code = Some "23505"%string)
      then Conflict (unique_violation_message constraint)
      else if bool_decide (code = Some "23503"%string)
              && bool_decide (constraint = Some "vm_disks_upper_storage_object_id_fkey"%string)
      then Conflict "Storage object is still used as a persistent VM write layer"
      else if bool_decide (code = Some "23503"%string)
              && (bool_decide (constraint = Some "vm_disks_storage_object_id_fkey"%string)
                  || bool_decide (constraint = Some "storage_cleanup_pool_id_fkey"%string))
      then Conflict "Storage is still in use or has pending file cleanup"
      else if bool_decide (code = Some "23514"%string)
              && bool_decide (constraint = Some "storage_pool_capacity"%string)
      then UnprocessableEntity "Insufficient storage pool capacity"
      else if bool_decide (code = Some "23514"%string)
              && bool_decide (constraint = Some "storage_object_size_nonnegative"%string)
      then UnprocessableEntity "size_bytes must not be negative"
      else Sqlx err
  | OtherSqlx => Sqlx err
  end.

(** A database error is never reported as an internal error. *)
Lemma from_sqlx_not_internal e : from_sqlx e <> InternalServerError.
Proof. unfold from_sqlx. destruct e; repeat case_match; discriminate. Qed.
#[export] Hint Resolve from_sqlx_not_internal : qarax.

(** ** Lemmas *)

Lemma string_app_length s t :
  String.length (s +:+ t) = (String.length s + String.length t)%nat.
Proof. induction s as [|c s IH]; simpl; [done|by rewrite IH]. Qed.

Lemma strip_suffix_inv p s t : strip_suffix p s = Some t -> s = (t +:+ p)%string.
Proof.
  revert t. induction s as [|c s IH]; intros t; simpl.
  - destruct (String.eqb_spec p "") as [->|_]; [by intros [= <-]|done].
  - destruct (String.eqb_spec p (String c s)) as [->|_]; [by intros [= <-]|].
    destruct (strip_suffix p s) as [u|]; [|done]. intros [= <-]. apply (f_equal (String c)), (IH u eq_refl).
Qed.

Lemma strip_suffix_app p s : strip_suffix p (s +:+ p) = Some s.
Proof.
  induction s as [|c s IH]; simpl.
  - destruct p; simpl; by rewrite ?Ascii.eqb_refl, ?String.eqb_refl.
  - destruct (String.eqb_spec p (String c (s +:+ p))) as [E|_].
    + apply (f_equal String.length) in E. simpl in E. rewrite string_app_length in E. lia.
    + by rewrite IH.
Qed.

Lemma string_app_assoc (a b c : string) : (a +:+ b) +:+ c = a +:+ (b +:+ c).
Proof.
  induction a as [|x a IH]; [done|].
  change (String x ((a +:+ b) +:+ c) = String x (a +:+ (b +:+ c))). by rewrite IH.
Qed.

(** A violated unique constraint named [{table}_{column}_key] is reported as a
    conflict that names the table's singular and the column, whatever the
    column (which may itself contain underscores). *)
Theorem unique_violation_reported table column :
  no_char "_"%char table ->
  from_sqlx (Database (Some "23505"%string) (Some (table +:+ "_" +:+ column +:+ "_key")))
  = Conflict (to_singular_title table +:+ " with this " +:+ column +:+ " already exists").
Proof.
  intros H. change (from_sqlx _) with
    (Conflict (unique_violation_message (Some (table +:+ "_" +:+ column +:+ "_key")))).
  f_equal. unfold unique_violation_message.
  change ("_" +:+ column +:+ "_key") with (String "_"%char (column +:+ "_key")).
  rewrite split_once_app by done.
  change (String "_"%char (column +:+ "_key")) with ("_" +:+ (column +:+ "_key")).
  rewrite <- (string_app_assoc table "_" (column +:+ "_key")), strip_prefix_app.
  cbn [mbind option_bind]. by rewrite strip_suffix_app.
Qed.

Lemma unique_violation_reported_witness :
  from_sqlx (Database (Some "23505"%string) (Some "hosts_name_key"%string))
  = Conflict "Host with this name already exists".
Proof.
  apply (unique_violation_reported "hosts" "name"). unfold no_char. simpl. by repeat constructor.
Defined.
