(* ===== verification/Secrets.v ===== *)
(** * Secrets: external credential references ([qarax/src/secret_provider.rs])

    A host is registered with a reference to its SSH password, [env://NAME] or
    [file:///path], checked at registration and resolved at deployment.  The
    environment and the file system are parameters.  The theorems relate the
    two: an accepted reference is never refused for its syntax when it is
    resolved, and a resolved secret is never empty. *)

From S2P Require Import Prelude Text.
From Stdlib Require Import Ascii.
#[local] Open Scope Z_scope.

Definition ENV_PREFIX : string := "env://".
Definition FILE_PREFIX : string := "file://".

Inductive SecretProviderError : Type :=
| UnsupportedScheme | InvalidReference | EnvironmentVariableUnavailable
| FileUnavailable | EmptySecret.

#[global] Instance SecretProviderError_eq_dec : EqDecision SecretProviderError.
Proof. solve_decision. Defined.

(** [char::is_ascii_alphanumeric] and the underscore. *)
Definition is_variable_char (c : ascii) : bool :=
  let n := nat_of_ascii c in
  (n =? 95)%nat || ((48 <=? n) && (n <=? 57))%nat || ((65 <=? n) && (n <=? 90))%nat
  || ((97 <=? n) && (n <=? 122))%nat.

Definition is_variable_name (s : string) : bool :=
  negb (String.eqb s "") && forallb is_variable_char (String.list_ascii_of_string s).

Definition starts_with_slash (s : string) : bool :=
  match s with String c _ => Ascii.eqb c "/"%char | EmptyString => false end.

Section secrets.
Variables (env_var read_to_string : string -> option string).

Definition resolve (credential_ref : string) : result SecretProviderError string :=
  value ←
    (match strip_prefix ENV_PREFIX credential_ref with
     | Some variable =>
         if negb (is_variable_name variable) then Err InvalidReference
         else ok_or EnvironmentVariableUnavailable (env_var variable)
     | None =>
         match strip_prefix FILE_PREFIX credential_ref with
         | Some path =>
             if negb (starts_with_slash path) then Err InvalidReference
             else ok_or FileUnavailable (read_to_string path)
         | None => Err UnsupportedScheme
         end
     end);
  let value := default value
    (opt_or (strip_suffix (String "013" (String "010" EmptyString)) value)
            (strip_suffix (String "010" EmptyString) value)) in
  if String.eqb value "" then Err EmptySecret else Ok value.

(** [str::contains]. *)
Fixpoint contains (pattern s : string) : bool :=
  match strip_prefix pattern s with
  | Some _ => true
  | None => match s with String _ s' => contains pattern s' | EmptyString => false end
  end.

Definition validate_credential_ref (credential_ref : string) : result SecretProviderError unit :=
  match strip_prefix ENV_PREFIX credential_ref with
  | Some variable => if is_variable_name variable then Ok tt else Err InvalidReference
  | None =>
      if match strip_prefix FILE_PREFIX credential_ref with
         | Some path => starts_with_slash path && (1 <? String.length path)%nat
         | None => false
         end
      then Ok tt
      else if negb (contains "://" credential_ref) then Err UnsupportedScheme
      else Err InvalidReference
  end.

(** A reference accepted at registration is well formed for the resolver: only
    the environment, the file system or an empty secret can still fail it. *)
Theorem validated_ref_resolves credential_ref :
  validate_credential_ref credential_ref = Ok tt ->
  match resolve credential_ref with
  | Ok secret => secret <> EmptyString
  | Err e => e ∈ [EnvironmentVariableUnavailable; FileUnavailable; EmptySecret]
  end.
Proof.
  unfold validate_credential_ref, resolve. intros Hv.
  destruct (strip_prefix ENV_PREFIX credential_ref) as [variable|].
  - destruct (is_variable_name variable); [|done]. simpl.
    destruct (env_var variable) as [value|]; simpl; [|set_solver].
    destruct (String.eqb _ "") eqn:Hempty; [set_solver|]. by apply String.eqb_neq in Hempty.
  - destruct (strip_prefix FILE_PREFIX credential_ref) as [path|];
      [|by destruct (negb (contains _ _))].
    destruct (starts_with_slash path); [|by destruct (negb (contains _ _))]. simpl.
    destruct (read_to_string path) as [value|]; simpl; [|set_solver].
    destruct (String.eqb _ "") eqn:Hempty; [set_solver|]. by apply String.eqb_neq in Hempty.
Qed.

(** Conversely, whatever resolves was acceptable, the bare root [file:///]
    apart. *)
Lemma resolved_ref_valid credential_ref secret :
  resolve credential_ref = Ok secret ->
  validate_credential_ref credential_ref = Ok tt \/
  strip_prefix FILE_PREFIX credential_ref = Some "/"%string.
Proof.
  unfold validate_credential_ref, resolve. intros Hr.
  destruct (strip_prefix ENV_PREFIX credential_ref) as [variable|].
  - destruct (is_variable_name variable); [by left|done].
  - destruct (strip_prefix FILE_PREFIX credential_ref) as [path|]; [|done].
    destruct path as [|c path]; [done|]. cbn [starts_with_slash] in *.
    destruct (Ascii.eqb_spec c "/"%char) as [->|]; [|done].
    destruct path as [|c' path]; [by right|by left].
Qed.
End secrets.

(** A reference with an unknown scheme such as [vault://x] is refused by both
    functions, at registration as an invalid reference and by the resolver as an
    unsupported scheme. *)
Theorem unknown_scheme_error_differs :
  validate_credential_ref "vault://secret" = Err InvalidReference /\
  forall env files, resolve env files "vault://secret" = Err UnsupportedScheme.
Proof. split; reflexivity. Qed.

Lemma validated_ref_resolves_witness :
  match resolve (fun _ => Some "s3cret"%string) (fun _ => None) "env://HOST_PASSWORD" with
  | Ok secret => secret <> EmptyString
  | Err e => e ∈ [EnvironmentVariableUnavailable; FileUnavailable; EmptySecret]
  end.
Proof.
  apply (validated_ref_resolves (fun _ => Some "s3cret"%string) (fun _ => None)
    "env://HOST_PASSWORD"). reflexivity.
Defined.
