(* ===== verification/Tables.v ===== *)
(** * Tables: the data model of the control plane

    The row types of the PostgreSQL tables the modelled code reads and writes
    (the structs of [qarax/src/model/*.rs]) and the database as a record of
    finite maps from primary keys to rows.  Timestamps are integers, double
    precision columns are IEEE-754 data ([f64]). *)

From S2P Require Import Prelude Errors.
From Stdlib Require Export SpecFloat.
#[local] Open Scope Z_scope.

(** Double precision values; their arithmetic is in [Float64]. *)
Abbreviation f64 := spec_float.

(** ** hosts *)

Inductive HostStatus : Type :=
| HostUnknown | HostDown | HostInstalling | HostInstallationFailed
| HostInitializing | HostMaintenance | HostUp.

#[global] Instance HostStatus_eq_dec : EqDecision HostStatus.
Proof. solve_decision. Defined.

Record Host := {
  h_id : Uuid;
  h_name : string;
  h_address : string;
  h_port : Z;
  h_status : HostStatus;
  h_host_user : string;
  h_credential_ref : option string;
  h_cloud_hypervisor_version : option string;
  h_firecracker_version : option string;
  h_kernel_version : option string;
  h_node_version : option string;
  h_last_deployed_image : option string;
  h_reservation_class : option string;
  h_placement_labels : gmap string string;
  h_architecture : option string;
  h_total_cpus : option Z;
  h_total_memory_bytes : option Z;
  h_available_memory_bytes : option Z;
  h_load_average : option f64;
  h_disk_total_bytes : option Z;
  h_disk_available_bytes : option Z;
  h_resources_updated_at : option Z
}.

(** ** vms *)

Inductive Hypervisor : Type := CloudHv | Firecracker.
Inductive BootMode : Type := Kernel | Firmware.

Inductive VmStatus : Type :=
| Unknown | Pending | Created | Running | Paused | Shutdown | Migrating | Committing.

#[global] Instance Hypervisor_eq_dec : EqDecision Hypervisor.
Proof. solve_decision. Defined.
#[global] Instance BootMode_eq_dec : EqDecision BootMode.
Proof. solve_decision. Defined.
#[global] Instance VmStatus_eq_dec : EqDecision VmStatus.
Proof. solve_decision. Defined.

Record VmRow := {
  v_id : Uuid;
  v_name : string;
  v_tags : list string;
  v_host_id : option Uuid;
  v_status : VmStatus;
  v_hypervisor : Hypervisor;
  v_boot_source_id : option Uuid;
  v_boot_mode : BootMode;
  v_description : option string;
  v_boot_vcpus : Z;
  v_max_vcpus : Z;
  v_cpu_topology : option json;
  v_kvm_hyperv : bool;
  v_memory_size : Z;
  v_memory_hotplug_size : option Z;
  v_memory_mergeable : bool;
  v_memory_shared : bool;
  v_memory_hugepages : bool;
  v_memory_hugepage_size : option Z;
  v_memory_prefault : bool;
  v_memory_thp : bool;
  v_image_ref : option string;
  v_cloud_init_user_data : option string;
  v_cloud_init_meta_data : option string;
  v_cloud_init_network_config : option string;
  v_config : json
}.

(** ** vm_templates, instance_types *)

Record RateLimiterBucket := {
  tb_size : Z;
  tb_refill_time : Z;
  tb_one_time_burst : option Z
}.

Record RateLimiterConfig := {
  rl_bandwidth : option RateLimiterBucket;
  rl_ops : option RateLimiterBucket
}.

Inductive InterfaceType : Type := Macvtap | Tap | VhostUser.
Inductive VhostMode : Type := Client | Server.

(** A network interface of a create-VM request. *)
Record NewVmNetwork := {
  nn_id : string;
  nn_network_id : option Uuid;
  nn_mac : option string;
  nn_tap : option string;
  nn_ip : option string;
  nn_mask : option string;
  nn_mtu : option Z;
  nn_host_mac : option string;
  nn_interface_type : option InterfaceType;
  nn_vhost_user : option bool;
  nn_vhost_socket : option string;
  nn_vhost_mode : option VhostMode;
  nn_num_queues : option Z;
  nn_queue_size : option Z;
  nn_rate_limiter : option RateLimiterConfig;
  nn_offload_tso : option bool;
  nn_offload_ufo : option bool;
  nn_offload_csum : option bool;
  nn_pci_segment : option Z;
  nn_iommu : option bool
}.

Record VmTemplate := {
  tpl_id : Uuid;
  tpl_name : string;
  tpl_description : option string;
  tpl_hypervisor : option Hypervisor;
  tpl_boot_vcpus : option Z;
  tpl_max_vcpus : option Z;
  tpl_cpu_topology : option json;
  tpl_kvm_hyperv : option bool;
  tpl_memory_size : option Z;
  tpl_memory_hotplug_size : option Z;
  tpl_memory_mergeable : option bool;
  tpl_memory_shared : option bool;
  tpl_memory_hugepages : option bool;
  tpl_memory_hugepage_size : option Z;
  tpl_memory_prefault : option bool;
  tpl_memory_thp : option bool;
  tpl_boot_source_id : option Uuid;
  tpl_root_disk_object_id : option Uuid;
  tpl_boot_mode : option BootMode;
  tpl_image_ref : option string;
  tpl_cloud_init_user_data : option string;
  tpl_cloud_init_meta_data : option string;
  tpl_cloud_init_network_config : option string;
  tpl_network_id : option Uuid;
  tpl_networks : option (list NewVmNetwork);
  tpl_config : json
}.

Record InstanceType := {
  it_id : Uuid;
  it_name : string;
  it_description : option string;
  it_architecture : option string;
  it_boot_vcpus : Z;
  it_max_vcpus : Z;
  it_cpu_topology : option json;
  it_kvm_hyperv : option bool;
  it_memory_size : Z;
  it_memory_hotplug_size : option Z;
  it_memory_mergeable : option bool;
  it_memory_shared : option bool;
  it_memory_hugepages : option bool;
  it_memory_hugepage_size : option Z;
  it_memory_prefault : option bool;
  it_memory_thp : option bool;
  it_accelerator_config : json;
  it_numa_config : option json
}.

(** ** host_gpus *)

Record HostGpu := {
  g_id : Uuid;
  g_host_id : Uuid;
  g_pci_address : string;
  g_model : option string;
  g_vendor : option string;
  g_vram_bytes : option Z;
  g_iommu_group : Z;
  g_numa_node : Z;
  g_vm_id : option Uuid;
  g_discovered_at : option Z;
  g_updated_at : option Z
}.

(** ** jobs *)

Inductive JobType : Type :=
| ImagePull | SandboxClaim | VmStart | VmMigrate | VmFailover | HostEvacuate
| DiskCreate | VmCommit.
Inductive JobStatus : Type := JobPending | JobRunning | JobCompleted | JobFailed.

#[global] Instance JobType_eq_dec : EqDecision JobType.
Proof. solve_decision. Defined.
#[global] Instance JobStatus_eq_dec : EqDecision JobStatus.
Proof. solve_decision. Defined.

Record Job := {
  j_id : Uuid;
  j_job_type : JobType;
  j_status : JobStatus;
  j_description : option string;
  j_resource_id : option Uuid;
  j_resource_type : option string;
  j_progress : option Z;
  j_result : option json;
  j_error : option string;
  j_created_at : Z;
  j_updated_at : Z;
  j_started_at : option Z;
  j_completed_at : option Z
}.

(** ** storage_pools, storage_objects, vm_disks *)

Inductive StoragePoolType : Type := Local | Nfs | OverlayBd | Block.
Inductive StoragePoolStatus : Type := Active | Inactive | PoolError.

#[global] Instance StoragePoolType_eq_dec : EqDecision StoragePoolType.
Proof. solve_decision. Defined.
#[global] Instance StoragePoolStatus_eq_dec : EqDecision StoragePoolStatus.
Proof. solve_decision. Defined.

Record StoragePool := {
  sp_id : Uuid;
  sp_name : string;
  sp_pool_type : StoragePoolType;
  sp_status : StoragePoolStatus;
  sp_config : json;
  sp_capacity_bytes : option Z;
  sp_allocated_bytes : option Z
}.

Inductive StorageObjectType : Type :=
| Disk | KernelImage | Initrd | Iso | Snapshot | DatabaseBackup | OciImage | OverlaybdUpper.

#[global] Instance StorageObjectType_eq_dec : EqDecision StorageObjectType.
Proof. solve_decision. Defined.

(** [so_managed_host_ids] is a column only the triggers read: the hosts that hold
    the files of an object the program provisioned itself. *)
Record StorageObject := {
  so_id : Uuid;
  so_name : string;
  so_storage_pool_id : Uuid;
  so_object_type : StorageObjectType;
  so_size_bytes : Z;
  so_config : json;
  so_parent_id : option Uuid;
  so_managed_host_ids : option (list Uuid)
}.

(** ** storage_cleanup: files of deleted objects that are still to be removed *)

Record StorageCleanup := {
  sc_object_id : Uuid;
  sc_pool_id : Uuid;
  sc_upper_layer : bool;
  sc_size_bytes : Z;
  sc_host_ids : list Uuid;
  sc_attempts : Z;
  sc_last_error : option string;
  sc_next_attempt_at : Z
}.

(** ** transfers *)

Inductive TransferType : Type := Download | LocalCopy.
Inductive TransferStatus : Type := TrPending | TrRunning | TrCompleted | TrFailed.

#[global] Instance TransferStatus_eq_dec : EqDecision TransferStatus.
Proof. solve_decision. Defined.

Record Transfer := {
  tr_id : Uuid;
  tr_name : string;
  tr_transfer_type : TransferType;
  tr_status : TransferStatus;
  tr_source : string;
  tr_storage_pool_id : Uuid;
  tr_object_type : StorageObjectType;
  tr_storage_object_id : option Uuid;
  tr_total_bytes : option Z;
  tr_transferred_bytes : Z;
  tr_error_message : option string;
  tr_created_at : option Z;
  tr_updated_at : option Z;
  tr_started_at : option Z;
  tr_completed_at : option Z
}.

(** ** boot_sources *)

Record BootSource := {
  bs_id : Uuid;
  bs_name : string;
  bs_description : option string;
  bs_kernel_image_id : Uuid;
  bs_kernel_params : option string;
  bs_initrd_image_id : option Uuid
}.

Record VmDisk := {
  vd_id : Uuid;
  vd_vm_id : Uuid;
  vd_storage_object_id : option Uuid;
  vd_logical_name : string;
  vd_device_path : string;
  vd_boot_order : option Z;
  vd_read_only : bool;
  vd_direct : bool;
  vd_vhost_user : bool;
  vd_vhost_socket : option string;
  vd_num_queues : Z;
  vd_queue_size : Z;
  vd_rate_limiter : option json;
  vd_rate_limit_group : option string;
  vd_pci_segment : Z;
  vd_serial_number : option string;
  vd_config : json;
  vd_upper_storage_object_id : option Uuid
}.

(** ** networks, ip_allocations, network_interfaces *)

Inductive NetworkStatus : Type := NetActive | NetInactive.

Record Network := {
  net_id : Uuid;
  net_name : string;
  net_subnet : string;
  net_gateway : option string;
  net_dns : option string;
  net_vpc_name : option string;
  net_network_type : option string;
  net_status : NetworkStatus
}.

(** The [ip_address] column is an [inet] value; the allocator only stores IPv4
    host addresses, kept here as the 32-bit address. *)
Record IpAllocation := {
  ipa_id : Uuid;
  ipa_network_id : Uuid;
  ipa_address : Z;
  ipa_vm_id : option Uuid;
  ipa_allocated_at : Z
}.

Record NetworkInterface := {
  ni_id : Uuid;
  ni_vm_id : Uuid;
  ni_network_id : option Uuid;
  ni_device_id : string;
  ni_tap_name : option string;
  ni_mac_address : option string;
  ni_host_mac : option string;
  ni_ip_address : option string;
  ni_mtu : Z;
  ni_interface_type : InterfaceType;
  ni_vhost_user : bool;
  ni_vhost_socket : option string;
  ni_vhost_mode : option string;
  ni_num_queues : Z;
  ni_queue_size : Z;
  ni_rate_limiter : option json;
  ni_offload_tso : bool;
  ni_offload_ufo : bool;
  ni_offload_csum : bool;
  ni_pci_segment : Z;
  ni_iommu : bool
}.

(** ** security_groups, security_group_rules *)

Record SecurityGroup := {
  sg_id : Uuid;
  sg_name : string;
  sg_description : option string
}.

Inductive SecurityGroupDirection : Type := Ingress | Egress.
Inductive SecurityGroupProtocol : Type := ProtoAny | ProtoTcp | ProtoUdp | ProtoIcmp.

#[global] Instance SecurityGroupDirection_eq_dec : EqDecision SecurityGroupDirection.
Proof. solve_decision. Defined.
#[global] Instance SecurityGroupProtocol_eq_dec : EqDecision SecurityGroupProtocol.
Proof. solve_decision. Defined.

Record SecurityGroupRule := {
  sgr_id : Uuid;
  sgr_security_group_id : Uuid;
  sgr_direction : SecurityGroupDirection;
  sgr_protocol : SecurityGroupProtocol;
  sgr_cidr : option string;
  sgr_port_start : option Z;
  sgr_port_end : option Z;
  sgr_description : option string
}.

(** ** vm_snapshots, backups *)

Inductive SnapshotStatus : Type := SnCreating | SnReady | SnFailed.
Inductive BackupType : Type := BackupVm | BackupDatabase.
Inductive BackupStatus : Type := BkCreating | BkReady | BkFailed.

#[global] Instance SnapshotStatus_eq_dec : EqDecision SnapshotStatus.
Proof. solve_decision. Defined.
#[global] Instance BackupType_eq_dec : EqDecision BackupType.
Proof. solve_decision. Defined.
#[global] Instance BackupStatus_eq_dec : EqDecision BackupStatus.
Proof. solve_decision. Defined.

Record VmSnapshot := {
  sn_id : Uuid;
  sn_vm_id : Uuid;
  sn_storage_object_id : Uuid;
  sn_name : string;
  sn_status : SnapshotStatus;
  sn_created_at : Z
}.

Record Backup := {
  bk_id : Uuid;
  bk_name : string;
  bk_backup_type : BackupType;
  bk_status : BackupStatus;
  bk_vm_id : option Uuid;
  bk_snapshot_id : option Uuid;
  bk_storage_object_id : Uuid;
  bk_error_message : option string;
  bk_created_at : Z;
  bk_updated_at : Z
}.

(** ** host_numa_nodes *)

Record HostNumaNode := {
  hn_id : Uuid;
  hn_host_id : Uuid;
  hn_node_id : Z;
  hn_cpu_list : string;
  hn_memory_bytes : option Z;
  hn_distances : list Z;
  hn_updated_at : option Z
}.

(** ** vm_consoles, vm_rng *)

Inductive ConsoleMode : Type :=
| ConsoleOff | ConsolePty | ConsoleTty | ConsoleFile | ConsoleSocket | ConsoleNull.

Record VmConsole := {
  vc_id : Uuid;
  vc_vm_id : Uuid;
  vc_console_type : string;
  vc_mode : ConsoleMode;
  vc_file_path : option string;
  vc_socket_path : option string;
  vc_iommu : bool
}.

Record VmRng := {
  rng_id : Uuid;
  rng_vm_id : Uuid;
  rng_src : string;
  rng_iommu : bool
}.

(** ** sandboxes *)

Inductive SandboxStatus : Type := SbProvisioning | SbReady | SbError | SbDestroying.

#[global] Instance SandboxStatus_eq_dec : EqDecision SandboxStatus.
Proof. solve_decision. Defined.

Record SandboxRow := {
  sb_id : Uuid;
  sb_vm_id : Uuid;
  sb_vm_template_id : option Uuid;
  sb_name : string;
  sb_status : SandboxStatus;
  sb_idle_timeout_secs : Z;
  sb_last_activity_at : Z;
  sb_error_message : option string;
  sb_created_at : Z
}.

(** ** sandbox_pools, sandbox_pool_members *)

Record SandboxPoolRow := {
  sbp_id : Uuid;
  sbp_vm_template_id : Uuid;
  sbp_min_ready : Z;
  sbp_created_at : Z;
  sbp_updated_at : Z
}.

Inductive SandboxPoolMemberStatus : Type := MemProvisioning | MemReady | MemError | MemDestroying.

#[global] Instance SandboxPoolMemberStatus_eq_dec : EqDecision SandboxPoolMemberStatus.
Proof. solve_decision. Defined.

Record SandboxPoolMember := {
  spm_id : Uuid;
  spm_sandbox_pool_id : Uuid;
  spm_vm_id : Uuid;
  spm_status : SandboxPoolMemberStatus;
  spm_error_message : option string;
  spm_created_at : Z;
  spm_updated_at : Z
}.

(** ** lifecycle_hooks, hook_executions *)

Inductive HookScope : Type := ScopeGlobal | ScopeVm | ScopeTag.
Inductive HookExecutionStatus : Type := HookPending | HookProcessing | HookDelivered | HookFailed.

#[global] Instance HookScope_eq_dec : EqDecision HookScope.
Proof. solve_decision. Defined.
#[global] Instance HookExecutionStatus_eq_dec : EqDecision HookExecutionStatus.
Proof. solve_decision. Defined.

Record LifecycleHook := {
  lh_id : Uuid;
  lh_name : string;
  lh_url : string;
  lh_secret : option string;
  lh_scope : HookScope;
  lh_scope_value : option string;
  lh_events : list string;
  lh_active : bool;
  lh_created_at : Z;
  lh_updated_at : Z
}.

Record HookExecution := {
  he_id : Uuid;
  he_hook_id : Uuid;
  he_vm_id : Uuid;
  he_previous_status : string;
  he_new_status : string;
  he_status : HookExecutionStatus;
  he_attempt_count : Z;
  he_max_attempts : Z;
  he_next_retry_at : Z;
  he_payload : json;
  he_response_status : option Z;
  he_response_body : option string;
  he_last_error : option string;
  he_created_at : Z;
  he_delivered_at : option Z
}.

(** ** The database

    [host_storage_pools] is a set of (host, pool) pairs, [vm_security_groups] of
    (VM, group) pairs, and [host_networks] gives the bridge of a (host, network)
    pair; every other table is keyed by the
    primary key, [ip_allocations] by its unique (network, address) pair. *)

Record Db := {
  t_hosts : gmap Uuid Host;
  t_vms : gmap Uuid VmRow;
  t_vm_templates : gmap Uuid VmTemplate;
  t_instance_types : gmap Uuid InstanceType;
  t_host_gpus : gmap Uuid HostGpu;
  t_jobs : gmap Uuid Job;
  t_storage_pools : gmap Uuid StoragePool;
  t_storage_objects : gmap Uuid StorageObject;
  t_vm_disks : gmap Uuid VmDisk;
  t_networks : gmap Uuid Network;
  t_ip_allocations : gmap (Uuid * Z) IpAllocation;
  t_network_interfaces : gmap Uuid NetworkInterface;
  t_sandboxes : gmap Uuid SandboxRow;
  t_lifecycle_hooks : gmap Uuid LifecycleHook;
  t_hook_executions : gmap Uuid HookExecution;
  t_storage_cleanup : gmap Uuid StorageCleanup;
  t_transfers : gmap Uuid Transfer;
  t_boot_sources : gmap Uuid BootSource;
  t_security_groups : gmap Uuid SecurityGroup;
  t_security_group_rules : gmap Uuid SecurityGroupRule;
  t_vm_security_groups : gset (Uuid * Uuid);
  t_vm_snapshots : gmap Uuid VmSnapshot;
  t_backups : gmap Uuid Backup;
  t_host_numa_nodes : gmap Uuid HostNumaNode;
  t_sandbox_pools : gmap Uuid SandboxPoolRow;
  t_sandbox_pool_members : gmap Uuid SandboxPoolMember;
  t_vm_consoles : gmap Uuid VmConsole;
  t_vm_rng : gmap Uuid VmRng;
  t_host_storage_pools : gset (Uuid * Uuid);
  t_host_networks : gmap (Uuid * Uuid) string
}.

Definition empty_db : Db :=
  {| t_hosts := ∅; t_vms := ∅; t_vm_templates := ∅; t_instance_types := ∅; t_host_gpus := ∅;
     t_jobs := ∅; t_storage_pools := ∅; t_storage_objects := ∅; t_vm_disks := ∅;
     t_networks := ∅; t_ip_allocations := ∅; t_network_interfaces := ∅; t_sandboxes := ∅;
     t_lifecycle_hooks := ∅; t_hook_executions := ∅; t_storage_cleanup := ∅;
     t_transfers := ∅; t_boot_sources := ∅; t_security_groups := ∅;
     t_security_group_rules := ∅; t_vm_security_groups := ∅; t_vm_snapshots := ∅;
     t_backups := ∅; t_host_numa_nodes := ∅; t_sandbox_pools := ∅;
     t_sandbox_pool_members := ∅; t_vm_consoles := ∅; t_vm_rng := ∅;
     t_host_storage_pools := ∅; t_host_networks := ∅ |}.

(** Updates of one table. *)
Definition with_hosts (f : gmap Uuid Host -> gmap Uuid Host) (db : Db) : Db :=
  {| t_hosts := f (t_hosts db); t_vms := t_vms db; t_vm_templates := t_vm_templates db;
     t_instance_types := t_instance_types db; t_host_gpus := t_host_gpus db;
     t_jobs := t_jobs db; t_storage_pools := t_storage_pools db;
     t_storage_objects := t_storage_objects db; t_vm_disks := t_vm_disks db;
     t_networks := t_networks db; t_ip_allocations := t_ip_allocations db;
     t_network_interfaces := t_network_interfaces db; t_sandboxes := t_sandboxes db;
     t_lifecycle_hooks := t_lifecycle_hooks db; t_hook_executions := t_hook_executions db;
     t_storage_cleanup := t_storage_cleanup db; t_transfers := t_transfers db;
     t_boot_sources := t_boot_sources db; t_security_groups := t_security_groups db;
     t_security_group_rules := t_security_group_rules db;
     t_vm_security_groups := t_vm_security_groups db; t_vm_snapshots := t_vm_snapshots db;
     t_backups := t_backups db; t_host_numa_nodes := t_host_numa_nodes db;
     t_sandbox_pools := t_sandbox_pools db;
     t_sandbox_pool_members := t_sandbox_pool_members db; t_vm_consoles := t_vm_consoles db;
     t_vm_rng := t_vm_rng db; t_host_storage_pools := t_host_storage_pools db;
     t_host_networks := t_host_networks db |}.
Definition with_vms (f : gmap Uuid VmRow -> gmap Uuid VmRow) (db : Db) : Db :=
  {| t_hosts := t_hosts db; t_vms := f (t_vms db); t_vm_templates := t_vm_templates db;
     t_instance_types := t_instance_types db; t_host_gpus := t_host_gpus db;
     t_jobs := t_jobs db; t_storage_pools := t_storage_pools db;
     t_storage_objects := t_storage_objects db; t_vm_disks := t_vm_disks db;
     t_networks := t_networks db; t_ip_allocations := t_ip_allocations db;
     t_network_interfaces := t_network_interfaces db; t_sandboxes := t_sandboxes db;
     t_lifecycle_hooks := t_lifecycle_hooks db; t_hook_executions := t_hook_executions db;
     t_storage_cleanup := t_storage_cleanup db; t_transfers := t_transfers db;
     t_boot_sources := t_boot_sources db; t_security_groups := t_security_groups db;
     t_security_group_rules := t_security_group_rules db;
     t_vm_security_groups := t_vm_security_groups db; t_vm_snapshots := t_vm_snapshots db;
     t_backups := t_backups db; t_host_numa_nodes := t_host_numa_nodes db;
     t_sandbox_pools := t_sandbox_pools db;
     t_sandbox_pool_members := t_sandbox_pool_members db; t_vm_consoles := t_vm_consoles db;
     t_vm_rng := t_vm_rng db; t_host_storage_pools := t_host_storage_pools db;
     t_host_networks := t_host_networks db |}.
Definition with_vm_templates (f : gmap Uuid VmTemplate -> gmap Uuid VmTemplate) (db : Db) : Db :=
  {| t_hosts := t_hosts db; t_vms := t_vms db; t_vm_templates := f (t_vm_templates db);
     t_instance_types := t_instance_types db; t_host_gpus := t_host_gpus db;
     t_jobs := t_jobs db; t_storage_pools := t_storage_pools db;
     t_storage_objects := t_storage_objects db; t_vm_disks := t_vm_disks db;
     t_networks := t_networks db; t_ip_allocations := t_ip_allocations db;
     t_network_interfaces := t_network_interfaces db; t_sandboxes := t_sandboxes db;
     t_lifecycle_hooks := t_lifecycle_hooks db; t_hook_executions := t_hook_executions db;
     t_storage_cleanup := t_storage_cleanup db; t_transfers := t_transfers db;
     t_boot_sources := t_boot_sources db; t_security_groups := t_security_groups db;
     t_security_group_rules := t_security_group_rules db;
     t_vm_security_groups := t_vm_security_groups db; t_vm_snapshots := t_vm_snapshots db;
     t_backups := t_backups db; t_host_numa_nodes := t_host_numa_nodes db;
     t_sandbox_pools := t_sandbox_pools db;
     t_sandbox_pool_members := t_sandbox_pool_members db; t_vm_consoles := t_vm_consoles db;
     t_vm_rng := t_vm_rng db; t_host_storage_pools := t_host_storage_pools db;
     t_host_networks := t_host_networks db |}.
Definition with_instance_types (f : gmap Uuid InstanceType -> gmap Uuid InstanceType) (db : Db) : Db :=
  {| t_hosts := t_hosts db; t_vms := t_vms db; t_vm_templates := t_vm_templates db;
     t_instance_types := f (t_instance_types db); t_host_gpus := t_host_gpus db;
     t_jobs := t_jobs db; t_storage_pools := t_storage_pools db;
     t_storage_objects := t_storage_objects db; t_vm_disks := t_vm_disks db;
     t_networks := t_networks db; t_ip_allocations := t_ip_allocations db;
     t_network_interfaces := t_network_interfaces db; t_sandboxes := t_sandboxes db;
     t_lifecycle_hooks := t_lifecycle_hooks db; t_hook_executions := t_hook_executions db;
     t_storage_cleanup := t_storage_cleanup db; t_transfers := t_transfers db;
     t_boot_sources := t_boot_sources db; t_security_groups := t_security_groups db;
     t_security_group_rules := t_security_group_rules db;
     t_vm_security_groups := t_vm_security_groups db; t_vm_snapshots := t_vm_snapshots db;
     t_backups := t_backups db; t_host_numa_nodes := t_host_numa_nodes db;
     t_sandbox_pools := t_sandbox_pools db;
     t_sandbox_pool_members := t_sandbox_pool_members db; t_vm_consoles := t_vm_consoles db;
     t_vm_rng := t_vm_rng db; t_host_storage_pools := t_host_storage_pools db;
     t_host_networks := t_host_networks db |}.
Definition with_host_gpus (f : gmap Uuid HostGpu -> gmap Uuid HostGpu) (db : Db) : Db :=
  {| t_hosts := t_hosts db; t_vms := t_vms db; t_vm_templates := t_vm_templates db;
     t_instance_types := t_instance_types db; t_host_gpus := f (t_host_gpus db);
     t_jobs := t_jobs db; t_storage_pools := t_storage_pools db;
     t_storage_objects := t_storage_objects db; t_vm_disks := t_vm_disks db;
     t_networks := t_networks db; t_ip_allocations := t_ip_allocations db;
     t_network_interfaces := t_network_interfaces db; t_sandboxes := t_sandboxes db;
     t_lifecycle_hooks := t_lifecycle_hooks db; t_hook_executions := t_hook_executions db;
     t_storage_cleanup := t_storage_cleanup db; t_transfers := t_transfers db;
     t_boot_sources := t_boot_sources db; t_security_groups := t_security_groups db;
     t_security_group_rules := t_security_group_rules db;
     t_vm_security_groups := t_vm_security_groups db; t_vm_snapshots := t_vm_snapshots db;
     t_backups := t_backups db; t_host_numa_nodes := t_host_numa_nodes db;
     t_sandbox_pools := t_sandbox_pools db;
     t_sandbox_pool_members := t_sandbox_pool_members db; t_vm_consoles := t_vm_consoles db;
     t_vm_rng := t_vm_rng db; t_host_storage_pools := t_host_storage_pools db;
     t_host_networks := t_host_networks db |}.
Definition with_jobs (f : gmap Uuid Job -> gmap Uuid Job) (db : Db) : Db :=
  {| t_hosts := t_hosts db; t_vms := t_vms db; t_vm_templates := t_vm_templates db;
     t_instance_types := t_instance_types db; t_host_gpus := t_host_gpus db;
     t_jobs := f (t_jobs db); t_storage_pools := t_storage_pools db;
     t_storage_objects := t_storage_objects db; t_vm_disks := t_vm_disks db;
     t_networks := t_networks db; t_ip_allocations := t_ip_allocations db;
     t_network_interfaces := t_network_interfaces db; t_sandboxes := t_sandboxes db;
     t_lifecycle_hooks := t_lifecycle_hooks db; t_hook_executions := t_hook_executions db;
     t_storage_cleanup := t_storage_cleanup db; t_transfers := t_transfers db;
     t_boot_sources := t_boot_sources db; t_security_groups := t_security_groups db;
     t_security_group_rules := t_security_group_rules db;
     t_vm_security_groups := t_vm_security_groups db; t_vm_snapshots := t_vm_snapshots db;
     t_backups := t_backups db; t_host_numa_nodes := t_host_numa_nodes db;
     t_sandbox_pools := t_sandbox_pools db;
     t_sandbox_pool_members := t_sandbox_pool_members db; t_vm_consoles := t_vm_consoles db;
     t_vm_rng := t_vm_rng db; t_host_storage_pools := t_host_storage_pools db;
     t_host_networks := t_host_networks db |}.
Definition with_storage_pools (f : gmap Uuid StoragePool -> gmap Uuid StoragePool) (db : Db) : Db :=
  {| t_hosts := t_hosts db; t_vms := t_vms db; t_vm_templates := t_vm_templates db;
     t_instance_types := t_instance_types db; t_host_gpus := t_host_gpus db;
     t_jobs := t_jobs db; t_storage_pools := f (t_storage_pools db);
     t_storage_objects := t_storage_objects db; t_vm_disks := t_vm_disks db;
     t_networks := t_networks db; t_ip_allocations := t_ip_allocations db;
     t_network_interfaces := t_network_interfaces db; t_sandboxes := t_sandboxes db;
     t_lifecycle_hooks := t_lifecycle_hooks db; t_hook_executions := t_hook_executions db;
     t_storage_cleanup := t_storage_cleanup db; t_transfers := t_transfers db;
     t_boot_sources := t_boot_sources db; t_security_groups := t_security_groups db;
     t_security_group_rules := t_security_group_rules db;
     t_vm_security_groups := t_vm_security_groups db; t_vm_snapshots := t_vm_snapshots db;
     t_backups := t_backups db; t_host_numa_nodes := t_host_numa_nodes db;
     t_sandbox_pools := t_sandbox_pools db;
     t_sandbox_pool_members := t_sandbox_pool_members db; t_vm_consoles := t_vm_consoles db;
     t_vm_rng := t_vm_rng db; t_host_storage_pools := t_host_storage_pools db;
     t_host_networks := t_host_networks db |}.
Definition with_storage_objects (f : gmap Uuid StorageObject -> gmap Uuid StorageObject) (db : Db) : Db :=
  {| t_hosts := t_hosts db; t_vms := t_vms db; t_vm_templates := t_vm_templates db;
     t_instance_types := t_instance_types db; t_host_gpus := t_host_gpus db;
     t_jobs := t_jobs db; t_storage_pools := t_storage_pools db;
     t_storage_objects := f (t_storage_objects db); t_vm_disks := t_vm_disks db;
     t_networks := t_networks db; t_ip_allocations := t_ip_allocations db;
     t_network_interfaces := t_network_interfaces db; t_sandboxes := t_sandboxes db;
     t_lifecycle_hooks := t_lifecycle_hooks db; t_hook_executions := t_hook_executions db;
     t_storage_cleanup := t_storage_cleanup db; t_transfers := t_transfers db;
     t_boot_sources := t_boot_sources db; t_security_groups := t_security_groups db;
     t_security_group_rules := t_security_group_rules db;
     t_vm_security_groups := t_vm_security_groups db; t_vm_snapshots := t_vm_snapshots db;
     t_backups := t_backups db; t_host_numa_nodes := t_host_numa_nodes db;
     t_sandbox_pools := t_sandbox_pools db;
     t_sandbox_pool_members := t_sandbox_pool_members db; t_vm_consoles := t_vm_consoles db;
     t_vm_rng := t_vm_rng db; t_host_storage_pools := t_host_storage_pools db;
     t_host_networks := t_host_networks db |}.
Definition with_vm_disks (f : gmap Uuid VmDisk -> gmap Uuid VmDisk) (db : Db) : Db :=
  {| t_hosts := t_hosts db; t_vms := t_vms db; t_vm_templates := t_vm_templates db;
     t_instance_types := t_instance_types db; t_host_gpus := t_host_gpus db;
     t_jobs := t_jobs db; t_storage_pools := t_storage_pools db;
     t_storage_objects := t_storage_objects db; t_vm_disks := f (t_vm_disks db);
     t_networks := t_networks db; t_ip_allocations := t_ip_allocations db;
     t_network_interfaces := t_network_interfaces db; t_sandboxes := t_sandboxes db;
     t_lifecycle_hooks := t_lifecycle_hooks db; t_hook_executions := t_hook_executions db;
     t_storage_cleanup := t_storage_cleanup db; t_transfers := t_transfers db;
     t_boot_sources := t_boot_sources db; t_security_groups := t_security_groups db;
     t_security_group_rules := t_security_group_rules db;
     t_vm_security_groups := t_vm_security_groups db; t_vm_snapshots := t_vm_snapshots db;
     t_backups := t_backups db; t_host_numa_nodes := t_host_numa_nodes db;
     t_sandbox_pools := t_sandbox_pools db;
     t_sandbox_pool_members := t_sandbox_pool_members db; t_vm_consoles := t_vm_consoles db;
     t_vm_rng := t_vm_rng db; t_host_storage_pools := t_host_storage_pools db;
     t_host_networks := t_host_networks db |}.
Definition with_networks (f : gmap Uuid Network -> gmap Uuid Network) (db : Db) : Db :=
  {| t_hosts := t_hosts db; t_vms := t_vms db; t_vm_templates := t_vm_templates db;
     t_instance_types := t_instance_types db; t_host_gpus := t_host_gpus db;
     t_jobs := t_jobs db; t_storage_pools := t_storage_pools db;
     t_storage_objects := t_storage_objects db; t_vm_disks := t_vm_disks db;
     t_networks := f (t_networks db); t_ip_allocations := t_ip_allocations db;
     t_network_interfaces := t_network_interfaces db; t_sandboxes := t_sandboxes db;
     t_lifecycle_hooks := t_lifecycle_hooks db; t_hook_executions := t_hook_executions db;
     t_storage_cleanup := t_storage_cleanup db; t_transfers := t_transfers db;
     t_boot_sources := t_boot_sources db; t_security_groups := t_security_groups db;
     t_security_group_rules := t_security_group_rules db;
     t_vm_security_groups := t_vm_security_groups db; t_vm_snapshots := t_vm_snapshots db;
     t_backups := t_backups db; t_host_numa_nodes := t_host_numa_nodes db;
     t_sandbox_pools := t_sandbox_pools db;
     t_sandbox_pool_members := t_sandbox_pool_members db; t_vm_consoles := t_vm_consoles db;
     t_vm_rng := t_vm_rng db; t_host_storage_pools := t_host_storage_pools db;
     t_host_networks := t_host_networks db |}.
Definition with_ip_allocations (f : gmap (Uuid * Z) IpAllocation -> gmap (Uuid * Z) IpAllocation) (db : Db) : Db :=
  {| t_hosts := t_hosts db; t_vms := t_vms db; t_vm_templates := t_vm_templates db;
     t_instance_types := t_instance_types db; t_host_gpus := t_host_gpus db;
     t_jobs := t_jobs db; t_storage_pools := t_storage_pools db;
     t_storage_objects := t_storage_objects db; t_vm_disks := t_vm_disks db;
     t_networks := t_networks db; t_ip_allocations := f (t_ip_allocations db);
     t_network_interfaces := t_network_interfaces db; t_sandboxes := t_sandboxes db;
     t_lifecycle_hooks := t_lifecycle_hooks db; t_hook_executions := t_hook_executions db;
     t_storage_cleanup := t_storage_cleanup db; t_transfers := t_transfers db;
     t_boot_sources := t_boot_sources db; t_security_groups := t_security_groups db;
     t_security_group_rules := t_security_group_rules db;
     t_vm_security_groups := t_vm_security_groups db; t_vm_snapshots := t_vm_snapshots db;
     t_backups := t_backups db; t_host_numa_nodes := t_host_numa_nodes db;
     t_sandbox_pools := t_sandbox_pools db;
     t_sandbox_pool_members := t_sandbox_pool_members db; t_vm_consoles := t_vm_consoles db;
     t_vm_rng := t_vm_rng db; t_host_storage_pools := t_host_storage_pools db;
     t_host_networks := t_host_networks db |}.
Definition with_network_interfaces (f : gmap Uuid NetworkInterface -> gmap Uuid NetworkInterface) (db : Db) : Db :=
  {| t_hosts := t_hosts db; t_vms := t_vms db; t_vm_templates := t_vm_templates db;
     t_instance_types := t_instance_types db; t_host_gpus := t_host_gpus db;
     t_jobs := t_jobs db; t_storage_pools := t_storage_pools db;
     t_storage_objects := t_storage_objects db; t_vm_disks := t_vm_disks db;
     t_networks := t_networks db; t_ip_allocations := t_ip_allocations db;
     t_network_interfaces := f (t_network_interfaces db); t_sandboxes := t_sandboxes db;
     t_lifecycle_hooks := t_lifecycle_hooks db; t_hook_executions := t_hook_executions db;
     t_storage_cleanup := t_storage_cleanup db; t_transfers := t_transfers db;
     t_boot_sources := t_boot_sources db; t_security_groups := t_security_groups db;
     t_security_group_rules := t_security_group_rules db;
     t_vm_security_groups := t_vm_security_groups db; t_vm_snapshots := t_vm_snapshots db;
     t_backups := t_backups db; t_host_numa_nodes := t_host_numa_nodes db;
     t_sandbox_pools := t_sandbox_pools db;
     t_sandbox_pool_members := t_sandbox_pool_members db; t_vm_consoles := t_vm_consoles db;
     t_vm_rng := t_vm_rng db; t_host_storage_pools := t_host_storage_pools db;
     t_host_networks := t_host_networks db |}.
Definition with_sandboxes (f : gmap Uuid SandboxRow -> gmap Uuid SandboxRow) (db : Db) : Db :=
  {| t_hosts := t_hosts db; t_vms := t_vms db; t_vm_templates := t_vm_templates db;
     t_instance_types := t_instance_types db; t_host_gpus := t_host_gpus db;
     t_jobs := t_jobs db; t_storage_pools := t_storage_pools db;
     t_storage_objects := t_storage_objects db; t_vm_disks := t_vm_disks db;
     t_networks := t_networks db; t_ip_allocations := t_ip_allocations db;
     t_network_interfaces := t_network_interfaces db; t_sandboxes := f (t_sandboxes db);
     t_lifecycle_hooks := t_lifecycle_hooks db; t_hook_executions := t_hook_executions db;
     t_storage_cleanup := t_storage_cleanup db; t_transfers := t_transfers db;
     t_boot_sources := t_boot_sources db; t_security_groups := t_security_groups db;
     t_security_group_rules := t_security_group_rules db;
     t_vm_security_groups := t_vm_security_groups db; t_vm_snapshots := t_vm_snapshots db;
     t_backups := t_backups db; t_host_numa_nodes := t_host_numa_nodes db;
     t_sandbox_pools := t_sandbox_pools db;
     t_sandbox_pool_members := t_sandbox_pool_members db; t_vm_consoles := t_vm_consoles db;
     t_vm_rng := t_vm_rng db; t_host_storage_pools := t_host_storage_pools db;
     t_host_networks := t_host_networks db |}.
Definition with_lifecycle_hooks (f : gmap Uuid LifecycleHook -> gmap Uuid LifecycleHook) (db : Db) : Db :=
  {| t_hosts := t_hosts db; t_vms := t_vms db; t_vm_templates := t_vm_templates db;
     t_instance_types := t_instance_types db; t_host_gpus := t_host_gpus db;
     t_jobs := t_jobs db; t_storage_pools := t_storage_pools db;
     t_storage_objects := t_storage_objects db; t_vm_disks := t_vm_disks db;
     t_networks := t_networks db; t_ip_allocations := t_ip_allocations db;
     t_network_interfaces := t_network_interfaces db; t_sandboxes := t_sandboxes db;
     t_lifecycle_hooks := f (t_lifecycle_hooks db);
     t_hook_executions := t_hook_executions db; t_storage_cleanup := t_storage_cleanup db;
     t_transfers := t_transfers db; t_boot_sources := t_boot_sources db;
     t_security_groups := t_security_groups db;
     t_security_group_rules := t_security_group_rules db;
     t_vm_security_groups := t_vm_security_groups db; t_vm_snapshots := t_vm_snapshots db;
     t_backups := t_backups db; t_host_numa_nodes := t_host_numa_nodes db;
     t_sandbox_pools := t_sandbox_pools db;
     t_sandbox_pool_members := t_sandbox_pool_members db; t_vm_consoles := t_vm_consoles db;
     t_vm_rng := t_vm_rng db; t_host_storage_pools := t_host_storage_pools db;
     t_host_networks := t_host_networks db |}.
Definition with_hook_executions (f : gmap Uuid HookExecution -> gmap Uuid HookExecution) (db : Db) : Db :=
  {| t_hosts := t_hosts db; t_vms := t_vms db; t_vm_templates := t_vm_templates db;
     t_instance_types := t_instance_types db; t_host_gpus := t_host_gpus db;
     t_jobs := t_jobs db; t_storage_pools := t_storage_pools db;
     t_storage_objects := t_storage_objects db; t_vm_disks := t_vm_disks db;
     t_networks := t_networks db; t_ip_allocations := t_ip_allocations db;
     t_network_interfaces := t_network_interfaces db; t_sandboxes := t_sandboxes db;
     t_lifecycle_hooks := t_lifecycle_hooks db;
     t_hook_executions := f (t_hook_executions db);
     t_storage_cleanup := t_storage_cleanup db; t_transfers := t_transfers db;
     t_boot_sources := t_boot_sources db; t_security_groups := t_security_groups db;
     t_security_group_rules := t_security_group_rules db;
     t_vm_security_groups := t_vm_security_groups db; t_vm_snapshots := t_vm_snapshots db;
     t_backups := t_backups db; t_host_numa_nodes := t_host_numa_nodes db;
     t_sandbox_pools := t_sandbox_pools db;
     t_sandbox_pool_members := t_sandbox_pool_members db; t_vm_consoles := t_vm_consoles db;
     t_vm_rng := t_vm_rng db; t_host_storage_pools := t_host_storage_pools db;
     t_host_networks := t_host_networks db |}.
Definition with_storage_cleanup (f : gmap Uuid StorageCleanup -> gmap Uuid StorageCleanup) (db : Db) : Db :=
  {| t_hosts := t_hosts db; t_vms := t_vms db; t_vm_templates := t_vm_templates db;
     t_instance_types := t_instance_types db; t_host_gpus := t_host_gpus db;
     t_jobs := t_jobs db; t_storage_pools := t_storage_pools db;
     t_storage_objects := t_storage_objects db; t_vm_disks := t_vm_disks db;
     t_networks := t_networks db; t_ip_allocations := t_ip_allocations db;
     t_network_interfaces := t_network_interfaces db; t_sandboxes := t_sandboxes db;
     t_lifecycle_hooks := t_lifecycle_hooks db; t_hook_executions := t_hook_executions db;
     t_storage_cleanup := f (t_storage_cleanup db); t_transfers := t_transfers db;
     t_boot_sources := t_boot_sources db; t_security_groups := t_security_groups db;
     t_security_group_rules := t_security_group_rules db;
     t_vm_security_groups := t_vm_security_groups db; t_vm_snapshots := t_vm_snapshots db;
     t_backups := t_backups db; t_host_numa_nodes := t_host_numa_nodes db;
     t_sandbox_pools := t_sandbox_pools db;
     t_sandbox_pool_members := t_sandbox_pool_members db; t_vm_consoles := t_vm_consoles db;
     t_vm_rng := t_vm_rng db; t_host_storage_pools := t_host_storage_pools db;
     t_host_networks := t_host_networks db |}.
Definition with_transfers (f : gmap Uuid Transfer -> gmap Uuid Transfer) (db : Db) : Db :=
  {| t_hosts := t_hosts db; t_vms := t_vms db; t_vm_templates := t_vm_templates db;
     t_instance_types := t_instance_types db; t_host_gpus := t_host_gpus db;
     t_jobs := t_jobs db; t_storage_pools := t_storage_pools db;
     t_storage_objects := t_storage_objects db; t_vm_disks := t_vm_disks db;
     t_networks := t_networks db; t_ip_allocations := t_ip_allocations db;
     t_network_interfaces := t_network_interfaces db; t_sandboxes := t_sandboxes db;
     t_lifecycle_hooks := t_lifecycle_hooks db; t_hook_executions := t_hook_executions db;
     t_storage_cleanup := t_storage_cleanup db; t_transfers := f (t_transfers db);
     t_boot_sources := t_boot_sources db; t_security_groups := t_security_groups db;
     t_security_group_rules := t_security_group_rules db;
     t_vm_security_groups := t_vm_security_groups db; t_vm_snapshots := t_vm_snapshots db;
     t_backups := t_backups db; t_host_numa_nodes := t_host_numa_nodes db;
     t_sandbox_pools := t_sandbox_pools db;
     t_sandbox_pool_members := t_sandbox_pool_members db; t_vm_consoles := t_vm_consoles db;
     t_vm_rng := t_vm_rng db; t_host_storage_pools := t_host_storage_pools db;
     t_host_networks := t_host_networks db |}.
Definition with_boot_sources (f : gmap Uuid BootSource -> gmap Uuid BootSource) (db : Db) : Db :=
  {| t_hosts := t_hosts db; t_vms := t_vms db; t_vm_templates := t_vm_templates db;
     t_instance_types := t_instance_types db; t_host_gpus := t_host_gpus db;
     t_jobs := t_jobs db; t_storage_pools := t_storage_pools db;
     t_storage_objects := t_storage_objects db; t_vm_disks := t_vm_disks db;
     t_networks := t_networks db; t_ip_allocations := t_ip_allocations db;
     t_network_interfaces := t_network_interfaces db; t_sandboxes := t_sandboxes db;
     t_lifecycle_hooks := t_lifecycle_hooks db; t_hook_executions := t_hook_executions db;
     t_storage_cleanup := t_storage_cleanup db; t_transfers := t_transfers db;
     t_boot_sources := f (t_boot_sources db); t_security_groups := t_security_groups db;
     t_security_group_rules := t_security_group_rules db;
     t_vm_security_groups := t_vm_security_groups db; t_vm_snapshots := t_vm_snapshots db;
     t_backups := t_backups db; t_host_numa_nodes := t_host_numa_nodes db;
     t_sandbox_pools := t_sandbox_pools db;
     t_sandbox_pool_members := t_sandbox_pool_members db; t_vm_consoles := t_vm_consoles db;
     t_vm_rng := t_vm_rng db; t_host_storage_pools := t_host_storage_pools db;
     t_host_networks := t_host_networks db |}.
Definition with_security_groups (f : gmap Uuid SecurityGroup -> gmap Uuid SecurityGroup) (db : Db) : Db :=
  {| t_hosts := t_hosts db; t_vms := t_vms db; t_vm_templates := t_vm_templates db;
     t_instance_types := t_instance_types db; t_host_gpus := t_host_gpus db;
     t_jobs := t_jobs db; t_storage_pools := t_storage_pools db;
     t_storage_objects := t_storage_objects db; t_vm_disks := t_vm_disks db;
     t_networks := t_networks db; t_ip_allocations := t_ip_allocations db;
     t_network_interfaces := t_network_interfaces db; t_sandboxes := t_sandboxes db;
     t_lifecycle_hooks := t_lifecycle_hooks db; t_hook_executions := t_hook_executions db;
     t_storage_cleanup := t_storage_cleanup db; t_transfers := t_transfers db;
     t_boot_sources := t_boot_sources db; t_security_groups := f (t_security_groups db);
     t_security_group_rules := t_security_group_rules db;
     t_vm_security_groups := t_vm_security_groups db; t_vm_snapshots := t_vm_snapshots db;
     t_backups := t_backups db; t_host_numa_nodes := t_host_numa_nodes db;
     t_sandbox_pools := t_sandbox_pools db;
     t_sandbox_pool_members := t_sandbox_pool_members db; t_vm_consoles := t_vm_consoles db;
     t_vm_rng := t_vm_rng db; t_host_storage_pools := t_host_storage_pools db;
     t_host_networks := t_host_networks db |}.
Definition with_security_group_rules (f : gmap Uuid SecurityGroupRule -> gmap Uuid SecurityGroupRule) (db : Db) : Db :=
  {| t_hosts := t_hosts db; t_vms := t_vms db; t_vm_templates := t_vm_templates db;
     t_instance_types := t_instance_types db; t_host_gpus := t_host_gpus db;
     t_jobs := t_jobs db; t_storage_pools := t_storage_pools db;
     t_storage_objects := t_storage_objects db; t_vm_disks := t_vm_disks db;
     t_networks := t_networks db; t_ip_allocations := t_ip_allocations db;
     t_network_interfaces := t_network_interfaces db; t_sandboxes := t_sandboxes db;
     t_lifecycle_hooks := t_lifecycle_hooks db; t_hook_executions := t_hook_executions db;
     t_storage_cleanup := t_storage_cleanup db; t_transfers := t_transfers db;
     t_boot_sources := t_boot_sources db; t_security_groups := t_security_groups db;
     t_security_group_rules := f (t_security_group_rules db);
     t_vm_security_groups := t_vm_security_groups db; t_vm_snapshots := t_vm_snapshots db;
     t_backups := t_backups db; t_host_numa_nodes := t_host_numa_nodes db;
     t_sandbox_pools := t_sandbox_pools db;
     t_sandbox_pool_members := t_sandbox_pool_members db; t_vm_consoles := t_vm_consoles db;
     t_vm_rng := t_vm_rng db; t_host_storage_pools := t_host_storage_pools db;
     t_host_networks := t_host_networks db |}.
Definition with_vm_security_groups (f : gset (Uuid * Uuid) -> gset (Uuid * Uuid)) (db : Db) : Db :=
  {| t_hosts := t_hosts db; t_vms := t_vms db; t_vm_templates := t_vm_templates db;
     t_instance_types := t_instance_types db; t_host_gpus := t_host_gpus db;
     t_jobs := t_jobs db; t_storage_pools := t_storage_pools db;
     t_storage_objects := t_storage_objects db; t_vm_disks := t_vm_disks db;
     t_networks := t_networks db; t_ip_allocations := t_ip_allocations db;
     t_network_interfaces := t_network_interfaces db; t_sandboxes := t_sandboxes db;
     t_lifecycle_hooks := t_lifecycle_hooks db; t_hook_executions := t_hook_executions db;
     t_storage_cleanup := t_storage_cleanup db; t_transfers := t_transfers db;
     t_boot_sources := t_boot_sources db; t_security_groups := t_security_groups db;
     t_security_group_rules := t_security_group_rules db;
     t_vm_security_groups := f (t_vm_security_groups db);
     t_vm_snapshots := t_vm_snapshots db; t_backups := t_backups db;
     t_host_numa_nodes := t_host_numa_nodes db; t_sandbox_pools := t_sandbox_pools db;
     t_sandbox_pool_members := t_sandbox_pool_members db; t_vm_consoles := t_vm_consoles db;
     t_vm_rng := t_vm_rng db; t_host_storage_pools := t_host_storage_pools db;
     t_host_networks := t_host_networks db |}.
Definition with_vm_snapshots (f : gmap Uuid VmSnapshot -> gmap Uuid VmSnapshot) (db : Db) : Db :=
  {| t_hosts := t_hosts db; t_vms := t_vms db; t_vm_templates := t_vm_templates db;
     t_instance_types := t_instance_types db; t_host_gpus := t_host_gpus db;
     t_jobs := t_jobs db; t_storage_pools := t_storage_pools db;
     t_storage_objects := t_storage_objects db; t_vm_disks := t_vm_disks db;
     t_networks := t_networks db; t_ip_allocations := t_ip_allocations db;
     t_network_interfaces := t_network_interfaces db; t_sandboxes := t_sandboxes db;
     t_lifecycle_hooks := t_lifecycle_hooks db; t_hook_executions := t_hook_executions db;
     t_storage_cleanup := t_storage_cleanup db; t_transfers := t_transfers db;
     t_boot_sources := t_boot_sources db; t_security_groups := t_security_groups db;
     t_security_group_rules := t_security_group_rules db;
     t_vm_security_groups := t_vm_security_groups db;
     t_vm_snapshots := f (t_vm_snapshots db); t_backups := t_backups db;
     t_host_numa_nodes := t_host_numa_nodes db; t_sandbox_pools := t_sandbox_pools db;
     t_sandbox_pool_members := t_sandbox_pool_members db; t_vm_consoles := t_vm_consoles db;
     t_vm_rng := t_vm_rng db; t_host_storage_pools := t_host_storage_pools db;
     t_host_networks := t_host_networks db |}.
Definition with_backups (f : gmap Uuid Backup -> gmap Uuid Backup) (db : Db) : Db :=
  {| t_hosts := t_hosts db; t_vms := t_vms db; t_vm_templates := t_vm_templates db;
     t_instance_types := t_instance_types db; t_host_gpus := t_host_gpus db;
     t_jobs := t_jobs db; t_storage_pools := t_storage_pools db;
     t_storage_objects := t_storage_objects db; t_vm_disks := t_vm_disks db;
     t_networks := t_networks db; t_ip_allocations := t_ip_allocations db;
     t_network_interfaces := t_network_interfaces db; t_sandboxes := t_sandboxes db;
     t_lifecycle_hooks := t_lifecycle_hooks db; t_hook_executions := t_hook_executions db;
     t_storage_cleanup := t_storage_cleanup db; t_transfers := t_transfers db;
     t_boot_sources := t_boot_sources db; t_security_groups := t_security_groups db;
     t_security_group_rules := t_security_group_rules db;
     t_vm_security_groups := t_vm_security_groups db; t_vm_snapshots := t_vm_snapshots db;
     t_backups := f (t_backups db); t_host_numa_nodes := t_host_numa_nodes db;
     t_sandbox_pools := t_sandbox_pools db;
     t_sandbox_pool_members := t_sandbox_pool_members db; t_vm_consoles := t_vm_consoles db;
     t_vm_rng := t_vm_rng db; t_host_storage_pools := t_host_storage_pools db;
     t_host_networks := t_host_networks db |}.
Definition with_host_numa_nodes (f : gmap Uuid HostNumaNode -> gmap Uuid HostNumaNode) (db : Db) : Db :=
  {| t_hosts := t_hosts db; t_vms := t_vms db; t_vm_templates := t_vm_templates db;
     t_instance_types := t_instance_types db; t_host_gpus := t_host_gpus db;
     t_jobs := t_jobs db; t_storage_pools := t_storage_pools db;
     t_storage_objects := t_storage_objects db; t_vm_disks := t_vm_disks db;
     t_networks := t_networks db; t_ip_allocations := t_ip_allocations db;
     t_network_interfaces := t_network_interfaces db; t_sandboxes := t_sandboxes db;
     t_lifecycle_hooks := t_lifecycle_hooks db; t_hook_executions := t_hook_executions db;
     t_storage_cleanup := t_storage_cleanup db; t_transfers := t_transfers db;
     t_boot_sources := t_boot_sources db; t_security_groups := t_security_groups db;
     t_security_group_rules := t_security_group_rules db;
     t_vm_security_groups := t_vm_security_groups db; t_vm_snapshots := t_vm_snapshots db;
     t_backups := t_backups db; t_host_numa_nodes := f (t_host_numa_nodes db);
     t_sandbox_pools := t_sandbox_pools db;
     t_sandbox_pool_members := t_sandbox_pool_members db; t_vm_consoles := t_vm_consoles db;
     t_vm_rng := t_vm_rng db; t_host_storage_pools := t_host_storage_pools db;
     t_host_networks := t_host_networks db |}.
Definition with_sandbox_pools (f : gmap Uuid SandboxPoolRow -> gmap Uuid SandboxPoolRow) (db : Db) : Db :=
  {| t_hosts := t_hosts db; t_vms := t_vms db; t_vm_templates := t_vm_templates db;
     t_instance_types := t_instance_types db; t_host_gpus := t_host_gpus db;
     t_jobs := t_jobs db; t_storage_pools := t_storage_pools db;
     t_storage_objects := t_storage_objects db; t_vm_disks := t_vm_disks db;
     t_networks := t_networks db; t_ip_allocations := t_ip_allocations db;
     t_network_interfaces := t_network_interfaces db; t_sandboxes := t_sandboxes db;
     t_lifecycle_hooks := t_lifecycle_hooks db; t_hook_executions := t_hook_executions db;
     t_storage_cleanup := t_storage_cleanup db; t_transfers := t_transfers db;
     t_boot_sources := t_boot_sources db; t_security_groups := t_security_groups db;
     t_security_group_rules := t_security_group_rules db;
     t_vm_security_groups := t_vm_security_groups db; t_vm_snapshots := t_vm_snapshots db;
     t_backups := t_backups db; t_host_numa_nodes := t_host_numa_nodes db;
     t_sandbox_pools := f (t_sandbox_pools db);
     t_sandbox_pool_members := t_sandbox_pool_members db; t_vm_consoles := t_vm_consoles db;
     t_vm_rng := t_vm_rng db; t_host_storage_pools := t_host_storage_pools db;
     t_host_networks := t_host_networks db |}.
Definition with_sandbox_pool_members (f : gmap Uuid SandboxPoolMember -> gmap Uuid SandboxPoolMember) (db : Db) : Db :=
  {| t_hosts := t_hosts db; t_vms := t_vms db; t_vm_templates := t_vm_templates db;
     t_instance_types := t_instance_types db; t_host_gpus := t_host_gpus db;
     t_jobs := t_jobs db; t_storage_pools := t_storage_pools db;
     t_storage_objects := t_storage_objects db; t_vm_disks := t_vm_disks db;
     t_networks := t_networks db; t_ip_allocations := t_ip_allocations db;
     t_network_interfaces := t_network_interfaces db; t_sandboxes := t_sandboxes db;
     t_lifecycle_hooks := t_lifecycle_hooks db; t_hook_executions := t_hook_executions db;
     t_storage_cleanup := t_storage_cleanup db; t_transfers := t_transfers db;
     t_boot_sources := t_boot_sources db; t_security_groups := t_security_groups db;
     t_security_group_rules := t_security_group_rules db;
     t_vm_security_groups := t_vm_security_groups db; t_vm_snapshots := t_vm_snapshots db;
     t_backups := t_backups db; t_host_numa_nodes := t_host_numa_nodes db;
     t_sandbox_pools := t_sandbox_pools db;
     t_sandbox_pool_members := f (t_sandbox_pool_members db);
     t_vm_consoles := t_vm_consoles db; t_vm_rng := t_vm_rng db;
     t_host_storage_pools := t_host_storage_pools db; t_host_networks := t_host_networks db |}.
Definition with_vm_consoles (f : gmap Uuid VmConsole -> gmap Uuid VmConsole) (db : Db) : Db :=
  {| t_hosts := t_hosts db; t_vms := t_vms db; t_vm_templates := t_vm_templates db;
     t_instance_types := t_instance_types db; t_host_gpus := t_host_gpus db;
     t_jobs := t_jobs db; t_storage_pools := t_storage_pools db;
     t_storage_objects := t_storage_objects db; t_vm_disks := t_vm_disks db;
     t_networks := t_networks db; t_ip_allocations := t_ip_allocations db;
     t_network_interfaces := t_network_interfaces db; t_sandboxes := t_sandboxes db;
     t_lifecycle_hooks := t_lifecycle_hooks db; t_hook_executions := t_hook_executions db;
     t_storage_cleanup := t_storage_cleanup db; t_transfers := t_transfers db;
     t_boot_sources := t_boot_sources db; t_security_groups := t_security_groups db;
     t_security_group_rules := t_security_group_rules db;
     t_vm_security_groups := t_vm_security_groups db; t_vm_snapshots := t_vm_snapshots db;
     t_backups := t_backups db; t_host_numa_nodes := t_host_numa_nodes db;
     t_sandbox_pools := t_sandbox_pools db;
     t_sandbox_pool_members := t_sandbox_pool_members db;
     t_vm_consoles := f (t_vm_consoles db); t_vm_rng := t_vm_rng db;
     t_host_storage_pools := t_host_storage_pools db; t_host_networks := t_host_networks db |}.
Definition with_vm_rng (f : gmap Uuid VmRng -> gmap Uuid VmRng) (db : Db) : Db :=
  {| t_hosts := t_hosts db; t_vms := t_vms db; t_vm_templates := t_vm_templates db;
     t_instance_types := t_instance_types db; t_host_gpus := t_host_gpus db;
     t_jobs := t_jobs db; t_storage_pools := t_storage_pools db;
     t_storage_objects := t_storage_objects db; t_vm_disks := t_vm_disks db;
     t_networks := t_networks db; t_ip_allocations := t_ip_allocations db;
     t_network_interfaces := t_network_interfaces db; t_sandboxes := t_sandboxes db;
     t_lifecycle_hooks := t_lifecycle_hooks db; t_hook_executions := t_hook_executions db;
     t_storage_cleanup := t_storage_cleanup db; t_transfers := t_transfers db;
     t_boot_sources := t_boot_sources db; t_security_groups := t_security_groups db;
     t_security_group_rules := t_security_group_rules db;
     t_vm_security_groups := t_vm_security_groups db; t_vm_snapshots := t_vm_snapshots db;
     t_backups := t_backups db; t_host_numa_nodes := t_host_numa_nodes db;
     t_sandbox_pools := t_sandbox_pools db;
     t_sandbox_pool_members := t_sandbox_pool_members db; t_vm_consoles := t_vm_consoles db;
     t_vm_rng := f (t_vm_rng db); t_host_storage_pools := t_host_storage_pools db;
     t_host_networks := t_host_networks db |}.
Definition with_host_storage_pools (f : gset (Uuid * Uuid) -> gset (Uuid * Uuid)) (db : Db) : Db :=
  {| t_hosts := t_hosts db; t_vms := t_vms db; t_vm_templates := t_vm_templates db;
     t_instance_types := t_instance_types db; t_host_gpus := t_host_gpus db;
     t_jobs := t_jobs db; t_storage_pools := t_storage_pools db;
     t_storage_objects := t_storage_objects db; t_vm_disks := t_vm_disks db;
     t_networks := t_networks db; t_ip_allocations := t_ip_allocations db;
     t_network_interfaces := t_network_interfaces db; t_sandboxes := t_sandboxes db;
     t_lifecycle_hooks := t_lifecycle_hooks db; t_hook_executions := t_hook_executions db;
     t_storage_cleanup := t_storage_cleanup db; t_transfers := t_transfers db;
     t_boot_sources := t_boot_sources db; t_security_groups := t_security_groups db;
     t_security_group_rules := t_security_group_rules db;
     t_vm_security_groups := t_vm_security_groups db; t_vm_snapshots := t_vm_snapshots db;
     t_backups := t_backups db; t_host_numa_nodes := t_host_numa_nodes db;
     t_sandbox_pools := t_sandbox_pools db;
     t_sandbox_pool_members := t_sandbox_pool_members db; t_vm_consoles := t_vm_consoles db;
     t_vm_rng := t_vm_rng db; t_host_storage_pools := f (t_host_storage_pools db);
     t_host_networks := t_host_networks db |}.
Definition with_host_networks (f : gmap (Uuid * Uuid) string -> gmap (Uuid * Uuid) string) (db : Db) : Db :=
  {| t_hosts := t_hosts db; t_vms := t_vms db; t_vm_templates := t_vm_templates db;
     t_instance_types := t_instance_types db; t_host_gpus := t_host_gpus db;
     t_jobs := t_jobs db; t_storage_pools := t_storage_pools db;
     t_storage_objects := t_storage_objects db; t_vm_disks := t_vm_disks db;
     t_networks := t_networks db; t_ip_allocations := t_ip_allocations db;
     t_network_interfaces := t_network_interfaces db; t_sandboxes := t_sandboxes db;
     t_lifecycle_hooks := t_lifecycle_hooks db; t_hook_executions := t_hook_executions db;
     t_storage_cleanup := t_storage_cleanup db; t_transfers := t_transfers db;
     t_boot_sources := t_boot_sources db; t_security_groups := t_security_groups db;
     t_security_group_rules := t_security_group_rules db;
     t_vm_security_groups := t_vm_security_groups db; t_vm_snapshots := t_vm_snapshots db;
     t_backups := t_backups db; t_host_numa_nodes := t_host_numa_nodes db;
     t_sandbox_pools := t_sandbox_pools db;
     t_sandbox_pool_members := t_sandbox_pool_members db; t_vm_consoles := t_vm_consoles db;
     t_vm_rng := t_vm_rng db; t_host_storage_pools := t_host_storage_pools db;
     t_host_networks := f (t_host_networks db) |}.

(** The rows of a table, in the order an unordered scan returns them. *)
Definition rows {K A} `{Countable K} (t : gmap K A) : list A := (map_to_list t).*2.

(** [UPDATE ... SET ... WHERE p]. *)
Definition update_where {K A} `{Countable K} (p : A -> bool) (f : A -> A) (t : gmap K A) : gmap K A :=
  (fun r => if p r then f r else r) <$> t.

(** [DELETE ... WHERE NOT p]. *)
Definition keep {K A} `{Countable K} (p : A -> bool) (t : gmap K A) : gmap K A :=
  filter (fun kv => p kv.2 = true) t.

(** [INSERT] of one row under its primary key. *)
Definition insert_pk {K A} `{Countable K} (pkey : string) (k : K) (r : A) (t : gmap K A)
  : result SqlxError (gmap K A) :=
  match t !! k with
  | Some _ => Err (Database (Some "23505"%string) (Some pkey))
  | None => Ok (<[k := r]> t)
  end.

(** [SELECT ... WHERE id = $1] with [fetch_one] and with [fetch_optional]. *)
Definition fetch_one {A} (o : option A) : result SqlxError A := ok_or RowNotFound o.

Lemma elem_of_rows {K A} `{Countable K} (t : gmap K A) (r : A) :
  r ∈ rows t <-> exists k, t !! k = Some r.
Proof.
  unfold rows. rewrite list_elem_of_fmap. split.
  - intros ([k v]&->&Hin). exists k. by apply elem_of_map_to_list.
  - intros [k Hk]. exists (k, r). split; [done|]. by apply elem_of_map_to_list.
Qed.

Lemma lookup_update_where {K A} `{Countable K} (p : A -> bool) (f : A -> A) (t : gmap K A) k :
  update_where p f t !! k = (fun r => if p r then f r else r) <$> t !! k.
Proof. unfold update_where. by rewrite lookup_fmap. Qed.

Lemma lookup_keep {K A} `{Countable K} (p : A -> bool) (t : gmap K A) k r :
  keep p t !! k = Some r <-> t !! k = Some r /\ p r = true.
Proof. unfold keep. by rewrite map_lookup_filter_Some. Qed.

Lemma existsb_rows_false {A} (p : A -> bool) (t : gmap Uuid A) k r :
  existsb p (rows t) = false -> t !! k = Some r -> p r = false.
Proof.
  intros Hex Hk. destruct (p r) eqn:Hp; [|done]. apply not_true_iff_false in Hex. destruct Hex.
  apply existsb_exists. exists r. split; [|done]. apply list_elem_of_In, elem_of_rows. eauto.
Qed.

Lemma elem_of_filter_rows {K A} `{Countable K} (p : A -> bool) (t : gmap K A) (r : A) :
  r ∈ List.filter p (rows t) <-> (exists k, t !! k = Some r) /\ p r = true.
Proof. by rewrite list_elem_of_In, filter_In, <- list_elem_of_In, elem_of_rows. Qed.

Lemma NoDup_fmap_filter_rows {A} (id : A -> Uuid) (p : A -> bool) (t : gmap Uuid A) :
  map_Forall (fun k e => id e = k) t -> NoDup (id <$> List.filter p (rows t)).
Proof.
  intros Hk. unfold rows.
  assert (id <$> (map_to_list t).*2 = (map_to_list t).*1) as Heq.
  { rewrite <- list_fmap_compose. apply list_fmap_ext. intros i [k e] Hi. simpl.
    apply Hk. apply elem_of_map_to_list. by eapply list_elem_of_lookup_2. }
  pose proof (NoDup_fst_map_to_list t) as Hnd. rewrite <- Heq in Hnd. clear Heq Hk.
  induction ((map_to_list t).*2) as [|e l IH]; simpl in *; [done|].
  apply NoDup_cons in Hnd as [Hnin Hnd]. destruct (p e); simpl; [|by apply IH].
  apply NoDup_cons. split; [|by apply IH].
  intros (e'&He'&Hin)%list_elem_of_fmap. apply Hnin. rewrite He'. apply list_elem_of_fmap_2.
  apply list_elem_of_In. apply list_elem_of_In in Hin. by apply filter_In in Hin as [? _].
Qed.

(** [SUM(f)] over a table. *)
Definition sum_of {K A} `{Countable K} (f : A -> Z) (t : gmap K A) : Z :=
  map_fold (fun _ r n => f r + n) 0 t.

Section sum_of.
Context {K A : Type} `{Countable K}.
Implicit Types (f : A -> Z) (t : gmap K A).

Lemma sum_of_empty f : sum_of f (∅ : gmap K A) = 0.
Proof. apply map_fold_empty. Qed.

Lemma sum_of_insert f t k r : t !! k = None -> sum_of f (<[k := r]> t) = f r + sum_of f t.
Proof.
  intros Hk. unfold sum_of.
  rewrite (map_fold_insert_L (fun (_ : K) (x : A) (n : Z) => f x + n)); [done|intros; lia|done].
Qed.

Lemma sum_of_delete f t k r : t !! k = Some r -> sum_of f t = f r + sum_of f (delete k t).
Proof.
  intros Hk. rewrite <- (sum_of_insert f (delete k t) k) by (by rewrite lookup_delete_eq).
  by rewrite insert_delete_id.
Qed.

Lemma sum_of_replace f t k r r' :
  t !! k = Some r -> sum_of f (<[k := r']> t) = sum_of f t - f r + f r'.
Proof.
  intros Hk. rewrite (sum_of_delete f t k r Hk). rewrite <- insert_delete_eq.
  rewrite sum_of_insert by (by rewrite lookup_delete_eq). lia.
Qed.

Lemma sum_of_nonneg f t : map_Forall (fun _ r => 0 <= f r) t -> 0 <= sum_of f t.
Proof.
  induction t as [|k r t Hk IH] using map_ind; intros Hf; [by rewrite sum_of_empty|].
  apply map_Forall_insert in Hf as [Hr Ht]; [|done]. rewrite sum_of_insert by done.
  specialize (IH Ht). lia.
Qed.

Lemma sum_of_zero f t : map_Forall (fun _ r => f r = 0) t -> sum_of f t = 0.
Proof.
  induction t as [|k r t Hk IH] using map_ind; intros Hf; [by rewrite sum_of_empty|].
  apply map_Forall_insert in Hf as [Hr Ht]; [|done]. rewrite sum_of_insert by done.
  rewrite IH by done. lia.
Qed.

Lemma sum_of_ext f g t : (forall k r, t !! k = Some r -> f r = g r) -> sum_of f t = sum_of g t.
Proof.
  induction t as [|k r t Hk IH] using map_ind; intros Hf; [by rewrite !sum_of_empty|].
  rewrite !sum_of_insert by done. rewrite (Hf k r) by (by rewrite lookup_insert_eq).
  rewrite IH; [done|]. intros k' r' Hk'. apply (Hf k'). rewrite lookup_insert_ne; [done|congruence].
Qed.
End sum_of.

#[export] Hint Rewrite @lookup_update_where @lookup_keep @elem_of_rows : qarax.
