(* ===== verification/Float64.v ===== *)
(** * Float64: double precision arithmetic

    The scheduler compares [double precision] columns and computes memory and
    CPU budgets as [total * ratio - allocated >= requested] in IEEE-754 binary64.
    The operations are those of the Standard Library's executable specification;
    the order is PostgreSQL's, for which NaN is the largest value.  The lemmas
    show that on integers below 2^53 the operations are exact, so that a budget
    test with an integral ratio is a test on integers. *)

From S2P Require Import Prelude Tables.
#[local] Open Scope Z_scope.

Definition f64_of_Z (n : Z) : f64 := binary_normalize 53 1024 n 0 false.
Definition f64_mul (x y : f64) : f64 := SFmul 53 1024 x y.
Definition f64_sub (x y : f64) : f64 := SFsub 53 1024 x y.

(** The three-way comparison of PostgreSQL's [float8]. *)
Definition f64_cmp (x y : f64) : comparison :=
  match x, y with
  | S754_nan, S754_nan => Eq
  | S754_nan, _ => Gt
  | _, S754_nan => Lt
  | _, _ => default Eq (SFcompare x y)
  end.
Definition f64_geb (x y : f64) : bool := match f64_cmp x y with Lt => false | _ => true end.
Definition f64_leb (x y : f64) : bool := match f64_cmp x y with Gt => false | _ => true end.

(** ** The order is total *)

(** A key that sorts as the comparison does: class, then exponent, then mantissa. *)
Definition f64_key (x : f64) : Z * Z * Z :=
  match x with
  | S754_infinity true => (0, 0, 0)
  | S754_finite true m e => (1, - e, - Zpos m)
  | S754_zero _ => (2, 0, 0)
  | S754_finite false m e => (3, e, Zpos m)
  | S754_infinity false => (4, 0, 0)
  | S754_nan => (5, 0, 0)
  end.

Definition key_cmp (a b : Z * Z * Z) : comparison :=
  match a.1.1 ?= b.1.1 with
  | Eq => match a.1.2 ?= b.1.2 with Eq => a.2 ?= b.2 | c => c end
  | c => c
  end.

Lemma f64_cmp_key x y : f64_cmp x y = key_cmp (f64_key x) (f64_key y).
Proof.
  destruct x as [[]|[]| |[] mx ex], y as [[]|[]| |[] my ey]; try reflexivity;
    unfold f64_cmp, key_cmp; simpl; change (Pos.compare_cont Eq mx my) with (mx ?= my)%positive.
  rewrite Z.compare_opp. destruct (Z.compare_spec ey ex), (Z.compare_spec ex ey); try lia; try done.
Qed.

Lemma key_cmp_le a b :
  key_cmp a b <> Gt <->
  a.1.1 < b.1.1 \/ a.1.1 = b.1.1 /\ (a.1.2 < b.1.2 \/ a.1.2 = b.1.2 /\ a.2 <= b.2).
Proof.
  unfold key_cmp. destruct (Z.compare_spec a.1.1 b.1.1), (Z.compare_spec a.1.2 b.1.2),
    (Z.compare_spec a.2 b.2); split; intros; try congruence; try lia.
Qed.

Definition f64_le (x y : f64) : Prop := f64_leb x y = true.
#[global] Instance f64_le_dec : RelDecision f64_le.
Proof. intros x y. unfold f64_le. apply _. Defined.

Lemma f64_le_key x y : f64_le x y <-> key_cmp (f64_key x) (f64_key y) <> Gt.
Proof. unfold f64_le, f64_leb. rewrite f64_cmp_key. by destruct (key_cmp _ _). Qed.

#[global] Instance f64_le_total : Total f64_le.
Proof. intros x y. rewrite !f64_le_key, !key_cmp_le. lia. Qed.
#[global] Instance f64_le_trans : Transitive f64_le.
Proof. intros x y z. rewrite !f64_le_key, !key_cmp_le. lia. Qed.

(** ** Exactness on integers *)

Lemma digits_log2 p : Zpos (digits2_pos p) = Z.log2 (Zpos p) + 1.
Proof.
  induction p as [p IH|p IH|]; [| |done]; cbn [digits2_pos]; rewrite Pos2Z.inj_succ, IH.
  - rewrite Pos2Z.inj_xI, Z.log2_succ_double by lia. lia.
  - rewrite Pos2Z.inj_xO, Z.log2_double by lia. lia.
Qed.

Lemma iter_pos_comm {A} (f : A -> A) p x : iter_pos f p (f x) = f (iter_pos f p x).
Proof.
  revert x. induction p as [p IH|p IH|]; intros x; simpl; [| |done]; by rewrite !IH.
Qed.

Lemma iter_pos_succ {A} (f : A -> A) p x : iter_pos f (Pos.succ p) x = iter_pos f p (f x).
Proof.
  revert x. induction p as [p IH|p IH|]; intros x; simpl; [|done|done].
  by rewrite !IH, !iter_pos_comm.
Qed.

Lemma shr_exact p m : 0 < m ->
  iter_pos shr_1 p {| shr_m := m * 2 ^ Zpos p; shr_r := false; shr_s := false |}
  = {| shr_m := m; shr_r := false; shr_s := false |}.
Proof.
  revert m. induction p as [|p IH] using Pos.peano_ind; intros m Hm.
  - simpl. destruct m as [|m|]; [lia| |lia]. by rewrite Z.mul_comm.
  - rewrite iter_pos_succ.
    replace (m * 2 ^ Zpos (Pos.succ p)) with (2 * (m * 2 ^ Zpos p))
      by (rewrite Pos2Z.inj_succ, Z.pow_succ_r; lia).
    assert (0 < m * 2 ^ Zpos p) as Hpos by (apply Z.mul_pos_pos; [lia|by apply Z.pow_pos_nonneg]).
    rewrite <- (IH m Hm) at 1. f_equal. by destruct (m * 2 ^ Zpos p).
Qed.

Lemma shl_exact m d : Zpos (Pos.iter xO m d) = Zpos m * 2 ^ Zpos d.
Proof.
  induction d as [|d IH] using Pos.peano_ind; [simpl; lia|].
  rewrite Pos.iter_succ, Pos2Z.inj_xO, IH, Pos2Z.inj_succ, Z.pow_succ_r by lia. lia.
Qed.

(** [x] is the double whose value is the integer [n]. *)
Definition is_int (x : f64) (n : Z) : Prop :=
  match x with
  | S754_zero _ => n = 0
  | S754_finite s m e =>
      Z.log2 (Zpos m) = 52 /\ e <= 0 /\ Zpos m = Z.abs n * 2 ^ (- e) /\ s = (n <? 0)
  | _ => False
  end.

Lemma fexp_small d : 0 < d <= 53 -> fexp 53 1024 d = d - 53.
Proof. unfold fexp, emin. lia. Qed.

Lemma log2_small n : 0 < n < 2 ^ 53 -> 0 <= Z.log2 n <= 52.
Proof. intros [? ?]. split; [apply Z.log2_nonneg|]. assert (Z.log2 n < 53); [|lia]. by apply Z.log2_lt_pow2. Qed.

(** Rounding a mantissa that is an exact multiple gives the integer back. *)
Lemma round_aux_exact s n k :
  0 < n < 2 ^ 53 -> 52 - Z.log2 n <= k ->
  binary_round_aux 53 1024 s (n * 2 ^ k) (- k) loc_Exact
  = S754_finite s (Z.to_pos (n * 2 ^ (52 - Z.log2 n))) (Z.log2 n - 52).
Proof.
  intros Hn Hk. pose proof (log2_small n Hn) as Hd. unfold binary_round_aux, shr_fexp.
  assert (0 < n * 2 ^ k) as Hpos by (apply Z.mul_pos_pos; [lia|apply Z.pow_pos_nonneg; lia]).
  assert (Zdigits2 (n * 2 ^ k) = Z.log2 n + 1 + k) as ->.
  { destruct (n * 2 ^ k) eqn:E; [lia| |lia]. simpl. rewrite digits_log2, <- E.
    rewrite Z.log2_mul_pow2 by lia. lia. }
  replace (Z.log2 n + 1 + k + - k) with (Z.log2 n + 1) by lia.
  rewrite fexp_small by lia. set (M := n * 2 ^ (52 - Z.log2 n)).
  assert (0 < M) as HM by (apply Z.mul_pos_pos; [lia|apply Z.pow_pos_nonneg; lia]).
  assert (shr (shr_record_of_loc (n * 2 ^ k) loc_Exact) (- k) (Z.log2 n + 1 - 53 - - k)
          = ({| shr_m := M; shr_r := false; shr_s := false |}, Z.log2 n - 52)) as ->.
  { destruct (Z.log2 n + 1 - 53 - - k) as [|q|] eqn:E; [| |lia].
    - simpl. do 2 f_equal; [|lia]. unfold M. do 2 f_equal. lia.
    - unfold shr. f_equal; [|lia]. rewrite <- (shr_exact q M HM). simpl. do 2 f_equal.
      unfold M. rewrite <- Z.mul_assoc, <- Z.pow_add_r by lia. do 2 f_equal. lia. }
  simpl. assert (Zdigits2 M = 53) as ->.
  { destruct M eqn:E; [lia| |lia]. simpl. rewrite digits_log2, <- E. unfold M.
    rewrite Z.log2_mul_pow2 by lia. lia. }
  replace (53 + (Z.log2 n - 52)) with (Z.log2 n + 1) by lia. rewrite fexp_small by lia.
  replace (Z.log2 n + 1 - 53 - (Z.log2 n - 52)) with 0 by lia. simpl.
  destruct M eqn:E; [lia| |lia]. destruct (Z.leb_spec (Z.log2 n - 52) (1024 - 53)); [done|lia].
Qed.

Lemma exact_is_int s n :
  0 < n < 2 ^ 53 ->
  is_int (S754_finite s (Z.to_pos (n * 2 ^ (52 - Z.log2 n))) (Z.log2 n - 52))
         (if s then - n else n).
Proof.
  intros Hn. pose proof (log2_small n Hn) as Hd.
  assert (0 < n * 2 ^ (52 - Z.log2 n)) by (apply Z.mul_pos_pos; [lia|apply Z.pow_pos_nonneg; lia]).
  unfold is_int. rewrite Z2Pos.id by lia. split_and!.
  - rewrite Z.log2_mul_pow2 by lia. lia.
  - lia.
  - replace (Z.abs (if s then - n else n)) with n by (destruct s; lia). do 2 f_equal. lia.
  - destruct s; lia.
Qed.

Lemma round_is_int s n k m :
  0 < n < 2 ^ 53 -> 0 <= k -> Zpos m = n * 2 ^ k ->
  is_int (binary_round 53 1024 s m (- k)) (if s then - n else n).
Proof.
  intros Hn Hk Hm. pose proof (log2_small n Hn) as Hd. unfold binary_round.
  rewrite digits_log2, Hm, Z.log2_mul_pow2 by lia.
  replace (k + Z.log2 n + 1 + - k) with (Z.log2 n + 1) by lia.
  rewrite fexp_small by lia. unfold shl_align.
  assert (forall k', 52 - Z.log2 n <= k' ->
    is_int (binary_round_aux 53 1024 s (n * 2 ^ k') (- k') loc_Exact) (if s then - n else n)) as Haux.
  { intros k' Hk'. rewrite round_aux_exact by done. by apply exact_is_int. }
  destruct (Z.log2 n + 1 - 53 - - k) as [|q|q] eqn:E.
  - rewrite Hm. apply Haux. lia.
  - rewrite Hm. apply Haux. lia.
  - rewrite shl_exact, Hm. replace (Z.log2 n + 1 - 53) with (- (52 - Z.log2 n)) by lia.
    rewrite <- Z.mul_assoc, <- Z.pow_add_r by lia.
    replace (k + Zpos q) with (52 - Z.log2 n) by lia. apply Haux. lia.
Qed.

Lemma normalize_is_int n k m szero :
  Z.abs n < 2 ^ 53 -> 0 <= k -> m = n * 2 ^ k ->
  is_int (binary_normalize 53 1024 m (- k) szero) n.
Proof.
  intros Hn Hk ->. assert (0 < 2 ^ k) by (apply Z.pow_pos_nonneg; lia).
  unfold binary_normalize. destruct (n * 2 ^ k) as [|p|p] eqn:E.
  - simpl. nia.
  - assert (0 < n) by nia. apply (round_is_int false n k p); [lia|done|lia].
  - assert (n < 0) by nia. replace n with (- - n) by lia.
    apply (round_is_int true (- n) k p); [lia|done|lia].
Qed.

(** Conversion, product and difference of integers below 2^53 are exact. *)
Lemma f64_of_Z_exact n : Z.abs n < 2 ^ 53 -> is_int (f64_of_Z n) n.
Proof. intros Hn. apply (normalize_is_int n 0); [done|done|]. rewrite Z.mul_1_r. done. Qed.

Lemma is_int_nonneg_finite s m e n :
  is_int (S754_finite s m e) n -> n <> 0 /\ s = (n <? 0) /\ cond_Zopp s (Zpos m) = n * 2 ^ (- e).
Proof.
  intros (_&_&Hm&->). assert (n <> 0) by (intros ->; simpl in Hm; lia). split_and!; [done|done|].
  unfold cond_Zopp. destruct (Z.ltb_spec n 0); rewrite Hm; [|f_equal; lia].
  rewrite <- Z.mul_opp_l. f_equal. lia.
Qed.

Lemma f64_mul_exact x y a b :
  is_int x a -> is_int y b -> Z.abs (a * b) < 2 ^ 53 -> is_int (f64_mul x y) (a * b).
Proof.
  intros Hx Hy Hab. destruct x as [sx| | |sx mx ex], y as [sy| | |sy my ey]; try done;
    try (simpl in *; lia).
  pose proof Hx as (Hlx&Hex&Hmx&->). pose proof Hy as (Hly&Hey&Hmy&->).
  destruct (is_int_nonneg_finite _ _ _ _ Hx) as (Ha&_&_).
  destruct (is_int_nonneg_finite _ _ _ _ Hy) as (Hb&_&_).
  unfold f64_mul, SFmul. rewrite Pos2Z.inj_mul, Hmx, Hmy.
  replace (Z.abs a * 2 ^ (- ex) * (Z.abs b * 2 ^ (- ey)))
    with (Z.abs (a * b) * 2 ^ (- (ex + ey)))
    by (rewrite Z.abs_mul, Z.opp_add_distr, Z.pow_add_r by lia; ring).
  replace (ex + ey) with (- - (ex + ey)) at 2 by lia.
  assert (0 < Z.abs (a * b)) by nia.
  rewrite round_aux_exact; [|lia|].
  - replace (xorb (a <? 0) (b <? 0)) with (a * b <? 0).
    + assert ((if a * b <? 0 then - Z.abs (a * b) else Z.abs (a * b)) = a * b) as Hsign
        by (destruct (Z.ltb_spec (a * b) 0); lia).
      pose proof (exact_is_int (a * b <? 0) (Z.abs (a * b)) ltac:(lia)) as Hint.
      by rewrite Hsign in Hint.
    + destruct (Z.ltb_spec a 0), (Z.ltb_spec b 0), (Z.ltb_spec (a * b) 0); simpl; try done; nia.
  - assert (Z.log2 (Z.abs a) - ex = 52) as Ea.
    { rewrite Hmx, Z.log2_mul_pow2 in Hlx by lia. lia. }
    assert (Z.log2 (Z.abs b) - ey = 52) as Eb.
    { rewrite Hmy, Z.log2_mul_pow2 in Hly by lia. lia. }
    pose proof (Z.log2_mul_below (Z.abs a) (Z.abs b) ltac:(lia) ltac:(lia)) as Hlog.
    rewrite Z.abs_mul. pose proof (Z.log2_nonneg (Z.abs a)). lia.
Qed.

Lemma shl_align_exact m e ez : ez <= e -> Zpos (fst (shl_align m e ez)) = Zpos m * 2 ^ (e - ez).
Proof.
  intros He. unfold shl_align. destruct (ez - e) as [|q|q] eqn:E; [|lia|].
  - replace (e - ez) with 0 by lia. simpl. lia.
  - simpl. rewrite shl_exact. do 2 f_equal. lia.
Qed.

Lemma f64_sub_exact x y a b :
  is_int x a -> is_int y b -> Z.abs (a - b) < 2 ^ 53 -> is_int (f64_sub x y) (a - b).
Proof.
  intros Hx Hy Hab. destruct x as [sx| | |sx mx ex], y as [sy| | |sy my ey]; try done.
  - simpl in *. destruct sx, sy; simpl; lia.
  - simpl in Hx. subst a. pose proof Hy as (Hly&Hey&Hmy&->).
    destruct (is_int_nonneg_finite _ _ _ _ Hy) as (Hb&_&_). simpl.
    rewrite Z.abs_opp. split_and!; try done. destruct (Z.ltb_spec b 0), (Z.ltb_spec (- b) 0); simpl; lia.
  - simpl in Hy. subst b. by rewrite Z.sub_0_r.
  - destruct (is_int_nonneg_finite _ _ _ _ Hx) as (_&_&Ex).
    destruct (is_int_nonneg_finite _ _ _ _ Hy) as (_&_&Ey).
    destruct Hx as (_&Hex&_&_), Hy as (_&Hey&_&_).
    unfold f64_sub, SFsub. replace (Z.min ex ey) with (- - Z.min ex ey) at 3 by lia.
    apply normalize_is_int; [done|lia|]. rewrite !shl_align_exact by lia.
    assert (forall s m e, cond_Zopp s (Zpos m * 2 ^ (e - Z.min ex ey))
              = cond_Zopp s (Zpos m) * 2 ^ (e - Z.min ex ey)) as Hc
      by (intros [] m e; simpl; lia).
    rewrite !Hc, Ex, Ey, <- !Z.mul_assoc, <- !Z.pow_add_r by lia.
    replace (- ex + (ex - Z.min ex ey)) with (- Z.min ex ey) by lia.
    replace (- ey + (ey - Z.min ex ey)) with (- Z.min ex ey) by lia. ring.
Qed.

Lemma is_int_magnitude s m e n :
  is_int (S754_finite s m e) n -> 2 ^ (e + 52) <= Z.abs n < 2 ^ (e + 53).
Proof.
  intros (Hl&He&Hm&_). assert (0 < Z.abs n) by (destruct (decide (n = 0)) as [->|]; [simpl in Hm; lia|lia]).
  assert (Z.log2 (Z.abs n) = e + 52) as Hlog.
  { rewrite Hm, Z.log2_mul_pow2 in Hl by lia. lia. }
  rewrite <- Hlog. replace (e + 53) with (Z.succ (Z.log2 (Z.abs n))) by lia.
  by apply Z.log2_spec.
Qed.

Lemma exponent_order ex ey a b :
  ex < ey -> ex + 52 >= 0 -> a < 2 ^ (ex + 53) -> 2 ^ (ey + 52) <= b -> a < b.
Proof.
  intros Hlt Hex Ha Hb. assert (2 ^ (ex + 53) <= 2 ^ (ey + 52)); [|lia].
  apply Z.pow_le_mono_r; lia.
Qed.

Lemma is_int_exponent s m e n : is_int (S754_finite s m e) n -> 0 <= e + 52.
Proof.
  intros Hx. destruct (decide (0 <= e + 52)) as [|Hneg]; [done|exfalso].
  pose proof (is_int_magnitude _ _ _ _ Hx) as [_ Hm].
  destruct (is_int_nonneg_finite _ _ _ _ Hx) as (Hn&_&_).
  assert (2 ^ (e + 53) <= 2 ^ 0) by (apply Z.pow_le_mono_r; lia). simpl in *. lia.
Qed.

(** The magnitudes of two integers compare as exponent, then mantissa. *)
Lemma magnitude_cmp sx mx ex a sy my ey b :
  is_int (S754_finite sx mx ex) a -> is_int (S754_finite sy my ey) b ->
  (Z.abs a ?= Z.abs b)
  = match ex ?= ey with Eq => (mx ?= my)%positive | c => c end.
Proof.
  intros Hx Hy. pose proof Hy as (_&Hey&_&_). pose proof (is_int_magnitude _ _ _ _ Hx) as Ma.
  pose proof (is_int_magnitude _ _ _ _ Hy) as Mb.
  pose proof (is_int_exponent _ _ _ _ Hx) as Ea. pose proof (is_int_exponent _ _ _ _ Hy) as Eb.
  destruct (Z.compare_spec ex ey) as [->|Hlt|Hgt].
  - destruct Hx as (_&_&Hmx&_), Hy as (_&_&Hmy&_). change (mx ?= my)%positive with (Zpos mx ?= Zpos my).
    rewrite Hmx, Hmy. assert (0 < 2 ^ (- ey)) by (apply Z.pow_pos_nonneg; lia).
    destruct (Z.compare_spec (Z.abs a) (Z.abs b)),
      (Z.compare_spec (Z.abs a * 2 ^ (- ey)) (Z.abs b * 2 ^ (- ey))); try done; nia.
  - apply Z.compare_lt_iff. apply (exponent_order ex ey); lia.
  - apply Z.compare_gt_iff. apply (exponent_order ey ex); lia.
Qed.

(** Comparing two integers as doubles compares the integers. *)
Lemma f64_geb_exact x y a b : is_int x a -> is_int y b -> f64_geb x y = (b <=? a).
Proof.
  intros Hx Hy. unfold f64_geb.
  enough (f64_cmp x y = (a ?= b)) as ->.
  { destruct (Z.compare_spec a b), (Z.leb_spec b a); try done; lia. }
  destruct x as [sx| | |sx mx ex], y as [sy| | |sy my ey]; try done.
  - simpl in *. by subst.
  - simpl in Hx. subst a. destruct (is_int_nonneg_finite _ _ _ _ Hy) as (Hb&->&_).
    change ((if b <? 0 then Gt else Lt) = (0 ?= b)).
    destruct (Z.ltb_spec b 0), (Z.compare_spec 0 b); try done; lia.
  - simpl in Hy. subst b. destruct (is_int_nonneg_finite _ _ _ _ Hx) as (Ha&->&_).
    change ((if a <? 0 then Lt else Gt) = (a ?= 0)).
    destruct (Z.ltb_spec a 0), (Z.compare_spec a 0); try done; lia.
  - destruct (is_int_nonneg_finite _ _ _ _ Hx) as (Ha&Hsa&Ea).
    destruct (is_int_nonneg_finite _ _ _ _ Hy) as (Hb&Hsb&Eb).
    pose proof (magnitude_cmp _ _ _ _ _ _ _ _ Hx Hy) as Hmag.
    assert (f64_cmp (S754_finite sx mx ex) (S754_finite sy my ey) =
      match sx, sy with
      | true, false => Lt | false, true => Gt
      | false, false => Z.abs a ?= Z.abs b
      | true, true => CompOpp (Z.abs a ?= Z.abs b)
      end) as ->.
    { rewrite Hmag. unfold f64_cmp, SFcompare.
      change (Pos.compare_cont Eq mx my) with (mx ?= my)%positive.
      destruct sx, sy; simpl; try done; by destruct (ex ?= ey). }
    subst sx sy. rewrite <- Z.compare_antisym.
    destruct (Z.ltb_spec a 0), (Z.ltb_spec b 0).
    + rewrite !Z.abs_neq by lia. apply Z.compare_opp.
    + symmetry. apply Z.compare_lt_iff. lia.
    + symmetry. apply Z.compare_gt_iff. lia.
    + by rewrite !Z.abs_eq by lia.
Qed.

(** [x.floor()] and [x > y] of Rust doubles. *)
Definition f64_floor (x : f64) : f64 :=
  match x with
  | S754_finite s m e =>
      if 0 <=? e then x else f64_of_Z (Z.shiftr (cond_Zopp s (Zpos m)) (- e))
  | _ => x
  end.
Definition f64_gtb (x y : f64) : bool := SFltb y x.

Lemma f64_floor_exact x n : is_int x n -> is_int (f64_floor x) n.
Proof.
  intros Hx. destruct x as [| | |s m e]; try done. unfold f64_floor.
  destruct (Z.leb_spec 0 e) as [|He]; [done|].
  destruct (is_int_nonneg_finite _ _ _ _ Hx) as (_&_&->).
  rewrite Z.shiftr_div_pow2, Z.div_mul by (try apply Z.pow_nonzero; lia).
  apply f64_of_Z_exact. pose proof (is_int_magnitude _ _ _ _ Hx) as [_ Hm].
  assert (2 ^ (e + 53) <= 2 ^ 53) by (apply Z.pow_le_mono_r; lia). lia.
Qed.

Lemma f64_gtb_exact x y a b : is_int x a -> is_int y b -> f64_gtb x y = (b <? a).
Proof.
  intros Hx Hy. pose proof (f64_geb_exact y x b a Hy Hx) as Hge.
  assert (f64_gtb x y = negb (f64_geb y x)) as ->.
  { unfold f64_gtb, SFltb, f64_geb, f64_cmp. destruct x, y; try done; simpl; repeat case_match; done. }
  rewrite Hge. by rewrite Z.ltb_antisym.
Qed.

(** The test of a grown allocation against the rounded-down budget, exact for the
    same quantities. *)
Lemma floor_budget_exact total r n :
  0 <= total < 2 ^ 53 -> 0 <= r < 2 ^ 53 -> total * r < 2 ^ 53 -> 0 <= n < 2 ^ 53 ->
  f64_gtb (f64_of_Z n) (f64_floor (f64_mul (f64_of_Z total) (f64_of_Z r))) = (total * r <? n).
Proof.
  intros Ht Hr Htr Hn. apply f64_gtb_exact; [apply f64_of_Z_exact; lia|]. apply f64_floor_exact.
  apply f64_mul_exact; [apply f64_of_Z_exact; lia..|]. rewrite Z.abs_eq; nia.
Qed.

Definition f64_div (x y : f64) : f64 := SFdiv 53 1024 x y.

(** [x as i32]: towards zero, saturating, zero for a value that is not a number. *)
Definition f64_as_i32 (x : f64) : Z :=
  match x with
  | S754_zero _ | S754_nan => 0
  | S754_infinity s => if s then i32_min else i32_max
  | S754_finite s m e =>
      let n := if 0 <=? e then Z.shiftl (Zpos m) e else Z.shiftr (Zpos m) (- e) in
      Z.max i32_min (Z.min i32_max (if s then - n else n))
  end.

(** The test of a budget: [total * ratio - allocated >= requested]. *)
Definition within_budget (total : Z) (ratio : f64) (allocated requested : Z) : bool :=
  f64_geb (f64_sub (f64_mul (f64_of_Z total) ratio) (f64_of_Z allocated)) (f64_of_Z requested).

(** With an integral ratio and quantities below 2^53 the test is exact. *)
Lemma within_budget_exact total r allocated requested :
  0 <= total < 2 ^ 53 -> 0 <= r < 2 ^ 53 -> total * r < 2 ^ 53 ->
  0 <= allocated < 2 ^ 53 -> 0 <= requested < 2 ^ 53 ->
  within_budget total (f64_of_Z r) allocated requested = true <->
  allocated + requested <= total * r.
Proof.
  intros Ht Hr Htr Ha Hq. unfold within_budget.
  rewrite (f64_geb_exact _ _ (total * r - allocated) requested).
  - rewrite Z.leb_le. lia.
  - apply f64_sub_exact; [apply f64_mul_exact| |]; try apply f64_of_Z_exact; nia.
  - apply f64_of_Z_exact. lia.
Qed.
