(* ===== verification/FloatRounding.v ===== *)
(** * FloatRounding: how far a rounded budget is from the exact one

    A resize compares an allocation with [(total * ratio).floor()] in double
    precision.  For an integral ratio the product is exact (Float64.v); for any other
    ratio it is rounded to nearest.  The lemmas follow the rounding of the Standard
    Library's executable specification and bound an accepted allocation by the exact
    product, with the relative error 2^-53 of one rounding. *)

From S2P Require Import Prelude Tables Float64.
#[local] Open Scope Z_scope.

(** A positive double. *)
Definition positive_double (x : f64) : Prop :=
  match x with S754_finite false m e => bounded 53 1024 m e = true | _ => False end.

(** [n <= total * ratio * (1 + 2^-53)], for the exact value of the ratio. *)
Definition within_ratio (n total : Z) (ratio : f64) : Prop :=
  match ratio with
  | S754_finite false m e =>
      n * 2 ^ Z.max 0 (- e) * 2 ^ 53 <= total * Zpos m * 2 ^ Z.max 0 e * (2 ^ 53 + 1)
  | _ => False
  end.

Lemma shr_1_half m r s :
  0 <= m -> let x := shr_1 {| shr_m := m; shr_r := r; shr_s := s |} in
  0 <= shr_m x /\ m = 2 * shr_m x + (if shr_r x then 1 else 0).
Proof. intros Hm. destruct m as [|[p|p|]|]; simpl; lia. Qed.

(** The bits that are shifted out: the mantissa is the quotient, and the rounding
    bit is set only when the rest is at least a half. *)
Lemma shr_spec p m :
  0 <= m -> let x := iter_pos shr_1 p {| shr_m := m; shr_r := false; shr_s := false |} in
  0 <= shr_m x /\ shr_m x * 2 ^ Zpos p <= m < (shr_m x + 1) * 2 ^ Zpos p /\
  (shr_r x = true -> (2 * shr_m x + 1) * 2 ^ Zpos p <= 2 * m).
Proof.
  intros Hm. induction p as [|p IH] using Pos.peano_ind; cbv zeta in *.
  - pose proof (shr_1_half m false false Hm) as Hh. cbv zeta in Hh. cbn [iter_pos].
    destruct (shr_1 _) as [m' r' s']. cbn [shr_m shr_r] in *. destruct r'; lia.
  - rewrite iter_pos_succ, iter_pos_comm. destruct (iter_pos shr_1 p _) as [q r s]. cbn [shr_m shr_r] in *.
    destruct IH as (Hq&Hb&_). pose proof (shr_1_half q r s Hq) as Hh. cbv zeta in Hh.
    destruct (shr_1 _) as [m' r' s']. cbn [shr_m shr_r] in *. rewrite Pos2Z.inj_succ, Z.pow_succ_r by lia.
    assert (0 < 2 ^ Zpos p) by (by apply Z.pow_pos_nonneg). destruct r'; nia.
Qed.

(** Rounding to nearest adds at most a half. *)
Lemma round_half p m :
  0 <= m -> let x := iter_pos shr_1 p {| shr_m := m; shr_r := false; shr_s := false |} in
  let y := round_nearest_even (shr_m x) (loc_of_shr_record x) in
  shr_m x <= y <= shr_m x + 1 /\ 2 * y * 2 ^ Zpos p <= 2 * m + 2 ^ Zpos p.
Proof.
  intros Hm. pose proof (shr_spec p m Hm) as Hs. cbv zeta in *. destruct (iter_pos _ _ _) as [q r s].
  cbn [shr_m shr_r] in *. destruct Hs as (Hq&Hb&Hr). assert (0 < 2 ^ Zpos p) by (by apply Z.pow_pos_nonneg).
  destruct r, s; cbn [loc_of_shr_record round_nearest_even]; try specialize (Hr eq_refl); repeat case_match; nia.
Qed.

Lemma shr_round M E n :
  0 <= M -> 0 <= n -> let x := shr {| shr_m := M; shr_r := false; shr_s := false |} E n in
  let y := round_nearest_even (shr_m x.1) (loc_of_shr_record x.1) in
  x.2 = E + n /\ shr_m x.1 * 2 ^ n <= M < (shr_m x.1 + 1) * 2 ^ n /\
  0 <= shr_m x.1 <= y /\ y <= shr_m x.1 + 1 /\ 2 * y * 2 ^ n <= 2 * M + 2 ^ n.
Proof.
  intros HM Hn. cbv zeta. destruct n as [|p|]; [|cbn [shr fst snd]|lia].
  - cbn. lia.
  - pose proof (shr_spec p M HM) as Hs. pose proof (round_half p M HM) as Hr. cbv zeta in *. lia.
Qed.

Lemma digits_pos m : 0 < m -> Zdigits2 m = Z.log2 m + 1.
Proof. intros Hm. destruct m as [|p|]; [lia| |lia]. apply digits_log2. Qed.

(** A mantissa of at most 53 digits is kept, 2^53 loses one. *)
Lemma shr_again y E :
  0 <= y <= 2 ^ 53 -> -1074 <= E ->
  exists E', let x := shr_fexp 53 1024 y E loc_Exact in
    x.2 = E' /\ (E' = E /\ shr_m x.1 = y /\ y < 2 ^ 53 \/ E' = E + 1 /\ shr_m x.1 = 2 ^ 52 /\ y = 2 ^ 53).
Proof.
  intros Hy HE. unfold shr_fexp, fexp, emin. cbn [shr_record_of_loc]. destruct (decide (y = 2 ^ 53)) as [->|Hne].
  - exists (E + 1). change (Zdigits2 (2 ^ 53)) with 54. replace (Z.max _ _ - E) with 1 by lia. split; [done|]. right. split_and!; reflexivity.
  - exists E. assert (Zdigits2 y <= 53) as Hd.
    { destruct (decide (y = 0)) as [->|]; [done|]. rewrite digits_pos by lia. pose proof (log2_small y ltac:(lia)). lia. }
    destruct (Z.max _ _ - E) as [|p|p] eqn:Hsh; [|lia|]; cbn [shr fst snd shr_m]; lia.
Qed.

(** The product before rounding is [M * 2 ^ E].  What rounding gives, unless it is tiny, has 53
    digits and is at most one part in 2^53 larger. *)
Lemma round_close M E :
  2 ^ 52 <= M < 2 ^ 106 -> E <= 0 ->
  match binary_round_aux 53 1024 false M E loc_Exact with
  | S754_zero _ => True
  | S754_finite s m e => s = false /\ e <= 54 /\ Zpos m < 2 ^ 53 /\
      (-1073 < e -> E <= e /\ 2 ^ 52 <= Zpos m /\ Zpos m * 2 ^ (e - E) * 2 ^ 53 <= M * (2 ^ 53 + 1))
  | _ => False
  end.
Proof.
  intros HM HE. unfold binary_round_aux. destruct (shr_fexp _ _ M E _) as [x e1] eqn:Hx1.
  unfold shr_fexp, fexp, emin in Hx1. rewrite digits_pos in Hx1 by lia. cbn [shr_record_of_loc] in Hx1.
  assert (2 ^ Z.log2 M <= M < 2 ^ (Z.log2 M + 1)) as HL by (apply Z.log2_spec; lia).
  assert (52 <= Z.log2 M <= 105) as Hlog.
  { split; [by apply Z.log2_le_pow2; lia|]. assert (Z.log2 M < 106); [|lia]. apply Z.log2_lt_pow2; lia. }
  set (n := Z.max (Z.log2 M + 1 + E - 53) (3 - 1024 - 53) - E) in Hx1.
  pose proof (shr_round M E n ltac:(lia) ltac:(lia)) as Hr. rewrite Hx1 in Hr. cbv zeta in Hr. cbn [fst snd] in Hr.
  set (y := round_nearest_even _ _) in *. destruct Hr as (He1&Hq&Hy&Hy1&Hhalf).
  assert (0 < 2 ^ n) by (apply Z.pow_pos_nonneg; lia).
  assert (shr_m x < 2 ^ 53) as Hx.
  { apply (Z.mul_lt_mono_pos_r (2 ^ n)); [done|]. rewrite <- Z.pow_add_r by lia.
    assert (2 ^ (Z.log2 M + 1) <= 2 ^ (53 + n)) by (apply Z.pow_le_mono_r; lia). lia. }
  destruct (shr_again y e1 ltac:(lia) ltac:(lia)) as (e2&Hsh). cbv zeta in Hsh.
  destruct (shr_fexp _ _ y e1 _) as [x2 e2'] eqn:Hx2. cbn [fst snd] in Hsh. destruct Hsh as [-> Hsh].
  destruct (shr_m x2) as [|m|m] eqn:Hm; [done| |lia].
  destruct (Z.leb_spec e2 (1024 - 53)); [|lia]. split_and!; [done|lia|lia|]. intros Hbig.
  assert (n = Z.log2 M - 52) as Hn by lia. rewrite Hn in *. clear Hx1 Hx2.
  assert (2 ^ Z.log2 M = 2 ^ 52 * 2 ^ (Z.log2 M - 52)) as Hpow by (rewrite <- Z.pow_add_r by lia; f_equal; lia).
  assert (2 ^ 52 <= shr_m x) as Hxlow by nia.
  assert (Zpos m * 2 ^ (e2 - E) = y * 2 ^ (Z.log2 M - 52)) as Hval.
  { destruct Hsh as [(->&Hmy&_)|(->&Hmy&Hy53)].
    - rewrite Hmy. do 2 f_equal. lia.
    - rewrite Hmy, Hy53. replace (e1 + 1 - E) with (1 + (Z.log2 M - 52)) by lia. rewrite Z.pow_add_r by lia. lia. }
  split_and!; [lia|lia|]. rewrite Hval. nia.
Qed.

Lemma bounded_digits m e : bounded 53 1024 m e = true -> Zpos m < 2 ^ 53 /\ (-1074 < e -> 2 ^ 52 <= Zpos m).
Proof.
  unfold bounded, canonical_mantissa, fexp, emin. intros [Hc%Z.eqb_eq _]%andb_true_iff. rewrite digits_log2 in Hc.
  assert (2 ^ Z.log2 (Zpos m) <= Zpos m < 2 ^ (Z.log2 (Zpos m) + 1)) as HL by (by apply Z.log2_spec).
  pose proof (Z.log2_nonneg (Zpos m)). split.
  - assert (2 ^ (Z.log2 (Zpos m) + 1) <= 2 ^ 53) by (apply Z.pow_le_mono_r; lia). lia.
  - intros He. assert (Z.log2 (Zpos m) = 52) as Hl by lia. rewrite Hl in HL. lia.
Qed.

(** An integer that is not above a rounded-down double is not above the double. *)
Lemma floor_above n m e :
  0 <= n < 2 ^ 53 -> Zpos m < 2 ^ 53 -> e <= 54 -> (-1073 < e -> 2 ^ 52 <= Zpos m) ->
  f64_gtb (f64_of_Z n) (f64_floor (S754_finite false m e)) = false ->
  n = 0 \/ -1073 < e /\ n * 2 ^ Z.max 0 (- e) <= Zpos m * 2 ^ Z.max 0 e.
Proof.
  intros Hn Hm He Hnorm. unfold f64_floor. assert (is_int (f64_of_Z n) n) as Hi by (apply f64_of_Z_exact; lia).
  destruct (Z.leb_spec 0 e) as [Hpos|Hneg].
  - intros Hle. right. split; [lia|]. specialize (Hnorm ltac:(lia)). rewrite Z.max_l, Z.max_r by lia.
    destruct (decide (e = 0)) as [->|Hne].
    + assert (is_int (S754_finite false m 0) (Zpos m)) as Hj.
      { split_and!; [|done|simpl; lia|done]. apply Z.log2_unique; lia. }
      rewrite (f64_gtb_exact _ _ _ _ Hi Hj) in Hle. apply Z.ltb_ge in Hle. lia.
    + assert (2 ^ 1 <= 2 ^ e) by (apply Z.pow_le_mono_r; lia). nia.
  - cbn [cond_Zopp]. rewrite Z.shiftr_div_pow2 by lia. assert (0 < 2 ^ (- e)) by (apply Z.pow_pos_nonneg; lia).
    pose proof (Z.div_pos (Zpos m) (2 ^ (- e)) ltac:(lia) ltac:(done)).
    pose proof (Z.mul_div_le (Zpos m) (2 ^ (- e)) ltac:(done)).
    assert (is_int (f64_of_Z (Zpos m / 2 ^ (- e))) (Zpos m / 2 ^ (- e))) as Hj by (apply f64_of_Z_exact; nia).
    rewrite (f64_gtb_exact _ _ _ _ Hi Hj). intros Hle%Z.ltb_ge. destruct (decide (-1073 < e)) as [Hb|Hb].
    + right. split; [done|]. rewrite Z.max_r, Z.max_l by lia. nia.
    + left. rewrite Z.div_small in Hle; [lia|]. assert (2 ^ 53 <= 2 ^ (- e)) by (apply Z.pow_le_mono_r; lia). lia.
Qed.

(** The test of a resize, for any positive ratio. *)
Lemma floor_budget_close total ratio n :
  0 <= total < 2 ^ 53 -> positive_double ratio -> 0 <= n < 2 ^ 53 ->
  f64_gtb (f64_of_Z n) (f64_floor (f64_mul (f64_of_Z total) ratio)) = false -> within_ratio n total ratio.
Proof.
  intros Ht Hr Hn. destruct ratio as [| | |[] mr er]; try done. apply bounded_digits in Hr as [Hmr Hnr]. unfold within_ratio.
  assert (is_int (f64_of_Z total) total) as Hi by (apply f64_of_Z_exact; lia).
  assert (n = 0 -> n * 2 ^ Z.max 0 (- er) * 2 ^ 53 <= total * Zpos mr * 2 ^ Z.max 0 er * (2 ^ 53 + 1)) as H0.
  { intros ->. assert (0 < 2 ^ Z.max 0 er) by (apply Z.pow_pos_nonneg; lia). nia. }
  destruct (f64_of_Z total) as [s| | |s mx ex]; try done.
  - simpl in Hi. subst total. intros Hle. apply H0. unfold f64_mul, f64_floor, SFmul in Hle.
    rewrite (f64_gtb_exact _ _ n 0) in Hle; [apply Z.ltb_ge in Hle; lia|apply f64_of_Z_exact; lia|done].
  - destruct Hi as (Hl&Hex&Hmx&Hs). assert (s = false) as -> by (rewrite Hs; apply Z.ltb_ge; lia). clear Hs.
    rewrite Z.abs_eq in Hmx by lia. assert (0 < total) by (destruct (decide (total = 0)) as [->|]; lia).
    pose proof (Z.log2_spec (Zpos mx) ltac:(lia)) as HL. rewrite Hl in HL.
    destruct (decide (0 < er)) as [Her|Her].
    { intros _. rewrite Z.max_l, Z.max_r by lia. specialize (Hnr ltac:(lia)).
      assert (2 ^ 1 <= 2 ^ er) by (apply Z.pow_le_mono_r; lia). nia. }
    unfold f64_mul, SFmul. cbn [xorb]. pose proof (round_close (Zpos (mx * mr)) (ex + er) ltac:(nia) ltac:(lia)) as Hrc.
    destruct (binary_round_aux _ _ _ _ _ _) as [s| | |s m e]; try done.
    + intros Hle. apply H0. cbn [f64_floor] in Hle.
      rewrite (f64_gtb_exact _ _ n 0) in Hle; [apply Z.ltb_ge in Hle; lia|apply f64_of_Z_exact; lia|done].
    + destruct Hrc as (->&He&Hm&Hbig). intros Hle. apply floor_above in Hle as [|[Hb Hle]]; [auto| |done|done|done|tauto].
      destruct (Hbig Hb) as (HE&_&Hc). rewrite (Z.max_r 0 (- er)), (Z.max_l 0 er) by lia.
      assert (n * 2 ^ (- (ex + er)) <= Zpos m * 2 ^ (e - (ex + er))) as Hv.
      { replace (2 ^ (- (ex + er))) with (2 ^ Z.max 0 (- e) * 2 ^ (- (ex + er) - Z.max 0 (- e)))
          by (rewrite <- Z.pow_add_r by lia; f_equal; lia).
        replace (2 ^ (e - (ex + er))) with (2 ^ Z.max 0 e * 2 ^ (- (ex + er) - Z.max 0 (- e)))
          by (rewrite <- Z.pow_add_r by lia; f_equal; lia).
        rewrite !Z.mul_assoc. apply Z.mul_le_mono_nonneg_r; [|done]. apply Z.pow_nonneg; lia. }
      rewrite Pos2Z.inj_mul, Hmx in Hc. assert (0 < 2 ^ (- ex)) by (apply Z.pow_pos_nonneg; lia).
      replace (- (ex + er)) with (- ex + - er) in Hv by lia. rewrite Z.pow_add_r in Hv by lia.
      apply (Z.mul_le_mono_pos_r _ _ (2 ^ (- ex))); [done|]. change (2 ^ 0) with 1. lia.
Qed.
