(* ===== verification/NodeApi.v ===== *)
(** * NodeApi: the messages between the control plane and a node

    The calls of the gRPC client [qarax/src/grpc_client.rs] and the bodies of the
    requests the handlers compute.  A reply is success, the node's [NotFound] or
    another failure; what a successful reply carries is an argument of the
    definitions that read it. *)

From S2P Require Import Prelude Text Errors Tables.
#[local] Open Scope Z_scope.

(** ** Firewall and overlay networks *)

Record VmFirewallRule := {
  fr_direction : Z;
  fr_protocol : Z;
  fr_cidr : string;
  fr_port_start : option Z;
  fr_port_end : option Z
}.

Record VmFirewallInterface := {
  fi_bridge_name : string;
  fi_ip : string;
  fi_rules : list VmFirewallRule
}.

Record VpcOverlayRoute := { vr_subnet : string; vr_via_ip : string }.

Record VpcOverlayConfig := {
  vo_vpc_name : string;
  vo_interface_name : string;
  vo_vni : Z;
  vo_local_underlay_ip : string;
  vo_local_overlay_cidr : string;
  vo_peer_underlay_ips : list string;
  vo_routes : list VpcOverlayRoute
}.

(** ** The body of a create request *)

Record NetConfig := {
  nc_id : string;
  nc_tap : option string;
  nc_ip : option string;
  nc_mask : option string;
  nc_mac : option string;
  nc_host_mac : option string;
  nc_mtu : option Z;
  nc_vhost_user : option bool;
  nc_vhost_socket : option string;
  nc_vhost_mode : option Z;
  nc_num_queues : option Z;
  nc_queue_size : option Z;
  nc_offload_tso : option bool;
  nc_offload_ufo : option bool;
  nc_offload_csum : option bool;
  nc_pci_segment : option Z;
  nc_iommu : option bool;
  nc_bridge : option string
}.

Record DiskConfig := {
  dc_id : string;
  dc_path : option string;
  dc_readonly : option bool;
  dc_direct : option bool;
  dc_vhost_user : option bool;
  dc_vhost_socket : option string;
  dc_num_queues : option Z;
  dc_queue_size : option Z;
  dc_rate_limit_group : option string;
  dc_pci_segment : option Z;
  dc_serial : option string;
  dc_oci_image_ref : option string;
  dc_registry_url : option string;
  dc_upper_data_path : option string;
  dc_upper_index_path : option string
}.

Record CpuPinning := { cp_vcpu : Z; cp_host_cpus : list Z }.

Record NumaPlacement := {
  np_host_numa_node_ids : list Z;
  np_cpu_pinning : list CpuPinning;
  np_memory_zone_ids : list string
}.

Record VfioDeviceConfig := {
  vf_id : string;
  vf_path : string;
  vf_iommu : option bool
}.

Record RngConfig := { rc_src : string; rc_iommu : option bool }.

Record ConsoleConfig := {
  cc_mode : Z;
  cc_file : option string;
  cc_socket : option string;
  cc_iommu : option bool
}.

Record VsockConfig := {
  vs_cid : option Z;
  vs_socket : option string;
  vs_iommu : option bool;
  vs_id : option string
}.

(** What the handlers hand to the client. *)
Record CreateVmRequest := {
  cr_vm_id : Uuid;
  cr_boot_vcpus : Z;
  cr_max_vcpus : Z;
  cr_memory_size : Z;
  cr_networks : list NetConfig;
  cr_kernel : option string;
  cr_firmware : option string;
  cr_initramfs : option string;
  cr_cmdline : option string;
  cr_memory_shared : bool;
  cr_memory_hotplug_size : option Z;
  cr_memory_hugepages : bool;
  cr_disks : list DiskConfig;
  cr_cloud_init_user_data : option string;
  cr_cloud_init_meta_data : option string;
  cr_cloud_init_network_config : option string;
  cr_devices : list VfioDeviceConfig;
  cr_vsock : option VsockConfig;
  cr_numa_placement : option NumaPlacement;
  cr_rng : option RngConfig;
  cr_serial : option ConsoleConfig;
  cr_console : option ConsoleConfig;
  cr_hypervisor : Hypervisor
}.

Record CloudInitConfig := {
  ci_user_data : string;
  ci_meta_data : string;
  ci_network_config : string
}.

(** The message [VmConfig] the client sends.  The fields the client always leaves
    empty (CPU topology, page and merging options, rate limiters) are omitted. *)
Record VmMessage := {
  vmm_vm_id : Uuid;
  vmm_hypervisor : Z;
  vmm_boot_vcpus : Z;
  vmm_max_vcpus : Z;
  vmm_memory_size : Z;
  vmm_memory_hotplug_size : option Z;
  vmm_memory_shared : option bool;
  vmm_memory_hugepages : option bool;
  vmm_kernel : option string;
  vmm_cmdline : option string;
  vmm_initramfs : option string;
  vmm_firmware : option string;
  vmm_disks : list DiskConfig;
  vmm_networks : list NetConfig;
  vmm_rng : option RngConfig;
  vmm_serial : ConsoleConfig;
  vmm_console : option ConsoleConfig;
  vmm_cloud_init : option CloudInitConfig;
  vmm_devices : list VfioDeviceConfig;
  vmm_vsock : option VsockConfig;
  vmm_numa_placement : option NumaPlacement
}.

(** [create_vm] of the client; [rootfs] is the environment variable [VM_ROOTFS]. *)
Definition filter_text (p : string -> bool) (s : option string) : option string :=
  s ≫= fun s => if p s then Some s else None.

Definition rootfs_disk (path : string) : DiskConfig :=
  {| dc_id := "rootfs"; dc_path := Some path; dc_readonly := Some false; dc_direct := None;
     dc_vhost_user := None; dc_vhost_socket := None; dc_num_queues := None; dc_queue_size := None;
     dc_rate_limit_group := None; dc_pci_segment := None; dc_serial := None;
     dc_oci_image_ref := None; dc_registry_url := None; dc_upper_data_path := None;
     dc_upper_index_path := None |}.

Definition vm_message (rootfs : option string) (req : CreateVmRequest) : VmMessage :=
  let nonempty s := negb (String.eqb s "") in
  {| vmm_vm_id := cr_vm_id req;
     vmm_hypervisor := match cr_hypervisor req with Firecracker => 1 | CloudHv => 0 end;
     vmm_boot_vcpus := cr_boot_vcpus req; vmm_max_vcpus := cr_max_vcpus req;
     vmm_memory_size := cr_memory_size req; vmm_memory_hotplug_size := cr_memory_hotplug_size req;
     vmm_memory_shared := if cr_memory_shared req then Some true else None;
     vmm_memory_hugepages := if cr_memory_hugepages req then Some true else None;
     vmm_kernel := filter_text nonempty (cr_kernel req);
     vmm_cmdline := filter_text nonempty (cr_cmdline req);
     vmm_initramfs := filter_text (fun s => negb (is_blank s)) (cr_initramfs req);
     vmm_firmware := filter_text nonempty (cr_firmware req);
     vmm_disks := (match rootfs with
                   | Some path => if nonempty path then [rootfs_disk path] else []
                   | None => []
                   end) ++ cr_disks req;
     vmm_networks := cr_networks req; vmm_rng := cr_rng req;
     vmm_serial := default {| cc_mode := 1; cc_file := None; cc_socket := None; cc_iommu := None |}
                     (cr_serial req);
     vmm_console := cr_console req;
     vmm_cloud_init := (fun user_data =>
       {| ci_user_data := user_data;
          ci_meta_data := default ""%string (cr_cloud_init_meta_data req);
          ci_network_config := default ""%string (cr_cloud_init_network_config req) |})
       <$> cr_cloud_init_user_data req;
     vmm_devices := cr_devices req; vmm_vsock := cr_vsock req;
     vmm_numa_placement := cr_numa_placement req |}.

(** ** Calls and replies *)

Inductive RpcCall : Type :=
| GetNodeInfo
| CreateVm (config : VmMessage) | StartVm (vm : Uuid) | StopVm (vm : Uuid) | ForceStopVm (vm : Uuid)
| PauseVm (vm : Uuid) | ResumeVm (vm : Uuid) | DeleteVm (vm : Uuid)
| SyncVmFirewall (vm : Uuid) (interfaces : list VmFirewallInterface) | GetVmInfo (vm : Uuid)
| SnapshotVm (vm : Uuid) (url : string) | DeleteSnapshot (url : string)
| RestoreVm (vm : Uuid) (url : string) (hypervisor : Hypervisor)
| ExecVm (vm : Uuid) (command : list string) (timeout_secs : option Z)
| AddDiskDevice (vm : Uuid) (config : DiskConfig) | RemoveDiskDevice (vm : Uuid) (id : string)
| AddNetworkDevice (vm : Uuid) (config : NetConfig) | RemoveNetworkDevice (vm : Uuid) (id : string)
| ResizeVm (vm : Uuid) (vcpus ram : option Z)
| ResizeDisk (vm : Uuid) (disk path : string) (size : Z)
| ReceiveMigration (config : VmMessage) (port : Z) | SendMigration (vm : Uuid) (url : string)
| DeleteStorageFiles (pool object : Uuid) (upper_layer : bool)
| CreateDisk (path : string) (size : Z) (source : option string) (preallocate : bool)
| CreateDiskFromOverlayBd (path : string) (size : Z) (image_ref registry_url : string)
    (upper_data upper_index : option string)
| DownloadFile (transfer : Uuid) (source destination : string)
| CopyFile (transfer : Uuid) (source destination : string)
| ImportOverlayBdImage (image_ref registry_url : string)
| PreflightImage (image_ref registry_url architecture boot_mode : string)
| AttachStoragePool (pool : Uuid) | DetachStoragePool (pool : Uuid)
| AttachNetwork (bridge subnet gateway dns dhcp_start dhcp_end parent_interface : string)
| DetachNetwork (bridge subnet : string)
| SyncNetworkIsolation (bridge subnet : string) (blocked nat_exempt : list string)
| SyncVpcOverlays (overlays : list VpcOverlayConfig).

(** A reply of the node: success, the node's [NotFound] (which the client
    reports as [Error::NotFound]), any other failure. *)
Inductive RpcOutcome : Type := RpcOk | RpcNotFound | RpcError.

#[global] Instance RpcOutcome_eq_dec : EqDecision RpcOutcome.
Proof. solve_decision. Defined.
