(* ===== verification/World.v ===== *)
(** * World: effects of the control plane

    The handlers and monitors of [qarax/src] run statements against PostgreSQL,
    call the gRPC service of a node, draw random identifiers, read the clock and
    publish events.  A computation is a function of an oracle, which decides
    the outcome of every external interaction, and of a world, which holds the
    database, the open transaction and the log of what was sent out.

    - [Pool] statements act on the committed database, [Tx] statements on the
      private copy of the open transaction; [commit_tx] publishes that copy and
      [drop_tx] discards it, as dropping a [sqlx::Transaction] does.
    - Any statement, [BEGIN] and [COMMIT] included, may be refused: it then has
      no effect and returns the oracle's error.
    - The theorems quantify over the oracle, so they cover every pattern of
      database failures, node replies and clock readings. *)

From S2P Require Import Prelude Errors Tables.
From S2P Require Import NodeApi.
#[local] Open Scope Z_scope.

(** The reply to a webhook request: a response with its status and body (when
    the body could be read), or a transport error. *)
Inductive HttpReply : Type :=
| HttpResponse (status : Z) (body : option string)
| HttpError (msg : string).

(** The state a background start task captures when it is spawned: the host the
    VM is placed on, the VM, the job, the request when the VM must first be created
    on the node, and the status to restore when the start fails. *)
Record StartTask := {
  st_host : Host;
  st_vm_id : Uuid;
  st_job_id : Uuid;
  st_create : option CreateVmRequest;
  st_original_status : VmStatus
}.

(** A live migration, as it was planned. *)
Record PlannedVmMigration := {
  pm_vm_id : Uuid;
  pm_vm_name : string;
  pm_source_host : Host;
  pm_target_host : Host;
  pm_original_status : VmStatus;
  pm_create_req : CreateVmRequest
}.

(** The disk a commit converts, and the parameters of its task. *)
Record OciDiskInfo := {
  ob_disk_id : Uuid;
  ob_image_ref : string;
  ob_registry_url : string;
  ob_upper_data : option string;
  ob_upper_index : option string;
  ob_oci_storage_object_id : Uuid;
  ob_upper_storage_object_id : option Uuid
}.

Record CommitParams := {
  cm_vm_id : Uuid;
  cm_job_id : Uuid;
  cm_previous_status : VmStatus;
  cm_target_pool_id : Uuid;
  cm_size_bytes : Z
}.

(** A request to install a host. *)
Record DeployHostRequest := {
  dr_image : string;
  dr_ssh_port : option Z;
  dr_ssh_user : option string;
  dr_ssh_password : option string;
  dr_ssh_private_key_path : option string;
  dr_install_bootc : option bool;
  dr_reboot : option bool
}.

(** The other background tasks, with what they capture. *)
Inductive Task : Type :=
| ImagePullTask (host : Host) (vm job : Uuid) (image_ref : string) (pool : StoragePool)
    (upper_pool : option Uuid)
| MigrateTask (plan : PlannedVmMigration) (job : Uuid)
| CommitTask (params : CommitParams) (host : Host) (disk : OciDiskInfo)
| TransferTask (transfer : Transfer) (pool : StoragePool)
| CreateDiskTask (host : Host) (object job : Uuid) (path : string) (size : Z) (url : string)
    (preallocate : bool)
| ImportTask (host : Host) (object job : Uuid) (image_ref : string) (pool : StoragePool)
| AttachPoolTask (pool : Uuid)
| PoolRefillTask (vm_template : Uuid)
| SandboxWatchTask (sandbox vm job : Uuid) (is_oci : bool)
| MemberWatchTask (member vm job : Uuid) (is_oci : bool)
| EvacuateTask (host job : Uuid) (original_status : HostStatus) (vms : list Uuid)
| DeployTask (host : Host) (request : DeployHostRequest)
| InitPoolsTask (host_id : Uuid) (host : Host).

(** What leaves the process: calls to a node (its address and port, the call,
    the reply), webhook requests (URL, body, signature header) and VM status
    events of the broadcast bus. *)
Inductive Event : Type :=
| EvHttp (url body : string) (signature : option string) (reply : HttpReply)
| EvRpc (address : string) (port : Z) (call : RpcCall) (reply : RpcOutcome)
| EvVmStatus (vm : Uuid) (name : string) (prev new : VmStatus) (host : option Uuid)
    (tags : list string)
| EvSpawn (task : StartTask)
| EvTask (task : Task).

Record Oracle := {
  o_sql : nat -> option SqlxError;
  o_uuid : nat -> Uuid;
  o_now : nat -> Z;
  o_rpc : nat -> RpcOutcome;
  o_http : nat -> HttpReply
}.

Record World := {
  w_db : Db;
  w_tx : option Db;
  w_step : nat;
  w_log : list Event
}.

Definition M (E A : Type) : Type := Oracle -> World -> World * result E A.

#[global] Instance M_ret {E} : MRet (M E) := fun A a o w => (w, Ok a).
#[global] Instance M_bind {E} : MBind (M E) := fun A B f m o w =>
  match m o w with
  | (w', Ok a) => f a o w'
  | (w', Err e) => (w', Err e)
  end.

Definition throw {E A} (e : E) : M E A := fun o w => (w, Err e).
Definition of_result {E A} (r : result E A) : M E A := fun o w => (w, r).

(** [match m.await { Ok(..) => .., Err(..) => .. }] and [let _ = m.await]. *)
Definition attempt {E F A} (m : M E A) : M F (result E A) := fun o w =>
  match m o w with (w', r) => (w', Ok r) end.

(** The [?] operator on a database result inside a handler. *)
Definition lift_err {E F A} (f : E -> F) (m : M E A) : M F A := fun o w =>
  match m o w with (w', r) => (w', map_err f r) end.
Abbreviation sqlx_q m := (lift_err from_sqlx m).

Definition tick (w : World) : World :=
  {| w_db := w_db w; w_tx := w_tx w; w_step := S (w_step w); w_log := w_log w |}.
Definition set_db (db : Db) (w : World) : World :=
  {| w_db := db; w_tx := w_tx w; w_step := w_step w; w_log := w_log w |}.
Definition set_tx (tx : option Db) (w : World) : World :=
  {| w_db := w_db w; w_tx := tx; w_step := w_step w; w_log := w_log w |}.
Definition add_log (e : Event) (w : World) : World :=
  {| w_db := w_db w; w_tx := w_tx w; w_step := w_step w; w_log := w_log w ++ [e] |}.

(** ** Statements *)

Inductive Conn : Type := Pool | Tx.

Definition conn_db (c : Conn) (w : World) : Db :=
  match c with Pool => w_db w | Tx => default (w_db w) (w_tx w) end.
Definition set_conn_db (c : Conn) (db : Db) (w : World) : World :=
  match c with Pool => set_db db w | Tx => set_tx (Some db) w end.

(** A statement that may change the tables of its connection. *)
Definition execute {A} (c : Conn) (f : Db -> result SqlxError (Db * A)) : M SqlxError A :=
  fun o w =>
    match o_sql o (w_step w) with
    | Some e => (tick w, Err e)
    | None =>
        match f (conn_db c w) with
        | Ok (db, a) => (set_conn_db c db (tick w), Ok a)
        | Err e => (tick w, Err e)
        end
    end.

(** A statement that only reads. *)
Definition query {A} (c : Conn) (f : Db -> result SqlxError A) : M SqlxError A :=
  fun o w =>
    match o_sql o (w_step w) with
    | Some e => (tick w, Err e)
    | None => (tick w, f (conn_db c w))
    end.

Definition begin_tx : M SqlxError unit := fun o w =>
  match o_sql o (w_step w) with
  | Some e => (tick w, Err e)
  | None => (set_tx (Some (w_db w)) (tick w), Ok tt)
  end.

Definition commit_tx : M SqlxError unit := fun o w =>
  match o_sql o (w_step w) with
  | Some e => (set_tx None (tick w), Err e)
  | None => (set_tx None (set_db (default (w_db w) (w_tx w)) (tick w)), Ok tt)
  end.

Definition drop_tx {E} : M E unit := fun o w => (set_tx None w, Ok tt).

(** Under READ COMMITTED a transaction that has written nothing sees, at its next
    statement, the tables as they are committed by then. *)
Definition refresh_tx {E} : M E unit := fun o w => (set_tx (Some (w_db w)) w, Ok tt).

(** [let mut tx = pool.begin().await?; body; tx.commit().await?]: an early
    return inside [body] drops the transaction. *)
Definition in_tx {E A} (of_sqlx : SqlxError -> E) (body : M E A) : M E A := fun o w =>
  match lift_err of_sqlx begin_tx o w with
  | (w1, Err e) => (w1, Err e)
  | (w1, Ok _) =>
      match body o w1 with
      | (w2, Err e) => (set_tx None w2, Err e)
      | (w2, Ok a) =>
          match lift_err of_sqlx commit_tx o w2 with
          | (w3, Ok _) => (w3, Ok a)
          | (w3, Err e) => (w3, Err e)
          end
      end
  end.

(** The same when the body may also return early without committing:
    [Ok (false, a)] drops the transaction and returns [a]. *)
Definition in_tx_opt {E A} (of_sqlx : SqlxError -> E) (body : M E (bool * A)) : M E A := fun o w =>
  match lift_err of_sqlx begin_tx o w with
  | (w1, Err e) => (w1, Err e)
  | (w1, Ok _) =>
      match body o w1 with
      | (w2, Err e) => (set_tx None w2, Err e)
      | (w2, Ok (false, a)) => (set_tx None w2, Ok a)
      | (w2, Ok (true, a)) =>
          match lift_err of_sqlx commit_tx o w2 with
          | (w3, Ok _) => (w3, Ok a)
          | (w3, Err e) => (w3, Err e)
          end
      end
  end.

(** A transaction that is dropped after the body. *)
Definition in_dropped_tx {A} (body : M SqlxError A) : M Error A := fun o w =>
  match sqlx_q begin_tx o w with
  | (w1, Err e) => (w1, Err e)
  | (w1, Ok _) => match sqlx_q body o w1 with (w2, r) => (set_tx None w2, r) end
  end.

(** ** Other effects *)

(** [Uuid::new_v4]. *)
Definition new_uuid {E} : M E Uuid := fun o w => (tick w, Ok (o_uuid o (w_step w))).

(** [Instant::now] and [NOW()]. *)
Definition now {E} : M E Z := fun o w => (tick w, Ok (o_now o (w_step w))).

Definition emit {E} (e : Event) : M E unit := fun o w => (add_log e w, Ok tt).

(** A call through [NodeClient]. *)
Definition rpc {E} (h : Host) (call : RpcCall) : M E RpcOutcome := fun o w =>
  let r := o_rpc o (w_step w) in
  (add_log (EvRpc (h_address h) (as_u16 (h_port h)) call r) (tick w), Ok r).

(** A webhook request. *)
Definition http_post {E} (url body : string) (signature : option string) : M E HttpReply :=
  fun o w =>
    let r := o_http o (w_step w) in
    (add_log (EvHttp url body signature r) (tick w), Ok r).

(** [n] identifiers generated by the database for the rows of one [INSERT]. *)
Fixpoint new_uuids {E} (n : nat) : M E (list Uuid) :=
  match n with
  | O => mret []
  | S n' => u ← new_uuid; us ← new_uuids n'; mret (u :: us)
  end.

(** [for x in xs { body(x).await?; }]. *)
Fixpoint for_all_m {E A} (body : A -> M E unit) (l : list A) : M E unit :=
  match l with
  | [] => mret tt
  | x :: l' => _ ← body x; for_all_m body l'
  end.

(** ** Reasoning *)

(** [steps R m]: every run of [m] moves the world along [R]. *)
Definition steps {E A} (R : relation World) (m : M E A) : Prop :=
  forall o w, R w (m o w).1.

(** [triple P m Q]: from a world that satisfies [P], the outcome of [m] and the
    world it leaves satisfy [Q]. *)
Definition triple {E A} (P : World -> Prop) (m : M E A) (Q : result E A -> World -> Prop) : Prop :=
  forall o w, P w -> Q (m o w).2 (m o w).1.

Section steps.
Context {R : relation World} `{!PreOrder R}.

Lemma steps_ret {E A} (a : A) : steps R (mret a : M E A).
Proof. intros o w. simpl. reflexivity. Qed.

Lemma steps_throw {E A} (e : E) : steps R (throw e : M E A).
Proof. intros o w. simpl. reflexivity. Qed.

Lemma steps_of_result {E A} (r : result E A) : steps R (of_result r).
Proof. intros o w. simpl. reflexivity. Qed.

Lemma steps_bind {E A B} (m : M E A) (f : A -> M E B) :
  steps R m -> (forall a, steps R (f a)) -> steps R (m ≫= f).
Proof.
  intros Hm Hf o w. unfold mbind, M_bind. specialize (Hm o w).
  destruct (m o w) as [w' [a|e]]; simpl in *; [|done].
  etransitivity; [exact Hm | apply Hf].
Qed.

Lemma steps_attempt {E F A} (m : M E A) : steps R m -> steps R (attempt m : M F _).
Proof. intros Hm o w. unfold attempt. specialize (Hm o w). by destruct (m o w). Qed.

Lemma steps_lift_err {E F A} (f : E -> F) (m : M E A) : steps R m -> steps R (lift_err f m).
Proof. intros Hm o w. unfold lift_err. specialize (Hm o w). by destruct (m o w). Qed.

Hypothesis R_tick : forall w, R w (tick w).

Lemma steps_query {A} c (f : Db -> result SqlxError A) : steps R (query c f).
Proof. intros o w. unfold query. by destruct (o_sql o (w_step w)). Qed.

Lemma steps_execute {A} c (f : Db -> result SqlxError (Db * A)) :
  (forall w db a, f (conn_db c w) = Ok (db, a) -> R w (set_conn_db c db w)) ->
  steps R (execute c f).
Proof.
  intros H o w. unfold execute. destruct (o_sql o (w_step w)); [apply R_tick|].
  destruct (f (conn_db c w)) as [[db a]|e] eqn:E; [|apply R_tick].
  simpl. etransitivity; [apply R_tick|]. by apply (H _ _ a).
Qed.

Lemma steps_new_uuid {E} : steps R (new_uuid : M E Uuid).
Proof. intros o w. apply R_tick. Qed.

Lemma steps_now {E} : steps R (now : M E Z).
Proof. intros o w. apply R_tick. Qed.
End steps.

(** Rules for [triple]. *)

Lemma triple_conseq {E A} (P P' : World -> Prop) (m : M E A) (Q Q' : result E A -> World -> Prop) :
  triple P' m Q' -> (forall w, P w -> P' w) -> (forall r w, Q' r w -> Q r w) -> triple P m Q.
Proof. intros H HP HQ o w Hw. apply HQ, H, HP, Hw. Qed.

Lemma triple_ret {E A} (P : World -> Prop) (a : A) (Q : result E A -> World -> Prop) :
  (forall w, P w -> Q (Ok a) w) -> triple P (mret a) Q.
Proof. intros H o w Hw. by apply H. Qed.

Lemma triple_bind {E A B} P (m : M E A) (f : A -> M E B) R Q :
  triple P m (fun r w => match r with Ok a => R a w | Err e => Q (Err e) w end) ->
  (forall a, triple (R a) (f a) Q) ->
  triple P (m ≫= f) Q.
Proof.
  intros Hm Hf o w Hw. unfold mbind, M_bind. specialize (Hm o w Hw).
  destruct (m o w) as [w' [a|e]]; simpl in *; [by apply Hf|done].
Qed.

Lemma triple_query {A} P c (f : Db -> result SqlxError A) (Q : result SqlxError A -> World -> Prop) :
  (forall w, P w -> Q (f (conn_db c w)) (tick w)) ->
  (forall w e, P w -> Q (Err e) (tick w)) ->
  triple P (query c f) Q.
Proof. intros H1 H2 o w Hw. unfold query. destruct (o_sql o (w_step w)); simpl; auto. Qed.

(** Inversion of successful runs. *)

Lemma bind_ok_inv {E A B} (m : M E A) (f : A -> M E B) o w w' b :
  (m ≫= f) o w = (w', Ok b) ->
  exists a w1, m o w = (w1, Ok a) /\ f a o w1 = (w', Ok b).
Proof. unfold mbind, M_bind. destruct (m o w) as [w1 [a|e]]; [eauto|congruence]. Qed.

Lemma bind_err_inv {E A B} (m : M E A) (f : A -> M E B) o w w' e :
  (m ≫= f) o w = (w', Err e) ->
  m o w = (w', Err e) \/ exists a w1, m o w = (w1, Ok a) /\ f a o w1 = (w', Err e).
Proof. unfold mbind, M_bind. destruct (m o w) as [w1 [a|e']]; [eauto|]. intros [= <- <-]. by left. Qed.

Lemma execute_ok_inv {A} c (f : Db -> result SqlxError (Db * A)) o w w' a :
  execute c f o w = (w', Ok a) ->
  exists db, f (conn_db c w) = Ok (db, a) /\ w' = set_conn_db c db (tick w).
Proof.
  unfold execute. destruct (o_sql o (w_step w)); [congruence|].
  destruct (f (conn_db c w)) as [[db b]|e]; [|congruence]. intros [= <- <-]. eauto.
Qed.

Lemma query_ok_inv {A} c (f : Db -> result SqlxError A) o w w' a :
  query c f o w = (w', Ok a) -> f (conn_db c w) = Ok a /\ w' = tick w.
Proof. unfold query. destruct (o_sql o (w_step w)); [congruence|]. intros [= <- ->]. done. Qed.

Lemma lift_err_ok_inv {E F A} (g : E -> F) (m : M E A) o w w' a :
  lift_err g m o w = (w', Ok a) -> m o w = (w', Ok a).
Proof. unfold lift_err. destruct (m o w) as [w1 [b|e]]; simpl; congruence. Qed.

Lemma attempt_inv {E F A} (m : M E A) o w w' (r : result F (result E A)) :
  attempt m o w = (w', r) -> exists r', r = Ok r' /\ m o w = (w', r').
Proof. unfold attempt. destruct (m o w) as [w1 r']. intros [= <- <-]. eauto. Qed.

(** Evaluation of the combinators. *)

Lemma bind_run {E A B} (m : M E A) (f : A -> M E B) o w w1 a :
  m o w = (w1, Ok a) -> (m ≫= f) o w = f a o w1.
Proof. unfold mbind, M_bind. by intros ->. Qed.

Lemma bind_run_err {E A B} (m : M E A) (f : A -> M E B) o w w1 e :
  m o w = (w1, Err e) -> (m ≫= f) o w = (w1, Err e).
Proof. unfold mbind, M_bind. by intros ->. Qed.

Lemma attempt_run {E F A} (m : M E A) o w w1 r :
  m o w = (w1, r) -> (attempt m : M F _) o w = (w1, Ok r).
Proof. unfold attempt. by intros ->. Qed.

Lemma lift_err_run {E F A} (g : E -> F) (m : M E A) o w w1 r :
  m o w = (w1, r) -> lift_err g m o w = (w1, map_err g r).
Proof. unfold lift_err. by intros ->. Qed.

Lemma attempt_bind_run {E F A B} (m : M E A) (f : result E A -> M F B) o w w1 r :
  m o w = (w1, r) -> (attempt m ≫= f) o w = f r o w1.
Proof. intros Hm. by apply bind_run, attempt_run. Qed.

(** Only the step counter moves. *)
Definition same_but_step (w w' : World) : Prop :=
  w_db w' = w_db w /\ w_tx w' = w_tx w /\ w_log w' = w_log w.
#[global] Instance same_but_step_preorder : PreOrder same_but_step.
Proof. split; [by intros w | intros a b c; unfold same_but_step; intuition congruence]. Qed.

Lemma same_but_step_tick w : same_but_step w (tick w).
Proof. done. Qed.

Lemma reads_run {E A} (m : M E A) o w w' r :
  steps same_but_step m -> m o w = (w', r) -> same_but_step w w'.
Proof. intros Hm Hrun. specialize (Hm o w). by rewrite Hrun in Hm. Qed.

(** A bind fails in its first part or goes on. *)
Lemma bind_cases {E A B} (m : M E A) (f : A -> M E B) o w w' r :
  (m ≫= f) o w = (w', r) ->
  (exists e, r = Err e /\ m o w = (w', Err e)) \/ exists a w1, m o w = (w1, Ok a) /\ f a o w1 = (w', r).
Proof. unfold mbind, M_bind. destruct (m o w) as [w1 [a|e]]; [eauto|]. intros [= <- <-]. left. eauto. Qed.

Lemma bind_reads {E A B} (m : M E A) (f : A -> M E B) o w w' r :
  steps same_but_step m -> (m ≫= f) o w = (w', r) ->
  (is_ok r = false /\ same_but_step w w') \/
  exists a w1, m o w = (w1, Ok a) /\ same_but_step w w1 /\ f a o w1 = (w', r).
Proof.
  intros Hm [(e&->&He)|(a&w1&Ha&Hf)]%bind_cases; [left|right].
  - split; [done|]. by eapply reads_run.
  - exists a, w1. split_and!; [done|by eapply reads_run|done].
Qed.

Lemma new_uuids_spec {E} n o w w' (r : result E (list Uuid)) :
  new_uuids n o w = (w', r) ->
  exists us, r = Ok us /\ length us = n /\ same_but_step w w'.
Proof.
  revert w w' r. induction n as [|n IH]; intros w w' r; simpl.
  - intros [= <- <-]. exists []. split_and!; [done|done|reflexivity].
  - unfold mbind, M_bind, new_uuid. destruct (new_uuids n o (tick w)) as [w1 r1] eqn:Heq.
    destruct (IH _ _ _ Heq) as (us&->&Hlen&Hsame). intros [= <- <-].
    eexists. split_and!; [done|simpl; congruence|].
    etransitivity; [apply same_but_step_tick|done].
Qed.

(** Invert a successful run as far as its structure is known. *)
Ltac minv :=
  repeat match goal with
  | H : (_ ≫= _) _ _ = (_, Ok _) |- _ =>
      apply bind_ok_inv in H as (?&?&?&H)
  | H : execute _ _ _ _ = (_, Ok _) |- _ => apply execute_ok_inv in H as (?&?&?)
  | H : query _ _ _ _ = (_, Ok _) |- _ => apply query_ok_inv in H as [? ?]
  | H : lift_err _ _ _ _ = (_, Ok _) |- _ => apply lift_err_ok_inv in H
  | H : attempt _ _ _ = (_, _) |- _ => apply attempt_inv in H as (?&?&?)
  | H : now _ _ = _ |- _ => injection H as <- <-
  | H : new_uuids _ _ _ = _ |- _ => apply new_uuids_spec in H as (?&?&?&?)
  | H : new_uuid _ _ = _ |- _ => injection H as <- <-
  | H : mret _ _ _ = _ |- _ => unfold mret, M_ret in H; simplify_eq
  | H : throw _ _ _ = (_, Ok _) |- _ => discriminate H
  | _ => progress simplify_eq
  end.

(** A database that serves every statement. *)
Definition served (o : Oracle) : Prop := forall n, o_sql o n = None.

Lemma execute_served {A} c (f : Db -> result SqlxError (Db * A)) o w db a :
  served o -> f (conn_db c w) = Ok (db, a) ->
  execute c f o w = (set_conn_db c db (tick w), Ok a).
Proof. intros Ho Hf. unfold execute. by rewrite Ho, Hf. Qed.

Lemma query_served {A} c (f : Db -> result SqlxError A) o w :
  served o -> query c f o w = (tick w, f (conn_db c w)).
Proof. intros Ho. unfold query. by rewrite Ho. Qed.

(** The database a computation leaves, when only that matters. *)
Definition db_after {E A} (m : M E A) (o : Oracle) (w : World) : Db := w_db (m o w).1.

(** Two worlds with the same committed database. *)
Definition same_db (w w' : World) : Prop := w_db w' = w_db w.
#[global] Instance same_db_preorder : PreOrder same_db.
Proof. split; [by intros w | intros a b c; unfold same_db; congruence]. Qed.

Lemma same_db_tick w : same_db w (tick w).
Proof. done. Qed.

Lemma in_tx_err {E A} (g : SqlxError -> E) (body : M E A) o w w' e :
  steps same_db body -> in_tx g body o w = (w', Err e) -> w_db w' = w_db w.
Proof.
  intros Hbody. unfold in_tx, lift_err, begin_tx, commit_tx.
  destruct (o_sql o (w_step w)); simpl; [by intros [= <- _]|].
  specialize (Hbody o (set_tx (Some (w_db w)) (tick w))).
  destruct (body _ _) as [w2 [a|e']]; simpl in *.
  - destruct (o_sql o (w_step w2)); simpl; intros [= <- _]; exact Hbody.
  - intros [= <- _]. exact Hbody.
Qed.

Lemma in_tx_ok {E A} (g : SqlxError -> E) (body : M E A) o w w' a :
  in_tx g body o w = (w', Ok a) ->
  exists w2, body o (set_tx (Some (w_db w)) (tick w)) = (w2, Ok a) /\
    w_db w' = default (w_db w2) (w_tx w2) /\ w_tx w' = None /\ w_log w' = w_log w2.
Proof.
  unfold in_tx, lift_err, begin_tx, commit_tx.
  destruct (o_sql o (w_step w)); simpl; [congruence|].
  destruct (body _ _) as [w2 [b|e']]; simpl; [|congruence].
  destruct (o_sql o (w_step w2)); simpl; [congruence|]. intros [= <- <-]. eauto.
Qed.

Lemma in_tx_opt_ok {E A} (g : SqlxError -> E) (body : M E (bool * A)) o w w' a :
  in_tx_opt g body o w = (w', Ok a) ->
  exists w2 (c : bool), body o (set_tx (Some (w_db w)) (tick w)) = (w2, Ok (c, a)) /\
    w_db w' = (if c then default (w_db w2) (w_tx w2) else w_db w2) /\ w_tx w' = None /\
    w_log w' = w_log w2.
Proof.
  unfold in_tx_opt, lift_err, begin_tx, commit_tx.
  destruct (o_sql o (w_step w)); simpl; [congruence|].
  destruct (body _ _) as [w2 [[[|] b]|e']]; simpl; [| |congruence].
  - destruct (o_sql o (w_step w2)); simpl; [congruence|]. intros [= <- <-]. by exists w2, true.
  - intros [= <- <-]. by exists w2, false.
Qed.

Lemma execute_tx_same_db {A} (f : Db -> result SqlxError (Db * A)) : steps same_db (execute Tx f).
Proof. apply steps_execute; [apply same_db_tick|]. done. Qed.

(** The log only grows. *)
Definition log_grows (w w' : World) : Prop := exists l, w_log w' = w_log w ++ l.
#[global] Instance log_grows_preorder : PreOrder log_grows.
Proof.
  split.
  - intros w. exists []. by rewrite app_nil_r.
  - intros a b c [l1 H1] [l2 H2]. exists (l1 ++ l2). by rewrite H2, H1, app_assoc.
Qed.

Lemma same_but_step_grows w w' : same_but_step w w' -> log_grows w w'.
Proof. intros (_&_&E). exists []. by rewrite E, app_nil_r. Qed.

(** What a run added to the log, and an accepted call among it. *)
Definition logged (w w' : World) (e : Event) : Prop :=
  exists l, w_log w' = w_log w ++ l /\ e ∈ l.
Definition accepted (h : Host) (c : RpcCall) : Event :=
  EvRpc (h_address h) (as_u16 (h_port h)) c RpcOk.

Lemma logged_grows_l w0 w w' e : log_grows w0 w -> logged w w' e -> logged w0 w' e.
Proof.
  intros [l1 E1] (l2&E2&Hin). exists (l1 ++ l2). rewrite E2, E1, app_assoc. split; [done|set_solver].
Qed.
Lemma logged_grows_r w w' w1 e : logged w w' e -> log_grows w' w1 -> logged w w1 e.
Proof.
  intros (l1&E1&Hin) [l2 E2]. exists (l1 ++ l2). rewrite E2, E1, app_assoc. split; [done|set_solver].
Qed.

Lemma rpc_logged {E} h c o w w' :
  (rpc h c : M E RpcOutcome) o w = (w', Ok RpcOk) -> logged w w' (accepted h c).
Proof.
  unfold rpc. intros [= <- Hr]. exists [accepted h c]. simpl. rewrite Hr. split; [done|set_solver].
Qed.

Definition log_adds (P : Event -> Prop) (w w' : World) : Prop :=
  exists l, w_log w' = w_log w ++ l /\ Forall P l.
#[global] Instance log_adds_preorder P : PreOrder (log_adds P).
Proof.
  split; [intros w; exists []; by rewrite app_nil_r|].
  intros a b c (l1&E1&F1) (l2&E2&F2). exists (l1 ++ l2).
  rewrite E2, E1, app_assoc. split; [done|by apply Forall_app].
Qed.
Lemma log_adds_same P w w' : w_log w' = w_log w -> log_adds P w w'.
Proof. intros E. exists []. by rewrite E, app_nil_r. Qed.

Lemma rpc_run {E} h c o w : exists w1 r, (rpc h c : M E _) o w = (w1, Ok r).
Proof. eexists _, _. reflexivity. Qed.

Lemma elem_of_log_last {A} (e : A) l l' : e ∈ l ++ l' ++ [e].
Proof. rewrite app_assoc. apply elem_of_app. right. by apply list_elem_of_singleton. Qed.

(** [tx_moves R]: the tables of the open transaction move along [R], the
    committed ones and the log not at all. *)
Definition tx_moves (R : relation Db) (w w' : World) : Prop :=
  w_db w' = w_db w /\ w_log w' = w_log w /\ R (conn_db Tx w) (conn_db Tx w').
#[global] Instance tx_moves_preorder R `{!PreOrder R} : PreOrder (tx_moves R).
Proof.
  split; [by intros w|]. intros a b c (D1&L1&R1) (D2&L2&R2).
  split_and!; [congruence|congruence|by etransitivity].
Qed.

Lemma tx_moves_tick R `{!PreOrder R} w : tx_moves R w (tick w).
Proof. by split_and!. Qed.

Lemma steps_tx_reads {R : relation Db} `{!PreOrder R} {E A} (m : M E A) :
  steps same_but_step m -> steps (tx_moves R) m.
Proof.
  intros Hm o w. destruct (Hm o w) as (D&T&L). split_and!; [done|done|]. simpl. by rewrite T, D.
Qed.

Lemma steps_execute_tx {R : relation Db} `{!PreOrder R} {A} (f : Db -> result SqlxError (Db * A)) :
  (forall db db' a, f db = Ok (db', a) -> R db db') -> steps (tx_moves R) (execute Tx f).
Proof.
  intros Hf. apply steps_execute; [apply tx_moves_tick, _|]. intros w db a Heq.
  split_and!; [done|done|]. simpl. by eapply Hf.
Qed.

Lemma steps_tx_mono {R S : relation Db} {E A} (m : M E A) :
  (forall db db', R db db' -> S db db') -> steps (tx_moves R) m -> steps (tx_moves S) m.
Proof. intros HRS Hm o w. destruct (Hm o w) as (D&L&Hr). split_and!; auto. Qed.

(** A body that writes only in its transaction: the committed tables are those of
    the transaction when it is committed, and unchanged otherwise. *)
Definition anything : relation Db := fun _ _ => True.
#[global] Instance anything_preorder : PreOrder anything.
Proof. by split. Qed.

Lemma in_tx_opt_run {E A} (g : SqlxError -> E) (body : M E (bool * A)) o w :
  steps (tx_moves anything) body ->
  let run := in_tx_opt g body o w in
  w_log run.1 = w_log w /\
  match run.2 with
  | Ok a => exists w2 (c : bool), body o (set_tx (Some (w_db w)) (tick w)) = (w2, Ok (c, a)) /\
  w_db run.1 = (if c then conn_db Tx w2 else w_db w)
  | Err _ => w_db run.1 = w_db w
  end.
Proof.
  intros Hbody. unfold in_tx_opt, lift_err, begin_tx, commit_tx.
  destruct (o_sql o (w_step w)); simpl; [done|].
  pose proof (Hbody o (set_tx (Some (w_db w)) (tick w))) as (D&L&_).
  destruct (body _ _) as [w2 [[[|] a]|e]] eqn:Hb; simpl in *; [|split; [done|]|done].
  - destruct (o_sql o (w_step w2)); simpl; [by split|]. split; [done|]. by exists w2, true.
  - by exists w2, false.
Qed.

(** A transaction moves the committed tables along [R] or not at all. *)
Lemma in_tx_moves {R : relation Db} `{!PreOrder R} {E A} (g : SqlxError -> E) (body : M E A) o w :
  steps (tx_moves R) body ->
  R (w_db w) (w_db (in_tx g body o w).1) /\ w_log (in_tx g body o w).1 = w_log w.
Proof.
  intros Hbody. unfold in_tx, lift_err, begin_tx, commit_tx.
  destruct (o_sql o (w_step w)); simpl; [done|].
  destruct (Hbody o (set_tx (Some (w_db w)) (tick w))) as (D&L&Hr).
  destruct (body _ _) as [w2 [a|e]]; simpl in *.
  - destruct (o_sql o (w_step w2)); simpl; [by rewrite D|done].
  - by rewrite D.
Qed.

(** What a computation leaves as it was: a component of the world. *)
Definition keeps {A} (f : World -> A) (w w' : World) : Prop := f w' = f w.
#[global] Instance keeps_preorder {A} (f : World -> A) : PreOrder (keeps f).
Proof. split; [by intros w | intros a b c; unfold keeps; congruence]. Qed.

Definition keeps_table {A} (t : Db -> A) : relation World := keeps (fun w => t (w_db w)).
#[global] Instance keeps_table_preorder {A} (t : Db -> A) : PreOrder (keeps_table t).
Proof. apply keeps_preorder. Qed.

Lemma steps_new_uuids {R : relation World} `{!PreOrder R} {E} n :
  (forall w, R w (tick w)) -> steps R (new_uuids n : M E _).
Proof.
  intros HR. induction n as [|n IH]; simpl; [apply steps_ret|].
  apply steps_bind; [by apply steps_new_uuid|]. intros u.
  apply steps_bind; [exact IH|]. intros us. apply steps_ret.
Qed.

Lemma steps_emit {R : relation World} {E} e :
  (forall w, R w (add_log e w)) -> steps R (emit e : M E unit).
Proof. intros H o w. apply H. Qed.

Lemma steps_rpc {R : relation World} `{!PreOrder R} {E} h call :
  (forall w, R w (tick w)) -> (forall e w, R w (add_log e w)) ->
  steps R (rpc h call : M E RpcOutcome).
Proof. intros Ht Hl o w. unfold rpc. simpl. etransitivity; [apply Ht|apply Hl]. Qed.

Lemma steps_for_all_m {R : relation World} `{!PreOrder R} {E A} (body : A -> M E unit) l :
  (forall x, x ∈ l -> steps R (body x)) -> steps R (for_all_m body l).
Proof.
  induction l as [|x l IH]; simpl; intros H; [apply steps_ret|].
  apply steps_bind; [apply H; set_solver|]. intros _. apply IH. set_solver.
Qed.

(** A loop of writes inside a transaction: what each iteration establishes stays. *)
Lemma for_all_m_each {R : relation Db} `{!PreOrder R} {E A} (body : A -> M E unit) (Q : A -> Db -> Prop)
    db l o w w' :
  (forall x, steps (tx_moves R) (body x)) ->
  (forall x o w w', R db (conn_db Tx w) -> body x o w = (w', Ok tt) -> Q x (conn_db Tx w')) ->
  (forall x db db', R db db' -> Q x db -> Q x db') ->
  R db (conn_db Tx w) -> for_all_m body l o w = (w', Ok tt) ->
  forall x, x ∈ l -> Q x (conn_db Tx w').
Proof.
  intros Hs Hb Hm. revert w. induction l as [|y l IH]; intros w HR Hrun x Hx; [by apply elem_of_nil in Hx|].
  apply bind_ok_inv in Hrun as ([]&w1&Hy&Hrun). pose proof (Hs y o w) as (_&_&R1). rewrite Hy in R1.
  assert (R db (conn_db Tx w1)) as HR1 by (by etransitivity).
  apply elem_of_cons in Hx as [->|Hx]; [|by eapply IH].
  pose proof (steps_for_all_m body l (fun x _ => Hs x)) as Hl.
  pose proof (Hl o w1) as (_&_&R2). cbn in Hrun. change (for_all_m body l o w1 = (w', Ok tt)) in Hrun.
  rewrite Hrun in R2. eapply Hm; [exact R2|]. exact (Hb y o w w1 HR Hy).
Qed.

Lemma steps_in_tx {R : relation World} `{!PreOrder R} {E A} (g : SqlxError -> E) (body : M E A) :
  (forall w, R w (tick w)) -> (forall w t, R w (set_tx t w)) ->
  (forall w, R w (set_tx None (set_db (default (w_db w) (w_tx w)) (tick w)))) ->
  steps R body -> steps R (in_tx g body).
Proof.
  intros Ht Hx Hc Hbody o w. unfold in_tx, lift_err, begin_tx, commit_tx.
  destruct (o_sql o (w_step w)); simpl; [apply Ht|].
  assert (R w (body o (set_tx (Some (w_db w)) (tick w))).1) as Hb.
  { etransitivity; [apply Ht|]. etransitivity; [apply Hx|]. apply Hbody. }
  destruct (body _ _) as [w2 [a|e']]; simpl in *.
  - destruct (o_sql o (w_step w2)); simpl; (etransitivity; [exact Hb|]).
    + etransitivity; [apply Ht|apply Hx].
    + apply Hc.
  - etransitivity; [exact Hb|apply Hx].
Qed.

Lemma steps_in_tx_opt {R : relation World} `{!PreOrder R} {E A} (g : SqlxError -> E)
    (body : M E (bool * A)) :
  (forall w, R w (tick w)) -> (forall w t, R w (set_tx t w)) ->
  (forall w, R w (set_tx None (set_db (default (w_db w) (w_tx w)) (tick w)))) ->
  steps R body -> steps R (in_tx_opt g body).
Proof.
  intros Ht Hx Hc Hbody o w. unfold in_tx_opt, lift_err, begin_tx, commit_tx.
  destruct (o_sql o (w_step w)); simpl; [apply Ht|].
  assert (R w (body o (set_tx (Some (w_db w)) (tick w))).1) as Hb.
  { etransitivity; [apply Ht|]. etransitivity; [apply Hx|]. apply Hbody. }
  destruct (body _ _) as [w2 [[[|] a]|e']]; simpl in *.
  - destruct (o_sql o (w_step w2)); simpl; (etransitivity; [exact Hb|]).
    + etransitivity; [apply Ht|apply Hx].
    + apply Hc.
  - etransitivity; [exact Hb|apply Hx].
  - etransitivity; [exact Hb|apply Hx].
Qed.

(** [db_moves R]: the committed tables move along [R]; [txdb_moves R]: the
    committed tables stay and those of the open transaction move along [R]. *)
Definition db_moves (R : relation Db) (w w' : World) : Prop := R (w_db w) (w_db w').
Definition txdb_moves (R : relation Db) (w w' : World) : Prop :=
  w_db w' = w_db w /\ R (conn_db Tx w) (conn_db Tx w').
#[global] Instance db_moves_preorder R `{!PreOrder R} : PreOrder (db_moves R).
Proof. split; [intros w|intros a b c]; unfold db_moves; [done|apply transitivity]. Qed.
#[global] Instance txdb_moves_preorder R `{!PreOrder R} : PreOrder (txdb_moves R).
Proof.
  split; [by intros w|]. intros a b c [D1 R1] [D2 R2]. split; [congruence|by etransitivity].
Qed.

Section db_moves.
Context {R : relation Db} `{!PreOrder R}.

Lemma db_moves_same w w' : w_db w' = w_db w -> db_moves R w w'.
Proof. unfold db_moves. by intros ->. Qed.
Lemma txdb_moves_same w w' : w_db w' = w_db w -> w_tx w' = w_tx w -> txdb_moves R w w'.
Proof. intros D T. split; [done|]. simpl. by rewrite D, T. Qed.
Lemma db_moves_tick w : db_moves R w (tick w).
Proof. by apply db_moves_same. Qed.
Lemma db_moves_log e w : db_moves R w (add_log e w).
Proof. by apply db_moves_same. Qed.
Lemma txdb_moves_tick w : txdb_moves R w (tick w).
Proof. by apply txdb_moves_same. Qed.
Lemma txdb_moves_log e w : txdb_moves R w (add_log e w).
Proof. by apply txdb_moves_same. Qed.

Lemma steps_db_reads {E A} (m : M E A) : steps same_but_step m -> steps (db_moves R) m.
Proof. intros Hm o w. destruct (Hm o w) as (D&_&_). by apply db_moves_same. Qed.

Lemma steps_db_execute {A} (f : Db -> result SqlxError (Db * A)) :
  (forall db db' a, f db = Ok (db', a) -> R db db') -> steps (db_moves R) (execute Pool f).
Proof.
  intros Hf. apply steps_execute; [apply db_moves_tick|]. intros w db a Heq. by eapply Hf.
Qed.
Lemma steps_txdb_execute {A} (f : Db -> result SqlxError (Db * A)) :
  (forall db db' a, f db = Ok (db', a) -> R db db') -> steps (txdb_moves R) (execute Tx f).
Proof.
  intros Hf. apply steps_execute; [apply txdb_moves_tick|].
  intros w db a Heq. split; [done|]. simpl. by eapply Hf.
Qed.

Lemma steps_db_in_tx_opt {E A} (g : SqlxError -> E) (body : M E (bool * A)) :
  steps (txdb_moves R) body -> steps (db_moves R) (in_tx_opt g body).
Proof.
  intros Hbody o w. unfold in_tx_opt, lift_err, begin_tx, commit_tx.
  destruct (o_sql o (w_step w)); simpl; [by apply db_moves_same|].
  destruct (Hbody o (set_tx (Some (w_db w)) (tick w))) as [D Hr].
  destruct (body _ _) as [w2 [[[|] a]|e']]; simpl in *; [|by apply db_moves_same..].
  destruct (o_sql o (w_step w2)); simpl; [by apply db_moves_same|exact Hr].
Qed.
Lemma steps_db_in_tx {E A} (g : SqlxError -> E) (body : M E A) :
  steps (txdb_moves R) body -> steps (db_moves R) (in_tx g body).
Proof.
  intros Hbody o w. unfold in_tx, lift_err, begin_tx, commit_tx.
  destruct (o_sql o (w_step w)); simpl; [by apply db_moves_same|].
  destruct (Hbody o (set_tx (Some (w_db w)) (tick w))) as [D Hr].
  destruct (body _ _) as [w2 [a|e']]; simpl in *; [|by apply db_moves_same].
  destruct (o_sql o (w_step w2)); simpl; [by apply db_moves_same|exact Hr].
Qed.
End db_moves.

#[export] Hint Resolve db_moves_tick db_moves_log txdb_moves_tick txdb_moves_log : qarax.

(** Walk through a computation whose relation [R] every elementary step meets. *)
Ltac steps_step :=
  match goal with
  | |- steps _ (mret _) => apply steps_ret
  | |- steps _ (throw _) => apply steps_throw
  | |- steps _ (of_result _) => apply steps_of_result
  | |- steps _ (_ ≫= _) => apply steps_bind; [|intros ?]
  | |- steps _ (attempt _) => apply steps_attempt
  | |- steps _ (lift_err _ _) => apply steps_lift_err
  | |- steps _ (query _ _) => apply steps_query; solve [done | auto with qarax nocore]
  | |- steps _ (execute _ _) => apply steps_execute; [done|intros; repeat crush_step; done]
  | |- steps _ new_uuid => apply steps_new_uuid; solve [done | auto with qarax nocore]
  | |- steps _ (new_uuids _) => apply steps_new_uuids; solve [done | auto with qarax nocore]
  | |- steps _ now => apply steps_now; solve [done | auto with qarax nocore]
  | |- steps _ (emit _) => apply steps_emit; solve [done | auto with qarax nocore]
  | |- steps _ (rpc _ _) => apply steps_rpc; solve [done | auto with qarax nocore]
  | |- steps _ (for_all_m _ _) => apply steps_for_all_m; intros ? ?
  | |- steps _ (match ?x with _ => _ end) => destruct x eqn:?
  | |- steps _ (let '(_, _) := ?x in _) => destruct x eqn:?
  end.
Ltac steps_tac := repeat (first [ solve [auto with qarax nocore] | steps_step | progress simpl ]).

#[export] Hint Resolve same_db_tick : qarax.

(** [raises P m]: every error [m] returns satisfies [P]. *)
Definition raises {E A} (P : E -> Prop) (m : M E A) : Prop :=
  forall o w w' e, m o w = (w', Err e) -> P e.

Section raises.
Context {E : Type} {P : E -> Prop}.

Lemma raises_ret {A} (a : A) : raises P (mret a).
Proof. by intros o w w' e. Qed.
Lemma raises_throw {A} e : P e -> raises P (throw e : M E A).
Proof. intros He o w w' e' [= _ <-]. exact He. Qed.
Lemma raises_bind {A B} (m : M E A) (f : A -> M E B) :
  raises P m -> (forall a, raises P (f a)) -> raises P (m ≫= f).
Proof.
  intros Hm Hf o w w' e. unfold mbind, M_bind. destruct (m o w) as [w1 [a|e1]] eqn:H1.
  - apply Hf.
  - intros [= <- <-]. by eapply Hm.
Qed.
Lemma raises_of_result {A} (r : result E A) : (forall e, r = Err e -> P e) -> raises P (of_result r).
Proof. intros Hr o w w' e [= _ ->]. by apply Hr. Qed.
Lemma raises_attempt {F A} (m : M F A) : raises P (attempt m).
Proof. intros o w w' e. unfold attempt. by destruct (m o w). Qed.
Lemma raises_lift_err {F A} (g : F -> E) (m : M F A) : (forall e, P (g e)) -> raises P (lift_err g m).
Proof. intros Hg o w w' e. unfold lift_err. destruct (m o w) as [w1 [a|e1]]; simpl; [done|]. by intros [= _ <-]. Qed.
Lemma raises_rpc h c : raises P (rpc h c).
Proof. by intros o w w' e. Qed.
Lemma raises_for_all_m {A} (body : A -> M E unit) l :
  (forall x, raises P (body x)) -> raises P (for_all_m body l).
Proof.
  intros Hb. induction l as [|x l IH]; [apply raises_ret|]. cbn [for_all_m].
  apply raises_bind; [apply Hb|]. intros _. exact IH.
Qed.
End raises.

Ltac raises_step :=
  match goal with
  | |- raises _ (mret _) => apply raises_ret
  | |- raises _ (throw _) => apply raises_throw; try done
  | |- raises _ (_ ≫= _) => apply raises_bind; [|intros ?]
  | |- raises _ (attempt _) => apply raises_attempt
  | |- raises _ (lift_err _ _) => apply raises_lift_err; solve [done | auto with qarax nocore]
  | |- raises _ (rpc _ _) => apply raises_rpc
  | |- raises _ (for_all_m _ _) => apply raises_for_all_m; intros ?
  | |- raises _ (of_result (ok_or _ ?x)) => apply raises_of_result; destruct x; simpl; congruence
  | |- raises _ (match ?x with _ => _ end) => destruct x eqn:?
  end.
Ltac raises_tac := repeat (first [ solve [auto with qarax nocore] | raises_step ]).

