(* ===== verification/Samples.v ===== *)
(** * Samples: concrete rows and oracles

    Small concrete databases the witnesses of the theorems run on. *)

From S2P Require Import Prelude Errors Tables NodeApi World.
#[local] Open Scope Z_scope.

(** An oracle that serves every statement, answers every call with success and
    every webhook with 500, counts identifiers up from 1000 and whose clock
    advances by one at each reading. *)
Definition calm_oracle : Oracle :=
  {| o_sql := fun _ => None; o_uuid := fun n => (1000 + N.of_nat n)%N;
     o_now := fun n => Z.of_nat n; o_rpc := fun _ => RpcOk;
     o_http := fun _ => HttpResponse 500 None |}.

Definition world_of (db : Db) : World := {| w_db := db; w_tx := None; w_step := 0; w_log := [] |}.

Definition sample_vm (id : Uuid) (name : string) (host : option Uuid) (status : VmStatus)
    (vcpus memory : Z) (tags : list string) (config : json) : VmRow :=
  {| v_id := id; v_name := name; v_tags := tags; v_host_id := host; v_status := status;
     v_hypervisor := CloudHv; v_boot_source_id := None; v_boot_mode := Kernel;
     v_description := None; v_boot_vcpus := vcpus; v_max_vcpus := vcpus;
     v_cpu_topology := None; v_kvm_hyperv := false; v_memory_size := memory;
     v_memory_hotplug_size := None; v_memory_mergeable := false; v_memory_shared := false;
     v_memory_hugepages := false; v_memory_hugepage_size := None; v_memory_prefault := false;
     v_memory_thp := false; v_image_ref := None; v_cloud_init_user_data := None;
     v_cloud_init_meta_data := None; v_cloud_init_network_config := None; v_config := config |}.

Definition sample_host (id : Uuid) (name address : string) (status : HostStatus)
    (cpus memory disk : Z) : Host :=
  {| h_id := id; h_name := name; h_address := address; h_port := 50051; h_status := status;
     h_host_user := "root"; h_credential_ref := None; h_cloud_hypervisor_version := None;
     h_firecracker_version := None; h_kernel_version := None; h_node_version := None;
     h_last_deployed_image := None; h_reservation_class := None; h_placement_labels := ∅;
     h_architecture := Some "x86_64"%string; h_total_cpus := Some cpus;
     h_total_memory_bytes := Some memory; h_available_memory_bytes := Some memory;
     h_load_average := None; h_disk_total_bytes := Some disk;
     h_disk_available_bytes := Some disk; h_resources_updated_at := None |}.

Definition sample_hook : LifecycleHook :=
  {| lh_id := 7; lh_name := "notify"; lh_url := "http://hooks.example/vm"; lh_secret := None;
     lh_scope := ScopeGlobal; lh_scope_value := None; lh_events := ["running"%string];
     lh_active := true; lh_created_at := 0; lh_updated_at := 0 |}.

Definition sample_execution (id : Uuid) (status : HookExecutionStatus) (attempts : Z)
  : HookExecution :=
  {| he_id := id; he_hook_id := 7; he_vm_id := 1; he_previous_status := "pending";
     he_new_status := "running"; he_status := status; he_attempt_count := attempts;
     he_max_attempts := 5; he_next_retry_at := 0; he_payload := JNull;
     he_response_status := None; he_response_body := None; he_last_error := None;
     he_created_at := 0; he_delivered_at := None |}.

Definition hooks_db : Db :=
  with_lifecycle_hooks (fun _ => {[7%N := sample_hook]})
    (with_hook_executions (fun _ => {[11%N := sample_execution 11 HookPending 0]}) empty_db).
