(* ===== verification/HostNuma.v ===== *)
(** * HostNuma: the NUMA nodes of a host

    [qarax/src/model/host_numa.rs]: the nodes a host reported and the compact
    form of a list of CPUs, the inverse of [expand_cpu_list] of the [common]
    crate.  The main theorem is that round trip. *)

From S2P Require Import Prelude Text Common Errors Tables NodeApi World Samples.
#[local] Open Scope Z_scope.

Record NumaNodeDiscovery := {
  nn_node_id : Z;
  nn_cpu_list : string;
  nn_memory_bytes : option Z;
  nn_distances : list Z
}.

(** ** The table *)

Definition list_numa_by_host (host_id : Uuid) : M SqlxError (list HostNumaNode) :=
  query Pool (fun db => Ok (merge_sort (on_key Z.le hn_node_id)
    (List.filter (fun n => bool_decide (hn_host_id n = host_id)) (rows (t_host_numa_nodes db))))).

Definition numa_row (id host_id : Uuid) (t : Z) (d : NumaNodeDiscovery) : HostNumaNode :=
  {| hn_id := id; hn_host_id := host_id; hn_node_id := nn_node_id d; hn_cpu_list := nn_cpu_list d;
     hn_memory_bytes := nn_memory_bytes d; hn_distances := nn_distances d; hn_updated_at := Some t |}.

Definition same_node (host_id : Uuid) (node_id : Z) (n : HostNumaNode) : bool :=
  bool_decide (hn_host_id n = host_id) && (hn_node_id n =? node_id).

(** One row of [INSERT ... ON CONFLICT (host_id, node_id) DO UPDATE]. *)
Definition upsert_node (host_id : Uuid) (t : Z) (id : Uuid) (d : NumaNodeDiscovery)
    (nodes : gmap Uuid HostNumaNode) : result SqlxError (gmap Uuid HostNumaNode) :=
  if existsb (same_node host_id (nn_node_id d)) (rows nodes)
  then Ok (update_where (same_node host_id (nn_node_id d))
             (fun n => numa_row (hn_id n) host_id t d) nodes)
  else insert_pk "host_numa_nodes_pkey" id (numa_row id host_id t d) nodes.

Fixpoint upsert_nodes (host_id : Uuid) (t : Z) (ids : list Uuid) (ds : list NumaNodeDiscovery)
    (nodes : gmap Uuid HostNumaNode) : result SqlxError (gmap Uuid HostNumaNode) :=
  match ids, ds with
  | id :: ids', d :: ds' => upsert_node host_id t id d nodes ≫= upsert_nodes host_id t ids' ds'
  | _, _ => Ok nodes
  end.

(** A statement that would update a row twice, or a host that is gone, is
    refused. *)
Definition sync_numa_nodes (host_id : Uuid) (nodes : list NumaNodeDiscovery) : M SqlxError unit :=
  in_tx (fun e => e) (
    t ← now;
    _ ← (if bool_decide (nodes = []) then mret tt
         else
           ids ← new_uuids (length nodes);
           execute Tx (fun db =>
             if negb (bool_decide (NoDup (nn_node_id <$> nodes)))
             then Err (Database (Some "21000"%string) None)
             else
               t' ← upsert_nodes host_id t ids nodes (t_host_numa_nodes db);
               if bool_decide (host_id ∈ dom (t_hosts db))
               then Ok (with_host_numa_nodes (fun _ => t') db, tt)
               else Err (Database (Some "23503"%string) (Some "host_numa_nodes_host_id_fkey"%string))));
    execute Tx (fun db => Ok (with_host_numa_nodes (keep (fun n =>
      negb (bool_decide (hn_host_id n = host_id)
            && negb (bool_decide (hn_node_id n ∈ nn_node_id <$> nodes))))) db, tt))).

(** ** CPU lists *)

(** The maximal runs of consecutive numbers of [l], the first of which starts with
    the run from [start] to [last]. *)
Fixpoint cpu_runs (start last : Z) (l : list Z) : list (Z * Z) :=
  match l with
  | [] => [(start, last)]
  | cpu :: l' =>
      if cpu =? last + 1 then cpu_runs start cpu l'
      else (start, last) :: cpu_runs cpu cpu l'
  end.

Definition range_text (r : Z * Z) : string :=
  if r.1 =? r.2 then pretty r.1 else (pretty r.1 +:+ "-" +:+ pretty r.2)%string.

Definition expand_cpu_list_to_string (cpus : list Z) : string :=
  match merge_sort Z.le (remove_dups cpus) with
  | [] => EmptyString
  | first :: rest => join "," (range_text <$> cpu_runs first first rest)
  end.

(** ** The round trip *)

Lemma pretty_nonneg n : 0 <= n -> pretty n = fmt_nat n.
Proof. intros Hn. unfold fmt_nat. by destruct n; [..|lia]. Qed.

Lemma range_text_render r : CpuList.valid_range r -> range_text r = CpuList.render_range r.
Proof.
  intros [[H1 H2] H3]. unfold range_text, CpuList.render_range. by rewrite !pretty_nonneg by lia.
Qed.

Lemma cpu_runs_valid start last l :
  0 <= start <= last -> last <= i32_max -> Forall (fun n => 0 <= n <= i32_max) l ->
  Forall CpuList.valid_range (cpu_runs start last l).
Proof.
  intros H1 H2 Hl. revert start last H1 H2. induction Hl as [|c l Hc Hl IH]; intros start last H1 H2; simpl.
  - constructor; [done|constructor].
  - destruct (Z.eqb_spec c (last + 1)); [apply IH; lia|]. constructor; [done|apply IH; lia].
Qed.

Lemma cpu_runs_concat start last l :
  start <= last -> concat (CpuList.range_cpus <$> cpu_runs start last l) = seqZ start (last - start + 1) ++ l.
Proof.
  revert start last. induction l as [|c l IH]; intros start last Hle; simpl.
  - unfold CpuList.range_cpus. simpl. done.
  - destruct (Z.eqb_spec c (last + 1)) as [->|Hne].
    + rewrite IH by lia. replace (last + 1 - start + 1) with ((last - start + 1) + 1) by lia.
      rewrite seqZ_app by lia. rewrite <- app_assoc. simpl. do 2 f_equal. lia.
    + rewrite fmap_cons. simpl. rewrite IH by lia. unfold CpuList.range_cpus at 1. simpl. f_equal.
      replace (c - c + 1) with 1 by lia. by rewrite seqZ_cons, seqZ_nil by lia.
Qed.

Lemma cpu_runs_ne start last l : cpu_runs start last l <> [].
Proof. revert start last. induction l as [|c l IH]; intros; simpl; [done|]. by case_match. Qed.

(** The compact text of a list of CPU numbers expands to exactly these numbers,
    sorted and without repetition. *)
Theorem cpu_list_roundtrip cpus :
  Forall (fun n => 0 <= n <= i32_max) cpus ->
  CpuList.expand_cpu_list (expand_cpu_list_to_string cpus) = merge_sort Z.le (remove_dups cpus).
Proof.
  intros Hall. unfold expand_cpu_list_to_string.
  assert (Forall (fun n => 0 <= n <= i32_max) (merge_sort Z.le (remove_dups cpus))) as Hs.
  { rewrite merge_sort_Permutation, Forall_forall. intros x Hx. rewrite elem_of_remove_dups in Hx.
    by apply (proj1 (Forall_forall (fun n => 0 <= n <= i32_max) cpus) Hall). }
  pose proof (StronglySorted_merge_sort Z.le (remove_dups cpus)) as Hsort.
  destruct (merge_sort Z.le (remove_dups cpus)) as [|c l]; [by vm_compute|].
  apply Forall_cons in Hs as [Hc Hl]. unfold i32_max in *.
  assert (Forall CpuList.valid_range (cpu_runs c c l)) as Hv by (apply cpu_runs_valid; unfold i32_max; done || lia).
  apply (StronglySorted_unique Z.le); [apply CpuList.expand_cpu_list_sorted|done|].
  assert (join "," (range_text <$> cpu_runs c c l) = CpuList.render_cpu_list (cpu_runs c c l)) as ->.
  { unfold CpuList.render_cpu_list. f_equal. apply list_fmap_ext. intros i r Hr. apply range_text_render.
    by eapply (Forall_lookup_1 _ _ _ _ Hv). }
  rewrite CpuList.expand_cpu_list_perm, CpuList.expand_render_parts by (done || apply cpu_runs_ne).
  rewrite cpu_runs_concat by lia. replace (c - c + 1) with 1 by lia. by rewrite seqZ_cons, seqZ_nil by lia.
Qed.

Lemma cpu_list_roundtrip_witness :
  CpuList.expand_cpu_list (expand_cpu_list_to_string [8; 0; 1; 2; 3; 11; 10; 3])
  = [0; 1; 2; 3; 8; 10; 11].
Proof. rewrite cpu_list_roundtrip; [vm_compute; reflexivity|]. repeat constructor; by vm_compute. Defined.
