(* ===== verification/VmConfig.v ===== *)
(** * VmConfig: the JSON configuration column of a VM and placement policies

    The first part of [qarax/src/model/vms.rs]: the flags the control plane
    keeps in the [config] column ([guest_agent], [ha_enabled],
    [failed_over_from], [placement_policy]), the merge of a template's
    configuration with a request's, and the validation of placement policies.
    The theorems give the accessors' round trips, show that writing one flag
    leaves the others alone, and characterise the accepted policies. *)

From S2P Require Import Prelude Text Errors Tables.
#[local] Open Scope Z_scope.

(** ** Placement policies *)

Record PlacementPolicy := {
  pp_reservation_class : option string;
  pp_required_host_labels : gmap string string;
  pp_preferred_host_labels : gmap string string;
  pp_affinity_tags : list string;
  pp_anti_affinity_tags : list string;
  pp_spread_tags : list string
}.

(** [serde_json::json!(policy)] and [serde_json::from_value]: code of the serde
    crates, of which the program needs that a written policy is read back. *)
Class PolicySerde := {
  policy_to_json : PlacementPolicy -> json;
  policy_from_json : json -> option PlacementPolicy;
  policy_from_to_json : forall p, policy_from_json (policy_to_json p) = Some p
}.

(** A serialisation that meets the law: the fields of the policy as an array. *)
Definition strings_to_json (l : list string) : json := JArray (JString <$> l).
Definition strings_from_json (j : json) : option (list string) :=
  match j with JArray l => mapM json_as_str l | _ => None end.
Definition labels_to_json (m : gmap string string) : json := JObject (JString <$> m).
Definition labels_from_json (j : json) : option (gmap string string) :=
  match j with JObject m => Some (omap json_as_str m) | _ => None end.

Lemma strings_from_to_json l : strings_from_json (strings_to_json l) = Some l.
Proof.
  unfold strings_from_json, strings_to_json.
  induction l as [|x l IH]; [done|]. rewrite fmap_cons. cbn. by rewrite IH.
Qed.

Lemma labels_from_to_json m : labels_from_json (labels_to_json m) = Some m.
Proof.
  simpl. f_equal. apply map_eq. intros k. rewrite lookup_omap, lookup_fmap.
  by destruct (m !! k).
Qed.

Definition array_policy_serde : PolicySerde.
Proof.
  refine {| policy_to_json p := JArray
              [match pp_reservation_class p with Some c => JString c | None => JNull end;
               labels_to_json (pp_required_host_labels p);
               labels_to_json (pp_preferred_host_labels p);
               strings_to_json (pp_affinity_tags p);
               strings_to_json (pp_anti_affinity_tags p);
               strings_to_json (pp_spread_tags p)];
            policy_from_json j := match j with
              | JArray [c; rq; pf; af; an; sp] =>
                  rq' ← labels_from_json rq; pf' ← labels_from_json pf;
                  af' ← strings_from_json af; an' ← strings_from_json an;
                  sp' ← strings_from_json sp;
                  Some {| pp_reservation_class := json_as_str c;
                          pp_required_host_labels := rq'; pp_preferred_host_labels := pf';
                          pp_affinity_tags := af'; pp_anti_affinity_tags := an';
                          pp_spread_tags := sp' |}
              | _ => None
              end |}.
  intros p. rewrite !labels_from_to_json, !strings_from_to_json. by destruct p as [[]].
Defined.

(** Iteration over a [BTreeMap]: the entries in key order. *)
Definition key_le {A} (x y : string * A) : Prop := String.leb x.1 y.1 = true.
#[global] Instance key_le_dec {A} (x y : string * A) : Decision (key_le x y).
Proof. unfold key_le. apply _. Defined.
Definition btree_iter {A} (m : gmap string A) : list (string * A) :=
  merge_sort key_le (map_to_list m).

Definition validate_label_map (field : string) (labels : gmap string string)
  : result Error unit :=
  for_each (fun '(key, value) =>
    if is_blank key then Err (UnprocessableEntity (field +:+ " keys cannot be empty"))
    else if is_blank value
    then Err (UnprocessableEntity (field +:+ "." +:+ key +:+ " cannot be empty"))
    else Ok tt) (btree_iter labels).

Definition validate_tag_list (field : string) (tags : list string) : result Error unit :=
  if existsb is_blank tags
  then Err (UnprocessableEntity (field +:+ " cannot contain empty tags"))
  else Ok tt.

Definition validate_policy (p : PlacementPolicy) : result Error unit :=
  _ ← (match pp_reservation_class p with
       | Some class =>
           if is_blank class
           then Err (UnprocessableEntity "placement_policy.reservation_class cannot be empty")
           else Ok tt
       | None => Ok tt
       end);
  _ ← validate_label_map "placement_policy.required_host_labels" (pp_required_host_labels p);
  _ ← validate_label_map "placement_policy.preferred_host_labels" (pp_preferred_host_labels p);
  _ ← validate_tag_list "placement_policy.affinity_tags" (pp_affinity_tags p);
  _ ← validate_tag_list "placement_policy.anti_affinity_tags" (pp_anti_affinity_tags p);
  _ ← validate_tag_list "placement_policy.spread_tags" (pp_spread_tags p);
  Ok tt.

(** ** The config column *)

Definition GUEST_AGENT_CONFIG_KEY : string := "guest_agent".
Definition LEGACY_SANDBOX_EXEC_CONFIG_KEY : string := "sandbox_exec".
Definition HA_ENABLED_CONFIG_KEY : string := "ha_enabled".
Definition FAILED_OVER_FROM_CONFIG_KEY : string := "failed_over_from".

Definition default_vm_config : json := JObject ∅.

(** [if !config.is_object() { *config = default_vm_config(); }] followed by an
    update of the object. *)
Definition update_object (f : gmap string json -> gmap string json) (config : json) : json :=
  match config with
  | JObject m => JObject (f m)
  | _ => JObject (f ∅)
  end.

Definition guest_agent_enabled (config : json) : bool :=
  default false
    (opt_or (json_get config GUEST_AGENT_CONFIG_KEY ≫= json_as_bool)
            (json_get config LEGACY_SANDBOX_EXEC_CONFIG_KEY ≫= json_as_bool)).

Definition set_guest_agent_config (config : json) (enabled : bool) : json :=
  update_object (fun m => delete LEGACY_SANDBOX_EXEC_CONFIG_KEY
                            (<[GUEST_AGENT_CONFIG_KEY := JBool enabled]> m)) config.

Definition ha_enabled (config : json) : bool :=
  default false (json_get config HA_ENABLED_CONFIG_KEY ≫= json_as_bool).

Definition set_ha_enabled_config (config : json) (enabled : bool) : json :=
  update_object (fun m => <[HA_ENABLED_CONFIG_KEY := JBool enabled]> m) config.

Definition merge_config (template_config request_config : json) : json :=
  match template_config, request_config with
  | JObject template, JObject request => JObject (request ∪ template)
  | JNull, JNull => default_vm_config
  | _, JNull => default_vm_config
  | JNull, request => request
  | _, request => request
  end.

Section config.
Context `{UuidText} `{PolicySerde}.

Definition failed_over_from (config : json) : option Uuid :=
  (json_get config FAILED_OVER_FROM_CONFIG_KEY ≫= json_as_str) ≫= uuid_parse_str.

Definition set_failed_over_from (config : json) (source_host_id : option Uuid) : json :=
  update_object (fun m =>
    match source_host_id with
    | Some host_id => <[FAILED_OVER_FROM_CONFIG_KEY := JString (uuid_to_string host_id)]> m
    | None => delete FAILED_OVER_FROM_CONFIG_KEY m
    end) config.

Definition placement_policy_from_config (config : json) : option PlacementPolicy :=
  json_get config "placement_policy" ≫= policy_from_json.

Definition persist_placement_policy (config : json) (policy : option PlacementPolicy) : json :=
  match config with
  | JObject m =>
      JObject (match policy with
               | Some p => <["placement_policy" := policy_to_json p]> m
               | None => delete "placement_policy" m
               end)
  | _ => config
  end.

(** *** Lemmas: reading a key after an update of the object *)

Definition object_of (config : json) : gmap string json :=
  match config with JObject m => m | _ => ∅ end.

Lemma json_get_object config k : json_get config k = object_of config !! k.
Proof. destruct config; simpl; by rewrite ?lookup_empty. Qed.

Lemma update_object_eq f config : update_object f config = JObject (f (object_of config)).
Proof. by destruct config. Qed.

(** A key the update does not touch reads the same afterwards. *)
Lemma json_get_update_frame f config k :
  (forall m : gmap string json, f m !! k = m !! k) ->
  json_get (update_object f config) k = json_get config k.
Proof. intros Hf. rewrite update_object_eq, !json_get_object. simpl. apply Hf. Qed.

(** ** Properties *)

(** Each flag reads back what was written, over any previous configuration. *)
Theorem config_flags_roundtrip config enabled host :
  guest_agent_enabled (set_guest_agent_config config enabled) = enabled /\
  ha_enabled (set_ha_enabled_config config enabled) = enabled /\
  failed_over_from (set_failed_over_from config (Some host)) = Some host /\
  failed_over_from (set_failed_over_from config None) = None.
Proof.
  unfold guest_agent_enabled, ha_enabled, failed_over_from, set_guest_agent_config,
    set_ha_enabled_config, set_failed_over_from.
  rewrite !update_object_eq. simpl. repeat split.
  - by rewrite lookup_delete_ne, lookup_insert_eq by done.
  - by rewrite lookup_insert_eq.
  - rewrite lookup_insert_eq. simpl. apply uuid_parse_to_string.
  - by rewrite lookup_delete_eq.
Qed.

(** Marking or unmarking a failed-over VM leaves its guest agent, HA flag and
    placement policy alone; turning HA on or off leaves the failover marker
    alone. *)
Theorem config_flags_frame config host enabled :
  guest_agent_enabled (set_failed_over_from config host) = guest_agent_enabled config /\
  ha_enabled (set_failed_over_from config host) = ha_enabled config /\
  placement_policy_from_config (set_failed_over_from config host)
    = placement_policy_from_config config /\
  failed_over_from (set_ha_enabled_config config enabled) = failed_over_from config /\
  ha_enabled (set_guest_agent_config config enabled) = ha_enabled config.
Proof.
  unfold guest_agent_enabled, ha_enabled, failed_over_from, placement_policy_from_config,
    set_guest_agent_config, set_ha_enabled_config, set_failed_over_from.
  rewrite !json_get_update_frame; [done|..]; intros m; try destruct host;
    by rewrite ?lookup_delete_ne, ?lookup_insert_ne by done.
Qed.

(** A policy persisted in an object configuration is read back, and persisting
    no policy removes it. *)
Theorem placement_policy_roundtrip config policy :
  json_is_object config = true ->
  placement_policy_from_config (persist_placement_policy config policy) = policy.
Proof.
  unfold placement_policy_from_config. destruct config; try done. intros _.
  destruct policy as [p|]; simpl.
  - rewrite lookup_insert_eq. simpl. apply policy_from_to_json.
  - by rewrite lookup_delete_eq.
Qed.

End config.

(** ** Merging a template's configuration with a request's *)

(** With two objects the request wins key by key and the template fills the
    rest; a request that is neither an object nor null replaces the template. *)
Theorem merge_config_spec template request k :
  (json_is_object template = true -> json_is_object request = true ->
   json_get (merge_config template request) k
   = opt_or (json_get request k) (json_get template k)) /\
  (json_is_object request = false -> json_is_null request = false ->
   merge_config template request = request).
Proof.
  split.
  - destruct template, request; try done. intros _ _. simpl.
    rewrite lookup_union. by destruct (m0 !! k), (m !! k).
  - by destruct template, request.
Qed.

(** ** What the policy validator accepts *)

Lemma validate_tag_list_ok field tags :
  validate_tag_list field tags = Ok tt <-> Forall (fun t => is_blank t = false) tags.
Proof.
  unfold validate_tag_list. rewrite Forall_forall. destruct (existsb is_blank tags) eqn:E.
  - split; [done|]. intros H. apply existsb_exists in E as (t&Hin&Ht).
    apply list_elem_of_In in Hin. apply H in Hin. congruence.
  - split; [|done]. intros _ t Ht. destruct (is_blank t) eqn:Et; [|done].
    exfalso. apply not_true_iff_false in E. apply E. apply existsb_exists.
    exists t. by rewrite <- list_elem_of_In.
Qed.

Lemma validate_label_map_ok field labels :
  validate_label_map field labels = Ok tt <->
  map_Forall (fun k v => is_blank k = false /\ is_blank v = false) labels.
Proof.
  unfold validate_label_map, btree_iter. rewrite for_each_ok, merge_sort_Permutation.
  rewrite map_Forall_to_list, !Forall_forall. split; intros Hall [k v] Hin;
    specialize (Hall _ Hin); simpl in *; crush.
Qed.

Definition policy_well_formed (p : PlacementPolicy) : Prop :=
  (forall class, pp_reservation_class p = Some class -> is_blank class = false) /\
  map_Forall (fun k v => is_blank k = false /\ is_blank v = false) (pp_required_host_labels p) /\
  map_Forall (fun k v => is_blank k = false /\ is_blank v = false) (pp_preferred_host_labels p) /\
  Forall (fun t => is_blank t = false) (pp_affinity_tags p) /\
  Forall (fun t => is_blank t = false) (pp_anti_affinity_tags p) /\
  Forall (fun t => is_blank t = false) (pp_spread_tags p).

(** A policy passes validation exactly when none of its reservation class, label
    keys and values and tags is blank. *)
Theorem validate_policy_ok p : validate_policy p = Ok tt <-> policy_well_formed p.
Proof.
  unfold validate_policy, policy_well_formed.
  rewrite !result_seq_ok, !validate_label_map_ok, !validate_tag_list_ok.
  destruct (pp_reservation_class p) as [class|];
    [destruct (is_blank class) eqn:E|]; split.
  - by intros [? _].
  - intros [Hc _]. specialize (Hc _ eq_refl). congruence.
  - intros (_&?&?&?&?&?&_). split_and!; try done. by intros ? [= <-].
  - intros (_&?&?&?&?&?). by split_and!.
  - intros (_&?&?&?&?&?&_). by split_and!.
  - intros (_&?&?&?&?&?). by split_and!.
Qed.
