(* ===== verification/Hooks.v ===== *)
(** * Hooks: lifecycle webhooks

    [qarax/src/model/lifecycle_hooks.rs] (the hooks and the queue of their
    executions) and [qarax/src/hook_executor.rs] (the background task that
    claims due executions and delivers them).  The theorems show which hooks a
    status change enqueues, that an execution is never claimed twice, that the
    attempts of an execution are bounded and that a failing delivery ends in
    [FAILED] after exactly [max_attempts] attempts, and give the delays between
    them. *)

From S2P Require Import Prelude Text Errors Tables NodeApi World Samples.
#[local] Open Scope Z_scope.
#[local] Set Default Proof Using "Type".

(** [VmStatus::to_string] ([strum(serialize_all = "snake_case")]). *)
Definition vm_status_to_string (s : VmStatus) : string :=
  match s with
  | Unknown => "unknown" | Pending => "pending" | Created => "created" | Running => "running"
  | Paused => "paused" | Shutdown => "shutdown" | Migrating => "migrating"
  | Committing => "committing"
  end.

(** ** Hooks *)

Record NewLifecycleHook := {
  nlh_name : string;
  nlh_url : string;
  nlh_secret : option string;
  nlh_scope : HookScope;
  nlh_scope_value : option string;
  nlh_events : list string
}.

(** A double option distinguishes an absent field from an explicit null. *)
Record UpdateLifecycleHook := {
  ulh_url : option string;
  ulh_secret : option (option string);
  ulh_scope : option HookScope;
  ulh_scope_value : option (option string);
  ulh_events : option (list string);
  ulh_active : option bool
}.

Definition create (hook : NewLifecycleHook) : M SqlxError Uuid :=
  id ← new_uuid;
  t ← now;
  execute Pool (fun db =>
    if existsb (fun h => String.eqb (lh_name h) (nlh_name hook)) (rows (t_lifecycle_hooks db))
    then Err (Database (Some "23505"%string) (Some "lifecycle_hooks_name_key"%string))
    else
      hooks ← insert_pk "lifecycle_hooks_pkey" id
        {| lh_id := id; lh_name := nlh_name hook; lh_url := nlh_url hook;
           lh_secret := nlh_secret hook; lh_scope := nlh_scope hook;
           lh_scope_value := nlh_scope_value hook; lh_events := nlh_events hook;
           lh_active := true; lh_created_at := t; lh_updated_at := t |}
        (t_lifecycle_hooks db);
      Ok (with_lifecycle_hooks (fun _ => hooks) db, id)).

Definition get (hook_id : Uuid) : M SqlxError LifecycleHook :=
  query Pool (fun db => fetch_one (t_lifecycle_hooks db !! hook_id)).

Definition apply_update (t : Z) (req : UpdateLifecycleHook) (h : LifecycleHook) : LifecycleHook :=
  {| lh_id := lh_id h; lh_name := lh_name h;
     lh_url := default (lh_url h) (ulh_url req);
     lh_secret := default (lh_secret h) (ulh_secret req);
     lh_scope := default (lh_scope h) (ulh_scope req);
     lh_scope_value := default (lh_scope_value h) (ulh_scope_value req);
     lh_events := default (lh_events h) (ulh_events req);
     lh_active := default (lh_active h) (ulh_active req);
     lh_created_at := lh_created_at h; lh_updated_at := t |}.

Definition update (hook_id : Uuid) (req : UpdateLifecycleHook) : M SqlxError LifecycleHook :=
  t ← now;
  _ ← execute Pool (fun db =>
    Ok (with_lifecycle_hooks (alter (apply_update t req) hook_id) db, tt));
  get hook_id.

(** [ON DELETE CASCADE] removes the executions of the hook with it. *)
Definition delete_hook (hook_id : Uuid) : M SqlxError unit :=
  execute Pool (fun db =>
    Ok (with_hook_executions
          (fun t => filter (fun kv => he_hook_id kv.2 <> hook_id) t)
          (with_lifecycle_hooks (delete hook_id) db), tt)).

(** ** The execution queue *)

Section queue.
Context `{UuidText}.
(** [chrono]'s RFC 3339 formatting, [serde_json::to_string], HMAC-SHA256 in
    hexadecimal and the [Display] of a database error: third-party code. *)
Variables (to_rfc3339 : Z -> string) (json_to_string : json -> string)
  (hmac_sha256_hex : string -> string -> string) (sqlx_display : SqlxError -> string).

Definition build_payload (t : Z) (vm : VmRow) (previous_status new_status : string) : json :=
  JObject (list_to_map
    [("event", JString "vm.status_changed");
     ("timestamp", JString (to_rfc3339 t));
     ("vm_id", JString (uuid_to_string (v_id vm)));
     ("vm_name", JString (v_name vm));
     ("previous_status", JString previous_status);
     ("new_status", JString new_status);
     ("host_id", match v_host_id vm with
                 | Some h => JString (uuid_to_string h)
                 | None => JNull end);
     ("tags", JArray (JString <$> v_tags vm))]%string).

(** The [WHERE] clause of [enqueue_matching]. *)
Definition hook_matches (vm : VmRow) (new_status : string) (h : LifecycleHook) : bool :=
  lh_active h &&
  (match lh_scope h with
   | ScopeGlobal => true
   | ScopeVm => bool_decide (lh_scope_value h = Some (uuid_to_string (v_id vm)))
   | ScopeTag => match lh_scope_value h with
                 | Some v => bool_decide (v ∈ v_tags vm)
                 | None => false
                 end
   end) &&
  (bool_decide (lh_events h = []) || bool_decide (new_status ∈ lh_events h)).

(** The row [INSERT INTO hook_executions] adds, with the column defaults. *)
Definition new_execution (t : Z) (payload : json) (vm : VmRow) (previous_status new_status : string)
    (id : Uuid) (h : LifecycleHook) : HookExecution :=
  {| he_id := id; he_hook_id := lh_id h; he_vm_id := v_id vm;
     he_previous_status := previous_status; he_new_status := new_status;
     he_status := HookPending; he_attempt_count := 0; he_max_attempts := 5;
     he_next_retry_at := t; he_payload := payload; he_response_status := None;
     he_response_body := None; he_last_error := None; he_created_at := t;
     he_delivered_at := None |}.

Fixpoint insert_executions (es : list HookExecution) (t : gmap Uuid HookExecution)
  : result SqlxError (gmap Uuid HookExecution) :=
  match es with
  | [] => Ok t
  | e :: es' => insert_pk "hook_executions_pkey" (he_id e) e t ≫= insert_executions es'
  end.

Definition enqueue_matching (vm : VmRow) (previous_status new_status : string) : M SqlxError unit :=
  hooks ← query Pool (fun db =>
    Ok (List.filter (hook_matches vm new_status) (rows (t_lifecycle_hooks db))));
  if bool_decide (hooks = []) then mret tt
  else
    t ← now;
    let payload := build_payload t vm previous_status new_status in
    ids ← new_uuids (length hooks);
    t' ← now;
    execute Pool (fun db =>
      es ← insert_executions
             (zip_with (new_execution t' payload vm previous_status new_status) ids hooks)
             (t_hook_executions db);
      Ok (with_hook_executions (fun _ => es) db, tt)).

Definition set_status (s : HookExecutionStatus) (e : HookExecution) : HookExecution :=
  {| he_id := he_id e; he_hook_id := he_hook_id e; he_vm_id := he_vm_id e;
     he_previous_status := he_previous_status e; he_new_status := he_new_status e;
     he_status := s; he_attempt_count := he_attempt_count e;
     he_max_attempts := he_max_attempts e; he_next_retry_at := he_next_retry_at e;
     he_payload := he_payload e; he_response_status := he_response_status e;
     he_response_body := he_response_body e; he_last_error := he_last_error e;
     he_created_at := he_created_at e; he_delivered_at := he_delivered_at e |}.

Definition retry_le (x y : HookExecution) : Prop := he_next_retry_at x <= he_next_retry_at y.
#[global] Instance retry_le_dec x y : Decision (retry_le x y).
Proof. unfold retry_le. apply _. Defined.

(** Rows that are pending, due and not locked by another executor. *)
Definition claimable (locked : gset Uuid) (t : Z) (e : HookExecution) : bool :=
  bool_decide (he_status e = HookPending) && (he_next_retry_at e <=? t)
  && negb (bool_decide (he_id e ∈ locked)).

Definition claim_selection (locked : gset Uuid) (t limit : Z) (es : gmap Uuid HookExecution)
  : list HookExecution :=
  take (Z.to_nat limit) (merge_sort retry_le (List.filter (claimable locked t) (rows es))).

Definition claim_pending_executions (locked : gset Uuid) (limit : Z)
  : M SqlxError (list HookExecution) :=
  t ← now;
  execute Pool (fun db =>
    let chosen := claim_selection locked t limit (t_hook_executions db) in
    let ids := he_id <$> chosen in
    Ok (with_hook_executions
          (update_where (fun e => bool_decide (he_id e ∈ ids)) (set_status HookProcessing)) db,
        set_status HookProcessing <$> chosen)).

Definition reset_processing_to_pending : M SqlxError Z :=
  execute Pool (fun db =>
    let hit := fun e => bool_decide (he_status e = HookProcessing) in
    Ok (with_hook_executions (update_where hit (set_status HookPending)) db,
        Z.of_nat (length (List.filter hit (rows (t_hook_executions db)))))).

Definition delivered_row (status : Z) (body : option string) (t : Z) (e : HookExecution)
  : HookExecution :=
  {| he_id := he_id e; he_hook_id := he_hook_id e; he_vm_id := he_vm_id e;
     he_previous_status := he_previous_status e; he_new_status := he_new_status e;
     he_status := HookDelivered; he_attempt_count := he_attempt_count e + 1;
     he_max_attempts := he_max_attempts e; he_next_retry_at := he_next_retry_at e;
     he_payload := he_payload e; he_response_status := Some status;
     he_response_body := body; he_last_error := he_last_error e;
     he_created_at := he_created_at e; he_delivered_at := Some t |}.

Definition mark_delivered (execution_id : Uuid) (status : Z) (body : option string)
  : M SqlxError unit :=
  t ← now;
  execute Pool (fun db =>
    Ok (with_hook_executions (alter (delivered_row status body t) execution_id) db, tt)).

Definition retry_row (error : string) (next_retry_at : Z) (e : HookExecution) : HookExecution :=
  {| he_id := he_id e; he_hook_id := he_hook_id e; he_vm_id := he_vm_id e;
     he_previous_status := he_previous_status e; he_new_status := he_new_status e;
     he_status := HookPending; he_attempt_count := he_attempt_count e + 1;
     he_max_attempts := he_max_attempts e; he_next_retry_at := next_retry_at;
     he_payload := he_payload e; he_response_status := he_response_status e;
     he_response_body := he_response_body e; he_last_error := Some error;
     he_created_at := he_created_at e; he_delivered_at := he_delivered_at e |}.

Definition mark_retry (execution_id : Uuid) (error : string) (next_retry_at : Z)
  : M SqlxError unit :=
  execute Pool (fun db =>
    Ok (with_hook_executions (alter (retry_row error next_retry_at) execution_id) db, tt)).

Definition failed_row (error : string) (e : HookExecution) : HookExecution :=
  {| he_id := he_id e; he_hook_id := he_hook_id e; he_vm_id := he_vm_id e;
     he_previous_status := he_previous_status e; he_new_status := he_new_status e;
     he_status := HookFailed; he_attempt_count := he_attempt_count e + 1;
     he_max_attempts := he_max_attempts e; he_next_retry_at := he_next_retry_at e;
     he_payload := he_payload e; he_response_status := he_response_status e;
     he_response_body := he_response_body e; he_last_error := Some error;
     he_created_at := he_created_at e; he_delivered_at := he_delivered_at e |}.

Definition mark_failed (execution_id : Uuid) (error : string) : M SqlxError unit :=
  execute Pool (fun db =>
    Ok (with_hook_executions (alter (failed_row error) execution_id) db, tt)).

(** ** The executor *)

Definition BACKOFF_SECS : list Z := [5; 30; 120; 600; 1800].

(** [BACKOFF_SECS[(next_attempt as usize).min(BACKOFF_SECS.len() - 1)]], for a
    non-negative attempt number. *)
Definition backoff_secs (next_attempt : Z) : Z :=
  default 0 (BACKOFF_SECS !! Nat.min (Z.to_nat next_attempt) (length BACKOFF_SECS - 1)).

Definition handle_failure (execution : HookExecution) (error : string) : M SqlxError unit :=
  let next_attempt := he_attempt_count execution + 1 in
  if he_max_attempts execution <=? next_attempt
  then _ ← attempt (mark_failed (he_id execution) error); mret tt
  else
    t ← now;
    _ ← attempt (mark_retry (he_id execution) error (t + backoff_secs next_attempt));
    mret tt.

Definition is_success (status : Z) : bool := in_range 200 299 status.

Definition deliver_hook (execution : HookExecution) : M SqlxError unit :=
  r ← attempt (get (he_hook_id execution));
  match r with
  | Err e =>
      _ ← attempt (mark_failed (he_id execution) ("hook not found: " +:+ sqlx_display e));
      mret tt
  | Ok hook =>
      let body := json_to_string (he_payload execution) in
      let signature := (fun secret => "sha256=" +:+ hmac_sha256_hex secret body)
                         <$> lh_secret hook in
      reply ← http_post (lh_url hook) body signature;
      match reply with
      | HttpResponse status text =>
          if is_success status
          then _ ← attempt (mark_delivered (he_id execution) status text); mret tt
          else handle_failure execution
                 ("HTTP " +:+ fmt_nat status +:+ ": " +:+ default EmptyString text)
      | HttpError msg => handle_failure execution ("request error: " +:+ msg)
      end
  end.

(** One turn of the executor's loop outside maintenance mode.  The spawned
    deliveries are run one after the other. *)
Definition executor_cycle (locked : gset Uuid) : M SqlxError unit :=
  r ← attempt (claim_pending_executions locked 20);
  match r with
  | Err _ => mret tt
  | Ok pending => for_all_m deliver_hook pending
  end.

(** ** Lemmas *)

Lemma insert_executions_spec es t t' :
  insert_executions es t = Ok t' ->
  NoDup (he_id <$> es) /\
  (forall e, e ∈ es -> t !! he_id e = None /\ t' !! he_id e = Some e) /\
  (forall id, id ∉ he_id <$> es -> t' !! id = t !! id).
Proof.
  revert t. induction es as [|e es IH]; simpl; intros t Hins.
  - simplify_eq. split_and!; [constructor|set_solver|done].
  - apply result_bind_ok in Hins as (t1&Hpk&Hins).
    unfold insert_pk in Hpk. destruct (t !! he_id e) eqn:Hfree; simplify_eq.
    destruct (IH _ Hins) as (Hnd&Hin&Hout).
    assert (he_id e ∉ he_id <$> es) as Hnot.
    { intros (e'&Heq&He')%list_elem_of_fmap. destruct (Hin _ He') as [Hn _].
      rewrite <- Heq, lookup_insert_eq in Hn. done. }
    split_and!; [by constructor| |].
    + intros e' [->|He']%elem_of_cons.
      * split; [done|]. rewrite (Hout _ Hnot). apply lookup_insert_eq.
      * destruct (Hin _ He') as [Hn ?]. split; [|done].
        by destruct (proj1 (lookup_insert_None _ _ _ _) Hn).
    + intros id Hid. rewrite Hout by set_solver. apply lookup_insert_ne. set_solver.
Qed.

(** How a delivery may change the row it was claimed for: not at all when the
    database refuses the update, to [DELIVERED], back to [PENDING] while
    attempts are left, or to [FAILED]. *)
Inductive delivery_outcome (e : HookExecution) : (HookExecution -> HookExecution) -> Prop :=
| outcome_refused : delivery_outcome e id
| outcome_delivered status body t : delivery_outcome e (delivered_row status body t)
| outcome_retry error t :
    he_attempt_count e + 1 < he_max_attempts e -> delivery_outcome e (retry_row error t)
| outcome_failed error : delivery_outcome e (failed_row error).

Definition delivers (e : HookExecution) (w w' : World) : Prop :=
  exists f, delivery_outcome e f /\
    w_db w' = with_hook_executions (alter f (he_id e)) (w_db w).

Lemma with_hook_executions_id db : with_hook_executions (fun t => t) db = db.
Proof. by destruct db. Qed.

Lemma with_hook_executions_alter_id k db : with_hook_executions (alter id k) db = db.
Proof.
  destruct db. unfold with_hook_executions. simpl. f_equal. by apply alter_id.
Qed.

(** An update of the row that the database may refuse. *)
Lemma delivers_mark e f o w :
  delivery_outcome e f ->
  delivers e w ((attempt (F := SqlxError) (execute Pool (fun db =>
    Ok (with_hook_executions (alter f (he_id e)) db, tt))) o w).1).
Proof.
  intros Hf. unfold attempt, execute. destruct (o_sql o (w_step w)); simpl.
  - exists id. split; [constructor|]. by rewrite with_hook_executions_alter_id.
  - by exists f.
Qed.

Lemma handle_failure_delivers e error o w : delivers e w (handle_failure e error o w).1.
Proof.
  unfold handle_failure. destruct (Z.leb_spec (he_max_attempts e) (he_attempt_count e + 1)).
  - pose proof (delivers_mark e (failed_row error) o w (outcome_failed _ _)) as D.
    unfold mbind, M_bind. unfold mark_failed.
    destruct (attempt _ o w) as [w1 [?|?]]; exact D.
  - set (r := retry_row error (o_now o (w_step w) + backoff_secs (he_attempt_count e + 1))).
    pose proof (delivers_mark e r o (tick w) (outcome_retry _ _ _ H0)) as D.
    unfold mbind, M_bind, now, mark_retry. fold r.
    destruct (attempt _ o (tick w)) as [w1 [?|?]]; exact D.
Qed.

(** Whatever the hook's server answers and whichever statements the database
    refuses, a delivery changes its own row only, in one of these ways. *)
Lemma deliver_hook_delivers e o w : delivers e w (deliver_hook e o w).1.
Proof.
  unfold deliver_hook. unfold mbind at 1, M_bind at 1. unfold attempt at 1, get, query.
  destruct (match o_sql o (w_step w) with Some _ => _ | None => _ end) as [w1 r] eqn:Eq.
  assert (w_db w1 = w_db w) as Hdb by (by destruct (o_sql o (w_step w)); simplify_eq).
  assert (forall w', delivers e w1 w' -> delivers e w w') as Hw.
  { intros w' (f&Hf&Heq). exists f. by rewrite Hdb in Heq. }
  destruct r as [hook|err].
  - unfold mbind, M_bind, http_post. set (w2 := add_log _ _).
    assert (forall w', delivers e w2 w' -> delivers e w w') as Hw2.
    { intros w' (f&Hf&Heq). exists f. simpl in Heq. by rewrite Hdb in Heq. }
    apply Hw2. destruct (o_http o (w_step w1)) as [status text|msg].
    + destruct (is_success status); [|apply handle_failure_delivers].
      unfold mark_delivered.
      pose proof (delivers_mark e (delivered_row status text (o_now o (w_step w2))) o (tick w2)
        (outcome_delivered _ _ _ _)) as D.
      unfold attempt, mbind, M_bind, now in *.
      destruct (execute Pool _ o (tick w2)) as [w3 [?|?]]; exact D.
    + apply handle_failure_delivers.
  - apply Hw. unfold mark_failed.
    pose proof (delivers_mark e (failed_row ("hook not found: " +:+ sqlx_display err)) o w1
      (outcome_failed _ _)) as D.
    unfold mbind, M_bind. destruct (attempt _ o w1) as [w3 [?|?]]; exact D.
Qed.

(** ** Properties *)

(** A status change of a VM enqueues exactly one pending, never attempted
    execution for every active hook whose scope and event filter match, under
    fresh identifiers, and touches no other execution. *)
Theorem enqueue_matching_spec vm prev new o w w' :
  enqueue_matching vm prev new o w = (w', Ok tt) ->
  exists es,
    he_hook_id <$> es
      = lh_id <$> List.filter (hook_matches vm new) (rows (t_lifecycle_hooks (w_db w))) /\
    NoDup (he_id <$> es) /\
    (forall e, e ∈ es ->
       he_status e = HookPending /\ he_attempt_count e = 0 /\ he_vm_id e = v_id vm /\
       t_hook_executions (w_db w) !! he_id e = None /\
       t_hook_executions (w_db w') !! he_id e = Some e) /\
    (forall id, id ∉ he_id <$> es ->
       t_hook_executions (w_db w') !! id = t_hook_executions (w_db w) !! id).
Proof.
  unfold enqueue_matching. intros Hrun. minv.
  set (hooks := List.filter _ _) in *. case_bool_decide as Hnil; minv.
  - exists []. rewrite Hnil. split_and!; [done|apply NoDup_nil_2|set_solver|done].
  - match goal with
    | Hl : length ?us = length hooks, Hs : same_but_step _ ?w1,
      Hx : insert_executions _ _ ≫= _ = _ |- _ =>
        rename Hl into Hlen; destruct Hs as (Hdb&_&_);
        apply result_bind_ok in Hx as (t'&Hins&?)
    end.
    simplify_eq/=. rewrite Hdb in Hins.
    apply insert_executions_spec in Hins as (Hnd&Hin&Hout).
    set (es := zip_with _ _ _) in *.
    assert (forall e, e ∈ es -> he_status e = HookPending /\ he_attempt_count e = 0
                              /\ he_vm_id e = v_id vm) as Hes.
    { intros e (?&?&?&->&_)%elem_of_lookup_zip_with. done. }
    exists es. split_and!; [|done| |].
    + subst es. clear -Hlen. match goal with us : list Uuid |- _ => revert us Hlen end.
      induction hooks as [|h hs IH]; intros [|u us] Hlen; simplify_eq/=; [done|].
      by rewrite IH.
    + intros e He. destruct (Hes e He) as (?&?&?). destruct (Hin e He). by split_and!.
    + done.
Qed.

(** Enqueueing touches no other table and publishes nothing. *)
Lemma enqueue_matching_frame {A} (f : World -> A) vm prev new :
  (forall w, f (tick w) = f w) ->
  (forall w t, f (set_db (with_hook_executions (fun _ => t) (w_db w)) w) = f w) ->
  steps (keeps f) (enqueue_matching vm prev new).
Proof.
  intros Ht Hx. unfold enqueue_matching.
  apply steps_bind; [by apply steps_query|]. intros hooks. case_match; [apply steps_ret|].
  apply steps_bind; [by apply steps_now|]. intros t.
  apply steps_bind; [by apply steps_new_uuids|]. intros ids.
  apply steps_bind; [by apply steps_now|]. intros t'.
  apply steps_execute; [done|]. intros w db a Hf. simpl in Hf.
  apply result_bind_ok in Hf as (es&_&Hf). injection Hf as <- _. apply Hx.
Qed.

(** The executions are stored under their identifiers. *)
Definition keyed (t : gmap Uuid HookExecution) : Prop := map_Forall (fun k e => he_id e = k) t.

Lemma claim_selection_elem locked t limit es e :
  keyed es -> e ∈ claim_selection locked t limit es ->
  es !! he_id e = Some e /\ claimable locked t e = true.
Proof.
  intros Hk He. unfold claim_selection in He.
  apply elem_of_take in He as (i&He&_). apply list_elem_of_lookup_2 in He.
  rewrite merge_sort_Permutation, list_elem_of_In, filter_In, <- list_elem_of_In in He.
  destruct He as [He Hc]. split; [|done].
  apply elem_of_rows in He as [k Hkk]. by rewrite (Hk k e Hkk).
Qed.

Lemma claim_ok_inv locked limit o w w' l :
  claim_pending_executions locked limit o w = (w', Ok l) ->
  let chosen := claim_selection locked (o_now o (w_step w)) limit (t_hook_executions (w_db w)) in
  l = set_status HookProcessing <$> chosen /\
  w_db w' = with_hook_executions
    (update_where (fun e => bool_decide (he_id e ∈ he_id <$> chosen)) (set_status HookProcessing))
    (w_db w).
Proof. unfold claim_pending_executions. intros Hrun. minv. by simplify_eq/=. Qed.

Lemma claim_effect locked limit o w w' l e :
  keyed (t_hook_executions (w_db w)) -> 0 <= limit ->
  claim_pending_executions locked limit o w = (w', Ok l) ->
  Z.of_nat (length l) <= limit /\
  (e ∈ l ->
   exists e0, t_hook_executions (w_db w) !! he_id e = Some e0 /\
     he_status e0 = HookPending /\ he_next_retry_at e0 <= o_now o (w_step w) /\
     he_id e ∉ locked /\
     t_hook_executions (w_db w') !! he_id e = Some e /\ e = set_status HookProcessing e0).
Proof.
  intros Hk Hl Hrun. apply claim_ok_inv in Hrun as [-> Hdb]. split.
  - rewrite length_fmap. unfold claim_selection. rewrite length_take. lia.
  - intros (e0&->&He0)%list_elem_of_fmap.
    destruct (claim_selection_elem _ _ _ _ _ Hk He0) as [Hlook Hc].
    unfold claimable in Hc. crush.
    exists e0. split_and!; try done. rewrite Hdb. simpl.
    rewrite lookup_update_where, Hlook. simpl.
    rewrite bool_decide_true by (apply list_elem_of_fmap; eauto). done.
Qed.

(** A claim takes at most [limit] executions, all pending, due and unlocked, and
    leaves them [PROCESSING]. *)
Theorem claim_takes_due_pending locked limit o w w' l e :
  keyed (t_hook_executions (w_db w)) -> 0 <= limit ->
  claim_pending_executions locked limit o w = (w', Ok l) ->
  Z.of_nat (length l) <= limit /\
  (e ∈ l ->
   exists e0, t_hook_executions (w_db w) !! he_id e = Some e0 /\
     he_status e0 = HookPending /\ he_next_retry_at e0 <= o_now o (w_step w) /\
     he_id e ∉ locked /\
     t_hook_executions (w_db w') !! he_id e = Some e /\ e = set_status HookProcessing e0).
Proof. apply claim_effect. Qed.

(** No double delivery: what one claim returned, a later claim does not return
    again while the row is still [PROCESSING]. *)
Theorem claims_disjoint locked1 locked2 n1 n2 o w w1 w2 l1 l2 :
  keyed (t_hook_executions (w_db w)) ->
  claim_pending_executions locked1 n1 o w = (w1, Ok l1) ->
  claim_pending_executions locked2 n2 o w1 = (w2, Ok l2) ->
  forall e1 e2, e1 ∈ l1 -> e2 ∈ l2 -> he_id e1 <> he_id e2.
Proof.
  intros Hk H1 H2 e1 e2 He1 He2 Heq.
  apply claim_ok_inv in H1 as [-> Hdb1]. apply claim_ok_inv in H2 as [-> _].
  apply list_elem_of_fmap in He1 as (a1&->&Ha1), He2 as (a2&->&Ha2). simpl in Heq.
  assert (keyed (t_hook_executions (w_db w1))) as Hk1.
  { rewrite Hdb1. simpl. intros k e. rewrite lookup_update_where.
    destruct (t_hook_executions (w_db w) !! k) eqn:E; [|done]. simpl. intros [= <-].
    specialize (Hk _ _ E). by case_match. }
  destruct (claim_selection_elem _ _ _ _ _ Hk1 Ha2) as [Hl2 Hc2].
  destruct (claim_selection_elem _ _ _ _ _ Hk Ha1) as [Hl1 _].
  rewrite Hdb1 in Hl2. simpl in Hl2. rewrite <- Heq, lookup_update_where, Hl1 in Hl2. simpl in Hl2.
  rewrite bool_decide_true in Hl2 by (apply list_elem_of_fmap; eauto).
  injection Hl2 as <-. unfold claimable in Hc2. by simpl in Hc2.
Qed.

(** The attempts of every execution are bounded, and an execution that is still
    queued or in flight has an attempt left. *)
Definition attempts_bounded (t : gmap Uuid HookExecution) : Prop :=
  map_Forall (fun k e => he_id e = k /\ 0 <= he_attempt_count e <= he_max_attempts e /\
    (he_status e = HookPending \/ he_status e = HookProcessing ->
     he_attempt_count e < he_max_attempts e)) t.

Lemma attempts_bounded_keyed t : attempts_bounded t -> keyed t.
Proof. intros Hb k e Hl. by destruct (Hb k e Hl). Qed.

Lemma delivers_attempts_bounded e w w' :
  delivers e w w' ->
  t_hook_executions (w_db w) !! he_id e = Some e -> he_status e = HookProcessing ->
  attempts_bounded (t_hook_executions (w_db w)) ->
  attempts_bounded (t_hook_executions (w_db w')) /\
  (forall k, k <> he_id e ->
     t_hook_executions (w_db w') !! k = t_hook_executions (w_db w) !! k).
Proof.
  intros (f&Hf&Hdb) Hlook Hst Hb. rewrite Hdb. simpl. split.
  - intros k e'. destruct (decide (k = he_id e)) as [->|Hne].
    + rewrite lookup_alter_eq, Hlook. simpl. intros [= <-].
      destruct (Hb _ _ Hlook) as (_&Hbnd&Hpend). specialize (Hpend (or_intror Hst)).
      destruct Hf; simpl; split_and!; try done; try lia; intros [?|?]; done || lia.
    + rewrite lookup_alter_ne by done. apply Hb.
  - intros k Hne. by rewrite lookup_alter_ne.
Qed.

Lemma deliver_all_attempts_bounded l o w :
  NoDup (he_id <$> l) ->
  (forall e, e ∈ l -> t_hook_executions (w_db w) !! he_id e = Some e /\
                      he_status e = HookProcessing) ->
  attempts_bounded (t_hook_executions (w_db w)) ->
  attempts_bounded (t_hook_executions (w_db (for_all_m deliver_hook l o w).1)).
Proof.
  revert w. induction l as [|e l IH]; intros w; simpl; [done|].
  rewrite NoDup_cons. intros [Hnin Hnd] Hall Hb.
  pose proof (deliver_hook_delivers e o w) as D.
  destruct (Hall e) as [Hlook Hst]; [set_solver|].
  destruct (delivers_attempts_bounded _ _ _ D Hlook Hst Hb) as [Hb' Hframe].
  unfold mbind, M_bind. destruct (deliver_hook e o w) as [w1 [?|?]]; simpl in *; [|done].
  apply IH; [done| |done].
  intros e' He'. rewrite Hframe; [apply Hall; set_solver|].
  intros Heq. apply Hnin. rewrite <- Heq. by apply list_elem_of_fmap_2.
Qed.

Lemma claim_preserves_bounded locked limit o w :
  attempts_bounded (t_hook_executions (w_db w)) ->
  attempts_bounded (t_hook_executions (w_db (claim_pending_executions locked limit o w).1)).
Proof.
  intros Hb. destruct (claim_pending_executions locked limit o w) as [w' [l|e]] eqn:Hrun.
  - apply claim_ok_inv in Hrun as [-> Hdb]. simpl. rewrite Hdb. simpl.
    intros k e. rewrite lookup_update_where.
    destruct (t_hook_executions (w_db w) !! k) as [e0|] eqn:Hlook; [|done]. simpl.
    destruct (Hb _ _ Hlook) as (Hid&Hbnd&Hp). case_bool_decide as Hin; intros [= <-]; [|done].
    apply list_elem_of_fmap in Hin as (c&Hc&Hin).
    apply claim_selection_elem in Hin as [Hlc Hcl]; [|by apply attempts_bounded_keyed].
    rewrite <- Hc, Hid, Hlook in Hlc. injection Hlc as ->.
    unfold claimable in Hcl. crush. split_and!; try done; try lia. intros _. apply Hp. by left.
  - unfold claim_pending_executions, mbind, M_bind, now, execute in Hrun. simpl in Hrun.
    by destruct (o_sql o (S (w_step w))); simplify_eq/=.
Qed.

(** A turn of the executor keeps the attempts of every execution within its
    maximum, whatever the hooks answer and whichever statements fail. *)
Theorem executor_cycle_attempts_bounded locked o w :
  attempts_bounded (t_hook_executions (w_db w)) ->
  attempts_bounded (t_hook_executions (w_db (executor_cycle locked o w).1)).
Proof.
  intros Hb. unfold executor_cycle, mbind, M_bind, attempt.
  pose proof (claim_preserves_bounded locked 20 o w Hb) as Hb'.
  destruct (claim_pending_executions locked 20 o w) as [w1 [l|e]] eqn:Hrun; simpl in *; [|done].
  assert (0 <= 20) as H20 by lia.
  pose proof (fun e => proj2 (claim_effect locked 20 o w w1 l e
    (attempts_bounded_keyed _ Hb) H20 Hrun)) as Hl.
  apply deliver_all_attempts_bounded; [| |done].
  - apply claim_ok_inv in Hrun as [-> _]. rewrite <- list_fmap_compose.
    change (he_id ∘ set_status HookProcessing) with he_id.
    unfold claim_selection. rewrite fmap_take. apply NoDup_take.
    rewrite merge_sort_Permutation. apply NoDup_fmap_filter_rows.
    by apply attempts_bounded_keyed.
  - intros e He. destruct (Hl e He) as (e0&_&_&_&_&Hlook&->). done.
Qed.

(** The row a failed delivery leaves, when the database accepts the update. *)
Lemma handle_failure_served e error o w :
  served o ->
  w_db (handle_failure e error o w).1 =
  with_hook_executions
    (alter (if he_max_attempts e <=? he_attempt_count e + 1 then failed_row error
            else retry_row error (o_now o (w_step w) + backoff_secs (he_attempt_count e + 1)))
       (he_id e)) (w_db w).
Proof.
  intros Ho. unfold handle_failure, mbind, M_bind, attempt, mark_failed, mark_retry, now.
  by destruct (he_max_attempts e <=? he_attempt_count e + 1); simpl; erewrite execute_served.
Qed.

(** The comment above [BACKOFF_SECS] announces retries after 5 s, 30 s, 2 min,
    10 min and 30 min.  The table is indexed by the number of the attempt that
    just failed, counted from one, so its first entry is never used: the first
    retry already waits 30 s. *)
Theorem first_backoff_never_used e error o w row :
  served o -> 0 <= he_attempt_count e -> he_attempt_count e + 1 < he_max_attempts e ->
  t_hook_executions (w_db w) !! he_id e = Some row ->
  exists row', t_hook_executions (w_db (handle_failure e error o w).1) !! he_id e = Some row' /\
    he_status row' = HookPending /\
    o_now o (w_step w) + 30 <= he_next_retry_at row'.
Proof.
  intros Ho H0 H1 Hrow. rewrite handle_failure_served by done. simpl.
  destruct (Z.leb_spec (he_max_attempts e) (he_attempt_count e + 1)); [lia|].
  rewrite lookup_alter_eq, Hrow. simpl. eexists. split_and!; [done|done|]. simpl.
  enough (30 <= backoff_secs (he_attempt_count e + 1)) by lia.
  unfold backoff_secs. replace (he_attempt_count e + 1) with (Z.of_nat (S (Z.to_nat (he_attempt_count e))))
    by lia. rewrite Nat2Z.id.
  destruct (Z.to_nat (he_attempt_count e)) as [|[|[|[|n]]]]; simpl; lia.
Qed.

(** Deliver the execution stored under [id], [n] times. *)
Fixpoint deliver_times (n : nat) (id : Uuid) : M SqlxError unit :=
  match n with
  | O => mret tt
  | S n' =>
      e ← query Pool (fun db => fetch_one (t_hook_executions db !! id));
      _ ← deliver_hook e;
      deliver_times n' id
  end.

Definition http_failure (r : HttpReply) : Prop :=
  match r with HttpResponse status _ => is_success status = false | HttpError _ => True end.

Lemma deliver_hook_failing e o w :
  served o -> (forall n, http_failure (o_http o n)) ->
  is_Some (t_lifecycle_hooks (w_db w) !! he_hook_id e) ->
  exists error t w', deliver_hook e o w = (w', Ok tt) /\
    w_db w' = with_hook_executions
      (alter (if he_max_attempts e <=? he_attempt_count e + 1 then failed_row error
              else retry_row error t) (he_id e)) (w_db w).
Proof.
  intros Ho Hh [hook Hhook]. unfold deliver_hook, mbind, M_bind, attempt, get.
  rewrite query_served by done. simpl. rewrite Hhook. simpl. unfold http_post. simpl.
  set (w1 := add_log _ _).
  assert (forall error, exists w', handle_failure e error o w1 = (w', Ok tt)) as Hok.
  { intros error. unfold handle_failure, mbind, M_bind, attempt, mark_failed, mark_retry, now.
    destruct (_ <=? _); erewrite execute_served by done; eauto. }
  assert (w_db w1 = w_db w) as Hdb by done. specialize (Hh (S (w_step w))).
  destruct (o_http o (S (w_step w))) as [status text|msg]; simpl in Hh.
  - rewrite Hh. match goal with |- context [handle_failure e ?err o w1] =>
      destruct (Hok err) as [w' Hw']; pose proof (handle_failure_served e err o w1 Ho) as Hd end.
    do 3 eexists. split; [exact Hw'|]. rewrite Hw', Hdb in Hd. exact Hd.
  - match goal with |- context [handle_failure e ?err o w1] =>
      destruct (Hok err) as [w' Hw']; pose proof (handle_failure_served e err o w1 Ho) as Hd end.
    do 3 eexists. split; [exact Hw'|]. rewrite Hw', Hdb in Hd. exact Hd.
Qed.

Lemma deliver_times_failing n id o w e :
  served o -> (forall k, http_failure (o_http o k)) ->
  t_hook_executions (w_db w) !! id = Some e -> he_id e = id ->
  is_Some (t_lifecycle_hooks (w_db w) !! he_hook_id e) ->
  he_attempt_count e + Z.of_nat n <= he_max_attempts e -> (n <> 0)%nat ->
  exists e', t_hook_executions (w_db (deliver_times n id o w).1) !! id = Some e' /\
    he_attempt_count e' = he_attempt_count e + Z.of_nat n /\
    he_status e' = (if he_attempt_count e + Z.of_nat n =? he_max_attempts e
                    then HookFailed else HookPending).
Proof.
  intros Ho Hh. revert w e. induction n as [|n IH]; intros w e Hrow Hid Hhook Hle Hn; [done|].
  simpl. unfold mbind, M_bind. rewrite query_served by done. simpl. rewrite Hrow. simpl.
  destruct (deliver_hook_failing e o (tick w) Ho Hh Hhook) as (err&t&w'&Hrun&Hdb).
  rewrite Hrun. rewrite Hid in Hdb.
  set (f := if he_max_attempts e <=? he_attempt_count e + 1 then _ else _) in Hdb.
  assert (t_hook_executions (w_db w') !! id = Some (f e)) as Hrow'.
  { rewrite Hdb. simpl. by rewrite lookup_alter_eq, Hrow. }
  assert (he_attempt_count (f e) = he_attempt_count e + 1 /\ he_id (f e) = id /\
    he_hook_id (f e) = he_hook_id e /\ he_max_attempts (f e) = he_max_attempts e /\
    he_status (f e) = (if he_max_attempts e <=? he_attempt_count e + 1
                       then HookFailed else HookPending)) as (Ha&Hi&Hk&Hm&Hs).
  { subst f. by destruct (_ <=? _). }
  destruct n as [|n].
  - exists (f e). split_and!; [done|lia|]. rewrite Hs.
    destruct (Z.leb_spec (he_max_attempts e) (he_attempt_count e + 1)),
      (Z.eqb_spec (he_attempt_count e + Z.of_nat 1) (he_max_attempts e)); done || lia.
  - destruct (IH w' (f e)) as (e'&?&Ha'&Hs'); try done.
    + rewrite Hk, Hdb. done.
    + rewrite Ha, Hm. lia.
    + exists e'. rewrite Ha, Hm in *. split_and!; [done|lia|].
      rewrite Hs'. by replace (he_attempt_count e + 1 + Z.of_nat (S n))
        with (he_attempt_count e + Z.of_nat (S (S n))) by lia.
Qed.

(** A hook whose server never accepts is given up after exactly [max_attempts]
    deliveries: a fresh execution is still queued after fewer failures, and is
    [FAILED] with all its attempts used after that many. *)
Theorem failing_hook_gives_up n id o w e :
  served o -> (forall k, http_failure (o_http o k)) ->
  t_hook_executions (w_db w) !! id = Some e -> he_id e = id ->
  is_Some (t_lifecycle_hooks (w_db w) !! he_hook_id e) ->
  he_attempt_count e = 0 -> 0 < Z.of_nat n <= he_max_attempts e ->
  exists e', t_hook_executions (w_db (deliver_times n id o w).1) !! id = Some e' /\
    he_attempt_count e' = Z.of_nat n /\
    he_status e' = (if Z.of_nat n =? he_max_attempts e then HookFailed else HookPending).
Proof.
  intros Ho Hh Hrow Hid Hhook H0 Hn.
  destruct (deliver_times_failing n id o w e) as (e'&?&Ha&Hs); try done; try lia.
  rewrite H0 in *. by exists e'.
Qed.

End queue.

(** ** Witnesses *)

Section witnesses.
#[local] Instance sample_uuid_text : UuidText := binary_uuid_text.

Lemma enqueue_matching_spec_witness :
  exists es, he_hook_id <$> es = [7%N] /\ NoDup (he_id <$> es).
Proof.
  destruct (enqueue_matching_spec (fun _ => EmptyString)
    (sample_vm 1 "web" None Running 1 1 [] JNull) "pending" "running" calm_oracle
    (world_of hooks_db)
    ((enqueue_matching (fun _ => EmptyString) (sample_vm 1 "web" None Running 1 1 [] JNull)
       "pending" "running" calm_oracle (world_of hooks_db)).1) eq_refl) as (es&Hes&Hnd&_).
  exists es. split; [exact Hes|exact Hnd].
Defined.

(** Two due executions, claimed one at a time. *)
Definition two_due_db : Db :=
  with_hook_executions (fun _ => <[11%N := sample_execution 11 HookPending 0]>
    {[12%N := sample_execution 12 HookPending 0]}) empty_db.

Lemma claims_disjoint_witness :
  exists w1 e1 w2 e2,
    claim_pending_executions ∅ 1 calm_oracle (world_of two_due_db) = (w1, Ok [e1]) /\
    claim_pending_executions ∅ 1 calm_oracle w1 = (w2, Ok [e2]) /\ he_id e1 <> he_id e2.
Proof.
  eexists _, _, _, _. split; [reflexivity|]. split; [reflexivity|].
  eapply (claims_disjoint ∅ ∅ 1 1 calm_oracle (world_of two_due_db));
    [|reflexivity|reflexivity|by left|by left].
  intros k e. unfold two_due_db. simpl.
  intros [[<- <-]|[_ [<- <-]%lookup_singleton_Some]]%lookup_insert_Some; reflexivity.
Defined.

Lemma executor_cycle_attempts_bounded_witness :
  attempts_bounded (t_hook_executions
    (w_db (executor_cycle (fun _ => EmptyString) (fun _ _ => EmptyString)
             (fun _ => EmptyString) ∅ calm_oracle (world_of hooks_db)).1)).
Proof.
  apply executor_cycle_attempts_bounded.
  intros k e. unfold hooks_db. simpl. rewrite lookup_singleton_Some. intros [<- <-].
  simpl. split_and!; [done|lia|lia|lia].
Defined.

Lemma first_backoff_never_used_witness :
  exists row', t_hook_executions (w_db (handle_failure (sample_execution 11 HookPending 0)
      "timeout" calm_oracle (world_of hooks_db)).1) !! 11%N = Some row' /\
    he_status row' = HookPending /\ 0 + 30 <= he_next_retry_at row'.
Proof.
  apply (first_backoff_never_used (sample_execution 11 HookPending 0) "timeout" calm_oracle
    (world_of hooks_db) (sample_execution 11 HookPending 0)); simpl; [done|lia|lia|reflexivity].
Defined.

Lemma failing_hook_gives_up_witness :
  exists e', t_hook_executions (w_db (deliver_times (fun _ => EmptyString)
      (fun _ _ => EmptyString) (fun _ => EmptyString) 5 11 calm_oracle (world_of hooks_db)).1)
      !! 11%N = Some e' /\ he_attempt_count e' = 5 /\ he_status e' = HookFailed.
Proof.
  apply (failing_hook_gives_up (fun _ => EmptyString) (fun _ _ => EmptyString)
    (fun _ => EmptyString) 5 11 calm_oracle (world_of hooks_db)
    (sample_execution 11 HookPending 0)); simpl; try done; try lia.
Defined.

End witnesses.
