(* ===== verification/Vms.v ===== *)
(** * Vms: the vms table ([qarax/src/model/vms.rs], second part)

    The VM value handed to the rest of the program, the resolution of a create
    request against its template and instance type, and one operation per
    statement on the [vms] table.  A status change also publishes an event and
    enqueues the matching webhooks ([Hooks]). *)

From S2P Require Import Prelude Text Common Errors Tables NodeApi World Samples VmConfig Hooks.
#[local] Open Scope Z_scope.
#[local] Set Default Proof Using "Type".

(** [Vm]: the columns of a row and what is read out of its configuration. *)
Record Vm := {
  vm_row : VmRow;
  vm_placement_policy : option PlacementPolicy;
  vm_guest_agent : bool;
  vm_ha_enabled : bool
}.

Section conversion.
Context `{PolicySerde}.

(** [impl From<VmRow> for Vm]. *)
Definition vm_from_row (row : VmRow) : Vm :=
  {| vm_row := row;
     vm_placement_policy := placement_policy_from_config (v_config row);
     vm_guest_agent := guest_agent_enabled (v_config row);
     vm_ha_enabled := ha_enabled (v_config row) |}.
End conversion.

(** ** Create requests *)

Record NewVm := {
  nv_name : string;
  nv_tags : option (list string);
  nv_vm_template_id : option Uuid;
  nv_instance_type_id : option Uuid;
  nv_hypervisor : option Hypervisor;
  nv_architecture : option string;
  nv_boot_vcpus : option Z;
  nv_max_vcpus : option Z;
  nv_cpu_topology : option json;
  nv_kvm_hyperv : option bool;
  nv_memory_size : option Z;
  nv_memory_hotplug_size : option Z;
  nv_memory_mergeable : option bool;
  nv_memory_shared : option bool;
  nv_memory_hugepages : option bool;
  nv_memory_hugepage_size : option Z;
  nv_memory_prefault : option bool;
  nv_memory_thp : option bool;
  nv_boot_source_id : option Uuid;
  nv_root_disk_object_id : option Uuid;
  nv_boot_mode : option BootMode;
  nv_description : option string;
  nv_image_ref : option string;
  nv_cloud_init_user_data : option string;
  nv_cloud_init_meta_data : option string;
  nv_cloud_init_network_config : option string;
  nv_network_id : option Uuid;
  nv_networks : option (list NewVmNetwork);
  nv_security_group_ids : option (list Uuid);
  nv_accelerator_config : option json;
  nv_numa_config : option json;
  nv_persistent_upper_pool_id : option Uuid;
  nv_placement_policy : option PlacementPolicy;
  nv_guest_agent : option bool;
  nv_ha_enabled : option bool;
  nv_config : json
}.

Record ResolvedNewVm := {
  rv_name : string;
  rv_tags : list string;
  rv_hypervisor : Hypervisor;
  rv_architecture : option string;
  rv_boot_vcpus : Z;
  rv_max_vcpus : Z;
  rv_cpu_topology : option json;
  rv_kvm_hyperv : option bool;
  rv_memory_size : Z;
  rv_memory_hotplug_size : option Z;
  rv_memory_mergeable : option bool;
  rv_memory_shared : option bool;
  rv_memory_hugepages : option bool;
  rv_memory_hugepage_size : option Z;
  rv_memory_prefault : option bool;
  rv_memory_thp : option bool;
  rv_boot_source_id : option Uuid;
  rv_root_disk_object_id : option Uuid;
  rv_boot_mode : option BootMode;
  rv_description : option string;
  rv_image_ref : option string;
  rv_cloud_init_user_data : option string;
  rv_cloud_init_meta_data : option string;
  rv_cloud_init_network_config : option string;
  rv_network_id : option Uuid;
  rv_networks : option (list NewVmNetwork);
  rv_security_group_ids : option (list Uuid);
  rv_accelerator_config : option json;
  rv_numa_config : option json;
  rv_persistent_upper_pool_id : option Uuid;
  rv_placement_policy : option PlacementPolicy;
  rv_config : json
}.

(** A missing or empty JSON object counts as no configuration. *)
Definition nonempty_object (v : json) : option json :=
  match v with
  | JObject m => if decide (m = ∅) then None else Some v
  | _ => None
  end.

(** The number of vCPUs and their maximum: an explicit maximum below the boot
    count is an error, an inherited one is raised to it. *)
Definition resolve_vcpus (req : NewVm) (it : option InstanceType) (tpl : option VmTemplate)
  : result Error (Z * Z) :=
  boot ← ok_or (UnprocessableEntity
      "boot_vcpus is required unless provided by the selected instance type or VM template")
    (opt_or (nv_boot_vcpus req) (opt_or (it_boot_vcpus <$> it) (tpl ≫= tpl_boot_vcpus)));
  let inherited := default boot
    (opt_or (nv_max_vcpus req) (opt_or (it_max_vcpus <$> it) (tpl ≫= tpl_max_vcpus))) in
  match nv_max_vcpus req with
  | Some direct =>
      if direct <? boot
      then Err (UnprocessableEntity "max_vcpus must be greater than or equal to boot_vcpus")
      else Ok (boot, inherited)
  | None => Ok (boot, if inherited <? boot then boot else inherited)
  end.

(** [resolve_create_request] once the template and the instance type are read. *)
Definition resolve_with (req : NewVm) (it : option InstanceType) (tpl : option VmTemplate)
  : result Error ResolvedNewVm :=
  let architecture :=
    opt_or (nv_architecture req) (it ≫= it_architecture) ≫= Architecture.normalize_architecture in
  '(boot_vcpus, max_vcpus) ← resolve_vcpus req it tpl;
  hypervisor ← ok_or (UnprocessableEntity
      "hypervisor is required unless provided by the selected VM template")
    (opt_or (nv_hypervisor req) (tpl ≫= tpl_hypervisor));
  memory_size ← ok_or (UnprocessableEntity
      "memory_size is required unless provided by the selected instance type or VM template")
    (opt_or (nv_memory_size req) (opt_or (it_memory_size <$> it) (tpl ≫= tpl_memory_size)));
  _ ← (match nv_placement_policy req with
       | Some policy => validate_policy policy
       | None => Ok tt
       end);
  let config := nv_config req in
  let config := match nv_guest_agent req with
                | Some enabled => set_guest_agent_config config enabled
                | None => config end in
  let config := match nv_ha_enabled req with
                | Some enabled => set_ha_enabled_config config enabled
                | None => config end in
  Ok {| rv_name := nv_name req;
        rv_tags := default [] (nv_tags req);
        rv_hypervisor := hypervisor;
        rv_architecture := architecture;
        rv_boot_vcpus := boot_vcpus;
        rv_max_vcpus := max_vcpus;
        rv_cpu_topology := opt_or (nv_cpu_topology req)
          (opt_or (it ≫= it_cpu_topology) (tpl ≫= tpl_cpu_topology));
        rv_kvm_hyperv := opt_or (nv_kvm_hyperv req)
          (opt_or (it ≫= it_kvm_hyperv) (tpl ≫= tpl_kvm_hyperv));
        rv_memory_size := memory_size;
        rv_memory_hotplug_size := opt_or (nv_memory_hotplug_size req)
          (opt_or (it ≫= it_memory_hotplug_size) (tpl ≫= tpl_memory_hotplug_size));
        rv_memory_mergeable := opt_or (nv_memory_mergeable req)
          (opt_or (it ≫= it_memory_mergeable) (tpl ≫= tpl_memory_mergeable));
        rv_memory_shared := opt_or (nv_memory_shared req)
          (opt_or (it ≫= it_memory_shared) (tpl ≫= tpl_memory_shared));
        rv_memory_hugepages := opt_or (nv_memory_hugepages req)
          (opt_or (it ≫= it_memory_hugepages) (tpl ≫= tpl_memory_hugepages));
        rv_memory_hugepage_size := opt_or (nv_memory_hugepage_size req)
          (opt_or (it ≫= it_memory_hugepage_size) (tpl ≫= tpl_memory_hugepage_size));
        rv_memory_prefault := opt_or (nv_memory_prefault req)
          (opt_or (it ≫= it_memory_prefault) (tpl ≫= tpl_memory_prefault));
        rv_memory_thp := opt_or (nv_memory_thp req)
          (opt_or (it ≫= it_memory_thp) (tpl ≫= tpl_memory_thp));
        rv_boot_source_id := opt_or (nv_boot_source_id req) (tpl ≫= tpl_boot_source_id);
        rv_root_disk_object_id :=
          opt_or (nv_root_disk_object_id req) (tpl ≫= tpl_root_disk_object_id);
        rv_boot_mode := opt_or (nv_boot_mode req) (tpl ≫= tpl_boot_mode);
        rv_description := opt_or (nv_description req) (tpl ≫= tpl_description);
        rv_image_ref := opt_or (nv_image_ref req) (tpl ≫= tpl_image_ref);
        rv_cloud_init_user_data :=
          opt_or (nv_cloud_init_user_data req) (tpl ≫= tpl_cloud_init_user_data);
        rv_cloud_init_meta_data :=
          opt_or (nv_cloud_init_meta_data req) (tpl ≫= tpl_cloud_init_meta_data);
        rv_cloud_init_network_config :=
          opt_or (nv_cloud_init_network_config req) (tpl ≫= tpl_cloud_init_network_config);
        rv_network_id := opt_or (nv_network_id req) (tpl ≫= tpl_network_id);
        rv_networks := opt_or (nv_networks req) (tpl ≫= tpl_networks);
        rv_security_group_ids := nv_security_group_ids req;
        rv_accelerator_config := opt_or (nv_accelerator_config req)
          (it ≫= fun it => nonempty_object (it_accelerator_config it));
        rv_numa_config := opt_or (nv_numa_config req)
          (v ← (it ≫= it_numa_config); if json_is_null v then None else Some v);
        rv_persistent_upper_pool_id := nv_persistent_upper_pool_id req;
        rv_placement_policy := nv_placement_policy req;
        rv_config := merge_config (default default_vm_config (tpl_config <$> tpl)) config |}.

Definition get_template (id : Uuid) : M SqlxError VmTemplate :=
  query Pool (fun db => fetch_one (t_vm_templates db !! id)).
Definition get_instance_type (id : Uuid) : M SqlxError InstanceType :=
  query Pool (fun db => fetch_one (t_instance_types db !! id)).

Definition resolve_create_request (req : NewVm) : M Error ResolvedNewVm :=
  tpl ← (match nv_vm_template_id req with
         | Some id => t ← sqlx_q (get_template id); mret (Some t)
         | None => mret None
         end);
  it ← (match nv_instance_type_id req with
        | Some id => i ← sqlx_q (get_instance_type id); mret (Some i)
        | None => mret None
        end);
  of_result (resolve_with req it tpl).

(** ** Columns the statements write *)

Definition set_image_ref (i : option string) (r : VmRow) : VmRow :=
  {| v_id := v_id r; v_name := v_name r; v_tags := v_tags r; v_host_id := v_host_id r;
     v_status := v_status r; v_hypervisor := v_hypervisor r;
     v_boot_source_id := v_boot_source_id r; v_boot_mode := v_boot_mode r;
     v_description := v_description r; v_boot_vcpus := v_boot_vcpus r;
     v_max_vcpus := v_max_vcpus r; v_cpu_topology := v_cpu_topology r;
     v_kvm_hyperv := v_kvm_hyperv r; v_memory_size := v_memory_size r;
     v_memory_hotplug_size := v_memory_hotplug_size r;
     v_memory_mergeable := v_memory_mergeable r; v_memory_shared := v_memory_shared r;
     v_memory_hugepages := v_memory_hugepages r;
     v_memory_hugepage_size := v_memory_hugepage_size r;
     v_memory_prefault := v_memory_prefault r; v_memory_thp := v_memory_thp r;
     v_image_ref := i; v_cloud_init_user_data := v_cloud_init_user_data r;
     v_cloud_init_meta_data := v_cloud_init_meta_data r;
     v_cloud_init_network_config := v_cloud_init_network_config r; v_config := v_config r |}.
Definition set_config (c : json) (r : VmRow) : VmRow :=
  {| v_id := v_id r; v_name := v_name r; v_tags := v_tags r; v_host_id := v_host_id r;
     v_status := v_status r; v_hypervisor := v_hypervisor r;
     v_boot_source_id := v_boot_source_id r; v_boot_mode := v_boot_mode r;
     v_description := v_description r; v_boot_vcpus := v_boot_vcpus r;
     v_max_vcpus := v_max_vcpus r; v_cpu_topology := v_cpu_topology r;
     v_kvm_hyperv := v_kvm_hyperv r; v_memory_size := v_memory_size r;
     v_memory_hotplug_size := v_memory_hotplug_size r;
     v_memory_mergeable := v_memory_mergeable r; v_memory_shared := v_memory_shared r;
     v_memory_hugepages := v_memory_hugepages r;
     v_memory_hugepage_size := v_memory_hugepage_size r;
     v_memory_prefault := v_memory_prefault r; v_memory_thp := v_memory_thp r;
     v_image_ref := v_image_ref r; v_cloud_init_user_data := v_cloud_init_user_data r;
     v_cloud_init_meta_data := v_cloud_init_meta_data r;
     v_cloud_init_network_config := v_cloud_init_network_config r; v_config := c |}.
Definition set_host_id (h : Uuid) (r : VmRow) : VmRow :=
  {| v_id := v_id r; v_name := v_name r; v_tags := v_tags r; v_host_id := Some h;
     v_status := v_status r; v_hypervisor := v_hypervisor r;
     v_boot_source_id := v_boot_source_id r; v_boot_mode := v_boot_mode r;
     v_description := v_description r; v_boot_vcpus := v_boot_vcpus r;
     v_max_vcpus := v_max_vcpus r; v_cpu_topology := v_cpu_topology r;
     v_kvm_hyperv := v_kvm_hyperv r; v_memory_size := v_memory_size r;
     v_memory_hotplug_size := v_memory_hotplug_size r;
     v_memory_mergeable := v_memory_mergeable r; v_memory_shared := v_memory_shared r;
     v_memory_hugepages := v_memory_hugepages r;
     v_memory_hugepage_size := v_memory_hugepage_size r;
     v_memory_prefault := v_memory_prefault r; v_memory_thp := v_memory_thp r;
     v_image_ref := v_image_ref r; v_cloud_init_user_data := v_cloud_init_user_data r;
     v_cloud_init_meta_data := v_cloud_init_meta_data r;
     v_cloud_init_network_config := v_cloud_init_network_config r; v_config := v_config r |}.
Definition set_name (n : string) (r : VmRow) : VmRow :=
  {| v_id := v_id r; v_name := n; v_tags := v_tags r; v_host_id := v_host_id r;
     v_status := v_status r; v_hypervisor := v_hypervisor r;
     v_boot_source_id := v_boot_source_id r; v_boot_mode := v_boot_mode r;
     v_description := v_description r; v_boot_vcpus := v_boot_vcpus r;
     v_max_vcpus := v_max_vcpus r; v_cpu_topology := v_cpu_topology r;
     v_kvm_hyperv := v_kvm_hyperv r; v_memory_size := v_memory_size r;
     v_memory_hotplug_size := v_memory_hotplug_size r;
     v_memory_mergeable := v_memory_mergeable r; v_memory_shared := v_memory_shared r;
     v_memory_hugepages := v_memory_hugepages r;
     v_memory_hugepage_size := v_memory_hugepage_size r;
     v_memory_prefault := v_memory_prefault r; v_memory_thp := v_memory_thp r;
     v_image_ref := v_image_ref r; v_cloud_init_user_data := v_cloud_init_user_data r;
     v_cloud_init_meta_data := v_cloud_init_meta_data r;
     v_cloud_init_network_config := v_cloud_init_network_config r; v_config := v_config r |}.
Definition set_size (vcpus memory : option Z) (r : VmRow) : VmRow :=
  {| v_id := v_id r; v_name := v_name r; v_tags := v_tags r; v_host_id := v_host_id r;
     v_status := v_status r; v_hypervisor := v_hypervisor r;
     v_boot_source_id := v_boot_source_id r; v_boot_mode := v_boot_mode r;
     v_description := v_description r; v_boot_vcpus := default (v_boot_vcpus r) vcpus;
     v_max_vcpus := v_max_vcpus r; v_cpu_topology := v_cpu_topology r;
     v_kvm_hyperv := v_kvm_hyperv r; v_memory_size := default (v_memory_size r) memory;
     v_memory_hotplug_size := v_memory_hotplug_size r;
     v_memory_mergeable := v_memory_mergeable r; v_memory_shared := v_memory_shared r;
     v_memory_hugepages := v_memory_hugepages r;
     v_memory_hugepage_size := v_memory_hugepage_size r;
     v_memory_prefault := v_memory_prefault r; v_memory_thp := v_memory_thp r;
     v_image_ref := v_image_ref r; v_cloud_init_user_data := v_cloud_init_user_data r;
     v_cloud_init_meta_data := v_cloud_init_meta_data r;
     v_cloud_init_network_config := v_cloud_init_network_config r; v_config := v_config r |}.

(** ** Statements on the vms table *)

Section statements.
Context `{UuidText} `{PolicySerde} `{Collation}.
Variables (to_rfc3339 : Z -> string) (jsonb_out : json -> string).

Definition name_le (x y : VmRow) : Prop := coll_le (v_name x) (v_name y).
#[global] Instance name_le_dec x y : Decision (name_le x y).
Proof. unfold name_le. apply _. Defined.

Definition subset_tags (required tags : list string) : bool :=
  forallb (fun t => bool_decide (t ∈ tags)) required.

Definition list_vms (name_filter : option string) (tags_filter : list string)
  : M SqlxError (list Vm) :=
  query Pool (fun db => Ok (vm_from_row <$> List.filter (fun r =>
    (match name_filter with None => true | Some n => String.eqb (v_name r) n end)
    && (bool_decide (tags_filter = []) || subset_tags tags_filter (v_tags r)))
    (rows (t_vms db)))).

Definition on_host (host_id : Uuid) (r : VmRow) : bool :=
  bool_decide (v_host_id r = Some host_id).

Definition list_by_host (host_id : Uuid) : M SqlxError (list Vm) :=
  query Pool (fun db =>
    Ok (vm_from_row <$> merge_sort name_le (List.filter (on_host host_id) (rows (t_vms db))))).

Definition get (vm_id : Uuid) : M SqlxError Vm :=
  query Pool (fun db => fetch_one (vm_from_row <$> t_vms db !! vm_id)).

(** The row an [INSERT] writes, defaults applied. *)
Definition new_row (id : Uuid) (vm : ResolvedNewVm) (host_id : option Uuid) (status : VmStatus)
  : VmRow :=
  {| v_id := id; v_name := rv_name vm; v_tags := rv_tags vm; v_host_id := host_id;
     v_status := status; v_hypervisor := rv_hypervisor vm;
     v_boot_source_id := rv_boot_source_id vm; v_boot_mode := default Kernel (rv_boot_mode vm);
     v_description := rv_description vm; v_boot_vcpus := rv_boot_vcpus vm;
     v_max_vcpus := rv_max_vcpus vm; v_cpu_topology := rv_cpu_topology vm;
     v_kvm_hyperv := default false (rv_kvm_hyperv vm); v_memory_size := rv_memory_size vm;
     v_memory_hotplug_size := rv_memory_hotplug_size vm;
     v_memory_mergeable := default false (rv_memory_mergeable vm);
     v_memory_shared := default false (rv_memory_shared vm);
     v_memory_hugepages := default false (rv_memory_hugepages vm);
     v_memory_hugepage_size := rv_memory_hugepage_size vm;
     v_memory_prefault := default false (rv_memory_prefault vm);
     v_memory_thp := default false (rv_memory_thp vm); v_image_ref := rv_image_ref vm;
     v_cloud_init_user_data := rv_cloud_init_user_data vm;
     v_cloud_init_meta_data := rv_cloud_init_meta_data vm;
     v_cloud_init_network_config := rv_cloud_init_network_config vm;
     v_config := rv_config vm |}.

(** The constraints of [CREATE TABLE vms]: column widths, checks of a row, the
    unique name and the reference to a host. *)
Definition vm_checks (r : VmRow) : result SqlxError unit :=
  if (50 <? char_count (v_name r)) || (512 <? char_count (default "" (v_image_ref r)))
  then Err (Database (Some "22001"%string) None)
  else if negb (v_boot_vcpus r <=? v_max_vcpus r)
  then Err (Database (Some "23514"%string) (Some "check_boot_vcpus_max"%string))
  else if negb (0 <? v_boot_vcpus r)
  then Err (Database (Some "23514"%string) (Some "check_boot_vcpus_positive"%string))
  else if negb (0 <? v_memory_size r)
  then Err (Database (Some "23514"%string) (Some "check_memory_size_positive"%string))
  else Ok tt.

Definition vm_constraints (r : VmRow) (others : gmap Uuid VmRow) (db : Db) : result SqlxError unit :=
  _ ← vm_checks r;
  if existsb (fun r' => String.eqb (v_name r') (v_name r)) (rows others)
  then Err (Database (Some "23505"%string) (Some "vms_name_key"%string))
  else match v_host_id r with
       | Some h => if bool_decide (h ∈ dom (t_hosts db)) then Ok tt
                   else Err (Database (Some "23503"%string) (Some "vms_host_id_fkey"%string))
       | None => Ok tt
       end.

(** The reference to a boot source; no statement changes it after the insert. *)
Definition boot_source_ref (r : VmRow) (db : Db) : result SqlxError unit :=
  match v_boot_source_id r with
  | Some b => if bool_decide (b ∈ dom (t_boot_sources db)) then Ok tt
              else Err (Database (Some "23503"%string) (Some "vms_boot_source_id_fkey"%string))
  | None => Ok tt
  end.

Definition create_tx_with_status (vm : ResolvedNewVm) (host_id : option Uuid) (status : VmStatus)
  : M SqlxError Uuid :=
  id ← new_uuid;
  execute Tx (fun db =>
    let r := new_row id vm host_id status in
    _ ← vm_constraints r (t_vms db) db;
    _ ← boot_source_ref r db;
    vms ← insert_pk "vms_pkey" id r (t_vms db);
    Ok (with_vms (fun _ => vms) db, id)).

Definition create_tx (vm : ResolvedNewVm) (host_id : option Uuid) : M SqlxError Uuid :=
  create_tx_with_status vm host_id Created.

Definition create (vm : ResolvedNewVm) : M SqlxError Uuid :=
  in_tx (fun e => e) (create_tx vm None).

Definition list_active : M SqlxError (list Vm) :=
  query Pool (fun db => Ok (vm_from_row <$> List.filter (fun r =>
    negb (bool_decide (v_status r ∈ [Shutdown; Unknown; Pending]))
    && bool_decide (is_Some (v_host_id r))) (rows (t_vms db)))).

Definition set_row_status (s : VmStatus) (r : VmRow) : VmRow :=
  {| v_id := v_id r; v_name := v_name r; v_tags := v_tags r; v_host_id := v_host_id r;
     v_status := s; v_hypervisor := v_hypervisor r; v_boot_source_id := v_boot_source_id r;
     v_boot_mode := v_boot_mode r; v_description := v_description r;
     v_boot_vcpus := v_boot_vcpus r; v_max_vcpus := v_max_vcpus r;
     v_cpu_topology := v_cpu_topology r; v_kvm_hyperv := v_kvm_hyperv r;
     v_memory_size := v_memory_size r; v_memory_hotplug_size := v_memory_hotplug_size r;
     v_memory_mergeable := v_memory_mergeable r; v_memory_shared := v_memory_shared r;
     v_memory_hugepages := v_memory_hugepages r;
     v_memory_hugepage_size := v_memory_hugepage_size r;
     v_memory_prefault := v_memory_prefault r; v_memory_thp := v_memory_thp r;
     v_image_ref := v_image_ref r; v_cloud_init_user_data := v_cloud_init_user_data r;
     v_cloud_init_meta_data := v_cloud_init_meta_data r;
     v_cloud_init_network_config := v_cloud_init_network_config r; v_config := v_config r |}.

(** [UPDATE vms SET ... WHERE id = $1]. *)
Definition update_row (f : VmRow -> VmRow) (vm_id : Uuid) : M SqlxError unit :=
  execute Pool (fun db => Ok (with_vms (alter f vm_id) db, tt)).

(** Read the VM, write the status, then publish the event and enqueue the hooks
    when the status really changed; a failure to enqueue is only logged. *)
Definition update_status (vm_id : Uuid) (status : VmStatus) : M SqlxError unit :=
  vm ← attempt (get vm_id);
  _ ← update_row (set_row_status status) vm_id;
  match vm with
  | Ok vm =>
      let r := vm_row vm in
      if bool_decide (v_status r = status) then mret tt
      else
        _ ← emit (EvVmStatus (v_id r) (v_name r) (v_status r) status (v_host_id r) (v_tags r));
        _ ← attempt (enqueue_matching to_rfc3339 r (vm_status_to_string (v_status r))
                       (vm_status_to_string status));
        mret tt
  | Err _ => mret tt
  end.

(** The conditional update that guards a commit: [true] when this call moved the
    VM to [COMMITTING]. *)
Definition try_set_committing (vm_id : Uuid) : M SqlxError bool :=
  execute Pool (fun db =>
    let hit := match t_vms db !! vm_id with
               | Some r => bool_decide (v_status r ∈ [Created; Shutdown])
               | None => false
               end in
    Ok (if hit then with_vms (alter (set_row_status Committing) vm_id) db else db, hit)).

Definition clear_image_ref (vm_id : Uuid) : M SqlxError unit :=
  update_row (set_image_ref None) vm_id.

Definition update_config (vm_id : Uuid) (config : json) : M SqlxError unit :=
  update_row (set_config config) vm_id.

(** [config->>'failed_over_from']: the text of the value, [NULL] when the key is
    missing or holds [null]. *)
Definition jsonb_text (j : json) (k : string) : option string :=
  match json_get j k with
  | Some JNull | None => None
  | Some (JString s) => Some s
  | Some v => Some (jsonb_out v)
  end.

Definition failed_over_marker (source_host_id : Uuid) (r : VmRow) : bool :=
  bool_decide (jsonb_text (v_config r) FAILED_OVER_FROM_CONFIG_KEY
               = Some (uuid_to_string source_host_id)).

Definition list_failed_over_from (source_host_id : Uuid) : M SqlxError (list Vm) :=
  query Pool (fun db =>
    Ok (vm_from_row <$> List.filter (failed_over_marker source_host_id) (rows (t_vms db)))).

(** An [UPDATE] of a column that a constraint of the table mentions. *)
Definition checked_update (c : Conn) (f : VmRow -> VmRow) (vm_id : Uuid) : M SqlxError unit :=
  execute c (fun db =>
    match t_vms db !! vm_id with
    | None => Ok (db, tt)
    | Some r =>
        _ ← vm_constraints (f r) (delete vm_id (t_vms db)) db;
        Ok (with_vms (<[vm_id := f r]>) db, tt)
    end).

Definition update_host_id (vm_id host_id : Uuid) : M SqlxError unit :=
  checked_update Pool (set_host_id host_id) vm_id.

Definition update_name (vm_id : Uuid) (name : string) : M SqlxError unit :=
  checked_update Pool (set_name name) vm_id.

Definition update_name_tx (vm_id : Uuid) (name : string) : M SqlxError unit :=
  checked_update Tx (set_name name) vm_id.

Definition update_resize (vm_id : Uuid) (boot_vcpus memory_size : option Z) : M SqlxError unit :=
  match boot_vcpus, memory_size with
  | None, None => mret tt
  | _, _ => checked_update Pool (set_size boot_vcpus memory_size) vm_id
  end.

(** Deleting a VM deletes its disks, interfaces, addresses, snapshots, backups,
    sandbox, pool membership and group memberships, and frees its GPUs, by the
    [ON DELETE] clauses of the schema. *)
Definition release_gpu (vm_id : Uuid) (g : HostGpu) : HostGpu :=
  {| g_id := g_id g; g_host_id := g_host_id g; g_pci_address := g_pci_address g;
     g_model := g_model g; g_vendor := g_vendor g; g_vram_bytes := g_vram_bytes g;
     g_iommu_group := g_iommu_group g; g_numa_node := g_numa_node g;
     g_vm_id := if bool_decide (g_vm_id g = Some vm_id) then None else g_vm_id g;
     g_discovered_at := g_discovered_at g; g_updated_at := g_updated_at g |}.

Definition snapshot_of (db : Db) (vm_id snapshot_id : Uuid) : bool :=
  match t_vm_snapshots db !! snapshot_id with
  | Some s => bool_decide (sn_vm_id s = vm_id)
  | None => false
  end.

Definition backup_of (db : Db) (vm_id : Uuid) (b : Backup) : bool :=
  bool_decide (bk_vm_id b = Some vm_id)
  || match bk_snapshot_id b with Some s => snapshot_of db vm_id s | None => false end.

Definition delete_vm_cascade (vm_id : Uuid) (db : Db) : Db :=
  with_vms (delete vm_id)
    (with_vm_disks (keep (fun d => negb (bool_decide (vd_vm_id d = vm_id))))
    (with_network_interfaces (keep (fun n => negb (bool_decide (ni_vm_id n = vm_id))))
    (with_ip_allocations (keep (fun a => negb (bool_decide (ipa_vm_id a = Some vm_id))))
    (with_sandboxes (keep (fun s => negb (bool_decide (sb_vm_id s = vm_id))))
    (with_sandbox_pool_members (keep (fun m => negb (bool_decide (spm_vm_id m = vm_id))))
    (with_vm_security_groups (filter (fun p => p.1 <> vm_id))
    (with_backups (keep (fun b => negb (backup_of db vm_id b)))
    (with_vm_snapshots (keep (fun s => negb (bool_decide (sn_vm_id s = vm_id))))
    (with_vm_consoles (keep (fun c => negb (bool_decide (vc_vm_id c = vm_id))))
    (with_vm_rng (keep (fun r => negb (bool_decide (rng_vm_id r = vm_id))))
    (with_host_gpus (fmap (release_gpu vm_id)) db))))))))))).

Definition delete_vm (vm_id : Uuid) : M SqlxError unit :=
  execute Pool (fun db => Ok (delete_vm_cascade vm_id db, tt)).

(** *** Effects of the statements *)

Lemma create_tx_same_db vm host : steps same_db (create_tx vm host).
Proof.
  apply steps_bind; [intros o w; done|]. intros id. apply execute_tx_same_db.
Qed.

Lemma update_row_lookup f vm_id o w w' r id :
  update_row f vm_id o w = (w', r) ->
  exists g, t_vms (w_db w') !! id = g <$> t_vms (w_db w) !! id /\
    (forall x, g x = x \/ id = vm_id /\ g x = f x).
Proof.
  unfold update_row, execute. intros Hrun.
  destruct (o_sql o (w_step w)); injection Hrun as <- <-; simpl.
  - exists (fun x => x). split; [by rewrite option_fmap_id|eauto].
  - destruct (decide (id = vm_id)) as [->|Hne].
    + exists f. rewrite lookup_alter_eq. eauto.
    + exists (fun x => x). rewrite lookup_alter_ne, option_fmap_id by done. eauto.
Qed.

Lemma update_status_hooks_frame {A} (f : World -> A) o w vm prev new :
  (forall w, f (tick w) = f w) ->
  (forall w t, f (set_db (with_hook_executions (fun _ => t) (w_db w)) w) = f w) ->
  f ((_ ← attempt (enqueue_matching to_rfc3339 vm prev new); mret tt : M SqlxError unit) o w).1 = f w.
Proof.
  intros Ht Hx. apply (steps_bind (R := keeps f)).
  - by apply steps_attempt, enqueue_matching_frame.
  - intros ?. apply steps_ret.
Qed.

(** Whatever the database refuses, a status update changes at most the status
    column of its own row. *)
Theorem update_status_frame vm_id status o w w' res id :
  update_status vm_id status o w = (w', res) ->
  t_vms (w_db w') !! id = t_vms (w_db w) !! id \/
  id = vm_id /\ t_vms (w_db w') !! id = set_row_status status <$> t_vms (w_db w) !! id.
Proof.
  unfold update_status, mbind at 1, M_bind at 1, attempt at 1. intros Hrun.
  assert (same_but_step w (get vm_id o w).1) as (Hdb&_&_).
  { unfold get, query. by destruct (o_sql o (w_step w)). }
  destruct (get vm_id o w) as [w1 r1]. simpl in Hdb.
  unfold mbind at 1, M_bind at 1 in Hrun.
  destruct (update_row _ vm_id o w1) as [w2 r2] eqn:Hupd.
  apply (update_row_lookup _ _ _ _ _ _ id) in Hupd as (g&Hg&Hcases). rewrite Hdb in Hg.
  assert (t_vms (w_db w') !! id = t_vms (w_db w2) !! id) as ->.
  { destruct r2 as [u|e]; [|by injection Hrun as <- _].
    destruct r1 as [vm|e]; [|by injection Hrun as <- _].
    case_bool_decide; [by injection Hrun as <- _|].
    change w' with (w', res).1. rewrite <- Hrun.
    unfold mbind at 1, M_bind at 1, emit at 1. simpl.
    rewrite (update_status_hooks_frame (fun w => t_vms (w_db w))) by done. done. }
  rewrite Hg. destruct (t_vms (w_db w) !! id) as [x|] eqn:Hx; [|by left].
  simpl. destruct (Hcases x) as [->|[-> ->]]; auto.
Qed.

Lemma update_status_run vm_id status o w row :
  served o -> t_vms (w_db w) !! vm_id = Some row ->
  exists w', update_status vm_id status o w = (w', Ok tt) /\
    t_vms (w_db w') = <[vm_id := set_row_status status row]> (t_vms (w_db w)) /\
    w_log w' = w_log w ++
      (if decide (v_status row = status) then []
       else [EvVmStatus (v_id row) (v_name row) (v_status row) status (v_host_id row) (v_tags row)]).
Proof.
  intros Ho Hrow. unfold update_status, get, update_row.
  unfold mbind at 1, M_bind at 1, attempt at 1. rewrite query_served by done. simpl.
  rewrite Hrow. simpl. unfold mbind at 1, M_bind at 1.
  rewrite (execute_served Pool _ o _ (with_vms (alter (set_row_status status) vm_id) (w_db w)) tt)
    by done.
  pose proof (alter_as_insert (set_row_status status) _ _ _ Hrow) as Halter.
  case_bool_decide as Heq.
  - eexists. split; [reflexivity|]. simpl. rewrite decide_True by done. rewrite app_nil_r. eauto.
  - rewrite decide_False by done. unfold mbind at 1, M_bind at 1, emit at 1. simpl.
    set (w1 := add_log _ _).
    set (m := (_ ← attempt (enqueue_matching _ _ _ _); mret tt) : M SqlxError unit).
    exists (m o w1).1. split_and!.
    + unfold m, mbind, M_bind, attempt. by destruct (enqueue_matching _ _ _ _ o w1).
    + unfold m. rewrite (update_status_hooks_frame (fun w => t_vms (w_db w))) by done. done.
    + unfold m. by rewrite (update_status_hooks_frame w_log).
Qed.

(** A served status update of an existing VM writes the status and publishes
    the transition exactly when the status changed. *)
Theorem update_status_served vm_id status o w row :
  served o -> t_vms (w_db w) !! vm_id = Some row ->
  exists w', update_status vm_id status o w = (w', Ok tt) /\
    t_vms (w_db w') = <[vm_id := set_row_status status row]> (t_vms (w_db w)) /\
    w_log w' = w_log w ++
      (if decide (v_status row = status) then []
       else [EvVmStatus (v_id row) (v_name row) (v_status row) status (v_host_id row) (v_tags row)]).
Proof. apply update_status_run. Qed.

(** A status update that returns has written the status. *)
Lemma update_status_ok vm_id status o w w' :
  update_status vm_id status o w = (w', Ok tt) ->
  t_vms (w_db w') = alter (set_row_status status) vm_id (t_vms (w_db w)).
Proof.
  unfold update_status. intros Hrun.
  apply bind_ok_inv in Hrun as (r1&w1&Hget&Hrun).
  apply attempt_inv in Hget as (r1'&[= ->]&Hget).
  assert (w_db w1 = w_db w) as Hdb.
  { unfold get, query in Hget. by destruct (o_sql o (w_step w)); injection Hget as <- _. }
  apply bind_ok_inv in Hrun as ([]&w2&Hupd&Hrun). unfold update_row in Hupd.
  apply execute_ok_inv in Hupd as (db&Hdb2&->). simplify_eq/=. rewrite Hdb in *.
  destruct r1' as [vm|e]; [|by minv]. case_bool_decide; [by minv|].
  apply bind_ok_inv in Hrun as ([]&w3&Hemit&Hrun). injection Hemit as <-.
  change w' with (w', Ok tt : result SqlxError unit).1. rewrite <- Hrun.
  by rewrite (update_status_hooks_frame (fun w => t_vms (w_db w))).
Qed.

(** What a status update never touches. *)
Lemma update_status_keeps {A} (f : World -> A) vm_id status :
  (forall w, f (tick w) = f w) -> (forall e w, f (add_log e w) = f w) ->
  (forall g w, f (set_db (with_vms g (w_db w)) w) = f w) ->
  (forall w t, f (set_db (with_hook_executions (fun _ => t) (w_db w)) w) = f w) ->
  steps (keeps f) (update_status vm_id status).
Proof.
  intros Ht Hl Hv Hh. unfold update_status.
  apply steps_bind; [by apply steps_attempt, steps_query|]. intros r.
  apply steps_bind.
  { apply steps_execute; [done|]. intros w db a [= <- <-]. apply Hv. }
  intros _. destruct r; [|apply steps_ret]. case_bool_decide; [apply steps_ret|].
  apply steps_bind; [apply steps_emit; intros; apply Hl|]. intros _.
  apply steps_bind; [|intros ?; apply steps_ret]. by apply steps_attempt, enqueue_matching_frame.
Qed.

(** [restatus id S]: the only change to the vms table is the status of [id], to
    one of [S]. *)
Definition restatus (id : Uuid) (S : list VmStatus) (w w' : World) : Prop :=
  t_vms (w_db w') = t_vms (w_db w) \/
  exists s, s ∈ S /\ t_vms (w_db w') = alter (set_row_status s) id (t_vms (w_db w)).

#[global] Instance restatus_preorder id S : PreOrder (restatus id S).
Proof.
  split; [by left|]. intros w1 w2 w3 [E12|(s&Hs&E12)] [E23|(s'&Hs'&E23)].
  - left. congruence.
  - right. exists s'. split; [done|]. congruence.
  - right. exists s. split; [done|]. congruence.
  - right. exists s'. split; [done|]. rewrite E23, E12. apply map_eq. intros k.
    destruct (decide (k = id)) as [->|]; [|by rewrite !lookup_alter_ne].
    rewrite !lookup_alter_eq. by destruct (t_vms (w_db w1) !! id).
Qed.

Lemma restatus_subseteq id S S' w w' : S ⊆ S' -> restatus id S w w' -> restatus id S' w w'.
Proof. intros Hsub [E|(s&Hs&E)]; [by left|]. right. exists s. auto. Qed.

Lemma update_status_restatus vm_id status : steps (restatus vm_id [status]) (update_status vm_id status).
Proof.
  assert (forall w w', t_vms (w_db w') = t_vms (w_db w) -> restatus vm_id [status] w w') as Hsame
    by (by left).
  unfold update_status. apply steps_bind; [apply steps_attempt, steps_query; intros; by apply Hsame|].
  intros r. apply steps_bind.
  { apply steps_execute; [intros; by apply Hsame|]. intros w db a [= <- <-]. right.
    exists status. split; [set_solver|done]. }
  intros _. destruct r as [vm|]; [|apply steps_ret]. case_bool_decide; [apply steps_ret|].
  apply steps_bind; [apply steps_emit; intros; by apply Hsame|]. intros _.
  intros o w. apply Hsame.
  apply (update_status_hooks_frame (fun w => t_vms (w_db w))); done.
Qed.

Lemma update_status_log_grows vm_id status : steps log_grows (update_status vm_id status).
Proof.
  assert (forall w w', w_log w' = w_log w -> log_grows w w') as Hsame
    by (intros w w' E; exists []; by rewrite app_nil_r).
  unfold update_status. apply steps_bind; [apply steps_attempt, steps_query; intros; by apply Hsame|].
  intros r. apply steps_bind.
  { apply steps_execute; [intros; by apply Hsame|]. intros w db a _. by apply Hsame. }
  intros _. destruct r as [vm|]; [|apply steps_ret]. case_bool_decide; [apply steps_ret|].
  apply steps_bind; [apply steps_emit; intros; by eexists|]. intros _. intros o w. apply Hsame.
  by apply (update_status_hooks_frame w_log).
Qed.

(** The committing guard is a compare-and-set: a call that returns [true] found
    the VM created or shut down and left it committing, a call that returns
    [false] changed nothing. *)
Lemma try_set_committing_spec vm_id o w w' b :
  try_set_committing vm_id o w = (w', Ok b) ->
  if b
  then exists row, t_vms (w_db w) !! vm_id = Some row /\ v_status row ∈ [Created; Shutdown] /\
         t_vms (w_db w') = <[vm_id := set_row_status Committing row]> (t_vms (w_db w))
  else w_db w' = w_db w.
Proof.
  unfold try_set_committing. intros Hrun. minv.
  destruct (t_vms (w_db w) !! vm_id) as [row|] eqn:Hrow; simpl; [|done].
  case_bool_decide; simpl; [|done]. exists row. split_and!; [done|done|].
  by apply alter_as_insert.
Qed.

(** At most one of two commits of the same VM gets past the guard, whatever
    happens to the other rows in between. *)
Theorem commit_guard_exclusive vm_id o1 o2 w1 w1' w2 w2' :
  try_set_committing vm_id o1 w1 = (w1', Ok true) ->
  t_vms (w_db w2) !! vm_id = t_vms (w_db w1') !! vm_id ->
  forall b, try_set_committing vm_id o2 w2 = (w2', Ok b) -> b = false.
Proof.
  intros Ha Hsame [] Hb; [|done].
  apply try_set_committing_spec in Ha as (r1&_&_&E1), Hb as (r2&Hr2&Hs&_).
  rewrite E1, lookup_insert_eq in Hsame. rewrite Hr2 in Hsame. simplify_eq.
  simpl in Hs. set_solver.
Qed.

(** Creating a VM either fails and leaves the database as it was, or stores the
    resolved request under a fresh identifier, unplaced and in status [Created],
    and changes no other row; only a request with a positive, ordered vCPU range,
    a positive memory size and an unused name gets there. *)
Theorem create_all_or_nothing vm o w w' res :
  create vm o w = (w', res) ->
  match res with
  | Err _ => w_db w' = w_db w
  | Ok id =>
      t_vms (w_db w) !! id = None /\
      t_vms (w_db w') = <[id := new_row id vm None Created]> (t_vms (w_db w)) /\
      0 < rv_boot_vcpus vm <= rv_max_vcpus vm /\ 0 < rv_memory_size vm /\
      Forall (fun r => v_name r <> rv_name vm) (rows (t_vms (w_db w)))
  end.
Proof.
  destruct res as [id|e]; unfold create; intros Hrun;
    [|by apply (in_tx_err _ _ _ _ _ _ (create_tx_same_db vm None) Hrun)].
  apply in_tx_ok in Hrun as (w2&Hbody&Hdb&_&_).
  unfold create_tx, create_tx_with_status in Hbody. minv.
  match goal with Hf : _ = Ok (_, _) |- _ => simpl in Hf;
    apply result_bind_ok in Hf as ([]&Hcon&Hf); apply result_bind_ok in Hf as ([]&_&Hf);
    apply result_bind_ok in Hf as (vms&Hins&Hf) end.
  simplify_eq. rewrite Hdb. simpl.
  unfold insert_pk in Hins. case_match; [done|]. simplify_eq.
  unfold vm_constraints, vm_checks in Hcon. simpl in Hcon. crush. split_and!; try done; try lia.
  apply Forall_forall. intros r Hr Heq.
  match goal with Hx : existsb _ _ = false |- _ => rename Hx into Hex end.
  apply not_true_iff_false in Hex. apply Hex. apply existsb_exists.
  exists r. split; [by apply list_elem_of_In|]. by apply String.eqb_eq.
Qed.

(** A VM whose failover source was recorded is listed for that host and for no
    other, until the record is cleared. *)
Theorem failed_over_marker_exact r host host' :
  failed_over_marker host'
    (set_config (set_failed_over_from (v_config r) (Some host)) r) = bool_decide (host = host') /\
  failed_over_marker host' (set_config (set_failed_over_from (v_config r) None) r) = false.
Proof.
  unfold failed_over_marker, jsonb_text, set_failed_over_from. simpl.
  rewrite !update_object_eq. simpl. rewrite lookup_insert_eq, lookup_delete_eq. split; [|done].
  apply bool_decide_ext. split; [|by intros ->]. intros [= ?%uuid_to_string_inj]. done.
Qed.

(** *** References between tables *)

(** Rows that refer to a VM refer to an existing one. *)
Definition vm_references (db : Db) : Prop :=
  map_Forall (fun _ d => is_Some (t_vms db !! vd_vm_id d)) (t_vm_disks db) /\
  map_Forall (fun _ n => is_Some (t_vms db !! ni_vm_id n)) (t_network_interfaces db) /\
  map_Forall (fun _ a => forall v, ipa_vm_id a = Some v -> is_Some (t_vms db !! v))
    (t_ip_allocations db) /\
  map_Forall (fun _ s => is_Some (t_vms db !! sb_vm_id s)) (t_sandboxes db) /\
  map_Forall (fun _ m => is_Some (t_vms db !! spm_vm_id m)) (t_sandbox_pool_members db) /\
  set_Forall (fun p => is_Some (t_vms db !! p.1)) (t_vm_security_groups db) /\
  map_Forall (fun _ s => is_Some (t_vms db !! sn_vm_id s)) (t_vm_snapshots db) /\
  map_Forall (fun _ b => (forall v, bk_vm_id b = Some v -> is_Some (t_vms db !! v)) /\
    forall s, bk_snapshot_id b = Some s -> is_Some (t_vm_snapshots db !! s)) (t_backups db) /\
  map_Forall (fun _ g => forall v, g_vm_id g = Some v -> is_Some (t_vms db !! v))
    (t_host_gpus db).

Lemma delete_keeps_some (vm_id v : Uuid) (t : gmap Uuid VmRow) :
  v <> vm_id -> is_Some (t !! v) -> is_Some (base.delete vm_id t !! v).
Proof. intros Hne Hs. by rewrite lookup_delete_ne. Qed.

(** Deleting a VM keeps the references between tables intact: what belonged to
    it goes with it, and its GPUs and no others become free. *)
Theorem delete_vm_references vm_id o w w' :
  vm_references (w_db w) ->
  delete_vm vm_id o w = (w', Ok tt) ->
  vm_references (w_db w') /\ t_vms (w_db w') !! vm_id = None /\
  forall k g, t_host_gpus (w_db w) !! k = Some g ->
    exists g', t_host_gpus (w_db w') !! k = Some g' /\
      g_vm_id g' = if decide (g_vm_id g = Some vm_id) then None else g_vm_id g.
Proof.
  unfold delete_vm. intros (Hd&Hn&Ha&Hs&Hm&Hsg&Hsn&Hbk&Hg) Hrun. minv.
  match goal with Hf : Ok _ = Ok _ |- _ => clear Hf | _ => idtac end. simpl. split_and!.
  - split_and!; simpl.
    + intros k d [Hk Hp]%lookup_keep. crush. apply delete_keeps_some; [done|]. by apply (Hd k).
    + intros k d [Hk Hp]%lookup_keep. crush. apply delete_keeps_some; [done|]. by apply (Hn k).
    + intros k d [Hk Hp]%lookup_keep v Hv. crush. apply delete_keeps_some; [congruence|].
      by apply (Ha k d).
    + intros k d [Hk Hp]%lookup_keep. crush. apply delete_keeps_some; [done|]. by apply (Hs k).
    + intros k d [Hk Hp]%lookup_keep. crush. apply delete_keeps_some; [done|]. by apply (Hm k).
    + intros p [Hp Hin]%elem_of_filter. apply delete_keeps_some; [done|]. by apply Hsg.
    + intros k d [Hk Hp]%lookup_keep. crush. apply delete_keeps_some; [done|]. by apply (Hsn k).
    + intros k b [Hk Hp]%lookup_keep. apply negb_true_iff, orb_false_iff in Hp as [Hp1 Hp2].
      destruct (Hbk k b Hk) as [Hb1 Hb2]. split.
      * intros v Hv. apply bool_decide_eq_false in Hp1. apply delete_keeps_some; [congruence|].
        by apply Hb1.
      * intros s Hs'. destruct (Hb2 s Hs') as [sn Hsn']. exists sn. apply lookup_keep.
        split; [done|]. rewrite Hs' in Hp2. unfold snapshot_of in Hp2. rewrite Hsn' in Hp2. by rewrite Hp2.
    + intros k g. rewrite lookup_fmap_Some. intros (g0&<-&Hk) v Hv. simpl in Hv.
      case_bool_decide; [done|]. apply delete_keeps_some; [congruence|]. by apply (Hg k g0).
  - by rewrite lookup_delete_eq.
  - intros k g Hk. exists (release_gpu vm_id g). rewrite lookup_fmap, Hk. split; [done|]. simpl.
    case_bool_decide; by repeat case_decide.
Qed.
End statements.

(** ** Resolution of create requests *)

(** What a request, its instance type and its template must provide together. *)
Definition resolvable (req : NewVm) (it : option InstanceType) (tpl : option VmTemplate) : Prop :=
  (exists boot, opt_or (nv_boot_vcpus req) (opt_or (it_boot_vcpus <$> it) (tpl ≫= tpl_boot_vcpus))
                = Some boot /\
     forall m, nv_max_vcpus req = Some m -> boot <= m) /\
  is_Some (opt_or (nv_hypervisor req) (tpl ≫= tpl_hypervisor)) /\
  is_Some (opt_or (nv_memory_size req) (opt_or (it_memory_size <$> it) (tpl ≫= tpl_memory_size))) /\
  (forall p, nv_placement_policy req = Some p -> validate_policy p = Ok tt).

(** A create request resolves exactly when every required value is given by the
    request, its instance type or its template, and
    its explicit bounds and policy are valid. *)
Theorem resolve_succeeds_iff req it tpl :
  is_ok (resolve_with req it tpl) = true <-> resolvable req it tpl.
Proof.
  unfold resolvable, resolve_with, resolve_vcpus.
  destruct (opt_or (nv_boot_vcpus req) _) as [boot|]; simpl;
    [|split; [done|by intros ((?&?&_)&_)]].
  destruct (nv_max_vcpus req) as [m|] eqn:Hm; simpl; [destruct (Z.ltb_spec m boot); simpl|].
  { split; [done|]. intros ((?&[= <-]&Hle)&_). specialize (Hle _ eq_refl). lia. }
  all: (destruct (opt_or (nv_hypervisor req) _); simpl; [|split; [done|by intros (_&[? ?]&_)]]).
  all: (destruct (opt_or (nv_memory_size req) _); simpl; [|split; [done|by intros (_&_&[? ?]&_)]]).
  all: destruct (nv_placement_policy req) as [p|]; simpl; [destruct (validate_policy p) as [[]|] eqn:Hp|].
  all: simpl; split; try done; intros Hr.
  all: try (destruct Hr as (_&_&_&Hpol); specialize (Hpol _ eq_refl); congruence).
  all: split_and!; try done; try (eexists; split; [done|intros; simplify_eq; lia]);
    intros; by simplify_eq.
Qed.

(** A resolved request satisfies the vCPU constraint of the table, and an
    explicit value always wins over the instance type and the template. *)
Theorem resolve_vcpus_bounds req it tpl rv :
  resolve_with req it tpl = Ok rv ->
  rv_boot_vcpus rv <= rv_max_vcpus rv /\
  Some (rv_boot_vcpus rv)
    = opt_or (nv_boot_vcpus req) (opt_or (it_boot_vcpus <$> it) (tpl ≫= tpl_boot_vcpus)) /\
  (forall m, nv_max_vcpus req = Some m -> rv_max_vcpus rv = m) /\
  Some (rv_memory_size rv)
    = opt_or (nv_memory_size req) (opt_or (it_memory_size <$> it) (tpl ≫= tpl_memory_size)).
Proof.
  unfold resolve_with, resolve_vcpus. intros Hres.
  destruct (opt_or (nv_boot_vcpus req) _) as [boot|]; [simpl in Hres|done].
  destruct (nv_max_vcpus req) as [m|] eqn:Hm; simpl in Hres; [destruct (Z.ltb_spec m boot)|];
    [done| |]; simpl in Hres.
  all: (destruct (opt_or (nv_hypervisor req) _); simpl in Hres; [|done]).
  all: (destruct (opt_or (nv_memory_size req) _); simpl in Hres; [|done]).
  all: destruct (nv_placement_policy req) as [p|]; simpl in Hres;
    [destruct (validate_policy p); simpl in Hres; [|done]|]; simplify_eq; simpl.
  all: split_and!; try done; try (intros; congruence); crush.
Qed.

Section witnesses.
#[local] Instance witness_uuid_text : UuidText := binary_uuid_text.
#[local] Instance witness_serde : PolicySerde := array_policy_serde.

Definition web_vm (status : VmStatus) : VmRow :=
  sample_vm 1 "web" None status 2 1024 ["blue"%string] (JObject ∅).
Definition web_db (status : VmStatus) : Db :=
  with_vms (fun _ => {[1%N := web_vm status]}) hooks_db.

Definition web_request : NewVm :=
  {| nv_name := "web"; nv_tags := None; nv_vm_template_id := None; nv_instance_type_id := None;
     nv_hypervisor := Some CloudHv; nv_architecture := None; nv_boot_vcpus := Some 2;
     nv_max_vcpus := None; nv_cpu_topology := None; nv_kvm_hyperv := None;
     nv_memory_size := Some 1024; nv_memory_hotplug_size := None; nv_memory_mergeable := None;
     nv_memory_shared := None; nv_memory_hugepages := None; nv_memory_hugepage_size := None;
     nv_memory_prefault := None; nv_memory_thp := None; nv_boot_source_id := None;
     nv_root_disk_object_id := None; nv_boot_mode := None; nv_description := None;
     nv_image_ref := None; nv_cloud_init_user_data := None; nv_cloud_init_meta_data := None;
     nv_cloud_init_network_config := None; nv_network_id := None; nv_networks := None;
     nv_security_group_ids := None; nv_accelerator_config := None; nv_numa_config := None;
     nv_persistent_upper_pool_id := None; nv_placement_policy := None; nv_guest_agent := None;
     nv_ha_enabled := Some true; nv_config := JNull |}.

Definition web_resolved : ResolvedNewVm :=
  match resolve_with web_request None None with
  | Ok rv => rv
  | Err _ =>
      {| rv_name := ""; rv_tags := []; rv_hypervisor := CloudHv; rv_architecture := None;
         rv_boot_vcpus := 0; rv_max_vcpus := 0; rv_cpu_topology := None; rv_kvm_hyperv := None;
         rv_memory_size := 0; rv_memory_hotplug_size := None; rv_memory_mergeable := None;
         rv_memory_shared := None; rv_memory_hugepages := None; rv_memory_hugepage_size := None;
         rv_memory_prefault := None; rv_memory_thp := None; rv_boot_source_id := None;
         rv_root_disk_object_id := None; rv_boot_mode := None; rv_description := None;
         rv_image_ref := None; rv_cloud_init_user_data := None;
         rv_cloud_init_meta_data := None; rv_cloud_init_network_config := None;
         rv_network_id := None; rv_networks := None; rv_security_group_ids := None;
         rv_accelerator_config := None; rv_numa_config := None;
         rv_persistent_upper_pool_id := None; rv_placement_policy := None; rv_config := JNull |}
  end.

Lemma update_status_served_witness :
  exists w', update_status (fun _ => EmptyString) 1 Running calm_oracle (world_of (web_db Created))
      = (w', Ok tt) /\
    t_vms (w_db w') = <[1%N := set_row_status Running (web_vm Created)]> (t_vms (web_db Created)) /\
    w_log w' = [EvVmStatus 1 "web" Created Running None ["blue"%string]].
Proof.
  apply (update_status_served (fun _ => EmptyString) 1 Running calm_oracle
    (world_of (web_db Created)) (web_vm Created)); [intros n; reflexivity|reflexivity].
Defined.

Lemma update_status_frame_witness :
  let w := world_of (web_db Created) in
  let w' := (update_status (fun _ => EmptyString) 1 Running calm_oracle w).1 in
  t_vms (w_db w') !! 2%N = t_vms (w_db w) !! 2%N \/
  2%N = 1%N /\ t_vms (w_db w') !! 2%N = set_row_status Running <$> t_vms (w_db w) !! 2%N.
Proof.
  simpl. eapply (update_status_frame (fun _ => EmptyString) 1 Running calm_oracle
    (world_of (web_db Created))). apply surjective_pairing.
Defined.

Lemma commit_guard_exclusive_witness :
  let w1 := (try_set_committing 1 calm_oracle (world_of (web_db Shutdown))).1 in
  (try_set_committing 1 calm_oracle (world_of (web_db Shutdown))).2 = Ok true /\
  exists b, (try_set_committing 1 calm_oracle w1).2 = Ok b /\ b = false.
Proof.
  cbv zeta. split; [reflexivity|]. eexists. split; [reflexivity|].
  eapply (commit_guard_exclusive 1 calm_oracle calm_oracle (world_of (web_db Shutdown)));
    reflexivity.
Defined.

Lemma create_all_or_nothing_witness :
  let w' := (create web_resolved calm_oracle (world_of empty_db)).1 in
  t_vms (w_db w') = <[1001%N := new_row 1001 web_resolved None Created]> ∅ /\
  0 < rv_boot_vcpus web_resolved <= rv_max_vcpus web_resolved.
Proof.
  destruct (create_all_or_nothing web_resolved calm_oracle (world_of empty_db)
    (create web_resolved calm_oracle (world_of empty_db)).1 (Ok 1001%N) eq_refl)
    as (_&Heq&Hle&_).
  split; [exact Heq|exact Hle].
Defined.

Lemma delete_vm_references_witness :
  let w' := (delete_vm 1 calm_oracle (world_of (web_db Created))).1 in
  vm_references (w_db w') /\ t_vms (w_db w') !! 1%N = None.
Proof.
  destruct (delete_vm_references 1 calm_oracle (world_of (web_db Created))
    (delete_vm 1 calm_oracle (world_of (web_db Created))).1) as (Hr&Hn&_).
  - split_and!; first [apply map_Forall_empty | apply set_Forall_empty].
  - reflexivity.
  - split; [exact Hr|exact Hn].
Defined.

Lemma resolve_vcpus_bounds_witness : rv_boot_vcpus web_resolved <= rv_max_vcpus web_resolved.
Proof. apply (resolve_vcpus_bounds web_request None None web_resolved). reflexivity. Defined.
End witnesses.
