(* ===== verification/Jobs.v ===== *)
(** * Jobs: asynchronous operations ([qarax/src/model/jobs.rs])

    Long operations (image pulls, starts, migrations, failovers, commits) are
    recorded in the [jobs] table.  The theorems show that a created job is read
    back as it was stored and that no sequence of updates, refused or not,
    leaves a job without the timestamps and the error its status promises. *)

From S2P Require Import Prelude Errors Tables NodeApi World Samples.
#[local] Open Scope Z_scope.

Module resource_types.
Definition HOST : string := "host".
Definition SANDBOX : string := "sandbox".
Definition VM : string := "vm".
End resource_types.

Record NewJob := {
  nj_job_type : JobType;
  nj_description : option string;
  nj_resource_id : option Uuid;
  nj_resource_type : option string
}.

(** The row of [create_tx]: the columns it does not list take their defaults. *)
Definition pending_job (id : Uuid) (nj : NewJob) (t : Z) : Job :=
  {| j_id := id; j_job_type := nj_job_type nj; j_status := JobPending;
     j_description := nj_description nj; j_resource_id := nj_resource_id nj;
     j_resource_type := nj_resource_type nj; j_progress := None; j_result := None;
     j_error := None; j_created_at := t; j_updated_at := t; j_started_at := None;
     j_completed_at := None |}.

Definition completed_job (id : Uuid) (nj : NewJob) (result : option json) (t : Z) : Job :=
  {| j_id := id; j_job_type := nj_job_type nj; j_status := JobCompleted;
     j_description := nj_description nj; j_resource_id := nj_resource_id nj;
     j_resource_type := nj_resource_type nj; j_progress := Some 100; j_result := result;
     j_error := None; j_created_at := t; j_updated_at := t; j_started_at := Some t;
     j_completed_at := Some t |}.

Definition insert_job (j : Job) : M SqlxError unit :=
  execute Tx (fun db =>
    jobs ← insert_pk "jobs_pkey" (j_id j) j (t_jobs db);
    Ok (with_jobs (fun _ => jobs) db, tt)).

Definition get_tx (job_id : Uuid) : M SqlxError Job :=
  query Tx (fun db => fetch_one (t_jobs db !! job_id)).

Definition create_tx (new_job : NewJob) : M SqlxError Job :=
  id ← new_uuid;
  t ← now;
  _ ← insert_job (pending_job id new_job t);
  get_tx id.

Definition create_completed_tx (new_job : NewJob) (result : option json) : M SqlxError Job :=
  id ← new_uuid;
  t ← now;
  _ ← insert_job (completed_job id new_job result t);
  get_tx id.

Definition create (new_job : NewJob) : M SqlxError Job :=
  in_tx (fun e => e) (create_tx new_job).

Definition get (job_id : Uuid) : M SqlxError Job :=
  in_tx (fun e => e) (get_tx job_id).

(** [UPDATE jobs SET ... WHERE id = $1], under the check of the progress column. *)
Definition progress_ok (j : Job) : bool :=
  match j_progress j with Some p => in_range 0 100 p | None => true end.

Definition update_job (f : Z -> Job -> Job) (job_id : Uuid) : M SqlxError unit :=
  t ← now;
  execute Pool (fun db =>
    match t_jobs db !! job_id with
    | None => Ok (db, tt)
    | Some j =>
        if progress_ok (f t j) then Ok (with_jobs (<[job_id := f t j]>) db, tt)
        else Err (Database (Some "23514"%string) (Some "jobs_progress_check"%string))
    end).

Definition running_row (t : Z) (j : Job) : Job :=
  {| j_id := j_id j; j_job_type := j_job_type j; j_status := JobRunning;
     j_description := j_description j; j_resource_id := j_resource_id j;
     j_resource_type := j_resource_type j; j_progress := j_progress j; j_result := j_result j;
     j_error := j_error j; j_created_at := j_created_at j; j_updated_at := t;
     j_started_at := Some t; j_completed_at := j_completed_at j |}.
Definition completed_row (result : option json) (t : Z) (j : Job) : Job :=
  {| j_id := j_id j; j_job_type := j_job_type j; j_status := JobCompleted;
     j_description := j_description j; j_resource_id := j_resource_id j;
     j_resource_type := j_resource_type j; j_progress := Some 100; j_result := result;
     j_error := j_error j; j_created_at := j_created_at j; j_updated_at := t;
     j_started_at := j_started_at j; j_completed_at := Some t |}.
Definition failed_job_row (error : string) (result : option json) (t : Z) (j : Job) : Job :=
  {| j_id := j_id j; j_job_type := j_job_type j; j_status := JobFailed;
     j_description := j_description j; j_resource_id := j_resource_id j;
     j_resource_type := j_resource_type j; j_progress := j_progress j; j_result := result;
     j_error := Some error; j_created_at := j_created_at j; j_updated_at := t;
     j_started_at := j_started_at j; j_completed_at := Some t |}.
Definition progress_row (progress t : Z) (j : Job) : Job :=
  {| j_id := j_id j; j_job_type := j_job_type j; j_status := j_status j;
     j_description := j_description j; j_resource_id := j_resource_id j;
     j_resource_type := j_resource_type j; j_progress := Some progress;
     j_result := j_result j; j_error := j_error j; j_created_at := j_created_at j;
     j_updated_at := t; j_started_at := j_started_at j; j_completed_at := j_completed_at j |}.

Definition mark_running (job_id : Uuid) : M SqlxError unit :=
  update_job running_row job_id.
Definition mark_completed (job_id : Uuid) (result : option json) : M SqlxError unit :=
  update_job (completed_row result) job_id.
Definition mark_failed_with_result (job_id : Uuid) (error : string) (result : option json)
  : M SqlxError unit :=
  update_job (failed_job_row error result) job_id.
Definition mark_failed (job_id : Uuid) (error : string) : M SqlxError unit :=
  mark_failed_with_result job_id error None.
Definition update_progress (job_id : Uuid) (progress : Z) : M SqlxError unit :=
  update_job (progress_row progress) job_id.

(** ** Properties *)

(** What the status of a job promises about its other columns. *)
Definition job_ok (k : Uuid) (j : Job) : Prop :=
  j_id j = k /\ progress_ok j = true /\
  match j_status j with
  | JobPending => True
  | JobRunning => is_Some (j_started_at j)
  | JobCompleted => is_Some (j_completed_at j)
  | JobFailed => is_Some (j_completed_at j) /\ is_Some (j_error j)
  end.
Definition jobs_ok (db : Db) : Prop := map_Forall job_ok (t_jobs db).

(** The operations on the table, each in its own right. *)
Inductive JobOp : Type :=
| OpCreate (nj : NewJob) | OpGet (id : Uuid)
| OpCreateCompleted (nj : NewJob) (result : option json)
| OpRunning (id : Uuid) | OpCompleted (id : Uuid) (result : option json)
| OpFailed (id : Uuid) (error : string) (result : option json)
| OpProgress (id : Uuid) (progress : Z).

Definition run_op (op : JobOp) : M SqlxError unit :=
  match op with
  | OpCreate nj => _ ← create nj; mret tt
  | OpGet id => _ ← get id; mret tt
  | OpCreateCompleted nj result => _ ← in_tx (fun e => e) (create_completed_tx nj result); mret tt
  | OpRunning id => mark_running id
  | OpCompleted id result => mark_completed id result
  | OpFailed id error result => mark_failed_with_result id error result
  | OpProgress id progress => update_progress id progress
  end.

(** A sequence of operations, none of which stops the next. *)
Fixpoint run_ops (ops : list JobOp) : M SqlxError unit :=
  match ops with
  | [] => mret tt
  | op :: ops' => _ ← attempt (run_op op); run_ops ops'
  end.

Definition jobs_world (w : World) : Prop :=
  jobs_ok (w_db w) /\ forall db, w_tx w = Some db -> jobs_ok db.
Definition jobs_kept (w w' : World) : Prop := jobs_world w -> jobs_world w'.
#[global] Instance jobs_kept_preorder : PreOrder jobs_kept.
Proof. unfold jobs_kept. split; [by intros w|intros a b c; auto]. Qed.

Lemma jobs_kept_tick w : jobs_kept w (tick w).
Proof. intros Hw. exact Hw. Qed.

Lemma jobs_kept_set_tx w : jobs_kept w (set_tx None w).
Proof. intros [Hd _]. split; [exact Hd|by simpl]. Qed.

Lemma steps_in_tx_jobs {A} (body : M SqlxError A) :
  steps jobs_kept body -> steps jobs_kept (in_tx (fun e => e) body).
Proof.
  intros Hbody o w Hw. unfold in_tx, lift_err, begin_tx, commit_tx.
  destruct (o_sql o (w_step w)); simpl; [exact Hw|].
  assert (jobs_world (set_tx (Some (w_db w)) (tick w))) as Hw1.
  { destruct Hw as [Hd _]. split; [exact Hd|]. by intros ? [= <-]. }
  specialize (Hbody o _ Hw1). destruct (body _ _) as [w2 [a|e]]; simpl in *;
    [|by apply jobs_kept_set_tx].
  destruct (o_sql o (w_step w2)); simpl; [by apply (jobs_kept_set_tx (tick w2))|].
  destruct Hbody as [Hd Htx]. split; [|by simpl]. simpl.
  destruct (w_tx w2) as [db|]; simpl; [by apply Htx|exact Hd].
Qed.

Lemma insert_job_kept j : job_ok (j_id j) j -> steps jobs_kept (insert_job j).
Proof.
  intros Hj. apply steps_execute; [apply jobs_kept_tick|]. intros w db a Hf [Hd Htx].
  apply result_bind_ok in Hf as (jobs&Hins&Hf). simplify_eq.
  assert (jobs_ok (conn_db Tx w)) as Hc.
  { simpl. destruct (w_tx w) as [x|]; simpl; [by apply Htx|exact Hd]. }
  split; [exact Hd|]. simpl. intros ? [= <-]. unfold insert_pk in Hins. case_match; [done|].
  simplify_eq. by apply map_Forall_insert_2.
Qed.

Lemma update_job_kept f id :
  (forall t k j, job_ok k j -> progress_ok (f t j) = true -> job_ok k (f t j)) ->
  steps jobs_kept (update_job f id).
Proof.
  intros Hf. apply steps_bind; [apply steps_now, jobs_kept_tick|]. intros t.
  apply steps_execute; [apply jobs_kept_tick|]. intros w db a Heq [Hd Htx]. simpl in Heq.
  repeat case_match; simplify_eq; (split; [|exact Htx]); [|exact Hd]. simpl.
  apply map_Forall_insert_2; [|done]. apply Hf; [|done]. by apply Hd.
Qed.

Lemma run_op_kept op : steps jobs_kept (run_op op).
Proof.
  assert (forall id, steps jobs_kept (get_tx id)) as Hget.
  { intros id. apply steps_query, jobs_kept_tick. }
  destruct op; simpl; try (apply steps_bind; [|intros ?; apply steps_ret]; apply steps_in_tx_jobs);
    unfold create_tx, create_completed_tx; try apply Hget.
  1-2: (apply steps_bind; [apply steps_new_uuid, jobs_kept_tick|]; intros u;
        apply steps_bind; [apply steps_now, jobs_kept_tick|]; intros t;
        apply steps_bind; [apply insert_job_kept; split_and!; simpl; eauto|intros ?; apply Hget]).
  all: apply update_job_kept; intros t k j (Hid&Hp&Hs) Hp'; split_and!; simpl; eauto.
Qed.

(** In every state the operations reach, whatever statements the database
    refuses, a running job has a start time, a finished one a completion time, a
    failed one an error, and the progress is a percentage. *)
Theorem jobs_consistent ops o w :
  jobs_world w -> jobs_world (run_ops ops o w).1.
Proof.
  assert (steps jobs_kept (run_ops ops)) as Hops; [|intros Hw; by apply Hops].
  induction ops as [|op ops IH]; simpl; [apply steps_ret|].
  apply steps_bind; [|intros ?; exact IH]. apply steps_attempt, run_op_kept.
Qed.

Lemma create_effect nj o w w' j :
  create nj o w = (w', Ok j) ->
  j = pending_job (j_id j) nj (j_created_at j) /\
  t_jobs (w_db w) !! j_id j = None /\ t_jobs (w_db w') !! j_id j = Some j.
Proof.
  unfold create. intros (w2&Hbody&Hdb&Htx&_)%in_tx_ok.
  unfold create_tx, get_tx, insert_job in Hbody. minv.
  repeat match goal with
  | Hf : result_bind _ _ _ _ = _ |- _ => simpl in Hf
  | Hf : insert_pk _ _ _ _ ≫= _ = Ok _ |- _ => apply result_bind_ok in Hf as (jobs&Hins&Hf)
  end.
  unfold insert_pk in Hins. case_match; [done|]. simplify_eq/=.
  match goal with Hf : fetch_one _ = Ok _ |- _ => apply ok_or_ok in Hf end.
  match goal with
  | Hl : t_jobs (w_db w') !! _ = Some j, He : _ = w_db w' |- _ =>
      pose proof Hl as Hj; rewrite <- He in Hl; simpl in Hl; rewrite lookup_insert_eq in Hl
  end.
  simplify_eq/=. by split_and!.
Qed.

(** A created job is pending, is returned as it was stored, and reading it back
    gives the same job. *)
Theorem create_get_job nj o o' w w' j :
  create nj o w = (w', Ok j) -> served o' ->
  j = pending_job (j_id j) nj (j_created_at j) /\
  t_jobs (w_db w) !! j_id j = None /\
  (get (j_id j) o' w').2 = Ok j.
Proof.
  intros (Hj&Hfresh&Hstored)%create_effect Ho'. split_and!; [done|done|].
  unfold get, in_tx, get_tx, lift_err, begin_tx, commit_tx, query. rewrite Ho'. simpl.
  rewrite Ho'. simpl. rewrite Hstored. simpl. by rewrite Ho'.
Qed.

(** *** What the operations on jobs leave alone *)

Definition jobs_only (w w' : World) : Prop :=
  (exists t, w_db w' = with_jobs (fun _ => t) (w_db w)) /\ w_log w' = w_log w.
#[global] Instance jobs_only_preorder : PreOrder jobs_only.
Proof.
  split.
  - intros w. split; [|done]. exists (t_jobs (w_db w)). by destruct (w_db w).
  - intros a b c [[t1 E1] L1] [[t2 E2] L2]. split; [|congruence]. exists t2. rewrite E2, E1. done.
Qed.

Lemma jobs_only_same w w' : w_db w' = w_db w -> w_log w' = w_log w -> jobs_only w w'.
Proof. intros E L. split; [|done]. exists (t_jobs (w_db w)). rewrite E. by destruct (w_db w). Qed.

Lemma update_job_only f id : steps jobs_only (update_job f id).
Proof.
  apply steps_bind; [apply steps_now; intros; by apply jobs_only_same|]. intros t.
  apply steps_execute; [intros; by apply jobs_only_same|]. intros w db a Heq.
  simpl in Heq. repeat case_match; simplify_eq; [|by apply jobs_only_same].
  split; [by eexists|done].
Qed.

Definition db_jobs_only (db db' : Db) : Prop := exists t, db' = with_jobs (fun _ => t) db.
#[global] Instance db_jobs_only_preorder : PreOrder db_jobs_only.
Proof.
  split; [intros db; exists (t_jobs db); by destruct db|].
  intros a b c [t1 ->] [t2 ->]. by exists t2.
Qed.

Lemma create_only nj : steps jobs_only (create nj).
Proof.
  intros o w. unfold jobs_only. apply (in_tx_moves (R := db_jobs_only)). unfold create_tx.
  assert (forall w, tx_moves db_jobs_only w (tick w)) as Htick by (intros; apply tx_moves_tick, _).
  apply steps_bind; [by apply steps_new_uuid|]. intros id.
  apply steps_bind; [by apply steps_now|]. intros t.
  apply steps_bind; [|intros ?; by apply steps_query].
  apply steps_execute_tx. intros db db' a (jobs&_&?)%result_bind_ok. simplify_eq. by eexists.
Qed.

Lemma jobs_only_table {A} (t : Db -> A) w w' :
  (forall f db, t (with_jobs f db) = t db) -> jobs_only w w' -> t (w_db w') = t (w_db w).
Proof. intros Ht [[x ->] _]. apply Ht. Qed.

Lemma jobs_consistent_witness :
  jobs_world (run_ops [OpCreate {| nj_job_type := VmStart; nj_description := None;
    nj_resource_id := None; nj_resource_type := None |}; OpRunning 1001; OpProgress 1001 400;
    OpFailed 1001 "node refused" None] calm_oracle (world_of empty_db)).1.
Proof. apply jobs_consistent. split; [apply map_Forall_empty|]. done. Defined.

Definition sample_job : NewJob :=
  {| nj_job_type := VmStart; nj_description := Some "start"%string; nj_resource_id := Some 1%N;
     nj_resource_type := Some resource_types.VM |}.

Lemma create_get_job_witness :
  let w' := (create sample_job calm_oracle (world_of empty_db)).1 in
  (get 1001 calm_oracle w').2 = Ok (pending_job 1001 sample_job 2).
Proof.
  destruct (create_get_job sample_job calm_oracle calm_oracle (world_of empty_db)
    (create sample_job calm_oracle (world_of empty_db)).1 (pending_job 1001 sample_job 2))
    as (_&_&Hget); [reflexivity|intros n; reflexivity|exact Hget].
Defined.
