(* ===== verification/Storage.v ===== *)
(** * Storage: pools, objects and the disks of VMs

    [qarax/src/model/storage_pools.rs], the reading side of
    [storage_objects.rs], [vm_disks.rs] and [network_interfaces.rs], and the rule
    of [qarax/src/handlers/vm/handler.rs] that a disk of a local, NFS or block
    pool belongs to one VM at a time.  The theorems characterise that check and
    the choice of a pool. *)

From S2P Require Import Prelude Text Errors Tables Float64 NodeApi World Samples VmConfig Hooks Vms.
#[local] Open Scope Z_scope.
#[local] Set Default Proof Using "Type".

(** ** Storage pools *)

Definition is_shared (t : StoragePoolType) : bool :=
  match t with Nfs | OverlayBd | Block => true | Local => false end.
Definition supports_live_migration (t : StoragePoolType) : bool := is_shared t.

Record NewStoragePool := {
  ns_name : string;
  ns_pool_type : StoragePoolType;
  ns_config : json;
  ns_capacity_bytes : option Z
}.

Section pools.
Context {coll : Collation}.

Definition list_pools (name_filter : option string) : M SqlxError (list StoragePool) :=
  query Pool (fun db => Ok (List.filter (fun p =>
    match name_filter with None => true | Some n => String.eqb (sp_name p) n end)
    (rows (t_storage_pools db)))).

Definition get_pool (pool_id : Uuid) : M SqlxError StoragePool :=
  query Pool (fun db => fetch_one (t_storage_pools db !! pool_id)).

Definition get_pool_batch (ids : list Uuid) : M SqlxError (list StoragePool) :=
  query Pool (fun db =>
    Ok (List.filter (fun p => bool_decide (sp_id p ∈ ids)) (rows (t_storage_pools db)))).

Definition create_pool (new_pool : NewStoragePool) : M SqlxError Uuid :=
  id ← new_uuid;
  execute Pool (fun db =>
    if existsb (fun p => String.eqb (sp_name p) (ns_name new_pool)) (rows (t_storage_pools db))
    then Err (Database (Some "23505"%string) (Some "storage_pools_name_key"%string))
    else
      pools ← insert_pk "storage_pools_pkey" id
        {| sp_id := id; sp_name := ns_name new_pool; sp_pool_type := ns_pool_type new_pool;
           sp_status := Active; sp_config := ns_config new_pool;
           sp_capacity_bytes := ns_capacity_bytes new_pool; sp_allocated_bytes := Some 0 |}
        (t_storage_pools db);
      Ok (with_storage_pools (fun _ => pools) db, id)).

(** A pool with objects or pending cleanups cannot be deleted; its host
    attachments and transfers go with it. *)
Definition delete_pool (pool_id : Uuid) : M SqlxError unit :=
  execute Pool (fun db =>
    if existsb (fun o => bool_decide (so_storage_pool_id o = pool_id)) (rows (t_storage_objects db))
    then Err (Database (Some "23503"%string) (Some "storage_objects_storage_pool_id_fkey"%string))
    else if existsb (fun c => bool_decide (sc_pool_id c = pool_id)) (rows (t_storage_cleanup db))
    then Err (Database (Some "23503"%string) (Some "storage_cleanup_pool_id_fkey"%string))
    else Ok (with_storage_pools (delete pool_id)
               (with_transfers (keep (fun t => negb (bool_decide (tr_storage_pool_id t = pool_id))))
               (with_host_storage_pools (filter (fun hp => hp.2 <> pool_id)) db)), tt)).

Definition active (p : StoragePool) : bool := bool_decide (sp_status p = Active).
Definition non_overlaybd (p : StoragePool) : bool :=
  active p && negb (bool_decide (sp_pool_type p = OverlayBd)).
Definition active_local (p : StoragePool) : bool := active p && bool_decide (sp_pool_type p = Local).

(** [SELECT id ... WHERE test LIMIT 1]: any matching pool. *)
Definition any_pool (test : StoragePool -> bool) : M SqlxError (option Uuid) :=
  query Pool (fun db => Ok (sp_id <$> head (List.filter test (rows (t_storage_pools db))))).

(** The preferred pool when it qualifies, otherwise any that does. *)
Definition pick_preferring (test : StoragePool -> bool) (prefer_pool_id : option Uuid)
  : M SqlxError (option Uuid) :=
  preferred ← (match prefer_pool_id with
               | Some id => query Pool (fun db =>
                   Ok (p ← t_storage_pools db !! id; if test p then Some (sp_id p) else None))
               | None => mret None
               end);
  match preferred with
  | Some id => mret (Some id)
  | None => any_pool test
  end.
Definition pick_active_non_overlaybd := pick_preferring non_overlaybd.
Definition pick_active_local_pool := pick_preferring active_local.
Definition pick_active : M SqlxError (option Uuid) := any_pool active.

(** [INSERT ... ON CONFLICT DO NOTHING] into [host_storage_pools]. *)
Definition attach_pool_host (pool_id host_id : Uuid) : M SqlxError unit :=
  execute Pool (fun db =>
    if bool_decide ((host_id, pool_id) ∈ t_host_storage_pools db) then Ok (db, tt)
    else if negb (bool_decide (host_id ∈ dom (t_hosts db)))
    then Err (Database (Some "23503"%string) (Some "host_storage_pools_host_id_fkey"%string))
    else if negb (bool_decide (pool_id ∈ dom (t_storage_pools db)))
    then Err (Database (Some "23503"%string) (Some "host_storage_pools_storage_pool_id_fkey"%string))
    else Ok (with_host_storage_pools (union {[(host_id, pool_id)]}) db, tt)).

Definition detach_pool_host (pool_id host_id : Uuid) : M SqlxError unit :=
  execute Pool (fun db =>
    Ok (with_host_storage_pools (fun s => s ∖ {[(host_id, pool_id)]}) db, tt)).

Definition host_pools (db : Db) (host_id : Uuid) : list StoragePool :=
  List.filter (fun p => bool_decide ((host_id, sp_id p) ∈ t_host_storage_pools db))
    (rows (t_storage_pools db)).

Definition list_pools_for_host (host_id : Uuid) : M SqlxError (list StoragePool) :=
  query Pool (fun db => Ok (host_pools db host_id)).

(** A host of the pool, preferably up, with the least load. *)
Definition up_rank (h : Host) : Z := if bool_decide (h_status h = HostUp) then 0 else 1.
Definition pool_host_order : relation Host :=
  lex (on_key Z.le up_rank) (on_key (nulls_last f64_le) h_load_average).
#[local] Instance Zle_total : Total Z.le.
Proof. intros x y. lia. Qed.
#[global] Instance pool_host_order_dec : RelDecision pool_host_order.
Proof. unfold pool_host_order. apply _. Defined.
#[global] Instance pool_host_order_total : Total pool_host_order.
Proof. unfold pool_host_order. apply _. Qed.
#[global] Instance pool_host_order_trans : Transitive pool_host_order.
Proof. unfold pool_host_order. apply _. Qed.

Definition pool_hosts (db : Db) (pool_id : Uuid) : list Host :=
  List.filter (fun h => bool_decide ((h_id h, pool_id) ∈ t_host_storage_pools db)) (rows (t_hosts db)).

Definition find_host_for_pool (pool_id : Uuid) : M SqlxError (option Uuid) :=
  query Pool (fun db => Ok (h_id <$> head (merge_sort pool_host_order (pool_hosts db pool_id)))).

Definition list_host_ids (pool_id : Uuid) : M SqlxError (list Uuid) :=
  query Pool (fun db => Ok (omap (fun hp : Uuid * Uuid =>
    if decide (hp.2 = pool_id) then Some hp.1 else None) (elements (t_host_storage_pools db)))).

Definition host_has_pool (host_id pool_id : Uuid) : M SqlxError bool :=
  query Pool (fun db => Ok (bool_decide ((host_id, pool_id) ∈ t_host_storage_pools db))).

Definition find_overlaybd_for_host (host_id : Uuid) : M SqlxError (option StoragePool) :=
  query Pool (fun db => Ok (head (merge_sort (on_key coll_le sp_name)
    (List.filter (fun p => active p && bool_decide (sp_pool_type p = OverlayBd))
       (host_pools db host_id))))).

(** ** Objects, disks and interfaces *)

Definition get_object (object_id : Uuid) : M SqlxError StorageObject :=
  query Pool (fun db => fetch_one (t_storage_objects db !! object_id)).

Definition get_object_batch (ids : list Uuid) : M SqlxError (list StorageObject) :=
  query Pool (fun db =>
    Ok (List.filter (fun o => bool_decide (so_id o ∈ ids)) (rows (t_storage_objects db)))).

(** [ORDER BY boot_order NULLS LAST, device_path]. *)
Definition disk_order : relation VmDisk :=
  lex (on_key (nulls_last Z.le) vd_boot_order) (on_key coll_le vd_device_path).
#[global] Instance disk_order_dec : RelDecision disk_order.
Proof. unfold disk_order. apply _. Defined.

Definition list_disks_by_vm (vm_id : Uuid) : M SqlxError (list VmDisk) :=
  query Pool (fun db => Ok (merge_sort disk_order
    (List.filter (fun d => bool_decide (vd_vm_id d = vm_id)) (rows (t_vm_disks db))))).

(** [ORDER BY vm_id, boot_order NULLS LAST, device_path]. *)
Definition attachment_order : relation VmDisk := lex (on_key N.le vd_vm_id) disk_order.
#[global] Instance attachment_order_dec : RelDecision attachment_order.
Proof. unfold attachment_order. apply _. Defined.

Definition list_disks_by_object (c : Conn) (storage_object_id : Uuid) : M SqlxError (list VmDisk) :=
  query c (fun db => Ok (merge_sort attachment_order
    (List.filter (fun d => bool_decide (vd_storage_object_id d = Some storage_object_id))
       (rows (t_vm_disks db))))).

Definition list_nics_by_vm (vm_id : Uuid) : M SqlxError (list NetworkInterface) :=
  query Pool (fun db => Ok (merge_sort (on_key coll_le ni_device_id)
    (List.filter (fun n => bool_decide (ni_vm_id n = vm_id)) (rows (t_network_interfaces db))))).

Definition get_sandbox_by_vm (vm_id : Uuid) : M SqlxError (option SandboxRow) :=
  query Pool (fun db =>
    Ok (head (List.filter (fun s => bool_decide (sb_vm_id s = vm_id)) (rows (t_sandboxes db))))).

(** ** Exclusive attachment *)

Definition storage_object_requires_exclusive_attachment (object : StorageObject)
    (storage_pool : StoragePool) : bool :=
  match sp_pool_type storage_pool with Local | Nfs | Block => true | OverlayBd => false end
  && match so_object_type object with Disk | Snapshot => true | _ => false end.

Section attachment.
Context `{PolicySerde}.

Definition already_attached (object : StorageObject) (other : Vm) : Error :=
  Conflict ("Storage object '" +:+ so_name object +:+ "' is already attached to VM '"
            +:+ v_name (vm_row other)
            +:+ "'. Clone the disk or create a snapshot before reusing it.").

Definition refuse_other_vm (object : StorageObject) (attachments : list VmDisk)
    (current_vm_id : option Uuid) : M Error unit :=
  match List.find (fun d => negb (bool_decide (Some (vd_vm_id d) = current_vm_id))) attachments with
  | Some conflict =>
      other ← sqlx_q (Vms.get (vd_vm_id conflict));
      throw (already_attached object other)
  | None => mret tt
  end.

Definition ensure_storage_object_can_be_attached (object : StorageObject)
    (storage_pool : StoragePool) (current_vm_id : option Uuid) : M Error unit :=
  if negb (storage_object_requires_exclusive_attachment object storage_pool) then mret tt
  else
    attachments ← sqlx_q (list_disks_by_object Pool (so_id object));
    refuse_other_vm object attachments current_vm_id.

Definition ensure_storage_object_can_be_attached_tx `{UuidText} (object : StorageObject)
    (storage_pool : StoragePool) (current_vm_id : option Uuid) : M Error unit :=
  attachments ← sqlx_q (list_disks_by_object Tx (so_id object));
  if bool_decide (is_Some current_vm_id)
     && existsb (fun d => bool_decide (Some (vd_vm_id d) = current_vm_id)) attachments
  then throw (Conflict ("Storage object " +:+ uuid_to_string (so_id object)
                        +:+ " is already attached to this VM"))
  else if negb (storage_object_requires_exclusive_attachment object storage_pool) then mret tt
  else refuse_other_vm object attachments current_vm_id.

Fixpoint check_disks (vm_id : Uuid) (disks : list VmDisk) : M Error unit :=
  match disks with
  | [] => mret tt
  | disk :: disks' =>
      _ ← (match vd_storage_object_id disk with
           | None => mret tt
           | Some storage_object_id =>
               object ← sqlx_q (get_object storage_object_id);
               storage_pool ← sqlx_q (get_pool (so_storage_pool_id object));
               ensure_storage_object_can_be_attached object storage_pool (Some vm_id)
           end);
      check_disks vm_id disks'
  end.

Definition ensure_vm_disk_attachments_can_start (vm_id : Uuid) : M Error unit :=
  disks ← sqlx_q (list_disks_by_vm vm_id);
  check_disks vm_id disks.

(** ** Properties *)

(** What the start check establishes of one disk. *)
Definition disk_exclusive (db : Db) (vm_id : Uuid) (disk : VmDisk) : Prop :=
  forall oid, vd_storage_object_id disk = Some oid ->
    exists object pool, t_storage_objects db !! oid = Some object /\
      t_storage_pools db !! so_storage_pool_id object = Some pool /\
      (storage_object_requires_exclusive_attachment object pool = true ->
       forall k d, t_vm_disks db !! k = Some d -> vd_storage_object_id d = Some (so_id object) ->
         vd_vm_id d = vm_id).

Lemma query_same_but_step {A} c (f : Db -> result SqlxError A) : steps same_but_step (query c f).
Proof. apply steps_query, same_but_step_tick. Qed.

Lemma refuse_other_vm_reads object attachments current :
  steps same_but_step (refuse_other_vm object attachments current).
Proof.
  unfold refuse_other_vm. destruct (List.find _ _); [|apply steps_ret].
  apply steps_bind; [apply steps_lift_err, query_same_but_step|]. intros ?. apply steps_throw.
Qed.

Lemma check_disks_reads vm_id disks : steps same_but_step (check_disks vm_id disks).
Proof.
  induction disks as [|d disks IH]; simpl; [apply steps_ret|].
  apply steps_bind; [|intros ?; exact IH]. destruct (vd_storage_object_id d); [|apply steps_ret].
  apply steps_bind; [apply steps_lift_err, query_same_but_step|]. intros object.
  apply steps_bind; [apply steps_lift_err, query_same_but_step|]. intros pool.
  unfold ensure_storage_object_can_be_attached. destruct (negb _); [apply steps_ret|].
  apply steps_bind; [apply steps_lift_err, query_same_but_step|]. intros l.
  apply refuse_other_vm_reads.
Qed.

Lemma ensure_can_start_reads vm_id : steps same_but_step (ensure_vm_disk_attachments_can_start vm_id).
Proof.
  apply steps_bind; [apply steps_lift_err, query_same_but_step|]. intros disks.
  apply check_disks_reads.
Qed.

Lemma refuse_other_vm_ok object vm_id o w w' db :
  refuse_other_vm object (merge_sort attachment_order
    (List.filter (fun d => bool_decide (vd_storage_object_id d = Some (so_id object)))
       (rows (t_vm_disks db)))) (Some vm_id) o w = (w', Ok tt) ->
  forall k d, t_vm_disks db !! k = Some d -> vd_storage_object_id d = Some (so_id object) ->
    vd_vm_id d = vm_id.
Proof.
  unfold refuse_other_vm. intros Hrun k d Hd Ho.
  destruct (List.find _ _) eqn:Hfind.
  { apply bind_ok_inv in Hrun as (?&?&_&Hrun). discriminate. }
  pose proof (find_none _ _ Hfind d) as Hnone.
  cut (Some (vd_vm_id d) = Some vm_id); [congruence|].
  eapply bool_decide_eq_true, negb_false_iff, Hnone.
  apply list_elem_of_In. rewrite merge_sort_Permutation. apply elem_of_filter_rows.
  split; [by eexists|]. by apply bool_decide_eq_true.
Qed.

Lemma check_disks_ok vm_id disks o w w' :
  check_disks vm_id disks o w = (w', Ok tt) -> Forall (disk_exclusive (w_db w) vm_id) disks.
Proof.
  revert w. induction disks as [|disk disks IH]; intros w Hrun; [constructor|].
  cbn [check_disks] in Hrun. apply bind_ok_inv in Hrun as ([]&w1&Hone&Hrest).
  assert (w_db w1 = w_db w) as Hdb.
  { pose proof (check_disks_reads vm_id [disk] o w) as (Hdb&_&_). cbn [check_disks] in Hdb.
    unfold mbind at 1, M_bind at 1 in Hdb. rewrite Hone in Hdb. exact Hdb. }
  constructor; [|rewrite <- Hdb; by eapply IH]. intros oid Hoid. rewrite Hoid in Hone.
  apply bind_ok_inv in Hone as (object&w2&Hob&Hone). apply lift_err_ok_inv in Hob.
  apply query_ok_inv in Hob as [Hob%ok_or_ok ->].
  apply bind_ok_inv in Hone as (pool&w3&Hpo&Hone). apply lift_err_ok_inv in Hpo.
  apply query_ok_inv in Hpo as [Hpo%ok_or_ok ->].
  exists object, pool. split_and!; [done|done|]. intros Hex.
  unfold ensure_storage_object_can_be_attached in Hone. rewrite Hex in Hone. cbn [negb] in Hone.
  apply bind_ok_inv in Hone as (l&w4&Hl&Hone). apply lift_err_ok_inv in Hl.
  apply query_ok_inv in Hl as [Hl ->]. simplify_eq/=. by eapply refuse_other_vm_ok.
Qed.

Lemma can_start_exclusive vm_id o w w' k disk :
  ensure_vm_disk_attachments_can_start vm_id o w = (w', Ok tt) ->
  t_vm_disks (w_db w) !! k = Some disk -> vd_vm_id disk = vm_id ->
  disk_exclusive (w_db w) vm_id disk.
Proof.
  intros Hrun Hk Hvm. unfold ensure_vm_disk_attachments_can_start, list_disks_by_vm in Hrun. minv.
  apply check_disks_ok in Hrun. rewrite Forall_forall in Hrun. apply Hrun.
  rewrite merge_sort_Permutation. apply elem_of_filter_rows. split; [by eexists|].
  by apply bool_decide_eq_true.
Qed.

(** A VM passes the start check only when each of its disks exists and, where
    the storage demands it, is attached to no other VM; the check changes
    nothing. *)
Theorem start_check_exclusive vm_id o w w' :
  ensure_vm_disk_attachments_can_start vm_id o w = (w', Ok tt) ->
  w_db w' = w_db w /\ w_log w' = w_log w /\
  forall k disk, t_vm_disks (w_db w) !! k = Some disk -> vd_vm_id disk = vm_id ->
    disk_exclusive (w_db w) vm_id disk.
Proof.
  intros Hrun. pose proof (ensure_can_start_reads vm_id o w) as (Hdb&_&Hlog).
  rewrite Hrun in Hdb, Hlog. split_and!; [exact Hdb|exact Hlog|]. intros k disk.
  by eapply can_start_exclusive.
Qed.
End attachment.
End pools.

Section witnesses.
#[local] Instance witness_collation : Collation := encoding_collation.
#[local] Instance witness_serde : PolicySerde := array_policy_serde.

Definition sample_disk (id vm object : Uuid) : VmDisk :=
  {| vd_id := id; vd_vm_id := vm; vd_storage_object_id := Some object; vd_logical_name := "rootfs";
     vd_device_path := "/dev/vda"; vd_boot_order := Some 0; vd_read_only := false;
     vd_direct := false; vd_vhost_user := false; vd_vhost_socket := None; vd_num_queues := 1;
     vd_queue_size := 128; vd_rate_limiter := None; vd_rate_limit_group := None;
     vd_pci_segment := 0; vd_serial_number := None; vd_config := JNull;
     vd_upper_storage_object_id := None |}.
Definition sample_pool (id : Uuid) (t : StoragePoolType) : StoragePool :=
  {| sp_id := id; sp_name := "pool"; sp_pool_type := t; sp_status := Active; sp_config := JNull;
     sp_capacity_bytes := None; sp_allocated_bytes := None |}.
Definition sample_object (id pool : Uuid) : StorageObject :=
  {| so_id := id; so_name := "disk"; so_storage_pool_id := pool; so_object_type := Disk;
     so_size_bytes := 0; so_config := JNull; so_parent_id := None;
     so_managed_host_ids := None |}.

(** One VM with a disk on a pool of the given type. *)
Definition disk_db (t : StoragePoolType) (db : Db) : Db :=
  with_vm_disks (fun _ => {[51%N := sample_disk 51 1 61]})
    (with_storage_objects (fun _ => {[61%N := sample_object 61 71]})
      (with_storage_pools (fun _ => {[71%N := sample_pool 71 t]}) db)).

Lemma start_check_exclusive_witness :
  disk_exclusive (disk_db Nfs empty_db) 1 (sample_disk 51 1 61).
Proof.
  refine (proj2 (proj2 (start_check_exclusive 1 calm_oracle (world_of (disk_db Nfs empty_db)) _ eq_refl))
    51%N _ _ _); reflexivity.
Defined.
End witnesses.
