(* ===== verification/Gpus.v ===== *)
(** * Gpus: the GPUs of a host ([qarax/src/model/host_gpus.rs])

    Discovery keeps one row per (host, PCI address); placing a VM claims free
    rows of the chosen host inside the placement transaction, skipping the rows
    other transactions hold locked.  The theorems show that an allocation takes
    only free, matching GPUs of that host, at most as many as asked, that it
    leaves every other row alone, and that discovery never loses or moves an
    allocation of a GPU that is still present. *)

From S2P Require Import Prelude Errors Tables NodeApi World Samples.
#[local] Open Scope Z_scope.
#[local] Set Default Proof Using "Type".

Record GpuDiscovery := {
  gd_pci_address : string;
  gd_model : string;
  gd_vendor : string;
  gd_vram_bytes : Z;
  gd_iommu_group : Z;
  gd_numa_node : Z
}.

Record AcceleratorConfig := {
  ac_gpu_count : Z;
  ac_gpu_vendor : option string;
  ac_gpu_model : option string;
  ac_min_vram_bytes : option Z;
  ac_prefer_local_numa : bool
}.

Record NumaConfig := { nc_numa_node : option Z }.

(** [value.is_null() || value.as_object().map(|o| o.is_empty()).unwrap_or(true)]:
    anything but a non-empty object counts as absent. *)
Definition is_absent (value : json) : bool :=
  match value with JObject m => bool_decide (m = ∅) | _ => true end.

(** [from_value]: the deserialisers themselves are code of serde. *)
Definition AcceleratorConfig_from_value (de : json -> option AcceleratorConfig) (value : json)
  : option AcceleratorConfig :=
  if is_absent value then None else de value.
Definition NumaConfig_from_value (de : json -> option NumaConfig) (value : json)
  : option NumaConfig :=
  if is_absent value then None else de value.

Section gpus.
Context {coll : Collation}.

Definition pci_le (x y : HostGpu) : Prop := coll_le (g_pci_address x) (g_pci_address y).
#[global] Instance pci_le_dec x y : Decision (pci_le x y).
Proof. unfold pci_le. apply _. Defined.

Definition list_by_host (host_id : Uuid) : M SqlxError (list HostGpu) :=
  query Pool (fun db => Ok (merge_sort pci_le
    (List.filter (fun g => bool_decide (g_host_id g = host_id)) (rows (t_host_gpus db))))).

Definition list_by_vm (vm_id : Uuid) : M SqlxError (list HostGpu) :=
  query Pool (fun db => Ok (merge_sort pci_le
    (List.filter (fun g => bool_decide (g_vm_id g = Some vm_id)) (rows (t_host_gpus db))))).

(** ** Discovery *)

Definition rediscovered_row (d : GpuDiscovery) (t : Z) (g : HostGpu) : HostGpu :=
  {| g_id := g_id g; g_host_id := g_host_id g; g_pci_address := g_pci_address g;
     g_model := Some (gd_model d); g_vendor := Some (gd_vendor d);
     g_vram_bytes := Some (gd_vram_bytes d); g_iommu_group := gd_iommu_group d;
     g_numa_node := gd_numa_node d; g_vm_id := g_vm_id g;
     g_discovered_at := g_discovered_at g; g_updated_at := Some t |}.

Definition discovered_row (id host_id : Uuid) (d : GpuDiscovery) (t : Z) : HostGpu :=
  {| g_id := id; g_host_id := host_id; g_pci_address := gd_pci_address d;
     g_model := Some (gd_model d); g_vendor := Some (gd_vendor d);
     g_vram_bytes := Some (gd_vram_bytes d); g_iommu_group := gd_iommu_group d;
     g_numa_node := gd_numa_node d; g_vm_id := None; g_discovered_at := Some t;
     g_updated_at := Some t |}.

Definition same_device (host_id : Uuid) (pci : string) (g : HostGpu) : bool :=
  bool_decide (g_host_id g = host_id) && String.eqb (g_pci_address g) pci.

(** One row of [INSERT ... ON CONFLICT (host_id, pci_address) DO UPDATE]. *)
Definition upsert_gpu (host_id : Uuid) (t : Z) (id : Uuid) (d : GpuDiscovery)
    (gpus : gmap Uuid HostGpu) : result SqlxError (gmap Uuid HostGpu) :=
  if existsb (same_device host_id (gd_pci_address d)) (rows gpus)
  then Ok (update_where (same_device host_id (gd_pci_address d))
             (fun g => rediscovered_row d t g) gpus)
  else insert_pk "host_gpus_pkey" id (discovered_row id host_id d t) gpus.

Fixpoint upsert_gpus (host_id : Uuid) (t : Z) (ids : list Uuid) (ds : list GpuDiscovery)
    (gpus : gmap Uuid HostGpu) : result SqlxError (gmap Uuid HostGpu) :=
  match ids, ds with
  | id :: ids', d :: ds' =>
      upsert_gpu host_id t id d gpus ≫= upsert_gpus host_id t ids' ds'
  | _, _ => Ok gpus
  end.

(** The devices of the host that the last discovery did not report. *)
Definition stale (host_id : Uuid) (ds : list GpuDiscovery) (g : HostGpu) : bool :=
  bool_decide (g_host_id g = host_id) &&
  negb (bool_decide (g_pci_address g ∈ gd_pci_address <$> ds)).

(** A statement that would update a row twice is refused. *)
Definition sync_gpus (host_id : Uuid) (gpus : list GpuDiscovery) : M SqlxError unit :=
  in_tx (fun e => e) (
    t ← now;
    _ ← (if bool_decide (gpus = []) then mret tt
         else
           ids ← new_uuids (length gpus);
           execute Tx (fun db =>
             if bool_decide (NoDup (gd_pci_address <$> gpus)) then
               t' ← upsert_gpus host_id t ids gpus (t_host_gpus db);
               Ok (with_host_gpus (fun _ => t') db, tt)
             else Err (Database (Some "21000"%string) None)));
    execute Tx (fun db =>
      Ok (with_host_gpus (keep (fun g => negb (stale host_id gpus g))) db, tt))).

(** ** Allocation *)

Definition assign_row (owner : option Uuid) (t : Z) (g : HostGpu) : HostGpu :=
  {| g_id := g_id g; g_host_id := g_host_id g; g_pci_address := g_pci_address g;
     g_model := g_model g; g_vendor := g_vendor g; g_vram_bytes := g_vram_bytes g;
     g_iommu_group := g_iommu_group g; g_numa_node := g_numa_node g; g_vm_id := owner;
     g_discovered_at := g_discovered_at g; g_updated_at := Some t |}.

Record GpuFilter := {
  gf_vendor : option string;
  gf_model : option string;
  gf_min_vram_bytes : option Z
}.

(** [$n IS NULL OR column = $n]: a row with a null column does not match. *)
Definition text_matches (wanted : option string) (column : option string) : bool :=
  match wanted with
  | None => true
  | Some x => match column with Some y => String.eqb y x | None => false end
  end.

Definition gpu_matches (f : GpuFilter) (g : HostGpu) : bool :=
  text_matches (gf_vendor f) (g_vendor g) && text_matches (gf_model f) (g_model g) &&
  match gf_min_vram_bytes f with
  | None => true
  | Some m => match g_vram_bytes g with Some v => m <=? v | None => false end
  end.

Definition gpu_free (host_id : Uuid) (f : GpuFilter) (g : HostGpu) : bool :=
  bool_decide (g_host_id g = host_id) && bool_decide (g_vm_id g = None) && gpu_matches f g.

(** The rows the inner [SELECT ... FOR UPDATE SKIP LOCKED LIMIT] returns when
    other transactions hold the rows of [locked]. *)
Definition gpu_candidates (locked : gset Uuid) (host_id : Uuid) (f : GpuFilter)
    (gpus : gmap Uuid HostGpu) : list HostGpu :=
  merge_sort pci_le (List.filter (fun g => gpu_free host_id f g && negb (bool_decide (g_id g ∈ locked)))
    (rows gpus)).

Definition allocate_gpus (locked : gset Uuid) (host_id vm_id : Uuid) (count : Z) (f : GpuFilter)
  : M SqlxError (list HostGpu) :=
  t ← now;
  execute Tx (fun db =>
    if count <? 0 then Err (Database (Some "2201W"%string) None)
    else
      let picked := take (Z.to_nat count) (gpu_candidates locked host_id f (t_host_gpus db)) in
      let hit g := bool_decide (g_id g ∈ g_id <$> picked) in
      let gpus := update_where hit (fun g => assign_row (Some vm_id) t g) (t_host_gpus db) in
      Ok (with_host_gpus (fun _ => gpus) db, List.filter hit (rows gpus))).

Definition deallocate (c : Conn) (vm_id : Uuid) : M SqlxError Z :=
  t ← now;
  execute c (fun db =>
    let mine g := bool_decide (g_vm_id g = Some vm_id) in
    Ok (with_host_gpus (update_where mine (fun g => assign_row None t g)) db,
        Z.of_nat (length (List.filter mine (rows (t_host_gpus db)))))).

Definition deallocate_by_vm (vm_id : Uuid) : M SqlxError Z := deallocate Pool vm_id.
Definition deallocate_by_vm_tx (vm_id : Uuid) : M SqlxError Z := deallocate Tx vm_id.

(** ** Properties *)

(** Every row is filed under its identifier and no device has two rows. *)
Definition gpus_ok (gpus : gmap Uuid HostGpu) : Prop :=
  map_Forall (fun k g => g_id g = k) gpus /\
  forall k1 k2 g1 g2, gpus !! k1 = Some g1 -> gpus !! k2 = Some g2 ->
    g_host_id g1 = g_host_id g2 -> g_pci_address g1 = g_pci_address g2 -> k1 = k2.

Lemma gpu_candidates_elem locked host f gpus g :
  g ∈ gpu_candidates locked host f gpus <->
  (exists k, gpus !! k = Some g) /\ gpu_free host f g = true /\ g_id g ∉ locked.
Proof.
  unfold gpu_candidates. rewrite merge_sort_Permutation, elem_of_filter_rows.
  rewrite andb_true_iff, negb_true_iff, bool_decide_eq_false. tauto.
Qed.

Lemma gpu_candidates_NoDup locked host f gpus :
  gpus_ok gpus -> NoDup (g_id <$> gpu_candidates locked host f gpus).
Proof.
  intros [Hk _]. unfold gpu_candidates. rewrite merge_sort_Permutation.
  by apply NoDup_fmap_filter_rows.
Qed.

Definition tx_gpus (w : World) : gmap Uuid HostGpu := t_host_gpus (conn_db Tx w).

(** The effect of a successful allocation, row by row. *)
Lemma allocate_effect locked host vm count f o w w' l :
  gpus_ok (tx_gpus w) ->
  allocate_gpus locked host vm count f o w = (w', Ok l) ->
  let picked := take (Z.to_nat count) (gpu_candidates locked host f (tx_gpus w)) in
  0 <= count /\ w_db w' = w_db w /\
  (forall k, tx_gpus w' !! k = (fun g => if decide (k ∈ g_id <$> picked)
       then assign_row (Some vm) (o_now o (w_step w)) g else g) <$> tx_gpus w !! k) /\
  (forall g, g ∈ l <-> g_id g ∈ g_id <$> picked /\ tx_gpus w' !! g_id g = Some g) /\
  length l = length picked.
Proof.
  intros Hok Hrun. unfold allocate_gpus in Hrun. minv.
  destruct (Z.ltb_spec count 0); [done|]. simplify_eq/=.
  change (t_host_gpus (default (w_db w) (w_tx w))) with (tx_gpus w).
  set (picked := take _ _). set (hit := fun g => bool_decide _).
  set (gpus := update_where hit _ _).
  assert (forall k, gpus !! k = (fun g => if decide (k ∈ g_id <$> picked)
       then assign_row (Some vm) (o_now o (w_step w)) g else g) <$> tx_gpus w !! k) as Hlook.
  { intros k. subst gpus. rewrite lookup_update_where.
    destruct (tx_gpus w !! k) as [g|] eqn:Hg; simpl; [|done]. subst hit. simpl.
    destruct Hok as [Hid _]. rewrite (Hid k g Hg).
    by destruct (decide (k ∈ g_id <$> picked)); [rewrite bool_decide_true|rewrite bool_decide_false]. }
  assert (map_Forall (fun k g => g_id g = k) gpus) as Hkeys.
  { intros k g. rewrite Hlook, fmap_Some. destruct Hok as [Hid _].
    intros (g0&Hg0&->). case_decide; simpl; by apply Hid. }
  assert (forall g, g ∈ List.filter hit (rows gpus) <->
            g_id g ∈ g_id <$> picked /\ gpus !! g_id g = Some g) as Hin.
  { intros g. rewrite elem_of_filter_rows. subst hit. simpl. rewrite bool_decide_eq_true.
    split; [|naive_solver]. intros [[k Hg] Hp]. by rewrite (Hkeys k g Hg) in *. }
  split_and!; [done|done|exact Hlook|exact Hin|].
  assert (g_id <$> List.filter hit (rows gpus) ≡ₚ g_id <$> picked) as Hperm.
  { apply NoDup_Permutation; [by apply NoDup_fmap_filter_rows| |].
    - subst picked. rewrite <- firstn_map. apply NoDup_take. by apply gpu_candidates_NoDup.
    - intros i. split.
      + intros (g&->&Hg)%list_elem_of_fmap. by apply Hin in Hg as [? _].
      + intros Hi. pose proof Hi as (g&->&Hg)%list_elem_of_fmap.
        apply elem_of_take in Hg as (j&Hg&_). apply list_elem_of_lookup_2 in Hg.
        apply gpu_candidates_elem in Hg as ([k Hg]&_&_).
        destruct Hok as [Hid _]. pose proof (Hid k g Hg) as <-.
        apply list_elem_of_fmap.
        exists (assign_row (Some vm) (o_now o (w_step w)) g). split; [done|].
        apply Hin. simpl. split; [done|]. rewrite Hlook, Hg. simpl. by rewrite decide_True. }
  apply Permutation_length in Hperm. by rewrite !length_fmap in Hperm.
Qed.

Lemma gpus_ok_fmap (h : Uuid -> HostGpu -> HostGpu) (gpus gpus' : gmap Uuid HostGpu) :
  (forall k g, g_id (h k g) = g_id g /\ g_host_id (h k g) = g_host_id g /\
               g_pci_address (h k g) = g_pci_address g) ->
  (forall k, gpus' !! k = h k <$> gpus !! k) -> gpus_ok gpus -> gpus_ok gpus'.
Proof.
  intros Hh Hlook [Hid Huniq]. split.
  - intros k g. rewrite Hlook. intros (g0&Hg&->)%fmap_Some. destruct (Hh k g0) as (->&_&_).
    by apply Hid.
  - intros k1 k2 g1 g2. rewrite !Hlook. intros (x1&Hx1&->)%fmap_Some (x2&Hx2&->)%fmap_Some.
    destruct (Hh k1 x1) as (_&->&->), (Hh k2 x2) as (_&->&->). by apply Huniq.
Qed.

Lemma allocate_NoDup lk target vm_id count f o w w' l :
  gpus_ok (tx_gpus w) -> allocate_gpus lk target vm_id count f o w = (w', Ok l) ->
  NoDup (g_id <$> l).
Proof.
  intros [Hkey _] Hrun. unfold allocate_gpus in Hrun. minv. case_match; [discriminate|].
  simplify_eq. apply NoDup_fmap_filter_rows. intros k x. rewrite lookup_update_where.
  intros (x0&Hx0&->)%fmap_Some. case_match; simpl; by apply Hkey.
Qed.

Lemma allocate_gpus_spec locked host vm count f o w w' l :
  gpus_ok (tx_gpus w) ->
  allocate_gpus locked host vm count f o w = (w', Ok l) ->
  Z.of_nat (length l)
    = Z.min count (Z.of_nat (length (gpu_candidates locked host f (tx_gpus w)))) /\
  (forall g, g ∈ l -> tx_gpus w' !! g_id g = Some g /\ g_vm_id g = Some vm /\
     exists g0, tx_gpus w !! g_id g = Some g0 /\ g_vm_id g0 = None /\ g_host_id g0 = host /\
       gpu_matches f g0 = true /\ g_id g0 ∉ locked) /\
  (forall k, k ∉ g_id <$> l -> tx_gpus w' !! k = tx_gpus w !! k) /\
  gpus_ok (tx_gpus w').
Proof.
  intros Hok Hrun. destruct (allocate_effect _ _ _ _ _ _ _ _ _ Hok Hrun) as (Hc&_&Hlook&Hin&Hlen).
  set (picked := take _ _) in *.
  assert (forall k, k ∈ g_id <$> picked -> exists g0, tx_gpus w !! k = Some g0 /\ g_id g0 = k /\
            gpu_free host f g0 = true /\ k ∉ locked) as Hpick.
  { intros k (g&->&Hg)%list_elem_of_fmap. apply elem_of_take in Hg as (j&Hg&_).
    apply list_elem_of_lookup_2, gpu_candidates_elem in Hg as ([k Hg]&Hf&Hl).
    destruct Hok as [Hid _]. pose proof (Hid k g Hg) as <-. eauto. }
  split_and!.
  - rewrite Hlen. subst picked. rewrite length_take. lia.
  - intros g Hg. apply Hin in Hg as [Hp Hg]. destruct (Hpick _ Hp) as (g0&Hg0&Hid0&Hf&Hl).
    rewrite Hlook, Hg0 in Hg. simpl in Hg. rewrite decide_True in Hg by done. simplify_eq.
    simpl in *. unfold gpu_free in Hf. crush. split_and!; [|done|].
    + rewrite Hlook, Hg0. simpl. by rewrite decide_True.
    + exists g0. by split_and!.
  - intros k Hk. rewrite Hlook. destruct (tx_gpus w !! k) as [g|] eqn:Hg; simpl; [|done].
    case_decide as Hp; [|done]. exfalso. apply Hk. apply list_elem_of_fmap.
    exists (assign_row (Some vm) (o_now o (w_step w)) g). destruct Hok as [Hid _].
    split; [by rewrite <- (Hid k g Hg)|]. apply Hin. simpl. rewrite (Hid k g Hg). split; [done|].
    rewrite Hlook, Hg. simpl. by rewrite decide_True.
  - eapply (gpus_ok_fmap (fun k g => if decide (k ∈ g_id <$> picked)
      then assign_row (Some vm) (o_now o (w_step w)) g else g)); [|exact Hlook|exact Hok].
    intros k g. by case_decide.
Qed.

(** An allocation takes as many GPUs as it can up to the number asked; each was
    a free GPU of the host that matches the request and that no other
    transaction holds, and is now the VM's.  No other row changes. *)
Theorem allocate_gpus_exclusive locked host vm count f o w w' l :
  gpus_ok (tx_gpus w) ->
  allocate_gpus locked host vm count f o w = (w', Ok l) ->
  Z.of_nat (length l)
    = Z.min count (Z.of_nat (length (gpu_candidates locked host f (tx_gpus w)))) /\
  (forall g, g ∈ l -> tx_gpus w' !! g_id g = Some g /\ g_vm_id g = Some vm /\
     exists g0, tx_gpus w !! g_id g = Some g0 /\ g_vm_id g0 = None /\ g_host_id g0 = host /\
       gpu_matches f g0 = true /\ g_id g0 ∉ locked) /\
  (forall k, k ∉ g_id <$> l -> tx_gpus w' !! k = tx_gpus w !! k) /\
  gpus_ok (tx_gpus w').
Proof. apply allocate_gpus_spec. Qed.

(** Two allocations never hand out the same GPU: neither when the second runs
    while the first is still open, so that the first's rows are locked, nor when
    it runs on the rows the first left. *)
Theorem allocations_disjoint locked1 locked2 host1 host2 vm1 vm2 n1 n2 f1 f2 o1 o2 w1 w1' w2 w2' l1 l2 :
  gpus_ok (tx_gpus w1) -> gpus_ok (tx_gpus w2) ->
  allocate_gpus locked1 host1 vm1 n1 f1 o1 w1 = (w1', Ok l1) ->
  (forall k, k ∈ g_id <$> l1 -> k ∈ locked2 \/ tx_gpus w2 !! k = tx_gpus w1' !! k) ->
  allocate_gpus locked2 host2 vm2 n2 f2 o2 w2 = (w2', Ok l2) ->
  forall g1 g2, g1 ∈ l1 -> g2 ∈ l2 -> g_id g1 <> g_id g2.
Proof.
  intros Hok1 Hok2 Hrun1 Hsep Hrun2 g1 g2 Hg1 Hg2 Heq.
  destruct (allocate_effect _ _ _ _ _ _ _ _ _ Hok1 Hrun1) as (_&_&Hlook1&Hin1&_).
  destruct (allocate_effect _ _ _ _ _ _ _ _ _ Hok2 Hrun2) as (_&_&_&Hin2&_).
  apply Hin2 in Hg2 as [Hp2 _]. apply list_elem_of_fmap in Hp2 as (x&Hx&Hp2).
  apply elem_of_take in Hp2 as (j&Hp2&_).
  apply list_elem_of_lookup_2, gpu_candidates_elem in Hp2 as ([k Hk]&Hf&Hl).
  destruct Hok2 as [Hid2 _]. pose proof (Hid2 k x Hk) as <-.
  destruct (Hsep (g_id g1)) as [Hlk|Hsame]; [by apply list_elem_of_fmap_2|congruence|].
  apply Hin1 in Hg1 as [Hp1 Hg1]. rewrite Heq, Hx, Hk in Hsame.
  rewrite <- Hx, <- Heq, Hlook1 in Hsame. symmetry in Hsame.
  apply fmap_Some in Hsame as (y&_&->). rewrite decide_True in Hf by done.
  unfold gpu_free in Hf. by crush.
Qed.

(** Releasing the GPUs of a VM frees exactly those it held, and reports how
    many. *)
Theorem deallocate_frees vm o w w' n :
  deallocate_by_vm vm o w = (w', Ok n) ->
  (forall k g, t_host_gpus (w_db w') !! k = Some g -> g_vm_id g <> Some vm) /\
  (forall k, (forall g, t_host_gpus (w_db w) !! k = Some g -> g_vm_id g <> Some vm) ->
     t_host_gpus (w_db w') !! k = t_host_gpus (w_db w) !! k) /\
  n = Z.of_nat (length (List.filter (fun g => bool_decide (g_vm_id g = Some vm))
                          (rows (t_host_gpus (w_db w))))).
Proof.
  unfold deallocate_by_vm, deallocate. intros Hrun. minv. split_and!; [| |done]; simpl.
  - intros k g. rewrite lookup_update_where. intros (g0&Hg0&->)%fmap_Some. by case_bool_decide.
  - intros k Hk. rewrite lookup_update_where.
    destruct (t_host_gpus (w_db w) !! k) as [g|] eqn:Hg; simpl; [|done].
    rewrite bool_decide_false; [done|]. by apply Hk.
Qed.

(** *** Discovery *)

(** The parts of a row that discovery does not touch. *)
Definition same_allocation (g g' : HostGpu) : Prop :=
  g_host_id g' = g_host_id g /\ g_pci_address g' = g_pci_address g /\ g_vm_id g' = g_vm_id g.

(** What a discovery on [host] may do to the table before stale rows go. *)
Definition discovers (host : Uuid) (T T' : gmap Uuid HostGpu) : Prop :=
  (forall k g, T !! k = Some g -> exists g', T' !! k = Some g' /\ same_allocation g g' /\
     (g_host_id g <> host -> g' = g)) /\
  (forall k g', T' !! k = Some g' -> T !! k = None -> g_vm_id g' = None /\ g_host_id g' = host).

#[local] Instance discovers_preorder host : PreOrder (discovers host).
Proof.
  split.
  - intros T. split; [|congruence]. intros k g Hg. exists g. by split_and!.
  - intros T1 T2 T3 [Hold1 Hnew1] [Hold2 Hnew2]. split.
    + intros k g Hg. destruct (Hold1 k g Hg) as (g2&Hg2&(?&?&?)&Hsame).
      destruct (Hold2 k g2 Hg2) as (g3&Hg3&(?&?&?)&Hsame'). exists g3.
      split_and!; [done|split_and!; congruence|]. intros Hne.
      rewrite Hsame' by congruence. by apply Hsame.
    + intros k g3 Hg3 Hnone. destruct (T2 !! k) as [g2|] eqn:Hg2; [|by apply (Hnew2 k)].
      destruct (Hold2 k g2 Hg2) as (g3'&?&(?&?&?)&_). simplify_eq.
      destruct (Hnew1 k g2 Hg2 Hnone). split; congruence.
Qed.

Definition present (host : Uuid) (pci : string) (T : gmap Uuid HostGpu) : Prop :=
  exists k g, T !! k = Some g /\ g_host_id g = host /\ g_pci_address g = pci.

Lemma discovers_present host pci T T' : discovers host T T' -> present host pci T -> present host pci T'.
Proof.
  intros [Hold _] (k&g&Hg&?&?). destruct (Hold k g Hg) as (g'&?&(?&?&?)&_).
  exists k, g'. split_and!; congruence.
Qed.

Lemma existsb_rows (p : HostGpu -> bool) (T : gmap Uuid HostGpu) :
  existsb p (rows T) = true <-> exists k g, T !! k = Some g /\ p g = true.
Proof.
  rewrite existsb_exists. setoid_rewrite <- list_elem_of_In. setoid_rewrite elem_of_rows.
  naive_solver.
Qed.

Lemma same_device_spec host pci g :
  same_device host pci g = true <-> g_host_id g = host /\ g_pci_address g = pci.
Proof. unfold same_device. by rewrite andb_true_iff, bool_decide_eq_true, String.eqb_eq. Qed.

Lemma upsert_gpu_spec host t id d T T' :
  gpus_ok T -> upsert_gpu host t id d T = Ok T' ->
  gpus_ok T' /\ discovers host T T' /\ present host (gd_pci_address d) T'.
Proof.
  intros Hok Hup. unfold upsert_gpu in Hup.
  destruct (existsb _ (rows T)) eqn:Hex.
  - simplify_eq. set (p := same_device _ _). set (f := fun g => rediscovered_row d t g).
    assert (forall k, update_where p f T !! k
              = (fun g => if p g then f g else g) <$> T !! k) as Hlook
      by (intros; apply lookup_update_where).
    assert (discovers host T (update_where p f T)) as Hdis.
    { split.
      - intros k g Hg. exists (if p g then f g else g). rewrite Hlook, Hg.
        split_and!; [done|by destruct (p g)|]. intros Hne.
        destruct (p g) eqn:Hp; [|done]. by apply same_device_spec in Hp as [? _].
      - intros k g'. rewrite Hlook. by destruct (T !! k). }
    split_and!; [|done|].
    + apply (gpus_ok_fmap (fun _ g => if p g then f g else g) T); [|done|done].
      intros _ g. by destruct (p g).
    + eapply discovers_present; [done|].
      apply existsb_rows in Hex as (k&g&Hg&[? ?]%same_device_spec). exists k, g. by split_and!.
  - unfold insert_pk in Hup. case_match eqn:Hnone; [done|]. simplify_eq.
    assert (forall k g, T !! k = Some g -> ~ (g_host_id g = host /\ g_pci_address g = gd_pci_address d))
      as Hno.
    { intros k g Hg Hd%same_device_spec. apply not_true_iff_false in Hex. apply Hex.
      apply existsb_rows. eauto. }
    destruct Hok as [Hid Huniq]. split_and!; [split| |].
    + by apply map_Forall_insert_2.
    + intros k1 k2 g1 g2 [[<- <-]|[? ?]]%lookup_insert_Some [[<- <-]|[? ?]]%lookup_insert_Some;
        simpl; intros; try done.
      * exfalso. by eapply Hno.
      * exfalso. by eapply Hno.
      * by eapply Huniq.
    + split.
      * intros k g Hg. exists g. rewrite lookup_insert_ne by congruence. by split_and!.
      * intros k g' [[<- <-]|[? ?]]%lookup_insert_Some; [done|congruence].
    + exists id, (discovered_row id host d t). rewrite lookup_insert_eq. by split_and!.
Qed.

Lemma upsert_gpus_spec host t ids ds T T' :
  length ids = length ds -> gpus_ok T -> upsert_gpus host t ids ds T = Ok T' ->
  gpus_ok T' /\ discovers host T T' /\ Forall (fun d => present host (gd_pci_address d) T') ds.
Proof.
  revert ds T. induction ids as [|id ids IH]; intros [|d ds] T Hlen Hok Hup; simplify_eq/=.
  - by split_and!.
  - destruct (upsert_gpu host t id d T) as [T1|e] eqn:H1; [simpl in Hup|done].
    destruct (upsert_gpu_spec _ _ _ _ _ _ Hok H1) as (Hok1&Hdis1&Hp1).
    destruct (IH ds T1 Hlen Hok1 Hup) as (Hok2&Hdis2&Hp2).
    split_and!; [done|by etransitivity|].
    constructor; [by eapply discovers_present|done].
Qed.

Lemma gpus_ok_keep p T : gpus_ok T -> gpus_ok (keep p T).
Proof.
  intros [Hid Huniq]. split.
  - intros k g [Hg _]%lookup_keep. by apply Hid.
  - intros k1 k2 g1 g2 [? _]%lookup_keep [? _]%lookup_keep. by eapply Huniq.
Qed.

(** A discovery upserts what was reported, then drops what was not. *)
Lemma sync_gpus_effect host ds o w w' :
  gpus_ok (t_host_gpus (w_db w)) ->
  sync_gpus host ds o w = (w', Ok tt) ->
  exists T1, gpus_ok T1 /\ discovers host (t_host_gpus (w_db w)) T1 /\
    Forall (fun d => present host (gd_pci_address d) T1) ds /\
    t_host_gpus (w_db w') = keep (fun g => negb (stale host ds g)) T1.
Proof.
  intros Hok. unfold sync_gpus. intros (w2&Hbody&Hdb&_&_)%in_tx_ok.
  apply bind_ok_inv in Hbody as (t&w3&Ht&Hbody). minv.
  rewrite Hdb. simpl. case_bool_decide as Hnil; minv.
  - exists (t_host_gpus (w_db w)). by split_and!.
  - match goal with
    | Hs : same_but_step _ _, Hx : _ = Ok (_, _) |- _ =>
        destruct Hs as (_&Htx&_); case_bool_decide; [|done];
        apply result_bind_ok in Hx as (T1&Hup&?)
    end.
    simplify_eq/=. rewrite Htx in Hup. simpl in Hup. exists T1.
    destruct (upsert_gpus_spec _ _ _ _ _ _ ltac:(eassumption) Hok Hup) as (?&?&?).
    by split_and!.
Qed.

Lemma lookup_keep_stale host ds (T : gmap Uuid HostGpu) k g :
  keep (fun g => negb (stale host ds g)) T !! k = Some g <->
  T !! k = Some g /\ (g_host_id g = host -> g_pci_address g ∈ gd_pci_address <$> ds).
Proof.
  rewrite lookup_keep. unfold stale.
  destruct (decide (g_host_id g = host)), (decide (g_pci_address g ∈ gd_pci_address <$> ds)).
  all: rewrite ?bool_decide_true, ?bool_decide_false by done; naive_solver.
Qed.

(** After a discovery the rows of the host are exactly the devices reported;
    a device that was already known keeps its row and its allocation, a new one
    is free, and the other hosts' rows are untouched. *)
Theorem sync_gpus_spec host ds o w w' :
  gpus_ok (t_host_gpus (w_db w)) ->
  sync_gpus host ds o w = (w', Ok tt) ->
  gpus_ok (t_host_gpus (w_db w')) /\
  (forall pci, present host pci (t_host_gpus (w_db w')) <-> pci ∈ gd_pci_address <$> ds) /\
  (forall k g, t_host_gpus (w_db w) !! k = Some g -> g_host_id g = host ->
     g_pci_address g ∈ gd_pci_address <$> ds ->
     exists g', t_host_gpus (w_db w') !! k = Some g' /\ g_vm_id g' = g_vm_id g) /\
  (forall k g', t_host_gpus (w_db w') !! k = Some g' -> t_host_gpus (w_db w) !! k = None ->
     g_vm_id g' = None /\ g_host_id g' = host) /\
  (forall k g, g_host_id g <> host ->
     t_host_gpus (w_db w') !! k = Some g <-> t_host_gpus (w_db w) !! k = Some g).
Proof.
  intros Hok Hrun.
  destruct (sync_gpus_effect _ _ _ _ _ Hok Hrun) as (T1&Hok1&[Hold Hnew]&Hpres&->).
  rewrite Forall_forall in Hpres. pose proof (lookup_keep_stale host ds T1) as Hkeep.
  split_and!.
  - by apply gpus_ok_keep.
  - intros pci. split.
    + intros (k&g&Hg&Hh&<-). apply Hkeep in Hg as [_ Hp]. by apply Hp.
    + intros Hin. pose proof Hin as (d&->&Hd)%list_elem_of_fmap.
      destruct (Hpres d Hd) as (k&g&Hg&Hh&Hp). exists k, g.
      split_and!; [|done|done]. apply Hkeep. split; [done|]. congruence.
  - intros k g Hg Hh Hp. destruct (Hold k g Hg) as (g'&Hg'&(?&?&?)&_). exists g'.
    split; [|done]. apply Hkeep. split; congruence.
  - intros k g' [Hg' _]%Hkeep Hnone. by apply (Hnew k).
  - intros k g Hne. rewrite Hkeep. split.
    + intros [Hg _]. destruct (t_host_gpus (w_db w) !! k) as [g0|] eqn:H0.
      * destruct (Hold k g0 H0) as (g'&?&(?&?&?)&Hsame). simplify_eq. f_equal. symmetry.
        apply Hsame. congruence.
      * by destruct (Hnew k g Hg H0).
    + intros Hg. destruct (Hold k g Hg) as (g'&Hg'&_&Hsame). rewrite Hsame in Hg' by done.
      by split.
Qed.
End gpus.

Section witnesses.
#[local] Instance witness_collation : Collation := encoding_collation.

Definition sample_gpu (id : Uuid) (pci : string) (owner : option Uuid) : HostGpu :=
  {| g_id := id; g_host_id := 5; g_pci_address := pci; g_model := Some "A100"%string;
     g_vendor := Some "nvidia"%string; g_vram_bytes := Some 80; g_iommu_group := 1;
     g_numa_node := 0; g_vm_id := owner; g_discovered_at := None; g_updated_at := None |}.

Definition gpu_table : gmap Uuid HostGpu :=
  <[21%N := sample_gpu 21 "0000:01:00.0" None]>
    {[22%N := sample_gpu 22 "0000:02:00.0" (Some 9%N)]}.
Definition gpu_db : Db := with_host_gpus (fun _ => gpu_table) empty_db.
Definition any_gpu : GpuFilter :=
  {| gf_vendor := Some "nvidia"%string; gf_model := None; gf_min_vram_bytes := Some 40 |}.

Lemma gpu_table_ok : gpus_ok gpu_table.
Proof.
  unfold gpu_table. split.
  - apply map_Forall_insert_2; [done|]. by apply map_Forall_singleton.
  - intros k1 k2 g1 g2 [[<- <-]|[? Hg1]]%lookup_insert_Some [[<- <-]|[? Hg2]]%lookup_insert_Some;
      try apply lookup_singleton_Some in Hg1 as [<- <-];
      try apply lookup_singleton_Some in Hg2 as [<- <-]; done.
Qed.

Lemma allocate_gpus_exclusive_witness :
  exists w' l, allocate_gpus ∅ 5 3 2 any_gpu calm_oracle (world_of gpu_db) = (w', Ok l) /\
    Z.of_nat (length l) = 1.
Proof.
  eexists _, _. split; [reflexivity|].
  refine (proj1 (allocate_gpus_exclusive ∅ 5 3 2 any_gpu calm_oracle (world_of gpu_db) _ _
    gpu_table_ok eq_refl)).
Defined.

(** Two free GPUs, allocated one each while the first transaction is open. *)
Definition free_table : gmap Uuid HostGpu :=
  <[21%N := sample_gpu 21 "0000:01:00.0" None]> {[22%N := sample_gpu 22 "0000:02:00.0" None]}.
Definition free_db : Db := with_host_gpus (fun _ => free_table) empty_db.

Lemma free_table_ok : gpus_ok free_table.
Proof.
  unfold free_table. split.
  - apply map_Forall_insert_2; [done|]. by apply map_Forall_singleton.
  - intros k1 k2 g1 g2 [[<- <-]|[? Hg1]]%lookup_insert_Some [[<- <-]|[? Hg2]]%lookup_insert_Some;
      try apply lookup_singleton_Some in Hg1 as [<- <-];
      try apply lookup_singleton_Some in Hg2 as [<- <-]; done.
Qed.

Lemma allocations_disjoint_witness :
  let g1 := assign_row (Some 3%N) 0 (sample_gpu 21 "0000:01:00.0" None) in
  let g2 := assign_row (Some 4%N) 0 (sample_gpu 22 "0000:02:00.0" None) in
  (allocate_gpus ∅ 5 3 1 any_gpu calm_oracle (world_of free_db)).2 = Ok [g1] /\
  (allocate_gpus {[21%N]} 5 4 1 any_gpu calm_oracle (world_of free_db)).2 = Ok [g2] /\
  g_id g1 <> g_id g2.
Proof.
  cbv zeta. split; [reflexivity|]. split; [reflexivity|].
  eapply (allocations_disjoint ∅ {[21%N]} 5 5 3 4 1 1 any_gpu any_gpu calm_oracle calm_oracle
    (world_of free_db) _ (world_of free_db) _
    [assign_row (Some 3%N) 0 (sample_gpu 21 "0000:01:00.0" None)]
    [assign_row (Some 4%N) 0 (sample_gpu 22 "0000:02:00.0" None)]).
  - exact free_table_ok.
  - exact free_table_ok.
  - reflexivity.
  - intros k Hk. left. simpl in Hk. set_solver.
  - reflexivity.
  - by left.
  - by left.
Defined.

Lemma deallocate_frees_witness :
  exists w', deallocate_by_vm 9 calm_oracle (world_of gpu_db) = (w', Ok 1) /\
    forall k g, t_host_gpus (w_db w') !! k = Some g -> g_vm_id g <> Some 9%N.
Proof.
  eexists. split; [reflexivity|].
  exact (proj1 (deallocate_frees 9 calm_oracle (world_of gpu_db) _ _ eq_refl)).
Defined.

Definition found_gpu : GpuDiscovery :=
  {| gd_pci_address := "0000:02:00.0"; gd_model := "A100"; gd_vendor := "nvidia";
     gd_vram_bytes := 80; gd_iommu_group := 1; gd_numa_node := 0 |}.

Lemma sync_gpus_spec_witness :
  exists w', sync_gpus 5 [found_gpu] calm_oracle (world_of gpu_db) = (w', Ok tt) /\
    forall pci, present 5 pci (t_host_gpus (w_db w')) <-> pci ∈ ["0000:02:00.0"%string].
Proof.
  eexists. split; [reflexivity|].
  exact (proj1 (proj2 (sync_gpus_spec 5 [found_gpu] calm_oracle (world_of gpu_db) _
    gpu_table_ok eq_refl))).
Defined.
End witnesses.
