(* ===== verification/Hosts.v ===== *)
(** * Hosts: the hosts table ([qarax/src/model/hosts.rs] without the scheduler)

    Registration requests and their validation, one operation per statement on
    the [hosts] table, and the ledger of what the VMs of a host use.  The
    scheduler's query is in [Scheduler]. *)

From S2P Require Import Prelude Text Errors Secrets Tables NodeApi World Samples VmConfig.
#[local] Open Scope Z_scope.

(** ** Requests *)

Record UpdateHostPlacementRequest := {
  up_reservation_class : option string;
  up_placement_labels : gmap string string
}.

Record NewHost := {
  nh_name : string;
  nh_address : string;
  nh_port : Z;
  nh_host_user : string;
  nh_credential_ref : option string;
  nh_reservation_class : option string;
  nh_placement_labels : gmap string string
}.

Definition some_blank (s : option string) : bool :=
  match s with Some x => is_blank x | None => false end.

(** [DeployHostRequest::validate]. *)
Definition validate_deploy (r : DeployHostRequest) : result Error unit :=
  if is_blank (dr_image r) then Err (UnprocessableEntity "image is required")
  else if bool_decide (is_Some (dr_ssh_password r)) && bool_decide (is_Some (dr_ssh_private_key_path r))
  then Err (UnprocessableEntity
              "provide either ssh_password or ssh_private_key_path, but not both")
  else if some_blank (dr_ssh_user r) then Err (UnprocessableEntity "ssh_user cannot be empty")
  else if some_blank (dr_ssh_private_key_path r)
  then Err (UnprocessableEntity "ssh_private_key_path cannot be empty")
  else if bool_decide (dr_ssh_port r = Some 0)
  then Err (UnprocessableEntity "ssh_port must be greater than 0")
  else Ok tt.

Definition ssh_port (r : DeployHostRequest) : Z := default 22 (dr_ssh_port r).
Definition install_bootc (r : DeployHostRequest) : bool := default true (dr_install_bootc r).
Definition reboot (r : DeployHostRequest) : bool := default true (dr_reboot r).

(** [validate_placement_fields]. *)
Definition validate_placement_fields (reservation_class : option string)
    (placement_labels : gmap string string) : result Error unit :=
  if some_blank reservation_class
  then Err (UnprocessableEntity "reservation_class cannot be empty")
  else for_each (fun kv =>
         if is_blank kv.1
         then Err (UnprocessableEntity "placement label keys cannot be empty")
         else if is_blank kv.2
         then Err (UnprocessableEntity
                     ("placement label '" +:+ kv.1 +:+ "' cannot have an empty value"))
         else Ok tt) (btree_iter placement_labels).

Definition validate_placement (h : NewHost) : result Error unit :=
  validate_placement_fields (nh_reservation_class h) (nh_placement_labels h).
Definition validate_update_placement (r : UpdateHostPlacementRequest) : result Error unit :=
  validate_placement_fields (up_reservation_class r) (up_placement_labels r).

(** The message of a [SecretProviderError]. *)
Definition secret_error_to_string (e : SecretProviderError) : string :=
  match e with
  | UnsupportedScheme => "credential reference must use the env:// or file:// scheme"
  | InvalidReference => "credential reference is invalid"
  | EnvironmentVariableUnavailable => "referenced environment variable is not available"
  | FileUnavailable => "referenced credential file could not be read"
  | EmptySecret => "resolved credential is empty"
  end.

Definition validate_credentials (h : NewHost) : result Error unit :=
  match nh_credential_ref h with
  | Some r => map_err (fun e => UnprocessableEntity (secret_error_to_string e))
                (validate_credential_ref r)
  | None => Ok tt
  end.

(** ** Statements *)

Record HostMetrics := {
  hm_architecture : option string;
  hm_total_cpus : Z;
  hm_total_memory_bytes : Z;
  hm_available_memory_bytes : Z;
  hm_load_average : f64;
  hm_disk_total_bytes : Z;
  hm_disk_available_bytes : Z
}.

(** The field [host_from_row] computes: the node runs another version than the
    control plane. *)
Definition update_available (control_plane_version : string) (h : Host) : bool :=
  match h_node_version h with
  | Some v => negb (String.eqb v control_plane_version)
  | None => false
  end.

Definition set_host_status (s : HostStatus) (h : Host) : Host :=
  {| h_id := h_id h; h_name := h_name h; h_address := h_address h; h_port := h_port h;
     h_status := s; h_host_user := h_host_user h; h_credential_ref := h_credential_ref h;
     h_cloud_hypervisor_version := h_cloud_hypervisor_version h;
     h_firecracker_version := h_firecracker_version h; h_kernel_version := h_kernel_version h;
     h_node_version := h_node_version h; h_last_deployed_image := h_last_deployed_image h;
     h_reservation_class := h_reservation_class h; h_placement_labels := h_placement_labels h;
     h_architecture := h_architecture h; h_total_cpus := h_total_cpus h;
     h_total_memory_bytes := h_total_memory_bytes h;
     h_available_memory_bytes := h_available_memory_bytes h;
     h_load_average := h_load_average h; h_disk_total_bytes := h_disk_total_bytes h;
     h_disk_available_bytes := h_disk_available_bytes h;
     h_resources_updated_at := h_resources_updated_at h |}.
Definition set_placement (req : UpdateHostPlacementRequest) (h : Host) : Host :=
  {| h_id := h_id h; h_name := h_name h; h_address := h_address h; h_port := h_port h;
     h_status := h_status h; h_host_user := h_host_user h;
     h_credential_ref := h_credential_ref h;
     h_cloud_hypervisor_version := h_cloud_hypervisor_version h;
     h_firecracker_version := h_firecracker_version h; h_kernel_version := h_kernel_version h;
     h_node_version := h_node_version h; h_last_deployed_image := h_last_deployed_image h;
     h_reservation_class := up_reservation_class req;
     h_placement_labels := up_placement_labels req; h_architecture := h_architecture h;
     h_total_cpus := h_total_cpus h; h_total_memory_bytes := h_total_memory_bytes h;
     h_available_memory_bytes := h_available_memory_bytes h;
     h_load_average := h_load_average h; h_disk_total_bytes := h_disk_total_bytes h;
     h_disk_available_bytes := h_disk_available_bytes h;
     h_resources_updated_at := h_resources_updated_at h |}.
Definition set_versions (ch_version : string) (fc_version : option string) (kernel_version node_version : string)
    (h : Host) : Host :=
  {| h_id := h_id h; h_name := h_name h; h_address := h_address h; h_port := h_port h;
     h_status := h_status h; h_host_user := h_host_user h;
     h_credential_ref := h_credential_ref h; h_cloud_hypervisor_version := Some ch_version;
     h_firecracker_version := fc_version; h_kernel_version := Some kernel_version;
     h_node_version := Some node_version; h_last_deployed_image := h_last_deployed_image h;
     h_reservation_class := h_reservation_class h; h_placement_labels := h_placement_labels h;
     h_architecture := h_architecture h; h_total_cpus := h_total_cpus h;
     h_total_memory_bytes := h_total_memory_bytes h;
     h_available_memory_bytes := h_available_memory_bytes h;
     h_load_average := h_load_average h; h_disk_total_bytes := h_disk_total_bytes h;
     h_disk_available_bytes := h_disk_available_bytes h;
     h_resources_updated_at := h_resources_updated_at h |}.
Definition set_deployed_image (image : string) (h : Host) : Host :=
  {| h_id := h_id h; h_name := h_name h; h_address := h_address h; h_port := h_port h;
     h_status := h_status h; h_host_user := h_host_user h;
     h_credential_ref := h_credential_ref h;
     h_cloud_hypervisor_version := h_cloud_hypervisor_version h;
     h_firecracker_version := h_firecracker_version h; h_kernel_version := h_kernel_version h;
     h_node_version := h_node_version h; h_last_deployed_image := Some image;
     h_reservation_class := h_reservation_class h; h_placement_labels := h_placement_labels h;
     h_architecture := h_architecture h; h_total_cpus := h_total_cpus h;
     h_total_memory_bytes := h_total_memory_bytes h;
     h_available_memory_bytes := h_available_memory_bytes h;
     h_load_average := h_load_average h; h_disk_total_bytes := h_disk_total_bytes h;
     h_disk_available_bytes := h_disk_available_bytes h;
     h_resources_updated_at := h_resources_updated_at h |}.
Definition set_resources (m : HostMetrics) (t : Z) (h : Host) : Host :=
  {| h_id := h_id h; h_name := h_name h; h_address := h_address h; h_port := h_port h;
     h_status := h_status h; h_host_user := h_host_user h;
     h_credential_ref := h_credential_ref h;
     h_cloud_hypervisor_version := h_cloud_hypervisor_version h;
     h_firecracker_version := h_firecracker_version h; h_kernel_version := h_kernel_version h;
     h_node_version := h_node_version h; h_last_deployed_image := h_last_deployed_image h;
     h_reservation_class := h_reservation_class h; h_placement_labels := h_placement_labels h;
     h_architecture := hm_architecture m; h_total_cpus := Some (hm_total_cpus m);
     h_total_memory_bytes := Some (hm_total_memory_bytes m);
     h_available_memory_bytes := Some (hm_available_memory_bytes m);
     h_load_average := Some (hm_load_average m);
     h_disk_total_bytes := Some (hm_disk_total_bytes m);
     h_disk_available_bytes := Some (hm_disk_available_bytes m);
     h_resources_updated_at := Some t |}.

Definition opt_filter (wanted : option string) (column : option string) : bool :=
  match wanted with None => true | Some x => bool_decide (column = Some x) end.

Definition list_hosts (name_filter architecture_filter : option string)
  : M SqlxError (list Host) :=
  query Pool (fun db => Ok (List.filter (fun h =>
    opt_filter name_filter (Some (h_name h)) && opt_filter architecture_filter (h_architecture h))
    (rows (t_hosts db)))).

(** The column types and unique constraints of [CREATE TABLE hosts]. *)
Definition host_constraints (h : Host) (db : Db) : result SqlxError unit :=
  if (50 <? char_count (h_name h)) || (16 <? char_count (h_address h))
     || (32 <? char_count (h_host_user h))
  then Err (Database (Some "22001"%string) None)
  else if existsb (fun h' => String.eqb (h_name h') (h_name h)) (rows (t_hosts db))
  then Err (Database (Some "23505"%string) (Some "hosts_name_key"%string))
  else if existsb (fun h' => String.eqb (h_address h') (h_address h)) (rows (t_hosts db))
  then Err (Database (Some "23505"%string) (Some "hosts_address_key"%string))
  else Ok tt.

Definition new_host_row (id : Uuid) (h : NewHost) : Host :=
  {| h_id := id; h_name := nh_name h; h_address := nh_address h; h_port := nh_port h;
     h_status := HostDown; h_host_user := nh_host_user h;
     h_credential_ref := nh_credential_ref h; h_cloud_hypervisor_version := None;
     h_firecracker_version := None; h_kernel_version := None; h_node_version := None;
     h_last_deployed_image := None; h_reservation_class := nh_reservation_class h;
     h_placement_labels := nh_placement_labels h; h_architecture := None; h_total_cpus := None;
     h_total_memory_bytes := None; h_available_memory_bytes := None; h_load_average := None;
     h_disk_total_bytes := None; h_disk_available_bytes := None; h_resources_updated_at := None |}.

Definition add (host : NewHost) : M SqlxError Uuid :=
  id ← new_uuid;
  execute Pool (fun db =>
    let h := new_host_row id host in
    _ ← host_constraints h db;
    hosts ← insert_pk "hosts_pkey" id h (t_hosts db);
    Ok (with_hosts (fun _ => hosts) db, id)).

Definition update_host (f : Host -> Host) (id : Uuid) : M SqlxError unit :=
  execute Pool (fun db => Ok (with_hosts (alter f id) db, tt)).

Definition update_status (id : Uuid) (status : HostStatus) : M SqlxError unit :=
  update_host (set_host_status status) id.
Definition update_placement (id : Uuid) (req : UpdateHostPlacementRequest) : M SqlxError unit :=
  update_host (set_placement req) id.
Definition update_versions (id : Uuid) (ch_version : string) (fc_version : option string)
    (kernel_version node_version : string) : M SqlxError unit :=
  update_host (set_versions ch_version fc_version kernel_version node_version) id.
Definition set_last_deployed_image (id : Uuid) (image : string) : M SqlxError unit :=
  update_host (set_deployed_image image) id.
Definition update_resources (id : Uuid) (m : HostMetrics) : M SqlxError unit :=
  t ← now;
  update_host (fun h => set_resources m t h) id.

Definition get_by_id (host_id : Uuid) : M SqlxError (option Host) :=
  query Pool (fun db => Ok (t_hosts db !! host_id)).

Definition require_by_id (id : Uuid) : M Error Host :=
  h ← sqlx_q (get_by_id id);
  of_result (ok_or NotFound h).

Definition list_with_status (statuses : list HostStatus) : M SqlxError (list Host) :=
  query Pool (fun db =>
    Ok (List.filter (fun h => bool_decide (h_status h ∈ statuses)) (rows (t_hosts db)))).
Definition list_up : M SqlxError (list Host) := list_with_status [HostUp].
Definition list_down : M SqlxError (list Host) := list_with_status [HostDown].
Definition list_probeable : M SqlxError (list Host) := list_with_status [HostUp; HostMaintenance].

Definition by_name (name : string) : M SqlxError (option Host) :=
  query Pool (fun db => Ok (head (List.filter (fun h => String.eqb (h_name h) name)
                                    (rows (t_hosts db))))).

Definition validate_unique_name (h : NewHost) : M Error unit :=
  host ← lift_err Sqlx (by_name (nh_name h));
  match host with
  | Some _ => throw (InvalidEntity "name" "unique_name")
  | None => mret tt
  end.

(** *** The ledger *)

(** VMs that count against a host: every status but [Shutdown] and [Unknown]. *)
Definition counted (host_id : Uuid) (r : VmRow) : bool :=
  bool_decide (v_host_id r = Some host_id)
  && negb (bool_decide (v_status r ∈ [Shutdown; Unknown])).

Definition sum_over (f : VmRow -> Z) (l : list VmRow) : Z := foldr (fun r acc => f r + acc) 0 l.

Definition allocated (f : VmRow -> Z) (host_id : Uuid) (db : Db) : Z :=
  sum_over f (List.filter (counted host_id) (rows (t_vms db))).

Record HostResourceCapacity := {
  hc_host_id : Uuid;
  hc_architecture : option string;
  hc_total_cpus : option Z;
  hc_allocated_vcpus : Z;
  hc_total_memory_bytes : option Z;
  hc_allocated_memory_bytes : Z;
  hc_available_memory_bytes : option Z;
  hc_disk_total_bytes : option Z;
  hc_disk_available_bytes : option Z
}.

Definition get_resource_capacity (host_id : Uuid) : M SqlxError (option HostResourceCapacity) :=
  query Pool (fun db => Ok ((fun h =>
    {| hc_host_id := h_id h; hc_architecture := h_architecture h; hc_total_cpus := h_total_cpus h;
       hc_allocated_vcpus := allocated v_boot_vcpus host_id db;
       hc_total_memory_bytes := h_total_memory_bytes h;
       hc_allocated_memory_bytes := allocated v_memory_size host_id db;
       hc_available_memory_bytes := h_available_memory_bytes h;
       hc_disk_total_bytes := h_disk_total_bytes h;
       hc_disk_available_bytes := h_disk_available_bytes h |}) <$> t_hosts db !! host_id)).

(** ** Properties *)

(** *** The ledger under changes of the vms table *)

Lemma sum_over_app f l1 l2 : sum_over f (l1 ++ l2) = sum_over f l1 + sum_over f l2.
Proof. induction l1 as [|x l1 IH]; simpl; [done|]. rewrite IH. lia. Qed.

Lemma sum_over_perm f l1 l2 : l1 ≡ₚ l2 -> sum_over f l1 = sum_over f l2.
Proof. induction 1; simpl; lia. Qed.

Definition charge (f : VmRow -> Z) (host_id : Uuid) (r : VmRow) : Z :=
  if counted host_id r then f r else 0.

(** The ledger is the sum of the charges, so a new row adds its charge and a
    replaced row exchanges its charge. *)
Lemma allocated_insert f host_id db id r :
  t_vms db !! id = None ->
  allocated f host_id (with_vms (insert id r) db) = charge f host_id r + allocated f host_id db.
Proof.
  intros Hnone. unfold allocated, rows, charge. simpl.
  rewrite (sum_over_perm f _ (List.filter (counted host_id) (r :: (map_to_list (t_vms db)).*2))).
  - simpl. by destruct (counted host_id r).
  - apply filter_perm. by rewrite map_to_list_insert.
Qed.

Lemma allocated_split f host_id db id r :
  t_vms db !! id = Some r ->
  allocated f host_id db
  = charge f host_id r + allocated f host_id (with_vms (delete id) db).
Proof.
  intros Hr. unfold allocated, rows, charge. simpl.
  rewrite (sum_over_perm f _ (List.filter (counted host_id)
    (r :: (map_to_list (delete id (t_vms db))).*2))).
  - simpl. by destruct (counted host_id r).
  - apply filter_perm. rewrite <- (map_to_list_delete (t_vms db) id r) by done. done.
Qed.

Lemma allocated_replace f host_id db id r r' :
  t_vms db !! id = Some r ->
  allocated f host_id (with_vms (insert id r') db)
  = allocated f host_id db - charge f host_id r + charge f host_id r'.
Proof.
  intros Hr. rewrite (allocated_split f host_id db id r Hr).
  assert (with_vms (insert id r') db = with_vms (insert id r') (with_vms (delete id) db)) as ->.
  { unfold with_vms. simpl. f_equal. by rewrite insert_delete_eq. }
  rewrite allocated_insert by (simpl; by rewrite lookup_delete_eq). lia.
Qed.

(** *** Requests *)

Definition labels_well_formed (labels : gmap string string) : Prop :=
  map_Forall (fun k v => is_blank k = false /\ is_blank v = false) labels.

Lemma elem_of_btree_iter {A} (m : gmap string A) kv : kv ∈ btree_iter m <-> m !! kv.1 = Some kv.2.
Proof.
  unfold btree_iter. rewrite merge_sort_Permutation. destruct kv. by rewrite elem_of_map_to_list.
Qed.

(** Placement fields are accepted exactly when the class, if given, and every
    label key and value are non-blank. *)
Theorem validate_placement_fields_ok class labels :
  validate_placement_fields class labels = Ok tt <->
  some_blank class = false /\ labels_well_formed labels.
Proof.
  unfold validate_placement_fields, labels_well_formed.
  destruct (some_blank class); [split; [done|by intros [? _]]|].
  rewrite for_each_ok, Forall_forall. setoid_rewrite elem_of_btree_iter. split.
  - intros Hall. split; [done|]. intros k v Hkv. specialize (Hall (k, v) Hkv). simpl in Hall.
    by destruct (is_blank k), (is_blank v).
  - intros [_ Hall] [k v] Hkv. destruct (Hall k v Hkv) as [Hk Hv]. simpl. by rewrite Hk, Hv.
Qed.

(** A deployment request is accepted exactly when it names an image, gives at
    most one kind of credential, no blank user or key path and no port 0. *)
Theorem validate_deploy_ok r :
  validate_deploy r = Ok tt <->
  is_blank (dr_image r) = false /\
  (dr_ssh_password r = None \/ dr_ssh_private_key_path r = None) /\
  some_blank (dr_ssh_user r) = false /\ some_blank (dr_ssh_private_key_path r) = false /\
  ssh_port r <> 0.
Proof.
  unfold validate_deploy, ssh_port.
  destruct (is_blank (dr_image r)); [split; [done|by intros [? _]]|].
  destruct (dr_ssh_password r), (dr_ssh_private_key_path r) as [path|]; simpl.
  1: split; [done|]; by intros (_&[?|?]&_).
  all: destruct (some_blank (dr_ssh_user r)); [split; [done|]; by intros (_&_&?&_)|].
  all: try (destruct (is_blank path); [split; [done|]; by intros (_&_&_&?&_)|]).
  all: case_bool_decide as Hport; [split; [done|]; rewrite Hport; by intros (_&_&_&_&?)|].
  all: split; [|done]; intros _; split_and!; auto; destruct (dr_ssh_port r); simpl; congruence.
Qed.

(** [#[derive(Validate)]] on [NewHost]: the ranges of the name and the port. *)
Definition new_host_valid (h : NewHost) : bool :=
  in_range 1 255 (char_count (nh_name h)) && in_range 1 65535 (nh_port h).

(** A registration either leaves the database as it was or adds one host, down
    and without metrics, whose name and address no other host has. *)
Theorem add_host_effect host o w w' res :
  add host o w = (w', res) ->
  match res with
  | Err _ => w_db w' = w_db w
  | Ok id =>
      t_hosts (w_db w) !! id = None /\
      t_hosts (w_db w') = <[id := new_host_row id host]> (t_hosts (w_db w)) /\
      Forall (fun h => h_name h <> nh_name host /\ h_address h <> nh_address host)
        (rows (t_hosts (w_db w)))
  end.
Proof.
  unfold add, mbind, M_bind, new_uuid, execute. destruct (o_sql o _); [by intros [= <- <-]|].
  destruct (host_constraints _ _) as [[]|e] eqn:Hcon; simpl; rewrite ?Hcon; simpl;
    [|by intros [= <- <-]].
  unfold insert_pk. destruct (t_hosts (w_db w) !! _) eqn:Hnone; simpl; intros [= <- <-]; [done|].
  split_and!; [done|done|].
  unfold host_constraints in Hcon. apply Forall_forall. intros h Hh. crush.
  repeat match goal with
  | Hx : existsb _ _ = false |- _ =>
      apply not_true_iff_false in Hx; rewrite existsb_exists in Hx
  end.
  apply list_elem_of_In in Hh.
  split; intros Heq; [match goal with Hx : ~ exists h', In _ _ /\ String.eqb (h_name _) _ = true |- _ => apply Hx end
    |match goal with Hx : ~ exists h', In _ _ /\ String.eqb (h_address _) _ = true |- _ => apply Hx end];
    exists h; (split; [done|]); by apply String.eqb_eq.
Qed.

(** The request validation admits names of up to 255 characters, the column
    holds 50: a name in between passes the validation and is always refused by
    the database. *)
Theorem long_host_name_never_added host o w :
  new_host_valid host = true -> 50 < char_count (nh_name host) ->
  is_ok (add host o w).2 = false.
Proof.
  intros _ Hlong. unfold add, mbind, M_bind, new_uuid, execute. destruct (o_sql o _); [done|].
  unfold host_constraints. simpl. destruct (Z.ltb_spec 50 (char_count (nh_name host))); [done|lia].
Qed.

Definition sample_new_host (name : string) : NewHost :=
  {| nh_name := name; nh_address := "10.0.0.7"; nh_port := 50051; nh_host_user := "root";
     nh_credential_ref := None; nh_reservation_class := None; nh_placement_labels := ∅ |}.

Lemma add_host_effect_witness :
  exists w', add (sample_new_host "rack1") calm_oracle (world_of empty_db) = (w', Ok 1000%N) /\
    t_hosts (w_db w') = <[1000%N := new_host_row 1000 (sample_new_host "rack1")]> ∅.
Proof.
  eexists. split; [reflexivity|].
  exact (proj1 (proj2 (add_host_effect (sample_new_host "rack1") calm_oracle (world_of empty_db)
    _ (Ok 1000%N) eq_refl))).
Defined.

Lemma long_host_name_never_added_witness :
  let host := sample_new_host "rack-one-of-the-second-building-in-the-northern-campus" in
  is_ok (add host calm_oracle (world_of empty_db)).2 = false.
Proof. apply long_host_name_never_added; vm_compute; reflexivity. Defined.
