(* ===== verification/HostDeploy.v ===== *)
(** * HostDeploy: installing a host over SSH

    [qarax/src/host_deployer.rs].  A shell script is built from the request, quoted
    and run over an SSH session, then the node is awaited.

    - [Ssh] is the SSH library: what connecting, authenticating and running a
      command produce; a channel is the sequence of what each wait for it ends with.
    - The loops that wait read a clock and probe a port once per iteration: [clock i]
      and [port_open i] are the readings of iteration [i].  The loops run on fuel;
      [None] means it is spent, which a clock that advances by the pause excludes.
      The wait for the channel has no clock: it ends when the channel is closed.
    - [sh_word] reads one word of a shell command, to state what quoting is for. *)

From S2P Require Import Prelude Text Errors Tables NodeApi World Samples VmConfig Hosts.
From Stdlib Require Import Ascii.
#[local] Open Scope Z_scope.

Definition SSH_CONNECT_TIMEOUT_SECONDS : Z := 15.
Definition NODE_WAIT_TIMEOUT_SECONDS : Z := 300.
Definition NODE_POLL_INTERVAL_SECONDS : Z := 5.
Definition REBOOT_DETECT_TIMEOUT_SECONDS : Z := 90.

Inductive DeployError : Type :=
| InvalidNodePort (port : Z)
| MissingSshUser
| MissingSshAuthentication
| SshConnectTimeout (address : string) (port : Z)
| AuthenticationFailed (user : string)
| SshFailed (error : string)
| SshKey (error : string)
| InvalidSshKeyPath (path : string)
| RemoteCommandFailed (status : option Z) (stdout stderr : string)
| NodeUnavailable (address : string) (port : Z).

(** ** Text *)

Definition quote : ascii := "'"%char.
Definition dquote : ascii := "034"%char.
Definition newline : string := String "010"%char EmptyString.
Definition quoted (s : string) : string := String dquote s +:+ String dquote EmptyString.

(** [value.replace('\'', "'\"'\"'")]. *)
Fixpoint escape_quotes (s : string) : string :=
  match s with
  | EmptyString => EmptyString
  | String c s' =>
      if Ascii.eqb c quote
      then String quote (String dquote (String quote (String dquote (String quote (escape_quotes s')))))
      else String c (escape_quotes s')
  end.

Definition shell_single_quote (value : string) : string :=
  String quote (escape_quotes value +:+ String quote EmptyString).

(** Lines, each ended by a line feed. *)
Definition script_lines (l : list string) : string := foldr (fun s acc => s +:+ newline +:+ acc) ""%string l.

(** A backslash at the end of a line of the literal also takes the indentation of the next. *)
Definition bootc_prologue : string := script_lines
  [ "set -euo pipefail"; "run_privileged() {"; "if [ " +:+ quoted "$(id -u)" +:+ " -eq 0 ]; then";
    quoted "$@"; "else"; "sudo -n " +:+ quoted "$@"; "fi"; "}" ].

Definition bootc_install : string := script_lines
  [ "if ! command -v bootc >/dev/null 2>&1; then";
    "if command -v dnf >/dev/null 2>&1; then";
    "run_privileged dnf install -y bootc";
    "elif command -v apt-get >/dev/null 2>&1; then";
    "run_privileged apt-get update";
    "run_privileged apt-get install -y bootc";
    "else";
    "echo " +:+ quoted "bootc is not installed and no supported package manager was found" +:+ " >&2";
    "exit 1"; "fi"; "fi" ].

Definition build_bootc_script (request : DeployHostRequest) : string :=
  bootc_prologue
  +:+ (if install_bootc request then bootc_install else "")
  +:+ "run_privileged bootc switch " +:+ shell_single_quote (trim (dr_image request)) +:+ newline
  +:+ (if reboot request then "run_privileged systemctl reboot" +:+ newline else "").

(** [String::from_utf8_lossy]: what follows a leading byte, as ranges. *)
Definition utf8_tail (n : N) : option (list (N * N)) :=
  if (n <? 128)%N then Some []
  else if (n <? 194)%N then None
  else if (n <? 224)%N then Some [(128, 191)]%N
  else if (n =? 224)%N then Some [(160, 191); (128, 191)]%N
  else if (n =? 237)%N then Some [(128, 159); (128, 191)]%N
  else if (n <? 240)%N then Some [(128, 191); (128, 191)]%N
  else if (n =? 240)%N then Some [(144, 191); (128, 191); (128, 191)]%N
  else if (n <? 244)%N then Some [(128, 191); (128, 191); (128, 191)]%N
  else if (n =? 244)%N then Some [(128, 143); (128, 191); (128, 191)]%N
  else None.

(** U+FFFD. *)
Definition replacement : string := String "239" (String "191" (String "189" EmptyString)).

Definition lossy_start (c : ascii) : string * option (string * list (N * N)) :=
  match utf8_tail (N_of_ascii c) with
  | Some [] => (String c EmptyString, None)
  | Some tail => (EmptyString, Some (String c EmptyString, tail))
  | None => (replacement, None)
  end.

(** The state: the bytes of an unfinished character and what must follow. *)
Fixpoint lossy (state : option (string * list (N * N))) (s : string) : string :=
  match s with
  | EmptyString => match state with Some _ => replacement | None => EmptyString end
  | String c s' =>
      match state with
      | Some (seen, (lo, hi) :: tail) =>
          let n := N_of_ascii c in
          if ((lo <=? n) && (n <=? hi))%N then
            let seen := seen +:+ String c EmptyString in
            match tail with
            | [] => seen +:+ lossy None s'
            | _ => lossy (Some (seen, tail)) s'
            end
          else let (out, state) := lossy_start c in replacement +:+ out +:+ lossy state s'
      | _ => let (out, state) := lossy_start c in out +:+ lossy state s'
      end
  end.
Definition from_utf8_lossy (s : string) : string := lossy None s.

(** ** The session *)

Inductive ConnectOutcome : Type := Connected | ConnectFailed (error : string) | ConnectTimedOut.

Inductive ChannelMsg : Type :=
| Data (data : string) | ExtendedData (data : string) (ext : Z) | ExitStatus (status : Z) | OtherMsg.

(** What a wait for the next message ends with: a message, the end of the channel, or
    nothing for ever; the wait has no deadline. *)
Inductive ChannelEvent : Type := Message (msg : ChannelMsg) | Closed | Silent.

(** What the known-hosts file says of a key. *)
Inductive KnownHost : Type := KnownKey | UnknownKey | KeyChanged | KnownHostsError.

Definition check_server_key (k : KnownHost) : bool :=
  match k with KnownKey | UnknownKey | KnownHostsError => true | KeyChanged => false end.

Record Ssh := {
  ssh_connect : string -> Z -> ConnectOutcome;
  ssh_password : string -> string -> result string bool;
  ssh_load_key : string -> result string unit;
  ssh_rsa_hash : result string unit;
  ssh_public_key : string -> string -> result string bool;
  ssh_exec : string -> result string (nat -> ChannelEvent)
}.

Section deploy.
Variables (home : option string) (ssh : Ssh).

Definition resolve_password (request : DeployHostRequest) : option string :=
  match trim <$> dr_ssh_password request with
  | Some EmptyString => None
  | p => p
  end.

(** [Path::join] with the rest of [~/rest]: an absolute rest replaces the base. *)
Definition path_join (base rest : string) : string :=
  match rest, base with
  | String "/"%char _, _ => rest
  | _, EmptyString => rest
  | _, _ => match strip_suffix "/" base with
            | Some _ => base +:+ rest
            | None => base +:+ "/" +:+ rest
            end
  end.

Definition expand_private_key_path (path : string) : result DeployError string :=
  let trimmed := trim path in
  if String.eqb trimmed "" then Err (InvalidSshKeyPath path)
  else if String.eqb trimmed "~" then ok_or (InvalidSshKeyPath path) home
  else match strip_prefix "~/" trimmed with
       | Some rest => h ← ok_or (InvalidSshKeyPath path) home; Ok (path_join h rest)
       | None => Ok trimmed
       end.

Definition connect_and_authenticate (host : Host) (request : DeployHostRequest) (ssh_user : string)
    (password : option string) : result DeployError unit :=
  _ ← (match ssh_connect ssh (h_address host) (ssh_port request) with
       | Connected => Ok tt
       | ConnectFailed e => Err (SshFailed e)
       | ConnectTimedOut => Err (SshConnectTimeout (h_address host) (ssh_port request))
       end);
  success ← (match password, dr_ssh_private_key_path request with
             | Some p, _ => map_err SshFailed (ssh_password ssh ssh_user p)
             | None, Some key_path =>
                 key_path ← expand_private_key_path key_path;
                 _ ← map_err SshKey (ssh_load_key ssh key_path);
                 _ ← map_err SshFailed (ssh_rsa_hash ssh);
                 map_err SshFailed (ssh_public_key ssh ssh_user key_path)
             | None, None => Err MissingSshAuthentication
             end);
  if (success : bool) then Ok tt else Err (AuthenticationFailed ssh_user).

(** [while let Some(message) = channel.wait().await]: the output and the last exit status
    of the command, from event [i]; [None]: the fuel is spent or the channel is silent. *)
Fixpoint collect (fuel : nat) (channel : nat -> ChannelEvent) (i : nat) (stdout stderr : string) (exit_status : option Z)
  : option (string * string * option Z) :=
  match fuel with
  | O => None
  | S fuel' =>
      match channel i with
      | Closed => Some (stdout, stderr, exit_status)
      | Silent => None
      | Message (Data d) => collect fuel' channel (S i) (stdout +:+ d) stderr exit_status
      | Message (ExtendedData d ext) =>
          if ext =? 1 then collect fuel' channel (S i) stdout (stderr +:+ d) exit_status
          else collect fuel' channel (S i) (stdout +:+ d) stderr exit_status
      | Message (ExitStatus status) => collect fuel' channel (S i) stdout stderr (Some status)
      | Message OtherMsg => collect fuel' channel (S i) stdout stderr exit_status
      end
  end.

Definition execute_remote_command (fuel : nat) (remote_command : string) (allow_disconnect : bool)
  : option (result DeployError unit) :=
  match ssh_exec ssh remote_command with
  | Err e => Some (Err (SshFailed e))
  | Ok channel =>
      '(stdout, stderr, exit_status) ← collect fuel channel 0 "" "" None;
      let failed status := Err (RemoteCommandFailed status (trim (from_utf8_lossy stdout))
                                  (trim (from_utf8_lossy stderr))) in
      Some (match exit_status with
            | Some status => if status =? 0 then Ok tt else failed (Some status)
            | None => if allow_disconnect then Ok tt else failed None
            end)
  end.

Definition ssh_user_of (host : Host) (request : DeployHostRequest) : string :=
  match trim <$> dr_ssh_user request with
  | None | Some EmptyString => trim (h_host_user host)
  | Some user => user
  end.

Definition run_ssh_command (fuel : nat) (host : Host) (request : DeployHostRequest) (remote_command : string)
    (allow_disconnect : bool) : option (result DeployError unit) :=
  let ssh_user := ssh_user_of host request in
  if String.eqb ssh_user "" then Some (Err MissingSshUser)
  else match connect_and_authenticate host request ssh_user (resolve_password request) with
       | Err e => Some (Err e)
       | Ok _ => execute_remote_command fuel remote_command allow_disconnect
       end.

(** ** Waiting *)

(** [while Instant::now() < deadline { probe; sleep }]: whether the probe of an
    iteration before the deadline answered [wanted]. *)
Fixpoint wait_until (wanted : bool) (fuel : nat) (deadline : Z) (clock : nat -> Z) (port_open : nat -> bool)
    (i : nat) : option bool :=
  match fuel with
  | O => None
  | S fuel' =>
      if clock i <? deadline then
        if Bool.eqb (port_open i) wanted then Some true
        else wait_until wanted fuel' deadline clock port_open (S i)
      else Some false
  end.

(** The port is probed until it is closed, or open. *)
Definition wait_for_reboot_transition (fuel : nat) (clock : nat -> Z) (port_open : nat -> bool) : option unit :=
  (fun _ => tt) <$> wait_until false fuel (clock 0%nat + REBOOT_DETECT_TIMEOUT_SECONDS) clock port_open 1.

Definition wait_for_node (fuel : nat) (address : string) (port : Z) (clock : nat -> Z)
    (port_open : nat -> bool) : option (result DeployError unit) :=
  (fun found : bool => if found then Ok tt else Err (NodeUnavailable address port))
    <$> wait_until true fuel (clock 0%nat + NODE_WAIT_TIMEOUT_SECONDS) clock port_open 1.

Definition remote_command_of (request : DeployHostRequest) : string :=
  "bash -lc " +:+ shell_single_quote (build_bootc_script request).

(** The readings of the two waiting loops are separate; [reads] is the fuel of the session. *)
Definition deploy_bootc_host (reads fuel : nat) (reboot_clock node_clock : nat -> Z)
    (reboot_open node_open : nat -> bool) (host : Host) (request : DeployHostRequest)
  : option (result DeployError unit) :=
  if negb (in_range 0 u16_max (h_port host)) then Some (Err (InvalidNodePort (h_port host)))
  else match run_ssh_command reads host request (remote_command_of request) (reboot request) with
       | None => None
       | Some (Err e) => Some (Err e)
       | Some (Ok _) =>
           _ ← (if reboot request then wait_for_reboot_transition fuel reboot_clock reboot_open
                else Some tt);
           wait_for_node fuel (h_address host) (h_port host) node_clock node_open
       end.
End deploy.

(** ** Quoting *)

Inductive Quoting : Type := Bare | InSingle | InDouble.

(** Bytes that end an unquoted word, and bytes a shell interprets. *)
Definition ends_word (c : ascii) : bool :=
  existsb (Ascii.eqb c) [" "%char; "009"%char; "010"%char; ";"%char; "&"%char; "|"%char; "<"%char; ">"%char;
                         "("%char; ")"%char].
Definition expands (c : ascii) : bool :=
  existsb (Ascii.eqb c) ["$"%char; "`"%char; "092"%char].

(** The first word of a command, its value and what follows; [None] when a quote is
    not closed or something would be expanded. *)
Fixpoint sh_word (m : Quoting) (s : string) : option (string * string) :=
  match s with
  | EmptyString => match m with Bare => Some (EmptyString, EmptyString) | _ => None end
  | String c s' =>
      let literal := (fun r => (String c r.1, r.2)) <$> sh_word m s' in
      match m with
      | Bare =>
          if Ascii.eqb c quote then sh_word InSingle s'
          else if Ascii.eqb c dquote then sh_word InDouble s'
          else if ends_word c then Some (EmptyString, s)
          else if expands c then None else literal
      | InSingle => if Ascii.eqb c quote then sh_word Bare s' else literal
      | InDouble => if Ascii.eqb c dquote then sh_word Bare s' else if expands c then None else literal
      end
  end.

Definition at_word_end (s : string) : Prop :=
  match s with EmptyString => True | String c _ => ends_word c = true end.

Lemma ends_word_not_quote c : ends_word c = true -> Ascii.eqb c quote = false /\ Ascii.eqb c dquote = false.
Proof.
  intros (x&Hx&->%Ascii.eqb_eq)%existsb_exists. cbn in Hx. intuition subst; reflexivity.
Qed.

Lemma sh_word_end rest : at_word_end rest -> sh_word Bare rest = Some (EmptyString, rest).
Proof.
  destruct rest as [|c rest]; [done|]. simpl. intros Hc.
  destruct (ends_word_not_quote c Hc) as [-> ->]. by rewrite Hc.
Qed.

Lemma sh_word_escaped v rest :
  at_word_end rest ->
  sh_word InSingle (escape_quotes v +:+ String quote rest) = Some (v, rest).
Proof.
  intros Hrest. induction v as [|c v IH].
  - change (sh_word Bare rest = Some (""%string, rest)). by apply sh_word_end.
  - cbn [escape_quotes]. destruct (Ascii.eqb_spec c quote) as [->|Hc].
    + change ((fun r => (String quote r.1, r.2)) <$> sh_word InSingle (escape_quotes v +:+ String quote rest)
              = Some (String quote v, rest)). by rewrite IH.
    + apply Ascii.eqb_neq in Hc.
      change ((if Ascii.eqb c quote then sh_word Bare (escape_quotes v +:+ String quote rest)
               else (fun r => (String c r.1, r.2)) <$> sh_word InSingle (escape_quotes v +:+ String quote rest))
              = Some (String c v, rest)). by rewrite Hc, IH.
Qed.

Lemma quoted_word v rest :
  at_word_end rest -> sh_word Bare (shell_single_quote v +:+ rest) = Some (v, rest).
Proof.
  intros Hrest. unfold shell_single_quote.
  change (sh_word InSingle ((escape_quotes v +:+ String quote "") +:+ rest) = Some (v, rest)).
  rewrite string_app_assoc. by apply sh_word_escaped.
Qed.

(** C33. Whatever bytes a value has, a shell reads its quoted form back as one word
    with exactly those bytes: the argument of [bash -lc] is the whole script, and
    inside the script the argument of [bootc switch] is the trimmed image name, so
    no image name adds a word or a command. *)
Theorem shell_quote_roundtrip request :
  (forall v rest, at_word_end rest -> sh_word Bare (shell_single_quote v +:+ rest) = Some (v, rest)) /\
  sh_word Bare (shell_single_quote (build_bootc_script request)) = Some (build_bootc_script request, ""%string) /\
  exists before after,
    build_bootc_script request
      = (before +:+ "run_privileged bootc switch " +:+ shell_single_quote (trim (dr_image request)) +:+ after)%string /\
    sh_word Bare (shell_single_quote (trim (dr_image request)) +:+ after) = Some (trim (dr_image request), after).
Proof.
  split_and!.
  - apply quoted_word.
  - pose proof (quoted_word (build_bootc_script request) "" I) as Hq.
    by rewrite append_empty_r in Hq.
  - exists (bootc_prologue +:+ (if install_bootc request then bootc_install else ""))%string,
      (newline +:+ (if reboot request then "run_privileged systemctl reboot" +:+ newline else ""))%string.
    split; [unfold build_bootc_script; by rewrite string_app_assoc|]. by apply quoted_word.
Qed.

(** ** Waiting ends *)

(** Every iteration lasts at least the pause of the loop. *)
Definition paused (p : Z) (clock : nat -> Z) : Prop :=
  clock 0%nat <= clock 1%nat /\ forall i, clock i + p <= clock (S i) \/ i = 0%nat.

Lemma paused_mono p clock i j :
  0 <= p -> paused p clock -> (1 <= i)%nat -> (i <= j)%nat -> clock i <= clock j.
Proof.
  intros Hp [_ Hc] Hi Hij. induction Hij as [|j Hij IH]; [lia|]. destruct (Hc j) as [?| ->]; lia.
Qed.

Lemma wait_until_ends wanted p deadline clock port_open n i :
  0 < p -> paused p clock -> (1 <= i)%nat -> deadline - clock i <= p * Z.of_nat n ->
  exists b, wait_until wanted (S n) deadline clock port_open i = Some b.
Proof.
  intros Hp Hc. revert i. induction n as [|n IH]; intros i Hi Hd; simpl.
  - destruct (Z.ltb_spec (clock i) deadline); [lia|]. eauto.
  - destruct (Z.ltb_spec (clock i) deadline); [|eauto].
    destruct (Bool.eqb _ _); [eauto|]. apply IH; [lia|]. destruct Hc as [_ Hc].
    destruct (Hc i) as [?| ->]; lia.
Qed.

Lemma wait_until_sound wanted fuel deadline clock port_open i b :
  wait_until wanted fuel deadline clock port_open i = Some b ->
  if b then exists j, (i <= j)%nat /\ clock j < deadline /\ port_open j = wanted
  else exists j, (i <= j)%nat /\ deadline <= clock j /\
         forall k, (i <= k)%nat -> (k < j)%nat -> port_open k <> wanted.
Proof.
  revert i. induction fuel as [|fuel IH]; intros i; simpl; [done|].
  destruct (Z.ltb_spec (clock i) deadline); [|intros [= <-]; exists i; split_and!; [lia|done|lia]].
  destruct (Bool.eqb (port_open i) wanted) eqn:He.
  - intros [= <-]. exists i. apply Bool.eqb_prop in He. by split_and!.
  - intros Hw%IH. destruct b; destruct Hw as (j&Hij&Hd&Hj); exists j; (split_and!; [lia|done|]); [done|].
    intros k Hik Hkj. destruct (decide (k = i)) as [->|]; [|apply Hj; lia].
    intros Heq. rewrite Heq in He. by destruct wanted.
Qed.

(** The fuel: [300 / 5 + 1] iterations at most. *)
Definition deploy_fuel : nat := 61.

(** The channel is closed after [m] messages. *)
Definition closes (channel : nat -> ChannelEvent) (m : nat) : Prop :=
  channel m = Closed /\ forall j, (j < m)%nat -> exists msg, channel j = Message msg.

Lemma collect_closed channel n i out err st :
  channel (i + n)%nat = Closed -> (forall j, (i <= j < i + n)%nat -> exists msg, channel j = Message msg) ->
  is_Some (collect (S n) channel i out err st).
Proof.
  revert i out err st. induction n as [|n IH]; intros i out err st Hc Hm.
  { rewrite Nat.add_0_r in Hc. simpl. rewrite Hc. by eexists. }
  destruct (Hm i) as [msg Hi]; [lia|]. change (collect (S (S n)) channel i out err st) with
    (match channel i with
     | Closed => Some (out, err, st) | Silent => None
     | Message (Data d) => collect (S n) channel (S i) (out +:+ d) err st
     | Message (ExtendedData d ext) => if ext =? 1 then collect (S n) channel (S i) out (err +:+ d) st
                                       else collect (S n) channel (S i) (out +:+ d) err st
     | Message (ExitStatus status) => collect (S n) channel (S i) out err (Some status)
     | Message OtherMsg => collect (S n) channel (S i) out err st
     end). rewrite Hi.
  assert (forall o' e' s', is_Some (collect (S n) channel (S i) o' e' s')) as H'.
  { intros o' e' s'. apply IH; [by rewrite Nat.add_succ_comm|]. intros j Hj. apply Hm. lia. }
  destruct msg; try apply H'. destruct (_ =? _); apply H'.
Qed.

Lemma collect_ended fuel channel i out err st x :
  (forall j, (j < i)%nat -> exists msg, channel j = Message msg) ->
  collect fuel channel i out err st = Some x -> exists m, closes channel m.
Proof.
  revert i out err st. induction fuel as [|fuel IH]; intros i out err st Hm; simpl; [done|].
  destruct (channel i) as [msg| |] eqn:Hi; [|by exists i|done].
  assert (forall j, (j < S i)%nat -> exists msg, channel j = Message msg) as Hm'.
  { intros j Hj. destruct (decide (j = i)) as [->|]; [by eexists|]. apply Hm. lia. }
  destruct msg; try by apply IH. destruct (_ =? _); by apply IH.
Qed.

(** The session ends when the channel is closed. *)
Lemma ssh_ends home ssh host request command allow m :
  (forall channel, ssh_exec ssh command = Ok channel -> closes channel m) ->
  exists r, run_ssh_command home ssh (S m) host request command allow = Some r.
Proof.
  intros Hc. unfold run_ssh_command. destruct (String.eqb _ _); [by eexists|].
  destruct (connect_and_authenticate _ _ _ _ _ _); [|by eexists]. unfold execute_remote_command.
  destruct (ssh_exec ssh command) as [channel|e] eqn:E; [|by eexists]. destruct (Hc _ eq_refl) as [H1 H2].
  destruct (collect_closed channel m 0 "" "" None H1) as [[[out err] st] ->]; [intros j Hj; apply H2; lia|]. by eexists.
Qed.

(** C34. A deployment whose SSH calls return and whose channel is closed after [m]
    messages ends: it reads the channel at most [m + 1] times and, with readings that
    advance by the pause of each loop, goes through its two waiting loops at most sixty-one
    times.  It succeeds exactly when the port of the host is a port, the command ran over
    SSH and the node answered within five minutes.  The wait for the channel has no
    deadline: when the command was started and the channel is never closed, the deployment
    does not end, whatever the fuel. *)
Theorem deploy_outcome home ssh rc nc ro no_ host request :
  paused 2 rc -> paused NODE_POLL_INTERVAL_SECONDS nc ->
  (forall m, (forall channel, ssh_exec ssh (remote_command_of request) = Ok channel -> closes channel m) ->
   exists r, deploy_bootc_host home ssh (S m) deploy_fuel rc nc ro no_ host request = Some r /\
    (r = Ok tt <->
     0 <= h_port host <= u16_max /\
     run_ssh_command home ssh (S m) host request (remote_command_of request) (reboot request) = Some (Ok tt) /\
     exists i, (1 <= i)%nat /\ nc i < nc 0%nat + NODE_WAIT_TIMEOUT_SECONDS /\ no_ i = true)) /\
  (forall channel reads fuel, 0 <= h_port host <= u16_max -> ssh_user_of host request <> EmptyString ->
   connect_and_authenticate home ssh host request (ssh_user_of host request) (resolve_password request) = Ok tt ->
   ssh_exec ssh (remote_command_of request) = Ok channel -> (forall m, ~ closes channel m) ->
   deploy_bootc_host home ssh reads fuel rc nc ro no_ host request = None).
Proof.
  intros Hrc Hnc. split; [intros m Hm|intros channel reads fuel Hp Hu Hconn Hex Hopen]; unfold deploy_bootc_host.
  2:{ apply in_range_spec in Hp as ->. cbn [negb]. unfold run_ssh_command. apply String.eqb_neq in Hu as ->.
      rewrite Hconn. unfold execute_remote_command. rewrite Hex.
      destruct (collect reads channel 0 "" "" None) eqn:Hcol; [|done]. exfalso.
      apply collect_ended in Hcol as [m Hm]; [by apply (Hopen m)|]. lia. }
  destruct (in_range 0 u16_max (h_port host)) eqn:Hp.
  2:{ eexists. split; [done|]. split; [done|]. intros (Hp'&_). apply in_range_spec in Hp'. congruence. }
  apply in_range_spec in Hp. cbn [negb].
  destruct (ssh_ends home ssh host request (remote_command_of request) (reboot request) m Hm) as [[[]|e] Hs]; rewrite Hs.
  2:{ eexists. split; [done|]. split; [done|]. by intros (_&?&_). }
  assert ((if reboot request then wait_for_reboot_transition deploy_fuel rc ro else Some tt) = Some tt) as ->.
  { destruct (reboot request); [|done]. unfold wait_for_reboot_transition, deploy_fuel, REBOOT_DETECT_TIMEOUT_SECONDS.
    destruct (wait_until_ends false 2 (rc 0%nat + 90) rc ro 60 1) as [b ->]; [lia|done|lia| |done].
    destruct Hrc. lia. }
  cbn [mbind option_bind]. unfold wait_for_node, deploy_fuel, NODE_WAIT_TIMEOUT_SECONDS, NODE_POLL_INTERVAL_SECONDS in *.
  destruct (wait_until_ends true 5 (nc 0%nat + 300) nc no_ 60 1) as [b Hb]; [lia|done|lia|destruct Hnc; lia|].
  rewrite Hb. eexists. split; [done|]. apply wait_until_sound in Hb. destruct b.
  - destruct Hb as (j&Hj). split; [|done]. intros _. split_and!; [lia|lia|done|by exists j].
  - split; [done|]. intros (_&_&i&Hi&Hd&Ho). exfalso. destruct Hb as (j&Hj&Hdj&Hn).
    destruct (decide (i < j)%nat) as [Hij|Hij]; [by apply (Hn i)|].
    pose proof (paused_mono 5 nc j i) as Hm'. lapply Hm'; [|lia]. intros Hm''. specialize (Hm'' Hnc Hj). lia.
Qed.

(** A session that accepts the password and runs the command; one that never says anything. *)
Definition willing_ssh : Ssh :=
  {| ssh_connect := fun _ _ => Connected; ssh_password := fun _ _ => Ok true;
     ssh_load_key := fun _ => Ok tt; ssh_rsa_hash := Ok tt; ssh_public_key := fun _ _ => Ok true;
     ssh_exec := fun _ => Ok (fun i => match i with
                                       | 0%nat => Message (Data "switching"%string) | 1%nat => Message (ExitStatus 0)
                                       | _ => Closed end) |}.
Definition upgrade : DeployHostRequest :=
  {| dr_image := "quay.io/qarax:v2"; dr_ssh_port := None; dr_ssh_user := None;
     dr_ssh_password := Some "secret"%string; dr_ssh_private_key_path := None; dr_install_bootc := Some false;
     dr_reboot := Some true |}.
Definition every (p : Z) (i : nat) : Z := p * Z.of_nat i.

Lemma every_paused p : 0 <= p -> paused p (every p).
Proof. intros Hp. unfold every. split; [lia|]. intros i. left. lia. Qed.

Definition mute_ssh : Ssh :=
  {| ssh_connect := ssh_connect willing_ssh; ssh_password := ssh_password willing_ssh;
     ssh_load_key := ssh_load_key willing_ssh; ssh_rsa_hash := ssh_rsa_hash willing_ssh;
     ssh_public_key := ssh_public_key willing_ssh; ssh_exec := fun _ => Ok (fun _ => Silent) |}.

Lemma deploy_outcome_witness :
  let run ssh reads := deploy_bootc_host None ssh reads deploy_fuel (every 2) (every 5) (fun i => Nat.ltb i 3)
             (fun i => Nat.ltb 10 i) (sample_host 1 "alpha" "10.0.0.1" HostUp 8 1000 1000) upgrade in
  run willing_ssh 3%nat = Some (Ok tt) /\ is_Some (run willing_ssh 3%nat) /\ forall reads, run mute_ssh reads = None.
Proof.
  intros run. split; [vm_compute; reflexivity|]. assert (paused 2 (every 2)) as H2 by (apply every_paused; lia).
  assert (paused NODE_POLL_INTERVAL_SECONDS (every 5)) as H5 by (apply every_paused; unfold NODE_POLL_INTERVAL_SECONDS; lia). split.
  - destruct (deploy_outcome None willing_ssh (every 2) (every 5) (fun i => Nat.ltb i 3) (fun i => Nat.ltb 10 i)
      (sample_host 1 "alpha" "10.0.0.1" HostUp 8 1000 1000) upgrade H2 H5) as [He _].
    destruct (He 2%nat) as (x&Hx&_); [|exists x; exact Hx]. intros channel [= <-]. split; [done|].
    intros [|[|j]] Hj; [by eexists|by eexists|lia].
  - intros reads. destruct (deploy_outcome None mute_ssh (every 2) (every 5) (fun i => Nat.ltb i 3) (fun i => Nat.ltb 10 i)
      (sample_host 1 "alpha" "10.0.0.1" HostUp 8 1000 1000) upgrade H2 H5) as [_ Hn].
    apply (Hn (fun _ => Silent)); [vm_compute; by split|done|by vm_compute|done|]. by intros m [? _].
Defined.
