(* ===== verification/StorageObjects.v ===== *)
(** * StorageObjects: objects, capacity accounting and file cleanup

    [qarax/src/model/storage_objects.rs] with the triggers of the schema that
    account for the size of an object in its pool, and
    [qarax/src/storage_cleanup.rs], which removes the files of deleted objects on
    the nodes.

    An object of size n reserves n bytes of its pool; a pool that has a capacity
    refuses to grow past it.  Deleting an object the program provisioned itself
    leaves a cleanup entry that keeps the reservation until a node has confirmed
    that the files are gone.  The abstract specification is a ledger: an account
    per pool with the bytes in use and a limit. *)

From S2P Require Import Prelude Text Errors Tables Float64 NodeApi World Samples.
From S2P Require Import VmConfig Hooks Vms Jobs Storage Hosts.
#[local] Open Scope Z_scope.
#[local] Set Default Proof Using "Type".

Record NewStorageObject := {
  no_name : string;
  no_storage_pool_id : option Uuid;
  no_object_type : StorageObjectType;
  no_size_bytes : Z;
  no_config : json;
  no_parent_id : option Uuid
}.

(** ** The triggers of the schema *)

Definition set_allocated (n : Z) (p : StoragePool) : StoragePool :=
  {| sp_id := sp_id p; sp_name := sp_name p; sp_pool_type := sp_pool_type p;
     sp_status := sp_status p; sp_config := sp_config p;
     sp_capacity_bytes := sp_capacity_bytes p; sp_allocated_bytes := Some n |}.

Definition no_capacity : SqlxError :=
  Database (Some "23514"%string) (Some "storage_pool_capacity"%string).

(** [UPDATE storage_pools SET allocated_bytes = n]: a [BIGINT NOT NULL] column
    with a check. *)
Definition store_allocated (pool_id : Uuid) (n : Z) (p : StoragePool) (db : Db)
  : result SqlxError Db :=
  if negb (in_range i64_min i64_max n) then Err (Database (Some "22003"%string) None)
  else if n <? 0
  then Err (Database (Some "23514"%string) (Some "storage_pool_allocation_nonnegative"%string))
  else Ok (with_storage_pools (insert pool_id (set_allocated n p)) db).

(** Growth is refused past the capacity, shrinking never. *)
Definition adjust_storage_pool_allocation (pool_id : Uuid) (delta : Z) (db : Db)
  : result SqlxError Db :=
  match t_storage_pools db !! pool_id with
  | None => Err no_capacity
  | Some p =>
      match sp_allocated_bytes p with
      | None => Err (Database (Some "23502"%string) None)
      | Some n =>
          if (delta <=? 0)
             || match sp_capacity_bytes p with None => true | Some c => n + delta <=? c end
          then store_allocated pool_id (n + delta) p db
          else Err no_capacity
      end
  end.

(** The cleanup entry of a deleted object: its own hosts, or, for an object of
    unknown origin, the hosts of its pool; the bytes stay reserved. *)
Definition cleanup_targets (o : StorageObject) (managed : list Uuid) (db : Db) : list Uuid :=
  if bool_decide (managed = [])
  then omap (fun hp : Uuid * Uuid =>
         if decide (hp.2 = so_storage_pool_id o) then Some hp.1 else None)
         (elements (t_host_storage_pools db))
  else managed.

Definition new_cleanup (o : StorageObject) (managed : list Uuid) (t : Z) (db : Db) : StorageCleanup :=
  {| sc_object_id := so_id o; sc_pool_id := so_storage_pool_id o;
     sc_upper_layer := bool_decide (so_object_type o = OverlaybdUpper);
     sc_size_bytes := Z.max (so_size_bytes o) 0; sc_host_ids := cleanup_targets o managed db;
     sc_attempts := 0; sc_last_error := None; sc_next_attempt_at := t |}.

Definition queue_storage_cleanup (o : StorageObject) (t : Z) (db : Db) : result SqlxError Db :=
  match so_managed_host_ids o with
  | None => Ok db
  | Some managed =>
      cleanups ← insert_pk "storage_cleanup_pkey" (so_id o) (new_cleanup o managed t db)
                   (t_storage_cleanup db);
      let db := with_storage_cleanup (fun _ => cleanups) db in
      match t_storage_pools db !! so_storage_pool_id o with
      | None => Ok db
      | Some p =>
          match sp_allocated_bytes p with
          | None => Err (Database (Some "23502"%string) None)
          | Some n => store_allocated (so_storage_pool_id o) (n + Z.max (so_size_bytes o) 0) p db
          end
      end
  end.

(** ** Statements on storage_objects *)

Definition object_constraints (r : StorageObject) (db : Db) : result SqlxError unit :=
  if 100 <? char_count (so_name r) then Err (Database (Some "22001"%string) None)
  else if so_size_bytes r <? 0
  then Err (Database (Some "23514"%string) (Some "storage_object_size_nonnegative"%string))
  else if existsb (fun o => bool_decide (so_storage_pool_id o = so_storage_pool_id r)
                            && String.eqb (so_name o) (so_name r)) (rows (t_storage_objects db))
  then Err (Database (Some "23505"%string) (Some "storage_objects_storage_pool_id_name_key"%string))
  else if negb (bool_decide (so_storage_pool_id r ∈ dom (t_storage_pools db)))
  then Err (Database (Some "23503"%string) (Some "storage_objects_storage_pool_id_fkey"%string))
  else match so_parent_id r with
       | Some parent =>
           if bool_decide (parent ∈ dom (t_storage_objects db)) then Ok tt
           else Err (Database (Some "23503"%string) (Some "storage_objects_parent_id_fkey"%string))
       | None => Ok tt
       end.

Definition insert_object_row (r : StorageObject) (db : Db) : result SqlxError Db :=
  _ ← object_constraints r db;
  objects ← insert_pk "storage_objects_pkey" (so_id r) r (t_storage_objects db);
  adjust_storage_pool_allocation (so_storage_pool_id r) (so_size_bytes r)
    (with_storage_objects (fun _ => objects) db).

(** Rows that keep an object from being deleted.  The column [firmware_image_id] of
    [boot_sources], which no statement writes, is always null and is not kept. *)
Definition object_references (id : Uuid) (db : Db) : result SqlxError unit :=
  let fk c := Err (Database (Some "23503"%string) (Some c%string)) in
  if existsb (fun d => bool_decide (vd_storage_object_id d = Some id)) (rows (t_vm_disks db))
  then fk "vm_disks_storage_object_id_fkey"
  else if existsb (fun d => bool_decide (vd_upper_storage_object_id d = Some id)) (rows (t_vm_disks db))
  then fk "vm_disks_upper_storage_object_id_fkey"
  else if existsb (fun o => bool_decide (so_parent_id o = Some id) && negb (bool_decide (so_id o = id)))
            (rows (t_storage_objects db))
  then fk "storage_objects_parent_id_fkey"
  else if existsb (fun b => bool_decide (bs_kernel_image_id b = id)) (rows (t_boot_sources db))
  then fk "boot_sources_kernel_image_id_fkey"
  else if existsb (fun b => bool_decide (bs_initrd_image_id b = Some id)) (rows (t_boot_sources db))
  then fk "boot_sources_initrd_image_id_fkey"
  else if existsb (fun t => bool_decide (tpl_root_disk_object_id t = Some id)) (rows (t_vm_templates db))
  then fk "vm_templates_root_disk_object_id_fkey"
  else Ok tt.

Definition forget_object (id : Uuid) (t : Transfer) : Transfer :=
  {| tr_id := tr_id t; tr_name := tr_name t; tr_transfer_type := tr_transfer_type t;
     tr_status := tr_status t; tr_source := tr_source t;
     tr_storage_pool_id := tr_storage_pool_id t; tr_object_type := tr_object_type t;
     tr_storage_object_id := if bool_decide (tr_storage_object_id t = Some id) then None
                             else tr_storage_object_id t;
     tr_total_bytes := tr_total_bytes t; tr_transferred_bytes := tr_transferred_bytes t;
     tr_error_message := tr_error_message t; tr_created_at := tr_created_at t;
     tr_updated_at := tr_updated_at t; tr_started_at := tr_started_at t;
     tr_completed_at := tr_completed_at t |}.

(** Snapshots and backups of the object go with it, transfers forget it. *)
Definition object_cascade (id : Uuid) (db : Db) : Db :=
  let snapshot_gone s := match t_vm_snapshots db !! s with
                         | Some sn => bool_decide (sn_storage_object_id sn = id)
                         | None => false end in
  with_transfers (fmap (forget_object id))
    (with_backups (keep (fun b => negb (bool_decide (bk_storage_object_id b = id)
        || match bk_snapshot_id b with Some s => snapshot_gone s | None => false end)))
    (with_vm_snapshots (keep (fun s => negb (bool_decide (sn_storage_object_id s = id)))) db)).

Definition delete_object_row (id : Uuid) (t : Z) (db : Db) : result SqlxError Db :=
  match t_storage_objects db !! id with
  | None => Ok db
  | Some o =>
      _ ← object_references id db;
      let db := object_cascade id (with_storage_objects (delete id) db) in
      db ← adjust_storage_pool_allocation (so_storage_pool_id o) (- Z.max (so_size_bytes o) 0) db;
      queue_storage_cleanup o t db
  end.

Definition set_object_size (n : Z) (o : StorageObject) : StorageObject :=
  {| so_id := so_id o; so_name := so_name o; so_storage_pool_id := so_storage_pool_id o;
     so_object_type := so_object_type o; so_size_bytes := n; so_config := so_config o;
     so_parent_id := so_parent_id o; so_managed_host_ids := so_managed_host_ids o |}.

Definition resize_object_row (id : Uuid) (n : Z) (db : Db) : result SqlxError Db :=
  match t_storage_objects db !! id with
  | None => Ok db
  | Some o =>
      if n <? 0
      then Err (Database (Some "23514"%string) (Some "storage_object_size_nonnegative"%string))
      else adjust_storage_pool_allocation (so_storage_pool_id o) (n - Z.max (so_size_bytes o) 0)
             (with_storage_objects (insert id (set_object_size n o)) db)
  end.

Definition set_object_config (c : json) (o : StorageObject) : StorageObject :=
  {| so_id := so_id o; so_name := so_name o; so_storage_pool_id := so_storage_pool_id o;
     so_object_type := so_object_type o; so_size_bytes := so_size_bytes o; so_config := c;
     so_parent_id := so_parent_id o; so_managed_host_ids := so_managed_host_ids o |}.

Definition unit_result {A} (r : result SqlxError A) : result SqlxError (A * unit) :=
  a ← r; Ok (a, tt).

Section objects.
Context `{UuidText} {coll : Collation}.

Definition list_objects (name_filter : option string) (pool_id_filter : option Uuid)
    (type_filter : option StorageObjectType) : M SqlxError (list StorageObject) :=
  query Pool (fun db => Ok (List.filter (fun o =>
    (match name_filter with None => true | Some n => String.eqb (so_name o) n end)
    && (match pool_id_filter with None => true | Some p => bool_decide (so_storage_pool_id o = p) end)
    && (match type_filter with None => true | Some t => bool_decide (so_object_type o = t) end))
    (rows (t_storage_objects db)))).

(** [SELECT ... FOR UPDATE]. *)
Definition get_object_for_update (object_id : Uuid) : M SqlxError StorageObject :=
  query Tx (fun db => fetch_one (t_storage_objects db !! object_id)).

(** Where a pool keeps the files of an object. *)
Definition object_base (storage_pool : StoragePool) (pool_id id : Uuid) : option string :=
  match sp_pool_type storage_pool with
  | Local => (fun base => base +:+ "/" +:+ uuid_to_string id)
               <$> (json_get (sp_config storage_pool) "path" ≫= json_as_str)
  | Nfs => Some ("/var/lib/qarax/pools/" +:+ uuid_to_string pool_id +:+ "/" +:+ uuid_to_string id)
  | _ => None
  end.

Definition upper_config (base : string) : json :=
  JObject (<["upper_data"%string := JString (base +:+ ".upper.data")]>
          (<["upper_index"%string := JString (base +:+ ".upper.index")]> ∅)).

Definition path_config (t : StorageObjectType) (base : string) : json :=
  JObject {["path"%string := JString (if bool_decide (t = DatabaseBackup)
                                      then base +:+ ".dump" else base)]}.

Definition lun_config (storage_pool : StoragePool) (config : json) : json :=
  let text k := JString (default ""%string (json_get (sp_config storage_pool) k ≫= json_as_str)) in
  JObject (<["portal"%string := text "portal"%string]>
          (<["iqn"%string := text "iqn"%string]>
          (<["lun"%string := JNumber (default 0 (json_get config "lun" ≫= json_as_i64))]> ∅))).

Definition absent (config : json) (k : string) : bool :=
  match json_get config k with Some _ => false | None => true end.

(** The configuration the object is stored with; a pool that cannot be read
    leaves the caller's configuration. *)
Definition derive_config (new_object : NewStorageObject) (pool_id id : Uuid) : M SqlxError json :=
  let config := no_config new_object in
  let t := no_object_type new_object in
  if bool_decide (t = OverlaybdUpper) && absent config "upper_data" then
    p ← attempt (get_pool pool_id);
    mret (match p with
          | Ok p => match object_base p pool_id id with
                    | Some base => upper_config base
                    | None => config
                    end
          | Err _ => config
          end)
  else if bool_decide (t ∈ [Disk; Snapshot; DatabaseBackup])
          && absent config "path" && absent config "lun" then
    p ← attempt (get_pool pool_id);
    mret (match p with
          | Ok p => match object_base p pool_id id with
                    | Some base => path_config t base
                    | None => config
                    end
          | Err _ => config
          end)
  else if bool_decide (t = Disk) && negb (absent config "lun") then
    p ← attempt (get_pool pool_id);
    mret (match p with
          | Ok p => if bool_decide (sp_pool_type p = Block) then lun_config p config else config
          | Err _ => config
          end)
  else mret config.

Definition resolve_new_object (new_object : NewStorageObject) : M SqlxError (Uuid * Uuid * json) :=
  pool_id ← (match no_storage_pool_id new_object with
             | Some id => mret id
             | None => p ← pick_active; of_result (ok_or RowNotFound p)
             end);
  id ← new_uuid;
  config ← derive_config new_object pool_id id;
  mret (id, pool_id, config).

Definition object_row (id pool_id : Uuid) (new_object : NewStorageObject) (config : json)
    (managed_host_ids : option (list Uuid)) : StorageObject :=
  {| so_id := id; so_name := no_name new_object; so_storage_pool_id := pool_id;
     so_object_type := no_object_type new_object; so_size_bytes := no_size_bytes new_object;
     so_config := config; so_parent_id := no_parent_id new_object;
     so_managed_host_ids := managed_host_ids |}.

Definition insert_object (new_object : NewStorageObject) (managed_host_ids : option (list Uuid))
  : M SqlxError StorageObject :=
  '(id, pool_id, config) ← resolve_new_object new_object;
  let r := object_row id pool_id new_object config managed_host_ids in
  _ ← execute Pool (fun db => unit_result (insert_object_row r db));
  mret r.

Definition create_returning (new_object : NewStorageObject) : M SqlxError StorageObject :=
  insert_object new_object None.
Definition create_object (new_object : NewStorageObject) : M SqlxError Uuid :=
  o ← create_returning new_object; mret (so_id o).
Definition create_managed_returning (new_object : NewStorageObject) (host_id : Uuid)
  : M SqlxError StorageObject :=
  insert_object new_object (Some [host_id]).
Definition create_managed (new_object : NewStorageObject) (host_id : Uuid) : M SqlxError Uuid :=
  o ← create_managed_returning new_object host_id; mret (so_id o).

Definition delete_object (object_id : Uuid) : M SqlxError unit :=
  t ← now;
  execute Pool (fun db => unit_result (delete_object_row object_id t db)).

Definition update_object_config (object_id : Uuid) (config : json) : M SqlxError unit :=
  execute Pool (fun db => Ok (with_storage_objects (alter (set_object_config config) object_id) db, tt)).

Definition update_size_on (c : Conn) (object_id : Uuid) (size_bytes : Z) : M SqlxError unit :=
  execute c (fun db => unit_result (resize_object_row object_id size_bytes db)).
Definition update_size_bytes := update_size_on Pool.
Definition update_size_bytes_tx := update_size_on Tx.

Definition get_path_from_config (config : json) : option string :=
  json_get config "path" ≫= json_as_str.

(** ** Cleanup of files *)

(** The text of a failed [delete_storage_files], the timeout included. *)
Variable cleanup_error : RpcOutcome -> string.

(** The call refuses pools that hold no files before it contacts the node. *)
Definition delete_storage_files (host : Host) (storage_pool : StoragePool) (object_id : Uuid)
    (upper_layer : bool) : M SqlxError (result string unit) :=
  match sp_pool_type storage_pool with
  | Local | Nfs =>
      r ← rpc host (DeleteStorageFiles (sp_id storage_pool) object_id upper_layer);
      mret (match r with RpcOk => Ok tt | _ => Err (cleanup_error r) end)
  | _ => mret (Err "File cleanup requires a Local or NFS pool"%string)
  end.

(** The loop over the hosts: [hosts] are still to be asked, [remaining] still
    hold the files. *)
Fixpoint clean_hosts (storage_pool : StoragePool) (object_id : Uuid) (upper_layer shared : bool)
    (hosts remaining : list Uuid) (last_error : string) : M SqlxError (list Uuid * string * bool) :=
  match hosts with
  | [] => mret (remaining, last_error, false)
  | host_id :: hosts' =>
      host ← get_by_id host_id;
      match host with
      | None => clean_hosts storage_pool object_id upper_layer shared hosts' remaining
                  ("Cleanup host " +:+ uuid_to_string host_id +:+ " no longer exists")
      | Some host =>
          r ← delete_storage_files host storage_pool object_id upper_layer;
          match r with
          | Ok _ =>
              let remaining' := List.filter (fun id => negb (bool_decide (id = host_id))) remaining in
              if shared || bool_decide (remaining' = []) then mret (remaining', last_error, true)
              else clean_hosts storage_pool object_id upper_layer shared hosts' remaining' last_error
          | Err err => clean_hosts storage_pool object_id upper_layer shared hosts' remaining err
          end
      end
  end.

Definition retry_cleanup (remaining : list Uuid) (err : string) (t : Z) (c : StorageCleanup)
  : StorageCleanup :=
  {| sc_object_id := sc_object_id c; sc_pool_id := sc_pool_id c;
     sc_upper_layer := sc_upper_layer c; sc_size_bytes := sc_size_bytes c;
     sc_host_ids := remaining; sc_attempts := sc_attempts c + 1; sc_last_error := Some err;
     sc_next_attempt_at := t + 30 |}.

(** [DELETE FROM storage_cleanup] with its trigger. *)
Definition release_storage_cleanup (object_id : Uuid) (db : Db) : result SqlxError Db :=
  match t_storage_cleanup db !! object_id with
  | None => Ok db
  | Some c => adjust_storage_pool_allocation (sc_pool_id c) (- sc_size_bytes c)
                (with_storage_cleanup (delete object_id) db)
  end.

Definition process_body (object_id : Uuid) : M SqlxError (bool * bool) :=
  task ← query Tx (fun db => Ok (t_storage_cleanup db !! object_id));
  match task with
  | None => mret (false, true)
  | Some task =>
      storage_pool ← get_pool (sc_pool_id task);
      let shared := bool_decide (sp_pool_type storage_pool = Nfs) in
      remaining ← (if shared || bool_decide (sc_host_ids task = [])
                   then list_host_ids (sc_pool_id task) else mret (sc_host_ids task));
      '(remaining, last_error, completed) ← clean_hosts storage_pool object_id
        (sc_upper_layer task) shared remaining remaining
        "No node is available to clean up this pool";
      _ ← (if (completed : bool)
           then execute Tx (fun db => unit_result (release_storage_cleanup object_id db))
           else t ← now;
                execute Tx (fun db => Ok (with_storage_cleanup
                  (alter (retry_cleanup remaining last_error t) object_id) db, tt)));
      mret (true, completed)
  end.

Definition process (object_id : Uuid) : M SqlxError bool :=
  in_tx_opt (fun e => e) (process_body object_id).

(** One tick of the worker: up to a hundred entries that are due. *)
Definition due_cleanups (t : Z) (db : Db) : list Uuid :=
  sc_object_id <$> take 100 (merge_sort (on_key Z.le sc_next_attempt_at)
    (List.filter (fun c => sc_next_attempt_at c <=? t) (rows (t_storage_cleanup db)))).

Definition cleanup_tick : M SqlxError unit :=
  t ← now;
  ids ← attempt (query Pool (fun db => Ok (due_cleanups t db)));
  match ids with
  | Ok ids => for_all_m (fun id => _ ← attempt (process id); mret tt) ids
  | Err _ => mret tt
  end.

(** [DELETE /storage-objects/{id}]: refused while a job on the object runs;
    [true] when the files are gone. *)
Definition delete_storage_object (object_id : Uuid) : M Error bool :=
  creating ← sqlx_q (query Pool (fun db => Ok (existsb (fun j =>
    bool_decide (j_resource_id j = Some object_id)
    && bool_decide (j_status j ∈ [JobPending; JobRunning])) (rows (t_jobs db)))));
  if (creating : bool) then throw (Conflict "Storage object is still being created")
  else
    _ ← sqlx_q (delete_object object_id);
    sqlx_q (process object_id).
End objects.

(** ** The ledger *)

Record Account := { ac_used : Z; ac_limit : option Z }.
Abbreviation ledger := (gmap Uuid Account).

Definition fits (n : Z) (limit : option Z) : Prop :=
  match limit with None => True | Some c => n <= c end.

Definition post (p : Uuid) (n : Z) (a : Account) (l : ledger) : ledger :=
  <[p := {| ac_used := n; ac_limit := ac_limit a |}]> l.

Inductive ledger_step : relation ledger :=
| step_reserve l p a n :
    l !! p = Some a -> 0 <= n -> (n = 0 \/ fits (ac_used a + n) (ac_limit a)) ->
    ledger_step l (post p (ac_used a + n) a l)
| step_release l p a n :
    l !! p = Some a -> 0 <= n <= ac_used a -> ledger_step l (post p (ac_used a - n) a l)
| step_open l p limit :
    l !! p = None -> ledger_step l (<[p := {| ac_used := 0; ac_limit := limit |}]> l)
| step_close l p a :
    l !! p = Some a -> ac_used a = 0 -> ledger_step l (delete p l).

(** The bytes an object or a cleanup entry holds in pool [p]. *)
Definition object_bytes (p : Uuid) (o : StorageObject) : Z :=
  if decide (so_storage_pool_id o = p) then so_size_bytes o else 0.
Definition cleanup_bytes (p : Uuid) (c : StorageCleanup) : Z :=
  if decide (sc_pool_id c = p) then sc_size_bytes c else 0.
Definition used (p : Uuid) (db : Db) : Z :=
  sum_of (object_bytes p) (t_storage_objects db) + sum_of (cleanup_bytes p) (t_storage_cleanup db).

Definition ledger_of (db : Db) : ledger :=
  map_imap (fun p sp => Some {| ac_used := used p db; ac_limit := sp_capacity_bytes sp |})
    (t_storage_pools db).

(** The stored counter of every pool is what its objects and cleanups hold. *)
Definition objects_ok (db : Db) : Prop :=
  map_Forall (fun k o => so_id o = k /\ 0 <= so_size_bytes o /\
    is_Some (t_storage_pools db !! so_storage_pool_id o)) (t_storage_objects db) /\
  map_Forall (fun _ c => 0 <= sc_size_bytes c /\ is_Some (t_storage_pools db !! sc_pool_id c))
    (t_storage_cleanup db).
Definition counters_ok (db : Db) : Prop :=
  map_Forall (fun p sp => sp_allocated_bytes sp = Some (used p db)) (t_storage_pools db).
Definition accounted (db : Db) : Prop := objects_ok db /\ counters_ok db.

(** Refinement: a step of the tables is a sequence of steps of the ledger. *)
Definition refines (db db' : Db) : Prop :=
  accounted db -> accounted db' /\ rtc ledger_step (ledger_of db) (ledger_of db').
#[global] Instance refines_preorder : PreOrder refines.
Proof.
  split; [by intros db|]. intros a b c H1 H2 Ha. destruct (H1 Ha) as [Hb R1].
  destruct (H2 Hb) as [Hc R2]. split; [done|by etransitivity].
Qed.

Lemma used_nonneg p db : objects_ok db -> 0 <= used p db.
Proof.
  intros [Ho Hc]. unfold used.
  assert (0 <= sum_of (object_bytes p) (t_storage_objects db)).
  { apply sum_of_nonneg. intros k o Hk. unfold object_bytes. destruct (decide _); [|done].
    by apply (Ho k o). }
  assert (0 <= sum_of (cleanup_bytes p) (t_storage_cleanup db)); [|lia].
  apply sum_of_nonneg. intros k c Hk. unfold cleanup_bytes. destruct (decide _); [|done].
  by apply (Hc k c).
Qed.

Lemma lookup_ledger p db :
  ledger_of db !! p
  = (fun sp => {| ac_used := used p db; ac_limit := sp_capacity_bytes sp |}) <$> t_storage_pools db !! p.
Proof. unfold ledger_of. rewrite map_lookup_imap. by destruct (t_storage_pools db !! p). Qed.

(** A statement that touches none of the three tables. *)
Lemma refines_frame db db' :
  t_storage_pools db' = t_storage_pools db -> t_storage_objects db' = t_storage_objects db ->
  t_storage_cleanup db' = t_storage_cleanup db -> refines db db'.
Proof.
  intros P O C [Hrows Hcount].
  assert (forall p, used p db' = used p db) as U by (intros p; unfold used; by rewrite O, C).
  split.
  - split; [unfold objects_ok; by rewrite P, O, C|]. intros p sp. rewrite P, U. apply Hcount.
  - assert (ledger_of db' = ledger_of db) as ->; [|done].
    apply map_eq. intros p. by rewrite !lookup_ledger, U, P.
Qed.

(** A pool whose counter was set to what it now holds, nothing else changed. *)
Lemma settle db db' p sp n :
  accounted db -> t_storage_pools db !! p = Some sp ->
  t_storage_pools db' = <[p := set_allocated n sp]> (t_storage_pools db) ->
  used p db' = n -> (forall q, q <> p -> used q db' = used q db) -> objects_ok db' ->
  accounted db' /\
  ledger_of db' = <[p := {| ac_used := n; ac_limit := sp_capacity_bytes sp |}]> (ledger_of db).
Proof.
  intros [_ Hcount] Hp P Up Uq Hrows. split.
  - split; [done|]. intros q sq. rewrite P. destruct (decide (q = p)) as [->|Hne].
    + rewrite lookup_insert_eq. intros [= <-]. simpl. by rewrite Up.
    + rewrite lookup_insert_ne by done. rewrite Uq by done. apply Hcount.
  - apply map_eq. intros q. rewrite lookup_ledger, P. destruct (decide (q = p)) as [->|Hne].
    + by rewrite !lookup_insert_eq; simpl; rewrite Up.
    + rewrite !lookup_insert_ne by done. rewrite lookup_ledger. by rewrite Uq.
Qed.

(** The pools after a statement on objects still serve the rows. *)
Lemma pools_some (p : Uuid) (x : StoragePool) (pools : gmap Uuid StoragePool) q :
  is_Some (pools !! q) -> is_Some (<[p := x]> pools !! q).
Proof. intros Hq. destruct (decide (q = p)) as [->|]; [by rewrite lookup_insert_eq|by rewrite lookup_insert_ne]. Qed.

Lemma store_allocated_inv p n sp db db' :
  store_allocated p n sp db = Ok db' ->
  0 <= n /\ db' = with_storage_pools (insert p (set_allocated n sp)) db.
Proof.
  unfold store_allocated. destruct (negb _); [done|]. destruct (Z.ltb_spec n 0); [done|].
  intros [= <-]. split; [lia|done].
Qed.

Lemma adjust_inv p delta db db' :
  adjust_storage_pool_allocation p delta db = Ok db' ->
  exists sp n, t_storage_pools db !! p = Some sp /\ sp_allocated_bytes sp = Some n /\
    0 <= n + delta /\ (delta <= 0 \/ fits (n + delta) (sp_capacity_bytes sp)) /\
    db' = with_storage_pools (insert p (set_allocated (n + delta) sp)) db.
Proof.
  unfold adjust_storage_pool_allocation.
  destruct (t_storage_pools db !! p) as [sp|] eqn:Hp; [|done].
  destruct (sp_allocated_bytes sp) as [n|] eqn:Hn; [|done].
  destruct ((delta <=? 0) || _) eqn:Hc; [|done]. intros [Hpos ->]%store_allocated_inv.
  exists sp, n. split_and!; try done.
  apply orb_true_iff in Hc as [?%Z.leb_le|Hc]; [by left|]. right. unfold fits.
  destruct (sp_capacity_bytes sp); [by apply Z.leb_le|done].
Qed.

Lemma object_bytes_same o : object_bytes (so_storage_pool_id o) o = so_size_bytes o.
Proof. unfold object_bytes. by rewrite decide_True. Qed.
Lemma object_bytes_other p o : p <> so_storage_pool_id o -> object_bytes p o = 0.
Proof. intros Hne. unfold object_bytes. by rewrite decide_False. Qed.
Lemma cleanup_bytes_same c : cleanup_bytes (sc_pool_id c) c = sc_size_bytes c.
Proof. unfold cleanup_bytes. by rewrite decide_True. Qed.
Lemma cleanup_bytes_other p c : p <> sc_pool_id c -> cleanup_bytes p c = 0.
Proof. intros Hne. unfold cleanup_bytes. by rewrite decide_False. Qed.

Lemma counter p sp n db :
  accounted db -> t_storage_pools db !! p = Some sp -> sp_allocated_bytes sp = Some n -> n = used p db.
Proof. intros [_ Hc] Hp Hn. specialize (Hc p sp Hp). simpl in Hc. congruence. Qed.

(** The ledger step of a counter that moved from what was used to [n]. *)
Lemma post_step db p sp n :
  accounted db -> t_storage_pools db !! p = Some sp -> 0 <= n ->
  (n <= used p db \/ fits n (sp_capacity_bytes sp)) ->
  ledger_step (ledger_of db)
    (<[p := {| ac_used := n; ac_limit := sp_capacity_bytes sp |}]> (ledger_of db)).
Proof.
  intros [Hrows _] Hp Hn Hfit. pose proof (used_nonneg p db Hrows) as Hpos.
  assert (ledger_of db !! p = Some {| ac_used := used p db; ac_limit := sp_capacity_bytes sp |}) as Hl
    by (by rewrite lookup_ledger, Hp).
  destruct (decide (n <= used p db)) as [Hle|Hgt].
  - pose proof (step_release _ _ _ (used p db - n) Hl) as Hs. unfold post in Hs. simpl in Hs.
    replace (used p db - (used p db - n)) with n in Hs by lia. apply Hs. lia.
  - pose proof (step_reserve _ _ _ (n - used p db) Hl) as Hs. unfold post in Hs. simpl in Hs.
    replace (used p db + (n - used p db)) with n in Hs by lia.
    apply Hs; [lia|]. right. destruct Hfit; [lia|done].
Qed.

Lemma refines_post db db' p sp n :
  accounted db -> t_storage_pools db !! p = Some sp ->
  t_storage_pools db' = <[p := set_allocated n sp]> (t_storage_pools db) ->
  0 <= n -> (n <= used p db \/ fits n (sp_capacity_bytes sp)) ->
  used p db' = n -> (forall q, q <> p -> used q db' = used q db) -> objects_ok db' ->
  accounted db' /\ rtc ledger_step (ledger_of db) (ledger_of db').
Proof.
  intros Ha Hp P Hn Hfit Up Uq Hrows.
  destruct (settle db db' p sp n Ha Hp P Up Uq Hrows) as [Ha' ->]. split; [done|].
  by apply rtc_once, post_step.
Qed.

Lemma insert_object_refines r db db' : insert_object_row r db = Ok db' -> refines db db'.
Proof.
  unfold insert_object_row. intros ([]&Hcon&Hrun)%result_bind_ok Ha.
  apply result_bind_ok in Hrun as (objects&Hins&Hrun). unfold insert_pk in Hins.
  destruct (t_storage_objects db !! so_id r) eqn:Hk; [done|]. injection Hins as <-.
  assert (0 <= so_size_bytes r) as Hpos.
  { unfold object_constraints in Hcon. destruct (_ <? _); [done|].
    by destruct (Z.ltb_spec (so_size_bytes r) 0); [|lia]. }
  apply adjust_inv in Hrun as (sp&n&Hp&Hn&Hge&Hfit&->). simpl in *.
  rewrite (counter _ _ _ _ Ha Hp Hn) in *.
  assert (forall q, used q (with_storage_pools (insert (so_storage_pool_id r)
      (set_allocated (used (so_storage_pool_id r) db + so_size_bytes r) sp))
      (with_storage_objects (fun _ => <[so_id r := r]> (t_storage_objects db)) db))
    = used q db + object_bytes q r) as U.
  { intros q. unfold used. simpl. rewrite sum_of_insert by done. lia. }
  eapply (refines_post _ _ (so_storage_pool_id r) sp); [done|done|done|done| | | |].
  - destruct Hfit as [?|?]; [left; lia|by right].
  - by rewrite U, object_bytes_same.
  - intros q Hq. rewrite U, object_bytes_other by done. lia.
  - destruct Ha as [[Ho Hc] _]. split; simpl.
    + apply map_Forall_insert_2.
      * split_and!; [done|done|]. by rewrite lookup_insert_eq.
      * eapply map_Forall_impl; [exact Ho|]. intros k o (?&?&?). split_and!; [done|done|by apply pools_some].
    + eapply map_Forall_impl; [exact Hc|]. intros k o (?&?). split; [done|by apply pools_some].
Qed.

Lemma resize_object_refines id n db db' : resize_object_row id n db = Ok db' -> refines db db'.
Proof.
  unfold resize_object_row. destruct (t_storage_objects db !! id) as [o|] eqn:Hk;
    [|by intros [= <-]]. destruct (Z.ltb_spec n 0) as [|Hn0]; [done|]. intros Hrun Ha.
  pose proof Ha as [[Ho Hc] _]. destruct (Ho _ _ Hk) as (Hid&Hsize&_). simpl in Hsize.
  apply adjust_inv in Hrun as (sp&m&Hp&Hm&Hge&Hfit&->). simpl in *.
  rewrite (counter _ _ _ _ Ha Hp Hm) in *. rewrite Z.max_l in * by done.
  assert (forall q, used q (with_storage_pools (insert (so_storage_pool_id o)
      (set_allocated (used (so_storage_pool_id o) db + (n - so_size_bytes o)) sp))
      (with_storage_objects (insert id (set_object_size n o)) db))
    = used q db - object_bytes q o + object_bytes q (set_object_size n o)) as U.
  { intros q. unfold used. simpl. rewrite (sum_of_replace _ _ _ o) by done. lia. }
  eapply (refines_post _ _ (so_storage_pool_id o) sp); [done|done|done|done| | | |].
  - destruct Hfit as [?|?]; [left; lia|by right].
  - rewrite U, object_bytes_same. unfold object_bytes. simpl. rewrite decide_True by done. lia.
  - intros q Hq. rewrite U, !object_bytes_other by done. lia.
  - split; simpl.
    + apply map_Forall_insert_2.
      * split_and!; [done|done|]. simpl. by rewrite lookup_insert_eq.
      * eapply map_Forall_impl; [exact Ho|]. intros k x (?&?&?). split_and!; [done|done|by apply pools_some].
    + eapply map_Forall_impl; [exact Hc|]. intros k x (?&?). split; [done|by apply pools_some].
Qed.

Lemma release_cleanup_refines id db db' : release_storage_cleanup id db = Ok db' -> refines db db'.
Proof.
  unfold release_storage_cleanup. destruct (t_storage_cleanup db !! id) as [c|] eqn:Hk;
    [|by intros [= <-]]. intros Hrun Ha.
  pose proof Ha as [[Ho Hc] _]. destruct (Hc _ _ Hk) as [Hsize _]. simpl in Hsize.
  apply adjust_inv in Hrun as (sp&m&Hp&Hm&Hge&Hfit&->). simpl in *.
  rewrite (counter _ _ _ _ Ha Hp Hm) in *.
  assert (forall q, used q (with_storage_pools (insert (sc_pool_id c)
      (set_allocated (used (sc_pool_id c) db + - sc_size_bytes c) sp))
      (with_storage_cleanup (delete id) db))
    = used q db - cleanup_bytes q c) as U.
  { intros q. unfold used. simpl. rewrite (sum_of_delete _ (t_storage_cleanup db) _ c) by done. lia. }
  eapply (refines_post _ _ (sc_pool_id c) sp); [done|done|done|done| | | |].
  - left. lia.
  - rewrite U, cleanup_bytes_same. lia.
  - intros q Hq. rewrite U, cleanup_bytes_other by done. lia.
  - split; simpl.
    + eapply map_Forall_impl; [exact Ho|]. intros k x (?&?&?). split_and!; [done|done|by apply pools_some].
    + apply map_Forall_delete. eapply map_Forall_impl; [exact Hc|].
      intros k x (?&?). split; [done|by apply pools_some].
Qed.

(** Deleting an object: its bytes are released, or, when its files are managed,
    move to the cleanup entry. *)
Lemma delete_object_refines id t db db' : delete_object_row id t db = Ok db' -> refines db db'.
Proof.
  unfold delete_object_row. destruct (t_storage_objects db !! id) as [o|] eqn:Hk;
    [|by intros [= <-]]. intros ([]&_&Hrun)%result_bind_ok Ha.
  apply result_bind_ok in Hrun as (db1&Hadj&Hrun).
  pose proof Ha as [[Ho Hc] _]. destruct (Ho _ _ Hk) as (Hid&Hsize&_). simpl in Hsize.
  apply adjust_inv in Hadj as (sp&m&Hp&Hm&Hge&_&->). simpl in *.
  rewrite (counter _ _ _ _ Ha Hp Hm) in *. rewrite Z.max_l in * by done.
  set (p := so_storage_pool_id o) in *.
  unfold queue_storage_cleanup in Hrun. destruct (so_managed_host_ids o) as [managed|].
  - apply result_bind_ok in Hrun as (cleanups&Hins&Hrun). unfold insert_pk in Hins. simpl in Hins.
    destruct (t_storage_cleanup db !! so_id o) eqn:Hsc; [done|]. injection Hins as <-.
    simpl in Hrun. fold p in Hrun. rewrite lookup_insert_eq in Hrun. simpl in Hrun.
    apply store_allocated_inv in Hrun as [Hpos ->]. rewrite Z.max_l in * by done.
    match goal with |- accounted ?d /\ _ => set (db' := d) end.
    assert (forall q, used q db' = used q db) as U.
    { intros q. unfold used, db'. simpl. rewrite sum_of_insert by done.
      rewrite (sum_of_delete _ (t_storage_objects db) _ o) by done.
      unfold cleanup_bytes, object_bytes. simpl. rewrite Z.max_l by done. lia. }
    eapply (refines_post _ _ p sp (used p db)); [done|done| | | | | |].
    + simpl. rewrite insert_insert_eq. f_equal. unfold set_allocated. simpl. f_equal. f_equal. lia.
    + by apply used_nonneg.
    + by left.
    + apply U.
    + intros q _. apply U.
    + split; simpl.
      * apply map_Forall_delete. eapply map_Forall_impl; [exact Ho|]. intros k x (?&?&?).
        split_and!; [done|done|by apply pools_some, pools_some].
      * apply map_Forall_insert_2; simpl; [split; [lia|by apply pools_some, pools_some]|].
        eapply map_Forall_impl; [exact Hc|]. intros k x (?&?).
        split; [done|by apply pools_some, pools_some].
  - injection Hrun as <-.
    match goal with |- accounted ?d /\ _ => set (db' := d) end.
    assert (forall q, used q db' = used q db - object_bytes q o) as U.
    { intros q. unfold used, db'. simpl.
      rewrite (sum_of_delete _ (t_storage_objects db) _ o) by done. lia. }
    eapply (refines_post _ _ p sp); [done|done|done|done| | | |].
    + left. lia.
    + rewrite U. unfold p. rewrite object_bytes_same. lia.
    + intros q Hq. rewrite U, object_bytes_other by done. lia.
    + split; simpl.
      * apply map_Forall_delete. eapply map_Forall_impl; [exact Ho|]. intros k x (?&?&?).
        split_and!; [done|done|by apply pools_some].
      * eapply map_Forall_impl; [exact Hc|]. intros k x (?&?). split; [done|by apply pools_some].
Qed.

Lemma used_with_pools f p db : used p (with_storage_pools f db) = used p db.
Proof. done. Qed.

Lemma new_pool_refines id sp db :
  t_storage_pools db !! id = None -> sp_allocated_bytes sp = Some 0 ->
  refines db (with_storage_pools (fun _ => <[id := sp]> (t_storage_pools db)) db).
Proof.
  intros Hid Hsp [[Ho Hc] Hcount].
  assert (used id db = 0) as Hused.
  { unfold used. rewrite !sum_of_zero; [done| |].
    - intros k c Hk. apply cleanup_bytes_other. destruct (Hc k c Hk) as [_ [? Hx]]. congruence.
    - intros k o Hk. apply object_bytes_other. destruct (Ho k o Hk) as (_&_&[? Hx]). congruence. }
  split.
  - split; [split|].
    + eapply map_Forall_impl; [exact Ho|]. intros k x (?&?&?). split_and!; [done|done|by apply pools_some].
    + eapply map_Forall_impl; [exact Hc|]. intros k x (?&?). split; [done|by apply pools_some].
    + apply map_Forall_insert_2; [|done]. rewrite used_with_pools, Hused. exact Hsp.
  - assert (ledger_of (with_storage_pools (fun _ => <[id := sp]> (t_storage_pools db)) db)
      = <[id := {| ac_used := 0; ac_limit := sp_capacity_bytes sp |}]> (ledger_of db)) as ->.
    { apply map_eq. intros q. rewrite lookup_ledger. simpl. rewrite used_with_pools.
      destruct (decide (q = id)) as [->|Hne].
      - rewrite !lookup_insert_eq. simpl. by rewrite Hused.
      - rewrite !lookup_insert_ne by done. by rewrite lookup_ledger. }
    apply rtc_once, step_open. by rewrite lookup_ledger, Hid.
Qed.

Lemma drop_pool_refines id db db' :
  existsb (fun o => bool_decide (so_storage_pool_id o = id)) (rows (t_storage_objects db)) = false ->
  existsb (fun c => bool_decide (sc_pool_id c = id)) (rows (t_storage_cleanup db)) = false ->
  t_storage_pools db' = delete id (t_storage_pools db) ->
  t_storage_objects db' = t_storage_objects db -> t_storage_cleanup db' = t_storage_cleanup db ->
  refines db db'.
Proof.
  intros Hno Hnc P O C [[Ho Hc] Hcount].
  assert (forall k o, t_storage_objects db !! k = Some o -> so_storage_pool_id o <> id) as Ho'.
  { intros k o Hk. pose proof (existsb_rows_false _ _ _ _ Hno Hk) as Hx.
    by apply bool_decide_eq_false in Hx. }
  assert (forall k c, t_storage_cleanup db !! k = Some c -> sc_pool_id c <> id) as Hc'.
  { intros k c Hk. pose proof (existsb_rows_false _ _ _ _ Hnc Hk) as Hx.
    by apply bool_decide_eq_false in Hx. }
  assert (forall q, used q db' = used q db) as U by (intros q; unfold used; by rewrite O, C).
  split.
  - split; [split|]; rewrite ?O, ?C, ?P.
    + intros k o Hk. destruct (Ho k o Hk) as (?&?&?). split_and!; [done|done|].
      rewrite ?P, lookup_delete_ne; [done|]. intros ->. by apply (Ho' k o Hk).
    + intros k c Hk. destruct (Hc k c Hk) as (?&?). split; [done|].
      rewrite ?P, lookup_delete_ne; [done|]. intros ->. by apply (Hc' k c Hk).
    + intros q sp. rewrite ?P. intros [Hne Hq]%lookup_delete_Some. rewrite U. by apply Hcount.
  - destruct (t_storage_pools db !! id) as [sp|] eqn:Hid.
    + assert (ledger_of db' = delete id (ledger_of db)) as ->.
      { apply map_eq. intros q. rewrite lookup_ledger, P, U. destruct (decide (q = id)) as [->|Hne].
        - by rewrite !lookup_delete_eq.
        - rewrite !lookup_delete_ne by done. by rewrite lookup_ledger. }
      apply rtc_once. eapply step_close; [by rewrite lookup_ledger, Hid|]. simpl.
      unfold used. rewrite !sum_of_zero; [done| |].
      * intros k c Hk. apply cleanup_bytes_other. intros ->. by apply (Hc' k c Hk).
      * intros k o Hk. apply object_bytes_other. intros ->. by apply (Ho' k o Hk).
    + assert (ledger_of db' = ledger_of db) as ->; [|done].
      apply map_eq. intros q. rewrite !lookup_ledger, U, P. by rewrite delete_id.
Qed.

(** A row rewritten without changing what it holds. *)
Lemma sum_of_alter {A} (g : A -> Z) (f : A -> A) (t : gmap Uuid A) k :
  (forall r, g (f r) = g r) -> sum_of g (alter f k t) = sum_of g t.
Proof.
  intros Hg. destruct (t !! k) as [r|] eqn:Hk.
  - rewrite <- (insert_id t k r Hk) at 1. rewrite alter_insert_eq, (sum_of_replace _ _ _ r _ Hk), Hg. lia.
  - by rewrite alter_id; [|congruence].
Qed.

Lemma rewrite_rows_refines fo fc id db :
  (forall o, so_id (fo o) = so_id o /\ so_storage_pool_id (fo o) = so_storage_pool_id o /\
             so_size_bytes (fo o) = so_size_bytes o) ->
  (forall c, sc_pool_id (fc c) = sc_pool_id c /\ sc_size_bytes (fc c) = sc_size_bytes c) ->
  refines db (with_storage_objects (alter fo id) (with_storage_cleanup (alter fc id) db)).
Proof.
  intros Hfo Hfc [[Ho Hc] Hcount].
  assert (forall q, used q (with_storage_objects (alter fo id) (with_storage_cleanup (alter fc id) db))
    = used q db) as U.
  { intros q. unfold used. simpl. rewrite !sum_of_alter; [done| |].
    - intros c. unfold cleanup_bytes. by destruct (Hfc c) as [-> ->].
    - intros o. unfold object_bytes. by destruct (Hfo o) as (_&->&->). }
  split.
  - split; [split|]; simpl.
    + intros k o. rewrite lookup_alter_Some. intros [(->&o'&Hk&->)|[_ Hk]]; [|by apply (Ho k o)].
      destruct (Hfo o') as (->&->&->). by apply (Ho k o').
    + intros k c. rewrite lookup_alter_Some. intros [(->&c'&Hk&->)|[_ Hk]]; [|by apply (Hc k c)].
      destruct (Hfc c') as (->&->). by apply (Hc k c').
    + intros q sp Hq. rewrite U. by apply Hcount.
  - assert (ledger_of (with_storage_objects (alter fo id) (with_storage_cleanup (alter fc id) db))
      = ledger_of db) as ->; [|done]. apply map_eq. intros q. by rewrite !lookup_ledger, U.
Qed.

Lemma alter_same {A} (t : gmap Uuid A) k : alter (fun r => r) k t = t.
Proof. apply alter_id. done. Qed.

Section refinement.
Context `{UuidText} {coll : Collation}.
Variable cleanup_error : RpcOutcome -> string.

Lemma create_pool_refines np : steps (db_moves refines) (create_pool np).
Proof.
  unfold create_pool. apply steps_bind; [apply steps_new_uuid, db_moves_tick|]. intros id.
  apply steps_db_execute. intros db db' a. destruct (existsb _ _); [done|].
  intros (pools&Hins&Heq)%result_bind_ok. unfold insert_pk in Hins.
  destruct (t_storage_pools db !! id) eqn:Hid; [done|]. injection Hins as <-.
  injection Heq as <- <-. by apply new_pool_refines.
Qed.

Lemma delete_pool_refines id : steps (db_moves refines) (delete_pool id).
Proof.
  unfold delete_pool. apply steps_db_execute. intros db db' a.
  destruct (existsb _ (rows (t_storage_objects db))) eqn:Ho; [done|].
  destruct (existsb _ (rows (t_storage_cleanup db))) eqn:Hc; [done|]. intros [= <- <-].
  by apply (drop_pool_refines id).
Qed.

Lemma unit_result_inv {A} (r : result SqlxError A) a u : unit_result r = Ok (a, u) -> r = Ok a.
Proof. destruct r; simpl; congruence. Qed.

Lemma get_pool_reads id : steps same_but_step (get_pool id).
Proof. apply query_same_but_step. Qed.

Lemma derive_config_reads new pool id : steps same_but_step (derive_config new pool id).
Proof. unfold derive_config. steps_tac; apply get_pool_reads. Qed.

Lemma resolve_new_object_reads new : steps same_but_step (resolve_new_object new).
Proof.
  unfold resolve_new_object, pick_active, any_pool. steps_tac. apply derive_config_reads.
Qed.

Lemma insert_object_refines_m new hosts : steps (db_moves refines) (insert_object new hosts).
Proof.
  unfold insert_object. apply steps_bind; [apply steps_db_reads, resolve_new_object_reads|].
  intros [[id pool] config]. apply steps_bind; [|intros ?; apply steps_ret].
  apply steps_db_execute. intros db db' a Heq%unit_result_inv. by eapply insert_object_refines.
Qed.

Lemma delete_object_refines_m id : steps (db_moves refines) (delete_object id).
Proof.
  unfold delete_object. apply steps_bind; [apply steps_now, db_moves_tick|]. intros t.
  apply steps_db_execute. intros db db' a Heq%unit_result_inv. by eapply delete_object_refines.
Qed.

Lemma update_size_refines id n : steps (db_moves refines) (update_size_bytes id n).
Proof.
  apply steps_db_execute. intros db db' a Heq%unit_result_inv. by eapply resize_object_refines.
Qed.

Lemma update_size_tx_refines id n : steps (txdb_moves refines) (update_size_bytes_tx id n).
Proof.
  apply steps_txdb_execute. intros db db' a Heq%unit_result_inv. by eapply resize_object_refines.
Qed.

Lemma update_config_refines id c : steps (db_moves refines) (update_object_config id c).
Proof.
  apply steps_db_execute. intros db db' a [= <- <-].
  pose proof (rewrite_rows_refines (set_object_config c) (fun x => x) id db) as Hr.
  assert (with_storage_objects (alter (set_object_config c) id)
      (with_storage_cleanup (alter (fun x => x) id) db)
    = with_storage_objects (alter (set_object_config c) id) db) as Heq.
  { unfold with_storage_objects, with_storage_cleanup. simpl. f_equal. apply alter_same. }
  rewrite Heq in Hr. apply Hr; done.
Qed.

Lemma clean_hosts_logs pool object upper shared hosts remaining err :
  steps (txdb_moves refines) (clean_hosts cleanup_error pool object upper shared hosts remaining err).
Proof.
  revert remaining err. induction hosts as [|h hosts IH]; intros remaining err; simpl;
    [apply steps_ret|].
  apply steps_bind; [apply steps_query, txdb_moves_tick|]. intros [host|]; [|apply IH].
  apply steps_bind.
  - unfold delete_storage_files. steps_tac.
  - intros [?|?]; [|apply IH]. destruct (_ || _); [apply steps_ret|apply IH].
Qed.

Lemma process_refines id : steps (db_moves refines) (process cleanup_error id).
Proof.
  apply steps_db_in_tx_opt. unfold process_body.
  apply steps_bind; [apply steps_query, txdb_moves_tick|]. intros [task|]; [|apply steps_ret].
  apply steps_bind; [apply steps_query, txdb_moves_tick|]. intros pool.
  apply steps_bind; [destruct (_ || _); [apply steps_query, txdb_moves_tick|apply steps_ret]|].
  intros remaining. apply steps_bind; [apply clean_hosts_logs|]. intros [[remaining' err] [|]];
    (apply steps_bind; [|intros ?; apply steps_ret]).
  - apply steps_txdb_execute. intros db db' a Heq%unit_result_inv. by eapply release_cleanup_refines.
  - apply steps_bind; [apply steps_now, txdb_moves_tick|]. intros t.
    apply steps_txdb_execute. intros db db' a [= <- <-].
    pose proof (rewrite_rows_refines (fun x => x) (retry_cleanup remaining' err t) id db) as Hr.
    assert (with_storage_objects (alter (fun x => x) id)
        (with_storage_cleanup (alter (retry_cleanup remaining' err t) id) db)
      = with_storage_cleanup (alter (retry_cleanup remaining' err t) id) db) as Heq.
    { unfold with_storage_objects, with_storage_cleanup. simpl. f_equal. apply alter_same. }
    rewrite Heq in Hr. apply Hr; done.
Qed.
End refinement.

(** ** Operations *)

Inductive StorageOp : Type :=
| OpCreatePool (np : NewStoragePool) | OpDeletePool (id : Uuid)
| OpCreateObject (new : NewStorageObject) (managed : option (list Uuid))
| OpResize (id : Uuid) (size : Z) | OpSetConfig (id : Uuid) (config : json)
| OpDeleteObject (id : Uuid) | OpCleanup (id : Uuid).

(** An account is within its limit; one that holds nothing always is. *)
Definition sound (a : Account) : Prop := ac_used a = 0 \/ fits (ac_used a) (ac_limit a).
Definition within_capacity (db : Db) : Prop := map_Forall (fun _ a => sound a) (ledger_of db).

Section operations.
Context `{UuidText} {coll : Collation}.
Variable cleanup_error : RpcOutcome -> string.

Definition run_storage_op (op : StorageOp) : M SqlxError unit :=
  match op with
  | OpCreatePool np => _ ← attempt (create_pool np); mret tt
  | OpDeletePool id => _ ← attempt (delete_pool id); mret tt
  | OpCreateObject new managed => _ ← attempt (insert_object new managed); mret tt
  | OpResize id size => _ ← attempt (update_size_bytes id size); mret tt
  | OpSetConfig id config => _ ← attempt (update_object_config id config); mret tt
  | OpDeleteObject id => _ ← attempt (delete_object id); mret tt
  | OpCleanup id => _ ← attempt (process cleanup_error id); mret tt
  end.

Definition run_storage_ops (ops : list StorageOp) : M SqlxError unit :=
  for_all_m run_storage_op ops.

Lemma run_storage_op_refines op : steps (db_moves refines) (run_storage_op op).
Proof.
  destruct op; simpl; (apply steps_bind; [apply steps_attempt|intros ?; apply steps_ret]).
  - apply create_pool_refines.
  - apply delete_pool_refines.
  - apply insert_object_refines_m.
  - apply update_size_refines.
  - apply update_config_refines.
  - apply delete_object_refines_m.
  - apply process_refines.
Qed.

Lemma ledger_step_sound (l l' : ledger) :
  ledger_step l l' -> map_Forall (fun _ a => sound a) l -> map_Forall (fun _ a => sound a) l'.
Proof.
  intros Hs Hl. destruct Hs as [l p a n Hp Hn Hfit|l p a n Hp Hn|l p limit Hp|l p a Hp Ha].
  - apply map_Forall_insert_2; [unfold sound; simpl|done]. pose proof (Hl _ _ Hp) as Ha.
    destruct Hfit as [->|?]; [by rewrite Z.add_0_r|by right].
  - apply map_Forall_insert_2; [unfold sound; simpl|done]. destruct (Hl _ _ Hp) as [Ha|Ha]; [left; lia|].
    right. unfold fits in *. destruct (ac_limit a); [lia|done].
  - apply map_Forall_insert_2; [by left|done].
  - by apply map_Forall_delete.
Qed.

Lemma ledger_steps_sound (l l' : ledger) :
  rtc ledger_step l l' -> map_Forall (fun _ a => sound a) l -> map_Forall (fun _ a => sound a) l'.
Proof. induction 1; eauto using ledger_step_sound. Qed.

(** C8. Every sequence of storage operations (pools created and dropped, objects
    created, resized, reconfigured and deleted, files cleaned up), whatever the
    database refuses and the nodes answer, moves the tables along steps of the
    ledger: the counter of a pool is always what its objects and pending
    cleanups hold, and a pool within its capacity stays within it. *)
Theorem storage_refines_ledger ops o w :
  accounted (w_db w) ->
  let w' := (run_storage_ops ops o w).1 in
  accounted (w_db w') /\ rtc ledger_step (ledger_of (w_db w)) (ledger_of (w_db w')) /\
  (within_capacity (w_db w) -> within_capacity (w_db w')).
Proof.
  intros Ha. assert (steps (db_moves refines) (run_storage_ops ops)) as Hs.
  { apply steps_for_all_m. intros op _. apply run_storage_op_refines. }
  destruct (Hs o w Ha) as [Ha' Hr]. split_and!; [done|done|]. by apply ledger_steps_sound.
Qed.

(** *** What a confirmed cleanup means *)

Definition confirmed (pool object : Uuid) (upper : bool) (w w' : World) (h : Uuid) : Prop :=
  exists host, t_hosts (w_db w) !! h = Some host /\
    logged w w' (accepted host (DeleteStorageFiles pool object upper)).

Lemma confirmed_later pool object upper w w1 w' h :
  w_db w1 = w_db w -> log_grows w w1 -> confirmed pool object upper w1 w' h ->
  confirmed pool object upper w w' h.
Proof.
  intros D L (host&Hh&Hl). exists host. rewrite <- D. split; [done|]. by eapply logged_grows_l.
Qed.

Lemma delete_files_ok host pool object upper o w w' :
  delete_storage_files cleanup_error host pool object upper o w = (w', Ok (Ok tt)) ->
  logged w w' (accepted host (DeleteStorageFiles (sp_id pool) object upper)) /\
  w_db w' = w_db w /\ w_tx w' = w_tx w.
Proof.
  unfold delete_storage_files. intros Hrun.
  assert ((r ← rpc host (DeleteStorageFiles (sp_id pool) object upper);
    mret (match r with RpcOk => Ok tt | _ => Err (cleanup_error r) end) : M SqlxError _) o w
    = (w', Ok (Ok tt))) as Hr by (destruct (sp_pool_type pool); first [exact Hrun | discriminate]).
  clear Hrun. apply bind_ok_inv in Hr as (r&w1&Hrpc&Hret).
  destruct r; unfold mret, M_ret in Hret; simplify_eq.
  pose proof (rpc_logged _ _ _ _ _ Hrpc) as Hlog. unfold rpc in Hrpc. by simplify_eq.
Qed.

Lemma delete_files_frame host pool object upper o w w' r :
  delete_storage_files cleanup_error host pool object upper o w = (w', r) ->
  w_db w' = w_db w /\ w_tx w' = w_tx w /\ log_grows w w'.
Proof.
  assert (forall w1 e, log_grows w1 (add_log e (tick w1))) as Hlog by (intros w1 e; by exists [e]).
  unfold delete_storage_files. destruct (sp_pool_type pool); intros Hrun;
    unfold mbind, M_bind, rpc, mret, M_ret in Hrun; simplify_eq; split_and!; done || apply Hlog.
Qed.

(** What a run of the loop over [hosts] established. *)
Definition cleaned (pool object : Uuid) (upper shared : bool) (hosts remaining remaining' : list Uuid)
    (completed : bool) (w w' : World) : Prop :=
  (w_db w' = w_db w /\ w_tx w' = w_tx w /\ log_grows w w') /\
  (forall h, h ∈ remaining -> h ∉ remaining' -> confirmed pool object upper w w' h) /\
  (completed = true -> (exists h, h ∈ hosts /\ confirmed pool object upper w w' h) /\
    (shared = true \/ remaining' = [])).

Lemma cleaned_step pool object upper shared h0 hosts remaining rem remaining' completed w w2 w' :
  w_db w2 = w_db w -> w_tx w2 = w_tx w -> log_grows w w2 ->
  (forall h, h ∈ remaining -> h ∉ rem -> confirmed pool object upper w w2 h) ->
  cleaned pool object upper shared hosts rem remaining' completed w2 w' ->
  cleaned pool object upper shared (h0 :: hosts) remaining remaining' completed w w'.
Proof.
  intros D T L Hrem ((D2&T2&L2)&Hc&Hd).
  split; [split_and!; [congruence|congruence|by etransitivity]|]. split.
  - intros h Hin Hnot. destruct (decide (h ∈ rem)) as [Hr|Hr].
    + eapply confirmed_later; [exact D|exact L|]. by apply Hc.
    + destruct (Hrem h Hin Hr) as (host'&Hh'&Hl). exists host'. split; [done|].
      by eapply logged_grows_r.
  - intros Hcomp. destruct (Hd Hcomp) as [(h&Hin&Hconf) Hs]. split; [|done]. exists h.
    split; [by right|]. by eapply confirmed_later.
Qed.

Lemma clean_hosts_spec pool object upper shared hosts remaining err o w w' remaining' err' completed :
  clean_hosts cleanup_error pool object upper shared hosts remaining err o w
    = (w', Ok (remaining', err', completed)) ->
  cleaned (sp_id pool) object upper shared hosts remaining remaining' completed w w'.
Proof.
  revert remaining err w. induction hosts as [|h0 hosts IH]; intros remaining err w Hrun.
  { simpl in Hrun. unfold mret, M_ret in Hrun. injection Hrun as <- <- <- <-.
    split; [done|]. split; [by intros h ? ?|done]. }
  simpl in Hrun. apply bind_ok_inv in Hrun as (host&w1&Hget&Hrun).
  apply query_ok_inv in Hget as [[= Hh] ->]. simpl in Hh.
  destruct host as [host|].
  2:{ apply (cleaned_step _ _ _ _ _ _ _ remaining _ _ w (tick w)); [done|done|by exists []; rewrite app_nil_r|by intros h ? ?|].
      by eapply IH. }
  apply bind_ok_inv in Hrun as (r&w2&Hdel&Hrun).
  destruct (delete_files_frame _ _ _ _ _ _ _ _ Hdel) as (D&T&L).
  change (log_grows w w2) in L.
  destruct r as [[]|e].
  - apply delete_files_ok in Hdel as (Hlog&_&_).
    assert (confirmed (sp_id pool) object upper w w2 h0) as Hconf.
    { exists host. split; [done|]. destruct Hlog as (l&Hl&Hin). by exists l. }
    set (rem := List.filter (fun id => negb (bool_decide (id = h0))) remaining) in *.
    assert (forall h, h ∈ remaining -> h ∉ rem -> confirmed (sp_id pool) object upper w w2 h) as Hrem.
    { intros h Hin Hnot. destruct (decide (h = h0)) as [->|Hne]; [done|]. exfalso. apply Hnot.
      unfold rem. rewrite list_elem_of_In, filter_In, <- list_elem_of_In. split; [done|].
      by rewrite bool_decide_eq_false_2. }
    destruct (shared || bool_decide (rem = [])) eqn:Hend.
    + unfold mret, M_ret in Hrun. injection Hrun as <- <- <- <-.
      split; [done|]. split; [done|]. intros _. split; [exists h0; split; [by left|done]|].
      apply orb_true_iff in Hend as [?|?%bool_decide_eq_true]; auto.
    + apply (cleaned_step _ _ _ _ _ _ _ rem _ _ w w2); [done..|]. by eapply IH.
  - apply (cleaned_step _ _ _ _ _ _ _ remaining _ _ w w2); [done|done|done|by intros h ? ?|].
    by eapply IH.
Qed.

(** The hosts an entry is still waiting for. *)
Definition awaited (c : StorageCleanup) (pool : StoragePool) (db : Db) : list Uuid :=
  if bool_decide (sp_pool_type pool = Nfs) || bool_decide (sc_host_ids c = [])
  then omap (fun hp : Uuid * Uuid => if decide (hp.2 = sc_pool_id c) then Some hp.1 else None)
         (elements (t_host_storage_pools db))
  else sc_host_ids c.

Definition releases (c : StorageCleanup) (id : Uuid) (pool : StoragePool) (db db' : Db) : Prop :=
  exists n, sp_allocated_bytes pool = Some n /\
    db' = with_storage_pools (insert (sc_pool_id c) (set_allocated (n - sc_size_bytes c) pool))
            (with_storage_cleanup (delete id) db).

Lemma release_inv id c pool db db' :
  t_storage_cleanup db !! id = Some c -> t_storage_pools db !! sc_pool_id c = Some pool ->
  release_storage_cleanup id db = Ok db' -> releases c id pool db db'.
Proof.
  intros Hc Hp. unfold release_storage_cleanup. rewrite Hc.
  intros (sp&n&Hsp&Hn&_&_&->)%adjust_inv. simpl in Hsp. rewrite Hp in Hsp. injection Hsp as <-.
  by exists n.
Qed.

(** C36. One attempt to clean up the files of a deleted object.  When it reports
    success, nodes accepted the deletion during this run: at least one of the
    awaited hosts, and on a pool that is not shared every one of them; then, and
    only then, the entry is dropped and its bytes are released.  Otherwise the
    entry stays with one more attempt, the counters are untouched, and only
    hosts that confirmed are no longer awaited. *)
Theorem cleanup_releases_after_confirmation id c pool o w w' done :
  t_storage_cleanup (w_db w) !! id = Some c -> t_storage_pools (w_db w) !! sc_pool_id c = Some pool ->
  process cleanup_error id o w = (w', Ok done) ->
  let conf := confirmed (sp_id pool) id (sc_upper_layer c) w w' in
  let hosts := awaited c pool (w_db w) in
  if (done : bool)
  then releases c id pool (w_db w) (w_db w') /\ (exists h, h ∈ hosts /\ conf h) /\
       (sp_pool_type pool <> Nfs -> forall h, h ∈ hosts -> conf h)
  else exists remaining err t,
       w_db w' = with_storage_cleanup (alter (retry_cleanup remaining err t) id) (w_db w) /\
       forall h, h ∈ hosts -> h ∉ remaining -> conf h.
Proof.
  intros Hc Hp Hrun conf hosts. apply in_tx_opt_ok in Hrun as (w2&cm&Hbody&Hdb&_&Hlog).
  unfold process_body in Hbody. apply bind_ok_inv in Hbody as (task&w3&Htask&Hbody).
  apply query_ok_inv in Htask as [[= Htask] ->]. simpl in Htask. rewrite Hc in Htask. subst task.
  apply bind_ok_inv in Hbody as (pool'&w3&Hpool&Hbody).
  apply query_ok_inv in Hpool as [Hpool ->]. simpl in Hpool. rewrite Hp in Hpool.
  injection Hpool as <-. apply bind_ok_inv in Hbody as (rem&w3&Hrem&Hbody).
  assert (rem = hosts /\ same_but_step (set_tx (Some (w_db w)) (tick w)) w3) as [Hr (D3&T3&L3)].
  { unfold hosts, awaited. destruct (_ || _).
    - unfold list_host_ids in Hrem. apply query_ok_inv in Hrem as [[= ->] ->]. done.
    - unfold mret, M_ret in Hrem. by injection Hrem as <- <-. }
  subst rem. simpl in D3, T3, L3. apply bind_ok_inv in Hbody as ([[rem err] comp]&w4&Hclean&Hbody).
  apply clean_hosts_spec in Hclean as ((D4&T4&L4)&Hconf&Hdone).
  assert (forall h, confirmed (sp_id pool) id (sc_upper_layer c) w3 w4 h -> w_log w2 = w_log w4 ->
    conf h) as Hlift.
  { intros h (host&Hh&l&Hl&Hin) Hl2. exists host. split; [by rewrite <- D3|]. exists l.
    by rewrite Hlog, Hl2, Hl, L3. }
  apply bind_ok_inv in Hbody as (u&w5&Hexec&Hret). unfold mret, M_ret in Hret.
  injection Hret as -> <- <-. destruct comp.
  - apply execute_ok_inv in Hexec as (db&Hrel&->). simpl in Hdb, Hrel, Hlift.
    apply unit_result_inv in Hrel. rewrite T4, T3 in Hrel. simpl in Hrel.
    rewrite Hdb. split; [by eapply release_inv|]. destruct (Hdone eq_refl) as [(h&Hin&Hh) Hs].
    split; [exists h; split; [done|by apply Hlift]|]. intros Hn h' Hin'. apply Hlift; [|done].
    apply Hconf; [done|]. destruct Hs as [Hs| ->]; [|by intros ?%elem_of_nil].
    by apply bool_decide_eq_true in Hs.
  - apply bind_ok_inv in Hexec as (t&w6&Hnow&Hexec). injection Hnow as <- <-.
    apply execute_ok_inv in Hexec as (db&Hup&->). simpl in Hdb, Hup, Hlift.
    injection Hup as <- _. rewrite T4, T3 in Hdb. simpl in Hdb.
    exists rem, err, (o_now o (w_step w4)). split; [done|]. intros h Hin Hnot. apply Hlift; [|done].
    by apply Hconf.
Qed.
End operations.

(** ** What the statements on objects leave alone *)

Record storage_only (db db' : Db) : Prop := {
  sto_vms : t_vms db' = t_vms db;
  sto_hosts : t_hosts db' = t_hosts db;
  sto_jobs : t_jobs db' = t_jobs db;
  sto_disks : t_vm_disks db' = t_vm_disks db;
  sto_nics : t_network_interfaces db' = t_network_interfaces db;
  sto_gpus : t_host_gpus db' = t_host_gpus db;
  sto_attached : t_host_storage_pools db' = t_host_storage_pools db
}.
#[global] Instance storage_only_preorder : PreOrder storage_only.
Proof. split; [by intros db|]. intros a b c [] []. split; congruence. Qed.

Lemma adjust_only p delta db db' :
  adjust_storage_pool_allocation p delta db = Ok db' -> storage_only db db'.
Proof. by intros (sp&n&_&_&_&_&->)%adjust_inv. Qed.

Lemma queue_only o t db db' : queue_storage_cleanup o t db = Ok db' -> storage_only db db'.
Proof. unfold queue_storage_cleanup, store_allocated, insert_pk. intros Hq. by repeat crush_step. Qed.

Lemma queue_keeps_objects o t db db' :
  queue_storage_cleanup o t db = Ok db' -> t_storage_objects db' = t_storage_objects db.
Proof. unfold queue_storage_cleanup, store_allocated, insert_pk. intros Hq. by repeat crush_step. Qed.

Lemma delete_object_only id t db db' : delete_object_row id t db = Ok db' -> storage_only db db'.
Proof.
  unfold delete_object_row. destruct (t_storage_objects db !! id) as [o|]; [|by intros [= <-]].
  intros ([]&_&(db1&Hadj&Hq)%result_bind_ok)%result_bind_ok.
  etransitivity; [|by eapply queue_only]. etransitivity; [|by eapply adjust_only]. done.
Qed.

(** An inserted object: only its row and the counter of its pool. *)
Lemma insert_object_inv r db db' :
  insert_object_row r db = Ok db' ->
  t_storage_objects db !! so_id r = None /\
  t_storage_objects db' = <[so_id r := r]> (t_storage_objects db) /\ storage_only db db'.
Proof.
  unfold insert_object_row. intros ([]&_&Hrun)%result_bind_ok.
  apply result_bind_ok in Hrun as (objects&Ho&Hadj). unfold insert_pk in Ho.
  destruct (t_storage_objects db !! so_id r) eqn:Hn; [done|]. injection Ho as <-. split; [done|].
  pose proof (adjust_only _ _ _ _ Hadj) as Hs. apply adjust_inv in Hadj as (?&?&_&_&_&_&->). split; [done|].
  destruct Hs. by split.
Qed.

Section frames.
Context `{UuidText} {coll : Collation}.

Lemma insert_object_only new hosts : steps (db_moves storage_only) (insert_object new hosts).
Proof.
  apply steps_bind; [apply steps_db_reads, resolve_new_object_reads|]. intros [[id pool] c].
  apply steps_bind; [|intros ?; apply steps_ret]. apply steps_db_execute. intros db db' [] Hr.
  by apply unit_result_inv, insert_object_inv in Hr as (_&_&?).
Qed.

Lemma insert_object_ok new hosts o w w' r :
  insert_object new hosts o w = (w', Ok r) ->
  t_storage_objects (w_db w) !! so_id r = None /\
  t_storage_objects (w_db w') = <[so_id r := r]> (t_storage_objects (w_db w)) /\
  storage_only (w_db w) (w_db w') /\
  exists pool_id config, r = object_row (so_id r) pool_id new config hosts /\
    (forall p, no_storage_pool_id new = Some p -> pool_id = p).
Proof.
  intros Hrun. apply bind_ok_inv in Hrun as ([[id pool] c]&w1&Hn&Hrun).
  pose proof (resolve_new_object_reads new o w) as (D1&_&_). rewrite Hn in D1. simpl in D1.
  apply bind_ok_inv in Hrun as ([]&w2&Hins&Hret). unfold mret, M_ret in Hret. injection Hret as <- <-.
  apply execute_ok_inv in Hins as (db&Hins&->). simpl in Hins. rewrite D1 in Hins.
  apply unit_result_inv, insert_object_inv in Hins as (Hnone&Ht&Hs). split_and!; [done|done|done|].
  exists pool, c. split; [done|]. intros p Hp. unfold resolve_new_object in Hn. rewrite Hp in Hn.
  apply bind_ok_inv in Hn as (p'&w2&Hp'&Hn). unfold mret, M_ret in Hp'. injection Hp' as _ <-.
  apply bind_ok_inv in Hn as (u&w3&_&Hn). apply bind_ok_inv in Hn as (c'&w4&_&Hn).
  unfold mret, M_ret in Hn. by injection Hn as _ _ <- _.
Qed.

Lemma create_object_only new : steps (db_moves storage_only) (create_object new).
Proof. apply steps_bind; [apply insert_object_only|intros ?; apply steps_ret]. Qed.
Lemma create_managed_only new h : steps (db_moves storage_only) (create_managed new h).
Proof. apply steps_bind; [apply insert_object_only|intros ?; apply steps_ret]. Qed.
Lemma delete_object_m_only id : steps (db_moves storage_only) (delete_object id).
Proof.
  apply steps_bind; [apply steps_now, db_moves_tick|]. intros t. apply steps_db_execute.
  intros db db' [] Hr. apply unit_result_inv in Hr. by eapply delete_object_only.
Qed.
End frames.

(** ** Witnesses *)

Definition sample_pool (id : Uuid) (t : StoragePoolType) (capacity used_bytes : Z) : StoragePool :=
  {| sp_id := id; sp_name := "pool"; sp_pool_type := t; sp_status := Active; sp_config := JNull;
     sp_capacity_bytes := Some capacity; sp_allocated_bytes := Some used_bytes |}.

Definition sample_object (id pool : Uuid) (size : Z) : StorageObject :=
  {| so_id := id; so_name := "disk"; so_storage_pool_id := pool; so_object_type := Disk;
     so_size_bytes := size; so_config := JNull; so_parent_id := None;
     so_managed_host_ids := Some [1%N] |}.

Definition storage_db : Db :=
  with_hosts (fun _ => {[1%N := sample_host 1 "alpha" "10.0.0.1" HostUp 8 1000 1000]})
    (with_storage_pools (fun _ => {[5%N := sample_pool 5 Nfs 100 50]})
    (with_storage_objects (fun _ => {[8%N := sample_object 8 5 30]})
    (with_storage_cleanup (fun _ => {[9%N :=
       {| sc_object_id := 9; sc_pool_id := 5; sc_upper_layer := false; sc_size_bytes := 20;
          sc_host_ids := [1%N]; sc_attempts := 0; sc_last_error := None; sc_next_attempt_at := 0 |}]})
    (with_host_storage_pools (fun _ => {[(1%N, 5%N)]}) empty_db)))).

Lemma storage_db_accounted : accounted storage_db.
Proof.
  split; [split|]; intros k x Hk; simpl in Hk; apply lookup_singleton_Some in Hk as [<- <-].
  - split_and!; [done|done|by eexists].
  - split; [done|by eexists].
  - reflexivity.
Qed.

(** The ledger of the sample after its object was grown to sixty bytes, the
    files of the deleted one removed and the object grown again. *)
Lemma storage_refines_ledger_witness :
  let m := run_storage_ops (H := binary_uuid_text)
             (fun _ => "refused"%string) [OpResize 8 90; OpCleanup 9; OpResize 8 90] in
  rtc ledger_step (ledger_of storage_db) (ledger_of (db_after m calm_oracle (world_of storage_db))) /\
  ac_used <$> ledger_of (db_after m calm_oracle (world_of storage_db)) !! 5%N = Some 90.
Proof.
  intros m. split; [|vm_compute; reflexivity].
  destruct (storage_refines_ledger (H := binary_uuid_text)
    (fun _ => "refused"%string) [OpResize 8 90; OpCleanup 9; OpResize 8 90] calm_oracle
    (world_of storage_db)) as (_&Hr&_); [exact storage_db_accounted|exact Hr].
Defined.

Lemma cleanup_releases_witness :
  let r := process (H := binary_uuid_text) (fun _ => "refused"%string) 9 calm_oracle (world_of storage_db) in
  r.2 = Ok true /\
  exists c pool, releases c 9 pool storage_db (w_db r.1).
Proof.
  intros r. split; [vm_compute; reflexivity|].
  pose proof (cleanup_releases_after_confirmation (H := binary_uuid_text) (fun _ => "refused"%string) 9
    {| sc_object_id := 9; sc_pool_id := 5; sc_upper_layer := false; sc_size_bytes := 20;
       sc_host_ids := [1%N]; sc_attempts := 0; sc_last_error := None; sc_next_attempt_at := 0 |}
    (sample_pool 5 Nfs 100 50) calm_oracle (world_of storage_db) r.1 true eq_refl eq_refl) as Ht.
  destruct Ht as [Hrel _]; [vm_compute; reflexivity|]. by eexists _, _.
Defined.
