(* ===== verification/Scheduler.v ===== *)
(** * Scheduler: host selection ([pick_host_tx] of [qarax/src/model/hosts.rs])

    The scheduler is one query: the hosts that pass every filter of the request,
    ordered by the placement preferences, the load and the name, of which it
    takes and locks the first that no other transaction holds.  The theorems
    show that the picked host passes every filter and is the best of those that
    were free, that nothing is picked only when nothing is eligible, and that
    placing a VM on the picked host never exceeds its memory and CPU budgets. *)

From S2P Require Import Prelude Text Errors Tables Float64 NodeApi World Samples VmConfig Hooks Vms Gpus Hosts.
#[local] Open Scope Z_scope.
#[local] Set Default Proof Using "Type".

(** ** Settings and requests *)

Record SchedulingSettings := {
  ss_memory_oversubscription_ratio : f64;
  ss_cpu_oversubscription_ratio : f64;
  ss_disk_headroom_bytes : Z;
  ss_memory_health_floor_bytes : Z
}.

Definition default_scheduling : SchedulingSettings :=
  {| ss_memory_oversubscription_ratio := f64_of_Z 1;
     ss_cpu_oversubscription_ratio := f64_of_Z 4;
     ss_disk_headroom_bytes := 10 * 1024 * 1024 * 1024;
     ss_memory_health_floor_bytes := 1024 * 1024 * 1024 |}.

Record GpuRequest := {
  gr_count : Z;
  gr_vendor : option string;
  gr_model : option string;
  gr_min_vram_bytes : option Z
}.
Definition gpu_filter (g : GpuRequest) : GpuFilter :=
  {| gf_vendor := gr_vendor g; gf_model := gr_model g; gf_min_vram_bytes := gr_min_vram_bytes g |}.

Record SchedulingRequest := {
  sr_memory_bytes : Z;
  sr_vcpus : Z;
  sr_disk_bytes : Z;
  sr_architecture : option string;
  sr_storage_pool_id : option Uuid;
  sr_required_network_ids : list Uuid;
  sr_gpu : option GpuRequest;
  sr_placement_policy : option PlacementPolicy;
  sr_excluded_host_ids : list Uuid
}.

(** ** Filters *)

(** [labels @> required] on JSON objects with string values. *)
Definition has_labels (required labels : gmap string string) : bool :=
  forallb (fun kv => bool_decide (labels !! kv.1 = Some kv.2)) (map_to_list required).
(** [tags && wanted] and [tags @> wanted] on text arrays. *)
Definition overlaps (tags wanted : list string) : bool :=
  existsb (fun t => bool_decide (t ∈ tags)) wanted.
Definition contains_tags (tags wanted : list string) : bool :=
  forallb (fun t => bool_decide (t ∈ tags)) wanted.

(** The VMs of a host that the policy clauses look at. *)
Definition policy_vms (db : Db) (host_id : Uuid) : list VmRow :=
  List.filter (counted host_id) (rows (t_vms db)).
Definition count_tagged (db : Db) (host_id : Uuid) (tags : list string) : Z :=
  Z.of_nat (length (List.filter (fun r => contains_tags (v_tags r) tags) (policy_vms db host_id))).

(** [column IS NULL OR test column]. *)
Definition null_or {A} (column : option A) (test : A -> bool) : bool :=
  match column with None => true | Some x => test x end.
(** A clause the query only has when the request asks for it. *)
Definition when {A} (asked : option A) (clause : A -> bool) : bool :=
  match asked with None => true | Some x => clause x end.

Definition policy_allows (db : Db) (policy : PlacementPolicy) (h : Host) : bool :=
  when (pp_reservation_class policy) (fun c => bool_decide (h_reservation_class h = Some c))
  && (bool_decide (pp_required_host_labels policy = ∅)
      || has_labels (pp_required_host_labels policy) (h_placement_labels h))
  && (bool_decide (pp_anti_affinity_tags policy = [])
      || negb (existsb (fun r => overlaps (v_tags r) (pp_anti_affinity_tags policy))
                 (policy_vms db (h_id h)))).

Definition free_gpus (db : Db) (host_id : Uuid) (g : GpuRequest) : Z :=
  Z.of_nat (length (List.filter (gpu_free host_id (gpu_filter g)) (rows (t_host_gpus db)))).

Definition fits_memory (db : Db) (config : SchedulingSettings) (request : SchedulingRequest)
    (h : Host) : bool :=
  null_or (h_total_memory_bytes h) (fun total =>
    within_budget total (ss_memory_oversubscription_ratio config)
      (allocated v_memory_size (h_id h) db) (sr_memory_bytes request)).

Definition fits_cpu (db : Db) (config : SchedulingSettings) (request : SchedulingRequest)
    (h : Host) : bool :=
  null_or (h_total_cpus h) (fun total =>
    within_budget total (ss_cpu_oversubscription_ratio config)
      (allocated v_boot_vcpus (h_id h) db) (sr_vcpus request)).

(** The [WHERE] clause. *)
Definition eligible (db : Db) (request : SchedulingRequest) (config : SchedulingSettings) (h : Host)
  : bool :=
  bool_decide (h_status h = HostUp)
  && when (sr_storage_pool_id request)
       (fun pool => bool_decide ((h_id h, pool) ∈ t_host_storage_pools db))
  && negb (bool_decide (h_id h ∈ sr_excluded_host_ids request))
  && forallb (fun net => bool_decide (is_Some (t_host_networks db !! (h_id h, net))))
       (sr_required_network_ids request)
  && when (sr_architecture request)
       (fun arch => null_or (h_architecture h) (fun a => String.eqb a arch))
  && when (sr_placement_policy request) (fun policy => policy_allows db policy h)
  && fits_memory db config request h
  && fits_cpu db config request h
  && null_or (h_available_memory_bytes h) (fun m => ss_memory_health_floor_bytes config <? m)
  && null_or (h_disk_available_bytes h)
       (fun d => as_i64 (sr_disk_bytes request + ss_disk_headroom_bytes config) <=? d)
  && when (sr_gpu request) (fun g => gr_count g <=? free_gpus db (h_id h) g).

(** ** Order *)

Section order.
Context {coll : Collation}.

(** The sort keys of the policy; a clause the query lacks is constant. *)
Definition preference_rank (request : SchedulingRequest) (h : Host) : Z :=
  match sr_placement_policy request with
  | Some p => if bool_decide (pp_preferred_host_labels p = ∅) then 0
              else if has_labels (pp_preferred_host_labels p) (h_placement_labels h) then 0 else 1
  | None => 0
  end.
Definition affinity_rank (db : Db) (request : SchedulingRequest) (h : Host) : Z :=
  match sr_placement_policy request with
  | Some p => if bool_decide (pp_affinity_tags p = []) then 0
              else - count_tagged db (h_id h) (pp_affinity_tags p)
  | None => 0
  end.
Definition spread_rank (db : Db) (request : SchedulingRequest) (h : Host) : Z :=
  match sr_placement_policy request with
  | Some p => if bool_decide (pp_spread_tags p = []) then 0
              else count_tagged db (h_id h) (pp_spread_tags p)
  | None => 0
  end.

(** The [ORDER BY] clause. *)
Definition better (db : Db) (request : SchedulingRequest) : relation Host :=
  lex (on_key Z.le (preference_rank request))
  (lex (on_key Z.le (affinity_rank db request))
  (lex (on_key Z.le (spread_rank db request))
  (lex (on_key (nulls_last f64_le) h_load_average)
       (on_key coll_le h_name)))).

#[local] Instance Zle_total : Total Z.le.
Proof. intros x y. lia. Qed.
#[global] Instance better_dec db request : RelDecision (better db request).
Proof. unfold better. apply _. Defined.
#[global] Instance better_total db request : Total (better db request).
Proof. unfold better. apply _. Qed.
#[global] Instance better_trans db request : Transitive (better db request).
Proof. unfold better. apply _. Qed.

(** The query on the rows its connection sees, when other transactions hold the
    rows of [locked]: [LIMIT 1 FOR UPDATE OF h SKIP LOCKED]. *)
Definition pick_host_tx (locked : gset Uuid) (request : SchedulingRequest)
    (config : SchedulingSettings) : M SqlxError (option Host) :=
  query Tx (fun db => Ok (head (merge_sort (better db request)
    (List.filter (fun h => eligible db request config h && negb (bool_decide (h_id h ∈ locked)))
       (rows (t_hosts db)))))).

(** The statements skip the rows that are locked when they run: [locked n] are
    the hosts, [locked_gpus n] the GPUs held by others at step [n]. *)
Definition pick_host_now (locked : nat -> gset Uuid) (config : SchedulingSettings)
    (request : SchedulingRequest) : M SqlxError (option Host) := fun o w =>
  pick_host_tx (locked (w_step w)) request config o w.

Definition allocate_gpus_now (locked_gpus : nat -> gset Uuid) (host_id vm_id : Uuid) (g : GpuRequest)
  : M SqlxError (list HostGpu) := fun o w =>
  allocate_gpus (locked_gpus (w_step w)) host_id vm_id (gr_count g) (gpu_filter g) o w.

(** ** Properties *)

Lemma pick_host_inv locked request config o w w' res :
  pick_host_tx locked request config o w = (w', Ok res) ->
  w' = tick w /\
  match res with
  | Some h =>
      (exists k, t_hosts (conn_db Tx w) !! k = Some h) /\
      eligible (conn_db Tx w) request config h = true /\ (h_id h ∉ locked) /\
      (forall k h', t_hosts (conn_db Tx w) !! k = Some h' ->
         eligible (conn_db Tx w) request config h' = true -> h_id h' ∉ locked ->
         better (conn_db Tx w) request h h')
  | None =>
      forall k h', t_hosts (conn_db Tx w) !! k = Some h' ->
        eligible (conn_db Tx w) request config h' = true -> h_id h' ∈ locked
  end.
Proof.
  intros Hrun. apply query_ok_inv in Hrun as [Hres ->]. split; [done|].
  set (db := conn_db Tx w) in *. set (cands := List.filter _ _) in Hres.
  assert (res = head (merge_sort (better db request) cands)) as -> by congruence. clear Hres.
  assert (forall h, h ∈ cands <-> (exists k, t_hosts db !! k = Some h) /\
            eligible db request config h = true /\ h_id h ∉ locked) as Hc.
  { intros h. unfold cands. rewrite elem_of_filter_rows, andb_true_iff, negb_true_iff,
      bool_decide_eq_false. done. }
  destruct (head (merge_sort (better db request) cands)) as [h|] eqn:Hhd.
  - apply (head_merge_sort (better db request)) in Hhd as [Hin Hmin].
    apply Hc in Hin as (?&?&?). split_and!; try done.
    intros k h' Hk He Hl. rewrite Forall_forall in Hmin. apply Hmin, Hc. eauto.
  - apply (head_merge_sort_None (better db request)) in Hhd. intros k h' Hk He.
    destruct (decide (h_id h' ∈ locked)); [done|]. exfalso.
    assert (h' ∈ cands) as Hin by (apply Hc; eauto). rewrite Hhd in Hin. set_solver.
Qed.

(** ** What a request asks for *)

(** A VM counts for its host unless it is shut down or in an unknown state. *)
Definition occupies (host : Uuid) (r : VmRow) : Prop :=
  v_host_id r = Some host /\ v_status r <> Shutdown /\ v_status r <> Unknown.
#[global] Instance occupies_dec host r : Decision (occupies host r).
Proof. unfold occupies. apply _. Defined.

Definition committed (f : VmRow -> Z) (db : Db) (host : Uuid) : Z :=
  map_fold (fun _ r acc => if decide (occupies host r) then f r + acc else acc) 0 (t_vms db).
(** How many VMs of the host carry all the tags. *)
Definition tagged_on (db : Db) (host : Uuid) (tags : list string) : Z :=
  map_fold (fun _ r acc => if decide (occupies host r /\ Forall (fun t => t ∈ v_tags r) tags) then acc + 1 else acc) 0 (t_vms db).

(** A GPU of the host that nobody has and that is as asked for. *)
Record gpu_suits (host : Uuid) (g : GpuRequest) (row : HostGpu) : Prop := {
  gs_host : g_host_id row = host;
  gs_free : g_vm_id row = None;
  gs_vendor : forall v, gr_vendor g = Some v -> g_vendor row = Some v;
  gs_model : forall m, gr_model g = Some m -> g_model row = Some m;
  gs_vram : forall n, gr_min_vram_bytes g = Some n -> exists v, g_vram_bytes row = Some v /\ n <= v
}.

(** The host can take the VM.  The budgets are compared in double precision, total times
    ratio minus what is committed. *)
Record suits (db : Db) (request : SchedulingRequest) (config : SchedulingSettings) (h : Host) : Prop := {
  su_up : h_status h = HostUp;
  su_pool : forall pool, sr_storage_pool_id request = Some pool -> (h_id h, pool) ∈ t_host_storage_pools db;
  su_excluded : h_id h ∉ sr_excluded_host_ids request;
  su_networks : forall net, net ∈ sr_required_network_ids request -> exists bridge, t_host_networks db !! (h_id h, net) = Some bridge;
  su_architecture : forall a b, sr_architecture request = Some a -> h_architecture h = Some b -> b = a;
  su_class : forall p c, sr_placement_policy request = Some p -> pp_reservation_class p = Some c -> h_reservation_class h = Some c;
  su_labels : forall p, sr_placement_policy request = Some p -> pp_required_host_labels p ⊆ h_placement_labels h;
  su_apart : forall p k r t, sr_placement_policy request = Some p -> t_vms db !! k = Some r -> occupies (h_id h) r ->
    t ∈ v_tags r -> t ∉ pp_anti_affinity_tags p;
  su_memory : forall total, h_total_memory_bytes h = Some total ->
    within_budget total (ss_memory_oversubscription_ratio config) (committed v_memory_size db (h_id h)) (sr_memory_bytes request) = true;
  su_cpus : forall total, h_total_cpus h = Some total ->
    within_budget total (ss_cpu_oversubscription_ratio config) (committed v_boot_vcpus db (h_id h)) (sr_vcpus request) = true;
  su_floor : forall m, h_available_memory_bytes h = Some m -> ss_memory_health_floor_bytes config < m;
  su_disk : forall d, h_disk_available_bytes h = Some d -> as_i64 (sr_disk_bytes request + ss_disk_headroom_bytes config) <= d;
  su_gpus : forall g, sr_gpu request = Some g -> exists gpus : list Uuid, NoDup gpus /\ gr_count g <= Z.of_nat (length gpus) /\
    forall id, id ∈ gpus -> exists row, t_host_gpus db !! id = Some row /\ gpu_suits (h_id h) g row
}.

Definition prefers (request : SchedulingRequest) (h : Host) : Prop :=
  forall p, sr_placement_policy request = Some p -> pp_preferred_host_labels p ⊆ h_placement_labels h.
(** The VMs with the tags a policy names; a policy without tags does not count any. *)
Definition policy_count (db : Db) (tags : PlacementPolicy -> list string) (request : SchedulingRequest) (h : Host) : Z :=
  match sr_placement_policy request with
  | Some p => match tags p with [] => 0 | l => tagged_on db (h_id h) l end
  | None => 0
  end.
Definition lighter (x y : option f64) : Prop :=
  match x, y with Some a, Some b => f64_cmp a b = Lt | Some _, None => True | None, _ => False end.
Definition as_light (x y : option f64) : Prop :=
  match x, y with Some a, Some b => f64_cmp a b = Eq | None, None => True | _, _ => False end.

(** A host is chosen before another: preferred labels, then more VMs of the affinity
    tags, then fewer of the spread tags, then the lower load (unknown last), then the name. *)
Definition chosen_before (db : Db) (request : SchedulingRequest) (h h' : Host) : Prop :=
  let friends := policy_count db pp_affinity_tags request in
  let crowd := policy_count db pp_spread_tags request in
  (prefers request h /\ ~ prefers request h') \/
  (prefers request h <-> prefers request h') /\
  (friends h' < friends h \/ friends h = friends h' /\
   (crowd h < crowd h' \/ crowd h = crowd h' /\
    (lighter (h_load_average h) (h_load_average h') \/
     as_light (h_load_average h) (h_load_average h') /\ coll_le (h_name h) (h_name h')))).

Lemma counted_occupies host r : counted host r = true <-> occupies host r.
Proof.
  unfold counted, occupies. rewrite andb_true_iff, negb_true_iff, bool_decide_eq_true, bool_decide_eq_false.
  rewrite !elem_of_cons, elem_of_nil. tauto.
Qed.

Lemma allocated_committed f host db : allocated f host db = committed f db host.
Proof.
  unfold allocated, committed, rows. rewrite map_fold_foldr. induction (map_to_list (t_vms db)) as [|[k r] l IH]; [done|].
  simpl. rewrite <- IH. destruct (decide (occupies host r)) as [Ho|Ho]; [by apply counted_occupies in Ho as ->|].
  destruct (counted host r) eqn:Hc; [by apply counted_occupies in Hc|done].
Qed.

Lemma contains_tags_spec tags wanted : contains_tags tags wanted = true <-> Forall (fun t => t ∈ tags) wanted.
Proof.
  unfold contains_tags. rewrite forallb_forall, Forall_forall. setoid_rewrite <- list_elem_of_In.
  by setoid_rewrite bool_decide_eq_true.
Qed.

Lemma count_tagged_on db host tags : count_tagged db host tags = tagged_on db host tags.
Proof.
  unfold count_tagged, policy_vms, tagged_on, rows. rewrite map_fold_foldr.
  induction (map_to_list (t_vms db)) as [|[k r] l IH]; [done|]. simpl. rewrite <- IH.
  destruct (decide (occupies host r /\ _)) as [[Ho Ht]|Hn].
  - apply counted_occupies in Ho as ->. simpl. apply contains_tags_spec in Ht as ->. simpl.
    change (list_fmap (Uuid * VmRow)%type VmRow snd l) with (l.*2). lia.
  - destruct (counted host r) eqn:Hc; simpl; [|done]. destruct (contains_tags (v_tags r) tags) eqn:Ht; [|done].
    exfalso. apply Hn. split; [by apply counted_occupies|by apply contains_tags_spec].
Qed.

Lemma has_labels_spec required labels : has_labels required labels = true <-> required ⊆ labels.
Proof.
  unfold has_labels. rewrite forallb_forall, map_subseteq_spec. setoid_rewrite <- list_elem_of_In.
  setoid_rewrite bool_decide_eq_true. split.
  - intros Hl k v Hk. apply (Hl (k, v)). by apply elem_of_map_to_list.
  - intros Hl [k v] Hk. apply Hl. by apply elem_of_map_to_list.
Qed.

Lemma gpu_free_spec host g row : gpu_free host (gpu_filter g) row = true <-> gpu_suits host g row.
Proof.
  assert (forall wanted column, text_matches wanted column = true <-> forall v : string, wanted = Some v -> column = Some v) as Ht.
  { intros [x|] [y|]; simpl; rewrite ?String.eqb_eq; naive_solver. }
  unfold gpu_free, gpu_matches, gpu_filter. cbn [gf_vendor gf_model gf_min_vram_bytes].
  rewrite !andb_true_iff, !bool_decide_eq_true, !Ht. split.
  - intros [[H1 H2] [[H3 H4] H5]]. split; try done. intros n Hn. rewrite Hn in H5. destruct (g_vram_bytes row) as [v|]; [|done].
    exists v. split; [done|]. by apply Z.leb_le.
  - intros [H1 H2 H3 H4 H5]. split_and!; try done. destruct (gr_min_vram_bytes g) as [n|]; [|done].
    destruct (H5 n eq_refl) as (v&->&Hv). by apply Z.leb_le.
Qed.

Lemma NoDup_filter_keys {A} (p : Uuid * A -> bool) (l : list (Uuid * A)) : NoDup l.*1 -> NoDup (List.filter p l).*1.
Proof.
  induction l as [|[k r] l IH]; [done|]. rewrite fmap_cons. intros [Hk Hl]%NoDup_cons. cbn [List.filter].
  destruct (p (k, r)); [|by apply IH]. rewrite fmap_cons. apply NoDup_cons. split; [|by apply IH].
  rewrite list_elem_of_fmap. intros ([k' r']&Heq&Hin). simpl in Heq. subst k'. apply Hk, list_elem_of_fmap. exists (k, r'). split; [done|].
  by apply list_elem_of_In, filter_In in Hin as [Hin%list_elem_of_In _].
Qed.

Lemma free_gpus_spec db host g :
  gr_count g <= free_gpus db host g <->
  exists gpus : list Uuid, NoDup gpus /\ gr_count g <= Z.of_nat (length gpus) /\
    forall id, id ∈ gpus -> exists row, t_host_gpus db !! id = Some row /\ gpu_suits host g row.
Proof.
  set (p := fun kr : Uuid * HostGpu => gpu_free host (gpu_filter g) kr.2).
  assert (free_gpus db host g = Z.of_nat (length (List.filter p (map_to_list (t_host_gpus db))))) as ->.
  { unfold free_gpus, rows. f_equal. unfold p. induction (map_to_list (t_host_gpus db)) as [|[k r] l IH]; [done|].
    rewrite fmap_cons. cbn [List.filter snd]. destruct (gpu_free _ _ r); cbn [length]; by rewrite IH. }
  split.
  - intros Hc. exists (List.filter p (map_to_list (t_host_gpus db))).*1. split_and!.
    + apply NoDup_filter_keys, NoDup_fst_map_to_list.
    + by rewrite length_fmap.
    + intros id ([k r]&->&Hin)%list_elem_of_fmap. apply list_elem_of_In, filter_In in Hin as [Hin Hp].
      apply list_elem_of_In, elem_of_map_to_list in Hin. exists r. split; [done|]. by apply gpu_free_spec.
  - intros (gpus&Hnd&Hc&Hall). etransitivity; [exact Hc|]. apply Nat2Z.inj_le.
    rewrite <- (length_fmap fst (List.filter p _)). apply submseteq_length, NoDup_submseteq; [done|].
    intros id Hid. destruct (Hall id Hid) as (row&Hrow&Hs). apply list_elem_of_fmap. exists (id, row). split; [done|].
    apply list_elem_of_In, filter_In. split; [by apply list_elem_of_In, elem_of_map_to_list|]. by apply gpu_free_spec.
Qed.

Lemma null_or_spec {A} (column : option A) test : null_or column test = true <-> forall x, column = Some x -> test x = true.
Proof. destruct column as [x|]; simpl; [|done]. split; [by intros Hx ? [= <-]|auto]. Qed.
Lemma when_spec {A} (asked : option A) clause : when asked clause = true <-> forall x, asked = Some x -> clause x = true.
Proof. exact (null_or_spec asked clause). Qed.

Lemma policy_allows_spec db policy h :
  policy_allows db policy h = true <->
  (forall c, pp_reservation_class policy = Some c -> h_reservation_class h = Some c) /\
  pp_required_host_labels policy ⊆ h_placement_labels h /\
  (forall k r t, t_vms db !! k = Some r -> occupies (h_id h) r -> t ∈ v_tags r -> t ∉ pp_anti_affinity_tags policy).
Proof.
  unfold policy_allows. rewrite !andb_true_iff, when_spec, !orb_true_iff, !bool_decide_eq_true, has_labels_spec, negb_true_iff.
  setoid_rewrite bool_decide_eq_true. rewrite Logic.and_assoc. apply and_iff_compat_l.
  assert (existsb (fun r => overlaps (v_tags r) (pp_anti_affinity_tags policy)) (policy_vms db (h_id h)) = false <->
    forall k r t, t_vms db !! k = Some r -> occupies (h_id h) r -> t ∈ v_tags r -> t ∉ pp_anti_affinity_tags policy) as Hex.
  { rewrite <- not_true_iff_false, existsb_exists. split.
    - intros Hn k r t Hr Ho Ht Hin. apply Hn. exists r. split.
      + apply list_elem_of_In. unfold policy_vms. apply elem_of_filter_rows. split; [by exists k|]. by apply counted_occupies.
      + unfold overlaps. apply existsb_exists. exists t. split; [by apply list_elem_of_In|]. by apply bool_decide_eq_true.
    - intros Ha (r&Hin%list_elem_of_In&Ho). unfold policy_vms in Hin. apply elem_of_filter_rows in Hin as [[k Hk] Hc].
      unfold overlaps in Ho. apply existsb_exists in Ho as (t&Ht%list_elem_of_In&Hi%bool_decide_eq_true).
      by apply (Ha k r t); [|apply counted_occupies| |]. }
  rewrite Hex. split.
  - intros [Hl Ha]. split.
    + destruct Hl as [->|Hl]; [apply map_empty_subseteq|done].
    + destruct Ha as [Ha|Ha]; [|done]. intros k r t _ _ _. rewrite Ha. apply not_elem_of_nil.
  - intros [Hl Ha]. auto.
Qed.

(** The [WHERE] clause says what the request asks for. *)
Lemma eligible_suits db request config h : eligible db request config h = true <-> suits db request config h.
Proof.
  unfold eligible, fits_memory, fits_cpu. rewrite !andb_true_iff, !when_spec, ?null_or_spec, bool_decide_eq_true, negb_true_iff,
    bool_decide_eq_false, forallb_forall. setoid_rewrite <- list_elem_of_In. setoid_rewrite bool_decide_eq_true.
  setoid_rewrite null_or_spec. setoid_rewrite String.eqb_eq. setoid_rewrite Z.ltb_lt. setoid_rewrite Z.leb_le.
  rewrite !allocated_committed. setoid_rewrite free_gpus_spec. setoid_rewrite policy_allows_spec. split.
  - intros ((((((((((H1&H2)&H3)&H4)&H5)&H6)&H7)&H8)&H9)&H10)&H11). split; try done.
    + intros a b Ha Hb. by apply (H5 a).
    + intros p c Hp Hc. by apply (H6 p).
    + intros p Hp. by apply (H6 p).
    + intros p k r t Hp Hr Ho Ht. by apply (H6 p Hp) with k r.
  - intros [H1 H2 H3 H4 H5 H6 H7 H8 H9 H10 H11 H12 H13]. repeat apply conj; try done.
    + intros a Ha b Hb. by apply H5.
    + intros p Hp. split_and!; [intros c Hc; by eapply H6|by apply H7|]. intros k r t. by apply (H8 p k r t Hp).
Qed.

Lemma key_cmp_eq a b : key_cmp a b = Eq -> a = b.
Proof.
  destruct a as [[a1 a2] a3], b as [[b1 b2] b3]. unfold key_cmp. simpl.
  destruct (Z.compare_spec a1 b1); [|done..]. destruct (Z.compare_spec a2 b2); [|done..]. intros ?%Z.compare_eq. congruence.
Qed.
Lemma load_order x y : nulls_last f64_le x y -> lighter x y \/ as_light x y /\ nulls_last f64_le y x.
Proof.
  destruct x as [a|], y as [b|]; simpl; auto. unfold f64_le, f64_leb. intros Hle. destruct (f64_cmp a b) eqn:E; [|by left|done].
  right. split; [done|]. rewrite f64_cmp_key in E |- *. apply key_cmp_eq in E as ->. unfold key_cmp. by rewrite !Z.compare_refl.
Qed.

Lemma policy_rank_affinity db request h : affinity_rank db request h = - policy_count db pp_affinity_tags request h.
Proof.
  unfold affinity_rank, policy_count. destruct (sr_placement_policy request) as [p|]; [|done]. rewrite count_tagged_on.
  case_bool_decide as E; [by rewrite E|]. by destruct (pp_affinity_tags p).
Qed.
Lemma policy_rank_spread db request h : spread_rank db request h = policy_count db pp_spread_tags request h.
Proof.
  unfold spread_rank, policy_count. destruct (sr_placement_policy request) as [p|]; [|done]. rewrite count_tagged_on.
  case_bool_decide as E; [by rewrite E|]. by destruct (pp_spread_tags p).
Qed.
Lemma preference_spec request h :
  preference_rank request h = 0 /\ prefers request h \/ preference_rank request h = 1 /\ ~ prefers request h.
Proof.
  unfold preference_rank, prefers. destruct (sr_placement_policy request) as [p|]; [|by left].
  case_bool_decide as E; [left; split; [done|]; intros ? [= <-]; rewrite E; apply map_empty_subseteq|].
  destruct (has_labels _ _) eqn:Hl; [left|right]; (split; [done|]).
  - intros ? [= <-]. by apply has_labels_spec.
  - intros Hp. specialize (Hp p eq_refl). apply has_labels_spec in Hp. congruence.
Qed.

(** The [ORDER BY] clause is the order of the choice. *)
Lemma better_chosen db request h h' : better db request h h' -> chosen_before db request h h'.
Proof.
  unfold better, lex, on_key, chosen_before. rewrite !policy_rank_affinity, !policy_rank_spread. intros [Hp Hrest].
  destruct (preference_spec request h) as [[Ep P]|[Ep P]], (preference_spec request h') as [[Ep' P']|[Ep' P']];
    rewrite Ep, Ep' in *; [right|by left|lia|right]; (split; [tauto|]); destruct Hrest as [Ha Hrest]; [lia| |lia|].
  all: destruct (decide (policy_count db pp_affinity_tags request h' < policy_count db pp_affinity_tags request h));
    [by left|right; split; [lia|]]; destruct Hrest as [Hs Hrest]; [lia|].
  all: destruct (decide (policy_count db pp_spread_tags request h < policy_count db pp_spread_tags request h'));
    [by left|right; split; [lia|]]; destruct Hrest as [Hl Hrest]; [lia|].
  all: apply load_order in Hl as [Hl|[Hl Hr]]; [by left|right; auto].
Qed.

(** C24. The picked host can take the VM of the request (it is up, not excluded, has the
    pool, the networks, the architecture, the reservation class and the labels asked for, no
    VM it must be kept apart from, room in memory, CPUs and disk, and the GPUs), is not
    held by another transaction, and is chosen before every other such host: by preferred
    labels, then affinity, then spread, then load, then name.  Nothing is picked only when
    every host that can take the VM is held. *)
Theorem pick_host_best locked request config o w w' res :
  pick_host_tx locked request config o w = (w', Ok res) ->
  let db := conn_db Tx w in
  match res with
  | Some h =>
      (exists k, t_hosts db !! k = Some h) /\ suits db request config h /\ (h_id h ∉ locked) /\
      (forall k h', t_hosts db !! k = Some h' -> suits db request config h' -> h_id h' ∉ locked -> chosen_before db request h h')
  | None => forall k h', t_hosts db !! k = Some h' -> suits db request config h' -> h_id h' ∈ locked
  end.
Proof.
  intros Hrun. apply pick_host_inv in Hrun as [_ Hres]. cbv zeta. destruct res as [h|].
  - destruct Hres as (Hk&He&Hl&Hbest). split_and!; [done|by apply eligible_suits|done|]. intros k h' Hk' Hs Hl'.
    eapply better_chosen, Hbest; [done|by apply eligible_suits|done].
  - intros k h' Hk Hs. eapply Hres; [done|]. by apply eligible_suits.
Qed.

Lemma eligible_spec db request config h :
  eligible db request config h = true ->
  h_status h = HostUp /\ (h_id h ∉ sr_excluded_host_ids request) /\
  (forall pool, sr_storage_pool_id request = Some pool -> (h_id h, pool) ∈ t_host_storage_pools db) /\
  (forall net, net ∈ sr_required_network_ids request -> is_Some (t_host_networks db !! (h_id h, net))) /\
  fits_memory db config request h = true /\ fits_cpu db config request h = true /\
  (forall g, sr_gpu request = Some g -> gr_count g <= free_gpus db (h_id h) g).
Proof.
  unfold eligible. rewrite !andb_true_iff. intros Hel.
  destruct Hel as ((((((((((Hup&Hpool)&Hex)&Hnet)&_)&_)&Hmem)&Hcpu)&_)&_)&Hgpu).
  apply bool_decide_eq_true in Hup. apply negb_true_iff, bool_decide_eq_false in Hex.
  split_and!; try done.
  - intros pool Hp. rewrite Hp in Hpool. by apply bool_decide_eq_true in Hpool.
  - intros net Hn. rewrite forallb_forall in Hnet. specialize (Hnet net).
    rewrite <- list_elem_of_In in Hnet. by apply Hnet, bool_decide_eq_true in Hn.
  - intros g Hg. rewrite Hg in Hgpu. by apply Z.leb_le in Hgpu.
Qed.

(** *** Budgets *)

(** Quantities a double holds exactly. *)
Definition exact (n : Z) : Prop := 0 <= n < 2 ^ 53.

Lemma fits_exact column config_ratio r a q :
  config_ratio = f64_of_Z r -> exact r -> exact a -> exact q ->
  (forall total, column = Some total -> exact total /\ exact (total * r)) ->
  null_or column (fun total => within_budget total config_ratio a q) = true ->
  forall total, column = Some total -> a + q <= total * r.
Proof.
  intros -> Hr Ha Hq Hcol Hfit total ->. destruct (Hcol _ eq_refl) as [Ht Htr].
  simpl in Hfit. unfold exact in *. by apply within_budget_exact in Hfit; try lia.
Qed.

(** Every host stays within its memory and CPU budgets, the totals it reported
    times the oversubscription ratios [rm] and [rc]. *)
Definition ledger_ok (rm rc : Z) (db : Db) : Prop :=
  forall k h, t_hosts db !! k = Some h ->
    (forall total, h_total_memory_bytes h = Some total ->
       allocated v_memory_size k db <= total * rm) /\
    (forall total, h_total_cpus h = Some total -> allocated v_boot_vcpus k db <= total * rc).

(** The sizes involved are exact in double precision. *)
Definition sizes_exact (rm rc : Z) (db : Db) : Prop :=
  exact rm /\ exact rc /\
  forall k h, t_hosts db !! k = Some h ->
    h_id h = k /\ exact (allocated v_memory_size k db) /\ exact (allocated v_boot_vcpus k db) /\
    (forall total, h_total_memory_bytes h = Some total -> exact total /\ exact (total * rm)) /\
    (forall total, h_total_cpus h = Some total -> exact total /\ exact (total * rc)).

Lemma create_tx_inv vm host status o w w' id :
  Vms.create_tx_with_status vm host status o w = (w', Ok id) ->
  t_vms (conn_db Tx w) !! id = None /\ w_db w' = w_db w /\
  conn_db Tx w' = with_vms (insert id (new_row id vm host status)) (conn_db Tx w).
Proof.
  unfold create_tx_with_status. intros Hrun. minv.
  match goal with Hf : _ = Ok (_, _) |- _ =>
    apply result_bind_ok in Hf as ([]&_&Hf); apply result_bind_ok in Hf as ([]&_&Hf);
    apply result_bind_ok in Hf as (vms&Hins&Hf) end.
  unfold insert_pk in Hins. case_match; [done|]. by simplify_eq/=.
Qed.

(** C9. Placing a VM on the host the scheduler picked keeps every host within its
    memory and CPU budgets. *)
Theorem placement_within_budget locked request config rm rc vm status o o' w w1 w2 h id :
  ss_memory_oversubscription_ratio config = f64_of_Z rm ->
  ss_cpu_oversubscription_ratio config = f64_of_Z rc ->
  sizes_exact rm rc (conn_db Tx w) -> ledger_ok rm rc (conn_db Tx w) ->
  rv_memory_size vm = sr_memory_bytes request -> rv_boot_vcpus vm = sr_vcpus request ->
  exact (sr_memory_bytes request) -> exact (sr_vcpus request) ->
  pick_host_tx locked request config o w = (w1, Ok (Some h)) ->
  Vms.create_tx_with_status vm (Some (h_id h)) status o' w1 = (w2, Ok id) ->
  ledger_ok rm rc (conn_db Tx w2).
Proof.
  intros Hrm Hrc (Erm&Erc&Hsizes) Hledger Hmem Hcpu Em Ec Hpick Hcreate.
  apply pick_host_inv in Hpick as [-> ([k Hk]&Hel&_)].
  destruct (Hsizes k h Hk) as (Hid&Ha&Hc&Htm&Htc).
  apply eligible_spec in Hel as (_&_&_&_&Hfm&Hfc&_). unfold fits_memory, fits_cpu in *.
  apply create_tx_inv in Hcreate as (Hnone&_&Hdb). rewrite Hdb.
  change (conn_db Tx (tick w)) with (conn_db Tx w) in *.
  rewrite Hid in *. intros k' h' Hk'. simpl in Hk'.
  destruct (Hledger k' h' Hk') as [Hlm Hlc].
  rewrite !allocated_insert by done. unfold charge.
  destruct (counted k' (new_row id vm (Some k) status)) eqn:Hcount; [|auto].
  apply andb_true_iff in Hcount as [Hhost%bool_decide_eq_true _]. simplify_eq/=.
  rewrite Hmem, Hcpu. split; intros total Ht.
  - rewrite Z.add_comm. eapply fits_exact; eauto.
  - rewrite Z.add_comm. eapply fits_exact; eauto.
Qed.
End order.

Section witnesses.
#[local] Instance witness_collation : Collation := encoding_collation.
#[local] Instance witness_serde : PolicySerde := array_policy_serde.

Definition small_request : SchedulingRequest :=
  {| sr_memory_bytes := 1024; sr_vcpus := 2; sr_disk_bytes := 0; sr_architecture := None;
     sr_storage_pool_id := None; sr_required_network_ids := []; sr_gpu := None;
     sr_placement_policy := None; sr_excluded_host_ids := [] |}.
Definition one_host_db : Db :=
  with_hosts (fun _ => {[5%N := sample_host 5 "rack1" "10.0.0.5" HostUp 8 (2 ^ 34) (2 ^ 40)]}) empty_db.
Definition picked_host : Host := sample_host 5 "rack1" "10.0.0.5" HostUp 8 (2 ^ 34) (2 ^ 40).

Definition two_hosts_db : Db :=
  with_hosts (insert 6%N (sample_host 6 "rack0" "10.0.0.6" HostDown 8 (2 ^ 34) (2 ^ 40))) one_host_db.
Lemma pick_host_best_witness :
  suits two_hosts_db small_request default_scheduling picked_host /\ ~ suits two_hosts_db small_request default_scheduling
    (sample_host 6 "rack0" "10.0.0.6" HostDown 8 (2 ^ 34) (2 ^ 40)).
Proof.
  split; [|by intros []].
  destruct (pick_host_best ∅ small_request default_scheduling calm_oracle (world_of two_hosts_db)
    (tick (world_of two_hosts_db)) (Some picked_host)) as (_&Hs&_).
  - vm_compute. reflexivity.
  - exact Hs.
Defined.

Lemma placement_within_budget_witness :
  ledger_ok 1 4 (conn_db Tx (Vms.create_tx_with_status web_resolved (Some 5%N) Created calm_oracle
    (tick (world_of one_host_db))).1).
Proof.
  eapply (placement_within_budget ∅ small_request default_scheduling 1 4 web_resolved Created
    calm_oracle calm_oracle (world_of one_host_db) (tick (world_of one_host_db)) _ picked_host 1001).
  - reflexivity.
  - reflexivity.
  - split_and!; [done|done|]. intros k h. simpl. rewrite lookup_singleton_Some. intros [<- <-].
    split_and!; try done; intros total [= <-]; done.
  - intros k h. simpl. rewrite lookup_singleton_Some. intros [<- <-].
    split; intros total [= <-]; vm_compute; discriminate.
  - reflexivity.
  - reflexivity.
  - done.
  - done.
  - vm_compute. reflexivity.
  - vm_compute. reflexivity.
Defined.
End witnesses.
