(* ===== verification/Ipv4.v ===== *)
(** * Ipv4: address arithmetic of the IP allocator

    The 32-bit arithmetic of [next_available_ip] ([qarax/src/model/networks.rs]):
    dotted-quad parsing and printing, the bounds of a subnet from its base and
    prefix length, and the scan for a free address, with shifts and additions
    kept at 32 bits (a shift count is taken modulo 32 and sums wrap around).
    The theorems give the round trip of addresses and the subnet bounds for
    every prefix length from 1 to 32. *)

From S2P Require Import Prelude Text.
From Stdlib Require Import Ascii.
#[local] Open Scope Z_scope.

Definition wrap32 (n : Z) : Z := n mod 4294967296.
Definition shl32 (x k : Z) : Z := wrap32 (Z.shiftl x (k mod 32)).

(** [(a as u32) << 24 | (b as u32) << 16 | (c as u32) << 8 | d as u32]. *)
Definition octets_u32 (a b c d : Z) : Z :=
  Z.lor (Z.lor (Z.lor (Z.shiftl a 24) (Z.shiftl b 16)) (Z.shiftl c 8)) d.

(** [s.split('.').filter_map(|o| o.parse().ok()).collect::<Vec<u8>>()], when it
    has four elements. *)
Definition ipv4_of_text (s : string) : option Z :=
  match omap parse_u8 (str_split "."%char s) with
  | [a; b; c; d] => Some (octets_u32 a b c d)
  | _ => None
  end.

(** [format!("{}.{}.{}.{}", (addr >> 24) & 0xFF, ...)]. *)
Definition octet (addr k : Z) : Z := Z.land (Z.shiftr addr k) 255.
Definition fmt_ipv4 (addr : Z) : string :=
  join "." [fmt_nat (octet addr 24); fmt_nat (octet addr 16); fmt_nat (octet addr 8);
            fmt_nat (octet addr 0)].

(** The bounds of the subnet of [base] with [prefix_len] network bits. *)
Definition network_addr (base prefix_len : Z) : Z :=
  Z.land base (shl32 u32_max (wrap32 (32 - prefix_len))).
Definition broadcast_addr (base prefix_len : Z) : Z :=
  Z.lor (network_addr base prefix_len) (wrap32 (shl32 1 (wrap32 (32 - prefix_len)) - 1)).

(** [for addr in (network_addr + 1)..broadcast_addr]: the first address that is
    not skipped. *)
Fixpoint scan (n : nat) (addr : Z) (skip : Z -> bool) : option Z :=
  match n with
  | O => None
  | S n' => if skip addr then scan n' (addr + 1) skip else Some addr
  end.
Definition first_free (base prefix_len : Z) (skip : Z -> bool) : option Z :=
  let first := wrap32 (network_addr base prefix_len + 1) in
  scan (Z.to_nat (broadcast_addr base prefix_len - first)) first skip.

(** ** Lemmas *)

Definition is_u32 (n : Z) : Prop := 0 <= n < 4294967296.
#[global] Instance is_u32_dec n : Decision (is_u32 n).
Proof. unfold is_u32. apply _. Defined.

Lemma scan_spec n addr skip :
  match scan n addr skip with
  | Some a => addr <= a < addr + Z.of_nat n /\ skip a = false /\
              forall b, addr <= b < a -> skip b = true
  | None => forall b, addr <= b < addr + Z.of_nat n -> skip b = true
  end.
Proof.
  revert addr. induction n as [|n IH]; intros addr; cbn [scan]; [intros b Hb; lia|].
  destruct (skip addr) eqn:Hs.
  - specialize (IH (addr + 1)). destruct (scan n (addr + 1) skip) as [a|].
    + destruct IH as (Hr&Ha&Hb). split_and!; [lia|lia|done|]. intros b Hlt.
      destruct (decide (b = addr)) as [->|]; [done|]. apply Hb. lia.
    + intros b Hlt. destruct (decide (b = addr)) as [->|]; [done|]. apply IH. lia.
  - split_and!; [lia|lia|done|]. intros b Hlt. lia.
Qed.

Lemma octet_range a k : 0 <= octet a k <= 255.
Proof.
  unfold octet. change (Z.land (Z.shiftr a k) 255) with (Z.land (Z.shiftr a k) (Z.ones 8)).
  rewrite Z.land_ones by lia.
  change (2 ^ 8) with 256. pose proof (Z.mod_pos_bound (Z.shiftr a k) 256). lia.
Qed.

(** The bits an octet contributes to its address. *)
Lemma octet_bit a k n :
  0 <= n -> 0 <= k ->
  Z.testbit (Z.shiftl (octet a k) k) n = (k <=? n) && (n <? k + 8) && Z.testbit a n.
Proof.
  intros Hn Hk. rewrite Z.shiftl_spec by done. unfold octet. change 255 with (Z.ones 8).
  destruct (Z.leb_spec k n).
  - rewrite Z.land_spec, Z.shiftr_spec, Z.testbit_ones_nonneg by lia.
    replace (n - k + k) with n by lia.
    destruct (Z.ltb_spec (n - k) 8), (Z.ltb_spec n (k + 8)); try lia; simpl;
      by rewrite ?andb_true_r, ?andb_false_r.
  - rewrite Z.testbit_neg_r by lia. done.
Qed.

Lemma bits_above a n : is_u32 a -> 32 <= n -> Z.testbit a n = false.
Proof.
  intros Ha Hn. destruct (decide (a = 0)) as [->|]; [by apply Z.testbit_0_l|].
  apply Z.bits_above_log2; [unfold is_u32 in *; lia|].
  apply Z.log2_lt_pow2; [unfold is_u32 in *; lia|].
  apply Z.lt_le_trans with (2 ^ 32); [unfold is_u32 in *; lia|]. by apply Z.pow_le_mono_r.
Qed.

(** Reassembling the octets of an address gives the address. *)
Lemma octets_reassemble a :
  is_u32 a -> octets_u32 (octet a 24) (octet a 16) (octet a 8) (octet a 0) = a.
Proof.
  intros Ha. apply Z.bits_inj'. intros n Hn. unfold octets_u32.
  rewrite <- (Z.shiftl_0_r (octet a 0)), !Z.lor_spec, !octet_bit by lia.
  destruct (Z.testbit a n) eqn:Hb; [|by rewrite !andb_false_r].
  rewrite !andb_true_r.
  assert (n < 32) by (destruct (decide (n < 32)); [done|]; rewrite bits_above in Hb by (done || lia); done).
  repeat match goal with |- context [?x <=? ?y] => destruct (Z.leb_spec x y)
                    | |- context [?x <? ?y] => destruct (Z.ltb_spec x y) end; simpl; try done; lia.
Qed.

Lemma digits_no_char sep s : digit_val sep = None -> all_digits s -> no_char sep s.
Proof.
  intros Hsep Hd. unfold no_char, all_digits in *. eapply Forall_impl; [exact Hd|].
  intros c [v Hc] ->. congruence.
Qed.

Lemma parse_u8_fmt n : 0 <= n <= 255 -> parse_u8 (fmt_nat n) = Some n.
Proof. intros Hn. apply parse_unsigned_fmt_nat. unfold u8_max. lia. Qed.

(** Printing an address and parsing the text gives the address back. *)
Theorem ipv4_text_roundtrip a : is_u32 a -> ipv4_of_text (fmt_ipv4 a) = Some a.
Proof.
  intros Ha. unfold ipv4_of_text, fmt_ipv4.
  change "."%string with (String "."%char EmptyString). rewrite split_join; [|done|].
  - cbn [omap list_omap]. rewrite !parse_u8_fmt by apply octet_range. by rewrite octets_reassemble.
  - repeat constructor; apply digits_no_char; try done; apply fmt_nat_all_digits.
Qed.

Lemma fmt_ipv4_inj a b : is_u32 a -> is_u32 b -> fmt_ipv4 a = fmt_ipv4 b -> a = b.
Proof.
  intros Ha Hb E. apply (f_equal ipv4_of_text) in E.
  rewrite !ipv4_text_roundtrip in E by done. congruence.
Qed.

Lemma fmt_ipv4_no_slash a : no_char "/"%char (fmt_ipv4 a).
Proof.
  unfold fmt_ipv4. simpl join. rewrite !no_char_app.
  assert (forall n, no_char "/"%char (fmt_nat n)).
  { intros n. apply digits_no_char; [done|apply fmt_nat_all_digits]. }
  split_and!; try done; by repeat constructor.
Qed.

(** ** Subnets *)

Lemma mask_bit hb n : 0 <= hb < 32 -> 0 <= n ->
  Z.testbit (shl32 u32_max hb) n = (hb <=? n) && (n <? 32).
Proof.
  intros Hhb Hn. unfold shl32, wrap32. rewrite (Z.mod_small hb) by lia.
  change 4294967296 with (2 ^ 32). change u32_max with (Z.ones 32).
  rewrite <- Z.land_ones by lia. rewrite Z.land_spec, Z.shiftl_spec by lia.
  rewrite (Z.testbit_ones_nonneg 32 n) by lia. destruct (Z.leb_spec hb n).
  - rewrite Z.testbit_ones_nonneg by lia.
    destruct (Z.ltb_spec n 32), (Z.ltb_spec (n - hb) 32); simpl; try done; lia.
  - by rewrite Z.testbit_neg_r by lia.
Qed.

Lemma network_addr_eq base p :
  is_u32 base -> 1 <= p <= 32 -> network_addr base p = base / 2 ^ (32 - p) * 2 ^ (32 - p).
Proof.
  intros Hb Hp. unfold network_addr, wrap32. rewrite (Z.mod_small (32 - p)) by lia.
  rewrite <- Z.shiftr_div_pow2, <- Z.shiftl_mul_pow2 by lia.
  apply Z.bits_inj'. intros n Hn. rewrite Z.land_spec, mask_bit, Z.shiftl_spec by lia.
  destruct (Z.leb_spec (32 - p) n).
  - rewrite Z.shiftr_spec by lia. replace (n - (32 - p) + (32 - p)) with n by lia.
    destruct (Z.ltb_spec n 32); simpl; [by rewrite andb_true_r|].
    rewrite bits_above by (done || lia). done.
  - rewrite (Z.testbit_neg_r _ (n - (32 - p))) by lia. by rewrite andb_false_r.
Qed.

Lemma broadcast_addr_eq base p :
  is_u32 base -> 1 <= p <= 32 ->
  broadcast_addr base p = network_addr base p + 2 ^ (32 - p) - 1.
Proof.
  intros Hb Hp. unfold broadcast_addr. unfold shl32 at 1, wrap32.
  rewrite (Z.mod_small (32 - p)) by lia. rewrite (Z.mod_small (32 - p) 32) by lia.
  rewrite Z.shiftl_1_l.
  assert (0 < 2 ^ (32 - p) <= 2 ^ 31) as Hpow.
  { split; [apply Z.pow_pos_nonneg; lia|apply Z.pow_le_mono_r; lia]. }
  rewrite (Z.mod_small (2 ^ (32 - p))) by lia. rewrite Z.mod_small by lia.
  pose proof (Z.add_lor_land (network_addr base p) (2 ^ (32 - p) - 1)) as Hadd.
  assert (Z.land (network_addr base p) (2 ^ (32 - p) - 1) = 0) as Hzero.
  { rewrite Z.sub_1_r, <- Z.ones_equiv, Z.land_ones by lia.
    rewrite network_addr_eq by done. apply Z.mod_mul. lia. }
  lia.
Qed.

(** The usable addresses of a subnet: strictly between its first and last. *)
Definition usable (base p addr : Z) : Prop :=
  base / 2 ^ (32 - p) * 2 ^ (32 - p) < addr < base / 2 ^ (32 - p) * 2 ^ (32 - p) + 2 ^ (32 - p) - 1.

Lemma subnet_bounds base p :
  is_u32 base -> 1 <= p <= 32 ->
  0 <= network_addr base p <= base /\ base <= broadcast_addr base p < 4294967296.
Proof.
  intros Hb Hp. rewrite broadcast_addr_eq, network_addr_eq by done.
  assert (0 < 2 ^ (32 - p)) by (apply Z.pow_pos_nonneg; lia).
  assert (2 ^ 32 = 2 ^ p * 2 ^ (32 - p)) as E by (rewrite <- Z.pow_add_r by lia; f_equal; lia).
  pose proof (Z.div_mod base (2 ^ (32 - p)) ltac:(lia)) as D.
  pose proof (Z.mod_pos_bound base (2 ^ (32 - p)) ltac:(lia)) as B.
  assert (base / 2 ^ (32 - p) < 2 ^ p) as Q.
  { apply Z.div_lt_upper_bound; [lia|]. unfold is_u32 in Hb. lia. }
  assert (0 <= base / 2 ^ (32 - p)) by (apply Z.div_pos; unfold is_u32 in Hb; lia).
  unfold is_u32 in Hb. change 4294967296 with (2 ^ 32). rewrite E. nia.
Qed.

(** The scan returns the least usable address that is not skipped, and nothing
    only when all of them are. *)
Lemma first_free_spec base p skip :
  is_u32 base -> 1 <= p <= 31 ->
  match first_free base p skip with
  | Some a => usable base p a /\ is_u32 a /\ skip a = false /\
              forall b, usable base p b -> b < a -> skip b = true
  | None => forall b, usable base p b -> skip b = true
  end.
Proof.
  intros Hb Hp. pose proof (subnet_bounds base p Hb ltac:(lia)) as [Hn Hbc].
  unfold first_free, usable. rewrite <- network_addr_eq by (done || lia).
  rewrite (broadcast_addr_eq base p) in * by (done || lia).
  assert (2 ^ 1 <= 2 ^ (32 - p)) by (apply Z.pow_le_mono_r; lia).
  assert (wrap32 (network_addr base p + 1) = network_addr base p + 1) as ->.
  { unfold wrap32. apply Z.mod_small. lia. }
  pose proof (scan_spec (Z.to_nat (network_addr base p + 2 ^ (32 - p) - 1 - (network_addr base p + 1)))
    (network_addr base p + 1) skip) as Hs.
  destruct (scan _ _ skip) as [a|].
  - destruct Hs as (Hr&Ha&Hmin). unfold is_u32.
    split_and!; [lia|lia|lia|lia|done|]. intros b Hu Hlt. apply Hmin. lia.
  - intros b Hu. apply Hs. lia.
Qed.

Lemma lor_u32 a b : is_u32 a -> is_u32 b -> is_u32 (Z.lor a b).
Proof.
  unfold is_u32. intros Ha Hb. split; [by apply Z.lor_nonneg; lia|].
  destruct (decide (Z.lor a b = 0)) as [->|]; [lia|].
  assert (0 <= Z.lor a b) by (apply Z.lor_nonneg; lia).
  change 4294967296 with (2 ^ 32) in *. apply Z.log2_lt_pow2; [lia|].
  rewrite Z.log2_lor by lia. apply Z.max_lub_lt.
  - destruct (decide (a = 0)) as [->|]; [done|]. apply Z.log2_lt_pow2; lia.
  - destruct (decide (b = 0)) as [->|]; [done|]. apply Z.log2_lt_pow2; lia.
Qed.

Lemma parse_u8_range s n : parse_u8 s = Some n -> 0 <= n <= 255.
Proof.
  unfold parse_u8, parse_unsigned, checked. intros Hp.
  repeat case_match; simplify_eq; unfold u8_max in *;
    match goal with Hr : in_range _ _ _ = true |- _ => by apply in_range_spec in Hr end.
Qed.

Lemma ipv4_of_text_u32 s a : ipv4_of_text s = Some a -> is_u32 a.
Proof.
  unfold ipv4_of_text. intros Hp.
  assert (Forall (fun n => 0 <= n <= 255) (omap parse_u8 (str_split "."%char s))) as Hall.
  { apply Forall_forall. intros n (x&_&Hx)%list_elem_of_omap. by eapply parse_u8_range. }
  destruct (omap _ _) as [|x [|y [|z [|t [|]]]]]; simplify_eq.
  rewrite !Forall_cons in Hall. destruct Hall as (Hx&Hy&Hz&Ht&_).
  unfold octets_u32. rewrite !Z.shiftl_mul_pow2 by lia.
  repeat apply lor_u32; unfold is_u32; lia.
Qed.

Lemma octet_div a k : 0 <= k -> octet a k = (a / 2 ^ k) mod 256.
Proof.
  intros Hk. unfold octet. change 255 with (Z.ones 8).
  by rewrite Z.land_ones, Z.shiftr_div_pow2.
Qed.

(** Adding one to an address that does not end in 255 only changes its last octet. *)
Lemma octet_succ a k :
  0 <= a -> a mod 256 <> 255 -> 8 <= k -> octet (a + 1) k = octet a k.
Proof.
  intros Ha Hlast Hk. rewrite !octet_div by lia. f_equal.
  assert (2 ^ k = 256 * 2 ^ (k - 8)) as E
    by (change 256 with (2 ^ 8); rewrite <- Z.pow_add_r by lia; f_equal; lia).
  assert (0 < 2 ^ (k - 8)) by (apply Z.pow_pos_nonneg; lia).
  rewrite E, <- !Z.div_div by lia. f_equal.
  pose proof (Z.div_mod a 256 ltac:(lia)). pose proof (Z.mod_pos_bound a 256 ltac:(lia)).
  symmetry. apply (Z.div_unique (a + 1) 256 (a / 256) (a mod 256 + 1)); lia.
Qed.

Lemma ipv4_text_roundtrip_witness : ipv4_of_text (fmt_ipv4 3232235777) = Some 3232235777.
Proof. apply ipv4_text_roundtrip. unfold is_u32. lia. Defined.
