(* ===== verification/Netfilter.v ===== *)
(** * Netfilter: what the documentation of iptables promises

    The node agent programs the packet filter of its host by running [iptables].
    The tool and the kernel are not part of this repository: a class holds the
    kernel state and the function that runs a command, with two laws taken from
    the manual page.  A command that succeeds had its documented effect on the
    rules, and one that fails changed nothing.

    A rule is the list of words [iptables -S] prints for it.  The options the
    agent uses have a meaning ([parse_rule], [rule_matches_packet]), and a chain
    judges a packet by its rules in order ([judge]).  A simulator that meets the
    laws closes the file. *)

From S2P Require Import Prelude Text Ipv4.
From Stdlib Require Import Ascii.
#[local] Open Scope Z_scope.

(** ** Addresses *)

(** [Ipv4Addr::from_str]: four decimal octets without leading zeros. *)
Definition std_octet (s : string) : option Z :=
  List.find (fun n => String.eqb (fmt_nat n) s) (seqZ 0 256).
Definition std_ipv4 (s : string) : option Z :=
  match str_split "."%char s with
  | [a; b; c; d] =>
      a ← std_octet a; b ← std_octet b; c ← std_octet c; d ← std_octet d;
      Some (octets_u32 a b c d)
  | _ => None
  end.

Record Cidr := { cidr_base : Z; cidr_len : Z }.

Definition cidr_mask (len : Z) : Z := 4294967296 - 2 ^ (32 - len).
Definition in_cidr (c : Cidr) (addr : Z) : bool :=
  Z.land addr (cidr_mask (cidr_len c)) =? cidr_base c.

Definition parse_cidr (s : string) : option Cidr :=
  '(ip, len) ← split_once "/"%char s;
  ip ← std_ipv4 ip; len ← parse_u8 len;
  if len <=? 32 then Some {| cidr_base := Z.land ip (cidr_mask len); cidr_len := len |} else None.

Definition cidr_text (c : Cidr) : string :=
  fmt_ipv4 (cidr_base c) +:+ "/" +:+ fmt_nat (cidr_len c).

(** ** Rules *)

Inductive Target := Accept | Drop | Return | Masquerade | Jump (chain : string) | NoTarget.
Inductive L4 := L4Tcp | L4Udp | L4Icmp.

Record Rule := {
  nr_src : option Cidr;
  nr_dst : option Cidr;
  nr_in : option string;
  nr_out : option (bool * string);
  nr_proto : option L4;
  nr_dport : option (Z * Z);
  nr_established : bool;
  nr_target : Target
}.

Definition any_rule : Rule :=
  {| nr_src := None; nr_dst := None; nr_in := None; nr_out := None; nr_proto := None;
     nr_dport := None; nr_established := false; nr_target := NoTarget |}.

Definition target_of (s : string) : Target :=
  if String.eqb s "ACCEPT" then Accept else if String.eqb s "DROP" then Drop
  else if String.eqb s "RETURN" then Return else if String.eqb s "MASQUERADE" then Masquerade
  else Jump s.
Definition target_text (t : Target) : string :=
  match t with
  | Accept => "ACCEPT" | Drop => "DROP" | Return => "RETURN" | Masquerade => "MASQUERADE"
  | Jump c => c | NoTarget => ""
  end.

Definition l4_of (s : string) : option L4 :=
  if String.eqb s "tcp" then Some L4Tcp else if String.eqb s "udp" then Some L4Udp
  else if String.eqb s "icmp" then Some L4Icmp else None.
Definition l4_text (p : L4) : string :=
  match p with L4Tcp => "tcp" | L4Udp => "udp" | L4Icmp => "icmp" end.

(** A port or a range [first:last]. *)
Definition ports_of (s : string) : option (Z * Z) :=
  match split_once ":"%char s with
  | None => n ← parse_u16 s; Some (n, n)
  | Some (a, b) => m ← parse_u16 a; n ← parse_u16 b; Some (m, n)
  end.
Definition ports_text (p : Z * Z) : string :=
  if p.1 =? p.2 then fmt_nat p.1 else fmt_nat p.1 +:+ ":" +:+ fmt_nat p.2.

(** One option with its argument; [neg] after an exclamation mark. *)
Definition set_option (neg : bool) (flag v : string) (r : Rule) : option Rule :=
  let 'Build_Rule src dst i o p dp est t := r in
  if String.eqb flag "-o" then Some (Build_Rule src dst i (Some (neg, v)) p dp est t)
  else if neg then None
  else if String.eqb flag "-i" then Some (Build_Rule src dst (Some v) o p dp est t)
  else if String.eqb flag "-s" then c ← parse_cidr v; Some (Build_Rule (Some c) dst i o p dp est t)
  else if String.eqb flag "-d" then c ← parse_cidr v; Some (Build_Rule src (Some c) i o p dp est t)
  else if String.eqb flag "-p" then l ← l4_of v; Some (Build_Rule src dst i o (Some l) dp est t)
  else if String.eqb flag "-m" then Some r
  else if String.eqb flag "--ctstate" then
    if String.eqb v "ESTABLISHED,RELATED" || String.eqb v "RELATED,ESTABLISHED"
    then Some (Build_Rule src dst i o p dp true t) else None
  else if String.eqb flag "--dport" then
    q ← ports_of v; Some (Build_Rule src dst i o p (Some q) est t)
  else if String.eqb flag "-j" then Some (Build_Rule src dst i o p dp est (target_of v))
  else None.

Fixpoint parse_options (neg : bool) (args : list string) (r : Rule) : option Rule :=
  match args with
  | [] => if neg then None else Some r
  | flag :: rest =>
      if String.eqb flag "!" then parse_options true rest r
      else match rest with
           | v :: rest' => r ← set_option neg flag v r; parse_options false rest' r
           | [] => None
           end
  end.
Definition parse_rule (args : list string) : option Rule := parse_options false args any_rule.

(** The words [iptables -S] prints; a prefix of length 0 is left out. *)
Definition cidr_words (flag : string) (c : option Cidr) : list string :=
  match c with
  | Some c => if cidr_len c =? 0 then [] else [flag; cidr_text c]
  | None => []
  end.
Definition rule_words (r : Rule) : list string :=
  cidr_words "-s" (nr_src r) ++ cidr_words "-d" (nr_dst r)
  ++ match nr_in r with Some i => ["-i"; i] | None => [] end
  ++ match nr_out r with
     | Some (neg, o) => (if neg : bool then ["!"] else []) ++ ["-o"; o]
     | None => []
     end
  ++ match nr_proto r with Some p => ["-p"; l4_text p] | None => [] end
  ++ (if nr_established r then ["-m"; "conntrack"; "--ctstate"; "RELATED,ESTABLISHED"] else [])
  ++ match nr_dport r with
     | Some q => match nr_proto r with Some p => ["-m"; l4_text p] | None => [] end
                 ++ ["--dport"; ports_text q]
     | None => []
     end
  ++ match nr_target r with NoTarget => [] | t => ["-j"; target_text t] end.

(** How a rule that was given as [args] is printed.  Options outside this
    language are only ever handed back as they were printed. *)
Definition canonical (args : list string) : list string :=
  match parse_rule args with Some r => rule_words r | None => args end.

(** ** Packets *)

Record Packet := {
  p_in : string;
  p_out : string;
  p_src : Z;
  p_dst : Z;
  p_proto : L4;
  p_dport : Z;
  p_established : bool
}.

#[global] Instance L4_eq_dec : EqDecision L4.
Proof. solve_decision. Defined.

Definition opt_holds {A} (o : option A) (p : A -> bool) : bool :=
  match o with Some a => p a | None => true end.

Definition rule_matches_packet (r : Rule) (p : Packet) : bool :=
  opt_holds (nr_src r) (fun c => in_cidr c (p_src p))
  && opt_holds (nr_dst r) (fun c => in_cidr c (p_dst p))
  && opt_holds (nr_in r) (fun i => String.eqb i (p_in p))
  && opt_holds (nr_out r) (fun o => xorb o.1 (String.eqb o.2 (p_out p)))
  && opt_holds (nr_proto r) (fun l => bool_decide (l = p_proto p))
  && opt_holds (nr_dport r) (fun q => (q.1 <=? p_dport p) && (p_dport p <=? q.2))
  && (negb (nr_established r) || p_established p).

Inductive Verdict := Accepted | Dropped.

#[global] Instance Verdict_eq_dec : EqDecision Verdict.
Proof. solve_decision. Defined.

(** The rules of a chain in order; [sub] judges the chains they jump to.  [None]:
    the packet returns to the calling chain. *)
Fixpoint walk (sub : string -> Packet -> option Verdict) (rules : list (list string)) (p : Packet)
  : option Verdict :=
  match rules with
  | [] => None
  | words :: rules' =>
      match parse_rule words with
      | Some r =>
          if rule_matches_packet r p then
            match nr_target r with
            | Accept => Some Accepted
            | Drop => Some Dropped
            | Return => None
            | Jump c => match sub c p with Some v => Some v | None => walk sub rules' p end
            | _ => walk sub rules' p
            end
          else walk sub rules' p
      | None => walk sub rules' p
      end
  end.

(** ** Tables and commands *)

(** Chains by table and name, and the policy of the built-in [FORWARD] chain. *)
Record Netfilter := {
  nf_chains : gmap (string * string) (list (list string));
  nf_forward_policy : Verdict
}.

Definition rules_of (t : Netfilter) (table chain : string) : list (list string) :=
  default [] (nf_chains t !! (table, chain)).

(** A chain of the filter table judges a packet; [depth] bounds the nesting. *)
Fixpoint judge (depth : nat) (t : Netfilter) (chain : string) (p : Packet) : option Verdict :=
  match depth with
  | O => None
  | S d => walk (judge d t) (rules_of t "filter" chain) p
  end.

(** A forwarded packet: [FORWARD], a chain of the agent, the chain that one
    points to. *)
Definition forwarded (t : Netfilter) (p : Packet) : Verdict :=
  default (nf_forward_policy t) (judge 3 t "FORWARD" p).

Definition set_chain (table chain : string) (rules : list (list string)) (t : Netfilter) : Netfilter :=
  {| nf_chains := <[(table, chain) := rules]> (nf_chains t);
     nf_forward_policy := nf_forward_policy t |}.
Definition drop_chain (table chain : string) (t : Netfilter) : Netfilter :=
  {| nf_chains := delete (table, chain) (nf_chains t); nf_forward_policy := nf_forward_policy t |}.

Inductive Command :=
| NewChain (c : string) | Flush (c : string) | DeleteChain (c : string)
| Append (c : string) (s : list string) | InsertFirst (c : string) (s : list string)
| CheckRule (c : string) (s : list string) | DeleteRule (c : string) (s : list string)
| DeleteAt (c : string) (n : nat) | ReplaceFirst (c : string) (s : list string)
| ListRules (c : string) | ListAll.

Definition table_of (args : list string) : string * list string :=
  match args with
  | f :: t :: rest => if String.eqb f "-t" then (t, rest) else ("filter"%string, args)
  | _ => ("filter"%string, args)
  end.

(** The forms of the command line the agent uses. *)
Definition command_of (args : list string) : option Command :=
  match args with
  | [] => None
  | [op] => if String.eqb op "-S" then Some ListAll else None
  | [op; c] =>
      if String.eqb op "-N" then Some (NewChain c) else if String.eqb op "-F" then Some (Flush c)
      else if String.eqb op "-X" then Some (DeleteChain c)
      else if String.eqb op "-S" then Some (ListRules c) else None
  | op :: c :: a :: s =>
      if String.eqb op "-A" then Some (Append c (a :: s))
      else if String.eqb op "-C" then Some (CheckRule c (a :: s))
      else if String.eqb op "-I" then if String.eqb a "1" then Some (InsertFirst c s) else None
      else if String.eqb op "-R" then if String.eqb a "1" then Some (ReplaceFirst c s) else None
      else if String.eqb op "-D" then
        match s with
        | [] => n ← parse_u32 a; Some (DeleteAt c (Z.to_nat n))
        | _ => Some (DeleteRule c (a :: s))
        end
      else None
  end.

Definition rule_line (chain : string) (words : list string) : string :=
  join " " ("-A"%string :: chain :: words).

Definition builtin (chain : string) : bool :=
  existsb (String.eqb chain) ["INPUT"; "FORWARD"; "OUTPUT"; "PREROUTING"; "POSTROUTING"]%string.
Definition chain_line (t : Netfilter) (chain : string) : string :=
  if builtin chain then
    "-P " +:+ chain +:+ (match nf_forward_policy t with Accepted => " ACCEPT" | Dropped => " DROP" end)
  else "-N " +:+ chain.
Definition listing (t : Netfilter) (table chain : string) : list string :=
  chain_line t chain :: (rule_line chain <$> rules_of t table chain).

(** Delete the first rule equal to the given one. *)
Fixpoint remove_first (s : list string) (rules : list (list string)) : list (list string) :=
  match rules with
  | [] => []
  | r :: rules' => if bool_decide (r = s) then rules' else r :: remove_first s rules'
  end.

(** A chain a rule jumps to. *)
Definition jumps_to (words : list string) : option string :=
  r ← parse_rule words; match nr_target r with Jump c => Some c | _ => None end.
Definition target_exists (t : Netfilter) (table : string) (words : list string) : bool :=
  match jumps_to words with
  | Some c => bool_decide (is_Some (nf_chains t !! (table, c)))
  | None => true
  end.
Definition referenced (t : Netfilter) (table chain : string) : bool :=
  existsb (fun e => bool_decide (e.1.1 = table)
                    && existsb (fun w => bool_decide (jumps_to w = Some chain)) e.2)
    (map_to_list (nf_chains t)).

(** The tables after a command that succeeds; [None] when it cannot. *)
Definition effect (table : string) (cmd : Command) (t : Netfilter) : option Netfilter :=
  match cmd with
  | NewChain c =>
      if bool_decide (is_Some (nf_chains t !! (table, c))) then None else Some (set_chain table c [] t)
  | Flush c => _ ← nf_chains t !! (table, c); Some (set_chain table c [] t)
  | DeleteChain c =>
      rules ← nf_chains t !! (table, c);
      if bool_decide (rules = []) && negb (referenced t table c) then Some (drop_chain table c t) else None
  | Append c s =>
      rules ← nf_chains t !! (table, c);
      if target_exists t table s then Some (set_chain table c (rules ++ [canonical s]) t) else None
  | InsertFirst c s =>
      rules ← nf_chains t !! (table, c);
      if target_exists t table s then Some (set_chain table c (canonical s :: rules) t) else None
  | ReplaceFirst c s =>
      rules ← nf_chains t !! (table, c);
      match rules with
      | _ :: rules' =>
          if target_exists t table s then Some (set_chain table c (canonical s :: rules') t) else None
      | [] => None
      end
  | CheckRule c s =>
      rules ← nf_chains t !! (table, c); if bool_decide (canonical s ∈ rules) then Some t else None
  | DeleteRule c s =>
      rules ← nf_chains t !! (table, c);
      if bool_decide (canonical s ∈ rules)
      then Some (set_chain table c (remove_first (canonical s) rules) t) else None
  | DeleteAt c n =>
      rules ← nf_chains t !! (table, c);
      _ ← rules !! pred n; if (n =? 0)%nat then None
      else Some (set_chain table c (take (pred n) rules ++ drop n rules) t)
  | ListRules c => _ ← nf_chains t !! (table, c); Some t
  | ListAll => Some t
  end.

(** What a listing prints: the header of a chain and its rules, or all of them. *)
Definition printed (table : string) (cmd : Command) (t : Netfilter) (lines : list string) : Prop :=
  match cmd with
  | ListRules c => lines ≡ₚ listing t table c
  | ListAll =>
      forall c, negb (builtin c) = true ->
        (("-N " +:+ c)%string ∈ lines <-> is_Some (nf_chains t !! (table, c)))
  | _ => True
  end.

(** The result of a process: it could not be started, or its exit status, output
    and error output. *)
Inductive CmdOutput :=
| NotStarted
| Exited (success : bool) (stdout stderr : string).

(** The host of an agent: its kernel state, of which [netfilter] is the packet
    filter, and running a program. *)
Class Iptables := {
  Kernel : Type;
  netfilter : Kernel -> Netfilter;
  exec : string -> list string -> Kernel -> Kernel * CmdOutput;
  write_file : string -> string -> Kernel -> Kernel * bool;
  iptables_law : forall args k k' out table rest cmd,
    exec "iptables" args k = (k', out) -> table_of args = (table, rest) ->
    command_of rest = Some cmd ->
    match out with
    | Exited true stdout _ =>
        effect table cmd (netfilter k) = Some (netfilter k') /\
        printed table cmd (netfilter k) (str_lines stdout)
    | _ => netfilter k' = netfilter k
    end;
  write_file_law : forall path text k, netfilter (write_file path text k).1 = netfilter k
}.

(** ** A simulator *)

(** A line a listing can print. *)
Definition plain_line (s : string) : bool :=
  forallb (fun c => negb (Ascii.eqb c newline) && negb (Ascii.eqb c (ascii_of_nat 13)))
    (String.list_ascii_of_string s).

Definition text_of_lines (l : list string) : string :=
  foldr (fun s t => s +:+ String newline t) EmptyString l.

Lemma plain_line_spec s :
  plain_line s = true -> no_char newline s /\ strip_suffix carriage_return s = None.
Proof.
  unfold plain_line. rewrite forallb_forall. intros Hs. split.
  - unfold no_char. rewrite Forall_forall. intros c Hc ->.
    apply list_elem_of_In, Hs in Hc. by vm_compute in Hc.
  - induction s as [|c s IH]; [done|]. cbn [strip_suffix].
    destruct (String.eqb_spec carriage_return (String c s)) as [E|].
    + unfold carriage_return in E. injection E as <- <-. specialize (Hs _ (or_introl eq_refl)).
      by vm_compute in Hs.
    + rewrite IH; [done|]. intros d Hd. apply Hs. by right.
Qed.

Lemma str_lines_of l : forallb plain_line l = true -> str_lines (text_of_lines l) = l.
Proof.
  unfold str_lines. induction l as [|s l IH]; [done|]. intros [Hs Hl]%andb_true_iff.
  apply plain_line_spec in Hs as [Hn Hc].
  change (text_of_lines (s :: l)) with (s +:+ String newline (text_of_lines l)).
  rewrite split_app_sep by done. specialize (IH Hl).
  destruct (str_split newline (text_of_lines l)) as [|x xs] eqn:E; [by apply split_nonempty in E|].
  change (ended_lines (s :: x :: xs))
    with (default s (strip_suffix carriage_return s) :: ended_lines (x :: xs)).
  by rewrite Hc, IH.
Qed.

(** What the simulator prints. *)
Definition sim_lines (table : string) (cmd : Command) (t : Netfilter) : list string :=
  match cmd with
  | ListRules c => listing t table c
  | ListAll => chain_line t <$> (omap (fun e => if bool_decide (e.1.1 = table) then Some e.1.2 else None)
                                  (map_to_list (nf_chains t)))
  | _ => []
  end.

Definition sim_exec (program : string) (args : list string) (t : Netfilter) : Netfilter * CmdOutput :=
  let refused := (t, Exited false "" "iptables: Bad rule.") in
  let '(table, rest) := table_of args in
  match command_of rest with
  | Some (NewChain c) =>
      match effect table (NewChain c) t with
      | Some t' => if String.eqb program "iptables" then (t', Exited true "" "") else refused
      | None => (t, Exited false "" "iptables: Chain already exists.")
      end
  | Some cmd =>
      match effect table cmd t with
      | Some t' =>
          if String.eqb program "iptables" && forallb plain_line (sim_lines table cmd t)
          then (t', Exited true (text_of_lines (sim_lines table cmd t)) "") else refused
      | None => refused
      end
  | None => refused
  end.

Lemma chain_line_new t c c' : ("-N " +:+ c)%string = chain_line t c' -> c' = c /\ builtin c' = false.
Proof.
  unfold chain_line. destruct (builtin c'); [discriminate|]. intros E%append_inj_l. by subst.
Qed.

Lemma sim_printed table cmd t t' :
  effect table cmd t = Some t' -> forallb plain_line (sim_lines table cmd t) = true ->
  printed table cmd t (str_lines (text_of_lines (sim_lines table cmd t))).
Proof.
  intros He Hp. rewrite str_lines_of by done. destruct cmd; try done; [apply Permutation_refl|].
  intros c Hc. apply negb_true_iff in Hc. unfold sim_lines. rewrite list_elem_of_fmap. split.
  - intros (c'&E&Hin). apply list_elem_of_omap in Hin as ([[tb c0] rs]&Hin&E').
    apply chain_line_new in E as [-> _]. simpl in E'. case_bool_decide; [|done]. simplify_eq.
    apply elem_of_map_to_list in Hin. by eexists.
  - intros [rs Hrs]. exists c. split; [by unfold chain_line; rewrite Hc|].
    apply list_elem_of_omap. exists ((table, c), rs). split; [by apply elem_of_map_to_list|].
    simpl. by rewrite bool_decide_true.
Qed.

#[program] Definition simulator : Iptables :=
  {| Kernel := Netfilter; netfilter := id; exec := sim_exec; write_file _ _ t := (t, true) |}.
Next Obligation.
  intros args k k' out table rest cmd He Ht Hc. unfold sim_exec in He. rewrite Ht, Hc in He.
  change (String.eqb "iptables" "iptables") with true in He. cbn [andb] in He.
  destruct cmd; (destruct (effect table _ k) as [t'|] eqn:Hf; [|by injection He as <- <-]);
    first [injection He as <- <-; by split
          | destruct (forallb plain_line (sim_lines table _ k)) eqn:Hp; injection He as <- <-; [|done];
            split; [done|]; by eapply sim_printed].
Qed.
Next Obligation. done. Qed.

(** A host whose tables are empty. *)
Definition fresh_tables : Netfilter :=
  {| nf_chains := {[("filter", "FORWARD") := []; ("nat", "POSTROUTING") := []]}%string;
     nf_forward_policy := Accepted |}.

(** ** What a command does to the rules of a chain *)

(** Chain [c] has the rules [l], every other chain is as before. *)
Definition becomes (table c : string) (l : list (list string)) (t t' : Netfilter) : Prop :=
  rules_of t' table c = l /\
  forall table' c', (table', c') <> (table, c) -> rules_of t' table' c' = rules_of t table' c'.

Lemma becomes_set table c l t : becomes table c l t (set_chain table c l t).
Proof.
  unfold becomes, rules_of, set_chain. simpl. split; [by rewrite lookup_insert_eq|].
  intros table' c' Hne. by rewrite lookup_insert_ne by congruence.
Qed.

Lemma becomes_drop table c t : becomes table c [] t (drop_chain table c t).
Proof.
  unfold becomes, rules_of, drop_chain. simpl. split; [by rewrite lookup_delete_eq|].
  intros table' c' Hne. by rewrite lookup_delete_ne by congruence.
Qed.

Lemma becomes_same table c t : becomes table c (rules_of t table c) t t.
Proof. by split. Qed.

Lemma effect_spec table cmd t t' :
  effect table cmd t = Some t' ->
  match cmd with
  | NewChain c => becomes table c (rules_of t table c) t t'
  | Flush c | DeleteChain c => becomes table c [] t t'
  | Append c s => becomes table c (rules_of t table c ++ [canonical s]) t t'
  | InsertFirst c s => becomes table c (canonical s :: rules_of t table c) t t'
  | ReplaceFirst c s =>
      exists r rs, rules_of t table c = r :: rs /\ becomes table c (canonical s :: rs) t t'
  | CheckRule c s => t' = t /\ canonical s ∈ rules_of t table c
  | DeleteRule c s =>
      canonical s ∈ rules_of t table c /\
      becomes table c (remove_first (canonical s) (rules_of t table c)) t t'
  | DeleteAt c n =>
      (0 < n <= length (rules_of t table c))%nat /\
      becomes table c (take (pred n) (rules_of t table c) ++ drop n (rules_of t table c)) t t'
  | ListRules _ | ListAll => t' = t
  end.
Proof.
  unfold effect. destruct cmd as [c|c|c|c s|c s|c s|c s|c n|c s|c|]; try by intros [= <-].
  all: unfold rules_of at 1 || idtac; unfold rules_of.
  1: { case_bool_decide as Hc; [done|]. intros [= <-].
       destruct (nf_chains t !! (table, c)) eqn:E; [by destruct Hc|]. apply becomes_set. }
  all: destruct (nf_chains t !! (table, c)) as [rules|] eqn:E; simpl; try done.
  - intros [= <-]. apply becomes_set.
  - case_match; [|done]. intros [= <-]. apply becomes_drop.
  - case_match; [|done]. intros [= <-]. apply becomes_set.
  - case_match; [|done]. intros [= <-]. apply becomes_set.
  - case_bool_decide; [|done]. by intros [= <-].
  - case_bool_decide; [|done]. intros [= <-]. split; [done|]. apply becomes_set.
  - destruct (rules !! pred n) eqn:En; simpl; [|done]. destruct n as [|n]; [done|]. simpl.
    intros [= <-]. apply lookup_lt_Some in En. simpl in En. split; [lia|]. apply becomes_set.
  - destruct rules as [|r rs]; [done|]. case_match; [|done]. intros [= <-]. exists r, rs.
    split; [done|]. apply becomes_set.
  - by intros [= <-].
Qed.

(** ** What a chain decides *)

Lemma walk_ext sub sub' rules p :
  (forall w c, w ∈ rules -> jumps_to w = Some c -> sub c p = sub' c p) ->
  walk sub rules p = walk sub' rules p.
Proof.
  induction rules as [|w rules IH]; intros Hs; [done|]. cbn [walk].
  rewrite IH by (intros w' c Hw; apply Hs; by right).
  destruct (parse_rule w) as [r|] eqn:Ew; [|done]. destruct (rule_matches_packet r p); [|done].
  destruct (nr_target r) eqn:Et; try done. rewrite (Hs w chain); [done|by left|].
  unfold jumps_to. rewrite Ew. simpl. by rewrite Et.
Qed.

(** A chain decides alike when its rules and those of the chains it points to are
    the same. *)
Lemma judge_same t t' c p :
  rules_of t' "filter" c = rules_of t "filter" c ->
  (forall w c', w ∈ rules_of t "filter" c -> jumps_to w = Some c' ->
     rules_of t' "filter" c' = rules_of t "filter" c') ->
  judge 2 t' c p = judge 2 t c p.
Proof.
  intros Hc Hs. cbn [judge]. rewrite Hc. apply walk_ext. intros w c' Hw Hj. by rewrite (Hs w c').
Qed.

(** ** Addresses in rules *)

Lemma byte_bit a n : 0 <= a <= 255 -> 8 <= n -> Z.testbit a n = false.
Proof.
  intros Ha Hn. destruct (decide (a = 0)) as [->|]; [by apply Z.testbit_0_l|].
  apply Z.bits_above_log2; [lia|]. assert (Z.log2 a < 8) by (apply Z.log2_lt_pow2; lia). lia.
Qed.

Lemma octet_of_octets a b c d :
  0 <= a <= 255 -> 0 <= b <= 255 -> 0 <= c <= 255 -> 0 <= d <= 255 ->
  octet (octets_u32 a b c d) 24 = a /\ octet (octets_u32 a b c d) 16 = b /\
  octet (octets_u32 a b c d) 8 = c /\ octet (octets_u32 a b c d) 0 = d.
Proof.
  intros Ha Hb Hc Hd. unfold octet, octets_u32. change 255 with (Z.ones 8).
  split_and!; apply Z.bits_inj'; intros n Hn;
    rewrite Z.land_spec, Z.shiftr_spec, !Z.lor_spec, !Z.shiftl_spec, Z.testbit_ones_nonneg by lia.
  all: destruct (Z.ltb_spec n 8); rewrite ?andb_true_r, ?andb_false_r; [|symmetry; by apply byte_bit].
  all: repeat match goal with
         | |- context [Z.testbit ?x ?m] =>
             first [rewrite (Z.testbit_neg_r x m) by lia | rewrite (byte_bit x m) by lia]
         end; rewrite ?orb_false_r, ?orb_false_l; f_equal; lia.
Qed.

Lemma join_split sep s : join (String sep EmptyString) (str_split sep s) = s.
Proof.
  induction s as [|c s IH]; [done|]. cbn [str_split]. destruct (Ascii.eqb_spec c sep) as [->|Hne].
  - destruct (str_split sep s) as [|p ps] eqn:E; [by apply split_nonempty in E|].
    change (join (String sep EmptyString) (EmptyString :: p :: ps))
      with (String sep (join (String sep EmptyString) (p :: ps))). by rewrite IH.
  - destruct (str_split sep s) as [|p ps] eqn:E; [by apply split_nonempty in E|].
    destruct ps as [|q ps]; [by rewrite <- IH|].
    change (String c (join (String sep EmptyString) (p :: q :: ps)) = String c s). by rewrite IH.
Qed.

Lemma std_octet_spec s n : std_octet s = Some n -> 0 <= n <= 255 /\ fmt_nat n = s.
Proof.
  unfold std_octet. intros Hn. apply find_some in Hn as [Hin He%String.eqb_eq].
  apply list_elem_of_In, elem_of_seqZ in Hin. split; [lia|done].
Qed.

(** An accepted address is printed as it was written. *)
Lemma std_ipv4_spec s a : std_ipv4 s = Some a -> is_u32 a /\ fmt_ipv4 a = s.
Proof.
  unfold std_ipv4. intros Hs. pose proof (join_split "."%char s) as Hj.
  destruct (str_split "."%char s) as [|w [|x [|y [|z [|]]]]]; try done.
  destruct (std_octet w) as [n1|] eqn:E1; [|done]. destruct (std_octet x) as [n2|] eqn:E2; [|done].
  destruct (std_octet y) as [n3|] eqn:E3; [|done]. destruct (std_octet z) as [n4|] eqn:E4; [|done].
  cbn [mbind option_bind] in Hs. injection Hs as <-.
  apply std_octet_spec in E1 as [R1 <-], E2 as [R2 <-], E3 as [R3 <-], E4 as [R4 <-]. split.
  - unfold octets_u32. rewrite !Z.shiftl_mul_pow2 by lia.
    repeat apply lor_u32; unfold is_u32; lia.
  - unfold fmt_ipv4. by destruct (octet_of_octets n1 n2 n3 n4) as (->&->&->&->).
Qed.

Lemma land_mask_32 a : is_u32 a -> Z.land a (cidr_mask 32) = a.
Proof.
  unfold is_u32, cidr_mask. intros Ha. change (4294967296 - 2 ^ (32 - 32)) with (Z.ones 32).
  rewrite Z.land_ones by lia. apply Z.mod_small. lia.
Qed.

Lemma parse_cidr_host s a :
  std_ipv4 s = Some a -> parse_cidr (s +:+ "/32") = Some {| cidr_base := a; cidr_len := 32 |}.
Proof.
  intros Hs. destruct (std_ipv4_spec s a Hs) as [Ha Ht]. unfold parse_cidr.
  change "/32"%string with (String "/" "32"). rewrite split_once_app by (rewrite <- Ht; apply fmt_ipv4_no_slash).
  cbn [mbind option_bind]. rewrite Hs. cbn [mbind option_bind]. 
  change (parse_u8 "32") with (Some 32). cbn [mbind option_bind]. cbn [Z.leb Z.compare].
  by rewrite land_mask_32.
Qed.
