(* ===== verification/Networks.v ===== *)
(** * Networks: networks, host attachments and IP addresses

    [qarax/src/model/networks.rs], the address range computations of
    [qarax/src/handlers/network/handler.rs] and the address allocation of
    [qarax/src/handlers/vm/handler.rs].  PostgreSQL's [inet] and [cidr] input and
    output are parameters with the laws the allocator relies on.

    The theorems show that the allocator hands out the least usable address of
    the subnet that is neither the gateway nor allocated, that an allocation
    terminates at the first attempt when the open transaction holds no address
    the rest of the system cannot see, that it never terminates when it holds
    the next free one, and how the DHCP range and the default gateway relate to
    the allocator. *)

From S2P Require Import Prelude Text Errors Tables NodeApi World Samples Ipv4.
From Stdlib Require Import Ascii.
#[local] Open Scope Z_scope.
#[local] Set Default Proof Using "Type".

(** [::inet], [inet::text] and [::cidr] on the values the program stores. *)
Class PgInet := {
  inet_in : string -> option Z;
  inet_text : Z -> string;
  inet_canonical : string -> option string;
  cidr_canonical : string -> option string;
  inet_in_u32 : forall s a, inet_in s = Some a -> is_u32 a;
  inet_in_fmt : forall a, is_u32 a -> inet_in (fmt_ipv4 a) = Some a;
  inet_text_form : forall a, inet_text a = fmt_ipv4 a \/ inet_text a = (fmt_ipv4 a +:+ "/32")%string;
  inet_in_text : forall a, is_u32 a -> inet_in (inet_text a) = Some a;
  inet_canonical_in : forall s t, inet_canonical s = Some t -> inet_in t = inet_in s
}.

(** Input and output that meet the laws: addresses with or without the prefix of
    a single host. *)
Definition host_in (s : string) : option Z :=
  match ipv4_of_text (default s (strip_suffix "/32" s)) with
  | Some a => if decide (is_u32 a) then Some a else None
  | None => None
  end.
Definition host_text (a : Z) : string := (fmt_ipv4 a +:+ "/32")%string.

Lemma host_in_fmt a : is_u32 a -> host_in (fmt_ipv4 a) = Some a.
Proof.
  intros Ha. unfold host_in. destruct (strip_suffix "/32" (fmt_ipv4 a)) as [t|] eqn:Ht; cbn [from_option].
  - exfalso. pose proof (fmt_ipv4_no_slash a) as Hn. apply strip_suffix_inv in Ht. rewrite Ht in Hn.
    apply no_char_app in Hn as [_ Hn]. by inversion Hn.
  - rewrite ipv4_text_roundtrip by done. by rewrite decide_True.
Qed.
Lemma host_in_text a : is_u32 a -> host_in (host_text a) = Some a.
Proof.
  intros Ha. unfold host_in, host_text. rewrite strip_suffix_app. cbn [from_option id].
  rewrite ipv4_text_roundtrip by done. by rewrite decide_True.
Qed.
Lemma host_in_u32 s a : host_in s = Some a -> is_u32 a.
Proof. unfold host_in. destruct (ipv4_of_text _) as [b|]; [|done]. by case_decide; intros [= <-]. Qed.

Definition slash32_inet : PgInet.
Proof.
  refine {| inet_in := host_in; inet_text := host_text;
            inet_canonical s := host_text <$> host_in s; cidr_canonical s := Some s |}.
  - exact host_in_u32.
  - exact host_in_fmt.
  - auto.
  - exact host_in_text.
  - intros s t. destruct (host_in s) as [a|] eqn:Ha; [|done]. intros [= <-].
    apply host_in_text. by eapply host_in_u32.
Defined.

Record NewNetwork := {
  nw_name : string;
  nw_subnet : string;
  nw_gateway : option string;
  nw_dns : option string;
  nw_vpc_name : option string;
  nw_network_type : option string
}.

Record AttachedNetwork := {
  an_host_id : Uuid;
  an_host_address : string;
  an_host_port : Z;
  an_network : Network;
  an_bridge_name : string
}.

(** [v.split('/').next().unwrap_or(&v)]. *)
Definition normalize_inet (value : option string) : option string :=
  (fun v => default v (head (str_split "/"%char v))) <$> value.

(** [impl From<NetworkRow> for Network]. *)
Definition network_from_row (row : Network) : Network :=
  {| net_id := net_id row; net_name := net_name row; net_subnet := net_subnet row;
     net_gateway := normalize_inet (net_gateway row); net_dns := normalize_inet (net_dns row);
     net_vpc_name := net_vpc_name row; net_network_type := net_network_type row;
     net_status := net_status row |}.

Definition unique_violation (c : string) : SqlxError := Database (Some "23505"%string) (Some c).
Definition fk_violation (c : string) : SqlxError := Database (Some "23503"%string) (Some c).
Definition invalid_text : SqlxError := Database (Some "22P02"%string) None.

Section networks.
Context {coll : Collation} {inet : PgInet}.

(** ** Networks and their hosts *)

Definition list_networks (name_filter : option string) : M SqlxError (list Network) :=
  query Pool (fun db => Ok (network_from_row <$> List.filter (fun n =>
    match name_filter with None => true | Some x => String.eqb (net_name n) x end)
    (rows (t_networks db)))).

Definition get (network_id : Uuid) : M SqlxError Network :=
  query Pool (fun db => fetch_one (network_from_row <$> t_networks db !! network_id)).

(** An optional address goes through [::inet] when it is given. *)
Definition opt_inet (value : option string) : result SqlxError (option string) :=
  match value with
  | None => Ok None
  | Some s => t ← ok_or invalid_text (inet_canonical s); Ok (Some t)
  end.

Definition create (new : NewNetwork) : M SqlxError Uuid :=
  id ← new_uuid;
  execute Pool (fun db =>
    subnet ← ok_or invalid_text (cidr_canonical (nw_subnet new));
    gateway ← opt_inet (nw_gateway new);
    dns ← opt_inet (nw_dns new);
    if existsb (fun n => String.eqb (net_name n) (nw_name new)) (rows (t_networks db))
    then Err (unique_violation "networks_name_key")
    else
      nets ← insert_pk "networks_pkey" id
        {| net_id := id; net_name := nw_name new; net_subnet := subnet; net_gateway := gateway;
           net_dns := dns; net_vpc_name := nw_vpc_name new;
           net_network_type := nw_network_type new; net_status := NetActive |} (t_networks db);
      Ok (with_networks (fun _ => nets) db, id)).

(** Deleting a network deletes its attachments, addresses and interfaces; a
    template that names it blocks the deletion. *)
Definition delete_network (network_id : Uuid) : M SqlxError unit :=
  execute Pool (fun db =>
    if existsb (fun t => bool_decide (tpl_network_id t = Some network_id)) (rows (t_vm_templates db))
    then Err (fk_violation "vm_templates_network_id_fkey")
    else Ok (with_networks (delete network_id)
      (with_host_networks (filter (fun kv => kv.1.2 <> network_id))
      (with_ip_allocations (filter (fun kv => kv.1.1 <> network_id))
      (with_network_interfaces
         (keep (fun n => negb (bool_decide (ni_network_id n = Some network_id)))) db))), tt)).

(** [INSERT ... ON CONFLICT DO NOTHING] under the primary key (host, network) and
    the unique bridge name of a host. *)
Definition bridge_used (db : Db) (host_id : Uuid) (bridge_name : string) : bool :=
  existsb (fun kv => bool_decide (kv.1.1 = host_id) && String.eqb kv.2 bridge_name)
    (map_to_list (t_host_networks db)).

Definition attach_host (network_id host_id : Uuid) (bridge_name : string) : M SqlxError unit :=
  execute Pool (fun db =>
    if bool_decide (is_Some (t_host_networks db !! (host_id, network_id)))
       || bridge_used db host_id bridge_name
    then Ok (db, tt)
    else if negb (bool_decide (host_id ∈ dom (t_hosts db)))
    then Err (fk_violation "host_networks_host_id_fkey")
    else if negb (bool_decide (network_id ∈ dom (t_networks db)))
    then Err (fk_violation "host_networks_network_id_fkey")
    else Ok (with_host_networks (insert (host_id, network_id) bridge_name) db, tt)).

Definition detach_host (network_id host_id : Uuid) : M SqlxError unit :=
  execute Pool (fun db => Ok (with_host_networks (delete (host_id, network_id)) db, tt)).

Definition host_has_network (host_id network_id : Uuid) : M SqlxError bool :=
  query Pool (fun db => Ok (bool_decide (is_Some (t_host_networks db !! (host_id, network_id))))).

Definition get_host_bridge (host_id network_id : Uuid) : M SqlxError (option string) :=
  query Pool (fun db => Ok (t_host_networks db !! (host_id, network_id))).

(** The join of [host_networks] with [networks]. *)
Definition attachments (db : Db) : list (Uuid * Network * string) :=
  omap (fun kv : Uuid * Uuid * string =>
          (fun n => (kv.1.1, n, kv.2)) <$> t_networks db !! kv.1.2)
    (map_to_list (t_host_networks db)).

Definition list_for_host (host_id : Uuid) : M SqlxError (list (Network * string)) :=
  query Pool (fun db =>
    Ok ((fun x => (network_from_row x.1.2, x.2)) <$>
      merge_sort (on_key coll_le (fun x : Uuid * Network * string => net_name x.1.2))
        (List.filter (fun x => bool_decide (x.1.1 = host_id)) (attachments db)))).

Definition list_attached : M SqlxError (list AttachedNetwork) :=
  query Pool (fun db =>
    Ok (omap (fun x : Uuid * Network * string =>
      (fun h => {| an_host_id := h_id h; an_host_address := h_address h; an_host_port := h_port h;
                   an_network := network_from_row x.1.2; an_bridge_name := x.2 |})
        <$> t_hosts db !! x.1.1)
      (merge_sort (lex (on_key N.le (fun x : Uuid * Network * string => x.1.1))
                       (on_key coll_le (fun x => net_name x.1.2))) (attachments db)))).

Definition list_vpc_host_ids : M SqlxError (list Uuid) :=
  query Pool (fun db => Ok (merge_sort N.le (remove_dups
    ((fun x : Uuid * Network * string => x.1.1) <$>
       List.filter (fun x => bool_decide (is_Some (net_vpc_name x.1.2))) (attachments db))))).

(** ** IP addresses *)

Definition ip_references (db : Db) (network_id : Uuid) (vm_id : option Uuid)
  : result SqlxError unit :=
  if negb (bool_decide (network_id ∈ dom (t_networks db)))
  then Err (fk_violation "ip_allocations_network_id_fkey")
  else match vm_id with
       | Some v => if bool_decide (v ∈ dom (t_vms db)) then Ok tt
                   else Err (fk_violation "ip_allocations_vm_id_fkey")
       | None => Ok tt
       end.

Definition new_allocation (id network_id : Uuid) (a : Z) (vm_id : option Uuid) (t : Z)
  : IpAllocation :=
  {| ipa_id := id; ipa_network_id := network_id; ipa_address := a; ipa_vm_id := vm_id;
     ipa_allocated_at := t |}.

(** [ON CONFLICT DO UPDATE]: the address changes hands. *)
Definition allocate_ip (network_id : Uuid) (ip_address : string) (vm_id : option Uuid)
  : M SqlxError IpAllocation :=
  id ← new_uuid;
  t ← now;
  execute Pool (fun db =>
    a ← ok_or invalid_text (inet_in ip_address);
    _ ← ip_references db network_id vm_id;
    let row := match t_ip_allocations db !! (network_id, a) with
               | Some old => new_allocation (ipa_id old) network_id a vm_id t
               | None => new_allocation id network_id a vm_id t
               end in
    Ok (with_ip_allocations (insert (network_id, a) row) db, row)).

(** [ON CONFLICT DO NOTHING]: [None] when the address is taken. *)
Definition try_allocate_ip_tx (network_id : Uuid) (ip_address : string) (vm_id : option Uuid)
  : M SqlxError (option IpAllocation) :=
  id ← new_uuid;
  t ← now;
  execute Tx (fun db =>
    a ← ok_or invalid_text (inet_in ip_address);
    match t_ip_allocations db !! (network_id, a) with
    | Some _ => Ok (db, None)
    | None =>
        _ ← ip_references db network_id vm_id;
        let row := new_allocation id network_id a vm_id t in
        Ok (with_ip_allocations (insert (network_id, a) row) db, Some row)
    end).

Definition list_allocations_by_vm (vm_id : Uuid) : M SqlxError (list IpAllocation) :=
  query Pool (fun db => Ok (List.filter (fun a => bool_decide (ipa_vm_id a = Some vm_id))
                              (rows (t_ip_allocations db)))).

Definition get_allocation (network_id : Uuid) (ip_address : string)
  : M SqlxError (option IpAllocation) :=
  query Pool (fun db =>
    a ← ok_or invalid_text (inet_in ip_address);
    Ok (t_ip_allocations db !! (network_id, a))).

Definition release_ip (allocation_id : Uuid) : M SqlxError unit :=
  execute Pool (fun db =>
    Ok (with_ip_allocations (keep (fun a => negb (bool_decide (ipa_id a = allocation_id)))) db, tt)).

Definition release_by_address (c : Conn) (network_id : Uuid) (ip_address : string)
  : M SqlxError bool :=
  execute c (fun db =>
    a ← ok_or invalid_text (inet_in ip_address);
    Ok (with_ip_allocations (delete (network_id, a)) db,
        bool_decide (is_Some (t_ip_allocations db !! (network_id, a))))).
Definition release_ip_by_network_and_address := release_by_address Pool.
Definition release_ip_by_network_and_address_tx := release_by_address Tx.

Definition network_allocations (db : Db) (network_id : Uuid) : list IpAllocation :=
  List.filter (fun a => bool_decide (ipa_network_id a = network_id)) (rows (t_ip_allocations db)).

Definition list_allocations (network_id : Uuid) : M SqlxError (list IpAllocation) :=
  query Pool (fun db => Ok (merge_sort (on_key Z.le ipa_address) (network_allocations db network_id))).

(** The subnet as the allocator reads it: base address and prefix length. *)
Definition parse_subnet (subnet : string) : option (Z * Z) :=
  '(base, prefix) ← split_once "/"%char subnet;
  a ← ipv4_of_text base;
  Some (a, default 24 (parse_u32 prefix)).

Definition next_available_ip (network_id : Uuid) : M SqlxError (option string) :=
  network ← get network_id;
  match parse_subnet (net_subnet network) with
  | None => mret None
  | Some (base, prefix_len) =>
      let gateway := net_gateway network ≫= ipv4_of_text in
      allocated ← query Pool (fun db =>
        Ok ((fun a => inet_text (ipa_address a)) <$> network_allocations db network_id));
      let skip addr :=
        bool_decide (gateway = Some addr)
        || bool_decide (fmt_ipv4 addr ∈ allocated)
        || bool_decide ((fmt_ipv4 addr +:+ "/32")%string ∈ allocated) in
      mret (fmt_ipv4 <$> first_free base prefix_len skip)
  end.

(** [allocate_network_ip_tx]: a requested address is taken or refused; otherwise
    the loop asks for the next free address and tries to take it, until it
    succeeds.  The result is [None] when [fuel] iterations were not enough. *)
Fixpoint allocate_next (fuel : nat) (vm_id network_id : Uuid) : M Error (option string) :=
  match fuel with
  | O => mret None
  | S fuel' =>
      ip ← sqlx_q (next_available_ip network_id);
      ip ← of_result (ok_or (UnprocessableEntity "No available IPs in network") ip);
      allocation ← sqlx_q (try_allocate_ip_tx network_id ip (Some vm_id));
      match allocation with
      | Some a => mret (Some (inet_text (ipa_address a)))
      | None => allocate_next fuel' vm_id network_id
      end
  end.

Definition allocate_network_ip_tx `{UuidText} (fuel : nat) (vm_id network_id : Uuid)
    (requested_ip : option string) : M Error (option string) :=
  match requested_ip with
  | Some ip =>
      allocation ← sqlx_q (try_allocate_ip_tx network_id ip (Some vm_id));
      match allocation with
      | Some a => mret (Some (inet_text (ipa_address a)))
      | None => throw (Conflict ("IP address " +:+ ip +:+ " is already allocated on network "
                                 +:+ uuid_to_string network_id))
      end
  | None => allocate_next fuel vm_id network_id
  end.
End networks.

(** ** Ranges of the DHCP server *)

Definition default_gateway (subnet : string) : string :=
  match split_once "/"%char subnet with
  | Some (base, _) =>
      match omap parse_u8 (str_split "."%char base) with
      | [a; b; c; d] => join "." [fmt_nat a; fmt_nat b; fmt_nat c; fmt_nat ((d + 1) mod 256)]
      | _ => "10.0.0.1"
      end
  | None => "10.0.0.1"
  end.

Definition compute_dhcp_range (subnet : string) (gateway : option string) : string * string :=
  match parse_subnet subnet with
  | Some (base, prefix_len) =>
      let start := wrap32 (network_addr base prefix_len + 1) in
      let start := if bool_decide (gateway ≫= ipv4_of_text = Some start)
                   then wrap32 (start + 1) else start in
      (fmt_ipv4 start, fmt_ipv4 (wrap32 (broadcast_addr base prefix_len - 1)))
  | None => ("10.0.0.10"%string, "10.0.0.254"%string)
  end.

(** ** Properties *)

Section properties.
Context {coll : Collation} {inet : PgInet}.

(** Allocations are filed under their network and address. *)
Definition ips_ok (db : Db) : Prop :=
  map_Forall (fun k a => k = (ipa_network_id a, ipa_address a) /\ is_u32 (ipa_address a))
    (t_ip_allocations db).

Definition taken (db : Db) (network_id : Uuid) (a : Z) : Prop :=
  is_Some (t_ip_allocations db !! (network_id, a)).

Lemma elem_of_allocated_text db network_id a s :
  ips_ok db -> is_u32 a -> s = fmt_ipv4 a \/ s = (fmt_ipv4 a +:+ "/32")%string ->
  s ∈ (fun x => inet_text (ipa_address x)) <$> network_allocations db network_id ->
  taken db network_id a.
Proof.
  intros Hok Ha Hs (x&Hx&Hin)%list_elem_of_fmap.
  apply elem_of_filter_rows in Hin as [[k Hk] Hnet%bool_decide_eq_true].
  destruct (Hok k x Hk) as [-> Hu]. enough (ipa_address x = a) as <- by (rewrite <- Hnet; by eexists).
  assert (forall b c, (fmt_ipv4 b +:+ "/32")%string = fmt_ipv4 c -> False) as Hslash.
  { intros b c E. pose proof (fmt_ipv4_no_slash c) as Hno. rewrite <- E in Hno.
    apply no_char_app in Hno as [_ Hno]. unfold no_char in Hno. simpl in Hno.
    by apply Forall_cons in Hno as [? _]. }
  subst s. destruct (inet_text_form (ipa_address x)) as [E|E]; rewrite E in Hs; destruct Hs as [Hs|Hs].
  - by apply fmt_ipv4_inj.
  - exfalso. by eapply Hslash.
  - exfalso. by eapply Hslash.
  - apply fmt_ipv4_inj; try done.
    apply (f_equal (split_once "/"%char)) in Hs.
    rewrite !split_once_app in Hs by apply fmt_ipv4_no_slash. congruence.
Qed.

(** The addresses the scan skips are the gateway and the allocated ones. *)
Lemma skip_spec db network_id gateway a :
  ips_ok db -> is_u32 a ->
  let allocated := (fun x => inet_text (ipa_address x)) <$> network_allocations db network_id in
  bool_decide (gateway = Some a) || bool_decide (fmt_ipv4 a ∈ allocated)
    || bool_decide ((fmt_ipv4 a +:+ "/32")%string ∈ allocated) = true <->
  gateway = Some a \/ taken db network_id a.
Proof.
  intros Hok Ha allocated. rewrite !orb_true_iff, !bool_decide_eq_true. split.
  - intros [[?|Hin]|Hin]; [by left|right|right];
      (eapply elem_of_allocated_text; [done|done| |exact Hin]); auto.
  - intros [?|[x Hx]]; [auto|].
    destruct (Hok _ _ Hx) as [[= Hn Ha'] _].
    assert (inet_text a ∈ allocated) as Hin.
    { apply list_elem_of_fmap. exists x. split; [congruence|]. apply elem_of_filter_rows.
      split; [by eexists|]. by apply bool_decide_eq_true. }
    destruct (inet_text_form a) as [E|E]; rewrite E in Hin; auto.
Qed.

(** What the allocator knows of a network: its subnet and gateway. *)
Definition network_is (db : Db) (network_id : Uuid) (base p : Z) (gateway : option Z) : Prop :=
  exists n, t_networks db !! network_id = Some n /\ parse_subnet (net_subnet n) = Some (base, p) /\
    normalize_inet (net_gateway n) ≫= ipv4_of_text = gateway.

Lemma network_base_u32 db network_id base p gw :
  network_is db network_id base p gw -> is_u32 base.
Proof.
  intros (n&_&Hp&_). unfold parse_subnet in Hp.
  destruct (split_once _ _) as [[b pr]|]; [simpl in Hp|done].
  destruct (ipv4_of_text b) eqn:E; [simpl in Hp|done]. simplify_eq. by eapply ipv4_of_text_u32.
Qed.

(** [a] is the least usable address that is neither the gateway nor taken. *)
Definition least_free (db : Db) (network_id : Uuid) (base p : Z) (gateway : option Z) (a : Z) : Prop :=
  usable base p a /\ gateway <> Some a /\ ~ taken db network_id a /\
  forall b, usable base p b -> b < a -> gateway = Some b \/ taken db network_id b.

Lemma least_free_unique db network_id base p gw a b :
  least_free db network_id base p gw a -> least_free db network_id base p gw b -> a = b.
Proof.
  intros (Ua&Ga&Ta&La) (Ub&Gb&Tb&Lb). destruct (Z.lt_total a b) as [Hlt|[->|Hlt]]; [|done|].
  - destruct (Lb a Ua Hlt); tauto.
  - destruct (La b Ub Hlt); tauto.
Qed.

Lemma usable_u32 base p a : is_u32 base -> 1 <= p <= 32 -> usable base p a -> is_u32 a.
Proof.
  intros Hb Hp Hu. pose proof (subnet_bounds base p Hb Hp) as [Hn Hbc].
  rewrite broadcast_addr_eq, network_addr_eq in * by done. unfold usable, is_u32 in *. lia.
Qed.

Lemma next_available_ip_run network_id o w base p gw :
  served o -> ips_ok (w_db w) -> network_is (w_db w) network_id base p gw -> 1 <= p <= 31 ->
  exists r, next_available_ip network_id o w = (tick (tick w), Ok r) /\
  match r with
  | Some ip => exists a, ip = fmt_ipv4 a /\ is_u32 a /\ least_free (w_db w) network_id base p gw a
  | None => forall b, usable base p b -> gw = Some b \/ taken (w_db w) network_id b
  end.
Proof.
  intros Ho Hok Hnet Hp. pose proof (network_base_u32 _ _ _ _ _ Hnet) as Hbase.
  destruct Hnet as (n&Hn&Hsub&Hgw).
  unfold next_available_ip, get, mbind at 1, M_bind at 1. rewrite query_served by done. simpl.
  rewrite Hn. simpl. rewrite Hsub. unfold mbind at 1, M_bind at 1.
  rewrite query_served by done. simpl. rewrite Hgw.
  eexists. split; [reflexivity|]. simpl.
  pose proof (first_free_spec base p (fun addr => bool_decide (gw = Some addr)
    || bool_decide (fmt_ipv4 addr ∈ (fun a => inet_text (ipa_address a)) <$> network_allocations (w_db w) network_id)
    || bool_decide ((fmt_ipv4 addr +:+ "/32")%string ∈
         (fun a => inet_text (ipa_address a)) <$> network_allocations (w_db w) network_id)) Hbase Hp) as Hff.
  destruct (first_free _ _ _) as [a|]; simpl.
  - destruct Hff as (Hu&Ha&Hskip&Hmin). exists a. split_and!; [done|done|].
    pose proof (skip_spec (w_db w) network_id gw a Hok Ha) as Hs.
    apply not_true_iff_false in Hskip. rewrite Hs in Hskip.
    split_and!; [done|tauto|tauto|]. intros b Hub Hlt.
    apply (skip_spec (w_db w) network_id gw b Hok); [by apply (usable_u32 base p); [done|lia|]|].
    by apply Hmin.
  - intros b Hub. apply (skip_spec (w_db w) network_id gw b Hok); [|by apply Hff].
    by apply (usable_u32 base p); [done|lia|].
Qed.

(** The next available address is the least usable address of the subnet that
    is neither the gateway nor allocated, and there is none only when every
    usable address is. *)
Theorem next_available_ip_least network_id o w base p gw :
  served o -> ips_ok (w_db w) -> network_is (w_db w) network_id base p gw -> 1 <= p <= 31 ->
  exists r, (next_available_ip network_id o w).2 = Ok r /\
  match r with
  | Some ip => exists a, ip = fmt_ipv4 a /\ least_free (w_db w) network_id base p gw a
  | None => forall b, usable base p b -> gw = Some b \/ taken (w_db w) network_id b
  end.
Proof.
  intros Ho Hok Hnet Hp. destruct (next_available_ip_run _ _ _ _ _ _ Ho Hok Hnet Hp) as (r&->&Hr).
  exists r. split; [done|]. destruct r; [|done]. destruct Hr as (a&?&_&?). eauto.
Qed.

(** *** Allocation in a transaction *)

Definition tx_db (w : World) : Db := conn_db Tx w.

Lemma try_allocate_taken network_id a vm o w :
  served o -> is_u32 a -> taken (tx_db w) network_id a -> w_tx w <> None ->
  exists w', try_allocate_ip_tx network_id (fmt_ipv4 a) vm o w = (w', Ok None) /\
    w_db w' = w_db w /\ w_tx w' = w_tx w.
Proof.
  intros Ho Ha [x Hx] Htx. unfold try_allocate_ip_tx, mbind, M_bind, new_uuid, now, execute.
  rewrite Ho. unfold tx_db in Hx. simpl in *. rewrite inet_in_fmt by done. simpl. rewrite Hx.
  eexists. split; [reflexivity|]. simpl. by destruct (w_tx w).
Qed.

Lemma try_allocate_free network_id a vm o w :
  served o -> is_u32 a -> ~ taken (tx_db w) network_id a ->
  network_id ∈ dom (t_networks (tx_db w)) -> vm ∈ dom (t_vms (tx_db w)) ->
  exists w' row, try_allocate_ip_tx network_id (fmt_ipv4 a) (Some vm) o w = (w', Ok (Some row)) /\
    w_db w' = w_db w /\ ipa_address row = a /\ ipa_vm_id row = Some vm /\
    t_ip_allocations (tx_db w') = <[(network_id, a) := row]> (t_ip_allocations (tx_db w)).
Proof.
  intros Ho Ha Hfree Hnet Hvm. unfold try_allocate_ip_tx, mbind, M_bind, new_uuid, now, execute.
  rewrite Ho. unfold tx_db, taken in *. simpl in *. rewrite inet_in_fmt by done. simpl.
  destruct (t_ip_allocations _ !! _) eqn:Hx; [exfalso; apply Hfree; eauto|].
  unfold ip_references. rewrite !bool_decide_true by done. simpl.
  eexists _, _. split; [reflexivity|]. by split_and!.
Qed.

(** When the open transaction holds no address of the network that the rest of
    the system cannot see and a usable address is free, one iteration allocates
    the least free address to the VM, in the transaction only. *)
Theorem allocate_network_ip_terminates `{UuidText} fuel vm network_id o w base p gw a :
  served o -> ips_ok (w_db w) -> network_is (w_db w) network_id base p gw -> 1 <= p <= 31 ->
  least_free (w_db w) network_id base p gw a ->
  (forall b, taken (tx_db w) network_id b -> taken (w_db w) network_id b) ->
  network_id ∈ dom (t_networks (tx_db w)) -> vm ∈ dom (t_vms (tx_db w)) -> (0 < fuel)%nat ->
  exists w' row,
    allocate_network_ip_tx fuel vm network_id None o w = (w', Ok (Some (inet_text a))) /\
    w_db w' = w_db w /\ ipa_vm_id row = Some vm /\ ipa_address row = a /\
    t_ip_allocations (tx_db w') = <[(network_id, a) := row]> (t_ip_allocations (tx_db w)).
Proof.
  intros Ho Hok Hnet Hp Hleast Hsub Hn Hvm Hfuel. destruct fuel as [|fuel]; [lia|].
  destruct (next_available_ip_run _ _ _ _ _ _ Ho Hok Hnet Hp) as (r&Hrun&Hr).
  destruct r as [ip|]; [|destruct Hleast as (Hu&?&?&_); destruct (Hr a Hu); tauto].
  destruct Hr as (b&->&Hb&Hlb). pose proof (least_free_unique _ _ _ _ _ _ _ Hlb Hleast) as ->.
  destruct (try_allocate_free network_id a vm o (tick (tick w))) as (w'&row&Htry&Hdb&Ha&Hv&Hips);
    try done.
  { intros Ht. destruct Hleast as (_&_&Hnt&_). apply Hnt. by apply Hsub. }
  exists w', row. split_and!; try done.
  unfold allocate_network_ip_tx. cbn [allocate_next].
  unfold mbind, M_bind, lift_err, of_result. rewrite Hrun. simpl. rewrite Htry. simpl. by rewrite Ha.
Qed.

(** C40. When the open transaction already holds the least free address of the
    committed allocations, the loop tries that address again and again: no
    number of iterations is enough. *)
Theorem allocate_network_ip_livelock `{UuidText} fuel vm network_id o w base p gw a :
  served o -> ips_ok (w_db w) -> network_is (w_db w) network_id base p gw -> 1 <= p <= 31 ->
  least_free (w_db w) network_id base p gw a ->
  w_tx w <> None -> taken (tx_db w) network_id a ->
  (allocate_network_ip_tx fuel vm network_id None o w).2 = Ok None.
Proof.
  intros Ho Hok Hnet Hp Hleast. unfold allocate_network_ip_tx.
  revert w Hok Hnet Hleast. induction fuel as [|fuel IH]; intros w Hok Hnet Hleast Htx Ht; [done|].
  destruct (next_available_ip_run _ _ _ _ _ _ Ho Hok Hnet Hp) as (r&Hrun&Hr).
  destruct r as [ip|]; [|destruct Hleast as (Hu&?&?&_); destruct (Hr a Hu); tauto].
  destruct Hr as (b&->&Hb&Hlb). pose proof (least_free_unique _ _ _ _ _ _ _ Hlb Hleast) as ->.
  destruct (try_allocate_taken network_id a (Some vm) o (tick (tick w)) Ho Hb Ht Htx)
    as (w'&Htry&Hdb&Htx').
  cbn [allocate_next]. unfold mbind at 1, M_bind at 1, lift_err at 1. rewrite Hrun. simpl.
  unfold mbind at 1, M_bind at 1, of_result at 1. simpl.
  unfold mbind at 1, M_bind at 1, lift_err at 1. rewrite Htry. simpl.
  apply IH.
  - by rewrite Hdb.
  - by rewrite Hdb.
  - by rewrite Hdb.
  - by rewrite Htx'.
  - unfold tx_db in *. simpl in *. by rewrite Hdb, Htx'.
Qed.

(** *** The DHCP range *)

Lemma least_free_first db network_id base p gw a :
  1 <= p <= 30 -> is_u32 base ->
  (forall b, ~ taken db network_id b) ->
  a = (if decide (gw = Some (network_addr base p + 1)) then network_addr base p + 2
       else network_addr base p + 1) ->
  least_free db network_id base p gw a.
Proof.
  intros Hp Hb Hfree ->. unfold least_free, usable. rewrite <- network_addr_eq by (done || lia).
  assert (2 ^ 2 <= 2 ^ (32 - p)) by (apply Z.pow_le_mono_r; lia).
  case_decide as Hgw; split_and!; try lia; try apply Hfree; try congruence.
  - rewrite Hgw. intros [= E]. lia.
  - intros b Hu Hlt. left. rewrite Hgw. f_equal. lia.
Qed.

Lemma dhcp_start_addr base p :
  is_u32 base -> 1 <= p <= 30 ->
  wrap32 (network_addr base p + 1) = network_addr base p + 1 /\
  wrap32 (network_addr base p + 2) = network_addr base p + 2.
Proof.
  intros Hb Hp. pose proof (subnet_bounds base p Hb ltac:(lia)) as [Hn Hbc].
  rewrite broadcast_addr_eq in Hbc by (done || lia).
  assert (2 ^ 2 <= 2 ^ (32 - p)) by (apply Z.pow_le_mono_r; lia).
  unfold wrap32. split; apply Z.mod_small; lia.
Qed.

(** On a network without allocations the first address handed out is the start
    of the DHCP range. *)
Theorem dhcp_start_is_first_allocation network_id o w n base p :
  served o -> ips_ok (w_db w) -> (forall b, ~ taken (w_db w) network_id b) ->
  t_networks (w_db w) !! network_id = Some n -> parse_subnet (net_subnet n) = Some (base, p) ->
  1 <= p <= 30 ->
  (next_available_ip network_id o w).2
  = Ok (Some (compute_dhcp_range (net_subnet n) (normalize_inet (net_gateway n))).1).
Proof.
  intros Ho Hok Hfree Hn Hsub Hp.
  set (gw := normalize_inet (net_gateway n) ≫= ipv4_of_text).
  assert (network_is (w_db w) network_id base p gw) as Hnet by (exists n; by split_and!).
  pose proof (network_base_u32 _ _ _ _ _ Hnet) as Hb.
  destruct (next_available_ip_run _ _ _ _ _ _ Ho Hok Hnet ltac:(lia)) as (r&->&Hr).
  pose proof (least_free_first (w_db w) network_id base p gw _ Hp Hb Hfree eq_refl) as Hl.
  destruct r as [ip|]; [|destruct Hl as (Hu&?&?&_); destruct (Hr _ Hu); tauto].
  destruct Hr as (a&->&_&Hla). rewrite (least_free_unique _ _ _ _ _ _ _ Hla Hl).
  unfold compute_dhcp_range. rewrite Hsub. destruct (dhcp_start_addr base p Hb Hp) as [E1 E2].
  rewrite E1. simpl. do 3 f_equal. fold gw. case_decide; [rewrite bool_decide_true|rewrite bool_decide_false];
    try done. by replace (network_addr base p + 1 + 1) with (network_addr base p + 2) by lia.
Qed.

Lemma default_gateway_succ base rest :
  is_u32 base -> base mod 2 = 0 ->
  split_once "/"%char rest = Some (fmt_ipv4 base, default EmptyString (snd <$> split_once "/"%char rest)) ->
  fmt_ipv4 (base + 1) = default_gateway rest.
Proof.
  intros Hb Heven Hsplit. unfold default_gateway. rewrite Hsplit. unfold fmt_ipv4 at 2.
  change "."%string with (String "."%char EmptyString). rewrite split_join; [|done|].
  2: { repeat constructor; apply digits_no_char; try done; apply fmt_nat_all_digits. }
  cbn [omap list_omap]. rewrite !parse_u8_fmt by apply octet_range.
  assert (base mod 256 <> 255) as Hlast.
  { intros E. pose proof (Z.div_mod base 256 ltac:(lia)) as D. rewrite E in D.
    pose proof (Z.div_mod base 2 ltac:(lia)). lia. }
  unfold fmt_ipv4. unfold is_u32 in Hb. rewrite !octet_succ by (done || lia).
  assert (octet (base + 1) 0 = (octet base 0 + 1) mod 256) as ->; [|done].
  rewrite !octet_div by lia. rewrite !Z.div_1_r. rewrite Zplus_mod_idemp_l. done.
Qed.

(** A network created without a gateway gets its first usable address as the
    gateway of the bridge, and the allocator hands out that same address to the
    first VM. *)
Theorem default_gateway_allocated network_id o w n base p :
  served o -> ips_ok (w_db w) -> (forall b, ~ taken (w_db w) network_id b) ->
  t_networks (w_db w) !! network_id = Some n -> net_gateway n = None ->
  net_subnet n = (fmt_ipv4 base +:+ "/" +:+ fmt_nat p)%string -> is_u32 base ->
  base mod 2 ^ (32 - p) = 0 -> 1 <= p <= 30 ->
  (next_available_ip network_id o w).2 = Ok (Some (default_gateway (net_subnet n))).
Proof.
  intros Ho Hok Hfree Hn Hgw Hsub Hb Halign Hp.
  assert (split_once "/"%char (net_subnet n) = Some (fmt_ipv4 base, fmt_nat p)) as Hsplit.
  { rewrite Hsub. apply (split_once_app "/"%char), fmt_ipv4_no_slash. }
  assert (parse_subnet (net_subnet n) = Some (base, p)) as Hparse.
  { unfold parse_subnet, mbind, option_bind. rewrite Hsplit, ipv4_text_roundtrip by done.
    unfold parse_u32. by rewrite parse_unsigned_fmt_nat by (unfold u32_max; lia). }
  assert (network_is (w_db w) network_id base p None) as Hnet.
  { exists n. split_and!; [done|done|]. by rewrite Hgw. }
  destruct (next_available_ip_run _ _ _ _ _ _ Ho Hok Hnet ltac:(lia)) as (r&->&Hr).
  pose proof (least_free_first (w_db w) network_id base p None _ Hp Hb Hfree eq_refl) as Hl.
  destruct r as [ip|]; [|destruct Hl as (Hu&?&?&_); destruct (Hr _ Hu); tauto].
  destruct Hr as (a&->&_&Hla). rewrite (least_free_unique _ _ _ _ _ _ _ Hla Hl).
  simpl. do 2 f_equal.
  assert (network_addr base p = base) as ->.
  { rewrite network_addr_eq by (done || lia). pose proof (Z.div_mod base (2 ^ (32 - p))).
    assert (2 ^ (32 - p) <> 0) by (apply Z.pow_nonzero; lia). lia. }
  apply default_gateway_succ; [done| |by rewrite Hsplit].
  assert (2 ^ (32 - p) = 2 * 2 ^ (31 - p)) as E.
  { replace (32 - p) with (Z.succ (31 - p)) by lia. rewrite Z.pow_succ_r; lia. }
  assert (0 < 2 ^ (31 - p)) by (apply Z.pow_pos_nonneg; lia).
  rewrite E in Halign. pose proof (Z.div_mod base (2 * 2 ^ (31 - p)) ltac:(lia)) as D.
  rewrite Halign, Z.add_0_r, <- Z.mul_assoc, Z.mul_comm in D. rewrite D. apply Z.mod_mul. lia.
Qed.

(** *** Attachments *)

(** No host uses a bridge for two networks. *)
Definition bridges_ok (db : Db) : Prop :=
  forall h n1 n2 b, t_host_networks db !! (h, n1) = Some b ->
    t_host_networks db !! (h, n2) = Some b -> n1 = n2.

Lemma bridge_used_spec db h b :
  bridge_used db h b = true <-> exists n, t_host_networks db !! (h, n) = Some b.
Proof.
  unfold bridge_used. rewrite existsb_exists. split.
  - intros ([[h' n] b']&Hin&Hb). apply list_elem_of_In, elem_of_map_to_list in Hin.
    simpl in Hb. apply andb_true_iff in Hb as [->%bool_decide_eq_true ->%String.eqb_eq]. eauto.
  - intros [n Hn]. exists ((h, n), b). split; [by apply list_elem_of_In, elem_of_map_to_list|].
    simpl. by rewrite bool_decide_true, String.eqb_refl.
Qed.

(** Attaching a network keeps the bridges of a host distinct, and adds the
    attachment unless the network was attached already or the bridge is in use;
    in the latter case it reports success without attaching anything. *)
Theorem attach_host_effect network_id host_id bridge o w w' :
  bridges_ok (w_db w) ->
  attach_host network_id host_id bridge o w = (w', Ok tt) ->
  bridges_ok (w_db w') /\
  ((exists n, n <> network_id /\ t_host_networks (w_db w) !! (host_id, n) = Some bridge) ->
     w_db w' = w_db w) /\
  (t_host_networks (w_db w) !! (host_id, network_id) = None ->
   bridge_used (w_db w) host_id bridge = false ->
     t_host_networks (w_db w') = <[(host_id, network_id) := bridge]> (t_host_networks (w_db w))).
Proof.
  unfold attach_host. intros Hok Hrun. minv.
  match goal with Hf : (if _ then _ else _) = Ok _ |- _ => rename Hf into Hf' end. simpl in Hf'.
  destruct (bool_decide (is_Some _) || bridge_used (w_db w) host_id bridge) eqn:Hcase.
  - simplify_eq/=. split_and!; [done|done|]. intros Hnone Hused. rewrite Hused, orb_false_r in Hcase.
    apply bool_decide_eq_true in Hcase as [? ?]. congruence.
  - apply orb_false_iff in Hcase as [Hnew Hused]. repeat case_match; simplify_eq/=.
    split_and!; [| |done].
    + intros h n1 n2 b Hl1 Hl2. simpl in Hl1, Hl2. apply not_true_iff_false in Hused. rewrite bridge_used_spec in Hused.
      apply lookup_insert_Some in Hl1 as [[Hk1 Hb1]|[Hne1 Hl1]];
        apply lookup_insert_Some in Hl2 as [[Hk2 Hb2]|[Hne2 Hl2]]; simplify_eq; try done.
      * exfalso. apply Hused. by exists n2.
      * exfalso. apply Hused. by exists n1.
      * by eapply Hok.
    + intros (n&_&Hb). apply not_true_iff_false in Hused. exfalso. apply Hused, bridge_used_spec. eauto.
Qed.
End properties.

Section witnesses.
#[local] Instance witness_uuid_text : UuidText := binary_uuid_text.
#[local] Instance witness_inet : PgInet := slash32_inet.

Definition lan : Network :=
  {| net_id := 3; net_name := "lan"; net_subnet := "10.0.0.0/24"; net_gateway := None;
     net_dns := None; net_vpc_name := None; net_network_type := None; net_status := NetActive |}.
Definition lan_db : Db :=
  with_networks (fun _ => {[3%N := lan]})
    (with_vms (fun _ => {[1%N := sample_vm 1 "web" None Created 1 1 [] JNull]}) empty_db).
Definition lan_world : World := set_tx (Some lan_db) (world_of lan_db).

Lemma lan_ips_ok : ips_ok lan_db.
Proof. apply map_Forall_empty. Qed.
Lemma lan_network : network_is lan_db 3 167772160 24 None.
Proof. exists lan. split_and!; vm_compute; reflexivity. Qed.
Lemma lan_least : least_free lan_db 3 167772160 24 None 167772161.
Proof.
  split; [vm_compute; split; reflexivity|]. split; [done|]. split; [by intros [? ?]|].
  unfold usable. intros b [Hlo Hhi] Hlt. change (167772160 / 2 ^ (32 - 24) * 2 ^ (32 - 24)) with 167772160 in *. lia.
Qed.

Lemma next_available_ip_least_witness :
  exists r, (next_available_ip 3 calm_oracle lan_world).2 = Ok r /\
  match r with
  | Some ip => exists a, ip = fmt_ipv4 a /\ least_free lan_db 3 167772160 24 None a
  | None => forall b, usable 167772160 24 b -> None = Some b \/ taken lan_db 3 b
  end.
Proof.
  apply (next_available_ip_least 3 calm_oracle lan_world 167772160 24 None);
    [intros n; reflexivity|exact lan_ips_ok|exact lan_network|lia].
Defined.

Lemma allocate_network_ip_terminates_witness :
  exists w' row, allocate_network_ip_tx 1 1 3 None calm_oracle lan_world
      = (w', Ok (Some "10.0.0.1/32"%string)) /\ ipa_vm_id row = Some 1%N /\
    t_ip_allocations (tx_db w') = <[(3%N, 167772161) := row]> ∅.
Proof.
  destruct (allocate_network_ip_terminates 1 1 3 calm_oracle lan_world 167772160 24 None 167772161)
    as (w'&row&Hrun&_&Hvm&_&Hips);
    [intros n; reflexivity|exact lan_ips_ok|exact lan_network|lia|exact lan_least
    |intros b Hb; exact Hb|set_solver|set_solver|lia|].
  exists w', row. split; [exact Hrun|]. split; [exact Hvm|exact Hips].
Defined.

(** The transaction of a create request that registers the static address
    10.0.0.1 and then asks for an address on the same network. *)
Definition static_world : World :=
  (allocate_network_ip_tx 1 1 3 (Some "10.0.0.1"%string) calm_oracle lan_world).1.

Lemma allocate_network_ip_livelock_witness :
  (allocate_network_ip_tx 100 1 3 None calm_oracle static_world).2 = Ok None.
Proof.
  apply (allocate_network_ip_livelock 100 1 3 calm_oracle static_world 167772160 24 None 167772161);
    [intros n; reflexivity|exact lan_ips_ok|exact lan_network|lia|exact lan_least
    |vm_compute; discriminate|vm_compute; eexists; reflexivity].
Defined.

Lemma dhcp_start_is_first_allocation_witness :
  (next_available_ip 3 calm_oracle lan_world).2
  = Ok (Some (compute_dhcp_range "10.0.0.0/24" None).1).
Proof.
  apply (dhcp_start_is_first_allocation 3 calm_oracle lan_world lan 167772160 24);
    [intros n; reflexivity|exact lan_ips_ok|by intros b [? ?]|reflexivity|vm_compute; reflexivity|lia].
Defined.

Lemma default_gateway_allocated_witness :
  (next_available_ip 3 calm_oracle lan_world).2 = Ok (Some (default_gateway "10.0.0.0/24")).
Proof.
  apply (default_gateway_allocated 3 calm_oracle lan_world lan 167772160 24);
    [intros n; reflexivity|exact lan_ips_ok|by intros b [? ?]|reflexivity|reflexivity
    |vm_compute; reflexivity|unfold is_u32; lia|reflexivity|lia].
Defined.

Definition bridged_db : Db :=
  with_host_networks (fun _ => {[(5%N, 2%N) := "br0"%string]}) lan_db.

Lemma attach_host_effect_witness :
  let w' := (attach_host 3 5 "br0" calm_oracle (world_of bridged_db)).1 in w_db w' = bridged_db.
Proof.
  refine (proj1 (proj2 (attach_host_effect 3 5 "br0" calm_oracle (world_of bridged_db) _ _ eq_refl)) _).
  - intros h n1 n2 b. simpl. rewrite !lookup_singleton_Some. intros [[= <- <-] _] [[= <-] _]. done.
  - exists 2%N. split; [done|reflexivity].
Defined.
End witnesses.
