(* ===== verification/Devices.v ===== *)
(** * Devices: the disks and network interfaces of VMs

    The writing side of [qarax/src/model/vm_disks.rs] and
    [qarax/src/model/network_interfaces.rs], with the constraints of their tables.
    The parser of MAC addresses is a parameter.

    The handlers that attach devices are in [VmCreate.v] and [Hotplug.v], with the theorems
    about what they leave in these tables. *)

From S2P Require Import Prelude Text Errors Tables Float64 NodeApi World Samples.
From S2P Require Import VmConfig Hooks Vms Jobs Storage Hosts StorageObjects Ipv4 Networks.
#[local] Open Scope Z_scope.
#[local] Set Default Proof Using "Type".

Definition check_violation (c : string) : SqlxError := Database (Some "23514"%string) (Some c).
Definition too_long : SqlxError := Database (Some "22001"%string) None.

(** [VARCHAR(n)] on a nullable column. *)
Definition fits_varchar (n : Z) (s : option string) : bool :=
  match s with None => true | Some s => char_count s <=? n end.

(** ** vm_disks *)

Record NewVmDisk := {
  nd_vm_id : Uuid;
  nd_storage_object_id : option Uuid;
  nd_logical_name : string;
  nd_device_path : string;
  nd_boot_order : option Z;
  nd_read_only : option bool;
  nd_direct : option bool;
  nd_vhost_user : option bool;
  nd_vhost_socket : option string;
  nd_num_queues : option Z;
  nd_queue_size : option Z;
  nd_rate_limiter : option json;
  nd_rate_limit_group : option string;
  nd_pci_segment : option Z;
  nd_serial_number : option string;
  nd_config : json;
  nd_upper_storage_object_id : option Uuid
}.

(** The row [insert_disk_query] binds. *)
Definition disk_row (id : Uuid) (disk : NewVmDisk) : VmDisk :=
  {| vd_id := id; vd_vm_id := nd_vm_id disk;
     vd_storage_object_id := nd_storage_object_id disk;
     vd_logical_name := nd_logical_name disk; vd_device_path := nd_device_path disk;
     vd_boot_order := nd_boot_order disk;
     vd_read_only := default false (nd_read_only disk);
     vd_direct := default false (nd_direct disk);
     vd_vhost_user := default false (nd_vhost_user disk);
     vd_vhost_socket := nd_vhost_socket disk;
     vd_num_queues := default 1 (nd_num_queues disk);
     vd_queue_size := default 128 (nd_queue_size disk);
     vd_rate_limiter := nd_rate_limiter disk;
     vd_rate_limit_group := nd_rate_limit_group disk;
     vd_pci_segment := default 0 (nd_pci_segment disk);
     vd_serial_number := nd_serial_number disk; vd_config := nd_config disk;
     vd_upper_storage_object_id := nd_upper_storage_object_id disk |}.

(** [check_disk_path_or_vhost]. *)
Definition disk_backed (d : VmDisk) : bool :=
  if vd_vhost_user d then bool_decide (is_Some (vd_vhost_socket d))
  else bool_decide (is_Some (vd_storage_object_id d)).

Definition disk_lengths (d : VmDisk) : bool :=
  (char_count (vd_device_path d) <=? 20) && (char_count (vd_logical_name d) <=? 50)
  && fits_varchar 255 (vd_vhost_socket d) && fits_varchar 100 (vd_rate_limit_group d)
  && fits_varchar 100 (vd_serial_number d).

Definition object_exists (db : Db) (id : option Uuid) : bool :=
  match id with None => true | Some id => bool_decide (id ∈ dom (t_storage_objects db)) end.

(** The foreign keys of a disk. *)
Definition disk_references (d : VmDisk) (db : Db) : result SqlxError unit :=
  if negb (bool_decide (vd_vm_id d ∈ dom (t_vms db))) then Err (fk_violation "vm_disks_vm_id_fkey")
  else if negb (object_exists db (vd_storage_object_id d))
  then Err (fk_violation "vm_disks_storage_object_id_fkey")
  else if negb (object_exists db (vd_upper_storage_object_id d))
  then Err (fk_violation "vm_disks_upper_storage_object_id_fkey")
  else Ok tt.

Definition disk_constraints (d : VmDisk) : result SqlxError unit :=
  if negb (disk_lengths d) then Err too_long
  else if negb (disk_backed d) then Err (check_violation "check_disk_path_or_vhost")
  else if vd_num_queues d <=? 0 then Err (check_violation "check_num_queues_positive")
  else if vd_queue_size d <=? 0 then Err (check_violation "check_queue_size_positive")
  else Ok tt.

Definition same_disk_name (d e : VmDisk) : bool :=
  bool_decide (vd_vm_id e = vd_vm_id d) && String.eqb (vd_logical_name e) (vd_logical_name d).

Definition insert_disk_row (d : VmDisk) (db : Db) : result SqlxError Db :=
  _ ← disk_constraints d;
  disks ← insert_pk "vm_disks_pkey" (vd_id d) d (t_vm_disks db);
  if existsb (same_disk_name d) (rows (t_vm_disks db))
  then Err (unique_violation "vm_disks_vm_logical_name_unique")
  else
    _ ← disk_references d db;
    Ok (with_vm_disks (fun _ => disks) db).

Definition create_disk_on (c : Conn) (disk : NewVmDisk) : M SqlxError Uuid :=
  id ← new_uuid;
  _ ← execute c (fun db => unit_result (insert_disk_row (disk_row id disk) db));
  mret id.
Definition create_disk := create_disk_on Pool.
Definition create_disk_tx := create_disk_on Tx.

Definition delete_disks_by_vm (vm_id : Uuid) : M SqlxError unit :=
  execute Pool (fun db => Ok (with_vm_disks
    (keep (fun d => negb (bool_decide (vd_vm_id d = vm_id)))) db, tt)).

Definition delete_disk (disk_id : Uuid) : M SqlxError unit :=
  execute Pool (fun db => Ok (with_vm_disks (delete disk_id) db, tt)).

Definition set_disk_objects (object : Uuid) (upper : option Uuid) (d : VmDisk) : VmDisk :=
  {| vd_id := vd_id d; vd_vm_id := vd_vm_id d; vd_storage_object_id := Some object;
     vd_logical_name := vd_logical_name d; vd_device_path := vd_device_path d;
     vd_boot_order := vd_boot_order d; vd_read_only := vd_read_only d; vd_direct := vd_direct d;
     vd_vhost_user := vd_vhost_user d; vd_vhost_socket := vd_vhost_socket d;
     vd_num_queues := vd_num_queues d; vd_queue_size := vd_queue_size d;
     vd_rate_limiter := vd_rate_limiter d; vd_rate_limit_group := vd_rate_limit_group d;
     vd_pci_segment := vd_pci_segment d; vd_serial_number := vd_serial_number d;
     vd_config := vd_config d; vd_upper_storage_object_id := upper |}.

(** Replace the object and the upper layer of a disk, as a commit does. *)
Definition update_storage_object (disk_id object : Uuid) (upper : option Uuid) : M SqlxError unit :=
  execute Pool (fun db =>
    match t_vm_disks db !! disk_id with
    | None => Ok (db, tt)
    | Some d =>
        let d := set_disk_objects object upper d in
        _ ← disk_references d db;
        Ok (with_vm_disks (insert disk_id d) db, tt)
    end).

(** The OCI image disk of a VM on an OverlayBD pool, with the configurations of
    its image and of its upper layer. *)
Record OciDiskRow := {
  od_disk_id : Uuid;
  od_oci_storage_object_id : Uuid;
  od_oci_config : json;
  od_upper_storage_object_id : option Uuid;
  od_upper_config : option json
}.

Definition oci_disk_row (db : Db) (vm_id : Uuid) (d : VmDisk) : option OciDiskRow :=
  if bool_decide (vd_vm_id d = vm_id) then
    so ← (vd_storage_object_id d ≫= fun id => t_storage_objects db !! id);
    sp ← t_storage_pools db !! so_storage_pool_id so;
    if bool_decide (so_object_type so = OciImage) && bool_decide (sp_pool_type sp = OverlayBd)
    then Some {| od_disk_id := vd_id d; od_oci_storage_object_id := so_id so;
                 od_oci_config := so_config so;
                 od_upper_storage_object_id := vd_upper_storage_object_id d;
                 od_upper_config := so_config <$> (vd_upper_storage_object_id d ≫= fun id =>
                                                     t_storage_objects db !! id) |}
    else None
  else None.

Definition find_oci_disk_for_vm (vm_id : Uuid) : M SqlxError (option OciDiskRow) :=
  query Pool (fun db => Ok (head (omap (oci_disk_row db vm_id) (rows (t_vm_disks db))))).

Definition get_disk_by_logical_name (vm_id : Uuid) (logical_name : string)
  : M SqlxError (option VmDisk) :=
  query Pool (fun db => Ok (head (List.filter (fun d => bool_decide (vd_vm_id d = vm_id)
    && String.eqb (vd_logical_name d) logical_name) (rows (t_vm_disks db))))).

(** ** network_interfaces *)

(** [::macaddr] followed by [::text]. *)
Class PgMacaddr := { mac_canonical : string -> option string }.

Definition vhost_mode_text (m : VhostMode) : string :=
  match m with Client => "client" | Server => "server" end.

(** [serde_json::to_value] of a rate limiter. *)
Definition opt_number (n : option Z) : json := match n with Some n => JNumber n | None => JNull end.
Definition bucket_json (b : option RateLimiterBucket) : json :=
  match b with
  | None => JNull
  | Some b => JObject (<["size"%string := JNumber (tb_size b)]>
      (<["refill_time"%string := JNumber (tb_refill_time b)]>
      (<["one_time_burst"%string := opt_number (tb_one_time_burst b)]> ∅)))
  end.
Definition limiter_json (r : RateLimiterConfig) : json :=
  JObject (<["bandwidth"%string := bucket_json (rl_bandwidth r)]>
          (<["ops"%string := bucket_json (rl_ops r)]> ∅)).

Definition infer_interface_type (n : NewVmNetwork) : InterfaceType :=
  if bool_decide (nn_vhost_user n = Some true) then VhostUser
  else if bool_decide (is_Some (nn_tap n)) then Tap
  else Macvtap.

Section interfaces.
Context {inet : PgInet} {mac : PgMacaddr}.

Definition opt_mac (value : option string) : result SqlxError (option string) :=
  match value with
  | None => Ok None
  | Some s => t ← ok_or invalid_text (mac_canonical s); Ok (Some t)
  end.

Definition nic_row (id vm_id : Uuid) (n : NewVmNetwork) : result SqlxError NetworkInterface :=
  mac_address ← opt_mac (nn_mac n);
  host_mac ← opt_mac (nn_host_mac n);
  ip_address ← opt_inet (nn_ip n);
  Ok {| ni_id := id; ni_vm_id := vm_id; ni_network_id := nn_network_id n; ni_device_id := nn_id n;
        ni_tap_name := nn_tap n; ni_mac_address := mac_address; ni_host_mac := host_mac;
        ni_ip_address := ip_address; ni_mtu := default 1500 (nn_mtu n);
        ni_interface_type := infer_interface_type n;
        ni_vhost_user := default false (nn_vhost_user n); ni_vhost_socket := nn_vhost_socket n;
        ni_vhost_mode := vhost_mode_text <$> nn_vhost_mode n;
        ni_num_queues := default 1 (nn_num_queues n);
        ni_queue_size := default 256 (nn_queue_size n);
        ni_rate_limiter := limiter_json <$> nn_rate_limiter n;
        ni_offload_tso := default true (nn_offload_tso n);
        ni_offload_ufo := default true (nn_offload_ufo n);
        ni_offload_csum := default true (nn_offload_csum n);
        ni_pci_segment := default 0 (nn_pci_segment n); ni_iommu := default false (nn_iommu n) |}.

Definition nic_lengths (n : NetworkInterface) : bool :=
  (char_count (ni_device_id n) <=? 50) && fits_varchar 50 (ni_tap_name n)
  && fits_varchar 255 (ni_vhost_socket n) && fits_varchar 20 (ni_vhost_mode n).

Definition nic_constraints (n : NetworkInterface) : result SqlxError unit :=
  if negb (nic_lengths n) then Err too_long
  else if ni_mtu n <=? 0 then Err (check_violation "check_mtu_positive")
  else if ni_num_queues n <=? 0 then Err (check_violation "check_num_queues_positive")
  else if ni_queue_size n <=? 0 then Err (check_violation "check_queue_size_positive")
  else if ni_vhost_user n && negb (bool_decide (is_Some (ni_vhost_socket n)))
  then Err (check_violation "check_vhost_socket")
  else Ok tt.

Definition network_exists (db : Db) (id : option Uuid) : bool :=
  match id with None => true | Some id => bool_decide (id ∈ dom (t_networks db)) end.

Definition nic_references (n : NetworkInterface) (db : Db) : result SqlxError unit :=
  if negb (bool_decide (ni_vm_id n ∈ dom (t_vms db)))
  then Err (fk_violation "network_interfaces_vm_id_fkey")
  else if negb (network_exists db (ni_network_id n))
  then Err (fk_violation "network_interfaces_network_id_fkey")
  else Ok tt.

Definition same_nic_name (n m : NetworkInterface) : bool :=
  bool_decide (ni_vm_id m = ni_vm_id n) && String.eqb (ni_device_id m) (ni_device_id n).

Definition insert_nic_row (n : NetworkInterface) (db : Db) : result SqlxError Db :=
  _ ← nic_constraints n;
  nics ← insert_pk "network_interfaces_pkey" (ni_id n) n (t_network_interfaces db);
  if existsb (same_nic_name n) (rows (t_network_interfaces db))
  then Err (unique_violation "network_interfaces_vm_device_unique")
  else
    _ ← nic_references n db;
    Ok (with_network_interfaces (fun _ => nics) db).

Definition create_nic (vm_id : Uuid) (n : NewVmNetwork) : M SqlxError Uuid :=
  id ← new_uuid;
  _ ← execute Tx (fun db => unit_result (r ← nic_row id vm_id n; insert_nic_row r db));
  mret id.

Definition delete_nic_on (c : Conn) (interface_id : Uuid) : M SqlxError unit :=
  execute c (fun db => Ok (with_network_interfaces (delete interface_id) db, tt)).
Definition delete_nic := delete_nic_on Pool.
Definition delete_nic_tx := delete_nic_on Tx.

Definition get_nic_by_device_id (vm_id : Uuid) (device_id : string)
  : M SqlxError (option NetworkInterface) :=
  query Pool (fun db => Ok (head (List.filter (fun n => bool_decide (ni_vm_id n = vm_id)
    && String.eqb (ni_device_id n) device_id) (rows (t_network_interfaces db))))).
End interfaces.

(** ** Samples *)

Definition colon_mac : PgMacaddr := {| mac_canonical s := Some s |}.

Definition plain_disk (vm object : Uuid) (name : string) : NewVmDisk :=
  {| nd_vm_id := vm; nd_storage_object_id := Some object; nd_logical_name := name;
     nd_device_path := "/dev/vda"; nd_boot_order := Some 0; nd_read_only := None; nd_direct := None;
     nd_vhost_user := None; nd_vhost_socket := None; nd_num_queues := None; nd_queue_size := None;
     nd_rate_limiter := None; nd_rate_limit_group := None; nd_pci_segment := None;
     nd_serial_number := None; nd_config := JNull; nd_upper_storage_object_id := None |}.

Definition devices_db : Db :=
  with_vms (fun _ => {[1%N := sample_vm 1 "web" (Some 1%N) Created 1 1024 [] JNull]}) storage_db.
