(* ===== verification/Catalog.v ===== *)
(** * Catalog: boot sources, instance types, templates, snapshots, backups

    [qarax/src/model/boot_sources.rs], [instance_types.rs], [vm_templates.rs],
    [snapshots.rs] and [backups.rs].  A new template or instance type is a record
    of the row type whose identifier is chosen on insertion.

    The main theorem is a round trip: a template made of a VM, used by a request
    that only gives a name, describes that VM again. *)

From S2P Require Import Prelude Text Common Errors Tables NodeApi World Samples.
From S2P Require Import VmConfig Hooks Vms Storage Hosts StorageObjects Ipv4 Networks Devices.
#[local] Open Scope Z_scope.
#[local] Set Default Proof Using "Type".

Section catalog.
Context {coll : Collation}.

(** ** Boot sources *)

Record NewBootSource := {
  nb_name : string;
  nb_description : option string;
  nb_kernel_image_id : Uuid;
  nb_kernel_params : option string;
  nb_initrd_image_id : option Uuid
}.

Definition name_is (name_filter : option string) (name : string) : bool :=
  match name_filter with None => true | Some n => String.eqb name n end.

Definition list_boot_sources (name_filter : option string) : M SqlxError (list BootSource) :=
  query Pool (fun db =>
    Ok (List.filter (fun b => name_is name_filter (bs_name b)) (rows (t_boot_sources db)))).

Definition get_boot_source (boot_source_id : Uuid) : M SqlxError BootSource :=
  query Pool (fun db => fetch_one (t_boot_sources db !! boot_source_id)).

Definition boot_source_row (id : Uuid) (new : NewBootSource) : BootSource :=
  {| bs_id := id; bs_name := nb_name new; bs_description := nb_description new;
     bs_kernel_image_id := nb_kernel_image_id new; bs_kernel_params := nb_kernel_params new;
     bs_initrd_image_id := nb_initrd_image_id new |}.

Definition create_boot_source (new : NewBootSource) : M SqlxError Uuid :=
  id ← new_uuid;
  execute Pool (fun db =>
    if 100 <? char_count (nb_name new) then Err too_long
    else
      sources ← insert_pk "boot_sources_pkey" id (boot_source_row id new) (t_boot_sources db);
      if existsb (fun b => String.eqb (bs_name b) (nb_name new)) (rows (t_boot_sources db))
      then Err (unique_violation "boot_sources_name_key")
      else if negb (object_exists db (Some (nb_kernel_image_id new)))
      then Err (fk_violation "boot_sources_kernel_image_id_fkey")
      else if negb (object_exists db (nb_initrd_image_id new))
      then Err (fk_violation "boot_sources_initrd_image_id_fkey")
      else Ok (with_boot_sources (fun _ => sources) db, id)).

(** Templates and VMs that boot from it keep a boot source. *)
Definition delete_boot_source (boot_source_id : Uuid) : M SqlxError unit :=
  execute Pool (fun db =>
    if existsb (fun t => bool_decide (tpl_boot_source_id t = Some boot_source_id))
         (rows (t_vm_templates db))
    then Err (fk_violation "vm_templates_boot_source_id_fkey")
    else if existsb (fun v => bool_decide (v_boot_source_id v = Some boot_source_id)) (rows (t_vms db))
    then Err (fk_violation "vms_boot_source_id_fkey")
    else Ok (with_boot_sources (delete boot_source_id) db, tt)).

Record ResolvedBootSource := {
  rb_kernel_path : string;
  rb_kernel_params : string;
  rb_initramfs_path : option string
}.

Definition resolve_boot_source (boot_source_id : Uuid) : M SqlxError ResolvedBootSource :=
  boot_source ← get_boot_source boot_source_id;
  kernel_obj ← get_object (bs_kernel_image_id boot_source);
  kernel_path ← of_result (ok_or RowNotFound (get_path_from_config (so_config kernel_obj)));
  initramfs_path ← (match bs_initrd_image_id boot_source with
                    | Some initrd_id =>
                        initrd_obj ← get_object initrd_id;
                        mret (get_path_from_config (so_config initrd_obj))
                    | None => mret None
                    end);
  mret {| rb_kernel_path := kernel_path;
          rb_kernel_params := default ""%string (bs_kernel_params boot_source);
          rb_initramfs_path := initramfs_path |}.

(** ** Instance types *)

Definition list_instance_types (name_filter : option string) : M SqlxError (list InstanceType) :=
  query Pool (fun db => Ok (merge_sort (on_key coll_le it_name)
    (List.filter (fun i => name_is name_filter (it_name i)) (rows (t_instance_types db))))).

Definition instance_type_row (id : Uuid) (new : InstanceType) : InstanceType :=
  {| it_id := id; it_name := it_name new; it_description := it_description new;
     it_architecture := it_architecture new ≫= Architecture.normalize_architecture;
     it_boot_vcpus := it_boot_vcpus new; it_max_vcpus := it_max_vcpus new;
     it_cpu_topology := it_cpu_topology new; it_kvm_hyperv := it_kvm_hyperv new;
     it_memory_size := it_memory_size new; it_memory_hotplug_size := it_memory_hotplug_size new;
     it_memory_mergeable := it_memory_mergeable new; it_memory_shared := it_memory_shared new;
     it_memory_hugepages := it_memory_hugepages new;
     it_memory_hugepage_size := it_memory_hugepage_size new;
     it_memory_prefault := it_memory_prefault new; it_memory_thp := it_memory_thp new;
     it_accelerator_config := it_accelerator_config new; it_numa_config := it_numa_config new |}.

Definition create_instance_type (new : InstanceType) : M SqlxError Uuid :=
  id ← new_uuid;
  execute Pool (fun db =>
    let r := instance_type_row id new in
    if (100 <? char_count (it_name r)) || negb (fits_varchar 16 (it_architecture r))
    then Err too_long
    else
      types ← insert_pk "instance_types_pkey" id r (t_instance_types db);
      if existsb (fun i => String.eqb (it_name i) (it_name r)) (rows (t_instance_types db))
      then Err (unique_violation "instance_types_name_key")
      else Ok (with_instance_types (fun _ => types) db, id)).

Definition delete_instance_type (instance_type_id : Uuid) : M SqlxError unit :=
  execute Pool (fun db => Ok (with_instance_types (delete instance_type_id) db, tt)).

(** ** Templates *)

Definition list_templates (name_filter : option string) : M SqlxError (list VmTemplate) :=
  query Pool (fun db => Ok (merge_sort (on_key coll_le tpl_name)
    (List.filter (fun t => name_is name_filter (tpl_name t)) (rows (t_vm_templates db))))).

Definition set_template_id (id : Uuid) (t : VmTemplate) : VmTemplate :=
  {| tpl_id := id; tpl_name := tpl_name t; tpl_description := tpl_description t;
     tpl_hypervisor := tpl_hypervisor t; tpl_boot_vcpus := tpl_boot_vcpus t;
     tpl_max_vcpus := tpl_max_vcpus t; tpl_cpu_topology := tpl_cpu_topology t;
     tpl_kvm_hyperv := tpl_kvm_hyperv t; tpl_memory_size := tpl_memory_size t;
     tpl_memory_hotplug_size := tpl_memory_hotplug_size t;
     tpl_memory_mergeable := tpl_memory_mergeable t; tpl_memory_shared := tpl_memory_shared t;
     tpl_memory_hugepages := tpl_memory_hugepages t;
     tpl_memory_hugepage_size := tpl_memory_hugepage_size t;
     tpl_memory_prefault := tpl_memory_prefault t; tpl_memory_thp := tpl_memory_thp t;
     tpl_boot_source_id := tpl_boot_source_id t;
     tpl_root_disk_object_id := tpl_root_disk_object_id t; tpl_boot_mode := tpl_boot_mode t;
     tpl_image_ref := tpl_image_ref t; tpl_cloud_init_user_data := tpl_cloud_init_user_data t;
     tpl_cloud_init_meta_data := tpl_cloud_init_meta_data t;
     tpl_cloud_init_network_config := tpl_cloud_init_network_config t;
     tpl_network_id := tpl_network_id t; tpl_networks := tpl_networks t; tpl_config := tpl_config t |}.

Definition boot_source_exists (db : Db) (id : option Uuid) : bool :=
  match id with None => true | Some id => bool_decide (id ∈ dom (t_boot_sources db)) end.

Definition create_template (new : VmTemplate) : M SqlxError Uuid :=
  id ← new_uuid;
  execute Pool (fun db =>
    let t := set_template_id id new in
    if 100 <? char_count (tpl_name t) then Err too_long
    else
      templates ← insert_pk "vm_templates_pkey" id t (t_vm_templates db);
      if existsb (fun t' => String.eqb (tpl_name t') (tpl_name t)) (rows (t_vm_templates db))
      then Err (unique_violation "vm_templates_name_key")
      else if negb (boot_source_exists db (tpl_boot_source_id t))
      then Err (fk_violation "vm_templates_boot_source_id_fkey")
      else if negb (object_exists db (tpl_root_disk_object_id t))
      then Err (fk_violation "vm_templates_root_disk_object_id_fkey")
      else if negb (network_exists db (tpl_network_id t))
      then Err (fk_violation "vm_templates_network_id_fkey")
      else Ok (with_vm_templates (fun _ => templates) db, id)).

(** Sandboxes forget a deleted template, a pool keeps it. *)
Definition forget_template (id : Uuid) (s : SandboxRow) : SandboxRow :=
  {| sb_id := sb_id s; sb_vm_id := sb_vm_id s;
     sb_vm_template_id := if bool_decide (sb_vm_template_id s = Some id) then None
                          else sb_vm_template_id s;
     sb_name := sb_name s; sb_status := sb_status s; sb_idle_timeout_secs := sb_idle_timeout_secs s;
     sb_last_activity_at := sb_last_activity_at s; sb_error_message := sb_error_message s;
     sb_created_at := sb_created_at s |}.

Definition delete_template (vm_template_id : Uuid) : M SqlxError unit :=
  execute Pool (fun db =>
    if existsb (fun p => bool_decide (sbp_vm_template_id p = vm_template_id)) (rows (t_sandbox_pools db))
    then Err (fk_violation "sandbox_pools_vm_template_id_fkey")
    else Ok (with_vm_templates (delete vm_template_id)
               (with_sandboxes (fmap (forget_template vm_template_id)) db), tt)).

Section from_vm.
Context `{PolicySerde}.

(** The root disk of a VM: the one that boots first, otherwise the first. *)
Definition root_disk_of (disks : list VmDisk) : option Uuid :=
  opt_or (List.find (fun d => bool_decide (vd_boot_order d = Some 0)) disks) (head disks)
    ≫= vd_storage_object_id.

Definition inferred_network (interfaces : list NetworkInterface) : option Uuid :=
  match interfaces with [interface] => ni_network_id interface | _ => None end.

(** A template made of a VM, its interfaces and its disks. *)
Definition template_of (name : string) (description : option string) (v : VmRow)
    (interfaces : list NetworkInterface) (disks : list VmDisk) : VmTemplate :=
  {| tpl_id := 0; tpl_name := name; tpl_description := opt_or description (v_description v);
     tpl_hypervisor := Some (v_hypervisor v); tpl_boot_vcpus := Some (v_boot_vcpus v);
     tpl_max_vcpus := Some (v_max_vcpus v); tpl_cpu_topology := v_cpu_topology v;
     tpl_kvm_hyperv := Some (v_kvm_hyperv v); tpl_memory_size := Some (v_memory_size v);
     tpl_memory_hotplug_size := v_memory_hotplug_size v;
     tpl_memory_mergeable := Some (v_memory_mergeable v);
     tpl_memory_shared := Some (v_memory_shared v);
     tpl_memory_hugepages := Some (v_memory_hugepages v);
     tpl_memory_hugepage_size := v_memory_hugepage_size v;
     tpl_memory_prefault := Some (v_memory_prefault v); tpl_memory_thp := Some (v_memory_thp v);
     tpl_boot_source_id := v_boot_source_id v; tpl_root_disk_object_id := root_disk_of disks;
     tpl_boot_mode := Some (v_boot_mode v); tpl_image_ref := v_image_ref v;
     tpl_cloud_init_user_data := v_cloud_init_user_data v;
     tpl_cloud_init_meta_data := v_cloud_init_meta_data v;
     tpl_cloud_init_network_config := v_cloud_init_network_config v;
     tpl_network_id := inferred_network interfaces; tpl_networks := None; tpl_config := v_config v |}.

Definition create_from_vm (vm_id : Uuid) (name : string) (description : option string)
  : M SqlxError Uuid :=
  vm ← Vms.get vm_id;
  interfaces ← list_nics_by_vm vm_id;
  disks ← list_disks_by_vm vm_id;
  create_template (template_of name description (vm_row vm) interfaces disks).
End from_vm.

(** ** Snapshots *)

Record NewSnapshot := { nsn_vm_id : Uuid; nsn_storage_object_id : Uuid; nsn_name : string }.

Definition create_snapshot_row (new : NewSnapshot) : M SqlxError Uuid :=
  id ← new_uuid;
  t ← now;
  execute Pool (fun db =>
    snapshots ← insert_pk "vm_snapshots_pkey" id
      {| sn_id := id; sn_vm_id := nsn_vm_id new; sn_storage_object_id := nsn_storage_object_id new;
         sn_name := nsn_name new; sn_status := SnCreating; sn_created_at := t |} (t_vm_snapshots db);
    if negb (bool_decide (nsn_vm_id new ∈ dom (t_vms db)))
    then Err (fk_violation "vm_snapshots_vm_id_fkey")
    else if negb (object_exists db (Some (nsn_storage_object_id new)))
    then Err (fk_violation "vm_snapshots_storage_object_id_fkey")
    else Ok (with_vm_snapshots (fun _ => snapshots) db, id)).

Definition get_snapshot (snapshot_id : Uuid) : M SqlxError VmSnapshot :=
  query Pool (fun db => fetch_one (t_vm_snapshots db !! snapshot_id)).

Definition list_snapshots_for_vm (vm_id : Uuid) (name_filter : option string)
  : M SqlxError (list VmSnapshot) :=
  query Pool (fun db => Ok (merge_sort (on_key Z.le sn_created_at)
    (List.filter (fun s => bool_decide (sn_vm_id s = vm_id) && name_is name_filter (sn_name s))
       (rows (t_vm_snapshots db))))).

Definition set_snapshot_status (status : SnapshotStatus) (s : VmSnapshot) : VmSnapshot :=
  {| sn_id := sn_id s; sn_vm_id := sn_vm_id s; sn_storage_object_id := sn_storage_object_id s;
     sn_name := sn_name s; sn_status := status; sn_created_at := sn_created_at s |}.

Definition update_snapshot_status (snapshot_id : Uuid) (status : SnapshotStatus) : M SqlxError unit :=
  execute Pool (fun db =>
    Ok (with_vm_snapshots (alter (set_snapshot_status status) snapshot_id) db, tt)).

(** ** Backups *)

Record NewBackup := {
  nbk_name : string;
  nbk_backup_type : BackupType;
  nbk_status : BackupStatus;
  nbk_vm_id : option Uuid;
  nbk_snapshot_id : option Uuid;
  nbk_storage_object_id : Uuid
}.

Definition backup_row (id : Uuid) (t : Z) (new : NewBackup) : Backup :=
  {| bk_id := id; bk_name := nbk_name new; bk_backup_type := nbk_backup_type new;
     bk_status := nbk_status new; bk_vm_id := nbk_vm_id new; bk_snapshot_id := nbk_snapshot_id new;
     bk_storage_object_id := nbk_storage_object_id new; bk_error_message := None;
     bk_created_at := t; bk_updated_at := t |}.

(** [backups_target_check]: a VM backup has a VM and a snapshot, a database backup
    neither. *)
Definition backup_target_ok (b : Backup) : bool :=
  match bk_backup_type b, bk_vm_id b, bk_snapshot_id b with
  | BackupVm, Some _, Some _ | BackupDatabase, None, None => true
  | _, _, _ => false
  end.

Definition backup_references (b : Backup) (db : Db) : result SqlxError unit :=
  let missing (t : gset Uuid) k := match k with None => false | Some k => negb (bool_decide (k ∈ t)) end in
  if missing (dom (t_vms db)) (bk_vm_id b) then Err (fk_violation "backups_vm_id_fkey")
  else if missing (dom (t_vm_snapshots db)) (bk_snapshot_id b)
  then Err (fk_violation "backups_snapshot_id_fkey")
  else if missing (dom (t_storage_objects db)) (Some (bk_storage_object_id b))
  then Err (fk_violation "backups_storage_object_id_fkey")
  else Ok tt.

Definition create_backup_row (new : NewBackup) : M SqlxError Backup :=
  id ← new_uuid;
  t ← now;
  execute Pool (fun db =>
    let b := backup_row id t new in
    if negb (backup_target_ok b) then Err (check_violation "backups_target_check")
    else
      backups ← insert_pk "backups_pkey" id b (t_backups db);
      if existsb (fun b' => bool_decide (is_Some (bk_snapshot_id b'))
                            && bool_decide (bk_snapshot_id b' = bk_snapshot_id b)) (rows (t_backups db))
      then Err (unique_violation "backups_snapshot_id_key")
      else if existsb (fun b' => bool_decide (bk_storage_object_id b' = bk_storage_object_id b))
                (rows (t_backups db))
      then Err (unique_violation "backups_storage_object_id_key")
      else
        _ ← backup_references b db;
        Ok (with_backups (fun _ => backups) db, b)).

Definition get_backup (backup_id : Uuid) : M SqlxError Backup :=
  query Pool (fun db => fetch_one (t_backups db !! backup_id)).

Definition list_backups (name_filter : option string) (type_filter : option BackupType)
  : M SqlxError (list Backup) :=
  query Pool (fun db => Ok (merge_sort (on_key (flip Z.le) bk_created_at)
    (List.filter (fun b => name_is name_filter (bk_name b)
       && match type_filter with None => true | Some t => bool_decide (bk_backup_type b = t) end)
       (rows (t_backups db))))).

Definition set_backup_status (status : BackupStatus) (error_message : option string) (t : Z)
    (b : Backup) : Backup :=
  {| bk_id := bk_id b; bk_name := bk_name b; bk_backup_type := bk_backup_type b; bk_status := status;
     bk_vm_id := bk_vm_id b; bk_snapshot_id := bk_snapshot_id b;
     bk_storage_object_id := bk_storage_object_id b; bk_error_message := error_message;
     bk_created_at := bk_created_at b; bk_updated_at := t |}.

Definition update_backup_status (backup_id : Uuid) (status : BackupStatus)
    (error_message : option string) : M SqlxError unit :=
  t ← now;
  execute Pool (fun db =>
    Ok (with_backups (alter (set_backup_status status error_message t) backup_id) db, tt)).
End catalog.

(** ** The round trip through a template *)

(** A create request that gives a name and a template and nothing else. *)
Definition named_request (name : string) (template : Uuid) : NewVm :=
  {| nv_name := name; nv_tags := None; nv_vm_template_id := Some template;
     nv_instance_type_id := None; nv_hypervisor := None; nv_architecture := None;
     nv_boot_vcpus := None; nv_max_vcpus := None; nv_cpu_topology := None; nv_kvm_hyperv := None;
     nv_memory_size := None; nv_memory_hotplug_size := None; nv_memory_mergeable := None;
     nv_memory_shared := None; nv_memory_hugepages := None; nv_memory_hugepage_size := None;
     nv_memory_prefault := None; nv_memory_thp := None; nv_boot_source_id := None;
     nv_root_disk_object_id := None; nv_boot_mode := None; nv_description := None;
     nv_image_ref := None; nv_cloud_init_user_data := None; nv_cloud_init_meta_data := None;
     nv_cloud_init_network_config := None; nv_network_id := None; nv_networks := None;
     nv_security_group_ids := None; nv_accelerator_config := None; nv_numa_config := None;
     nv_persistent_upper_pool_id := None; nv_placement_policy := None; nv_guest_agent := None;
     nv_ha_enabled := None; nv_config := default_vm_config |}.

(** Row [r] describes the same machine as [v]: everything but the identity,
    the tags, the placement and the description. *)
Definition same_machine (v r : VmRow) : Prop :=
  r = {| v_id := v_id r; v_name := v_name r; v_tags := v_tags r; v_host_id := v_host_id r;
         v_status := v_status r; v_description := v_description r; v_hypervisor := v_hypervisor v;
         v_boot_source_id := v_boot_source_id v; v_boot_mode := v_boot_mode v;
         v_boot_vcpus := v_boot_vcpus v; v_max_vcpus := v_max_vcpus v;
         v_cpu_topology := v_cpu_topology v; v_kvm_hyperv := v_kvm_hyperv v;
         v_memory_size := v_memory_size v; v_memory_hotplug_size := v_memory_hotplug_size v;
         v_memory_mergeable := v_memory_mergeable v; v_memory_shared := v_memory_shared v;
         v_memory_hugepages := v_memory_hugepages v;
         v_memory_hugepage_size := v_memory_hugepage_size v;
         v_memory_prefault := v_memory_prefault v; v_memory_thp := v_memory_thp v;
         v_image_ref := v_image_ref v; v_cloud_init_user_data := v_cloud_init_user_data v;
         v_cloud_init_meta_data := v_cloud_init_meta_data v;
         v_cloud_init_network_config := v_cloud_init_network_config v; v_config := v_config v |}.

Section roundtrip.
Context {coll : Collation} `{UuidText} `{PolicySerde}.

Lemma create_from_vm_inv vm_id name description o w w' id :
  create_from_vm vm_id name description o w = (w', Ok id) ->
  exists v interfaces disks, t_vms (w_db w) !! vm_id = Some v /\
    t_vm_templates (w_db w') !! id
      = Some (set_template_id id (template_of name description v interfaces disks)).
Proof.
  intros Hrun. apply bind_ok_inv in Hrun as (vm&w1&Hvm&Hrun).
  unfold Vms.get in Hvm. apply query_ok_inv in Hvm as [Hvm ->]. simpl in Hvm.
  destruct (t_vms (w_db w) !! vm_id) as [v|] eqn:Hv; [|done]. injection Hvm as <-.
  apply bind_ok_inv in Hrun as (nics&w1&Hn&Hrun). unfold list_nics_by_vm in Hn.
  apply query_ok_inv in Hn as [_ ->]. apply bind_ok_inv in Hrun as (disks&w1&Hd&Hrun).
  unfold list_disks_by_vm in Hd. apply query_ok_inv in Hd as [_ ->].
  exists v, nics, disks. split; [done|].
  apply bind_ok_inv in Hrun as (id'&w1&Hid&Hrun). injection Hid as <- <-.
  apply execute_ok_inv in Hrun as (db&Hf&->). unfold insert_pk in Hf. repeat crush_step.
  by rewrite lookup_insert_eq.
Qed.

(** A template made of a VM describes that VM: a request that gives a name and
    this template resolves, and the row it leads to agrees with the original in
    hypervisor, CPUs, memory, boot, cloud-init and configuration. *)
Theorem template_roundtrip vm_id name description o w w' id v name' o' w2 rv :
  t_vms (w_db w) !! vm_id = Some v -> v_boot_vcpus v <= v_max_vcpus v ->
  json_is_object (v_config v) = true ->
  create_from_vm vm_id name description o w = (w', Ok id) ->
  served o' ->
  resolve_create_request (named_request name' id) o' w' = (w2, rv) ->
  exists r, rv = Ok r /\ rv_name r = name' /\
    forall new_id host, same_machine v (new_row new_id r host Created).
Proof.
  intros Hv Hcpu Hcfg Hcreate Ho Hres.
  apply create_from_vm_inv in Hcreate as (v'&nics&disks&Hv'&Htpl). rewrite Hv in Hv'.
  injection Hv' as <-. unfold resolve_create_request in Hres. simpl in Hres.
  unfold mbind, M_bind, lift_err, get_template in Hres. rewrite query_served in Hres by done.
  simpl in Hres. rewrite Htpl in Hres. simpl in Hres. unfold mret, M_ret, of_result in Hres.
  unfold resolve_with, resolve_vcpus in Hres. simpl in Hres.
  destruct (Z.ltb_spec (v_max_vcpus v) (v_boot_vcpus v)); [lia|]. simpl in Hres.
  injection Hres as <- <-. eexists. split; [done|]. split; [done|]. intros new_id host.
  unfold same_machine, new_row. simpl. f_equal.
  destruct (v_config v); try done. simpl. by rewrite (left_id_L ∅ (∪)).
Qed.
End roundtrip.

(** ** Witness *)

Definition template_db : Db :=
  with_vms (fun _ => {[1%N := sample_vm 1 "web" (Some 1%N) Running 2 1024 [] (JObject ∅)]}) empty_db.

Lemma template_roundtrip_witness :
  let w' := (create_from_vm (H := array_policy_serde) (coll := encoding_collation) 1 "golden" None
               calm_oracle (world_of template_db)).1 in
  exists r, (resolve_create_request (named_request "copy" 1003) calm_oracle w').2 = Ok r /\
    forall new_id host, same_machine (sample_vm 1 "web" (Some 1%N) Running 2 1024 [] (JObject ∅))
      (new_row new_id r host Created).
Proof.
  intros w'.
  destruct (template_roundtrip (H0 := array_policy_serde) (coll := encoding_collation) 1 "golden" None
    calm_oracle (world_of template_db) w' 1003
    (sample_vm 1 "web" (Some 1%N) Running 2 1024 [] (JObject ∅)) "copy" calm_oracle
    (resolve_create_request (named_request "copy" 1003) calm_oracle w').1
    (resolve_create_request (named_request "copy" 1003) calm_oracle w').2)
    as (r&Hr&_&Hm); [done|done|done|vm_compute; reflexivity|done|apply surjective_pairing|].
  by exists r.
Defined.
