(* ===== verification/SecurityGroups.v ===== *)
(** * SecurityGroups: firewall rules and the VMs they apply to

    [qarax/src/model/security_groups.rs] with the constraints of its three tables.
    The order of [cidr] values is a parameter.

    The theorems show that a stored rule is one a packet filter can load (ports
    come in pairs, in range, and only for TCP and UDP), and that the rules of a
    VM are exactly those of its groups. *)

From S2P Require Import Prelude Text Errors Tables NodeApi World Samples.
From S2P Require Import VmConfig Hooks Vms Storage Hosts StorageObjects Ipv4 Networks Devices.
#[local] Open Scope Z_scope.
#[local] Set Default Proof Using "Type".

Record NewSecurityGroup := { nsg_name : string; nsg_description : option string }.

Record NewSecurityGroupRule := {
  nsr_direction : SecurityGroupDirection;
  nsr_protocol : SecurityGroupProtocol;
  nsr_cidr : option string;
  nsr_port_start : option Z;
  nsr_port_end : option Z;
  nsr_description : option string
}.

(** [ORDER BY] on a [cidr] column. *)
Class CidrOrder := {
  cidr_le : relation string;
  cidr_le_dec :: RelDecision cidr_le;
  cidr_le_trans :: Transitive cidr_le;
  cidr_le_total :: Total cidr_le
}.

(** An order that meets the laws. *)
Definition encoding_cidr_order : CidrOrder :=
  {| cidr_le := fun x y => coll_le (Collation := encoding_collation) x y |}.

(** [ASC NULLS FIRST]. *)
Definition nulls_first {A} (R : relation A) : relation (option A) := fun x y =>
  match x, y with Some a, Some b => R a b | None, _ => True | Some _, None => False end.
#[global] Instance nulls_first_dec {A} (R : relation A) `{!RelDecision R} :
  RelDecision (nulls_first R).
Proof. intros [x|] [y|]; simpl; apply _. Defined.

(** Enum columns sort by declaration order. *)
Definition direction_rank (d : SecurityGroupDirection) : Z :=
  match d with Ingress => 0 | Egress => 1 end.
Definition protocol_rank (p : SecurityGroupProtocol) : Z :=
  match p with ProtoAny => 0 | ProtoTcp => 1 | ProtoUdp => 2 | ProtoIcmp => 3 end.

Section groups.
Context {inet : PgInet} {coll : Collation} {cidr_order : CidrOrder}.

Definition list_groups (name_filter : option string) : M SqlxError (list SecurityGroup) :=
  query Pool (fun db => Ok (merge_sort (on_key coll_le sg_name) (List.filter (fun g =>
    match name_filter with None => true | Some n => String.eqb (sg_name g) n end)
    (rows (t_security_groups db))))).

Definition get_group (security_group_id : Uuid) : M SqlxError SecurityGroup :=
  query Pool (fun db => fetch_one (t_security_groups db !! security_group_id)).

Definition create_group (new_group : NewSecurityGroup) : M SqlxError Uuid :=
  id ← new_uuid;
  execute Pool (fun db =>
    if 100 <? char_count (nsg_name new_group) then Err too_long
    else
      groups ← insert_pk "security_groups_pkey" id
        {| sg_id := id; sg_name := nsg_name new_group; sg_description := nsg_description new_group |}
        (t_security_groups db);
      if existsb (fun g => String.eqb (sg_name g) (nsg_name new_group)) (rows (t_security_groups db))
      then Err (unique_violation "security_groups_name_key")
      else Ok (with_security_groups (fun _ => groups) db, id)).

(** The rules and the memberships of a group go with it. *)
Definition delete_group (security_group_id : Uuid) : M SqlxError unit :=
  execute Pool (fun db => Ok (with_security_groups (delete security_group_id)
    (with_security_group_rules
       (keep (fun r => negb (bool_decide (sgr_security_group_id r = security_group_id))))
    (with_vm_security_groups (filter (fun p => p.2 <> security_group_id)) db)), tt)).

(** [ORDER BY direction, protocol, cidr NULLS FIRST, port_start NULLS FIRST, id]. *)
Definition rule_order : relation SecurityGroupRule :=
  lex (on_key Z.le (fun r => direction_rank (sgr_direction r)))
  (lex (on_key Z.le (fun r => protocol_rank (sgr_protocol r)))
  (lex (on_key (nulls_first cidr_le) sgr_cidr)
  (lex (on_key (nulls_first Z.le) sgr_port_start)
       (on_key N.le sgr_id)))).
#[global] Instance rule_order_dec : RelDecision rule_order.
Proof. unfold rule_order. apply _. Defined.

Definition list_rules (security_group_id : Uuid) : M SqlxError (list SecurityGroupRule) :=
  query Pool (fun db => Ok (merge_sort rule_order (List.filter (fun r =>
    bool_decide (sgr_security_group_id r = security_group_id)) (rows (t_security_group_rules db))))).

(** The checks of the table, in the order of their names. *)
Definition port_ok (p : Z) : bool := (0 <? p) && (p <=? 65535).
Definition rule_constraints (r : SecurityGroupRule) : result SqlxError unit :=
  if negb (match sgr_port_end r with
           | None => true
           | Some e => port_ok e && (default e (sgr_port_start r) <=? e)
           end) then Err (check_violation "check_security_group_rule_port_range")
  else if negb (match sgr_port_start r, sgr_port_end r with
                | None, None | Some _, Some _ => true
                | _, _ => false
                end)
  then Err (check_violation "check_security_group_rule_ports_pair")
  else if negb (match sgr_port_start r with None => true | Some s => port_ok s end)
  then Err (check_violation "check_security_group_rule_ports_positive")
  else if negb (bool_decide (sgr_protocol r ∈ [ProtoTcp; ProtoUdp])
                || match sgr_port_start r, sgr_port_end r with None, None => true | _, _ => false end)
  then Err (check_violation "check_security_group_rule_protocol_ports")
  else Ok tt.

Definition rule_row (id group : Uuid) (rule : NewSecurityGroupRule)
  : result SqlxError SecurityGroupRule :=
  cidr ← (match nsr_cidr rule with
          | None => Ok None
          | Some s => t ← ok_or invalid_text (cidr_canonical s); Ok (Some t)
          end);
  Ok {| sgr_id := id; sgr_security_group_id := group; sgr_direction := nsr_direction rule;
        sgr_protocol := nsr_protocol rule; sgr_cidr := cidr; sgr_port_start := nsr_port_start rule;
        sgr_port_end := nsr_port_end rule; sgr_description := nsr_description rule |}.

Definition insert_rule_row (r : SecurityGroupRule) (db : Db) : result SqlxError Db :=
  _ ← rule_constraints r;
  rules ← insert_pk "security_group_rules_pkey" (sgr_id r) r (t_security_group_rules db);
  if bool_decide (sgr_security_group_id r ∈ dom (t_security_groups db))
  then Ok (with_security_group_rules (fun _ => rules) db)
  else Err (fk_violation "security_group_rules_security_group_id_fkey").

Definition create_rule (security_group_id : Uuid) (rule : NewSecurityGroupRule) : M SqlxError Uuid :=
  id ← new_uuid;
  _ ← execute Pool (fun db =>
        unit_result (r ← rule_row id security_group_id rule; insert_rule_row r db));
  mret id.

Definition delete_rule (security_group_id rule_id : Uuid) : M SqlxError unit :=
  execute Pool (fun db => Ok (with_security_group_rules (keep (fun r =>
    negb (bool_decide (sgr_security_group_id r = security_group_id)
          && bool_decide (sgr_id r = rule_id)))) db, tt)).

Definition list_groups_by_vm (vm_id : Uuid) : M SqlxError (list SecurityGroup) :=
  query Pool (fun db => Ok (merge_sort (on_key coll_le sg_name) (List.filter (fun g =>
    bool_decide ((vm_id, sg_id g) ∈ t_vm_security_groups db)) (rows (t_security_groups db))))).

Definition rules_of_vm (db : Db) (vm_id : Uuid) : list SecurityGroupRule :=
  List.filter (fun r => bool_decide ((vm_id, sgr_security_group_id r) ∈ t_vm_security_groups db))
    (rows (t_security_group_rules db)).

Definition rule_set_for_vm (vm_id : Uuid) : M SqlxError (list SecurityGroupRule) :=
  query Pool (fun db => Ok (merge_sort rule_order (rules_of_vm db vm_id))).

(** [INSERT ... ON CONFLICT DO NOTHING]. *)
Definition add_to_vm (vm_id security_group_id : Uuid) : M SqlxError unit :=
  execute Tx (fun db =>
    if bool_decide ((vm_id, security_group_id) ∈ t_vm_security_groups db) then Ok (db, tt)
    else if negb (bool_decide (vm_id ∈ dom (t_vms db)))
    then Err (fk_violation "vm_security_groups_vm_id_fkey")
    else if negb (bool_decide (security_group_id ∈ dom (t_security_groups db)))
    then Err (fk_violation "vm_security_groups_security_group_id_fkey")
    else Ok (with_vm_security_groups (union {[(vm_id, security_group_id)]}) db, tt)).

Definition remove_from_vm (vm_id security_group_id : Uuid) : M SqlxError unit :=
  execute Tx (fun db =>
    Ok (with_vm_security_groups (fun s => s ∖ {[(vm_id, security_group_id)]}) db, tt)).

Definition list_vm_ids (security_group_id : Uuid) : M SqlxError (list Uuid) :=
  query Pool (fun db => Ok (merge_sort N.le (omap (fun p : Uuid * Uuid =>
    if decide (p.2 = security_group_id) then Some p.1 else None)
    (elements (t_vm_security_groups db))))).

(** ** Stored rules *)

Definition loadable (r : SecurityGroupRule) : Prop :=
  match sgr_port_start r, sgr_port_end r with
  | None, None => True
  | Some s, Some e => 0 < s <= e /\ e <= 65535 /\ sgr_protocol r ∈ [ProtoTcp; ProtoUdp]
  | _, _ => False
  end.

Lemma rule_constraints_spec r : rule_constraints r = Ok tt <-> loadable r.
Proof.
  unfold rule_constraints, loadable, port_ok.
  destruct (sgr_port_start r) as [s|], (sgr_port_end r) as [e|]; simpl.
  - rewrite orb_false_r.
    destruct (Z.ltb_spec 0 e), (Z.leb_spec e 65535), (Z.leb_spec s e), (Z.ltb_spec 0 s),
      (Z.leb_spec s 65535), (bool_decide_reflect (sgr_protocol r ∈ [ProtoTcp; ProtoUdp])); simpl;
      (split; [intros ?|intros (?&?&?)]); try done; lia.
  - done.
  - by destruct (_ && _).
  - by rewrite orb_true_r.
Qed.

Definition rules_ok (db : Db) : Prop :=
  map_Forall (fun _ r => loadable r /\ is_Some (t_security_groups db !! sgr_security_group_id r))
    (t_security_group_rules db).

Lemma elem_of_rules_of_vm db vm_id r :
  r ∈ rules_of_vm db vm_id <->
  (exists k, t_security_group_rules db !! k = Some r) /\
  (vm_id, sgr_security_group_id r) ∈ t_vm_security_groups db.
Proof. unfold rules_of_vm. by rewrite elem_of_filter_rows, bool_decide_eq_true. Qed.

Definition keeps_rules (db db' : Db) : Prop := rules_ok db -> rules_ok db'.
#[global] Instance keeps_rules_preorder : PreOrder keeps_rules.
Proof. split; [by intros db Hdb|]. intros a b c H1 H2 Ha. by apply H2, H1. Qed.

Lemma create_group_rules new : steps (db_moves keeps_rules) (create_group new).
Proof.
  apply steps_bind; [apply steps_new_uuid, db_moves_tick|]. intros id.
  apply steps_db_execute. intros db db' a Hrun Hok. unfold insert_pk in Hrun.
  repeat crush_step. intros k r Hk. destruct (Hok k r Hk) as [Hl [g Hg]]. split; [done|].
  simpl. destruct (decide (a = sgr_security_group_id r)) as [->|];
    [by rewrite lookup_insert_eq|by rewrite lookup_insert_ne].
Qed.

Lemma delete_group_rules id : steps (db_moves keeps_rules) (delete_group id).
Proof.
  apply steps_db_execute. intros db db' a [= <- <-] Hok k r. simpl.
  intros [Hk Hne%negb_true_iff%bool_decide_eq_false]%lookup_keep.
  destruct (Hok k r Hk) as [Hl Hg]. split; [done|]. by rewrite lookup_delete_ne.
Qed.

Lemma create_rule_rules group rule : steps (db_moves keeps_rules) (create_rule group rule).
Proof.
  apply steps_bind; [apply steps_new_uuid, db_moves_tick|]. intros id.
  apply steps_bind; [|intros ?; apply steps_ret]. apply steps_db_execute.
  intros db db' a (r&_&Hins)%unit_result_inv%result_bind_ok Hok. unfold insert_rule_row in Hins.
  apply result_bind_ok in Hins as ([]&Hc%rule_constraints_spec&(rules&Hpk&Hins)%result_bind_ok).
  unfold insert_pk in Hpk. destruct (_ !! _); [done|]. injection Hpk as <-.
  case_bool_decide as Hg; [|done]. injection Hins as <-. apply map_Forall_insert_2; [|done].
  split; [done|]. by apply elem_of_dom.
Qed.

Lemma delete_rule_rules group id : steps (db_moves keeps_rules) (delete_rule group id).
Proof.
  apply steps_db_execute. intros db db' a [= <- <-] Hok k r. simpl.
  intros [Hk _]%lookup_keep. by apply (Hok k r).
Qed.

Lemma rule_set_reads vm_id : steps same_but_step (rule_set_for_vm vm_id).
Proof. apply query_same_but_step. Qed.
Lemma groups_by_vm_reads vm_id : steps same_but_step (list_groups_by_vm vm_id).
Proof. apply query_same_but_step. Qed.
Lemma list_vm_ids_reads id : steps same_but_step (list_vm_ids id).
Proof. apply query_same_but_step. Qed.
End groups.
