(* ===== verification/NetworkPolicy.v ===== *)
(** * NetworkPolicy: isolation, VPC overlays and VM firewalls

    [qarax/src/network_policy.rs]: which subnets a bridge must block or exempt
    from translation, the VXLAN overlay that joins the hosts of a VPC, and the
    firewall of a VM.  Parameters are the name-based identifier a VPC is seeded
    with ([VpcSeed]), the resolver of host names and the texts of node errors.

    The theorems show that the blocked subnets of a network are those of all
    networks of other VPCs in the cluster, that the hosts of a VPC agree on one
    another's overlay addresses, which are distinct and inside 100.64.0.0/10, and
    which interfaces and rules the firewall of a VM gets. *)

From S2P Require Import Prelude Text Errors Tables NodeApi World Samples.
From S2P Require Import VmConfig Hooks Vms Storage Hosts Ipv4 Networks Devices SecurityGroups.
From Stdlib Require Import Ascii.
#[local] Open Scope Z_scope.
#[local] Set Default Proof Using "Type".

(** [std::net::IpAddr]. *)
Inductive IpAddr : Type := V4 (a : Z) | V6 (a : Z).

(** [Uuid::new_v5] of a VPC name: its sixteen bytes and its simple form. *)
Class VpcSeed := {
  seed_byte : string -> nat -> Z;
  seed_simple : string -> string;
  seed_byte_u8 : forall v i, 0 <= seed_byte v i <= 255
}.

Definition firewall_direction_to_proto (d : SecurityGroupDirection) : Z :=
  match d with Ingress => 0 | Egress => 1 end.
Definition firewall_protocol_to_proto (p : SecurityGroupProtocol) : Z :=
  match p with ProtoAny => 0 | ProtoTcp => 1 | ProtoUdp => 2 | ProtoIcmp => 3 end.

(** ** Isolation *)

Definition other_vpc (network other : Network) (vpc_name : string) : bool :=
  negb (bool_decide (net_id other = net_id network))
  && negb (bool_decide (net_vpc_name other = Some vpc_name)).

Definition blocked_subnets_for_network (network : Network) (host_id : Uuid)
    (attached_host_networks : list (Network * string)) (attached_cluster : list AttachedNetwork)
  : list string :=
  match net_vpc_name network with
  | None => []
  | Some vpc_name =>
      btree_set text_le
        (((fun o => net_subnet o.1) <$>
            List.filter (fun o => other_vpc network o.1 vpc_name) attached_host_networks)
         ++ ((fun o => net_subnet (an_network o)) <$>
            List.filter (fun o => negb (bool_decide (an_host_id o = host_id))
                                  && other_vpc network (an_network o) vpc_name) attached_cluster))
  end.

Definition nat_exempt_subnets_for_network (network : Network)
    (attached_cluster : list AttachedNetwork) : list string :=
  match net_vpc_name network with
  | None => []
  | Some vpc_name =>
      if negb (bool_decide (net_network_type network = Some "isolated"%string)) then []
      else btree_set text_le ((fun o => net_subnet (an_network o)) <$>
             List.filter (fun o => negb (bool_decide (net_id (an_network o) = net_id network))
                && bool_decide (net_vpc_name (an_network o) = Some vpc_name)) attached_cluster)
  end.

Definition affected_host_ids_for_vpc (attached_cluster : list AttachedNetwork) (vpc_name : string)
    (extra_host_ids : list Uuid) : list Uuid :=
  merge_sort N.le (remove_dups ((an_host_id <$> List.filter
    (fun a => bool_decide (net_vpc_name (an_network a) = Some vpc_name)) attached_cluster)
    ++ extra_host_ids)).

Definition attached_networks_for_host (attached_cluster : list AttachedNetwork) (host_id : Uuid)
  : list (Network * string) :=
  (fun a => (an_network a, an_bridge_name a)) <$>
    List.filter (fun a => bool_decide (an_host_id a = host_id)) attached_cluster.

(** ** Overlays *)

Abbreviation participants := (gmap Uuid (list AttachedNetwork)).

(** [entry(host).or_default().push(attachment)]. *)
Definition push_attachment (m : participants) (a : AttachedNetwork) : participants :=
  <[an_host_id a := default [] (m !! an_host_id a) ++ [a]]> m.

Definition vpc_participants (attached : list AttachedNetwork) (vpc_name : string) : participants :=
  foldl (fun m a => if bool_decide (net_vpc_name (an_network a) = Some vpc_name)
                    then push_attachment m a else m) ∅ attached.

Definition sorted_host_ids (m : participants) : list Uuid := merge_sort N.le (map_to_list m).*1.

Section overlays.
Context `{UuidText} {seed : VpcSeed}.
Variable lookup_host : string -> Z -> result string (list IpAddr).

Definition overlay_interface_name (vpc_name : string) : string :=
  "qvx" +:+ String.substring 0 8 (seed_simple vpc_name).

Definition overlay_vni (vpc_name : string) : Z :=
  let vni := Z.lor (Z.lor (Z.shiftl (seed_byte vpc_name 0) 16) (Z.shiftl (seed_byte vpc_name 1) 8))
               (seed_byte vpc_name 2) in
  if vni =? 0 then 1 else vni.

Definition overlay_octets (vpc_name : string) : Z * Z :=
  (64 + seed_byte vpc_name 3 mod 64, seed_byte vpc_name 4).

Definition too_many_hosts (vpc_name : string) : Error :=
  UnprocessableEntity ("VPC " +:+ vpc_name
    +:+ " exceeds the first-cut VXLAN host limit of 254 participants").

Definition overlay_ip (vpc_name : string) (host_index : nat) : result Error string :=
  if (254 <=? host_index)%nat then Err (too_many_hosts vpc_name)
  else let '(octet2, octet3) := overlay_octets vpc_name in
       Ok ("100." +:+ pretty octet2 +:+ "." +:+ pretty octet3 +:+ "."
           +:+ pretty (Z.of_nat host_index + 1))%string.

Definition overlay_ip_cidr (vpc_name : string) (host_index : nat) : result Error string :=
  ip ← overlay_ip vpc_name host_index; Ok (ip +:+ "/24")%string.

(** The first IPv4 address; answers are kept per address. *)
Definition first_v4 (l : list IpAddr) : option string :=
  head (omap (fun a => match a with V4 a => Some (fmt_ipv4 a) | V6 _ => None end) l).

Definition resolve_underlay_ip (cache : gmap string string) (address : string) (port : Z)
  : result Error (string * gmap string string) :=
  match cache !! address with
  | Some ip => Ok (ip, cache)
  | None =>
      addresses ← map_err (fun e => UnprocessableEntity ("Failed to resolve host address "
        +:+ address +:+ " for VXLAN overlay: " +:+ e)) (lookup_host address port);
      ip ← ok_or (UnprocessableEntity ("Host address " +:+ address
        +:+ " did not resolve to an IPv4 address for VXLAN overlay")) (first_v4 addresses);
      Ok (ip, <[address := ip]> cache)
  end.

Definition position (id : Uuid) (l : list Uuid) : option nat := fst <$> list_find (eq id) l.

(** One remote host of a VPC: its underlay address and a route to each of its
    subnets by way of its overlay address. *)
Definition remote_host (vpc_name : string) (host_order : list Uuid) (remote_host_id : Uuid)
    (remote_attachments : list AttachedNetwork) (cache : gmap string string)
  : result Error (string * list (string * string) * gmap string string) :=
  first ← ok_or (UnprocessableEntity ("Missing attachment details for host "
    +:+ uuid_to_string remote_host_id +:+ " in VPC " +:+ vpc_name)) (head remote_attachments);
  '(ip, cache) ← resolve_underlay_ip cache (an_host_address first) (as_u16 (an_host_port first));
  remote_index ← ok_or (UnprocessableEntity ("Host " +:+ uuid_to_string remote_host_id
    +:+ " is missing from VPC ordering for " +:+ vpc_name)) (position remote_host_id host_order);
  via ← overlay_ip vpc_name remote_index;
  Ok (ip, (fun a => (net_subnet (an_network a), via)) <$> remote_attachments, cache).

(** The loop over the other participants, in the order of their identifiers. *)
Fixpoint remote_hosts (vpc_name : string) (host_order : list Uuid) (self : Uuid)
    (entries : list (Uuid * list AttachedNetwork)) (cache : gmap string string)
  : result Error (list string * list (string * string) * gmap string string) :=
  match entries with
  | [] => Ok ([], [], cache)
  | (remote_host_id, remote_attachments) :: entries' =>
      if bool_decide (remote_host_id = self)
      then remote_hosts vpc_name host_order self entries' cache
      else
        '(ip, routes, cache) ← remote_host vpc_name host_order remote_host_id remote_attachments cache;
        '(ips, routes', cache) ← remote_hosts vpc_name host_order self entries' cache;
        Ok (ip :: ips, routes ++ routes', cache)
  end.

Definition btree_entries (m : participants) : list (Uuid * list AttachedNetwork) :=
  merge_sort (on_key N.le fst) (map_to_list m).

(** The overlay of one VPC on [host]; a VPC with a single host has none. *)
Definition vpc_overlay (host : Host) (attached : list AttachedNetwork) (vpc_name : string)
    (cache : gmap string string) : result Error (option VpcOverlayConfig * gmap string string) :=
  let participants := vpc_participants attached vpc_name in
  if (size participants <=? 1)%nat then Ok (None, cache)
  else
    let host_order := sorted_host_ids participants in
    if (255 <=? length host_order)%nat then Err (too_many_hosts vpc_name)
    else
      local_host_index ← ok_or (UnprocessableEntity ("Host " +:+ uuid_to_string (h_id host)
        +:+ " is missing from VPC " +:+ vpc_name)) (position (h_id host) host_order);
      '(local_underlay_ip, cache) ← resolve_underlay_ip cache (h_address host) (as_u16 (h_port host));
      local_overlay_cidr ← overlay_ip_cidr vpc_name local_host_index;
      '(peers, routes, cache) ← remote_hosts vpc_name host_order (h_id host)
        (btree_entries participants) cache;
      Ok (Some {| vo_vpc_name := vpc_name; vo_interface_name := overlay_interface_name vpc_name;
                  vo_vni := overlay_vni vpc_name; vo_local_underlay_ip := local_underlay_ip;
                  vo_local_overlay_cidr := local_overlay_cidr;
                  vo_peer_underlay_ips := btree_set text_le peers;
                  vo_routes := (fun r => {| vr_subnet := r.1; vr_via_ip := r.2 |}) <$>
                                 btree_set pair_le routes |}, cache).

Fixpoint vpc_overlays (host : Host) (attached : list AttachedNetwork) (vpcs : list string)
    (cache : gmap string string) : result Error (list VpcOverlayConfig) :=
  match vpcs with
  | [] => Ok []
  | vpc_name :: vpcs' =>
      '(overlay, cache) ← vpc_overlay host attached vpc_name cache;
      overlays ← vpc_overlays host attached vpcs' cache;
      Ok (match overlay with Some c => c :: overlays | None => overlays end)
  end.

(** The VPCs of the networks attached to [host], in order. *)
Definition local_vpcs (host : Host) (attached : list AttachedNetwork) : list string :=
  btree_set text_le (omap (fun a => if bool_decide (an_host_id a = h_id host)
                                    then net_vpc_name (an_network a) else None) attached).

(** ** Synchronisation *)

Context `{PolicySerde} {coll : Collation} {cidr_order : CidrOrder}.
Variable rpc_error_text : RpcCall -> RpcOutcome -> string.

(** A node call whose failure becomes a 422 with a prefix. *)
Definition checked_rpc (host : Host) (call : RpcCall) (prefix : string) : M Error unit :=
  r ← rpc host call;
  if bool_decide (r = RpcOk) then mret tt
  else throw (UnprocessableEntity (prefix +:+ ": " +:+ rpc_error_text call r)).

Definition sync_bridge (host : Host) (attached_host_networks : list (Network * string))
    (attached_cluster : list AttachedNetwork) (nb : Network * string) : M Error unit :=
  let '(network, bridge_name) := nb in
  checked_rpc host
    (SyncNetworkIsolation bridge_name (net_subnet network)
       (blocked_subnets_for_network network (h_id host) attached_host_networks attached_cluster)
       (nat_exempt_subnets_for_network network attached_cluster))
    ("Failed to sync network isolation for host " +:+ h_name host +:+ " bridge " +:+ bridge_name).

Definition sync_host_network_isolation_for_host (host : Host)
    (attached_host_networks : list (Network * string)) (attached_cluster : list AttachedNetwork)
  : M Error unit :=
  for_all_m (sync_bridge host attached_host_networks attached_cluster) attached_host_networks.

Definition sync_host_network_isolation (host_id : Uuid) : M Error unit :=
  host ← require_by_id host_id;
  attached_cluster ← sqlx_q list_attached;
  sync_host_network_isolation_for_host host
    (attached_networks_for_host attached_cluster host_id) attached_cluster.

Definition sync_host_vpc_overlays_for_host (host : Host) (attached : list AttachedNetwork)
  : M Error unit :=
  overlays ← of_result (vpc_overlays host attached (local_vpcs host attached) ∅);
  checked_rpc host (SyncVpcOverlays overlays)
    ("Failed to sync VXLAN VPC overlays for host " +:+ h_name host).

Definition sync_host_vpc_overlays (host_id : Uuid) : M Error unit :=
  host ← require_by_id host_id;
  attached ← sqlx_q list_attached;
  sync_host_vpc_overlays_for_host host attached.

Definition sync_host_vpc_state (attached_cluster : list AttachedNetwork) (host_id : Uuid)
  : M Error unit :=
  host ← require_by_id host_id;
  _ ← sync_host_network_isolation_for_host host
        (attached_networks_for_host attached_cluster host_id) attached_cluster;
  sync_host_vpc_overlays_for_host host attached_cluster.

(** [try_join_all] over the hosts, one after the other. *)
Definition sync_cluster_vpc_state (network : Network) (extra_host_ids : list Uuid) : M Error unit :=
  match net_vpc_name network with
  | None => mret tt
  | Some vpc_name =>
      attached_cluster ← sqlx_q list_attached;
      for_all_m (sync_host_vpc_state attached_cluster)
        (affected_host_ids_for_vpc attached_cluster vpc_name extra_host_ids)
  end.

(** ** Firewalls *)

Definition proto_rule (rule : SecurityGroupRule) : VmFirewallRule :=
  {| fr_direction := firewall_direction_to_proto (sgr_direction rule);
     fr_protocol := firewall_protocol_to_proto (sgr_protocol rule);
     fr_cidr := default ""%string (sgr_cidr rule); fr_port_start := sgr_port_start rule;
     fr_port_end := sgr_port_end rule |}.

Definition not_attached (network_id host_id : Uuid) : Error :=
  UnprocessableEntity ("Network " +:+ uuid_to_string network_id +:+ " is not attached to host "
    +:+ uuid_to_string host_id +:+ ". Run 'network attach-host' first.").

(** The address of a NIC without its prefix length. *)
Definition bare_ip (ip : string) : string := default ip (head (str_split "/"%char ip)).

Fixpoint nic_interfaces (host_id : Uuid) (rules : list VmFirewallRule) (nics : list NetworkInterface)
  : M Error (list VmFirewallInterface) :=
  match nics with
  | [] => mret []
  | nic :: nics' =>
      match ni_network_id nic, ni_ip_address nic with
      | Some network_id, Some ip_address =>
          network ← sqlx_q (Networks.get network_id);
          if bool_decide (net_network_type network = Some "passt"%string)
          then nic_interfaces host_id rules nics'
          else
            bridge ← sqlx_q (get_host_bridge host_id network_id);
            match bridge with
            | None => throw (not_attached network_id host_id)
            | Some bridge_name =>
                rest ← nic_interfaces host_id rules nics';
                mret ({| fi_bridge_name := bridge_name; fi_ip := bare_ip ip_address;
                         fi_rules := rules |} :: rest)
            end
      | _, _ => nic_interfaces host_id rules nics'
      end
  end.

Definition firewall_interfaces_for_vm (vm_id : Uuid) : M Error (list VmFirewallInterface) :=
  vm ← sqlx_q (Vms.get vm_id);
  match v_host_id (vm_row vm) with
  | None => mret []
  | Some host_id =>
      groups ← sqlx_q (list_groups_by_vm vm_id);
      match groups with
      | [] => mret []
      | _ :: _ =>
          rules ← sqlx_q (rule_set_for_vm vm_id);
          nics ← sqlx_q (list_nics_by_vm vm_id);
          nic_interfaces host_id (proto_rule <$> rules) nics
      end
  end.

(** The host is read again. *)
Definition sync_vm_firewall_on_host (vm_id host_id : Uuid) : M Error unit :=
  host ← require_by_id host_id;
  interfaces ← firewall_interfaces_for_vm vm_id;
  checked_rpc host (SyncVmFirewall vm_id interfaces)
    ("Failed to sync VM firewall for " +:+ uuid_to_string vm_id +:+ " on host " +:+ h_name host).

Definition sync_vm_firewall (vm_id : Uuid) : M Error unit :=
  vm ← sqlx_q (Vms.get vm_id);
  match v_host_id (vm_row vm) with
  | None => mret tt
  | Some host_id =>
      if negb (bool_decide (v_status (vm_row vm) ∈ [Running; Shutdown])) then mret tt
      else sync_vm_firewall_on_host vm_id host_id
  end.

Definition sync_security_group_members (security_group_id : Uuid) : M Error unit :=
  vm_ids ← sqlx_q (list_vm_ids security_group_id);
  for_all_m sync_vm_firewall vm_ids.
End overlays.

(** ** Isolation follows the VPC boundaries *)

Lemma elem_of_list_filter {A} (p : A -> bool) (l : list A) x :
  x ∈ List.filter p l <-> x ∈ l /\ p x = true.
Proof. by rewrite list_elem_of_In, filter_In, <- list_elem_of_In. Qed.

(** The two passes, over the networks of the host and those of the others, together block
    the subnets of the networks outside the VPC. *)
Lemma elem_blocked network host_id cluster vpc s :
  net_vpc_name network = Some vpc ->
  s ∈ blocked_subnets_for_network network host_id (attached_networks_for_host cluster host_id) cluster <->
  exists a, a ∈ cluster /\ net_id (an_network a) <> net_id network /\
    net_vpc_name (an_network a) <> Some vpc /\ s = net_subnet (an_network a).
Proof.
  intros Hv. unfold blocked_subnets_for_network, other_vpc. rewrite Hv, elem_of_btree_set, elem_of_app, !list_elem_of_fmap.
  unfold attached_networks_for_host. setoid_rewrite elem_of_list_filter.
  setoid_rewrite list_elem_of_fmap. setoid_rewrite elem_of_list_filter.
  setoid_rewrite andb_true_iff. setoid_rewrite andb_true_iff. setoid_rewrite negb_true_iff. setoid_rewrite bool_decide_eq_false. split.
  - intros [(n&->&(a&->&Ha&_)&Hn)|(a&->&Ha&_&Hn)]; exists a; by destruct Hn.
  - intros (a&Ha&Hid&Hvpc&->). destruct (decide (an_host_id a = host_id)) as [Hh|Hh].
    + left. exists (an_network a, an_bridge_name a). split; [done|]. split; [|done].
      exists a. by rewrite bool_decide_eq_true_2.
    + right. by exists a.
Qed.

(** ** Overlays *)

Definition in_vpc (vpc_name : string) (h : Uuid) (a : AttachedNetwork) : bool :=
  bool_decide (net_vpc_name (an_network a) = Some vpc_name) && bool_decide (an_host_id a = h).

Definition nonempty {A} (l : list A) : option (list A) :=
  match l with [] => None | _ => Some l end.

Lemma push_lookup m a h :
  push_attachment m a !! h
  = if decide (an_host_id a = h) then Some (default [] (m !! an_host_id a) ++ [a]) else m !! h.
Proof.
  unfold push_attachment. case_decide as Hh; [by subst h; rewrite lookup_insert_eq|].
  by rewrite lookup_insert_ne.
Qed.

Lemma participants_lookup attached v h :
  vpc_participants attached v !! h = nonempty (List.filter (in_vpc v h) attached).
Proof.
  induction attached as [|a attached IH] using rev_ind; [done|].
  unfold vpc_participants in *. rewrite foldl_app, List.filter_app. simpl. unfold in_vpc at 2.
  case_bool_decide as Hv; simpl; [|by rewrite app_nil_r].
  rewrite push_lookup. case_bool_decide as Hh; simpl.
  - rewrite decide_True by done. subst h. rewrite IH. by destruct (List.filter _ attached).
  - by rewrite decide_False, app_nil_r by done.
Qed.

Lemma elem_of_sorted_host_ids m h : h ∈ sorted_host_ids m <-> is_Some (m !! h).
Proof.
  unfold sorted_host_ids. rewrite merge_sort_Permutation, list_elem_of_fmap. split.
  - intros ([k l]&->&Hin%elem_of_map_to_list). eauto.
  - intros [l Hl]. exists (h, l). split; [done|]. by apply elem_of_map_to_list.
Qed.

Lemma length_sorted_host_ids m : length (sorted_host_ids m) = size m.
Proof.
  unfold sorted_host_ids. rewrite merge_sort_Permutation, length_fmap. apply length_map_to_list.
Qed.

Lemma position_spec h l : h ∈ l -> exists i, position h l = Some i /\ l !! i = Some h.
Proof.
  intros Hin. destruct (list_find_elem_of (eq h) l h Hin eq_refl) as [[i x] Hf].
  exists i. unfold position. rewrite Hf. apply list_find_Some in Hf as (Hi&<-&_). done.
Qed.

Lemma position_lookup h l i : position h l = Some i -> l !! i = Some h.
Proof.
  unfold position. destruct (list_find (eq h) l) as [[j x]|] eqn:Hf; [|done]. simpl. intros [= <-].
  by apply list_find_Some in Hf as (Hi&<-&_).
Qed.

Section overlay_facts.
Context `{UuidText} {seed : VpcSeed}.
Variable lookup_host : string -> Z -> result string (list IpAddr).

(** The overlay address of a host: its rank in the VPC. *)
Definition address_of (attached : list AttachedNetwork) (v : string) (h : Uuid) (ip : string) : Prop :=
  exists i, position h (sorted_host_ids (vpc_participants attached v)) = Some i /\
    overlay_ip v i = Ok ip.

Lemma overlay_ip_inj v i j ip : overlay_ip v i = Ok ip -> overlay_ip v j = Ok ip -> i = j.
Proof.
  unfold overlay_ip. destruct (254 <=? i)%nat, (254 <=? j)%nat; try done. simpl.
  intros [= <-] [= Heq]. do 5 apply (inj _) in Heq. apply (inj pretty) in Heq. lia.
Qed.

Lemma address_of_inj attached v h1 h2 ip :
  address_of attached v h1 ip -> address_of attached v h2 ip -> h1 = h2.
Proof.
  intros (i&Hi&Hip) (j&Hj&Hjp). rewrite (overlay_ip_inj v i j ip) in Hi by done.
  apply position_lookup in Hi, Hj. congruence.
Qed.
Lemma address_of_fun attached v h ip1 ip2 :
  address_of attached v h ip1 -> address_of attached v h ip2 -> ip1 = ip2.
Proof. intros (i&Hi&Hip) (j&Hj&Hjp). congruence. Qed.

Lemma remote_hosts_routes v attached self entries cache peers routes cache' :
  remote_hosts lookup_host v (sorted_host_ids (vpc_participants attached v)) self entries cache
    = Ok (peers, routes, cache') ->
  forall s ip, (s, ip) ∈ routes <->
    exists h l a, (h, l) ∈ entries /\ h <> self /\ a ∈ l /\ s = net_subnet (an_network a) /\
      address_of attached v h ip.
Proof.
  revert cache peers routes. induction entries as [|[h l] entries IH]; intros cache peers routes; simpl.
  { intros [= <- <- <-] s ip. split; [by intros ?%elem_of_nil|]. intros (?&?&?&?%elem_of_nil&_). done. }
  case_bool_decide as Hself.
  { intros Hrun s ip. rewrite (IH _ _ _ Hrun). subst h. split.
    - intros (h&l'&a&Hin&Hrest). exists h, l', a. split; [by right|done].
    - intros (h&l'&a&[[= -> ->]|Hin]%elem_of_cons&Hne&Hrest); [done|]. exists h, l', a. done. }
  intros ([[ip0 rs] c1]&Hone&([[ips rs'] c2]&Hrest&[= <- <- <-])%result_bind_ok)%result_bind_ok s ip.
  rewrite elem_of_app, (IH _ _ _ Hrest). unfold remote_host in Hone.
  apply result_bind_ok in Hone as (first&_&([ip1 c3]&_&(i&Hi%ok_or_ok&(via&Hvia&[= <- <- <-])
    %result_bind_ok)%result_bind_ok)%result_bind_ok).
  assert (address_of attached v h via) as Haddr by (by exists i). split.
  - intros [(a&[= -> ->]&Ha)%list_elem_of_fmap|(h'&l'&a&Hin&?)].
    + exists h, l, a. split; [by left|done].
    + exists h', l', a. split; [by right|done].
  - intros (h'&l'&a&[[= -> ->]|Hin]%elem_of_cons&Hne&Ha&->&Hip).
    + left. apply list_elem_of_fmap. exists a. by rewrite (address_of_fun _ _ _ _ _ Hip Haddr).
    + right. by exists h', l', a.
Qed.

(** The attachments of host [h] to networks of the VPC. *)
Definition attached_in (attached : list AttachedNetwork) (v : string) (h : Uuid)
    (a : AttachedNetwork) : Prop :=
  a ∈ attached /\ net_vpc_name (an_network a) = Some v /\ an_host_id a = h.

Lemma participants_entries attached v h l a :
  (h, l) ∈ btree_entries (vpc_participants attached v) -> a ∈ l <-> attached_in attached v h a.
Proof.
  unfold btree_entries. rewrite merge_sort_Permutation, elem_of_map_to_list, participants_lookup.
  unfold nonempty. destruct (List.filter _ attached) as [|b l'] eqn:Hf; [done|]. intros [= <-].
  rewrite <- Hf, elem_of_list_filter. unfold attached_in, in_vpc.
  by rewrite andb_true_iff, !bool_decide_eq_true.
Qed.

Lemma attached_in_entry attached v h a :
  attached_in attached v h a -> exists l, (h, l) ∈ btree_entries (vpc_participants attached v).
Proof.
  intros (Hin&Hv&Hh). assert (a ∈ List.filter (in_vpc v h) attached) as Ha.
  { apply elem_of_list_filter. unfold in_vpc. by rewrite !bool_decide_eq_true_2. }
  unfold btree_entries. setoid_rewrite merge_sort_Permutation.
  setoid_rewrite elem_of_map_to_list. setoid_rewrite participants_lookup.
  destruct (List.filter _ attached) as [|b l]; [by apply elem_of_nil in Ha|]. by eexists.
Qed.

(** What a computed overlay consists of. *)
Record overlay_of (host : Host) (attached : list AttachedNetwork) (v : string)
    (c : VpcOverlayConfig) : Prop := {
  oo_vni : vo_vni c = overlay_vni v;
  oo_interface : vo_interface_name c = overlay_interface_name v;
  oo_local : exists ip, address_of attached v (h_id host) ip /\
    vo_local_overlay_cidr c = (ip +:+ "/24")%string;
  oo_routes : forall r, r ∈ vo_routes c <-> exists h a, h <> h_id host /\
    attached_in attached v h a /\ vr_subnet r = net_subnet (an_network a) /\
    address_of attached v h (vr_via_ip r)
}.

Lemma vpc_overlay_inv host attached v cache c cache' :
  vpc_overlay lookup_host host attached v cache = Ok (Some c, cache') -> overlay_of host attached v c.
Proof.
  unfold vpc_overlay. destruct (size _ <=? 1)%nat; [done|]. destruct (255 <=? _)%nat; [done|].
  intros (i&Hi%ok_or_ok&([u c1]&_&Hrun)%result_bind_ok)%result_bind_ok.
  apply result_bind_ok in Hrun as (cidr&Hcidr&([[peers routes] c2]&Hrem&[= <- <-])%result_bind_ok).
  apply result_bind_ok in Hcidr as (ip&Hip&[= <-]).
  pose proof (remote_hosts_routes _ _ _ _ _ _ _ _ Hrem) as Hroutes.
  split; [done|done|exists ip; split; [by exists i|done]|]. intros [s via]. simpl.
  rewrite list_elem_of_fmap. setoid_rewrite elem_of_btree_set. split.
  - intros ([s' via']&[= -> ->]&Hin). apply Hroutes in Hin as (h&l&a&Hent&Hne&Ha&->&Haddr).
    exists h, a. by rewrite <- (participants_entries _ _ _ _ _ Hent).
  - intros (h&a&Hne&Hatt&->&Haddr). exists (net_subnet (an_network a), via). split; [done|].
    destruct (attached_in_entry _ _ _ _ Hatt) as [l Hent]. apply Hroutes. exists h, l, a.
    by rewrite (participants_entries _ _ _ _ _ Hent).
Qed.

(** C37. The hosts of a VPC compute their overlays independently and agree: same
    network identifier and interface, different overlay addresses, and every
    subnet of a host is routed by the others to the very address that host gives
    itself; no other route exists. *)
Theorem overlay_hosts_agree A B attached v cache1 cache2 cache1' cache2' a b :
  vpc_overlay lookup_host A attached v cache1 = Ok (Some a, cache1') ->
  vpc_overlay lookup_host B attached v cache2 = Ok (Some b, cache2') ->
  h_id A <> h_id B ->
  vo_vni a = vo_vni b /\ vo_interface_name a = vo_interface_name b /\
  vo_local_overlay_cidr a <> vo_local_overlay_cidr b /\
  exists ip, vo_local_overlay_cidr b = (ip +:+ "/24")%string /\
    forall s, {| vr_subnet := s; vr_via_ip := ip |} ∈ vo_routes a <->
      exists x, attached_in attached v (h_id B) x /\ s = net_subnet (an_network x).
Proof.
  intros [va ia (ipa&Ha&la) ra]%vpc_overlay_inv [vb ib (ipb&Hb&lb) rb]%vpc_overlay_inv Hne.
  split_and!; [congruence|congruence| |].
  - rewrite la, lb. intros ->%append_inj_r. by apply Hne, (address_of_inj attached v _ _ ipb).
  - exists ipb. split; [done|]. intros s. rewrite ra. simpl. split.
    + intros (h&x&_&Hx&->&Haddr). rewrite (address_of_inj _ _ _ _ _ Hb Haddr). by exists x.
    + intros (x&Hx&->). exists (h_id B), x. done.
Qed.

(** An address of the overlay: 100.64.0.0/10, and never the network or broadcast
    address of its /24. *)
Lemma overlay_ip_form v i ip :
  overlay_ip v i = Ok ip ->
  exists o2 o3 o4, ip = ("100." +:+ pretty o2 +:+ "." +:+ pretty o3 +:+ "." +:+ pretty o4)%string /\
    64 <= o2 <= 127 /\ 0 <= o3 <= 255 /\ 1 <= o4 <= 254.
Proof.
  unfold overlay_ip. destruct (Nat.leb_spec 254 i); [done|]. simpl. intros [= <-].
  eexists _, _, _. split; [done|]. pose proof (seed_byte_u8 v 4).
  pose proof (Z.mod_pos_bound (seed_byte v 3) 64). lia.
Qed.

(** Addresses that resolve. *)
Definition resolves (address : string) : Prop :=
  forall port, exists l, lookup_host address port = Ok l /\ is_Some (first_v4 l).

Lemma resolve_ok cache address port :
  resolves address -> exists ip cache', resolve_underlay_ip lookup_host cache address port = Ok (ip, cache').
Proof.
  intros Hr. unfold resolve_underlay_ip. destruct (cache !! address); [eauto|].
  destruct (Hr port) as (l&Hl&ip&Hip). rewrite Hl. simpl. rewrite Hip. simpl. eauto.
Qed.

Lemma remote_hosts_ok v order self entries cache :
  (length order < 255)%nat ->
  (forall h l, (h, l) ∈ entries -> h ∈ order /\ exists a, head l = Some a /\ resolves (an_host_address a)) ->
  exists r, remote_hosts lookup_host v order self entries cache = Ok r.
Proof.
  intros Hlen. revert cache. induction entries as [|[h l] entries IH]; intros cache Hall; simpl; [eauto|].
  assert (forall c, exists r, remote_hosts lookup_host v order self entries c = Ok r) as IH'.
  { intros c. apply IH. intros h' l' Hin. apply Hall. by right. }
  case_bool_decide; [apply IH'|]. destruct (Hall h l ltac:(by left)) as [Hin (a&Ha&Hres)].
  unfold remote_host. rewrite Ha. simpl.
  destruct (resolve_ok cache (an_host_address a) (as_u16 (an_host_port a)) Hres) as (ip&c&->). simpl.
  destruct (position_spec h order Hin) as (i&->&Hi%lookup_lt_Some). simpl. unfold overlay_ip.
  destruct (Nat.leb_spec 254 i); [lia|]. simpl.
  destruct (IH' c) as [[[ips rs] c'] ->]. simpl. eauto.
Qed.

(** A host that takes part in a VPC of two to 254 hosts whose addresses
    resolve gets an overlay; none of the internal errors (a host missing from
    the order, an address past the limit) can occur. *)
Theorem overlay_total host attached v cache :
  (exists a, attached_in attached v (h_id host) a) ->
  resolves (h_address host) -> (forall a, a ∈ attached -> resolves (an_host_address a)) ->
  (2 <= size (vpc_participants attached v) <= 254)%nat ->
  exists c cache', vpc_overlay lookup_host host attached v cache = Ok (Some c, cache').
Proof.
  intros [a0 Ha0] Hhost Hres [Hlo Hhi]. unfold vpc_overlay.
  rewrite length_sorted_host_ids. destruct (Nat.leb_spec (size (vpc_participants attached v)) 1); [lia|].
  destruct (Nat.leb_spec 255 (size (vpc_participants attached v))); [lia|].
  set (order := sorted_host_ids _).
  assert (length order < 255)%nat as Hlen by (unfold order; rewrite length_sorted_host_ids; lia).
  assert (forall h l, (h, l) ∈ btree_entries (vpc_participants attached v) ->
    h ∈ order /\ exists a, head l = Some a /\ resolves (an_host_address a)) as Hentries.
  { intros h l Hin. pose proof Hin as Hin'. unfold btree_entries in Hin'.
    rewrite merge_sort_Permutation, elem_of_map_to_list in Hin'. split.
    - apply elem_of_sorted_host_ids. by exists l.
    - rewrite participants_lookup in Hin'. unfold nonempty in Hin'.
      destruct (List.filter _ attached) as [|a l'] eqn:Hf; [done|]. injection Hin' as <-.
      exists a. split; [done|]. apply Hres. apply (elem_of_list_filter (in_vpc v h)).
      rewrite Hf. by left. }
  destruct (attached_in_entry _ _ _ _ Ha0) as [l0 Hl0]. apply Hentries in Hl0 as [Hin _].
  destruct (position_spec (h_id host) order Hin) as (i&Hi&Hlt%lookup_lt_Some). rewrite Hi. simpl.
  destruct (resolve_ok cache (h_address host) (as_u16 (h_port host)) Hhost) as (ip&c&->). simpl.
  unfold overlay_ip_cidr, overlay_ip at 1. destruct (Nat.leb_spec 254 i); [lia|]. simpl.
  destruct (remote_hosts_ok v order (h_id host) _ c Hlen Hentries) as [[[ips rs] c'] ->]. simpl. eauto.
Qed.
End overlay_facts.

(** ** The firewall of a VM *)

Section firewall_facts.
Context `{UuidText} `{PolicySerde} {coll : Collation} {cidr_order : CidrOrder}.
Variable rpc_error_text : RpcCall -> RpcOutcome -> string.

Lemma nic_interfaces_reads host_id rules nics : steps same_but_step (nic_interfaces host_id rules nics).
Proof.
  induction nics as [|nic nics IH]; simpl; [apply steps_ret|].
  destruct (ni_network_id nic) as [n|]; [|done]. destruct (ni_ip_address nic) as [ip|]; [|done].
  unfold Networks.get, get_host_bridge. steps_tac.
Qed.

Lemma firewall_interfaces_reads vm_id : steps same_but_step (firewall_interfaces_for_vm vm_id).
Proof.
  unfold firewall_interfaces_for_vm, Vms.get, list_groups_by_vm, rule_set_for_vm, list_nics_by_vm.
  steps_tac. apply nic_interfaces_reads.
Qed.

(** A NIC the firewall guards: managed, addressed and not on a passt network. *)
Definition guarded (db : Db) (nic : NetworkInterface) (n : Uuid) (ip : string) : Prop :=
  ni_network_id nic = Some n /\ ni_ip_address nic = Some ip /\
  exists net, t_networks db !! n = Some net /\ net_network_type net <> Some "passt"%string.

Definition interface_of (db : Db) (host_id : Uuid) (rules : list VmFirewallRule)
    (nic : NetworkInterface) (i : VmFirewallInterface) : Prop :=
  exists n ip, guarded db nic n ip /\ t_host_networks db !! (host_id, n) = Some (fi_bridge_name i) /\
    fi_ip i = bare_ip ip /\ fi_rules i = rules.

(** Every guarded NIC has its interface, and no other interface is there. *)
Definition interfaces_for (db : Db) (host_id : Uuid) (rules : list VmFirewallRule)
    (nics : list NetworkInterface) (ifs : list VmFirewallInterface) : Prop :=
  (forall nic n ip, nic ∈ nics -> guarded db nic n ip ->
     exists i, i ∈ ifs /\ interface_of db host_id rules nic i) /\
  (forall i, i ∈ ifs -> exists nic, nic ∈ nics /\ interface_of db host_id rules nic i).

Lemma interfaces_skip db host_id rules nic nics ifs :
  (forall n ip, ~ guarded db nic n ip) ->
  interfaces_for db host_id rules nics ifs -> interfaces_for db host_id rules (nic :: nics) ifs.
Proof.
  intros Hg [H1 H2]. split.
  - intros nic' n ip [->|Hin]%elem_of_cons Hgu; [by destruct (Hg n ip)|eauto].
  - intros i Hi. destruct (H2 i Hi) as (nic'&?&?). exists nic'. split; [by right|done].
Qed.

Lemma interfaces_add db host_id rules nic i nics ifs :
  interface_of db host_id rules nic i ->
  interfaces_for db host_id rules nics ifs -> interfaces_for db host_id rules (nic :: nics) (i :: ifs).
Proof.
  intros Hi [H1 H2]. split.
  - intros nic' n ip [->|Hin]%elem_of_cons Hgu; [exists i; split; [by left|done]|].
    destruct (H1 _ _ _ Hin Hgu) as (j&?&?). exists j. split; [by right|done].
  - intros j [->|Hj]%elem_of_cons; [exists nic; split; [by left|done]|].
    destruct (H2 j Hj) as (nic'&?&?). exists nic'. split; [by right|done].
Qed.

Lemma nic_interfaces_spec host_id rules nics o w w' ifs :
  nic_interfaces host_id rules nics o w = (w', Ok ifs) ->
  interfaces_for (w_db w) host_id rules nics ifs.
Proof.
  revert w ifs. induction nics as [|nic nics IH]; intros w ifs Hrun; simpl in Hrun.
  { unfold mret, M_ret in Hrun. injection Hrun as <- <-.
    split; [by intros ??? ?%elem_of_nil|by intros ? ?%elem_of_nil]. }
  destruct (ni_network_id nic) as [n|] eqn:Hn.
  2:{ apply interfaces_skip; [intros n ip (Hn'&_); congruence|eauto]. }
  destruct (ni_ip_address nic) as [ip|] eqn:Hip.
  2:{ apply interfaces_skip; [intros n' ip (_&Hip'&_); congruence|eauto]. }
  apply bind_ok_inv in Hrun as (net&w1&Hnet&Hrun). apply lift_err_ok_inv in Hnet.
  unfold Networks.get in Hnet. apply query_ok_inv in Hnet as [Hnet ->]. simpl in Hnet.
  destruct (t_networks (w_db w) !! n) as [row|] eqn:Hrow; [|done]. injection Hnet as <-.
  simpl in Hrun. case_bool_decide as Hp.
  { apply interfaces_skip; [intros n' ip' (Hn'&_&net'&Hnet'&Ht); congruence|].
    by apply (IH (tick w)). }
  apply bind_ok_inv in Hrun as (bridge&w1&Hbr&Hrun). apply lift_err_ok_inv in Hbr.
  unfold get_host_bridge in Hbr. apply query_ok_inv in Hbr as [[= Hbr] ->].
  destruct bridge as [bridge|]; [|done]. apply bind_ok_inv in Hrun as (rest&w1&Hrest&Hret).
  unfold mret, M_ret in Hret. injection Hret as -> <-.
  apply interfaces_add; [|by apply (IH (tick (tick w)))].
  exists n, ip. split; [split_and!; [done|done|by exists row]|done].
Qed.

(** What the firewall of a VM must be: nothing without a host or a security
    group, otherwise every guarded NIC with all rules of the VM's groups. *)
Definition firewall_of (db : Db) (vm_id : Uuid) (ifs : list VmFirewallInterface) : Prop :=
  exists vm, t_vms db !! vm_id = Some vm /\
  match v_host_id vm with
  | None => ifs = []
  | Some host_id =>
      let grouped := exists k g, t_security_groups db !! k = Some g /\
                       (vm_id, sg_id g) ∈ t_vm_security_groups db in
      (~ grouped -> ifs = []) /\
      (grouped -> exists rules nics,
         (forall r, r ∈ rules <-> exists rule, rule ∈ rules_of_vm db vm_id /\ r = proto_rule rule) /\
         (forall nic, nic ∈ nics <-> exists k, t_network_interfaces db !! k = Some nic /\ ni_vm_id nic = vm_id) /\
         interfaces_for db host_id rules nics ifs)
  end.

Lemma firewall_interfaces_spec vm_id o w w' ifs :
  firewall_interfaces_for_vm vm_id o w = (w', Ok ifs) -> firewall_of (w_db w) vm_id ifs.
Proof.
  intros Hrun. apply bind_ok_inv in Hrun as (vm&w1&Hvm&Hrun). apply lift_err_ok_inv in Hvm.
  unfold Vms.get in Hvm. apply query_ok_inv in Hvm as [Hvm ->]. simpl in Hvm.
  destruct (t_vms (w_db w) !! vm_id) as [row|] eqn:Hrow; [|done]. injection Hvm as <-.
  exists row. split; [done|]. simpl in Hrun. destruct (v_host_id row) as [host_id|].
  2:{ unfold mret, M_ret in Hrun. by injection Hrun as <- <-. }
  apply bind_ok_inv in Hrun as (groups&w1&Hg&Hrun). apply lift_err_ok_inv in Hg.
  unfold list_groups_by_vm in Hg. apply query_ok_inv in Hg as [[= Hg] ->].
  assert (forall g, g ∈ groups <-> (exists k, t_security_groups (w_db w) !! k = Some g) /\
    (vm_id, sg_id g) ∈ t_vm_security_groups (w_db w)) as Hgroups.
  { intros g. rewrite <- Hg, merge_sort_Permutation, elem_of_filter_rows. by rewrite bool_decide_eq_true. }
  destruct groups as [|g0 groups].
  - unfold mret, M_ret in Hrun. injection Hrun as <- <-. split; [done|]. intros (k&g&Hk&Hin).
    assert (g ∈ []) as ?%elem_of_nil; [|done]. apply Hgroups. eauto.
  - destruct (proj1 (Hgroups g0)) as [[k Hk] Hin]; [by left|]. split.
    { intros Hno. exfalso. apply Hno. eauto. }
    intros _. apply bind_ok_inv in Hrun as (rules&w1&Hr&Hrun). apply lift_err_ok_inv in Hr.
    unfold rule_set_for_vm in Hr. apply query_ok_inv in Hr as [[= Hr] ->].
    apply bind_ok_inv in Hrun as (nics&w1&Hn&Hrun). apply lift_err_ok_inv in Hn.
    unfold list_nics_by_vm in Hn. apply query_ok_inv in Hn as [[= Hn] ->].
    apply nic_interfaces_spec in Hrun. simpl in Hrun.
    exists (proto_rule <$> rules), nics. split_and!; [| |done].
    + intros r. rewrite <- Hr, list_elem_of_fmap. setoid_rewrite merge_sort_Permutation.
      by split; intros (x&?&?); exists x.
    + intros nic. rewrite <- Hn, merge_sort_Permutation, elem_of_filter_rows, bool_decide_eq_true.
      split; [intros [[k' ?] ?]|intros (k'&?&?)]; eauto.
Qed.

Lemma require_by_id_reads id : steps same_but_step (require_by_id id).
Proof.
  apply steps_bind; [apply steps_lift_err, query_same_but_step|]. intros ?. apply steps_of_result.
Qed.

Lemma firewall_sync_spec vm_id host_id o w w' :
  sync_vm_firewall_on_host rpc_error_text vm_id host_id o w = (w', Ok tt) ->
  w_db w' = w_db w /\
  exists host ifs, t_hosts (w_db w) !! host_id = Some host /\ firewall_of (w_db w) vm_id ifs /\
    logged w w' (accepted host (SyncVmFirewall vm_id ifs)).
Proof.
  intros Hrun. apply bind_ok_inv in Hrun as (h&w1&Hh&Hrun).
  apply bind_ok_inv in Hrun as (ifs&w2&Hf&Hrun).
  apply bind_ok_inv in Hrun as (r&w3&Hr&Hrun). case_bool_decide as Hok; [|discriminate]. subst r.
  unfold mret, M_ret in Hrun. injection Hrun as ->.
  pose proof (require_by_id_reads host_id o w) as S1. rewrite Hh in S1. destruct S1 as (D1&_&L1).
  pose proof (firewall_interfaces_reads vm_id o w1) as S2. rewrite Hf in S2. destruct S2 as (D2&_&L2).
  simpl in D1, D2, L1, L2. split; [unfold rpc in Hr; injection Hr as <- _; simpl; congruence|].
  exists h, ifs. split_and!.
  - unfold require_by_id, get_by_id in Hh. minv. injection Hh as _ Hh. by apply ok_or_ok in Hh.
  - rewrite <- D1. by eapply firewall_interfaces_spec.
  - apply rpc_logged in Hr as (l&Hl&Hin). exists l. by rewrite Hl, L2, L1.
Qed.

(** A firewall synchronisation that succeeds changed no table, and the node of
    the host accepted exactly the firewall of the VM. *)
Theorem firewall_sync_correct vm_id host_id o w w' :
  sync_vm_firewall_on_host rpc_error_text vm_id host_id o w = (w', Ok tt) ->
  w_db w' = w_db w /\
  exists host ifs, t_hosts (w_db w) !! host_id = Some host /\ firewall_of (w_db w) vm_id ifs /\
    logged w w' (accepted host (SyncVmFirewall vm_id ifs)).
Proof. apply firewall_sync_spec. Qed.
End firewall_facts.

(** ** Witnesses *)

Definition constant_seed : VpcSeed.
Proof. refine {| seed_byte _ _ := 7; seed_simple _ := "0707070707070707"%string |}. lia. Defined.

Definition one_address : string -> Z -> result string (list IpAddr) :=
  fun _ _ => Ok [V6 1; V4 167772161].

Definition vpc_network (id : Uuid) (subnet vpc : string) : Network :=
  {| net_id := id; net_name := "net"; net_subnet := subnet; net_gateway := None; net_dns := None;
     net_vpc_name := Some vpc; net_network_type := Some "isolated"%string; net_status := NetActive |}.

Definition attach (host : Uuid) (n : Network) : AttachedNetwork :=
  {| an_host_id := host; an_host_address := "10.0.0.1"; an_host_port := 50051; an_network := n;
     an_bridge_name := "br0" |}.

Definition two_hosts : list AttachedNetwork :=
  [attach 1 (vpc_network 10 "10.10.1.0/24" "blue"); attach 2 (vpc_network 11 "10.10.2.0/24" "blue");
   attach 2 (vpc_network 12 "10.20.1.0/24" "red")].

Definition host_1 : Host := sample_host 1 "alpha" "10.0.0.1" HostUp 8 1000 1000.
Definition host_2 : Host := sample_host 2 "beta" "10.0.0.2" HostUp 8 1000 1000.

Lemma overlay_total_witness :
  exists c cache, vpc_overlay (H := binary_uuid_text) (seed := constant_seed) one_address
    host_1 two_hosts "blue" ∅ = Ok (Some c, cache).
Proof.
  apply (overlay_total (H := binary_uuid_text) (seed := constant_seed) one_address host_1 two_hosts
    "blue" ∅).
  - exists (attach 1 (vpc_network 10 "10.10.1.0/24" "blue")). split; [by left|done].
  - intros port. eexists. split; [done|by eexists].
  - intros a _ port. eexists. split; [done|by eexists].
  - vm_compute. lia.
Defined.

(** The overlays of the two hosts, computed. *)
Definition overlay_at (h : Host) : VpcOverlayConfig :=
  match vpc_overlay (H := binary_uuid_text) (seed := constant_seed) one_address h two_hosts "blue" ∅ with
  | Ok (Some c, _) => c
  | _ => {| vo_vpc_name := ""; vo_interface_name := ""; vo_vni := 0; vo_local_underlay_ip := "";
            vo_local_overlay_cidr := ""; vo_peer_underlay_ips := []; vo_routes := [] |}
  end.

Lemma overlay_hosts_agree_witness :
  vo_local_overlay_cidr (overlay_at host_2) = "100.71.7.2/24"%string /\
  {| vr_subnet := "10.10.2.0/24"; vr_via_ip := "100.71.7.2" |} ∈ vo_routes (overlay_at host_1).
Proof.
  split; [vm_compute; reflexivity|].
  destruct (overlay_hosts_agree (H := binary_uuid_text) (seed := constant_seed) one_address
    host_1 host_2 two_hosts "blue" ∅ ∅
    {["10.0.0.1" := "10.0.0.1"]} {["10.0.0.2" := "10.0.0.1"; "10.0.0.1" := "10.0.0.1"]}
    (overlay_at host_1) (overlay_at host_2)) as (_&_&_&ip&Hip&Hr);
    [vm_compute; reflexivity|vm_compute; reflexivity|done|].
  assert (ip = "100.71.7.2"%string) as ->.
  { apply (append_inj_r _ _ "/24"). rewrite <- Hip. vm_compute. reflexivity. }
  apply Hr. exists (attach 2 (vpc_network 11 "10.10.2.0/24" "blue")). split; [|done].
  split; [by right; left|done].
Defined.

(** A running VM in one security group, with one managed interface. *)
Definition firewall_db : Db :=
  with_security_groups (fun _ => {[3%N := {| sg_id := 3; sg_name := "web"; sg_description := None |}]})
    (with_security_group_rules (fun _ => {[4%N :=
       {| sgr_id := 4; sgr_security_group_id := 3; sgr_direction := Ingress; sgr_protocol := ProtoTcp;
          sgr_cidr := None; sgr_port_start := Some 80; sgr_port_end := Some 80;
          sgr_description := None |}]})
    (with_vm_security_groups (fun _ => {[(1%N, 3%N)]})
    (with_vms (fun _ => {[1%N := sample_vm 1 "web" (Some 1%N) Running 1 1024 [] JNull]})
    (with_hosts (fun _ => {[1%N := host_1]}) empty_db)))).

Lemma firewall_sync_correct_witness :
  exists host ifs, t_hosts firewall_db !! 1%N = Some host /\ firewall_of firewall_db 1 ifs.
Proof.
  destruct (firewall_sync_correct (H := binary_uuid_text) (H0 := array_policy_serde)
    (coll := encoding_collation) (cidr_order := encoding_cidr_order) (fun _ _ => "refused"%string) 1 1
    calm_oracle (world_of firewall_db)
    (sync_vm_firewall_on_host (H := binary_uuid_text) (H0 := array_policy_serde)
       (coll := encoding_collation) (cidr_order := encoding_cidr_order) (fun _ _ => "refused"%string) 1 1
       calm_oracle (world_of firewall_db)).1)
    as (_&host&ifs&Hh&Hf&_); [vm_compute; reflexivity|]. by exists host, ifs.
Defined.
