(* ===== verification/NetworkOps.v ===== *)
(** * NetworkOps: networks and their hosts

    [qarax/src/handlers/network/handler.rs]: the handlers that attach a network to a
    host and detach it, with the calls to the node and the synchronisation of the VPC
    of the network ([NetworkPolicy.v]).

    The theorem about [attach_network_host] composes the handler with the policy: when it
    succeeds, every host of the VPC has been sent the isolation and the overlays that
    belong to the tables with the new attachment. *)

From S2P Require Import Prelude Text Common Errors Tables Float64 NodeApi World Samples Hosts Ipv4.
From S2P Require Import Networks Devices SecurityGroups NetworkPolicy VmConfig.
#[local] Open Scope Z_scope.
#[local] Set Default Proof Using "Type".

Record AttachHostRequest := {
  ah_host_id : Uuid; ah_bridge_name : string; ah_parent_interface : option string
}.

Section handlers.
Context `{UuidText} {seed : VpcSeed}.
Variable lookup_host : string -> Z -> result string (list IpAddr).
Context `{PolicySerde} {coll : Collation} {cidr_order : CidrOrder} {inet : PgInet}.
Variable rpc_error_text : RpcCall -> RpcOutcome -> string.

Abbreviation sync_vpc := (sync_cluster_vpc_state lookup_host rpc_error_text).

(** The request the node gets. *)
Definition attach_call (network : Network) (body : AttachHostRequest) : RpcCall :=
  let '(dhcp_start, dhcp_end) := compute_dhcp_range (net_subnet network) (net_gateway network) in
  let gateway := default (default_gateway (net_subnet network)) (net_gateway network) in
  let dns := default gateway (net_dns network) in
  AttachNetwork (ah_bridge_name body) (net_subnet network) gateway dns dhcp_start dhcp_end
    (default ""%string (ah_parent_interface body)).

Definition attach_network_host (network_id : Uuid) (body : AttachHostRequest) : M Error unit :=
  network ← sqlx_q (Networks.get network_id);
  host ← require_by_id (ah_host_id body);
  if bool_decide (net_network_type network = Some "passt"%string) then
    _ ← sqlx_q (attach_host network_id (ah_host_id body) (ah_bridge_name body));
    sync_vpc network [ah_host_id body]
  else
    _ ← checked_rpc rpc_error_text host (attach_call network body) "Failed to attach network to node";
    _ ← sqlx_q (attach_host network_id (ah_host_id body) (ah_bridge_name body));
    sync_vpc network [ah_host_id body].

Definition detach_network_host (network_id host_id : Uuid) : M Error unit :=
  host ← require_by_id host_id;
  network ← sqlx_q (Networks.get network_id);
  bridge ← sqlx_q (get_host_bridge host_id network_id);
  bridge_name ← of_result (ok_or NotFound bridge);
  _ ← checked_rpc rpc_error_text host (DetachNetwork bridge_name (net_subnet network)) "Failed to detach network from node";
  _ ← sqlx_q (detach_host network_id host_id);
  sync_vpc network [host_id].

Definition create_network (new_net : NewNetwork) : M Error Uuid := sqlx_q (Networks.create new_net).
Definition delete_network_handler (network_id : Uuid) : M Error unit := sqlx_q (delete_network network_id).
Definition list_ips (network_id : Uuid) : M Error (list IpAllocation) := sqlx_q (list_allocations network_id).
End handlers.

(** ** Synchronisation of a VPC *)

(** A loop of calls: each iteration ran in a world with the same tables. *)
Definition talks_only (w w' : World) : Prop := w_db w' = w_db w /\ log_grows w w'.
#[global] Instance talks_only_preorder : PreOrder talks_only.
Proof. split; [by intros w|]. intros a b c [H1 G1] [H2 G2]. split; [congruence|by etransitivity]. Qed.
Lemma reads_talk w w' : same_but_step w w' -> talks_only w w'.
Proof. intros Hs. split; [apply Hs|by apply same_but_step_grows]. Qed.

Lemma steps_reads_talk {E A} (m : M E A) : steps same_but_step m -> steps talks_only m.
Proof. intros Hm o w. apply reads_talk, Hm. Qed.

Lemma for_all_m_ran {E A} (body : A -> M E unit) l o w w' :
  (forall x, steps talks_only (body x)) -> for_all_m body l o w = (w', Ok tt) ->
  talks_only w w' /\ forall x, x ∈ l -> exists w1 w2, talks_only w w1 /\ body x o w1 = (w2, Ok tt) /\ log_grows w2 w'.
Proof.
  intros Hs. revert w. induction l as [|y l IH]; intros w Hrun.
  { injection Hrun as <-. split; [done|]. by intros x ?%not_elem_of_nil. }
  apply bind_ok_inv in Hrun as ([]&w1&Hy&Hrun). pose proof (Hs y o w) as T1. rewrite Hy in T1.
  apply IH in Hrun as [T2 Hx]. split; [by etransitivity|]. intros x [->|Hin]%elem_of_cons.
  - exists w, w1. split_and!; [done|done|apply T2].
  - destruct (Hx x Hin) as (v1&v2&T&Hb&G). exists v1, v2. split_and!; [by etransitivity|done..].
Qed.

Section facts.
Context `{UuidText} {seed : VpcSeed}.
Variable lookup_host : string -> Z -> result string (list IpAddr).
Context `{PolicySerde} {coll : Collation} {cidr_order : CidrOrder} {inet : PgInet}.
Variable rpc_error_text : RpcCall -> RpcOutcome -> string.

Lemma checked_rpc_run host call prefix o w w' r :
  checked_rpc rpc_error_text host call prefix o w = (w', r) ->
  talks_only w w' /\ (r = Ok tt -> logged w w' (accepted host call)).
Proof.
  unfold checked_rpc. intros [(e&_&?)|(rep&w1&Hr&Hrun)]%bind_cases; [done|].
  assert (talks_only w w1) as T. { injection Hr as <- _. split; [done|]. by eexists. }
  case_bool_decide as E; injection Hrun as <- <-; (split; [done|]); [|done]. subst. intros _. by eapply rpc_logged.
Qed.
Lemma checked_rpc_talks host call prefix : steps talks_only (checked_rpc rpc_error_text host call prefix).
Proof. intros o w. destruct (checked_rpc _ _ _ _ o w) as [w' r] eqn:E. by apply checked_rpc_run in E as [T _]. Qed.
Lemma require_run_ok id o w w' host :
  require_by_id id o w = (w', Ok host) -> same_but_step w w' /\ t_hosts (w_db w) !! id = Some host.
Proof.
  intros Hrun. split; [eapply reads_run; [apply require_by_id_reads|done]|].
  unfold require_by_id, get_by_id in Hrun. minv. injection Hrun as _ Hrun. by apply ok_or_ok in Hrun.
Qed.

(** The rows [list_attached] returns. *)
Definition attached_rows (db : Db) : list AttachedNetwork :=
  omap (fun x : Uuid * Network * string =>
    (fun h => {| an_host_id := h_id h; an_host_address := h_address h; an_host_port := h_port h;
                 an_network := network_from_row x.1.2; an_bridge_name := x.2 |})
      <$> t_hosts db !! x.1.1)
    (merge_sort (lex (on_key N.le (fun x : Uuid * Network * string => x.1.1))
                     (on_key coll_le (fun x => net_name x.1.2))) (attachments db)).
Lemma list_attached_run o w w' l : list_attached o w = (w', Ok l) -> same_but_step w w' /\ l = attached_rows (w_db w).
Proof.
  intros Hrun. apply query_ok_inv in Hrun as [Hl ->]. by injection Hl as <-.
Qed.

(** The host has accepted the isolation of each of its bridges and its overlays, as the
    tables say. *)
Definition host_synced (db : Db) (w w' : World) (host_id : Uuid) (host : Host) : Prop :=
  (forall nb, nb ∈ attached_networks_for_host (attached_rows db) host_id ->
     logged w w' (accepted host (SyncNetworkIsolation nb.2 (net_subnet nb.1)
       (blocked_subnets_for_network nb.1 (h_id host) (attached_networks_for_host (attached_rows db) host_id) (attached_rows db))
       (nat_exempt_subnets_for_network nb.1 (attached_rows db))))) /\
  exists overlays, vpc_overlays lookup_host host (attached_rows db) (local_vpcs host (attached_rows db)) ∅ = Ok overlays /\
    logged w w' (accepted host (SyncVpcOverlays overlays)).
Definition vpc_synced (db : Db) (w w' : World) (vpc_name : string) (extra : list Uuid) : Prop :=
  forall id, id ∈ affected_host_ids_for_vpc (attached_rows db) vpc_name extra ->
    exists host, t_hosts db !! id = Some host /\ host_synced db w w' id host.

Lemma host_synced_grows db w0 w w' w1 id host :
  log_grows w0 w -> log_grows w' w1 -> host_synced db w w' id host -> host_synced db w0 w1 id host.
Proof.
  intros G0 G1 [Hiso (overlays&Ho&Hov)]. split.
  - intros nb Hnb. eapply logged_grows_l; [exact G0|]. eapply logged_grows_r; [by apply Hiso|done].
  - exists overlays. split; [done|]. eapply logged_grows_l; [exact G0|]. by eapply logged_grows_r.
Qed.
Lemma vpc_synced_grows db w0 w w' v extra :
  log_grows w0 w -> vpc_synced db w w' v extra -> vpc_synced db w0 w' v extra.
Proof.
  intros G Hv id Hid. destruct (Hv id Hid) as (host&Hh&Hs). exists host. split; [done|].
  by eapply host_synced_grows.
Qed.

Lemma sync_host_run attached id o w w' :
  attached = attached_rows (w_db w) ->
  sync_host_vpc_state lookup_host rpc_error_text attached id o w = (w', Ok tt) ->
  talks_only w w' /\ exists host, t_hosts (w_db w) !! id = Some host /\ host_synced (w_db w) w w' id host.
Proof.
  intros -> Hrun. apply bind_ok_inv in Hrun as (host&w1&[S1 Hid]%require_run_ok&Hrun). apply reads_talk in S1.
  apply bind_ok_inv in Hrun as ([]&w2&Hiso&Hrun).
  apply for_all_m_ran in Hiso as [T2 Hiso]; [|intros [n b]; apply checked_rpc_talks].
  apply bind_ok_inv in Hrun as (overlays&w3&Ho&Hrun). injection Ho as <- Ho.
  apply checked_rpc_run in Hrun as [T3 Hacc]. specialize (Hacc eq_refl).
  assert (talks_only w w2) as T by (by etransitivity). split; [by etransitivity|]. exists host. split; [done|]. split.
  - intros nb Hnb. destruct (Hiso nb Hnb) as (v1&v2&Tv&Hb&Gv). destruct nb as [n b].
    apply checked_rpc_run in Hb as [_ Hacc']. eapply logged_grows_l; [|eapply logged_grows_r; [by apply Hacc'|]].
    + etransitivity; [apply S1|apply Tv].
    + etransitivity; [exact Gv|apply T3].
  - exists overlays. split; [done|]. eapply logged_grows_l; [apply T|done].
Qed.

Lemma sync_host_talks attached id : steps talks_only (sync_host_vpc_state lookup_host rpc_error_text attached id).
Proof.
  unfold sync_host_vpc_state. apply steps_bind; [apply steps_reads_talk, require_by_id_reads|]. intros host.
  apply steps_bind.
  - apply steps_for_all_m. intros [n b] _. apply checked_rpc_talks.
  - intros _. apply steps_bind; [apply steps_of_result|]. intros overlays. apply checked_rpc_talks.
Qed.

Lemma sync_vpc_run network extra o w w' r :
  sync_cluster_vpc_state lookup_host rpc_error_text network extra o w = (w', r) ->
  talks_only w w' /\
  (r = Ok tt -> forall vpc_name, net_vpc_name network = Some vpc_name -> vpc_synced (w_db w) w w' vpc_name extra).
Proof.
  intros Hrun. assert (steps talks_only (sync_cluster_vpc_state lookup_host rpc_error_text network extra)) as Hs.
  { unfold sync_cluster_vpc_state. destruct (net_vpc_name network); [|apply steps_ret].
    apply steps_bind; [apply steps_reads_talk, steps_lift_err, steps_query, same_but_step_tick|]. intros l.
    apply steps_for_all_m. intros id _. apply sync_host_talks. }
  pose proof (Hs o w) as T. rewrite Hrun in T. split; [exact T|]. intros -> v Hv.
  unfold sync_cluster_vpc_state in Hrun. rewrite Hv in Hrun. apply bind_ok_inv in Hrun as (l&w1&Hl&Hrun).
  apply lift_err_ok_inv, list_attached_run in Hl as [S1 ->]. apply reads_talk in S1.
  apply for_all_m_ran in Hrun as [_ Hx]; [|intros; apply sync_host_talks].
  intros id Hid. destruct (Hx id Hid) as (v1&v2&Tv&Hb&Gv). assert (w_db v1 = w_db w) as D by (destruct Tv, S1; congruence).
  apply sync_host_run in Hb as [_ (host&Hh&Hs')]; [|by rewrite D]. rewrite D in *.
  assert (log_grows w v1) as G by (etransitivity; [apply S1|apply Tv]).
  exists host. split; [done|]. by eapply host_synced_grows.
Qed.

(** ** Attaching a host *)

(** The tables after the row of the attachment: nothing changes when the host has the
    network or the bridge name already. *)
Definition attach_row (network_id : Uuid) (body : AttachHostRequest) (db : Db) : Db :=
  if bool_decide (is_Some (t_host_networks db !! (ah_host_id body, network_id)))
     || bridge_used db (ah_host_id body) (ah_bridge_name body)
  then db else with_host_networks (insert (ah_host_id body, network_id) (ah_bridge_name body)) db.

Lemma attach_row_run network_id body o w w' r :
  attach_host network_id (ah_host_id body) (ah_bridge_name body) o w = (w', r) ->
  log_grows w w' /\ match r with Ok _ => w_db w' = attach_row network_id body (w_db w) | Err _ => w_db w' = w_db w end.
Proof.
  unfold attach_host, execute, attach_row.
  assert (forall db, log_grows w (set_conn_db Pool db (tick w))) as Hg by (intros db; exists []; by rewrite app_nil_r).
  assert (log_grows w (tick w)) as Ht by (exists []; by rewrite app_nil_r).
  destruct (o_sql _ _); [by intros [= <- <-]|]. cbn. destruct (_ || _); [by intros [= <- <-]|].
  destruct (negb _); [by intros [= <- <-]|]. destruct (negb _); by intros [= <- <-].
Qed.

(** The row and the synchronisation, which both branches end with. *)
Lemma attach_and_sync_run network network_id body o w w' r :
  (_ ← sqlx_q (attach_host network_id (ah_host_id body) (ah_bridge_name body));
   sync_cluster_vpc_state lookup_host rpc_error_text network [ah_host_id body]) o w = (w', r) ->
  log_grows w w' /\
  match r with
  | Ok _ => w_db w' = attach_row network_id body (w_db w) /\
      forall vpc_name, net_vpc_name network = Some vpc_name -> vpc_synced (w_db w') w w' vpc_name [ah_host_id body]
  | Err _ => w_db w' = w_db w \/ w_db w' = attach_row network_id body (w_db w)
  end.
Proof.
  intros [(e&->&Hrow)|([]&w1&Hrow%lift_err_ok_inv&Hsync)]%bind_cases.
  - unfold lift_err in Hrow. destruct (attach_host _ _ _ o w) as [w1 [x|e1]] eqn:E; [done|]. injection Hrow as <- _.
    apply attach_row_run in E as [G D]. auto.
  - apply attach_row_run in Hrow as [G1 D1]. apply sync_vpc_run in Hsync as [[D2 G2] Hv].
    split; [by etransitivity|]. destruct r as [[]|e]; [|right; congruence]. split; [congruence|].
    intros v Hn. rewrite D2. eapply vpc_synced_grows; [exact G1|by apply Hv].
Qed.

(** The attachment of [body] is recorded, and the node of its host had accepted the bridge
    (a passt network needs none). *)
Definition attached_after_node (network_id : Uuid) (body : AttachHostRequest) (w w' : World) (row : Network) (host : Host) : Prop :=
  t_networks (w_db w) !! network_id = Some row /\ t_hosts (w_db w) !! ah_host_id body = Some host /\
  (net_network_type row <> Some "passt"%string -> logged w w' (accepted host (attach_call (network_from_row row) body))) /\
  w_db w' = attach_row network_id body (w_db w).

(** C23. Attaching a network to a host, whatever the database and the nodes answer: the
    tables are as they were, or the row of the attachment is written, and then the node
    had accepted the bridge, also when a later step of the call fails.  A call that succeeds
    wrote the row, and every host of the VPC has accepted the isolation of each of its
    bridges and its overlays as computed from these tables. *)
Theorem attach_host_outcome network_id body o w w' r :
  attach_network_host lookup_host rpc_error_text network_id body o w = (w', r) ->
  match r with
  | Ok _ => exists row host, attached_after_node network_id body w w' row host /\
      forall vpc_name, net_vpc_name row = Some vpc_name -> vpc_synced (w_db w') w w' vpc_name [ah_host_id body]
  | Err _ => w_db w' = w_db w \/ exists row host, attached_after_node network_id body w w' row host
  end.
Proof.
  unfold attach_network_host.
  assert (forall A (f : Db -> result SqlxError A) w w1 r, (sqlx_q (query Pool f) : M Error A) o w = (w1, r) ->
    same_but_step w w1 /\ forall x, r = Ok x -> f (w_db w) = Ok x) as Hq.
  { intros A f w0 w1 r0. unfold lift_err, query. destruct (o_sql _ _); intros [= <- <-]; (split; [done|]); [done|].
    intros x. cbn. by destruct (f _); intros [= ->]. }
  intros [(e&->&[S _]%Hq)|(network&w1&[S1 Hn]%Hq&Hrun)]%bind_cases; [left; apply S|].
  specialize (Hn _ eq_refl). cbn in Hn. destruct (t_networks (w_db w) !! network_id) as [row|] eqn:En; [|done]. injection Hn as <-.
  apply bind_cases in Hrun as [(e&->&Hr)|(host&w2&[S2 Hh]%require_run_ok&Hrun)].
  { left. pose proof (require_by_id_reads (ah_host_id body) o w1) as S2. rewrite Hr in S2.
    destruct S1 as (D1&_&_), S2 as (D2&_&_). cbn in D2. congruence. }
  assert (talks_only w w2) as [D G] by (etransitivity; by apply reads_talk).
  assert (w_db w1 = w_db w) as D1 by apply S1. rewrite D1 in Hh.
  case_bool_decide as Et.
  - apply attach_and_sync_run in Hrun as [G3 Hres]. rewrite D in Hres. destruct r as [x|e].
    + destruct Hres as [Dr Hv]. exists row, host. split; [by split_and!|].
      intros v Hvn. eapply vpc_synced_grows; [exact G|by apply Hv].
    + destruct Hres as [Dr|Dr]; [by left|]. right. exists row, host. by split_and!.
  - apply bind_cases in Hrun as [(e&->&[[D3 _] _]%checked_rpc_run)|([]&w3&[[D3 G3] Hacc]%checked_rpc_run&Hrun)]; [left; congruence|].
    specialize (Hacc eq_refl). apply attach_and_sync_run in Hrun as [G4 Hres]. rewrite D3, D in Hres.
    assert (log_grows w w3) as Gw by (by etransitivity).
    assert (logged w w' (accepted host (attach_call (network_from_row row) body))) as Hlog.
    { eapply logged_grows_l; [exact G|]. by eapply logged_grows_r. }
    destruct r as [x|e].
    + destruct Hres as [Dr Hv]. exists row, host. split; [by split_and!|].
      intros v Hvn. eapply vpc_synced_grows; [exact Gw|by apply Hv].
    + destruct Hres as [Dr|Dr]; [by left|]. right. exists row, host. by split_and!.
Qed.
End facts.

(** ** A VPC of two hosts *)

#[local] Instance ops_uuid_text : UuidText := binary_uuid_text.
#[local] Instance ops_seed : VpcSeed := constant_seed.
#[local] Instance ops_collation : Collation := encoding_collation.

Definition blue_world : World := world_of
  (with_networks (fun _ => {[10%N := vpc_network 10 "10.10.1.0/24" "blue"; 11%N := vpc_network 11 "10.10.2.0/24" "blue"]})
  (with_host_networks (fun _ => {[(2%N, 11%N) := "br0"%string]})
  (with_hosts (fun _ => {[1%N := host_1; 2%N := host_2]}) empty_db))).
Definition join_blue : AttachHostRequest := {| ah_host_id := 1; ah_bridge_name := "br0"; ah_parent_interface := None |}.
Definition no_text (_ : RpcCall) (_ : RpcOutcome) : string := "refused".
Definition join_run : World * result Error unit :=
  attach_network_host one_address no_text 10 join_blue calm_oracle blue_world.

Lemma attach_host_outcome_witness :
  is_ok join_run.2 = true /\ vpc_synced one_address (w_db join_run.1) blue_world join_run.1 "blue" [1%N] /\
  affected_host_ids_for_vpc (attached_rows (w_db join_run.1)) "blue" [1%N] = [1%N; 2%N].
Proof.
  assert (is_ok join_run.2 = true) as Hok by by vm_compute. split; [exact Hok|]. split; [|by vm_compute].
  pose proof (attach_host_outcome one_address no_text 10 join_blue calm_oracle blue_world join_run.1 join_run.2
                (surjective_pairing _)) as Hout.
  destruct join_run.2; [|done]. destruct Hout as (row&host&(Hrow&_&_&_)&Hv). apply Hv.
  assert (row = vpc_network 10 "10.10.1.0/24" "blue") as -> by (vm_compute in Hrow; by injection Hrow as <-). done.
Defined.

(** A synchronisation that fails leaves the attachment recorded: the host is in the VPC
    while another host still isolates it. *)
Example attach_half_done :
  let o := {| o_sql _ := None; o_uuid := o_uuid calm_oracle; o_now := o_now calm_oracle;
              o_rpc n := if (n <=? 2)%nat then RpcOk else RpcError; o_http := o_http calm_oracle |} in
  let run := attach_network_host one_address no_text 10 join_blue o blue_world in
  is_ok run.2 = false /\ t_host_networks (w_db run.1) !! (1%N, 10%N) = Some "br0"%string.
Proof. by vm_compute. Qed.
