(* ===== verification/NodeFirewall.v ===== *)
(** * NodeFirewall: the packet filter of a node

    [qarax-node/src/networking/iptables.rs] and the validators of
    [qarax-node/src/networking/mod.rs]: NAT for a bridge, isolation between
    networks, and the firewall of a VM.

    A computation runs commands on a kernel and keeps the kernel after each of
    them, so that theorems speak about every state a packet can meet.  The firewall
    of a VM is built in a second chain and then swapped in: at every moment, also
    when a command fails in between, each direction is judged by the old rules or
    by all of the new ones.  After a synchronisation that succeeds the chains admit
    exactly what the security groups of the VM admit. *)

From S2P Require Import Prelude Text Errors Secrets Tables NodeApi Ipv4 Netfilter.
From Stdlib Require Import Ascii.
#[local] Open Scope Z_scope.

(** Why an operation fails: a rejected argument, a command or a file that failed,
    or, which never happens, a loop that did not end. *)
Inductive NetError :=
| IfaceLength (name : string) | IfaceDash (name : string) | IfaceChars (name : string)
| CidrNoSlash (cidr : string) | CidrBadAddress (cidr : string) | CidrBadPrefix (cidr : string)
| CidrPrefixRange (cidr : string) | BadAddress (ip : string)
| CommandFailed (text : string) | FileFailed (text : string) | Unfinished.

Definition net_error_text (e : NetError) : string :=
  match e with CommandFailed t | FileFailed t => t | _ => "" end.

Definition validate_iface_name (name : string) : result NetError unit :=
  if String.eqb name "" || (15 <? Z.of_nat (String.length name)) then Err (IfaceLength name)
  else if starts_with "-" name then Err (IfaceDash name)
  else if existsb (fun c => Ascii.eqb c "/" || Ascii.eqb c zero || is_whitespace c)
            (String.list_ascii_of_string name) then Err (IfaceChars name)
  else Ok tt.

Definition validate_ipv4_cidr (cidr : string) : result NetError unit :=
  '(ip_str, prefix_str) ← ok_or (CidrNoSlash cidr) (split_once "/"%char cidr);
  _ ← ok_or (CidrBadAddress cidr) (std_ipv4 ip_str);
  prefix ← ok_or (CidrBadPrefix cidr) (parse_u8 prefix_str);
  if 32 <? prefix then Err (CidrPrefixRange cidr) else Ok tt.

Definition validate_ipv4_address (ip : string) : result NetError unit :=
  _ ← ok_or (BadAddress ip) (std_ipv4 ip); Ok tt.

Section node_net.
Context `{Iptables}.

(** A computation: the kernels after its commands, the last one, the result. *)
Definition Net (A : Type) : Type := Kernel -> list Kernel * (Kernel * result NetError A).

#[global] Instance Net_ret : MRet Net := fun A a k => ([], (k, Ok a)).
#[global] Instance Net_bind : MBind Net := fun A B f m k =>
  match m k with
  | (tr, (k', Ok a)) => let '(tr', r) := f a k' in (tr ++ tr', r)
  | (tr, (k', Err e)) => (tr, (k', Err e))
  end.
Definition net_throw {A} (e : NetError) : Net A := fun k => ([], (k, Err e)).
Definition net_of {A} (r : result NetError A) : Net A := fun k => ([], (k, r)).
Definition net_try {A} (m : Net A) : Net (result NetError A) := fun k =>
  let '(tr, (k', r)) := m k in (tr, (k', Ok r)).

Definition command_text (program : string) (args : list string) : string :=
  program +:+ " " +:+ join " " args.

Definition run_cmd_capture (program : string) (args : list string) : Net string := fun k =>
  let '(k', out) := exec program args k in
  ([k'], (k', match out with
              | NotStarted => Err (CommandFailed ("Failed to execute: " +:+ command_text program args))
              | Exited true stdout _ => Ok stdout
              | Exited false _ stderr =>
                  Err (CommandFailed (command_text program args +:+ " failed: " +:+ trim stderr))
              end)).

Definition run_cmd (program : string) (args : list string) : Net unit :=
  _ ← run_cmd_capture program args; mret tt.

Definition write_proc (path text context : string) : Net unit := fun k =>
  let '(k', ok) := write_file path text k in
  ([k'], (k', if ok : bool then Ok tt else Err (FileFailed context))).

Fixpoint net_each {A} (f : A -> Net unit) (l : list A) : Net unit :=
  match l with
  | [] => mret tt
  | x :: l' => _ ← f x; net_each f l'
  end.

Definition FORWARD_CHAIN : string := "FORWARD".

(** ** NAT *)

Definition setup_nat (bridge subnet : string) : Net unit :=
  _ ← net_of (validate_iface_name bridge);
  _ ← net_of (validate_ipv4_cidr subnet);
  _ ← write_proc "/proc/sys/net/ipv4/ip_forward" "1" "Failed to enable ip_forward";
  _ ← net_try (run_cmd "iptables" ["-t"; "nat"; "-A"; "POSTROUTING"; "-s"; subnet; "!"; "-o"; bridge;
                                   "-j"; "MASQUERADE"]);
  _ ← net_try (run_cmd "iptables" ["-A"; FORWARD_CHAIN; "-i"; bridge; "-j"; "ACCEPT"]);
  _ ← net_try (run_cmd "iptables" ["-A"; FORWARD_CHAIN; "-o"; bridge; "-j"; "ACCEPT"]);
  mret tt.

(** ** Chains and jump rules *)

Definition sanitize_suffix (input : string) (max_len : nat) : string :=
  String.string_of_list_ascii (take max_len (List.filter (fun c =>
    let n := N_of_ascii c in
    ((48 <=? n) && (n <=? 57))%N || ((65 <=? n) && (n <=? 90))%N || ((97 <=? n) && (n <=? 122))%N)
    (String.list_ascii_of_string input))).

Definition ensure_chain (chain : string) : Net unit :=
  r ← net_try (run_cmd "iptables" ["-N"; chain]);
  match r with
  | Ok _ => mret tt
  | Err e => if contains "Chain already exists" (net_error_text e) then mret tt else net_throw e
  end.

Definition flush_chain (chain : string) : Net unit := run_cmd "iptables" ["-F"; chain].

Definition ensure_jump_rule (parent_chain : string) (rule : list string) : Net unit :=
  r ← net_try (run_cmd "iptables" ("-C" :: parent_chain :: rule));
  if is_ok r then mret tt else run_cmd "iptables" ("-I" :: parent_chain :: "1" :: rule).

Definition next_child_chain (parent_chain child_a child_b : string) : Net string :=
  rules ← run_cmd_capture "iptables" ["-S"; parent_chain];
  if existsb (String.eqb ("-A " +:+ parent_chain +:+ " -j " +:+ child_a)) (str_lines rules)
  then mret child_b else mret child_a.

(** [while run_cmd(...).is_ok() {}]. *)
Fixpoint delete_second (fuel : nat) (parent_chain : string) : Net unit :=
  match fuel with
  | O => net_throw Unfinished
  | S fuel' =>
      r ← net_try (run_cmd "iptables" ["-D"; parent_chain; "2"]);
      if is_ok r then delete_second fuel' parent_chain else mret tt
  end.

Definition point_parent_to_child (parent_chain child_chain : string) : Net unit :=
  rules ← run_cmd_capture "iptables" ["-S"; parent_chain];
  if existsb (starts_with ("-A " +:+ parent_chain +:+ " ")) (str_lines rules) then
    _ ← run_cmd "iptables" ["-R"; parent_chain; "1"; "-j"; child_chain];
    delete_second (length (str_lines rules)) parent_chain
  else run_cmd "iptables" ["-A"; parent_chain; "-j"; child_chain].

Definition rule_matches (line : string) (desired_rule : list string) : bool :=
  forallb (fun token => bool_decide (token ∈ split_whitespace line)) desired_rule.

(** The words of a listed rule with [-D] in place of [-A]. *)
Definition deletion (line : string) : option (list string) :=
  match split_whitespace line with
  | first :: words => if String.eqb first "-A" then Some ("-D"%string :: words) else None
  | [] => None
  end.

Definition remove_undesired (prefix : list string) (desired_rules : list (list string)) (line : string)
  : Net unit :=
  if existsb (rule_matches line) desired_rules then mret tt
  else match deletion line with
       | Some words => run_cmd "iptables" (prefix ++ words)
       | None => mret tt
       end.

Definition sync_forward_jump_rules (parent_chain : string) (desired_rules : list (list string)) : Net unit :=
  _ ← net_each (ensure_jump_rule FORWARD_CHAIN) desired_rules;
  rules ← run_cmd_capture "iptables" ["-S"; FORWARD_CHAIN];
  net_each (remove_undesired [] desired_rules)
    (List.filter (contains ("-j " +:+ parent_chain)) (str_lines rules)).

Definition remove_forward_rules_referencing (chain : string) : Net unit :=
  rules ← run_cmd_capture "iptables" ["-S"; FORWARD_CHAIN];
  _ ← net_each (fun line => match deletion line with
                            | Some words => _ ← net_try (run_cmd "iptables" words); mret tt
                            | None => mret tt
                            end)
        (List.filter (contains ("-j " +:+ chain)) (str_lines rules));
  _ ← net_try (run_cmd "iptables" ["-F"; chain]);
  _ ← net_try (run_cmd "iptables" ["-X"; chain]);
  mret tt.

Definition chain_exists (chain : string) : Net bool :=
  output ← run_cmd_capture "iptables" ["-S"];
  mret (existsb (String.eqb ("-N " +:+ chain)) (str_lines output)).

Definition delete_chain_if_exists (chain : string) : Net unit :=
  exists_ ← chain_exists chain;
  if negb exists_ then mret tt
  else
    _ ← net_try (run_cmd "iptables" ["-F"; chain]);
    _ ← net_try (run_cmd "iptables" ["-X"; chain]);
    mret tt.

(** ** NAT exemptions *)

Definition nat_exemption (bridge local_subnet exempt_subnet : string) : list string :=
  ["-s"; local_subnet; "-d"; exempt_subnet; "!"; "-o"; bridge; "-j"; "RETURN"]%string.

Definition ensure_nat_exemption_rule (bridge local_subnet exempt_subnet : string) : Net unit :=
  let rule := nat_exemption bridge local_subnet exempt_subnet in
  r ← net_try (run_cmd "iptables" (["-t"; "nat"; "-C"; "POSTROUTING"] ++ rule));
  if is_ok r then mret tt
  else run_cmd "iptables" (["-t"; "nat"; "-I"; "POSTROUTING"; "1"] ++ rule).

Definition is_exemption_line (bridge local_subnet line : string) : bool :=
  contains ("-s " +:+ local_subnet) line && contains ("! -o " +:+ bridge) line
  && contains "-j RETURN" line.

Definition sync_nat_exemption_rules (bridge local_subnet : string) (nat_exempt_subnets : list string)
  : Net unit :=
  _ ← net_each (ensure_nat_exemption_rule bridge local_subnet) nat_exempt_subnets;
  let desired_rules := nat_exemption bridge local_subnet <$> nat_exempt_subnets in
  rules ← run_cmd_capture "iptables" ["-t"; "nat"; "-S"; "POSTROUTING"];
  net_each (remove_undesired ["-t"; "nat"] desired_rules)
    (List.filter (is_exemption_line bridge local_subnet) (str_lines rules)).

Definition remove_nat_exemption_rules (bridge local_subnet : string) : Net unit :=
  rules ← run_cmd_capture "iptables" ["-t"; "nat"; "-S"; "POSTROUTING"];
  net_each (fun line => match deletion line with
                        | Some words => _ ← net_try (run_cmd "iptables" (["-t"; "nat"] ++ words)); mret tt
                        | None => mret tt
                        end)
    (List.filter (is_exemption_line bridge local_subnet) (str_lines rules)).

Definition teardown_nat (bridge subnet : string) : Net unit :=
  _ ← net_of (validate_iface_name bridge);
  _ ← net_of (validate_ipv4_cidr subnet);
  _ ← net_try (run_cmd "iptables" ["-t"; "nat"; "-D"; "POSTROUTING"; "-s"; subnet; "!"; "-o"; bridge;
                                   "-j"; "MASQUERADE"]);
  _ ← net_try (run_cmd "iptables" ["-D"; FORWARD_CHAIN; "-i"; bridge; "-j"; "ACCEPT"]);
  _ ← net_try (run_cmd "iptables" ["-D"; FORWARD_CHAIN; "-o"; bridge; "-j"; "ACCEPT"]);
  _ ← net_try (remove_nat_exemption_rules bridge subnet);
  mret tt.

(** ** Isolation of a network *)

Definition out_chain_of (bridge : string) : string := "QXNETO" +:+ sanitize_suffix bridge 20.
Definition in_chain_of (bridge : string) : string := "QXNETI" +:+ sanitize_suffix bridge 20.

Definition block_subnet (out_chain in_chain subnet : string) : Net unit :=
  _ ← run_cmd "iptables" ["-A"; out_chain; "-d"; subnet; "-j"; "DROP"];
  run_cmd "iptables" ["-A"; in_chain; "-s"; subnet; "-j"; "DROP"].

Definition sync_network_isolation (bridge local_subnet : string)
    (blocked_subnets nat_exempt_subnets : list string) : Net unit :=
  _ ← net_of (validate_iface_name bridge);
  _ ← net_of (validate_ipv4_cidr local_subnet);
  _ ← net_of (for_each validate_ipv4_cidr blocked_subnets);
  _ ← net_of (for_each validate_ipv4_cidr nat_exempt_subnets);
  let out_chain := out_chain_of bridge in
  let in_chain := in_chain_of bridge in
  _ ← ensure_chain out_chain;
  _ ← ensure_chain in_chain;
  _ ← ensure_jump_rule FORWARD_CHAIN ["-i"; bridge; "-j"; out_chain];
  _ ← ensure_jump_rule FORWARD_CHAIN ["-o"; bridge; "-j"; in_chain];
  _ ← flush_chain out_chain;
  _ ← flush_chain in_chain;
  _ ← net_each (block_subnet out_chain in_chain) blocked_subnets;
  _ ← run_cmd "iptables" ["-A"; out_chain; "-j"; "RETURN"];
  _ ← run_cmd "iptables" ["-A"; in_chain; "-j"; "RETURN"];
  sync_nat_exemption_rules bridge local_subnet nat_exempt_subnets.

Definition teardown_network_isolation (bridge : string) : Net unit :=
  _ ← net_of (validate_iface_name bridge);
  _ ← remove_forward_rules_referencing (out_chain_of bridge);
  _ ← remove_forward_rules_referencing (in_chain_of bridge);
  _ ← delete_chain_if_exists (out_chain_of bridge);
  delete_chain_if_exists (in_chain_of bridge).

(** ** The firewall of a VM *)

Record VmFirewallChains := {
  out_parent : string; in_parent : string;
  out_a : string; out_b : string; in_a : string; in_b : string
}.

Definition chains_new (vm_id : string) : VmFirewallChains :=
  let suffix := sanitize_suffix vm_id 21 in
  {| out_parent := "QXVMO" +:+ suffix; in_parent := "QXVMI" +:+ suffix;
     out_a := "QXVOA" +:+ suffix; out_b := "QXVOB" +:+ suffix;
     in_a := "QXVIA" +:+ suffix; in_b := "QXVIB" +:+ suffix |}.

Definition teardown_vm_firewall (vm_id : string) : Net unit :=
  let chains := chains_new vm_id in
  _ ← remove_forward_rules_referencing (out_parent chains);
  _ ← remove_forward_rules_referencing (in_parent chains);
  _ ← delete_chain_if_exists (out_parent chains);
  _ ← delete_chain_if_exists (in_parent chains);
  _ ← delete_chain_if_exists (out_a chains);
  _ ← delete_chain_if_exists (out_b chains);
  _ ← delete_chain_if_exists (in_a chains);
  delete_chain_if_exists (in_b chains).

Definition is_egress (rule : VmFirewallRule) : bool := fr_direction rule =? 1.
Definition l4_of_proto (protocol : Z) : option L4 :=
  if protocol =? 1 then Some L4Tcp else if protocol =? 2 then Some L4Udp
  else if protocol =? 3 then Some L4Icmp else None.

Definition port_range (start end_ : Z) : string :=
  if start =? end_ then pretty start else pretty start +:+ ":" +:+ pretty end_.

Definition cidr_args (rule : VmFirewallRule) : list string :=
  if String.eqb (fr_cidr rule) "" then []
  else [(if is_egress rule then "-d" else "-s")%string; fr_cidr rule].
Definition proto_args (rule : VmFirewallRule) : list string :=
  match l4_of_proto (fr_protocol rule) with Some p => ["-p"%string; l4_text p] | None => [] end.
Definition has_ports (p : option L4) : bool :=
  match p with Some (L4Tcp | L4Udp) => true | _ => false end.
Definition port_args (rule : VmFirewallRule) : list string :=
  if has_ports (l4_of_proto (fr_protocol rule)) then
    match fr_port_start rule, fr_port_end rule with
    | Some s, Some e => ["--dport"%string; port_range s e]
    | _, _ => []
    end
  else [].
Definition rule_args (rule : VmFirewallRule) : list string :=
  cidr_args rule ++ proto_args rule ++ port_args rule ++ ["-j"; "ACCEPT"]%string.

Definition add_rule (next_in_chain next_out_chain : string) (rule : VmFirewallRule) : Net unit :=
  _ ← (if String.eqb (fr_cidr rule) "" then mret tt else net_of (validate_ipv4_cidr (fr_cidr rule)));
  run_cmd "iptables" ("-A" :: (if is_egress rule then next_out_chain else next_in_chain) :: rule_args rule).

Definition add_interface (next_in_chain next_out_chain : string) (iface : VmFirewallInterface) : Net unit :=
  _ ← net_of (validate_iface_name (fi_bridge_name iface));
  _ ← net_of (validate_ipv4_address (fi_ip iface));
  net_each (add_rule next_in_chain next_out_chain) (fi_rules iface).

Definition in_jump (parent : string) (iface : VmFirewallInterface) : list string :=
  ["-o"; fi_bridge_name iface; "-d"; fi_ip iface +:+ "/32"; "-j"; parent]%string.
Definition out_jump (parent : string) (iface : VmFirewallInterface) : list string :=
  ["-i"; fi_bridge_name iface; "-s"; fi_ip iface +:+ "/32"; "-j"; parent]%string.

Definition established_args (chain : string) : list string :=
  ["-A"; chain; "-m"; "conntrack"; "--ctstate"; "ESTABLISHED,RELATED"; "-j"; "ACCEPT"]%string.

Definition has_egress_rules (interfaces : list VmFirewallInterface) : bool :=
  existsb (fun i => existsb is_egress (fi_rules i)) interfaces.

(** The child chains of both directions, filled. *)
Definition fill_chains (next_in_chain next_out_chain : string) (interfaces : list VmFirewallInterface)
  : Net unit :=
  _ ← run_cmd "iptables" (established_args next_in_chain);
  _ ← run_cmd "iptables" (established_args next_out_chain);
  _ ← net_each (add_interface next_in_chain next_out_chain) interfaces;
  _ ← run_cmd "iptables" ["-A"; next_in_chain; "-j"; "DROP"];
  run_cmd "iptables" ["-A"; next_out_chain; "-j";
                      if has_egress_rules interfaces then "DROP" else "ACCEPT"].

Definition other_chain (next a b : string) : string := if String.eqb next a then b else a.

(** The children to fill, empty. *)
Definition prepare_children (chains : VmFirewallChains) : Net (string * string) :=
  _ ← ensure_chain (out_parent chains);
  _ ← ensure_chain (in_parent chains);
  next_out_chain ← next_child_chain (out_parent chains) (out_a chains) (out_b chains);
  next_in_chain ← next_child_chain (in_parent chains) (in_a chains) (in_b chains);
  _ ← ensure_chain next_out_chain;
  _ ← ensure_chain next_in_chain;
  _ ← flush_chain next_out_chain;
  _ ← flush_chain next_in_chain;
  mret (next_in_chain, next_out_chain).

(** The filled children take over. *)
Definition install_children (chains : VmFirewallChains) (next_in_chain next_out_chain : string)
    (interfaces : list VmFirewallInterface) : Net unit :=
  _ ← point_parent_to_child (in_parent chains) next_in_chain;
  _ ← point_parent_to_child (out_parent chains) next_out_chain;
  _ ← sync_forward_jump_rules (in_parent chains) (in_jump (in_parent chains) <$> interfaces);
  _ ← sync_forward_jump_rules (out_parent chains) (out_jump (out_parent chains) <$> interfaces);
  _ ← delete_chain_if_exists (other_chain next_in_chain (in_a chains) (in_b chains));
  delete_chain_if_exists (other_chain next_out_chain (out_a chains) (out_b chains)).

Definition sync_vm_firewall_rules (vm_id : string) (interfaces : list VmFirewallInterface) : Net unit :=
  match interfaces with
  | [] => teardown_vm_firewall vm_id
  | _ =>
      let chains := chains_new vm_id in
      '(next_in_chain, next_out_chain) ← prepare_children chains;
      _ ← fill_chains next_in_chain next_out_chain interfaces;
      install_children chains next_in_chain next_out_chain interfaces
  end.
End node_net.
