(* ===== verification/FirewallFacts.v ===== *)
(** * FirewallFacts: what the firewall of a VM does to packets

    Reasoning about the commands of [NodeFirewall.v] and the theorems about them:
    the swap of a VM's chains, the verdicts of the chains after a synchronisation,
    the isolation of networks.  Two situations in which packets pass that a rule
    should stop close the file. *)

From S2P Require Import Prelude Text Common Errors Secrets Tables NodeApi Ipv4 Netfilter NodeFirewall.
From Stdlib Require Import Ascii.
#[local] Open Scope Z_scope.

(** ** Reasoning about commands *)

Section triples.
Context `{Iptables}.

(** From tables with [P], every state the computation passes satisfies [I], it
    never runs out of fuel, and its value and last tables satisfy [Q]. *)
Definition triple {A} (I P : Netfilter -> Prop) (m : Net A) (Q : A -> Netfilter -> Prop) : Prop :=
  forall k, P (netfilter k) ->
    Forall (fun k => I (netfilter k)) (m k).1 /\
    match (m k).2.2 with
    | Ok a => Q a (netfilter (m k).2.1)
    | Err e => e <> Unfinished
    end.

Lemma net_triple_ret {A} I (P : Netfilter -> Prop) (a : A) (Q : A -> Netfilter -> Prop) :
  (forall t, P t -> Q a t) -> triple I P (mret a) Q.
Proof. intros HQ k Hk. simpl. auto. Qed.

Lemma net_triple_bind {A B} I P (m : Net A) (f : A -> Net B) R Q :
  triple I P m R -> (forall a, triple I (R a) (f a) Q) -> triple I P (m ≫= f) Q.
Proof.
  intros Hm Hf k Hk. destruct (Hm k Hk) as [Htr Hr]. unfold mbind, Net_bind.
  destruct (m k) as [tr [k' [a|e]]]; simpl in *; [|done].
  destruct (Hf a k' Hr) as [Htr' Hr']. destruct (f a k') as [tr' r]. simpl in *.
  by rewrite Forall_app.
Qed.

(** The first two steps of a sequence taken together. *)
Lemma triple_assoc {A B C} I P (m : Net A) (f : A -> Net B) (g : B -> Net C) R Q :
  triple I P (m ≫= f) R -> (forall b, triple I (R b) (g b) Q) -> triple I P (m ≫= fun a => f a ≫= g) Q.
Proof.
  intros Hm Hg k Hk. pose proof (net_triple_bind _ _ _ _ _ _ Hm Hg k Hk) as Hall.
  unfold mbind, Net_bind in *. destruct (m k) as [tr1 [k1 [a|e]]]; [|done].
  destruct (f a k1) as [tr2 [k2 [b|e]]]; [|done]. destruct (g b k2) as [tr3 r]. simpl in *.
  by rewrite app_assoc.
Qed.

Lemma triple_pre {A} I P P' (m : Net A) Q :
  (forall t, P t -> P' t) -> triple I P' m Q -> triple I P m Q.
Proof. intros HP Hm k Hk. apply Hm. auto. Qed.

Lemma triple_post {A} I P (m : Net A) (Q Q' : A -> Netfilter -> Prop) :
  triple I P m Q -> (forall a t, Q a t -> Q' a t) -> triple I P m Q'.
Proof.
  intros Hm HQ k Hk. destruct (Hm k Hk) as [Htr Hr]. split; [done|]. destruct (m k).2.2; auto.
Qed.

Lemma triple_of {A} I (P : Netfilter -> Prop) (r : result NetError A) (Q : A -> Netfilter -> Prop) :
  (forall a t, r = Ok a -> P t -> Q a t) -> r <> Err Unfinished -> triple I P (net_of r) Q.
Proof. intros HQ Hr k Hk. simpl. split; [done|]. destruct r; [auto|congruence]. Qed.

Lemma triple_throw {A} I P e (Q : A -> Netfilter -> Prop) :
  e <> Unfinished -> triple I P (net_throw e) Q.
Proof. intros He k Hk. by simpl. Qed.

(** A command of one of the documented forms; its output is described too. *)
Lemma triple_capture I (P : Netfilter -> Prop) args table rest cmd (Q : string -> Netfilter -> Prop) :
  table_of args = (table, rest) -> command_of rest = Some cmd ->
  (forall t, P t -> I t) ->
  (forall t t' out, P t -> effect table cmd t = Some t' -> printed table cmd t (str_lines out) ->
     I t' /\ Q out t') ->
  triple I P (run_cmd_capture "iptables" args) Q.
Proof.
  intros Ht Hc HI HQ k Hk. unfold run_cmd_capture. destruct (exec "iptables" args k) as [k' out] eqn:He.
  pose proof (iptables_law _ _ _ _ _ _ _ He Ht Hc) as Hlaw. simpl.
  destruct out as [|[] stdout stderr]; simpl; rewrite ?Forall_singleton.
  - split; [rewrite Hlaw; auto|done].
  - destruct Hlaw as [Heff Hp]. destruct (HQ _ _ _ Hk Heff Hp). auto.
  - split; [rewrite Hlaw; auto|done].
Qed.

Lemma triple_cmd I (P : Netfilter -> Prop) args table rest cmd (Q : Netfilter -> Prop) :
  table_of args = (table, rest) -> command_of rest = Some cmd ->
  (forall t, P t -> I t) -> (forall t t', P t -> effect table cmd t = Some t' -> I t' /\ Q t') ->
  triple I P (run_cmd "iptables" args) (fun _ => Q).
Proof.
  intros Ht Hc HI HQ. eapply net_triple_bind.
  - eapply (triple_capture I P args table rest cmd (fun _ => Q)); eauto.
  - intros a. by apply net_triple_ret.
Qed.

(** A command whose failure is ignored. *)
Lemma triple_try I (P : Netfilter -> Prop) args table rest cmd (Q : result NetError unit -> Netfilter -> Prop) :
  table_of args = (table, rest) -> command_of rest = Some cmd ->
  (forall t, P t -> I t) ->
  (forall t t', P t -> effect table cmd t = Some t' -> I t' /\ Q (Ok tt) t') ->
  (forall t e, P t -> e <> Unfinished -> Q (Err e) t) ->
  triple I P (net_try (run_cmd "iptables" args)) Q.
Proof.
  intros Ht Hc HI HQ HE k Hk. unfold net_try, run_cmd, mbind, Net_bind, run_cmd_capture.
  destruct (exec "iptables" args k) as [k' out] eqn:He.
  pose proof (iptables_law _ _ _ _ _ _ _ He Ht Hc) as Hlaw. simpl.
  destruct out as [|[] stdout stderr]; simpl; rewrite ?Forall_singleton.
  - rewrite Hlaw. auto.
  - destruct Hlaw as [Heff Hp]. destruct (HQ _ _ Hk Heff). auto.
  - rewrite Hlaw. auto.
Qed.

Lemma triple_each {A} I (J : list A -> Netfilter -> Prop) (f : A -> Net unit) l :
  (forall done x rest, l = done ++ x :: rest -> triple I (J done) (f x) (fun _ => J (done ++ [x]))) ->
  triple I (J []) (net_each f l) (fun _ => J l).
Proof.
  intros Hf.
  assert (forall pre suf, l = pre ++ suf -> triple I (J pre) (net_each f suf) (fun _ => J l)) as Hgo.
  { intros pre suf. revert pre. induction suf as [|x suf IH]; intros pre Hl.
    - rewrite app_nil_r in Hl. apply net_triple_ret. by rewrite Hl.
    - simpl. eapply net_triple_bind; [by eapply Hf|]. intros u. apply IH. by rewrite Hl, <- app_assoc. }
  by apply (Hgo []).
Qed.

(** ** The operations on chains *)

Definition stable (P : Netfilter -> Prop) : Prop :=
  forall table c t t', P t -> becomes table c (rules_of t table c) t t' -> P t'.

Lemma ensure_chain_triple I (P : Netfilter -> Prop) c :
  stable P -> (forall t, P t -> I t) -> triple I P (ensure_chain c) (fun _ => P).
Proof.
  intros Hs HI. eapply net_triple_bind.
  - eapply (triple_try I P _ _ _ _ (fun r t => P t /\ r <> Err Unfinished)); [done|done|done| |].
    + intros t t' Hp Heff%effect_spec. assert (P t') by by eapply Hs. auto.
    + intros t e Hp He. split; [done|congruence].
  - intros [a|e]; [apply net_triple_ret; tauto|].
    destruct (contains _ _); [apply net_triple_ret; tauto|].
    intros k [_ Hne]. simpl. split; [done|congruence].
Qed.

Lemma flush_triple I (P Q : Netfilter -> Prop) c :
  (forall t, P t -> I t) -> (forall t t', P t -> becomes "filter" c [] t t' -> I t' /\ Q t') ->
  triple I P (flush_chain c) (fun _ => Q).
Proof.
  intros HI HQ. eapply (triple_cmd I P _ _ _ _ Q); [done|done|done|].
  intros t t' Hp Heff%effect_spec. by eapply HQ.
Qed.

Lemma append_triple I (P Q : Netfilter -> Prop) c w s :
  (forall t, P t -> I t) ->
  (forall t t', P t -> becomes "filter" c (rules_of t "filter" c ++ [canonical (w :: s)]) t t' ->
     I t' /\ Q t') ->
  triple I P (run_cmd "iptables" ("-A" :: c :: w :: s)) (fun _ => Q).
Proof.
  intros HI HQ. eapply (triple_cmd I P _ _ _ _ Q); [done|done|done|].
  intros t t' Hp Heff%effect_spec. by eapply HQ.
Qed.

Lemma delete_chain_triple I (P : Netfilter -> Prop) c :
  (forall t, P t -> I t) -> (forall t t', P t -> becomes "filter" c [] t t' -> P t') ->
  triple I P (delete_chain_if_exists c) (fun _ => P).
Proof.
  intros HI HP.
  assert (forall op cmd, command_of [op; c] = Some cmd -> table_of [op; c] = ("filter"%string, [op; c]) ->
            (cmd = Flush c \/ cmd = DeleteChain c) ->
            triple I P (net_try (run_cmd "iptables" [op; c])) (fun _ => P)) as Hop.
  { intros op cmd Hc Ht Hcmd. eapply (triple_try I P _ _ _ _ (fun _ => P)); [done|done|done| |done].
    intros t t' Hp Heff%effect_spec. assert (P t') by (destruct Hcmd; subst; by eapply HP). auto. }
  eapply net_triple_bind.
  - eapply net_triple_bind; [|intros out; apply (net_triple_ret I P _ (fun _ => P)); done].
    eapply (triple_capture I P _ _ _ _ (fun _ => P)); [done|done|done|].
    intros t t' out Hp Heff%effect_spec _. subst. auto.
  - intros b. destruct (negb b); [by apply net_triple_ret|].
    eapply net_triple_bind; [by eapply (Hop _ (Flush c)); auto|]. intros ?.
    eapply net_triple_bind; [by eapply (Hop _ (DeleteChain c)); auto|]. intros ?. by apply net_triple_ret.
Qed.
End triples.

(** ** Listed lines *)

Lemma contains_app_r p s t : contains p t = true -> contains p (s +:+ t) = true.
Proof.
  intros Ht. induction s as [|c s IH]; [done|].
  change (String c s +:+ t)%string with (String c (s +:+ t)).
  cbn [contains]. by destruct (strip_prefix p _).
Qed.

Lemma contains_self p s : contains p (p +:+ s) = true.
Proof.
  destruct (p +:+ s)%string as [|c r] eqn:E; cbn [contains].
  - destruct p; [done|discriminate].
  - rewrite <- E. by rewrite strip_prefix_app.
Qed.

Lemma strip_prefix_some p s r : strip_prefix p s = Some r -> s = (p +:+ r)%string.
Proof.
  revert s. induction p as [|a p IH]; intros [|b s]; simpl; try (by intros [= <-]).
  destruct (Ascii.eqb_spec a b) as [->|]; [|done]. intros E%IH. by rewrite E.
Qed.

Lemma contains_inv p s : contains p s = true -> exists a b, s = (a +:+ p +:+ b)%string.
Proof.
  induction s as [|c s IH]; cbn [contains]; intros Hc.
  - destruct (strip_prefix p "") eqn:E; [|done]. apply strip_prefix_some in E. by exists ""%string, s.
  - destruct (strip_prefix p (String c s)) eqn:E.
    + apply strip_prefix_some in E. by exists ""%string, s0.
    + destruct (IH Hc) as (a&b&->). by exists (String c a), b.
Qed.

(** The text of a word that is followed by a blank. *)
Lemma word_split (w u : string) (r s : string) :
  Forall (fun c => is_whitespace c = false) (String.list_ascii_of_string w) ->
  Forall (fun c => is_whitespace c = false) (String.list_ascii_of_string u) ->
  (w +:+ String " " r)%string = (u +:+ String " " s)%string -> w = u /\ r = s.
Proof.
  revert u. induction w as [|c w IH]; intros [|d u] Hw Hu E; simpl in E.
  - by injection E.
  - injection E as <- _. by inversion Hu.
  - injection E as -> _. by inversion Hw.
  - injection E as -> E. inversion Hw; inversion Hu; subst. destruct (IH u) as [-> ->]; auto.
Qed.

Lemma string_app_split (a b c d : string) :
  (a +:+ b)%string = (c +:+ d)%string ->
  (exists m, a = (c +:+ m)%string /\ d = (m +:+ b)%string) \/
  (exists m, c = (a +:+ m)%string /\ b = (m +:+ d)%string).
Proof.
  revert c. induction a as [|x a IH]; intros c E.
  - right. by exists c.
  - destruct c as [|y c]; [left; by exists (String x a)|]. injection E as -> E.
    destruct (IH c E) as [(m&->&->)|(m&->&->)]; [left|right]; by exists m.
Qed.

Definition words_ok (ws : list string) : Prop := Forall is_word ws.

Lemma word_chars w : is_word w -> Forall (fun c => is_whitespace c = false) (String.list_ascii_of_string w).
Proof. by intros []. Qed.

(** The words around an occurrence of [-j x]: one that ends in [-j], and the next,
    which starts with [x]. *)
Lemma contains_jump ws x :
  words_ok ws -> x <> EmptyString -> Forall (fun c => is_whitespace c = false) (String.list_ascii_of_string x) ->
  contains ("-j " +:+ x) (join " " ws) = true ->
  exists l u v r, ws = l ++ u :: v :: r /\ (exists u', u = (u' +:+ "-j")%string) /\
    exists v', v = (x +:+ v')%string.
Proof.
  intros Hws Hx Hxw (a&b&E)%contains_inv. revert a E.
  induction ws as [|w [|v ws] IH]; intros a E.
  - destruct a; discriminate.
  - exfalso. inversion Hws as [|? ? [_ Hw] _]; subst. simpl in E.
    rewrite E in Hw. rewrite !list_ascii_app in Hw. apply Forall_app in Hw as [_ Hw].
    simpl in Hw. inversion Hw as [|? ? _ Hw1]; subst. inversion Hw1 as [|? ? _ Hw2]; subst.
    by inversion Hw2.
  - inversion Hws as [|? ? [Hwne Hw] Hws']; subst.
    change (join " " (w :: v :: ws)) with (w +:+ String " " (join " " (v :: ws))) in E.
    destruct (string_app_split _ _ _ _ E) as [(m&->&Em)|(m&->&Em)].
    + (* the match begins inside the first word *)
      rewrite list_ascii_app in Hw. apply Forall_app in Hw as [_ Hm].
      rewrite string_app_assoc in Em.
      change ("-j " +:+ (x +:+ b))%string with ("-j" +:+ String " " (x +:+ b))%string in Em.
      symmetry in Em. apply word_split in Em as [-> Ej]; [|done|by repeat constructor].
      exists [], (a +:+ "-j")%string, v, ws. split_and!; [done|by exists a|].
      destruct ws as [|v2 ws].
      * simpl in Ej. by exists b.
      * change (join " " (v :: v2 :: ws)) with (v +:+ String " " (join " " (v2 :: ws))) in Ej.
        destruct (string_app_split _ _ _ _ Ej) as [(n&->&_)|(n&->&En)]; [by exists n|].
        destruct n as [|c n].
        -- exists ""%string. by rewrite !append_empty_r.
        -- injection En as <- _. exfalso. rewrite list_ascii_app in Hxw.
           apply Forall_app in Hxw as [_ Hxw]. by inversion Hxw.
    + destruct m as [|c m].
      * exfalso. simpl in Em. discriminate.
      * injection Em as <- Em.
        destruct (IH Hws' m Em) as (l&u&v'&r&->&Hu&Hv). exists (w :: l), u, v', r.
        by split_and!.
Qed.

(** ** Removing listed rules *)

Lemma filter_remove_first (P : list string -> bool) w C :
  P w = false -> List.filter P (remove_first w C) = List.filter P C.
Proof.
  intros Hw. induction C as [|x C IH]; [done|]. simpl. case_bool_decide as Hx.
  - subst. by rewrite Hw.
  - simpl. by rewrite IH.
Qed.

Lemma filter_remove_first_in (P : list string -> bool) w C :
  P w = true -> w ∈ C -> List.filter P C ≡ₚ w :: List.filter P (remove_first w C).
Proof.
  intros Hw. induction C as [|x C IH]; intros Hin; [by apply elem_of_nil in Hin|].
  simpl. case_bool_decide as Hx.
  - subst. by rewrite Hw.
  - apply elem_of_cons in Hin as [->|Hin]; [done|]. simpl. destruct (P x); rewrite (IH Hin); [|done].
    by rewrite Permutation_swap.
Qed.

Lemma elem_of_remove_first w x C : x ∈ remove_first w C -> x ∈ C.
Proof.
  induction C as [|y C IH]; [done|]. simpl. case_bool_decide; [by right|].
  intros [->|Hx]%elem_of_cons; [by left|right; auto].
Qed.

Lemma filter_elem (P : list string -> bool) l x : x ∈ List.filter P l <-> x ∈ l /\ P x = true.
Proof. rewrite !list_elem_of_In. apply filter_In. Qed.

(** A rule as it is printed, and can be handed back to the tool. *)
Definition printed_rule (w : list string) : Prop :=
  words_ok w /\ canonical w = w /\ (2 <= length w)%nat.

Lemma deletion_of c w : is_word c -> words_ok w -> deletion (rule_line c w) = Some ("-D"%string :: c :: w).
Proof.
  intros Hc Hw. unfold deletion, rule_line. rewrite split_whitespace_join; [done|].
  constructor; [|by constructor]. split; [done|by repeat constructor].
Qed.

Section removal.
Context `{Iptables}.
Context (prefix : list string) (table c : string) (sel : string -> bool) (desired : list (list string)).
Context (c_word : is_word c).
Context (prefix_ok : forall words,
  table_of (prefix ++ "-D"%string :: words) = (table, "-D"%string :: words)).

(** A rule the removal keeps: one it does not look at, or one that is desired. *)
Definition wanted (w : list string) : bool :=
  negb (sel (rule_line c w)) || existsb (rule_matches (rule_line c w)) desired.

Lemma removal_triple I (R : Netfilter -> Prop) W F :
  (forall t, R t -> I t) ->
  (forall t t' l, R t -> becomes table c l t t' -> R t') ->
  Forall (fun w => sel (rule_line c w) = true /\ printed_rule w) W ->
  triple I (fun t => R t /\ List.filter wanted (rules_of t table c) = F /\
                     List.filter (negb ∘ wanted) (rules_of t table c)
                       ≡ₚ List.filter (negb ∘ wanted) W)
    (net_each (remove_undesired prefix desired) (rule_line c <$> W))
    (fun _ t => R t /\ rules_of t table c = F).
Proof.
  intros HI HR HW. induction W as [|w W IH].
  - apply net_triple_ret. intros t (Ht&HF&Hnone). split; [done|]. subst F.
    symmetry in Hnone. apply Permutation_nil in Hnone.
    induction (rules_of t table c) as [|x C IHC]; [done|]. simpl in *.
    destruct (wanted x); simpl in *; [by rewrite <- IHC at 1|discriminate].
  - inversion HW as [|? ? [Hsel (Hwords&Hcan&Hlen)] HW']; subst. simpl. eapply net_triple_bind; [|intros ?; by apply IH].
    unfold remove_undesired.
    destruct (existsb (rule_matches (rule_line c w)) desired) eqn:Hm.
    + apply net_triple_ret. intros t (Ht&HF&Hp). split_and!; [done|done|]. rewrite Hp. simpl.
      unfold wanted at 1. by rewrite Hm, orb_true_r.
    + assert (wanted w = false) as Hbad by (unfold wanted; by rewrite Hsel, Hm).
      rewrite deletion_of by done. destruct w as [|a [|b s]]; [simpl in Hlen; lia|simpl in Hlen; lia|].
      eapply (triple_cmd _ _ _ _ _ _ (fun t => _)); [apply prefix_ok|done|by intros t [? _]; auto|].
      intros t t' (Hr&HF&Hp) Heff%effect_spec. rewrite Hcan in Heff. destruct Heff as [Hin Hb].
      assert (R t') by by eapply HR. split; [auto|]. split_and!; [done| |].
      * rewrite (proj1 Hb), filter_remove_first; done.
      * rewrite (proj1 Hb). simpl in Hp. rewrite Hbad in Hp. simpl in Hp.
        rewrite (filter_remove_first_in (negb ∘ wanted) (a :: b :: s)) in Hp;
          [by apply Permutation_cons_inv in Hp|simpl; by rewrite Hbad|done].
Qed.

(** The removal after a listing. *)
Lemma listed_removal_triple I (R : Netfilter -> Prop) C lines t0 :
  (forall t, R t -> I t) ->
  (forall t t' l, R t -> becomes table c l t t' -> R t') ->
  rules_of t0 table c = C -> lines ≡ₚ listing t0 table c -> sel (chain_line t0 c) = false ->
  Forall (fun w => sel (rule_line c w) = true -> printed_rule w) C ->
  triple I (fun t => R t /\ rules_of t table c = C)
    (net_each (remove_undesired prefix desired) (List.filter sel lines))
    (fun _ t => R t /\ rules_of t table c = List.filter wanted C).
Proof.
  intros HI HR HC Hl Hhead Htidy.
  assert (List.filter sel lines ≡ₚ rule_line c <$> List.filter (fun w => sel (rule_line c w)) C) as Hperm.
  { rewrite Hl. unfold listing. rewrite HC. simpl. rewrite Hhead. clear. induction C as [|w C IH]; [done|].
    simpl. destruct (sel (rule_line c w)); simpl; by rewrite IH. }
  apply Permutation_map_inv in Hperm as (W&->&HW).
  eapply triple_pre; [|apply removal_triple; try done].
  - intros t [Ht Hr]. split_and!; [done|by rewrite Hr|]. rewrite Hr, <- HW. clear.
    induction C as [|w C IH]; [done|]. simpl. destruct (sel (rule_line c w)) eqn:E; simpl.
    + destruct (wanted w); simpl; by rewrite IH.
    + assert (wanted w = true) as -> by (unfold wanted; by rewrite E). done.
  - rewrite <- HW. apply Forall_forall. intros w [Hw Hs]%filter_elem. split; [done|].
    rewrite Forall_forall in Htidy. auto.
Qed.
End removal.

(** ** Jump rules *)

Lemma contains_weaken p q s : contains (p +:+ q) s = true -> contains p s = true.
Proof.
  intros (a&b&->)%contains_inv. rewrite string_app_assoc. apply contains_app_r, contains_self.
Qed.

Lemma forward_header t parent : contains ("-j " +:+ parent) (chain_line t FORWARD_CHAIN) = false.
Proof.
  destruct (contains _ _) eqn:E; [|done]. apply contains_weaken in E. exfalso. revert E.
  unfold chain_line. destruct (nf_forward_policy t); vm_compute; congruence.
Qed.

(** The listed rule mentions a jump to [parent]. *)
Definition jump_line (parent : string) (w : list string) : bool :=
  contains ("-j " +:+ parent) (rule_line FORWARD_CHAIN w).

(** The rules of [FORWARD] after the jumps to a chain were set: each wanted jump is
    there, every jump to the chain is a wanted one, the other rules are as before. *)
Definition jumps_synced (parent : string) (desired F F' : list (list string)) : Prop :=
  (forall d, d ∈ desired -> canonical d ∈ F') /\
  (forall w, w ∈ F' -> jump_line parent w = true ->
     existsb (rule_matches (rule_line FORWARD_CHAIN w)) desired = true) /\
  List.filter (negb ∘ jump_line parent) F' = List.filter (negb ∘ jump_line parent) F /\
  (forall w, w ∈ F' -> w ∈ F \/ exists d, d ∈ desired /\ w = canonical d).

(** What a jump the agent asks for satisfies. *)
Definition good_jump (parent : string) (d : list string) : Prop :=
  (exists a s, d = a :: s) /\ jump_line parent (canonical d) = true /\
  rule_matches (rule_line FORWARD_CHAIN (canonical d)) d = true /\ printed_rule (canonical d).

Lemma filter_filter {A} (P Q : A -> bool) l :
  (forall x, P x = true -> Q x = true) -> List.filter P (List.filter Q l) = List.filter P l.
Proof.
  intros HPQ. induction l as [|x l IH]; [done|]. simpl. destruct (Q x) eqn:Hq; simpl; rewrite IH; [done|].
  destruct (P x) eqn:Hp; [|done]. by rewrite (HPQ x Hp) in Hq.
Qed.

Lemma filter_none {A} (P : A -> bool) l : Forall (fun x => P x = false) l -> List.filter P l = [].
Proof. induction 1 as [|x l Hx _ IH]; simpl; [done|]. by rewrite Hx. Qed.

Section jumps.
Context `{Iptables}.

Lemma ensure_jump_triple I (P Q : Netfilter -> Prop) chain a s :
  (forall t, P t -> I t) ->
  (forall t, P t -> canonical (a :: s) ∈ rules_of t "filter" chain -> Q t) ->
  (forall t t', P t -> becomes "filter" chain (canonical (a :: s) :: rules_of t "filter" chain) t t' ->
     I t' /\ Q t') ->
  triple I P (ensure_jump_rule chain (a :: s)) (fun _ => Q).
Proof.
  intros HI Hin Hnew. eapply net_triple_bind.
  - eapply (triple_try I P _ _ _ _ (fun r t => if is_ok r then Q t else P t)); [done|done|done| |].
    + intros t t' Hp [-> Hc]%effect_spec. simpl. auto.
    + by intros t e Hp _.
  - intros [u|e]; simpl; [by apply net_triple_ret|].
    eapply (triple_cmd I P _ _ _ _ Q); [done|done|done|].
    intros t t' Hp Heff%effect_spec. by eapply Hnew.
Qed.

Definition inserted (desired done F : list (list string)) (t : Netfilter) : Prop :=
  exists new, rules_of t "filter" FORWARD_CHAIN = new ++ F /\
    Forall (fun w => exists d, d ∈ desired /\ w = canonical d) new /\
    forall d, d ∈ done -> canonical d ∈ new ++ F.

Lemma ensure_jumps_triple I (R : Netfilter -> Prop) desired F :
  (forall t, R t -> I t) -> (forall t t' l, R t -> becomes "filter" FORWARD_CHAIN l t t' -> R t') ->
  Forall (fun d => exists a s, d = a :: s) desired ->
  triple I (fun t => R t /\ rules_of t "filter" FORWARD_CHAIN = F)
    (net_each (ensure_jump_rule FORWARD_CHAIN) desired)
    (fun _ t => R t /\ inserted desired desired F t).
Proof.
  intros HI HR Hd. eapply triple_pre.
  2:{ apply (triple_each I (fun done t => R t /\ inserted desired done F t)).
      intros dn d rest Hl. assert (d ∈ desired) as Hin by (rewrite Hl, elem_of_app; right; by left).
      rewrite Forall_forall in Hd. destruct (Hd d Hin) as (a&s&E). rewrite E. rewrite E in Hin.
      apply ensure_jump_triple; [by intros t []; auto| |].
      - intros t [Hr (new&Hf&Hnew&Hdone)] Hc. split; [done|]. exists new. split_and!; [done|done|].
        intros d'. rewrite elem_of_app, list_elem_of_singleton. rewrite Hf in Hc. intros [|E']; [auto|by subst].
      - intros t t' [Hr (new&Hf&Hnew&Hdone)] Hb. assert (R t') by by eapply HR. split; [auto|].
        split; [done|]. rewrite Hf in Hb. exists (canonical (a :: s) :: new). split_and!.
        + apply (proj1 Hb).
        + constructor; [by exists (a :: s)|done].
        + intros d'. rewrite elem_of_app, list_elem_of_singleton. intros [Hd'|E']; [right; auto|].
          subst. by left. }
  intros t [Hr Hf]. split; [done|]. exists []. split_and!; [done|done|]. by intros d ?%elem_of_nil.
Qed.

Lemma sync_forward_triple I (R : Netfilter -> Prop) parent desired F :
  (forall t, R t -> I t) -> (forall t t' l, R t -> becomes "filter" FORWARD_CHAIN l t t' -> R t') ->
  Forall (good_jump parent) desired ->
  Forall (fun w => jump_line parent w = true -> printed_rule w) F ->
  triple I (fun t => R t /\ rules_of t "filter" FORWARD_CHAIN = F)
    (sync_forward_jump_rules parent desired)
    (fun _ t => R t /\ jumps_synced parent desired F (rules_of t "filter" FORWARD_CHAIN)).
Proof.
  intros HI HR Hd HF. eapply net_triple_bind.
  { apply ensure_jumps_triple; [done|done|]. eapply Forall_impl; [exact Hd|]. by intros d []. }
  intros ?. eapply net_triple_bind.
  { eapply (triple_capture I _ _ _ _ _ (fun out t => R t /\ inserted desired desired F t /\
      str_lines out ≡ₚ listing t "filter" FORWARD_CHAIN)); [done|done|by intros t []; auto|].
    intros t t' out [Hr Hins] ->%effect_spec Hp. auto. }
  intros out k (Hr&(new&Hf&Hnew&Hdone)&Hlines).
  destruct (listed_removal_triple [] "filter" FORWARD_CHAIN (contains ("-j " +:+ parent)) desired
    ltac:(by repeat constructor) ltac:(by intros []) I R _ _ (netfilter k) HI HR Hf Hlines
    (forward_header _ _)) with (k := k) as [Htr Hres]; [|done|].
  { rewrite Forall_app. split; [|done]. eapply Forall_impl; [exact Hnew|].
    intros w (d&Hin&->) _. rewrite Forall_forall in Hd. by destruct (Hd d Hin) as (_&_&_&?). }
  split; [done|].
  destruct (net_each _ _ k) as [tr [k' [u|e]]]; simpl in *; [|done].
  destruct Hres as [Hr' ->]. split; [done|].
  assert (forall d, d ∈ desired -> wanted FORWARD_CHAIN (contains ("-j " +:+ parent)) desired (canonical d) = true)
    as Hwant.
  { intros d Hin. rewrite Forall_forall in Hd. destruct (Hd d Hin) as (_&_&Hm&_).
    unfold wanted. apply orb_true_iff. right. apply existsb_exists. exists d. by rewrite <- list_elem_of_In. }
  split_and!.
  - intros d Hin. apply filter_elem. auto.
  - intros w [Hin Hw]%filter_elem Hj. unfold wanted in Hw. unfold jump_line in Hj. by rewrite Hj in Hw.
  - rewrite filter_filter by (intros w Hw; unfold wanted; simpl in Hw; unfold jump_line in Hw; by rewrite Hw).
    rewrite List.filter_app, filter_none; [done|]. eapply Forall_impl; [exact Hnew|]. intros w (d&Hin&->).
    rewrite Forall_forall in Hd. destruct (Hd d Hin) as (_&Hj&_). simpl. by rewrite Hj.
  - intros w [Hin _]%filter_elem. apply elem_of_app in Hin as [Hin|Hin]; [right|by left].
    rewrite Forall_forall in Hnew. auto.
Qed.
End jumps.

(** ** The jumps of a VM *)

Definition plain_chars (s : string) : Prop :=
  Forall (fun c => is_whitespace c = false) (String.list_ascii_of_string s).

Lemma plain_app s t : plain_chars s -> plain_chars t -> plain_chars (s +:+ t).
Proof. unfold plain_chars. rewrite list_ascii_app, Forall_app. auto. Qed.

Lemma plain_digits s : all_digits s -> plain_chars s.
Proof.
  intros Hd. eapply Forall_impl; [exact Hd|]. intros c. apply CpuList.digit_not_whitespace.
Qed.

Lemma plain_ipv4 a : plain_chars (fmt_ipv4 a).
Proof.
  unfold fmt_ipv4. cbn [join]. repeat apply plain_app; try (by repeat constructor);
    apply plain_digits, fmt_nat_all_digits.
Qed.

Lemma iface_word name : validate_iface_name name = Ok tt -> is_word name.
Proof.
  unfold validate_iface_name. destruct (String.eqb_spec name "") as [->|Hne]; [done|].
  simpl. destruct (15 <? _); [done|]. destruct (starts_with "-" name); [done|].
  destruct (existsb _ _) eqn:E; [done|]. intros _. split; [done|]. apply Forall_forall. intros c Hc.
  destruct (is_whitespace c) eqn:Ew; [|done]. exfalso. apply not_true_iff_false in E. apply E.
  apply existsb_exists. exists c. rewrite <- list_elem_of_In. by rewrite Ew, orb_true_r.
Qed.

Lemma address_ok ip : validate_ipv4_address ip = Ok tt -> exists a, std_ipv4 ip = Some a.
Proof. unfold validate_ipv4_address. destruct (std_ipv4 ip) as [a|]; [by exists a|done]. Qed.

Lemma host_word ip : validate_ipv4_address ip = Ok tt -> is_word (ip +:+ "/32").
Proof.
  intros [a [Ha Ht]%std_ipv4_spec]%address_ok. split; [by rewrite <- Ht; destruct (fmt_ipv4 a)|].
  apply plain_app; [rewrite <- Ht; apply plain_ipv4|by repeat constructor].
Qed.

(** The name of a chain of the agent. *)
Definition chain_name (c : string) : Prop :=
  (exists s, c = "QX" +:+ s)%string /\ plain_chars c.

Lemma chain_word c : chain_name c -> is_word c.
Proof. by intros [[s ->] Hp]. Qed.

Lemma chain_target c : chain_name c -> target_of c = Jump c.
Proof. by intros [[s ->] _]. Qed.

Lemma in_jump_canonical parent i :
  chain_name parent -> validate_ipv4_address (fi_ip i) = Ok tt ->
  let w := ["-d"; fi_ip i +:+ "/32"; "-o"; fi_bridge_name i; "-j"; parent]%string in
  canonical (in_jump parent i) = w /\ canonical w = w.
Proof.
  intros Hp [a Ha]%address_ok w. destruct (std_ipv4_spec _ _ Ha) as [_ Ht].
  unfold canonical, w, in_jump, parse_rule. cbn -[parse_cidr target_of rule_words].
  rewrite (parse_cidr_host _ _ Ha). cbn -[target_of rule_words]. rewrite (chain_target _ Hp).
  unfold rule_words, cidr_words, cidr_text. cbn -[fmt_ipv4 fmt_nat]. by rewrite Ht.
Qed.

Lemma out_jump_canonical parent i :
  chain_name parent -> validate_ipv4_address (fi_ip i) = Ok tt ->
  let w := ["-s"; fi_ip i +:+ "/32"; "-i"; fi_bridge_name i; "-j"; parent]%string in
  canonical (out_jump parent i) = w /\ canonical w = w.
Proof.
  intros Hp [a Ha]%address_ok w. destruct (std_ipv4_spec _ _ Ha) as [_ Ht].
  unfold canonical, w, out_jump, parse_rule. cbn -[parse_cidr target_of rule_words].
  rewrite (parse_cidr_host _ _ Ha). cbn -[target_of rule_words]. rewrite (chain_target _ Hp).
  unfold rule_words, cidr_words, cidr_text. cbn -[fmt_ipv4 fmt_nat]. by rewrite Ht.
Qed.

Ltac solve_word :=
  first [done | by apply chain_word | split; [done | by repeat constructor]].
Ltac solve_words :=
  unfold words_ok; try (match goal with w := _ |- _ => unfold w end);
  repeat (rewrite Forall_cons; split); first [solve_word | done].

(** A rule of this shape, whichever the flags: it can be handed back, its line
    mentions the jump to [parent], and no jump to another chain of the agent. *)
Lemma jump_words f1 f2 ip b parent :
  is_word f1 -> is_word f2 -> is_word ip -> is_word b -> chain_name parent ->
  let w := [f1; ip; f2; b; "-j"; parent]%string in
  words_ok w /\ jump_line parent w = true /\
  (forall token, token ∈ w -> token ∈ split_whitespace (rule_line FORWARD_CHAIN w)).
Proof.
  intros H1 H2 Hi Hb Hp w. assert (words_ok w) as Hw by solve_words.
  split_and!; [done| |].
  - unfold jump_line, rule_line, w. cbn [join]. do 12 apply contains_app_r.
    change ("-j" +:+ " " +:+ parent)%string with ("-j " +:+ parent)%string.
    pose proof (contains_self ("-j " +:+ parent) "") as Hc. by rewrite append_empty_r in Hc.
  - intros token Ht. unfold rule_line. rewrite split_whitespace_join; [by do 2 right|].
    solve_words.
Qed.

(** A flag of one letter other than [j] does not end in [-j]. *)
Lemma not_jump_flag u c : c <> "j"%char -> (u +:+ "-j")%string = String "-" (String c EmptyString) -> False.
Proof.
  intros Hc. destruct u as [|x [|y u]]; intros E; [injection E; congruence|discriminate|].
  injection E as _ _ E. by destruct u.
Qed.

Lemma no_other_jump c1 c2 ip b parent x :
  c1 <> "j"%char -> c2 <> "j"%char -> is_word (String "-" (String c1 EmptyString)) ->
  is_word (String "-" (String c2 EmptyString)) -> is_word ip -> is_word b -> chain_name parent ->
  chain_name x -> (forall s, parent <> (x +:+ s)%string) ->
  jump_line x [String "-" (String c1 EmptyString); ip; String "-" (String c2 EmptyString); b; "-j"%string; parent]
  = false.
Proof.
  intros H1 H2 W1 W2 Wi Wb Hp [[x' ->] Hx] Hne. destruct (jump_line _ _) eqn:E; [|done]. exfalso.
  unfold jump_line, rule_line in E. apply contains_jump in E as (l&u&v&r&E&[u' Hu]&v'&Hv).
  - repeat (destruct l as [|? l]; simpl in E; [injection E as <- <- <-|injection E as _ E]).
    all: first [discriminate Hv | exact (not_jump_flag u' _ H1 (eq_sym Hu))
               | exact (not_jump_flag u' _ H2 (eq_sym Hu)) | exact (Hne _ Hv) | by destruct l as [|? [|? l]]].
  - solve_words.
  - done.
  - done.
Qed.

Lemma good_in_jump parent i :
  chain_name parent -> validate_iface_name (fi_bridge_name i) = Ok tt ->
  validate_ipv4_address (fi_ip i) = Ok tt -> good_jump parent (in_jump parent i).
Proof.
  intros Hp Hb%iface_word Hi. destruct (in_jump_canonical parent i Hp Hi) as [E E'].
  destruct (jump_words "-d" "-o" (fi_ip i +:+ "/32") (fi_bridge_name i) parent) as (Hw&Hj&Ht);
    [solve_word|solve_word|by apply host_word|done|done|].
  unfold good_jump. rewrite E. split_and!; [by eexists _, _|done| |split_and!; [done|done|simpl; lia]].
  unfold rule_matches. apply forallb_forall. intros token Hin. apply bool_decide_eq_true, Ht.
  apply list_elem_of_In in Hin. unfold in_jump in Hin. set_solver.
Qed.

Lemma good_out_jump parent i :
  chain_name parent -> validate_iface_name (fi_bridge_name i) = Ok tt ->
  validate_ipv4_address (fi_ip i) = Ok tt -> good_jump parent (out_jump parent i).
Proof.
  intros Hp Hb%iface_word Hi. destruct (out_jump_canonical parent i Hp Hi) as [E E'].
  destruct (jump_words "-s" "-i" (fi_ip i +:+ "/32") (fi_bridge_name i) parent) as (Hw&Hj&Ht);
    [solve_word|solve_word|by apply host_word|done|done|].
  unfold good_jump. rewrite E. split_and!; [by eexists _, _|done| |split_and!; [done|done|simpl; lia]].
  unfold rule_matches. apply forallb_forall. intros token Hin. apply bool_decide_eq_true, Ht.
  apply list_elem_of_In in Hin. unfold out_jump in Hin. set_solver.
Qed.

Lemma jump_canonical c : chain_name c -> canonical ["-j"; c]%string = ["-j"; c]%string.
Proof.
  intros Hc. unfold canonical, parse_rule. cbn -[target_of rule_words]. rewrite (chain_target _ Hc).
  done.
Qed.

(** ** One direction of a firewall *)

(** The chain packets are sent to and its two alternative children, from tables [t0]
    on: as long as the parent points to the old child, that child is left alone. *)
Record dir_names (parent a b : string) : Prop := {
  parent_name : chain_name parent; a_name : chain_name a; b_name : chain_name b;
  parent_a : parent <> a; parent_b : parent <> b; a_b : a <> b
}.

Section direction.
Context (parent a b : string) (t0 : Netfilter) (names : dir_names parent a b).
#[local] Set Default Proof Using "All".

Definition swappable (t : Netfilter) : Prop :=
  rules_of t "filter" parent = [] \/ rules_of t "filter" parent = [["-j"; a]]%string \/
  rules_of t "filter" parent = [["-j"; b]]%string.

Definition unused (next : string) : Prop :=
  next = a /\ (rules_of t0 "filter" parent = [] \/ rules_of t0 "filter" parent = [["-j"; b]]%string) \/
  next = b /\ rules_of t0 "filter" parent = [["-j"; a]]%string.

Definition untouched (t : Netfilter) : Prop :=
  forall c, c ∈ [parent; a; b] -> rules_of t "filter" c = rules_of t0 "filter" c.

Definition filling (next : string) (l : list (list string)) (t : Netfilter) : Prop :=
  rules_of t "filter" parent = rules_of t0 "filter" parent /\
  (forall c, c ∈ [a; b] -> c <> next -> rules_of t "filter" c = rules_of t0 "filter" c) /\
  rules_of t "filter" next = l.

Definition swapped (next : string) (full : list (list string)) (t : Netfilter) : Prop :=
  rules_of t "filter" parent = [["-j"; next]]%string /\ rules_of t "filter" next = full.

Definition stage (full : list (list string)) (t : Netfilter) : Prop :=
  exists next, unused next /\ ((exists l, filling next l t) \/ swapped next full t).

Lemma unused_child next : unused next -> next ∈ [a; b].
Proof. intros [[-> _]|[-> _]]; set_solver. Qed.

Lemma unused_name next : unused next -> chain_name next.
Proof. destruct names. intros [[-> _]|[-> _]]; done. Qed.

Lemma unused_parent next : unused next -> next <> parent.
Proof. destruct names. intros [[-> _]|[-> _]]; congruence. Qed.

Lemma swappable_unused : swappable t0 -> exists next, unused next.
Proof. unfold swappable, unused. intros [E|[E|E]]; rewrite E; eauto 6. Qed.

Lemma untouched_filling next t : unused next -> untouched t -> filling next (rules_of t "filter" next) t.
Proof. intros Hn Hu. split_and!; [apply Hu; set_solver|intros c Hc _; apply Hu; set_solver|done]. Qed.

Lemma untouched_stage full t : swappable t0 -> untouched t -> stage full t.
Proof.
  intros [next Hn]%swappable_unused Hu. exists next. split; [done|]. left. eexists.
  by apply untouched_filling.
Qed.

Lemma filling_stage full next l t : unused next -> filling next l t -> stage full t.
Proof. intros. exists next. eauto. Qed.

Lemma swapped_stage full next t : unused next -> swapped next full t -> stage full t.
Proof. intros. exists next. eauto. Qed.

(** What a chain without jumps decides. *)
Definition decision (rules : list (list string)) (p : Packet) : option Verdict :=
  walk (fun _ _ => None) rules p.

Lemma jumps_to_chain c : chain_name c -> jumps_to ["-j"; c]%string = Some c.
Proof.
  intros Hc. unfold jumps_to, parse_rule. cbn -[target_of]. by rewrite (chain_target _ Hc).
Qed.

Lemma swapped_verdict next full t p :
  unused next -> swapped next full t -> is_Some (decision full p) -> judge 2 t parent p = decision full p.
Proof.
  intros Hn [Hp Hf] [v Hv]. pose proof (unused_name _ Hn) as Hname. cbn [judge]. rewrite Hp. cbn [walk].
  unfold parse_rule. cbn -[target_of rules_of]. rewrite (chain_target _ Hname). cbn -[rules_of].
  rewrite Hf. unfold decision in *. by rewrite Hv.
Qed.

(** At every stage the direction is judged as before, or by all the new rules. *)
Lemma stage_verdict full t :
  (forall p, is_Some (decision full p)) -> stage full t ->
  (forall p, judge 2 t parent p = judge 2 t0 parent p) \/
  (forall p, judge 2 t parent p = decision full p).
Proof.
  intros Htotal (next&Hn&[(l&Hp&Ho&_)|Hs]); [left|right]; intros p; [|by eapply swapped_verdict].
  apply judge_same; [done|]. intros w c Hw Hj.
  destruct Hn as [[-> [E|E]]|[-> E]]; rewrite E in Hw; [by apply elem_of_nil in Hw| |];
    apply list_elem_of_singleton in Hw as ->; rewrite jumps_to_chain in Hj by apply names; simplify_eq;
    (apply Ho; [set_solver|]); destruct names; congruence.
Qed.

Lemma stage_swappable full t : stage full t -> swappable t.
Proof.
  unfold swappable. intros (next&Hn&[(l&Hp&_)|[Hp _]]); rewrite Hp.
  - destruct Hn as [[_ [E|E]]|[_ E]]; rewrite E; auto.
  - destruct Hn as [[-> _]|[-> _]]; auto.
Qed.

(** Other chains do not matter. *)
Lemma untouched_frame table c l t t' :
  ~ (table = "filter"%string /\ c ∈ [parent; a; b]) -> becomes table c l t t' -> untouched t -> untouched t'.
Proof.
  intros Hc [_ Hb] Hu x Hx. rewrite Hb; [by apply Hu|]. intros [= <- <-]. auto.
Qed.

Lemma filling_frame next l' table c l t t' :
  unused next -> ~ (table = "filter"%string /\ c ∈ [parent; a; b]) -> becomes table c l t t' ->
  filling next l' t -> filling next l' t'.
Proof.
  intros Hn Hc [_ Hb] (Hp&Ho&Hl). apply unused_child in Hn. split_and!.
  - rewrite Hb; [done|]. intros [= <- <-]. apply Hc. split; [done|set_solver].
  - intros x Hx Hne. rewrite Hb; [by apply Ho|]. intros [= <- <-]. apply Hc. split; [done|set_solver].
  - rewrite Hb; [done|]. intros [= <- <-]. apply Hc. split; [done|set_solver].
Qed.

Lemma swapped_frame next full table c l t t' :
  unused next -> ~ (table = "filter"%string /\ c ∈ [parent; next]) -> becomes table c l t t' ->
  swapped next full t -> swapped next full t'.
Proof.
  intros Hn Hc [_ Hb] (Hp&Hl). split; (rewrite Hb; [done|]); intros [= <- <-]; apply Hc; split; set_solver.
Qed.

Lemma filling_next next l l' t t' :
  unused next -> filling next l t -> becomes "filter" next l' t t' -> filling next l' t'.
Proof.
  intros Hn (Hp&Ho&_) [Hl Hb]. pose proof (unused_parent _ Hn). split_and!; [|intros x Hx Hne|done].
  - rewrite Hb; [done|congruence].
  - rewrite Hb; [by apply Ho|congruence].
Qed.

Lemma filling_swap next full t t' :
  unused next -> filling next full t -> becomes "filter" parent [["-j"; next]]%string t t' ->
  swapped next full t'.
Proof.
  intros Hn (Hp&Ho&Hl) [Hl' Hb]. pose proof (unused_parent _ Hn). split; [done|].
  rewrite Hb; [done|congruence].
Qed.

Context `{Iptables}.

Lemma next_child_triple I (P : Netfilter -> Prop) :
  (forall t, P t -> I t) -> (forall t, P t -> untouched t) -> swappable t0 ->
  triple I P (next_child_chain parent a b) (fun next t => P t /\ unused next).
Proof.
  intros HI Hu Hs. eapply net_triple_bind.
  { eapply (triple_capture I P _ _ _ _ (fun out t => P t /\
      str_lines out ≡ₚ listing t "filter" parent)); [done|done|done|].
    intros t t' out Hp ->%effect_spec Hl. auto. }
  intros out k (Hp&Hl). 
  assert (existsb (String.eqb ("-A " +:+ parent +:+ " -j " +:+ a)) (str_lines out)
          = bool_decide (["-j"; a]%string ∈ rules_of t0 "filter" parent)) as ->.
  { unfold listing in Hl. rewrite (Hu _ Hp parent) in Hl by set_solver.
    assert (forall x, ("-A " +:+ parent +:+ " -j " +:+ a)%string = rule_line parent ["-j"; x]%string -> x = a) as Hinj.
    { intros x E. unfold rule_line in E. cbn [join] in E.
      change ("-A" +:+ " " +:+ parent +:+ " " +:+ "-j" +:+ " " +:+ x)%string
        with ("-A " +:+ parent +:+ " -j " +:+ x)%string in E.
      by apply append_inj_l, append_inj_l, append_inj_l in E. }
    apply eq_true_iff_eq. rewrite existsb_exists, bool_decide_eq_true. setoid_rewrite <- list_elem_of_In.
    setoid_rewrite Hl. setoid_rewrite elem_of_cons. split.
    - intros (line&[->|Hin]&E%String.eqb_eq).
      + exfalso. unfold chain_line in E. destruct (parent_name _ _ _ names) as [[s Es] _].
        rewrite Es in E. discriminate E.
      + apply list_elem_of_fmap in Hin as (w&->&Hw).
        destruct Hs as [E'|[E'|E']]; rewrite E' in Hw |- *; [by apply elem_of_nil in Hw|set_solver|].
        apply list_elem_of_singleton in Hw as ->. apply Hinj in E. by destruct (a_b _ _ _ names).
    - intros Hin. exists (rule_line parent ["-j"; a]%string). split; [right|by apply String.eqb_eq].
      apply list_elem_of_fmap. eauto. }
  simpl. case_bool_decide as Hin; (split; [constructor|]); simpl; (split; [done|]).
  - right. split; [done|]. destruct Hs as [E|[E|E]]; rewrite E in Hin |- *; [by apply elem_of_nil in Hin|done|].
    apply list_elem_of_singleton in Hin. destruct (a_b _ _ _ names). congruence.
  - left. split; [done|]. destruct Hs as [E|[E|E]]; rewrite E in Hin |- *; [by left| |by right].
    exfalso. apply Hin. by left.
Qed.
End direction.

(** ** Filling and swapping *)

Section filling.
Context `{Iptables}.

(** With one rule in the parent the loop that removes the others ends at once. *)
Lemma delete_second_triple I (P : Netfilter -> Prop) fuel parent :
  (forall t, P t -> I t) -> (forall t, P t -> (length (rules_of t "filter" parent) <= 1)%nat) ->
  (0 < fuel)%nat -> triple I P (delete_second fuel parent) (fun _ => P).
Proof.
  intros HI HP Hf. destruct fuel as [|fuel]; [lia|]. eapply net_triple_bind.
  - eapply (triple_try I P _ _ _ _ (fun r t => is_ok r = false /\ P t)); [done|done|done| |done].
    intros t t' Hp [Hlen _]%effect_spec. apply HP in Hp.
    change (Z.to_nat _) with 2%nat in Hlen. lia.
  - intros r k [Hr Hp]. rewrite Hr. simpl. auto.
Qed.

Lemma point_triple I (P Q : Netfilter -> Prop) parent child :
  chain_name parent -> chain_name child ->
  (forall t, P t -> I t) -> (forall t, Q t -> I t) ->
  (forall t, P t -> rules_of t "filter" parent = [] \/
     exists x, rules_of t "filter" parent = [["-j"; x]]%string) ->
  (forall t t', P t -> becomes "filter" parent [["-j"; child]]%string t t' -> Q t') ->
  (forall t, Q t -> rules_of t "filter" parent = [["-j"; child]]%string) ->
  triple I P (point_parent_to_child parent child) (fun _ => Q).
Proof.
  intros Hpn Hcn HI HQI HP HQ HQr. eapply net_triple_bind.
  { eapply (triple_capture I P _ _ _ _ (fun out t => P t /\
      str_lines out ≡ₚ listing t "filter" parent)); [done|done|done|].
    intros t t' out Hp ->%effect_spec Hl. auto. }
  intros out. 
  assert (forall t, P t /\ str_lines out ≡ₚ listing t "filter" parent ->
    P t /\ existsb (starts_with ("-A " +:+ parent +:+ " ")) (str_lines out)
           = negb (bool_decide (rules_of t "filter" parent = [])) /\ (0 < length (str_lines out))%nat) as Hpre.
  { intros t [Hp Hl]. split_and!; [done| |apply Permutation_length in Hl; simpl in Hl; lia]. unfold listing in Hl.
    assert (starts_with ("-A " +:+ parent +:+ " ") (chain_line t parent) = false) as Hhead.
    { unfold chain_line. destruct Hpn as [[s ->] _]. done. }
    destruct (HP t Hp) as [E|[x E]]; rewrite E in Hl |- *; simpl in Hl.
    - rewrite bool_decide_true by done. apply Permutation_singleton_r in Hl. rewrite Hl. simpl.
      by rewrite Hhead.
    - rewrite bool_decide_false by done. cbn [negb]. apply existsb_exists.
      exists (rule_line parent ["-j"; x]%string).
      rewrite <- list_elem_of_In, Hl. split; [set_solver|].
      unfold rule_line, starts_with. cbn [join].
      replace ("-A" +:+ " " +:+ parent +:+ " " +:+ "-j" +:+ " " +:+ x)%string
        with (("-A " +:+ parent +:+ " ") +:+ ("-j" +:+ " " +:+ x))%string by by rewrite !string_app_assoc.
      by rewrite strip_prefix_app. }
  eapply triple_pre; [exact Hpre|]. destruct (existsb _ _).
  - set (fuel := length (str_lines out)) in *.
    eapply (net_triple_bind _ _ _ _ (fun _ t => Q t /\ (0 < fuel)%nat)).
    + eapply (triple_cmd I _ _ _ _ _ (fun t => Q t /\ (0 < fuel)%nat)); [done|done|by intros t []; auto|].
      intros t t' (Hp&_&Hlen) (r&rs&E&Hb)%effect_spec. rewrite jump_canonical in Hb by done.
      destruct (HP t Hp) as [E'|[x E']]; rewrite E' in E; [done|]. injection E as _ <-.
      assert (Q t') by by eapply HQ. auto.
    + intros ? k [Hq Hlen]. apply delete_second_triple; [done| |done|done].
      intros t ->%HQr. simpl. lia.
  - eapply (triple_cmd I _ _ _ _ _ Q); [done|done|by intros t []; auto|].
    intros t t' (Hp&E&_) Hb%effect_spec. rewrite jump_canonical in Hb by done.
    symmetry in E. apply negb_false_iff, bool_decide_eq_true in E. rewrite E in Hb. simpl in Hb.
    assert (Q t') by by eapply HQ. auto.
Qed.
End filling.

(** The rules of the two children of a VM. *)
Definition all_rules (interfaces : list VmFirewallInterface) : list VmFirewallRule :=
  concat (fi_rules <$> interfaces).
Definition established_rule : list string :=
  canonical ["-m"; "conntrack"; "--ctstate"; "ESTABLISHED,RELATED"; "-j"; "ACCEPT"]%string.
Definition rule_lines (rules : list VmFirewallRule) : list (list string) :=
  (fun r => canonical (rule_args r)) <$> rules.
Definition ingress (rules : list VmFirewallRule) : list VmFirewallRule :=
  List.filter (fun r => negb (is_egress r)) rules.
Definition egress (rules : list VmFirewallRule) : list VmFirewallRule := List.filter is_egress rules.
Definition full_in (interfaces : list VmFirewallInterface) : list (list string) :=
  (established_rule :: rule_lines (ingress (all_rules interfaces))) ++ [["-j"; "DROP"]%string].
Definition full_out (interfaces : list VmFirewallInterface) : list (list string) :=
  (established_rule :: rule_lines (egress (all_rules interfaces)))
  ++ [["-j"%string; if has_egress_rules interfaces then "DROP" else "ACCEPT"]%string].

Definition rule_ok (r : VmFirewallRule) : Prop :=
  fr_cidr r = ""%string \/ validate_ipv4_cidr (fr_cidr r) = Ok tt.
Definition iface_ok (i : VmFirewallInterface) : Prop :=
  validate_iface_name (fi_bridge_name i) = Ok tt /\ validate_ipv4_address (fi_ip i) = Ok tt /\
  Forall rule_ok (fi_rules i).

Lemma validate_not_unfinished :
  (forall n, validate_iface_name n <> Err Unfinished) /\
  (forall c, validate_ipv4_cidr c <> Err Unfinished) /\
  (forall a, validate_ipv4_address a <> Err Unfinished).
Proof.
  split_and!; intros x.
  - unfold validate_iface_name. repeat case_match; congruence.
  - unfold validate_ipv4_cidr. destruct (split_once _ x) as [[ip len]|]; simpl; [|done].
    destruct (std_ipv4 ip); simpl; [|done]. destruct (parse_u8 len); simpl; [|done]. by case_match.
  - unfold validate_ipv4_address. by destruct (std_ipv4 x).
Qed.

Section fill.
Context `{Iptables} (I R : Netfilter -> Prop) (nin nout : string).
Context (nin_nout : nin <> nout) (R_I : forall t, R t -> I t).
Context (R_in : forall t t' l, R t -> becomes "filter" nin l t t' -> R t').
Context (R_out : forall t t' l, R t -> becomes "filter" nout l t t' -> R t').
#[local] Set Default Proof Using "All".

Definition built (lin lout : list (list string)) (t : Netfilter) : Prop :=
  R t /\ rules_of t "filter" nin = lin /\ rules_of t "filter" nout = lout.

Lemma append_in_triple lin lout w s :
  triple I (built lin lout) (run_cmd "iptables" ("-A" :: nin :: w :: s))
    (fun _ => built (lin ++ [canonical (w :: s)]) lout).
Proof.
  apply append_triple; [by intros t []; auto|]. intros t t' (Hr&<-&Ho) Hb.
  assert (R t') by by eapply R_in. split; [auto|]. split_and!; [done|apply (proj1 Hb)|].
  rewrite (proj2 Hb); [done|congruence].
Qed.

Lemma append_out_triple lin lout w s :
  triple I (built lin lout) (run_cmd "iptables" ("-A" :: nout :: w :: s))
    (fun _ => built lin (lout ++ [canonical (w :: s)])).
Proof.
  apply append_triple; [by intros t []; auto|]. intros t t' (Hr&Hi&<-) Hb.
  assert (R t') by by eapply R_out. split; [auto|]. split_and!; [done| |apply (proj1 Hb)].
  rewrite (proj2 Hb); [done|congruence].
Qed.

Lemma rule_args_cons r : exists w s, rule_args r = w :: s.
Proof. unfold rule_args. destruct (cidr_args r); [|by eexists _, _]. destruct (proto_args r); [|by eexists _, _].
  destruct (port_args r); by eexists _, _. Qed.

Lemma add_rule_triple lin lout r :
  triple I (built lin lout) (add_rule nin nout r)
    (fun _ t => rule_ok r /\ built (lin ++ rule_lines (ingress [r])) (lout ++ rule_lines (egress [r])) t).
Proof.
  destruct validate_not_unfinished as (_&Hv&_).
  apply (net_triple_bind _ _ _ _ (fun _ t => rule_ok r /\ built lin lout t)).
  { destruct (String.eqb_spec (fr_cidr r) "") as [E|_].
    - apply net_triple_ret. intros t Ht. split; [by left|done].
    - apply triple_of; [|by apply Hv]. intros [] t Hok Ht. split; [by right|done]. }
  intros ?. destruct (rule_args_cons r) as (w&s&E).
  unfold rule_lines, ingress, egress. cbn [List.filter]. intros k [Hok Hk]. rewrite E.
  destruct (is_egress r) eqn:Ed; cbn [negb fmap list_fmap]; rewrite app_nil_r, E.
  - destruct (append_out_triple lin lout w s k Hk) as [Ht Hr]. split; [done|].
    by destruct (run_cmd _ _ k) as [tr [k' []]].
  - destruct (append_in_triple lin lout w s k Hk) as [Ht Hr]. split; [done|].
    by destruct (run_cmd _ _ k) as [tr [k' []]].
Qed.

Lemma rule_lines_app l l' : rule_lines (l ++ l') = rule_lines l ++ rule_lines l'.
Proof. apply fmap_app. Qed.

Lemma add_rules_triple lin lout rules :
  triple I (built lin lout) (net_each (add_rule nin nout) rules)
    (fun _ t => Forall rule_ok rules /\
       built (lin ++ rule_lines (ingress rules)) (lout ++ rule_lines (egress rules)) t).
Proof.
  eapply triple_pre; [|apply (triple_each I (fun dn t => Forall rule_ok dn /\
    built (lin ++ rule_lines (ingress dn)) (lout ++ rule_lines (egress dn)) t))].
  - intros t Ht. split; [done|]. unfold ingress, egress, rule_lines. simpl. by rewrite !app_nil_r.
  - intros dn r rest _ k [Hd Hk]. destruct (add_rule_triple _ _ r k Hk) as [Ht Hr]. split; [done|].
    destruct (add_rule nin nout r k) as [tr [k' [[]|e]]]; simpl in *; [|done].
    destruct Hr as [Hok Hb]. split; [by rewrite Forall_app, Forall_singleton|].
    unfold ingress, egress in *. by rewrite !List.filter_app, !rule_lines_app, !app_assoc.
Qed.

Lemma add_interfaces_triple lin lout interfaces :
  triple I (built lin lout) (net_each (add_interface nin nout) interfaces)
    (fun _ t => Forall iface_ok interfaces /\
       built (lin ++ rule_lines (ingress (all_rules interfaces)))
             (lout ++ rule_lines (egress (all_rules interfaces))) t).
Proof.
  destruct validate_not_unfinished as (Hn&_&Ha).
  eapply triple_pre; [|apply (triple_each I (fun dn t => Forall iface_ok dn /\
    built (lin ++ rule_lines (ingress (all_rules dn))) (lout ++ rule_lines (egress (all_rules dn))) t))].
  - intros t Ht. split; [done|]. unfold ingress, egress, rule_lines. simpl. by rewrite !app_nil_r.
  - intros dn i rest _ k [Hd Hk]. unfold add_interface, mbind, Net_bind, net_of.
    destruct (validate_iface_name (fi_bridge_name i)) as [[]|e] eqn:E1;
      [|split; [constructor|]; simpl; intros ->; by eapply Hn].
    destruct (validate_ipv4_address (fi_ip i)) as [[]|e] eqn:E2;
      [|split; [constructor|]; simpl; intros ->; by eapply Ha].
    destruct (add_rules_triple _ _ (fi_rules i) k Hk) as [Ht Hr].
    destruct (net_each (add_rule nin nout) (fi_rules i) k) as [tr [k' [[]|e]]]; simpl in *; [|done].
    split; [done|]. destruct Hr as [Hok Hb].
    assert (all_rules (dn ++ [i]) = all_rules dn ++ fi_rules i) as ->.
    { unfold all_rules. rewrite fmap_app, concat_app. simpl. by rewrite app_nil_r. }
    split; [by rewrite Forall_app, Forall_singleton|].
    unfold ingress, egress in *. by rewrite !List.filter_app, !rule_lines_app, !app_assoc.
Qed.

Lemma fill_triple interfaces :
  triple I (built [] []) (fill_chains nin nout interfaces)
    (fun _ t => Forall iface_ok interfaces /\ built (full_in interfaces) (full_out interfaces) t).
Proof.
  unfold fill_chains, established_args.
  eapply net_triple_bind; [apply append_in_triple|]. intros ?.
  eapply net_triple_bind; [apply append_out_triple|]. intros ?.
  eapply net_triple_bind; [apply add_interfaces_triple|]. intros ? k [Hok Hk]. revert k Hk.
  match goal with |- forall k, built ?li ?lo _ -> _ =>
    assert (triple I (built li lo)
      (_ ← run_cmd "iptables" ["-A"; nin; "-j"; "DROP"];
       run_cmd "iptables" ["-A"; nout; "-j"; if has_egress_rules interfaces then "DROP" else "ACCEPT"])
      (fun _ => built (full_in interfaces) (full_out interfaces))) as Hlast end.
  { eapply net_triple_bind; [apply append_in_triple|]. intros ?.
    eapply triple_post; [apply append_out_triple|]. intros ? t (Hr&Hi&Ho). split_and!; [done| |].
    - rewrite Hi. done.
    - rewrite Ho. unfold full_out. by destruct (has_egress_rules interfaces). }
  intros k Hk. destruct (Hlast k Hk) as [Ht Hr]. split; [done|]. by destruct (_ k).2.2.
Qed.
End fill.

(** ** The firewall of a VM *)

Lemma sanitize_plain s n : plain_chars (sanitize_suffix s n).
Proof.
  unfold plain_chars, sanitize_suffix. rewrite String.list_ascii_of_string_of_list_ascii.
  apply Forall_take, Forall_forall. intros c Hc. apply list_elem_of_In, filter_In in Hc as [_ Hc].
  destruct (is_whitespace c) eqn:E; [|done]. exfalso. unfold is_whitespace in E.
  rewrite !orb_true_iff, !andb_true_iff, !N.leb_le in Hc. rewrite orb_true_iff, andb_true_iff, !N.leb_le, N.eqb_eq in E.
  lia.
Qed.

Lemma chain_of_suffix p s n : plain_chars (String "Q" (String "X" p)) ->
  chain_name (String "Q" (String "X" p) +:+ sanitize_suffix s n).
Proof.
  intros Hp. split; [by exists (p +:+ sanitize_suffix s n)%string|]. apply plain_app; [done|apply sanitize_plain].
Qed.

Lemma in_dir vm_id : let c := chains_new vm_id in dir_names (in_parent c) (in_a c) (in_b c).
Proof. split; try (apply chain_of_suffix; by repeat constructor); discriminate. Qed.
Lemma out_dir vm_id : let c := chains_new vm_id in dir_names (out_parent c) (out_a c) (out_b c).
Proof. split; try (apply chain_of_suffix; by repeat constructor); discriminate. Qed.

(** The chains of one direction are not those of the other, nor [FORWARD]. *)
Lemma dirs_apart vm_id x :
  let c := chains_new vm_id in
  (x ∈ [in_parent c; in_a c; in_b c] -> (x ∉ [out_parent c; out_a c; out_b c]) /\ x <> FORWARD_CHAIN) /\
  (x ∈ [out_parent c; out_a c; out_b c] -> (x ∉ [in_parent c; in_a c; in_b c]) /\ x <> FORWARD_CHAIN).
Proof.
  intros c. rewrite !elem_of_cons, !elem_of_nil. split; intros Hx;
    (split; [intros Hy|]; repeat (destruct Hx as [->|Hx]; try done); try discriminate;
     repeat (destruct Hy as [Hy|Hy]; try discriminate); done).
Qed.

Section pure.
Context `{Iptables}.

Lemma triple_pure {A} I (P : Netfilter -> Prop) (phi : Prop) (m : Net A) Q :
  (phi -> triple I P m Q) -> triple I (fun t => P t /\ phi) m Q.
Proof. intros Hm k [Hp Hphi]. by apply Hm. Qed.

Lemma triple_pure_l {A} I (P : Netfilter -> Prop) (phi : Prop) (m : Net A) Q :
  (phi -> triple I P m Q) -> triple I (fun t => phi /\ P t) m Q.
Proof. intros Hm k [Hphi Hp]. by apply Hm. Qed.

Lemma triple_exists {A B} I (P : B -> Netfilter -> Prop) (m : Net A) Q :
  (forall x, triple I (P x) m Q) -> triple I (fun t => exists x, P x t) m Q.
Proof. intros Hm k [x Hp]. by eapply Hm. Qed.
End pure.

Lemma becomes_id table c t t' :
  becomes table c (rules_of t table c) t t' -> forall table' c', rules_of t' table' c' = rules_of t table' c'.
Proof.
  intros [Hc Ho] table' c'. destruct (decide ((table', c') = (table, c))) as [[= -> ->]|Hne]; [done|by apply Ho].
Qed.

(** [FORWARD] after the jumps of both directions were set. *)
Definition forward_synced (c : VmFirewallChains) (interfaces : list VmFirewallInterface)
    (F F' : list (list string)) : Prop :=
  Forall (fun i => canonical (in_jump (in_parent c) i) ∈ F' /\ canonical (out_jump (out_parent c) i) ∈ F') interfaces /\
  (forall w, w ∈ F' -> jump_line (in_parent c) w = true ->
     existsb (fun i => rule_matches (rule_line FORWARD_CHAIN w) (in_jump (in_parent c) i)) interfaces = true) /\
  (forall w, w ∈ F' -> jump_line (out_parent c) w = true ->
     existsb (fun i => rule_matches (rule_line FORWARD_CHAIN w) (out_jump (out_parent c) i)) interfaces = true) /\
  let others := fun w => negb (jump_line (in_parent c) w) && negb (jump_line (out_parent c) w) in
  List.filter others F' = List.filter others F.

Lemma existsb_fmap {A B} (f : A -> B) (p : B -> bool) l : existsb p (f <$> l) = existsb (fun x => p (f x)) l.
Proof. induction l as [|x l IH]; [done|]. simpl. f_equal. exact IH. Qed.

Lemma filter_both {A} (p q : A -> bool) l :
  List.filter (fun x => p x && q x) l = List.filter p (List.filter q l).
Proof.
  induction l as [|x l IH]; [done|]. simpl. destruct (q x) eqn:Hq; simpl; [|by rewrite andb_false_r].
  rewrite andb_true_r. by rewrite IH.
Qed.

Lemma filter_two {A} (p q : A -> bool) F F1 F2 :
  List.filter p F1 = List.filter p F -> List.filter q F2 = List.filter q F1 ->
  List.filter (fun x => p x && q x) F2 = List.filter (fun x => p x && q x) F.
Proof.
  intros H1 H2. rewrite !filter_both, H2, <- !filter_both.
  rewrite !(filter_ext (fun x => p x && q x) (fun x => q x && p x) ltac:(intros; apply andb_comm)).
  by rewrite !filter_both, H1.
Qed.

(** The jumps of one direction are no jumps of the other. *)
Lemma jumps_apart vm_id i :
  let c := chains_new vm_id in iface_ok i ->
  jump_line (out_parent c) (canonical (in_jump (in_parent c) i)) = false /\
  jump_line (in_parent c) (canonical (out_jump (out_parent c) i)) = false.
Proof.
  intros c (Hb&Hi&_). destruct (in_dir vm_id) as [Hin _ _ _ _ _], (out_dir vm_id) as [Hout _ _ _ _ _].
  destruct (in_jump_canonical (in_parent c) i Hin Hi) as [-> _].
  destruct (out_jump_canonical (out_parent c) i Hout Hi) as [-> _].
  split; apply no_other_jump; try done; try solve_word; try (by apply host_word); try (by apply iface_word);
    intros s; discriminate.
Qed.

Lemma forward_synced_both vm_id interfaces F F1 F2 :
  let c := chains_new vm_id in Forall iface_ok interfaces ->
  jumps_synced (in_parent c) (in_jump (in_parent c) <$> interfaces) F F1 ->
  jumps_synced (out_parent c) (out_jump (out_parent c) <$> interfaces) F1 F2 ->
  forward_synced c interfaces F F2.
Proof.
  intros c Hok (Hin1&Hj1&Hf1&Hsub1) (Hin2&Hj2&Hf2&Hsub2). rewrite Forall_forall in Hok.
  assert (forall w, w ∈ F1 -> jump_line (out_parent c) w = false -> w ∈ F2) as Hkeep.
  { intros w Hw Hno. assert (w ∈ List.filter (negb ∘ jump_line (out_parent c)) F2) as Hin%filter_elem; [|tauto].
    rewrite Hf2. apply filter_elem. split; [done|]. unfold compose. by rewrite Hno. }
  assert (forall w, w ∈ F2 -> jump_line (in_parent c) w = true -> w ∈ F1) as Hback.
  { intros w Hw Hj. destruct (Hsub2 w Hw) as [|(d&Hd&->)]; [done|].
    apply list_elem_of_fmap in Hd as (i&->&Hi). by destruct (jumps_apart vm_id i (Hok i Hi)) as [_ E];
      unfold c in Hj; rewrite E in Hj. }
  split_and!.
  - apply Forall_forall. intros i Hi. split.
    + apply Hkeep; [|by apply jumps_apart, Hok]. apply Hin1, list_elem_of_fmap. eauto.
    + apply Hin2, list_elem_of_fmap. eauto.
  - intros w Hw Hj. rewrite <- existsb_fmap. auto.
  - intros w Hw Hj. rewrite <- existsb_fmap. auto.
  - exact (filter_two _ _ F F1 F2 Hf1 Hf2).
Qed.

Section vm_firewall.
Context `{Iptables} (vm_id : string) (interfaces : list VmFirewallInterface) (t0 : Netfilter).
#[local] Set Default Proof Using "Type".

Notation chains := (chains_new vm_id).
Notation Fill_in := (filling (in_parent chains) (in_a chains) (in_b chains) t0).
Notation Fill_out := (filling (out_parent chains) (out_a chains) (out_b chains) t0).
Notation Idle_in := (untouched (in_parent chains) (in_a chains) (in_b chains) t0).
Notation Idle_out := (untouched (out_parent chains) (out_a chains) (out_b chains) t0).
Notation Done_in := (swapped (in_parent chains)).
Notation Done_out := (swapped (out_parent chains)).
Notation Unused_in := (unused (in_parent chains) (in_a chains) (in_b chains) t0).
Notation Unused_out := (unused (out_parent chains) (out_a chains) (out_b chains) t0).
Notation Forward t := (rules_of t "filter" FORWARD_CHAIN).

(** The chains of the agent are in the state a synchronisation leaves them in, and
    the rules that jump to them are printed so that they can be handed back. *)
Definition firewall_ready : Prop :=
  swappable (in_parent chains) (in_a chains) (in_b chains) t0 /\
  swappable (out_parent chains) (out_a chains) (out_b chains) t0 /\
  Forall (fun w => jump_line (in_parent chains) w || jump_line (out_parent chains) w = true -> printed_rule w)
    (Forward t0).

Definition stages (t : Netfilter) : Prop :=
  stage (in_parent chains) (in_a chains) (in_b chains) t0 (full_in interfaces) t /\
  stage (out_parent chains) (out_a chains) (out_b chains) t0 (full_out interfaces) t.

Definition finished (t : Netfilter) : Prop :=
  Forall iface_ok interfaces /\ forward_synced chains interfaces (Forward t0) (Forward t) /\
  exists nin nout, Unused_in nin /\ Unused_out nout /\
    Done_in nin (full_in interfaces) t /\ Done_out nout (full_out interfaces) t.

Lemma in_apart x : x ∈ [in_parent chains; in_a chains; in_b chains] ->
  (forall table, ~ (table = "filter"%string /\ x ∈ [out_parent chains; out_a chains; out_b chains])) /\
  x <> FORWARD_CHAIN.
Proof. intros Hx. destruct (dirs_apart vm_id x) as [[Hn Hf] _]; [done|]. split; [by intros ? []|done]. Qed.

Lemma out_apart x : x ∈ [out_parent chains; out_a chains; out_b chains] ->
  (forall table, ~ (table = "filter"%string /\ x ∈ [in_parent chains; in_a chains; in_b chains])) /\
  x <> FORWARD_CHAIN.
Proof. intros Hx. destruct (dirs_apart vm_id x) as [_ [Hn Hf]]; [done|]. split; [by intros ? []|done]. Qed.

Lemma forward_frame c l t t' : c <> FORWARD_CHAIN -> becomes "filter" c l t t' -> Forward t' = Forward t.
Proof. intros Hc [_ Hb]. apply Hb. congruence. Qed.

Lemma unused_in_chain nin : Unused_in nin -> nin ∈ [in_parent chains; in_a chains; in_b chains].
Proof. intros Hn. right. by eapply unused_child; [apply in_dir|]. Qed.
Lemma unused_out_chain nout : Unused_out nout -> nout ∈ [out_parent chains; out_a chains; out_b chains].
Proof. intros Hn. right. by eapply unused_child; [apply out_dir|]. Qed.

Lemma idle_stable F : stable (fun t => Idle_in t /\ Idle_out t /\ Forward t = F).
Proof.
  intros table c t t' (Hi&Ho&Hf) Hb. pose proof (becomes_id _ _ _ _ Hb) as Hs.
  split_and!; [intros x Hx|intros x Hx|]; rewrite Hs; auto.
Qed.

Lemma prepare_triple :
  firewall_ready ->
  triple stages (fun t => Idle_in t /\ Idle_out t /\ Forward t = Forward t0) (prepare_children chains)
    (fun n t => (Unused_in n.1 /\ Unused_out n.2) /\ Fill_in n.1 [] t /\ Fill_out n.2 [] t /\ Forward t = Forward t0).
Proof.
  intros (Si&So&_). pose proof (in_dir vm_id) as Di. pose proof (out_dir vm_id) as Do. simpl in Di, Do.
  set (P := fun t => Idle_in t /\ Idle_out t /\ Forward t = Forward t0).
  assert (forall t, P t -> stages t) as HI.
  { intros t (Hi&Ho&_). split; by apply untouched_stage. }
  assert (forall c, triple stages P (ensure_chain c) (fun _ => P)) as Hens.
  { intros c. apply ensure_chain_triple; [apply idle_stable|done]. }
  eapply net_triple_bind; [apply Hens|]. intros ?. eapply net_triple_bind; [apply Hens|]. intros ?.
  eapply net_triple_bind; [eapply next_child_triple; [done|done|by intros t (_&?&_)|done]|].
  intros nout. apply triple_pure. intros Uo.
  eapply net_triple_bind; [eapply next_child_triple; [done|done|by intros t (?&_&_)|done]|].
  intros nin. apply triple_pure. intros Ui.
  eapply net_triple_bind; [apply Hens|]. intros ?. eapply net_triple_bind; [apply Hens|]. intros ?.
  pose proof (in_apart nin (unused_in_chain _ Ui)) as [Ai Fi].
  pose proof (out_apart nout (unused_out_chain _ Uo)) as [Ao Fo].
  apply (net_triple_bind _ _ _ _ (fun _ t => Idle_in t /\ Fill_out nout [] t /\ Forward t = Forward t0)).
  { apply flush_triple; [done|]. intros t t' (Hi&Ho&Hf) Hb.
    assert (Fill_out nout [] t') by (eapply filling_next; [done|done|by apply untouched_filling|done]).
    assert (Idle_in t') by by eapply untouched_frame.
    rewrite <- (forward_frame nout [] t t') in Hf by done.
    split; [|done]. split; [by apply untouched_stage|by eapply filling_stage]. }
  intros ?. apply (net_triple_bind _ _ _ _ (fun _ t => Fill_in nin [] t /\ Fill_out nout [] t /\ Forward t = Forward t0)).
  { apply flush_triple.
    - intros t (Hi&Ho&_). split; [by apply untouched_stage|by eapply filling_stage].
    - intros t t' (Hi&Ho&Hf) Hb.
      assert (Fill_in nin [] t') by (eapply filling_next; [done|done|by apply untouched_filling|done]).
      assert (Fill_out nout [] t') by by eapply filling_frame.
      rewrite <- (forward_frame nin [] t t') in Hf by done.
      split; [|done]. split; by eapply filling_stage. }
  intros ?. apply net_triple_ret. auto.
Qed.

Lemma fill_vm_triple nin nout :
  Unused_in nin -> Unused_out nout ->
  triple stages (fun t => Fill_in nin [] t /\ Fill_out nout [] t /\ Forward t = Forward t0)
    (fill_chains nin nout interfaces)
    (fun _ t => Forall iface_ok interfaces /\ Fill_in nin (full_in interfaces) t /\
       Fill_out nout (full_out interfaces) t /\ Forward t = Forward t0).
Proof.
  intros Ui Uo. pose proof (in_dir vm_id) as Di. pose proof (out_dir vm_id) as Do. simpl in Di, Do.
  pose proof (in_apart nin (unused_in_chain _ Ui)) as [Ai Fi].
  pose proof (out_apart nout (unused_out_chain _ Uo)) as [Ao Fo].
  set (R := fun t => (exists l, Fill_in nin l t) /\ (exists l, Fill_out nout l t) /\ Forward t = Forward t0).
  eapply triple_pre; [|eapply triple_post; [apply (fill_triple stages R nin nout)|]].
  - intros t (Hi&Ho&Hf). split_and!; [by split_and!; eauto|by destruct Hi as (_&_&?)|by destruct Ho as (_&_&?)].
  - intros ->. apply (Ao "filter"%string). split; [done|]. by apply unused_in_chain.
  - intros t ([l Hi]&[l' Ho]&_). split; by eapply filling_stage.
  - intros t t' l ([l0 Hi]&[l1 Ho]&Hf) Hb. split_and!.
    + exists l. by eapply filling_next.
    + exists l1. by eapply filling_frame.
    + by rewrite (forward_frame nin l t t').
  - intros t t' l ([l0 Hi]&[l1 Ho]&Hf) Hb. split_and!.
    + exists l0. by eapply filling_frame.
    + exists l. by eapply filling_next.
    + by rewrite (forward_frame nout l t t').
  - intros ? t (Hok&([l Hi]&[l' Ho]&Hf)&Li&Lo). split_and!; try done.
    + destruct Hi as (?&?&_). by split_and!.
    + destruct Ho as (?&?&_). by split_and!.
Qed.

Lemma other_in nin : Unused_in nin ->
  other_chain nin (in_a chains) (in_b chains) ∈ [in_parent chains; in_a chains; in_b chains] /\
  (other_chain nin (in_a chains) (in_b chains) ∉ [in_parent chains; nin]).
Proof.
  intros Hn. pose proof (in_dir vm_id) as [_ _ _ pa pb ab]. simpl in *. unfold other_chain.
  destruct Hn as [[-> _]|[-> _]].
  - rewrite String.eqb_refl. set_solver.
  - destruct (String.eqb_spec (in_b chains) (in_a chains)); set_solver.
Qed.

Lemma other_out nout : Unused_out nout ->
  other_chain nout (out_a chains) (out_b chains) ∈ [out_parent chains; out_a chains; out_b chains] /\
  (other_chain nout (out_a chains) (out_b chains) ∉ [out_parent chains; nout]).
Proof.
  intros Hn. pose proof (out_dir vm_id) as [_ _ _ pa pb ab]. simpl in *. unfold other_chain.
  destruct Hn as [[-> _]|[-> _]].
  - rewrite String.eqb_refl. set_solver.
  - destruct (String.eqb_spec (out_b chains) (out_a chains)); set_solver.
Qed.

(** A change of a chain that neither direction uses any more. *)
Lemma done_frame nin nout c l t t' :
  Unused_in nin -> Unused_out nout -> c ∉ [in_parent chains; nin] -> c ∉ [out_parent chains; nout] ->
  becomes "filter" c l t t' ->
  Done_in nin (full_in interfaces) t /\ Done_out nout (full_out interfaces) t ->
  Done_in nin (full_in interfaces) t' /\ Done_out nout (full_out interfaces) t'.
Proof.
  intros Ui Uo Hi Ho Hb [Di Do]. split.
  - eapply (swapped_frame _ _ _ t0 (in_dir vm_id)); [done| |done|done]. by intros [_ ?].
  - eapply (swapped_frame _ _ _ t0 (out_dir vm_id)); [done| |done|done]. by intros [_ ?].
Qed.

Lemma swap_triple nin nout :
  Unused_in nin -> Unused_out nout ->
  triple stages (fun t => Fill_in nin (full_in interfaces) t /\ Fill_out nout (full_out interfaces) t /\
                          Forward t = Forward t0)
    (_ ← point_parent_to_child (in_parent chains) nin; point_parent_to_child (out_parent chains) nout)
    (fun _ t => (Done_in nin (full_in interfaces) t /\ Done_out nout (full_out interfaces) t) /\
                Forward t = Forward t0).
Proof.
  intros Ui Uo. pose proof (in_dir vm_id) as Di. pose proof (out_dir vm_id) as Do. simpl in Di, Do.
  assert (in_parent chains ∈ [in_parent chains; in_a chains; in_b chains]) as Ip by by left.
  assert (out_parent chains ∈ [out_parent chains; out_a chains; out_b chains]) as Op by by left.
  pose proof (in_apart _ Ip) as [Ai Fi]. pose proof (out_apart _ Op) as [Ao Fo].
  apply (net_triple_bind _ _ _ _ (fun _ t => Done_in nin (full_in interfaces) t /\
    Fill_out nout (full_out interfaces) t /\ Forward t = Forward t0)).
  - apply point_triple; [apply Di|exact (unused_name _ _ _ _ Di _ Ui)| | | | |].
    + intros t (Hi&Ho&_). split; by eapply filling_stage.
    + intros t (Hi&Ho&_). split; [by eapply swapped_stage|by eapply filling_stage].
    + intros t ((Hp&_)&_). rewrite Hp. destruct Ui as [[_ [E|E]]|[_ E]]; rewrite E; eauto.
    + intros t t' (Hi&Ho&Hf) Hb. split_and!; [by eapply filling_swap|by eapply filling_frame|].
      by rewrite (forward_frame _ _ _ _ Fi Hb).
    + by intros t ((Hp&_)&_).
  - intros ?. apply point_triple; [apply Do|exact (unused_name _ _ _ _ Do _ Uo)| | | | |].
    + intros t (Hi&Ho&_). split; [by eapply swapped_stage|by eapply filling_stage].
    + intros t ((Hi&Ho)&_). split; by eapply swapped_stage.
    + intros t (_&(Hp&_)&_). rewrite Hp. destruct Uo as [[_ [E|E]]|[_ E]]; rewrite E; eauto.
    + intros t t' (Hi&Ho&Hf) Hb. split; [split; [|by eapply filling_swap]|].
      * eapply (swapped_frame _ _ _ t0 Di); [done| |done|done]. intros [_ Hin].
        apply (Ao "filter"%string). split; [done|].
        apply unused_in_chain in Ui. set_solver.
      * by rewrite (forward_frame _ _ _ _ Fo Hb).
    + by intros t ((_&(Hp&_))&_).
Qed.

Lemma install_triple nin nout :
  firewall_ready -> Forall iface_ok interfaces -> Unused_in nin -> Unused_out nout ->
  triple stages (fun t => Fill_in nin (full_in interfaces) t /\ Fill_out nout (full_out interfaces) t /\
                          Forward t = Forward t0)
    (install_children chains nin nout interfaces) (fun _ => finished).
Proof.
  intros (_&_&Htidy) Hok Ui Uo. pose proof (in_dir vm_id) as Di. pose proof (out_dir vm_id) as Do. simpl in Di, Do.
  set (R := fun t => Done_in nin (full_in interfaces) t /\ Done_out nout (full_out interfaces) t).
  assert (forall t, R t -> stages t) as HI by (intros t [Hi Ho]; split; by eapply swapped_stage).
  assert (forall t t' l, R t -> becomes "filter" FORWARD_CHAIN l t t' -> R t') as HF.
  { intros t t' l Hr Hb. apply (done_frame nin nout FORWARD_CHAIN l t t'); try done.
    - apply unused_in_chain in Ui. intros Hin. by destruct (in_apart FORWARD_CHAIN ltac:(set_solver)).
    - apply unused_out_chain in Uo. intros Hin. by destruct (out_apart FORWARD_CHAIN ltac:(set_solver)). }
  assert (forall c, c ∉ [in_parent chains; nin] -> c ∉ [out_parent chains; nout] -> c <> FORWARD_CHAIN ->
    forall phi, triple stages (fun t => R t /\ phi (Forward t)) (delete_chain_if_exists c)
      (fun _ t => R t /\ phi (Forward t))) as Hdel.
  { intros c Hi Ho Hc phi. apply delete_chain_triple; [by intros t []; auto|]. intros t t' [Hr Hphi] Hb.
    split; [by eapply done_frame|]. by rewrite (forward_frame _ _ _ _ Hc Hb). }
  set (synced := forward_synced chains interfaces (Forward t0)).
  assert (triple stages (fun t => R t /\ Forward t = Forward t0)
    (_ ← sync_forward_jump_rules (in_parent chains) (in_jump (in_parent chains) <$> interfaces);
     _ ← sync_forward_jump_rules (out_parent chains) (out_jump (out_parent chains) <$> interfaces);
     _ ← delete_chain_if_exists (other_chain nin (in_a chains) (in_b chains));
     delete_chain_if_exists (other_chain nout (out_a chains) (out_b chains)))
    (fun _ t => R t /\ synced (Forward t))) as Hrest.
  { eapply net_triple_bind.
    { apply sync_forward_triple; [done|done| |].
      - apply Forall_fmap. eapply Forall_impl; [exact Hok|]. intros i (?&?&_). by apply good_in_jump; [apply Di|..].
      - eapply Forall_impl; [exact Htidy|]. simpl. intros w Hw Hj. apply Hw. by rewrite Hj. }
    intros ?. apply (triple_pre _ _ (fun t => exists F1, (R t /\ Forward t = F1) /\
      jumps_synced (in_parent chains) (in_jump (in_parent chains) <$> interfaces) (Forward t0) F1));
      [by intros t []; eauto|].
    apply triple_exists. intros F1. apply triple_pure. intros H1.
    eapply net_triple_bind.
    { apply sync_forward_triple; [done|done| |].
      - apply Forall_fmap. eapply Forall_impl; [exact Hok|]. intros i (?&?&_). by apply good_out_jump; [apply Do|..].
      - apply Forall_forall. intros w Hw Hj. destruct H1 as (_&_&_&Hsub).
        destruct (Hsub w Hw) as [Hw0|(d&Hd&->)].
        + rewrite Forall_forall in Htidy. apply Htidy; [done|]. by rewrite Hj, orb_true_r.
        + apply list_elem_of_fmap in Hd as (i&->&Hi). rewrite Forall_forall in Hok.
          destruct (jumps_apart vm_id i (Hok i Hi)) as [E _]. by rewrite E in Hj. }
    intros ?. apply (triple_pre _ _ (fun t => R t /\ synced (Forward t))).
    { intros t [Hr H2]. split; [done|]. by eapply forward_synced_both. }
    destruct (other_in nin Ui) as [Oi Oi'], (other_out nout Uo) as [Oo Oo'].
    eapply net_triple_bind; [apply Hdel; [done| |]|intros ?; apply Hdel; [|done|]].
    - destruct (in_apart _ Oi) as [A _]. apply unused_out_chain in Uo. intros Hin.
      apply (A "filter"%string). split; [done|]. set_solver.
    - by destruct (in_apart _ Oi).
    - destruct (out_apart _ Oo) as [A _]. apply unused_in_chain in Ui. intros Hin.
      apply (A "filter"%string). split; [done|]. set_solver.
    - by destruct (out_apart _ Oo). }
  apply (triple_post _ _ _ (fun _ t => R t /\ synced (Forward t)));
    [|intros ? t ([Hi Ho]&Hs); split_and!; [done|done|]; exists nin, nout; by split_and!].
  eapply triple_assoc; [by apply swap_triple|]. intros ?. exact Hrest.
Qed.

Lemma sync_triple :
  firewall_ready -> interfaces <> [] ->
  triple stages (fun t => Idle_in t /\ Idle_out t /\ Forward t = Forward t0)
    (sync_vm_firewall_rules vm_id interfaces) (fun _ => finished).
Proof.
  intros Hready Hne.
  assert (sync_vm_firewall_rules vm_id interfaces =
    ('(nin, nout) ← prepare_children chains; _ ← fill_chains nin nout interfaces;
     install_children chains nin nout interfaces)) as ->.
  { unfold sync_vm_firewall_rules. by destruct interfaces. }
  eapply net_triple_bind; [by apply prepare_triple|]. intros [nin nout]. apply triple_pure_l. intros [Ui Uo].
  simpl in Ui, Uo |- *.
  eapply net_triple_bind; [by apply fill_vm_triple|]. intros ?. apply triple_pure_l. intros Hok.
  by apply install_triple.
Qed.
End vm_firewall.
