(* ===== verification/FirewallCorrect.v ===== *)
(** * FirewallCorrect: packets and security groups

    What the rules written by [NodeFirewall.v] mean for a packet, and the theorems
    that follow: every state of a synchronisation judges a packet by the old rules
    or by the new ones, the chains of a synchronised VM admit exactly what its
    interfaces ask for, and, with [NetworkPolicy.v], exactly what the security
    groups in the database admit.  Two situations in which the packet filter lets
    pass what it should stop are shown on the simulator. *)

From S2P Require Import Prelude Text Common Errors Secrets Tables NodeApi World Samples HostNuma.
From S2P Require Import VmConfig Hooks Vms Storage Hosts StorageObjects Ipv4 Netfilter Networks Devices.
From S2P Require Import SecurityGroups NetworkPolicy NodeFirewall FirewallFacts.
From Stdlib Require Import Ascii.
#[local] Open Scope Z_scope.

(** ** Printed rules keep their meaning *)

Lemma parse_options_app l1 l2 neg r r' :
  parse_options neg l1 r = Some r' -> parse_options neg (l1 ++ l2) r = parse_options false l2 r'.
Proof.
  remember (length l1) as n eqn:Hn. revert l1 neg r Hn.
  induction n as [n IH] using lt_wf_ind. intros [|flag rest] neg r Hn Hp; simpl in *.
  - destruct neg; [done|]. by injection Hp as ->.
  - destruct (String.eqb flag "!"); [by eapply (IH (length rest)); [lia|..]|].
    destruct rest as [|v rest]; [done|]. simpl in *. destruct (set_option neg flag v r) as [r1|]; [|done].
    simpl in *. eapply (IH (length rest)); [lia|done|done].
Qed.

Definition cidr_ok (c : Cidr) : Prop :=
  is_u32 (cidr_base c) /\ 0 <= cidr_len c <= 32 /\
  Z.land (cidr_base c) (cidr_mask (cidr_len c)) = cidr_base c.

Lemma std_octet_fmt n : 0 <= n <= 255 -> std_octet (fmt_nat n) = Some n.
Proof.
  intros Hn. assert (forallb (fun n => bool_decide (std_octet (fmt_nat n) = Some n)) (seqZ 0 256) = true) as Hall
    by (vm_compute; reflexivity).
  rewrite forallb_forall in Hall. apply (bool_decide_eq_true_1 _), Hall, list_elem_of_In, elem_of_seqZ. lia.
Qed.

Lemma std_ipv4_fmt a : is_u32 a -> std_ipv4 (fmt_ipv4 a) = Some a.
Proof.
  intros Ha. unfold std_ipv4, fmt_ipv4.
  change "."%string with (String "."%char EmptyString). rewrite split_join; [|done|].
  - rewrite !std_octet_fmt by apply octet_range. cbn [mbind option_bind]. by rewrite octets_reassemble.
  - repeat constructor; apply digits_no_char; try done; apply fmt_nat_all_digits.
Qed.

Lemma parse_cidr_text c : cidr_ok c -> parse_cidr (cidr_text c) = Some c.
Proof.
  intros (Hb&Hl&Hm). unfold parse_cidr, cidr_text.
  change ("/" +:+ fmt_nat (cidr_len c))%string with (String "/" (fmt_nat (cidr_len c))).
  rewrite split_once_app by apply fmt_ipv4_no_slash. cbn [mbind option_bind].
  rewrite std_ipv4_fmt by done. cbn [mbind option_bind].
  unfold parse_u8. rewrite parse_unsigned_fmt_nat by (unfold u8_max; lia). cbn [mbind option_bind].
  destruct (Z.leb_spec (cidr_len c) 32); [|lia]. rewrite Hm. by destruct c.
Qed.

Lemma land_u32 a m : is_u32 a -> 0 <= m -> is_u32 (Z.land a m).
Proof.
  unfold is_u32. intros Ha Hm.
  assert (Z.land a m = Z.land a m mod 2 ^ 32) as ->; [|apply Z.mod_pos_bound; lia].
  rewrite <- Z.land_ones by lia. rewrite <- Z.land_assoc, (Z.land_comm m), Z.land_assoc, Z.land_ones by lia.
  by rewrite Z.mod_small by lia.
Qed.

Lemma parse_cidr_ok s c : parse_cidr s = Some c -> cidr_ok c.
Proof.
  unfold parse_cidr. destruct (split_once _ s) as [[ip len]|]; [|done]. cbn [mbind option_bind].
  destruct (std_ipv4 ip) as [a|] eqn:Ea; [|done]. cbn [mbind option_bind].
  destruct (parse_u8 len) as [l|] eqn:El; [|done]. cbn [mbind option_bind].
  apply std_ipv4_spec in Ea as [Ha _]. apply parse_u8_range in El.
  destruct (Z.leb_spec l 32); [|done]. intros [= <-]. unfold cidr_ok. simpl.
  assert (0 <= cidr_mask l).
  { unfold cidr_mask. assert (2 ^ (32 - l) <= 2 ^ 32) by (apply Z.pow_le_mono_r; lia). lia. }
  split_and!; [by apply land_u32|lia|lia|]. rewrite <- Z.land_assoc, Z.land_diag. done.
Qed.

Lemma valid_cidr s : validate_ipv4_cidr s = Ok tt -> is_Some (parse_cidr s).
Proof.
  unfold validate_ipv4_cidr, parse_cidr. destruct (split_once _ s) as [[ip len]|]; [|done]. simpl.
  destruct (std_ipv4 ip); [|done]. simpl. destruct (parse_u8 len) as [l|]; [|done]. simpl.
  destruct (Z.ltb_spec 32 l); [done|]. destruct (Z.leb_spec l 32); [by eexists|lia].
Qed.

Definition ports_in_range (q : Z * Z) : Prop := 0 <= q.1 <= u16_max /\ 0 <= q.2 <= u16_max.

Lemma ports_of_text q : ports_in_range q -> ports_of (ports_text q) = Some q.
Proof.
  destruct q as [s e]. intros [Hs He]. unfold ports_text, ports_of. simpl in *.
  destruct (Z.eqb_spec s e) as [->|].
  - rewrite split_once_none by (by apply fmt_nat_no_char). unfold parse_u16.
    by rewrite parse_unsigned_fmt_nat.
  - change (":" +:+ fmt_nat e)%string with (String ":" (fmt_nat e)).
    rewrite split_once_app by (by apply fmt_nat_no_char). unfold parse_u16.
    by rewrite !parse_unsigned_fmt_nat.
Qed.

(** A rule [iptables] can print. *)
Record printable (r : Rule) : Prop := {
  pr_src : forall c, nr_src r = Some c -> cidr_ok c;
  pr_dst : forall c, nr_dst r = Some c -> cidr_ok c;
  pr_dport : forall q, nr_dport r = Some q -> ports_in_range q;
  pr_target : nr_target r = NoTarget \/ target_of (target_text (nr_target r)) = nr_target r
}.

(** A prefix of length 0 is not printed: it admits every address. *)
Definition shown (c : option Cidr) : option Cidr :=
  c ≫= fun c => if cidr_len c =? 0 then None else Some c.

Lemma cidr_words_parse (flag : string) (c : option Cidr) (r : Rule) (upd : option Cidr -> Rule) rest :
  (forall v, set_option false flag v r = (x ← parse_cidr v; Some (upd (Some x)))) -> flag <> "!"%string ->
  upd None = r -> (forall x, c = Some x -> cidr_ok x) ->
  parse_options false (cidr_words flag c ++ rest) r = parse_options false rest (upd (shown c)).
Proof.
  intros Hset Hflag Hnone Hok. apply String.eqb_neq in Hflag.
  destruct c as [c|]; cbn [cidr_words shown mbind option_bind app]; [|by rewrite Hnone].
  destruct (cidr_len c =? 0); cbn [app]; [by rewrite Hnone|]. cbn [parse_options]. rewrite Hflag, Hset.
  rewrite parse_cidr_text by auto. done.
Qed.

(** The other options, in the order they are printed. *)
Lemma words_in_parse i rest s d o p dp e t :
  parse_options false (match i with Some i => ["-i"%string; i] | None => [] end ++ rest)
    (Build_Rule s d None o p dp e t) = parse_options false rest (Build_Rule s d i o p dp e t).
Proof. by destruct i. Qed.

Lemma words_out_parse o rest s d i p dp e t :
  parse_options false (match o with
    | Some (neg, o) => (if neg : bool then ["!"%string] else []) ++ ["-o"%string; o]
    | None => [] end ++ rest) (Build_Rule s d i None p dp e t)
  = parse_options false rest (Build_Rule s d i o p dp e t).
Proof. by destruct o as [[[] o]|]. Qed.

Lemma words_proto_parse p rest s d i o dp e t :
  parse_options false (match p with Some p => ["-p"%string; l4_text p] | None => [] end ++ rest)
    (Build_Rule s d i o None dp e t) = parse_options false rest (Build_Rule s d i o p dp e t).
Proof. by destruct p as [[]|]. Qed.

Lemma words_state_parse (e : bool) rest s d i o p dp t :
  parse_options false ((if e then ["-m"; "conntrack"; "--ctstate"; "RELATED,ESTABLISHED"]%string else []) ++ rest)
    (Build_Rule s d i o p dp false t) = parse_options false rest (Build_Rule s d i o p dp e t).
Proof. by destruct e. Qed.

Lemma words_port_parse dp rest s d i o p e t :
  (forall q, dp = Some q -> ports_in_range q) ->
  parse_options false (match dp with
    | Some q => match p with Some p => ["-m"%string; l4_text p] | None => [] end ++ ["--dport"%string; ports_text q]
    | None => [] end ++ rest) (Build_Rule s d i o p None e t)
  = parse_options false rest (Build_Rule s d i o p dp e t).
Proof.
  intros Hq. destruct dp as [q|]; [|done].
  destruct p as [[]|]; cbn -[ports_of]; by rewrite ports_of_text by auto.
Qed.

Lemma rule_words_parse r :
  printable r ->
  parse_rule (rule_words r)
  = Some (Build_Rule (shown (nr_src r)) (shown (nr_dst r)) (nr_in r) (nr_out r) (nr_proto r) (nr_dport r)
            (nr_established r) (nr_target r)).
Proof.
  intros [Hs Hd Hp Ht]. destruct r as [src dst i o p dp est t]. unfold parse_rule, rule_words, any_rule.
  cbn [nr_src nr_dst nr_in nr_out nr_proto nr_dport nr_established nr_target] in *.
  rewrite (cidr_words_parse "-s" src _ (fun c => Build_Rule c None None None None None false NoTarget)) by done.
  rewrite (cidr_words_parse "-d" dst _ (fun c => Build_Rule (shown src) c None None None None false NoTarget)) by done.
  rewrite words_in_parse, words_out_parse, words_proto_parse, words_state_parse, words_port_parse by done.
  destruct Ht as [->|Ht]; [done|]. destruct t; try done; cbn -[target_of target_text]; by rewrite Ht.
Qed.

Lemma shown_holds c addr :
  (forall x, c = Some x -> cidr_ok x) ->
  opt_holds (shown c) (fun c => in_cidr c addr) = opt_holds c (fun c => in_cidr c addr).
Proof.
  intros Hok. destruct c as [c|]; [|done]. simpl. destruct (Z.eqb_spec (cidr_len c) 0) as [E|]; [|done].
  destruct (Hok c eq_refl) as (_&_&Hm). unfold in_cidr. rewrite E in *.
  change (cidr_mask 0) with 0 in *. rewrite Z.land_0_r in *. by rewrite <- Hm.
Qed.

(** How a chain reads a rule that was given as [args]. *)
Lemma walk_canonical sub args r rest p :
  parse_rule args = Some r -> printable r ->
  walk sub (canonical args :: rest) p =
  if rule_matches_packet r p then
    match nr_target r with
    | Accept => Some Accepted
    | Drop => Some Dropped
    | Return => None
    | Jump c => match sub c p with Some v => Some v | None => walk sub rest p end
    | _ => walk sub rest p
    end
  else walk sub rest p.
Proof.
  intros Hp Hr. unfold canonical. rewrite Hp. cbn [walk]. rewrite rule_words_parse by done.
  cbn [nr_target]. assert (rule_matches_packet (Build_Rule (shown (nr_src r)) (shown (nr_dst r)) (nr_in r)
    (nr_out r) (nr_proto r) (nr_dport r) (nr_established r) (nr_target r)) p = rule_matches_packet r p) as ->; [|done].
  unfold rule_matches_packet. cbn [nr_src nr_dst nr_in nr_out nr_proto nr_dport nr_established].
  by rewrite !shown_holds by apply Hr.
Qed.

(** ** What the firewall of a VM admits *)

(** A rule of a security group admits a packet of its direction. *)
Definition admits (r : VmFirewallRule) (p : Packet) : bool :=
  (if String.eqb (fr_cidr r) "" then true
   else match parse_cidr (fr_cidr r) with
        | Some c => in_cidr c (if is_egress r then p_dst p else p_src p)
        | None => false
        end)
  && match l4_of_proto (fr_protocol r) with Some l => bool_decide (l = p_proto p) | None => true end
  && (if has_ports (l4_of_proto (fr_protocol r)) then
        match fr_port_start r, fr_port_end r with
        | Some s, Some e => (s <=? p_dport p) && (p_dport p <=? e)
        | _, _ => true
        end
      else true).

Definition admitted_in (rules : list VmFirewallRule) (p : Packet) : bool :=
  p_established p || existsb (fun r => admits r p) (ingress rules).
Definition admitted_out (rules : list VmFirewallRule) (p : Packet) : bool :=
  p_established p || existsb (fun r => admits r p) (egress rules)
  || negb (existsb is_egress rules).

Definition verdict (b : bool) : option Verdict := Some (if b then Accepted else Dropped).

(** A rule whose addresses and ports the tool accepts. *)
Definition loadable_rule (r : VmFirewallRule) : Prop :=
  rule_ok r /\
  forall s e, fr_port_start r = Some s -> fr_port_end r = Some e -> ports_in_range (s, e).

Definition rule_of (r : VmFirewallRule) : Rule :=
  let c := if String.eqb (fr_cidr r) "" then None else parse_cidr (fr_cidr r) in
  let l := l4_of_proto (fr_protocol r) in
  Build_Rule (if is_egress r then None else c) (if is_egress r then c else None) None None l
    (if has_ports l then match fr_port_start r, fr_port_end r with
                         | Some s, Some e => Some (s, e)
                         | _, _ => None
                         end else None) false Accept.

Lemma port_range_parse s e : ports_in_range (s, e) -> ports_of (port_range s e) = Some (s, e).
Proof.
  intros [Hs He]. simpl in *. unfold port_range. rewrite !pretty_nonneg by lia. by apply (ports_of_text (s, e)).
Qed.

Lemma rule_args_parse r : loadable_rule r -> parse_rule (rule_args r) = Some (rule_of r).
Proof.
  intros [Hc Hp]. unfold parse_rule, rule_args, rule_of, cidr_args, proto_args, port_args, any_rule.
  set (l := l4_of_proto (fr_protocol r)).
  set (c := if String.eqb (fr_cidr r) "" then None else parse_cidr (fr_cidr r)).
  assert (forall rest, parse_options false
    ((if String.eqb (fr_cidr r) "" then [] else [if is_egress r then "-d" else "-s"; fr_cidr r]%string) ++ rest)
    (Build_Rule None None None None None None false NoTarget) =
    parse_options false rest (Build_Rule (if is_egress r then None else c) (if is_egress r then c else None)
      None None None None false NoTarget)) as ->.
  { intros rest. unfold c. destruct (String.eqb_spec (fr_cidr r) "") as [|Hne]; [by destruct (is_egress r)|].
    destruct Hc as [|[x Hx]%valid_cidr]; [done|].
    destruct (is_egress r); cbn -[parse_cidr]; rewrite Hx; done. }
  rewrite words_proto_parse. clearbody c.
  assert (forall q, ports_in_range q -> forall s d, parse_options false
    (["--dport"%string; port_range q.1 q.2] ++ ["-j"; "ACCEPT"]%string)
    (Build_Rule s d None None l None false NoTarget)
    = Some (Build_Rule s d None None l (Some q) false Accept)) as Hq.
  { intros [s e] Hq sr ds. cbn -[ports_of port_range]. by rewrite port_range_parse. }
  destruct (has_ports l); [|done].
  destruct (fr_port_start r) as [s|], (fr_port_end r) as [e|]; try done.
  apply (Hq (s, e)). by apply Hp.
Qed.

Lemma rule_of_printable r : loadable_rule r -> printable (rule_of r).
Proof.
  intros [Hc Hp]. unfold rule_of. split; simpl.
  - intros c. destruct (is_egress r); [done|]. destruct (String.eqb _ _); [done|]. apply parse_cidr_ok.
  - intros c. destruct (is_egress r); [|done]. destruct (String.eqb _ _); [done|]. apply parse_cidr_ok.
  - intros q. destruct (has_ports _); [|done].
    destruct (fr_port_start r), (fr_port_end r); try done. intros [= <-]. by apply Hp.
  - by right.
Qed.

Lemma rule_of_matches r p : loadable_rule r -> rule_matches_packet (rule_of r) p = admits r p.
Proof.
  intros [Hc _]. unfold rule_matches_packet, rule_of, admits. cbn [nr_src nr_dst nr_in nr_out nr_proto nr_dport nr_established].
  cbn [opt_holds]. rewrite !andb_true_r. f_equal; [f_equal|].
  - destruct (String.eqb_spec (fr_cidr r) "") as [|Hne]; [by destruct (is_egress r)|].
    destruct Hc as [|[x Hx]%valid_cidr]; [done|]. rewrite Hx. destruct (is_egress r); simpl; by rewrite ?andb_true_r.
  - destruct (has_ports _); [|done]. by destruct (fr_port_start r), (fr_port_end r).
Qed.

Lemma walk_rules sub rules last p :
  Forall loadable_rule rules ->
  walk sub (rule_lines rules ++ last) p
  = if existsb (fun r => admits r p) rules then Some Accepted else walk sub last p.
Proof.
  induction 1 as [|r rules Hr Hrs IH]; [done|].
  change (rule_lines (r :: rules) ++ last) with (canonical (rule_args r) :: (rule_lines rules ++ last)).
  rewrite (walk_canonical _ _ (rule_of r)); [|by apply rule_args_parse|by apply rule_of_printable].
  rewrite rule_of_matches by done. cbn [existsb nr_target rule_of]. destruct (admits r p); [done|]. apply IH.
Qed.

Lemma walk_established sub rest p :
  walk sub (established_rule :: rest) p = if p_established p then Some Accepted else walk sub rest p.
Proof.
  unfold established_rule. rewrite (walk_canonical _ _ (Build_Rule None None None None None None true Accept)); [|done|].
  - unfold rule_matches_packet. simpl. done.
  - split; simpl; try done. by right.
Qed.

Lemma loadable_sub rules (q : VmFirewallRule -> bool) :
  Forall loadable_rule rules -> Forall loadable_rule (List.filter q rules).
Proof.
  rewrite !Forall_forall. intros Hl r Hr. apply Hl. rewrite list_elem_of_In, filter_In in Hr.
  by apply list_elem_of_In; destruct Hr.
Qed.

Lemma has_egress_all interfaces : has_egress_rules interfaces = existsb is_egress (all_rules interfaces).
Proof.
  unfold has_egress_rules, all_rules. induction interfaces as [|i ifs IH]; [done|]. simpl.
  rewrite existsb_app. by f_equal.
Qed.

Lemma decide_in interfaces p :
  Forall loadable_rule (all_rules interfaces) ->
  decision (full_in interfaces) p = verdict (admitted_in (all_rules interfaces) p).
Proof.
  intros Hl. unfold decision, full_in, admitted_in, verdict.
  rewrite <- app_comm_cons, walk_established, walk_rules by by apply loadable_sub.
  destruct (p_established p); [done|]. by destruct (existsb _ (ingress _)).
Qed.

Lemma decide_out interfaces p :
  Forall loadable_rule (all_rules interfaces) ->
  decision (full_out interfaces) p = verdict (admitted_out (all_rules interfaces) p).
Proof.
  intros Hl. unfold decision, full_out, admitted_out, verdict.
  rewrite <- app_comm_cons, walk_established, walk_rules by by apply loadable_sub.
  rewrite has_egress_all. destruct (p_established p); [done|]. simpl.
  destruct (existsb (fun r => admits r p) (egress _)); [done|]. simpl.
  by destruct (existsb is_egress (all_rules interfaces)).
Qed.

(** ** The chains of a VM during and after a synchronisation *)

Section enforced.
Context `{Iptables} (vm_id : string) (interfaces : list VmFirewallInterface).
#[local] Set Default Proof Using "Type".

Notation chains := (chains_new vm_id).
Notation ready k := (firewall_ready vm_id (netfilter k)).

(** Both directions judge as in [t0], or by all of the new rules. *)
Definition old_or_new (t0 t : Netfilter) : Prop :=
  ((forall p, judge 2 t (in_parent chains) p = judge 2 t0 (in_parent chains) p) \/
   (forall p, judge 2 t (in_parent chains) p = verdict (admitted_in (all_rules interfaces) p))) /\
  ((forall p, judge 2 t (out_parent chains) p = judge 2 t0 (out_parent chains) p) \/
   (forall p, judge 2 t (out_parent chains) p = verdict (admitted_out (all_rules interfaces) p))).

Lemma stages_old_or_new t0 t :
  Forall loadable_rule (all_rules interfaces) -> stages vm_id interfaces t0 t -> old_or_new t0 t.
Proof.
  intros Hl [Hi Ho]. split.
  - destruct (stage_verdict _ _ _ _ (in_dir vm_id) _ _ (fun p => eq_ind_r is_Some (mk_is_Some _ _ eq_refl)
      (decide_in interfaces p Hl)) Hi) as [E|E]; [by left|right]. intros p. by rewrite E, decide_in.
  - destruct (stage_verdict _ _ _ _ (out_dir vm_id) _ _ (fun p => eq_ind_r is_Some (mk_is_Some _ _ eq_refl)
      (decide_out interfaces p Hl)) Ho) as [E|E]; [by left|right]. intros p. by rewrite E, decide_out.
Qed.

Lemma sync_run k :
  interfaces <> [] -> ready k ->
  let '(tr, (k', r)) := sync_vm_firewall_rules vm_id interfaces k in
  Forall (fun s => stages vm_id interfaces (netfilter k) (netfilter s)) tr /\
  match r with Ok _ => finished vm_id interfaces (netfilter k) (netfilter k') | Err e => e <> Unfinished end.
Proof.
  intros Hne Hr. pose proof (sync_triple vm_id interfaces (netfilter k) Hr Hne k) as Hs.
  destruct (sync_vm_firewall_rules vm_id interfaces k) as [tr [k' r]]. apply Hs. done.
Qed.

(** C11. While the firewall of a VM is synchronised, and also when it stops on a failed
    command, every state of the kernel judges the packets to the VM, and the
    packets from it, by the rules of before or by exactly the new ones: there is
    no moment with half of the rules or with none.  The run ends. *)
Theorem firewall_swap_atomic k :
  interfaces <> [] -> Forall loadable_rule (all_rules interfaces) -> ready k ->
  let '(tr, (_, r)) := sync_vm_firewall_rules vm_id interfaces k in
  Forall (fun s => old_or_new (netfilter k) (netfilter s)) tr /\ r <> Err Unfinished.
Proof.
  intros Hne Hl Hr. pose proof (sync_run k Hne Hr) as Hs.
  destruct (sync_vm_firewall_rules vm_id interfaces k) as [tr [k' r]]. destruct Hs as [Hs He]. split.
  - eapply Forall_impl; [exact Hs|]. intros s. by apply stages_old_or_new.
  - destruct r; congruence.
Qed.

Lemma finished_loadable t0 t :
  finished vm_id interfaces t0 t ->
  (forall r s e, r ∈ all_rules interfaces -> fr_port_start r = Some s -> fr_port_end r = Some e ->
     ports_in_range (s, e)) ->
  Forall loadable_rule (all_rules interfaces).
Proof.
  intros [Hok _] Hports. rewrite Forall_forall in Hok. apply Forall_forall. intros r Hr. split; [|intros s e; by apply Hports].
  unfold all_rules in Hr. rewrite list_elem_of_In, in_concat in Hr. destruct Hr as (l&Hl&Hr).
  apply list_elem_of_In, list_elem_of_fmap in Hl as (i&->&Hi). destruct (Hok i Hi) as (_&_&Hrs).
  rewrite Forall_forall in Hrs. by apply Hrs, list_elem_of_In.
Qed.

Lemma finished_verdicts t0 t p :
  Forall loadable_rule (all_rules interfaces) -> finished vm_id interfaces t0 t ->
  judge 2 t (in_parent chains) p = verdict (admitted_in (all_rules interfaces) p) /\
  judge 2 t (out_parent chains) p = verdict (admitted_out (all_rules interfaces) p).
Proof.
  intros Hl (_&_&nin&nout&Ui&Uo&Di&Do). split.
  - rewrite <- decide_in by done. apply (swapped_verdict _ _ _ t0 (in_dir vm_id) nin); try done.
    rewrite decide_in by done. by eexists.
  - rewrite <- decide_out by done. apply (swapped_verdict _ _ _ t0 (out_dir vm_id) nout); try done.
    rewrite decide_out by done. by eexists.
Qed.
End enforced.

(** ** Security groups *)

(** A rule of a security group admits a packet between the VM and a peer. *)
Definition group_rule_admits (r : SecurityGroupRule) (p : Packet) : bool :=
  match default ""%string (sgr_cidr r) with
  | EmptyString => true
  | cidr => opt_holds (parse_cidr cidr) (fun c =>
              in_cidr c (match sgr_direction r with Egress => p_dst p | Ingress => p_src p end))
  end
  && match sgr_protocol r with
     | ProtoAny => true
     | ProtoTcp => bool_decide (p_proto p = L4Tcp)
     | ProtoUdp => bool_decide (p_proto p = L4Udp)
     | ProtoIcmp => bool_decide (p_proto p = L4Icmp)
     end
  && match sgr_port_start r, sgr_port_end r with
     | Some s, Some e => (s <=? p_dport p) && (p_dport p <=? e)
     | _, _ => true
     end.

Definition of_direction (d : SecurityGroupDirection) (r : SecurityGroupRule) : bool :=
  bool_decide (sgr_direction r = d).
Definition groups_admit_in (rules : list SecurityGroupRule) (p : Packet) : bool :=
  p_established p || existsb (fun r => of_direction Ingress r && group_rule_admits r p) rules.
(** Without any egress rule everything may leave. *)
Definition groups_admit_out (rules : list SecurityGroupRule) (p : Packet) : bool :=
  p_established p || existsb (fun r => of_direction Egress r && group_rule_admits r p) rules
  || negb (existsb (of_direction Egress) rules).

Lemma proto_rule_egress r : is_egress (proto_rule r) = of_direction Egress r.
Proof. unfold is_egress, of_direction. by destruct r as [?? []]. Qed.

Lemma proto_rule_admits r p :
  loadable r -> rule_ok (proto_rule r) -> admits (proto_rule r) p = group_rule_admits r p.
Proof.
  intros Hl Hok. unfold admits, group_rule_admits. rewrite proto_rule_egress.
  unfold of_direction, rule_ok, loadable in *.
  destruct r as [id gid dir proto cidr ps pe desc]. cbn -[parse_cidr in_cidr validate_ipv4_cidr default] in *. f_equal; [f_equal|].
  - destruct (default ""%string cidr) as [|c text] eqn:E; [done|]. cbn [String.eqb].
    destruct Hok as [|[x Hx]%valid_cidr]; [done|]. rewrite Hx. by destruct dir.
  - destruct proto; try done; apply bool_decide_ext; done.
  - destruct ps as [s|], pe as [e|]; try (by destruct proto).
    destruct Hl as (_&_&Hp). set_unfold in Hp. by destruct Hp as [->|[->|[]]].
Qed.

(** The rules of the interfaces are those of the groups. *)
Definition same_rules (ifs : list VmFirewallInterface) (rules : list SecurityGroupRule) : Prop :=
  forall r, r ∈ all_rules ifs <-> exists rule, rule ∈ rules /\ r = proto_rule rule.

Lemma firewall_of_same_rules db vm_id ifs :
  firewall_of db vm_id ifs -> ifs <> [] -> same_rules ifs (rules_of_vm db vm_id).
Proof.
  intros (vm&_&Hf) Hne. destruct (v_host_id vm) as [host_id|]; [|done]. destruct Hf as [Hno Hyes].
  destruct ifs as [|i0 ifs]; [done|].
  assert (exists rules nics,
    (forall r, r ∈ rules <-> exists rule, rule ∈ rules_of_vm db vm_id /\ r = proto_rule rule) /\
    interfaces_for db host_id rules nics (i0 :: ifs)) as (rules&nics&Hr&_&Hi).
  { destruct (decide (Exists (fun g => (vm_id, sg_id g) ∈ t_vm_security_groups db)
      (rows (t_security_groups db)))) as [He|He].
    - apply Exists_exists in He as (g&[k Hk]%elem_of_rows&Hin).
      destruct Hyes as (rules&nics&?&_&?); eauto.
    - discriminate Hno. intros (k&g&Hk&Hin). apply He, Exists_exists. exists g. split; [|done].
      apply elem_of_rows. eauto. }
  assert (forall i, i ∈ i0 :: ifs -> fi_rules i = rules) as Hall.
  { intros i Hin. by destruct (Hi i Hin) as (nic&_&n&ip&_&_&_&?). }
  intros r. rewrite <- Hr. unfold all_rules. rewrite list_elem_of_In, in_concat. split.
  - intros (l&Hl&Hin). apply list_elem_of_In, list_elem_of_fmap in Hl as (i&->&Hi').
    rewrite Hall in Hin by done. by apply list_elem_of_In.
  - intros Hin. exists rules. split; [|by apply list_elem_of_In].
    apply list_elem_of_In, list_elem_of_fmap. exists i0. split; [|by left]. symmetry. by apply Hall; left.
Qed.

Section groups.
Context `{UuidText} `{Iptables}.
#[local] Set Default Proof Using "Type".

Lemma same_rules_exists ifs rules (q : VmFirewallRule -> bool) (q' : SecurityGroupRule -> bool) :
  same_rules ifs rules -> (forall r, r ∈ rules -> q (proto_rule r) = q' r) ->
  existsb q (all_rules ifs) = existsb q' rules.
Proof.
  intros Hs Hq. apply eq_true_iff_eq. rewrite !existsb_exists. split.
  - intros (r&Hr%list_elem_of_In&Hqr). apply Hs in Hr as (rule&Hin&->). exists rule.
    split; [by apply list_elem_of_In|]. by rewrite <- Hq.
  - intros (rule&Hin%list_elem_of_In&Hqr). exists (proto_rule rule). rewrite Hq by done.
    split; [|done]. apply list_elem_of_In, Hs. eauto.
Qed.

Lemma existsb_filter {A} (q s : A -> bool) l : existsb q (List.filter s l) = existsb (fun x => s x && q x) l.
Proof. induction l as [|x l IH]; [done|]. simpl. destruct (s x); simpl; by rewrite IH. Qed.

Lemma same_rules_admit ifs rules p :
  same_rules ifs rules -> Forall loadable rules -> Forall loadable_rule (all_rules ifs) ->
  admitted_in (all_rules ifs) p = groups_admit_in rules p /\
  admitted_out (all_rules ifs) p = groups_admit_out rules p.
Proof.
  intros Hs Hl Hok. rewrite Forall_forall in Hl. rewrite Forall_forall in Hok.
  assert (forall r, r ∈ rules -> admits (proto_rule r) p = group_rule_admits r p) as Ha.
  { intros r Hr. apply proto_rule_admits; [auto|]. apply Hok, Hs. eauto. }
  unfold admitted_in, admitted_out, groups_admit_in, groups_admit_out, ingress, egress.
  rewrite !existsb_filter. split; repeat f_equal; apply same_rules_exists; try done; intros r Hr;
    rewrite proto_rule_egress, ?Ha by done; try done.
  unfold of_direction. by destruct (sgr_direction r).
Qed.

(** C10. End to end: the server sends the interfaces of a VM that it reads from the
    database, and the node applies them.  Afterwards the chains of the VM let a
    packet in exactly when it belongs to a known connection or an ingress rule of
    the VM's security groups admits it, and let one out when an egress rule does,
    or when there is none. *)
Theorem security_groups_enforced db vm_id ifs k tr k' :
  rules_ok db -> firewall_of db vm_id ifs -> ifs <> [] ->
  let c := chains_new (uuid_to_string vm_id) in
  firewall_ready (uuid_to_string vm_id) (netfilter k) ->
  sync_vm_firewall_rules (uuid_to_string vm_id) ifs k = (tr, (k', Ok tt)) ->
  forall p,
    judge 2 (netfilter k') (in_parent c) p = verdict (groups_admit_in (rules_of_vm db vm_id) p) /\
    judge 2 (netfilter k') (out_parent c) p = verdict (groups_admit_out (rules_of_vm db vm_id) p).
Proof.
  intros Hdb Hf Hne c Hready Hrun p. pose proof (firewall_of_same_rules _ _ _ Hf Hne) as Hs.
  pose proof (sync_run _ ifs k Hne Hready) as Hfin. rewrite Hrun in Hfin. destruct Hfin as [_ Hfin].
  assert (Forall loadable (rules_of_vm db vm_id)) as Hl.
  { apply Forall_forall. intros r ([key Hr]&_)%elem_of_rules_of_vm. by destruct (Hdb key r Hr). }
  assert (Forall loadable_rule (all_rules ifs)) as Hok.
  { eapply finished_loadable; [exact Hfin|]. intros r s e Hr. apply Hs in Hr as (rule&Hin&->).
    rewrite Forall_forall in Hl. specialize (Hl rule Hin). unfold loadable in Hl. cbn. intros Es Ee.
    rewrite Es, Ee in Hl. unfold ports_in_range, u16_max. simpl. lia. }
  destruct (same_rules_admit ifs _ p Hs Hl Hok) as [<- <-]. by eapply finished_verdicts.
Qed.
End groups.

(** ** Examples on the simulator *)

(** A VM in one group that admits ssh from a private range. *)
Definition guarded_db : Db :=
  with_network_interfaces (fun _ => {[5%N :=
    {| ni_id := 5; ni_vm_id := 1; ni_network_id := Some 9%N; ni_device_id := "net0"; ni_tap_name := None;
       ni_mac_address := None; ni_host_mac := None; ni_ip_address := Some "10.10.1.5/24"%string; ni_mtu := 1500;
       ni_interface_type := Tap; ni_vhost_user := false; ni_vhost_socket := None;
       ni_vhost_mode := None; ni_num_queues := 1; ni_queue_size := 256; ni_rate_limiter := None;
       ni_offload_tso := false; ni_offload_ufo := false; ni_offload_csum := false;
       ni_pci_segment := 0; ni_iommu := false |}]})
    (with_host_networks (fun _ => {[(1%N, 9%N) := "br0"%string]})
    (with_networks (fun _ => {[9%N := vpc_network 9 "10.10.1.0/24" "blue"]})
    (with_security_group_rules (fun _ => {[4%N :=
       {| sgr_id := 4; sgr_security_group_id := 3; sgr_direction := Ingress; sgr_protocol := ProtoTcp;
          sgr_cidr := Some "10.0.0.0/8"%string; sgr_port_start := Some 22; sgr_port_end := Some 25;
          sgr_description := None |}]})
    firewall_db))).

Definition guarded_interfaces : list VmFirewallInterface :=
  [{| fi_bridge_name := "br0"; fi_ip := "10.10.1.5";
      fi_rules := [{| fr_direction := 0; fr_protocol := 1; fr_cidr := "10.0.0.0/8";
                      fr_port_start := Some 22; fr_port_end := Some 25 |}] |}].

Definition ssh_packet : Packet :=
  {| p_in := "br0"; p_out := "br0"; p_src := octets_u32 10 0 0 7; p_dst := octets_u32 10 10 1 5;
     p_proto := L4Tcp; p_dport := 22; p_established := false |}.

Lemma fresh_ready vm_id : firewall_ready vm_id fresh_tables.
Proof.
  assert (forall c, c <> FORWARD_CHAIN -> rules_of fresh_tables "filter" c = []) as Hempty.
  { intros c Hc. unfold rules_of, fresh_tables. simpl. rewrite lookup_insert_ne by (intros [=]; by apply Hc).
    by rewrite lookup_singleton_ne by (intros [=]). }
  split_and!; [left; by apply Hempty|left; by apply Hempty|by constructor].
Qed.

Lemma guarded_loadable : Forall loadable_rule (all_rules guarded_interfaces).
Proof.
  apply Forall_singleton. split; [by right|]. intros s e [= <-] [= <-].
  unfold ports_in_range, u16_max. simpl. lia.
Qed.

Lemma firewall_swap_atomic_witness :
  let '(tr, (_, r)) := sync_vm_firewall_rules (H := simulator) "a0eebc99" guarded_interfaces fresh_tables in
  Forall (fun s => old_or_new "a0eebc99" guarded_interfaces fresh_tables s) tr /\ r <> Err Unfinished.
Proof.
  apply (firewall_swap_atomic (H := simulator) "a0eebc99" guarded_interfaces fresh_tables);
    [done|apply guarded_loadable|apply fresh_ready].
Defined.

Lemma guarded_rules_ok : rules_ok guarded_db.
Proof.
  intros i r Hr. unfold guarded_db in Hr. cbn in Hr. apply lookup_singleton_Some in Hr as [<- <-]. split; [|vm_compute; by eexists].
  split_and!; [done|done|done|]. simpl. set_solver.
Qed.

Lemma run_ended {A B C} (run : A * (B * C)) c : run.2.2 = c -> run = (run.1, (run.2.1, c)).
Proof. by destruct run as [? [? ?]]; intros <-. Qed.

Lemma security_groups_enforced_witness :
  let c := chains_new (uuid_to_string (UuidText := binary_uuid_text) 1) in
  exists t', judge 2 t' (in_parent c) ssh_packet = Some Accepted.
Proof.
  pose (run := sync_vm_firewall_rules (H := simulator) (uuid_to_string (UuidText := binary_uuid_text) 1)
    guarded_interfaces fresh_tables).
  exists run.2.1.
  destruct (security_groups_enforced (H := binary_uuid_text) (H0 := simulator) guarded_db 1 guarded_interfaces fresh_tables run.1 run.2.1
    guarded_rules_ok) with (p := ssh_packet) as [Hin _].
  - apply (firewall_interfaces_spec (H := binary_uuid_text) (H0 := array_policy_serde) (coll := encoding_collation)
      (cidr_order := encoding_cidr_order) 1 calm_oracle (world_of guarded_db)
      (firewall_interfaces_for_vm (H := binary_uuid_text) (H0 := array_policy_serde) (coll := encoding_collation)
         (cidr_order := encoding_cidr_order) 1 calm_oracle (world_of guarded_db)).1).
    vm_compute. reflexivity.
  - done.
  - apply fresh_ready.
  - apply run_ended. vm_compute. reflexivity.
  - etransitivity; [exact Hin|]. vm_compute. reflexivity.
Defined.

(** ** Where the filters meet *)

(** A VM of a network isolated from [10.2.0.0/24], and a packet it sends there. *)
Definition plain_interface : VmFirewallInterface :=
  {| fi_bridge_name := "br0"; fi_ip := "10.1.0.5"; fi_rules := [] |}.
Definition stray_packet : Packet :=
  {| p_in := "br0"; p_out := "br1"; p_src := octets_u32 10 1 0 5; p_dst := octets_u32 10 2 0 5;
     p_proto := L4Tcp; p_dport := 22; p_established := false |}.
Definition isolate (bridge local_subnet : string) (blocked_subnets : list string) (t : Netfilter) : Netfilter :=
  (sync_network_isolation (H := simulator) bridge local_subnet blocked_subnets [] t).2.1.
Definition guard (vm_id : string) (interfaces : list VmFirewallInterface) (t : Netfilter) : Netfilter :=
  (sync_vm_firewall_rules (H := simulator) vm_id interfaces t).2.1.

(** The firewall of a VM undoes the isolation of its network: the jump to the
    chain of the VM is put before the jump to the isolation chain, and without
    egress rules that chain accepts everything.  A packet to a blocked subnet is
    dropped before the VM joins an empty security group, and accepted after. *)
Theorem firewall_bypasses_isolation :
  let t := isolate "br0" "10.1.0.0/24" ["10.2.0.0/24"%string] fresh_tables in
  forwarded t stray_packet = Dropped /\
  forwarded (guard "a0eebc99" [plain_interface] t) stray_packet = Accepted.
Proof. vm_compute. split; reflexivity. Qed.

(** Tearing down the isolation of bridge [br1] removes the jump rules of bridge
    [br10], because the listing is searched for the text [-j QXNETObr1]: a packet
    of the other network to a blocked subnet passes. *)
Theorem teardown_isolation_prefix :
  let t := isolate "br10" "10.1.0.0/24" ["10.2.0.0/24"%string] fresh_tables in
  let p := {| p_in := "br10"; p_out := "br1"; p_src := octets_u32 10 1 0 5; p_dst := octets_u32 10 2 0 5;
              p_proto := L4Tcp; p_dport := 22; p_established := false |} in
  forwarded t p = Dropped /\
  forwarded (teardown_network_isolation (H := simulator) "br1" t).2.1 p = Accepted.
Proof. vm_compute. split; reflexivity. Qed.
