(* ===== verification/NodeIsolation.v ===== *)
(** * NodeIsolation: networks that must not reach each other

    The isolation of a network on a node, [sync_network_isolation] of
    [qarax-node/src/networking/iptables.rs]: after it succeeds the two chains of
    the bridge drop exactly the packets to and from the blocked subnets and let
    every other packet return, and [FORWARD] jumps to both of them. *)

From S2P Require Import Prelude Text Common Errors Secrets Tables NodeApi Ipv4 Netfilter.
From S2P Require Import NodeFirewall FirewallFacts FirewallCorrect.
From Stdlib Require Import Ascii.
#[local] Open Scope Z_scope.

(** ** Printed rules of the NAT table *)

Lemma canonical_words r : printable r -> canonical (rule_words r) = rule_words r.
Proof.
  intros Hr. unfold canonical. rewrite rule_words_parse by done. unfold rule_words. cbn [nr_src nr_dst nr_in
    nr_out nr_proto nr_dport nr_established nr_target].
  assert (forall flag c, cidr_words flag (shown c) = cidr_words flag c) as Hc; [|by rewrite !Hc].
  intros flag [c|]; [|done]. cbn. destruct (cidr_len c =? 0) eqn:E; [done|]. cbn. by rewrite E.
Qed.

Lemma cidr_words_ok flag c : is_word flag -> words_ok (cidr_words flag c).
Proof.
  intros Hf. destruct c as [c|]; [|constructor]. simpl. destruct (cidr_len c =? 0); [constructor|].
  assert (is_word (cidr_text c)) as Hc; [|by constructor; [|constructor]].
  unfold cidr_text. split; [by destruct (fmt_ipv4 (cidr_base c))|].
  apply plain_app; [apply plain_ipv4|]. apply plain_app; [by repeat constructor|].
  apply plain_digits, fmt_nat_all_digits.
Qed.

(** The rule that keeps traffic between two subnets from being translated. *)
Definition exemption (bridge : string) (l e : Cidr) : Rule :=
  Build_Rule (Some l) (Some e) None (Some (true, bridge)) None None false Return.

Lemma exemption_printed bridge local exempt :
  validate_iface_name bridge = Ok tt -> validate_ipv4_cidr local = Ok tt -> validate_ipv4_cidr exempt = Ok tt ->
  printed_rule (canonical (nat_exemption bridge local exempt)).
Proof.
  intros Hb%iface_word [l Hl]%valid_cidr [e He]%valid_cidr.
  assert (parse_rule (nat_exemption bridge local exempt) = Some (exemption bridge l e)) as Hp.
  { unfold parse_rule, nat_exemption. cbn -[parse_cidr]. rewrite Hl. cbn -[parse_cidr]. rewrite He. done. }
  assert (printable (exemption bridge l e)) as Hpr.
  { split; simpl; [intros c [= <-]; by eapply parse_cidr_ok|intros c [= <-]; by eapply parse_cidr_ok|done|by right]. }
  unfold canonical at 1. rewrite Hp. split_and!; [|by apply canonical_words|].
  - unfold rule_words, words_ok, exemption. cbn -[cidr_words].
    apply Forall_app. split; [by apply cidr_words_ok; repeat constructor|].
    apply Forall_app. split; [by apply cidr_words_ok; repeat constructor|].
    repeat (constructor; [first [exact Hb|by repeat constructor]|]). constructor.
  - unfold rule_words, exemption. cbn -[cidr_words]. rewrite !length_app. simpl. lia.
Qed.

(** ** The chains of a bridge *)

Definition drops (flag : string) (subnets : list string) : list (list string) :=
  (fun s => canonical [flag; s; "-j"; "DROP"]%string) <$> subnets.

Section isolation.
Context `{Iptables} (bridge local_subnet : string) (blocked exempt : list string).
#[local] Set Default Proof Using "Type".

Abbreviation out := (out_chain_of bridge).
Abbreviation ins := (in_chain_of bridge).

Definition jumped (t : Netfilter) : Prop :=
  canonical ["-i"; bridge; "-j"; out]%string ∈ rules_of t "filter" FORWARD_CHAIN /\
  canonical ["-o"; bridge; "-j"; ins]%string ∈ rules_of t "filter" FORWARD_CHAIN.

Definition holding (lo li : list (list string)) (t : Netfilter) : Prop :=
  jumped t /\ rules_of t "filter" out = lo /\ rules_of t "filter" ins = li.

Lemma chains_differ : out <> ins /\ out <> FORWARD_CHAIN /\ ins <> FORWARD_CHAIN.
Proof. by split_and!. Qed.

Lemma holding_nat lo li c l t t' : holding lo li t -> becomes "nat" c l t t' -> holding lo li t'.
Proof. intros ([J1 J2]&Ho&Hi) [_ Hf]. split_and!; [split|..]; rewrite Hf; done. Qed.

(** The filter table is built while the NAT table stays as it is. *)
Section filter_table.
Context (N : list (list string)).
Notation nat_kept t := (rules_of t "nat" "POSTROUTING" = N).
Definition held (lo li : list (list string)) (t : Netfilter) : Prop := holding lo li t /\ nat_kept t.
Notation anything := (fun _ : Netfilter => True).

Lemma held_out lo li l t t' : held lo li t -> becomes "filter" out l t t' -> held l li t'.
Proof.
  intros [([J1 J2]&Ho&Hi) Hn] [Hb Hf]. destruct chains_differ as (D1&D2&D3).
  split; [split_and!; [split|done|]|]; rewrite ?Hf; try done; congruence.
Qed.
Lemma held_in lo li l t t' : held lo li t -> becomes "filter" ins l t t' -> held lo l t'.
Proof.
  intros [([J1 J2]&Ho&Hi) Hn] [Hb Hf]. destruct chains_differ as (D1&D2&D3).
  split; [split_and!; [split| |done]|]; rewrite ?Hf; try done; congruence.
Qed.

Lemma jumps_triple :
  triple anything (fun t => nat_kept t)
    (_ ← ensure_jump_rule FORWARD_CHAIN ["-i"; bridge; "-j"; out];
     ensure_jump_rule FORWARD_CHAIN ["-o"; bridge; "-j"; ins]) (fun _ t => jumped t /\ nat_kept t).
Proof.
  apply (net_triple_bind _ _ _ _ (fun _ t =>
    canonical ["-i"; bridge; "-j"; out]%string ∈ rules_of t "filter" FORWARD_CHAIN /\ nat_kept t)).
  - apply ensure_jump_triple; [done|done|]. intros t t' Hn [-> Hf]. rewrite Hf by done.
    split_and!; [done|by left|done].
  - intros ?. apply ensure_jump_triple; [done|by intros t []|].
    intros t t' [Ht Hn] [E Hf]. split; [done|]. unfold jumped. rewrite E, Hf by done.
    split_and!; [by right|by left|done].
Qed.

Lemma flushes_triple :
  triple anything (fun t => jumped t /\ nat_kept t) (_ ← flush_chain out; flush_chain ins)
    (fun _ => held [] []).
Proof.
  apply (net_triple_bind _ _ _ _ (fun _ t => exists li, held [] li t)).
  - apply flush_triple; [done|]. intros t t' [Hj Hn] Hb. split; [done|]. eexists.
    eapply held_out; [|exact Hb]. by split_and!.
  - intros ?. apply flush_triple; [done|]. intros t t' [li Hh] Hb. split; [done|]. by eapply held_in.
Qed.

Lemma append_out_iso lo li w s :
  triple anything (held lo li) (run_cmd "iptables" ("-A" :: out :: w :: s))
    (fun _ => held (lo ++ [canonical (w :: s)]) li).
Proof.
  apply append_triple; [done|]. intros t t' Hh Hb. split; [done|]. eapply held_out; [exact Hh|].
  by destruct Hh as [(_&<-&_) _].
Qed.
Lemma append_in_iso lo li w s :
  triple anything (held lo li) (run_cmd "iptables" ("-A" :: ins :: w :: s))
    (fun _ => held lo (li ++ [canonical (w :: s)])).
Proof.
  apply append_triple; [done|]. intros t t' Hh Hb. split; [done|]. eapply held_in; [exact Hh|].
  by destruct Hh as [(_&_&<-) _].
Qed.

Lemma blocks_triple :
  triple anything (held [] []) (net_each (block_subnet out ins) blocked)
    (fun _ => held (drops "-d" blocked) (drops "-s" blocked)).
Proof.
  apply (triple_each anything (fun dn => held (drops "-d" dn) (drops "-s" dn))).
  intros dn s rest _. unfold block_subnet, drops. rewrite !fmap_app.
  eapply net_triple_bind; [apply append_out_iso|]. intros ?. apply append_in_iso.
Qed.
End filter_table.

Notation anything := (fun _ : Netfilter => True).

(** The exemptions in the NAT table are printed as the tool can read them. *)
Definition tidy_nat (t : Netfilter) : Prop :=
  Forall (fun w => is_exemption_line bridge local_subnet (rule_line "POSTROUTING" w) = true -> printed_rule w)
    (rules_of t "nat" "POSTROUTING").

Definition valid_inputs : Prop :=
  validate_iface_name bridge = Ok tt /\ validate_ipv4_cidr local_subnet = Ok tt /\
  Forall (fun s => validate_ipv4_cidr s = Ok tt) blocked /\
  Forall (fun s => validate_ipv4_cidr s = Ok tt) exempt.

Lemma ensure_exemption_triple (R : Netfilter -> Prop) e :
  valid_inputs -> e ∈ exempt -> (forall c l t t', R t -> becomes "nat" c l t t' -> R t') ->
  triple anything (fun t => R t /\ tidy_nat t) (ensure_nat_exemption_rule bridge local_subnet e)
    (fun _ t => R t /\ tidy_nat t).
Proof.
  intros (Hb&Hl&_&He) Hin HR. rewrite Forall_forall in He. eapply net_triple_bind.
  - eapply (triple_try _ _ _ _ _ _ (fun _ t => R t /\ tidy_nat t)); [done|done|done| |done].
    by intros t t' Ht [-> _]%effect_spec.
  - intros r. destruct (is_ok r); [by apply net_triple_ret|].
    eapply (triple_cmd _ _ _ _ _ _ (fun t => R t /\ tidy_nat t)); [done|done|done|].
    intros t t' [Hr Ht] Hbe%effect_spec. split; [done|]. split; [by eapply HR|]. unfold tidy_nat.
    rewrite (proj1 Hbe). constructor; [|done]. intros _. apply exemption_printed; auto.
Qed.

Lemma nat_header t : is_exemption_line bridge local_subnet (chain_line t "POSTROUTING") = false.
Proof.
  unfold is_exemption_line. apply andb_false_iff. right.
  unfold chain_line. destruct (nf_forward_policy t); vm_compute; reflexivity.
Qed.

Lemma exemptions_triple (R : Netfilter -> Prop) :
  valid_inputs -> (forall c l t t', R t -> becomes "nat" c l t t' -> R t') ->
  triple anything (fun t => R t /\ tidy_nat t) (sync_nat_exemption_rules bridge local_subnet exempt)
    (fun _ => R).
Proof.
  intros Hv HR. eapply net_triple_bind.
  { apply (triple_each anything (fun _ t => R t /\ tidy_nat t)). intros dn e rest He.
    apply ensure_exemption_triple; [done|rewrite He; set_solver|done]. }
  intros ?. eapply net_triple_bind.
  { eapply (triple_capture _ _ _ _ _ _ (fun text t => (R t /\ tidy_nat t) /\
      str_lines text ≡ₚ listing t "nat" "POSTROUTING")); [done|done|done|].
    by intros t t' text Ht ->%effect_spec Hp. }
  intros text k ((Hr&Ht)&Hlines).
  destruct (listed_removal_triple ["-t"; "nat"]%string "nat" "POSTROUTING" (is_exemption_line bridge local_subnet)
    (nat_exemption bridge local_subnet <$> exempt) ltac:(split; [done|by repeat constructor]) ltac:(done)
    anything R _ _ (netfilter k) ltac:(done) ltac:(intros; by eapply HR) eq_refl Hlines (nat_header _) Ht k)
    as [Htr Hres]; [done|]. split; [done|].
  destruct (net_each _ _ k) as [tr [k' [u|e]]]; simpl in *; [by destruct Hres|done].
Qed.

Definition isolated (t : Netfilter) : Prop :=
  holding (drops "-d" blocked ++ [["-j"; "RETURN"]%string]) (drops "-s" blocked ++ [["-j"; "RETURN"]%string]) t.

Lemma isolation_triple t0 :
  tidy_nat t0 ->
  triple anything (fun t => t = t0) (sync_network_isolation bridge local_subnet blocked exempt)
    (fun _ t => valid_inputs /\ isolated t).
Proof.
  intros Htidy. destruct validate_not_unfinished as (V1&V2&_).
  assert (forall l, for_each validate_ipv4_cidr l <> Err Unfinished) as V3.
  { induction l as [|x l IH]; [done|]. simpl. destruct (validate_ipv4_cidr x) eqn:E; simpl; [done|].
    rewrite <- E. apply V2. }
  assert (forall {A} (r : result NetError A) (m : A -> Net unit) Q P, r <> Err Unfinished ->
    (forall a, r = Ok a -> triple anything P (m a) Q) -> triple anything P (net_of r ≫= m) Q) as Hof.
  { intros A r m Q P Hr Hm. destruct r as [a|e].
    - eapply net_triple_bind; [by apply (triple_of _ _ _ (fun b t => b = a /\ P t)); [intros b t [= <-]|]|].
      intros b. apply triple_pure_l. intros ->. by apply Hm.
    - intros k Hk. simpl. split; [done|congruence]. }
  apply Hof; [done|]. intros [] Vb. apply Hof; [done|]. intros [] Vl.
  apply Hof; [done|]. intros [] Vbl%for_each_ok. apply Hof; [done|]. intros [] Vex%for_each_ok.
  set (N := rules_of t0 "nat" "POSTROUTING").
  apply (triple_pre _ _ (fun t => rules_of t "nat" "POSTROUTING" = N)); [by intros ? ->|].
  assert (stable (fun t => rules_of t "nat" "POSTROUTING" = N)) as Hst.
  { intros table c t t' Hn Hb. by rewrite (becomes_id _ _ _ _ Hb). }
  eapply net_triple_bind; [by apply ensure_chain_triple|]. intros ?.
  eapply net_triple_bind; [by apply ensure_chain_triple|]. intros ?.
  eapply triple_assoc; [apply jumps_triple|]. intros ?.
  eapply triple_assoc; [apply flushes_triple|]. intros ?.
  eapply net_triple_bind; [apply blocks_triple|]. intros ?.
  eapply net_triple_bind; [apply append_out_iso|]. intros ?.
  eapply net_triple_bind; [apply append_in_iso|]. intros ?.
  assert valid_inputs as Hv by by split_and!.
  eapply triple_post; [eapply triple_pre; [|apply (exemptions_triple isolated Hv)]|].
  - intros t [Hh Hn]. split; [exact Hh|]. unfold tidy_nat. by rewrite Hn.
  - intros c l t t'. apply holding_nat.
  - by intros.
Qed.
End isolation.

(** ** What the chains decide *)

Definition subnet_rule (dst : bool) (c : Cidr) : Rule :=
  Build_Rule (if dst then None else Some c) (if dst then Some c else None) None None None None false Drop.

(** The address is in one of the subnets. *)
Definition in_subnets (subnets : list string) (addr : Z) : bool :=
  existsb (fun s => match parse_cidr s with Some c => in_cidr c addr | None => false end) subnets.

Lemma walk_drops (dst : bool) subnets sub p :
  Forall (fun s => validate_ipv4_cidr s = Ok tt) subnets ->
  walk sub (drops (if dst then "-d" else "-s") subnets ++ [["-j"; "RETURN"]%string]) p
  = if in_subnets subnets (if dst then p_dst p else p_src p) then Some Dropped else None.
Proof.
  induction 1 as [|s subnets [c Hc]%valid_cidr _ IH]; [done|].
  unfold drops, in_subnets in *. rewrite fmap_cons, <- app_comm_cons. cbn [existsb]. rewrite Hc.
  rewrite (walk_canonical _ _ (subnet_rule dst c)).
  - cbn [nr_target subnet_rule]. assert (rule_matches_packet (subnet_rule dst c) p =
      in_cidr c (if dst then p_dst p else p_src p)) as ->.
    { unfold rule_matches_packet. by destruct dst; cbn; rewrite !andb_true_r. }
    destruct (in_cidr c _); [done|]. exact IH.
  - unfold parse_rule. destruct dst; cbn -[parse_cidr]; by rewrite Hc.
  - split; simpl; [..|done|by right]; destruct dst; try done; intros c' [= <-]; by eapply parse_cidr_ok.
Qed.

Lemma isolation_verdicts `{Iptables} bridge local_subnet blocked exempt k tr k' :
  tidy_nat bridge local_subnet (netfilter k) ->
  sync_network_isolation bridge local_subnet blocked exempt k = (tr, (k', Ok tt)) ->
  jumped bridge (netfilter k') /\
  forall p,
    judge 1 (netfilter k') (out_chain_of bridge) p
    = (if in_subnets blocked (p_dst p) then Some Dropped else None) /\
    judge 1 (netfilter k') (in_chain_of bridge) p
    = (if in_subnets blocked (p_src p) then Some Dropped else None).
Proof.
  intros Ht Hrun. destruct (isolation_triple bridge local_subnet blocked exempt _ Ht k eq_refl) as [_ Hres].
  rewrite Hrun in Hres. simpl in Hres. destruct Hres as [(_&_&Hbl&_) (Hj&Ho&Hi)]. split; [done|].
  intros p. cbn [judge]. rewrite Ho, Hi. split.
  - by apply (walk_drops true).
  - by apply (walk_drops false).
Qed.

(** C39. Once the isolation of a network is applied, its two chains drop a packet
    exactly when its destination, or its source, lies in a blocked subnet, and hand
    every other packet back to [FORWARD], which jumps to them for the bridge. *)
Theorem network_isolated `{Iptables} bridge local_subnet blocked exempt k tr k' :
  tidy_nat bridge local_subnet (netfilter k) ->
  sync_network_isolation bridge local_subnet blocked exempt k = (tr, (k', Ok tt)) ->
  jumped bridge (netfilter k') /\
  forall p,
    judge 1 (netfilter k') (out_chain_of bridge) p
    = (if in_subnets blocked (p_dst p) then Some Dropped else None) /\
    judge 1 (netfilter k') (in_chain_of bridge) p
    = (if in_subnets blocked (p_src p) then Some Dropped else None).
Proof. apply isolation_verdicts. Qed.

Lemma network_isolated_witness :
  exists t', jumped "br0" t' /\ judge 1 t' (out_chain_of "br0") stray_packet = Some Dropped.
Proof.
  pose (run := sync_network_isolation (H := simulator) "br0" "10.1.0.0/24" ["10.2.0.0/24"%string] [] fresh_tables).
  exists run.2.1.
  destruct (network_isolated (H := simulator) "br0" "10.1.0.0/24" ["10.2.0.0/24"%string] [] fresh_tables
    run.1 run.2.1) as [Hj Hv].
  - by constructor.
  - apply run_ended. vm_compute. reflexivity.
  - split; [exact Hj|]. destruct (Hv stray_packet) as [Ho _]. etransitivity; [exact Ho|].
    vm_compute. reflexivity.
Defined.
