(* ===== verification/VpcIsolation.v ===== *)
(** * VpcIsolation: the boundaries of the VPCs, from the tables to the packets

    The server computes what a bridge must block from the networks attached in the cluster
    ([NetworkPolicy.v], [NetworkOps.v]) and the node turns the subnets into chains
    ([NodeIsolation.v]).  Put together: a packet of a network is dropped exactly when its
    other end lies in an attached network outside the VPC. *)

From S2P Require Import Prelude Text Common Errors Secrets Tables NodeApi World Samples Ipv4 Netfilter Networks NetworkPolicy NetworkOps.
From S2P Require Import NodeFirewall FirewallFacts FirewallCorrect NodeIsolation.
#[local] Open Scope Z_scope.

(** The address lies in a network that is attached to a host of the cluster and is not in
    the VPC of [row]; a network without a VPC is kept from none. *)
Definition outside_vpc (db : Db) (row : Network) (addr : Z) : Prop :=
  exists vpc host h other other_row bridge c,
    net_vpc_name row = Some vpc /\
    t_host_networks db !! (host, other) = Some bridge /\ t_hosts db !! host = Some h /\
    t_networks db !! other = Some other_row /\ net_vpc_name other_row <> Some vpc /\
    parse_cidr (net_subnet other_row) = Some c /\ in_cidr c addr = true.

Definition networks_keyed (db : Db) : Prop := map_Forall (fun k n => net_id n = k) (t_networks db).

Section isolation.
Context {coll : Collation}.

(** The subnets the server sends for the bridge of a network on a host. *)
Definition blocked_by_server (db : Db) (host_id : Uuid) (row : Network) : list string :=
  blocked_subnets_for_network (network_from_row row) host_id
    (attached_networks_for_host (attached_rows db) host_id) (attached_rows db).

Lemma elem_attached_rows db a :
  a ∈ attached_rows db <-> exists host h other row bridge,
    t_host_networks db !! (host, other) = Some bridge /\ t_hosts db !! host = Some h /\ t_networks db !! other = Some row /\
    a = {| an_host_id := h_id h; an_host_address := h_address h; an_host_port := h_port h;
           an_network := network_from_row row; an_bridge_name := bridge |}.
Proof.
  unfold attached_rows. rewrite list_elem_of_omap. setoid_rewrite merge_sort_Permutation. unfold attachments.
  setoid_rewrite list_elem_of_omap. split.
  - intros ([[host row] bridge]&([[host' other] bridge']&Hin&Hx)&Ha). apply elem_of_map_to_list in Hin. simpl in *.
    apply fmap_Some in Hx as (row'&Hrow&[= -> -> ->]). apply fmap_Some in Ha as (h&Hh&->). by exists host', h, other, row', bridge'.
  - intros (host&h&other&row&bridge&Hin&Hh&Hrow&->). exists (host, row, bridge). split.
    + exists (host, other, bridge). rewrite elem_of_map_to_list. split; [done|]. simpl. by rewrite Hrow.
    + simpl. by rewrite Hh.
Qed.

Lemma in_subnets_true l addr :
  in_subnets l addr = true <-> exists s c, s ∈ l /\ parse_cidr s = Some c /\ in_cidr c addr = true.
Proof.
  unfold in_subnets. rewrite existsb_exists. split.
  - intros (s&Hs%list_elem_of_In&Hc). destruct (parse_cidr s) as [c|] eqn:E; [|done]. by exists s, c.
  - intros (s&c&Hs%list_elem_of_In&E&Hc). exists s. by rewrite E.
Qed.

Lemma blocked_outside db host_id nid row addr :
  networks_keyed db -> t_networks db !! nid = Some row ->
  in_subnets (blocked_by_server db host_id row) addr = true <-> outside_vpc db row addr.
Proof.
  intros Hk Hrow. rewrite in_subnets_true. unfold blocked_by_server. split.
  - intros (s&c&Hs&Hc&Ha). destruct (net_vpc_name row) as [vpc|] eqn:Hv.
    + apply (elem_blocked (network_from_row row) host_id _ vpc) in Hs as (a&Hin&_&Hvpc&->); [|done].
      apply elem_attached_rows in Hin as (host&h&other&row'&bridge&H1&H2&H3&->).
      exists vpc, host, h, other, row', bridge, c. by split_and!.
    + exfalso. unfold blocked_subnets_for_network in Hs. simpl in Hs. rewrite Hv in Hs. by apply not_elem_of_nil in Hs.
  - intros (vpc&host&h&other&row'&bridge&c&Hv&H1&H2&H3&Hne&Hc&Ha). exists (net_subnet row'), c. split_and!; [|done|done].
    apply (elem_blocked (network_from_row row) host_id _ vpc); [done|].
    eexists. split; [apply elem_attached_rows; exists host, h, other, row', bridge; by split_and!|]. simpl. split_and!; [|done|done].
    intros Hid. apply Hne. rewrite (Hk _ _ H3), (Hk _ _ Hrow) in Hid. subst. by rewrite Hrow in H3; injection H3 as <-.
Qed.

(** C38. Isolation end to end: once the node has applied what the server computes from the
    tables for the bridge of a network, the chains of the bridge drop a packet exactly
    when the other end lies in an attached network of another VPC or of none, and hand
    every other packet back; traffic inside the VPC is never dropped, and the bridge of a
    network without a VPC drops nothing. *)
Theorem vpc_isolation_enforced `{Iptables} db host_id nid row bridge k tr k' p :
  networks_keyed db -> t_networks db !! nid = Some row -> tidy_nat bridge (net_subnet row) (netfilter k) ->
  sync_network_isolation bridge (net_subnet row) (blocked_by_server db host_id row)
    (nat_exempt_subnets_for_network (network_from_row row) (attached_rows db)) k = (tr, (k', Ok tt)) ->
  let out := judge 1 (netfilter k') (out_chain_of bridge) p in
  let ins := judge 1 (netfilter k') (in_chain_of bridge) p in
  (outside_vpc db row (p_dst p) /\ out = Some Dropped \/ ~ outside_vpc db row (p_dst p) /\ out = None) /\
  (outside_vpc db row (p_src p) /\ ins = Some Dropped \/ ~ outside_vpc db row (p_src p) /\ ins = None).
Proof.
  intros Hk Hrow Ht Hrun. apply isolation_verdicts in Hrun as [_ Hv]; [|done]. destruct (Hv p) as [Ho Hi].
  cbv zeta. rewrite Ho, Hi. pose proof (fun addr => blocked_outside db host_id nid row addr Hk Hrow) as Hb.
  clear Hv Ho Hi. split; (destruct (in_subnets _ _) eqn:E; [left; split; [by apply Hb|done]|right; split; [|done]; intros Hout%Hb; congruence]).
Qed.
End isolation.

(** ** Two VPCs *)

Section witness.
#[local] Instance isolation_collation : Collation := encoding_collation.

Definition two_vpcs : Db :=
  with_networks (fun _ => {[10%N := vpc_network 10 "10.1.0.0/24" "blue"; 11%N := vpc_network 11 "10.2.0.0/24" "red"]})
  (with_host_networks (fun _ => {[(2%N, 11%N) := "br0"%string]})
  (with_hosts (fun _ => {[2%N := host_2]}) empty_db)).

Lemma vpc_isolation_enforced_witness :
  let run := sync_network_isolation (H := simulator) "br0" "10.1.0.0/24" ["10.2.0.0/24"%string] [] fresh_tables in
  is_ok run.2.2 = true /\ judge 1 run.2.1 (out_chain_of "br0") stray_packet = Some Dropped.
Proof.
  intros run. split; [by vm_compute|].
  destruct (vpc_isolation_enforced (H := simulator) two_vpcs 1 10 (vpc_network 10 "10.1.0.0/24" "blue") "br0" fresh_tables
    run.1 run.2.1 stray_packet) as [[[_ Ho]|[Hn _]] _].
  - intros n r Hr. cbn in Hr. by apply lookup_insert_Some in Hr as [[<- <-]|[_ [<- <-]%lookup_singleton_Some]].
  - reflexivity.
  - by constructor.
  - apply run_ended. vm_compute. reflexivity.
  - exact Ho.
  - exfalso. apply Hn. eexists "blue"%string, 2%N, host_2, 11%N, (vpc_network 11 "10.2.0.0/24" "red"), "br0"%string, _.
    split_and!; [done|done|done|done|done|by vm_compute|by vm_compute].
Defined.
End witness.
