(* ===== verification/NodeConfig.v ===== *)
(** * NodeConfig: from the request of the server to the configuration of the hypervisor

    [qarax-node/src/cloud_hypervisor/manager/config.rs]: the messages a node
    receives ([proto/node.proto]) become the JSON document of Cloud Hypervisor.
    Most of it copies fields; disks are typed by the first bytes of the image, and
    a NUMA placement splits the memory into zones.  The zones of a placement hold
    exactly the memory of the VM, and a configuration is refused only for an
    incomplete vsock device. *)

From S2P Require Import Prelude Text Errors Tables NodeApi.
From Stdlib Require Import Ascii.
#[local] Open Scope Z_scope.

(** ** Messages *)

Record TokenBucket := { tb_size : Z; tb_refill_time : Z; tb_one_time_burst : option Z }.
Record RateLimiterConfig := { rl_bandwidth : option TokenBucket; rl_ops : option TokenBucket }.
Record RateLimitGroupConfig := { rg_id : string; rg_config : option RateLimiterConfig }.

Record CpuTopology := {
  ct_threads_per_core : option Z; ct_cores_per_die : option Z;
  ct_dies_per_package : option Z; ct_packages : option Z
}.
Record ProtoCpus := {
  pcp_boot_vcpus : Z; pcp_max_vcpus : Z; pcp_topology : option CpuTopology;
  pcp_kvm_hyperv : option bool; pcp_max_phys_bits : option Z
}.
Record ProtoMemory := {
  pm_size : Z; pm_hotplug_size : option Z; pm_mergeable : option bool; pm_shared : option bool;
  pm_hugepages : option bool; pm_hugepage_size : option Z; pm_prefault : option bool;
  pm_thp : option bool
}.
Record ProtoPayload := {
  pp_kernel : option string; pp_cmdline : option string; pp_initramfs : option string;
  pp_firmware : option string
}.

(** The fields the control plane sets are those of [NodeApi.v]. *)
Record ProtoDisk := { pd_disk : DiskConfig; pd_rate_limiter : option RateLimiterConfig }.
Record ProtoNet := { pn_net : NetConfig; pn_rate_limiter : option RateLimiterConfig }.
Record ProtoVfio := { pf_device : VfioDeviceConfig; pf_pci_segment : option Z }.
Record ProtoVsock := { pk_vsock : VsockConfig; pk_pci_segment : option Z }.

Record ProtoVmConfig := {
  pv_vm_id : string;
  pv_cpus : option ProtoCpus;
  pv_memory : option ProtoMemory;
  pv_payload : option ProtoPayload;
  pv_disks : list ProtoDisk;
  pv_networks : list ProtoNet;
  pv_rng : option RngConfig;
  pv_serial : option ConsoleConfig;
  pv_console : option ConsoleConfig;
  pv_rate_limit_groups : list RateLimitGroupConfig;
  pv_cloud_init : option CloudInitConfig;
  pv_devices : list ProtoVfio;
  pv_vsock : option ProtoVsock;
  pv_numa_placement : option NumaPlacement;
  pv_hypervisor : Z
}.

(** ** The configuration of Cloud Hypervisor *)

Record CpuAffinity := { ca_vcpu : Z; ca_host_cpus : list Z }.
Record SdkCpus := {
  sc_boot_vcpus : Z; sc_max_vcpus : Z; sc_topology : option CpuTopology;
  sc_kvm_hyperv : option bool; sc_max_phys_bits : option Z; sc_affinity : option (list CpuAffinity)
}.
Record MemoryZone := {
  mz_id : string; mz_size : Z; mz_host_numa_node : option Z; mz_shared : option bool;
  mz_hugepages : option bool; mz_hugepage_size : option Z
}.
Record SdkMemory := {
  sm_size : Z; sm_hotplug_size : option Z; sm_mergeable : option bool; sm_shared : option bool;
  sm_hugepages : option bool; sm_hugepage_size : option Z; sm_prefault : option bool;
  sm_thp : option bool; sm_zones : option (list MemoryZone)
}.
Record NumaConfig := {
  nu_guest_numa_id : Z; nu_cpus : option (list Z); nu_memory_zones : option (list string)
}.
Inductive ImageType := Qcow2 | Raw.
Record SdkDisk := {
  sd_path : option string; sd_readonly : option bool; sd_direct : option bool;
  sd_num_queues : option Z; sd_queue_size : option Z; sd_vhost_user : option bool;
  sd_vhost_socket : option string; sd_rate_limiter_config : option RateLimiterConfig;
  sd_pci_segment : option Z; sd_id : option string; sd_serial : option string;
  sd_rate_limit_group : option string; sd_image_type : option ImageType
}.
Record SdkNet := {
  sn_tap : option string; sn_ip : option string; sn_mask : option string; sn_mac : option string;
  sn_host_mac : option string; sn_mtu : option Z; sn_iommu : option bool;
  sn_num_queues : option Z; sn_queue_size : option Z; sn_vhost_user : option bool;
  sn_vhost_socket : option string; sn_vhost_mode : option string; sn_id : option string;
  sn_pci_segment : option Z; sn_rate_limiter_config : option RateLimiterConfig;
  sn_offload_tso : option bool; sn_offload_ufo : option bool; sn_offload_csum : option bool
}.
Inductive SdkConsoleMode := ModeOff | ModePty | ModeTty | ModeFile | ModeSocket | ModeNull.
Record SdkConsole := {
  so_file : option string; so_socket : option string; so_mode : SdkConsoleMode;
  so_iommu : option bool
}.
Record SdkVsock := {
  sk_cid : Z; sk_socket : string; sk_iommu : option bool; sk_pci_segment : option Z;
  sk_id : option string
}.
Record SdkDevice := {
  sdev_path : string; sdev_iommu : option bool; sdev_pci_segment : option Z;
  sdev_id : option string
}.

Record SdkVmConfig := {
  sv_payload : ProtoPayload;
  sv_cpus : option SdkCpus;
  sv_memory : option SdkMemory;
  sv_disks : option (list SdkDisk);
  sv_net : option (list SdkNet);
  sv_rng : option RngConfig;
  sv_serial : option SdkConsole;
  sv_console : option SdkConsole;
  sv_devices : option (list SdkDevice);
  sv_vsock : option SdkVsock;
  sv_numa : option (list NumaConfig)
}.

(** ** Conversions *)

Definition proto_cpus_to_sdk (cpus : ProtoCpus) : SdkCpus :=
  {| sc_boot_vcpus := pcp_boot_vcpus cpus; sc_max_vcpus := pcp_max_vcpus cpus;
     sc_topology := pcp_topology cpus; sc_kvm_hyperv := pcp_kvm_hyperv cpus;
     sc_max_phys_bits := pcp_max_phys_bits cpus; sc_affinity := None |}.

Definition proto_memory_to_sdk (memory : ProtoMemory) : SdkMemory :=
  {| sm_size := pm_size memory; sm_hotplug_size := pm_hotplug_size memory;
     sm_mergeable := pm_mergeable memory; sm_shared := pm_shared memory;
     sm_hugepages := pm_hugepages memory; sm_hugepage_size := pm_hugepage_size memory;
     sm_prefault := pm_prefault memory; sm_thp := pm_thp memory; sm_zones := None |}.

(** The magic number [QFI\xfb] of a qcow2 image. *)
Definition qcow2_magic : string :=
  String "Q" (String "F" (String "I" (String (ascii_of_nat 251) EmptyString))).
Definition is_qcow2 (content : option string) : bool :=
  match content with Some c => starts_with qcow2_magic c | None => false end.

Definition proto_net_to_sdk (net : ProtoNet) : SdkNet :=
  let n := pn_net net in
  {| sn_tap := nc_tap n; sn_ip := nc_ip n; sn_mask := nc_mask n; sn_mac := nc_mac n;
     sn_host_mac := nc_host_mac n; sn_mtu := nc_mtu n; sn_iommu := nc_iommu n;
     sn_num_queues := nc_num_queues n; sn_queue_size := nc_queue_size n;
     sn_vhost_user := nc_vhost_user n; sn_vhost_socket := nc_vhost_socket n;
     sn_vhost_mode := (fun m => if m =? 1 then "Server"%string else "Client"%string) <$> nc_vhost_mode n;
     sn_id := Some (nc_id n); sn_pci_segment := nc_pci_segment n;
     sn_rate_limiter_config := pn_rate_limiter net; sn_offload_tso := nc_offload_tso n;
     sn_offload_ufo := nc_offload_ufo n; sn_offload_csum := nc_offload_csum n |}.

Definition console_mode (mode : Z) : SdkConsoleMode :=
  if mode =? 0 then ModeOff else if mode =? 1 then ModePty else if mode =? 2 then ModeTty
  else if mode =? 3 then ModeFile else if mode =? 4 then ModeSocket else ModeNull.
Definition proto_console_to_sdk (console : ConsoleConfig) : SdkConsole :=
  {| so_file := cc_file console; so_socket := cc_socket console;
     so_mode := console_mode (cc_mode console); so_iommu := cc_iommu console |}.

(** Errors of the manager; the text stands for the source error's message. *)
Inductive VmManagerError :=
| VmNotFound (id : string) | VmAlreadyExists (id : string) | SpawnError (text : string)
| SdkError (text : string) | InvalidConfig (text : string) | ProcessError (text : string)
| TapError (text : string) | OverlayBdError (text : string) | MigrationError (text : string)
| StorageError (text : string) | ExecUnavailable (text : string) | ExecInvalid (text : string)
| ExecError (text : string) | ExecTimeout (secs : Z).

Definition proto_vsock_to_sdk (vsock : ProtoVsock) : result VmManagerError SdkVsock :=
  cid ← ok_or (InvalidConfig "vsock.cid is required") (vs_cid (pk_vsock vsock));
  socket ← ok_or (InvalidConfig "vsock.socket is required") (vs_socket (pk_vsock vsock));
  Ok {| sk_cid := cid; sk_socket := socket; sk_iommu := vs_iommu (pk_vsock vsock);
        sk_pci_segment := pk_pci_segment vsock; sk_id := vs_id (pk_vsock vsock) |}.

Definition proto_vfio_device_to_sdk (device : ProtoVfio) : SdkDevice :=
  {| sdev_path := vf_path (pf_device device); sdev_iommu := vf_iommu (pf_device device);
     sdev_pci_segment := pf_pci_segment device; sdev_id := Some (vf_id (pf_device device)) |}.

(** ** NUMA placement *)

Definition default_cpus : SdkCpus :=
  {| sc_boot_vcpus := 1; sc_max_vcpus := 1; sc_topology := None; sc_kvm_hyperv := None;
     sc_max_phys_bits := None; sc_affinity := None |}.
Definition default_memory : SdkMemory :=
  {| sm_size := 0; sm_hotplug_size := None; sm_mergeable := None; sm_shared := None;
     sm_hugepages := None; sm_hugepage_size := None; sm_prefault := None; sm_thp := None;
     sm_zones := None |}.

Definition pinned (placement : NumaPlacement) (cpus : option SdkCpus) : option SdkCpus :=
  match np_cpu_pinning placement with
  | [] => cpus
  | pins =>
      let 'Build_SdkCpus boot max topology hyperv bits _ := default default_cpus cpus in
      Some (Build_SdkCpus boot max topology hyperv bits
        (Some ((fun p => {| ca_vcpu := cp_vcpu p; ca_host_cpus := cp_host_cpus p |}) <$> pins)))
  end.

(** The first zone takes what the division leaves over. *)
Definition zone_of (memory : SdkMemory) (zone_size remainder : Z) (i : nat) (node_id : Z) : MemoryZone :=
  {| mz_id := "zone" +:+ fmt_nat (Z.of_nat i);
     mz_size := if (i =? 0)%nat then zone_size + remainder else zone_size;
     mz_host_numa_node := Some node_id; mz_shared := sm_shared memory;
     mz_hugepages := sm_hugepages memory; mz_hugepage_size := sm_hugepage_size memory |}.

Definition zoned (placement : NumaPlacement) (memory : option SdkMemory) : option SdkMemory :=
  match np_host_numa_node_ids placement with
  | [] => memory
  | node_ids =>
      let memory := default default_memory memory in
      let n := Z.of_nat (length node_ids) in
      let '(zone_size, remainder) :=
        if 0 <? n then (Z.quot (sm_size memory) n, Z.rem (sm_size memory) n) else (sm_size memory, 0) in
      let zones := imap (zone_of memory zone_size remainder) node_ids in
      let 'Build_SdkMemory _ hotplug mergeable shared huge huge_size prefault thp _ := memory in
      Some (Build_SdkMemory 0 hotplug mergeable shared huge huge_size prefault thp (Some zones))
  end.

(** One guest node with all CPUs and zones. *)
Definition guest_numa (placement : NumaPlacement) (cpus : option SdkCpus) : option (list NumaConfig) :=
  if bool_decide (np_memory_zone_ids placement = []) && bool_decide (length (np_cpu_pinning placement) = 0%nat)
  then None
  else
    let boot_vcpus := default 1 (sc_boot_vcpus <$> cpus) in
    Some [{| nu_guest_numa_id := 0; nu_cpus := Some (seqZ 0 boot_vcpus);
             nu_memory_zones := match np_memory_zone_ids placement with [] => None | ids => Some ids end |}].

Definition apply_numa_placement (sdk_config : SdkVmConfig) (placement : NumaPlacement) : SdkVmConfig :=
  let 'Build_SdkVmConfig payload cpus memory disks net rng serial console devices vsock numa := sdk_config in
  let cpus := pinned placement cpus in
  Build_SdkVmConfig payload cpus (zoned placement memory) disks net rng serial console devices vsock
    (match guest_numa placement cpus with Some n => Some n | None => numa end).

(** ** The whole configuration *)

Definition some_list {A} (l : list A) : option (list A) := match l with [] => None | _ => Some l end.

Section config.
(** The content of a readable file. *)
Context (read_file : string -> option string).

Definition proto_disk_to_sdk (disk : ProtoDisk) : SdkDisk :=
  let d := pd_disk disk in
  {| sd_path := dc_path d; sd_readonly := dc_readonly d; sd_direct := dc_direct d;
     sd_num_queues := dc_num_queues d; sd_queue_size := dc_queue_size d;
     sd_vhost_user := dc_vhost_user d; sd_vhost_socket := dc_vhost_socket d;
     sd_rate_limiter_config := pd_rate_limiter disk; sd_pci_segment := dc_pci_segment d;
     sd_id := Some (dc_id d); sd_serial := dc_serial d; sd_rate_limit_group := dc_rate_limit_group d;
     sd_image_type := Some (match dc_path d with
                            | Some path => if is_qcow2 (read_file path) then Qcow2 else Raw
                            | None => Raw
                            end) |}.

Definition empty_payload : ProtoPayload :=
  {| pp_kernel := None; pp_cmdline := None; pp_initramfs := None; pp_firmware := None |}.

Definition proto_to_sdk_config (config : ProtoVmConfig) : result VmManagerError SdkVmConfig :=
  vsock ← match pv_vsock config with
          | Some vsock => v ← proto_vsock_to_sdk vsock; Ok (Some v)
          | None => Ok None
          end;
  let sdk_config :=
    {| sv_payload := default empty_payload (pv_payload config);
       sv_cpus := proto_cpus_to_sdk <$> pv_cpus config;
       sv_memory := proto_memory_to_sdk <$> pv_memory config;
       sv_disks := some_list (proto_disk_to_sdk <$> pv_disks config);
       sv_net := some_list (proto_net_to_sdk <$> pv_networks config);
       sv_rng := pv_rng config;
       sv_serial := proto_console_to_sdk <$> pv_serial config;
       sv_console := proto_console_to_sdk <$> pv_console config;
       sv_devices := some_list (proto_vfio_device_to_sdk <$> pv_devices config);
       sv_vsock := vsock; sv_numa := None |} in
  Ok (match pv_numa_placement config with
      | Some placement => apply_numa_placement sdk_config placement
      | None => sdk_config
      end).
End config.

(** ** The zones of a placement *)

Definition total_size (zones : list MemoryZone) : Z := foldr (fun z s => mz_size z + s) 0 zones.

Lemma zones_sum memory zone_size remainder node_ids k :
  total_size (imap (fun i => zone_of memory zone_size remainder (k + i)) node_ids)
  = Z.of_nat (length node_ids) * zone_size
    + (if bool_decide (k = 0%nat /\ node_ids <> []) then remainder else 0).
Proof.
  revert k. induction node_ids as [|id ids IH]; intros k; simpl.
  { rewrite bool_decide_false by (intros [_ ?]; done). lia. }
  rewrite (imap_ext _ (fun i => zone_of memory zone_size remainder (S k + i))) by (intros; unfold compose; by rewrite Nat.add_succ_r).
  rewrite IH. rewrite (bool_decide_false (S k = 0%nat /\ _)) by lia. cbn [mz_size zone_of].
  rewrite Nat.add_0_r. destruct (Nat.eqb_spec k 0) as [->|Hk].
  - rewrite bool_decide_true by done. lia.
  - rewrite bool_decide_false by tauto. lia.
Qed.

Lemma zones_nodes memory zone_size remainder node_ids k :
  mz_host_numa_node <$> imap (fun i => zone_of memory zone_size remainder (k + i)) node_ids = Some <$> node_ids.
Proof.
  revert k. induction node_ids as [|id ids IH]; intros k; [done|]. simpl. f_equal.
  rewrite (imap_ext _ (fun i => zone_of memory zone_size remainder (S k + i))) by (intros; unfold compose; by rewrite Nat.add_succ_r).
  apply IH.
Qed.

Lemma zones_nonneg memory zone_size remainder node_ids :
  0 <= zone_size -> 0 <= remainder ->
  Forall (fun z => 0 <= mz_size z) (imap (zone_of memory zone_size remainder) node_ids).
Proof.
  intros Hz Hr. apply Forall_lookup. intros i z Hl. rewrite list_lookup_imap in Hl.
  destruct (node_ids !! i); [|done]. injection Hl as <-. simpl. destruct (i =? 0)%nat; lia.
Qed.

(** A NUMA placement splits the memory of a VM without loss: the zones, one per
    host node of the placement and in its order, are never negative and together
    hold exactly the memory of the VM, whose own size becomes zero. *)
Theorem numa_memory_conserved placement memory :
  np_host_numa_node_ids placement <> [] -> 0 <= sm_size memory ->
  exists memory' zones,
    zoned placement (Some memory) = Some memory' /\ sm_size memory' = 0 /\ sm_zones memory' = Some zones /\
    total_size zones = sm_size memory /\ Forall (fun z => 0 <= mz_size z) zones /\
    mz_host_numa_node <$> zones = Some <$> np_host_numa_node_ids placement.
Proof.
  intros Hne Hs. unfold zoned. destruct (np_host_numa_node_ids placement) as [|id ids] eqn:E; [done|].
  cbn [default]. set (n := Z.of_nat (length (id :: ids))).
  assert (0 < n) as Hn by (unfold n; simpl; lia). destruct (Z.ltb_spec 0 n); [|lia].
  pose proof (Z.quot_rem' (sm_size memory) n) as Hq.
  pose proof (Z.rem_nonneg (sm_size memory) n ltac:(lia) Hs) as Hrem.
  pose proof (Z.quot_pos (sm_size memory) n Hs Hn) as Hquot.
  set (zone_size := Z.quot (sm_size memory) n) in *. set (remainder := Z.rem (sm_size memory) n) in *.
  pose proof (zones_sum memory zone_size remainder (id :: ids) 0) as Hsum.
  pose proof (zones_nodes memory zone_size remainder (id :: ids) 0) as Hnodes.
  pose proof (zones_nonneg memory zone_size remainder (id :: ids) Hquot Hrem) as Hnn.
  rewrite bool_decide_true in Hsum by done. fold n in Hsum.
  destruct memory as [size hotplug mergeable shared huge huge_size prefault thp old]. simpl in Hs, Hq.
  eexists _, _. split_and!; [reflexivity|reflexivity|reflexivity| |exact Hnn|exact Hnodes].
  etransitivity; [exact Hsum|]. simpl. lia.
Qed.

Lemma numa_memory_conserved_witness :
  let placement := {| np_host_numa_node_ids := [1; 0; 2]; np_cpu_pinning := []; np_memory_zone_ids := [] |} in
  exists memory' zones,
    zoned placement (Some (proto_memory_to_sdk
      {| pm_size := 1000; pm_hotplug_size := None; pm_mergeable := None; pm_shared := None; pm_hugepages := None;
         pm_hugepage_size := None; pm_prefault := None; pm_thp := None |})) = Some memory' /\
    sm_zones memory' = Some zones /\ (mz_size <$> zones) = [334; 333; 333] /\ total_size zones = 1000.
Proof.
  intros placement. destruct (numa_memory_conserved placement (proto_memory_to_sdk
      {| pm_size := 1000; pm_hotplug_size := None; pm_mergeable := None; pm_shared := None; pm_hugepages := None;
         pm_hugepage_size := None; pm_prefault := None; pm_thp := None |}))
    as (m&zones&Hz&_&Hm&Ht&_); [done|simpl; lia|]. exists m, zones. split_and!; [done|done| |done].
  vm_compute in Hz. injection Hz as <-. injection Hm as <-. reflexivity.
Defined.

(** A configuration is refused only for an incomplete vsock device. *)
Definition vsock_complete (config : ProtoVmConfig) : Prop :=
  match pv_vsock config with
  | Some v => is_Some (vs_cid (pk_vsock v)) /\ is_Some (vs_socket (pk_vsock v))
  | None => True
  end.

Lemma proto_to_sdk_ok read_file config :
  is_ok (proto_to_sdk_config read_file config) = true <-> vsock_complete config.
Proof.
  unfold proto_to_sdk_config, vsock_complete, proto_vsock_to_sdk.
  destruct (pv_vsock config) as [v|]; [|done]. destruct (vs_cid (pk_vsock v)); simpl.
  - destruct (vs_socket (pk_vsock v)); simpl; [split; eauto|]. split; [done|]. by intros [_ [? ?]].
  - split; [done|]. by intros [[? ?] _].
Qed.
