(* ===== verification/NodeManager.v ===== *)
(** * NodeManager: the virtual machines of a node

    The Cloud Hypervisor manager of the agent,
    [qarax-node/src/cloud_hypervisor/manager.rs] with [helpers.rs], [lifecycle.rs],
    [migration.rs] and [hotplug.rs]: creation, start, stop, recovery after a restart
    of the agent, snapshots, live migration, hotplug.

    The state of a node holds the registered VMs and what they use on the host: TAP
    devices and their bridges, files, processes, mapped storage, the kernel.  An
    oracle decides how every command, request and file operation ends.  A request to
    a hypervisor is answered only while its process runs.  A process belongs to the
    value that holds its handle and is killed when that value is dropped
    ([kill_on_drop]). *)

From S2P Require Import Prelude Text Common Errors Secrets Tables NodeApi Ipv4 Netfilter.
From S2P Require Import NodeFirewall NodeConfig.
From Stdlib Require Import Ascii.
#[local] Open Scope Z_scope.

(** ** Parameters *)

(** [prost]: the binary form of a configuration. *)
Class ConfigCodec := {
  encode_to_vec : ProtoVmConfig -> string;
  decode_config : string -> option ProtoVmConfig;
  decode_encode : forall c, decode_config (encode_to_vec c) = Some c
}.

(** The trait [StorageBackend] of [storage/mod.rs], as far as the manager uses the
    OverlayBD backend: a mapped VM is known as such. *)
Class StorageBackend := {
  Store : Type;
  sb_map : string -> json -> Store -> Store * result string string;
  sb_unmap : string -> Store -> Store;
  sb_has_mapping : Store -> string -> bool;
  sb_map_law : forall vm_id config s s' path,
    sb_map vm_id config s = (s', Ok path) -> sb_has_mapping s' vm_id = true
}.

(** ** The state of a node *)

Inductive NodeVmStatus := NsUnknown | NsCreated | NsRunning | NsPaused | NsShutdown.

#[global] Instance NodeVmStatus_eq_dec : EqDecision NodeVmStatus.
Proof. solve_decision. Defined.

(** The state a hypervisor reports. *)
Inductive ChState := ChCreated | ChRunning | ChPaused | ChShutdown.
Definition status_of_ch (s : ChState) : NodeVmStatus :=
  match s with
  | ChCreated => NsCreated | ChRunning => NsRunning | ChPaused => NsPaused | ChShutdown => NsShutdown
  end.

(** The state Firecracker reports. *)
Inductive FcInstanceState := FcNotStarted | FcRunning | FcPaused.

(** A child process and the socket it serves: Cloud Hypervisor, passt, Firecracker. *)
Inductive Proc := ChProc (socket : string) | PasstProc (socket : string) | FcProc (socket : string).

#[global] Instance Proc_eq_dec : EqDecision Proc.
Proof. solve_decision. Defined.

Record VmInstance := {
  vi_proto_config : ProtoVmConfig;
  vi_process : option nat;
  vi_socket_path : string;
  vi_status : NodeVmStatus;
  vi_tap_devices : list string;
  vi_passt_processes : list nat;
  vi_serial_pty_path : option string;
  vi_console_pty_path : option string;
  vi_vsock_socket_path : option string;
  vi_overlaybd : bool
}.

Definition with_status (s : NodeVmStatus) (i : VmInstance) : VmInstance :=
  let 'Build_VmInstance c p k _ t q a b v o := i in Build_VmInstance c p k s t q a b v o.
Definition without_process (i : VmInstance) : VmInstance :=
  let 'Build_VmInstance c _ k s t q a b v o := i in Build_VmInstance c None k s t q a b v o.
Definition with_ptys (serial console : option string) (i : VmInstance) : VmInstance :=
  let 'Build_VmInstance c p k s t q a b v o := i in
  Build_VmInstance c p k s t q (match serial with Some _ => serial | None => a end)
    (match console with Some _ => console | None => b end) v o.

Record VmState := {
  vst_config : ProtoVmConfig; vst_status : NodeVmStatus; vst_memory_actual_size : option Z
}.
Definition to_vm_state (i : VmInstance) : VmState :=
  {| vst_config := vi_proto_config i; vst_status := vi_status i; vst_memory_actual_size := None |}.

(** The body of a request, before it is serialized. *)
Inductive ApiBody :=
| NoBody | VmBody (config : SdkVmConfig) | NetBody (config : SdkNet) | DiskBody (config : SdkDisk)
| DeviceBody (config : SdkDevice) | IdBody (id : string) | ResizeBody (vcpus ram : option Z)
| SnapshotBody (destination_url : string) | RestoreBody (source_url : string)
| ReceiveBody (receiver_url : string) | SendBody (destination_url : string).

(** A request a hypervisor accepted, or a task that will send one. *)
Inductive NodeEvent :=
| Accepted_request (socket path : string) (body : ApiBody)
| Spawned_request (socket path : string) (body : ApiBody).

Section manager.
Context `{ConfigCodec} `{StorageBackend} `{Iptables} `{UuidText}.

Record Node := {
  n_vms : gmap string VmInstance;
  n_taps : gset string;
  n_bridges : gmap string string;
  n_files : gmap string string;
  n_sizes : gmap string Z;
  n_procs : gmap nat Proc;
  n_store : Store;
  n_kernel : Kernel;
  n_next_pid : nat;
  n_next_cid : Z;
  n_step : nat;
  n_events : list NodeEvent
}.

Definition with_vms (f : gmap string VmInstance -> gmap string VmInstance) (n : Node) : Node :=
  let 'Build_Node v t b fs sz p s k i c st ev := n in Build_Node (f v) t b fs sz p s k i c st ev.
Definition with_taps (f : gset string -> gset string) (n : Node) : Node :=
  let 'Build_Node v t b fs sz p s k i c st ev := n in Build_Node v (f t) b fs sz p s k i c st ev.
Definition with_bridges (f : gmap string string -> gmap string string) (n : Node) : Node :=
  let 'Build_Node v t b fs sz p s k i c st ev := n in Build_Node v t (f b) fs sz p s k i c st ev.
Definition with_files (f : gmap string string -> gmap string string) (n : Node) : Node :=
  let 'Build_Node v t b fs sz p s k i c st ev := n in Build_Node v t b (f fs) sz p s k i c st ev.
Definition with_sizes (f : gmap string Z -> gmap string Z) (n : Node) : Node :=
  let 'Build_Node v t b fs sz p s k i c st ev := n in Build_Node v t b fs (f sz) p s k i c st ev.
Definition with_procs (f : gmap nat Proc -> gmap nat Proc) (n : Node) : Node :=
  let 'Build_Node v t b fs sz p s k i c st ev := n in Build_Node v t b fs sz (f p) s k i c st ev.
Definition with_store (s : Store) (n : Node) : Node :=
  let 'Build_Node v t b fs sz p _ k i c st ev := n in Build_Node v t b fs sz p s k i c st ev.
Definition with_kernel (k : Kernel) (n : Node) : Node :=
  let 'Build_Node v t b fs sz p s _ i c st ev := n in Build_Node v t b fs sz p s k i c st ev.
Definition with_counters (f : nat -> nat) (g : Z -> Z) (n : Node) : Node :=
  let 'Build_Node v t b fs sz p s k i c st ev := n in Build_Node v t b fs sz p s k (f i) (g c) st ev.
Definition tick_node (n : Node) : Node :=
  let 'Build_Node v t b fs sz p s k i c st ev := n in Build_Node v t b fs sz p s k i c (S st) ev.
Definition log_event (e : NodeEvent) (n : Node) : Node :=
  let 'Build_Node v t b fs sz p s k i c st ev := n in Build_Node v t b fs sz p s k i c st (ev ++ [e]).

(** How the actions of step [n] end: a command could not be run ([None]) or ended
    with or without success, a process started, a socket became ready, a file
    operation succeeded, a bridge took a device, the answer of a hypervisor. *)
Record HostOracle := {
  ho_command : nat -> option bool;
  ho_spawn : nat -> bool;
  ho_ready : nat -> bool;
  ho_file : nat -> bool;
  ho_netlink : nat -> bool;
  ho_reply : nat -> result string string;
  ho_info : nat -> option (ChState * option Z);
  ho_fc_state : nat -> option FcInstanceState;
  ho_port : nat -> option Z;
  ho_seed : nat -> result string string;
  ho_json : string -> option json
}.

(** The settings of a manager. *)
Context (runtime_dir : string) (overlaybd_configured : bool).

Definition Nd (A : Type) : Type := HostOracle -> Node -> Node * result VmManagerError A.

#[global] Instance Nd_ret : MRet Nd := fun A a o n => (n, Ok a).
#[global] Instance Nd_bind : MBind Nd := fun A B f m o n =>
  match m o n with
  | (n', Ok a) => f a o n'
  | (n', Err e) => (n', Err e)
  end.
Definition nd_throw {A} (e : VmManagerError) : Nd A := fun o n => (n, Err e).
Definition nd_try {A} (m : Nd A) : Nd (result VmManagerError A) := fun o n =>
  let '(n', r) := m o n in (n', Ok r).
Definition nd_get {A} (f : Node -> A) : Nd A := fun o n => (n, Ok (f n)).
Definition nd_set (f : Node -> Node) : Nd unit := fun o n => (f n, Ok tt).
(** One action: the oracle of this step. *)
Definition nd_ask {A} (f : HostOracle -> nat -> A) : Nd A := fun o n => (tick_node n, Ok (f o (n_step n))).
Definition nd_of {A} (r : result VmManagerError A) : Nd A := fun o n => (n, r).

Fixpoint nd_each {A} (f : A -> Nd unit) (l : list A) : Nd unit :=
  match l with
  | [] => mret tt
  | x :: l' => _ ← f x; nd_each f l'
  end.

(** ** Processes and files *)

Definition kill (pids : list nat) (n : Node) : Node :=
  with_procs (fun p => filter (fun e => e.1 ∉ pids) p) n.

(** The handles are dropped when the computation fails. *)
Definition owned {A} (pids : list nat) (m : Nd A) : Nd A := fun o n =>
  match m o n with
  | (n', Err e) => (kill pids n', Err e)
  | r => r
  end.

Definition spawn (p : Proc) : Nd nat :=
  started ← nd_ask ho_spawn;
  if started : bool then
    pid ← nd_get n_next_pid;
    _ ← nd_set (fun n => with_counters S id (with_procs (insert pid p) n));
    mret pid
  else nd_throw (SpawnError "spawn").

Definition file_exists (path : string) : Nd bool := nd_get (fun n => bool_decide (path ∈ dom (n_files n))).
Definition remove_file (path : string) : Nd unit :=
  ok ← nd_ask ho_file;
  if ok : bool then nd_set (with_files (delete path)) else nd_throw (SpawnError "remove").
Definition write_path (path content : string) : Nd unit :=
  ok ← nd_ask ho_file;
  if ok : bool then nd_set (with_files (insert path content)) else nd_throw (SpawnError "write").
Definition create_dir_all : Nd unit :=
  ok ← nd_ask ho_file; if ok : bool then mret tt else nd_throw (SpawnError "mkdir").
Definition remove_if_exists (path : string) : Nd unit :=
  e ← file_exists path;
  if e : bool then _ ← nd_try (remove_file path); mret tt else mret tt.

(** A request to the hypervisor that listens on the socket. *)
Definition listening (socket : string) (n : Node) : bool :=
  existsb (fun e => bool_decide (e.2 = ChProc socket)) (map_to_list (n_procs n)).
Definition send_api_request (socket_path method path : string) (body : ApiBody) : Nd string :=
  up ← nd_get (listening socket_path);
  if up : bool then
    reply ← nd_ask ho_reply;
    match reply with
    | Ok text => _ ← nd_set (log_event (Accepted_request socket_path path body)); mret text
    | Err e => nd_throw (ProcessError e)
    end
  else nd_throw (SpawnError "connect").

(** Fifty retries: the socket is there, or it is not. *)
Definition wait_for_socket (socket_path : string) : Nd unit :=
  ready ← nd_ask ho_ready;
  if ready : bool then nd_set (with_files (fun fs => <[socket_path := default ""%string (fs !! socket_path)]> fs))
  else nd_throw (SpawnError "socket").

(** [Machine::connect] of the SDK. *)
Definition connect (socket_path : string) : Nd unit :=
  up ← nd_get (listening socket_path);
  ready ← nd_ask ho_ready;
  if (up && ready : bool) then mret tt else nd_throw (SdkError "connect").
Definition get_info (socket_path : string) : Nd (option (ChState * option Z)) :=
  up ← nd_get (listening socket_path);
  info ← nd_ask ho_info;
  mret (if up : bool then info else None).

(** ** Names *)

Definition in_runtime_dir (name : string) : string := runtime_dir +:+ "/" +:+ name.
Definition socket_path (vm_id : string) : string := in_runtime_dir (vm_id +:+ ".sock").
Definition cloud_init_seed_path (vm_id : string) : string := in_runtime_dir (vm_id +:+ "-cidata.img").
Definition vsock_socket_path (vm_id : string) : string := in_runtime_dir (vm_id +:+ ".vsock").
Definition log_path (vm_id : string) : string := in_runtime_dir (vm_id +:+ ".log").
Definition config_path (vm_id : string) : string := in_runtime_dir (vm_id +:+ ".json").

Definition is_ascii_hexdigit (c : ascii) : bool :=
  let n := N_of_ascii c in
  ((48 <=? n) && (n <=? 57))%N || ((65 <=? n) && (n <=? 70))%N || ((97 <=? n) && (n <=? 102))%N.
Definition vm_hex_prefix (vm_id : string) : string :=
  String.string_of_list_ascii (take 8 (List.filter is_ascii_hexdigit (String.list_ascii_of_string vm_id))).
Definition tap_name_for_net (vm_id : string) (net_index : nat) : string :=
  "qt" +:+ vm_hex_prefix vm_id +:+ "n" +:+ fmt_nat (Z.of_nat net_index).
Definition passt_socket_path (vm_id : string) (net_index : nat) : string :=
  in_runtime_dir ("qp" +:+ vm_hex_prefix vm_id +:+ "n" +:+ fmt_nat (Z.of_nat net_index) +:+ ".sock").

Definition next_vsock_cid : Nd Z :=
  cid ← nd_get n_next_cid; _ ← nd_set (with_counters id Z.succ); mret cid.

Definition resolve_vsock_config (vm_id : string) (vsock : ProtoVsock) : Nd ProtoVsock :=
  let v := pk_vsock vsock in
  cid ← match vs_cid v with Some c => mret c | None => next_vsock_cid end;
  mret {| pk_vsock := {| vs_cid := Some cid;
                         vs_socket := Some (default (vsock_socket_path vm_id) (vs_socket v));
                         vs_iommu := vs_iommu v; vs_id := vs_id v |};
          pk_pci_segment := pk_pci_segment vsock |}.

Definition resolved_vsock (vm_id : string) (vsock : option ProtoVsock) : Nd (option ProtoVsock) :=
  match vsock with
  | Some v => v ← resolve_vsock_config vm_id v; mret (Some v)
  | None => mret None
  end.

Definition vsock_socket_path_from_config (vsock : option ProtoVsock) : option string :=
  vsock ≫= fun v => vs_socket (pk_vsock v).

(** ** Network devices *)

Definition should_spawn_passt (net : ProtoNet) : bool :=
  default false (nc_vhost_user (pn_net net)) && bool_decide (nc_vhost_socket (pn_net net) = Some "passt"%string).

Definition start_passt_backend (socket : string) : Nd nat :=
  _ ← remove_if_exists socket;
  spawned ← nd_try (spawn (PasstProc socket));
  match spawned with
  | Err _ => nd_throw (ProcessError "failed to spawn passt")
  | Ok pid =>
      ready ← nd_ask ho_ready;
      if ready : bool then
        _ ← nd_set (with_files (insert socket ""%string)); mret pid
      else
        _ ← nd_set (kill [pid]); nd_throw (ProcessError ("passt socket not ready: " +:+ socket))
  end.

Definition cleanup_passt_processes (pids : list nat) : Nd unit := nd_set (kill pids).

(** Adding a device that exists fails. *)
Definition create_tap_device (name : string) : Nd unit :=
  taken ← nd_get (fun n => bool_decide (name ∈ n_taps n));
  add ← nd_ask ho_command;
  match add with
  | None => nd_throw (TapError "failed to run ip tuntap add")
  | Some ok =>
      if (negb ok || taken : bool) then nd_throw (TapError ("ip tuntap add " +:+ name +:+ " failed"))
      else
        _ ← nd_set (with_taps (union {[name]}));
        up ← nd_ask ho_command;
        match up with
        | Some true => mret tt
        | Some false => nd_throw (TapError ("ip link set " +:+ name +:+ " up failed"))
        | None => nd_throw (TapError "failed to run ip link set up")
        end
  end.

Definition delete_tap_device (name : string) : Nd unit :=
  deleted ← nd_ask ho_command;
  match deleted with
  | Some true => nd_set (fun n => with_bridges (delete name) (with_taps (fun t => t ∖ {[name]}) n))
  | _ => mret tt
  end.
Definition delete_taps (taps : list string) : Nd unit := nd_each delete_tap_device taps.

(** [networking::bridge::attach_to_bridge]. *)
Definition attach_to_bridge (tap_name bridge_name : string) : Nd unit :=
  ok ← nd_ask ho_netlink;
  if ok : bool then nd_set (with_bridges (insert tap_name bridge_name))
  else nd_throw (TapError ("Failed to attach TAP " +:+ tap_name +:+ " to bridge " +:+ bridge_name)).

Definition with_tap (tap : string) (net : ProtoNet) : ProtoNet :=
  let 'Build_ProtoNet (Build_NetConfig id _ ip mask mac hmac mtu vu vs vm nq qs tso ufo csum pci iommu br) rl := net in
  Build_ProtoNet (Build_NetConfig id (Some tap) ip mask mac hmac mtu vu vs vm nq qs tso ufo csum pci iommu br) rl.
Definition with_vhost_socket (socket : string) (net : ProtoNet) : ProtoNet :=
  let 'Build_ProtoNet (Build_NetConfig id tap ip mask mac hmac mtu vu _ vm nq qs tso ufo csum pci iommu br) rl := net in
  Build_ProtoNet (Build_NetConfig id tap ip mask mac hmac mtu vu (Some socket) vm nq qs tso ufo csum pci iommu br) rl.

Definition needs_tap (net : ProtoNet) : bool :=
  negb (default false (nc_vhost_user (pn_net net))) && bool_decide (nc_tap (pn_net net) = None).

(** The first loop of [create_vm]. *)
Fixpoint prepare_networks (vm_id : string) (i : nat) (nets : list ProtoNet) (taps : list string) (passts : list nat)
  : Nd (list ProtoNet * list string * list nat) :=
  match nets with
  | [] => mret ([], taps, passts)
  | net :: rest =>
      if should_spawn_passt net then
        let socket := passt_socket_path vm_id i in
        pid ← owned passts (start_passt_backend socket);
        '(rest', taps', passts') ← prepare_networks vm_id (S i) rest taps (passts ++ [pid]);
        mret (with_vhost_socket socket net :: rest', taps', passts')
      else if needs_tap net then
        let tap_name := tap_name_for_net vm_id i in
        created ← nd_try (create_tap_device tap_name);
        match created with
        | Err e =>
            _ ← delete_taps taps; _ ← cleanup_passt_processes passts; nd_throw e
        | Ok _ =>
            '(rest', taps', passts') ← prepare_networks vm_id (S i) rest (taps ++ [tap_name]) passts;
            mret (with_tap tap_name net :: rest', taps', passts')
        end
      else
        '(rest', taps', passts') ← prepare_networks vm_id (S i) rest taps passts;
        mret (net :: rest', taps', passts')
  end.

(** What [create_vm] undoes on a failure. *)
Definition undo (taps : list string) (passts : list nat) : Nd unit :=
  _ ← delete_taps taps; cleanup_passt_processes passts.
Definition undoing {A} (taps : list string) (passts : list nat) (m : Nd A) : Nd A :=
  r ← nd_try m;
  match r with
  | Ok a => mret a
  | Err e => _ ← undo taps passts; nd_throw e
  end.

Definition attach_net (net : ProtoNet) : Nd unit :=
  match nc_tap (pn_net net), nc_bridge (pn_net net) with
  | Some tap_name, Some bridge_name => attach_to_bridge tap_name bridge_name
  | _, _ => mret tt
  end.

(** ** Disks *)

Definition disk_config (disk : DiskConfig) (image_ref registry_url : string) : json :=
  let m := {[ "image_ref"%string := JString image_ref; "registry_url"%string := JString registry_url ]} in
  let m := match dc_upper_data_path disk with Some p => <["upper_data_path"%string := JString p]> m | None => m end in
  let m := match dc_upper_index_path disk with Some p => <["upper_index_path"%string := JString p]> m | None => m end in
  JObject m.

Definition with_device (path : string) (disk : ProtoDisk) : ProtoDisk :=
  let 'Build_ProtoDisk (Build_DiskConfig id _ ro dir vu vs nq qs rlg pci serial _ _ ud ui) rl := disk in
  Build_ProtoDisk (Build_DiskConfig id (Some path) ro dir vu vs nq qs rlg pci serial None None ud ui) rl.

Definition map_storage (vm_id : string) (config : json) : Nd (result string string) := fun o n =>
  let '(s', r) := sb_map vm_id config (n_store n) in (with_store s' n, Ok r).

(** Map the disks that name an image; the flag says whether there was one. *)
Fixpoint map_disks (vm_id : string) (disks : list ProtoDisk) : Nd (list ProtoDisk * bool) :=
  match disks with
  | [] => mret ([], false)
  | disk :: rest =>
      match dc_oci_image_ref (pd_disk disk), dc_registry_url (pd_disk disk) with
      | Some image_ref, Some registry_url =>
          if overlaybd_configured then
            r ← map_storage vm_id (disk_config (pd_disk disk) image_ref registry_url);
            match r with
            | Ok path =>
                '(rest', _) ← map_disks vm_id rest;
                mret (with_device path disk :: rest', true)
            | Err e => nd_throw (StorageError e)
            end
          else nd_throw (StorageError ("Disk " +:+ dc_id (pd_disk disk) +:+ " requests OverlayBD but no OverlayBD backend is configured"))
      | _, _ =>
          '(rest', mapped) ← map_disks vm_id rest;
          mret (disk :: rest', mapped)
      end
  end.

Definition seed_disk (path : string) : ProtoDisk :=
  {| pd_disk := {| dc_id := "cidata"; dc_path := Some path; dc_readonly := Some true; dc_direct := None;
                   dc_vhost_user := None; dc_vhost_socket := None; dc_num_queues := None; dc_queue_size := None;
                   dc_rate_limit_group := None; dc_pci_segment := None; dc_serial := None; dc_oci_image_ref := None;
                   dc_registry_url := None; dc_upper_data_path := None; dc_upper_index_path := None |};
     pd_rate_limiter := None |}.

(** The cloud-init seed image, if user data is given. *)
Definition seed_disks (vm_id : string) (cloud_init : option CloudInitConfig) : Nd (list ProtoDisk) :=
  match cloud_init with
  | Some ci =>
      if String.eqb (ci_user_data ci) "" then mret []
      else
        seed ← nd_ask ho_seed;
        match seed with
        | Err e => nd_throw (InvalidConfig e)
        | Ok buf =>
            _ ← write_path (cloud_init_seed_path vm_id) buf;
            mret [seed_disk (cloud_init_seed_path vm_id)]
        end
  | None => mret []
  end.

Definition completed (config : ProtoVmConfig) (vsock : option ProtoVsock) (nets : list ProtoNet)
    (disks : list ProtoDisk) : ProtoVmConfig :=
  {| pv_vm_id := pv_vm_id config; pv_cpus := pv_cpus config; pv_memory := pv_memory config;
     pv_payload := pv_payload config; pv_disks := disks; pv_networks := nets; pv_rng := pv_rng config;
     pv_serial := pv_serial config; pv_console := pv_console config;
     pv_rate_limit_groups := pv_rate_limit_groups config; pv_cloud_init := pv_cloud_init config;
     pv_devices := pv_devices config; pv_vsock := vsock; pv_numa_placement := pv_numa_placement config;
     pv_hypervisor := pv_hypervisor config |}.

(** ** Console devices *)

Definition is_pty (c : option ConsoleConfig) : bool :=
  match c with Some c => cc_mode c =? 1 | None => false end.
Definition pty_file (device : string) (info : json) : option string :=
  j ← json_get info "config"; j ← json_get j device; j ← json_get j "file"; s ← json_as_str j;
  if String.eqb s "" then None else Some s.
Definition parse_body (body : string) : Nd (option json) := fun o n => (n, Ok (ho_json o body)).
Definition query_pty_paths (socket : string) (config : ProtoVmConfig) : Nd (option string * option string) :=
  let serial_is_pty := is_pty (pv_serial config) in
  let console_is_pty := is_pty (pv_console config) in
  if negb serial_is_pty && negb console_is_pty then mret (None, None)
  else
    body ← nd_try (send_api_request socket "GET" "/api/v1/vm.info" NoBody);
    match body with
    | Err _ => mret (None, None)
    | Ok body =>
        parsed ← parse_body body;
        mret (match parsed with
              | None => (None, None)
              | Some info =>
                  (if serial_is_pty then pty_file "serial" info else None,
                   if console_is_pty then pty_file "console" info else None)
              end)
    end.

(** ** Creation *)

(** The hypervisor process with its log; both descriptors share one file. *)
Definition remove_sockets (socket : string) (vsock : option string) : Nd unit :=
  _ ← remove_if_exists socket;
  match vsock with Some path => remove_if_exists path | None => mret tt end.

(** The files the agent has read: the content of a disk image. *)
Definition read_file (n : Node) (path : string) : option string := n_files n !! path.

(** From the ready socket to the registered instance; the process is [pid]. *)
Definition register_vm (vm_id : string) (config : ProtoVmConfig) (taps : list string) (passts : list nat)
    (mapped : bool) (pid : nat) : Nd VmState :=
  let socket := socket_path vm_id in
  files ← nd_get read_file;
  sdk_config ← nd_of (proto_to_sdk_config files config);
  _ ← undoing taps passts (send_api_request socket "PUT" "/api/v1/vm.create" (VmBody sdk_config));
  '(serial_pty, console_pty) ← query_pty_paths socket config;
  _ ← nd_try (write_path (config_path vm_id) (encode_to_vec config));
  _ ← nd_of (ok_or (InvalidConfig "Invalid VM ID") (uuid_parse_str vm_id));
  _ ← undoing taps passts (connect socket);
  let instance :=
    {| vi_proto_config := config; vi_process := Some pid; vi_socket_path := socket; vi_status := NsCreated;
       vi_tap_devices := taps; vi_passt_processes := passts; vi_serial_pty_path := serial_pty;
       vi_console_pty_path := console_pty;
       vi_vsock_socket_path := vsock_socket_path_from_config (pv_vsock config); vi_overlaybd := mapped |} in
  _ ← nd_set (with_vms (insert vm_id instance));
  mret (to_vm_state instance).

(** The steps after the network devices are there. *)
Definition launch_vm (vm_id : string) (config : ProtoVmConfig) (vsock : option ProtoVsock)
    (nets : list ProtoNet) (taps : list string) (passts : list nat) : Nd VmState :=
  _ ← undoing taps passts (nd_each attach_net nets);
  '(disks, mapped) ← map_disks vm_id (pv_disks config);
  seeds ← seed_disks vm_id (pv_cloud_init config);
  let config := completed config vsock nets (disks ++ seeds) in
  _ ← create_dir_all;
  _ ← remove_sockets (socket_path vm_id) (vsock_socket_path_from_config vsock);
  _ ← write_path (log_path vm_id) "";
  pid ← undoing taps passts (spawn (ChProc (socket_path vm_id)));
  owned [pid] (
    _ ← undoing taps passts (wait_for_socket (socket_path vm_id));
    register_vm vm_id config taps passts mapped pid).

Definition registered (vm_id : string) : Nd bool := nd_get (fun n => bool_decide (vm_id ∈ dom (n_vms n))).

Definition create_vm (config : ProtoVmConfig) : Nd VmState :=
  let vm_id := pv_vm_id config in
  exists_ ← registered vm_id;
  if exists_ : bool then nd_throw (VmAlreadyExists vm_id)
  else
    vsock ← resolved_vsock vm_id (pv_vsock config);
    '(nets, taps, passts) ← prepare_networks vm_id 0 (pv_networks config) [] [];
    owned passts (launch_vm vm_id config vsock nets taps passts).

(** ** Lookup *)

Definition instance_of (vm_id : string) : Nd VmInstance :=
  i ← nd_get (fun n => n_vms n !! vm_id);
  nd_of (ok_or (VmNotFound vm_id) i).
Definition update_instance (vm_id : string) (f : VmInstance -> VmInstance) : Nd unit :=
  nd_set (with_vms (alter f vm_id)).

Definition load_persisted_vm_config (vm_id : string) : Nd (option ProtoVmConfig) :=
  content ← nd_get (fun n => n_files n !! config_path vm_id);
  match content with
  | None => mret None
  | Some bytes =>
      ok ← nd_ask ho_file;
      if ok : bool then
        match decode_config bytes with
        | Some config => mret (Some config)
        | None => nd_throw (InvalidConfig "Failed to decode persisted config")
        end
      else nd_throw (SpawnError "read")
  end.

Definition ensure_vm_registered (vm_id : string) : Nd unit :=
  present ← registered vm_id;
  if present : bool then mret tt
  else
    config ← load_persisted_vm_config vm_id;
    match config with
    | None => nd_throw (VmNotFound vm_id)
    | Some config => _ ← create_vm config; mret tt
    end.

(** ** Lifecycle *)

Definition start_vm (vm_id : string) : Nd unit :=
  _ ← ensure_vm_registered vm_id;
  i ← instance_of vm_id;
  _ ← send_api_request (vi_socket_path i) "PUT" "/api/v1/vm.boot" NoBody;
  _ ← update_instance vm_id (with_status NsRunning);
  '(serial_pty, console_pty) ← query_pty_paths (vi_socket_path i) (vi_proto_config i);
  update_instance vm_id (with_ptys serial_pty console_pty).

Definition stop_vm (vm_id : string) : Nd unit :=
  i ← instance_of vm_id;
  _ ← nd_try (send_api_request (vi_socket_path i) "PUT" "/api/v1/vm.shutdown" NoBody);
  update_instance vm_id (with_status NsShutdown).

Definition force_stop_vm (vm_id : string) : Nd unit :=
  i ← instance_of vm_id;
  _ ← (match vi_process i with Some pid => nd_set (kill [pid]) | None => mret tt end);
  update_instance vm_id (fun i => with_status NsShutdown (without_process i)).

Definition pause_vm (vm_id : string) : Nd unit :=
  i ← instance_of vm_id;
  _ ← send_api_request (vi_socket_path i) "PUT" "/api/v1/vm.pause" NoBody;
  update_instance vm_id (with_status NsPaused).

Definition resume_vm (vm_id : string) : Nd unit :=
  i ← instance_of vm_id;
  _ ← send_api_request (vi_socket_path i) "PUT" "/api/v1/vm.resume" NoBody;
  update_instance vm_id (with_status NsRunning).

(** [teardown_vm_firewall]; a failure is only logged. *)
Definition teardown_firewall (vm_id : string) : Nd unit :=
  nd_set (fun n => with_kernel (teardown_vm_firewall vm_id (n_kernel n)).2.1 n).

Definition delete_vm (vm_id : string) : Nd unit :=
  i ← instance_of vm_id;
  _ ← nd_set (with_vms (delete vm_id));
  _ ← nd_ask ho_ready;
  _ ← (match vi_process i with Some pid => nd_set (kill [pid]) | None => mret tt end);
  _ ← remove_sockets (vi_socket_path i) (vi_vsock_socket_path i);
  _ ← remove_if_exists (config_path vm_id);
  _ ← remove_if_exists (cloud_init_seed_path vm_id);
  _ ← delete_taps (vi_tap_devices i);
  _ ← teardown_firewall vm_id;
  _ ← cleanup_passt_processes (vi_passt_processes i);
  if vi_overlaybd i && overlaybd_configured
  then nd_set (fun n => with_store (sb_unmap vm_id (n_store n)) n) else mret tt.

Definition get_vm_info (vm_id : string) : Nd VmState :=
  i ← instance_of vm_id;
  info ← get_info (vi_socket_path i);
  match info with
  | None => mret (to_vm_state i)
  | Some (state, memory_actual_size) =>
      _ ← update_instance vm_id (with_status (status_of_ch state));
      mret {| vst_config := vi_proto_config i; vst_status := status_of_ch state;
              vst_memory_actual_size := memory_actual_size |}
  end.

Definition list_vms : Nd (list VmState) := nd_get (fun n => to_vm_state <$> (map_to_list (n_vms n)).*2).

(** A child without an exit status; the socket file for a recovered VM. *)
Definition is_vm_process_alive (vm_id : string) : Nd bool :=
  nd_get (fun n => match n_vms n !! vm_id with
                   | None => false
                   | Some i => match vi_process i with
                               | Some pid => bool_decide (pid ∈ dom (n_procs n))
                               | None => bool_decide (vi_socket_path i ∈ dom (n_files n))
                               end
                   end).

(** ** Recovery after a restart of the agent *)

(** The VM a socket file of the runtime directory is named after. *)
Definition socket_owner (path : string) : option string :=
  name ← strip_prefix (runtime_dir +:+ "/") path;
  vm_id ← strip_suffix ".sock" name;
  if String.eqb vm_id "" || negb (bool_decide (length (str_split "/"%char vm_id) = 1%nat)) then None
  else Some vm_id.

Definition recovered_taps (config : ProtoVmConfig) : list string :=
  List.filter (starts_with "qt") (omap (fun n => nc_tap (pn_net n)) (pv_networks config)).

Definition recover_vm (vm_id : string) : Nd unit :=
  config ← nd_try (load_persisted_vm_config vm_id);
  match config with
  | Ok (Some proto_config) =>
      match uuid_parse_str vm_id with
      | None => mret tt
      | Some _ =>
          connected ← nd_try (connect (socket_path vm_id));
          match connected with
          | Err _ => mret tt
          | Ok _ =>
              info ← get_info (socket_path vm_id);
              has_mapping ← nd_get (fun n => overlaybd_configured && sb_has_mapping (n_store n) vm_id);
              nd_set (with_vms (insert vm_id
                {| vi_proto_config := proto_config; vi_process := None; vi_socket_path := socket_path vm_id;
                   vi_status := match info with Some (s, _) => status_of_ch s | None => NsUnknown end;
                   vi_tap_devices := recovered_taps proto_config; vi_passt_processes := [];
                   vi_serial_pty_path := None; vi_console_pty_path := None;
                   vi_vsock_socket_path := vsock_socket_path_from_config (pv_vsock proto_config);
                   vi_overlaybd := has_mapping |}))
          end
      end
  | _ => mret tt
  end.

(** The entries of the directory, in any order. *)
Definition recover_vms : Nd unit :=
  ok ← nd_ask ho_file;
  if ok : bool then
    paths ← nd_get (fun n => (map_to_list (n_files n)).*1);
    nd_each recover_vm (omap socket_owner paths)
  else mret tt.

(** The agent starts anew: the handles are lost, the processes are not. *)
Definition restarted (n : Node) : Node := with_vms (fun _ => ∅) n.

(** ** Snapshots *)

(** The destination directory is created first. *)
Definition snapshot_vm (vm_id snapshot_url : string) : Nd unit :=
  i ← instance_of vm_id;
  created ← nd_ask ho_file;
  if created : bool then
    _ ← send_api_request (vi_socket_path i) "PUT" "/api/v1/vm.snapshot" (SnapshotBody snapshot_url); mret tt
  else nd_throw (ProcessError ("Failed to create snapshot directory "
         +:+ default snapshot_url (strip_prefix "file://" snapshot_url))).

(** The configuration of a VM that was never persisted. *)
Definition bare_config (vm_id : string) : ProtoVmConfig :=
  {| pv_vm_id := vm_id; pv_cpus := None; pv_memory := None; pv_payload := None; pv_disks := []; pv_networks := [];
     pv_rng := None;
     pv_serial := Some {| cc_mode := 1; cc_file := None; cc_socket := None; cc_iommu := None |};
     pv_console := None; pv_rate_limit_groups := []; pv_cloud_init := None; pv_devices := []; pv_vsock := None;
     pv_numa_placement := None; pv_hypervisor := 0 |}.

Definition persisted_or_bare (vm_id : string) : Nd ProtoVmConfig :=
  content ← nd_get (fun n => n_files n !! config_path vm_id);
  match content with
  | None => mret (bare_config vm_id)
  | Some bytes =>
      ok ← nd_ask ho_file;
      if ok : bool then nd_of (ok_or (InvalidConfig "Failed to decode persisted config") (decode_config bytes))
      else nd_throw (SpawnError "read")
  end.

(** The instance that is there is dropped with its processes. *)
Definition drop_instance (vm_id : string) : Nd unit :=
  i ← nd_get (fun n => n_vms n !! vm_id);
  match i with
  | None => mret tt
  | Some i =>
      _ ← nd_set (with_vms (delete vm_id));
      _ ← nd_set (kill (option_list (vi_process i) ++ vi_passt_processes i));
      remove_if_exists (vi_socket_path i)
  end.

Definition resume_restored (vm_id source_url : string) (proto_config : ProtoVmConfig) (pid : nat) : Nd unit :=
  let socket := socket_path vm_id in
  _ ← wait_for_socket socket;
  r ← nd_try (send_api_request socket "PUT" "/api/v1/vm.restore" (RestoreBody source_url));
  match r with
  | Err e => _ ← nd_try (remove_file socket); nd_throw e
  | Ok _ =>
      r ← nd_try (send_api_request socket "PUT" "/api/v1/vm.resume" NoBody);
      match r with
      | Err e => _ ← nd_try (remove_file socket); nd_throw e
      | Ok _ =>
          '(serial_pty, console_pty) ← query_pty_paths socket proto_config;
          _ ← nd_of (ok_or (InvalidConfig "Invalid VM ID") (uuid_parse_str vm_id));
          _ ← connect socket;
          nd_set (with_vms (insert vm_id
            {| vi_proto_config := proto_config; vi_process := Some pid; vi_socket_path := socket;
               vi_status := NsRunning; vi_tap_devices := []; vi_passt_processes := [];
               vi_serial_pty_path := serial_pty; vi_console_pty_path := console_pty;
               vi_vsock_socket_path := vsock_socket_path_from_config (pv_vsock proto_config);
               vi_overlaybd := false |}))
      end
  end.

Definition restore_vm (vm_id source_url : string) : Nd unit :=
  proto_config ← persisted_or_bare vm_id;
  _ ← drop_instance vm_id;
  _ ← create_dir_all;
  _ ← remove_if_exists (socket_path vm_id);
  _ ← write_path (log_path vm_id) "";
  pid ← spawn (ChProc (socket_path vm_id));
  owned [pid] (resume_restored vm_id source_url proto_config pid).

(** ** Live migration *)

Fixpoint receive_networks (vm_id : string) (i : nat) (nets : list ProtoNet) (taps : list string)
  : Nd (list ProtoNet * list string) :=
  match nets with
  | [] => mret ([], taps)
  | net :: rest =>
      if needs_tap net then
        let tap_name := tap_name_for_net vm_id i in
        created ← nd_try (
          _ ← create_tap_device tap_name;
          match nc_bridge (pn_net net) with
          | Some bridge_name => attach_to_bridge tap_name bridge_name
          | None => mret tt
          end);
        match created with
        | Err e => _ ← delete_taps taps; nd_throw e
        | Ok _ =>
            '(rest', taps') ← receive_networks vm_id (S i) rest (taps ++ [tap_name]);
            mret (with_tap tap_name net :: rest', taps')
        end
      else
        '(rest', taps') ← receive_networks vm_id (S i) rest taps;
        mret (net :: rest', taps')
  end.

Definition free_port (migration_port : Z) : Nd Z :=
  if migration_port =? 0 then
    p ← nd_ask ho_port; nd_of (ok_or (MigrationError "Failed to bind ephemeral port") p)
  else mret migration_port.

Definition register_incoming (vm_id : string) (config : ProtoVmConfig) (taps : list string) (mapped : bool)
    (pid : nat) : Nd unit :=
  let socket := socket_path vm_id in
  _ ← nd_try (write_path (config_path vm_id) (encode_to_vec config));
  _ ← nd_of (ok_or (InvalidConfig "Invalid VM ID") (uuid_parse_str vm_id));
  _ ← connect socket;
  nd_set (with_vms (insert vm_id
    {| vi_proto_config := config; vi_process := Some pid; vi_socket_path := socket; vi_status := NsCreated;
       vi_tap_devices := taps; vi_passt_processes := []; vi_serial_pty_path := None;
       vi_console_pty_path := None; vi_vsock_socket_path := vsock_socket_path_from_config (pv_vsock config);
       vi_overlaybd := mapped |})).

(** The task that waits for the sender only logs how the transfer ends. *)
Definition receive_migration (vm_id : string) (config : ProtoVmConfig) (migration_port : Z) : Nd string :=
  exists_ ← registered vm_id;
  if exists_ : bool then nd_throw (VmAlreadyExists vm_id)
  else
    port ← free_port migration_port;
    vsock ← resolved_vsock vm_id (pv_vsock config);
    '(nets, taps) ← receive_networks vm_id 0 (pv_networks config) [];
    '(disks, mapped) ← map_disks vm_id (pv_disks config);
    let config := completed config vsock nets disks in
    _ ← create_dir_all;
    _ ← remove_sockets (socket_path vm_id) (vsock_socket_path_from_config vsock);
    _ ← undoing taps [] (write_path (log_path vm_id) "");
    pid ← spawn (ChProc (socket_path vm_id));
    owned [pid] (
      _ ← undoing taps [] (wait_for_socket (socket_path vm_id));
      let receiver_url := "tcp:0.0.0.0:" +:+ fmt_nat port in
      _ ← register_incoming vm_id config taps mapped pid;
      _ ← nd_set (log_event (Spawned_request (socket_path vm_id) "/api/v1/vm.receive-migration"
                              (ReceiveBody receiver_url)));
      mret receiver_url).

Definition send_migration (vm_id destination_url : string) : Nd unit :=
  i ← instance_of vm_id;
  r ← nd_try (send_api_request (vi_socket_path i) "PUT" "/api/v1/vm.send-migration" (SendBody destination_url));
  match r with
  | Err _ => nd_throw (MigrationError "vm.send-migration failed")
  | Ok _ => update_instance vm_id (with_status NsShutdown)
  end.

(** ** Hotplug *)

Definition device_request (vm_id path : string) (body : (string -> option string) -> ApiBody) : Nd unit :=
  i ← instance_of vm_id;
  files ← nd_get read_file;
  _ ← send_api_request (vi_socket_path i) "PUT" path (body files); mret tt.
Definition add_network_device (vm_id : string) (config : ProtoNet) : Nd unit :=
  device_request vm_id "/api/v1/vm.add-net" (fun _ => NetBody (proto_net_to_sdk config)).
Definition remove_device_by_id (vm_id device_id : string) : Nd unit :=
  device_request vm_id "/api/v1/vm.remove-device" (fun _ => IdBody device_id).
Definition remove_network_device (vm_id device_id : string) : Nd unit := remove_device_by_id vm_id device_id.
Definition add_disk_device (vm_id : string) (config : ProtoDisk) : Nd unit :=
  device_request vm_id "/api/v1/vm.add-disk" (fun files => DiskBody (proto_disk_to_sdk files config)).
Definition remove_disk_device (vm_id device_id : string) : Nd unit := remove_device_by_id vm_id device_id.
Definition resize_vm (vm_id : string) (desired_vcpus desired_ram : option Z) : Nd unit :=
  device_request vm_id "/api/v1/vm.resize" (fun _ => ResizeBody desired_vcpus desired_ram).
Definition add_device (vm_id : string) (config : ProtoVfio) : Nd unit :=
  device_request vm_id "/api/v1/vm.add-device" (fun _ => DeviceBody (proto_vfio_device_to_sdk config)).
Definition remove_device (vm_id device_id : string) : Nd unit := remove_device_by_id vm_id device_id.

(** [fallocate], then [truncate]: both extend the file to the new size. *)
Definition resize_command (path : string) (new_size : Z) : Nd bool :=
  r ← nd_ask ho_command;
  match r with
  | None => nd_throw (StorageError "exec")
  | Some false => mret false
  | Some true => _ ← nd_set (with_sizes (insert path new_size)); mret true
  end.

Definition resize_disk_file (path : string) (new_size : Z) : Nd unit :=
  if String.eqb path "" || negb (bool_decide (no_char zero path))
  then nd_throw (InvalidConfig "disk path is empty or contains null bytes")
  else
    size ← nd_get (fun n => n_sizes n !! path);
    match size with
    | None => nd_throw (StorageError ("stat " +:+ path))
    | Some current_size =>
        if new_size <=? current_size then
          nd_throw (InvalidConfig ("new_size " +:+ pretty new_size +:+ " must be greater than current size "
                                   +:+ pretty current_size))
        else
          ok ← resize_command path new_size;
          if ok : bool then mret tt
          else
            ok ← resize_command path new_size;
            if ok : bool then mret tt
            else nd_throw (StorageError ("both fallocate and truncate failed on " +:+ path))
    end.
End manager.
