(* ===== verification/NodeWire.v ===== *)
(** * NodeWire: a wire format for the configuration of a VM

    The manager of a node keeps the configuration of a VM in a file, in the format
    of the [prost] library, which is a parameter of the model ([ConfigCodec]).  A
    format built from self-delimiting bit strings shows that the round trip the
    manager relies on can hold; the examples of [NodeVms.v] run on it. *)

From S2P Require Import Prelude Text Errors Tables Secrets NodeApi Ipv4 Netfilter NodeConfig NodeManager.
From Stdlib Require Import Ascii.
#[local] Open Scope Z_scope.

(** A self-delimiting format: reading gives back the value and the rest. *)
Class Wire (A : Type) := {
  put : A -> list bool;
  take_off : list bool -> option (A * list bool);
  take_put : forall a rest, take_off (put a ++ rest) = Some (a, rest)
}.
Arguments put {A _}.
Arguments take_off {A _}.

#[global] Program Instance bool_wire : Wire bool := {|
  put b := [b]; take_off l := match l with b :: rest => Some (b, rest) | [] => None end |}.
Next Obligation. done. Qed.

Fixpoint put_pos (p : positive) : list bool :=
  match p with
  | xH => [false]
  | xO q => true :: false :: put_pos q
  | xI q => true :: true :: put_pos q
  end.
Fixpoint take_pos (l : list bool) : option (positive * list bool) :=
  match l with
  | false :: rest => Some (xH, rest)
  | true :: b :: l' =>
      '(q, rest) ← take_pos l'; Some (if b : bool then xI q else xO q, rest)
  | _ => None
  end.
Lemma take_put_pos p rest : take_pos (put_pos p ++ rest) = Some (p, rest).
Proof. by induction p as [p IH|p IH|]; simpl; rewrite ?IH. Qed.
#[global] Instance pos_wire : Wire positive := {| take_put := take_put_pos |}.

(** Another type in the format of this one. *)
Program Definition wire_iso {A B} `{Wire B} (f : A -> B) (g : B -> A) (Hgf : forall a, g (f a) = a) : Wire A := {|
  put a := put (f a);
  take_off l := '(b, rest) ← take_off l; Some (g b, rest) |}.
Next Obligation. intros A B HB f g Hgf a rest. simpl. rewrite take_put. simpl. by rewrite Hgf. Qed.

#[global] Program Instance prod_wire {A B} `{Wire A} `{Wire B} : Wire (A * B) := {|
  put p := put p.1 ++ put p.2;
  take_off l := '(a, l1) ← take_off l; '(b, l2) ← take_off l1; Some ((a, b), l2) |}.
Next Obligation. intros A B ?? [a b] rest. simpl. rewrite <-app_assoc, take_put. simpl. by rewrite take_put. Qed.

#[global] Program Instance option_wire {A} `{Wire A} : Wire (option A) := {|
  put o := match o with Some a => true :: put a | None => [false] end;
  take_off l := match l with
                | true :: l' => '(a, rest) ← take_off l'; Some (Some a, rest)
                | false :: l' => Some (None, l')
                | [] => None
                end |}.
Next Obligation. intros A ? [a|] rest; simpl; [|done]. by rewrite take_put. Qed.

Fixpoint take_many {A} `{Wire A} (n : nat) (l : list bool) : option (list A * list bool) :=
  match n with
  | O => Some ([], l)
  | S n' => '(a, l1) ← take_off l; '(xs, l2) ← take_many n' l1; Some (a :: xs, l2)
  end.
Lemma take_many_put {A} `{Wire A} (xs : list A) rest :
  take_many (length xs) (concat (map put xs) ++ rest) = Some (xs, rest).
Proof. induction xs as [|x xs IH]; [done|]. simpl. rewrite <-app_assoc, take_put. simpl. by rewrite IH. Qed.

#[global] Program Instance list_wire {A} `{Wire A} : Wire (list A) := {|
  put xs := put_pos (Pos.of_succ_nat (length xs)) ++ concat (map put xs);
  take_off l := '(p, l1) ← take_pos l; take_many (Nat.pred (Pos.to_nat p)) l1 |}.
Next Obligation.
  intros A ? xs rest. simpl. rewrite <-app_assoc, take_put_pos. simpl.
  rewrite SuccNat2Pos.id_succ. apply take_many_put.
Qed.

#[global] Instance Z_wire : Wire Z :=
  wire_iso (fun z => match z with Z0 => None | Zpos p => Some (true, p) | Zneg p => Some (false, p) end)
    (fun o => match o with None => Z0 | Some (true, p) => Zpos p | Some (false, p) => Zneg p end)
    ltac:(by intros []).
#[global] Instance ascii_wire : Wire ascii :=
  wire_iso (fun c => let 'Ascii a b c d e f g h := c in (a, b, c, d, e, f, g, h))
    (fun t => let '(a, b, c, d, e, f, g, h) := t in Ascii a b c d e f g h) ltac:(by intros []).
#[global] Instance string_wire : Wire string :=
  wire_iso String.list_ascii_of_string String.string_of_list_ascii String.string_of_list_ascii_of_string.

(** The messages. *)
#[global] Instance TokenBucket_wire : Wire TokenBucket :=
  wire_iso (fun x => let 'Build_TokenBucket a b c := x in (a, b, c))
    (fun t => let '(a, b, c) := t in Build_TokenBucket a b c) ltac:(by intros []).
#[global] Instance RateLimiterConfig_wire : Wire RateLimiterConfig :=
  wire_iso (fun x => let 'Build_RateLimiterConfig a b := x in (a, b))
    (fun t => let '(a, b) := t in Build_RateLimiterConfig a b) ltac:(by intros []).
#[global] Instance RateLimitGroupConfig_wire : Wire RateLimitGroupConfig :=
  wire_iso (fun x => let 'Build_RateLimitGroupConfig a b := x in (a, b))
    (fun t => let '(a, b) := t in Build_RateLimitGroupConfig a b) ltac:(by intros []).
#[global] Instance CpuTopology_wire : Wire CpuTopology :=
  wire_iso (fun x => let 'Build_CpuTopology a b c d := x in (a, b, c, d))
    (fun t => let '(a, b, c, d) := t in Build_CpuTopology a b c d) ltac:(by intros []).
#[global] Instance ProtoCpus_wire : Wire ProtoCpus :=
  wire_iso (fun x => let 'Build_ProtoCpus a b c d e := x in (a, b, c, d, e))
    (fun t => let '(a, b, c, d, e) := t in Build_ProtoCpus a b c d e) ltac:(by intros []).
#[global] Instance ProtoMemory_wire : Wire ProtoMemory :=
  wire_iso (fun x => let 'Build_ProtoMemory a b c d e f g h := x in (a, b, c, d, e, f, g, h))
    (fun t => let '(a, b, c, d, e, f, g, h) := t in Build_ProtoMemory a b c d e f g h) ltac:(by intros []).
#[global] Instance ProtoPayload_wire : Wire ProtoPayload :=
  wire_iso (fun x => let 'Build_ProtoPayload a b c d := x in (a, b, c, d))
    (fun t => let '(a, b, c, d) := t in Build_ProtoPayload a b c d) ltac:(by intros []).
#[global] Instance DiskConfig_wire : Wire DiskConfig :=
  wire_iso (fun x => let 'Build_DiskConfig a b c d e f g h i j k l m n o := x in
              (a, b, c, d, e, f, g, h, i, j, k, l, m, n, o))
    (fun t => let '(a, b, c, d, e, f, g, h, i, j, k, l, m, n, o) := t in
              Build_DiskConfig a b c d e f g h i j k l m n o) ltac:(by intros []).
#[global] Instance NetConfig_wire : Wire NetConfig :=
  wire_iso (fun x => let 'Build_NetConfig a b c d e f g h i j k l m n o p q r := x in
              (a, b, c, d, e, f, g, h, i, j, k, l, m, n, o, p, q, r))
    (fun t => let '(a, b, c, d, e, f, g, h, i, j, k, l, m, n, o, p, q, r) := t in
              Build_NetConfig a b c d e f g h i j k l m n o p q r) ltac:(by intros []).
#[global] Instance ProtoDisk_wire : Wire ProtoDisk :=
  wire_iso (fun x => let 'Build_ProtoDisk a b := x in (a, b))
    (fun t => let '(a, b) := t in Build_ProtoDisk a b) ltac:(by intros []).
#[global] Instance ProtoNet_wire : Wire ProtoNet :=
  wire_iso (fun x => let 'Build_ProtoNet a b := x in (a, b))
    (fun t => let '(a, b) := t in Build_ProtoNet a b) ltac:(by intros []).
#[global] Instance RngConfig_wire : Wire RngConfig :=
  wire_iso (fun x => let 'Build_RngConfig a b := x in (a, b))
    (fun t => let '(a, b) := t in Build_RngConfig a b) ltac:(by intros []).
#[global] Instance ConsoleConfig_wire : Wire ConsoleConfig :=
  wire_iso (fun x => let 'Build_ConsoleConfig a b c d := x in (a, b, c, d))
    (fun t => let '(a, b, c, d) := t in Build_ConsoleConfig a b c d) ltac:(by intros []).
#[global] Instance CloudInitConfig_wire : Wire CloudInitConfig :=
  wire_iso (fun x => let 'Build_CloudInitConfig a b c := x in (a, b, c))
    (fun t => let '(a, b, c) := t in Build_CloudInitConfig a b c) ltac:(by intros []).
#[global] Instance VfioDeviceConfig_wire : Wire VfioDeviceConfig :=
  wire_iso (fun x => let 'Build_VfioDeviceConfig a b c := x in (a, b, c))
    (fun t => let '(a, b, c) := t in Build_VfioDeviceConfig a b c) ltac:(by intros []).
#[global] Instance ProtoVfio_wire : Wire ProtoVfio :=
  wire_iso (fun x => let 'Build_ProtoVfio a b := x in (a, b))
    (fun t => let '(a, b) := t in Build_ProtoVfio a b) ltac:(by intros []).
#[global] Instance VsockConfig_wire : Wire VsockConfig :=
  wire_iso (fun x => let 'Build_VsockConfig a b c d := x in (a, b, c, d))
    (fun t => let '(a, b, c, d) := t in Build_VsockConfig a b c d) ltac:(by intros []).
#[global] Instance ProtoVsock_wire : Wire ProtoVsock :=
  wire_iso (fun x => let 'Build_ProtoVsock a b := x in (a, b))
    (fun t => let '(a, b) := t in Build_ProtoVsock a b) ltac:(by intros []).
#[global] Instance CpuPinning_wire : Wire CpuPinning :=
  wire_iso (fun x => let 'Build_CpuPinning a b := x in (a, b))
    (fun t => let '(a, b) := t in Build_CpuPinning a b) ltac:(by intros []).
#[global] Instance NumaPlacement_wire : Wire NumaPlacement :=
  wire_iso (fun x => let 'Build_NumaPlacement a b c := x in (a, b, c))
    (fun t => let '(a, b, c) := t in Build_NumaPlacement a b c) ltac:(by intros []).
#[global] Instance ProtoVmConfig_wire : Wire ProtoVmConfig :=
  wire_iso (fun x => let 'Build_ProtoVmConfig a b c d e f g h i j k l m n o := x in
              (a, b, c, d, e, f, g, h, i, j, k, l, m, n, o))
    (fun t => let '(a, b, c, d, e, f, g, h, i, j, k, l, m, n, o) := t in
              Build_ProtoVmConfig a b c d e f g h i j k l m n o) ltac:(by intros []).

(** Bits as text. *)
Fixpoint bits_to_string (l : list bool) : string :=
  match l with
  | [] => EmptyString
  | b :: l' => String (if b : bool then "1" else "0")%char (bits_to_string l')
  end.
Fixpoint string_to_bits (s : string) : list bool :=
  match s with
  | EmptyString => []
  | String c s' => bool_decide (c = "1"%char) :: string_to_bits s'
  end.
Lemma bits_round_trip l : string_to_bits (bits_to_string l) = l.
Proof. induction l as [|[] l IH]; [done|..]; simpl; by rewrite IH. Qed.

#[global] Program Instance wire_codec : ConfigCodec := {|
  encode_to_vec c := bits_to_string (put c);
  decode_config s := fst <$> take_off (A := ProtoVmConfig) (string_to_bits s) |}.
Next Obligation.
  intros c. cbv beta. rewrite bits_round_trip, <-(app_nil_r (put c)), take_put. done.
Qed.

(** A storage backend that gives every VM a device of its own. *)
#[global] Program Instance set_storage : StorageBackend := {|
  Store := gset string;
  sb_map vm_id config s := ({[ vm_id ]} ∪ s, Ok ("/dev/mapped-" +:+ vm_id));
  sb_unmap vm_id s := s ∖ {[ vm_id ]};
  sb_has_mapping s vm_id := bool_decide (vm_id ∈ s) |}.
Next Obligation. intros vm_id config s s' path [= <- _]. apply bool_decide_eq_true. set_solver. Qed.
