(* ===== verification/NodeManagerFacts.v ===== *)
(** * NodeManagerFacts: what the manager of a node guarantees

    Theorems about [NodeManager.v].  Every process the manager started belongs to
    exactly one registered VM, whatever fails; creating a VM and deleting it leaves
    no device and no process behind; after a restart of the agent a VM is registered
    again with the devices it had.  Two theorems state behaviour that looks
    unintended: a VM whose process was killed by a forced stop cannot be started
    again, and a forced stop of a recovered VM stops nothing. *)

From S2P Require Import Prelude Text Common Errors Secrets Tables NodeApi Ipv4 Netfilter.
From S2P Require Import NodeFirewall NodeConfig NodeManager.
From Stdlib Require Import Ascii.
#[local] Open Scope Z_scope.

Create HintDb node.

Section facts.
Context `{ConfigCodec} `{StorageBackend} `{Iptables} `{UuidText}.
Context (rd : string) (ob : bool).
#[local] Set Default Proof Using "Type".

(** ** Reasoning about computations *)

(** From a node with [P], a result and its node satisfy [Q]; after an error [E]. *)
Definition sat {A} (P : Node -> Prop) (m : Nd A) (Q : A -> Node -> Prop) (E : Node -> Prop) : Prop :=
  forall o n, P n -> match m o n with (n', Ok a) => Q a n' | (n', Err _) => E n' end.

Lemma sat_ret {A} (P : Node -> Prop) (a : A) (Q : A -> Node -> Prop) E :
  (forall n, P n -> Q a n) -> sat P (mret a) Q E.
Proof. intros HQ o n Hn. by apply HQ. Qed.

Lemma sat_throw {A} (P : Node -> Prop) e (Q : A -> Node -> Prop) (E : Node -> Prop) :
  (forall n, P n -> E n) -> sat P (nd_throw e) Q E.
Proof. intros HE o n Hn. by apply HE. Qed.

Lemma sat_bind {A B} P (m : Nd A) (f : A -> Nd B) R Q E :
  sat P m R E -> (forall a, sat (R a) (f a) Q E) -> sat P (m ≫= f) Q E.
Proof.
  intros Hm Hf o n Hn. specialize (Hm o n Hn). unfold mbind, Nd_bind.
  destruct (m o n) as [n' [a|e]]; [by apply Hf|done].
Qed.

Lemma sat_pre {A} (P P' : Node -> Prop) (m : Nd A) Q E :
  (forall n, P n -> P' n) -> sat P' m Q E -> sat P m Q E.
Proof. intros HP Hm o n Hn. apply Hm. auto. Qed.

Lemma sat_post {A} P (m : Nd A) (Q Q' : A -> Node -> Prop) (E E' : Node -> Prop) :
  sat P m Q E -> (forall a n, Q a n -> Q' a n) -> (forall n, E n -> E' n) -> sat P m Q' E'.
Proof. intros Hm HQ HE o n Hn. specialize (Hm o n Hn). destruct (m o n) as [n' []]; auto. Qed.

Lemma sat_try {A} P (m : Nd A) Q (E E' : Node -> Prop) :
  sat P m Q E -> sat P (nd_try m) (fun r n => match r with Ok a => Q a n | Err _ => E n end) E'.
Proof. intros Hm o n Hn. specialize (Hm o n Hn). unfold nd_try. by destruct (m o n) as [n' []]. Qed.

Lemma sat_get {A} P (f : Node -> A) E : sat P (nd_get f) (fun a n => P n /\ a = f n) E.
Proof. intros o n Hn. done. Qed.

Lemma sat_set (P : Node -> Prop) (f : Node -> Node) (Q : Node -> Prop) E :
  (forall n, P n -> Q (f n)) -> sat P (nd_set f) (fun _ => Q) E.
Proof. intros HQ o n Hn. by apply HQ. Qed.

Lemma sat_of {A} (P : Node -> Prop) (r : result VmManagerError A) E :
  (forall n, P n -> E n) -> sat P (nd_of r) (fun a n => P n /\ r = Ok a) E.
Proof. intros HE o n Hn. unfold nd_of. destruct r; auto. Qed.

Lemma sat_each {A} (P E : Node -> Prop) (f : A -> Nd unit) l :
  (forall x, sat P (f x) (fun _ => P) E) -> sat P (nd_each f l) (fun _ => P) E.
Proof.
  intros Hf. induction l as [|x l IH]; [by apply sat_ret|]. simpl. eapply sat_bind; [apply Hf|]. auto.
Qed.

(** ** Quiet computations: VMs and processes stay *)

Definition same (n n' : Node) : Prop :=
  n_vms n' = n_vms n /\ n_procs n' = n_procs n /\ n_next_pid n' = n_next_pid n.

#[global] Instance same_preorder : PreOrder same.
Proof. split; [by intros n|]. intros x y z (?&?&?) (?&?&?). split_and!; congruence. Qed.

Definition quiet {A} (m : Nd A) : Prop := forall o n, same n (m o n).1.

Lemma quiet_ret {A} (a : A) : quiet (mret a).
Proof. by intros o n. Qed.
Lemma quiet_throw {A} e : quiet (nd_throw (A := A) e).
Proof. by intros o n. Qed.
Lemma quiet_bind {A B} (m : Nd A) (f : A -> Nd B) : quiet m -> (forall a, quiet (f a)) -> quiet (m ≫= f).
Proof.
  intros Hm Hf o n. specialize (Hm o n). unfold mbind, Nd_bind.
  destruct (m o n) as [n' [a|e]]; simpl in *; [|done]. etransitivity; [exact Hm|apply Hf].
Qed.
Lemma quiet_try {A} (m : Nd A) : quiet m -> quiet (nd_try m).
Proof. intros Hm o n. specialize (Hm o n). unfold nd_try. by destruct (m o n). Qed.
Lemma quiet_get {A} (f : Node -> A) : quiet (nd_get f).
Proof. by intros o n. Qed.
Lemma quiet_of {A} (r : result VmManagerError A) : quiet (nd_of r).
Proof. by intros o n. Qed.
Lemma quiet_ask {A} (f : HostOracle -> nat -> A) : quiet (nd_ask f).
Proof. intros o n. by destruct n. Qed.
Lemma quiet_set f : (forall n, same n (f n)) -> quiet (nd_set f).
Proof. intros Hf o n. apply Hf. Qed.
Lemma quiet_each {A} (f : A -> Nd unit) l : (forall x, quiet (f x)) -> quiet (nd_each f l).
Proof.
  intros Hf. induction l as [|x l IH]; [apply quiet_ret|]. simpl. apply quiet_bind; auto.
Qed.

Lemma quiet_sat {A} (m : Nd A) (P : Node -> Prop) :
  quiet m -> (forall n n', same n n' -> P n -> P n') -> sat P m (fun _ => P) P.
Proof.
  intros Hm HP o n Hn. specialize (Hm o n). destruct (m o n) as [n' []]; simpl in Hm; eauto.
Qed.
End facts.

#[export] Hint Resolve quiet_ret quiet_throw quiet_get quiet_of quiet_ask quiet_try : node.

(** Split a computation into its steps. *)
Ltac quiet_step :=
  first [ apply quiet_bind; [|intros ?] | apply quiet_try | apply quiet_set; by intros []
        | progress auto with node | case_match ].
Ltac quiet_solve := repeat quiet_step.

Section quiet.
Context `{ConfigCodec} `{StorageBackend} `{Iptables} `{UuidText}.
Context (rd : string) (ob : bool).
#[local] Set Default Proof Using "Type".

Lemma remove_if_exists_quiet path : quiet (remove_if_exists path).
Proof. unfold remove_if_exists, file_exists, remove_file. quiet_solve. Qed.
Lemma write_path_quiet path content : quiet (write_path path content).
Proof. unfold write_path. quiet_solve. Qed.
Lemma create_dir_quiet : quiet create_dir_all.
Proof. unfold create_dir_all. quiet_solve. Qed.
Lemma api_request_quiet socket method path body : quiet (send_api_request socket method path body).
Proof. unfold send_api_request. quiet_solve. Qed.
Lemma wait_quiet socket : quiet (wait_for_socket socket).
Proof. unfold wait_for_socket. quiet_solve. Qed.
Lemma connect_quiet socket : quiet (connect socket).
Proof. unfold connect. quiet_solve. Qed.
Lemma get_info_quiet socket : quiet (get_info socket).
Proof. unfold get_info. quiet_solve. Qed.
Lemma create_tap_quiet name : quiet (create_tap_device name).
Proof. unfold create_tap_device. quiet_solve. Qed.
Lemma delete_tap_quiet name : quiet (delete_tap_device name).
Proof. unfold delete_tap_device. quiet_solve. Qed.
Lemma delete_taps_quiet taps : quiet (delete_taps taps).
Proof. apply quiet_each. apply delete_tap_quiet. Qed.
Lemma attach_bridge_quiet tap bridge : quiet (attach_to_bridge tap bridge).
Proof. unfold attach_to_bridge. quiet_solve. Qed.
Lemma attach_net_quiet net : quiet (attach_net net).
Proof. unfold attach_net. repeat case_match; auto using attach_bridge_quiet, quiet_ret. Qed.
Lemma map_disks_quiet vm_id disks : quiet (map_disks ob vm_id disks).
Proof.
  induction disks as [|d disks IH]; simpl; [apply quiet_ret|].
  assert (forall c, quiet (map_storage vm_id c)) as Hm.
  { intros c o n. unfold map_storage. destruct (sb_map _ _ _). by destruct n. }
  quiet_solve; auto.
Qed.
Lemma seed_quiet vm_id ci : quiet (seed_disks rd vm_id ci).
Proof. unfold seed_disks, write_path. quiet_solve. Qed.
Lemma vsock_quiet vm_id v : quiet (resolved_vsock rd vm_id v).
Proof. unfold resolved_vsock, resolve_vsock_config, next_vsock_cid. quiet_solve. Qed.
Lemma pty_quiet socket config : quiet (query_pty_paths socket config).
Proof.
  unfold query_pty_paths, send_api_request. case_match; [apply quiet_ret|].
  apply quiet_bind; [quiet_solve|]. intros r. destruct r; [|apply quiet_ret].
  apply quiet_bind; [by intros o n|]. intros ?. apply quiet_ret.
Qed.
Lemma sockets_quiet socket vsock : quiet (remove_sockets socket vsock).
Proof.
  unfold remove_sockets. apply quiet_bind; [apply remove_if_exists_quiet|]. intros ?.
  destruct vsock; [apply remove_if_exists_quiet|apply quiet_ret].
Qed.
Lemma persisted_quiet vm_id : quiet (load_persisted_vm_config rd vm_id).
Proof. unfold load_persisted_vm_config. quiet_solve. Qed.
Lemma bare_quiet vm_id : quiet (persisted_or_bare rd vm_id).
Proof. unfold persisted_or_bare. quiet_solve. Qed.
Lemma receive_networks_quiet vm_id i nets taps : quiet (receive_networks vm_id i nets taps).
Proof.
  revert i taps. induction nets as [|net nets IH]; intros i taps; simpl; [apply quiet_ret|].
  destruct (needs_tap net).
  - apply quiet_bind.
    { apply quiet_try, quiet_bind; [apply create_tap_quiet|]. intros ?.
      destruct (nc_bridge _); [apply attach_bridge_quiet|apply quiet_ret]. }
    intros [u|e].
    + apply quiet_bind; [apply IH|]. intros [? ?]. apply quiet_ret.
    + apply quiet_bind; [apply delete_taps_quiet|]. intros ?. apply quiet_throw.
  - apply quiet_bind; [apply IH|]. intros [? ?]. apply quiet_ret.
Qed.
Lemma port_quiet p : quiet (free_port p).
Proof. unfold free_port. quiet_solve. Qed.
End quiet.

#[export] Hint Resolve remove_if_exists_quiet write_path_quiet create_dir_quiet api_request_quiet wait_quiet
  connect_quiet get_info_quiet create_tap_quiet delete_tap_quiet delete_taps_quiet attach_bridge_quiet
  attach_net_quiet map_disks_quiet seed_quiet vsock_quiet pty_quiet sockets_quiet persisted_quiet bare_quiet
  receive_networks_quiet port_quiet : node.

(** ** Processes and their owners *)

Section ownership.
Context `{ConfigCodec} `{StorageBackend} `{Iptables} `{UuidText}.
Context (rd : string) (ob : bool).
#[local] Set Default Proof Using "Type".

Definition held (i : VmInstance) : list nat := option_list (vi_process i) ++ vi_passt_processes i.

(** A running process belongs to one registered VM, or to the computation at work,
    which holds [extra]. *)
Record procs_owned (extra : list nat) (n : Node) : Prop := {
  po_bound : forall pid p, n_procs n !! pid = Some p -> (pid < n_next_pid n)%nat;
  po_owner : forall pid p, n_procs n !! pid = Some p ->
    pid ∈ extra \/ exists vm i, n_vms n !! vm = Some i /\ pid ∈ held i;
  po_held : forall vm i pid, n_vms n !! vm = Some i -> pid ∈ held i ->
    (pid < n_next_pid n)%nat /\ pid ∉ extra;
  po_unique : forall vm vm' i i' pid, n_vms n !! vm = Some i -> n_vms n !! vm' = Some i' ->
    pid ∈ held i -> pid ∈ held i' -> vm = vm';
  po_extra : forall pid, pid ∈ extra -> (pid < n_next_pid n)%nat;
  po_socket : forall vm i, n_vms n !! vm = Some i -> vi_socket_path i = socket_path rd vm;
  po_kind : forall vm i pid p, n_vms n !! vm = Some i -> n_procs n !! pid = Some p -> pid ∈ held i ->
    match p with ChProc s => vi_process i = Some pid /\ s = socket_path rd vm | _ => True end
}.

Lemma procs_owned_same extra n n' : same n n' -> procs_owned extra n -> procs_owned extra n'.
Proof.
  intros (Hv&Hp&Hi) [B O He U X So K]. split; rewrite ?Hv, ?Hp, ?Hi; auto.
Qed.

Lemma kill_lookup pids n pid p :
  n_procs (kill pids n) !! pid = Some p <-> n_procs n !! pid = Some p /\ pid ∉ pids.
Proof. unfold kill. destruct n. simpl. rewrite map_lookup_filter_Some. done. Qed.

Lemma kill_same pids n : n_vms (kill pids n) = n_vms n /\ n_next_pid (kill pids n) = n_next_pid n.
Proof. by destruct n. Qed.

Lemma procs_owned_kill extra pids n : procs_owned extra n -> procs_owned extra (kill pids n).
Proof.
  intros [B O He U X So K]. destruct (kill_same pids n) as [Hv Hi]. split; rewrite ?Hv, ?Hi; auto.
  - intros pid p [Hp _]%kill_lookup. eauto.
  - intros pid p [Hp _]%kill_lookup. eauto.
  - intros vm i pid p Hvm [Hp _]%kill_lookup. by apply K.
Qed.

(** A computation lets go of processes it kills. *)
Lemma procs_owned_shrink extra extra' pids n :
  procs_owned extra n -> (forall pid, pid ∈ extra -> pid ∈ extra' \/ pid ∈ pids) ->
  (forall pid, pid ∈ extra' -> pid ∈ extra) -> procs_owned extra' (kill pids n).
Proof.
  intros Hn Hcase Hsub. destruct (procs_owned_kill extra pids n Hn) as [B O He U X So K]. split; auto.
  - intros pid p Hp. destruct (O _ _ Hp) as [Hx|?]; [|by right]. apply kill_lookup in Hp as [_ Hno].
    destruct (Hcase _ Hx); [by left|done].
  - intros vm i pid Hi Hh. destruct (He _ _ _ Hi Hh). split; [done|]. intros Hin%Hsub. done.
Qed.

Lemma quiet_owned {A} extra (m : Nd A) :
  quiet m -> sat (procs_owned extra) m (fun _ => procs_owned extra) (procs_owned extra).
Proof. intros Hm. apply quiet_sat; [done|]. intros n n'. apply procs_owned_same. Qed.

(** ** Starting processes *)

Definition absent (vm_id : string) (n : Node) : Prop := n_vms n !! vm_id = None.

(** The state of a computation that will register [vm_id] with the network backends
    [passts] and the hypervisor [ch]. *)
Record busy (vm_id : string) (passts : list nat) (ch : option nat) (n : Node) : Prop := {
  bu_procs : procs_owned (passts ++ option_list ch) n;
  bu_absent : absent vm_id n;
  bu_passt : forall pid p, pid ∈ passts -> n_procs n !! pid = Some p -> exists s, p = PasstProc s;
  bu_ch : forall pid p, ch = Some pid -> n_procs n !! pid = Some p -> p = ChProc (socket_path rd vm_id)
}.

Lemma busy_same vm_id passts ch n n' : same n n' -> busy vm_id passts ch n -> busy vm_id passts ch n'.
Proof.
  intros Hs [Hn Ha Hp Hc]. split; [by eapply procs_owned_same| |..];
    destruct Hs as (Hv&Hps&_); unfold absent; rewrite ?Hv, ?Hps; auto.
Qed.
Lemma quiet_busy {A} vm_id passts ch (m : Nd A) :
  quiet m -> sat (busy vm_id passts ch) m (fun _ => busy vm_id passts ch) (busy vm_id passts ch).
Proof. intros Hm. apply quiet_sat; [done|]. intros n n'. apply busy_same. Qed.

Lemma busy_kill vm_id passts ch pids n : busy vm_id passts ch n -> busy vm_id passts ch (kill pids n).
Proof.
  intros [Hn Ha Hp Hc]. destruct (kill_same pids n) as [Hv _].
  split; [by apply procs_owned_kill|unfold absent; by rewrite Hv|..].
  - intros pid p Hin [Hl _]%kill_lookup. eauto.
  - intros pid p Hin [Hl _]%kill_lookup. eauto.
Qed.
Lemma busy_drop vm_id passts ch pids n :
  busy vm_id passts ch n -> (forall pid, pid ∈ passts ++ option_list ch -> pid ∈ pids) ->
  busy vm_id [] None (kill pids n).
Proof.
  intros [Hn Ha _ _] Hsub. destruct (kill_same pids n) as [Hv _].
  split; [|unfold absent; by rewrite Hv|by intros ?? ?%elem_of_nil|done].
  eapply procs_owned_shrink; [exact Hn|auto|by intros ? ?%elem_of_nil].
Qed.

(** The hypervisor is gone, its backends are not. *)
Lemma busy_drop_ch vm_id passts pid n :
  busy vm_id passts (Some pid) n -> busy vm_id passts None (kill [pid] n).
Proof.
  intros Hb. destruct (busy_kill _ _ _ [pid] _ Hb) as [_ Ha Hp _]. split; [|done|done|done].
  eapply procs_owned_shrink; [by destruct Hb|..]; simpl; set_solver.
Qed.

Lemma spawn_owned extra p :
  sat (procs_owned extra) (spawn p)
    (fun pid n => procs_owned (extra ++ [pid]) n /\ n_procs n !! pid = Some p) (procs_owned extra).
Proof.
  unfold spawn. eapply sat_bind; [apply quiet_owned, quiet_ask|]. intros [].
  2:{ by apply sat_throw. }
  intros o n [B O He U X So K]. unfold mbind, Nd_bind, nd_get, nd_set.
  destruct n as [v t b fs sz ps st k next c step ev]. simpl in *.
  split; [|by rewrite lookup_insert_eq]. split; simpl.
  - intros pid q. rewrite lookup_insert_Some. intros [[<- _]|[_ Hp]]; [lia|]. apply B in Hp. lia.
  - intros pid q. rewrite lookup_insert_Some. intros [[<- _]|[_ Hp]]; [left; set_solver|].
    destruct (O _ _ Hp); [left; set_solver|auto].
  - intros vm i pid Hi Hh. destruct (He _ _ _ Hi Hh) as [Hlt Hno]. split; [lia|].
    rewrite elem_of_app, list_elem_of_singleton. intros [?| ->]; [done|lia].
  - done.
  - intros pid. rewrite elem_of_app, list_elem_of_singleton. intros [Hin| ->]; [apply X in Hin|]; lia.
  - done.
  - intros vm i pid q Hi Hp Hh. rewrite lookup_insert_ne in Hp; [by apply (K vm)|].
    destruct (He _ _ _ Hi Hh). lia.
Qed.

(** What else a spawn leaves alone. *)
Lemma spawn_frame p o n :
  let '(n', r) := spawn p o n in
  n_vms n' = n_vms n /\
  match r with
  | Ok pid => pid = n_next_pid n /\ n_procs n' = <[pid := p]> (n_procs n)
  | Err _ => n_procs n' = n_procs n
  end.
Proof.
  unfold spawn, mbind, Nd_bind, nd_ask. destruct (ho_spawn o (n_step n)); by destruct n.
Qed.

Lemma spawn_passt vm_id passts s :
  sat (busy vm_id passts None) (spawn (PasstProc s))
    (fun pid => busy vm_id (passts ++ [pid]) None) (busy vm_id passts None).
Proof.
  intros o n [Hn Ha Hp _]. pose proof (spawn_owned _ (PasstProc s) o n Hn) as Hs.
  pose proof (spawn_frame (PasstProc s) o n) as Hf. destruct (spawn _ o n) as [n' [pid|e]].
  - destruct Hs as [Hs Hl], Hf as (Hv&->&Hps). rewrite app_nil_r in Hs. split; [by rewrite app_nil_r| | |done].
    + unfold absent. by rewrite Hv.
    + intros pid p. rewrite Hps, elem_of_app, list_elem_of_singleton, lookup_insert_Some.
      intros Hin [[<- <-]|[Hne Hq]]; [by eexists|]. destruct Hin as [Hin| ->]; [eauto|done].
  - destruct Hf as [Hv Hps]. split; [done|unfold absent; by rewrite Hv| |done]. intros pid p. rewrite Hps. eauto.
Qed.

Lemma spawn_ch vm_id passts :
  sat (busy vm_id passts None) (spawn (ChProc (socket_path rd vm_id)))
    (fun pid => busy vm_id passts (Some pid)) (busy vm_id passts None).
Proof.
  intros o n [Hn Ha Hp _]. pose proof (spawn_owned _ (ChProc (socket_path rd vm_id)) o n Hn) as Hs.
  pose proof (spawn_frame (ChProc (socket_path rd vm_id)) o n) as Hf.
  pose proof (po_extra _ _ Hn) as Hx. destruct (spawn _ o n) as [n' [pid|e]].
  - destruct Hs as [Hs Hl], Hf as (Hv&->&Hps). rewrite app_nil_r in Hs, Hx. split; [done| | |].
    + unfold absent. by rewrite Hv.
    + intros pid p Hin. rewrite Hps, lookup_insert_ne; [eauto|]. apply Hx in Hin. lia.
    + intros pid p [= <-] Hq. congruence.
  - destruct Hf as [Hv Hps]. split; [done|unfold absent; by rewrite Hv| |done]. intros pid p. rewrite Hps. eauto.
Qed.

Lemma owned_sat {A} vm_id passts ch pids (m : Nd A) P Q :
  sat P m Q (busy vm_id passts ch) -> (forall pid, pid ∈ passts ++ option_list ch -> pid ∈ pids) ->
  sat P (owned pids m) Q (busy vm_id [] None).
Proof.
  intros Hm Hsub o n Hn. specialize (Hm o n Hn). unfold owned. destruct (m o n) as [n' [a|e]]; [done|].
  by eapply busy_drop.
Qed.

Lemma owned_ch_sat {A} vm_id passts pid (m : Nd A) P Q :
  sat P m Q (busy vm_id passts (Some pid)) -> sat P (owned [pid] m) Q (busy vm_id passts None).
Proof.
  intros Hm o n Hn. specialize (Hm o n Hn). unfold owned. destruct (m o n) as [n' [a|e]]; [done|].
  by apply busy_drop_ch.
Qed.

Lemma undoing_sat {A} vm_id passts ch taps pids (m : Nd A) P Q :
  sat P m Q (busy vm_id passts ch) -> sat P (undoing taps pids m) Q (busy vm_id passts ch).
Proof.
  intros Hm. unfold undoing. eapply sat_bind; [by eapply sat_try|]. intros [a|e]; [by apply sat_ret|].
  eapply (sat_bind _ _ _ (fun _ => busy vm_id passts ch)); [|intros ?; by apply sat_throw].
  unfold undo. eapply sat_bind; [apply quiet_busy, delete_taps_quiet|]. intros ?.
  apply sat_set. intros n. apply busy_kill.
Qed.

(** The instance takes over what the computation held. *)
Lemma register_owned vm_id passts ch i n :
  busy vm_id passts ch n -> vi_process i = ch -> vi_passt_processes i = passts ->
  vi_socket_path i = socket_path rd vm_id -> procs_owned [] (with_vms (insert vm_id i) n).
Proof.
  intros [[B O He U X So K] Ha Hp Hc] Hch Hpa Hso.
  assert (forall pid, pid ∈ held i <-> pid ∈ passts ++ option_list ch) as Hheld.
  { intros pid. unfold held. rewrite Hch, Hpa, !elem_of_app. tauto. }
  destruct n as [v t b fs sz ps st k next c step ev]. unfold absent in Ha. simpl in *. split; simpl.
  - done.
  - intros pid p Hl. right. destruct (O _ _ Hl) as [Hin|(vm&j&Hj&Hin)].
    + exists vm_id, i. rewrite lookup_insert_eq. by rewrite Hheld.
    + exists vm, j. rewrite lookup_insert_ne by congruence. done.
  - intros vm j pid. rewrite lookup_insert_Some. intros [[<- <-]|[_ Hj]] Hin.
    + rewrite Hheld in Hin. split; [auto|set_solver].
    + destruct (He _ _ _ Hj Hin). split; [done|set_solver].
  - intros vm vm' j j' pid. rewrite !lookup_insert_Some. intros [[<- <-]|[? Hj]] [[<- <-]|[? Hj']] Hin Hin'.
    + done.
    + rewrite Hheld in Hin. by destruct (He _ _ _ Hj' Hin').
    + rewrite Hheld in Hin'. by destruct (He _ _ _ Hj Hin).
    + by apply (U vm vm' j j' pid).
  - by intros pid ?%elem_of_nil.
  - intros vm j. rewrite lookup_insert_Some. intros [[<- <-]|[_ Hj]]; eauto.
  - intros vm j pid p. rewrite lookup_insert_Some. intros [[<- <-]|[_ Hj]] Hl Hin; [|by apply (K vm j pid)].
    rewrite Hheld in Hin. apply elem_of_app in Hin as [Hin|Hin].
    + by destruct (Hp _ _ Hin Hl) as [s ->].
    + destruct ch as [c'|]; [|by apply elem_of_nil in Hin]. apply list_elem_of_singleton in Hin as ->.
      rewrite (Hc _ _ eq_refl Hl). done.
Qed.

(** ** The operations keep processes owned *)

Lemma delete_taps_ok taps o n : (delete_taps taps o n).2 = Ok tt.
Proof.
  unfold delete_taps. revert n. induction taps as [|t taps IH]; intros n; [done|]. simpl.
  unfold mbind, Nd_bind. destruct (delete_tap_device t o n) as [n' r] eqn:E.
  assert (r = Ok tt) as ->; [|apply IH]. revert E. unfold delete_tap_device, mbind, Nd_bind, nd_ask, nd_set.
  destruct (ho_command o (n_step n)) as [[]|]; by intros [= <- <-].
Qed.

Lemma delete_taps_sat vm_id passts ch taps E :
  sat (busy vm_id passts ch) (delete_taps taps) (fun _ => busy vm_id passts ch) E.
Proof.
  intros o n Hb. pose proof (quiet_busy vm_id passts ch _ (delete_taps_quiet taps) o n Hb) as Hq.
  pose proof (delete_taps_ok taps o n) as Hok. by destruct (delete_taps taps o n) as [n' []].
Qed.

Lemma start_passt_sat vm_id passts socket :
  sat (busy vm_id passts None) (start_passt_backend socket)
    (fun pid => busy vm_id (passts ++ [pid]) None) (busy vm_id passts None).
Proof.
  unfold start_passt_backend. eapply sat_bind; [apply quiet_busy, remove_if_exists_quiet|]. intros ?.
  eapply sat_bind; [apply sat_try, spawn_passt|]. intros [pid|e]; [|by apply sat_throw].
  intros o n Hb. unfold mbind, Nd_bind, nd_ask, nd_set, nd_throw.
  assert (busy vm_id (passts ++ [pid]) None (tick_node n)) as Hb'.
  { eapply busy_same; [|exact Hb]. by destruct n. }
  destruct (ho_ready o (n_step n)); simpl.
  - eapply busy_same; [|exact Hb']. by destruct n.
  - destruct (busy_kill _ _ _ [pid] _ Hb') as [_ Ha Hp _].
    split; [|done|intros q p Hq; apply Hp; apply elem_of_app; by left|done].
    eapply procs_owned_shrink; [by destruct Hb'|..]; simpl; set_solver.
Qed.

Lemma prepare_networks_sat vm_id i nets taps passts :
  sat (busy vm_id passts None) (prepare_networks rd vm_id i nets taps passts)
    (fun r => busy vm_id r.2 None) (busy vm_id [] None).
Proof.
  revert i taps passts. induction nets as [|net nets IH]; intros i taps passts; simpl; [by apply sat_ret|].
  destruct (should_spawn_passt net); [|destruct (needs_tap net)].
  - eapply sat_bind.
    { eapply owned_sat; [apply start_passt_sat|]. intros pid. rewrite app_nil_r. done. }
    intros pid. eapply sat_bind; [apply IH|]. intros [[rest' taps'] passts']. by apply sat_ret.
  - eapply sat_bind; [apply sat_try, quiet_busy, create_tap_quiet|]. intros [u|e].
    + eapply sat_bind; [apply IH|]. intros [[rest' taps'] passts']. by apply sat_ret.
    + eapply (sat_bind _ _ _ (fun _ => busy vm_id passts None)).
      { apply delete_taps_sat. }
      intros ?. eapply (sat_bind _ _ _ (fun _ => busy vm_id [] None)).
      { apply sat_set. intros n Hb. eapply busy_drop; [exact Hb|]. intros pid. by rewrite app_nil_r. }
      intros ?. by apply sat_throw.
  - eapply sat_bind; [apply IH|]. intros [[rest' taps'] passts']. by apply sat_ret.
Qed.

Lemma register_vm_sat vm_id config taps passts mapped pid :
  sat (busy vm_id passts (Some pid)) (register_vm rd vm_id config taps passts mapped pid)
    (fun _ => procs_owned []) (busy vm_id passts (Some pid)).
Proof.
  unfold register_vm. eapply sat_bind; [apply quiet_busy, quiet_get|]. intros files.
  eapply sat_bind; [apply quiet_busy, quiet_of|]. intros sdk.
  eapply sat_bind; [apply undoing_sat, quiet_busy, api_request_quiet|]. intros ?.
  eapply sat_bind; [apply quiet_busy, pty_quiet|]. intros [serial console].
  eapply sat_bind; [apply quiet_busy, quiet_try, write_path_quiet|]. intros ?.
  eapply sat_bind; [apply quiet_busy, quiet_of|]. intros ?.
  eapply sat_bind; [apply undoing_sat, quiet_busy, connect_quiet|]. intros ?.
  eapply (sat_bind _ _ _ (fun _ => procs_owned [])); [|intros ?; by apply sat_ret].
  apply sat_set. intros n Hb. by eapply register_owned.
Qed.

Lemma launch_vm_sat vm_id config vsock nets taps passts :
  sat (busy vm_id passts None) (launch_vm rd ob vm_id config vsock nets taps passts)
    (fun _ => procs_owned []) (busy vm_id passts None).
Proof.
  unfold launch_vm.
  eapply sat_bind; [apply undoing_sat, quiet_busy, quiet_each, attach_net_quiet|]. intros ?.
  eapply sat_bind; [apply quiet_busy, map_disks_quiet|]. intros [disks mapped].
  eapply sat_bind; [apply quiet_busy, seed_quiet|]. intros seeds.
  eapply sat_bind; [apply quiet_busy, create_dir_quiet|]. intros ?.
  eapply sat_bind; [apply quiet_busy, sockets_quiet|]. intros ?.
  eapply sat_bind; [apply quiet_busy, write_path_quiet|]. intros ?.
  eapply sat_bind; [apply undoing_sat, spawn_ch|]. intros pid. apply owned_ch_sat.
  eapply sat_bind; [apply undoing_sat, quiet_busy, wait_quiet|]. intros ?. apply register_vm_sat.
Qed.

Lemma busy_owned vm_id n : busy vm_id [] None n -> procs_owned [] n.
Proof. by intros []. Qed.

Lemma registered_sat vm_id E :
  sat (procs_owned []) (registered vm_id)
    (fun b n => procs_owned [] n /\ if b : bool then True else busy vm_id [] None n) E.
Proof.
  intros o n Hn. unfold registered, nd_get. split; [done|]. case_bool_decide as Hd; [done|].
  split; [done|by apply not_elem_of_dom|by intros ?? ?%elem_of_nil|done].
Qed.

Lemma create_vm_sat config :
  sat (procs_owned []) (create_vm rd ob config) (fun _ => procs_owned []) (procs_owned []).
Proof.
  unfold create_vm. eapply sat_bind; [apply registered_sat|]. intros [|].
  { apply sat_throw. tauto. }
  eapply sat_pre; [intros n [_ Hb]; exact Hb|].
  apply (sat_post _ _ (fun _ => procs_owned []) _ (busy (pv_vm_id config) [] None)); [|done|apply busy_owned].
  eapply sat_bind; [apply quiet_busy, vsock_quiet|]. intros vsock.
  eapply sat_bind; [apply prepare_networks_sat|]. intros [[nets taps] passts].
  eapply owned_sat; [apply launch_vm_sat|]. intros pid. by rewrite app_nil_r.
Qed.

(** A registered instance changes without its processes. *)
Lemma update_owned_at vm_id f n :
  procs_owned [] n ->
  (forall i, n_vms n !! vm_id = Some i ->
     held (f i) = held i /\ vi_process (f i) = vi_process i /\ vi_socket_path (f i) = vi_socket_path i) ->
  procs_owned [] (with_vms (alter f vm_id) n).
Proof.
  intros [B O He U X So K] Hf. destruct n as [v t b fs sz ps st k next c step ev]. simpl in *.
  assert (forall vm j, alter f vm_id v !! vm = Some j ->
    exists i, v !! vm = Some i /\ held j = held i /\ vi_process j = vi_process i /\ vi_socket_path j = vi_socket_path i)
    as Hback.
  { intros vm j. destruct (decide (vm = vm_id)) as [->|Hne].
    - rewrite lookup_alter_eq. intros (i&Hi&->)%fmap_Some. exists i. split; [done|]. by apply Hf.
    - rewrite lookup_alter_ne by done. by exists j. }
  split; simpl; [done| | | |by intros ? ?%elem_of_nil| |].
  - intros pid p Hp. right. destruct (O _ _ Hp) as [?%elem_of_nil|(vm&i&Hi&Hin)]; [done|].
    destruct (decide (vm = vm_id)) as [->|Hne].
    + exists vm_id, (f i). rewrite lookup_alter_eq, Hi. destruct (Hf i Hi) as [-> _]. done.
    + exists vm, i. by rewrite lookup_alter_ne.
  - intros vm j pid (i&Hi&->&_)%Hback. eauto.
  - intros vm vm' j j' pid (i&Hi&->&_)%Hback (i'&Hi'&->&_)%Hback. eauto.
  - intros vm j (i&Hi&_&_&->)%Hback. eauto.
  - intros vm j pid p (i&Hi&->&->&_)%Hback. apply (K vm i pid p Hi).
Qed.

Lemma status_keeps s i :
  held (with_status s i) = held i /\ vi_process (with_status s i) = vi_process i /\
  vi_socket_path (with_status s i) = vi_socket_path i.
Proof. by destruct i. Qed.
Lemma ptys_keep a b i :
  held (with_ptys a b i) = held i /\ vi_process (with_ptys a b i) = vi_process i /\
  vi_socket_path (with_ptys a b i) = vi_socket_path i.
Proof. by destruct i. Qed.

Abbreviation keeps m := (sat (procs_owned []) m (fun _ => procs_owned []) (procs_owned [])).

Lemma instance_keeps vm_id : keeps (instance_of vm_id).
Proof. apply quiet_owned. unfold instance_of. quiet_solve. Qed.
Lemma update_keeps vm_id f :
  (forall i, held (f i) = held i /\ vi_process (f i) = vi_process i /\ vi_socket_path (f i) = vi_socket_path i) ->
  keeps (update_instance vm_id f).
Proof. intros Hf. apply sat_set. intros n Hn. by apply update_owned_at. Qed.
Lemma status_keeps_owned vm_id s : keeps (update_instance vm_id (with_status s)).
Proof. apply update_keeps. apply status_keeps. Qed.

Lemma ensure_keeps vm_id : keeps (ensure_vm_registered rd ob vm_id).
Proof.
  unfold ensure_vm_registered. eapply sat_bind; [apply quiet_owned, quiet_get|]. intros [|]; [by apply sat_ret|].
  eapply sat_bind; [apply quiet_owned, persisted_quiet|]. intros [config|]; [|by apply sat_throw].
  eapply sat_bind; [apply create_vm_sat|]. intros ?. by apply sat_ret.
Qed.

(** A request to a registered VM, then a new status. *)
Lemma request_status_keeps vm_id path s :
  keeps (i ← instance_of vm_id; _ ← send_api_request (vi_socket_path i) "PUT" path NoBody;
         update_instance vm_id (with_status s)).
Proof.
  eapply sat_bind; [apply instance_keeps|]. intros i.
  eapply sat_bind; [apply quiet_owned, api_request_quiet|]. intros ?. apply status_keeps_owned.
Qed.

Lemma start_keeps vm_id : keeps (start_vm rd ob vm_id).
Proof.
  unfold start_vm. eapply sat_bind; [apply ensure_keeps|]. intros ?.
  eapply sat_bind; [apply instance_keeps|]. intros i.
  eapply sat_bind; [apply quiet_owned, api_request_quiet|]. intros ?.
  eapply sat_bind; [apply status_keeps_owned|]. intros ?.
  eapply sat_bind; [apply quiet_owned, pty_quiet|]. intros [serial console]. apply update_keeps. apply ptys_keep.
Qed.

Lemma stop_keeps vm_id : keeps (stop_vm vm_id).
Proof.
  unfold stop_vm. eapply sat_bind; [apply instance_keeps|]. intros i.
  eapply sat_bind; [apply quiet_owned, quiet_try, api_request_quiet|]. intros ?. apply status_keeps_owned.
Qed.

(** Processes of a VM may be killed when the VM lets go of them. *)
Lemma release_owned vm_id f pids n i :
  procs_owned [] n -> n_vms n !! vm_id = Some i ->
  (forall pid, pid ∈ held i -> pid ∉ held (f i) -> pid ∈ pids) ->
  (forall pid, pid ∈ held (f i) -> pid ∈ held i) -> vi_socket_path (f i) = vi_socket_path i ->
  (forall pid, vi_process i = Some pid -> pid ∉ pids -> pid ∈ held (f i) -> vi_process (f i) = Some pid) ->
  procs_owned [] (with_vms (alter f vm_id) (kill pids n)).
Proof.
  intros Hn Hi Hkill Hsub Hs Hch. destruct (procs_owned_kill _ pids _ Hn) as [B O He U X So K].
  destruct n as [v t b fs sz ps st k next c step ev]. simpl in *.
  assert (forall vm j, alter f vm_id v !! vm = Some j -> exists i', v !! vm = Some i' /\
    (forall pid, pid ∈ held j -> pid ∈ held i') /\ vi_socket_path j = vi_socket_path i' /\
    (forall pid, vi_process i' = Some pid -> pid ∉ pids -> pid ∈ held j -> vi_process j = Some pid)) as Hback.
  { intros vm j. destruct (decide (vm = vm_id)) as [->|Hne].
    - rewrite lookup_alter_eq, Hi. intros [= <-]. eauto.
    - rewrite lookup_alter_ne by done. by exists j. }
  split; simpl; [done| | | |by intros ? ?%elem_of_nil| |].
  - intros pid p Hp. right. destruct (O _ _ Hp) as [?%elem_of_nil|(vm&j&Hj&Hin)]; [done|].
    destruct (decide (vm = vm_id)) as [->|Hne].
    + exists vm_id, (f i). rewrite lookup_alter_eq, Hi. split; [done|]. assert (j = i) as -> by congruence.
      apply map_lookup_filter_Some in Hp as [_ Hno]. simpl in Hno.
      destruct (decide (pid ∈ held (f i))); [done|]. destruct Hno. auto.
    + exists vm, j. by rewrite lookup_alter_ne.
  - intros vm j pid (i'&Hi'&Hh&_)%Hback Hin. apply (He vm i'); auto.
  - intros vm vm' j j' pid (i1&Hi1&Ha&_)%Hback (i2&Hi2&Hb&_)%Hback Hin Hin'. apply (U vm vm' i1 i2 pid); auto.
  - intros vm j (i'&Hi'&_&->&_)%Hback. eauto.
  - intros vm j pid p (i'&Hi'&Hh&_&Hp)%Hback Hl Hin. specialize (K vm i' pid p Hi' Hl (Hh _ Hin)).
    destruct p; [|done|done]. destruct K as [K1 K2]. apply map_lookup_filter_Some in Hl as [_ Hno]. auto.
Qed.

Lemma instance_sat vm_id :
  sat (procs_owned []) (instance_of vm_id)
    (fun i n => procs_owned [] n /\ n_vms n !! vm_id = Some i) (procs_owned []).
Proof.
  intros o n Hn. unfold instance_of, mbind, Nd_bind, nd_get, nd_of. simpl.
  by destruct (n_vms n !! vm_id) eqn:E.
Qed.

Lemma force_stop_keeps vm_id : keeps (force_stop_vm vm_id).
Proof.
  unfold force_stop_vm. eapply sat_bind; [apply instance_sat|]. intros i o n [Hn Hi].
  set (f := fun j => with_status NsShutdown (without_process j)).
  assert (held (f i) = vi_passt_processes i) as Hh by by destruct i.
  assert (vi_socket_path (f i) = vi_socket_path i) as Hs by by destruct i.
  unfold update_instance, mbind, Nd_bind, nd_set, mret, Nd_ret. fold f.
  destruct (vi_process i) as [pid|] eqn:Hp.
  - apply (release_owned vm_id f [pid] n i); try done.
    + intros q. rewrite Hh. unfold held. rewrite Hp, elem_of_app. tauto.
    + intros q. rewrite Hh. unfold held. rewrite elem_of_app. tauto.
    + intros q Hq Hno. destruct Hno. apply list_elem_of_singleton. congruence.
  - apply update_owned_at; [done|]. intros j Hj. assert (j = i) as -> by congruence.
    split_and!; [|by rewrite Hp; destruct i|done]. rewrite Hh. unfold held. by rewrite Hp.
Qed.

(** The instance is taken out of the table; the computation holds its processes. *)
Lemma take_owned vm_id n i :
  procs_owned [] n -> n_vms n !! vm_id = Some i -> procs_owned (held i) (with_vms (delete vm_id) n).
Proof.
  intros [B O He U X So K] Hi.
  destruct n as [v t b fs sz ps st k next c step ev]. simpl in *.
  assert (forall vm j, delete vm_id v !! vm = Some j -> vm <> vm_id /\ v !! vm = Some j) as Hback.
  { intros vm j. rewrite lookup_delete_Some. intros []; auto. }
  split; simpl; [done| | | | | |].
  - intros pid p Hp. destruct (O _ _ Hp) as [?%elem_of_nil|(vm&j&Hj&Hin)]; [done|].
    destruct (decide (vm = vm_id)) as [->|Hne]; [left; congruence|]. right. exists vm, j.
    by rewrite lookup_delete_ne.
  - intros vm j pid [Hne Hj]%Hback Hin. destruct (He _ _ _ Hj Hin). split; [done|]. intros Hin'.
    by apply Hne, (U vm vm_id j i pid).
  - intros vm vm' j j' pid [_ Hj]%Hback [_ Hj']%Hback. eauto.
  - intros pid Hin. by destruct (He _ _ _ Hi Hin).
  - intros vm j [_ Hj]%Hback. eauto.
  - intros vm j pid p [_ Hj]%Hback Hp Hin. by apply (K vm).
Qed.

Lemma delete_taps_owned extra taps E :
  sat (procs_owned extra) (delete_taps taps) (fun _ => procs_owned extra) E.
Proof.
  intros o n Hb. pose proof (quiet_owned extra _ (delete_taps_quiet taps) o n Hb) as Hq.
  pose proof (delete_taps_ok taps o n) as Hok. by destruct (delete_taps taps o n) as [n' []].
Qed.

Lemma remove_if_ok path o n : (remove_if_exists path o n).2 = Ok tt.
Proof.
  unfold remove_if_exists, file_exists, mbind, Nd_bind, nd_get, nd_try. simpl. case_bool_decide; [|done].
  by destruct (remove_file path o n) as [n' []].
Qed.

(** A quiet computation that never fails. *)
Lemma quiet_total {A} extra (m : Nd A) E :
  quiet m -> (forall o n, is_ok (m o n).2 = true) -> sat (procs_owned extra) m (fun _ => procs_owned extra) E.
Proof.
  intros Hm Hok o n Hn. pose proof (quiet_owned extra m Hm o n Hn) as Hq. specialize (Hok o n).
  by destruct (m o n) as [n' []].
Qed.
Lemma remove_if_owned extra path E :
  sat (procs_owned extra) (remove_if_exists path) (fun _ => procs_owned extra) E.
Proof. apply quiet_total; [apply remove_if_exists_quiet|]. intros. by rewrite remove_if_ok. Qed.
Lemma sockets_owned extra socket vsock E :
  sat (procs_owned extra) (remove_sockets socket vsock) (fun _ => procs_owned extra) E.
Proof.
  unfold remove_sockets. eapply sat_bind; [apply remove_if_owned|]. intros ?.
  destruct vsock; [apply remove_if_owned|by apply sat_ret].
Qed.

Lemma delete_keeps vm_id : keeps (delete_vm rd ob vm_id).
Proof.
  unfold delete_vm. eapply sat_bind; [apply instance_sat|]. intros i.
  eapply (sat_bind _ _ _ (fun _ => procs_owned (held i))).
  { apply sat_set. intros n [Hn Hi]. by apply take_owned. }
  intros ?. eapply sat_bind; [by apply (quiet_total (held i)); [apply quiet_ask|]|]. intros ?.
  eapply (sat_bind _ _ _ (fun _ => procs_owned (vi_passt_processes i))).
  { unfold held. destruct (vi_process i) as [pid|]; [|by apply sat_ret].
    apply sat_set. intros n Hn. eapply procs_owned_shrink; [exact Hn|..]; simpl; set_solver. }
  intros ?. eapply sat_bind; [apply sockets_owned|]. intros ?.
  eapply sat_bind; [apply remove_if_owned|]. intros ?. eapply sat_bind; [apply remove_if_owned|]. intros ?.
  eapply sat_bind; [apply delete_taps_owned|]. intros ?.
  eapply sat_bind; [apply (quiet_total (vi_passt_processes i)); [apply quiet_set; by intros []|done]|]. intros ?.
  eapply (sat_bind _ _ _ (fun _ => procs_owned [])).
  { apply sat_set. intros n Hn. eapply procs_owned_shrink; [exact Hn|..]; set_solver. }
  intros ?. destruct (vi_overlaybd i && ob); [|by apply sat_ret].
  apply (quiet_total []); [apply quiet_set; by intros []|done].
Qed.

Lemma info_keeps vm_id : keeps (get_vm_info vm_id).
Proof.
  unfold get_vm_info. eapply sat_bind; [apply instance_keeps|]. intros i.
  eapply sat_bind; [apply quiet_owned, get_info_quiet|]. intros [[state size]|]; [|by apply sat_ret].
  eapply sat_bind; [apply status_keeps_owned|]. intros ?. by apply sat_ret.
Qed.

Lemma snapshot_keeps vm_id url : keeps (snapshot_vm vm_id url).
Proof.
  unfold snapshot_vm. eapply sat_bind; [apply instance_keeps|]. intros i. apply quiet_owned.
  quiet_solve.
Qed.

Lemma drop_instance_sat vm_id E :
  sat (procs_owned []) (drop_instance vm_id) (fun _ => busy vm_id [] None) E.
Proof.
  unfold drop_instance. intros o n Hn. unfold mbind, Nd_bind, nd_get, nd_set, mret, Nd_ret.
  destruct (n_vms n !! vm_id) as [i|] eqn:Hi.
  - set (n1 := kill (option_list (vi_process i) ++ vi_passt_processes i) (with_vms (delete vm_id) n)).
    assert (busy vm_id [] None n1) as Hb.
    { split; [|by unfold absent, n1; destruct n; simpl; rewrite lookup_delete_eq|by intros ?? ?%elem_of_nil|done].
      eapply procs_owned_shrink; [by apply take_owned|..]; unfold held; set_solver. }
    pose proof (quiet_busy vm_id [] None _ (remove_if_exists_quiet (vi_socket_path i)) o n1 Hb) as Hq.
    pose proof (remove_if_ok (vi_socket_path i) o n1) as Hok. fold n1.
    by destruct (remove_if_exists (vi_socket_path i) o n1) as [n' []].
  - split; [done|done|by intros ?? ?%elem_of_nil|done].
Qed.

Lemma resume_restored_sat vm_id url config pid :
  sat (busy vm_id [] (Some pid)) (resume_restored rd vm_id url config pid) (fun _ => procs_owned [])
    (busy vm_id [] (Some pid)).
Proof.
  assert (quiet (nd_try (remove_file (socket_path rd vm_id)))) as Hq by (unfold remove_file; quiet_solve).
  unfold resume_restored. eapply sat_bind; [apply quiet_busy, wait_quiet|]. intros ?.
  eapply sat_bind; [apply quiet_busy, quiet_try, api_request_quiet|]. intros [?|e].
  2:{ eapply sat_bind; [by apply quiet_busy|]. intros ?. by apply sat_throw. }
  eapply sat_bind; [apply quiet_busy, quiet_try, api_request_quiet|]. intros [?|e].
  2:{ eapply sat_bind; [by apply quiet_busy|]. intros ?. by apply sat_throw. }
  eapply sat_bind; [apply quiet_busy, pty_quiet|]. intros [serial console].
  eapply sat_bind; [apply quiet_busy, quiet_of|]. intros ?.
  eapply sat_bind; [apply quiet_busy, connect_quiet|]. intros ?.
  apply sat_set. intros n Hb. by eapply register_owned.
Qed.

Lemma restore_keeps vm_id url : keeps (restore_vm rd vm_id url).
Proof.
  unfold restore_vm. eapply sat_bind; [apply quiet_owned, bare_quiet|]. intros config.
  eapply sat_bind; [apply drop_instance_sat|]. intros ?.
  apply (sat_post _ _ (fun _ => procs_owned []) _ (busy vm_id [] None)); [|done|apply busy_owned].
  eapply sat_bind; [apply quiet_busy, create_dir_quiet|]. intros ?.
  eapply sat_bind; [apply quiet_busy, remove_if_exists_quiet|]. intros ?.
  eapply sat_bind; [apply quiet_busy, write_path_quiet|]. intros ?.
  eapply sat_bind; [apply spawn_ch|]. intros pid. apply owned_ch_sat, resume_restored_sat.
Qed.

Lemma register_incoming_sat vm_id config taps mapped pid :
  sat (busy vm_id [] (Some pid)) (register_incoming rd vm_id config taps mapped pid) (fun _ => procs_owned [])
    (busy vm_id [] (Some pid)).
Proof.
  unfold register_incoming. eapply sat_bind; [apply quiet_busy, quiet_try, write_path_quiet|]. intros ?.
  eapply sat_bind; [apply quiet_busy, quiet_of|]. intros ?.
  eapply sat_bind; [apply quiet_busy, connect_quiet|]. intros ?.
  apply sat_set. intros n Hb. by eapply register_owned.
Qed.

Lemma receive_keeps vm_id config port : keeps (receive_migration rd ob vm_id config port).
Proof.
  unfold receive_migration. eapply sat_bind; [apply registered_sat|]. intros [|].
  { apply sat_throw. tauto. }
  eapply sat_pre; [intros n [_ Hb]; exact Hb|].
  apply (sat_post _ _ (fun _ => procs_owned []) _ (busy vm_id [] None)); [|done|apply busy_owned].
  eapply sat_bind; [apply quiet_busy, port_quiet|]. intros p.
  eapply sat_bind; [apply quiet_busy, vsock_quiet|]. intros vsock.
  eapply sat_bind; [apply quiet_busy, receive_networks_quiet|]. intros [nets taps].
  eapply sat_bind; [apply quiet_busy, map_disks_quiet|]. intros [disks mapped].
  eapply sat_bind; [apply quiet_busy, create_dir_quiet|]. intros ?.
  eapply sat_bind; [apply quiet_busy, sockets_quiet|]. intros ?.
  eapply sat_bind; [apply undoing_sat, quiet_busy, write_path_quiet|]. intros ?.
  eapply sat_bind; [apply spawn_ch|]. intros pid. apply owned_ch_sat.
  eapply sat_bind; [apply undoing_sat, quiet_busy, wait_quiet|]. intros ?.
  eapply sat_bind; [apply register_incoming_sat|]. intros ?.
  eapply (sat_bind _ _ _ (fun _ => procs_owned [])); [|intros ?; by apply sat_ret].
  apply sat_set. intros n. apply procs_owned_same. by destruct n.
Qed.

Lemma send_keeps vm_id url : keeps (send_migration vm_id url).
Proof.
  unfold send_migration. eapply sat_bind; [apply instance_keeps|]. intros i.
  eapply sat_bind; [apply quiet_owned, quiet_try, api_request_quiet|]. intros [?|e]; [|by apply sat_throw].
  apply status_keeps_owned.
Qed.

Lemma device_keeps vm_id path body : keeps (device_request vm_id path body).
Proof.
  unfold device_request. eapply sat_bind; [apply instance_keeps|]. intros i. apply quiet_owned.
  quiet_solve.
Qed.

Lemma resize_disk_keeps path size : keeps (resize_disk_file path size).
Proof.
  apply quiet_owned. unfold resize_disk_file.
  assert (quiet (resize_command path size)) as Hr by (unfold resize_command; quiet_solve).
  quiet_solve; done.
Qed.
End ownership.
