(* ===== verification/NodeVms.v ===== *)
(** * NodeVms: the life of a VM on a node

    Theorems about the operations of [NodeManager.v], from the lemmas of
    [NodeManagerFacts.v].  In one run of the agent every process belongs to exactly
    one registered VM, whatever fails.  Creating a VM and deleting it leaves no
    device and no process behind.  After a restart of the agent a VM is registered
    again with the devices it had.  Two theorems state behaviour that looks
    unintended: a VM that was stopped by force cannot be started again, and a forced
    stop of a recovered VM stops nothing. *)

From S2P Require Import Prelude Text Common Errors Secrets Tables NodeApi Ipv4 Netfilter.
From S2P Require Import NodeFirewall NodeConfig NodeManager NodeWire NodeManagerFacts.
From Stdlib Require Import Ascii.
#[local] Open Scope Z_scope.

(** ** The operations of a manager *)

Inductive NodeOp :=
| CreateVm (config : ProtoVmConfig) | StartVm (vm_id : string) | StopVm (vm_id : string)
| ForceStopVm (vm_id : string) | PauseVm (vm_id : string) | ResumeVm (vm_id : string)
| DeleteVm (vm_id : string) | GetVmInfo (vm_id : string)
| SnapshotVm (vm_id url : string) | RestoreVm (vm_id url : string)
| ReceiveMigration (vm_id : string) (config : ProtoVmConfig) (port : Z) | SendMigration (vm_id url : string)
| AddNetworkDevice (vm_id : string) (config : ProtoNet) | RemoveNetworkDevice (vm_id device_id : string)
| AddDiskDevice (vm_id : string) (config : ProtoDisk) | RemoveDiskDevice (vm_id device_id : string)
| ResizeVm (vm_id : string) (vcpus ram : option Z)
| AddDevice (vm_id : string) (config : ProtoVfio) | RemoveDevice (vm_id device_id : string)
| ResizeDisk (path : string) (new_size : Z).

Section life.
Context `{ConfigCodec} `{StorageBackend} `{Iptables} `{UuidText}.
Context (rd : string) (ob : bool).
#[local] Set Default Proof Using "Type".

(** A call of the manager; the caller only learns whether it succeeded. *)
Definition node_op (op : NodeOp) : Nd unit :=
  match op with
  | CreateVm config => _ ← create_vm rd ob config; mret tt
  | StartVm vm_id => start_vm rd ob vm_id
  | StopVm vm_id => stop_vm vm_id
  | ForceStopVm vm_id => force_stop_vm vm_id
  | PauseVm vm_id => pause_vm vm_id
  | ResumeVm vm_id => resume_vm vm_id
  | DeleteVm vm_id => delete_vm rd ob vm_id
  | GetVmInfo vm_id => _ ← get_vm_info vm_id; mret tt
  | SnapshotVm vm_id url => snapshot_vm vm_id url
  | RestoreVm vm_id url => restore_vm rd vm_id url
  | ReceiveMigration vm_id config port => _ ← receive_migration rd ob vm_id config port; mret tt
  | SendMigration vm_id url => send_migration vm_id url
  | AddNetworkDevice vm_id config => add_network_device vm_id config
  | RemoveNetworkDevice vm_id device_id => remove_network_device vm_id device_id
  | AddDiskDevice vm_id config => add_disk_device vm_id config
  | RemoveDiskDevice vm_id device_id => remove_disk_device vm_id device_id
  | ResizeVm vm_id vcpus ram => resize_vm vm_id vcpus ram
  | AddDevice vm_id config => add_device vm_id config
  | RemoveDevice vm_id device_id => remove_device vm_id device_id
  | ResizeDisk path new_size => resize_disk_file path new_size
  end.

(** One call, and the calls a node can see in one run of the agent. *)
Inductive node_step : Node -> Node -> Prop :=
| Node_step op o n : node_step n (node_op op o n).1.

Lemma discarded_keeps {A} (m : Nd A) :
  sat (procs_owned rd []) m (fun _ => procs_owned rd []) (procs_owned rd []) ->
  sat (procs_owned rd []) (_ ← m; mret tt) (fun _ => procs_owned rd []) (procs_owned rd []).
Proof. intros Hm. eapply sat_bind; [exact Hm|]. intros ?. by apply sat_ret. Qed.

Lemma node_op_keeps op :
  sat (procs_owned rd []) (node_op op) (fun _ => procs_owned rd []) (procs_owned rd []).
Proof.
  destruct op; simpl;
    try (apply discarded_keeps);
    unfold add_network_device, remove_network_device, add_disk_device, remove_disk_device, resize_vm, add_device,
      remove_device, remove_device_by_id, pause_vm, resume_vm;
    eauto using create_vm_sat, start_keeps, stop_keeps, force_stop_keeps, request_status_keeps, delete_keeps,
      info_keeps, snapshot_keeps, restore_keeps, receive_keeps, send_keeps, device_keeps, resize_disk_keeps.
Qed.

Lemma node_step_keeps n n' : node_step n n' -> procs_owned rd [] n -> procs_owned rd [] n'.
Proof.
  intros [op o n0] Hn. pose proof (node_op_keeps op o n0 Hn) as Hk. by destruct (node_op op o n0) as [n1 []].
Qed.

Lemma node_steps_keep n n' : rtc node_step n n' -> procs_owned rd [] n -> procs_owned rd [] n'.
Proof. induction 1; eauto using node_step_keeps. Qed.

(** An agent that starts on a host without VMs. *)
Definition fresh_node (n : Node) : Prop := n_vms n = ∅ /\ n_procs n = ∅.

Lemma fresh_owned n : fresh_node n -> procs_owned rd [] n.
Proof.
  intros [Hv Hp]. split; rewrite ?Hv, ?Hp; intros *; rewrite ?lookup_empty; try done.
  by intros ?%elem_of_nil.
Qed.

(** C12. Whatever sequence of calls a manager serves, and however the commands,
    requests and file operations in them end, a process it started belongs to
    exactly one registered VM, a hypervisor process serves the socket of the VM that
    holds it, and no process is left without an owner: a failed creation, restore or
    migration kills what it had started. *)
Theorem node_processes_owned n0 n pid p :
  fresh_node n0 -> rtc node_step n0 n -> n_procs n !! pid = Some p ->
  exists vm i, n_vms n !! vm = Some i /\ pid ∈ held i /\
    (forall vm' i', n_vms n !! vm' = Some i' -> pid ∈ held i' -> vm' = vm) /\
    (forall socket, p = ChProc socket ->
       vi_process i = Some pid /\ socket = socket_path rd vm /\ vi_socket_path i = socket).
Proof.
  intros Hf%fresh_owned Hsteps Hp. destruct (node_steps_keep _ _ Hsteps Hf) as [_ O _ U _ So K].
  destruct (O _ _ Hp) as [?%elem_of_nil|(vm&i&Hi&Hin)]; [done|]. exists vm, i. split_and!; [done|done|eauto|].
  intros socket ->. destruct (K _ _ _ _ Hi Hp Hin) as [? ->]. eauto.
Qed.

(** ** Stopping by force *)

Lemma socket_path_inj vm vm' : socket_path rd vm = socket_path rd vm' -> vm = vm'.
Proof.
  unfold socket_path, in_runtime_dir. intros He%append_inj_l%append_inj_l. by apply append_inj_r in He.
Qed.

Lemma not_listening socket n :
  (forall pid, n_procs n !! pid <> Some (ChProc socket)) -> listening socket n = false.
Proof.
  intros Hno. apply not_true_iff_false. unfold listening. rewrite existsb_exists. intros ([pid p]&Hin&He).
  apply bool_decide_eq_true in He. simpl in He. subst.
  apply list_elem_of_In, elem_of_map_to_list in Hin. by apply (Hno pid).
Qed.

(** Nothing serves the socket of a VM whose process is gone. *)
Lemma stopped_not_listening n vm_id i :
  procs_owned rd [] n -> n_vms n !! vm_id = Some i ->
  (forall pid, vi_process i = Some pid -> n_procs n !! pid = None) -> listening (socket_path rd vm_id) n = false.
Proof.
  intros [B O He U X So K] Hi Hgone. apply not_listening. intros pid Hp.
  destruct (O _ _ Hp) as [?%elem_of_nil|(vm&j&Hj&Hin)]; [done|].
  destruct (K _ _ _ _ Hj Hp Hin) as [Hch Hs]. apply socket_path_inj in Hs as <-.
  assert (j = i) as -> by congruence. rewrite (Hgone _ Hch) in Hp. done.
Qed.

Lemma start_unreachable vm_id o n i :
  n_vms n !! vm_id = Some i -> listening (vi_socket_path i) n = false ->
  start_vm rd ob vm_id o n = (n, Err (SpawnError "connect")).
Proof.
  intros Hi Hl. unfold start_vm, ensure_vm_registered, registered, instance_of, send_api_request, mbind, Nd_bind, nd_get.
  simpl. rewrite bool_decide_true by (apply elem_of_dom; eauto). unfold mret, Nd_ret. rewrite Hi. simpl. by rewrite Hl.
Qed.

(** After a forced stop, which reports success, no start of the VM can succeed:
    its hypervisor is gone, the instance stays registered, and a start only talks to
    the process of a registered instance. *)
Theorem force_stopped_cannot_start n0 n vm_id o o' :
  fresh_node n0 -> rtc node_step n0 n -> is_Some (n_vms n !! vm_id) ->
  let '(n1, stopped) := force_stop_vm vm_id o n in
  stopped = Ok tt /\ start_vm rd ob vm_id o' n1 = (n1, Err (SpawnError "connect")) /\
  vi_status <$> n_vms n1 !! vm_id = Some NsShutdown.
Proof.
  intros Hf%fresh_owned Hsteps [i Hi]. pose proof (node_steps_keep _ _ Hsteps Hf) as Hn.
  pose proof (force_stop_keeps rd vm_id o n Hn) as Hk.
  set (f := fun j => with_status NsShutdown (without_process j)) in *.
  assert (exists n1, force_stop_vm vm_id o n = (n1, Ok tt) /\ n_vms n1 = alter f vm_id (n_vms n)) as (n1&Hr&Hv).
  { unfold force_stop_vm, instance_of, update_instance, mbind, Nd_bind, nd_get, nd_of. simpl. rewrite Hi. simpl.
    unfold nd_set, mret, Nd_ret. destruct (vi_process i); (eexists; split; [done|by destruct n]). }
  rewrite Hr in Hk |- *. assert (n_vms n1 !! vm_id = Some (f i)) as Hi1 by (rewrite Hv, lookup_alter_eq, Hi; done).
  split_and!; [done| |by rewrite Hi1; destruct i]. eapply start_unreachable; [exact Hi1|].
  rewrite (po_socket _ _ _ Hk _ _ Hi1). eapply stopped_not_listening; [exact Hk|exact Hi1|].
  intros pid Hp. exfalso. revert Hp. unfold f. by destruct i.
Qed.
End life.

(** ** Creating and deleting a VM *)

(** A part of a node that only the operations on TAP devices or on storage change. *)
Section frames.
Context `{ConfigCodec} `{StorageBackend} `{Iptables} `{UuidText}.
#[local] Set Default Proof Using "Type".

Class Frame {T} (part : Node -> T) : Prop := {
  frame_vms : forall f n, part (with_vms f n) = part n;
  frame_bridges : forall f n, part (with_bridges f n) = part n;
  frame_files : forall f n, part (with_files f n) = part n;
  frame_procs : forall f n, part (with_procs f n) = part n;
  frame_counters : forall f g n, part (with_counters f g n) = part n;
  frame_tick : forall n, part (tick_node n) = part n;
  frame_log : forall e n, part (log_event e n) = part n
}.

#[global] Instance taps_frame : Frame n_taps.
Proof. split; intros; by destruct n. Qed.
#[global] Instance store_frame : Frame n_store.
Proof. split; intros; by destruct n. Qed.

Definition unchanged {T A} (part : Node -> T) (m : Nd A) : Prop := forall o n, part (m o n).1 = part n.

Context {T} (part : Node -> T) {Hpart : Frame part}.

Lemma unchanged_ret {A} (a : A) : unchanged part (mret a).
Proof. by intros o n. Qed.
Lemma unchanged_throw {A} e : unchanged part (nd_throw (A := A) e).
Proof. by intros o n. Qed.
Lemma unchanged_bind {A B} (m : Nd A) (f : A -> Nd B) :
  unchanged part m -> (forall a, unchanged part (f a)) -> unchanged part (m ≫= f).
Proof.
  intros Hm Hf o n. specialize (Hm o n). unfold mbind, Nd_bind.
  destruct (m o n) as [n' [a|e]]; simpl in *; [|done]. by rewrite Hf.
Qed.
Lemma unchanged_try {A} (m : Nd A) : unchanged part m -> unchanged part (nd_try m).
Proof. intros Hm o n. specialize (Hm o n). unfold nd_try. by destruct (m o n). Qed.
Lemma unchanged_get {A} (f : Node -> A) : unchanged part (nd_get f).
Proof. by intros o n. Qed.
Lemma unchanged_of {A} (r : result VmManagerError A) : unchanged part (nd_of r).
Proof. by intros o n. Qed.
Lemma unchanged_ask {A} (f : HostOracle -> nat -> A) : unchanged part (nd_ask f).
Proof using Hpart. intros o n. apply frame_tick. Qed.
Lemma unchanged_set f : (forall n, part (f n) = part n) -> unchanged part (nd_set f).
Proof. intros Hf o n. apply Hf. Qed.
Lemma unchanged_each {A} (f : A -> Nd unit) l : (forall x, unchanged part (f x)) -> unchanged part (nd_each f l).
Proof. intros Hf. induction l as [|x l IH]; [apply unchanged_ret|]. simpl. apply unchanged_bind; auto. Qed.
Lemma unchanged_owned {A} pids (m : Nd A) : unchanged part m -> unchanged part (owned pids m).
Proof using Hpart.
  intros Hm o n. specialize (Hm o n). unfold owned. destruct (m o n) as [n' [a|e]]; [done|]. simpl in *.
  unfold kill. by rewrite frame_procs.
Qed.
End frames.

Ltac unchanged_step :=
  first [ apply unchanged_bind; [|intros ?] | apply unchanged_try
        | apply unchanged_set; intros ?;
          rewrite ?frame_vms, ?frame_bridges, ?frame_files, ?frame_counters, ?frame_procs, ?frame_log; done
        | apply unchanged_ret | apply unchanged_throw | apply unchanged_get | apply unchanged_of
        | by apply unchanged_ask | by intros ? [] | progress auto with node | case_match ].
Ltac unchanged_solve := repeat unchanged_step.

Section unchanged.
Context `{ConfigCodec} `{StorageBackend} `{Iptables} `{UuidText}.
Context (rd : string) (ob : bool).
Context {T} (part : Node -> T) {Hpart : Frame part}.
#[local] Set Default Proof Using "Type Hpart".

Lemma remove_if_unchanged path : unchanged part (remove_if_exists path).
Proof. unfold remove_if_exists, file_exists, remove_file. unchanged_solve. Qed.
Lemma write_unchanged path content : unchanged part (write_path path content).
Proof. unfold write_path. unchanged_solve. Qed.
Lemma mkdir_unchanged : unchanged part create_dir_all.
Proof. unfold create_dir_all. unchanged_solve. Qed.
Lemma request_unchanged socket method path body : unchanged part (send_api_request socket method path body).
Proof. unfold send_api_request. unchanged_solve. Qed.
Lemma wait_unchanged socket : unchanged part (wait_for_socket socket).
Proof. unfold wait_for_socket. unchanged_solve. Qed.
Lemma connect_unchanged socket : unchanged part (connect socket).
Proof. unfold connect. unchanged_solve. Qed.
Lemma spawn_unchanged p : unchanged part (spawn p).
Proof. unfold spawn. unchanged_solve. Qed.
Lemma attach_net_unchanged net : unchanged part (attach_net net).
Proof. unfold attach_net, attach_to_bridge. unchanged_solve. Qed.
Lemma seed_unchanged vm_id ci : unchanged part (seed_disks rd vm_id ci).
Proof. unfold seed_disks, write_path. unchanged_solve. Qed.
Lemma vsock_unchanged vm_id v : unchanged part (resolved_vsock rd vm_id v).
Proof. unfold resolved_vsock, resolve_vsock_config, next_vsock_cid. unchanged_solve. Qed.
Lemma pty_unchanged socket config : unchanged part (query_pty_paths socket config).
Proof.
  unfold query_pty_paths. case_match; [apply unchanged_ret|].
  apply unchanged_bind; [apply unchanged_try, request_unchanged|]. intros r. destruct r; [|apply unchanged_ret].
  apply unchanged_bind; [by intros o n|]. intros ?. apply unchanged_ret.
Qed.
Lemma sockets_unchanged socket vsock : unchanged part (remove_sockets socket vsock).
Proof.
  unfold remove_sockets. apply unchanged_bind; [apply remove_if_unchanged|]. intros ?.
  destruct vsock; [apply remove_if_unchanged|apply unchanged_ret].
Qed.
End unchanged.

#[export] Hint Resolve remove_if_unchanged write_unchanged mkdir_unchanged request_unchanged wait_unchanged
  connect_unchanged spawn_unchanged attach_net_unchanged seed_unchanged vsock_unchanged pty_unchanged
  sockets_unchanged taps_frame store_frame : node.

Section round_trip.
Context `{ConfigCodec} `{StorageBackend} `{Iptables} `{UuidText}.
Context (rd : string) (ob : bool).
#[local] Set Default Proof Using "Type".

Definition pids_below (n : Node) : Prop :=
  forall pid p, n_procs n !! pid = Some p -> (pid < n_next_pid n)%nat.

(** The node [n0] with more TAP devices and more processes, all of them new. *)
Record grown (n0 : Node) (taps : list string) (pids : list nat) (n : Node) : Prop := {
  gr_vms : n_vms n = n_vms n0;
  gr_taps : n_taps n = n_taps n0 ∪ list_to_set taps;
  gr_new_taps : n_taps n0 ## list_to_set taps;
  gr_procs : forall pid, pid ∉ pids -> n_procs n !! pid = n_procs n0 !! pid;
  gr_new_pids : forall pid, pid ∈ pids -> (n_next_pid n0 <= pid)%nat;
  gr_next : (n_next_pid n0 <= n_next_pid n)%nat
}.

Lemma map_disks_taps vm_id disks : unchanged n_taps (map_disks ob vm_id disks).
Proof.
  induction disks as [|d disks IH]; simpl; [apply unchanged_ret|].
  assert (forall c, unchanged n_taps (map_storage vm_id c)) as Hm.
  { intros c o n. unfold map_storage. destruct (sb_map _ _ _). by destruct n. }
  unchanged_solve; auto.
Qed.
#[local] Hint Resolve map_disks_taps : node.

Abbreviation whatever := (fun _ : Node => True).

Lemma grown_start n : grown n [] [] n.
Proof. split; simpl; [done|set_solver|set_solver|done|set_solver|done]. Qed.

Lemma grown_quiet {A} n0 taps pids (m : Nd A) :
  quiet m -> unchanged n_taps m -> sat (grown n0 taps pids) m (fun _ => grown n0 taps pids) whatever.
Proof.
  intros Hq Ht o n [Gv Gt Gd Gp Gn Gi]. destruct (Hq o n) as (Hv&Hp&Hi). specialize (Ht o n).
  destruct (m o n) as [n' [a|e]]; [|done]. simpl in *.
  split; [congruence|congruence|done|rewrite Hp; done|done|by rewrite Hi].
Qed.

Lemma grown_spawn n0 taps pids p :
  sat (grown n0 taps pids) (spawn p) (fun pid => grown n0 taps (pids ++ [pid])) whatever.
Proof.
  intros o n [Gv Gt Gd Gp Gn Gi]. unfold spawn, mbind, Nd_bind, nd_ask, nd_get, nd_set, mret, Nd_ret.
  destruct (ho_spawn o (n_step n)); [|done].
  destruct n as [v t b fs sz ps st k next c step ev]. simpl in *. split; simpl; try done; [..|lia].
  - intros pid Hno. rewrite lookup_insert_ne by set_solver. apply Gp. set_solver.
  - intros pid. rewrite elem_of_app, list_elem_of_singleton. intros [?| ->]; [eauto|done].
Qed.

Lemma grown_undoing {A} taps pids (m : Nd A) P Q :
  sat P m Q whatever -> sat P (undoing taps pids m) Q whatever.
Proof.
  intros Hm. unfold undoing. eapply sat_bind; [by eapply sat_try|]. intros [a|e]; [by apply sat_ret|].
  intros o n _. unfold mbind, Nd_bind. by destruct (undo taps pids o n) as [n' []].
Qed.
Lemma grown_owned {A} pids (m : Nd A) P Q : sat P m Q whatever -> sat P (owned pids m) Q whatever.
Proof.
  intros Hm o n Hn. specialize (Hm o n Hn). unfold owned. by destruct (m o n) as [n' []].
Qed.

Lemma grown_passt n0 taps pids socket :
  sat (grown n0 taps pids) (start_passt_backend socket) (fun pid => grown n0 taps (pids ++ [pid])) whatever.
Proof.
  unfold start_passt_backend. eapply sat_bind; [by apply grown_quiet; auto with node|]. intros ?.
  eapply sat_bind; [apply sat_try, grown_spawn|]. intros [pid|e]; [|by apply sat_throw].
  eapply sat_bind; [apply grown_quiet; [auto with node|apply (unchanged_ask n_taps)]|]. intros [|].
  - eapply sat_bind; [apply grown_quiet; [apply quiet_set|apply unchanged_set]; by intros []|].
    intros ?. by apply sat_ret.
  - intros o n _. done.
Qed.

Lemma grown_tap n0 taps pids t :
  sat (grown n0 taps pids) (create_tap_device t) (fun _ => grown n0 (taps ++ [t]) pids) whatever.
Proof.
  intros o n [Gv Gt Gd Gp Gn Gi]. unfold create_tap_device, mbind, Nd_bind, nd_get, nd_ask, nd_set, mret, Nd_ret.
  destruct (ho_command o (n_step n)) as [[]|]; simpl; [|done|done]. case_bool_decide as Hfree; [done|].
  destruct n as [v t' b fs sz ps st k next c step ev]. simpl in *.
  destruct (ho_command o (S step)) as [[]|]; [|done|done]. split; simpl; try done; set_solver.
Qed.

Lemma grown_networks n0 vm_id i nets taps pids :
  sat (grown n0 taps pids) (prepare_networks rd vm_id i nets taps pids)
    (fun r => grown n0 r.1.2 r.2) whatever.
Proof.
  revert i taps pids. induction nets as [|net nets IH]; intros i taps pids; simpl; [by apply sat_ret|].
  destruct (should_spawn_passt net); [|destruct (needs_tap net)].
  - eapply sat_bind; [apply grown_owned, grown_passt|]. intros pid. eapply sat_bind; [apply IH|].
    intros [[? ?] ?]. by apply sat_ret.
  - eapply sat_bind; [apply sat_try, grown_tap|]. intros [u|e].
    + eapply sat_bind; [apply IH|]. intros [[? ?] ?]. by apply sat_ret.
    + intros o n _. unfold mbind, Nd_bind. by destruct (delete_taps taps o n) as [n' []].
  - eapply sat_bind; [apply IH|]. intros [[? ?] ?]. by apply sat_ret.
Qed.

(** The node [n0] with one more VM. *)
Record added (n0 : Node) (vm_id : string) (i : VmInstance) (n : Node) : Prop := {
  ad_vms : n_vms n = <[vm_id := i]> (n_vms n0);
  ad_taps : n_taps n = n_taps n0 ∪ list_to_set (vi_tap_devices i);
  ad_new_taps : n_taps n0 ## list_to_set (vi_tap_devices i);
  ad_procs : forall pid, pid ∉ held i -> n_procs n !! pid = n_procs n0 !! pid;
  ad_new_pids : forall pid, pid ∈ held i -> (n_next_pid n0 <= pid)%nat
}.

Lemma grown_register n0 vm_id config taps passts mapped pid :
  sat (grown n0 taps (passts ++ [pid])) (register_vm rd vm_id config taps passts mapped pid)
    (fun _ n => exists i, added n0 vm_id i n) whatever.
Proof.
  unfold register_vm. eapply sat_bind; [apply grown_quiet; [auto with node|apply unchanged_get]|]. intros files.
  eapply sat_bind; [apply grown_quiet; [auto with node|apply unchanged_of]|]. intros sdk.
  eapply sat_bind; [apply grown_undoing, grown_quiet; auto with node|]. intros ?.
  eapply sat_bind; [apply grown_quiet; auto with node|]. intros [serial console].
  eapply sat_bind; [apply grown_quiet; [auto with node|apply unchanged_try, write_unchanged, taps_frame]|]. intros ?.
  eapply sat_bind; [apply grown_quiet; [auto with node|apply unchanged_of]|]. intros ?.
  eapply sat_bind; [apply grown_undoing, grown_quiet; auto with node|]. intros ?.
  intros o n [Gv Gt Gd Gp Gn Gi]. unfold mbind, Nd_bind, nd_set, mret, Nd_ret. eexists.
  destruct n as [v t b fs sz ps st k next c step ev]. simpl in *. split; simpl; [by rewrite Gv|done|done|..].
  - intros q Hq. apply Gp. unfold held in Hq. simpl in Hq. set_solver.
  - intros q Hq. apply Gn. unfold held in Hq. simpl in Hq. set_solver.
Qed.

Lemma grown_launch n0 vm_id config vsock nets taps passts :
  sat (grown n0 taps passts) (launch_vm rd ob vm_id config vsock nets taps passts)
    (fun _ n => exists i, added n0 vm_id i n) whatever.
Proof.
  unfold launch_vm.
  eapply sat_bind; [apply grown_undoing, grown_quiet; [apply quiet_each, attach_net_quiet|apply unchanged_each, attach_net_unchanged, taps_frame]|].
  intros ?. eapply sat_bind; [apply grown_quiet; auto with node|]. intros [disks mapped].
  do 4 (eapply sat_bind; [apply grown_quiet; auto with node|]; intros ?).
  eapply sat_bind; [apply grown_undoing, grown_spawn|]. intros pid. apply grown_owned.
  eapply sat_bind; [apply grown_undoing, grown_quiet; auto with node|]. intros ?. apply grown_register.
Qed.

Lemma create_adds config o n n1 st :
  create_vm rd ob config o n = (n1, Ok st) ->
  n_vms n !! pv_vm_id config = None /\ exists i, added n (pv_vm_id config) i n1.
Proof.
  unfold create_vm, registered. unfold mbind at 1, Nd_bind at 1, nd_get at 1. case_bool_decide as Hd; [done|].
  intros Hrun. split; [by apply not_elem_of_dom|]. revert Hrun.
  match goal with |- ?m _ _ = _ -> _ => assert (sat (grown n [] []) m (fun _ n1 => exists i, added n (pv_vm_id config) i n1) whatever) as Hs end.
  { eapply sat_bind; [apply grown_quiet; auto with node|]. intros vsock.
    eapply sat_bind; [apply grown_networks|]. intros [[nets taps] passts]. apply grown_owned, grown_launch. }
  specialize (Hs o n (grown_start n)). intros Hrun. by rewrite Hrun in Hs.
Qed.

(** ** Deletion *)

Lemma nd_bind_run {A B} (m : Nd A) (f : A -> Nd B) o n a :
  (m o n).2 = Ok a -> (m ≫= f) o n = f a o (m o n).1.
Proof. intros Hm. unfold mbind, Nd_bind. destruct (m o n) as [n' r]. simpl in *. by subst. Qed.

Lemma delete_taps_all taps o n :
  (forall s, ho_command o s = Some true) -> n_taps (delete_taps taps o n).1 = n_taps n ∖ list_to_set taps.
Proof.
  intros Ho. unfold delete_taps. revert n. induction taps as [|t taps IH]; intros n; simpl; [set_solver|].
  rewrite (nd_bind_run _ _ _ _ tt).
  - rewrite IH. unfold delete_tap_device, mbind, Nd_bind, nd_ask, nd_set. rewrite Ho. destruct n. simpl. set_solver.
  - unfold delete_tap_device, mbind, Nd_bind, nd_ask, nd_set. by rewrite Ho.
Qed.

(** With the oracle [o] the computation succeeds. *)
Definition succeeds {A} (o : HostOracle) (P : Node -> Prop) (m : Nd A) (Q : Node -> Prop) : Prop :=
  forall n, P n -> exists a, (m o n).2 = Ok a /\ Q (m o n).1.

Lemma succeeds_bind {A B} o P R Q (m : Nd A) (f : A -> Nd B) :
  succeeds o P m R -> (forall a, succeeds o R (f a) Q) -> succeeds o P (m ≫= f) Q.
Proof. intros Hm Hf n Hn. destruct (Hm n Hn) as (a&Ha&HR). rewrite (nd_bind_run _ _ _ _ a) by done. by apply Hf. Qed.
Lemma succeeds_ret {A} o P (a : A) : succeeds o P (mret a) P.
Proof. intros n Hn. by exists a. Qed.

(** What a deletion leaves: [n] without the devices and the processes of the VM. *)
Record removed (n : Node) (taps : gset string) (pids : list nat) (n' : Node) : Prop := {
  re_taps : n_taps n' = n_taps n ∖ taps;
  re_procs : forall pid, n_procs n' !! pid = if decide (pid ∈ pids) then None else n_procs n !! pid;
  re_vms : n_vms n' = n_vms n
}.

Lemma removed_none n : removed n ∅ [] n.
Proof. split; [set_solver| |done]. intros pid. by rewrite decide_False by set_solver. Qed.

Lemma removed_quiet {A} o n taps pids (m : Nd A) :
  quiet m -> unchanged n_taps m -> (forall n', exists a, (m o n').2 = Ok a) ->
  succeeds o (removed n taps pids) m (removed n taps pids).
Proof.
  intros Hq Ht Hok n' [Rt Rp Rv]. destruct (Hok n') as [a Ha]. exists a. split; [done|].
  destruct (Hq o n') as (Hv&Hp&_). specialize (Ht o n'). split; [congruence| |congruence].
  intros pid. by rewrite Hp.
Qed.

Lemma removed_kill o n taps pids more :
  succeeds o (removed n taps pids) (nd_set (kill more)) (removed n taps (pids ++ more)).
Proof.
  intros n' [Rt Rp Rv]. exists tt. split; [done|]. destruct n' as [v t b fs sz ps st k next c step ev]. simpl in *.
  split; simpl; [done| |done]. intros pid. specialize (Rp pid).
  assert (pid ∈ pids ++ more <-> pid ∈ pids \/ pid ∈ more) as Happ by apply elem_of_app.
  destruct (decide (pid ∈ more)) as [Hm|Hm].
  - rewrite decide_True by tauto. apply map_lookup_filter_None. right. intros p _. simpl. tauto.
  - transitivity (ps !! pid); [|rewrite Rp; repeat destruct (decide _); tauto].
    apply option_eq. intros p. rewrite map_lookup_filter_Some. simpl. tauto.
Qed.

Lemma removed_taps o n taps pids more :
  (forall s, ho_command o s = Some true) ->
  succeeds o (removed n taps pids) (delete_taps more) (removed n (taps ∪ list_to_set more) pids).
Proof.
  intros Ho n' [Rt Rp Rv]. exists tt. split; [apply delete_taps_ok|].
  destruct (delete_taps_quiet more o n') as (Hv&Hp&_). split; [|by rewrite Hp|congruence].
  rewrite delete_taps_all, Rt by done. set_solver.
Qed.

Lemma removed_file o n taps pids path :
  succeeds o (removed n taps pids) (remove_if_exists path) (removed n taps pids).
Proof. apply removed_quiet; [auto with node..|]. intros n'. exists tt. apply remove_if_ok. Qed.

(** A change of the store, the kernel or the counters. *)
Lemma removed_set o n taps pids f :
  (forall n', same n' (f n')) -> (forall n', n_taps (f n') = n_taps n') ->
  succeeds o (removed n taps pids) (nd_set f) (removed n taps pids).
Proof. intros Hs Ht. apply removed_quiet; [by apply quiet_set|by apply unchanged_set|by eexists]. Qed.

Lemma delete_removes vm_id o n i :
  n_vms n !! vm_id = Some i -> (forall s, ho_command o s = Some true) ->
  let '(n', r) := delete_vm rd ob vm_id o n in
  r = Ok tt /\ removed (with_vms (delete vm_id) n) (list_to_set (vi_tap_devices i)) (held i) n'.
Proof.
  intros Hi Ho. set (n0 := with_vms (delete vm_id) n).
  assert (succeeds o (fun n' => n' = n) (delete_vm rd ob vm_id)
            (removed n0 (∅ ∪ list_to_set (vi_tap_devices i)) (held i))) as Hs.
  2:{ destruct (Hs n eq_refl) as ([]&Hr&Hq). destruct (delete_vm rd ob vm_id o n) as [n' r].
      by rewrite (left_id_L ∅ _) in Hq. }
  intros ? ->. unfold delete_vm.
  rewrite (nd_bind_run _ _ _ _ i) by (unfold instance_of, mbind, Nd_bind, nd_get, nd_of; simpl; by rewrite Hi).
  rewrite (nd_bind_run _ _ _ _ tt) by done.
  match goal with |- exists a, (?m _ _).2 = _ /\ _ => cut (succeeds o (removed n0 ∅ []) m
    (removed n0 (∅ ∪ list_to_set (vi_tap_devices i)) (held i))); [intros Hm; apply Hm, removed_none|] end.
  eapply succeeds_bind; [apply removed_quiet; [apply quiet_ask|apply (unchanged_ask n_taps)|by eexists]|]. intros ?.
  eapply (succeeds_bind _ _ (removed n0 ∅ (option_list (vi_process i)))).
  { destruct (vi_process i); [apply removed_kill|apply succeeds_ret]. }
  intros ?. eapply succeeds_bind.
  { unfold remove_sockets. eapply succeeds_bind; [apply removed_file|]. intros ?.
    destruct (vi_vsock_socket_path i); [apply removed_file|apply succeeds_ret]. }
  do 2 (intros ?; eapply succeeds_bind; [apply removed_file|]).
  intros ?. eapply succeeds_bind; [by apply removed_taps|].
  intros ?. eapply succeeds_bind; [apply removed_set; by intros []|].
  intros ?. eapply succeeds_bind; [apply removed_kill|].
  intros ?. destruct (vi_overlaybd i && ob); [apply removed_set; by intros []|apply succeeds_ret].
Qed.

(** C13. A VM that was created and then deleted leaves the node as it was: the same
    VMs, the same TAP devices and the same processes, when the commands that delete
    devices succeed. *)
Theorem create_delete_restores config o o' n n1 st :
  pids_below n -> create_vm rd ob config o n = (n1, Ok st) -> (forall s, ho_command o' s = Some true) ->
  let '(n2, r) := delete_vm rd ob (pv_vm_id config) o' n1 in
  r = Ok tt /\ n_vms n2 = n_vms n /\ n_taps n2 = n_taps n /\ n_procs n2 = n_procs n.
Proof.
  intros Hb Hc Ho. destruct (create_adds _ _ _ _ _ Hc) as [Hnew [i [Av At Ad Ap An]]].
  assert (n_vms n1 !! pv_vm_id config = Some i) as Hi by by rewrite Av, lookup_insert_eq.
  pose proof (delete_removes _ _ _ _ Hi Ho) as Hd.
  destruct (delete_vm rd ob (pv_vm_id config) o' n1) as [n2 r]. destruct Hd as [-> [Rt Rp Rv]].
  destruct n1 as [v t b fs sz ps store k next c step ev]. simpl in *. split_and!; [done| | |].
  - rewrite Rv, Av. by apply delete_insert_id.
  - rewrite Rt, At. set_solver.
  - apply map_eq. intros pid. rewrite Rp. destruct (decide (pid ∈ held i)) as [Hin|Hno]; [|by apply Ap].
    symmetry. destruct (n_procs n !! pid) as [p|] eqn:E; [|done]. apply Hb in E. apply An in Hin. lia.
Qed.
End round_trip.

(** ** Recovery after a restart of the agent *)

Section recovery.
Context `{ConfigCodec} `{StorageBackend} `{Iptables} `{UuidText}.
Context (rd : string) (ob : bool).
#[local] Set Default Proof Using "Type".

Lemma bind_inv {A B} (m : Nd A) (f : A -> Nd B) o n n' b :
  (m ≫= f) o n = (n', Ok b) -> exists n1 a, m o n = (n1, Ok a) /\ f a o n1 = (n', Ok b).
Proof. unfold mbind, Nd_bind. destruct (m o n) as [n1 [a|e]]; [by eauto|done]. Qed.
Lemma undoing_inv {A} taps pids (m : Nd A) o n n' a :
  undoing taps pids m o n = (n', Ok a) -> m o n = (n', Ok a).
Proof.
  unfold undoing, nd_try. intros (n1&r&Hm&Hr)%bind_inv. destruct (m o n) as [n2 [b|e]].
  - simplify_eq. unfold mret, Nd_ret in Hr. congruence.
  - simplify_eq. apply bind_inv in Hr as (?&?&_&?). done.
Qed.
Lemma unchanged_run {T A} (part : Node -> T) (m : Nd A) o n n' r :
  unchanged part m -> m o n = (n', r) -> part n' = part n.
Proof. intros Hm Hr. specialize (Hm o n). by rewrite Hr in Hm. Qed.
Lemma owned_inv {A} pids (m : Nd A) o n n' a : owned pids m o n = (n', Ok a) -> m o n = (n', Ok a).
Proof. unfold owned. destruct (m o n) as [n1 []]; congruence. Qed.

(** The TAP devices a recovery reads off the configuration are the created ones,
    unless the request named a device of its own with the manager's prefix. *)
Definition no_own_taps (nets : list ProtoNet) : Prop :=
  forall net tap, net ∈ nets -> nc_tap (pn_net net) = Some tap -> starts_with "qt" tap = false.
Definition tagged_taps (nets : list ProtoNet) : list string :=
  List.filter (starts_with "qt") (omap (fun n => nc_tap (pn_net n)) nets).

Lemma prepared_taps vm_id i nets taps pids o n n' nets' taps' pids' :
  no_own_taps nets -> prepare_networks rd vm_id i nets taps pids o n = (n', Ok (nets', taps', pids')) ->
  taps' = taps ++ tagged_taps nets'.
Proof.
  revert i taps pids n nets'. induction nets as [|net nets IH]; intros i taps pids n nets' Hown; simpl.
  { unfold mret, Nd_ret. intros [= <- <- <- <-]. by rewrite app_nil_r. }
  assert (no_own_taps nets) as Hown' by (intros ???; apply Hown; set_solver).
  assert (forall tap, nc_tap (pn_net net) = Some tap -> starts_with "qt" tap = false) as Hnet by (intros; apply (Hown net); set_solver).
  destruct (should_spawn_passt net); [|destruct (needs_tap net)].
  - intros (n1&pid&_&(n2&[[r t] p]&Hr&Hret)%bind_inv)%bind_inv.
    unfold mret, Nd_ret in Hret. simplify_eq. rewrite (IH _ _ _ _ _ Hown' Hr). f_equal.
    unfold tagged_taps. destruct net as [[] ?]. simpl in *. destruct nc_tap as [tap|]; [|done]. simpl. by rewrite Hnet.
  - intros (n1&c&_&Hc)%bind_inv. destruct c as [u|e].
    + apply bind_inv in Hc as (n2&[[r t] p]&Hr&Hret). unfold mret, Nd_ret in Hret. simplify_eq.
      rewrite (IH _ _ _ _ _ Hown' Hr), <-app_assoc. f_equal. unfold tagged_taps. destruct net as [[] ?]. done.
    + apply bind_inv in Hc as (?&?&_&(?&?&_&?)%bind_inv). done.
  - intros (n2&[[r t] p]&Hr&Hret)%bind_inv. unfold mret, Nd_ret in Hret. simplify_eq.
    rewrite (IH _ _ _ _ _ Hown' Hr). f_equal.
    unfold tagged_taps. destruct net as [[] ?]. simpl in *. destruct nc_tap as [tap|]; [|done]. simpl. by rewrite Hnet.
Qed.

(** A mapped VM is known to the backend. *)
Lemma mapped_known vm_id disks o n n' disks' :
  map_disks ob vm_id disks o n = (n', Ok (disks', true)) -> ob = true /\ sb_has_mapping (n_store n') vm_id = true.
Proof.
  assert (forall n0 ds mapped, (mapped = true -> ob = true /\ sb_has_mapping (n_store n0) vm_id = true) ->
    forall n' disks' m, map_disks ob vm_id ds o n0 = (n', Ok (disks', m)) ->
    (mapped || m = true -> ob = true /\ sb_has_mapping (n_store n') vm_id = true)) as Hgen.
  2:{ intros Hr. eapply (Hgen n disks false); [done|exact Hr|done]. }
  intros n0 ds. revert n0. induction ds as [|d ds IH]; intros n0 mapped Hm n1 disks1 m; simpl.
  { unfold mret, Nd_ret. intros [= <- _ <-]. by rewrite orb_false_r. }
  assert ((exists nx dx mx, map_disks ob vm_id ds o n0 = (nx, Ok (dx, mx)) /\ nx = n1 /\ mx = m) ->
    mapped || m = true -> ob = true /\ sb_has_mapping (n_store n1) vm_id = true) as Hskip.
  { intros (?&?&?&Hr&->&->). by eapply IH. }
  destruct (dc_oci_image_ref _) as [image|]; [destruct (dc_registry_url _) as [registry|]|].
  2,3: intros (n2&[dx mx]&Hr&Hret)%bind_inv; unfold mret, Nd_ret in Hret; simplify_eq; apply Hskip; eauto 10.
  destruct ob; [|done]. unfold mbind at 1, Nd_bind at 1, map_storage.
  destruct (sb_map vm_id _ (n_store n0)) as [s' [path|e]] eqn:Hmap; [|done].
  intros (n2&[dx mx]&Hr&Hret)%bind_inv _. unfold mret, Nd_ret in Hret. simplify_eq.
  apply (IH (with_store s' n0) true) in Hr; [done| |done]. intros _. split; [done|].
  destruct n0. by apply sb_map_law in Hmap.
Qed.

Lemma connected socket o n n' u : connect socket o n = (n', Ok u) -> listening socket n = true /\ n' = tick_node n.
Proof.
  unfold connect, mbind, Nd_bind, nd_get, nd_ask, mret, Nd_ret, nd_throw. simpl.
  destruct (listening socket n); simpl; [|done]. destruct (ho_ready _ _); [|done]. by intros [= <- _].
Qed.

(** The instance a creation registers. *)
Record created (vm_id : string) (n : Node) (i : VmInstance) : Prop := {
  cr_lookup : n_vms n !! vm_id = Some i;
  cr_uuid : is_Some (uuid_parse_str vm_id);
  cr_socket : vi_socket_path i = socket_path rd vm_id;
  cr_file : n_files n !! config_path rd vm_id = Some (encode_to_vec (vi_proto_config i));
  cr_up : listening (socket_path rd vm_id) n = true;
  cr_vsock : vi_vsock_socket_path i = vsock_socket_path_from_config (pv_vsock (vi_proto_config i));
  cr_socket_file : is_Some (n_files n !! socket_path rd vm_id)
}.

Lemma request_files socket method path body : unchanged n_files (send_api_request socket method path body).
Proof. unfold send_api_request. unchanged_solve. Qed.
Lemma pty_files socket config : unchanged n_files (query_pty_paths socket config).
Proof.
  unfold query_pty_paths. case_match; [apply unchanged_ret|].
  apply unchanged_bind; [apply unchanged_try, request_files|]. intros r. destruct r; [|apply unchanged_ret].
  apply unchanged_bind; [by intros o n|]. intros ?. apply unchanged_ret.
Qed.
Lemma waited socket o n n' u : wait_for_socket socket o n = (n', Ok u) -> is_Some (n_files n' !! socket).
Proof.
  unfold wait_for_socket, mbind, Nd_bind, nd_ask, nd_set, nd_throw. destruct (ho_ready _ _); [|done].
  intros [= <-]. destruct n. simpl. by rewrite lookup_insert_eq.
Qed.

Lemma prepare_store vm_id i nets taps pids : unchanged n_store (prepare_networks rd vm_id i nets taps pids).
Proof.
  revert i taps pids. induction nets as [|net nets IH]; intros i taps pids; simpl; [apply unchanged_ret|].
  unchanged_solve.
  - apply unchanged_owned; [apply _|]. unfold start_passt_backend, kill. unchanged_solve.
  - unfold delete_taps. apply unchanged_each. intros x. unfold delete_tap_device. unchanged_solve.
Qed.

(** Disks without an image leave the backend alone. *)
Lemma unmapped_store vm_id disks o n n' disks' :
  map_disks ob vm_id disks o n = (n', Ok (disks', false)) -> n_store n' = n_store n.
Proof.
  revert n disks'. induction disks as [|d disks IH]; intros n disks'; simpl; [by intros [= <- _]|].
  destruct (dc_oci_image_ref _) as [image|]; [destruct (dc_registry_url _) as [registry|]|].
  2,3: intros (n2&[dx mx]&Hr&Hret)%bind_inv; unfold mret, Nd_ret in Hret; simplify_eq; by eapply IH.
  destruct ob; [|done]. intros (n2&[path|e]&_&Hr)%bind_inv; [|done].
  apply bind_inv in Hr as (n3&[dx mx]&_&Hret). unfold mret, Nd_ret in Hret. simplify_eq.
Qed.

Lemma register_creates vm_id config taps passts mapped pid o n n1 st :
  (forall s, ho_file o s = true) -> is_Some (n_files n !! socket_path rd vm_id) ->
  register_vm rd vm_id config taps passts mapped pid o n = (n1, Ok st) ->
  n_store n1 = n_store n /\
  exists i, created vm_id n1 i /\ vi_proto_config i = config /\ vi_tap_devices i = taps /\ vi_overlaybd i = mapped.
Proof.
  intros Hfile Hsock. unfold register_vm.
  intros (n2&?&Hget&(n3&?&Hof&(n4&?&Hreq%undoing_inv&(n5&[serial console]&Hpty&(n6&w&Hw&(n7&u&Huuid&(n8&?&Hcon%undoing_inv
    &(n9&?&Hset&Hret)%bind_inv)%bind_inv)%bind_inv)%bind_inv)%bind_inv)%bind_inv)%bind_inv)%bind_inv.
  pose proof (unchanged_run n_store _ _ _ _ _ (request_unchanged _ _ _ _ _) Hreq) as S4.
  pose proof (unchanged_run n_store _ _ _ _ _ (pty_unchanged _ _ _) Hpty) as S5.
  pose proof (unchanged_run n_files _ _ _ _ _ (request_files _ _ _ _) Hreq) as F4.
  pose proof (unchanged_run n_files _ _ _ _ _ (pty_files _ _) Hpty) as F5.
  unfold nd_get in Hget. unfold nd_of in Hof, Huuid. unfold nd_set in Hset. unfold mret, Nd_ret in Hret.
  apply connected in Hcon as [Hup ->]. unfold nd_try, write_path, mbind, Nd_bind, nd_ask, nd_set in Hw.
  rewrite Hfile in Hw. simplify_eq. destruct (uuid_parse_str vm_id) eqn:Hp; [|done].
  destruct n5 as [v t b fs sz ps store k next c step ev]. simpl in *. split; [congruence|].
  eexists. split; [split; simpl; [by rewrite lookup_insert_eq|..]|done]; rewrite ?lookup_insert_eq; eauto.
  apply lookup_insert_is_Some'. right. congruence.
Qed.

Lemma create_creates config o n n1 st :
  create_vm rd ob config o n = (n1, Ok st) -> (forall s, ho_file o s = true) -> no_own_taps (pv_networks config) ->
  exists i, created (pv_vm_id config) n1 i /\ vi_tap_devices i = recovered_taps (vi_proto_config i) /\
    if vi_overlaybd i then ob && sb_has_mapping (n_store n1) (pv_vm_id config) = true else n_store n1 = n_store n.
Proof.
  intros Hrun Hfile Hown. unfold create_vm in Hrun. apply bind_inv in Hrun as (n2&[|]&S2&Hrun); [done|].
  apply bind_inv in Hrun as (n3&vsock&S3&(n4&[[nets taps] passts]&Hnet&Hrun%owned_inv)%bind_inv).
  pose proof (unchanged_run n_store _ _ _ _ _ (prepare_store _ _ _ _ _) Hnet) as S4.
  apply prepared_taps in Hnet; [|done]. simpl in Hnet. unfold launch_vm in Hrun.
  apply bind_inv in Hrun as (n5&?&S5%undoing_inv&(n6&[disks mapped]&Hmap&(n7&seeds&S7&(n8&?&S8&(n9&?&S9&(n10&?&S10&(n11&pid&S11%undoing_inv&
    (n12&?&S12%undoing_inv&Hreg)%owned_inv%bind_inv)%bind_inv)%bind_inv)%bind_inv)%bind_inv)%bind_inv)%bind_inv).
  pose proof (waited _ _ _ _ _ S12) as Hsock.
  apply register_creates in Hreg as (Hstore&i&Hi&Hc&Ht&Hob); [|done..]. exists i. split; [done|]. split.
  { by rewrite Ht, Hc, Hnet. }
  assert (n_store n1 = n_store n6) as Hlate.
  { apply (unchanged_run n_store) in S7, S8, S9, S10, S11, S12; [congruence|auto with node..]. }
  rewrite Hob. destruct mapped.
  - apply mapped_known in Hmap as [-> Hmap]. by rewrite Hlate.
  - apply unmapped_store in Hmap. apply (unchanged_run n_store) in S2, S3; [|auto with node|apply unchanged_get].
    apply (unchanged_run n_store) in S5; [congruence|]. apply unchanged_each. auto with node.
Qed.

(** What a recovery finds of a VM, and the instance it registers. *)
Record survives (vm_id : string) (config : ProtoVmConfig) (n : Node) : Prop := {
  su_uuid : is_Some (uuid_parse_str vm_id);
  su_file : n_files n !! config_path rd vm_id = Some (encode_to_vec config);
  su_up : listening (socket_path rd vm_id) n = true
}.
Definition recovered (vm_id : string) (config : ProtoVmConfig) (mapped : bool) (n : Node) : Prop :=
  exists i, n_vms n !! vm_id = Some i /\ vi_process i = None /\ vi_proto_config i = config /\
    vi_socket_path i = socket_path rd vm_id /\ vi_tap_devices i = recovered_taps config /\
    vi_vsock_socket_path i = vsock_socket_path_from_config (pv_vsock config) /\ vi_overlaybd i = mapped.

Lemma created_survives vm_id n i : created vm_id n i -> survives vm_id (vi_proto_config i) (restarted n).
Proof. intros []. by destruct n. Qed.

(** A recovery fails for no VM, and registers that one only. *)
Lemma recover_frame vm_id o n :
  exists n', recover_vm rd ob vm_id o n = (n', Ok tt) /\
    n_files n' = n_files n /\ n_procs n' = n_procs n /\ n_store n' = n_store n /\
    forall k, k <> vm_id -> n_vms n' !! k = n_vms n !! k.
Proof.
  destruct n as [v t b fs sz ps store k next c step ev].
  unfold recover_vm, load_persisted_vm_config, connect, get_info, nd_try, mbind, Nd_bind, nd_get, nd_ask, nd_set, nd_throw, mret, Nd_ret.
  simpl. repeat (case_match; simplify_eq/=); eexists; (split; [reflexivity|]); simpl; split_and!; try done;
    intros k' Hk; by rewrite lookup_insert_ne.
Qed.

Lemma recover_survivor vm_id config o n :
  survives vm_id config n -> (forall s, ho_file o s = true) -> (forall s, ho_ready o s = true) ->
  recovered vm_id config (ob && sb_has_mapping (n_store n) vm_id) (recover_vm rd ob vm_id o n).1.
Proof.
  intros [[u Hu] Hfile Hup] Hf Hready. destruct n as [v t b fs sz ps store k next c step ev]. simpl in *.
  unfold recover_vm, load_persisted_vm_config, connect, get_info, nd_try, mbind, Nd_bind, nd_get, nd_ask, nd_set, mret, Nd_ret.
  simpl. rewrite Hfile, Hf, decode_encode, Hu. simpl. unfold listening in *. simpl in *. rewrite Hup, Hready. simpl.
  unfold recovered. simpl. rewrite lookup_insert_eq. by eexists.
Qed.

Lemma survives_same vm_id config n n' :
  n_files n' = n_files n -> n_procs n' = n_procs n -> survives vm_id config n -> survives vm_id config n'.
Proof. intros Hf Hp []. split; [done|by rewrite Hf|]. unfold listening in *. by rewrite Hp. Qed.

(** The scan of the directory reaches the VM and passes over the others. *)
Lemma recover_each l vm_id config mapped o n :
  survives vm_id config n -> (forall s, ho_file o s = true) -> (forall s, ho_ready o s = true) ->
  mapped = ob && sb_has_mapping (n_store n) vm_id -> vm_id ∈ l \/ recovered vm_id config mapped n ->
  exists n', nd_each (recover_vm rd ob) l o n = (n', Ok tt) /\ recovered vm_id config mapped n' /\
    n_files n' = n_files n /\ n_procs n' = n_procs n /\ n_store n' = n_store n.
Proof.
  intros Hs Hf Hready Hm. revert n Hs Hm. induction l as [|x l IH]; intros n Hs Hm Hl.
  { exists n. split; [done|]. destruct Hl as [Hl|]; [by apply not_elem_of_nil in Hl|done]. }
  destruct (recover_frame x o n) as (n1&Hr&F1&P1&S1&V1). simpl. unfold mbind, Nd_bind. rewrite Hr.
  destruct (IH n1) as (n2&Hr2&Hrec&F2&P2&S2).
  - by eapply survives_same.
  - by rewrite S1.
  - destruct (decide (x = vm_id)) as [->|Hne].
    + right. subst mapped. pose proof (recover_survivor vm_id config o n Hs Hf Hready) as Hrec. by rewrite Hr in Hrec.
    + destruct Hl as [Hl|[i Hi]]; [left; set_solver|]. right. exists i. by rewrite V1.
  - exists n2. split; [exact Hr2|]. split; [done|]. by rewrite F2, P2, S2.
Qed.

Lemma socket_owner_of vm_id :
  vm_id <> EmptyString -> no_char "/"%char vm_id -> socket_owner rd (socket_path rd vm_id) = Some vm_id.
Proof.
  intros Hne Hc. unfold socket_owner, socket_path, in_runtime_dir. rewrite <- string_app_assoc, strip_prefix_app.
  cbn [mbind option_bind]. rewrite strip_suffix_app. cbn [mbind option_bind]. rewrite split_no_sep by done.
  by destruct (String.eqb_spec vm_id "").
Qed.

(** The scan after a restart. *)
Lemma recover_created vm_id o n i :
  created vm_id n i -> vm_id <> EmptyString -> no_char "/"%char vm_id ->
  (forall s, ho_file o s = true) -> (forall s, ho_ready o s = true) ->
  exists n2, recover_vms rd ob o (restarted n) = (n2, Ok tt) /\
    recovered vm_id (vi_proto_config i) (ob && sb_has_mapping (n_store n) vm_id) n2 /\ n_procs n2 = n_procs n.
Proof.
  intros Hi Hne Hc Hf Hready. pose proof (created_survives _ _ _ Hi) as Hs.
  unfold recover_vms, mbind at 1, Nd_bind at 1, nd_ask. rewrite Hf. unfold mbind at 1, Nd_bind at 1, nd_get.
  destruct (recover_each (omap (socket_owner rd) (map_to_list (n_files (tick_node (restarted n)))).*1) vm_id (vi_proto_config i)
    (ob && sb_has_mapping (n_store n) vm_id) o (tick_node (restarted n))) as (n2&Hr&Hrec&_&HP&_); [|done|done| | |].
  - eapply survives_same; [..|exact Hs]; by destruct n.
  - by destruct n.
  - left. apply list_elem_of_omap. exists (socket_path rd vm_id). split; [|by apply socket_owner_of].
    destruct (cr_socket_file _ _ _ Hi) as [c Hsock]. apply list_elem_of_fmap. exists (socket_path rd vm_id, c).
    split; [done|]. apply elem_of_map_to_list. by destruct n.
  - exists n2. split; [exact Hr|]. split; [done|]. rewrite HP. by destruct n.
Qed.

(** C14. A restart of the agent loses no VM.  A VM was created with its configuration
    written, from a request that named no TAP device of the manager's own prefix, and the
    backend held no mapping of it before.  When the agent starts anew, can read its
    files and the hypervisor answers, the scan of the runtime directory (whatever else
    lies there) registers the VM with the configuration, the socket, the TAP devices, the
    vsock and the mapped storage it had. *)
Theorem create_recover_agrees config o o' n n1 st :
  create_vm rd ob config o n = (n1, Ok st) -> no_own_taps (pv_networks config) ->
  pv_vm_id config <> EmptyString -> no_char "/"%char (pv_vm_id config) ->
  sb_has_mapping (n_store n) (pv_vm_id config) = false ->
  (forall s, ho_file o s = true) -> (forall s, ho_file o' s = true) -> (forall s, ho_ready o' s = true) ->
  let '(n2, r) := recover_vms rd ob o' (restarted n1) in
  r = Ok tt /\ n_procs n2 = n_procs n1 /\
  exists i i', n_vms n1 !! pv_vm_id config = Some i /\ n_vms n2 !! pv_vm_id config = Some i' /\
    vi_proto_config i' = vi_proto_config i /\ vi_socket_path i' = vi_socket_path i /\
    vi_tap_devices i' = vi_tap_devices i /\ vi_vsock_socket_path i' = vi_vsock_socket_path i /\
    vi_overlaybd i' = vi_overlaybd i.
Proof.
  intros Hc Hown Hne Hsl Hnew Hf Hf' Hready. destruct (create_creates _ _ _ _ _ Hc Hf Hown) as (i&Hi&Ht&Hob).
  destruct (recover_created _ _ _ _ Hi Hne Hsl Hf' Hready) as (n2&->&(i'&Hv&_&Hc'&Hs&Ht'&Hk&Ho)&Hp).
  split; [done|]. split; [done|]. exists i, i'. destruct Hi as [Hi _ Hso _ _ Hvs _].
  split_and!; try congruence. rewrite Ho. destruct (vi_overlaybd i); [done|]. by rewrite Hob, Hnew, andb_false_r.
Qed.

(** A forced stop of a VM that was recovered after a restart of the agent
    reports success and marks the VM as shut down, and its hypervisor keeps running:
    the handle of the process was lost with the restart. *)
Theorem force_stop_recovered config o o' o'' n n1 st :
  create_vm rd ob config o n = (n1, Ok st) -> no_own_taps (pv_networks config) ->
  pv_vm_id config <> EmptyString -> no_char "/"%char (pv_vm_id config) ->
  (forall s, ho_file o s = true) -> (forall s, ho_file o' s = true) -> (forall s, ho_ready o' s = true) ->
  let n2 := (recover_vms rd ob o' (restarted n1)).1 in
  let '(n3, r) := force_stop_vm (pv_vm_id config) o'' n2 in
  r = Ok tt /\ vi_status <$> n_vms n3 !! pv_vm_id config = Some NsShutdown /\
  n_procs n3 = n_procs n1 /\ listening (socket_path rd (pv_vm_id config)) n3 = true.
Proof.
  intros Hc Hown Hne Hsl Hf Hf' Hready. destruct (create_creates _ _ _ _ _ Hc Hf Hown) as (i&Hi&_&_).
  destruct (recover_created _ _ _ _ Hi Hne Hsl Hf' Hready) as (n2&->&(i'&Hv&Hnone&_)&Hp). simpl.
  unfold force_stop_vm, instance_of, update_instance, mbind, Nd_bind, nd_get, nd_of. simpl.
  rewrite Hv. simpl. rewrite Hnone. unfold mret, Nd_ret, nd_set.
  destruct n2 as [v t b fs sz ps store k next c step ev]. simpl in *. subst.
  split_and!; [done|by rewrite lookup_alter_eq, Hv; destruct i'|done|by destruct Hi].
Qed.
End recovery.

(** ** A node with one VM *)

#[local] Instance node_uuid_text : UuidText := binary_uuid_text.
#[local] Instance node_iptables : Iptables := simulator.

Definition working_host : HostOracle := {|
  ho_command _ := Some true; ho_spawn _ := true; ho_ready _ := true; ho_file _ := true; ho_netlink _ := true;
  ho_reply _ := Ok "{}"%string; ho_info _ := Some (ChRunning, None); ho_fc_state _ := Some FcRunning; ho_port _ := Some 4000;
  ho_seed _ := Ok "seed"%string; ho_json _ := None |}.

(** Every request to a hypervisor fails. *)
Definition silent_host : HostOracle := {|
  ho_command _ := Some true; ho_spawn _ := true; ho_ready _ := true; ho_file _ := true; ho_netlink _ := true;
  ho_reply _ := Err "500"%string; ho_info _ := None; ho_fc_state _ := None; ho_port _ := None;
  ho_seed _ := Ok "seed"%string; ho_json _ := None |}.

Definition empty_node : Node := {|
  n_vms := ∅; n_taps := {[ "eth0"%string ]}; n_bridges := ∅; n_files := ∅; n_sizes := ∅; n_procs := ∅; n_store := ∅;
  n_kernel := fresh_tables; n_next_pid := 1000; n_next_cid := 3; n_step := 0; n_events := [] |}.

Definition sample_net (id : string) (vhost_user : option bool) (socket bridge : option string) : ProtoNet :=
  {| pn_net := Build_NetConfig id None None None None None None vhost_user socket None None None None None None None
                 None bridge;
     pn_rate_limiter := None |}.
Definition sample_disk : ProtoDisk :=
  {| pd_disk := Build_DiskConfig "root" None None None None None None None None None None (Some "library/debian"%string)
                  (Some "http://registry"%string) None None;
     pd_rate_limiter := None |}.
Definition sample_config (vm_id : string) : ProtoVmConfig :=
  {| pv_vm_id := vm_id; pv_cpus := None; pv_memory := None; pv_payload := None; pv_disks := [sample_disk];
     pv_networks := [sample_net "net0" None None (Some "br0"%string);
                     sample_net "net1" (Some true) (Some "passt"%string) None];
     pv_rng := None; pv_serial := None; pv_console := None; pv_rate_limit_groups := []; pv_cloud_init := None;
     pv_devices := []; pv_vsock := None; pv_numa_placement := None; pv_hypervisor := 0 |}.
Definition sample_id : string := uuid_to_string 5.

Lemma sample_own_taps : no_own_taps (pv_networks (sample_config sample_id)).
Proof. intros net tap Hin. apply list_elem_of_In in Hin as [<-|[<-|[]]]; done. Qed.

(** The creation of the VM on the empty node, on a host where everything works. *)
Lemma sample_created :
  is_ok (create_vm "/run" true (sample_config sample_id) working_host empty_node).2 = true /\
  map_to_list (n_procs (create_vm "/run" true (sample_config sample_id) working_host empty_node).1) <> [] /\
  is_ok (create_vm "/run" true (sample_config sample_id) silent_host empty_node).2 = false.
Proof. split_and!; [by vm_compute| |by vm_compute]. vm_compute. done. Qed.

Lemma create_delete_restores_witness : exists n1 st,
  create_vm "/run" true (sample_config sample_id) working_host empty_node = (n1, Ok st) /\
  n_vms (delete_vm "/run" true sample_id working_host n1).1 = ∅ /\
  n_procs (delete_vm "/run" true sample_id working_host n1).1 = ∅ /\
  n_taps (delete_vm "/run" true sample_id working_host n1).1 = {[ "eth0"%string ]}.
Proof.
  destruct sample_created as [Hok _].
  destruct (create_vm "/run" true (sample_config sample_id) working_host empty_node) as [n1 [st|e]] eqn:E; [|done].
  exists n1, st. split; [done|].
  assert (pids_below empty_node) as Hb by (intros ? ? Hp; simpl in Hp; by rewrite lookup_empty in Hp).
  pose proof (create_delete_restores "/run" true (sample_config sample_id) working_host working_host empty_node n1 st
    Hb E (fun _ => eq_refl)) as Hd. simpl pv_vm_id in Hd.
  destruct (delete_vm "/run" true sample_id working_host n1) as [n2 r]. by destruct Hd as (_&?&?&?).
Defined.

Lemma sample_id_plain : sample_id <> EmptyString /\ no_char "/"%char sample_id.
Proof. split; [done|]. unfold sample_id. vm_compute. by repeat constructor. Qed.

Lemma create_recover_agrees_witness : exists n1 st i i',
  create_vm "/run" true (sample_config sample_id) working_host empty_node = (n1, Ok st) /\
  n_vms n1 !! sample_id = Some i /\
  n_vms (recover_vms "/run" true working_host (restarted n1)).1 !! sample_id = Some i' /\
  vi_tap_devices i' = vi_tap_devices i /\ vi_overlaybd i' = vi_overlaybd i.
Proof.
  destruct sample_created as [Hok _]. destruct sample_id_plain as [Hne Hsl].
  destruct (create_vm "/run" true (sample_config sample_id) working_host empty_node) as [n1 [st|e]] eqn:E; [|done].
  pose proof (create_recover_agrees "/run" true (sample_config sample_id) working_host working_host empty_node n1 st
    E sample_own_taps Hne Hsl eq_refl (fun _ => eq_refl) (fun _ => eq_refl) (fun _ => eq_refl)) as Hr. simpl pv_vm_id in Hr.
  destruct (recover_vms "/run" true working_host (restarted n1)) as [n2 r] eqn:Er.
  destruct Hr as (_&_&i&i'&Hi&Hv&_&_&Ht&_&Ho). exists n1, st, i, i'. split; [done|]. split; [done|]. rewrite Er. done.
Defined.

Lemma force_stop_recovered_witness : exists n1 st,
  create_vm "/run" true (sample_config sample_id) working_host empty_node = (n1, Ok st) /\
  listening (socket_path "/run" sample_id)
    (force_stop_vm sample_id working_host (recover_vms "/run" true working_host (restarted n1)).1).1 = true.
Proof.
  destruct sample_created as [Hok _]. destruct sample_id_plain as [Hne Hsl].
  destruct (create_vm "/run" true (sample_config sample_id) working_host empty_node) as [n1 [st|e]] eqn:E; [|done].
  pose proof (force_stop_recovered "/run" true (sample_config sample_id) working_host working_host working_host
    empty_node n1 st E sample_own_taps Hne Hsl (fun _ => eq_refl) (fun _ => eq_refl) (fun _ => eq_refl)) as Hr.
  cbv zeta in Hr. simpl pv_vm_id in Hr. exists n1, st. split; [done|].
  destruct (force_stop_vm sample_id working_host _) as [n3 r]. by destruct Hr as (_&_&_&?).
Defined.

Lemma sample_reachable : exists n i,
  rtc (node_step "/run" true) empty_node n /\ n_vms n !! sample_id = Some i /\
  exists pid, n_procs n !! pid = Some (ChProc (socket_path "/run" sample_id)).
Proof.
  set (n := (node_op "/run" true (CreateVm (sample_config sample_id)) working_host empty_node).1).
  assert (is_Some (n_vms n !! sample_id)) as [i Hi] by (vm_compute; by eexists).
  exists n, i. split; [apply rtc_once, Node_step|]. split; [done|]. exists 1001%nat. vm_compute. done.
Qed.

Lemma node_processes_owned_witness : exists n pid vm i,
  rtc (node_step "/run" true) empty_node n /\ n_procs n !! pid = Some (ChProc (socket_path "/run" sample_id)) /\
  n_vms n !! vm = Some i /\ vi_process i = Some pid /\ socket_path "/run" sample_id = socket_path "/run" vm.
Proof.
  destruct sample_reachable as (n&_&Hs&_&pid&Hp).
  destruct (node_processes_owned "/run" true empty_node n pid _ (conj eq_refl eq_refl) Hs Hp) as (vm&i&Hi&_&_&Hc).
  destruct (Hc _ eq_refl) as (?&?&_). by exists n, pid, vm, i.
Defined.

Lemma force_stopped_cannot_start_witness : exists n,
  rtc (node_step "/run" true) empty_node n /\ is_Some (n_vms n !! sample_id) /\
  (force_stop_vm sample_id working_host n).2 = Ok tt /\
  (start_vm "/run" true sample_id working_host (force_stop_vm sample_id working_host n).1).2
    = Err (SpawnError "connect").
Proof.
  destruct sample_reachable as (n&i&Hs&Hi&_). exists n. split; [done|]. split; [by exists i|].
  pose proof (force_stopped_cannot_start "/run" true empty_node n sample_id working_host working_host
    (conj eq_refl eq_refl) Hs (ex_intro _ i Hi)) as Hf.
  destruct (force_stop_vm sample_id working_host n) as [n1 r]. destruct Hf as (?&Hst&_). simpl. by rewrite Hst.
Defined.

(** A host whose disk is full. *)
Definition full_host : HostOracle := {|
  ho_command _ := Some true; ho_spawn _ := true; ho_ready _ := true; ho_file _ := false; ho_netlink _ := true;
  ho_reply _ := Ok "{}"%string; ho_info _ := None; ho_fc_state _ := None; ho_port _ := None;
  ho_seed _ := Ok "seed"%string; ho_json _ := None |}.

(** A creation that fails after its TAP devices are there, and before the process is
    started, leaves the devices behind; the next attempt fails on the first of them,
    also when everything works again. *)
Example failed_creation_blocks_retry :
  let n1 := (create_vm "/run" true (sample_config sample_id) full_host empty_node).1 in
  n_vms n1 !! sample_id = None /\ bool_decide (tap_name_for_net sample_id 0 ∈ n_taps n1) = true /\
  (create_vm "/run" true (sample_config sample_id) working_host n1).2
    = Err (TapError ("ip tuntap add " +:+ tap_name_for_net sample_id 0 +:+ " failed")).
Proof. split_and!; by vm_compute. Qed.
