(* ===== verification/NodeFirecracker.v ===== *)
(** * NodeFirecracker: microVMs of a node

    The second hypervisor of the agent, [qarax-node/src/firecracker/mod.rs] with
    [helpers.rs], and the error type of the trait both managers implement
    ([vmm/mod.rs]).  The state of the agent is the node of [NodeManager.v] with a
    table of microVMs of its own; the requests Firecracker accepted are kept.

    A theorem shows which drive is the root device.  Another shows that a microVM
    starts at most once: after a successful start every later one is refused until
    the VM is deleted, also after a stop. *)

From S2P Require Import Prelude Text Common Errors Secrets Tables NodeApi Ipv4 Netfilter.
From S2P Require Import NodeFirewall NodeConfig NodeManager NodeWire NodeManagerFacts NodeVms.
From Stdlib Require Import Ascii.
#[local] Open Scope Z_scope.

(** ** Errors of a manager *)

Module Vmm.
Inductive VmmError :=
| VmNotFound (id : string) | VmAlreadyExists (id : string) | SpawnError (text : string)
| InvalidConfig (text : string) | ProcessError (text : string) | TapError (text : string)
| OverlayBdError (text : string) | MigrationError (text : string) | StorageError (text : string)
| ExecUnavailable (text : string) | ExecInvalid (text : string) | ExecError (text : string)
| ExecTimeout (secs : Z) | Unsupported (op : string).
End Vmm.

(** [From<VmManagerError> for VmmError]. *)
Definition vmm_error_of (e : VmManagerError) : Vmm.VmmError :=
  match e with
  | VmNotFound id => Vmm.VmNotFound id
  | VmAlreadyExists id => Vmm.VmAlreadyExists id
  | SpawnError e => Vmm.SpawnError e
  | InvalidConfig msg => Vmm.InvalidConfig msg
  | ProcessError msg => Vmm.ProcessError msg
  | TapError msg => Vmm.TapError msg
  | OverlayBdError e => Vmm.OverlayBdError e
  | MigrationError msg => Vmm.MigrationError msg
  | StorageError msg => Vmm.StorageError msg
  | ExecUnavailable msg => Vmm.ExecUnavailable msg
  | ExecInvalid msg => Vmm.ExecInvalid msg
  | ExecError msg => Vmm.ExecError msg
  | ExecTimeout secs => Vmm.ExecTimeout secs
  | SdkError e => Vmm.ProcessError ("SDK error: " +:+ e)
  end.

(** ** State *)

(** The process is up but not booted, or the VM runs (or is paused). *)
Inductive FcApiClient := PreBoot | RunningClient.

#[global] Instance FcApiClient_eq_dec : EqDecision FcApiClient.
Proof. solve_decision. Defined.

Record FcVmInstance := {
  fi_proto_config : ProtoVmConfig;
  fi_process : option nat;
  fi_socket_path : string;
  fi_status : NodeVmStatus;
  fi_tap_devices : list string;
  fi_client : option FcApiClient
}.
Definition fc_with_status (s : NodeVmStatus) (i : FcVmInstance) : FcVmInstance :=
  let 'Build_FcVmInstance c p k _ t cl := i in Build_FcVmInstance c p k s t cl.
Definition fc_with_client (cl : option FcApiClient) (i : FcVmInstance) : FcVmInstance :=
  let 'Build_FcVmInstance c p k s t _ := i in Build_FcVmInstance c p k s t cl.
Definition fc_without_process (i : FcVmInstance) : FcVmInstance :=
  let 'Build_FcVmInstance c _ k s t cl := i in Build_FcVmInstance c None k s t cl.
Definition fc_to_vm_state (i : FcVmInstance) : VmState :=
  {| vst_config := fi_proto_config i; vst_status := fi_status i; vst_memory_actual_size := None |}.

(** The requests of the SDK. *)
Inductive FcRequest :=
| PutMachineConfig (mem_size_mib vcpu_count : Z)
| PutBootSource (kernel : string) (boot_args initrd : option string)
| PutDrive (id : string) (is_root : bool) (path : string) (readonly : bool)
| PutNetworkInterface (id tap : string) (mac : option string)
| PutVsock (guest_cid : Z) (uds_path : string) (id : option string)
| InstanceStart | SendCtrlAltDel | PatchVm (paused : bool)
| CreateSnapshot (mem_path state_path : string) | LoadSnapshot (state_path mem_path : string).

Section firecracker.
Context `{ConfigCodec} `{StorageBackend} `{Iptables} `{UuidText}.

Record Agent := {
  ag_node : Node;
  ag_fc : gmap string FcVmInstance;
  ag_next_cid : Z;
  ag_accepted : list (string * FcRequest)
}.
Definition with_node (n : Node) (a : Agent) : Agent :=
  let 'Build_Agent _ f c l := a in Build_Agent n f c l.
Definition with_fc (g : gmap string FcVmInstance -> gmap string FcVmInstance) (a : Agent) : Agent :=
  let 'Build_Agent n f c l := a in Build_Agent n (g f) c l.
Definition with_fc_cid (g : Z -> Z) (a : Agent) : Agent :=
  let 'Build_Agent n f c l := a in Build_Agent n f (g c) l.
Definition accept (socket : string) (r : FcRequest) (a : Agent) : Agent :=
  let 'Build_Agent n f c l := a in Build_Agent n f c (l ++ [(socket, r)]).

Definition Ag (A : Type) : Type := HostOracle -> Agent -> Agent * result Vmm.VmmError A.

#[global] Instance Ag_ret : MRet Ag := fun A x o a => (a, Ok x).
#[global] Instance Ag_bind : MBind Ag := fun A B f m o a =>
  match m o a with
  | (a', Ok x) => f x o a'
  | (a', Err e) => (a', Err e)
  end.
Definition ag_throw {A} (e : Vmm.VmmError) : Ag A := fun o a => (a, Err e).
Definition ag_try {A} (m : Ag A) : Ag (result Vmm.VmmError A) := fun o a => let '(a', r) := m o a in (a', Ok r).
Definition ag_get {A} (f : Agent -> A) : Ag A := fun o a => (a, Ok (f a)).
Definition ag_set (f : Agent -> Agent) : Ag unit := fun o a => (f a, Ok tt).
Definition ag_of {A} (r : result Vmm.VmmError A) : Ag A := fun o a => (a, r).

(** A computation on the host. *)
Definition on_host {A} (m : Nd A) : Ag A := fun o a =>
  let '(n', r) := m o (ag_node a) in
  (with_node n' a, match r with Ok x => Ok x | Err e => Err (vmm_error_of e) end).

Fixpoint ag_each {A} (f : A -> Ag unit) (l : list A) : Ag unit :=
  match l with
  | [] => mret tt
  | x :: l' => _ ← f x; ag_each f l'
  end.

(** The process is killed when its handle is dropped on a failure. *)
Definition ag_owned {A} (pids : list nat) (m : Ag A) : Ag A := fun o a =>
  match m o a with
  | (a', Err e) => (with_node (kill pids (ag_node a')) a', Err e)
  | r => r
  end.

(** ** Names and devices *)

Context (runtime_dir : string).

Definition fc_socket_path (vm_id : string) : string := in_runtime_dir runtime_dir (vm_id +:+ ".fc.sock").
Definition fc_vsock_socket_path (vm_id : string) : string := in_runtime_dir runtime_dir (vm_id +:+ ".fc.vsock").
Definition fc_log_path (vm_id : string) : string := in_runtime_dir runtime_dir (vm_id +:+ ".fc.log").
Definition fc_config_path (vm_id : string) : string := in_runtime_dir runtime_dir (vm_id +:+ ".fc.json").
Definition fc_cloud_init_seed_path (vm_id : string) : string :=
  in_runtime_dir runtime_dir (vm_id +:+ "-fc-cidata.img").
Definition fc_tap_name_for_net (vm_id : string) (net_index : nat) : string :=
  "qf" +:+ vm_hex_prefix vm_id +:+ "n" +:+ fmt_nat (Z.of_nat net_index).

Definition fc_next_vsock_cid : Ag Z :=
  cid ← ag_get ag_next_cid; _ ← ag_set (with_fc_cid Z.succ); mret cid.
(** The compare-and-exchange loop leaves the larger of the two. *)
Definition advance_vsock_cid_past (used_cid : Z) : Ag unit :=
  ag_set (with_fc_cid (fun cur => if cur <? used_cid + 1 then used_cid + 1 else cur)).

Definition fc_resolve_vsock_config (vm_id : string) (vsock : option ProtoVsock) : Ag (option ProtoVsock) :=
  match vsock with
  | None => mret None
  | Some k =>
      let v := pk_vsock k in
      cid ← match vs_cid v with Some c => mret c | None => fc_next_vsock_cid end;
      mret (Some {| pk_vsock := {| vs_cid := Some cid;
                                   vs_socket := Some (default (fc_vsock_socket_path vm_id) (vs_socket v));
                                   vs_iommu := vs_iommu v; vs_id := vs_id v |};
                    pk_pci_segment := pk_pci_segment k |})
  end.

Fixpoint fc_prepare_networks (vm_id : string) (i : nat) (nets : list ProtoNet) (taps : list string)
  : Ag (list ProtoNet * list string) :=
  match nets with
  | [] => mret ([], taps)
  | net :: rest =>
      if needs_tap net then
        let tap_name := fc_tap_name_for_net vm_id i in
        created ← ag_try (on_host (create_tap_device tap_name));
        match created with
        | Err e => _ ← on_host (delete_taps taps); ag_throw e
        | Ok _ =>
            '(rest', taps') ← fc_prepare_networks vm_id (S i) rest (taps ++ [tap_name]);
            mret (with_tap tap_name net :: rest', taps')
        end
      else
        '(rest', taps') ← fc_prepare_networks vm_id (S i) rest taps;
        mret (net :: rest', taps')
  end.

Definition ag_undoing {A} (taps : list string) (m : Ag A) : Ag A :=
  r ← ag_try m;
  match r with
  | Ok x => mret x
  | Err e => _ ← on_host (delete_taps taps); ag_throw e
  end.

(** ** The SDK *)

Definition fc_listening (socket : string) (a : Agent) : bool :=
  existsb (fun e => bool_decide (e.2 = FcProc socket)) (map_to_list (n_procs (ag_node a))).

Definition fc_request (socket : string) (r : FcRequest) : Ag unit :=
  up ← ag_get (fc_listening socket);
  reply ← on_host (nd_ask ho_reply);
  if up : bool then
    match reply with
    | Ok _ => ag_set (accept socket r)
    | Err e => ag_throw (Vmm.ProcessError e)
    end
  else ag_throw (Vmm.ProcessError "connect").

(** [Machine::attach] waits for the socket. *)
Definition fc_attach (socket : string) : Ag unit :=
  up ← ag_get (fc_listening socket);
  ready ← on_host (nd_ask ho_ready);
  if (up && ready : bool) then mret tt else ag_throw (Vmm.ProcessError "attach").

Definition describe_instance (socket : string) : Ag (option FcInstanceState) :=
  up ← ag_get (fc_listening socket);
  state ← on_host (nd_ask ho_fc_state);
  mret (if up : bool then state else None).

(** ** Configuration *)

Definition machine_request (config : ProtoVmConfig) : FcRequest :=
  let cpus := match pv_cpus config with Some c => pcp_boot_vcpus c | None => 1 end in
  let size := match pv_memory config with Some m => pm_size m | None => 128 * 1024 * 1024 end in
  PutMachineConfig (as_i32 (Z.quot size (1024 * 1024))) cpus.

Definition nonempty (s : option string) : option string :=
  s ≫= fun t => if String.eqb t "" then None else Some t.
Definition boot_requests (config : ProtoVmConfig) : list FcRequest :=
  match pv_payload config with
  | None => []
  | Some p =>
      match nonempty (pp_kernel p) with
      | None => []
      | Some kernel => [PutBootSource kernel (nonempty (pp_cmdline p)) (nonempty (pp_initramfs p))]
      end
  end.

(** The first writable disk is the root device. *)
Fixpoint drive_requests (has_root : bool) (disks : list ProtoDisk) : list FcRequest :=
  match disks with
  | [] => []
  | disk :: rest =>
      match dc_path (pd_disk disk) with
      | None => drive_requests has_root rest
      | Some path =>
          let readonly := default false (dc_readonly (pd_disk disk)) in
          let is_root := negb readonly && negb has_root in
          PutDrive (dc_id (pd_disk disk)) is_root path readonly :: drive_requests (has_root || is_root) rest
      end
  end.

Definition net_requests (nets : list ProtoNet) : list FcRequest :=
  omap (fun net => (fun tap => PutNetworkInterface (nc_id (pn_net net)) tap (nc_mac (pn_net net)))
                   <$> nc_tap (pn_net net)) nets.

Definition vsock_request (k : ProtoVsock) : result Vmm.VmmError FcRequest :=
  let v := pk_vsock k in
  match vs_cid v with
  | None => Err (Vmm.InvalidConfig "vsock.cid is required for Firecracker")
  | Some cid =>
      if in_range i32_min i32_max cid then
        match vs_socket v with
        | None => Err (Vmm.InvalidConfig "vsock.socket is required for Firecracker")
        | Some uds => Ok (PutVsock cid uds (vs_id v))
        end
      else Err (Vmm.InvalidConfig ("vsock.cid " +:+ pretty cid +:+ " exceeds i32 range"))
  end.

Definition configure_vm (socket : string) (config : ProtoVmConfig) : Ag unit :=
  _ ← ag_each (fc_request socket)
        (machine_request config :: boot_requests config ++ drive_requests false (pv_disks config)
           ++ net_requests (pv_networks config));
  match pv_vsock config with
  | None => mret tt
  | Some k => r ← ag_of (vsock_request k); fc_request socket r
  end.

(** ** Creation *)

Definition fc_instance_of (vm_id : string) : Ag FcVmInstance :=
  i ← ag_get (fun a => ag_fc a !! vm_id);
  ag_of (ok_or (Vmm.VmNotFound vm_id) i).
Definition fc_update (vm_id : string) (f : FcVmInstance -> FcVmInstance) : Ag unit :=
  ag_set (with_fc (alter f vm_id)).

(** The seed image; the writes are those of the other manager with other names. *)
Definition fc_seed_disks (vm_id : string) (cloud_init : option CloudInitConfig) : Nd (list ProtoDisk) :=
  match cloud_init with
  | Some ci =>
      if String.eqb (ci_user_data ci) "" then mret []
      else
        seed ← nd_ask ho_seed;
        match seed with
        | Err e => nd_throw (InvalidConfig e)
        | Ok buf =>
            _ ← write_path (fc_cloud_init_seed_path vm_id) buf;
            mret [seed_disk (fc_cloud_init_seed_path vm_id)]
        end
  | None => mret []
  end.

(** The configured instance is registered; the process is [pid]. *)
Definition fc_register (vm_id : string) (config : ProtoVmConfig) (taps : list string) (pid : nat) : Ag VmState :=
  let socket := fc_socket_path vm_id in
  _ ← ag_undoing taps (fc_attach socket);
  _ ← ag_undoing taps (configure_vm socket config);
  _ ← ag_try (on_host (write_path (fc_config_path vm_id) (encode_to_vec config)));
  let instance :=
    {| fi_proto_config := config; fi_process := Some pid; fi_socket_path := socket; fi_status := NsCreated;
       fi_tap_devices := taps; fi_client := Some PreBoot |} in
  _ ← ag_set (with_fc (insert vm_id instance));
  mret (fc_to_vm_state instance).

Definition fc_create_vm (config : ProtoVmConfig) : Ag VmState :=
  let vm_id := pv_vm_id config in
  exists_ ← ag_get (fun a => bool_decide (vm_id ∈ dom (ag_fc a)));
  if exists_ : bool then ag_throw (Vmm.VmAlreadyExists vm_id)
  else
    _ ← on_host create_dir_all;
    '(nets, taps) ← fc_prepare_networks vm_id 0 (pv_networks config) [];
    _ ← ag_undoing taps (on_host (nd_each attach_net nets));
    vsock ← fc_resolve_vsock_config vm_id (pv_vsock config);
    _ ← on_host (match vsock_socket_path_from_config vsock with
                 | Some path => remove_if_exists path | None => mret tt end);
    seeds ← on_host (fc_seed_disks vm_id (pv_cloud_init config));
    let config := completed config vsock nets (pv_disks config ++ seeds) in
    _ ← on_host (remove_if_exists (fc_socket_path vm_id));
    _ ← on_host (write_path (fc_log_path vm_id) "");
    pid ← ag_undoing taps (on_host (spawn (FcProc (fc_socket_path vm_id))));
    ag_owned [pid] (fc_register vm_id config taps pid).

(** ** Lifecycle *)

(** The client is taken out of the instance; a failed boot does not put it back. *)
Definition fc_start_vm (vm_id : string) : Ag unit :=
  i ← fc_instance_of vm_id;
  match fi_client i with
  | None => ag_throw (Vmm.ProcessError "no client for VM")
  | Some RunningClient => ag_throw (Vmm.ProcessError "VM already started")
  | Some PreBoot =>
      _ ← fc_update vm_id (fc_with_client None);
      _ ← fc_request (fi_socket_path i) InstanceStart;
      fc_update vm_id (fun i => fc_with_status NsRunning (fc_with_client (Some RunningClient) i))
  end.

Definition fc_stop_vm (vm_id : string) : Ag unit :=
  i ← fc_instance_of vm_id;
  _ ← (match fi_client i with
       | Some RunningClient => _ ← ag_try (fc_request (fi_socket_path i) SendCtrlAltDel); mret tt
       | _ => mret tt
       end);
  fc_update vm_id (fc_with_status NsShutdown).

Definition fc_kill (process : option nat) : Ag unit :=
  match process with Some pid => on_host (nd_set (kill [pid])) | None => mret tt end.

Definition fc_force_stop_vm (vm_id : string) : Ag unit :=
  i ← fc_instance_of vm_id;
  _ ← fc_kill (fi_process i);
  fc_update vm_id (fun i => fc_with_status NsShutdown (fc_without_process i)).

Definition fc_pause_vm (vm_id : string) : Ag unit :=
  i ← fc_instance_of vm_id;
  if bool_decide (fi_status i = NsPaused) then mret tt
  else
    match fi_client i with
    | Some RunningClient =>
        _ ← fc_request (fi_socket_path i) (PatchVm true);
        fc_update vm_id (fc_with_status NsPaused)
    | _ => ag_throw (Vmm.ProcessError "VM is not running")
    end.

Definition fc_resume_vm (vm_id : string) : Ag unit :=
  i ← fc_instance_of vm_id;
  match fi_client i with
  | Some RunningClient =>
      _ ← fc_request (fi_socket_path i) (PatchVm false);
      fc_update vm_id (fc_with_status NsRunning)
  | _ => ag_throw (Vmm.ProcessError "VM is not paused")
  end.

Definition fc_delete_vm (vm_id : string) : Ag unit :=
  i ← fc_instance_of vm_id;
  _ ← ag_set (with_fc (delete vm_id));
  _ ← fc_kill (fi_process i);
  _ ← on_host (remove_if_exists (fi_socket_path i));
  _ ← on_host (remove_if_exists (fc_config_path vm_id));
  _ ← on_host (remove_if_exists (fc_cloud_init_seed_path vm_id));
  _ ← on_host (match vsock_socket_path_from_config (pv_vsock (fi_proto_config i)) with
               | Some path => remove_if_exists path | None => mret tt end);
  _ ← on_host (delete_taps (fi_tap_devices i));
  on_host (teardown_firewall vm_id).

Definition status_of_fc (s : FcInstanceState) : NodeVmStatus :=
  match s with FcRunning => NsRunning | FcPaused => NsPaused | FcNotStarted => NsCreated end.

(** An explicit shutdown is trusted. *)
Definition fc_get_vm_info (vm_id : string) : Ag VmState :=
  i ← fc_instance_of vm_id;
  if bool_decide (fi_status i = NsShutdown) then mret (fc_to_vm_state i)
  else
    match fi_client i with
    | Some RunningClient =>
        state ← describe_instance (fi_socket_path i);
        match state with
        | None => mret (fc_to_vm_state i)
        | Some s =>
            _ ← fc_update vm_id (fc_with_status (status_of_fc s));
            mret (fc_to_vm_state (fc_with_status (status_of_fc s) i))
        end
    | _ => mret (fc_to_vm_state i)
    end.

Definition fc_list_vms : Ag (list VmState) := ag_get (fun a => fc_to_vm_state <$> (map_to_list (ag_fc a)).*2).

(** ** Snapshots *)

Definition without_scheme (url : string) : string := default url (strip_prefix "file://" url).
Definition mem_path (dir : string) : string := dir +:+ "/mem.snap".
Definition state_path (dir : string) : string := dir +:+ "/vm.snap".

(** A VM that is not paused is paused first. *)
Definition fc_snapshot_vm (vm_id destination_url : string) : Ag unit :=
  i ← fc_instance_of vm_id;
  _ ← (if bool_decide (fi_status i = NsPaused) then mret tt
       else match fi_client i with
            | Some RunningClient =>
                _ ← fc_request (fi_socket_path i) (PatchVm true);
                fc_update vm_id (fc_with_status NsPaused)
            | _ => ag_throw (Vmm.ProcessError "VM is not running")
            end);
  let dest := without_scheme destination_url in
  created ← on_host (nd_ask ho_file);
  if created : bool then
    match fi_client i with
    | Some RunningClient => fc_request (fi_socket_path i) (CreateSnapshot (mem_path dest) (state_path dest))
    | _ => ag_throw (Vmm.ProcessError "VM is not running")
    end
  else ag_throw (Vmm.ProcessError ("Failed to create snapshot directory " +:+ dest)).

Definition fc_load_persisted_config (vm_id : string) : Nd (option ProtoVmConfig) :=
  content ← nd_get (fun n => n_files n !! fc_config_path vm_id);
  match content with
  | None => mret None
  | Some bytes =>
      ok ← nd_ask ho_file;
      if ok : bool then
        match decode_config bytes with
        | Some config => mret (Some config)
        | None => nd_throw (InvalidConfig ("Failed to decode FC config for " +:+ vm_id))
        end
      else nd_throw (SpawnError "read")
  end.

(** [ProtoVmConfig] with only its identifier. *)
Definition default_config (vm_id : string) : ProtoVmConfig :=
  {| pv_vm_id := vm_id; pv_cpus := None; pv_memory := None; pv_payload := None; pv_disks := []; pv_networks := [];
     pv_rng := None; pv_serial := None; pv_console := None; pv_rate_limit_groups := []; pv_cloud_init := None;
     pv_devices := []; pv_vsock := None; pv_numa_placement := None; pv_hypervisor := 0 |}.

Definition fc_drop_instance (vm_id : string) : Ag unit :=
  i ← ag_get (fun a => ag_fc a !! vm_id);
  match i with
  | None => mret tt
  | Some i =>
      _ ← ag_set (with_fc (delete vm_id));
      _ ← fc_kill (fi_process i);
      on_host (remove_if_exists (fi_socket_path i))
  end.

Definition fc_restore_vm (vm_id source_url : string) : Ag unit :=
  let socket := fc_socket_path vm_id in
  _ ← fc_drop_instance vm_id;
  _ ← on_host create_dir_all;
  _ ← on_host (remove_if_exists socket);
  _ ← on_host (write_path (fc_log_path vm_id) "");
  pid ← on_host (spawn (FcProc socket));
  ag_owned [pid] (
    let src := without_scheme source_url in
    _ ← fc_attach socket;
    _ ← fc_request socket (LoadSnapshot (state_path src) (mem_path src));
    config ← on_host (fc_load_persisted_config vm_id);
    ag_set (with_fc (insert vm_id
      {| fi_proto_config := default (default_config vm_id) config; fi_process := Some pid; fi_socket_path := socket;
         fi_status := NsRunning; fi_tap_devices := []; fi_client := Some RunningClient |}))).

(** ** Recovery *)

(** [trim_end_matches]: the suffix is removed as often as it occurs. *)
Fixpoint trim_end_matches (fuel : nat) (suffix s : string) : string :=
  match fuel with
  | O => s
  | S fuel' => match strip_suffix suffix s with Some s' => trim_end_matches fuel' suffix s' | None => s end
  end.

Definition fc_socket_owner (path : string) : option string :=
  name ← strip_prefix (runtime_dir +:+ "/") path;
  if negb (bool_decide (length (str_split "/"%char name) = 1%nat)) then None
  else match strip_suffix ".fc.sock" name with
       | None => None
       | Some _ => Some (trim_end_matches (String.length name) ".fc.sock" name)
       end.

Definition fc_recovered_taps (config : ProtoVmConfig) : list string :=
  List.filter (starts_with "qf") (omap (fun n => nc_tap (pn_net n)) (pv_networks config)).

(** The socket is attached and asked for the live status. *)
Definition fc_recovered_client (path : string) : Ag (NodeVmStatus * option FcApiClient) :=
  attached ← ag_try (fc_attach path);
  match attached with
  | Ok _ =>
      state ← describe_instance path;
      mret (match state with Some FcRunning => NsRunning | Some FcPaused => NsPaused | _ => NsUnknown end,
            Some RunningClient)
  | Err _ => mret (NsUnknown, None)
  end.

Definition fc_recover_vm (path : string) (vm_id : string) : Ag unit :=
  config ← ag_try (on_host (fc_load_persisted_config vm_id));
  match config with
  | Ok (Some proto_config) =>
      '(status, client) ← fc_recovered_client path;
      _ ← (match pv_vsock proto_config ≫= fun k => vs_cid (pk_vsock k) with
           | Some cid => advance_vsock_cid_past cid
           | None => mret tt
           end);
      ag_set (with_fc (insert vm_id
        {| fi_proto_config := proto_config; fi_process := None; fi_socket_path := path; fi_status := status;
           fi_tap_devices := fc_recovered_taps proto_config; fi_client := client |}))
  | _ => mret tt
  end.

Definition fc_recover_vms : Ag unit :=
  ok ← on_host (nd_ask ho_file);
  if ok : bool then
    paths ← ag_get (fun a => (map_to_list (n_files (ag_node a))).*1);
    ag_each (fun path => match fc_socket_owner path with
                         | Some vm_id => fc_recover_vm path vm_id
                         | None => mret tt
                         end) paths
  else mret tt.

Definition fc_is_vm_process_alive (vm_id : string) : Ag bool :=
  ag_get (fun a => match ag_fc a !! vm_id with
                   | None => false
                   | Some i => match fi_process i with
                               | Some pid => bool_decide (pid ∈ dom (n_procs (ag_node a)))
                               | None => bool_decide (fi_socket_path i ∈ dom (n_files (ag_node a)))
                               end
                   end).
End firecracker.

(** ** The root device *)

Definition writable (disk : ProtoDisk) : bool :=
  bool_decide (is_Some (dc_path (pd_disk disk))) && negb (default false (dc_readonly (pd_disk disk))).
(** A drive that is not the root device. *)
Definition plain_drive (disk : ProtoDisk) : option FcRequest :=
  (fun path => PutDrive (dc_id (pd_disk disk)) false path (default false (dc_readonly (pd_disk disk))))
    <$> dc_path (pd_disk disk).

Lemma drives_with_root disks : drive_requests true disks = omap plain_drive disks.
Proof.
  induction disks as [|d disks IH]; [done|]. simpl. unfold plain_drive at 1.
  destruct (dc_path (pd_disk d)); simpl; [|done]. rewrite andb_false_r. simpl. by rewrite IH.
Qed.

Lemma drives_readonly disks rest :
  Forall (fun d => writable d = false) disks ->
  drive_requests false (disks ++ rest) = omap plain_drive disks ++ drive_requests false rest.
Proof.
  induction 1 as [|d disks Hd _ IH]; [done|]. simpl. unfold writable in Hd. unfold plain_drive at 1.
  destruct (dc_path (pd_disk d)); simpl in *; [|done].
  apply negb_false_iff in Hd. rewrite Hd. simpl. by rewrite IH.
Qed.

(** A microVM gets its drives in the order of its disks; the first writable one is
    the root device and no other; without a writable disk there is none. *)
Theorem root_drive disks :
  (Forall (fun d => writable d = false) disks /\ drive_requests false disks = omap plain_drive disks) \/
  exists before d after path, disks = before ++ d :: after /\ Forall (fun d => writable d = false) before /\
    writable d = true /\ dc_path (pd_disk d) = Some path /\
    drive_requests false disks =
      omap plain_drive before ++ PutDrive (dc_id (pd_disk d)) true path false :: omap plain_drive after.
Proof.
  assert (Forall (fun d => writable d = false) disks \/
          exists before d after, disks = before ++ d :: after /\ Forall (fun d => writable d = false) before /\ writable d = true)
    as [Hall|(before&d&after&->&Hb&Hd)].
  { induction disks as [|d disks IH]; [by left; constructor|]. destruct (writable d) eqn:E.
    - right. by exists [], d, disks.
    - destruct IH as [?|(b&d'&a&->&?&?)]; [left; by constructor|]. right. exists (d :: b), d', a. by repeat constructor. }
  - left. split; [done|]. pose proof (drives_readonly disks [] Hall) as Hr. rewrite !app_nil_r in Hr. done.
  - right. pose proof Hd as Hw. unfold writable in Hd. apply andb_true_iff in Hd as [Hp Hro].
    apply bool_decide_eq_true in Hp as [path Hp]. apply negb_true_iff in Hro.
    exists before, d, after, path. split_and!; [done..|]. rewrite drives_readonly by done. f_equal. simpl.
    rewrite Hp, Hro. simpl. by rewrite drives_with_root.
Qed.

(** ** A microVM starts once *)

Inductive FcOp :=
| FcCreate (config : ProtoVmConfig) | FcStart (vm_id : string) | FcStop (vm_id : string)
| FcForceStop (vm_id : string) | FcPause (vm_id : string) | FcResume (vm_id : string) | FcDelete (vm_id : string)
| FcGetInfo (vm_id : string) | FcSnapshot (vm_id url : string) | FcRestore (vm_id url : string).

Section facts.
Context `{ConfigCodec} `{StorageBackend} `{Iptables} `{UuidText}.
Context (rd : string).
#[local] Set Default Proof Using "Type".

Definition fc_op (op : FcOp) : Ag unit :=
  match op with
  | FcCreate config => _ ← fc_create_vm rd config; mret tt
  | FcStart vm_id => fc_start_vm vm_id
  | FcStop vm_id => fc_stop_vm vm_id
  | FcForceStop vm_id => fc_force_stop_vm vm_id
  | FcPause vm_id => fc_pause_vm vm_id
  | FcResume vm_id => fc_resume_vm vm_id
  | FcDelete vm_id => fc_delete_vm rd vm_id
  | FcGetInfo vm_id => _ ← fc_get_vm_info vm_id; mret tt
  | FcSnapshot vm_id url => fc_snapshot_vm vm_id url
  | FcRestore vm_id url => fc_restore_vm rd vm_id url
  end.

(** A call that does not delete or restore the VM. *)
Definition spares (vm_id : string) (op : FcOp) : Prop :=
  match op with FcDelete v | FcRestore v _ => v <> vm_id | _ => True end.
Inductive fc_step (vm_id : string) : Agent -> Agent -> Prop :=
| Fc_step op o a : spares vm_id op -> fc_step vm_id a (fc_op op o a).1.

(** Computations that keep a property of the table of microVMs. *)
Definition leaves {A} (P : gmap string FcVmInstance -> Prop) (m : Ag A) : Prop :=
  forall o a, P (ag_fc a) -> P (ag_fc (m o a).1).

Lemma leaves_ret {A} P (x : A) : leaves P (mret x).
Proof. by intros o a. Qed.
Lemma leaves_throw {A} P e : leaves (A := A) P (ag_throw e).
Proof. by intros o a. Qed.
Lemma leaves_get {A} P (f : Agent -> A) : leaves P (ag_get f).
Proof. by intros o a. Qed.
Lemma leaves_of {A} P (r : result Vmm.VmmError A) : leaves P (ag_of r).
Proof. by intros o a. Qed.
Lemma leaves_bind {A B} P (m : Ag A) (f : A -> Ag B) : leaves P m -> (forall x, leaves P (f x)) -> leaves P (m ≫= f).
Proof.
  intros Hm Hf o a Ha. specialize (Hm o a Ha). unfold mbind, Ag_bind. destruct (m o a) as [a' [x|e]]; [|done].
  by apply Hf.
Qed.
Lemma leaves_try {A} P (m : Ag A) : leaves P m -> leaves P (ag_try m).
Proof. intros Hm o a Ha. specialize (Hm o a Ha). unfold ag_try. by destruct (m o a). Qed.
Lemma leaves_host {A} P (m : Nd A) : leaves P (on_host m).
Proof. intros o a Ha. unfold on_host. destruct (m o (ag_node a)). by destruct a. Qed.
Lemma leaves_set P g : (forall f, P f -> P (g f)) -> leaves P (ag_set (with_fc g)).
Proof. intros Hg o a Ha. destruct a. by apply Hg. Qed.
Lemma leaves_owned {A} P pids (m : Ag A) : leaves P m -> leaves P (ag_owned pids m).
Proof.
  intros Hm o a Ha. specialize (Hm o a Ha). unfold ag_owned. destruct (m o a) as [a' [x|e]]; [done|]. by destruct a'.
Qed.
Lemma leaves_each {A} P (f : A -> Ag unit) l : (forall x, leaves P (f x)) -> leaves P (ag_each f l).
Proof. intros Hf. induction l as [|x l IH]; [apply leaves_ret|]. simpl. by apply leaves_bind. Qed.
End facts.

Create HintDb agent.
#[export] Hint Resolve leaves_ret leaves_throw leaves_get leaves_of leaves_host : agent.
Ltac leaves_step :=
  first [ solve [auto with agent] | apply leaves_bind; [|intros ?] | apply leaves_try | apply leaves_owned
        | apply leaves_each; intros ? | progress auto with agent | case_match ].
Ltac leaves_solve := repeat leaves_step.

Section once.
Context `{ConfigCodec} `{StorageBackend} `{Iptables} `{UuidText}.
Context (rd : string).
#[local] Set Default Proof Using "Type".

Lemma fc_request_leaves P socket r : leaves P (fc_request socket r).
Proof.
  unfold fc_request. apply leaves_bind; [apply leaves_get|]. intros up. apply leaves_bind; [apply leaves_host|].
  intros reply. repeat case_match; auto with agent. intros ? x Hx. by destruct x.
Qed.
Lemma fc_attach_leaves P socket : leaves P (fc_attach socket).
Proof. unfold fc_attach. leaves_solve. Qed.
Lemma describe_leaves P socket : leaves P (describe_instance socket).
Proof. unfold describe_instance. leaves_solve. Qed.
Lemma fc_instance_leaves P vm_id : leaves P (fc_instance_of vm_id).
Proof. unfold fc_instance_of. leaves_solve. Qed.
Lemma undoing_leaves {A} P taps (m : Ag A) : leaves P m -> leaves P (ag_undoing taps m).
Proof. intros Hm. unfold ag_undoing. leaves_solve. Qed.
Lemma configure_leaves P socket config : leaves P (configure_vm socket config).
Proof.
  unfold configure_vm. apply leaves_bind.
  - apply leaves_each. intros. apply fc_request_leaves.
  - intros ?. case_match; [|apply leaves_ret]. apply leaves_bind; [apply leaves_of|]. intros. apply fc_request_leaves.
Qed.
Lemma fc_networks_leaves P vm_id i nets taps : leaves P (fc_prepare_networks vm_id i nets taps).
Proof.
  revert i taps. induction nets as [|net nets IH]; intros i taps; simpl; [apply leaves_ret|].
  destruct (needs_tap net).
  - apply leaves_bind; [apply leaves_try, leaves_host|]. intros [u|e].
    + apply leaves_bind; [apply IH|]. intros [? ?]. apply leaves_ret.
    + apply leaves_bind; [apply leaves_host|]. intros. apply leaves_throw.
  - apply leaves_bind; [apply IH|]. intros [? ?]. apply leaves_ret.
Qed.
Lemma fc_vsock_leaves P vm_id v : leaves P (fc_resolve_vsock_config rd vm_id v).
Proof.
  unfold fc_resolve_vsock_config. case_match; [|apply leaves_ret]. apply leaves_bind; [|intros; apply leaves_ret].
  case_match; [apply leaves_ret|]. unfold fc_next_vsock_cid. apply leaves_bind; [apply leaves_get|]. intros cid.
  apply leaves_bind; [|intros; apply leaves_ret]. intros o x Hx. by destruct x.
Qed.
Lemma fc_kill_leaves P p : leaves P (fc_kill p).
Proof. unfold fc_kill. leaves_solve. Qed.
End once.

#[export] Hint Resolve fc_request_leaves fc_attach_leaves describe_leaves fc_instance_leaves undoing_leaves
  configure_leaves fc_networks_leaves fc_vsock_leaves fc_kill_leaves : agent.

Section starts_once.
Context `{ConfigCodec} `{StorageBackend} `{Iptables} `{UuidText}.
Context (rd : string).
#[local] Set Default Proof Using "Type".

(** The VM is registered and its client is that of a booted VM. *)
Definition booted (vm_id : string) (fc : gmap string FcVmInstance) : Prop :=
  exists i, fc !! vm_id = Some i /\ fi_client i = Some RunningClient.

Lemma booted_alter vm_id vm f :
  (forall i, fi_client i = Some RunningClient -> fi_client (f i) = Some RunningClient) ->
  leaves (booted vm_id) (fc_update vm f).
Proof.
  intros Hf. apply leaves_set. intros fc (i&Hi&Hc). destruct (decide (vm = vm_id)) as [->|Hne].
  - exists (f i). rewrite lookup_alter_eq, Hi. split; [done|auto].
  - exists i. by rewrite lookup_alter_ne.
Qed.
Lemma booted_status vm_id vm s : leaves (booted vm_id) (fc_update vm (fc_with_status s)).
Proof. apply booted_alter. by intros []. Qed.
Lemma booted_delete vm_id vm : vm <> vm_id -> leaves (booted vm_id) (ag_set (with_fc (delete vm))).
Proof. intros Hne. apply leaves_set. intros fc (i&Hi&Hc). exists i. by rewrite lookup_delete_ne. Qed.
Lemma booted_insert vm_id vm j : vm <> vm_id -> leaves (booted vm_id) (ag_set (with_fc (insert vm j))).
Proof. intros Hne. apply leaves_set. intros fc (i&Hi&Hc). exists i. by rewrite lookup_insert_ne. Qed.
#[local] Hint Resolve booted_status booted_delete booted_insert : agent.

(** The taken client of another VM, or none: a booted VM refuses to start. *)
Lemma start_booted vm_id o a i :
  ag_fc a !! vm_id = Some i -> fi_client i = Some RunningClient ->
  fc_start_vm vm_id o a = (a, Err (Vmm.ProcessError "VM already started")).
Proof.
  intros Hi Hc. unfold fc_start_vm, fc_instance_of, mbind, Ag_bind, ag_get, ag_of. simpl. rewrite Hi. simpl.
  by rewrite Hc.
Qed.

Lemma start_leaves vm_id vm : leaves (booted vm_id) (fc_start_vm vm).
Proof.
  intros o a Ha. destruct (decide (vm = vm_id)) as [->|Hne].
  { destruct Ha as (i&Hi&Hc). rewrite (start_booted _ _ _ _ Hi Hc). by exists i. }
  revert o a Ha. change (leaves (booted vm_id) (fc_start_vm vm)).
  assert (forall f, leaves (booted vm_id) (fc_update vm f)) as Hother.
  { intros f. apply leaves_set. intros fc (i&Hi&Hc). exists i. by rewrite lookup_alter_ne. }
  unfold fc_start_vm. leaves_solve.
Qed.

Lemma create_leaves vm_id config : leaves (booted vm_id) (fc_create_vm rd config).
Proof.
  intros o a Ha. destruct (decide (pv_vm_id config = vm_id)) as [<-|Hne].
  - unfold fc_create_vm, mbind at 1, Ag_bind at 1, ag_get at 1. rewrite bool_decide_true; [done|].
    destruct Ha as (i&Hi&_). by apply elem_of_dom_2 in Hi.
  - revert o a Ha. change (leaves (booted vm_id) (fc_create_vm rd config)).
    unfold fc_create_vm, fc_register. leaves_solve.
Qed.

Lemma fc_op_leaves vm_id op : spares vm_id op -> leaves (booted vm_id) (fc_op rd op).
Proof.
  destruct op as [config|v|v|v|v|v|v|v|v url|v url]; simpl; intros Hs.
  - apply leaves_bind; [apply create_leaves|]. auto with agent.
  - apply start_leaves.
  - unfold fc_stop_vm. leaves_solve.
  - unfold fc_force_stop_vm. leaves_solve. apply booted_alter. by intros [].
  - unfold fc_pause_vm. leaves_solve.
  - unfold fc_resume_vm. leaves_solve.
  - unfold fc_delete_vm. leaves_solve.
  - apply leaves_bind; [unfold fc_get_vm_info; leaves_solve|auto with agent].
  - unfold fc_snapshot_vm. leaves_solve.
  - unfold fc_restore_vm, fc_drop_instance. leaves_solve.
Qed.

Lemma started_booted vm_id o a : (fc_start_vm vm_id o a).2 = Ok tt -> booted vm_id (ag_fc (fc_start_vm vm_id o a).1).
Proof.
  unfold fc_start_vm, fc_instance_of, fc_update, mbind, Ag_bind, ag_get, ag_of, ag_set. simpl.
  destruct (ag_fc a !! vm_id) as [i|] eqn:Hi; [|done]. simpl. destruct (fi_client i) as [[]|] eqn:Hc; [|done|done].
  set (a1 := with_fc (alter (fc_with_client None) vm_id) a).
  assert (ag_fc a1 !! vm_id = Some (fc_with_client None i)) as Hi1.
  { destruct a. simpl in *. by rewrite lookup_alter_eq, Hi. }
  pose proof (fc_request_leaves (fun fc => fc !! vm_id = Some (fc_with_client None i)) (fi_socket_path i) InstanceStart o a1 Hi1) as Hk.
  destruct (fc_request (fi_socket_path i) InstanceStart o a1) as [a2 [u|e]]; [|done]. intros _. simpl in *.
  eexists. destruct a2. simpl in *. rewrite lookup_alter_eq, Hk. split; [done|]. by destruct i.
Qed.

(** C16. A microVM starts at most once: after a successful start, through any calls
    that neither delete nor restore the VM, stops and forced stops included, every
    further start is refused with an error and changes nothing. *)
Theorem microvm_starts_once vm_id o o' a a' :
  (fc_start_vm vm_id o a).2 = Ok tt -> rtc (fc_step rd vm_id) (fc_start_vm vm_id o a).1 a' ->
  fc_start_vm vm_id o' a' = (a', Err (Vmm.ProcessError "VM already started")).
Proof.
  intros Hs Hsteps. pose proof (started_booted _ _ _ Hs) as Hb. clear Hs.
  induction Hsteps as [a1|a1 a2 a3 [op oo b Hop] _ IH].
  - destruct Hb as (i&Hi&Hc). by eapply start_booted.
  - by apply IH, fc_op_leaves.
Qed.
End starts_once.

(** ** After a restart of the agent *)

Section recovered.
Context `{ConfigCodec} `{StorageBackend} `{Iptables} `{UuidText}.
Context (rd : string).
#[local] Set Default Proof Using "Type".

Definition unbootable (vm_id : string) (fc : gmap string FcVmInstance) : Prop :=
  forall i, fc !! vm_id = Some i -> fi_client i <> Some PreBoot.

Lemma leaves_bind_value {A B} P (m : Ag A) (f : A -> Ag B) :
  leaves P m -> (forall o a x, (m o a).2 = Ok x -> leaves P (f x)) -> leaves P (m ≫= f).
Proof.
  intros Hm Hf o a Ha. specialize (Hm o a Ha). specialize (Hf o a). unfold mbind, Ag_bind.
  destruct (m o a) as [a' [x|e]]; [|done]. by apply Hf.
Qed.

Lemma recovered_client_booted path o a x : (fc_recovered_client path o a).2 = Ok x -> x.2 <> Some PreBoot.
Proof.
  unfold fc_recovered_client, mbind, Ag_bind, ag_try. destruct (fc_attach path o a) as [a' [u|e]].
  - destruct (describe_instance path o a') as [a2 [s|e]]; [|done]. by intros [= <-].
  - by intros [= <-].
Qed.

Lemma recover_unbootable vm_id path : leaves (unbootable vm_id) (fc_recover_vm rd path vm_id).
Proof.
  unfold fc_recover_vm. apply leaves_bind; [apply leaves_try, leaves_host|]. intros [[config|]|e]; [|auto with agent..].
  apply leaves_bind_value; [unfold fc_recovered_client; leaves_solve|].
  intros o a [status client] Hc%recovered_client_booted. apply leaves_bind.
  - case_match; [|auto with agent]. intros oo b Hb. by destruct b.
  - intros ?. apply leaves_set. intros fc _ i. rewrite lookup_insert_eq. by intros [= <-].
Qed.

(** A recovered microVM cannot be started, also when it was only created before the
    restart. *)
Theorem recovered_never_starts vm_id path o o' a :
  ag_fc a !! vm_id = None -> (fc_start_vm vm_id o' (fc_recover_vm rd path vm_id o a).1).2 <> Ok tt.
Proof.
  intros Hnew. pose proof (recover_unbootable vm_id path o a) as Hu.
  assert (unbootable vm_id (ag_fc (fc_recover_vm rd path vm_id o a).1)) as Hub.
  { apply Hu. intros i Hi. congruence. }
  revert Hub. generalize (fc_recover_vm rd path vm_id o a).1. intros b Hb.
  unfold fc_start_vm, fc_instance_of, mbind, Ag_bind, ag_get, ag_of. simpl.
  destruct (ag_fc b !! vm_id) as [i|] eqn:Hi; [|done]. simpl. specialize (Hb i Hi).
  by destruct (fi_client i) as [[]|].
Qed.
End recovered.

(** ** A node with one microVM *)

#[local] Instance fc_uuid_text : UuidText := binary_uuid_text.
#[local] Instance fc_iptables : Iptables := simulator.

Definition empty_agent : Agent := {| ag_node := empty_node; ag_fc := ∅; ag_next_cid := 20480; ag_accepted := [] |}.
Definition micro_config : ProtoVmConfig := sample_config sample_id.
Definition created_agent : Agent := (fc_create_vm "/run" micro_config working_host empty_agent).1.

Lemma micro_created : is_ok (fc_create_vm "/run" micro_config working_host empty_agent).2 = true.
Proof. by vm_compute. Qed.

Lemma microvm_starts_once_witness : exists a',
  (fc_start_vm sample_id working_host created_agent).2 = Ok tt /\
  rtc (fc_step "/run" sample_id) (fc_start_vm sample_id working_host created_agent).1 a' /\
  (fc_start_vm sample_id working_host a').2 = Err (Vmm.ProcessError "VM already started").
Proof.
  set (a1 := (fc_start_vm sample_id working_host created_agent).1).
  exists (fc_op "/run" (FcStop sample_id) working_host a1).1.
  assert ((fc_start_vm sample_id working_host created_agent).2 = Ok tt) as Hs by by vm_compute.
  assert (rtc (fc_step "/run" sample_id) a1 (fc_op "/run" (FcStop sample_id) working_host a1).1) as Hr.
  { by apply rtc_once, Fc_step. }
  split; [done|]. split; [done|].
  by rewrite (microvm_starts_once "/run" sample_id working_host working_host created_agent _ Hs Hr).
Defined.
