(* ===== verification/NodeService.v ===== *)
(** * NodeService: the calls of the control plane arrive at a node

    The gRPC service of the agent, [qarax-node/src/services/vm/mod.rs], over the
    trait [VmmManager] of [vmm/mod.rs] with its two implementations, Cloud Hypervisor
    ([NodeManager.v]) and Firecracker ([NodeFirecracker.v]).

    The laws a manager keeps towards the service are a class; the theorems about the
    service are proved against it and both managers satisfy it.  A call reaches the
    hypervisor that knows the VM, and the reply is not-found exactly when none knows
    it, which is what the control plane concludes from that reply ([VmMonitor.v],
    [VmLifecycle.v]).  A start never creates a VM again from its stored
    configuration, although the manager could. *)

From S2P Require Import Prelude Text Common Errors Secrets Tables NodeApi Ipv4 Netfilter.
From S2P Require Import NodeFirewall NodeConfig NodeManager NodeWire NodeManagerFacts NodeVms NodeFirecracker.
From Stdlib Require Import Ascii.
#[local] Open Scope Z_scope.

(** ** Replies *)

Module Grpc.
Inductive Code :=
| NotFound | AlreadyExists | InvalidArgument | Internal | FailedPrecondition | DeadlineExceeded
| Unimplemented | Unavailable.
#[global] Instance Code_eq_dec : EqDecision Code.
Proof. solve_decision. Defined.
Record Status := { code : Code; message : string }.
End Grpc.

Definition map_vmm_error (e : Vmm.VmmError) : Grpc.Status :=
  match e with
  | Vmm.VmNotFound id => Grpc.Build_Status Grpc.NotFound ("VM " +:+ id +:+ " not found")
  | Vmm.VmAlreadyExists id => Grpc.Build_Status Grpc.AlreadyExists ("VM " +:+ id +:+ " already exists")
  | Vmm.InvalidConfig msg => Grpc.Build_Status Grpc.InvalidArgument msg
  | Vmm.SpawnError e => Grpc.Build_Status Grpc.Internal ("Failed to spawn VMM: " +:+ e)
  | Vmm.ProcessError msg => Grpc.Build_Status Grpc.Internal msg
  | Vmm.TapError msg => Grpc.Build_Status Grpc.Internal ("TAP device error: " +:+ msg)
  | Vmm.OverlayBdError msg => Grpc.Build_Status Grpc.Internal ("OverlayBD error: " +:+ msg)
  | Vmm.MigrationError msg => Grpc.Build_Status Grpc.Internal ("Migration error: " +:+ msg)
  | Vmm.StorageError msg => Grpc.Build_Status Grpc.Internal ("Storage error: " +:+ msg)
  | Vmm.ExecUnavailable msg => Grpc.Build_Status Grpc.FailedPrecondition msg
  | Vmm.ExecInvalid msg => Grpc.Build_Status Grpc.InvalidArgument msg
  | Vmm.ExecError msg => Grpc.Build_Status Grpc.Internal msg
  | Vmm.ExecTimeout secs =>
      Grpc.Build_Status Grpc.DeadlineExceeded ("guest exec timed out after " +:+ pretty secs +:+ "s")
  | Vmm.Unsupported op => Grpc.Build_Status Grpc.Unimplemented ("Operation not supported by this hypervisor: " +:+ op)
  end.

Section service.
Context `{ConfigCodec} `{StorageBackend} `{Iptables} `{UuidText}.

(** ** The trait *)

Record VmmManager := {
  vmm_create_vm : ProtoVmConfig -> Ag VmState;
  vmm_start_vm : string -> Ag unit;
  vmm_stop_vm : string -> Ag unit;
  vmm_force_stop_vm : string -> Ag unit;
  vmm_pause_vm : string -> Ag unit;
  vmm_resume_vm : string -> Ag unit;
  vmm_delete_vm : string -> Ag unit;
  vmm_get_vm_info : string -> Ag VmState;
  vmm_list_vms : Ag (list VmState);
  vmm_snapshot_vm : string -> string -> Ag unit;
  vmm_restore_vm : string -> string -> Ag unit;
  vmm_recover_vms : Ag unit;
  vmm_add_network_device : string -> ProtoNet -> Ag unit;
  vmm_remove_network_device : string -> string -> Ag unit;
  vmm_add_disk_device : string -> ProtoDisk -> Ag unit;
  vmm_remove_disk_device : string -> string -> Ag unit;
  vmm_add_device : string -> ProtoVfio -> Ag unit;
  vmm_remove_device : string -> string -> Ag unit;
  vmm_resize_vm : string -> option Z -> option Z -> Ag unit;
  vmm_resize_disk : string -> Z -> Ag unit;
  vmm_receive_migration : string -> ProtoVmConfig -> Z -> Ag string;
  vmm_send_migration : string -> string -> Ag unit
}.

Definition unsupported {A} (op : string) : Ag A := ag_throw (Vmm.Unsupported op).

Context (rd : string) (ob : bool).

Definition ch_vmm : VmmManager := {|
  vmm_create_vm config := on_host (create_vm rd ob config);
  vmm_start_vm vm_id := on_host (start_vm rd ob vm_id);
  vmm_stop_vm vm_id := on_host (stop_vm vm_id);
  vmm_force_stop_vm vm_id := on_host (force_stop_vm vm_id);
  vmm_pause_vm vm_id := on_host (pause_vm vm_id);
  vmm_resume_vm vm_id := on_host (resume_vm vm_id);
  vmm_delete_vm vm_id := on_host (delete_vm rd ob vm_id);
  vmm_get_vm_info vm_id := on_host (get_vm_info vm_id);
  vmm_list_vms := on_host list_vms;
  vmm_snapshot_vm vm_id url := on_host (snapshot_vm vm_id url);
  vmm_restore_vm vm_id url := on_host (restore_vm rd vm_id url);
  vmm_recover_vms := on_host (recover_vms rd ob);
  vmm_add_network_device vm_id config := on_host (add_network_device vm_id config);
  vmm_remove_network_device vm_id device_id := on_host (remove_network_device vm_id device_id);
  vmm_add_disk_device vm_id config := on_host (add_disk_device vm_id config);
  vmm_remove_disk_device vm_id device_id := on_host (remove_disk_device vm_id device_id);
  vmm_add_device vm_id config := on_host (add_device vm_id config);
  vmm_remove_device vm_id device_id := on_host (remove_device vm_id device_id);
  vmm_resize_vm vm_id vcpus ram := on_host (resize_vm vm_id vcpus ram);
  vmm_resize_disk path new_size := on_host (resize_disk_file path new_size);
  vmm_receive_migration vm_id config port := on_host (receive_migration rd ob vm_id config port);
  vmm_send_migration vm_id url := on_host (send_migration vm_id url) |}.

Definition fc_vmm : VmmManager := {|
  vmm_create_vm := fc_create_vm rd; vmm_start_vm := fc_start_vm; vmm_stop_vm := fc_stop_vm;
  vmm_force_stop_vm := fc_force_stop_vm; vmm_pause_vm := fc_pause_vm; vmm_resume_vm := fc_resume_vm;
  vmm_delete_vm := fc_delete_vm rd; vmm_get_vm_info := fc_get_vm_info; vmm_list_vms := fc_list_vms;
  vmm_snapshot_vm := fc_snapshot_vm; vmm_restore_vm := fc_restore_vm rd; vmm_recover_vms := fc_recover_vms rd;
  vmm_add_network_device _ _ := unsupported "add_network_device";
  vmm_remove_network_device _ _ := unsupported "remove_network_device";
  vmm_add_disk_device _ _ := unsupported "add_disk_device";
  vmm_remove_disk_device _ _ := unsupported "remove_disk_device";
  vmm_add_device _ _ := unsupported "add_device";
  vmm_remove_device _ _ := unsupported "remove_device";
  vmm_resize_vm _ _ _ := unsupported "resize_vm";
  vmm_resize_disk _ _ := unsupported "resize_disk";
  vmm_receive_migration _ _ _ := unsupported "receive_migration";
  vmm_send_migration _ _ := unsupported "send_migration" |}.

(** ** The service *)

Definition Sv (A : Type) : Type := HostOracle -> Agent -> Agent * result Grpc.Status A.
#[global] Instance Sv_ret : MRet Sv := fun A x o a => (a, Ok x).
#[global] Instance Sv_bind : MBind Sv := fun A B f m o a =>
  match m o a with
  | (a', Ok x) => f x o a'
  | (a', Err e) => (a', Err e)
  end.
Definition sv_throw {A} (code : Grpc.Code) (message : string) : Sv A := fun o a =>
  (a, Err (Grpc.Build_Status code message)).
(** A call of a manager; its error becomes a status. *)
Definition served {A} (m : Ag A) : Sv A := fun o a =>
  let '(a', r) := m o a in (a', match r with Ok x => Ok x | Err e => Err (map_vmm_error e) end).
(** Whether a call succeeds. *)
Definition succeeded {A} (m : Ag A) : Sv bool := fun o a =>
  let '(a', r) := m o a in (a', Ok (is_ok r)).

Section dispatch.
(** The managers of the node; the second one if its binary was found. *)
Context (ch : VmmManager) (fc : option VmmManager).

(** [HypervisorType::Firecracker] is 1; every other number is Cloud Hypervisor. *)
Definition manager_for_create (hypervisor : Z) : Sv VmmManager :=
  if hypervisor =? 1 then
    match fc with
    | Some m => mret m
    | None => sv_throw Grpc.Unavailable "Firecracker is not configured on this node (binary not found)"
    end
  else mret ch.

Definition find_manager (vm_id : string) : Sv (option VmmManager) :=
  known ← succeeded (vmm_get_vm_info ch vm_id);
  if known : bool then mret (Some ch)
  else match fc with
       | None => mret None
       | Some m =>
           known ← succeeded (vmm_get_vm_info m vm_id);
           mret (if known : bool then Some m else None)
       end.

(** The call goes to the manager of the VM. *)
Definition with_manager {A} (vm_id : string) (f : VmmManager -> Ag A) : Sv A :=
  m ← find_manager vm_id;
  match m with
  | None => sv_throw Grpc.NotFound ("VM " +:+ vm_id +:+ " not found")
  | Some m => served (f m)
  end.

Definition service_create_vm (config : ProtoVmConfig) : Sv VmState :=
  m ← manager_for_create (pv_hypervisor config);
  served (vmm_create_vm m config).
Definition service_start_vm (vm_id : string) : Sv unit := with_manager vm_id (fun m => vmm_start_vm m vm_id).
Definition service_stop_vm (vm_id : string) : Sv unit := with_manager vm_id (fun m => vmm_stop_vm m vm_id).
Definition service_force_stop_vm (vm_id : string) : Sv unit :=
  with_manager vm_id (fun m => vmm_force_stop_vm m vm_id).
Definition service_pause_vm (vm_id : string) : Sv unit := with_manager vm_id (fun m => vmm_pause_vm m vm_id).
Definition service_resume_vm (vm_id : string) : Sv unit := with_manager vm_id (fun m => vmm_resume_vm m vm_id).
Definition service_delete_vm (vm_id : string) : Sv unit := with_manager vm_id (fun m => vmm_delete_vm m vm_id).
Definition service_get_vm_info (vm_id : string) : Sv VmState :=
  with_manager vm_id (fun m => vmm_get_vm_info m vm_id).
Definition service_list_vms : Sv (list VmState) :=
  vms ← served (vmm_list_vms ch);
  match fc with
  | None => mret vms
  | Some m => more ← served (vmm_list_vms m); mret (vms ++ more)
  end.
Definition service_snapshot_vm (vm_id snapshot_url : string) : Sv unit :=
  with_manager vm_id (fun m => vmm_snapshot_vm m vm_id snapshot_url).
Definition service_restore_vm (vm_id source_url : string) (hypervisor : Z) : Sv unit :=
  m ← manager_for_create hypervisor;
  served (vmm_restore_vm m vm_id source_url).

(** A request without its configuration is refused. *)
Definition required {A} (config : option A) (message : string) : Sv A :=
  match config with Some c => mret c | None => sv_throw Grpc.InvalidArgument message end.
Definition service_add_network_device (vm_id : string) (config : option ProtoNet) : Sv unit :=
  config ← required config "Missing network config";
  with_manager vm_id (fun m => vmm_add_network_device m vm_id config).
Definition service_remove_network_device (vm_id device_id : string) : Sv unit :=
  with_manager vm_id (fun m => vmm_remove_network_device m vm_id device_id).
Definition service_add_disk_device (vm_id : string) (config : option ProtoDisk) : Sv unit :=
  config ← required config "Missing disk config";
  with_manager vm_id (fun m => vmm_add_disk_device m vm_id config).
Definition service_remove_disk_device (vm_id device_id : string) : Sv unit :=
  with_manager vm_id (fun m => vmm_remove_disk_device m vm_id device_id).
Definition service_add_device (vm_id : string) (config : option ProtoVfio) : Sv unit :=
  config ← required config "config is required";
  with_manager vm_id (fun m => vmm_add_device m vm_id config).
Definition service_remove_vfio_device (vm_id device_id : string) : Sv unit :=
  with_manager vm_id (fun m => vmm_remove_device m vm_id device_id).
Definition service_resize_disk (vm_id path : string) (new_size : Z) : Sv unit :=
  with_manager vm_id (fun m => vmm_resize_disk m path new_size).
Definition service_resize_vm (vm_id : string) (vcpus ram : option Z) : Sv unit :=
  with_manager vm_id (fun m => vmm_resize_vm m vm_id vcpus ram).
(** Live migration is a matter of Cloud Hypervisor; the port is cut to 16 bits. *)
Definition service_receive_migration (vm_id : string) (config : option ProtoVmConfig) (migration_port : Z)
  : Sv string :=
  config ← required config "Missing VM config for receive_migration";
  served (vmm_receive_migration ch vm_id config (migration_port mod 65536)).
Definition service_send_migration (vm_id destination_url : string) : Sv unit :=
  served (vmm_send_migration ch vm_id destination_url).
End dispatch.
End service.

(** ** What the service relies on *)

Section laws.
Context `{ConfigCodec} `{StorageBackend} `{Iptables} `{UuidText}.
#[local] Set Default Proof Using "Type".

(** The calls about one VM. *)
Inductive LifecycleCall := CallStart | CallStop | CallForceStop | CallPause | CallResume | CallDelete | CallInfo.
Definition vmm_call (call : LifecycleCall) (m : VmmManager) (vm_id : string) : Ag unit :=
  match call with
  | CallStart => vmm_start_vm m vm_id
  | CallStop => vmm_stop_vm m vm_id
  | CallForceStop => vmm_force_stop_vm m vm_id
  | CallPause => vmm_pause_vm m vm_id
  | CallResume => vmm_resume_vm m vm_id
  | CallDelete => vmm_delete_vm m vm_id
  | CallInfo => _ ← vmm_get_vm_info m vm_id; mret tt
  end.
Definition service_call (call : LifecycleCall) (ch : VmmManager) (fc : option VmmManager) (vm_id : string) : Sv unit :=
  match call with
  | CallStart => service_start_vm ch fc vm_id
  | CallStop => service_stop_vm ch fc vm_id
  | CallForceStop => service_force_stop_vm ch fc vm_id
  | CallPause => service_pause_vm ch fc vm_id
  | CallResume => service_resume_vm ch fc vm_id
  | CallDelete => service_delete_vm ch fc vm_id
  | CallInfo => _ ← service_get_vm_info ch fc vm_id; mret tt
  end.

Definition misses {A} (r : result Vmm.VmmError A) : Prop := exists id, r = Err (Vmm.VmNotFound id).

(** A manager knows its VMs: asked for one it does not know it answers with an error
    and changes nothing; about one it knows it never says that it is missing. *)
Class VmmLaws (m : VmmManager) (known : string -> Agent -> bool) : Prop := {
  info_known : forall vm_id o a, is_ok (vmm_get_vm_info m vm_id o a).2 = known vm_id a;
  info_keeps_known : forall vm_id vm o a, known vm (vmm_get_vm_info m vm_id o a).1 = known vm a;
  info_unknown : forall vm_id o a, known vm_id a = false -> (vmm_get_vm_info m vm_id o a).1 = a;
  call_answers : forall call vm_id o a, known vm_id a = true -> ~ misses (vmm_call call m vm_id o a).2
}.

Context (ch fc : VmmManager) (known_ch known_fc : string -> Agent -> bool).
Context `{!VmmLaws ch known_ch} `{!VmmLaws fc known_fc}.

Definition unknown (with_fc : bool) (vm_id : string) (a : Agent) : bool :=
  negb (known_ch vm_id a) && negb (with_fc && known_fc vm_id a).

Lemma find_known with_fc vm_id o a :
  exists a', find_manager ch (if with_fc : bool then Some fc else None) vm_id o a =
    (a', Ok (if known_ch vm_id a then Some ch else if with_fc && known_fc vm_id a then Some fc else None)) /\
    (known_ch vm_id a = true -> known_ch vm_id a' = true) /\
    (known_ch vm_id a = false -> known_fc vm_id a = true -> known_fc vm_id a' = true) /\
    (unknown with_fc vm_id a = true -> a' = a).
Proof using Type*.
  unfold find_manager, succeeded, unknown, mbind, Sv_bind.
  pose proof (info_known (m := ch) vm_id o a) as Hk. pose proof (info_keeps_known (m := ch) vm_id vm_id o a) as Hkk.
  pose proof (info_unknown (m := ch) vm_id o a) as Hu.
  destruct (vmm_get_vm_info ch vm_id o a) as [a1 r1]. simpl in *. rewrite Hk. destruct (known_ch vm_id a).
  { exists a1. by split_and!. }
  specialize (Hu eq_refl). subst a1. destruct with_fc; simpl; [|by exists a].
  pose proof (info_known (m := fc) vm_id o a) as Hf. pose proof (info_keeps_known (m := fc) vm_id vm_id o a) as Hfk.
  pose proof (info_unknown (m := fc) vm_id o a) as Hfu.
  destruct (vmm_get_vm_info fc vm_id o a) as [a2 r2]. simpl in *. unfold mret, Sv_ret. rewrite Hf.
  exists a2. destruct (known_fc vm_id a); split_and!; auto; done.
Qed.

Lemma served_missing {A} (m : Ag A) o a s :
  (served m o a).2 = Err s -> Grpc.code s = Grpc.NotFound -> misses (m o a).2.
Proof.
  unfold served. destruct (m o a) as [a' [x|e]]; [done|]. simpl. intros [= <-]. unfold misses. destruct e; try done.
  eauto.
Qed.

Lemma service_call_eq call cs with_fc vm_id o a :
  (service_call call ch (if with_fc : bool then cs else None) vm_id o a).2 =
  (with_manager ch (if with_fc then cs else None) vm_id (fun m => vmm_call call m vm_id) o a).2 /\
  (service_call call ch (if with_fc : bool then cs else None) vm_id o a).1 =
  (with_manager ch (if with_fc then cs else None) vm_id (fun m => vmm_call call m vm_id) o a).1.
Proof.
  destruct call; try done. simpl. unfold service_get_vm_info, with_manager, mbind, Sv_bind.
  destruct (find_manager ch _ vm_id o a) as [a' [[m|]|e]]; [|done|done].
  unfold served, mbind, Ag_bind, mret, Sv_ret, Ag_ret. by destruct (vmm_get_vm_info m vm_id o a') as [a2 [x|e]].
Qed.

Lemma service_outcome call with_fc vm_id o a :
  let r := service_call call ch (if with_fc : bool then Some fc else None) vm_id o a in
  if unknown with_fc vm_id a
  then r = (a, Err (Grpc.Build_Status Grpc.NotFound ("VM " +:+ vm_id +:+ " not found")))
  else forall s, r.2 = Err s -> Grpc.code s <> Grpc.NotFound.
Proof using Type*.
  destruct (service_call_eq call (Some fc) with_fc vm_id o a) as [H2' H1'].
  destruct (find_known with_fc vm_id o a) as (a'&Hf&Hch&Hfc&Hsame).
  destruct (service_call call ch (if with_fc then Some fc else None) vm_id o a) as [a1 r]. simpl in *. subst.
  unfold with_manager, mbind, Sv_bind. rewrite Hf.
  unfold unknown in *. destruct (known_ch vm_id a) eqn:Ek; simpl in *.
  { intros s Hs Hc. by apply (call_answers (m := ch) call vm_id o a'), (served_missing _ _ _ _ Hs Hc); auto. }
  destruct (with_fc && known_fc vm_id a) eqn:Ef; simpl in *.
  - apply andb_true_iff in Ef as [_ Ef]. intros s Hs Hc.
    by apply (call_answers (m := fc) call vm_id o a'), (served_missing _ _ _ _ Hs Hc); auto.
  - by rewrite Hsame.
Qed.
End laws.

(** ** Both managers keep the laws *)

Section implementations.
Context `{ConfigCodec} `{StorageBackend} `{Iptables} `{UuidText}.
Context (rd : string) (ob : bool).
#[local] Set Default Proof Using "Type".

Definition ch_known (vm_id : string) (a : Agent) : bool := bool_decide (vm_id ∈ dom (n_vms (ag_node a))).
Definition fc_known (vm_id : string) (a : Agent) : bool := bool_decide (vm_id ∈ dom (ag_fc a)).

(** Computations of the first manager that never say that a VM is missing. *)
Definition present {A} (m : Nd A) : Prop := forall o n id, (m o n).2 <> Err (VmNotFound id).

Lemma present_ret {A} (x : A) : present (mret x).
Proof. by intros o n id. Qed.
Lemma present_set f : present (nd_set f).
Proof. by intros o n id. Qed.
Lemma present_ask {A} (f : HostOracle -> nat -> A) : present (nd_ask f).
Proof. by intros o n id. Qed.
Lemma present_get {A} (f : Node -> A) : present (nd_get f).
Proof. by intros o n id. Qed.
Lemma present_try {A} (m : Nd A) : present (nd_try m).
Proof. intros o n id. unfold nd_try. by destruct (m o n). Qed.
Lemma present_bind {A B} (m : Nd A) (f : A -> Nd B) : present m -> (forall x, present (f x)) -> present (m ≫= f).
Proof.
  intros Hm Hf o n id. specialize (Hm o n id). unfold mbind, Nd_bind.
  destruct (m o n) as [n' [x|e]]; simpl in *; [apply Hf|congruence].
Qed.
Lemma present_request socket method path body : present (send_api_request socket method path body).
Proof.
  intros o n id. unfold send_api_request, mbind, Nd_bind, nd_get, nd_ask, nd_set, nd_throw, mret, Nd_ret. simpl.
  destruct (listening socket n); [|done]. by destruct (ho_reply o (n_step n)).
Qed.
Lemma present_each {A} (f : A -> Nd unit) l : (forall x, present (f x)) -> present (nd_each f l).
Proof. intros Hf. induction l as [|x l IH]; [apply present_ret|]. simpl. by apply present_bind. Qed.
Lemma present_remove path : present (remove_if_exists path).
Proof.
  intros o n id. pose proof (remove_if_ok path o n) as Hok. rewrite Hok. done.
Qed.
Lemma present_taps taps : present (delete_taps taps).
Proof. intros o n id. by rewrite delete_taps_ok. Qed.

(** A call on a registered instance. *)
Lemma present_instance {A} vm_id (f : VmInstance -> Nd A) o a :
  ch_known vm_id a = true -> (forall i, present (f i)) ->
  ~ misses (on_host (i ← instance_of vm_id; f i) o a).2.
Proof.
  intros Hk%bool_decide_eq_true Hf [id Hid]. apply elem_of_dom in Hk as [i Hi]. revert Hid.
  unfold on_host, instance_of, mbind, Nd_bind, nd_get, nd_of. simpl. rewrite Hi. simpl.
  specialize (Hf i o (ag_node a)). destruct (f i o (ag_node a)) as [n' [x|e]]; simpl in *; [done|].
  intros [= He]. by destruct e; simplify_eq; eapply Hf.
Qed.
End implementations.

#[export] Hint Resolve present_ret present_set present_ask present_get present_try present_request present_each
  present_remove present_taps : agent.
Ltac present_solve :=
  repeat first [ solve [auto with agent] | apply present_bind; [|intros ?] | case_match ].

Section instances.
Context `{ConfigCodec} `{StorageBackend} `{Iptables} `{UuidText}.
Context (rd : string) (ob : bool).
#[local] Set Default Proof Using "Type".

Lemma update_keeps_known vm_id vm f n :
  bool_decide (vm ∈ dom (n_vms (with_vms (alter f vm_id) n))) = bool_decide (vm ∈ dom (n_vms n)).
Proof. destruct n. simpl. by rewrite dom_alter_L. Qed.

Lemma present_pty socket config : present (query_pty_paths socket config).
Proof.
  unfold query_pty_paths. case_match; [auto with agent|]. apply present_bind; [auto with agent|].
  intros [body|e]; [|auto with agent]. apply present_bind; [by intros o n id|auto with agent].
Qed.
Lemma present_update vm_id f : present (update_instance vm_id f).
Proof. by intros o n id. Qed.
#[local] Hint Resolve present_pty present_update : agent.

Lemma start_answers vm_id o a : ch_known vm_id a = true -> ~ misses (on_host (start_vm rd ob vm_id) o a).2.
Proof.
  intros Hk Hm. apply (present_instance vm_id (fun i =>
    _ ← send_api_request (vi_socket_path i) "PUT" "/api/v1/vm.boot" NoBody;
    _ ← update_instance vm_id (with_status NsRunning);
    '(serial_pty, console_pty) ← query_pty_paths (vi_socket_path i) (vi_proto_config i);
    update_instance vm_id (with_ptys serial_pty console_pty)) o a Hk); [intros i; present_solve|].
  apply bool_decide_eq_true in Hk. revert Hm. unfold on_host, start_vm, ensure_vm_registered, registered.
  unfold mbind at 1, Nd_bind at 1. unfold mbind at 1, Nd_bind at 1. unfold nd_get at 1. by rewrite bool_decide_true.
Qed.

#[global] Instance ch_laws : VmmLaws (ch_vmm rd ob) ch_known.
Proof.
  split.
  - intros vm_id o a. unfold ch_known. simpl. unfold on_host, get_vm_info, instance_of, mbind, Nd_bind, nd_get, nd_of. simpl.
    destruct (n_vms (ag_node a) !! vm_id) as [i|] eqn:Hi; simpl.
    + rewrite bool_decide_true by (apply elem_of_dom; eauto). unfold get_info, nd_ask, mbind, Nd_bind, nd_get, mret, Nd_ret. simpl.
      destruct (listening _ _); [|done]. by destruct (ho_info o _) as [[]|].
    + rewrite bool_decide_false by (by apply not_elem_of_dom). done.
  - intros vm_id vm o a. unfold ch_known. simpl. unfold on_host, get_vm_info, instance_of, mbind, Nd_bind, nd_get, nd_of. simpl.
    destruct (n_vms (ag_node a) !! vm_id) as [i|] eqn:Hi; simpl; [|by destruct a].
    unfold get_info, nd_ask, mbind, Nd_bind, nd_get, mret, Nd_ret. simpl.
    assert (n_vms (tick_node (ag_node a)) = n_vms (ag_node a)) as Ht by by destruct (ag_node a).
    destruct (listening _ _); [destruct (ho_info o _) as [[]|]|]; destruct a; simpl in *; try by rewrite Ht.
    unfold update_instance, nd_set. simpl. rewrite update_keeps_known. by rewrite Ht.
  - intros vm_id o a Hk%bool_decide_eq_false%not_elem_of_dom. simpl.
    unfold on_host, get_vm_info, instance_of, mbind, Nd_bind, nd_get, nd_of. simpl. rewrite Hk. by destruct a.
  - intros call vm_id o a Hk. destruct call; simpl; [by apply start_answers|..].
    + apply present_instance; [done|]. intros i. present_solve.
    + apply present_instance; [done|]. intros i. present_solve.
    + apply present_instance; [done|]. intros i. present_solve.
    + apply present_instance; [done|]. intros i. present_solve.
    + apply present_instance; [done|]. intros i. unfold remove_sockets, teardown_firewall, cleanup_passt_processes. present_solve.
    + intros [id Hid]. apply (present_instance vm_id (fun i =>
        info ← get_info (vi_socket_path i);
        match info with
        | None => mret (to_vm_state i)
        | Some (state, memory_actual_size) =>
            _ ← update_instance vm_id (with_status (status_of_ch state));
            mret {| vst_config := vi_proto_config i; vst_status := status_of_ch state;
                    vst_memory_actual_size := memory_actual_size |}
        end) o a Hk); [intros i; unfold get_info; present_solve|]. exists id. revert Hid.
      unfold mbind at 1, Ag_bind at 1. unfold get_vm_info. destruct (on_host _ o a) as [a' [x|e]]; [done|]. by intros [= ->].
Qed.
End instances.

Section microvms.
Context `{ConfigCodec} `{StorageBackend} `{Iptables} `{UuidText}.
Context (rd : string) (ob : bool).
#[local] Set Default Proof Using "Type".

(** The same for computations of the second manager. *)
Definition found {A} (m : Ag A) : Prop := forall o a, ~ misses (m o a).2.

Lemma found_ret {A} (x : A) : found (mret x).
Proof. intros o a [id Hid]. done. Qed.
Lemma found_set f : found (ag_set f).
Proof. intros o a [id Hid]. done. Qed.
Lemma found_process {A} t : found (A := A) (ag_throw (Vmm.ProcessError t)).
Proof. intros o a [id Hid]. done. Qed.
Lemma found_get {A} (f : Agent -> A) : found (ag_get f).
Proof. intros o a [id Hid]. done. Qed.
Lemma found_try {A} (m : Ag A) : found (ag_try m).
Proof. intros o a [id Hid]. revert Hid. unfold ag_try. by destruct (m o a). Qed.
Lemma found_bind {A B} (m : Ag A) (f : A -> Ag B) : found m -> (forall x, found (f x)) -> found (m ≫= f).
Proof.
  intros Hm Hf o a. specialize (Hm o a). unfold mbind, Ag_bind. destruct (m o a) as [a' [x|e]]; [apply Hf|].
  intros [id Hid]. apply Hm. exists id. simpl in *. congruence.
Qed.
Lemma found_host {A} (m : Nd A) : present m -> found (on_host m).
Proof.
  intros Hm o a [id Hid]. specialize (Hm o (ag_node a)). revert Hid. unfold on_host.
  destruct (m o (ag_node a)) as [n' [x|e]]; [done|]. simpl in *. intros [= He]. by destruct e; simplify_eq; eapply Hm.
Qed.
Lemma found_instance {A} vm_id (f : FcVmInstance -> Ag A) o a :
  fc_known vm_id a = true -> (forall i, found (f i)) -> ~ misses ((i ← fc_instance_of vm_id; f i) o a).2.
Proof.
  intros Hk%bool_decide_eq_true Hf. apply elem_of_dom in Hk as [i Hi].
  unfold fc_instance_of, mbind, Ag_bind, ag_get, ag_of. simpl. rewrite Hi. simpl. apply Hf.
Qed.
End microvms.

#[export] Hint Resolve found_ret found_set found_process found_get found_try : agent.
Ltac found_solve :=
  repeat first [ solve [auto with agent] | apply found_bind; [|intros ?] | apply found_host | case_match ].

Section service_facts.
Context `{ConfigCodec} `{StorageBackend} `{Iptables} `{UuidText}.
Context (rd : string) (ob : bool).
#[local] Set Default Proof Using "Type".

Lemma found_request socket r : found (fc_request socket r).
Proof. unfold fc_request. found_solve. Qed.
Lemma found_update vm_id f : found (fc_update vm_id f).
Proof. apply found_set. Qed.
Lemma found_describe socket : found (describe_instance socket).
Proof. unfold describe_instance. found_solve. Qed.
Lemma found_kill p : found (fc_kill p).
Proof. unfold fc_kill. found_solve. Qed.
#[local] Hint Resolve found_request found_update found_describe found_kill : agent.

(** The part of an information request after the lookup. *)
Definition fc_info_rest (vm_id : string) (i : FcVmInstance) : Ag VmState :=
  if bool_decide (fi_status i = NsShutdown) then mret (fc_to_vm_state i)
  else
    match fi_client i with
    | Some RunningClient =>
        state ← describe_instance (fi_socket_path i);
        match state with
        | None => mret (fc_to_vm_state i)
        | Some s =>
            _ ← fc_update vm_id (fc_with_status (status_of_fc s));
            mret (fc_to_vm_state (fc_with_status (status_of_fc s) i))
        end
    | _ => mret (fc_to_vm_state i)
    end.

Lemma info_rest_ok vm_id i o a : is_ok (fc_info_rest vm_id i o a).2 = true.
Proof.
  unfold fc_info_rest, describe_instance, fc_update, mbind, Ag_bind, ag_get, on_host, nd_ask, ag_set, mret, Ag_ret. simpl.
  repeat case_match; simplify_eq; done.
Qed.
Lemma info_rest_keeps vm_id vm i b :
  leaves (fun fc => bool_decide (vm ∈ dom fc) = b) (fc_info_rest vm_id i).
Proof.
  assert (forall f, leaves (fun fc => bool_decide (vm ∈ dom fc) = b) (fc_update vm_id f)) as Hu.
  { intros f. apply leaves_set. intros fc. by rewrite dom_alter_L. }
  unfold fc_info_rest. leaves_solve.
Qed.

#[global] Instance fc_laws : VmmLaws (fc_vmm rd) fc_known.
Proof.
  assert (forall vm_id o a, vmm_get_vm_info (fc_vmm rd) vm_id o a = (i ← fc_instance_of vm_id; fc_info_rest vm_id i) o a) as Hinfo by done.
  split.
  - intros vm_id o a. rewrite Hinfo. unfold fc_known, fc_instance_of, mbind, Ag_bind, ag_get, ag_of. simpl.
    destruct (ag_fc a !! vm_id) as [i|] eqn:Hi; simpl.
    + rewrite bool_decide_true by (apply elem_of_dom; eauto). apply info_rest_ok.
    + rewrite bool_decide_false by (by apply not_elem_of_dom). done.
  - intros vm_id vm o a. rewrite Hinfo. unfold fc_known, fc_instance_of, mbind, Ag_bind, ag_get, ag_of. simpl.
    destruct (ag_fc a !! vm_id) as [i|] eqn:Hi; simpl; [|done]. by apply info_rest_keeps.
  - intros vm_id o a Hk%bool_decide_eq_false%not_elem_of_dom. rewrite Hinfo.
    unfold fc_instance_of, mbind, Ag_bind, ag_get, ag_of. simpl. by rewrite Hk.
  - intros call vm_id o a Hk. destruct call; simpl.
    + apply found_instance; [done|]. intros i. found_solve.
    + apply found_instance; [done|]. intros i. found_solve.
    + apply found_instance; [done|]. intros i. found_solve.
    + apply found_instance; [done|]. intros i. found_solve.
    + apply found_instance; [done|]. intros i. found_solve.
    + apply found_instance; [done|]. intros i. unfold teardown_firewall. found_solve.
    + intros [id Hid]. apply (found_instance vm_id (fc_info_rest vm_id) o a Hk); [intros i; unfold fc_info_rest; found_solve|].
      exists id. revert Hid. change (fc_get_vm_info vm_id) with (i ← fc_instance_of vm_id; fc_info_rest vm_id i).
      unfold mbind at 1, Ag_bind at 1. destruct ((i ← fc_instance_of vm_id; fc_info_rest vm_id i) o a) as [a' [x|e]]; [done|].
      by intros [= ->].
Qed.

(** Which hypervisors know the VM. *)
Definition known_to_none (fc_configured : bool) (vm_id : string) (a : Agent) : bool :=
  negb (ch_known vm_id a) && negb (fc_configured && fc_known vm_id a).

(** C15. A node answers a call about a VM with not-found exactly when neither of its
    hypervisors knows the VM, and then nothing has changed on the node: no call
    creates a VM again from the configuration stored with it.  The control plane
    takes a VM for gone on that answer only. *)
Theorem node_not_found call fc_configured vm_id o a :
  let r := service_call call (ch_vmm rd ob) (if fc_configured : bool then Some (fc_vmm rd) else None) vm_id o a in
  if known_to_none fc_configured vm_id a
  then r = (a, Err (Grpc.Build_Status Grpc.NotFound ("VM " +:+ vm_id +:+ " not found")))
  else forall s, r.2 = Err s -> Grpc.code s <> Grpc.NotFound.
Proof. apply (service_outcome (ch_vmm rd ob) (fc_vmm rd) ch_known fc_known). Qed.
End service_facts.
