(* ===== verification/NodeBridge.v ===== *)
(** * NodeBridge: the networks of a node

    [qarax-node/src/networking/bridge.rs] and [dhcp.rs], and the handlers of
    [services/vm/mod.rs] that attach a network to a node and detach it: a bridge with
    an address of its own, or a physical interface moved onto a bridge, a DHCP
    server, NAT.

    The kernel is a parameter ([Rtnetlink]): its tables can be listed and it accepts
    or refuses requests, which are kept in the order they were sent.  Theorems show
    in which order an interface is moved onto a bridge, and that a DHCP server is
    replaced only after its settings were checked.  Detaching a network of a bridge
    that carries a VM takes the TAP device of the VM for a physical interface and
    gives it the gateway address. *)

From S2P Require Import Prelude Text Common Errors Secrets Tables NodeApi Ipv4 Netfilter.
From S2P Require Import NodeFirewall NodeConfig NodeManager.
From Stdlib Require Import Ascii.
#[local] Open Scope Z_scope.

(** ** The kernel *)

Record Link := {
  lk_index : Z; lk_name : string; lk_controller : option Z; lk_address : option (list Z)
}.
Record DefaultRoute := { dr_gateway : option Z; dr_oif : option Z }.

(** Requests; a controller [None] is the number 0. *)
Inductive NlRequest :=
| AddBridge (name : string)
| SetUp (idx : Z)
| SetAddressUp (idx : Z) (mac : list Z)
| SetController (idx : Z) (controller : option Z)
| DelLink (idx : Z)
| AddAddress (idx ip prefix : Z)
| DelAddress (idx ip prefix : Z)
| AddDefaultRoute (gateway oif : Z) (replace : bool).

#[global] Instance NlRequest_eq_dec : EqDecision NlRequest.
Proof. solve_decision. Defined.

(** What the agent uses of rtnetlink: dumps of the links, of the IPv4 addresses of a
    link and of the default routes, in the order of the kernel, and requests. *)
Class Rtnetlink := {
  NlState : Type;
  nl_links : NlState -> list Link;
  nl_addresses : NlState -> Z -> list (Z * Z);
  nl_defaults : NlState -> list DefaultRoute;
  nl_send : NlRequest -> NlState -> NlState * bool
}.

Record DhcpServer := { dh_gateway : Z; dh_range_start : Z; dh_range_end : Z; dh_dns : Z }.

(** Whether a query can be made, a file written, a socket bound in step [n]; whether
    systemd-networkd runs. *)
Record BridgeOracle := {
  bo_query : nat -> bool; bo_file : nat -> bool; bo_socket : nat -> bool; bo_networkd : nat -> bool
}.

Section bridge.
Context `{Rtnetlink} `{Iptables}.

Record NetHost := {
  nh_nl : NlState;
  nh_kernel : Kernel;
  nh_files : gmap string string;
  nh_dhcp : gmap string DhcpServer;
  nh_step : nat;
  nh_sent : list NlRequest
}.
Definition set_kernel (k : Kernel) (h : NetHost) : NetHost :=
  let 'Build_NetHost n _ f d s l := h in Build_NetHost n k f d s l.
Definition set_files (g : gmap string string -> gmap string string) (h : NetHost) : NetHost :=
  let 'Build_NetHost n k f d s l := h in Build_NetHost n k (g f) d s l.
Definition set_dhcp (g : gmap string DhcpServer -> gmap string DhcpServer) (h : NetHost) : NetHost :=
  let 'Build_NetHost n k f d s l := h in Build_NetHost n k f (g d) s l.
Definition tick_host (h : NetHost) : NetHost :=
  let 'Build_NetHost n k f d s l := h in Build_NetHost n k f d (S s) l.

Definition Br (A : Type) : Type := BridgeOracle -> NetHost -> NetHost * result string A.
#[global] Instance Br_ret : MRet Br := fun A x o h => (h, Ok x).
#[global] Instance Br_bind : MBind Br := fun A B f m o h =>
  match m o h with
  | (h', Ok x) => f x o h'
  | (h', Err e) => (h', Err e)
  end.
Definition br_throw {A} (e : string) : Br A := fun o h => (h, Err e).
Definition br_try {A} (m : Br A) : Br (result string A) := fun o h => let '(h', r) := m o h in (h', Ok r).
Definition br_get {A} (f : NetHost -> A) : Br A := fun o h => (h, Ok (f h)).
Definition br_set (f : NetHost -> NetHost) : Br unit := fun o h => (f h, Ok tt).
Definition br_of {A} (r : result string A) : Br A := fun o h => (h, r).
Definition br_ask {A} (f : BridgeOracle -> nat -> A) : Br A := fun o h => (tick_host h, Ok (f o (nh_step h))).
(** [with_context]: the error is replaced. *)
Definition with_context {A} (text : string) (m : Br A) : Br A := fun o h =>
  match m o h with (h', Err _) => (h', Err text) | r => r end.
(** [map_err] with the cause appended. *)
Definition caused {A} (text : string) (m : Br A) : Br A := fun o h =>
  match m o h with (h', Err e) => (h', Err (text +:+ ": " +:+ e)) | r => r end.
Definition ignored {A} (m : Br A) : Br unit := _ ← br_try m; mret tt.
Fixpoint br_each {A} (f : A -> Br unit) (l : list A) : Br unit :=
  match l with [] => mret tt | x :: l' => _ ← f x; br_each f l' end.

(** The packet filter. *)
Definition on_filter {A} (m : Net A) : Br A := fun o h =>
  let '(_, (k', r)) := m (nh_kernel h) in
  (set_kernel k' h, match r with Ok x => Ok x | Err e => Err (net_error_text e) end).

(** ** Queries and requests *)

Definition query {A} (f : NlState -> A) : Br A :=
  ok ← br_ask bo_query;
  if ok : bool then br_get (fun h => f (nh_nl h)) else br_throw "netlink".
Definition netlink_handle : Br unit :=
  ok ← br_ask bo_query; if ok : bool then mret tt else br_throw "Failed to open netlink connection".
Definition send (r : NlRequest) : Br unit := fun o h =>
  let 'Build_NetHost n k f d s l := h in
  let '(n', ok) := nl_send r n in
  (Build_NetHost n' k f d s (l ++ [r]), if ok : bool then Ok tt else Err "netlink").

Definition link_message (name : string) : Br Link :=
  links ← with_context ("Failed to query link " +:+ name) (query nl_links);
  br_of (ok_or ("Interface " +:+ name +:+ " not found") (List.find (fun l => String.eqb (lk_name l) name) links)).
Definition link_index (name : string) : Br Z := l ← link_message name; mret (lk_index l).
Definition link_mac (l : Link) : option (list Z) :=
  lk_address l ≫= fun mac => if (length mac =? 6)%nat then Some mac else None.
Definition ipv4_addrs (link_idx : Z) : Br (list (Z * Z)) := query (fun n => nl_addresses n link_idx).

(** The gateway of the first default route through the link. *)
Definition default_gateway_via (via_idx : Z) : Br (option Z) :=
  routes ← query nl_defaults;
  mret (List.find (fun r => bool_decide (dr_oif r = Some via_idx)) routes ≫= dr_gateway).

Definition del_ipv4_addr (link_idx ip prefix : Z) : Br unit :=
  addrs ← query (fun n => nl_addresses n link_idx);
  br_each (fun a => send (DelAddress link_idx a.1 a.2))
    (List.filter (fun a => (a.1 =? ip) && (a.2 =? prefix)) addrs).

(** A member of the bridge that is not a tap or veth device. *)
Definition physical_member (bridge_idx : Z) (l : Link) : bool :=
  bool_decide (lk_controller l = Some bridge_idx) && negb (starts_with "tap" (lk_name l))
  && negb (starts_with "veth" (lk_name l)) && negb (String.eqb (lk_name l) "").
Definition find_bridge_member (bridge_name : string) : Br string :=
  bridge_idx ← with_context ("Failed to look up bridge " +:+ bridge_name) (link_index bridge_name);
  links ← query nl_links;
  br_of (ok_or ("No physical member found for bridge " +:+ bridge_name)
           (lk_name <$> List.find (physical_member bridge_idx) links)).

Definition parse_cidr (cidr : string) : result string (Z * Z) :=
  '(ip_str, prefix_str) ← ok_or ("Invalid CIDR: " +:+ cidr) (split_once "/"%char cidr);
  ip ← ok_or ("Invalid IP in CIDR: " +:+ cidr) (std_ipv4 ip_str);
  prefix ← ok_or ("Invalid prefix in CIDR: " +:+ cidr) (parse_u8 prefix_str);
  Ok (ip, prefix).

(** ** Bridges *)

Definition create_bridge (name : string) : Br unit :=
  _ ← netlink_handle;
  _ ← with_context ("Failed to create bridge " +:+ name) (send (AddBridge name));
  idx ← link_index name;
  with_context ("Failed to bring up bridge " +:+ name) (send (SetUp idx)).

Definition set_bridge_ip (name gateway_cidr : string) : Br unit :=
  '(ip, prefix) ← br_of (parse_cidr gateway_cidr);
  _ ← netlink_handle;
  idx ← link_index name;
  with_context ("Failed to set IP " +:+ gateway_cidr +:+ " on bridge " +:+ name) (send (AddAddress idx ip prefix)).

Definition delete_bridge (name : string) : Br unit :=
  _ ← netlink_handle;
  idx ← link_index name;
  with_context ("Failed to delete bridge " +:+ name) (send (DelLink idx)).

Definition is_networkd_running : Br bool := br_ask bo_networkd.

Definition networkd_dir : string := "/run/systemd/network".
Definition write_network_file (name text : string) : Br unit :=
  ok ← br_ask bo_file;
  if ok : bool then br_set (set_files (insert (networkd_dir +:+ "/" +:+ name) text)) else br_throw "write".
Definition text_lines (lines : list string) : string :=
  foldr (fun l acc => l +:+ String newline EmptyString +:+ acc) EmptyString lines.
Definition write_bridge_networkd_configs (bridge_name parent_iface ip_cidr : string) (gateway : option string) : Br unit :=
  _ ← write_network_file ("05-" +:+ bridge_name +:+ ".netdev")
        (text_lines ["[NetDev]"; "Name=" +:+ bridge_name; "Kind=bridge"]%string);
  _ ← write_network_file ("05-" +:+ parent_iface +:+ "-bridge-member.network")
        (text_lines ["[Match]"; "Name=" +:+ parent_iface; ""; "[Network]"; "Bridge=" +:+ bridge_name]%string);
  write_network_file ("05-" +:+ bridge_name +:+ ".network")
    (text_lines (["[Match]"; "Name=" +:+ bridge_name; ""; "[Network]"; "Address=" +:+ ip_cidr; "DNS=8.8.8.8"]%string
                 ++ match gateway with Some gw => ["Gateway=" +:+ gw]%string | None => [] end)).

(** The steps after the state of the interface was read. *)
Definition move_onto_bridge (bridge_name parent_iface : string) (parent_idx parent_ip parent_prefix : Z)
    (parent_mac : list Z) (default_gw : option Z) : Br unit :=
  _ ← with_context ("Failed to create bridge " +:+ bridge_name) (send (AddBridge bridge_name));
  bridge_idx ← link_index bridge_name;
  _ ← with_context ("Failed to set MAC and bring up bridge " +:+ bridge_name) (send (SetAddressUp bridge_idx parent_mac));
  _ ← with_context ("Failed to add IP to bridge " +:+ bridge_name) (send (AddAddress bridge_idx parent_ip parent_prefix));
  _ ← with_context ("Failed to add " +:+ parent_iface +:+ " to bridge " +:+ bridge_name)
        (send (SetController parent_idx (Some bridge_idx)));
  _ ← ignored (del_ipv4_addr parent_idx parent_ip parent_prefix);
  match default_gw with
  | Some gw => with_context "Failed to restore default route" (send (AddDefaultRoute gw bridge_idx true))
  | None => mret tt
  end.

Definition net_text {A} (r : result NetError A) : Br A :=
  br_of (match r with Ok x => Ok x | Err e => Err (net_error_text e) end).

Definition bridge_interface (bridge_name parent_iface : string) : Br unit :=
  _ ← net_text (validate_iface_name bridge_name);
  _ ← net_text (validate_iface_name parent_iface);
  _ ← netlink_handle;
  parent_link ← link_message parent_iface;
  let parent_idx := lk_index parent_link in
  addrs ← with_context ("Failed to get addresses for " +:+ parent_iface) (ipv4_addrs parent_idx);
  '(parent_ip, parent_prefix) ← br_of (ok_or ("No IPv4 address found on " +:+ parent_iface) (head addrs));
  parent_mac ← br_of (ok_or ("No MAC found on " +:+ parent_iface) (link_mac parent_link));
  default_gw ← default_gateway_via parent_idx;
  use_networkd ← is_networkd_running;
  _ ← (if use_networkd : bool
       then write_bridge_networkd_configs bridge_name parent_iface
              (fmt_ipv4 parent_ip +:+ "/" +:+ fmt_nat parent_prefix) (fmt_ipv4 <$> default_gw)
       else mret tt);
  move_onto_bridge bridge_name parent_iface parent_idx parent_ip parent_prefix parent_mac default_gw.

(** Without networkd: the address and the default route go back to the member. *)
Definition move_off_bridge (bridge_idx : Z) (parent_iface : string) : Br unit :=
  parent_idx ← link_index parent_iface;
  addrs ← br_try (ipv4_addrs bridge_idx);
  let ip_cidr := match addrs with Ok l => head l | Err _ => None end in
  gw ← br_try (default_gateway_via bridge_idx);
  let default_gw := match gw with Ok g => g | Err _ => None end in
  _ ← ignored (send (SetController parent_idx None));
  _ ← (match ip_cidr with Some (ip, prefix) => ignored (send (AddAddress parent_idx ip prefix)) | None => mret tt end);
  _ ← ignored (send (DelLink bridge_idx));
  match default_gw with Some g => ignored (send (AddDefaultRoute g parent_idx false)) | None => mret tt end.

Definition remove_network_file (name : string) : Br unit :=
  ok ← br_ask bo_file;
  if ok : bool then br_set (set_files (delete (networkd_dir +:+ "/" +:+ name))) else mret tt.

Definition unbridge_interface (bridge_name : string) : Br unit :=
  _ ← net_text (validate_iface_name bridge_name);
  _ ← netlink_handle;
  parent_iface ← find_bridge_member bridge_name;
  _ ← remove_network_file ("05-" +:+ bridge_name +:+ ".netdev");
  _ ← remove_network_file ("05-" +:+ parent_iface +:+ "-bridge-member.network");
  _ ← remove_network_file ("05-" +:+ bridge_name +:+ ".network");
  bridge_idx ← link_index bridge_name;
  networkd ← is_networkd_running;
  if networkd : bool then ignored (send (DelLink bridge_idx)) else move_off_bridge bridge_idx parent_iface.

Definition is_bridged_interface (bridge_name : string) : Br bool :=
  handle ← br_try netlink_handle;
  match handle with
  | Err _ => mret false
  | Ok _ => m ← br_try (find_bridge_member bridge_name); mret (is_ok m)
  end.

(** ** DHCP *)

Definition create_dhcp_socket : Br unit :=
  ok ← br_ask bo_socket; if ok : bool then mret tt else br_throw "Failed to bind to DHCP server port".

(** The settings are checked before a running server is stopped. *)
Definition start_dhcp_server (bridge range_start range_end gateway dns : string) : Br unit :=
  gateway_ip ← br_of (ok_or "Invalid gateway IP"%string (std_ipv4 gateway));
  range_start_ip ← br_of (ok_or "Invalid DHCP range start IP"%string (std_ipv4 range_start));
  range_end_ip ← br_of (ok_or "Invalid DHCP range end IP"%string (std_ipv4 range_end));
  dns_ip ← br_of (ok_or "Invalid DNS IP"%string (std_ipv4 dns));
  _ ← br_set (set_dhcp (delete bridge));
  _ ← create_dhcp_socket;
  br_set (set_dhcp (insert bridge {| dh_gateway := gateway_ip; dh_range_start := range_start_ip;
                                     dh_range_end := range_end_ip; dh_dns := dns_ip |})).

Definition stop_dhcp_server (bridge : string) : Br unit := br_set (set_dhcp (delete bridge)).

(** ** The handlers *)

Record AttachNetworkRequest := {
  anr_bridge_name : string; anr_subnet : string; anr_gateway : string; anr_dns : string;
  anr_dhcp_range_start : string; anr_dhcp_range_end : string; anr_parent_interface : string
}.

Definition attach_network (req : AttachNetworkRequest) : Br unit :=
  let bridged := negb (String.eqb (anr_parent_interface req) "") in
  _ ← (if bridged then
         caused "Failed to bridge interface" (bridge_interface (anr_bridge_name req) (anr_parent_interface req))
       else
         let prefix := match split_once "/"%char (anr_subnet req) with Some (_, p) => p | None => "24"%string end in
         let gateway_cidr := anr_gateway req +:+ "/" +:+ prefix in
         _ ← caused "Failed to create bridge" (create_bridge (anr_bridge_name req));
         caused "Failed to set bridge IP" (set_bridge_ip (anr_bridge_name req) gateway_cidr));
  let dns := if String.eqb (anr_dns req) "" then anr_gateway req else anr_dns req in
  _ ← caused "Failed to start DHCP server"
        (start_dhcp_server (anr_bridge_name req) (anr_dhcp_range_start req) (anr_dhcp_range_end req)
           (anr_gateway req) dns);
  if bridged then mret tt
  else caused "Failed to setup NAT" (on_filter (setup_nat (anr_bridge_name req) (anr_subnet req))).

(** Failures are only logged. *)
Definition detach_network (bridge_name subnet : string) : Br unit :=
  _ ← ignored (stop_dhcp_server bridge_name);
  _ ← ignored (on_filter (teardown_network_isolation bridge_name));
  _ ← (if String.eqb subnet "" then mret tt else ignored (on_filter (teardown_nat bridge_name subnet)));
  bridged ← is_bridged_interface bridge_name;
  if bridged : bool then ignored (unbridge_interface bridge_name) else ignored (delete_bridge bridge_name).
End bridge.

(** ** What reads and what writes *)

Section bridge_facts.
Context `{Rtnetlink} `{Iptables}.
#[local] Set Default Proof Using "Type".

(** The kernel tables and the requests stay. *)
Definition reads {A} (m : Br A) : Prop :=
  forall o h, nh_nl (m o h).1 = nh_nl h /\ nh_sent (m o h).1 = nh_sent h.

Lemma reads_ret {A} (x : A) : reads (mret x).
Proof. by intros o h. Qed.
Lemma reads_of {A} (r : result string A) : reads (br_of r).
Proof. by intros o h. Qed.
Lemma reads_get {A} (f : NetHost -> A) : reads (br_get f).
Proof. by intros o h. Qed.
Lemma reads_throw {A} e : reads (A := A) (br_throw e).
Proof. by intros o h. Qed.
Lemma reads_ask {A} (f : BridgeOracle -> nat -> A) : reads (br_ask f).
Proof. intros o h. by destruct h. Qed.
Lemma reads_bind {A B} (m : Br A) (f : A -> Br B) : reads m -> (forall x, reads (f x)) -> reads (m ≫= f).
Proof.
  intros Hm Hf o h. specialize (Hm o h). unfold mbind, Br_bind. destruct (m o h) as [h' [x|e]]; [|done].
  destruct (Hf x o h') as [-> ->]. done.
Qed.
Lemma reads_context {A} t (m : Br A) : reads m -> reads (with_context t m).
Proof. intros Hm o h. specialize (Hm o h). unfold with_context. by destruct (m o h) as [h' []]. Qed.
Lemma reads_try {A} (m : Br A) : reads m -> reads (br_try m).
Proof. intros Hm o h. specialize (Hm o h). unfold br_try. by destruct (m o h). Qed.
Lemma reads_set f : (forall h, nh_nl (f h) = nh_nl h /\ nh_sent (f h) = nh_sent h) -> reads (br_set f).
Proof. intros Hf o h. apply Hf. Qed.
Lemma reads_filter {A} (m : Net A) : reads (on_filter m).
Proof. intros o h. unfold on_filter. destruct (m (nh_kernel h)) as [tr [k' r]]. by destruct h. Qed.
End bridge_facts.

Create HintDb bridge.
#[export] Hint Resolve reads_ret reads_of reads_get reads_throw reads_ask reads_filter : bridge.
Ltac reads_solve :=
  repeat first [ solve [auto with bridge] | apply reads_bind; [|intros ?] | apply reads_context | apply reads_try
               | apply reads_set; by intros [] | case_match ].

Section bridge_reads.
Context `{Rtnetlink} `{Iptables}.
#[local] Set Default Proof Using "Type".

Lemma query_reads {A} (f : NlState -> A) : reads (query f).
Proof. unfold query. reads_solve. Qed.
Lemma handle_reads : reads netlink_handle.
Proof. unfold netlink_handle. reads_solve. Qed.
Lemma link_reads name : reads (link_message name).
Proof. unfold link_message. reads_solve. Qed.
Lemma index_reads name : reads (link_index name).
Proof. unfold link_index. apply reads_bind; [apply link_reads|auto with bridge]. Qed.
Lemma gateway_reads idx : reads (default_gateway_via idx).
Proof. unfold default_gateway_via. apply reads_bind; [apply query_reads|auto with bridge]. Qed.
Lemma member_reads br : reads (find_bridge_member br).
Proof.
  unfold find_bridge_member. apply reads_bind; [apply reads_context, index_reads|]. intros idx.
  apply reads_bind; [apply query_reads|auto with bridge].
Qed.
Lemma file_reads name text : reads (write_network_file name text).
Proof. unfold write_network_file. reads_solve. Qed.
Lemma networkd_reads br p cidr gw : reads (write_bridge_networkd_configs br p cidr gw).
Proof.
  unfold write_bridge_networkd_configs. do 2 (apply reads_bind; [apply file_reads|intros ?]). apply file_reads.
Qed.
Lemma remove_file_reads name : reads (remove_network_file name).
Proof. unfold remove_network_file. reads_solve. Qed.

(** ** Successful runs *)

Lemma br_bind_inv {A B} (m : Br A) (f : A -> Br B) o h h' y :
  (m ≫= f) o h = (h', Ok y) -> exists h1 x, m o h = (h1, Ok x) /\ f x o h1 = (h', Ok y).
Proof. unfold mbind, Br_bind. destruct (m o h) as [h1 [x|e]]; [eauto|done]. Qed.
Lemma context_inv {A} t (m : Br A) o h h' x : with_context t m o h = (h', Ok x) -> m o h = (h', Ok x).
Proof. unfold with_context. by destruct (m o h) as [h1 []]. Qed.
Lemma net_reads_run {A} (m : Br A) o h h' r : reads m -> m o h = (h', r) -> nh_nl h' = nh_nl h /\ nh_sent h' = nh_sent h.
Proof. intros Hm Hr. specialize (Hm o h). by rewrite Hr in Hm. Qed.
Lemma send_run r o h : nh_sent (send r o h).1 = nh_sent h ++ [r].
Proof. destruct h as [n k f d s l]. simpl. by destruct (nl_send r n). Qed.
Lemma send_inv r o h h' x : send r o h = (h', Ok x) -> nh_sent h' = nh_sent h ++ [r].
Proof. intros Hr. pose proof (send_run r o h) as Hs. by rewrite Hr in Hs. Qed.
Lemma query_inv {A} (f : NlState -> A) o h h' x : query f o h = (h', Ok x) -> x = f (nh_nl h).
Proof.
  unfold query, mbind, Br_bind, br_ask, br_get, br_throw. destruct (bo_query o (nh_step h)); [|done].
  intros [= _ <-]. by destruct h.
Qed.

(** Deletions of one address. *)
Lemma del_sent idx ip prefix o h :
  exists dels, nh_sent (ignored (del_ipv4_addr idx ip prefix) o h).1 = nh_sent h ++ dels /\
    Forall (eq (DelAddress idx ip prefix)) dels.
Proof.
  assert (exists dels, nh_sent (del_ipv4_addr idx ip prefix o h).1 = nh_sent h ++ dels /\
    Forall (eq (DelAddress idx ip prefix)) dels) as (dels&Hd&Hall).
  2:{ exists dels. split; [|done]. rewrite <-Hd. unfold ignored, br_try, mbind, Br_bind.
      by destruct (del_ipv4_addr idx ip prefix o h). }
  unfold del_ipv4_addr. unfold mbind, Br_bind. destruct (query _ o h) as [h1 [addrs|e]] eqn:Hq.
  2:{ exists []. rewrite app_nil_r. split; [|done]. by apply (net_reads_run _ _ _ _ _ (query_reads _)) in Hq as [_ ?]. }
  apply (net_reads_run _ _ _ _ _ (query_reads _)) in Hq as [_ Hs]. rewrite <-Hs. clear Hs h. revert h1.
  induction addrs as [|[a b] addrs IH]; intros h1; simpl; [exists []; by rewrite app_nil_r|].
  destruct ((a =? ip) && (b =? prefix)) eqn:E; [|apply IH].
  apply andb_true_iff in E as [->%Z.eqb_eq ->%Z.eqb_eq]. simpl. unfold mbind, Br_bind.
  pose proof (send_run (DelAddress idx ip prefix) o h1) as Hs.
  destruct (send (DelAddress idx ip prefix) o h1) as [h2 [u|e]]; simpl in *.
  - destruct (IH h2) as (dels&Hd&Hall). exists (DelAddress idx ip prefix :: dels).
    rewrite Hd, Hs, <-app_assoc. by repeat constructor.
  - exists [DelAddress idx ip prefix]. by repeat constructor.
Qed.

Lemma move_sent br p pi ip prefix mac gw o h h' :
  move_onto_bridge br p pi ip prefix mac gw o h = (h', Ok tt) ->
  exists bi dels, Forall (eq (DelAddress pi ip prefix)) dels /\
    nh_sent h' = nh_sent h ++ [AddBridge br; SetAddressUp bi mac; AddAddress bi ip prefix; SetController pi (Some bi)]
      ++ dels ++ match gw with Some g => [AddDefaultRoute g bi true] | None => [] end.
Proof.
  unfold move_onto_bridge.
  intros (h1&?&S1%context_inv%send_inv&(h2&bi&R2&(h3&?&S3%context_inv%send_inv&(h4&?&S4%context_inv%send_inv&
    (h5&?&S5%context_inv%send_inv&(h6&?&S6&S7)%br_bind_inv)%br_bind_inv)%br_bind_inv)%br_bind_inv)%br_bind_inv)%br_bind_inv.
  apply (net_reads_run _ _ _ _ _ (index_reads _)) in R2 as [_ R2].
  destruct (del_sent pi ip prefix o h5) as (dels&Hd&Hall). rewrite S6 in Hd. simpl in Hd.
  exists bi, dels. split; [done|].
  assert (nh_sent h6 = nh_sent h ++ [AddBridge br; SetAddressUp bi mac; AddAddress bi ip prefix; SetController pi (Some bi)] ++ dels) as H6.
  { rewrite Hd, S5, S4, S3, R2, S1. by rewrite <-!app_assoc. }
  destruct gw as [g|]; [apply context_inv, send_inv in S7; rewrite S7, H6; by rewrite <-!app_assoc|].
  unfold mret, Br_ret in S7. simplify_eq. by rewrite app_nil_r.
Qed.
End bridge_reads.

Section bridge_theorems.
Context `{Rtnetlink} `{Iptables}.
#[local] Set Default Proof Using "Type".

(** Moving an interface onto a bridge: the bridge takes over the hardware address
    and the first address of the interface before the interface becomes its member,
    the address is removed from the interface afterwards, and the default route comes
    last, so that the address is always on one of the two. *)
Theorem bridge_move_order br p o h h' :
  bridge_interface br p o h = (h', Ok tt) ->
  exists parent mac ip prefix bi dels gw,
    List.find (fun l => String.eqb (lk_name l) p) (nl_links (nh_nl h)) = Some parent /\
    link_mac parent = Some mac /\ head (nl_addresses (nh_nl h) (lk_index parent)) = Some (ip, prefix) /\
    gw = List.find (fun r => bool_decide (dr_oif r = Some (lk_index parent))) (nl_defaults (nh_nl h)) ≫= dr_gateway /\
    Forall (eq (DelAddress (lk_index parent) ip prefix)) dels /\
    nh_sent h' = nh_sent h ++
      [AddBridge br; SetAddressUp bi mac; AddAddress bi ip prefix; SetController (lk_index parent) (Some bi)]
      ++ dels ++ match gw with Some g => [AddDefaultRoute g bi true] | None => [] end.
Proof.
  unfold bridge_interface.
  intros (h1&?&R1&(h2&?&R2&(h3&?&R3&(h4&parent&R4&(h5&addrs&R5%context_inv&(h6&[ip prefix]&R6&(h7&mac&R7&(h8&gw&R8&
    (h9&nd&R9&(h10&?&R10&Hmove)%br_bind_inv)%br_bind_inv)%br_bind_inv)%br_bind_inv)%br_bind_inv)%br_bind_inv)%br_bind_inv)
    %br_bind_inv)%br_bind_inv)%br_bind_inv.
  unfold net_text in R1, R2. unfold is_networkd_running in R9. unfold ipv4_addrs in R5.
  pose proof (net_reads_run _ _ _ _ _ (reads_of _) R1) as [N1 T1]. pose proof (net_reads_run _ _ _ _ _ (reads_of _) R2) as [N2 T2].
  pose proof (net_reads_run _ _ _ _ _ handle_reads R3) as [N3 T3]. pose proof (net_reads_run _ _ _ _ _ (link_reads _) R4) as [N4 T4].
  pose proof (net_reads_run _ _ _ _ _ (query_reads _) R5) as [N5 T5]. pose proof (net_reads_run _ _ _ _ _ (reads_of _) R6) as [N6 T6].
  pose proof (net_reads_run _ _ _ _ _ (reads_of _) R7) as [N7 T7]. pose proof (net_reads_run _ _ _ _ _ (gateway_reads _) R8) as [N8 T8].
  pose proof (net_reads_run _ _ _ _ _ (reads_ask _) R9) as [N9 T9].
  assert (nh_sent h10 = nh_sent h) as T10.
  { destruct nd.
    - apply (net_reads_run _ _ _ _ _ (networkd_reads _ _ _ _)) in R10 as [_ ->]. congruence.
    - unfold mret, Br_ret in R10. simplify_eq. congruence. }
  apply move_sent in Hmove as (bi&dels&Hall&Hsent). rewrite T10 in Hsent.
  exists parent, mac, ip, prefix, bi, dels, gw. split_and!; [| | | |done|done].
  - unfold link_message in R4. apply br_bind_inv in R4 as (?&links&Hq%context_inv%query_inv&Hf). unfold br_of in Hf.
    rewrite <-N1, <-N2, <-N3, <-Hq. by destruct (List.find _ links); simplify_eq/=.
  - unfold br_of in R7. by destruct (link_mac parent); simplify_eq/=.
  - apply query_inv in R5. unfold br_of in R6. rewrite <-N1, <-N2, <-N3, <-N4, <-R5. by destruct (head addrs); simplify_eq/=.
  - unfold default_gateway_via in R8. apply br_bind_inv in R8 as (?&routes&Hq%query_inv&Hr). unfold mret, Br_ret in Hr.
    simplify_eq. by rewrite <-N1, <-N2, <-N3, <-N4, <-N5, <-N6, <-N7.
Qed.

(** A TAP device of the agent counts as a physical interface. *)
Lemma tap_is_physical idx l vm_id i :
  lk_controller l = Some idx -> lk_name l = tap_name_for_net vm_id i -> physical_member idx l = true.
Proof. intros Hc Hn. unfold physical_member. rewrite Hc, Hn, bool_decide_true by done. done. Qed.

Lemma find_narrow {A} (p q : A -> bool) l x :
  List.find p l = Some x -> q x = true -> (forall y, q y = true -> p y = true) -> List.find q l = Some x.
Proof.
  intros Hf Hq Hsub. induction l as [|y l IH]; [done|]. simpl in *. destruct (p y) eqn:E.
  - simplify_eq. by rewrite Hq.
  - destruct (q y) eqn:Eq; [apply Hsub in Eq; congruence|auto].
Qed.

Lemma ignored_run {A} (m : Br A) o h : ignored m o h = ((m o h).1, Ok tt).
Proof. unfold ignored, br_try, mbind, Br_bind. by destruct (m o h). Qed.
Lemma br_bind_run {A B} (m : Br A) (f : A -> Br B) o h h' x : m o h = (h', Ok x) -> (m ≫= f) o h = f x o h'.
Proof. intros Hm. unfold mbind, Br_bind. by rewrite Hm. Qed.

(** A host where queries succeed and networkd does not run. *)
Definition plain_host (o : BridgeOracle) : Prop := (forall s, bo_query o s = true) /\ (forall s, bo_networkd o s = false).

Lemma query_run {A} (f : NlState -> A) o h : plain_host o -> query f o h = (tick_host h, Ok (f (nh_nl h))).
Proof.
  intros [Hq _]. unfold query, mbind, Br_bind, br_ask, br_get. rewrite Hq. by destruct h.
Qed.
Lemma index_run name l o h :
  plain_host o -> List.find (fun l => String.eqb (lk_name l) name) (nl_links (nh_nl h)) = Some l ->
  link_index name o h = (tick_host h, Ok (lk_index l)).
Proof.
  intros Ho Hf. unfold link_index, link_message, with_context, mbind, Br_bind. rewrite query_run by done.
  rewrite Hf. done.
Qed.
Lemma member_run br lb t o h :
  plain_host o -> List.find (fun l => String.eqb (lk_name l) br) (nl_links (nh_nl h)) = Some lb ->
  List.find (physical_member (lk_index lb)) (nl_links (nh_nl h)) = Some t ->
  find_bridge_member br o h = (tick_host (tick_host h), Ok (lk_name t)).
Proof.
  intros Ho Hb Ht. unfold find_bridge_member.
  rewrite (br_bind_run _ _ _ _ (tick_host h) (lk_index lb)) by (unfold with_context; by rewrite (index_run _ lb)).
  rewrite (br_bind_run _ _ _ _ _ _ (query_run _ _ _ Ho)). replace (nl_links (nh_nl (tick_host h))) with (nl_links (nh_nl h)) by by destruct h.
  rewrite Ht. done.
Qed.

(** What an unbridging sends: the member leaves, the first address and the default
    route of the bridge go to it. *)
Definition unbridge_requests (n : NlState) (bridge_idx member_idx : Z) : list NlRequest :=
  [SetController member_idx None]
  ++ match head (nl_addresses n bridge_idx) with Some (ip, prefix) => [AddAddress member_idx ip prefix] | None => [] end
  ++ [DelLink bridge_idx]
  ++ match List.find (fun r => bool_decide (dr_oif r = Some bridge_idx)) (nl_defaults n) ≫= dr_gateway with
     | Some g => [AddDefaultRoute g member_idx false] | None => [] end.

Lemma move_off_sent bi t o h :
  plain_host o -> List.find (fun l => String.eqb (lk_name l) (lk_name t)) (nl_links (nh_nl h)) = Some t ->
  nh_sent (move_off_bridge bi (lk_name t) o h).1 = nh_sent h ++ unbridge_requests (nh_nl h) bi (lk_index t).
Proof.
  intros Ho Ht. unfold move_off_bridge. rewrite (br_bind_run _ _ _ _ _ _ (index_run _ t o h Ho Ht)).
  assert (forall h' m, nh_nl (tick_host h') = nh_nl m -> nh_nl h' = nh_nl m) as Htick by by intros [].
  rewrite (br_bind_run _ _ _ _ (tick_host (tick_host h)) (Ok (nl_addresses (nh_nl (tick_host h)) bi)))
    by (unfold br_try, ipv4_addrs; by rewrite query_run).
  rewrite (br_bind_run _ _ _ _ (tick_host (tick_host (tick_host h)))
    (Ok (List.find (fun r => bool_decide (dr_oif r = Some bi)) (nl_defaults (nh_nl (tick_host (tick_host h)))) ≫= dr_gateway)))
    by (unfold br_try, default_gateway_via, mbind, Br_bind; by rewrite query_run).
  assert (nh_nl (tick_host h) = nh_nl h) as -> by by destruct h.
  assert (nh_nl (tick_host (tick_host h)) = nh_nl h) as -> by by destruct h.
  assert (nh_sent (tick_host (tick_host (tick_host h))) = nh_sent h) as Hs by by destruct h.
  unfold unbridge_requests. rewrite (br_bind_run _ _ _ _ _ _ (ignored_run _ _ _)).
  set (h1 := (send (SetController (lk_index t) None) o (tick_host (tick_host (tick_host h)))).1).
  assert (nh_sent h1 = nh_sent h ++ [SetController (lk_index t) None]) as H1' by (unfold h1; by rewrite send_run, Hs).
  set (add := match head (nl_addresses (nh_nl h) bi) with Some (ip, prefix) => [AddAddress (lk_index t) ip prefix] | None => [] end).
  assert (exists h2, (match head (nl_addresses (nh_nl h) bi) with
    Some (ip, prefix) => ignored (send (AddAddress (lk_index t) ip prefix)) | None => mret tt end) o h1 = (h2, Ok tt) /\
    nh_sent h2 = nh_sent h1 ++ add) as (h2&Hr2&H2').
  { unfold add. destruct (head (nl_addresses (nh_nl h) bi)) as [[ip prefix]|].
    - eexists. split; [apply ignored_run|]. apply send_run.
    - exists h1. by rewrite app_nil_r. }
  rewrite (br_bind_run _ _ _ _ _ _ Hr2), (br_bind_run _ _ _ _ _ _ (ignored_run _ _ _)).
  set (h3 := (send (DelLink bi) o h2).1). assert (nh_sent h3 = nh_sent h2 ++ [DelLink bi]) as H3' by apply send_run.
  destruct (_ ≫= dr_gateway) as [g|]; [rewrite ignored_run; simpl; rewrite send_run|]; simpl;
    rewrite H3', H2', H1', ?app_nil_r; by rewrite <-?app_assoc.
Qed.
End bridge_theorems.

Section detach.
Context `{Rtnetlink} `{Iptables}.
#[local] Set Default Proof Using "Type".

Lemma filter_run {A} (m : Net A) o h :
  exists h', ignored (on_filter m) o h = (h', Ok tt) /\ nh_nl h' = nh_nl h /\ nh_sent h' = nh_sent h.
Proof. rewrite ignored_run. eexists. split; [done|]. apply reads_filter. Qed.

Lemma bridged_run br lb t o h :
  plain_host o -> List.find (fun l => String.eqb (lk_name l) br) (nl_links (nh_nl h)) = Some lb ->
  List.find (physical_member (lk_index lb)) (nl_links (nh_nl h)) = Some t ->
  exists h', is_bridged_interface br o h = (h', Ok true) /\ nh_nl h' = nh_nl h /\ nh_sent h' = nh_sent h.
Proof.
  intros Ho Hb Ht. unfold is_bridged_interface.
  rewrite (br_bind_run _ _ _ _ (tick_host h) (Ok tt)).
  2:{ unfold br_try, netlink_handle, mbind, Br_bind, br_ask. destruct Ho as [Hq _]. by rewrite Hq. }
  rewrite (br_bind_run _ _ _ _ (tick_host (tick_host (tick_host h))) (Ok (lk_name t))).
  2:{ unfold br_try. rewrite (member_run br lb t); [done|done|by destruct h|by destruct h]. }
  eexists. split; [done|]. by destruct h.
Qed.

Lemma removed_file_run name o h :
  exists h', remove_network_file name o h = (h', Ok tt) /\ nh_nl h' = nh_nl h /\ nh_sent h' = nh_sent h.
Proof.
  destruct (remove_network_file name o h) as [h' r] eqn:E.
  pose proof (net_reads_run _ _ _ _ _ (remove_file_reads name) E) as [Hn Hs].
  exists h'. split_and!; [|done|done]. revert E. unfold remove_network_file, mbind, Br_bind, br_ask, br_set, mret, Br_ret.
  destruct (bo_file o (nh_step h)); by intros [= <- <-].
Qed.

Lemma unbridge_sent br lb t o h :
  plain_host o -> validate_iface_name br = Ok tt ->
  List.find (fun l => String.eqb (lk_name l) br) (nl_links (nh_nl h)) = Some lb ->
  List.find (physical_member (lk_index lb)) (nl_links (nh_nl h)) = Some t ->
  List.find (fun l => String.eqb (lk_name l) (lk_name t)) (nl_links (nh_nl h)) = Some t ->
  nh_sent (unbridge_interface br o h).1 = nh_sent h ++ unbridge_requests (nh_nl h) (lk_index lb) (lk_index t).
Proof.
  intros Ho Hv Hb Ht Hname. unfold unbridge_interface.
  rewrite (br_bind_run _ _ _ _ h tt) by (unfold net_text, br_of; by rewrite Hv).
  rewrite (br_bind_run _ _ _ _ (tick_host h) tt).
  2:{ unfold netlink_handle, mbind, Br_bind, br_ask. destruct Ho as [Hq _]. by rewrite Hq. }
  rewrite (br_bind_run _ _ _ _ (tick_host (tick_host (tick_host h))) (lk_name t)).
  2:{ rewrite (member_run br lb t); [done|done|by destruct h|by destruct h]. }
  set (h0 := tick_host (tick_host (tick_host h))).
  destruct (removed_file_run ("05-" +:+ br +:+ ".netdev") o h0) as (h1&E1&N1&S1). rewrite (br_bind_run _ _ _ _ _ _ E1).
  destruct (removed_file_run ("05-" +:+ lk_name t +:+ "-bridge-member.network") o h1) as (h2&E2&N2&S2).
  rewrite (br_bind_run _ _ _ _ _ _ E2).
  destruct (removed_file_run ("05-" +:+ br +:+ ".network") o h2) as (h3&E3&N3&S3). rewrite (br_bind_run _ _ _ _ _ _ E3).
  assert (nh_nl h3 = nh_nl h) as N by (rewrite N3, N2, N1; by destruct h).
  assert (nh_sent h3 = nh_sent h) as S by (rewrite S3, S2, S1; by destruct h).
  rewrite <-N in Hb. rewrite (br_bind_run _ _ _ _ _ _ (index_run br lb o h3 Ho Hb)).
  rewrite (br_bind_run _ _ _ _ (tick_host (tick_host h3)) false).
  2:{ unfold is_networkd_running, br_ask. destruct Ho as [_ Hn]. by rewrite Hn. }
  assert (nh_nl (tick_host (tick_host h3)) = nh_nl h) as N' by (rewrite <-N; by destruct h3).
  assert (nh_sent (tick_host (tick_host h3)) = nh_sent h) as S' by (rewrite <-S; by destruct h3).
  rewrite move_off_sent, N', S'; [done|done|by rewrite N'].
Qed.

(** Detaching a network from a node whose bridge carries a VM takes the TAP device
    of the VM for the physical interface of the bridge: the device leaves the bridge
    and is given the gateway address and the default route of the bridge, as if it
    were the network card of the host. *)
Theorem detach_network_takes_tap br subnet lb t vm_id i o h :
  plain_host o -> validate_iface_name br = Ok tt ->
  List.find (fun l => String.eqb (lk_name l) br) (nl_links (nh_nl h)) = Some lb ->
  List.find (fun l => bool_decide (lk_controller l = Some (lk_index lb))) (nl_links (nh_nl h)) = Some t ->
  List.find (fun l => String.eqb (lk_name l) (lk_name t)) (nl_links (nh_nl h)) = Some t ->
  lk_name t = tap_name_for_net vm_id i ->
  nh_sent (detach_network br subnet o h).1 = nh_sent h ++ unbridge_requests (nh_nl h) (lk_index lb) (lk_index t).
Proof.
  intros Ho Hv Hb Hfirst Hname Htap.
  assert (List.find (physical_member (lk_index lb)) (nl_links (nh_nl h)) = Some t) as Ht.
  { eapply find_narrow; [exact Hfirst| |].
    - pose proof (find_some _ _ Hfirst) as [_ Hc]. apply bool_decide_eq_true in Hc. by eapply tap_is_physical.
    - intros y Hy. unfold physical_member in Hy. by repeat apply andb_true_iff in Hy as [Hy _]. }
  unfold detach_network. rewrite (br_bind_run _ _ _ _ _ _ (ignored_run _ _ _)).
  set (h1 := (stop_dhcp_server br o h).1).
  assert (nh_nl h1 = nh_nl h /\ nh_sent h1 = nh_sent h) as [N1 S1] by (unfold h1; by destruct h).
  destruct (filter_run (teardown_network_isolation br) o h1) as (h2&E2&N2&S2). rewrite (br_bind_run _ _ _ _ _ _ E2).
  assert (exists h3, (if String.eqb subnet "" then mret tt else ignored (on_filter (teardown_nat br subnet))) o h2 = (h3, Ok tt)
    /\ nh_nl h3 = nh_nl h2 /\ nh_sent h3 = nh_sent h2) as (h3&E3&N3&S3).
  { destruct (String.eqb subnet ""); [by exists h2|apply filter_run]. }
  rewrite (br_bind_run _ _ _ _ _ _ E3). assert (nh_nl h3 = nh_nl h) as N by congruence.
  rewrite <-N in Hb, Ht, Hname. destruct (bridged_run br lb t o h3 Ho Hb Ht) as (h4&E4&N4&S4).
  rewrite (br_bind_run _ _ _ _ _ _ E4), ignored_run. cbn [fst]. rewrite <-N4 in Hb, Ht, Hname.
  rewrite (unbridge_sent br lb t); [by rewrite N4, S4, N, S3, S2, S1|done..].
Qed.

(** A DHCP server is started with the given settings and replaces the one of the
    bridge; a setting that is no address leaves everything as it is. *)
Theorem dhcp_start_outcome br rs re gw dns o h :
  start_dhcp_server br rs re gw dns o h =
  match std_ipv4 gw, std_ipv4 rs, std_ipv4 re, std_ipv4 dns with
  | Some g, Some s, Some e, Some d =>
      if bo_socket o (nh_step h)
      then (tick_host (set_dhcp (insert br {| dh_gateway := g; dh_range_start := s; dh_range_end := e; dh_dns := d |}) h), Ok tt)
      else (tick_host (set_dhcp (delete br) h), Err "Failed to bind to DHCP server port"%string)
  | None, _, _, _ => (h, Err "Invalid gateway IP"%string)
  | Some _, None, _, _ => (h, Err "Invalid DHCP range start IP"%string)
  | Some _, Some _, None, _ => (h, Err "Invalid DHCP range end IP"%string)
  | Some _, Some _, Some _, None => (h, Err "Invalid DNS IP"%string)
  end.
Proof.
  unfold start_dhcp_server, create_dhcp_socket, mbind, Br_bind, br_of, br_set, br_ask, br_throw, mret, Br_ret.
  destruct (std_ipv4 gw), (std_ipv4 rs), (std_ipv4 re), (std_ipv4 dns); try done.
  destruct h as [n k f d s l]. simpl. destruct (bo_socket o s); [|done]. simpl. by rewrite insert_delete_eq.
Qed.
End detach.

(** ** A host *)

(** A kernel as far as the examples go: links, their addresses, default routes. *)
Record SimNet := { sn_links : list Link; sn_addresses : list (Z * (Z * Z)); sn_routes : list DefaultRoute; sn_next : Z }.

Definition sim_send (r : NlRequest) (n : SimNet) : SimNet * bool :=
  let 'Build_SimNet links addresses routes next := n in
  match r with
  | AddBridge name =>
      if existsb (fun l => String.eqb (lk_name l) name) links then (n, false)
      else (Build_SimNet (links ++ [{| lk_index := next; lk_name := name; lk_controller := None; lk_address := None |}])
              addresses routes (next + 1), true)
  | SetUp _ | SetAddressUp _ _ => (n, true)
  | SetController idx c =>
      (Build_SimNet (map (fun l => if lk_index l =? idx
                                   then {| lk_index := lk_index l; lk_name := lk_name l; lk_controller := c; lk_address := lk_address l |}
                                   else l) links) addresses routes next, true)
  | DelLink idx =>
      (Build_SimNet (List.filter (fun l => negb (lk_index l =? idx)) links)
         (List.filter (fun a => negb (a.1 =? idx)) addresses)
         (List.filter (fun r => negb (bool_decide (dr_oif r = Some idx))) routes) next, true)
  | AddAddress idx ip prefix => (Build_SimNet links (addresses ++ [(idx, (ip, prefix))]) routes next, true)
  | DelAddress idx ip prefix =>
      (Build_SimNet links (List.filter (fun a => negb (bool_decide (a = (idx, (ip, prefix))))) addresses) routes next, true)
  | AddDefaultRoute g oif _ =>
      (Build_SimNet links addresses [{| dr_gateway := Some g; dr_oif := Some oif |}] next, true)
  end.

#[local] Instance sim_netlink : Rtnetlink := {|
  NlState := SimNet; nl_links := sn_links;
  nl_addresses n idx := (List.filter (fun a => a.1 =? idx) (sn_addresses n)).*2;
  nl_defaults := sn_routes; nl_send := sim_send |}.
#[local] Instance bridge_iptables : Iptables := simulator.

Definition steady : BridgeOracle :=
  {| bo_query _ := true; bo_file _ := true; bo_socket _ := true; bo_networkd _ := false |}.
Definition eth0 : Link :=
  {| lk_index := 2; lk_name := "eth0"; lk_controller := None; lk_address := Some [82; 84; 0; 1; 2; 3] |}.
Definition host_with (links : list Link) (addresses : list (Z * (Z * Z))) : NetHost :=
  {| nh_nl := Build_SimNet links addresses [{| dr_gateway := Some 167772161; dr_oif := Some 2 |}] 10;
     nh_kernel := fresh_tables; nh_files := ∅; nh_dhcp := ∅; nh_step := 0; nh_sent := [] |}.

Lemma bridge_move_order_witness : exists h' bi dels,
  bridge_interface "br0" "eth0" steady (host_with [eth0] [(2, (167772170, 24))]) = (h', Ok tt) /\
  nh_sent h' = [AddBridge "br0"; SetAddressUp bi [82; 84; 0; 1; 2; 3]; AddAddress bi 167772170 24; SetController 2 (Some bi)]
    ++ dels ++ [AddDefaultRoute 167772161 bi true].
Proof.
  assert ((bridge_interface "br0" "eth0" steady (host_with [eth0] [(2, (167772170, 24))])).2 = Ok tt) as Hok by by vm_compute.
  destruct (bridge_interface "br0" "eth0" steady (host_with [eth0] [(2, (167772170, 24))])) as [h' r] eqn:E.
  simpl in Hok. subst r.
  destruct (bridge_move_order "br0" "eth0" steady _ h' E) as (parent&mac&ip&prefix&bi&dels&gw&Hp&Hm&Ha&Hg&_&Hs).
  simpl in Hp. injection Hp as <-. simpl in Hm, Ha, Hg. injection Hm as <-. injection Ha as <- <-. subst gw.
  by exists h', bi, dels.
Defined.

(** The bridge of a network with one VM. *)
Definition vm_tap : Link :=
  {| lk_index := 7; lk_name := tap_name_for_net "a0eebc99" 0; lk_controller := Some 6; lk_address := None |}.
Definition bridge_link : Link := {| lk_index := 6; lk_name := "br1"; lk_controller := None; lk_address := None |}.
Definition vm_host : NetHost := host_with [eth0; bridge_link; vm_tap] [(2, (167772170, 24)); (6, (167837953, 24))].

Lemma detach_network_takes_tap_witness :
  nh_sent (detach_network "br1" "10.1.1.0/24" steady vm_host).1
    = [SetController 7 None; AddAddress 7 167837953 24; DelLink 6].
Proof.
  rewrite (detach_network_takes_tap "br1" "10.1.1.0/24" bridge_link vm_tap "a0eebc99" 0 steady vm_host); done.
Defined.

(** A network whose DHCP server could not be started stays half attached, and a second
    attempt is refused: its bridge exists. *)
Example attach_network_not_repeatable :
  let req := {| anr_bridge_name := "br1"; anr_subnet := "10.1.1.0/24"; anr_gateway := "10.1.1.1"; anr_dns := "none";
                anr_dhcp_range_start := "10.1.1.2"; anr_dhcp_range_end := "10.1.1.9"; anr_parent_interface := "" |} in
  let h1 := (attach_network req steady (host_with [eth0] [])).1 in
  (attach_network req steady (host_with [eth0] [])).2 = Err "Failed to start DHCP server: Invalid DNS IP"%string /\
  (attach_network (Build_AttachNetworkRequest "br1" "10.1.1.0/24" "10.1.1.1" "" "10.1.1.2" "10.1.1.9" "") steady h1).2
    = Err "Failed to create bridge: Failed to create bridge br1"%string.
Proof. split; by vm_compute. Qed.
