(* ===== verification/NodeVxlan.v ===== *)
(** * NodeVxlan: the overlays of a VPC on a node

    [qarax-node/src/networking/vxlan.rs]: the VXLAN devices of a host are brought in line
    with the overlays the server sends ([SyncVpcOverlays]).  The kernel keeps for every
    device its parameters, addresses, flood entries and static routes; an oracle may
    refuse any command.  What the tools print is a parameter ([IpTool]) with the
    documented form of the lines; the parsers are those of the source.

    After a synchronisation that succeeds every device has exactly the address, the peers
    and the routes of its overlay, and no other device of qarax is left. *)

From S2P Require Import Prelude Text Common Secrets Errors Tables NodeApi Ipv4 Netfilter NodeFirewall FirewallFacts NodeService.
From Stdlib Require Import Ascii.
#[local] Open Scope Z_scope.

(** ** State *)

Record VxDevice := {
  vx_vni : Z; vx_local : string; vx_port : Z; vx_nolearning : bool; vx_up : bool;
  vx_addresses : list string; vx_peers : list string; vx_routes : gmap string string
}.
(** The other links of the host are listed and may be deleted. *)
Record VxHost := { vh_devices : gmap string VxDevice; vh_others : list string; vh_step : nat }.
(** In step [n]: whether a command is refused, and the routes that go with an address. *)
Record VxOracle := { xo_refuse : nat -> option string; xo_lost : nat -> string -> bool }.
(** A command fails with what it wrote to its standard error. *)
Inductive VxError := CommandFailed (text : string) | InvalidOverlay (e : NetError).
(** The failures that mean that the device is not there. *)
Definition no_device (e : VxError) : bool :=
  match e with
  | CommandFailed text => contains "Cannot find device" text || contains "does not exist" text
  | InvalidOverlay _ => false
  end.

Definition QARAX_VXLAN_PREFIX : string := "qvx".
Definition VXLAN_FDB_MAC : string := "00:00:00:00:00:00".

Definition Vx (A : Type) : Type := VxOracle -> VxHost -> VxHost * result VxError A.
#[global] Instance Vx_ret : MRet Vx := fun A x o h => (h, Ok x).
#[global] Instance Vx_bind : MBind Vx := fun A B f m o h =>
  match m o h with
  | (h', Ok x) => f x o h'
  | (h', Err e) => (h', Err e)
  end.
Definition vx_of {A} (r : result VxError A) : Vx A := fun o h => (h, r).
Definition vx_throw {A} (e : VxError) : Vx A := fun o h => (h, Err e).
Definition vx_try {A} (m : Vx A) : Vx (result VxError A) := fun o h => let '(h', r) := m o h in (h', Ok r).
Fixpoint vx_each {A} (f : A -> Vx unit) (l : list A) : Vx unit :=
  match l with [] => mret tt | x :: l' => _ ← f x; vx_each f l' end.

Definition vx_tick (h : VxHost) : VxHost :=
  {| vh_devices := vh_devices h; vh_others := vh_others h; vh_step := S (vh_step h) |}.
Definition set_device (name : string) (d : VxDevice) (h : VxHost) : VxHost :=
  {| vh_devices := <[name := d]> (vh_devices h); vh_others := vh_others h; vh_step := vh_step h |}.
Definition drop_link (name : string) (h : VxHost) : VxHost :=
  {| vh_devices := delete name (vh_devices h); vh_others := List.filter (fun n => negb (String.eqb n name)) (vh_others h);
     vh_step := vh_step h |}.

(** A command: refused, or the kernel carries it out or rejects it. *)
Definition vx_command (f : VxOracle -> VxHost -> result VxError VxHost) : Vx unit := fun o h =>
  match xo_refuse o (vh_step h) with
  | Some text => (vx_tick h, Err (CommandFailed text))
  | None => match f o h with Ok h' => (vx_tick h', Ok tt) | Err e => (vx_tick h, Err e) end
  end.
(** A command that shows something. *)
Definition vx_show {A} (f : VxHost -> result VxError A) : Vx A := fun o h =>
  match xo_refuse o (vh_step h) with
  | Some text => (vx_tick h, Err (CommandFailed text))
  | None => (vx_tick h, f h)
  end.

Definition device (name : string) (h : VxHost) : result VxError VxDevice := 
  ok_or (CommandFailed ("Cannot find device" +:+ " " +:+ name)) (vh_devices h !! name).
Definition link_exists (name : string) (h : VxHost) : bool :=
  bool_decide (is_Some (vh_devices h !! name) \/ name ∈ vh_others h).
(** A command on a device; [None]: the kernel rejects it. *)
Definition on_device (name : string) (f : VxOracle -> nat -> VxDevice -> option VxDevice) : Vx unit :=
  vx_command (fun o h =>
    d ← device name h;
    d' ← ok_or (CommandFailed "RTNETLINK answers") (f o (vh_step h) d);
    Ok (set_device name d' h)).

Definition with_addresses (l : list string) (d : VxDevice) : VxDevice :=
  let 'Build_VxDevice v lo p n u _ pe r := d in Build_VxDevice v lo p n u l pe r.
Definition with_peers (l : list string) (d : VxDevice) : VxDevice :=
  let 'Build_VxDevice v lo p n u a _ r := d in Build_VxDevice v lo p n u a l r.
Definition with_routes (m : gmap string string) (d : VxDevice) : VxDevice :=
  let 'Build_VxDevice v lo p n u a pe _ := d in Build_VxDevice v lo p n u a pe m.
Definition set_up (d : VxDevice) : VxDevice :=
  let 'Build_VxDevice v lo p n _ a pe r := d in Build_VxDevice v lo p n true a pe r.

(** ** Parsing *)

(** The word after the first [key]. *)
Fixpoint after_word (key : string) (words : list string) : option string :=
  match words with
  | [] => None
  | w :: rest => if String.eqb w key then head rest else after_word key rest
  end.

Definition link_name (line : string) : option string :=
  '(_, rest) ← split_once ":"%char line;
  iface ← head (str_split ":"%char (trim rest));
  let iface := trim iface in
  if starts_with QARAX_VXLAN_PREFIX iface then Some iface else None.
Definition parse_links (output : string) : list string := omap link_name (str_lines output).
Definition parse_addresses (output : string) : list string :=
  omap (fun line => after_word "inet" (split_whitespace line)) (str_lines output).
Definition parse_peers (output : string) : list string :=
  omap (fun line => after_word "dst" (split_whitespace line))
    (List.filter (contains VXLAN_FDB_MAC) (str_lines output)).
Definition parse_route (line : string) : option (string * string) :=
  match split_whitespace line with
  | [] => None
  | subnet :: rest => (fun via => (subnet, via)) <$> after_word "via" rest
  end.
Definition parse_routes (output : string) : list (string * string) := omap parse_route (str_lines output).

(** What the tools print. *)
Class IpTool := {
  it_link : string -> string;
  it_detail : string -> VxDevice -> string;
  it_address : string -> string -> list string;
  it_flood : string -> string -> list string;
  it_route : string -> string -> string -> list string;
  it_link_spec : forall name, is_word name -> no_char ":"%char name ->
    plain_line (it_link name) = true /\
    link_name (it_link name) = if starts_with QARAX_VXLAN_PREFIX name then Some name else None;
  it_address_spec : forall name a, is_word name -> starts_with QARAX_VXLAN_PREFIX name = true -> is_word a ->
    Forall is_word (it_address name a) /\ after_word "inet" (it_address name a) = Some a;
  it_flood_spec : forall name p, is_word name -> is_word p ->
    Forall is_word (it_flood name p) /\ contains VXLAN_FDB_MAC (join " " (it_flood name p)) = true /\
    after_word "dst" (it_flood name p) = Some p;
  it_route_spec : forall name s via, is_word name -> is_word s -> is_word via ->
    Forall is_word (it_route name s via) /\
    exists rest, it_route name s via = s :: rest /\ after_word "via" rest = Some via
}.
Definition text_of_words (l : list (list string)) : string := text_of_lines (map (join " ") l).

Section overlays.
Context `{IpTool}.

(** ** Commands *)

Definition list_managed_interfaces : Vx (list string) :=
  vx_show (fun h => Ok (parse_links (text_of_lines (map it_link (vh_others h ++ (map_to_list (vh_devices h)).*1))))).

Definition link_del (name : string) : Vx unit :=
  vx_command (fun o h => if link_exists name h then Ok (drop_link name h)
                        else Err (CommandFailed ("Cannot find device" +:+ " " +:+ name))).
Definition delete_interface (name : string) : Vx unit :=
  _ ← vx_of (map_err InvalidOverlay (validate_iface_name name));
  r ← vx_try (link_del name);
  match r with
  | Ok _ => mret tt
  | Err e => if no_device e then mret tt else vx_throw e
  end.

Definition detail_matches (overlay : VpcOverlayConfig) (output : string) : bool :=
  contains ("vxlan id " +:+ pretty (vo_vni overlay)) output && contains ("local " +:+ vo_local_underlay_ip overlay) output
  && contains "dstport 4789" output && contains "nolearning" output.
(** A link that is not a VXLAN device prints none of the parameters: it is recreated, as is one
    that is missing. *)
Definition overlay_needs_recreate (overlay : VpcOverlayConfig) : Vx bool :=
  let name := vo_interface_name overlay in
  r ← vx_try (vx_show (fun h => it_detail name <$> device name h));
  match r with
  | Ok output => mret (negb (detail_matches overlay output))
  | Err e => if no_device e then mret true else vx_throw e
  end.

Definition new_device (overlay : VpcOverlayConfig) : VxDevice := {|
  vx_vni := vo_vni overlay; vx_local := vo_local_underlay_ip overlay; vx_port := 4789; vx_nolearning := true;
  vx_up := false; vx_addresses := []; vx_peers := []; vx_routes := ∅ |}.
Definition create_interface (overlay : VpcOverlayConfig) : Vx unit :=
  vx_command (fun o h =>
    if link_exists (vo_interface_name overlay) h then Err (CommandFailed "RTNETLINK answers: File exists")
    else Ok (set_device (vo_interface_name overlay) (new_device overlay) h)).

Definition address_del (name address : string) : Vx unit :=
  on_device name (fun o n d =>
    if bool_decide (address ∈ vx_addresses d)
    then Some (with_routes (filter (fun sv => xo_lost o n sv.1 = false) (vx_routes d))
                (with_addresses (List.filter (fun a => negb (String.eqb a address)) (vx_addresses d)) d))
    else None).
Definition address_replace (name address : string) : Vx unit :=
  on_device name (fun o n d =>
    Some (if bool_decide (address ∈ vx_addresses d) then d else with_addresses (vx_addresses d ++ [address]) d)).

Definition list_interface_addresses (name : string) : Vx (list string) :=
  vx_show (fun h => d ← device name h; Ok (parse_addresses (text_of_words (map (it_address name) (vx_addresses d))))).
Definition sync_interface_address (name local_overlay_cidr : string) : Vx unit :=
  addresses ← list_interface_addresses name;
  _ ← vx_each (fun a => if String.eqb a local_overlay_cidr then mret tt else address_del name a) addresses;
  address_replace name local_overlay_cidr.

Definition list_fdb_peer_ips (name : string) : Vx (list string) :=
  vx_show (fun h => d ← device name h;
    Ok (btree_set text_le (parse_peers (text_of_words (map (it_flood name) (vx_peers d)))))).
Definition difference (l l' : list string) : list string := List.filter (fun x => negb (bool_decide (x ∈ l'))) l.
Definition sync_fdb_entries (name : string) (peer_underlay_ips : list string) : Vx unit :=
  let desired_peers := btree_set text_le peer_underlay_ips in
  existing_peers ← list_fdb_peer_ips name;
  _ ← vx_each (fun p => on_device name (fun o n d =>
        if bool_decide (p ∈ vx_peers d) then Some (with_peers (List.filter (fun x => negb (String.eqb x p)) (vx_peers d)) d)
        else None)) (difference existing_peers desired_peers);
  vx_each (fun p => on_device name (fun o n d =>
        if bool_decide (p ∈ vx_peers d) then None else Some (with_peers (vx_peers d ++ [p]) d)))
    (difference desired_peers existing_peers).

Definition list_routes (name : string) : Vx (gmap string string) :=
  vx_show (fun h => d ← device name h;
    Ok (list_to_map (rev (parse_routes (text_of_words (map (fun sv => it_route name sv.1 sv.2) (map_to_list (vx_routes d)))))))).
(** A later route to the same subnet replaces an earlier one. *)
Definition desired_routes (routes : list VpcOverlayRoute) : gmap string string :=
  foldl (fun m r => <[vr_subnet r := vr_via_ip r]> m) ∅ routes.
Definition sync_routes (name : string) (routes : list VpcOverlayRoute) : Vx unit :=
  existing_routes ← list_routes name;
  _ ← vx_each (fun s => if bool_decide (is_Some (desired_routes routes !! s)) then mret tt
        else on_device name (fun o n d =>
          match vx_routes d !! s with
          | Some _ => Some (with_routes (delete s (vx_routes d)) d)
          | None => None
          end)) (merge_sort text_le (map_to_list existing_routes).*1);
  vx_each (fun r => on_device name (fun o n d =>
        Some (with_routes (<[vr_subnet r := vr_via_ip r]> (vx_routes d)) d))) routes.

(** ** Reconciliation *)

Definition validate_overlay (overlay : VpcOverlayConfig) : result NetError unit :=
  _ ← validate_iface_name (vo_interface_name overlay);
  _ ← validate_ipv4_address (vo_local_underlay_ip overlay);
  _ ← validate_ipv4_cidr (vo_local_overlay_cidr overlay);
  _ ← for_each validate_ipv4_address (vo_peer_underlay_ips overlay);
  for_each (fun r => _ ← validate_ipv4_cidr (vr_subnet r); validate_ipv4_address (vr_via_ip r)) (vo_routes overlay).

Definition reconcile_overlay (overlay : VpcOverlayConfig) : Vx unit :=
  let name := vo_interface_name overlay in
  _ ← vx_of (map_err InvalidOverlay (validate_overlay overlay));
  recreate ← overlay_needs_recreate overlay;
  _ ← (if recreate : bool then _ ← delete_interface name; create_interface overlay else mret tt);
  _ ← sync_interface_address name (vo_local_overlay_cidr overlay);
  _ ← on_device name (fun o n d => Some (set_up d));
  _ ← sync_fdb_entries name (vo_peer_underlay_ips overlay);
  sync_routes name (vo_routes overlay).

Definition sync_vpc_overlays (overlays : list VpcOverlayConfig) : Vx unit :=
  let desired_ifaces := map vo_interface_name overlays in
  _ ← vx_each reconcile_overlay overlays;
  ifaces ← list_managed_interfaces;
  vx_each (fun iface => if bool_decide (iface ∈ desired_ifaces) then mret tt else delete_interface iface) ifaces.

(** ** Outcomes *)

Definition refused (o : VxOracle) : Prop := exists n t, xo_refuse o n = Some t.

(** A run yields [Q], or fails because a command was refused. *)
Definition yields {A} (o : VxOracle) (h : VxHost) (m : Vx A) (Q : A -> VxHost -> Prop) : Prop :=
  match m o h with
  | (h', Ok x) => Q x h'
  | (_, Err _) => refused o
  end.

Lemma yields_bind {A B} o h (m : Vx A) (f : A -> Vx B) Q :
  yields o h m (fun x h' => yields o h' (f x) Q) -> yields o h (m ≫= f) Q.
Proof.
  unfold yields, mbind, Vx_bind. destruct (m o h) as [h' [x|e]]; done.
Qed.

Lemma yields_mono {A} o h (m : Vx A) Q Q' :
  yields o h m Q -> (forall x h', Q x h' -> Q' x h') -> yields o h m Q'.
Proof. unfold yields. intros Hm HQ. destruct (m o h) as [h' [x|e]]; auto. Qed.

Lemma yields_each {A} o (f : A -> Vx unit) (Inv : list A -> VxHost -> Prop) l h :
  Inv l h -> (forall x l' h, Inv (x :: l') h -> yields o h (f x) (fun _ h' => Inv l' h')) ->
  yields o h (vx_each f l) (fun _ h' => Inv [] h').
Proof.
  intros Hl Hf. revert h Hl. induction l as [|x l IH]; intros h Hl; simpl; [done|].
  apply yields_bind. eapply yields_mono; [by apply Hf|]. intros ? h' Hh. by apply IH.
Qed.

Definition same_links (h h' : VxHost) : Prop := vh_devices h' = vh_devices h /\ vh_others h' = vh_others h.

Lemma yields_show {A} o h (f : VxHost -> result VxError A) x Q :
  f h = Ok x -> (forall h', same_links h h' -> Q x h') -> yields o h (vx_show f) Q.
Proof.
  unfold yields, vx_show. intros Hf HQ. destruct (xo_refuse o (vh_step h)) eqn:Ho; [by exists (vh_step h), s|].
  rewrite Hf. by apply HQ.
Qed.

(** Only the link [name] differs from [h0]; it is a device that satisfies [P]. *)
Definition at_device (name : string) (h0 : VxHost) (P : VxDevice -> Prop) (h : VxHost) : Prop :=
  (forall n, n <> name -> vh_devices h !! n = vh_devices h0 !! n /\ (n ∈ vh_others h <-> n ∈ vh_others h0)) /\
  exists d, vh_devices h !! name = Some d /\ P d.

Lemma at_device_same name h0 P h h' : same_links h h' -> at_device name h0 P h -> at_device name h0 P h'.
Proof. unfold at_device. by intros [-> ->]. Qed.

Lemma yields_on_device o name f h0 P P' h :
  at_device name h0 P h -> (forall d n, P d -> exists d', f o n d = Some d' /\ P' d') ->
  yields o h (on_device name f) (fun _ h' => at_device name h0 P' h').
Proof.
  intros [Hn [d [Hd HP]]] Hf. destruct (Hf d (vh_step h) HP) as [d' [Hd' HP']].
  unfold yields, on_device, vx_command. destruct (xo_refuse o (vh_step h)) eqn:Ho; [by exists (vh_step h), s|].
  unfold device. rewrite Hd. simpl. unfold mbind, result_bind. simpl. rewrite Hd'. simpl. split.
  - intros n Hne. simpl. rewrite lookup_insert_ne by done. by apply Hn.
  - exists d'. split; [|done]. simpl. by rewrite lookup_insert_eq.
Qed.

(** ** What the tools print *)

Lemma word_plain w : is_word w -> plain_line w = true.
Proof.
  intros [_ Hw]. unfold plain_line. apply forallb_forall. intros c Hc. apply list_elem_of_In in Hc.
  rewrite Forall_forall in Hw. specialize (Hw c Hc).
  destruct (Ascii.eqb_spec c newline) as [->|]; [done|]. by destruct (Ascii.eqb_spec c (ascii_of_nat 13)) as [->|].
Qed.

Lemma plain_line_app s t : plain_line (s +:+ t) = plain_line s && plain_line t.
Proof. unfold plain_line. rewrite list_ascii_app, forallb_app. done. Qed.

Lemma words_plain l : Forall is_word l -> plain_line (join " " l) = true.
Proof.
  induction 1 as [|w l Hw _ IH]; [done|]. destruct l as [|v l]; [by apply word_plain|].
  change (join " " (w :: v :: l)) with (w +:+ " " +:+ join " " (v :: l)).
  rewrite !plain_line_app, IH, word_plain by done. done.
Qed.

(** Reading back lines of words. *)
Lemma lines_of_words l : Forall (Forall is_word) l -> str_lines (text_of_words l) = map (join " ") l.
Proof.
  intros Hl. unfold text_of_words. apply str_lines_of. rewrite forallb_forall. intros s Hs.
  apply in_map_iff in Hs as [ws [<- Hin]]. apply list_elem_of_In in Hin. rewrite Forall_forall in Hl.
  by apply words_plain, Hl.
Qed.

Lemma omap_map_some {A B C} (f : B -> option C) (g : A -> B) (k : A -> C) l :
  (forall x, x ∈ l -> f (g x) = Some (k x)) -> omap f (map g l) = map k l.
Proof.
  induction l as [|x l IH]; intros Hl; [done|]. simpl. rewrite (Hl x) by left. simpl. f_equal.
  apply IH. intros y Hy. apply Hl. by right.
Qed.

(** ** Well-formed hosts *)

(** What the kernel guarantees of a device: its texts are words, no address or flood entry
    appears twice. *)
Definition device_wf (d : VxDevice) : Prop :=
  Forall is_word (vx_addresses d) /\ NoDup (vx_addresses d) /\ Forall is_word (vx_peers d) /\ NoDup (vx_peers d) /\
  map_Forall (fun s v => is_word s /\ is_word v) (vx_routes d).

Lemma parse_addresses_printed name l :
  is_word name -> starts_with QARAX_VXLAN_PREFIX name = true -> Forall is_word l ->
  parse_addresses (text_of_words (map (it_address name) l)) = l.
Proof.
  intros Hn Hp Hl. unfold parse_addresses. rewrite lines_of_words, map_map.
  - rewrite <- (map_id l) at 2. apply omap_map_some. intros a Ha. rewrite Forall_forall in Hl.
    destruct (it_address_spec name a Hn Hp (Hl a Ha)) as [Hw Hi]. by rewrite split_whitespace_join.
  - rewrite Forall_map. eapply Forall_impl; [exact Hl|]. intros a Ha. by apply it_address_spec.
Qed.

Lemma parse_peers_printed name l :
  is_word name -> Forall is_word l -> parse_peers (text_of_words (map (it_flood name) l)) = l.
Proof.
  intros Hn Hl. unfold parse_peers. rewrite lines_of_words, map_map.
  - replace (List.filter _ _) with (map (fun p => join " " (it_flood name p)) l).
    + rewrite <- (map_id l) at 2. apply omap_map_some. intros a Ha. rewrite Forall_forall in Hl.
      destruct (it_flood_spec name a Hn (Hl a Ha)) as (Hw & _ & Hi). by rewrite split_whitespace_join.
    + symmetry. apply forallb_filter_id, forallb_forall. intros s Hs. apply in_map_iff in Hs as [p [<- Hin]].
      rewrite Forall_forall in Hl. apply it_flood_spec; [done|]. apply Hl. by apply list_elem_of_In.
  - rewrite Forall_map. eapply Forall_impl; [exact Hl|]. intros a Ha. by apply it_flood_spec.
Qed.

Lemma parse_routes_printed name l :
  is_word name -> Forall (fun sv => is_word sv.1 /\ is_word sv.2) l ->
  parse_routes (text_of_words (map (fun sv => it_route name sv.1 sv.2) l)) = l.
Proof.
  intros Hn Hl. unfold parse_routes. rewrite lines_of_words, map_map.
  - rewrite <- (map_id l) at 2. apply omap_map_some. intros [s v] Hsv. rewrite Forall_forall in Hl.
    destruct (Hl _ Hsv) as [Hs Hv]. destruct (it_route_spec name s v Hn Hs Hv) as (Hw & rest & Hr & Hi).
    unfold parse_route. cbn [fst snd] in *. rewrite split_whitespace_join by done. by rewrite Hr, Hi.
  - rewrite Forall_map. eapply Forall_impl; [exact Hl|]. intros [s v] [Hs Hv]. by apply it_route_spec.
Qed.

Lemma listed_routes name m :
  is_word name -> map_Forall (fun s v => is_word s /\ is_word v) m ->
  list_to_map (rev (parse_routes (text_of_words (map (fun sv => it_route name sv.1 sv.2) (map_to_list m))))) = m.
Proof.
  intros Hn Hm. rewrite parse_routes_printed; 
    [|done|rewrite map_Forall_to_list in Hm; eapply Forall_impl; [exact Hm|]; by intros [??]].
  rewrite <- (list_to_map_to_list m) at 2. apply list_to_map_proper.
  - rewrite map_rev. change (rev ?l) with (List.rev l). rewrite <- (Permutation_rev (map fst _)). apply NoDup_fst_map_to_list.
  - symmetry. apply Permutation_rev.
Qed.

(** ** Bringing a device in line *)

Definition parameters (d : VxDevice) : Z * string * Z * bool := (vx_vni d, vx_local d, vx_port d, vx_nolearning d).
Definition peers_wf (d : VxDevice) : Prop := Forall is_word (vx_peers d) /\ NoDup (vx_peers d).
Definition routes_wf (d : VxDevice) : Prop := map_Forall (fun s v => is_word s /\ is_word v) (vx_routes d).

Lemma elem_filter_ne a x (l : list string) : x ∈ List.filter (fun y => negb (String.eqb y a)) l <-> x ∈ l /\ x <> a.
Proof.
  rewrite !list_elem_of_In, filter_In. destruct (String.eqb_spec x a); simpl; intuition done.
Qed.

Lemma nodup_filter_bool {A} (f : A -> bool) (l : list A) : NoDup l -> NoDup (List.filter f l).
Proof. rewrite !NoDup_ListNoDup. apply List.NoDup_filter. Qed.

Lemma nodup_all_same (l : list string) x : NoDup l -> (forall y, y ∈ l -> y = x) -> x ∈ l -> l = [x].
Proof.
  intros Hnd Hall Hx. destruct l as [|a [|b l]]; [by apply not_elem_of_nil in Hx| |].
  - by rewrite (Hall a) by left.
  - exfalso. apply NoDup_cons in Hnd as [Ha _]. apply Ha. rewrite (Hall a) by left. rewrite (Hall b) by (right; left). left.
Qed.

Lemma sync_address_yields o name cidr q h0 h :
  is_word name -> starts_with QARAX_VXLAN_PREFIX name = true ->
  at_device name h0 (fun d => device_wf d /\ parameters d = q) h ->
  yields o h (sync_interface_address name cidr) (fun _ => at_device name h0 (fun d =>
    vx_addresses d = [cidr] /\ peers_wf d /\ routes_wf d /\ parameters d = q)).
Proof.
  intros Hn Hp [Ho [d0 [Hd0 [(Hw & Hnd & Hpw & Hpn & Hr) Hq]]]].
  apply yields_bind. eapply yields_show.
  { unfold device. rewrite Hd0. cbn. by rewrite parse_addresses_printed. }
  intros h' Hs. apply yields_bind. eapply yields_mono.
  { apply (yields_each o _ (fun l => at_device name h0 (fun d =>
      ((forall a, a ∈ l -> a <> cidr -> a ∈ vx_addresses d) /\ (forall a, a ∈ vx_addresses d -> a = cidr \/ a ∈ l) /\
       NoDup l /\ NoDup (vx_addresses d)) /\ peers_wf d /\ routes_wf d /\ parameters d = q))).
    - apply (at_device_same _ _ _ h); [done|]. split; [done|]. exists d0. split_and!; auto. by split.
    - intros x l h1 Hh. destruct (String.eqb_spec x cidr) as [->|Hx].
      + unfold yields, mret, Vx_ret. destruct Hh as [Hh1 [d [Hd [(H1 & H2 & H3 & H4) H5]]]].
        split; [done|]. exists d. apply NoDup_cons in H3 as [H3 H3']. split_and!; try apply H5; auto.
        * intros a Ha. apply H1. by right.
        * intros a Ha. destruct (H2 a Ha) as [|Hi]; [by left|]. apply elem_of_cons in Hi as [|]; auto.
      + eapply yields_on_device; [exact Hh|]. intros d n [(H1 & H2 & H3 & H4) (H5 & H6 & H7)].
        rewrite bool_decide_true by (apply H1; [left|done]). eexists; split; [done|].
        apply NoDup_cons in H3 as [H3 H3']. destruct d. cbn in *. split_and!; auto.
        * intros a Ha Hc. apply elem_filter_ne. split; [apply H1; [by right|done]|]. by intros ->.
        * intros a [Ha Hax]%elem_filter_ne. destruct (H2 a Ha) as [|Hi]; [by left|].
          apply elem_of_cons in Hi as [|]; [done|auto].
        * by apply nodup_filter_bool.
        * intros i v [Hi _]%map_lookup_filter_Some. by apply H6. }
  intros [] h1 Hh. eapply yields_on_device; [exact Hh|].
  intros d n [(_ & H2 & _ & H4) (H5 & H6 & H7)]. eexists; split; [done|]. case_bool_decide as Hin.
  - split_and!; try apply H5; try done. apply nodup_all_same; [done| |done].
    intros y Hy. destruct (H2 y Hy) as [|Hi]; [done|]. by apply not_elem_of_nil in Hi.
  - destruct d as [v lo p nl u [|a l] pe r]; cbn in *; [split_and!; try apply H5; done|]. exfalso. apply Hin.
    destruct (H2 a) as [->|Hi]; [left|left|]. by apply not_elem_of_nil in Hi.
Qed.

Lemma elem_difference x l l' : x ∈ difference l l' <-> x ∈ l /\ x ∉ l'.
Proof.
  unfold difference. rewrite !list_elem_of_In, filter_In, <- !list_elem_of_In. case_bool_decide; simpl; naive_solver.
Qed.

Lemma btree_set_nodup (l : list string) : NoDup (btree_set text_le l).
Proof. unfold btree_set. rewrite merge_sort_Permutation. apply NoDup_remove_dups. Qed.

Lemma sync_fdb_yields o name peers K h0 h :
  is_word name -> (forall d l, K d -> K (with_peers l d)) ->
  at_device name h0 (fun d => peers_wf d /\ K d) h ->
  yields o h (sync_fdb_entries name peers) (fun _ => at_device name h0 (fun d =>
    NoDup (vx_peers d) /\ (forall p, p ∈ vx_peers d <-> p ∈ peers) /\ K d)).
Proof.
  intros Hn HK [Ho [d0 [Hd0 [[Hw Hnd] HK0]]]].
  set (want := btree_set text_le peers). set (have := btree_set text_le (vx_peers d0)).
  assert (Hwant : forall p, p ∈ want <-> p ∈ peers) by (intros; apply elem_of_btree_set).
  assert (Hhave : forall p, p ∈ have <-> p ∈ vx_peers d0) by (intros; apply elem_of_btree_set).
  apply yields_bind. eapply (yields_show _ _ _ have).
  { unfold device. rewrite Hd0. cbn. by rewrite parse_peers_printed. }
  intros h' Hs. apply yields_bind. eapply yields_mono.
  { apply (yields_each o _ (fun l => at_device name h0 (fun d =>
      (NoDup l /\ (forall p, p ∈ l -> p ∈ have /\ p ∉ want) /\ NoDup (vx_peers d) /\
       (forall p, p ∈ vx_peers d <-> p ∈ have /\ (p ∈ want \/ p ∈ l))) /\ K d))).
    - apply (at_device_same _ _ _ h); [done|]. split; [done|]. exists d0. split_and!; auto.
      + apply nodup_filter_bool, btree_set_nodup.
      + intros p Hp. by apply elem_difference.
      + intros p. rewrite elem_difference, Hhave. destruct (decide (p ∈ want)); tauto.
    - intros x l h1 Hh. eapply yields_on_device; [exact Hh|]. intros d n [(H1 & H2 & H3 & H4) H5].
      apply NoDup_cons in H1 as [Hx H1]. destruct (H2 x) as [Hxh Hxw]; [left|].
      rewrite bool_decide_true by (apply H4; split; [done|]; right; left). eexists; split; [done|].
      split; [|by apply HK]. destruct d. cbn in *. split_and!; [done| | |].
      + intros p Hp. apply H2. by right.
      + by apply nodup_filter_bool.
      + intros p. rewrite elem_filter_ne, H4, elem_of_cons. split; [tauto|]. intros [Hp [Hp'|Hp']]; split; auto; by intros ->. }
  intros [] h1 Hh. eapply yields_mono.
  { apply (yields_each o _ (fun l => at_device name h0 (fun d =>
      (NoDup l /\ (forall p, p ∈ l -> p ∉ vx_peers d) /\ NoDup (vx_peers d) /\
       (forall p, p ∈ vx_peers d \/ p ∈ l <-> p ∈ want)) /\ K d))).
    - destruct Hh as [Hh1 [d [Hd [(_ & _ & H3 & H4) H5]]]]. split; [done|]. exists d. split_and!; auto.
      + apply nodup_filter_bool, btree_set_nodup.
      + intros p [Hp Hp']%elem_difference Hi. apply Hp'. by apply H4 in Hi as [Hi _].
      + intros p. rewrite elem_difference, H4, elem_of_nil. destruct (decide (p ∈ have)); tauto.
    - intros x l h2 Hh2. eapply yields_on_device; [exact Hh2|]. intros d n [(H1 & H2 & H3 & H4) H5].
      apply NoDup_cons in H1 as [Hx H1]. rewrite bool_decide_false by (apply H2; left). eexists; split; [done|].
      split; [|by apply HK]. destruct d. cbn in *. split_and!; [done| | |].
      + intros p Hp. rewrite elem_of_app, elem_of_cons, elem_of_nil. intros [Hi|[->|[]]]; [|done]. by apply (H2 p); [right|].
      + apply NoDup_app. split_and!; [done| |apply NoDup_singleton]. intros y Hy ->%list_elem_of_singleton. by apply (H2 x); [left|].
      + intros p. rewrite elem_of_app, list_elem_of_singleton, <- H4, elem_of_cons. tauto. }
  intros [] h2 [Hh1 [d [Hd [(_ & _ & H3 & H4) H5]]]]. split; [done|]. exists d. split_and!; auto.
  intros p. rewrite <- Hwant, <- H4, elem_of_nil. tauto.
Qed.

Lemma routes_over (m : gmap string string) l s :
  foldl (fun m r => <[vr_subnet r := vr_via_ip r]> m) m l !! s =
  match desired_routes l !! s with Some v => Some v | None => m !! s end.
Proof.
  unfold desired_routes. induction l as [|r l IH] using rev_ind; simpl; [by rewrite lookup_empty|].
  rewrite !foldl_app. simpl. destruct (decide (vr_subnet r = s)) as [<-|Hne]; [by rewrite !lookup_insert_eq|].
  by rewrite !lookup_insert_ne.
Qed.

Lemma sync_routes_yields o name routes K h0 h :
  is_word name -> (forall d m, K d -> K (with_routes m d)) ->
  at_device name h0 (fun d => routes_wf d /\ K d) h ->
  yields o h (sync_routes name routes) (fun _ => at_device name h0 (fun d =>
    vx_routes d = desired_routes routes /\ K d)).
Proof.
  intros Hn HK [Ho [d0 [Hd0 [Hr HK0]]]].
  apply yields_bind. eapply (yields_show _ _ _ (vx_routes d0)).
  { unfold device. rewrite Hd0. cbn. by rewrite listed_routes. }
  intros h' Hs. apply yields_bind. eapply yields_mono.
  { apply (yields_each o _ (fun l => at_device name h0 (fun d =>
      (NoDup l /\ (forall s, s ∈ l -> is_Some (vx_routes d !! s)) /\
       (forall s, is_Some (vx_routes d !! s) -> is_Some (desired_routes routes !! s) \/ s ∈ l)) /\ K d))).
    - apply (at_device_same _ _ _ h); [done|]. split; [done|]. exists d0.
      assert (Hk : forall s, s ∈ merge_sort text_le (map_to_list (vx_routes d0)).*1 <-> is_Some (vx_routes d0 !! s)).
      { intros s. rewrite merge_sort_Permutation, list_elem_of_fmap. split.
        - intros [[k v] [-> Hkv]]. apply elem_of_map_to_list in Hkv. by exists v.
        - intros [v Hv]. exists (s, v). split; [done|]. by apply elem_of_map_to_list. }
      split_and!; auto; [rewrite merge_sort_Permutation; apply NoDup_fst_map_to_list| |]; intros s Hs'; [by apply Hk|].
      right. by apply Hk.
    - intros x l h1 Hh. case_bool_decide as Hx.
      + unfold yields, mret, Vx_ret. destruct Hh as [Hh1 [d [Hd [(H1 & H2 & H3) H5]]]]. split; [done|]. exists d.
        apply NoDup_cons in H1 as [H1 H1']. split_and!; auto.
        * intros s Hs'. apply H2. by right.
        * intros s Hs'. destruct (H3 s Hs') as [|Hi]; [by left|]. apply elem_of_cons in Hi as [->|]; auto.
      + eapply yields_on_device; [exact Hh|]. intros d n [(H1 & H2 & H3) H5]. apply NoDup_cons in H1 as [H1 H1'].
        destruct (H2 x) as [v Hv]; [left|]. rewrite Hv. eexists; split; [done|]. split; [|by apply HK].
        destruct d. cbn in *. split_and!; [done| |].
        * intros s Hs'. rewrite lookup_delete_ne by (by intros ->). apply H2. by right.
        * intros s Hs'. apply lookup_delete_is_Some in Hs' as [Hne Hs']. destruct (H3 s Hs') as [|Hi]; [by left|].
          apply elem_of_cons in Hi as [|]; [done|auto]. }
  intros [] h1 Hh. eapply yields_mono.
  { apply (yields_each o _ (fun l => at_device name h0 (fun d =>
      (exists prev m, routes = prev ++ l /\ vx_routes d = foldl (fun m r => <[vr_subnet r := vr_via_ip r]> m) m prev /\
        (forall s, is_Some (m !! s) -> is_Some (desired_routes routes !! s))) /\ K d))).
    - destruct Hh as [Hh1 [d [Hd [(_ & _ & H3) H5]]]]. split; [done|]. exists d. split_and!; [done| |done].
      exists [], (vx_routes d). split_and!; [done..|]. intros s Hs'. destruct (H3 s Hs') as [|Hi]; [done|].
      by apply not_elem_of_nil in Hi.
    - intros x l h2 Hh2. eapply yields_on_device; [exact Hh2|]. intros d n [(prev & m & H1 & H2 & H3) H5].
      eexists; split; [done|]. split; [|by apply HK]. exists (prev ++ [x]), m. split_and!; [by rewrite <- app_assoc| |done].
      destruct d. cbn in *. by rewrite foldl_app, H2. }
  intros [] h2 [Hh1 [d [Hd [(prev & m & H1 & H2 & H3) H5]]]]. split; [done|]. exists d. split_and!; auto.
  rewrite app_nil_r in H1. subst prev. rewrite H2. apply map_eq. intros s. rewrite routes_over.
  destruct (desired_routes routes !! s) eqn:E; [done|]. destruct (m !! s) eqn:Em; [|done].
  destruct (H3 s) as [v Hv]; [by eexists|]. by rewrite E in Hv.
Qed.

(** ** Reconciling an overlay *)

(** No refusal reads like the message for a missing device. *)
Definition honest (o : VxOracle) : Prop := forall n t, xo_refuse o n = Some t -> no_device (CommandFailed t) = false.

Lemma missing_device_text name : no_device (CommandFailed ("Cannot find device" +:+ " " +:+ name)) = true.
Proof. unfold no_device. by rewrite contains_self. Qed.

Lemma validate_overlay_iface overlay :
  validate_overlay overlay = Ok tt -> validate_iface_name (vo_interface_name overlay) = Ok tt.
Proof. unfold validate_overlay. by destruct (validate_iface_name _) as [[]|]. Qed.

Lemma yields_of {A} o h e (x : A) Q : Q x h -> yields o h (vx_of (map_err e (Ok x : result NetError A))) Q.
Proof. done. Qed.

(** Everything but [name] is as in [h]. *)
Definition only_link (name : string) (h h' : VxHost) : Prop :=
  forall n, n <> name -> vh_devices h' !! n = vh_devices h !! n /\ (n ∈ vh_others h' <-> n ∈ vh_others h).
Definition no_link (name : string) (h : VxHost) : Prop := vh_devices h !! name = None /\ name ∉ vh_others h.

Lemma link_exists_false name h : link_exists name h = false <-> no_link name h.
Proof.
  unfold link_exists, no_link. rewrite bool_decide_eq_false, eq_None_not_Some. tauto.
Qed.

Lemma delete_interface_yields o name h :
  honest o -> validate_iface_name name = Ok tt ->
  yields o h (delete_interface name) (fun _ h' => only_link name h h' /\ no_link name h').
Proof.
  intros Hh Hv. unfold delete_interface. rewrite Hv. apply yields_bind, yields_of, yields_bind.
  unfold yields, vx_try, link_del, vx_command. destruct (xo_refuse o (vh_step h)) eqn:Ho.
  { rewrite (Hh _ _ Ho). simpl. by eexists _, _. }
  destruct (link_exists name h) eqn:He; cbv beta iota.
  - split.
    + intros n Hn. simpl. rewrite lookup_delete_ne by done. split; [done|]. rewrite elem_filter_ne. tauto.
    + split; simpl; [by rewrite lookup_delete_eq|]. rewrite elem_filter_ne. tauto.
  - rewrite missing_device_text. split; [done|]. by apply link_exists_false in He.
Qed.

Lemma needs_recreate_yields o overlay h :
  honest o ->
  yields o h (overlay_needs_recreate overlay) (fun b h' => same_links h h' /\
    (b = false -> exists d, vh_devices h !! vo_interface_name overlay = Some d /\
                     detail_matches overlay (it_detail (vo_interface_name overlay) d) = true)).
Proof.
  intros Hh. unfold overlay_needs_recreate. apply yields_bind. unfold yields, vx_try, vx_show.
  destruct (xo_refuse o (vh_step h)) eqn:Ho.
  { rewrite (Hh _ _ Ho). simpl. by eexists _, _. }
  unfold device. destruct (vh_devices h !! vo_interface_name overlay) as [d|] eqn:Hd; cbv beta iota.
  - split; [done|]. intros Hm. exists d. split; [done|]. by apply negb_false_iff.
  - unfold ok_or, fmap, result_fmap. cbv beta iota. rewrite missing_device_text. done.
Qed.

Lemma create_interface_yields o overlay h :
  no_link (vo_interface_name overlay) h ->
  yields o h (create_interface overlay) (fun _ => at_device (vo_interface_name overlay) h (eq (new_device overlay))).
Proof.
  intros Hn. apply link_exists_false in Hn. unfold yields, create_interface, vx_command.
  destruct (xo_refuse o (vh_step h)) eqn:Ho; [by eexists _, _|]. rewrite Hn. split.
  - intros n Hne. cbn. by rewrite lookup_insert_ne.
  - exists (new_device overlay). cbn. by rewrite lookup_insert_eq.
Qed.

Lemma at_device_only name h0 h P h' : only_link name h0 h -> at_device name h P h' -> at_device name h0 P h'.
Proof.
  intros Hl [Ho Hd]. split; [|done]. intros n Hn. destruct (Hl n Hn) as [<- <-]. by apply Ho.
Qed.

Lemma at_device_mono name h0 (P P' : VxDevice -> Prop) h :
  at_device name h0 P h -> (forall d, P d -> P' d) -> at_device name h0 P' h.
Proof. intros [Ho [d [Hd HP]]] HPP. split; [done|]. exists d. auto. Qed.

(** The parameters of the device an overlay ends up with: those of the overlay, or those of
    the device that was there when what the tool prints of it looked right. *)
Definition overlay_parameters (h0 : VxHost) (overlay : VpcOverlayConfig) (q : Z * string * Z * bool) : Prop :=
  q = parameters (new_device overlay) \/
  exists d0, vh_devices h0 !! vo_interface_name overlay = Some d0 /\ q = parameters d0 /\
    detail_matches overlay (it_detail (vo_interface_name overlay) d0) = true.

Definition in_place (h0 : VxHost) (overlay : VpcOverlayConfig) (d : VxDevice) : Prop :=
  vx_up d = true /\ vx_addresses d = [vo_local_overlay_cidr overlay] /\
  NoDup (vx_peers d) /\ (forall p, p ∈ vx_peers d <-> p ∈ vo_peer_underlay_ips overlay) /\
  vx_routes d = desired_routes (vo_routes overlay) /\ overlay_parameters h0 overlay (parameters d).

Lemma recreate_yields o overlay h :
  honest o -> validate_iface_name (vo_interface_name overlay) = Ok tt ->
  (forall d, vh_devices h !! vo_interface_name overlay = Some d -> device_wf d) ->
  yields o h (recreate ← overlay_needs_recreate overlay;
              if recreate : bool then _ ← delete_interface (vo_interface_name overlay); create_interface overlay else mret tt)
    (fun _ => at_device (vo_interface_name overlay) h (fun d => device_wf d /\ overlay_parameters h overlay (parameters d))).
Proof.
  intros Ho Hv Hwf. apply yields_bind. eapply yields_mono; [by apply needs_recreate_yields|].
  intros b h1 [[Hs1 Hs2] Hb]. destruct b.
  - apply yields_bind. eapply yields_mono; [by apply delete_interface_yields|]. intros [] h2 [Hl Hn].
    eapply yields_mono; [by apply create_interface_yields|]. intros [] h3 Hd.
    apply (at_device_only _ h h2) in Hd; [|intros n Hne; rewrite <- Hs1, <- Hs2; by apply Hl].
    eapply at_device_mono; [exact Hd|]. intros ? <-. split; [|by left].
    split_and!; cbn; first [apply map_Forall_empty | constructor].
  - destruct (Hb eq_refl) as [d [Hd Hm]]. unfold yields, mret, Vx_ret. split.
    + intros n Hn. by rewrite Hs1, Hs2.
    + exists d. rewrite Hs1. split_and!; [done|by apply Hwf|]. right. by exists d.
Qed.

Lemma reconcile_yields o overlay h :
  honest o -> validate_overlay overlay = Ok tt -> starts_with QARAX_VXLAN_PREFIX (vo_interface_name overlay) = true ->
  (forall d, vh_devices h !! vo_interface_name overlay = Some d -> device_wf d) ->
  yields o h (reconcile_overlay overlay) (fun _ => at_device (vo_interface_name overlay) h (in_place h overlay)).
Proof.
  intros Ho Hv Hp Hwf. pose proof (validate_overlay_iface _ Hv) as Hi. pose proof (iface_word _ Hi) as Hw.
  unfold reconcile_overlay. rewrite Hv. apply yields_bind, yields_of.
  pose proof (recreate_yields o overlay h Ho Hi Hwf) as Hr. revert Hr. set (name := vo_interface_name overlay) in *.
  unfold yields at 1, mbind at 1, Vx_bind at 1. intros Hr. apply yields_bind. unfold yields at 1.
  destruct (overlay_needs_recreate overlay o h) as [h1 [b|e]]; [|done]. apply yields_bind. unfold yields at 1.
  match type of Hr with context [match ?m with _ => _ end] => destruct m as [h2 [[]|e]] end; [|done].
  destruct Hr as [Hl [d [Hd [Hdw Hq]]]].
  apply yields_bind. eapply yields_mono.
  { apply (sync_address_yields _ _ _ (parameters d) h); [done..|]. split; [done|]. by exists d. }
  intros [] h3 H3. apply yields_bind. eapply yields_mono.
  { apply (yields_on_device _ _ _ _ _ (fun d' => peers_wf d' /\ (vx_up d' = true /\
      vx_addresses d' = [vo_local_overlay_cidr overlay] /\ routes_wf d' /\ parameters d' = parameters d)) _ H3).
    intros d' n (Ha & Hpw & Hrw & Hpar). eexists; split; [done|]. by destruct d'. }
  intros [] h4 H4. apply yields_bind. eapply yields_mono.
  { apply sync_fdb_yields; [done| |exact H4]. by intros [] l. }
  intros [] h5 H5. eapply yields_mono.
  { apply (sync_routes_yields _ _ _ (fun d' => (NoDup (vx_peers d') /\
      (forall p, p ∈ vx_peers d' <-> p ∈ vo_peer_underlay_ips overlay)) /\
      vx_up d' = true /\ vx_addresses d' = [vo_local_overlay_cidr overlay] /\ parameters d' = parameters d) h);
      [done|by intros []|]. eapply at_device_mono; [exact H5|]. intros d'; simpl. tauto. }
  intros [] h6 H6. eapply at_device_mono; [exact H6|]. unfold in_place.
  intros d' (Hr' & (Hp1 & Hp2) & Hu & Ha & ->). split_and!; done.
Qed.

(** ** Synchronisation *)

(** The names of the links are words without a colon; those of qarax are valid. *)
Definition name_wf (name : string) : Prop :=
  is_word name /\ no_char ":"%char name /\
  (starts_with QARAX_VXLAN_PREFIX name = true -> validate_iface_name name = Ok tt).
Definition host_wf (h : VxHost) : Prop :=
  Forall name_wf (vh_others h) /\ map_Forall (fun name d => name_wf name /\ device_wf d) (vh_devices h).
(** What the server sends: valid overlays, each with a device name of its own. *)
Definition overlay_wf (overlay : VpcOverlayConfig) : Prop :=
  validate_overlay overlay = Ok tt /\ starts_with QARAX_VXLAN_PREFIX (vo_interface_name overlay) = true /\
  no_char ":"%char (vo_interface_name overlay).

Definition link_names (h : VxHost) : list string := vh_others h ++ (map_to_list (vh_devices h)).*1.

Lemma elem_link_names n h : n ∈ link_names h <-> ~ no_link n h.
Proof.
  unfold link_names, no_link. rewrite elem_of_app, list_elem_of_fmap. split.
  - intros [Hn|[[k d] [-> Hk]]] [Hd Ho]; [done|]. apply elem_of_map_to_list in Hk. simpl in *. by rewrite Hk in Hd.
  - intros Hn. destruct (decide (n ∈ vh_others h)) as [|Ho]; [by left|]. right.
    destruct (vh_devices h !! n) as [d|] eqn:Hd; [|tauto]. exists (n, d). by rewrite elem_of_map_to_list.
Qed.

Lemma listed_links l :
  Forall name_wf l -> parse_links (text_of_lines (map it_link l)) = List.filter (starts_with QARAX_VXLAN_PREFIX) l.
Proof.
  intros Hl. unfold parse_links. rewrite str_lines_of.
  - induction Hl as [|n l (Hw & Hc & _) Hl IH]; [done|]. cbn. destruct (it_link_spec n Hw Hc) as [_ ->].
    destruct (starts_with QARAX_VXLAN_PREFIX n); cbn; by rewrite IH.
  - rewrite forallb_forall. intros s Hs. apply in_map_iff in Hs as [n [<- Hn]]. apply list_elem_of_In in Hn.
    rewrite Forall_forall in Hl. destruct (Hl n Hn) as (Hw & Hc & _). by apply it_link_spec.
Qed.

(** The overlays of [l] are in place, everything else is as in [h0]. *)
Definition all_in_place (h0 : VxHost) (l : list VpcOverlayConfig) (h : VxHost) : Prop :=
  (forall n, n ∉ map vo_interface_name l -> vh_devices h !! n = vh_devices h0 !! n /\ (n ∈ vh_others h <-> n ∈ vh_others h0)) /\
  Forall (fun ov => exists d, vh_devices h !! vo_interface_name ov = Some d /\ in_place h0 ov d) l.

Lemma reconcile_all_yields o overlays h :
  honest o -> host_wf h -> Forall overlay_wf overlays -> NoDup (map vo_interface_name overlays) ->
  yields o h (vx_each reconcile_overlay overlays) (fun _ => all_in_place h overlays).
Proof.
  intros Ho [_ Hwf] Hov Hnd. eapply yields_mono.
  { apply (yields_each o _ (fun l h' => exists prev, overlays = prev ++ l /\ all_in_place h prev h')).
    - exists []. split; [done|]. by split.
    - intros x l h' [prev [He [Hl Hp]]]. subst overlays.
      rewrite map_app in Hnd. cbn in Hnd. apply NoDup_app in Hnd as (_ & Hnd & _).
      assert (Hx : vo_interface_name x ∉ map vo_interface_name prev) by (intros Hin; apply (Hnd _ Hin); left).
      apply Forall_app in Hov as [_ Hov]. apply Forall_cons in Hov as [(Hv & Hpre & Hc) _].
      assert (Hsame : vh_devices h' !! vo_interface_name x = vh_devices h !! vo_interface_name x) by by apply Hl.
      eapply yields_mono; [apply reconcile_yields; try done|].
      { intros d Hd. rewrite Hsame in Hd. by apply Hwf in Hd as [_ ?]. }
      intros [] h'' [Hl' [d [Hd Hin]]]. exists (prev ++ [x]). split; [by rewrite <- app_assoc|]. split.
      + intros n Hn. rewrite map_app, elem_of_app in Hn. cbn in Hn. rewrite list_elem_of_singleton in Hn.
        destruct (Hl' n) as [-> ->]; [tauto|]. apply Hl. tauto.
      + apply Forall_app. split.
        * rewrite Forall_forall in Hp |- *. intros ov Hin'. destruct (Hp ov Hin') as [d' [Hd' Hi']]. exists d'.
          split; [|done]. destruct (Hl' (vo_interface_name ov)) as [-> _]; [|done].
          intros E. apply Hx. rewrite <- E. apply list_elem_of_In, in_map. by apply list_elem_of_In.
        * constructor; [|done]. exists d. split; [done|]. unfold in_place, overlay_parameters in *.
          by rewrite Hsame in Hin. }
  intros [] h' [prev [-> Hp]]. by rewrite app_nil_r.
Qed.

Lemma names_after h overlays h' :
  host_wf h -> Forall overlay_wf overlays -> all_in_place h overlays h' -> Forall name_wf (link_names h').
Proof.
  intros [Ho Hd] Hov [Hl _]. apply Forall_forall. intros n Hn. destruct (decide (n ∈ map vo_interface_name overlays)) as [Hin|Hin].
  - apply list_elem_of_In, in_map_iff in Hin as [ov [<- Hin]]. apply list_elem_of_In in Hin.
    rewrite Forall_forall in Hov. destruct (Hov ov Hin) as (Hv & Hp & Hc). apply validate_overlay_iface in Hv.
    split_and!; [by apply iface_word|done|done].
  - apply elem_link_names in Hn. destruct (Hl n Hin) as [Hld Hlo]. rewrite Forall_forall in Ho.
    destruct (decide (n ∈ vh_others h')) as [Hn'|Hn']; [by apply Ho, Hlo|].
    destruct (vh_devices h !! n) as [d|] eqn:Hdn; [by destruct (Hd n d Hdn)|]. exfalso. apply Hn. by rewrite <- Hdn, <- Hld in *.
Qed.

Lemma delete_stale_yields o (want l : list string) h :
  honest o -> Forall (fun n => name_wf n /\ starts_with QARAX_VXLAN_PREFIX n = true) l ->
  (forall n, starts_with QARAX_VXLAN_PREFIX n = true -> n ∉ want -> n ∈ l \/ no_link n h) ->
  yields o h (vx_each (fun iface => if bool_decide (iface ∈ want) then mret tt else delete_interface iface) l)
    (fun _ h' =>
      (forall n, starts_with QARAX_VXLAN_PREFIX n = true -> n ∉ want -> no_link n h') /\
      (forall n, n ∈ want \/ starts_with QARAX_VXLAN_PREFIX n = false ->
         vh_devices h' !! n = vh_devices h !! n /\ (n ∈ vh_others h' <-> n ∈ vh_others h))).
Proof.
  intros Ho Hl Hstale. eapply yields_mono.
  { apply (yields_each o _ (fun l h' =>
      Forall (fun n => name_wf n /\ starts_with QARAX_VXLAN_PREFIX n = true) l /\
      (forall n, starts_with QARAX_VXLAN_PREFIX n = true -> n ∉ want -> n ∈ l \/ no_link n h') /\
      (forall n, n ∈ want \/ starts_with QARAX_VXLAN_PREFIX n = false ->
         vh_devices h' !! n = vh_devices h !! n /\ (n ∈ vh_others h' <-> n ∈ vh_others h)))); [done|].
    intros x l' h3 (Hnw & Hrest & Hkeep). apply Forall_cons in Hnw as [[(_ & _ & Hval) Hpx] Hnw].
    case_bool_decide as Hx.
    - unfold yields, mret, Vx_ret. split_and!; [done| |done]. intros n Hn Hnin.
      destruct (Hrest n Hn Hnin) as [Hi|]; [|by right]. apply elem_of_cons in Hi as [->|]; [done|by left].
    - eapply yields_mono; [apply delete_interface_yields; auto|]. intros [] h4 [Hl4 Hn4]. split_and!; [done| |].
      + intros n Hn Hnin. destruct (decide (n = x)) as [->|Hne]; [by right|]. unfold no_link. destruct (Hl4 n Hne) as [-> ->].
        destruct (Hrest n Hn Hnin) as [Hi|]; [|by right]. apply elem_of_cons in Hi as [|]; [done|by left].
      + intros n Hn. destruct (Hl4 n) as [-> ->]; [intros ->; destruct Hn as [|Hn]; [done|by rewrite Hpx in Hn]|]. by apply Hkeep. }
  intros [] h' (_ & Hrest & Hkeep). split; [|done]. intros n Hn Hnin.
  destruct (Hrest n Hn Hnin) as [Hi|]; [by apply not_elem_of_nil in Hi|done].
Qed.

(** What a synchronisation promises: every overlay is in place, and no other link carries the
    prefix of qarax; links without it are as before. *)
Definition overlays_synced (h0 : VxHost) (overlays : list VpcOverlayConfig) (h : VxHost) : Prop :=
  Forall (fun ov => exists d, vh_devices h !! vo_interface_name ov = Some d /\ in_place h0 ov d) overlays /\
  (forall n, starts_with QARAX_VXLAN_PREFIX n = true -> n ∉ map vo_interface_name overlays -> no_link n h) /\
  (forall n, starts_with QARAX_VXLAN_PREFIX n = false ->
     vh_devices h !! n = vh_devices h0 !! n /\ (n ∈ vh_others h <-> n ∈ vh_others h0)).

(** C22. A synchronisation of the overlays of a host, of any well-formed state and whatever
    commands are refused: when no command is refused it succeeds; whenever it succeeds every
    overlay has its device, which is up and has exactly the address, the flood entries and the
    routes of the overlay, no other device of qarax is left, and the other links are untouched. *)
Theorem sync_vpc_overlays_converges o overlays h h' r :
  honest o -> host_wf h -> Forall overlay_wf overlays -> NoDup (map vo_interface_name overlays) ->
  sync_vpc_overlays overlays o h = (h', r) ->
  match r with
  | Ok _ => overlays_synced h overlays h'
  | Err _ => refused o
  end.
Proof.
  intros Ho Hwf Hov Hnd Hrun. set (want := map vo_interface_name overlays) in *.
  enough (Hy : yields o h (sync_vpc_overlays overlays) (fun _ => overlays_synced h overlays)).
  { unfold yields in Hy. rewrite Hrun in Hy. by destruct r. }
  clear Hrun. apply yields_bind. eapply yields_mono; [by apply reconcile_all_yields|].
  intros [] h1 H1. pose proof (names_after _ _ _ Hwf Hov H1) as Hnames. destruct H1 as [Hl Hp].
  apply yields_bind. eapply yields_show; [by rewrite listed_links|].
  intros h2 [Hs1 Hs2]. fold want in Hl |- *. eapply yields_mono.
  { apply (delete_stale_yields o want _ h2 Ho).
    - apply Forall_forall. intros n Hn. apply list_elem_of_In, filter_In in Hn as [Hn Hn']. split; [|done].
      rewrite Forall_forall in Hnames. apply Hnames. by apply list_elem_of_In.
    - intros n Hn _. destruct (decide (n ∈ link_names h1)) as [Hin|Hin].
      + left. apply list_elem_of_In, filter_In. split; [by apply list_elem_of_In|done].
      + right. rewrite elem_link_names in Hin. unfold no_link in *. rewrite Hs1, Hs2. by apply dec_stable. }
  rewrite Hs1, Hs2. intros [] h3 (Hrest & Hkeep). split_and!; [|done|].
  - rewrite Forall_forall in Hp |- *. intros ov Hin. destruct (Hp ov Hin) as [d [Hd Hi]]. exists d. split; [|done].
    destruct (Hkeep (vo_interface_name ov)) as [-> _]; [|done]. left. apply list_elem_of_In, in_map. by apply list_elem_of_In.
  - intros n Hn. destruct (Hkeep n (or_intror Hn)) as [-> ->]. apply Hl. intros Hin.
    apply list_elem_of_In, in_map_iff in Hin as [ov [<- Hin]]. apply list_elem_of_In in Hin.
    rewrite Forall_forall in Hov. destruct (Hov ov Hin) as (_ & Hpre & _). by rewrite Hpre in Hn.
Qed.
End overlays.

(** ** A tool and a run *)

Lemma trim_end_closed s c : is_whitespace c = false -> trim_end (s +:+ String c "") = s +:+ String c "".
Proof.
  intros Hc. induction s as [|d s IH]; [simpl; by rewrite Hc|].
  change (String d s +:+ String c "") with (String d (s +:+ String c "")). cbn [trim_end]. rewrite IH. by destruct s.
Qed.

Lemma trim_word w : is_word w -> trim w = w.
Proof.
  intros [Hne Hw]. destruct w as [|c w]; [done|]. unfold trim. cbn [trim_start]. inversion Hw as [|? ? Hc Hw']; subst. rewrite Hc.
  clear Hne Hw. revert c Hc. induction w as [|d w IH]; intros c Hc; [cbn [trim_end]; by rewrite Hc|].
  inversion Hw' as [|? ? Hd Hw'']; subst. specialize (IH Hw'' d Hd). cbn [trim_end] in *. by rewrite IH.
Qed.

Lemma sample_link_spec name :
  is_word name -> no_char ":"%char name ->
  plain_line ("2: " +:+ name +:+ String ":" " <UP>") = true /\
  link_name ("2: " +:+ name +:+ String ":" " <UP>") = if starts_with QARAX_VXLAN_PREFIX name then Some name else None.
Proof.
  intros Hw Hc. split; [by rewrite !plain_line_app, (word_plain name)|]. unfold link_name.
  change (split_once ":"%char ("2: " +:+ name +:+ String ":" " <UP>")) with (Some ("2", " " +:+ name +:+ String ":" " <UP>")).
  cbn [mbind option_bind].
  assert (Ht : trim (" " +:+ name +:+ String ":" " <UP>") = name +:+ String ":" " <UP>").
  { unfold trim. change (trim_start (" " +:+ name +:+ String ":" " <UP>")) with (trim_start (name +:+ String ":" " <UP>")).
    destruct Hw as [Hne Hw]. destruct name as [|c name]; [done|]. inversion Hw as [|? ? Hcw _]; subst.
    change (String c name +:+ String ":" " <UP>") with (String c (name +:+ String ":" " <UP>")). cbn [trim_start]. rewrite Hcw.
    change (String c (name +:+ String ":" " <UP>")) with (String c name +:+ ": <UP" +:+ String ">" "").
    rewrite <- string_app_assoc. by apply trim_end_closed. }
  rewrite Ht, split_app_sep by done. cbn [head mbind option_bind]. by rewrite trim_word.
Qed.

#[refine, global] Instance sample_tool : IpTool := {|
  it_link name := "2: " +:+ name +:+ String ":" " <UP>";
  it_detail name d := "vxlan id " +:+ pretty (vx_vni d) +:+ " local " +:+ vx_local d +:+ " dstport " +:+ pretty (vx_port d)
    +:+ (if vx_nolearning d then " nolearning" else "");
  it_address name a := ["2:"; name; "inet"; a; "scope"; "global"];
  it_flood name p := [VXLAN_FDB_MAC; "dst"; p; "self"; "permanent"];
  it_route name s via := [s; "via"; via]
|}.
Proof.
  - exact sample_link_spec.
  - intros name a Hn Hp Ha. split; [repeat constructor; try done; apply Ha || apply Hn|].
    cbn. destruct (String.eqb_spec name "inet") as [->|]; [done|]. done.
  - intros name p Hn Hp. split_and!; [repeat constructor; try done; apply Hp| |done].
    change (join " " [VXLAN_FDB_MAC; "dst"; p; "self"; "permanent"])
      with (VXLAN_FDB_MAC +:+ " " +:+ "dst" +:+ " " +:+ p +:+ " " +:+ "self" +:+ " " +:+ "permanent").
    apply contains_self.
  - intros name s via Hn Hs Hv. split; [repeat constructor; try done; apply Hs || apply Hv|]. by exists ["via"; via].
Defined.

Definition sample_overlay : VpcOverlayConfig := {|
  vo_vpc_name := "blue"; vo_interface_name := "qvx0badcafe"; vo_vni := 77; vo_local_underlay_ip := "10.0.0.1";
  vo_local_overlay_cidr := "172.16.0.1/24"; vo_peer_underlay_ips := ["10.0.0.2"; "10.0.0.3"];
  vo_routes := [{| vr_subnet := "10.2.0.0/16"; vr_via_ip := "172.16.0.2" |}] |}.
(** The device of the overlay with an address, a peer and a route of another time, and a device no
    overlay asks for. *)
Definition old_device : VxDevice := {|
  vx_vni := 77; vx_local := "10.0.0.1"; vx_port := 4789; vx_nolearning := true; vx_up := false;
  vx_addresses := ["172.16.9.9/24"]; vx_peers := ["10.0.0.9"; "10.0.0.2"]; vx_routes := {["10.9.0.0/16" := "172.16.0.9"]} |}.
Definition old_host : VxHost := {|
  vh_devices := <["qvxdead" := old_device]> {["qvx0badcafe" := old_device]}; vh_others := ["lo"; "eth0"]; vh_step := 0 |}.
Definition willing : VxOracle := {| xo_refuse := fun _ => None; xo_lost := fun _ _ => false |}.

Lemma old_device_wf : device_wf old_device.
Proof.
  split_and!; cbn; try (repeat constructor; set_solver).
  intros i x [<- <-]%lookup_singleton_Some. by repeat constructor.
Qed.

Lemma old_host_wf : host_wf old_host.
Proof.
  split; cbn; [by repeat constructor|].
  apply map_Forall_insert_2; [|apply map_Forall_singleton]; (split; [by repeat constructor|apply old_device_wf]).
Qed.

(** A device is kept when the address it has begins with the one it should have. *)
Example local_prefix_kept :
  detail_matches sample_overlay (it_detail "qvx0badcafe"
    (Build_VxDevice 77 "10.0.0.10" 4789 true true [] [] ∅)) = true.
Proof. by vm_compute. Qed.

Lemma sync_vpc_overlays_converges_witness :
  overlays_synced old_host [sample_overlay] (sync_vpc_overlays [sample_overlay] willing old_host).1.
Proof.
  assert (Hr : (sync_vpc_overlays [sample_overlay] willing old_host).2 = Ok tt) by by vm_compute.
  destruct (sync_vpc_overlays [sample_overlay] willing old_host) as [h' r] eqn:Hrun. cbn [fst snd] in *. subst r.
  refine (sync_vpc_overlays_converges willing [sample_overlay] old_host h' (Ok tt) _ old_host_wf _ _ Hrun).
  - done.
  - by repeat constructor.
  - apply NoDup_singleton.
Defined.
