(* ===== verification/HostFs.v ===== *)
(** * HostFs: the file system of a host

    What the agent uses of the file system: absolute paths as lists of components, as
    [std::path::Path] compares them, directories, files and links, and the operations
    of [std::fs] as functions that fail where the operating system refuses them.  A
    directory can be removed when nothing is in it and, as in configfs, no link points
    to it. *)

From S2P Require Import Prelude Text.
From Stdlib Require Import Ascii.
#[local] Open Scope Z_scope.

(** ** Paths *)

Notation Path := (list string).

(** [Path::components]: empty components and [.] vanish. *)
Definition components (s : string) : Path :=
  List.filter (fun c => negb (String.eqb c "") && negb (String.eqb c ".")) (str_split "/"%char s).
Definition is_absolute (s : string) : bool := starts_with "/" s.
(** [Path::join]: an absolute path replaces the base. *)
Definition join_path (p : Path) (s : string) : Path :=
  if is_absolute s then components s else p ++ components s.
Definition path_text (p : Path) : string := "/" +:+ join "/" p.
(** [Path::parent]; the root has none. *)
Definition parent (p : Path) : option Path :=
  match p with [] => None | _ => Some (removelast p) end.

(** [p] is [d] or below it. *)
Definition below (d p : Path) : bool := bool_decide (d `prefix_of` p).
Definition strictly_below (d p : Path) : bool := below d p && negb (bool_decide (p = d)).

(** ** Entries *)

Inductive Content := Text (s : string) | Json (j : json) | Opaque.
Inductive Entry := EDir | EFile (c : Content) | ELink (target : Path) | EDevice (major minor : Z).
Notation Fs := (gmap (list string) Entry).

Definition is_dir (fs : Fs) (p : Path) : bool :=
  match p with [] => true | _ => match fs !! p with Some EDir => true | _ => false end end.
Definition is_file (fs : Fs) (p : Path) : bool :=
  match fs !! p with Some (EFile _) => true | _ => false end.
Definition exists_at (fs : Fs) (p : Path) : bool :=
  match p with [] => true | _ => bool_decide (is_Some (fs !! p)) end.
(** [read_dir]: the names in a directory. *)
Definition entries (fs : Fs) (d : Path) : list Path :=
  List.filter (fun p => bool_decide (parent p = Some d)) (map_to_list fs).*1.

(** ** Operations *)

Definition fs_create_dir (p : Path) (fs : Fs) : option Fs :=
  match parent p with
  | None => None
  | Some d => if is_dir fs d && negb (exists_at fs p) then Some (<[p := EDir]> fs) else None
  end.

(** Every missing directory on the way is created. *)
Fixpoint fs_create_dirs (done rest : Path) (fs : Fs) : option Fs :=
  match rest with
  | [] => Some fs
  | c :: rest' =>
      let p := done ++ [c] in
      match fs !! p with
      | Some EDir => fs_create_dirs p rest' fs
      | Some _ => None
      | None => fs_create_dirs p rest' (<[p := EDir]> fs)
      end
  end.
Definition fs_create_dir_all (p : Path) (fs : Fs) : option Fs := fs_create_dirs [] p fs.

Definition fs_write (p : Path) (c : Content) (fs : Fs) : option Fs :=
  match parent p with
  | Some d => if is_dir fs d && negb (is_dir fs p) then Some (<[p := EFile c]> fs) else None
  | None => None
  end.
Definition fs_symlink (target p : Path) (fs : Fs) : option Fs :=
  match parent p with
  | Some d => if is_dir fs d && negb (exists_at fs p) then Some (<[p := ELink target]> fs) else None
  | None => None
  end.
Definition fs_remove_file (p : Path) (fs : Fs) : option Fs :=
  match fs !! p with
  | None | Some EDir => None
  | Some _ => Some (delete p fs)
  end.

Definition points_to (d : Path) (e : Entry) : bool :=
  match e with ELink t => bool_decide (t = d) | _ => false end.
(** Entries that keep a directory from being removed. *)
Definition occupied (d : Path) (fs : Fs) : bool :=
  existsb (fun pe => strictly_below d pe.1 || points_to d pe.2) (map_to_list fs).
Definition fs_remove_dir (p : Path) (fs : Fs) : option Fs :=
  match fs !! p with
  | Some EDir => if occupied p fs then None else Some (delete p fs)
  | _ => None
  end.
Definition without (d : Path) (fs : Fs) : Fs := filter (fun pe => below d pe.1 = false) fs.
Definition fs_remove_dir_all (p : Path) (fs : Fs) : option Fs :=
  match fs !! p with Some EDir => Some (without p fs) | _ => None end.

(** ** Facts *)

Lemma below_spec d p : below d p = true <-> d `prefix_of` p.
Proof. apply bool_decide_eq_true. Qed.
Lemma below_refl p : below p p = true.
Proof. by apply below_spec. Qed.
Lemma below_trans a b c : below a b = true -> below b c = true -> below a c = true.
Proof. rewrite !below_spec. by apply transitivity. Qed.
Lemma below_app d l : below d (d ++ l) = true.
Proof. apply below_spec. by exists l. Qed.

Lemma parent_snoc d c : parent (d ++ [c]) = Some d.
Proof. destruct d as [|x d]; [done|]. cbn [app parent]. f_equal. by apply (removelast_last (x :: d)). Qed.

Lemma exists_at_snoc fs d c : exists_at fs (d ++ [c]) = bool_decide (is_Some (fs !! (d ++ [c]))).
Proof. unfold exists_at. by destruct d. Qed.
Lemma is_dir_snoc fs d c : is_dir fs (d ++ [c]) = match fs !! (d ++ [c]) with Some EDir => true | _ => false end.
Proof. unfold is_dir. by destruct d. Qed.

Lemma occupied_spec d fs :
  occupied d fs = false <->
  forall p e, fs !! p = Some e -> strictly_below d p = false /\ points_to d e = false.
Proof.
  unfold occupied. rewrite <-not_true_iff_false, existsb_exists. split.
  - intros Hn p e Hp. apply orb_false_iff. apply not_true_iff_false. intros Ho. apply Hn. exists (p, e).
    split; [|done]. by apply list_elem_of_In, elem_of_map_to_list.
  - intros Ha ([p e]&Hin&Ho). apply list_elem_of_In, elem_of_map_to_list in Hin. destruct (Ha p e Hin) as [H1 H2].
    simpl in Ho. by rewrite H1, H2 in Ho.
Qed.

Lemma elem_of_entries fs d p : p ∈ entries fs d <-> parent p = Some d /\ is_Some (fs !! p).
Proof.
  unfold entries. rewrite list_elem_of_In, filter_In, bool_decide_eq_true, <-list_elem_of_In, list_elem_of_fmap.
  split.
  - intros [([q e]&->&Hin) Hp]. apply elem_of_map_to_list in Hin. simpl. eauto.
  - intros [Hp [e He]]. split; [|done]. exists (p, e). split; [done|]. by apply elem_of_map_to_list.
Qed.

Lemma lookup_without d fs p : without d fs !! p = if below d p then None else fs !! p.
Proof.
  unfold without. destruct (below d p) eqn:E.
  - apply map_lookup_filter_None. right. intros e _. simpl. by rewrite E.
  - destruct (fs !! p) as [e|] eqn:Ep.
    + apply map_lookup_filter_Some. by split.
    + apply map_lookup_filter_None. by left.
Qed.
