(* ===== verification/NodeOverlayBd.v ===== *)
(** * NodeOverlayBd: images of a node as block devices

    [qarax-node/src/overlaybd/manager.rs]: a container image is copied to a local
    registry and converted; for a VM it becomes a block device through a TCMU
    backstore and a loopback target, which are directories of configfs.  The checks of
    [image_preflight.rs] and the configuration of [oci_config.rs] are here too.

    The state is the file system of the host, the table of mounted devices, the file
    systems mounted to inject the init program and what was injected.  An oracle ends
    every file operation and command, answers for the registry and the kernel.  The
    syntax of image references is that of a library ([OciReference]). *)

From S2P Require Import Prelude Text Common Secrets HostFs.
From Stdlib Require Import Ascii.
#[local] Open Scope Z_scope.

(** ** Data *)

Inductive OverlayBdError :=
| OciError (text : string) | ConvertorFailed (text : string) | MountFailed (text : string)
| InvalidImageRef (text : string).

Record MountedDevice := {
  md_device_path : string; md_config_dir : Path; md_tcmu_name : string; md_wwn : string
}.

Record OciImageConfigDetails := {
  oc_env : option (list string); oc_entrypoint : option (list string); oc_cmd : option (list string)
}.
Record OciImageConfig := {
  oi_architecture : option string; oi_os : option string; oi_config : OciImageConfigDetails
}.
Record Layer := { ly_digest : string; ly_size : Z }.

(** [Reference::try_from] of the registry client: registry, repository, tag. *)
Class OciReference := { reference_of : string -> option (string * string * option string) }.

(** The init program and its configuration in the root of a device. *)
Record Guest := { gu_config : option OciImageConfigDetails; gu_init : bool; gu_executable : bool }.

Record ObdHost := {
  ob_fs : Fs;
  ob_mounts : gmap string MountedDevice;
  ob_rootfs : gmap Path string;
  ob_guests : gmap string Guest;
  ob_attributes : list (Path * string);
  ob_step : nat
}.

(** What the environment answers in step [n]: whether a file operation or a command
    succeeds, the layers and the configuration of an image, whether a transfer of data
    succeeds, whether the attributes of a backstore have appeared, its information, the
    names in /sys/block, the numbers of a device, whether a file is executable. *)
Record ObdOracle := {
  oo_io : nat -> bool; oo_command : nat -> bool;
  oo_manifest : nat -> string -> option (list Layer);
  oo_config : nat -> string -> option OciImageConfig;
  oo_transfer : nat -> bool;
  oo_attributes : nat -> bool; oo_info : nat -> option string;
  oo_block : nat -> option (list string); oo_numbers : nat -> option string;
  oo_executable : nat -> Path -> bool; oo_uuid : nat -> string
}.

(** ** Names *)

(** [trim_start_matches] and [trim_end_matches]: as often as the pattern occurs. *)
Fixpoint trim_prefixes (fuel : nat) (p s : string) : string :=
  match fuel with
  | O => s
  | S fuel' => match strip_prefix p s with Some s' => trim_prefixes fuel' p s' | None => s end
  end.
Definition trim_start_matches (p s : string) : string := trim_prefixes (String.length s) p s.
Fixpoint trim_end_char (c : ascii) (s : string) : string :=
  match s with
  | EmptyString => EmptyString
  | String d s' =>
      match trim_end_char c s' with
      | EmptyString => if Ascii.eqb c d then EmptyString else String d EmptyString
      | t => String d t
      end
  end.
Definition has_char (c : ascii) (s : string) : bool := existsb (Ascii.eqb c) (String.list_ascii_of_string s).
(** The last separator. *)
Fixpoint rsplit_once (sep : ascii) (s : string) : option (string * string) :=
  match s with
  | EmptyString => None
  | String c s' =>
      match rsplit_once sep s' with
      | Some (a, b) => Some (String c a, b)
      | None => if Ascii.eqb c sep then Some (EmptyString, s') else None
      end
  end.

Definition registry_host (url : string) : string :=
  trim_end_char "/"%char (trim_start_matches "http://" (trim_start_matches "https://" url)).

Definition is_registry (first : string) : bool := has_char "."%char first || has_char ":"%char first.

Definition build_target_ref (image_ref registry_url : string) : result OverlayBdError string :=
  let host := registry_host registry_url in
  if String.eqb host "" then Err (InvalidImageRef ("Empty registry host in URL: " +:+ registry_url))
  else
    let bare := match split_once "/"%char image_ref with
                | Some (first, rest) =>
                    if is_registry first || String.eqb first "localhost" then rest else image_ref
                | None => image_ref
                end in
    Ok (host +:+ "/" +:+ bare).

Definition parse_image_ref (image_ref : string) : result OverlayBdError (string * string) :=
  let without_registry := match split_once "/"%char image_ref with
                          | Some (first, rest) => if is_registry first then rest else image_ref
                          | None => image_ref
                          end in
  let '(repo, tag) := match rsplit_once ":"%char without_registry with
                      | Some rt => rt
                      | None => (without_registry, "latest"%string)
                      end in
  if String.eqb repo "" then Err (InvalidImageRef ("Empty repository in: " +:+ image_ref)) else Ok (repo, tag).

Definition looks_like_device_path (path : string) : bool :=
  starts_with "/dev/" path && (String.length "/dev/" <? String.length path)%nat.

Definition ascii_hexdigit (c : ascii) : bool :=
  let n := N_of_ascii c in
  ((48 <=? n) && (n <=? 57))%N || ((65 <=? n) && (n <=? 70))%N || ((97 <=? n) && (n <=? 102))%N.
Definition hex_prefix (n : nat) (vm_id : string) : string :=
  String.string_of_list_ascii (take n (List.filter ascii_hexdigit (String.list_ascii_of_string vm_id))).
Definition vm_tcmu_names (vm_id : string) : string * string :=
  ("obd-" +:+ hex_prefix 12 vm_id, "naa." +:+ hex_prefix 16 vm_id).

Definition tcmu_base : Path := ["sys"; "kernel"; "config"; "target"; "core"; "user_1"].
Definition loopback_base : Path := ["sys"; "kernel"; "config"; "target"; "loopback"].
Definition tcmu_dir_of (tcmu_name : string) : Path := tcmu_base ++ [tcmu_name].
Definition loopback_dir_of (wwn : string) : Path := loopback_base ++ [wwn].
Definition tpg_dir_of (wwn : string) : Path := loopback_dir_of wwn ++ ["tpgt_1"].
Definition lun_dir_of (wwn : string) : Path := tpg_dir_of wwn ++ ["lun"; "lun_0"].

(** The full reference of an image of the local registry. *)
Definition full_ref (image_ref registry_url : string) : string :=
  let host := registry_host registry_url in
  if starts_with host image_ref then image_ref else host +:+ "/" +:+ image_ref.

(** ** Computations *)

Definition Ob (A : Type) : Type := ObdOracle -> ObdHost -> ObdHost * result OverlayBdError A.
#[global] Instance Ob_ret : MRet Ob := fun A x o h => (h, Ok x).
#[global] Instance Ob_bind : MBind Ob := fun A B f m o h =>
  match m o h with
  | (h', Ok x) => f x o h'
  | (h', Err e) => (h', Err e)
  end.
Definition ob_throw {A} (e : OverlayBdError) : Ob A := fun o h => (h, Err e).
Definition ob_try {A} (m : Ob A) : Ob (result OverlayBdError A) := fun o h => let '(h', r) := m o h in (h', Ok r).
Definition ob_get {A} (f : ObdHost -> A) : Ob A := fun o h => (h, Ok (f h)).
Definition ob_set (f : ObdHost -> ObdHost) : Ob unit := fun o h => (f h, Ok tt).
Definition ob_of {A} (r : result OverlayBdError A) : Ob A := fun o h => (h, r).
Definition ob_ignore {A} (m : Ob A) : Ob unit := _ ← ob_try m; mret tt.

Definition with_fs (f : Fs -> Fs) (h : ObdHost) : ObdHost :=
  let 'Build_ObdHost s m r g a n := h in Build_ObdHost (f s) m r g a n.
Definition with_mounts (f : gmap string MountedDevice -> gmap string MountedDevice) (h : ObdHost) : ObdHost :=
  let 'Build_ObdHost s m r g a n := h in Build_ObdHost s (f m) r g a n.
Definition with_rootfs (f : gmap Path string -> gmap Path string) (h : ObdHost) : ObdHost :=
  let 'Build_ObdHost s m r g a n := h in Build_ObdHost s m (f r) g a n.
Definition with_guests (f : gmap string Guest -> gmap string Guest) (h : ObdHost) : ObdHost :=
  let 'Build_ObdHost s m r g a n := h in Build_ObdHost s m r (f g) a n.
Definition ob_tick (h : ObdHost) : ObdHost :=
  let 'Build_ObdHost s m r g a n := h in Build_ObdHost s m r g a (S n).
Definition with_attribute (p : Path) (v : string) (h : ObdHost) : ObdHost :=
  let 'Build_ObdHost s m r g a n := h in Build_ObdHost s m r g (a ++ [(p, v)]) n.

Definition ob_ask {A} (f : ObdOracle -> nat -> A) : Ob A := fun o h => (ob_tick h, Ok (f o (ob_step h))).
Definition ob_demand (ask : ObdOracle -> nat -> bool) (e : OverlayBdError) : Ob unit :=
  ok ← ob_ask ask; if ok : bool then mret tt else ob_throw e.

(** A file operation: the environment or the file system may refuse it. *)
Definition fs_op (f : Fs -> option Fs) (text : string) : Ob unit :=
  ok ← ob_ask oo_io;
  fs ← ob_get ob_fs;
  match (if ok : bool then f fs else None) with
  | Some fs' => ob_set (with_fs (fun _ => fs'))
  | None => ob_throw (MountFailed text)
  end.
Definition ob_exists (p : Path) : Ob bool := ob_get (fun h => exists_at (ob_fs h) p).
(** An attribute of configfs is written. *)
Definition write_attribute (d : Path) (name value : string) : Ob unit :=
  ok ← ob_ask oo_io;
  dir ← ob_get (fun h => is_dir (ob_fs h) d);
  if (ok && dir : bool) then ob_set (with_attribute (d ++ [name]) value)
  else ob_throw (MountFailed ("write " +:+ path_text (d ++ [name]))).

Fixpoint ob_each {A} (f : A -> Ob unit) (l : list A) : Ob unit :=
  match l with [] => mret tt | x :: l' => _ ← f x; ob_each f l' end.

(** ** Waiting *)

Fixpoint poll_control_files (fuel : nat) (tcmu_dir : Path) : Ob unit :=
  match fuel with
  | O => ob_throw (MountFailed ("TCMU control files did not appear under " +:+ path_text tcmu_dir))
  | S fuel' => seen ← ob_ask oo_attributes; if seen : bool then mret tt else poll_control_files fuel' tcmu_dir
  end.
Definition wait_for_tcmu_control_files (tcmu_dir : Path) : Ob unit := poll_control_files 50 tcmu_dir.

Definition tcmu_configured (info : option string) : bool :=
  match info with
  | Some content => contains "SectorSize: 512" content || contains "Status: ACTIVATED" content
  | None => false
  end.
Fixpoint poll_configured (fuel : nat) : Ob unit :=
  match fuel with
  | O => ob_throw (MountFailed "TCMU backstore not configured after 10s")
  | S fuel' => info ← ob_ask oo_info; if tcmu_configured info then mret tt else poll_configured fuel'
  end.
Definition wait_for_tcmu_configured : Ob unit := poll_configured 100.

Definition list_sd_devices : Ob (list string) :=
  names ← ob_ask oo_block;
  mret (List.filter (starts_with "sd") (default [] names)).
Fixpoint poll_sd_devices (fuel : nat) (known : list string) : Ob string :=
  match fuel with
  | O => ob_throw (MountFailed "No new sd* block device appeared in /sys/block/ after 10s")
  | S fuel' =>
      current ← list_sd_devices;
      match List.find (fun dev => negb (bool_decide (dev ∈ known))) current with
      | Some dev => mret dev
      | None => poll_sd_devices fuel' known
      end
  end.
Definition wait_for_new_sd_device (known : list string) : Ob string := poll_sd_devices 100 known.

(** ** The loopback target *)

Definition parse_device_numbers (text : string) : result OverlayBdError (Z * Z) :=
  let text := trim text in
  '(major_str, minor_str) ← ok_or (MountFailed ("Unexpected sysfs dev content: " +:+ text)) (split_once ":"%char text);
  major ← ok_or (MountFailed ("Invalid major number: " +:+ major_str)) (parse_u64 major_str);
  minor ← ok_or (MountFailed ("Invalid minor number: " +:+ minor_str)) (parse_u64 minor_str);
  Ok (major, minor).

Definition make_device_node (dev_name : string) (major minor : Z) : Ob unit :=
  let dev_path := ["dev"%string; dev_name] in
  present ← ob_exists dev_path;
  if present : bool then mret tt
  else
    _ ← ob_demand oo_command (MountFailed ("mknod " +:+ path_text dev_path));
    ob_set (with_fs (insert dev_path (EDevice major minor))).

Definition loopback_dirs (wwn : string) : list Path :=
  [loopback_base; loopback_dir_of wwn; tpg_dir_of wwn; tpg_dir_of wwn ++ ["lun"%string]; lun_dir_of wwn].
(** Directories of configfs are created one at a time. *)
Definition create_missing_dir (d : Path) : Ob unit :=
  present ← ob_exists d;
  if present : bool then mret tt else fs_op (fs_create_dir d) ("create configfs dir " +:+ path_text d).

Definition setup_loopback_and_get_device (wwn tcmu_name : string) (tcmu_dir : Path) : Ob string :=
  known ← list_sd_devices;
  _ ← ob_each create_missing_dir (loopback_dirs wwn);
  _ ← write_attribute (tpg_dir_of wwn) "nexus" wwn;
  there ← ob_exists tcmu_dir;
  _ ← (if there : bool then mret tt else ob_throw (MountFailed ("canonicalize TCMU dir " +:+ path_text tcmu_dir)));
  _ ← fs_op (fs_symlink tcmu_dir (lun_dir_of wwn ++ [tcmu_name])) "symlink LUN";
  _ ← ob_ignore (write_attribute (tpg_dir_of wwn) "enable" "1");
  dev_name ← wait_for_new_sd_device known;
  text ← ob_ask oo_numbers;
  text ← ob_of (ok_or (MountFailed ("read /sys/block/" +:+ dev_name +:+ "/dev")) text);
  '(major, minor) ← ob_of (parse_device_numbers text);
  _ ← make_device_node dev_name major minor;
  mret ("/dev/" +:+ dev_name).

(** ** The registry *)

Section manager.
Context `{OciReference} (cache_dir : Path).

Definition reference_at (text : string) : Ob (string * string * option string) :=
  ob_of (ok_or (InvalidImageRef text) (reference_of text)).
Definition pull_image_manifest (text : string) : Ob (list Layer) :=
  layers ← ob_ask (fun o n => oo_manifest o n text);
  ob_of (ok_or (OciError ("fetch manifest for " +:+ text)) layers).

Definition fetch_lowers (image_ref registry_url : string) : Ob (list json) :=
  let full := full_ref image_ref registry_url in
  _ ← reference_at full;
  layers ← pull_image_manifest full;
  match layers with
  | [] => ob_throw (MountFailed ("Converted OverlayBD image " +:+ full +:+ " has no layers in manifest"))
  | _ => mret (map (fun l => JObject (list_to_map [("digest"%string, JString (ly_digest l));
                                                    ("size"%string, JNumber (ly_size l));
                                                    ("dir"%string, JString "")])) layers)
  end.

Definition fetch_full_oci_config (image_ref registry_url : string) : Ob OciImageConfig :=
  let full := full_ref image_ref registry_url in
  _ ← reference_at full;
  _ ← pull_image_manifest full;
  config ← ob_ask (fun o n => oo_config o n full);
  ob_of (ok_or (OciError ("parse OCI config for " +:+ full)) config).
Definition fetch_oci_config (image_ref registry_url : string) : Ob OciImageConfigDetails :=
  c ← fetch_full_oci_config image_ref registry_url; mret (oi_config c).

Definition fetch_image_size (image_ref : string) : Ob Z :=
  _ ← reference_at image_ref;
  layers ← pull_image_manifest image_ref;
  mret (foldr Z.add 0 (map ly_size layers)).

(** The configuration and every layer are pulled, then the image is pushed. *)
Definition copy_image (source target : string) : Ob unit :=
  _ ← reference_at source;
  _ ← reference_at target;
  layers ← pull_image_manifest source;
  _ ← ob_demand oo_transfer (OciError "pull config");
  _ ← ob_each (fun l => ob_demand oo_transfer (OciError ("pull " +:+ ly_digest l))) layers;
  ob_demand oo_transfer (OciError "push").

Definition convert_to_overlaybd (target_ref : string) : Ob unit :=
  _ ← reference_at target_ref;
  ob_demand oo_command (ConvertorFailed "convertor exited").

Definition import_image (image_ref registry_url : string) : Ob (string * Z) :=
  target_ref ← ob_of (build_target_ref image_ref registry_url);
  _ ← copy_image image_ref target_ref;
  _ ← convert_to_overlaybd target_ref;
  size ← ob_try (fetch_image_size target_ref);
  mret (target_ref, match size with Ok n => n | Err _ => 0 end).

(** ** Mounting *)

Definition config_dir_of (vm_id : string) : Path := join_path cache_dir vm_id.

(** The writable layer, created once. *)
Definition create_upper_layer (upper_data upper_index : Path) : Ob unit :=
  present ← ob_exists upper_data;
  if present : bool then mret tt
  else
    _ ← match parent upper_data with
        | Some d => fs_op (fs_create_dir_all d) ("create upper layer dir " +:+ path_text d)
        | None => mret tt
        end;
    _ ← ob_demand oo_command (MountFailed "overlaybd-create failed");
    ob_set (with_fs (fun fs => <[upper_index := EFile Opaque]> (<[upper_data := EFile Opaque]> fs))).

Definition tcmu_config (repo_blob_url : string) (lowers : list json) (config_dir upper_data upper_index : Path) : json :=
  JObject (list_to_map
    [("repoBlobUrl"%string, JString repo_blob_url); ("lowers"%string, JArray lowers);
     ("upper"%string, JObject (list_to_map [("index"%string, JString (path_text upper_index));
                                            ("data"%string, JString (path_text upper_data))]));
     ("resultFile"%string, JString (path_text (config_dir ++ ["result"%string])))]).

Definition DISK_SIZE_BYTES : Z := 64 * 1024 * 1024 * 1024.

(** A backstore left over from an earlier attempt is removed first. *)
Definition create_backstore (tcmu_dir config_file : Path) : Ob unit :=
  base ← ob_exists tcmu_base;
  _ ← (if base : bool then mret tt
       else fs_op (fs_create_dir tcmu_base) ("create TCMU handler dir " +:+ path_text tcmu_base));
  stale ← ob_exists tcmu_dir;
  _ ← (if stale : bool then
         _ ← ob_ignore (write_attribute tcmu_dir "enable" "0");
         ob_ignore (fs_op (fs_remove_dir tcmu_dir) "remove")
       else mret tt);
  _ ← fs_op (fs_create_dir tcmu_dir) ("create TCMU backstore dir " +:+ path_text tcmu_dir);
  _ ← wait_for_tcmu_control_files tcmu_dir;
  _ ← write_attribute tcmu_dir "control"
        ("dev_config=overlaybd/" +:+ path_text config_file +:+ ",dev_size=" +:+ fmt_nat DISK_SIZE_BYTES
         +:+ ",dev_max_sectors=128");
  _ ← write_attribute tcmu_dir "enable" "1";
  wait_for_tcmu_configured.

Definition mount (vm_id image_ref registry_url : string) (upper_data_path upper_index_path : option string)
  : Ob MountedDevice :=
  let config_dir := config_dir_of vm_id in
  let upper_index := match upper_index_path with Some p => components p | None => config_dir ++ ["upper.index"%string] end in
  let upper_data := match upper_data_path with Some p => components p | None => config_dir ++ ["upper.data"%string] end in
  let config_file := config_dir ++ ["config.json"%string] in
  _ ← fs_op (fs_create_dir_all config_dir) ("create cache dir " +:+ path_text config_dir);
  '(repo_name, _) ← ob_of (parse_image_ref image_ref);
  let repo_blob_url := trim_end_char "/"%char registry_url +:+ "/v2/" +:+ repo_name +:+ "/blobs/" in
  _ ← create_upper_layer upper_data upper_index;
  lowers ← fetch_lowers image_ref registry_url;
  _ ← fs_op (fs_write config_file (Json (tcmu_config repo_blob_url lowers config_dir upper_data upper_index)))
        ("write config " +:+ path_text config_file);
  let '(tcmu_name, wwn) := vm_tcmu_names vm_id in
  let tcmu_dir := tcmu_dir_of tcmu_name in
  _ ← create_backstore tcmu_dir config_file;
  device_path ← setup_loopback_and_get_device wwn tcmu_name tcmu_dir;
  let mounted := {| md_device_path := device_path; md_config_dir := config_dir; md_tcmu_name := tcmu_name; md_wwn := wwn |} in
  _ ← ob_set (with_mounts (insert vm_id mounted));
  mret mounted.

(** ** Unmounting *)

Definition teardown_loopback (wwn : string) : Ob unit :=
  present ← ob_exists (loopback_dir_of wwn);
  if present : bool then
    _ ← ob_ignore (write_attribute (tpg_dir_of wwn) "enable" "0");
    luns ← ob_get (fun h => entries (ob_fs h) (lun_dir_of wwn));
    _ ← ob_each (fun p => ob_ignore (fs_op (fs_remove_file p) "remove")) luns;
    ob_each (fun d => ob_ignore (fs_op (fs_remove_dir d) "remove"))
      [lun_dir_of wwn; tpg_dir_of wwn ++ ["lun"%string]; tpg_dir_of wwn; loopback_dir_of wwn]
  else mret tt.

Definition teardown_backstore (tcmu_dir : Path) : Ob unit :=
  present ← ob_exists tcmu_dir;
  if present : bool then
    _ ← ob_ignore (write_attribute tcmu_dir "enable" "0");
    ob_ignore (fs_op (fs_remove_dir tcmu_dir) "remove")
  else mret tt.

(** A directory with a mounted file system in it is not removed as such, but the files
    of the mounted file system are. *)
Definition mounted_below (d : Path) (h : ObdHost) : list (Path * string) :=
  List.filter (fun pd => below d pd.1) (map_to_list (ob_rootfs h)).
Definition remove_tree (d : Path) (h : ObdHost) : ObdHost :=
  let mounts := mounted_below d h in
  with_guests (fun g => foldr (fun pd g => delete pd.2 g) g mounts)
    (with_fs (filter (fun pe => negb (below d pe.1) || existsb (fun pd => below pe.1 pd.1) mounts = true)) h).
Definition remove_config_dir (d : Path) : Ob unit :=
  present ← ob_exists d;
  if present : bool then
    ok ← ob_ask oo_io;
    if ok : bool then ob_set (remove_tree d) else mret tt
  else mret tt.

Definition unmount (vm_id : string) : Ob unit :=
  mount_info ← ob_get (fun h => ob_mounts h !! vm_id);
  _ ← ob_set (with_mounts (delete vm_id));
  let '(config_dir, tcmu_name, wwn) :=
    match mount_info with
    | Some m => (md_config_dir m, md_tcmu_name m, md_wwn m)
    | None => let '(tcmu_name, wwn) := vm_tcmu_names vm_id in (config_dir_of vm_id, tcmu_name, wwn)
    end in
  _ ← teardown_loopback wwn;
  _ ← teardown_backstore (tcmu_dir_of tcmu_name);
  remove_config_dir config_dir.

Definition has_mapping (vm_id : string) : Ob bool :=
  ob_get (fun h => bool_decide (is_Some (ob_mounts h !! vm_id))
                   || is_file (ob_fs h) (config_dir_of vm_id ++ ["config.json"%string])).

(** The devices of an earlier run; a result that is no device path is left alone. *)
Definition recover_mount (dir : Path) : Ob unit :=
  content ← ob_get (fun h => ob_fs h !! (dir ++ ["result"%string]));
  match content, last dir with
  | Some (EFile (Text s)), Some vm_id =>
      ok ← ob_ask oo_io;
      let device_path := trim s in
      if (ok && looks_like_device_path device_path : bool) then
        let '(tcmu_name, wwn) := vm_tcmu_names vm_id in
        ob_set (with_mounts (insert vm_id
          {| md_device_path := device_path; md_config_dir := dir; md_tcmu_name := tcmu_name; md_wwn := wwn |}))
      else mret tt
  | _, _ => mret tt
  end.
Definition recover : Ob unit :=
  ok ← ob_ask oo_io;
  if ok : bool then
    dirs ← ob_get (fun h => entries (ob_fs h) cache_dir);
    ob_each recover_mount dirs
  else mret tt.

(** ** The init program *)

Definition mount_command (device : string) (mount_dir : Path) : Ob bool :=
  ok ← ob_ask oo_command;
  _ ← (if ok : bool then ob_set (with_rootfs (insert mount_dir device)) else mret tt);
  mret ok.
Definition umount_command (mount_dir : Path) : Ob unit :=
  ok ← ob_ask oo_command;
  if ok : bool then ob_set (with_rootfs (delete mount_dir)) else mret tt.
(** The mount point is removed when nothing is mounted there. *)
Definition remove_mount_dir (mount_dir : Path) : Ob unit :=
  ob_ignore (busy ← ob_get (fun h => bool_decide (is_Some (ob_rootfs h !! mount_dir)));
             if busy : bool then ob_throw (MountFailed "busy") else fs_op (fs_remove_dir mount_dir) "remove").

(** The files are written into the file system mounted at the directory. *)
Definition write_guest (mount_dir : Path) (f : Guest -> Guest) : Ob unit :=
  device ← ob_get (fun h => ob_rootfs h !! mount_dir);
  match device with
  | Some d => ob_set (with_guests (partial_alter (fun g => Some (f (default (Build_Guest None false false) g))) d))
  | None => mret tt
  end.
Definition inject_init_inner (mount_dir : Path) (image_ref registry_url : string) : Ob unit :=
  config ← fetch_oci_config image_ref registry_url;
  _ ← ob_demand oo_io (MountFailed "write .qarax-config.json");
  _ ← write_guest mount_dir (fun g => Build_Guest (Some config) (gu_init g) (gu_executable g));
  _ ← ob_demand oo_io (MountFailed "copy qarax-init");
  _ ← write_guest mount_dir (fun g => Build_Guest (gu_config g) true (gu_executable g));
  _ ← ob_demand oo_io (MountFailed "chmod +x .qarax-init");
  write_guest mount_dir (fun g => Build_Guest (gu_config g) (gu_init g) true).

(** The file system is unmounted also when the injection fails. *)
Definition inject_init (vm_id device_path image_ref registry_url : string) : Ob unit :=
  let mount_dir := config_dir_of vm_id ++ ["rootfs-mount"%string] in
  _ ← fs_op (fs_create_dir_all mount_dir) ("create mount dir " +:+ path_text mount_dir);
  mounted ← mount_command device_path mount_dir;
  if mounted : bool then
    r ← ob_try (inject_init_inner mount_dir image_ref registry_url);
    _ ← umount_command mount_dir;
    _ ← remove_mount_dir mount_dir;
    ob_of r
  else ob_throw (MountFailed ("mount " +:+ device_path +:+ " on " +:+ path_text mount_dir)).
End manager.

(** ** Checks of an image *)

Record PreflightCheckResult := { pc_name : string; pc_ok : bool; pc_detail : string }.
Definition check_ok (name detail : string) : PreflightCheckResult := Build_PreflightCheckResult name true detail.
Definition check_fail (name detail : string) : PreflightCheckResult := Build_PreflightCheckResult name false detail.

Definition boot_mode_check (boot_mode : string) : PreflightCheckResult :=
  if String.eqb boot_mode "kernel"
  then check_ok "boot_mode" "OCI image boot is supported with kernel boot mode"
  else check_fail "boot_mode" "OCI image boot currently requires boot_mode=kernel".

Definition architecture_check (requested actual : string) : PreflightCheckResult :=
  if String.eqb requested "" || String.eqb requested actual
  then check_ok "architecture" ("node architecture " +:+ actual +:+ " matches requested target")
  else check_fail "architecture" ("requested architecture " +:+ requested +:+ " does not match node architecture " +:+ actual).

Definition os_check (os : option string) : PreflightCheckResult :=
  match os with
  | None => check_ok "os" "image OS is linux (unspecified)"
  | Some os =>
      if String.eqb os "linux" then check_ok "os" ("image OS is " +:+ os)
      else check_fail "os" ("image OS " +:+ os +:+ " is not supported for VM boot")
  end.

Definition DEFAULT_PATH : list string :=
  ["/usr/local/sbin"; "/usr/local/bin"; "/usr/sbin"; "/usr/bin"; "/sbin"; "/bin"]%string.
Fixpoint find_map {A B} (f : A -> option B) (l : list A) : option B :=
  match l with [] => None | x :: l' => match f x with Some y => Some y | None => find_map f l' end end.
Definition configured_or_default_path (env : option (list string)) : list string :=
  match env ≫= find_map (strip_prefix "PATH=") with
  | Some path => str_split ":"%char path
  | None => DEFAULT_PATH
  end.

Section guest_command.
(** Which files of the image are executable; the paths are relative to its root. *)
Context (is_executable : Path -> bool).

Definition rootfs_candidate (relative : string) : option Path :=
  if String.eqb relative "" then None else Some (components relative).

Definition resolve_in_path (program : string) (entry : string) : option string :=
  let relative := trim_start_matches "/" entry in
  if String.eqb relative "" then
    if is_executable (components program) then Some ("/" +:+ program) else None
  else if is_executable (components relative ++ components program)
       then Some ("/" +:+ relative +:+ "/" +:+ program) else None.

Definition resolve_program_path (program : string) (env : option (list string)) : option string :=
  if starts_with "/" program then
    candidate ← rootfs_candidate (trim_start_matches "/" program);
    if is_executable candidate then Some program else None
  else if has_char "/"%char program then
    candidate ← rootfs_candidate program;
    if is_executable candidate then Some ("/" +:+ trim_start_matches "/" program) else None
  else find_map (resolve_in_path program) (configured_or_default_path env).

Definition validate_guest_command (config : OciImageConfigDetails) : result string string :=
  match default [] (oc_entrypoint config) ++ default [] (oc_cmd config) with
  | [] =>
      if is_executable ["bin"; "sh"]%string then Ok "image provides executable /bin/sh for Qarax fallback"%string
      else Err "image config has no entrypoint/cmd and rootfs does not contain executable /bin/sh"%string
  | program :: _ =>
      match resolve_program_path program (oc_env config) with
      | Some resolved => Ok ("guest command resolves to " +:+ resolved)
      | None =>
          if has_char "/"%char program
          then Err ("configured executable '" +:+ program +:+ "' was not found in the guest rootfs")
          else Err ("command '" +:+ program +:+ "' was not found in PATH ("
                    +:+ join ":" (configured_or_default_path (oc_env config)) +:+ ") inside the guest rootfs")
      end
  end.
Definition guest_command_check (config : OciImageConfigDetails) : PreflightCheckResult :=
  match validate_guest_command config with
  | Ok detail => check_ok "guest_command" detail
  | Err detail => check_fail "guest_command" detail
  end.
End guest_command.

Definition supported_layer_media_type (media_type : string) : bool :=
  existsb (String.eqb media_type)
    ["application/vnd.oci.image.layer.v1.tar+gzip"; "application/vnd.docker.image.rootfs.diff.tar.gzip";
     "application/vnd.oci.image.layer.v1.tar"]%string.

Section preflight.
Context `{OciReference} (cache_dir : Path).

(** [qarax_init]: whether the init program is configured and present. *)
Definition init_check (qarax_init : option bool) (mount_dir : Path) (imported_ref registry_url : string)
  : Ob PreflightCheckResult :=
  match qarax_init with
  | Some true =>
      r ← ob_try (inject_init_inner mount_dir imported_ref registry_url);
      mret (match r with
            | Ok _ => check_ok "qarax_init" "injected qarax-init"
            | Err _ => check_fail "qarax_init" "injection failed"
            end)
  | Some false => mret (check_fail "qarax_init" "qarax-init binary is missing")
  | None => mret (check_fail "qarax_init" "qarax-init binary is not configured on this node")
  end.

(** The checks that need the image as a device; it is unmounted afterwards. *)
Definition preflight_device (vm_id imported_ref registry_url : string) (config : OciImageConfig)
    (qarax_init : option bool) (mounted : MountedDevice) : Ob (list PreflightCheckResult) :=
  let mount_dir := config_dir_of cache_dir vm_id ++ ["rootfs-mount"%string] in
  _ ← fs_op (fs_create_dir_all mount_dir) ("create mount dir " +:+ path_text mount_dir);
  ok ← mount_command (md_device_path mounted) mount_dir;
  if ok : bool then
    executable ← ob_ask oo_executable;
    let command := guest_command_check executable (oi_config config) in
    init ← init_check qarax_init mount_dir imported_ref registry_url;
    _ ← umount_command mount_dir;
    _ ← remove_mount_dir mount_dir;
    _ ← unmount cache_dir vm_id;
    mret [command; init]
  else
    _ ← remove_mount_dir mount_dir;
    _ ← unmount cache_dir vm_id;
    mret [check_fail "rootfs_mount" ("mount " +:+ md_device_path mounted +:+ " on " +:+ path_text mount_dir)].

Definition preflight_boot (image_ref registry_url architecture boot_mode : string) (qarax_init : option bool)
  : Ob (string * list PreflightCheckResult) :=
  '(imported_ref, size_bytes) ← import_image image_ref registry_url;
  config ← fetch_full_oci_config imported_ref registry_url;
  let manifest_architecture := default architecture (oi_architecture config ≫= Architecture.normalize_architecture) in
  let checks := [boot_mode_check boot_mode;
                 check_ok "overlaybd_import" ("imported image into local registry as " +:+ imported_ref +:+ " ("
                                              +:+ pretty size_bytes +:+ " bytes)");
                 architecture_check architecture manifest_architecture; os_check (oi_os config)] in
  uuid ← ob_ask oo_uuid;
  let vm_id := "preflight-" +:+ uuid in
  r ← ob_try (mount cache_dir vm_id imported_ref registry_url None None);
  match r with
  | Err _ =>
      _ ← unmount cache_dir vm_id;
      mret (imported_ref, checks ++ [check_fail "overlaybd_mount" "mount failed"])
  | Ok mounted =>
      more ← preflight_device vm_id imported_ref registry_url config qarax_init mounted;
      mret (imported_ref, checks ++ check_ok "overlaybd_mount" ("mapped OverlayBD device at " +:+ md_device_path mounted) :: more)
  end.
End preflight.
