(* ===== verification/NodeImages.v ===== *)
(** * NodeImages: what mounting an image leaves behind

    Theorems about [NodeOverlayBd.v].  However a mount ends, a later unmount that the
    kernel does not refuse removes everything of the VM and nothing else.  A mapped VM
    is known as mapped, also after a restart of the agent. *)

From S2P Require Import Prelude Text Common Secrets HostFs NodeOverlayBd.
From Stdlib Require Import Ascii.
#[local] Open Scope Z_scope.

(** ** Computations that keep a property *)

Definition obd_keeps {A} (P : ObdHost -> Prop) (m : Ob A) : Prop := forall o h, P h -> P (m o h).1.
(** The property does not depend on the step counter and the attributes. *)
Definition about_tables (P : ObdHost -> Prop) : Prop :=
  forall h h', ob_fs h = ob_fs h' -> ob_mounts h = ob_mounts h' -> ob_rootfs h = ob_rootfs h' -> P h -> P h'.

Section keeps.
Context (P : ObdHost -> Prop) (HP : about_tables P).
#[local] Set Default Proof Using "Type".

Lemma obd_keeps_ret {A} (x : A) : obd_keeps P (mret x).
Proof. by intros o h. Qed.
Lemma obd_keeps_throw {A} e : obd_keeps (A := A) P (ob_throw e).
Proof. by intros o h. Qed.
Lemma obd_keeps_get {A} (f : ObdHost -> A) : obd_keeps P (ob_get f).
Proof. by intros o h. Qed.
Lemma obd_keeps_of {A} (r : result OverlayBdError A) : obd_keeps P (ob_of r).
Proof. by intros o h. Qed.
Lemma obd_keeps_bind {A B} (m : Ob A) (f : A -> Ob B) :
  obd_keeps P m -> (forall x, obd_keeps P (f x)) -> obd_keeps P (m ≫= f).
Proof.
  intros Hm Hf o h Hh. specialize (Hm o h Hh). unfold mbind, Ob_bind. destruct (m o h) as [h' [x|e]]; [|done].
  by apply Hf.
Qed.
Lemma obd_keeps_ask {A} (f : ObdOracle -> nat -> A) : obd_keeps P (ob_ask f).
Proof using HP. intros o h. apply HP; by destruct h. Qed.
Lemma obd_keeps_try {A} (m : Ob A) : obd_keeps P m -> obd_keeps P (ob_try m).
Proof. intros Hm o h Hh. specialize (Hm o h Hh). unfold ob_try. by destruct (m o h). Qed.
Lemma obd_keeps_each {A} (f : A -> Ob unit) l :
  (forall x, x ∈ l -> obd_keeps P (f x)) -> obd_keeps P (ob_each f l).
Proof.
  induction l as [|x l IH]; intros Hf; [apply obd_keeps_ret|]. simpl. apply obd_keeps_bind; [apply Hf; left|].
  intros _. apply IH. intros y Hy. apply Hf. by right.
Qed.
Lemma obd_keeps_ignore {A} (m : Ob A) : obd_keeps P m -> obd_keeps P (ob_ignore m).
Proof. intros Hm. apply obd_keeps_bind; [by apply obd_keeps_try|]. intros _. apply obd_keeps_ret. Qed.
Lemma obd_keeps_demand ask e : obd_keeps P (ob_demand ask e).
Proof using HP.
  apply obd_keeps_bind; [apply obd_keeps_ask|]. intros []; [apply obd_keeps_ret|apply obd_keeps_throw].
Qed.
Lemma obd_keeps_attribute d n v : obd_keeps P (write_attribute d n v).
Proof using HP.
  apply obd_keeps_bind; [apply obd_keeps_ask|]. intros ok. apply obd_keeps_bind; [apply obd_keeps_get|]. intros dir.
  destruct (ok && dir); [|apply obd_keeps_throw]. intros o h. apply HP; by destruct h.
Qed.

(** A file operation that keeps the property in all tables. *)
Lemma obd_keeps_fs f t :
  (forall h fs', P h -> f (ob_fs h) = Some fs' -> P (with_fs (fun _ => fs') h)) -> obd_keeps P (fs_op f t).
Proof using HP.
  intros Hf o h Hh. unfold fs_op, ob_ask, ob_get, mbind, Ob_bind.
  assert (P (ob_tick h)) as Ht by (apply (HP h); by destruct h). destruct (oo_io o (ob_step h)); [|done].
  destruct (f (ob_fs (ob_tick h))) as [fs'|] eqn:E; [|done]. simpl. by apply Hf.
Qed.

Lemma obd_keeps_control td : obd_keeps P (wait_for_tcmu_control_files td).
Proof using HP.
  unfold wait_for_tcmu_control_files. generalize 50%nat; intros n; induction n as [|n IH]; [apply obd_keeps_throw|].
  apply obd_keeps_bind; [apply obd_keeps_ask|]. intros []; [apply obd_keeps_ret|apply IH].
Qed.
Lemma obd_keeps_configured : obd_keeps P wait_for_tcmu_configured.
Proof using HP.
  unfold wait_for_tcmu_configured. generalize 100%nat; intros n; induction n as [|n IH]; [apply obd_keeps_throw|].
  apply obd_keeps_bind; [apply obd_keeps_ask|]. intros i. destruct (tcmu_configured i); [apply obd_keeps_ret|apply IH].
Qed.
Lemma obd_keeps_sd : obd_keeps P list_sd_devices.
Proof using HP. apply obd_keeps_bind; [apply obd_keeps_ask|]. intros l. apply obd_keeps_ret. Qed.
Lemma obd_keeps_new_sd known : obd_keeps P (wait_for_new_sd_device known).
Proof using HP.
  unfold wait_for_new_sd_device. generalize 100%nat; intros n; induction n as [|n IH]; [apply obd_keeps_throw|].
  apply obd_keeps_bind; [apply obd_keeps_sd|]. intros l. destruct (List.find _ l); [apply obd_keeps_ret|apply IH].
Qed.
Lemma obd_keeps_reference `{OciReference} t : obd_keeps P (reference_at t).
Proof. apply obd_keeps_of. Qed.
Lemma obd_keeps_manifest t : obd_keeps P (pull_image_manifest t).
Proof using HP. apply obd_keeps_bind; [apply obd_keeps_ask|]. intros l. apply obd_keeps_of. Qed.
Lemma obd_keeps_lowers `{OciReference} i r : obd_keeps P (fetch_lowers i r).
Proof using HP.
  apply obd_keeps_bind; [apply obd_keeps_reference|]. intros _. apply obd_keeps_bind; [apply obd_keeps_manifest|].
  intros [|l ls]; [apply obd_keeps_throw|apply obd_keeps_ret].
Qed.

(** What happens to the tables while an image is mounted: directories that are missing
    are created, the stale backstore is removed, a link and a device are added. *)
Lemma obd_keeps_backstore td cf :
  (forall h d fs', P h -> d ∈ [tcmu_base; td] -> fs_create_dir d (ob_fs h) = Some fs' -> P (with_fs (fun _ => fs') h)) ->
  (forall h fs', P h -> fs_remove_dir td (ob_fs h) = Some fs' -> P (with_fs (fun _ => fs') h)) ->
  obd_keeps P (create_backstore td cf).
Proof using HP.
  intros Hc Hr. apply obd_keeps_bind; [apply obd_keeps_get|]. intros base. apply obd_keeps_bind.
  { destruct base; [apply obd_keeps_ret|]. apply obd_keeps_fs. intros h fs' Hh. apply Hc; [done|left]. }
  intros _. apply obd_keeps_bind; [apply obd_keeps_get|]. intros stale. apply obd_keeps_bind.
  { destruct stale; [|apply obd_keeps_ret]. apply obd_keeps_bind; [apply obd_keeps_ignore, obd_keeps_attribute|].
    intros _. apply obd_keeps_ignore, obd_keeps_fs. intros h fs'. apply Hr. }
  intros _. apply obd_keeps_bind.
  { apply obd_keeps_fs. intros h fs' Hh. apply Hc; [done|right; left]. }
  intros _. apply obd_keeps_bind; [apply obd_keeps_control|]. intros _.
  apply obd_keeps_bind; [apply obd_keeps_attribute|]. intros _.
  apply obd_keeps_bind; [apply obd_keeps_attribute|]. intros _. apply obd_keeps_configured.
Qed.

Lemma obd_keeps_loopback wwn tn td :
  (forall h d fs', P h -> d ∈ loopback_dirs wwn -> fs_create_dir d (ob_fs h) = Some fs' -> P (with_fs (fun _ => fs') h)) ->
  (forall h fs', P h -> fs_symlink td (lun_dir_of wwn ++ [tn]) (ob_fs h) = Some fs' -> P (with_fs (fun _ => fs') h)) ->
  (forall h name a b, P h -> exists_at (ob_fs h) ["dev"%string; name] = false ->
     P (with_fs (insert ["dev"%string; name] (EDevice a b)) h)) ->
  obd_keeps P (setup_loopback_and_get_device wwn tn td).
Proof using HP.
  intros Hc Hl Hd. apply obd_keeps_bind; [apply obd_keeps_sd|]. intros known. apply obd_keeps_bind.
  { apply obd_keeps_each. intros d Hin. apply obd_keeps_bind; [apply obd_keeps_get|].
    intros []; [apply obd_keeps_ret|]. apply obd_keeps_fs. intros h fs' Hh. by apply Hc. }
  intros _. apply obd_keeps_bind; [apply obd_keeps_attribute|]. intros _.
  apply obd_keeps_bind; [apply obd_keeps_get|]. intros there.
  apply obd_keeps_bind; [destruct there; [apply obd_keeps_ret|apply obd_keeps_throw]|]. intros _.
  apply obd_keeps_bind; [apply obd_keeps_fs; intros h fs'; apply Hl|]. intros _.
  apply obd_keeps_bind; [apply obd_keeps_ignore, obd_keeps_attribute|]. intros _.
  apply obd_keeps_bind; [apply obd_keeps_new_sd|]. intros dev.
  apply obd_keeps_bind; [apply obd_keeps_ask|]. intros t. apply obd_keeps_bind; [apply obd_keeps_of|]. intros t'.
  apply obd_keeps_bind; [apply obd_keeps_of|]. intros [a b]. apply obd_keeps_bind; [|intros _; apply obd_keeps_ret].
  intros o h Hh. unfold make_device_node, ob_exists, ob_get, ob_demand, ob_ask, mbind, Ob_bind.
  destruct (exists_at (ob_fs h) ["dev"%string; dev]) eqn:Ee; [done|].
  assert (P (ob_tick h)) as Ht by (apply (HP h); by destruct h). destruct (oo_command o (ob_step h)); [|done].
  simpl. apply Hd; [done|]. by destruct h.
Qed.
End keeps.

(** ** The paths of a VM *)

Section paths.
Context (cache_dir : Path) (vm_id : string) (uppers : list Path) (index : option Path).

Definition tcmu_dir : Path := tcmu_dir_of (vm_tcmu_names vm_id).1.
Definition loopback_dir : Path := loopback_dir_of (vm_tcmu_names vm_id).2.
Definition target_dirs : list Path :=
  [lun_dir_of (vm_tcmu_names vm_id).2; tpg_dir_of (vm_tcmu_names vm_id).2 ++ ["lun"%string];
   tpg_dir_of (vm_tcmu_names vm_id).2; loopback_dir].
Definition lun_link : Path := lun_dir_of (vm_tcmu_names vm_id).2 ++ [(vm_tcmu_names vm_id).1].

(** What belongs to the VM alone. *)
Definition vm_owned (p : Path) : bool :=
  below (config_dir_of cache_dir vm_id) p || below tcmu_dir p || below loopback_dir p.
(** What stays for others: directories on the way to the files, the writable layer of
    the caller, nodes of devices. *)
Definition shared (p : Path) : Prop :=
  below p (config_dir_of cache_dir vm_id) = true \/ p = tcmu_base \/ p = loopback_base \/
  Exists (fun u => below p u = true) uppers \/ exists name, p = ["dev"%string; name].

(** The cache is apart from the kernel's directories and from the writable layers. *)
Record apart : Prop := {
  ap_head : exists c, head (config_dir_of cache_dir vm_id) = Some c /\ c <> "sys"%string /\ c <> "dev"%string;
  ap_upper : Forall (fun u => vm_owned u = false) uppers
}.
Record unused (h : ObdHost) : Prop := {
  un_mount : ob_mounts h !! vm_id = None;
  un_paths : forall p, vm_owned p = true -> ob_fs h !! p = None;
  un_links : forall p t, ob_fs h !! p = Some (ELink t) -> vm_owned t = false;
  un_rootfs : forall p d, ob_rootfs h !! p = Some d -> below (config_dir_of cache_dir vm_id) p = false
}.

(** The file system while the image is mounted, or after that has failed. *)
Record Shape (fs0 fs : Fs) : Prop := {
  sh_config : fs !! config_dir_of cache_dir vm_id = Some EDir;
  sh_tcmu : forall p e, below tcmu_dir p = true -> fs !! p = Some e -> p = tcmu_dir /\ e = EDir;
  sh_loop : forall p e, below loopback_dir p = true -> fs !! p = Some e ->
    (p ∈ target_dirs /\ e = EDir) \/ (p = lun_link /\ e = ELink tcmu_dir);
  sh_top : forall p, below loopback_dir p = true -> is_Some (fs !! p) -> is_Some (fs !! loopback_dir);
  sh_links : forall p t, fs !! p = Some (ELink t) -> p = lun_link \/ vm_owned t = false;
  sh_old : forall p e, fs0 !! p = Some e -> fs !! p = Some e \/ index = Some p;
  sh_new : forall p, is_Some (fs !! p) -> is_Some (fs0 !! p) \/ vm_owned p = true \/ shared p
}.
End paths.

Section shape.
Context (cache_dir : Path) (vm_id : string) (uppers : list Path) (index : option Path).
Context (Hapart : apart cache_dir vm_id uppers).
#[local] Set Default Proof Using "Type".
#[local] Notation cd := (config_dir_of cache_dir vm_id).
#[local] Notation td := (tcmu_dir vm_id).
#[local] Notation ld := (loopback_dir vm_id).
#[local] Notation own := (vm_owned cache_dir vm_id).
#[local] Notation shape := (Shape cache_dir vm_id uppers index).

Lemma below_head d p x : head d = Some x -> below d p = true -> head p = Some x.
Proof. intros Hd [k ->]%below_spec. by destruct d. Qed.
Lemma config_apart p : below cd p = true -> below td p = false /\ below ld p = false.
Proof using Hapart.
  intros Hp. destruct (ap_head _ _ _ Hapart) as (c&Hc&Hsys&_). pose proof (below_head _ _ _ Hc Hp) as Hh.
  split; apply not_true_iff_false; intros Hb.
  - apply (below_head _ _ "sys"%string) in Hb; [|done]. congruence.
  - apply (below_head _ _ "sys"%string) in Hb; [|done]. congruence.
Qed.
Lemma tcmu_apart p : below td p = true -> below ld p = false.
Proof. intros [k ->]%below_spec. apply not_true_iff_false. intros [k' Hk]%below_spec. by simplify_list_eq. Qed.
Lemma device_not_owned name : own ["dev"%string; name] = false.
Proof using Hapart.
  destruct (ap_head _ _ _ Hapart) as (c&Hc&_&Hdev). unfold vm_owned. rewrite !orb_false_iff.
  split_and!; apply not_true_iff_false; intros Hb.
  - apply (below_head _ _ _ Hc) in Hb. simpl in Hb. congruence.
  - by apply (below_head _ _ "sys"%string) in Hb.
  - by apply (below_head _ _ "sys"%string) in Hb.
Qed.

Lemma shape_insert fs0 fs p e :
  shape fs0 fs ->
  (p = cd -> e = EDir) ->
  (below td p = true -> p = td /\ e = EDir) ->
  (below ld p = true -> ((p ∈ target_dirs vm_id /\ e = EDir) \/ (p = lun_link vm_id /\ e = ELink td)) /\
                        (p = ld \/ is_Some (fs !! ld))) ->
  (forall t, e = ELink t -> p = lun_link vm_id \/ own t = false) ->
  (forall e', fs0 !! p = Some e' -> e = e' \/ index = Some p) ->
  own p = true \/ shared cache_dir vm_id uppers p ->
  shape fs0 (<[p := e]> fs).
Proof.
  intros Hs Hcd Htd Hld Hlink Hold Hnew. constructor.
  - destruct (decide (p = cd)) as [->|]; [rewrite lookup_insert_eq; by rewrite Hcd|].
    rewrite lookup_insert_ne by done. apply Hs.
  - intros q e' Hq. rewrite lookup_insert_Some. intros [[-> ->]|[_ Hl]]; [by apply Htd|by eapply sh_tcmu].
  - intros q e' Hq. rewrite lookup_insert_Some. intros [[-> ->]|[_ Hl]]; [by apply Hld|by eapply sh_loop].
  - intros q Hq [e' Hl]. rewrite lookup_insert_Some in Hl. rewrite lookup_insert_is_Some.
    destruct Hl as [[-> ->]|[_ Hl]].
    + destruct (Hld Hq) as [_ [->|]]; [by left|]. destruct (decide (q = ld)) as [->|]; [by left|by right].
    + destruct (decide (p = ld)) as [->|]; [by left|]. right. split; [done|]. eapply sh_top; eauto.
  - intros q t. rewrite lookup_insert_Some. intros [[-> ->]|[_ Hl]]; [by apply Hlink|by eapply sh_links].
  - intros q e' Hq. destruct (decide (p = q)) as [->|].
    + rewrite lookup_insert_eq. destruct (Hold e' Hq) as [->|]; auto.
    + rewrite lookup_insert_ne by done. by apply Hs.
  - intros q. rewrite lookup_insert_is_Some. intros [->|[_ Hl]]; [by right|by apply Hs].
Qed.

(** Cases of it. *)
Lemma shape_shared fs0 fs p e :
  shape fs0 fs -> own p = false -> shared cache_dir vm_id uppers p -> (forall t, e <> ELink t) ->
  (forall e', fs0 !! p = Some e' -> e = e' \/ index = Some p) -> shape fs0 (<[p := e]> fs).
Proof.
  intros Hs Hp Hsh He Hold. unfold vm_owned in Hp. rewrite !orb_false_iff in Hp. destruct Hp as [[Hc Ht] Hl].
  apply shape_insert; auto; try congruence.
  intros ->. by rewrite below_refl in Hc.
Qed.
Lemma shape_config fs0 fs name e :
  shape fs0 fs -> (forall p, own p = true -> fs0 !! p = None) -> (forall t, e <> ELink t) ->
  shape fs0 (<[cd ++ [name] := e]> fs).
Proof using Hapart.
  intros Hs Hun He. pose proof (below_app cd [name]) as Hb. destruct (config_apart _ Hb) as [Ht Hl].
  assert (own (cd ++ [name]) = true) as Ho by (unfold vm_owned; by rewrite Hb).
  apply shape_insert; auto; try congruence.
  - intros Hcd. apply (f_equal length) in Hcd. rewrite length_app in Hcd. simpl in Hcd. lia.
  - intros e' He'. by rewrite Hun in He'.
Qed.
Lemma shape_tcmu fs0 fs :
  shape fs0 fs -> (forall p, own p = true -> fs0 !! p = None) -> shape fs0 (<[td := EDir]> fs).
Proof using Hapart.
  intros Hs Hun. assert (own td = true) as Ho by (unfold vm_owned; rewrite (below_refl td); by rewrite orb_true_r).
  apply shape_insert; auto; try congruence.
  - intros Hb. by rewrite (tcmu_apart td) in Hb by apply below_refl.
  - intros e' He'. by rewrite Hun in He'.
Qed.
Lemma target_below d : d ∈ target_dirs vm_id -> below ld d = true.
Proof.
  unfold target_dirs, lun_dir_of, tpg_dir_of. rewrite !elem_of_cons, elem_of_nil.
  intros [->|[->|[->|[->|[]]]]]; rewrite <-?app_assoc; try apply below_app. apply below_refl.
Qed.
Lemma loopback_owned p : below ld p = true -> own p = true /\ below td p = false /\ p <> cd.
Proof using Hapart.
  intros Hp. split_and!; [unfold vm_owned; by rewrite Hp, orb_true_r| |].
  - apply not_true_iff_false. intros Ht. by rewrite tcmu_apart in Hp.
  - intros ->. destruct (config_apart cd (below_refl _)) as [_ Hf]. congruence.
Qed.
Lemma shape_loop fs0 fs d :
  shape fs0 fs -> (forall p, own p = true -> fs0 !! p = None) -> d ∈ target_dirs vm_id ->
  d = ld \/ is_Some (fs !! ld) -> shape fs0 (<[d := EDir]> fs).
Proof using Hapart.
  intros Hs Hun Hd Hld. destruct (loopback_owned d (target_below d Hd)) as (Ho&Ht&Hc).
  apply shape_insert; auto; try congruence. intros e' He'. by rewrite Hun in He'.
Qed.
Lemma link_below : below ld (lun_link vm_id) = true.
Proof. unfold lun_link, lun_dir_of, tpg_dir_of. rewrite <-!app_assoc. apply below_app. Qed.
Lemma shape_link fs0 fs :
  shape fs0 fs -> (forall p, own p = true -> fs0 !! p = None) -> is_Some (fs !! ld) ->
  shape fs0 (<[lun_link vm_id := ELink td]> fs).
Proof using Hapart.
  intros Hs Hun Hld. destruct (loopback_owned _ link_below) as (Ho&Ht&Hc).
  apply shape_insert; auto; try congruence. intros e' He'. by rewrite Hun in He'.
Qed.
Lemma shape_remove_tcmu fs0 fs :
  shape fs0 fs -> (forall p, own p = true -> fs0 !! p = None) -> shape fs0 (delete td fs).
Proof using Hapart.
  intros Hs Hun. assert (own td = true) as Ho by (unfold vm_owned; rewrite (below_refl td); by rewrite orb_true_r).
  assert (td <> cd) as Hne.
  { intros E. destruct (config_apart cd (below_refl _)) as [Hf _]. rewrite E, below_refl in Hf. done. }
  assert (td <> ld) as Hne'.
  { intros E. pose proof (tcmu_apart td (below_refl _)) as Hf. rewrite E, below_refl in Hf. done. }
  constructor.
  - rewrite lookup_delete_ne by done. apply Hs.
  - intros p e Hp [_ Hl]%lookup_delete_Some. by eapply sh_tcmu.
  - intros p e Hp [_ Hl]%lookup_delete_Some. by eapply sh_loop.
  - intros p Hp [e [_ Hl]%lookup_delete_Some]. rewrite lookup_delete_ne by done. eapply sh_top; eauto.
  - intros p t [_ Hl]%lookup_delete_Some. by eapply sh_links.
  - intros p e Hp. destruct (decide (td = p)) as [<-|]; [by rewrite Hun in Hp|].
    rewrite lookup_delete_ne by done. by apply Hs.
  - intros p [e [_ Hl]%lookup_delete_Some]. eapply sh_new; eauto.
Qed.
End shape.

(** ** Directories on the way *)

Lemma create_dirs_spec rest : forall done fs fs', fs_create_dirs done rest fs = Some fs' ->
  (forall p e, fs !! p = Some e -> fs' !! p = Some e) /\
  (forall p e, fs' !! p = Some e -> fs !! p = Some e \/ (e = EDir /\ below p (done ++ rest) = true)) /\
  (rest <> [] -> fs' !! (done ++ rest) = Some EDir).
Proof.
  induction rest as [|c rest IH]; simpl; intros done fs fs'.
  { intros [= <-]. split_and!; auto. done. }
  intros Hc. assert (forall fs1, fs_create_dirs (done ++ [c]) rest fs1 = Some fs' -> fs1 !! (done ++ [c]) = Some EDir ->
    (forall p e, fs1 !! p = Some e -> fs' !! p = Some e) /\
    (forall p e, fs' !! p = Some e -> fs1 !! p = Some e \/ (e = EDir /\ below p (done ++ c :: rest) = true)) /\
    fs' !! (done ++ c :: rest) = Some EDir) as Hstep.
  { intros fs1 H1 Hd. apply IH in H1 as (Hold&Hnew&Hlast). rewrite <-app_assoc in *. split_and!; [done|done|].
    destruct rest; [by apply Hold|by apply Hlast]. }
  destruct (fs !! (done ++ [c])) as [[]|] eqn:E; try done.
  - destruct (Hstep fs Hc E) as (?&?&?). auto.
  - destruct (Hstep _ Hc (lookup_insert_eq _ _ _)) as (Hold&Hnew&Hlast). split_and!; [|..]; [|intros p e Hp|done].
    + intros p e Hp. apply Hold. rewrite lookup_insert_ne; [done|]. intros <-. congruence.
    + apply Hnew in Hp as [Hp|]; [|by right]. apply lookup_insert_Some in Hp as [[<- <-]|[_ Hp]]; [|by left].
      right. split; [done|]. apply below_spec. exists rest. by rewrite <-app_assoc.
Qed.

Section growth.
Context (cache_dir : Path) (vm_id : string) (uppers : list Path) (index : option Path).
Context (Hapart : apart cache_dir vm_id uppers).
#[local] Set Default Proof Using "Hapart".
#[local] Notation cd := (config_dir_of cache_dir vm_id).
#[local] Notation td := (tcmu_dir vm_id).
#[local] Notation ld := (loopback_dir vm_id).
#[local] Notation own := (vm_owned cache_dir vm_id).
#[local] Notation share := (shared cache_dir vm_id uppers).
#[local] Notation shape := (Shape cache_dir vm_id uppers index).

Lemma own_up p q : own p = true -> below p q = true -> own q = true.
Proof.
  unfold vm_owned. rewrite !orb_true_iff. intros [[Hp|Hp]|Hp] Hq.
  - left. left. by eapply below_trans.
  - left. right. by eapply below_trans.
  - right. by eapply below_trans.
Qed.
Lemma own_parts p : own p = false -> below cd p = false /\ below td p = false /\ below ld p = false.
Proof. unfold vm_owned. rewrite !orb_false_iff. tauto. Qed.

(** New directories on the way to a file of the VM or of the caller. *)
Lemma shape_more fs0 fs fs' d :
  shape fs0 fs -> fs_create_dir_all d fs = Some fs' ->
  (forall p, below p d = true -> p = cd \/ (own p = false /\ share p)) -> shape fs0 fs'.
Proof.
  intros Hs Hc Hd. apply create_dirs_spec in Hc as (Hold&Hnew&_).
  assert (forall p e, fs' !! p = Some e -> fs !! p = Some e \/ (e = EDir /\ own p = false /\ share p)) as Hn.
  { intros p e Hp. destruct (Hnew p e Hp) as [?|[-> Hb]]; [by left|]. destruct (Hd p Hb) as [->|]; [|by right].
    left. apply Hs. }
  constructor.
  - apply Hold, Hs.
  - intros p e Hb Hp. destruct (Hn p e Hp) as [?|(->&Ho&_)]; [by eapply sh_tcmu|].
    apply own_parts in Ho as (_&Ho&_). congruence.
  - intros p e Hb Hp. destruct (Hn p e Hp) as [?|(->&Ho&_)]; [by eapply sh_loop|].
    apply own_parts in Ho as (_&_&Ho). congruence.
  - intros p Hb [e Hp]. destruct (Hn p e Hp) as [?|(->&Ho&_)].
    + assert (is_Some (fs !! ld)) as [e' He'] by (eapply sh_top; eauto). eauto.
    + apply own_parts in Ho as (_&_&Ho). congruence.
  - intros p t Hp. destruct (Hn p _ Hp) as [?|(?&_)]; [by eapply sh_links|done].
  - intros p e Hp. destruct (sh_old _ _ _ _ _ _ Hs p e Hp); auto.
  - intros p [e Hp]. destruct (Hn p e Hp) as [?|(_&_&?)]; [|by right; right]. eapply sh_new; eauto.
Qed.

Lemma config_ancestors p : below p cd = true -> p = cd \/ (own p = false /\ share p).
Proof.
  intros Hp. destruct (decide (p = cd)) as [|Hne]; [by left|]. right. split; [|by left].
  destruct (config_apart _ _ _ Hapart cd (below_refl cd)) as [Ht Hl]. unfold vm_owned. rewrite !orb_false_iff.
  split_and!; apply not_true_iff_false; intros Hb.
  - apply below_spec in Hp, Hb. apply Hne. by apply (anti_symm prefix).
  - rewrite (below_trans _ _ _ Hb Hp) in Ht. done.
  - rewrite (below_trans _ _ _ Hb Hp) in Hl. done.
Qed.

(** The first directory of a mount. *)
Lemma shape_start h fs1 :
  unused cache_dir vm_id h -> fs_create_dir_all cd (ob_fs h) = Some fs1 -> shape (ob_fs h) fs1.
Proof.
  intros Hun Hc. apply create_dirs_spec in Hc as (Hold&Hnew&Hlast).
  assert (forall p e, own p = true -> p <> cd -> fs1 !! p = Some e -> False) as Hno.
  { intros p e Ho Hne Hp. destruct (Hnew p e Hp) as [H1|[_ Hb]].
    - by rewrite (un_paths _ _ _ Hun) in H1.
    - destruct (config_ancestors p Hb) as [|[? _]]; congruence. }
  assert (forall p, below td p = true \/ below ld p = true -> own p = true /\ p <> cd) as Hsys.
  { intros p Hp. split; [unfold vm_owned; destruct Hp as [->| ->]; rewrite ?orb_true_r; done|]. intros ->.
    destruct (config_apart _ _ _ Hapart cd (below_refl cd)) as [Ht Hl]. destruct Hp; congruence. }
  constructor.
  - apply Hlast. destruct (ap_head _ _ _ Hapart) as (c&Hh&_). by destruct cd.
  - intros p e Hb Hp. destruct (Hsys p (or_introl Hb)). by destruct (Hno p e).
  - intros p e Hb Hp. destruct (Hsys p (or_intror Hb)). by destruct (Hno p e).
  - intros p Hb [e Hp]. destruct (Hsys p (or_intror Hb)). by destruct (Hno p e).
  - intros p t Hp. destruct (Hnew p _ Hp) as [?|[? _]]; [|done]. right. by eapply un_links.
  - intros p e Hp. left. by apply Hold.
  - intros p [e Hp]. destruct (Hnew p e Hp) as [?|[_ Hb]]; [left; eauto|]. right.
    destruct (config_ancestors p Hb) as [->|[_ ?]]; [left|by right]. unfold vm_owned. by rewrite below_refl.
Qed.

Lemma fs_create_dir_inv d fs fs' :
  fs_create_dir d fs = Some fs' ->
  fs' = <[d := EDir]> fs /\ exists_at fs d = false /\ exists q, parent d = Some q /\ is_dir fs q = true.
Proof using Type.
  unfold fs_create_dir. destruct (parent d) as [q|]; [|done]. destruct (is_dir fs q) eqn:E; [|done].
  destruct (exists_at fs d) eqn:E'; [done|]. intros [= <-]. eauto.
Qed.
Lemma not_there fs p : exists_at fs p = false -> fs !! p = None.
Proof using Type. unfold exists_at. destruct p; [done|]. rewrite bool_decide_eq_false, <-eq_None_not_Some. done. Qed.
Lemma dir_there fs q : is_dir fs q = true -> q <> [] -> is_Some (fs !! q).
Proof using Type. unfold is_dir. destruct q; [done|]. intros H1 _. by destruct (fs !! _). Qed.
Lemma shape_fresh fs0 fs p e :
  shape fs0 fs -> exists_at fs p = false -> forall e', fs0 !! p = Some e' -> e = e' \/ index = Some p.
Proof using Type.
  intros Hs Hn e' He'. apply not_there in Hn. destruct (sh_old _ _ _ _ _ _ Hs p e' He'); [congruence|auto].
Qed.
End growth.

(** ** Mounting *)

Section mounting.
Context `{OciReference} (cache_dir : Path) (vm_id : string) (data_path index_path : option string).

Definition uppers_of : list Path :=
  match data_path with Some p => [components p] | None => [] end
  ++ match index_path with Some p => [components p] | None => [] end.
Definition index_of : option Path := components <$> index_path.

(** The state while an image is mounted for the VM. *)
Definition Mounting (h0 h : ObdHost) : Prop :=
  Shape cache_dir vm_id uppers_of index_of (ob_fs h0) (ob_fs h) /\ ob_rootfs h = ob_rootfs h0 /\
  (ob_mounts h = ob_mounts h0 \/
   exists dev, ob_mounts h = <[vm_id := {| md_device_path := dev; md_config_dir := config_dir_of cache_dir vm_id;
                                          md_tcmu_name := (vm_tcmu_names vm_id).1; md_wwn := (vm_tcmu_names vm_id).2 |}]>
                               (ob_mounts h0)).

Context (Hapart : apart cache_dir vm_id uppers_of).
#[local] Set Default Proof Using "Type".
#[local] Notation cd := (config_dir_of cache_dir vm_id).
#[local] Notation td := (tcmu_dir vm_id).
#[local] Notation ld := (loopback_dir vm_id).
#[local] Notation own := (vm_owned cache_dir vm_id).
#[local] Notation shape := (Shape cache_dir vm_id uppers_of index_of).

Lemma mounting_tables h0 : about_tables (Mounting h0).
Proof. intros h h' Hf Hm Hr. unfold Mounting. by rewrite Hf, Hm, Hr. Qed.
Lemma mounting_fs h0 h f : Mounting h0 h -> shape (ob_fs h0) (f (ob_fs h)) -> Mounting h0 (with_fs f h).
Proof. intros (_&?&?) Hs. destruct h. by split_and!. Qed.
Hint Resolve mounting_tables : core.

Lemma upper_elem p : data_path = Some p \/ index_path = Some p -> components p ∈ uppers_of.
Proof.
  unfold uppers_of. intros [->| ->]; [left|]. destruct data_path; [right; left|left].
Qed.
Lemma upper_shared u p : u ∈ uppers_of -> below p u = true -> own p = false /\ shared cache_dir vm_id uppers_of p.
Proof using Hapart.
  intros Hu Hp. split.
  - apply not_true_iff_false. intros Ho. pose proof (ap_upper _ _ _ Hapart) as Hf. rewrite Forall_forall in Hf.
    specialize (Hf u Hu). by rewrite (own_up _ _ _ Hapart _ _ Ho Hp) in Hf.
  - right. right. right. left. apply Exists_exists. eauto.
Qed.
Lemma parent_below p d : parent p = Some d -> below d p = true /\ p <> d.
Proof.
  destruct p as [|x p]; [done|]. intros [= <-]. destruct (exists_last (l := x :: p)) as (l&c&E); [done|].
  change (match p with [] => [] | _ :: _ => x :: removelast p end) with (removelast (x :: p)).
  rewrite E, removelast_last. split; [apply below_app|]. intros E'. apply (f_equal length) in E'.
  rewrite length_app in E'. simpl in E'. lia.
Qed.

(** The place of a writable layer: of the caller, or in the directory of the VM. *)
Definition upper_place (p : Path) : Prop := p ∈ uppers_of \/ exists name, p = cd ++ [name].

Lemma upper_dirs h0 h p d fs' :
  Mounting h0 h -> upper_place p -> parent p = Some d -> fs_create_dir_all d (ob_fs h) = Some fs' ->
  shape (ob_fs h0) fs'.
Proof using Hapart.
  intros (Hs&_) Hp Hd Hc. apply (shape_more _ _ _ _ Hapart _ _ _ _ Hs Hc). intros q Hq. destruct Hp as [Hu|[name ->]].
  - right. apply (upper_shared p); [done|]. destruct (parent_below _ _ Hd). by eapply below_trans.
  - rewrite parent_snoc in Hd. injection Hd as <-. by apply config_ancestors.
Qed.
Lemma upper_insert h0 fs p :
  unused cache_dir vm_id h0 -> shape (ob_fs h0) fs -> upper_place p ->
  (index_of = Some p \/ exists_at (ob_fs h0) p = false \/ forall e, ob_fs h0 !! p <> Some e) ->
  shape (ob_fs h0) (<[p := EFile Opaque]> fs).
Proof using Hapart.
  intros Hun Hs [Hu|[name ->]] Hi.
  - destruct (upper_shared p p Hu (below_refl p)) as [Ho Hsh]. apply shape_shared; try done.
    intros e' He'. destruct Hi as [?|[Hn|Hn]]; [by right| |by destruct (Hn e')].
    apply not_there in Hn. congruence.
  - apply shape_config; try done. apply Hun.
Qed.

Lemma upper_layer_keeps h0 data index :
  unused cache_dir vm_id h0 -> upper_place data -> upper_place index ->
  index_of = Some index \/ (exists name, index = cd ++ [name]) ->
  obd_keeps (Mounting h0) (create_upper_layer data index).
Proof using Hapart.
  intros Hun Hd Hi Hix o h Hh. unfold create_upper_layer, ob_exists, ob_get, mbind, Ob_bind.
  destruct (exists_at (ob_fs h) data) eqn:Ep; [done|].
  set (m1 := match parent data with Some d => _ | None => _ end).
  assert (Mounting h0 (m1 o h).1 /\ forall e, ob_fs h0 !! data = Some e -> index_of = Some data) as [H1 H2].
  { split.
    - subst m1. destruct (parent data) as [d|] eqn:Epd; [|done]. apply (obd_keeps_fs _ (mounting_tables h0)); [|done].
      intros h' fs' Hh' Hc. apply mounting_fs; [done|]. by apply (upper_dirs h0 h' data d fs').
    - intros e He. apply not_there in Ep. destruct (sh_old _ _ _ _ _ _ (proj1 Hh) data e He); [congruence|done]. }
  destruct (m1 o h) as [h1 [[]|e]]; simpl in H1; [|done]. clear Hh.
  pose proof (obd_keeps_demand _ (mounting_tables h0) oo_command (MountFailed "overlaybd-create failed") o h1 H1) as H3.
  destruct (ob_demand _ _ o h1) as [h2 [[]|e]]; simpl in H3; [|done]. simpl. apply mounting_fs; [done|].
  destruct H3 as (Hs&_&_). apply upper_insert; auto.
  - apply upper_insert; auto. destruct (ob_fs h0 !! data) as [e|] eqn:E; [left; eauto|]. right. right. done.
  - destruct Hix as [?|[name ->]]; [by left|]. right. right. intros e. rewrite (un_paths _ _ _ Hun); [done|].
    unfold vm_owned. by rewrite below_app.
Qed.

Lemma bases_shared : own tcmu_base = false /\ own loopback_base = false.
Proof using Hapart.
  destruct (ap_head _ _ _ Hapart) as (c&Hc&Hsys&_). unfold vm_owned. rewrite !orb_false_iff.
  split_and!; apply not_true_iff_false; intros Hb;
    first [apply (below_head _ _ _ Hc) in Hb; simpl in Hb; congruence
          |apply below_spec in Hb as [k Hk]; simplify_list_eq].
Qed.

Lemma backstore_keeps h0 cf :
  unused cache_dir vm_id h0 -> obd_keeps (Mounting h0) (create_backstore td cf).
Proof using Hapart.
  intros Hun. apply obd_keeps_backstore; [auto|..].
  - intros h d fs' Hh Hd (->&Hn&_)%fs_create_dir_inv. apply mounting_fs; [done|]. pose proof (proj1 Hh) as Hs.
    rewrite !elem_of_cons, elem_of_nil in Hd. destruct Hd as [->|[->|[]]].
    + apply shape_shared; try done; [apply bases_shared|by right; left|by eapply shape_fresh].
    + apply shape_tcmu; try done. apply Hun.
  - intros h fs' Hh Hr. apply mounting_fs; [done|]. revert Hr. unfold fs_remove_dir.
    destruct (ob_fs h !! td) as [[]|]; try done. destruct (occupied _ _); [done|]. intros [= <-].
    apply shape_remove_tcmu; [done|apply Hh|apply Hun].
Qed.

Lemma loopback_keeps h0 :
  unused cache_dir vm_id h0 ->
  obd_keeps (Mounting h0) (setup_loopback_and_get_device (vm_tcmu_names vm_id).2 (vm_tcmu_names vm_id).1 td).
Proof using Hapart.
  intros Hun. apply obd_keeps_loopback; [auto|..].
  - intros h d fs' Hh Hd (->&Hn&q&Hq&Hdir)%fs_create_dir_inv. apply mounting_fs; [done|]. pose proof (proj1 Hh) as Hs.
    unfold loopback_dirs in Hd. rewrite elem_of_cons in Hd. destruct Hd as [->|Hd].
    { apply shape_shared; try done; [apply bases_shared|by right; right; left|by eapply shape_fresh]. }
    assert (d ∈ target_dirs vm_id) as Ht.
    { unfold target_dirs. rewrite !elem_of_cons in *. unfold loopback_dir. tauto. }
    apply shape_loop; try done; [apply Hun|]. destruct (decide (d = ld)) as [|Hne]; [by left|]. right.
    apply (sh_top _ _ _ _ _ _ Hs q).
    + destruct (parent_below _ _ Hq) as [Hb Hqd]. unfold target_dirs in Ht. rewrite !elem_of_cons, elem_of_nil in Ht.
      unfold lun_dir_of, tpg_dir_of in Ht.
      destruct Ht as [->|[->|[->|[->|[]]]]]; [..|done]; rewrite <-?app_assoc in Hq; simpl in Hq; injection Hq as <-;
        apply below_spec; unfold loopback_dir, loopback_dir_of, loopback_base; simpl; eexists; reflexivity.
    + apply dir_there; [done|]. intros ->. revert Hq Ht. clear. unfold target_dirs, loopback_dir, loopback_dir_of, loopback_base.
      destruct d as [|a [|b d]]; [done|..|done]. intros _. rewrite !elem_of_cons, elem_of_nil. naive_solver.
  - intros h fs' Hh Hl. apply mounting_fs; [done|]. revert Hl. unfold fs_symlink. rewrite parent_snoc.
    destruct (is_dir (ob_fs h) (lun_dir_of _)) eqn:Ed; [|done]. destruct (exists_at _ _); [done|]. intros [= <-].
    apply (shape_link _ _ _ _ Hapart); [apply Hh|apply Hun|]. apply (sh_top _ _ _ _ _ _ (proj1 Hh) (lun_dir_of (vm_tcmu_names vm_id).2)).
    + unfold lun_dir_of, tpg_dir_of. rewrite <-app_assoc. apply below_app.
    + by apply dir_there.
  - intros h name a b Hh Hn. apply mounting_fs; [done|]. apply shape_shared; try done; [apply Hh|..].
    + by eapply device_not_owned.
    + right. right. right. right. eauto.
    + eapply shape_fresh; [apply Hh|done].
Qed.

Lemma mount_result image_ref registry_url o h :
  unused cache_dir vm_id h ->
  let h1 := (mount cache_dir vm_id image_ref registry_url data_path index_path o h).1 in
  (ob_fs h1 = ob_fs h /\ ob_mounts h1 = ob_mounts h /\ ob_rootfs h1 = ob_rootfs h) \/ Mounting h h1.
Proof using Hapart.
  intros Hun. unfold mount. set (rest := fun _ : unit => _).
  assert (forall x, obd_keeps (Mounting h) (rest x)) as Hrest.
  { intros x. subst rest. cbv beta zeta. apply obd_keeps_bind; [apply obd_keeps_of|]. intros [repo tag].
    apply obd_keeps_bind.
    { apply upper_layer_keeps; auto.
      - destruct data_path as [p|] eqn:E; [left; apply upper_elem; auto|right; eauto].
      - destruct index_path as [p|] eqn:E; [left; apply upper_elem; auto|right; eauto].
      - unfold index_of. destruct index_path; [by left|right; eauto]. }
    intros _. apply obd_keeps_bind; [apply obd_keeps_lowers; auto|]. intros lowers. apply obd_keeps_bind.
    { apply obd_keeps_fs; [auto|]. intros h' fs' Hh Hw. apply mounting_fs; [done|]. revert Hw. unfold fs_write.
      rewrite parent_snoc. destruct (_ && _); [|done]. intros [= <-].
      apply shape_config; try done; [apply Hh|apply Hun]. }
    intros _. destruct (vm_tcmu_names vm_id) as [tn wwn] eqn:En.
    replace (tcmu_dir_of tn) with td by (unfold tcmu_dir; by rewrite En).
    apply obd_keeps_bind; [by apply backstore_keeps|]. intros _. apply obd_keeps_bind.
    { pose proof (loopback_keeps h Hun) as Hl. by rewrite En in Hl. }
    intros dev. apply obd_keeps_bind; [|intros _; apply obd_keeps_ret].
    intros o' h' (Hs&Hr&Hm). destruct h'. split_and!; [done|done|]. right. exists dev. rewrite En. simpl in *.
    destruct Hm as [->|[dev' ->]]; [done|]. by rewrite insert_insert_eq. }
  unfold fs_op, ob_ask, ob_get, mbind, Ob_bind. destruct (oo_io o (ob_step h)); [|left; by destruct h].
  destruct (fs_create_dir_all (config_dir_of cache_dir vm_id) (ob_fs (ob_tick h))) as [fs1|] eqn:E; [|left; by destruct h].
  right. simpl. apply Hrest. split_and!; [|by destruct h|left; by destruct h].
  replace (ob_fs (with_fs (fun _ => fs1) (ob_tick h))) with fs1 by by destruct h.
  apply (shape_start _ _ _ _ Hapart); [done|]. by destruct h.
Qed.
End mounting.

(** ** Unmounting *)

(** The environment refuses no file operation. *)
Definition obliging (o : ObdOracle) : Prop := forall n, oo_io o n = true.

Section runs.
Context (o : ObdOracle) (Ho : obliging o) (M : gmap string MountedDevice) (R : gmap Path string).
#[local] Set Default Proof Using "Type".

(** A computation succeeds and takes one file system to another. *)
Definition runs (m : Ob unit) (fs fs' : Fs) : Prop :=
  forall h, ob_fs h = fs -> ob_mounts h = M -> ob_rootfs h = R ->
  exists h', m o h = (h', Ok tt) /\ ob_fs h' = fs' /\ ob_mounts h' = M /\ ob_rootfs h' = R.

Lemma runs_ret fs : runs (mret tt) fs fs.
Proof. intros h. by exists h. Qed.
Lemma runs_bind m f fs fs1 fs2 : runs m fs fs1 -> runs (f tt) fs1 fs2 -> runs (m ≫= f) fs fs2.
Proof.
  intros Hm Hf h H1 H2 H3. destruct (Hm h H1 H2 H3) as (h'&E&?&?&?). unfold mbind, Ob_bind. rewrite E. by apply Hf.
Qed.
Lemma runs_get {A} (g : ObdHost -> A) (x : A) f fs fs' :
  (forall h, ob_fs h = fs -> g h = x) -> runs (f x) fs fs' -> runs (ob_get g ≫= f) fs fs'.
Proof. intros Hg Hf h H1 H2 H3. unfold mbind, Ob_bind, ob_get. rewrite (Hg h H1). by apply Hf. Qed.
Lemma runs_exists p f fs fs' : runs (f (exists_at fs p)) fs fs' -> runs (ob_exists p ≫= f) fs fs'.
Proof. apply runs_get. by intros h ->. Qed.
Lemma runs_attribute d n v fs : runs (ob_ignore (write_attribute d n v)) fs fs.
Proof.
  intros h H1 H2 H3. unfold ob_ignore, ob_try, write_attribute, ob_ask, ob_get, mbind, Ob_bind.
  destruct (oo_io _ _ && is_dir _ d); eexists; (split; [reflexivity|]); destruct h; by simpl in *.
Qed.
Lemma runs_fs f t fs : runs (ob_ignore (fs_op f t)) fs (default fs (f fs)).
Proof using Ho.
  intros h H1 H2 H3. unfold ob_ignore, ob_try, fs_op, ob_ask, ob_get, mbind, Ob_bind. rewrite Ho.
  replace (ob_fs (ob_tick h)) with fs by (destruct h; by simpl in *).
  destruct (f fs); eexists; (split; [reflexivity|]); destruct h; by simpl in *.
Qed.

Lemma remove_dir_free d fs :
  (forall e, fs !! d = Some e -> e = EDir) -> occupied d fs = false -> default fs (fs_remove_dir d fs) = delete d fs.
Proof.
  intros Hd Hf. unfold fs_remove_dir. destruct (fs !! d) as [e|] eqn:E.
  - rewrite (Hd e eq_refl), Hf. done.
  - simpl. by rewrite delete_id.
Qed.
Lemma runs_rmdir d t fs :
  (forall e, fs !! d = Some e -> e = EDir) -> occupied d fs = false ->
  runs (ob_ignore (fs_op (fs_remove_dir d) t)) fs (delete d fs).
Proof using Ho. intros Hd Hf. rewrite <-(remove_dir_free d fs) by done. apply runs_fs. Qed.

(** Every file of the list is the link. *)
Lemma runs_unlink link l fs t :
  (forall p, p ∈ l -> p = link) -> (is_Some (fs !! link) -> link ∈ l) -> fs !! link <> Some EDir ->
  runs (ob_each (fun p => ob_ignore (fs_op (fs_remove_file p) t)) l) fs (delete link fs).
Proof using Ho.
  revert fs. induction l as [|p l IH]; intros fs Hl Hin Hd; simpl.
  - rewrite delete_id; [apply runs_ret|]. apply eq_None_not_Some. intros Hs. apply Hin in Hs. by apply elem_of_nil in Hs.
  - assert (p = link) as -> by (apply Hl; left).
    eapply runs_bind; [apply runs_fs|]. replace (default fs (fs_remove_file link fs)) with (delete link fs).
    + rewrite <-(delete_id (delete link fs) link) at 2 by apply lookup_delete_eq. apply IH.
      * intros p Hp. apply Hl. by right.
      * rewrite lookup_delete_eq. by intros [].
      * by rewrite lookup_delete_eq.
    + unfold fs_remove_file. destruct (fs !! link) as [[]|] eqn:E; try done. simpl. by rewrite delete_id.
Qed.
End runs.

Section teardown.
Context (cache_dir : Path) (vm_id : string) (uppers : list Path) (index : option Path).
Context (Hapart : apart cache_dir vm_id uppers).
#[local] Set Default Proof Using "Type".
#[local] Notation cd := (config_dir_of cache_dir vm_id).
#[local] Notation td := (tcmu_dir vm_id).
#[local] Notation ld := (loopback_dir vm_id).
#[local] Notation own := (vm_owned cache_dir vm_id).
#[local] Notation shape := (Shape cache_dir vm_id uppers index).

Lemma strictly_below_length d p : strictly_below d p = true -> (length d < length p)%nat.
Proof.
  unfold strictly_below. rewrite andb_true_iff, below_spec, negb_true_iff, bool_decide_eq_false.
  intros [[[|x k] ->] Hne]; [by rewrite app_nil_r in Hne|]. rewrite length_app. simpl. lia.
Qed.

(** A part of the file system in which the link is gone. *)
Lemma target_free fs0 fs fs' d :
  shape fs0 fs -> d ∈ target_dirs vm_id -> (forall p e, fs' !! p = Some e -> fs !! p = Some e) ->
  fs' !! lun_link vm_id = None ->
  (forall p, p ∈ target_dirs vm_id -> (length d < length p)%nat -> fs' !! p = None) ->
  (forall e, fs' !! d = Some e -> e = EDir) /\ occupied d fs' = false.
Proof using Hapart.
  intros Hs Hd Hsub Hlink Hgone. pose proof (target_below vm_id d Hd) as Hb. split.
  { intros e He. destruct (sh_loop _ _ _ _ _ _ Hs d e Hb (Hsub _ _ He)) as [[_ ->]|[-> _]]; [done|congruence]. }
  apply occupied_spec. intros p e Hp. split; apply not_true_iff_false.
  - intros Hst. pose proof (strictly_below_length _ _ Hst) as Hl. apply andb_true_iff in Hst as [Hst _].
    destruct (sh_loop _ _ _ _ _ _ Hs p e (below_trans _ _ _ Hb Hst) (Hsub _ _ Hp)) as [[Ht _]|[-> _]]; [|congruence].
    by rewrite Hgone in Hp.
  - destruct e as [|?|t|]; try done. simpl. rewrite bool_decide_eq_true. intros ->.
    destruct (sh_links _ _ _ _ _ _ Hs p d (Hsub _ _ Hp)) as [->|Ho]; [congruence|].
    destruct (loopback_owned _ _ _ Hapart d Hb) as [? _]. congruence.
Qed.

Definition torn_down (fs : Fs) : Fs := foldr delete (delete (lun_link vm_id) fs) (reverse (target_dirs vm_id)).

Lemma torn_down_sub fs p e : torn_down fs !! p = Some e -> fs !! p = Some e /\ p ∉ target_dirs vm_id /\ p <> lun_link vm_id.
Proof.
  unfold torn_down, target_dirs. cbn [reverse rev_append foldr]. rewrite !lookup_delete_Some. intros Hp.
  split_and!; [tauto| |naive_solver]. rewrite !elem_of_cons, elem_of_nil. naive_solver.
Qed.
Lemma torn_down_other fs p : p ∉ target_dirs vm_id -> p <> lun_link vm_id -> torn_down fs !! p = fs !! p.
Proof.
  unfold torn_down, target_dirs. cbn [reverse rev_append foldr]. rewrite !elem_of_cons, elem_of_nil. intros Hp Hl.
  rewrite !lookup_delete_ne by naive_solver. done.
Qed.

Lemma target_lengths p : p ∈ target_dirs vm_id -> (length p <= 9)%nat.
Proof. unfold target_dirs. rewrite !elem_of_cons, elem_of_nil. intros [->|[->|[->|[->|[]]]]]; simpl; lia. Qed.
Lemma lun_entries fs0 fs p :
  shape fs0 fs -> p ∈ entries fs (lun_dir_of (vm_tcmu_names vm_id).2) -> p = lun_link vm_id.
Proof.
  intros Hs [Hp [e He]]%elem_of_entries. destruct (parent_below _ _ Hp) as [Hb Hne].
  assert (strictly_below (lun_dir_of (vm_tcmu_names vm_id).2) p = true) as Hst%strictly_below_length.
  { unfold strictly_below. by rewrite Hb, bool_decide_eq_false_2. }
  destruct (sh_loop _ _ _ _ _ _ Hs p e) as [[Ht _]|[? _]]; [|done| |done].
  - eapply below_trans; [|exact Hb]. apply target_below. unfold target_dirs. by left.
  - apply target_lengths in Ht. simpl in Hst. lia.
Qed.
Lemma link_no_dir fs0 fs : shape fs0 fs -> fs !! lun_link vm_id <> Some EDir.
Proof.
  intros Hs Hl. destruct (sh_loop _ _ _ _ _ _ Hs _ _ (link_below vm_id) Hl) as [[Ht _]|[_ ?]]; [|done].
  apply target_lengths in Ht. simpl in Ht. lia.
Qed.
(** Without the target there is nothing to tear down. *)
Lemma torn_down_absent fs0 fs : shape fs0 fs -> fs !! ld = None -> torn_down fs = fs.
Proof.
  intros Hs Hld. assert (forall p, below ld p = true -> fs !! p = None) as Hno.
  { intros p Hb. apply eq_None_not_Some. intros Hp. destruct (sh_top _ _ _ _ _ _ Hs p Hb Hp). congruence. }
  unfold torn_down, target_dirs. cbn [reverse rev_append foldr].
  rewrite (delete_id fs) by apply Hno, link_below. rewrite !delete_id; rewrite ?lookup_delete_None; try done.
  all: rewrite ?(Hno (lun_dir_of _)), ?(Hno (tpg_dir_of _ ++ _)), ?(Hno (tpg_dir_of _)), ?Hld; try tauto;
    apply target_below; unfold target_dirs; rewrite !elem_of_cons; tauto.
Qed.

Lemma remove_targets_runs o M R fs0 fs :
  obliging o -> shape fs0 fs ->
  runs o M R (ob_each (fun d => ob_ignore (fs_op (fs_remove_dir d) "remove")) (target_dirs vm_id))
    (delete (lun_link vm_id) fs) (torn_down fs).
Proof using Hapart.
  intros Ho Hs.
  assert (forall d fs', d ∈ target_dirs vm_id -> (forall p e, fs' !! p = Some e -> fs !! p = Some e) ->
    fs' !! lun_link vm_id = None ->
    Forall (fun p => fs' !! p = None) (List.filter (fun q => (length d <? length q)%nat) (target_dirs vm_id)) ->
    runs o M R (ob_ignore (fs_op (fs_remove_dir d) "remove")) fs' (delete d fs')) as Hrm.
  { intros d fs' Hd H1 H2 H3. destruct (target_free _ _ _ _ Hs Hd H1 H2) as [? ?]; [|by apply runs_rmdir].
    intros p Hp Hlt. rewrite Forall_forall in H3. apply H3, list_elem_of_In, filter_In.
    split; [by apply list_elem_of_In|]. by apply Nat.ltb_lt. }
  unfold torn_down, target_dirs. cbn [reverse rev_append foldr ob_each].
  repeat (eapply runs_bind; [apply Hrm; [unfold target_dirs; rewrite !elem_of_cons; tauto
    |intros p e; rewrite !lookup_delete_Some; tauto
    |rewrite !lookup_delete_None; tauto
    |simpl; repeat constructor; rewrite !lookup_delete_None; tauto]|]).
  apply runs_ret.
Qed.

Lemma teardown_loopback_runs o M R fs0 fs :
  obliging o -> shape fs0 fs -> runs o M R (teardown_loopback (vm_tcmu_names vm_id).2) fs (torn_down fs).
Proof using Hapart.
  intros Ho Hs. apply runs_exists. fold (loopback_dir vm_id). destruct (exists_at fs ld) eqn:El.
  - eapply runs_bind; [apply runs_attribute|].
    eapply (runs_get _ _ _ _ (entries fs (lun_dir_of (vm_tcmu_names vm_id).2))); [by intros h ->|].
    eapply runs_bind; [|by eapply remove_targets_runs]. apply (runs_unlink _ Ho _ _ (lun_link vm_id)).
    + intros p Hp. by eapply lun_entries.
    + intros Hl. apply elem_of_entries. split; [apply parent_snoc|done].
    + by eapply link_no_dir.
  - erewrite torn_down_absent by (done || by apply not_there). apply runs_ret.
Qed.

Lemma teardown_backstore_runs o M R fs0 fs :
  obliging o -> shape fs0 fs -> runs o M R (teardown_backstore td) (torn_down fs) (delete td (torn_down fs)).
Proof.
  intros Ho Hs. apply runs_exists. destruct (exists_at (torn_down fs) td) eqn:E.
  - eapply runs_bind; [apply runs_attribute|]. apply runs_rmdir; [done| |].
    + intros e [He _]%torn_down_sub. by destruct (sh_tcmu _ _ _ _ _ _ Hs td e (below_refl td) He).
    + apply occupied_spec. intros p e (Hp&_&Hl)%torn_down_sub. split; apply not_true_iff_false.
      * intros Hst. pose proof (strictly_below_length _ _ Hst) as Hlt. apply andb_true_iff in Hst as [Hst _].
        destruct (sh_tcmu _ _ _ _ _ _ Hs p e Hst Hp) as [-> _]. lia.
      * destruct e as [|?|t|]; try done. simpl. rewrite bool_decide_eq_true. intros ->.
        destruct (sh_links _ _ _ _ _ _ Hs p td Hp) as [?|Hot]; [done|].
        unfold vm_owned in Hot. rewrite (below_refl td), orb_true_r in Hot. done.
  - apply not_there in E. rewrite delete_id by done. apply runs_ret.
Qed.

Lemma remove_config_runs o M R fs :
  obliging o -> (forall p d, R !! p = Some d -> below cd p = false) -> fs !! cd = Some EDir ->
  runs o M R (remove_config_dir cd) fs (without cd fs).
Proof.
  intros Ho HR Hcd. apply runs_exists. replace (exists_at fs cd) with true.
  2:{ unfold exists_at. destruct cd; [done|]. symmetry. apply bool_decide_eq_true. eauto. }
  intros h H1 H2 H3. unfold ob_ask, mbind, Ob_bind. rewrite Ho. eexists. split; [reflexivity|].
  assert (mounted_below cd (ob_tick h) = []) as Hm.
  { apply elem_of_nil_inv. intros [p d] Hin. unfold mounted_below in Hin.
    apply list_elem_of_In, filter_In in Hin as [Hin Hb]. apply list_elem_of_In, elem_of_map_to_list in Hin.
    simpl in Hb. rewrite (HR p d) in Hb; [done|]. destruct h; by simpl in *; subst. }
  unfold remove_tree. rewrite Hm. destruct h; simpl in *; subst. split_and!; try done. unfold without.
  apply map_filter_ext. intros p e _. simpl. rewrite orb_false_r. by destruct (below cd p).
Qed.

(** What is left of the file system. *)
Definition cleared (fs : Fs) : Fs := without cd (delete td (torn_down fs)).
Lemma cleared_owned fs0 fs p : shape fs0 fs -> own p = true -> cleared fs !! p = None.
Proof.
  intros Hs Hp. unfold cleared. rewrite lookup_without. destruct (below cd p) eqn:Ec; [done|].
  unfold vm_owned in Hp. rewrite Ec in Hp. simpl in Hp. apply eq_None_not_Some.
  intros [e [Htd Hl]%lookup_delete_Some]. apply torn_down_sub in Hl as (Hl&Hnt&Hlink).
  apply orb_true_iff in Hp as [Hp|Hp].
  - destruct (sh_tcmu _ _ _ _ _ _ Hs p e Hp Hl). congruence.
  - by destruct (sh_loop _ _ _ _ _ _ Hs p e Hp Hl) as [[? _]|[? _]].
Qed.
Lemma cleared_other fs p : own p = false -> cleared fs !! p = fs !! p.
Proof using Hapart.
  intros Hp. apply (own_parts _ _ _ Hapart) in Hp as (Hc&Ht&Hl). unfold cleared. rewrite lookup_without, Hc.
  rewrite lookup_delete_ne; [apply torn_down_other|].
  - intros Hin%target_below. congruence.
  - intros ->. by rewrite link_below in Hl.
  - intros <-. by rewrite below_refl in Ht.
Qed.

Lemma teardown_runs o M R fs0 fs :
  obliging o -> shape fs0 fs -> (forall p d, R !! p = Some d -> below cd p = false) ->
  runs o M R (_ ← teardown_loopback (vm_tcmu_names vm_id).2; _ ← teardown_backstore td; remove_config_dir cd)
    fs (cleared fs).
Proof using Hapart.
  intros Ho Hs HR. eapply runs_bind; [by eapply teardown_loopback_runs|].
  eapply runs_bind; [by eapply teardown_backstore_runs|]. apply remove_config_runs; [done|done|].
  destruct (config_apart _ _ _ Hapart cd (below_refl cd)) as [Ht Hl]. rewrite lookup_delete_ne.
  - rewrite torn_down_other; [apply Hs| |].
    + intros Hin%target_below. congruence.
    + intros Hin. rewrite Hin, link_below in Hl. done.
  - intros E. rewrite E, below_refl in Ht. done.
Qed.
End teardown.

(** ** Mount and unmount *)

Section clean.
Context `{OciReference} (cache_dir : Path) (vm_id : string) (data_path index_path : option string).
#[local] Set Default Proof Using "Type".

Definition teardown : Ob unit :=
  _ ← teardown_loopback (vm_tcmu_names vm_id).2; _ ← teardown_backstore (tcmu_dir vm_id);
  remove_config_dir (config_dir_of cache_dir vm_id).

Lemma unmount_teardown h o :
  (forall m, ob_mounts h !! vm_id = Some m -> md_config_dir m = config_dir_of cache_dir vm_id /\
     md_tcmu_name m = (vm_tcmu_names vm_id).1 /\ md_wwn m = (vm_tcmu_names vm_id).2) ->
  unmount cache_dir vm_id o h = teardown o (with_mounts (delete vm_id) h).
Proof.
  intros Hm. unfold unmount, teardown, tcmu_dir.
  change ((ob_get (fun h => ob_mounts h !! vm_id) ≫= ?f) o h) with (f (ob_mounts h !! vm_id) o h). cbv beta.
  change ((ob_set (with_mounts (delete vm_id)) ≫= ?f) o h) with (f tt o (with_mounts (delete vm_id) h)). cbv beta.
  destruct (ob_mounts h !! vm_id) as [m|].
  - destruct (Hm m eq_refl) as (->&->&->). done.
  - by destruct (vm_tcmu_names vm_id).
Qed.

(** An unmount of a VM that has nothing. *)
Lemma unmount_untouched h o :
  config_dir_of cache_dir vm_id <> [] -> ob_mounts h !! vm_id = None ->
  (forall p, vm_owned cache_dir vm_id p = true -> ob_fs h !! p = None) ->
  ob_fs (unmount cache_dir vm_id o h).1 = ob_fs h /\ ob_mounts (unmount cache_dir vm_id o h).1 = ob_mounts h.
Proof.
  intros Hcd Hm Hno. rewrite unmount_teardown by congruence.
  assert (forall d, vm_owned cache_dir vm_id d = true -> d <> [] -> exists_at (ob_fs h) d = false) as Hex.
  { intros d Hd Hne. unfold exists_at. destruct d; [done|]. rewrite (Hno _ Hd). done. }
  assert (runs o (ob_mounts h) (ob_rootfs h) teardown (ob_fs h) (ob_fs h)) as Hr.
  { unfold teardown. repeat (eapply runs_bind; [apply runs_exists; rewrite Hex; [apply runs_ret| |done]|]);
      [..|apply runs_exists; rewrite Hex; [apply runs_ret| |done]].
    - unfold vm_owned, loopback_dir. by rewrite below_refl, orb_true_r.
    - unfold vm_owned. rewrite (below_refl (tcmu_dir vm_id)), orb_true_r. done.
    - unfold vm_owned. by rewrite below_refl. }
  destruct (Hr (with_mounts (delete vm_id) h)) as (h'&E&?&?&_); [by destruct h| |by destruct h|by rewrite E].
  destruct h; simpl in *. by apply delete_id.
Qed.
Lemma unmount_mounting h0 h o :
  apart cache_dir vm_id (uppers_of data_path index_path) -> unused cache_dir vm_id h0 -> obliging o ->
  Mounting cache_dir vm_id data_path index_path h0 h ->
  ob_mounts (unmount cache_dir vm_id o h).1 = ob_mounts h0 /\
  ob_fs (unmount cache_dir vm_id o h).1 = cleared cache_dir vm_id (ob_fs h).
Proof.
  intros Hap Hun Ho (Hs&Hr&Hm). pose proof (un_mount _ _ _ Hun) as Hn. rewrite unmount_teardown.
  2:{ intros m. destruct Hm as [->|[dev ->]]; [congruence|]. rewrite lookup_insert_eq. by intros [= <-]. }
  destruct (teardown_runs _ _ _ _ Hap o (ob_mounts h0) (ob_rootfs h0) _ _ Ho Hs (un_rootfs _ _ _ Hun)
              (with_mounts (delete vm_id) h)) as (h'&E&Hf&Hm'&_).
  { by destruct h. }
  { destruct h; simpl in *. destruct Hm as [->|[dev ->]]; [by rewrite delete_id|]. by rewrite delete_insert_id. }
  { by destruct h. }
  unfold teardown. rewrite E. done.
Qed.

(** C17. However the mount of an image ends, at whatever step it fails, a later unmount
    that the kernel does not refuse leaves no trace of the VM in configfs and in the
    cache.  Nothing else is lost, except that an index file of the caller may have been
    replaced, and nothing else is left than directories shared with other VMs, the
    writable layer of the caller and device nodes. *)
Theorem mount_unmount_clean image_ref registry_url o o' h :
  apart cache_dir vm_id (uppers_of data_path index_path) -> unused cache_dir vm_id h -> obliging o' ->
  let h1 := (mount cache_dir vm_id image_ref registry_url data_path index_path o h).1 in
  let h2 := (unmount cache_dir vm_id o' h1).1 in
  ob_mounts h2 = ob_mounts h /\
  (forall p, vm_owned cache_dir vm_id p = true -> ob_fs h2 !! p = None) /\
  (forall p e, ob_fs h !! p = Some e -> ob_fs h2 !! p = Some e \/ index_of index_path = Some p) /\
  (forall p, is_Some (ob_fs h2 !! p) ->
     is_Some (ob_fs h !! p) \/ shared cache_dir vm_id (uppers_of data_path index_path) p).
Proof.
  intros Hap Hun Ho. cbv zeta. set (h1 := (mount _ _ _ _ _ _ o h).1).
  destruct (mount_result cache_dir vm_id data_path index_path Hap image_ref registry_url o h Hun) as [(Hf&Hm&Hr)|Hm].
  - destruct (unmount_untouched h1 o') as (H1&H2); fold h1 in Hf, Hm, Hr.
    { destruct (ap_head _ _ _ Hap) as (c&Hh&_). by destruct (config_dir_of cache_dir vm_id). }
    { by rewrite Hm, (un_mount _ _ _ Hun). }
    { intros p Hp. rewrite Hf. by apply (un_paths _ _ _ Hun). }
    rewrite H1, H2, Hf, Hm. split_and!; auto. by apply (un_paths _ _ _ Hun).
  - destruct (unmount_mounting h h1 o' Hap Hun Ho Hm) as [H1 H2]. rewrite H1, H2. destruct Hm as (Hs&_&_). split_and!.
    + done.
    + intros p Hp. by eapply cleared_owned.
    + intros p e Hp. destruct (vm_owned cache_dir vm_id p) eqn:Eo; [by rewrite (un_paths _ _ _ Hun) in Hp|].
      rewrite (cleared_other _ _ _ Hap) by done. by apply Hs.
    + intros p Hp. destruct (vm_owned cache_dir vm_id p) eqn:Eo.
      { erewrite cleared_owned in Hp by done. by destruct Hp. }
      rewrite (cleared_other _ _ _ Hap) in Hp by done. destruct (sh_new _ _ _ _ _ _ Hs p Hp) as [?|[?|?]]; auto; congruence.
Qed.
End clean.

(** ** A mapped VM is known *)

Section vm_known.
Context `{OciReference} (cache_dir : Path) (vm_id : string).
#[local] Set Default Proof Using "Type".
#[local] Notation cd := (config_dir_of cache_dir vm_id).

(** The record of the mapping on disk. *)
Definition recorded (h : ObdHost) : Prop := exists c, ob_fs h !! (cd ++ ["config.json"%string]) = Some (EFile c).
Definition vm_known (h : ObdHost) : Prop := is_Some (ob_mounts h !! vm_id) /\ recorded h.

Lemma recorded_tables : about_tables recorded.
Proof. intros h h' Hf _ _. unfold recorded. by rewrite Hf. Qed.
Lemma known_tables : about_tables vm_known.
Proof. intros h h' Hf Hm _. unfold vm_known, recorded. by rewrite Hf, Hm. Qed.
Hint Resolve recorded_tables known_tables : core.

(** Operations that add a path that was not there, or remove a directory. *)
Lemma recorded_add h p e : ob_fs h !! p = None -> recorded h -> recorded (with_fs (fun _ => <[p := e]> (ob_fs h)) h).
Proof.
  intros Hp [c Hc]. exists c. destruct h. simpl in *. rewrite lookup_insert_ne; [done|]. intros ->. congruence.
Qed.
Lemma recorded_dir h d fs' : recorded h -> fs_create_dir d (ob_fs h) = Some fs' -> recorded (with_fs (fun _ => fs') h).
Proof. intros Hr (->&Hn&_)%fs_create_dir_inv. apply recorded_add; [by apply not_there|done]. Qed.
Lemma recorded_rmdir h d fs' : recorded h -> fs_remove_dir d (ob_fs h) = Some fs' -> recorded (with_fs (fun _ => fs') h).
Proof.
  intros [c Hc]. unfold fs_remove_dir. destruct (ob_fs h !! d) as [[]|] eqn:Ed; try done.
  destruct (occupied _ _); [done|]. intros [= <-]. exists c. destruct h. simpl in *. rewrite lookup_delete_ne; [done|].
  intros ->. congruence.
Qed.
Lemma recorded_dirs h d fs' : recorded h -> fs_create_dir_all d (ob_fs h) = Some fs' -> recorded (with_fs (fun _ => fs') h).
Proof. intros [c Hc] (Hold&_)%create_dirs_spec. exists c. destruct h. by apply Hold. Qed.

Lemma backstore_recorded td cf : obd_keeps recorded (create_backstore td cf).
Proof.
  apply obd_keeps_backstore; [auto|..]; [intros h d fs' Hh _|intros h fs' Hh].
  - by apply recorded_dir.
  - by apply recorded_rmdir.
Qed.
Lemma loopback_recorded wwn tn td : obd_keeps recorded (setup_loopback_and_get_device wwn tn td).
Proof.
  apply obd_keeps_loopback; [auto|..].
  - intros h d fs' Hh _. by apply recorded_dir.
  - intros h fs' Hh. unfold fs_symlink. destruct (parent _); [|done]. destruct (is_dir _ _); [|done].
    destruct (exists_at _ _) eqn:E; [done|]. intros [= <-]. apply recorded_add; [by apply not_there|done].
  - intros h name a b Hh Hn. apply not_there in Hn.
    pose proof (recorded_add h ["dev"%string; name] (EDevice a b) Hn Hh) as [c Hc]. exists c. by destruct h.
Qed.

Lemma write_recorded c t o h h' : fs_op (fs_write (cd ++ ["config.json"%string]) c) t o h = (h', Ok tt) -> recorded h'.
Proof.
  unfold fs_op, ob_ask, ob_get, mbind, Ob_bind. destruct (oo_io o (ob_step h)); [|done].
  unfold fs_write. rewrite parent_snoc. destruct (_ && _); [|done]. intros [= <-]. exists c. destruct h.
  apply lookup_insert_eq.
Qed.

Lemma mount_known image_ref registry_url ud ui o h h' m :
  mount cache_dir vm_id image_ref registry_url ud ui o h = (h', Ok m) -> vm_known h'.
Proof.
  unfold mount, mbind, Ob_bind. destruct (fs_op _ _ o h) as [h1 [[]|e]]; [|done]. cbv beta zeta.
  destruct (ob_of _ o h1) as [h2 [[repo tag]|e]]; [|done]. cbv beta iota.
  destruct (create_upper_layer _ _ o h2) as [h3 [[]|e]]; [|done].
  destruct (fetch_lowers image_ref registry_url o h3) as [h4 [lowers|e]]; [|done].
  destruct (fs_op _ _ o h4) as [h5 [[]|e]] eqn:Ew; [|done]. apply write_recorded in Ew.
  destruct (vm_tcmu_names vm_id) as [tn wwn].
  pose proof (backstore_recorded (tcmu_dir_of tn) (cd ++ ["config.json"%string]) o h5 Ew) as Hb.
  destruct (create_backstore _ _ o h5) as [h6 [[]|e]]; [|done]. simpl in Hb.
  pose proof (loopback_recorded wwn tn (tcmu_dir_of tn) o h6 Hb) as Hl.
  destruct (setup_loopback_and_get_device _ _ _ o h6) as [h7 [dev|e]]; [|done]. simpl in Hl.
  unfold ob_set, mret, Ob_ret. intros [= <- <-]. destruct Hl as [c Hc]. split; [|exists c; by destruct h7].
  destruct h7. simpl. rewrite lookup_insert_eq. eauto.
Qed.

(** A known VM is reported as mapped, also when the agent has forgotten its table. *)
Lemma known_has_mapping h o :
  vm_known h -> (has_mapping cache_dir vm_id o h).2 = Ok true /\
             (has_mapping cache_dir vm_id o (with_mounts (fun _ => ∅) h)).2 = Ok true.
Proof.
  intros [Hm [c Hc]]. unfold has_mapping, ob_get. simpl. rewrite bool_decide_true by done. split; [done|].
  unfold is_file. destruct h. simpl in *. rewrite Hc. by rewrite orb_true_r.
Qed.

Lemma guest_known d f : obd_keeps vm_known (write_guest d f).
Proof.
  apply obd_keeps_bind; [apply obd_keeps_get|]. intros [dev|]; [|apply obd_keeps_ret].
  intros o h. apply known_tables; by destruct h.
Qed.
Lemma inject_inner_known d i r : obd_keeps vm_known (inject_init_inner d i r).
Proof.
  unfold inject_init_inner, fetch_oci_config, fetch_full_oci_config.
  repeat first [apply guest_known | apply obd_keeps_demand; auto | apply obd_keeps_manifest; auto
               | apply obd_keeps_reference | apply obd_keeps_ask; auto | apply obd_keeps_of | apply obd_keeps_ret
               | apply obd_keeps_bind; [|intros ?]].
Qed.
Lemma umount_known d : obd_keeps vm_known (umount_command d).
Proof.
  apply obd_keeps_bind; [apply obd_keeps_ask; auto|]. intros []; [|apply obd_keeps_ret].
  intros o h. by destruct h.
Qed.
Lemma mount_command_known dev d : obd_keeps vm_known (mount_command dev d).
Proof.
  apply obd_keeps_bind; [apply obd_keeps_ask; auto|]. intros ok. apply obd_keeps_bind; [|intros _; apply obd_keeps_ret].
  destruct ok; [|apply obd_keeps_ret]. intros o h. by destruct h.
Qed.
Lemma known_fs f t :
  (forall h fs', recorded h -> f (ob_fs h) = Some fs' -> recorded (with_fs (fun _ => fs') h)) ->
  obd_keeps vm_known (fs_op f t).
Proof.
  intros Hf. apply obd_keeps_fs; [auto|]. intros h fs' [Hm Hr] E. split; [by destruct h|by apply Hf].
Qed.
Lemma inject_known dev i r : obd_keeps vm_known (inject_init cache_dir vm_id dev i r).
Proof.
  unfold inject_init. apply obd_keeps_bind; [apply known_fs; intros h fs'; apply recorded_dirs|]. intros _.
  apply obd_keeps_bind; [apply mount_command_known|]. intros []; [|apply obd_keeps_throw].
  apply obd_keeps_bind; [apply obd_keeps_try, inject_inner_known|]. intros res.
  apply obd_keeps_bind; [apply umount_known|]. intros _. apply obd_keeps_bind; [|intros _; apply obd_keeps_of].
  apply obd_keeps_ignore. apply obd_keeps_bind; [apply obd_keeps_get|]. intros []; [apply obd_keeps_throw|].
  apply known_fs. intros h fs'. apply recorded_rmdir.
Qed.
End vm_known.

(** ** A host *)

#[local] Instance any_reference : OciReference := {| reference_of s := Some (s, s, None) |}.

(** The kernel answers at once; a device shows up after the directories were made. *)
Definition ready_kernel (new_device : nat -> bool) : ObdOracle := {|
  oo_io _ := true; oo_command _ := true;
  oo_manifest _ _ := Some [{| ly_digest := "sha256:00"; ly_size := 10 |}];
  oo_config _ _ := Some {| oi_architecture := None; oi_os := None;
                           oi_config := {| oc_env := None; oc_entrypoint := None; oc_cmd := None |} |};
  oo_transfer _ := true; oo_attributes _ := true; oo_info _ := Some "SectorSize: 512"%string;
  oo_block n := Some (if new_device n then ["sda"; "sdb"] else ["sda"])%string;
  oo_numbers _ := Some "8:16"%string; oo_executable _ _ := true; oo_uuid _ := "0" |}.
Definition image_host : ObdHost := {|
  ob_fs := list_to_map (map (fun p => (p, EDir))
             [["sys"]; ["sys"; "kernel"]; ["sys"; "kernel"; "config"]; ["sys"; "kernel"; "config"; "target"];
              ["sys"; "kernel"; "config"; "target"; "core"]]%string);
  ob_mounts := ∅; ob_rootfs := ∅; ob_guests := ∅; ob_attributes := []; ob_step := 0 |}.
Definition image_cache : Path := ["var"; "lib"; "qarax"; "overlaybd"]%string.
Definition image_vm : string := "a0eebc99-9c0b-4ef8-bb6d-6bb9bd380a11".
Definition mount_image (new_device : nat -> bool) (h : ObdHost) : ObdHost * result OverlayBdError MountedDevice :=
  mount image_cache image_vm "reg:5000/alpine:3" "http://reg:5000" None None (ready_kernel new_device) h.
Definition late (n : nat) : bool := (12 <? n)%nat.

Lemma image_apart : apart image_cache image_vm (uppers_of None None).
Proof. split; [by exists "var"%string|constructor]. Qed.
Lemma image_unused : unused image_cache image_vm image_host.
Proof.
  assert (forall p e, ob_fs image_host !! p = Some e -> e = EDir /\ vm_owned image_cache image_vm p = false) as Hall.
  { intros p e Hp%elem_of_list_to_map_2. apply list_elem_of_fmap in Hp as (q&[= -> ->]&Hq). split; [done|].
    revert q Hq. apply Forall_forall. repeat constructor. }
  constructor; [done|..].
  - intros p Ho. apply eq_None_not_Some. intros [e He]. destruct (Hall p e He). congruence.
  - intros p t Hp. by destruct (Hall _ _ Hp).
  - intros p d. change (ob_rootfs image_host) with (∅ : gmap Path string). by rewrite lookup_empty.
Qed.

Lemma mount_unmount_clean_witness :
  is_ok (mount_image late image_host).2 = true /\
  is_Some (ob_fs (mount_image late image_host).1 !! tcmu_dir image_vm) /\
  ob_fs (unmount image_cache image_vm (ready_kernel late) (mount_image late image_host).1).1 !! tcmu_dir image_vm = None.
Proof.
  split; [by vm_compute|]. split; [by vm_compute; eexists|].
  apply (mount_unmount_clean image_cache image_vm None None "reg:5000/alpine:3" "http://reg:5000" (ready_kernel late)
           (ready_kernel late) image_host); [exact image_apart|exact image_unused|done|by vm_compute].
Defined.

(** A mount that failed late cannot be repeated: its backstore is still linked, is not
    removed and cannot be created again.  After an unmount it succeeds. *)
Example mount_not_repeatable :
  let h1 := (mount_image (fun _ => false) image_host).1 in
  let h2 := (unmount image_cache image_vm (ready_kernel late) h1).1 in
  is_ok (mount_image (fun _ => false) image_host).2 = false /\
  (mount_image (fun n => (140 <? n)%nat) h1).2 =
    Err (MountFailed "create TCMU backstore dir /sys/kernel/config/target/core/user_1/obd-a0eebc999c0b") /\
  is_ok (mount_image (fun n => (140 <? n)%nat) h2).2 = true.
Proof. split_and!; by vm_compute. Qed.

(** The names are those of the VM: a second image for the same VM is refused. *)
Example one_image_per_vm :
  (mount_image (fun n => (34 <? n)%nat) (mount_image late image_host).1).2 =
    Err (MountFailed "create TCMU backstore dir /sys/kernel/config/target/core/user_1/obd-a0eebc999c0b").
Proof. by vm_compute. Qed.
