(* ===== verification/NodeStorage.v ===== *)
(** * NodeStorage: the storage backends of a node

    [qarax-node/src/storage]: the trait of a backend and its four implementations, a
    directory, an NFS export, images of a registry ([NodeOverlayBd.v]) and an iSCSI
    target, and the handlers of [services/vm/mod.rs] that attach and detach a pool.

    The backend for images satisfies the interface the VM manager of [NodeManager.v] is
    proved against.  Theorems characterise the accepted NFS exports and show that
    attaching a pool twice is attaching it once, and that detaching undoes it. *)

From S2P Require Import Prelude Text Common Secrets HostFs NodeOverlayBd NodeImages.
From S2P Require Import Errors Tables NodeApi Ipv4 Netfilter NodeFirewall NodeConfig NodeManager.
From Stdlib Require Import Ascii.
#[local] Open Scope Z_scope.

(** [serde_json::from_str]. *)
Class JsonText := { json_of_text : string -> option json }.

(** ** State *)

(** What the host answers in step [n]: whether iscsiadm can list its sessions and
    whether its other calls succeed, the status of an HTTP request, where a link of
    udev points. *)
Record StOracle := {
  so_obd : ObdOracle;
  so_listed : nat -> bool; so_iscsi : nat -> bool;
  so_status : nat -> option Z; so_link : nat -> Path -> option string
}.
(** The sessions are pairs of portal and target. *)
Record StHost := { st_obd : ObdHost; st_sessions : gset (string * string); st_step : nat }.

Definition St (A : Type) : Type := StOracle -> StHost -> StHost * result string A.
#[global] Instance St_ret : MRet St := fun A x o h => (h, Ok x).
#[global] Instance St_bind : MBind St := fun A B f m o h =>
  match m o h with
  | (h', Ok x) => f x o h'
  | (h', Err e) => (h', Err e)
  end.
Definition st_throw {A} (e : string) : St A := fun o h => (h, Err e).
Definition st_get {A} (f : StHost -> A) : St A := fun o h => (h, Ok (f h)).
Definition st_of {A} (r : result string A) : St A := fun o h => (h, r).
Definition st_ask {A} (f : StOracle -> nat -> A) : St A := fun o h =>
  (let 'Build_StHost b s n := h in Build_StHost b s (S n), Ok (f o (st_step h))).
Definition st_sessions_set (g : gset (string * string) -> gset (string * string)) : St unit := fun o h =>
  (let 'Build_StHost b s n := h in Build_StHost b (g s) n, Ok tt).

Definition obd_error_text (e : NodeOverlayBd.OverlayBdError) : string :=
  match e with
  | OciError t => "OCI registry error: " +:+ t
  | ConvertorFailed t => "convertor failed: " +:+ t
  | MountFailed t => "Mount failed: " +:+ t
  | InvalidImageRef t => "Invalid image reference: " +:+ t
  end.
(** A computation on the file system and the images. *)
Definition on_images {A} (m : Ob A) : St A := fun o h =>
  let 'Build_StHost b s n := h in
  let '(b', r) := m (so_obd o) b in (Build_StHost b' s n, map_err obd_error_text r).

(** ** The trait *)

Record Backend := {
  be_attach : string -> string -> St string;
  be_detach : string -> string -> St unit;
  be_map : string -> json -> St string;
  be_unmap : string -> St unit;
  be_has_mapping : string -> St bool;
  be_recover : St unit
}.
Inductive StoragePoolKind := PoolLocal | PoolNfs | PoolOverlayBd | PoolBlock.
Definition Registry : Type := StoragePoolKind -> option Backend.

Definition text_field (config : json) (key message : string) : result string string :=
  ok_or message (json_get config key ≫= json_as_str).

Definition pools_dir : Path := ["var"; "lib"; "qarax"; "pools"]%string.

(** ** A directory *)

Section backends.
Context `{JsonText} `{OciReference} (cache_dir : Path) (qarax_init : bool).

Definition local_dir (pool_id : string) (config_json : string) : Path :=
  let path_str := default ""%string (json_of_text config_json ≫= fun cfg => json_get cfg "path" ≫= json_as_str) in
  if String.eqb path_str "" then pools_dir ++ components pool_id else components path_str.
Definition local_attach (pool_id config_json : string) : St string :=
  let dir := local_dir pool_id config_json in
  _ ← on_images (fs_op (fs_create_dir_all dir) "create");
  mret ("local dir " +:+ path_text dir +:+ " ready").
Definition local_backend : Backend := {|
  be_attach := local_attach;
  be_detach _ _ := mret tt;
  be_map _ config := st_of (text_field config "path" "local disk config missing 'path'");
  be_unmap _ := mret tt; be_has_mapping _ := mret false; be_recover := mret tt |}.

(** ** NFS *)

(** Zero, line feed, carriage return and the characters a shell reads. *)
Definition nfs_bad (c : ascii) : bool :=
  existsb (Ascii.eqb c) ["000"; "010"; "013"; ";"; "&"; "|"; "`"; "$"; "\"]%char.
Definition has_bad (s : string) : bool := existsb nfs_bad (String.list_ascii_of_string s).
Definition validate_nfs_url (url : string) : result string unit :=
  match split_once ":"%char url with
  | None => Err ("Invalid NFS URL " +:+ url +:+ ": expected 'host:/path'")
  | Some (host, path) =>
      if String.eqb host "" then Err ("Invalid NFS URL " +:+ url +:+ ": host is empty")
      else if negb (starts_with "/" path) then Err ("Invalid NFS URL " +:+ url +:+ ": path must start with '/'")
      else if has_bad host || has_bad path then Err ("Invalid NFS URL " +:+ url +:+ ": contains illegal characters")
      else Ok tt
  end.

Definition mount_point (pool_id : string) : Path := pools_dir ++ components pool_id.
Definition nfs_attach (pool_id config_json : string) : St string :=
  cfg ← st_of (ok_or "Invalid NFS pool config JSON"%string (json_of_text config_json));
  url ← st_of (text_field cfg "url" "NFS pool config missing 'url' field");
  _ ← st_of (validate_nfs_url url);
  _ ← on_images (fs_op (fs_create_dir_all (mount_point pool_id)) "create");
  ok ← on_images (mount_command url (mount_point pool_id));
  if ok : bool then mret ("NFS " +:+ url +:+ " mounted at " +:+ path_text (mount_point pool_id))
  else st_throw "mount failed".
Definition nfs_detach (pool_id _config_json : string) : St unit :=
  mounted ← on_images (ob_get (fun h => bool_decide (is_Some (ob_rootfs h !! mount_point pool_id))));
  ok ← on_images (ob_ask oo_command);
  if (mounted && ok : bool) then on_images (ob_set (with_rootfs (delete (mount_point pool_id))))
  else st_throw "umount failed".
Definition nfs_backend : Backend := {|
  be_attach := nfs_attach; be_detach := nfs_detach;
  be_map _ config := st_of (text_field config "path" "NFS disk config missing 'path'");
  be_unmap _ := mret tt; be_has_mapping _ := mret false; be_recover := mret tt |}.

(** ** Images *)

(** The registry answers with success or asks for credentials. *)
Definition overlaybd_attach (_pool_id config_json : string) : St string :=
  cfg ← st_of (ok_or "Invalid OverlayBD pool config JSON"%string (json_of_text config_json));
  url ← st_of (text_field cfg "url" "OverlayBD pool config missing 'url' field");
  status ← st_ask so_status;
  match status with
  | None => st_throw ("Cannot reach registry at " +:+ trim_end_char "/"%char url +:+ "/v2/")
  | Some status =>
      if in_range 200 299 status || (status =? 401)
      then mret ("OverlayBD registry " +:+ url +:+ " reachable (" +:+ pretty status +:+ ")")
      else st_throw ("OverlayBD registry " +:+ url +:+ " returned unexpected status " +:+ pretty status)
  end.
Definition overlaybd_map (vm_id : string) (config : json) : St string :=
  image_ref ← st_of (text_field config "image_ref" "OverlayBD disk config missing 'image_ref'");
  registry_url ← st_of (text_field config "registry_url" "OverlayBD disk config missing 'registry_url'");
  let upper_data_path := json_get config "upper_data_path" ≫= json_as_str in
  let upper_index_path := json_get config "upper_index_path" ≫= json_as_str in
  mounted ← on_images (mount cache_dir vm_id image_ref registry_url upper_data_path upper_index_path);
  _ ← (if qarax_init then on_images (inject_init cache_dir vm_id (md_device_path mounted) image_ref registry_url)
       else mret tt);
  mret (md_device_path mounted).
Definition overlaybd_backend : Backend := {|
  be_attach := overlaybd_attach; be_detach _ _ := mret tt; be_map := overlaybd_map;
  be_unmap vm_id := on_images (unmount cache_dir vm_id);
  be_has_mapping vm_id := on_images (has_mapping cache_dir vm_id);
  be_recover := on_images (recover cache_dir) |}.

(** ** iSCSI *)

Record BlockPoolConfig := { bp_portal : string; bp_iqn : string }.
Definition block_pool_config (config_json : string) : result string BlockPoolConfig :=
  cfg ← ok_or "Invalid BLOCK pool config JSON"%string (json_of_text config_json);
  portal ← text_field cfg "portal" "Invalid BLOCK pool config JSON";
  iqn ← text_field cfg "iqn" "Invalid BLOCK pool config JSON";
  Ok {| bp_portal := portal; bp_iqn := iqn |}.

(** [char::is_alphanumeric], for texts of ASCII. *)
Definition alphanumeric (c : ascii) : bool :=
  let n := N_of_ascii c in
  ((48 <=? n) && (n <=? 57))%N || ((65 <=? n) && (n <=? 90))%N || ((97 <=? n) && (n <=? 122))%N.
Definition only (extra : list ascii) (s : string) : bool :=
  forallb (fun c => alphanumeric c || existsb (Ascii.eqb c) extra) (String.list_ascii_of_string s).
Definition validate_portal (portal : string) : result string unit :=
  if String.eqb portal "" then Err "portal is empty"%string
  else if only ["."; ":"; "-"; "["; "]"]%char portal then Ok tt
  else Err ("portal contains illegal characters: " +:+ portal).
Definition validate_iqn (iqn : string) : result string unit :=
  if negb (starts_with "iqn." iqn) then Err ("iqn must start with 'iqn.': " +:+ iqn)
  else if only ["."; ":"; "-"]%char iqn then Ok tt
  else Err ("iqn contains illegal characters: " +:+ iqn).

Definition run_iscsiadm (what : string) : St unit :=
  ok ← st_ask so_iscsi;
  if ok : bool then mret tt else st_throw ("iscsiadm " +:+ what +:+ " failed").
(** A target counts as logged in whatever the portal of its session is. *)
Definition logged_in (iqn : string) : St bool :=
  listed ← st_ask so_listed;
  sessions ← st_get st_sessions;
  mret (listed && existsb (fun s => String.eqb s.2 iqn) (elements sessions)).

Definition block_attach (_pool_id config_json : string) : St string :=
  cfg ← st_of (block_pool_config config_json);
  _ ← st_of (validate_portal (bp_portal cfg));
  _ ← st_of (validate_iqn (bp_iqn cfg));
  _ ← run_iscsiadm "discovery";
  already ← logged_in (bp_iqn cfg);
  _ ← (if already : bool then mret tt
       else _ ← run_iscsiadm "login"; st_sessions_set (union {[ (bp_portal cfg, bp_iqn cfg) ]}));
  mret ("iSCSI target " +:+ bp_iqn cfg +:+ " @ " +:+ bp_portal cfg +:+ " attached").
Definition block_detach (_pool_id config_json : string) : St unit :=
  cfg ← st_of (block_pool_config config_json);
  _ ← st_of (validate_portal (bp_portal cfg));
  _ ← st_of (validate_iqn (bp_iqn cfg));
  present ← logged_in (bp_iqn cfg);
  if present : bool then
    _ ← run_iscsiadm "logout"; st_sessions_set (fun s => s ∖ {[ (bp_portal cfg, bp_iqn cfg) ]})
  else mret tt.

Definition by_path_symlink (portal iqn : string) (lun : Z) : Path :=
  ["dev"; "disk"; "by-path"; "ip-" +:+ portal +:+ "-iscsi-" +:+ iqn +:+ "-lun-" +:+ fmt_nat lun]%string.
(** [#[serde(default)] lun: u32]. *)
Definition block_lun (config : json) : result string Z :=
  match json_get config "lun" with
  | None => Ok 0
  | Some (JNumber n) => if in_range 0 u32_max n then Ok n else Err "Invalid BLOCK disk config"%string
  | Some _ => Err "Invalid BLOCK disk config"%string
  end.
Fixpoint poll_link (fuel : nat) (link : Path) : St string :=
  match fuel with
  | O => st_throw ("iSCSI device " +:+ path_text link +:+ " did not appear in time")
  | S fuel' =>
      target ← st_ask (fun o n => so_link o n link);
      match target with Some device => mret device | None => poll_link fuel' link end
  end.
Definition block_map (_vm_id : string) (config : json) : St string :=
  portal ← st_of (text_field config "portal" "block disk config missing 'portal'");
  iqn ← st_of (text_field config "iqn" "block disk config missing 'iqn'");
  lun ← st_of (block_lun config);
  _ ← st_of (validate_portal portal);
  _ ← st_of (validate_iqn iqn);
  poll_link 20 (by_path_symlink portal iqn lun).
Definition block_backend : Backend := {|
  be_attach := block_attach; be_detach := block_detach; be_map := block_map;
  be_unmap _ := mret tt; be_has_mapping _ := mret false; be_recover := mret tt |}.
End backends.

(** ** The handlers *)

Definition pool_kind_name (kind : StoragePoolKind) : string :=
  match kind with PoolLocal => "Local" | PoolNfs => "Nfs" | PoolOverlayBd => "Overlaybd" | PoolBlock => "Block" end.
(** A number that is no kind is a directory. *)
Definition pool_kind_of (n : Z) : StoragePoolKind :=
  if n =? 1 then PoolNfs else if n =? 2 then PoolOverlayBd else if n =? 3 then PoolBlock else PoolLocal.

Inductive PoolReply := PoolAttached (success : bool) (message : string) | PoolUnimplemented (message : string).
(** A failure to attach is a reply, not an error of the call. *)
Definition attach_storage_pool (backends : Registry) (pool_id : string) (kind : Z) (config_json : string) : St PoolReply :=
  let kind := pool_kind_of kind in
  match backends kind with
  | None => mret (PoolUnimplemented (pool_kind_name kind +:+ " storage backend not configured"))
  | Some b => fun o h =>
      let '(h', r) := be_attach b pool_id config_json o h in
      (h', Ok (match r with Ok msg => PoolAttached true msg | Err e => PoolAttached false e end))
  end.
Definition detach_storage_pool (backends : Registry) (pool_id : string) (kind : Z) (config_json : string) : St unit :=
  let kind := pool_kind_of kind in
  match backends kind with
  | None => st_throw (pool_kind_name kind +:+ " storage backend not configured")
  | Some b => fun o h =>
      let '(h', r) := be_detach b pool_id config_json o h in
      (h', map_err (fun e => "Detach failed: " +:+ e) r)
  end.

(** ** The interface of the VM manager *)

Section interface.
Context `{OciReference} (cache_dir : Path) (qarax_init : bool).
#[local] Set Default Proof Using "Type".

Lemma overlaybd_map_known vm_id config o h h' path :
  overlaybd_map cache_dir qarax_init vm_id config o h = (h', Ok path) -> vm_known cache_dir vm_id (st_obd h').
Proof.
  unfold overlaybd_map, st_of, mbind, St_bind. destruct (text_field _ "image_ref" _) as [i|]; [|done].
  destruct (text_field _ "registry_url" _) as [r|]; [|done]. cbv zeta. destruct h as [b s n]. simpl.
  destruct (mount cache_dir vm_id i r _ _ (so_obd o) b) as [b1 [m|e]] eqn:Em; simpl; [|done].
  apply mount_known in Em. destruct qarax_init; [|by intros [= <- <-]]. simpl.
  pose proof (inject_known cache_dir vm_id (md_device_path m) i r (so_obd o) b1 Em) as Hi.
  destruct (inject_init _ _ _ _ _ (so_obd o) b1) as [b2 [[]|e]]; simpl in *; [|done]. by intros [= <- <-].
Qed.

Definition store_map (vm_id : string) (config : json) (s : StOracle * StHost) : (StOracle * StHost) * result string string :=
  let '(h', r) := overlaybd_map cache_dir qarax_init vm_id config s.1 s.2 in ((s.1, h'), r).
Definition store_has_mapping (s : StOracle * StHost) (vm_id : string) : bool :=
  match (on_images (has_mapping cache_dir vm_id) s.1 s.2).2 with Ok b => b | Err _ => false end.
(** A restarted agent has an empty table. *)
Definition restarted (s : StOracle * StHost) : StOracle * StHost :=
  (s.1, let 'Build_StHost b ss n := s.2 in Build_StHost (with_mounts (fun _ => ∅) b) ss n).

Lemma store_mapped vm_id config s s' path :
  store_map vm_id config s = (s', Ok path) ->
  store_has_mapping s' vm_id = true /\ store_has_mapping (restarted s') vm_id = true.
Proof.
  unfold store_map. destruct s as [o h]. simpl. destruct (overlaybd_map _ _ _ _ o h) as [h' r] eqn:E.
  intros [= <- ->]. apply overlaybd_map_known in E. destruct h' as [b ss n]. simpl in E.
  destruct (known_has_mapping _ _ b (so_obd o) E) as [H1 H2].
  unfold has_mapping, ob_get in H1, H2. simpl in H1, H2. injection H1 as H1. injection H2 as H2.
  unfold store_has_mapping, restarted, has_mapping, ob_get. simpl. by rewrite H1, H2.
Qed.

(** The backend for images is what the manager takes for its storage; what the host
    answers it is part of its state. *)
#[global] Instance overlaybd_storage : StorageBackend := {|
  Store := StOracle * StHost;
  sb_map := store_map;
  sb_unmap vm_id s := (s.1, (on_images (unmount cache_dir vm_id) s.1 s.2).1);
  sb_has_mapping := store_has_mapping;
  sb_map_law vm_id config s s' path Hm := proj1 (store_mapped vm_id config s s' path Hm)
|}.

(** A VM whose image was mapped is reported as mapped, by the running agent and by one
    that was restarted and has lost its table, so that deleting the VM unmaps it. *)
Theorem mapping_survives_restart vm_id config s s' path :
  sb_map (StorageBackend := overlaybd_storage) vm_id config s = (s', Ok path) ->
  sb_has_mapping (StorageBackend := overlaybd_storage) s' vm_id = true /\
  sb_has_mapping (StorageBackend := overlaybd_storage) (restarted s') vm_id = true.
Proof. apply store_mapped. Qed.
End interface.

(** ** NFS exports *)

Lemma split_once_parts sep s a b : split_once sep s = Some (a, b) -> s = a +:+ String sep b /\ no_char sep a.
Proof.
  revert a b. induction s as [|c s IH]; simpl; intros a b; [done|]. destruct (Ascii.eqb_spec c sep) as [->|Hne].
  - intros [= <- <-]. by split; [|constructor].
  - destruct (split_once sep s) as [[a' b']|]; [|done]. intros [= <- <-]. destruct (IH a' b' eq_refl) as [-> Ha].
    split; [done|]. unfold no_char. simpl. by constructor.
Qed.
Lemma starts_with_slash s : starts_with "/" s = true <-> exists t, s = String "/"%char t.
Proof.
  unfold starts_with. destruct s as [|c s]; cbn [strip_prefix]; [split; [done|by intros [? ?]]|].
  destruct (Ascii.eqb_spec "/" c) as [<-|Hne]; [by split; eauto|].
  split; [done|]. by intros [t [= -> _]].
Qed.

(** An NFS export is accepted exactly when it is a host and an absolute path with the
    first colon between them, and none of the refused characters. *)
Theorem nfs_url_accepted url :
  validate_nfs_url url = Ok tt <->
  exists host rest, url = host +:+ String ":" (String "/" rest) /\ host <> EmptyString /\ no_char ":"%char host /\
    has_bad host = false /\ has_bad rest = false.
Proof.
  unfold validate_nfs_url. split.
  - destruct (split_once ":"%char url) as [[host path]|] eqn:E; [|done]. apply split_once_parts in E as [-> Hh].
    destruct (String.eqb_spec host ""); [done|]. destruct (starts_with "/" path) eqn:Ep; [|done].
    apply starts_with_slash in Ep as [rest ->]. simpl. destruct (has_bad host || _) eqn:Eb; [done|]. intros _.
    apply orb_false_iff in Eb as [? Eb]. by exists host, rest.
  - intros (host&rest&->&Hne&Hh&Hb&Hr). rewrite split_once_app by done.
    destruct (String.eqb_spec host ""); [done|]. simpl. rewrite Hb. change (has_bad (String "/" rest)) with (has_bad rest).
    by rewrite Hr.
Qed.

(** ** Attaching and detaching *)

Section pools.
Context `{JsonText}.
#[local] Set Default Proof Using "Type".

(** The host without its step counter. *)
Definition same_host (h h' : StHost) : Prop := st_obd h' = st_obd h /\ st_sessions h' = st_sessions h.
Definition has_session (iqn : string) (h : StHost) : Prop := exists portal, (portal, iqn) ∈ st_sessions h.

Lemma ask_host {A} (f : StOracle -> nat -> A) o h : exists h', st_ask f o h = (h', Ok (f o (st_step h))) /\ same_host h h'.
Proof. destruct h. eexists. split; [reflexivity|done]. Qed.
Lemma iscsiadm_run what o h :
  exists h' r, run_iscsiadm what o h = (h', r) /\ same_host h h' /\ ((forall n, so_iscsi o n = true) -> r = Ok tt).
Proof.
  unfold run_iscsiadm, mbind, St_bind. destruct (ask_host so_iscsi o h) as (h'&->&Hh).
  destruct (so_iscsi o (st_step h)) eqn:E; simpl; eexists _, _; (split; [reflexivity|]); split; try done.
  intros Hall. by rewrite Hall in E.
Qed.
Lemma logged_in_run iqn o h :
  (forall n, so_listed o n = true) ->
  exists h' b, logged_in iqn o h = (h', Ok b) /\ same_host h h' /\ (b = true <-> has_session iqn h).
Proof.
  intros Hl. unfold logged_in, st_get, mbind, St_bind. destruct (ask_host so_listed o h) as (h'&->&Ho&Hs).
  rewrite Hl. eexists _, _. split; [reflexivity|]. split; [done|]. simpl. rewrite Hs, existsb_exists. unfold has_session.
  split.
  - intros ([p i]&Hin&Hi). apply String.eqb_eq in Hi. simpl in Hi. subst i. exists p.
    by apply elem_of_elements, list_elem_of_In.
  - intros [p Hp]. exists (p, iqn). split; [|apply String.eqb_refl]. by apply list_elem_of_In, elem_of_elements.
Qed.

(** A pool that was attached has a session, and its settings were accepted. *)
Lemma block_attach_inv pool_id config o h h1 msg :
  (forall n, so_listed o n = true) -> block_attach pool_id config o h = (h1, Ok msg) ->
  exists cfg, block_pool_config config = Ok cfg /\ validate_portal (bp_portal cfg) = Ok tt /\
    validate_iqn (bp_iqn cfg) = Ok tt /\ has_session (bp_iqn cfg) h1 /\
    msg = "iSCSI target " +:+ bp_iqn cfg +:+ " @ " +:+ bp_portal cfg +:+ " attached".
Proof.
  intros Hl. unfold block_attach, st_of, mbind, St_bind. destruct (block_pool_config config) as [cfg|]; [|done].
  destruct (validate_portal _) as [[]|] eqn:Ep; [|done]. destruct (validate_iqn _) as [[]|] eqn:Ei; [|done].
  destruct (iscsiadm_run "discovery" o h) as (h2&[[]|]&->&_&_); [|done].
  destruct (logged_in_run (bp_iqn cfg) o h2 Hl) as (h3&[]&->&[_ Hs]&Hb).
  - intros [= <- <-]. exists cfg. split_and!; try done. unfold has_session. rewrite Hs. by apply Hb.
  - destruct (iscsiadm_run "login" o h3) as (h4&[[]|]&->&_&_); [|done]. destruct h4 as [b ss n]. intros [= <- <-].
    exists cfg. split_and!; try done. exists (bp_portal cfg). simpl. set_solver.
Qed.

(** Attaching an iSCSI pool that is attached already succeeds again and changes
    nothing: there is no second login. *)
Theorem block_attach_once pool_id config o o' h h1 msg :
  (forall n, so_listed o n = true) -> block_attach pool_id config o h = (h1, Ok msg) ->
  (forall n, so_listed o' n = true) -> (forall n, so_iscsi o' n = true) ->
  exists h2, block_attach pool_id config o' h1 = (h2, Ok msg) /\ same_host h1 h2.
Proof.
  intros Hl Ha Hl' Hok. apply block_attach_inv in Ha as (cfg&Hc&Hp&Hi&Hs&->); [|done].
  unfold block_attach, st_of, mbind, St_bind. rewrite Hc, Hp, Hi.
  destruct (iscsiadm_run "discovery" o' h1) as (h2&r&->&[Ho2 Hs2]&Hr). rewrite (Hr Hok).
  destruct (logged_in_run (bp_iqn cfg) o' h2 Hl') as (h3&[]&->&[Ho3 Hs3]&Hb).
  - exists h3. split; [done|]. split; congruence.
  - destruct Hb as [_ Hb]. unfold has_session in *. rewrite Hs2 in Hb. by specialize (Hb Hs).
Qed.

(** An NFS pool that is attached and then detached leaves the mounts of the host as
    they were. *)
Theorem nfs_attach_detach pool_id config o o' h h1 h2 msg :
  ob_rootfs (st_obd h) !! mount_point pool_id = None ->
  nfs_attach pool_id config o h = (h1, Ok msg) -> nfs_detach pool_id config o' h1 = (h2, Ok tt) ->
  ob_rootfs (st_obd h2) = ob_rootfs (st_obd h).
Proof.
  intros Hn. unfold nfs_attach, st_of, mbind, St_bind. destruct (ok_or _ _) as [cfg|]; [|done].
  destruct (text_field _ _ _) as [url|]; [|done]. destruct (validate_nfs_url url) as [[]|]; [|done].
  destruct h as [b ss n]. simpl in *.
  assert (ob_rootfs (fs_op (fs_create_dir_all (mount_point pool_id)) "create" (so_obd o) b).1 = ob_rootfs b) as Hr.
  { apply (obd_keeps_fs (fun h => ob_rootfs h = ob_rootfs b)); [|by intros [] ?|done].
    intros x y _ _ Hxy <-. by rewrite Hxy. }
  destruct (fs_op _ _ (so_obd o) b) as [b1 [[]|e]]; simpl in *; [|done].
  unfold mount_command, ob_ask, mbind, Ob_bind. destruct (oo_command (so_obd o) (ob_step b1)); simpl; [|done].
  intros [= <- <-]. unfold nfs_detach, mbind, St_bind, ob_get, ob_ask. simpl.
  destruct b1 as [fs m r g a k]. simpl in *. subst r. rewrite lookup_insert_eq. simpl.
  destruct (oo_command (so_obd o') _); simpl; [|done]. intros [= <-]. simpl. by rewrite delete_insert_id.
Qed.
End pools.

(** ** A host *)

Definition image_store : StOracle * StHost :=
  ({| so_obd := ready_kernel late; so_listed _ := true; so_iscsi _ := true; so_status _ := Some 200; so_link _ _ := None |},
   {| st_obd := image_host; st_sessions := ∅; st_step := 0 |}).
Definition image_disk : json :=
  JObject {[ "image_ref"%string := JString "reg:5000/alpine:3"; "registry_url"%string := JString "http://reg:5000" ]}.

Lemma mapping_survives_restart_witness :
  let r := store_map (H := {| reference_of s := Some (s, s, None) |}) image_cache true image_vm image_disk image_store in
  r.2 = Ok "/dev/sdb"%string /\ store_has_mapping image_cache (restarted r.1) image_vm = true.
Proof.
  cbv zeta. set (r := store_map _ _ _ _ _).
  assert (r.2 = Ok "/dev/sdb"%string) as Hr by by vm_compute. split; [exact Hr|].
  refine (proj2 (mapping_survives_restart (H := {| reference_of s := Some (s, s, None) |}) image_cache true image_vm
                   image_disk image_store r.1 "/dev/sdb" _)).
  change (r = (r.1, Ok "/dev/sdb"%string)). rewrite <-Hr. by destruct r.
Defined.
