(* ===== verification/NodeFiles.v ===== *)
(** * NodeFiles: the files of a node

    [qarax-node/src/services/file_transfer]: downloads, copies, disks (blank, from a URL,
    from an image) and the deletion of the files of a storage object, with the locks
    that keep a deletion from running into a creation; and [snapshot.rs], the removal of
    snapshot directories.

    The state is the host of [NodeOverlayBd.v] with the messages of a reply stream.  An
    oracle ends every operation, decides how many bytes a read returns and how many a
    failing write has written.  A relative path starts at the root, the working directory
    of the agent.  Bytes are characters. *)

From S2P Require Import Prelude Text Common Secrets HostFs NodeOverlayBd NodeImages NodeStorage.
From S2P Require Import Errors Tables NodeApi World Storage StorageObjects NodeService.
From Stdlib Require Import Ascii.
#[local] Open Scope Z_scope.

(** ** Data *)

Notation Bytes := (list ascii).
Definition data (b : Bytes) : Content := Text (String.string_of_list_ascii b).

Record TransferResponse := {
  tr_transfer_id : string; tr_success : bool; tr_bytes_written : Z; tr_error : string; tr_is_final : bool
}.
Record DownloadFileRequest := { df_transfer_id : string; df_source_url : string; df_destination_path : string }.
Record CopyFileRequest := { cf_transfer_id : string; cf_source_path : string; cf_destination_path : string }.
Record OverlayBdDiskSource := {
  od_image_ref : string; od_registry_url : string; od_upper_data : option string; od_upper_index : option string
}.
Inductive DiskSource := SourceBlank (preallocate : bool) | SourceUrl (url : string) | SourceOverlaybd (s : OverlayBdDiskSource).
Record NodeDiskRequest := { nd_path : string; nd_size_bytes : Z; nd_source : option DiskSource }.
Record DeleteStorageFilesRequest := {
  ds_pool_id : string; ds_pool_kind : Z; ds_config_json : string; ds_object_id : string; ds_upper_layer : bool
}.

(** What the host answers in step [n]: the text of an error, the answer to a GET (status,
    its text, the chunks of the body), the bytes of a device that is opened, the number
    of bytes a read returns, the number a failing write writes, whether space can be
    reserved, the size of a file, the list of mounts, the entries a failing removal of a
    tree removes. *)
Record FtOracle := {
  fo_obd : ObdOracle; fo_error : nat -> string;
  fo_http : nat -> string -> option (Z * string * list (option Bytes));
  fo_device : nat -> string -> option Bytes;
  fo_read : nat -> option nat; fo_partial : nat -> nat;
  fo_fallocate : nat -> bool; fo_size : nat -> Z; fo_mountinfo : nat -> option string;
  fo_removed : nat -> Path -> bool
}.
Record FtHost := { ft_obd : ObdHost; ft_messages : list TransferResponse }.

(** [Exhausted] is no error of the program: the fuel of a loop was too small. *)
Inductive FtError := FileError (text : string) | Exhausted.
Definition file_error_text (e : FtError) : string := match e with FileError t => t | Exhausted => "" end.

(** ** Computations *)

Definition Fx (E A : Type) : Type := FtOracle -> FtHost -> FtHost * result E A.
#[global] Instance Fx_ret {E} : MRet (Fx E) := fun A x o h => (h, Ok x).
#[global] Instance Fx_bind {E} : MBind (Fx E) := fun A B f m o h =>
  match m o h with
  | (h', Ok x) => f x o h'
  | (h', Err e) => (h', Err e)
  end.
Definition fx_throw {E A : Type} (e : E) : Fx E A := fun o h => (h, Err e).
Definition fx_try {E F A : Type} (m : Fx E A) : Fx F (result E A) := fun o h => let '(h', r) := m o h in (h', Ok r).
Definition fx_of {E A : Type} (r : result E A) : Fx E A := fun o h => (h, r).
Definition ft_fs (h : FtHost) : Fs := ob_fs (ft_obd h).
Definition fx_fs {E : Type} : Fx E Fs := fun o h => (h, Ok (ft_fs h)).
Definition set_fs {E : Type} (fs : Fs) : Fx E unit := fun o h =>
  (let 'Build_FtHost b m := h in Build_FtHost (with_fs (fun _ => fs) b) m, Ok tt).
Definition fx_ask {E A : Type} (f : FtOracle -> nat -> A) : Fx E A := fun o h =>
  (let 'Build_FtHost b m := h in Build_FtHost (ob_tick b) m, Ok (f o (ob_step (ft_obd h)))).
Definition fx_send {E : Type} (m : TransferResponse) : Fx E unit := fun o h =>
  (let 'Build_FtHost b l := h in Build_FtHost b (l ++ [m]), Ok tt).
(** A computation of the image manager. *)
Definition fx_images {A} (m : Ob A) : Fx FtError A := fun o h =>
  let 'Build_FtHost b l := h in
  let '(b', r) := m (fo_obd o) b in
  (Build_FtHost b' l, map_err (fun e => FileError ("OverlayBD mount failed: " +:+ obd_error_text e)) r).
Definition fx_io {E : Type} : Fx E bool := fx_ask (fun o n => oo_io (fo_obd o) n).
Definition os_error {A} : Fx FtError A := text ← fx_ask fo_error; fx_throw (FileError text).

(** A file operation: the environment or the file system may refuse it. *)
Definition file_op (f : Fs -> option Fs) : Fx FtError unit :=
  ok ← fx_io;
  fs ← fx_fs;
  match (if ok : bool then f fs else None) with
  | Some fs' => set_fs fs'
  | None => os_error
  end.

(** ** Files *)

(** Links are followed at most forty times. *)
Fixpoint follow_links (fuel : nat) (fs : Fs) (p : Path) : option Path :=
  match fs !! p with
  | Some (ELink t) => match fuel with O => None | S fuel' => follow_links fuel' fs t end
  | _ => Some p
  end.
Definition follow : Fs -> Path -> option Path := follow_links 40.

(** What is written to a device does not become a file. *)
Definition write_at (p : Path) (b : Bytes) (fs : Fs) : Fs :=
  match fs !! p with
  | Some (EDevice _ _) => fs
  | _ => <[p := EFile (data b)]> fs
  end.
(** [File::create]: the file is there and empty; the path of the file that was opened. *)
Definition fs_open_new (p : Path) (fs : Fs) : option (Path * Fs) :=
  q ← follow fs p;
  d ← parent q;
  if is_dir fs d && negb (is_dir fs q) then Some (q, write_at q [] fs) else None.
Definition create_file (p : Path) : Fx FtError Path :=
  ok ← fx_io;
  fs ← fx_fs;
  match (if ok : bool then fs_open_new p fs else None) with
  | Some (q, fs') => _ ← set_fs fs'; mret q
  | None => os_error
  end.
(** [write_all]: [written] is in the file already. *)
Definition write_all (q : Path) (written chunk : Bytes) : Fx FtError unit :=
  ok ← fx_io;
  fs ← fx_fs;
  if ok : bool then set_fs (write_at q (written ++ chunk) fs)
  else
    n ← fx_ask fo_partial;
    _ ← set_fs (write_at q (written ++ take n chunk) fs);
    os_error.
Definition flush : Fx FtError unit := ok ← fx_io; if ok : bool then mret tt else os_error.

(** [rename]: what is at the destination is replaced, a directory is not. *)
Definition fs_rename (p q : Path) (fs : Fs) : option Fs :=
  match fs !! p, parent q with
  | Some EDir, _ | None, _ | _, None => None
  | Some e, Some d => if is_dir fs d && negb (is_dir fs q) then Some (<[q := e]> (delete p fs)) else None
  end.

Definition create_parent (p : Path) : Fx FtError unit :=
  match parent p with Some d => file_op (fs_create_dir_all d) | None => mret tt end.

(** [Path::file_stem] and [Path::with_extension]. *)
Definition file_stem (name : string) : string :=
  match rsplit_once "."%char name with
  | Some (before, _) => if String.eqb before "" then name else before
  | None => name
  end.
Definition with_extension (ext : string) (p : Path) : Path :=
  match last p with
  | Some name => if String.eqb name ".." then p else removelast p ++ [file_stem name +:+ "." +:+ ext]
  | None => p
  end.

(** ** Downloads *)

Definition is_success (status : Z) : bool := in_range 200 299 status.

Fixpoint write_chunks (q : Path) (chunks : list (option Bytes)) (written : Bytes) : Fx FtError Z :=
  match chunks with
  | [] => _ ← flush; mret (as_i64 (Z.of_nat (length written)))
  | None :: _ => os_error
  | Some chunk :: rest => _ ← write_all q written chunk; write_chunks q rest (written ++ chunk)
  end.

Definition do_download (source_url destination_path : string) : Fx FtError Z :=
  let dest := components destination_path in
  let tmp_path := with_extension "tmp" dest in
  _ ← create_parent dest;
  response ← fx_ask (fun o n => fo_http o n source_url);
  match response with
  | None => os_error
  | Some (status, status_text, chunks) =>
      if is_success status then
        q ← create_file tmp_path;
        r ← fx_try (write_chunks q chunks []);
        match r with
        | Ok n => _ ← file_op (fs_rename tmp_path dest); mret n
        | Err e => _ ← fx_try (file_op (fs_remove_file tmp_path)) : Fx FtError _; fx_throw e
        end
      else fx_throw (FileError ("HTTP " +:+ status_text +:+ " from " +:+ source_url))
  end.

Definition final_message (transfer_id : string) (r : result FtError Z) : TransferResponse :=
  match r with
  | Ok bytes_written => Build_TransferResponse transfer_id true bytes_written "" true
  | Err e => Build_TransferResponse transfer_id false 0 (file_error_text e) true
  end.
Definition download_file (req : DownloadFileRequest) : Fx Grpc.Status TransferResponse :=
  r ← fx_try (do_download (df_source_url req) (df_destination_path req));
  mret (final_message (df_transfer_id req) r).

(** ** Copies *)

(** [tokio::fs::copy] of a regular file; the destination is emptied before it is read. *)
Definition fs_copy (source dest : Path) : Fx FtError Z :=
  ok ← fx_io;
  fs ← fx_fs;
  match (if ok : bool then follow fs source else None) with
  | Some s =>
      if is_file fs s then
        q ← create_file dest;
        fs ← fx_fs;
        match fs !! s with
        | Some (EFile c) =>
            _ ← set_fs (match fs !! q with Some (EDevice _ _) => fs | _ => <[q := EFile c]> fs end);
            _ ← flush;
            match c with
            | Text t => mret (Z.of_nat (String.length t))
            | _ => fx_ask fo_size
            end
        | _ => os_error
        end
      else os_error
  | None => os_error
  end.

Definition copy_file (req : CopyFileRequest) : Fx Grpc.Status TransferResponse :=
  let dest := components (cf_destination_path req) in
  r ← fx_try (create_parent dest);
  match r with
  | Err e => mret (Build_TransferResponse (cf_transfer_id req) false 0
                     ("Failed to create directory: " +:+ file_error_text e) true)
  | Ok _ =>
      r ← fx_try (fs_copy (components (cf_source_path req)) dest);
      mret (final_message (cf_transfer_id req) (as_i64 <$> r))
  end.

(** ** Disks *)

Definition as_u64 (n : Z) : Z := n mod 18446744073709551616.
Definition zeros (n : Z) : Bytes := replicate (Z.to_nat n) Ascii.zero.
Definition is_device (fs : Fs) (q : Path) : bool := match fs !! q with Some (EDevice _ _) => true | _ => false end.

(** [fallocate] and [set_len] on the new, empty file. *)
Definition reserve (q : Path) (size_bytes : Z) : Fx FtError bool :=
  ok ← fx_ask fo_fallocate;
  fs ← fx_fs;
  if (ok && (0 <? size_bytes) && negb (is_device fs q) : bool) then
    _ ← set_fs (write_at q (zeros size_bytes) fs); mret true
  else mret false.
Definition set_len (q : Path) (len : Z) : Fx FtError unit :=
  ok ← fx_io;
  fs ← fx_fs;
  if (ok && (len <=? i64_max) && negb (is_device fs q) : bool) then set_fs (write_at q (zeros len) fs) else os_error.

Definition do_create_blank (path : string) (size_bytes : Z) (preallocate : bool) : Fx FtError Z :=
  let dest := components path in
  _ ← create_parent dest;
  q ← create_file dest;
  reserved ← (if preallocate then reserve q size_bytes else mret false);
  if reserved : bool then mret size_bytes
  else _ ← set_len q (as_u64 size_bytes); mret size_bytes.

Definition BUF_SIZE : Z := 4 * 1024 * 1024.
Definition PROGRESS_INTERVAL : Z := 64 * 1024 * 1024.
Definition progress (bytes_written : Z) : TransferResponse :=
  Build_TransferResponse "" true (as_i64 bytes_written) "" false.

(** The loop of the copy: [src] is still to be read, [written] is in the file. *)
Fixpoint copy_chunks (fuel : nat) (device_path : string) (size_bytes : Z) (q : Path) (src written : Bytes)
    (last_reported : Z) : Fx FtError unit :=
  let size := as_u64 size_bytes in
  let bytes_written := Z.of_nat (length written) in
  if bytes_written <? size then
    match fuel with
    | O => fx_throw Exhausted
    | S fuel' =>
        let to_read := Z.min (size - bytes_written) BUF_SIZE in
        n ← fx_ask fo_read;
        match n with
        | None => os_error
        | Some n =>
            match take (Nat.min (Nat.max 1 n) (Z.to_nat to_read)) src with
            | [] => fx_throw (FileError ("block device " +:+ device_path +:+ " is smaller than requested size_bytes "
                      +:+ pretty size_bytes +:+ " (read " +:+ pretty bytes_written +:+ " bytes)"))
            | chunk =>
                _ ← write_all q written chunk;
                let bytes_written := bytes_written + Z.of_nat (length chunk) in
                let report := PROGRESS_INTERVAL <=? bytes_written - last_reported in
                _ ← (if report then fx_send (progress bytes_written) else mret tt);
                copy_chunks fuel' device_path size_bytes q (drop (length chunk) src) (written ++ chunk)
                  (if report then bytes_written else last_reported)
            end
        end
    end
  else mret tt.

Definition copy_block_device (device_path dest_path : string) (size_bytes : Z) : Fx FtError Z :=
  src ← fx_ask (fun o n => fo_device o n device_path);
  match src with
  | None => os_error
  | Some src =>
      q ← create_file (components dest_path);
      _ ← copy_chunks (S (length src)) device_path size_bytes q src [] 0;
      _ ← flush;
      mret size_bytes
  end.

Section service.
Context `{OciReference} `{UuidText} `{JsonText}.

(** [cache_dir]: the directory of the image manager, when there is one. *)
Definition do_create_from_overlaybd (manager : option Path) (path : string) (size_bytes : Z)
    (source : OverlayBdDiskSource) : Fx FtError Z :=
  match manager with
  | None => fx_throw (FileError "OverlayBD manager not available — cannot create disk from OCI image")
  | Some cache_dir =>
      uuid ← fx_ask (fun o n => oo_uuid (fo_obd o) n);
      let mount_id := "commit-" +:+ uuid in
      mounted ← fx_images (mount cache_dir mount_id (od_image_ref source) (od_registry_url source)
                             (od_upper_data source) (od_upper_index source));
      _ ← create_parent (components path);
      copy_result ← fx_try (copy_block_device (md_device_path mounted) path size_bytes);
      _ ← fx_images (unmount cache_dir mount_id);
      fx_of copy_result
  end.

Definition populate_disk (manager : option Path) (req : NodeDiskRequest) : Fx FtError Z :=
  match nd_source req with
  | Some (SourceOverlaybd source) => do_create_from_overlaybd manager (nd_path req) (nd_size_bytes req) source
  | Some (SourceUrl url) => do_download url (nd_path req)
  | Some (SourceBlank preallocate) => do_create_blank (nd_path req) (nd_size_bytes req) preallocate
  | None => do_create_blank (nd_path req) (nd_size_bytes req) false
  end.

(** The task of the handler, which runs while the caller reads the stream. *)
Definition serve_create_disk (manager : option Path) (req : NodeDiskRequest) : Fx Grpc.Status unit :=
  r ← fx_try (populate_disk manager req);
  match r with
  | Ok bytes_written => fx_send (final_message "" (Ok bytes_written))
  | Err e =>
      _ ← fx_try (file_op (fs_remove_file (components (nd_path req)))) : Fx Grpc.Status _;
      fx_send (final_message "" (Err e))
  end.

(** ** Deletion *)

Definition invalid {A} (message : string) : Fx Grpc.Status A :=
  fx_throw (Grpc.Build_Status Grpc.InvalidArgument message).

(** The fifth word of a line of the list of mounts is the mount point. *)
Definition mounted_at (root mounts : string) : bool :=
  existsb (fun line => bool_decide (split_whitespace line !! 4%nat = Some root)) (str_lines mounts).

Definition pool_root (kind : Z) (config_json : string) (pool_id : Uuid) : Fx Grpc.Status string :=
  if kind =? 0 then
    match json_of_text config_json with
    | None => invalid "Invalid pool config"
    | Some config =>
        match json_get config "path" ≫= json_as_str with
        | None => invalid "Missing pool path"
        | Some path => mret path
        end
    end
  else if kind =? 1 then
    let root := "/var/lib/qarax/pools/" +:+ uuid_to_string pool_id in
    mounts ← fx_ask fo_mountinfo;
    match mounts with
    | None => text ← fx_ask fo_error; fx_throw (Grpc.Build_Status Grpc.Internal text)
    | Some mounts =>
        if mounted_at root mounts then mret root
        else fx_throw (Grpc.Build_Status Grpc.FailedPrecondition "NFS pool is not mounted")
    end
  else invalid "Cleanup requires a Local or NFS pool".

Definition file_names (object_id : Uuid) (upper_layer : bool) : list string :=
  let id := uuid_to_string object_id in
  if upper_layer then [id +:+ ".upper.data"; id +:+ ".upper.index"] else [id; id +:+ ".tmp"].

Definition cleanup_paths (req : DeleteStorageFilesRequest) : Fx Grpc.Status (list Path) :=
  match uuid_parse_str (ds_pool_id req) with
  | None => invalid "Invalid pool ID"
  | Some pool_id =>
      match uuid_parse_str (ds_object_id req) with
      | None => invalid "Invalid object ID"
      | Some object_id =>
          root ← pool_root (ds_pool_kind req) (ds_config_json req) pool_id;
          if negb (is_absolute root) || bool_decide (".."%string ∈ components root)
          then invalid "Pool path must be absolute without traversal"
          else mret (map (join_path (components root)) (file_names object_id (ds_upper_layer req)))
      end
  end.

(** The request the server sends for an object of a pool; [config_json] is the text of the
    configuration of the pool. *)
Definition delete_files_request (storage_pool : StoragePool) (config_json : string) (object_id : Uuid) (upper_layer : bool)
  : option DeleteStorageFilesRequest :=
  let request kind := {| ds_pool_id := uuid_to_string (sp_id storage_pool); ds_pool_kind := kind;
                         ds_config_json := config_json; ds_object_id := uuid_to_string object_id;
                         ds_upper_layer := upper_layer |} in
  match sp_pool_type storage_pool with
  | Local => Some (request 0)
  | Nfs => Some (request 1)
  | _ => None
  end.

(** A path through something that is no directory is another error than a missing file. *)
Fixpoint ancestors (done rest : Path) : list Path :=
  match rest with
  | [] | [_] => []
  | c :: rest' => (done ++ [c]) :: ancestors (done ++ [c]) rest'
  end.
Definition through_file (fs : Fs) (p : Path) : bool :=
  existsb (fun q => match fs !! q with Some (EFile _) | Some (EDevice _ _) => true | _ => false end) (ancestors [] p).

Definition unlink (p : Path) : Fx Grpc.Status unit :=
  ok ← fx_io;
  fs ← fx_fs;
  let refused : Fx Grpc.Status unit :=
    text ← fx_ask fo_error;
    fx_throw (Grpc.Build_Status Grpc.Internal ("Cannot remove " +:+ path_text p +:+ ": " +:+ text)) in
  if ok : bool then
    match fs_remove_file p fs with
    | Some fs' => set_fs fs'
    | None => if bool_decide (fs !! p = None) && negb (through_file fs p) then mret tt else refused
    end
  else refused.

Fixpoint unlink_all (paths : list Path) : Fx Grpc.Status unit :=
  match paths with [] => mret tt | p :: rest => _ ← unlink p; unlink_all rest end.

Definition node_delete_storage_files (req : DeleteStorageFilesRequest) : Fx Grpc.Status unit :=
  paths ← cleanup_paths req;
  unlink_all paths.
End service.

(** ** Snapshots *)

Inductive SnapshotDeleteError :=
| InvalidPath (raw reason : string) | NotASnapshot (raw : string) | SnapshotIo (raw text : string).
Definition snapshot_error_text (e : SnapshotDeleteError) : string :=
  match e with
  | InvalidPath raw reason => "invalid snapshot path " +:+ raw +:+ ": " +:+ reason
  | NotASnapshot raw => raw +:+ " is not a snapshot directory"
  | SnapshotIo raw text => "failed to remove snapshot " +:+ raw +:+ ": " +:+ text
  end.
Definition CLOUD_HV_MARKERS : list string := ["config.json"; "state.json"]%string.
Definition FIRECRACKER_MARKERS : list string := ["mem.snap"; "vm.snap"]%string.

Definition has_all (fs : Fs) (path : Path) (markers : list string) : bool :=
  forallb (fun m => match follow fs (join_path path m) with Some q => is_file fs q | None => false end) markers.
(** A removal that fails has removed some of the entries. *)
Definition remove_some (removed : Path -> bool) (d : Path) (fs : Fs) : Fs :=
  filter (fun pe => (below d pe.1 && removed pe.1) = false) fs.

Definition delete_snapshot_dir (snapshot_url : string) : Fx SnapshotDeleteError bool :=
  let raw := default snapshot_url (strip_prefix "file://" snapshot_url) in
  let path := components raw in
  if negb (is_absolute raw) then fx_throw (InvalidPath raw "must be absolute")
  else if bool_decide (".."%string ∈ path) then fx_throw (InvalidPath raw "must not contain '..'")
  else if bool_decide (parent path = None) then fx_throw (InvalidPath raw "refusing to delete the root directory")
  else
    ok ← fx_io;
    fs ← fx_fs;
    if negb ok || through_file fs path then text ← fx_ask fo_error; fx_throw (SnapshotIo raw text)
    else match fs !! path with
         | None => mret false
         | Some EDir =>
             if has_all fs path CLOUD_HV_MARKERS || has_all fs path FIRECRACKER_MARKERS then
               ok ← fx_io;
               if ok : bool then _ ← set_fs (without path fs); mret true
               else
                 removed ← fx_ask fo_removed;
                 _ ← set_fs (remove_some removed path fs);
                 text ← fx_ask fo_error; fx_throw (SnapshotIo raw text)
             else fx_throw (NotASnapshot raw)
         | Some _ => fx_throw (NotASnapshot raw)
         end.

Definition service_delete_snapshot (url : string) : Fx Grpc.Status unit :=
  r ← fx_try (delete_snapshot_dir url);
  match r with
  | Ok _ => mret tt
  | Err (SnapshotIo _ _ as e) => fx_throw (Grpc.Build_Status Grpc.Internal (snapshot_error_text e))
  | Err e => fx_throw (Grpc.Build_Status Grpc.InvalidArgument (snapshot_error_text e))
  end.

(** ** Locks

    A lock of a path exists while somebody holds a reference to it; the table keeps weak
    references.  [lk_held] are the references that are held, with the path they were
    taken for. *)

Record FileLocks := { lk_table : gmap Path N; lk_held : list (Path * N); lk_next : N }.
Definition no_locks : FileLocks := {| lk_table := ∅; lk_held := []; lk_next := 0 |}.
Definition strong_count (l : FileLocks) (lock : N) : nat :=
  length (List.filter (fun pk => bool_decide (pk.2 = lock)) (lk_held l)).

Definition get_lock (path : Path) (l : FileLocks) : N * FileLocks :=
  let locks := filter (fun pk => (0 < strong_count l pk.2)%nat) (lk_table l) in
  match locks !! path with
  | Some lock => (lock, {| lk_table := locks; lk_held := lk_held l ++ [(path, lock)]; lk_next := lk_next l |})
  | None =>
      let lock := lk_next l in
      (lock, {| lk_table := <[path := lock]> locks; lk_held := lk_held l ++ [(path, lock)];
                lk_next := N.succ lock |})
  end.
(** The reference at position [i] is dropped. *)
Definition drop_lock (i : nat) (l : FileLocks) : FileLocks :=
  {| lk_table := lk_table l; lk_held := delete i (lk_held l); lk_next := lk_next l |}.

Inductive LockStep := TakeLock (path : Path) | DropLock (i : nat).
Definition lock_step (s : LockStep) (l : FileLocks) : FileLocks :=
  match s with TakeLock p => (get_lock p l).2 | DropLock i => drop_lock i l end.
Definition lock_run (steps : list LockStep) : FileLocks := foldl (fun l s => lock_step s l) no_locks steps.
