(* ===== verification/NodeFileFacts.v ===== *)
(** * NodeFileFacts: theorems about the files of a node

    Rules for the computations of [NodeFiles.v] (what a step leaves of the file system,
    the messages and the rest of the host), then: one lock per path; a copy of a device is
    exact under any splitting into reads and reports its progress in order; a download
    replaces its destination at once or not at all; a deletion removes the files the
    server derived for the object and no others; only snapshots are removed as
    snapshots. *)

From S2P Require Import Prelude Text Common Secrets HostFs NodeOverlayBd NodeImages NodeStorage.
From S2P Require Import Errors Tables NodeApi World Storage StorageObjects NodeService NodeFiles.
From Stdlib Require Import Ascii.
#[local] Open Scope Z_scope.

(** ** Locks *)

(** A reference that is held is the one in the table, and no two paths share a lock. *)
Record lock_inv (l : FileLocks) : Prop := {
  li_held : forall p h, (p, h) ∈ lk_held l -> lk_table l !! p = Some h;
  li_fresh : forall p h, lk_table l !! p = Some h -> (h < lk_next l)%N;
  li_inj : forall p q h, lk_table l !! p = Some h -> lk_table l !! q = Some h -> p = q
}.

Lemma held_counted l p h : (p, h) ∈ lk_held l -> (0 < strong_count l h)%nat.
Proof.
  intros Hin. unfold strong_count. destruct (List.filter _ _) as [|x t] eqn:E; [|simpl; lia].
  exfalso. apply (in_nil (a := (p, h))). rewrite <-E. apply filter_In.
  split; [by apply list_elem_of_In|]. by apply bool_decide_eq_true.
Qed.

Lemma get_lock_inv p l : lock_inv l -> lock_inv (get_lock p l).2.
Proof.
  intros [Hh Hf Hi]. unfold get_lock. set (locks := filter _ _).
  assert (forall q h, locks !! q = Some h -> lk_table l !! q = Some h) as Hsub.
  { intros q h Hq. by apply map_lookup_filter_Some_1_1 in Hq. }
  assert (forall q h, (q, h) ∈ lk_held l -> locks !! q = Some h) as Hkeep.
  { intros q h Hq. apply map_lookup_filter_Some. split; [by apply Hh|]. by eapply held_counted. }
  destruct (locks !! p) as [lock|] eqn:Ep; constructor; cbn.
  - intros q h [Hq|[= -> ->]%list_elem_of_singleton]%elem_of_app; auto.
  - eauto.
  - eauto.
  - intros q h [Hq|[= -> ->]%list_elem_of_singleton]%elem_of_app; [|by rewrite lookup_insert_eq].
    rewrite lookup_insert_ne; [by apply Hkeep|]. intros ->. apply Hkeep in Hq. congruence.
  - intros q h. rewrite lookup_insert_Some. intros [[_ <-]|[_ Hq]]; [lia|]. apply Hsub, Hf in Hq. lia.
  - intros q q' h. rewrite !lookup_insert_Some. intros [[<- <-]|[Hne Hq]] [[<- ?]|[Hne' Hq']]; try done.
    + apply Hsub, Hf in Hq'. lia.
    + subst. apply Hsub, Hf in Hq. lia.
    + eauto.
Qed.
Lemma drop_lock_inv i l : lock_inv l -> lock_inv (drop_lock i l).
Proof.
  intros [Hh Hf Hi]. constructor; cbn; [|done..]. intros p h Hin. apply Hh.
  by eapply (elem_of_submseteq _ (lk_held l)), sublist_submseteq, sublist_delete.
Qed.
Lemma lock_run_inv steps : lock_inv (lock_run steps).
Proof.
  unfold lock_run. assert (lock_inv no_locks) as H0.
  { constructor; cbn; intros *; rewrite ?lookup_empty; try done. intros []%not_elem_of_nil. }
  revert H0. generalize no_locks. induction steps as [|s steps IH]; intros l Hl; [done|].
  apply IH. destruct s; [by apply get_lock_inv|by apply drop_lock_inv].
Qed.

(** However locks are taken and dropped, two references that are held at the same time
    are references to the same lock exactly when they were taken for the same path: a
    deletion waits for a creation of the file and only for that. *)
Theorem one_lock_per_path steps p q h k :
  (p, h) ∈ lk_held (lock_run steps) -> (q, k) ∈ lk_held (lock_run steps) -> h = k <-> p = q.
Proof.
  intros Hp Hq. destruct (lock_run_inv steps) as [Hh _ Hi]. apply Hh in Hp, Hq. split.
  - intros ->. by eapply Hi.
  - intros ->. congruence.
Qed.

Lemma one_lock_per_path_witness :
  let l := lock_run [TakeLock ["a"]; TakeLock ["b"]; DropLock 0; TakeLock ["b"]; TakeLock ["a"]]%string in
  lk_held l = [(["b"], 1); (["b"], 1); (["a"], 2)]%string%N /\ (1%N = 2%N <-> ["b"] = ["a"])%string.
Proof.
  split; [by vm_compute|].
  apply (one_lock_per_path [TakeLock ["a"]; TakeLock ["b"]; DropLock 0; TakeLock ["b"]; TakeLock ["a"]]%string ["b"]%string ["a"]%string);
    vm_compute; repeat constructor.
Defined.

(** ** Rules *)

Definition frame (h : FtHost) :=
  (ob_mounts (ft_obd h), ob_rootfs (ft_obd h), ob_guests (ft_obd h), ob_attributes (ft_obd h)).
(** The file system becomes [fs] and the messages [l] are sent. *)
Record ran (h h' : FtHost) (fs : Fs) (l : list TransferResponse) : Prop := {
  ra_fs : ft_fs h' = fs; ra_messages : ft_messages h' = ft_messages h ++ l; ra_frame : frame h' = frame h
}.
Lemma ran_refl h : ran h h (ft_fs h) [].
Proof. split; [done| |done]. by rewrite app_nil_r. Qed.
Lemma ran_trans h h1 h2 fs1 fs2 l1 l2 : ran h h1 fs1 l1 -> ran h1 h2 fs2 l2 -> ran h h2 fs2 (l1 ++ l2).
Proof. intros [? H1 ?] [? H2 ?]. split; [done| |congruence]. by rewrite H2, H1, app_assoc. Qed.

Lemma ran_end h fs1 h1 h2 l : ran h h1 fs1 [] -> ran h1 h2 (ft_fs h1) l -> ran h h2 fs1 l.
Proof. intros R1 R2. rewrite (ra_fs _ _ _ _ R1) in R2. by apply (ran_trans _ _ _ _ _ [] _ R1 R2). Qed.

Definition wp {E A} (m : Fx E A) (o : FtOracle) (h : FtHost) (Q : FtHost -> result E A -> Prop) : Prop :=
  Q (m o h).1 (m o h).2.

Lemma wp_mono {E A} (m : Fx E A) o h (Q R : FtHost -> result E A -> Prop) :
  wp m o h Q -> (forall h' r, Q h' r -> R h' r) -> wp m o h R.
Proof. unfold wp. auto. Qed.
Lemma wp_run {E A} (m : Fx E A) o h h' r (Q : FtHost -> result E A -> Prop) : m o h = (h', r) -> wp m o h Q -> Q h' r.
Proof. unfold wp. by intros ->. Qed.
Lemma wp_bind {E A B} (m : Fx E A) (f : A -> Fx E B) o h Q :
  wp m o h (fun h' r => match r with Ok x => wp (f x) o h' Q | Err e => Q h' (Err e) end) -> wp (m ≫= f) o h Q.
Proof. unfold wp, mbind, Fx_bind. by destruct (m o h) as [h' [x|e]]. Qed.
Lemma wp_try {E F A} (m : Fx E A) o h (Q : FtHost -> result F (result E A) -> Prop) :
  wp m o h (fun h' r => Q h' (Ok r)) -> wp (fx_try m) o h Q.
Proof. unfold wp, fx_try. by destruct (m o h). Qed.
Lemma wp_ask {E A} (f : FtOracle -> nat -> A) o h (Q : FtHost -> result E A -> Prop) :
  (forall h', ran h h' (ft_fs h) [] -> Q h' (Ok (f o (ob_step (ft_obd h))))) -> wp (fx_ask f) o h Q.
Proof.
  intros HQ. apply HQ. destruct h as [[] l]. split; [done| |done]. cbn. by rewrite app_nil_r.
Qed.
Lemma wp_set_fs {E : Type} fs o h (Q : FtHost -> result E unit -> Prop) :
  (forall h', ran h h' fs [] -> Q h' (Ok tt)) -> wp (set_fs fs) o h Q.
Proof.
  intros HQ. apply HQ. destruct h as [[] l]. split; [done| |done]. cbn. by rewrite app_nil_r.
Qed.
Lemma wp_send {E : Type} m o h (Q : FtHost -> result E unit -> Prop) :
  (forall h', ran h h' (ft_fs h) [m] -> Q h' (Ok tt)) -> wp (fx_send m) o h Q.
Proof. intros HQ. apply HQ. by destruct h as [[] l]. Qed.
Lemma wp_fs {E : Type} (o : FtOracle) (h : FtHost) (Q : FtHost -> result E Fs -> Prop) : Q h (Ok (ft_fs h)) -> wp fx_fs o h Q.
Proof. done. Qed.
Lemma wp_ret {E A} (x : A) o h (Q : FtHost -> result E A -> Prop) : Q h (Ok x) -> wp (mret x) o h Q.
Proof. done. Qed.
Lemma wp_throw {E A} (e : E) o h (Q : FtHost -> result E A -> Prop) : Q h (Err e) -> wp (fx_throw e) o h Q.
Proof. done. Qed.

Lemma wp_os_error {A} o h (Q : FtHost -> result FtError A -> Prop) :
  (forall h' t, ran h h' (ft_fs h) [] -> Q h' (Err (FileError t))) -> wp os_error o h Q.
Proof. intros HQ. unfold os_error. apply wp_bind, wp_ask. intros h' Hr. by apply wp_throw, HQ. Qed.

(** The result of a file operation: done, or refused with an error of the system. *)
Lemma wp_file_op f o h (Q : FtHost -> result FtError unit -> Prop) :
  (forall h' fs, f (ft_fs h) = Some fs -> ran h h' fs [] -> Q h' (Ok tt)) ->
  (forall h' t, f (ft_fs h) = None \/ oo_io (fo_obd o) (ob_step (ft_obd h)) = false ->
     ran h h' (ft_fs h) [] -> Q h' (Err (FileError t))) ->
  wp (file_op f) o h Q.
Proof.
  intros H1 H2. unfold file_op, fx_io. apply wp_bind, wp_ask. intros h1 R1. apply wp_bind, wp_fs.
  rewrite (ra_fs _ _ _ _ R1). destruct (oo_io _ _) eqn:Ei; [destruct (f (ft_fs h)) as [fs|] eqn:Ef|].
  - apply wp_set_fs. intros h2 R2. eapply H1; [done|]. by apply (ran_trans _ _ _ _ _ [] []  R1 R2).
  - apply wp_os_error. intros h2 t R2. rewrite (ra_fs _ _ _ _ R1) in R2. apply H2; [by left|].
    by apply (ran_trans _ _ _ _ _ [] [] R1 R2).
  - apply wp_os_error. intros h2 t R2. rewrite (ra_fs _ _ _ _ R1) in R2. apply H2; [by right|].
    by apply (ran_trans _ _ _ _ _ [] [] R1 R2).
Qed.

Lemma wp_create_file p o h (Q : FtHost -> result FtError Path -> Prop) :
  (forall h' q fs, fs_open_new p (ft_fs h) = Some (q, fs) -> ran h h' fs [] -> Q h' (Ok q)) ->
  (forall h' t, fs_open_new p (ft_fs h) = None \/ oo_io (fo_obd o) (ob_step (ft_obd h)) = false ->
     ran h h' (ft_fs h) [] -> Q h' (Err (FileError t))) ->
  wp (create_file p) o h Q.
Proof.
  intros H1 H2. unfold create_file, fx_io. apply wp_bind, wp_ask. intros h1 R1. apply wp_bind, wp_fs.
  rewrite (ra_fs _ _ _ _ R1). destruct (oo_io _ _) eqn:Ei; [destruct (fs_open_new p (ft_fs h)) as [[q fs]|] eqn:Ef|].
  - apply wp_bind, wp_set_fs. intros h2 R2. apply wp_ret. eapply H1; [done|].
    by apply (ran_trans _ _ _ _ _ [] [] R1 R2).
  - apply wp_os_error. intros h2 t R2. rewrite (ra_fs _ _ _ _ R1) in R2. apply H2; [by left|].
    by apply (ran_trans _ _ _ _ _ [] [] R1 R2).
  - apply wp_os_error. intros h2 t R2. rewrite (ra_fs _ _ _ _ R1) in R2. apply H2; [by right|].
    by apply (ran_trans _ _ _ _ _ [] [] R1 R2).
Qed.

(** The file that was opened is empty, or a device. *)
Lemma open_new_spec p fs q fs' :
  fs_open_new p fs = Some (q, fs') ->
  follow fs p = Some q /\ is_dir fs q = false /\
  if is_device fs q then fs' = fs else fs' = <[q := EFile (data [])]> fs.
Proof.
  unfold fs_open_new. destruct (follow fs p) as [q'|]; [|done]. cbn. destruct (parent q') as [d|]; [|done]. cbn.
  destruct (is_dir fs d), (is_dir fs q') eqn:Ed; cbn; intros [= -> <-]. split_and!; [done..|].
  unfold is_device, write_at. by destruct (fs !! q) as [[| | |]|].
Qed.

(** A file that is written chunk by chunk: [q] holds [b]. *)
Definition holds_data (fs : Fs) (q : Path) (b : Bytes) : Prop := fs !! q = Some (EFile (data b)).
Lemma write_at_holds fs q b b' : holds_data fs q b -> write_at q b' fs = <[q := EFile (data b')]> fs.
Proof. unfold write_at, holds_data. by intros ->. Qed.

Lemma wp_write_all q written chunk o h (Q : FtHost -> result FtError unit -> Prop) :
  holds_data (ft_fs h) q written ->
  (forall h', ran h h' (<[q := EFile (data (written ++ chunk))]> (ft_fs h)) [] -> Q h' (Ok tt)) ->
  (forall h' t n, oo_io (fo_obd o) (ob_step (ft_obd h)) = false ->
     ran h h' (<[q := EFile (data (written ++ take n chunk))]> (ft_fs h)) [] -> Q h' (Err (FileError t))) ->
  wp (write_all q written chunk) o h Q.
Proof.
  intros Hh H1 H2. unfold write_all, fx_io. apply wp_bind, wp_ask. intros h1 R1. apply wp_bind, wp_fs.
  rewrite (ra_fs _ _ _ _ R1). destruct (oo_io _ _) eqn:Ei.
  - apply wp_set_fs. intros h2 R2. apply H1. rewrite (write_at_holds _ _ _ _ Hh) in R2.
    by apply (ran_trans _ _ _ _ _ [] [] R1 R2).
  - apply wp_bind, wp_ask. intros h2 R2. apply wp_bind, wp_set_fs. intros h3 R3. apply wp_os_error. intros h4 t R4.
    rewrite (ra_fs _ _ _ _ R3) in R4. eapply H2; [done|]. rewrite (write_at_holds _ _ _ _ Hh) in R4.
    by apply (ran_trans _ _ _ _ _ [] [] R1 (ran_trans _ _ _ _ _ [] [] R2 (ran_trans _ _ _ _ _ [] [] R3 R4))).
Qed.

Lemma wp_flush o h (Q : FtHost -> result FtError unit -> Prop) :
  (forall h', ran h h' (ft_fs h) [] -> Q h' (Ok tt)) ->
  (forall h' t, oo_io (fo_obd o) (ob_step (ft_obd h)) = false -> ran h h' (ft_fs h) [] -> Q h' (Err (FileError t))) ->
  wp flush o h Q.
Proof.
  intros H1 H2. unfold flush, fx_io. apply wp_bind, wp_ask. intros h1 R1. destruct (oo_io _ _) eqn:Ei.
  - by apply wp_ret, H1.
  - apply wp_os_error. intros h2 t R2. rewrite (ra_fs _ _ _ _ R1) in R2. apply H2; [done|].
    by apply (ran_trans _ _ _ _ _ [] [] R1 R2).
Qed.

(** ** Copying a device *)

(** Reports come in order, at least an interval apart and within the size. *)
Fixpoint spaced (size last : Z) (reports : list Z) : Prop :=
  match reports with
  | [] => True
  | v :: rest => last + PROGRESS_INTERVAL <= v <= size /\ spaced size v rest
  end.

Definition copied (size : Z) (bytes b : Bytes) : Prop :=
  b = take (Z.to_nat size) bytes /\ size <= Z.of_nat (length bytes).

Lemma copied_enough size (written src : Bytes) :
  size <= Z.of_nat (length written) -> Z.of_nat (length written) <= size ->
  copied size (written ++ src) written.
Proof.
  intros H1 H2. split; [|rewrite length_app; lia].
  rewrite take_app_le by lia. rewrite take_ge; [done|lia].
Qed.

Lemma ran_insert_insert (h h1 h2 : FtHost) (q : Path) (e e' : Entry) (fs : Fs) (l l' : list TransferResponse) :
  ran h h1 (<[q := e]> fs) l -> ran h1 h2 (<[q := e']> (ft_fs h1)) l' -> ran h h2 (<[q := e']> fs) (l ++ l').
Proof.
  intros R1 R2. rewrite (ra_fs _ _ _ _ R1), insert_insert_eq in R2. by eapply ran_trans.
Qed.

(** Nothing the copy asks for is refused. *)
Definition good (o : FtOracle) : Prop := (forall n, oo_io (fo_obd o) n = true) /\ (forall n, fo_read o n <> None).

Section copy.
Context (device_path : string) (size_bytes : Z) (q : Path).
#[local] Abbreviation size := (as_u64 size_bytes).

Lemma chunk_fits n (src written : Bytes) chunk :
  Z.of_nat (length written) < size ->
  chunk = take (Nat.min (Nat.max 1 n) (Z.to_nat (Z.min (size - Z.of_nat (length written)) BUF_SIZE))) src ->
  chunk <> [] ->
  (0 < length chunk <= length src)%nat /\ Z.of_nat (length (written ++ chunk)) <= size /\ src = chunk ++ drop (length chunk) src.
Proof.
  intros Hlt -> Hne. set (k := Nat.min _ _) in *. assert (k <= Z.to_nat (size - Z.of_nat (length written)))%nat as Hk by lia.
  clearbody k. rewrite length_app. assert (length (take k src) <> 0%nat) as Hl by by (destruct (take k src)).
  rewrite length_take in *. split_and!; [lia..|]. destruct (decide (k <= length src)%nat).
  - rewrite Nat.min_l by lia. by rewrite take_drop.
  - rewrite Nat.min_r by lia. rewrite take_ge by lia. by rewrite drop_all, app_nil_r.
Qed.

Definition copy_post (o : FtOracle) (last : Z) (bytes : Bytes) (h h' : FtHost) (r : result FtError unit) : Prop :=
  exists b reports, ran h h' (<[q := EFile (data b)]> (ft_fs h)) (map progress reports) /\
    spaced size last reports /\ r <> Err Exhausted /\ (r = Ok tt -> copied size bytes b) /\
    (good o -> size <= Z.of_nat (length bytes) -> r = Ok tt).

Lemma copy_chunks_spec fuel src written last o h :
  (length src < fuel)%nat -> holds_data (ft_fs h) q written -> Z.of_nat (length written) <= size ->
  wp (copy_chunks fuel device_path size_bytes q src written last) o h (copy_post o last (written ++ src) h).
Proof.
  revert src written last h. induction fuel as [|fuel IH]; intros src written lastr h Hf Hh Hw; [lia|].
  assert (forall h' t, ~ (good o /\ size <= Z.of_nat (length (written ++ src))) ->
    ran h h' (ft_fs h) [] -> copy_post o lastr (written ++ src) h h' (Err (FileError t))) as Hstop.
  { intros h' t Hg R. exists written, []. rewrite insert_id by done. split_and!; [done..|]. intros. by destruct Hg. }
  cbn [copy_chunks]. destruct (Z.ltb_spec (Z.of_nat (length written)) size) as [Hlt|Hge].
  2: { apply wp_ret. exists written, []. rewrite insert_id by done. split_and!; [apply ran_refl|done..| |done].
       intros _. by apply copied_enough. }
  apply wp_bind, wp_ask. intros h1 R1. destruct (fo_read _ _) as [n|] eqn:Er.
  2: { apply wp_os_error. intros h2 t R2. rewrite (ra_fs _ _ _ _ R1) in R2.
       apply Hstop; [|by apply (ran_trans _ _ _ _ _ [] [] R1 R2)]. intros [[_ Hg] _]. by apply (Hg (ob_step (ft_obd h))). }
  destruct (take _ _) as [|c0 ch0] eqn:Ec.
  { apply wp_throw, Hstop; [|done]. intros [_ Hsz]. rewrite length_app in Hsz. apply (f_equal length) in Ec.
    rewrite length_take in Ec. simpl in Ec. unfold BUF_SIZE in Ec. lia. }
  remember (c0 :: ch0) as chunk eqn:Ech. symmetry in Ec.
  destruct (chunk_fits n src written chunk Hlt Ec ltac:(by subst)) as (Hlen&Hsz&Hsrc). clear c0 ch0 Ech Ec.
  apply wp_bind, wp_write_all with (1 := eq_trans (f_equal (lookup q) (ra_fs _ _ _ _ R1)) Hh).
  2: { intros h2 t k Hio R2. exists (written ++ take k chunk), []. rewrite (ra_fs _ _ _ _ R1) in R2.
       split_and!; [by apply (ran_trans _ _ _ _ _ [] [] R1 R2)|done..|]. intros [Hg _] _. by rewrite Hg in Hio. }
  intros h2 R2. rewrite (ra_fs _ _ _ _ R1) in R2. pose proof (ran_trans _ _ _ _ _ [] [] R1 R2) as R. clear R1 R2 h1.
  set (now := Z.of_nat (length written) + Z.of_nat (length chunk)). apply wp_bind.
  assert (forall h3 l lastr', ran h2 h3 (ft_fs h2) (map progress l) ->
    (forall l', spaced size lastr' l' -> spaced size lastr (l ++ l')) ->
    wp (copy_chunks fuel device_path size_bytes q (drop (length chunk) src) (written ++ chunk) lastr') o h3
      (copy_post o lastr (written ++ src) h)) as Hrest.
  { intros h3 l lastr' R3 Hl. rewrite (ra_fs _ _ _ _ R) in R3. pose proof (ran_trans _ _ _ _ _ _ _ R R3) as R'.
    eapply wp_mono; [apply IH|].
    - rewrite length_drop. lia.
    - unfold holds_data. by rewrite (ra_fs _ _ _ _ R'), lookup_insert_eq.
    - done.
    - intros h4 r (b&l'&R4&Hsp&Hne&Hok). rewrite <-app_assoc, <-Hsrc in Hok. exists b, (l ++ l'). split_and!; [|by apply Hl|apply Hne|apply Hok..].
      rewrite map_app. by eapply ran_insert_insert. }
  rewrite length_app in Hsz. destruct (Z.leb_spec PROGRESS_INTERVAL (now - lastr)).
  - apply wp_send. intros h3 R3. eapply (Hrest h3 [now]); [done|]. intros l' Hl'. simpl. split; [subst now; lia|done].
  - apply wp_ret. by apply (Hrest h2 []); [apply ran_refl|].
Qed.
End copy.

Section device.
Context (dest_path : string) (size_bytes : Z) (o : FtOracle) (h : FtHost) (q : Path) (src : Bytes).

(** The outcome of a copy of [src] to the file [q]. *)
Definition device_copied (h' : FtHost) (r : result FtError Z) : Prop :=
  r <> Err Exhausted /\ frame h' = frame h /\
  (forall p, p <> q -> ft_fs h' !! p = ft_fs h !! p) /\
  (exists reports, ft_messages h' = ft_messages h ++ map progress reports /\ spaced (as_u64 size_bytes) 0 reports) /\
  (forall n, r = Ok n -> n = size_bytes /\ as_u64 size_bytes <= Z.of_nat (length src) /\
     holds_data (ft_fs h') q (take (Z.to_nat (as_u64 size_bytes)) src)) /\
  (good o -> is_Some (fs_open_new (components dest_path) (ft_fs h)) ->
   as_u64 size_bytes <= Z.of_nat (length src) -> r = Ok size_bytes).

Lemma copied_stop h' t :
  ~ (good o /\ is_Some (fs_open_new (components dest_path) (ft_fs h))) ->
  ran h h' (ft_fs h) [] -> device_copied h' (Err (FileError t)).
Proof.
  intros Hg R. split_and!; [done|apply R| |exists []; by split; [apply R|]|done|].
  - intros p _. by rewrite (ra_fs _ _ _ _ R).
  - intros. by destruct Hg.
Qed.

Lemma copied_end h' (r : result FtError unit) r' b reports :
  ran h h' (<[q:=EFile (data b)]> (ft_fs h)) (map progress reports) -> spaced (as_u64 size_bytes) 0 reports ->
  (r = Ok tt -> copied (as_u64 size_bytes) src b) -> r' <> Err Exhausted ->
  (forall n, r' = Ok n -> n = size_bytes /\ r = Ok tt) ->
  (good o -> as_u64 size_bytes <= Z.of_nat (length src) -> r' = Ok size_bytes) -> device_copied h' r'.
Proof.
  intros R Hsp Hok Hne Hn Hg. split_and!; [done|apply R| |exists reports; by split; [apply R|]| |auto].
  - intros p Hp. by rewrite (ra_fs _ _ _ _ R), lookup_insert_ne.
  - intros n Hr. destruct (Hn n Hr) as [-> Hr']. destruct (Hok Hr') as [-> Hsz]. split_and!; [done..|].
    unfold holds_data. by rewrite (ra_fs _ _ _ _ R), lookup_insert_eq.
Qed.

Lemma copy_into_file device_path h1 :
  ran h h1 (<[q := EFile (data [])]> (ft_fs h)) [] ->
  wp (_ ← copy_chunks (S (length src)) device_path size_bytes q src [] 0; _ ← flush; mret size_bytes) o h1 device_copied.
Proof.
  intros R. apply wp_bind. eapply wp_mono; [apply copy_chunks_spec; [lia| |apply Z.mod_pos_bound; lia]|].
  { unfold holds_data. by rewrite (ra_fs _ _ _ _ R), lookup_insert_eq. }
  intros h3 r (b&reports&R3&Hsp&Hex&Hok&Hgood). rewrite app_nil_l in *.
  pose proof (ran_insert_insert _ _ _ _ _ _ _ _ _ R R3) as R'. rewrite app_nil_l in R'. clear R R3 h1.
  destruct r as [[]|e].
  2: { eapply copied_end; [done..|congruence|done|]. intros Hg Hsz. by discriminate (Hgood Hg Hsz). }
  apply wp_bind, wp_flush.
  - intros h4 R4. rewrite (ra_fs _ _ _ _ R') in R4. pose proof (ran_trans _ _ _ _ _ _ _ R' R4) as R.
    rewrite app_nil_r in R. apply wp_ret. eapply copied_end; [done..| |done]. by intros n [= <-].
  - intros h4 t Hio R4. rewrite (ra_fs _ _ _ _ R') in R4. pose proof (ran_trans _ _ _ _ _ _ _ R' R4) as R.
    rewrite app_nil_r in R. eapply copied_end; [done..|]. intros [Hg _]. by rewrite Hg in Hio.
Qed.

(** C20. A disk is copied from a device exactly, however the reads split it: the loop ends, a
    success means that the file holds the first [size_bytes] bytes of the device, the
    reports come in order and at least 64 MiB apart, no other file and no mount changes.
    When nothing is refused and the device is large enough it succeeds. *)
Theorem device_copy_exact device_path h' r :
  follow (ft_fs h) (components dest_path) = Some q -> is_device (ft_fs h) q = false ->
  (forall n, fo_device o n device_path = Some src) ->
  copy_block_device device_path dest_path size_bytes o h = (h', r) -> device_copied h' r.
Proof.
  intros Hq Hd Hsrc Hrun. eapply wp_run; [exact Hrun|].
  unfold copy_block_device. apply wp_bind, wp_ask. intros h1 R1. rewrite Hsrc.
  apply wp_bind, wp_create_file; rewrite (ra_fs _ _ _ _ R1).
  - intros h2 q' fs Ho R2. destruct (open_new_spec _ _ _ _ Ho) as (Hq'&_&Hfs). rewrite Hq in Hq'. injection Hq' as <-.
    rewrite Hd in Hfs. subst fs. by apply copy_into_file, (ran_trans _ _ _ _ _ [] [] R1 R2).
  - intros h2 t Hc R2. apply copied_stop; [|by apply (ran_trans _ _ _ _ _ [] [] R1 R2)].
    intros [[Hg _] [x Hx]]. rewrite Hg in Hc. destruct Hc; congruence.
Qed.
End device.

(** ** Downloads *)

(** Directories above [dest] may have been created, nothing else. *)
Definition dirs_added (dest : Path) (fs fs' : Fs) : Prop :=
  (forall p e, fs !! p = Some e -> fs' !! p = Some e) /\
  (forall p e, fs' !! p = Some e -> fs !! p = Some e \/ (e = EDir /\ (length p < length dest)%nat /\ below p dest = true)).
Lemma dirs_added_refl dest fs : dirs_added dest fs fs.
Proof. split; auto. Qed.
Lemma dirs_added_same dest fs fs' p : dirs_added dest fs fs' -> (length dest <= length p)%nat -> fs' !! p = fs !! p.
Proof.
  intros [H1 H2] Hl. destruct (fs !! p) as [e|] eqn:E; [by apply H1|]. destruct (fs' !! p) as [e|] eqn:E'; [|done].
  apply H2 in E' as [E'|(_&Hlt&_)]; [congruence|lia].
Qed.

Lemma parent_app p d : parent p = Some d -> exists c, p = d ++ [c].
Proof.
  intros Hp. destruct (exists_last (l := p)) as (l&c&->); [by intros ->|].
  rewrite parent_snoc in Hp. injection Hp as ->. by exists c.
Qed.

Lemma wp_create_parent dest o h (Q : FtHost -> result FtError unit -> Prop) :
  (forall h' fs, dirs_added dest (ft_fs h) fs -> ran h h' fs [] -> Q h' (Ok tt)) ->
  (forall h' t, ran h h' (ft_fs h) [] -> Q h' (Err (FileError t))) ->
  wp (create_parent dest) o h Q.
Proof.
  intros H1 H2. unfold create_parent. destruct (parent dest) as [d|] eqn:Ep.
  - apply wp_file_op; [|by auto]. intros h' fs Hc. apply H1. apply create_dirs_spec in Hc as (Hold&Hnew&_).
    destruct (parent_app _ _ Ep) as [c ->]. split; [done|]. intros p e He. apply Hnew in He as [|[-> Hb]]; [by left|right].
    apply below_spec in Hb. simpl in Hb. split_and!; [done| |].
    + apply prefix_length in Hb. rewrite length_app. simpl. lia.
    + apply below_spec. by apply prefix_app_r.
  - apply wp_ret. eapply H1; [apply dirs_added_refl|apply ran_refl].
Qed.

Lemma wp_write_chunks q chunks : forall written o h,
  holds_data (ft_fs h) q written ->
  wp (write_chunks q chunks written) o h (fun h' r =>
    exists b, ran h h' (<[q := EFile (data b)]> (ft_fs h)) [] /\
    forall n, r = Ok n -> exists body, mapM id chunks = Some body /\ b = written ++ concat body /\
                          n = as_i64 (Z.of_nat (length b))).
Proof.
  induction chunks as [|[chunk|] chunks IH]; intros written o h Hh; cbn [write_chunks].
  - apply wp_bind, wp_flush.
    + intros h' R. apply wp_ret. exists written. rewrite insert_id by done. split; [done|].
      intros n [= <-]. exists []. by rewrite app_nil_r.
    + intros h' t _ R. exists written. by rewrite insert_id by done.
  - apply wp_bind, (wp_write_all _ _ _ _ _ _ Hh).
    + intros h' R. eapply wp_mono; [apply IH; unfold holds_data; by rewrite (ra_fs _ _ _ _ R), lookup_insert_eq|].
      intros h2 r (b&R2&Hok). exists b. split; [by apply (ran_insert_insert _ _ _ _ _ _ _ [] [] R R2)|].
      intros n Hr. destruct (Hok n Hr) as (body&Hb&->&->). exists (chunk :: body). simpl. rewrite Hb.
      by rewrite <-app_assoc.
    + intros h' t n _ R. by exists (written ++ take n chunk).
  - apply wp_os_error. intros h' t R. exists written. by rewrite insert_id by done.
Qed.

Section download.
Context (source_url destination_path : string) (o : FtOracle) (h : FtHost).
#[local] Abbreviation dest := (components destination_path).
#[local] Abbreviation tmp := (with_extension "tmp" dest).

(** The outcome of a download. *)
Definition downloaded_file (h' : FtHost) (r : result FtError Z) : Prop :=
  ft_messages h' = ft_messages h /\ frame h' = frame h /\
  (forall p, p <> dest -> p <> tmp -> ft_fs h' !! p = ft_fs h !! p \/
     (ft_fs h !! p = None /\ ft_fs h' !! p = Some EDir /\ below p dest = true)) /\
  match r with
  | Ok n => exists k status text chunks body,
      fo_http o k source_url = Some (status, text, chunks) /\ is_success status = true /\
      mapM id chunks = Some body /\ n = as_i64 (Z.of_nat (length (concat body))) /\
      holds_data (ft_fs h') dest (concat body) /\ ft_fs h' !! tmp = None
  | Err _ => ft_fs h' !! dest = ft_fs h !! dest
  end.

Lemma with_extension_length ext (p : Path) : length (with_extension ext p) = length p.
Proof.
  unfold with_extension. destruct (last p) as [name|] eqn:E; [|done]. destruct (String.eqb name ".."); [done|].
  apply last_Some in E as [l ->]. rewrite removelast_last, !length_app. done.
Qed.

(** A failure after which only [tmp] differs. *)
Lemma download_failed h' fs e :
  tmp <> dest -> dirs_added dest (ft_fs h) fs -> ran h h' (ft_fs h') [] -> (forall p, p <> tmp -> ft_fs h' !! p = fs !! p) ->
  downloaded_file h' (Err e).
Proof.
  intros Hne Hd R Hfs. split_and!; [by rewrite (ra_messages _ _ _ _ R), app_nil_r|apply R| |].
  - intros p _ Hp. rewrite (Hfs p Hp). destruct Hd as [H1 H2]. destruct (ft_fs h !! p) as [x|] eqn:E; [left; by apply H1|].
    destruct (fs !! p) as [x|] eqn:E'; [right|by left]. apply H2 in E' as [E'|(->&_&Hb)]; [congruence|done].
  - rewrite Hfs by done. by apply (dirs_added_same dest).
Qed.

Context (Htmp : tmp <> dest).
Context (Hplain : match ft_fs h !! tmp with Some (ELink _) | Some (EDevice _ _) => False | _ => True end).
#[local] Set Default Proof Using "Type*".

Lemma tmp_file fs q fs2 :
  dirs_added dest (ft_fs h) fs -> fs_open_new tmp fs = Some (q, fs2) -> q = tmp /\ fs2 = <[tmp := EFile (data [])]> fs.
Proof.
  intros Hd (Hq&_&Hf)%open_new_spec.
  pose proof (dirs_added_same _ _ _ tmp Hd ltac:(by rewrite with_extension_length)) as E. rewrite <-E in Hplain.
  assert (q = tmp) as ->.
  { unfold follow in Hq. cbn [follow_links] in Hq. by destruct (fs !! tmp) as [[]|]; try done; congruence. }
  split; [done|]. unfold is_device in Hf. by destruct (fs !! tmp) as [[]|].
Qed.

Lemma download_renamed h' fs (b : Bytes) fs3 n k status text chunks body :
  dirs_added dest (ft_fs h) fs -> fs_rename tmp dest (<[tmp := EFile (data b)]> fs) = Some fs3 -> ran h h' fs3 [] ->
  fo_http o k source_url = Some (status, text, chunks) -> is_success status = true -> mapM id chunks = Some body ->
  b = concat body -> n = as_i64 (Z.of_nat (length b)) -> downloaded_file h' (Ok n).
Proof.
  intros Hd Hren R Hh Hs Hb -> ->. unfold fs_rename in Hren. rewrite lookup_insert_eq in Hren.
  destruct (parent dest); [|done]. destruct (_ && _); [|done]. injection Hren as <-.
  split_and!; [by rewrite (ra_messages _ _ _ _ R), app_nil_r|apply R| |].
  - intros p Hp Hp'. rewrite (ra_fs _ _ _ _ R), lookup_insert_ne, lookup_delete_ne, lookup_insert_ne by done.
    destruct Hd as [H1 H2]. destruct (ft_fs h !! p) as [x|] eqn:E; [left; by apply H1|].
    destruct (fs !! p) as [x|] eqn:E'; [right|by left]. apply H2 in E' as [E'|(->&_&Hbl)]; [congruence|done].
  - exists k, status, text, chunks, body. split_and!; [done..| |]; unfold holds_data; rewrite (ra_fs _ _ _ _ R).
    + by rewrite lookup_insert_eq.
    + by rewrite lookup_insert_ne, lookup_delete_eq.
Qed.

Lemma store_body fs h1 k status text chunks :
  dirs_added dest (ft_fs h) fs -> ran h h1 fs [] ->
  fo_http o k source_url = Some (status, text, chunks) -> is_success status = true ->
  wp (q ← create_file tmp;
      r ← fx_try (write_chunks q chunks []);
      match r with
      | Ok n => _ ← file_op (fs_rename tmp dest); mret n
      | Err e => _ ← fx_try (file_op (fs_remove_file tmp)) : Fx FtError _; fx_throw e
      end) o h1 downloaded_file.
Proof.
  intros Hd R1 Hh Hs.
  assert (forall h' e fs', ran h h' fs' [] -> (forall p, p <> tmp -> fs' !! p = fs !! p) -> downloaded_file h' (Err e)) as Hfail.
  { intros h' e fs' R Hfs. eapply download_failed; [done..| |]; rewrite (ra_fs _ _ _ _ R); done. }
  apply wp_bind, wp_create_file; rewrite (ra_fs _ _ _ _ R1).
  2: { intros h2 t _ R2. apply (Hfail _ _ fs); [|done]. by apply (ran_trans _ _ _ _ _ [] [] R1 R2). }
  intros h2 q fs2 Ho R2. destruct (tmp_file _ _ _ Hd Ho) as [-> ->].
  pose proof (ran_trans _ _ _ _ _ [] [] R1 R2) as R. clear R1 R2 h1 Ho.
  apply wp_bind, wp_try. eapply wp_mono; [apply wp_write_chunks; unfold holds_data; by rewrite (ra_fs _ _ _ _ R), lookup_insert_eq|].
  intros h3 r (b&R3&Hok). pose proof (ran_insert_insert _ _ _ _ _ _ _ [] [] R R3) as R'. clear R R3 h2.
  assert (forall h' e, ran h3 h' (ft_fs h3) [] -> downloaded_file h' (Err e)) as Hleft.
  { intros h' e R. eapply Hfail; [exact (ran_end _ _ _ _ _ R' R)|]. intros p Hp. by rewrite lookup_insert_ne. }
  destruct r as [n|e].
  - destruct (Hok n eq_refl) as (body&Hb&Hcat&->). apply wp_bind, wp_file_op; [|by auto].
    intros h4 fs3 Hren R4. rewrite (ra_fs _ _ _ _ R') in Hren. apply wp_ret.
    eapply download_renamed; [done..| |done|done|done|done|done]. by apply (ran_trans _ _ _ _ _ [] [] R' R4).
  - apply wp_bind, wp_try, wp_file_op; [|by intros h4 t _ R4; apply wp_throw, Hleft].
    intros h4 fs3 Hrm R4. rewrite (ra_fs _ _ _ _ R') in Hrm. apply wp_throw. unfold fs_remove_file in Hrm.
    rewrite lookup_insert_eq in Hrm. injection Hrm as <-.
    eapply Hfail; [by apply (ran_trans _ _ _ _ _ [] [] R' R4)|]. intros p Hp. by rewrite lookup_delete_ne, lookup_insert_ne.
Qed.

(** C19. A download replaces its destination at once or not at all: after a success the
    file holds exactly the body of a successful answer and the temporary file is gone;
    after a failure, also in the middle of the body, the destination is as it was.  Apart
    from both only missing directories above are created. *)
Theorem download_atomic h' r :
  do_download source_url destination_path o h = (h', r) -> downloaded_file h' r.
Proof.
  intros Hrun. eapply wp_run; [exact Hrun|].
  unfold do_download. apply wp_bind, wp_create_parent.
  2: { intros h1 t R. eapply download_failed; [done|apply dirs_added_refl| |]; by rewrite (ra_fs _ _ _ _ R). }
  intros h1 fs Hd R1. apply wp_bind, wp_ask. intros h2 R2. pose proof (ran_end _ _ _ _ _ R1 R2) as R.
  destruct (fo_http _ _ _) as [[[status text] chunks]|] eqn:Eh.
  - destruct (is_success status) eqn:Es; [by eapply store_body|].
    apply wp_throw. eapply download_failed; [done..| |]; by rewrite (ra_fs _ _ _ _ R).
  - apply wp_os_error. intros h3 t R3. pose proof (ran_end _ _ _ _ _ R R3) as R'.
    eapply download_failed; [done..| |]; by rewrite (ra_fs _ _ _ _ R').
Qed.
End download.

(** ** Deletion *)

Lemma wp_unlink p o h (Q : FtHost -> result Grpc.Status unit -> Prop) :
  (forall h', ran h h' (delete p (ft_fs h)) [] -> Q h' (Ok tt)) ->
  (forall h' e, ran h h' (ft_fs h) [] -> Q h' (Err e)) -> wp (unlink p) o h Q.
Proof.
  intros H1 H2. unfold unlink, fx_io. apply wp_bind, wp_ask. intros h1 R1. apply wp_bind, wp_fs. rewrite (ra_fs _ _ _ _ R1).
  assert (wp (text ← fx_ask fo_error; fx_throw (Grpc.Build_Status Grpc.Internal
                ("Cannot remove " +:+ path_text p +:+ ": " +:+ text))) o h1 Q) as Hrefused.
  { apply wp_bind, wp_ask. intros h2 R2. apply wp_throw, H2. rewrite (ra_fs _ _ _ _ R1) in R2.
    by apply (ran_trans _ _ _ _ _ [] [] R1 R2). }
  destruct (oo_io _ _); [|exact Hrefused].
  unfold fs_remove_file. destruct (ft_fs h !! p) as [[]|] eqn:Ep;
    try (apply wp_set_fs; intros h2 R2; apply H1; by apply (ran_trans _ _ _ _ _ [] [] R1 R2)).
  - rewrite bool_decide_eq_false_2 by done. exact Hrefused.
  - rewrite bool_decide_eq_true_2 by done. destruct (through_file _ _).
    + exact Hrefused.
    + apply wp_ret, H1. by rewrite delete_id.
Qed.

(** Files outside of the list are left alone, after a success none of the list is there. *)
Lemma wp_unlink_all paths : forall o h,
  wp (unlink_all paths) o h (fun h' r =>
    ran h h' (ft_fs h') [] /\ (forall p, ft_fs h' !! p = ft_fs h !! p \/ (p ∈ paths /\ ft_fs h' !! p = None)) /\
    (r = Ok tt -> forall p, p ∈ paths -> ft_fs h' !! p = None)).
Proof.
  induction paths as [|p paths IH]; intros o h; cbn [unlink_all].
  - apply wp_ret. split_and!; [apply ran_refl|by left|]. by intros _ p ?%not_elem_of_nil.
  - apply wp_bind, wp_unlink.
    + intros h1 R1. eapply wp_mono; [apply IH|]. intros h2 r (R2&Hk&Hok). split_and!.
      * by apply (ran_trans _ _ _ _ _ [] [] R1 R2).
      * intros q. destruct (decide (q = p)) as [->|Hne].
        { right. split; [by left|]. destruct (Hk p) as [->|[_ H]]; [by rewrite (ra_fs _ _ _ _ R1), lookup_delete_eq|done]. }
        destruct (Hk q) as [Hq|[Hq H]]; [left|right; by split; [right|]]. by rewrite Hq, (ra_fs _ _ _ _ R1), lookup_delete_ne.
      * intros Hr q [->|Hq]%elem_of_cons; [|by apply Hok].
        destruct (Hk p) as [->|[_ H]]; [by rewrite (ra_fs _ _ _ _ R1), lookup_delete_eq|done].
    + intros h1 e R1. split_and!; [by rewrite (ra_fs _ _ _ _ R1)| |done]. left. by rewrite (ra_fs _ _ _ _ R1).
Qed.

(** A name that is one component of a path. *)
Definition plain_name (s : string) : Prop := no_char "/"%char s /\ s <> ""%string /\ s <> "."%string.
(** The text of an identifier consists of hexadecimal digits and hyphens. *)
Definition uuid_char (c : ascii) : bool := ascii_hexdigit c || Ascii.eqb c "-"%char.
Definition uuid_text_plain `{UuidText} : Prop :=
  forall u, uuid_to_string u <> ""%string /\ Forall (fun c => uuid_char c = true) (String.list_ascii_of_string (uuid_to_string u)).

Lemma str_app_assoc (s t u : string) : (s +:+ t) +:+ u = s +:+ (t +:+ u).
Proof. induction s as [|c s IH]; [done|]. apply (f_equal (String c)), IH. Qed.

Lemma uuid_name_plain `{UuidText} u suffix :
  uuid_text_plain -> no_char "/"%char suffix -> plain_name (uuid_to_string u +:+ suffix).
Proof.
  intros Hu Hs. destruct (Hu u) as [Hne Hall]. split_and!.
  - unfold no_char in *. rewrite list_ascii_app. apply Forall_app. split; [|done].
    eapply Forall_impl; [exact Hall|]. by intros c Hc ->.
  - by destruct (uuid_to_string u).
  - intros E. destruct (uuid_to_string u) as [|c s]; [done|]. simpl in E. injection E as -> _.
    apply Forall_cons in Hall as [Hc _]. by vm_compute in Hc.
Qed.

Lemma split_app sep s t : str_split sep (s +:+ String sep t) = str_split sep s ++ str_split sep t.
Proof.
  induction s as [|c s IH]; simpl.
  - by rewrite Ascii.eqb_refl.
  - destruct (Ascii.eqb c sep); [by rewrite IH|]. rewrite IH. pose proof (split_nonempty sep s).
    by destruct (str_split sep s).
Qed.
Lemma components_name root name : plain_name name -> components (root +:+ "/" +:+ name) = components root ++ [name].
Proof.
  intros (Hc&Hne&Hdot). unfold components. change ("/" +:+ name) with (String "/"%char name).
  rewrite split_app, List.filter_app, (split_no_sep _ _ Hc). simpl.
  rewrite (proj2 (String.eqb_neq _ _) Hne), (proj2 (String.eqb_neq _ _) Hdot). done.
Qed.
Lemma join_name root name : plain_name name -> join_path root name = root ++ [name].
Proof.
  intros (Hc&Hne&Hdot). unfold join_path, components. rewrite (split_no_sep _ _ Hc). simpl.
  rewrite (proj2 (String.eqb_neq _ _) Hne), (proj2 (String.eqb_neq _ _) Hdot). simpl.
  assert (is_absolute name = false) as ->; [|done]. unfold is_absolute, starts_with. destruct name as [|c name]; [done|].
  apply Forall_cons in Hc as [Hc _]. cbn [strip_prefix]. by destruct (Ascii.eqb_spec "/"%char c) as [<-|].
Qed.

Section cleanup.
Context `{UuidText} `{JsonText} (Htext : uuid_text_plain).

(** The files of an object whose base name the server derived. *)
Definition object_files (base : string) (upper_layer : bool) : list string :=
  if upper_layer then [base +:+ ".upper.data"; base +:+ ".upper.index"] else [base; base +:+ ".tmp"].

Lemma file_names_paths root id upper_layer :
  map (join_path (components root)) (file_names id upper_layer) =
  map components (object_files (root +:+ "/" +:+ uuid_to_string id) upper_layer).
Proof using Htext.
  assert (forall suffix, no_char "/"%char suffix ->
    join_path (components root) (uuid_to_string id +:+ suffix) =
    components ((root +:+ "/" +:+ uuid_to_string id) +:+ suffix)) as Hn.
  { intros suffix Hs. rewrite !str_app_assoc.
    rewrite components_name, join_name by (by apply uuid_name_plain). done. }
  assert (join_path (components root) (uuid_to_string id) = components (root +:+ "/" +:+ uuid_to_string id)) as Hid.
  { specialize (Hn ""%string (List.Forall_nil _)). by rewrite !append_empty_r in Hn. }
  unfold file_names, object_files. destruct upper_layer; cbn [map].
  - rewrite !Hn; [done|repeat constructor; discriminate..].
  - rewrite Hn, Hid; [done|repeat constructor; discriminate].
Qed.

Lemma pool_root_spec storage_pool config_json kind id base o h :
  json_of_text config_json = Some (sp_config storage_pool) ->
  (sp_pool_type storage_pool = Local /\ kind = 0 \/ sp_pool_type storage_pool = Nfs /\ kind = 1) ->
  object_base storage_pool (sp_id storage_pool) id = Some base ->
  wp (pool_root kind config_json (sp_id storage_pool)) o h (fun h' r =>
    ran h h' (ft_fs h) [] /\ forall root, r = Ok root -> base = root +:+ "/" +:+ uuid_to_string id).
Proof.
  intros Hj Hk Hb. unfold object_base in Hb. unfold pool_root. destruct Hk as [[Ht ->]|[Ht ->]]; rewrite Ht in Hb; cbn.
  - rewrite Hj. destruct (json_get _ _ ≫= json_as_str) as [path|]; [|done]. injection Hb as <-. apply wp_ret.
    split; [apply ran_refl|]. by intros root [= ->].
  - injection Hb as <-. apply wp_bind, wp_ask. intros h1 R1. destruct (fo_mountinfo _ _) as [mounts|].
    + destruct (mounted_at _ _); [apply wp_ret|apply wp_throw]; (split; [done|]); [|done].
      intros root [= <-]. by rewrite str_app_assoc.
    + apply wp_bind, wp_ask. intros h2 R2. apply wp_throw. split; [|done]. rewrite (ra_fs _ _ _ _ R1) in R2.
      by apply (ran_trans _ _ _ _ _ [] [] R1 R2).
Qed.

Lemma cleanup_paths_spec storage_pool config_json id upper_layer base req o h :
  json_of_text config_json = Some (sp_config storage_pool) ->
  delete_files_request storage_pool config_json id upper_layer = Some req ->
  object_base storage_pool (sp_id storage_pool) id = Some base ->
  wp (cleanup_paths req) o h (fun h' r =>
    ran h h' (ft_fs h) [] /\ forall l, r = Ok l -> l = map components (object_files base upper_layer)).
Proof using Htext.
  intros Hj Hreq Hb. unfold delete_files_request in Hreq. unfold cleanup_paths.
  assert (ds_pool_id req = uuid_to_string (sp_id storage_pool) /\ ds_object_id req = uuid_to_string id /\
    ds_config_json req = config_json /\ ds_upper_layer req = upper_layer /\
    (sp_pool_type storage_pool = Local /\ ds_pool_kind req = 0 \/ sp_pool_type storage_pool = Nfs /\ ds_pool_kind req = 1))
    as (->&->&->&->&Hkind).
  { destruct (sp_pool_type storage_pool); try done; injection Hreq as <-; split_and!; auto. }
  rewrite !uuid_parse_to_string. apply wp_bind. eapply wp_mono; [by eapply pool_root_spec|].
  intros h1 [root|e]; intros [R1 Hroot]; [|by split].
  destruct (negb (is_absolute root) || _); [by apply wp_throw|]. apply wp_ret. split; [done|].
  intros l [= <-]. rewrite (Hroot root eq_refl). apply file_names_paths.
Qed.

(** C18. The node deletes exactly the files the server derived for the object: whatever fails,
    no other file is touched; after a success neither of them is there, and repeating the
    request changes nothing. *)
Theorem cleanup_exact storage_pool config_json id upper_layer base req o h h' r :
  json_of_text config_json = Some (sp_config storage_pool) ->
  delete_files_request storage_pool config_json id upper_layer = Some req ->
  object_base storage_pool (sp_id storage_pool) id = Some base ->
  node_delete_storage_files req o h = (h', r) ->
  (forall p, p ∉ map components (object_files base upper_layer) -> ft_fs h' !! p = ft_fs h !! p) /\
  frame h' = frame h /\
  (r = Ok tt -> (forall p, p ∈ map components (object_files base upper_layer) -> ft_fs h' !! p = None) /\
     forall o', ft_fs (node_delete_storage_files req o' h').1 = ft_fs h').
Proof using Htext.
  intros Hj Hreq Hb Hrun.
  assert (forall o h, wp (node_delete_storage_files req) o h (fun h' r => ran h h' (ft_fs h') [] /\
    (forall p, ft_fs h' !! p = ft_fs h !! p \/ p ∈ map components (object_files base upper_layer) /\ ft_fs h' !! p = None) /\
    (r = Ok tt -> forall p, p ∈ map components (object_files base upper_layer) -> ft_fs h' !! p = None))) as Hw.
  { intros o1 h1. unfold node_delete_storage_files. apply wp_bind. eapply wp_mono; [by eapply cleanup_paths_spec|].
    intros h2 [l|e] [R1 Hl]; [|split_and!; [by rewrite (ra_fs _ _ _ _ R1)| |done]; left; by rewrite (ra_fs _ _ _ _ R1)].
    rewrite (Hl l eq_refl). eapply wp_mono; [apply wp_unlink_all|]. intros h3 r3 (R2&Hk&Hok).
    rewrite (ra_fs _ _ _ _ R1) in Hk. split_and!; [by apply (ran_trans _ _ _ _ _ [] [] R1 R2)|done..]. }
  pose proof (Hw o h) as Hw1. unfold wp in Hw1. rewrite Hrun in Hw1. destruct Hw1 as (R&Hk&Hok). split_and!.
  - intros p Hp. by destruct (Hk p) as [|[]].
  - apply R.
  - intros Hr. split; [by apply Hok|]. intros o'. destruct (Hw o' h') as (_&Hk'&_). apply map_eq. intros p.
    destruct (Hk' p) as [|[Hp ->]]; [done|]. by rewrite Hok.
Qed.

(** The lock of a deletion is the one a creation of the object takes. *)
Lemma deletion_lock storage_pool config_json id base req o h h' l :
  json_of_text config_json = Some (sp_config storage_pool) ->
  delete_files_request storage_pool config_json id false = Some req ->
  object_base storage_pool (sp_id storage_pool) id = Some base ->
  cleanup_paths req o h = (h', Ok l) -> head l = Some (components base).
Proof using Htext.
  intros Hj Hreq Hb Hrun. pose proof (cleanup_paths_spec _ _ _ _ _ _ o h Hj Hreq Hb) as Hw. unfold wp in Hw.
  rewrite Hrun in Hw. destruct Hw as [_ Hl]. by rewrite (Hl l eq_refl).
Qed.
End cleanup.

(** ** Snapshots *)

Definition is_snapshot (fs : Fs) (path : Path) : Prop :=
  fs !! path = Some EDir /\ (has_all fs path CLOUD_HV_MARKERS = true \/ has_all fs path FIRECRACKER_MARKERS = true).

Section snapshot.
Context (url : string) (o : FtOracle) (h : FtHost).
#[local] Abbreviation raw := (default url (strip_prefix "file://" url)).
#[local] Abbreviation path := (components raw).

(** The outcome of a removal. *)
Definition snapshot_gone (h' : FtHost) (r : result SnapshotDeleteError bool) : Prop :=
  frame h' = frame h /\
  (forall p, ft_fs h' !! p = ft_fs h !! p \/ (below path p = true /\ ft_fs h' !! p = None)) /\
  (ft_fs h' <> ft_fs h ->
     is_absolute raw = true /\ path <> [] /\ ".."%string ∉ path /\ is_snapshot (ft_fs h) path) /\
  (r = Ok true -> forall p, below path p = true -> ft_fs h' !! p = None) /\
  (r = Ok false -> ft_fs h !! path = None /\ ft_fs h' = ft_fs h).

Lemma snapshot_kept h' r :
  ran h h' (ft_fs h) [] -> r <> Ok true -> (r = Ok false -> ft_fs h !! path = None) -> snapshot_gone h' r.
Proof.
  intros R Hr Hn. pose proof (ra_fs _ _ _ _ R) as E. split_and!; rewrite ?E; [apply R|by auto|done..|by auto].
Qed.

Lemma snapshot_removed h1 :
  is_absolute raw = true -> path <> [] -> ".."%string ∉ path -> is_snapshot (ft_fs h) path -> ran h h1 (ft_fs h) [] ->
  wp (ok ← fx_io;
      if ok : bool then _ ← set_fs (without path (ft_fs h)); mret true
      else
        removed ← fx_ask fo_removed;
        _ ← set_fs (remove_some removed path (ft_fs h));
        text ← fx_ask fo_error; fx_throw (SnapshotIo raw text)) o h1 snapshot_gone.
Proof.
  intros Ha Hnil Hdots Hs R1. unfold fx_io. apply wp_bind, wp_ask. intros h2 R2. destruct (oo_io _ _).
  - apply wp_bind, wp_set_fs. intros h3 R3. apply wp_ret.
    pose proof (ran_trans _ _ _ _ _ [] [] (ran_end _ _ _ _ _ R1 R2) R3) as R. pose proof (ra_fs _ _ _ _ R) as E.
    split_and!; rewrite ?E; [apply R| |done| |done].
    + intros p. rewrite lookup_without. destruct (below path p) eqn:Eb; auto.
    + intros _ p Hp. by rewrite lookup_without, Hp.
  - apply wp_bind, wp_ask. intros h3 R3. apply wp_bind, wp_set_fs. intros h4 R4. apply wp_bind, wp_ask. intros h5 R5. apply wp_throw.
    pose proof (ran_end _ _ _ _ _ (ran_trans _ _ _ _ _ [] [] (ran_end _ _ _ _ _ (ran_end _ _ _ _ _ R1 R2) R3) R4) R5) as R.
    pose proof (ra_fs _ _ _ _ R) as E. split_and!; rewrite ?E; [apply R| |done..].
    intros p. unfold remove_some. destruct (below path p && fo_removed o (ob_step (ft_obd h2)) p) eqn:Eb.
    + right. apply andb_true_iff in Eb as [Eb Er]. split; [done|]. apply map_lookup_filter_None. right. intros x _. cbn [fst].
      by rewrite Eb, Er.
    + left. destruct (ft_fs h !! p) as [x|] eqn:Ex; [by apply map_lookup_filter_Some|apply map_lookup_filter_None; by left].
Qed.

(** Whatever URL is sent, a file disappears only below the named path, and only when that
    path is absolute, not the root, without [..], a directory and holds the files a
    hypervisor writes; after a reply of success nothing of it is left. *)
Theorem only_snapshots_deleted h' r : delete_snapshot_dir url o h = (h', r) -> snapshot_gone h' r.
Proof.
  intros Hrun. eapply wp_run; [exact Hrun|].
  unfold delete_snapshot_dir. destruct (is_absolute raw) eqn:Ea; cbn [negb].
  2: { apply wp_throw, snapshot_kept; [apply ran_refl|done..]. }
  case_bool_decide as Hdots; [apply wp_throw, snapshot_kept; [apply ran_refl|done..]|].
  case_bool_decide as Hroot; [apply wp_throw, snapshot_kept; [apply ran_refl|done..]|].
  assert (path <> []) as Hnil by (by intros E; rewrite E in Hroot).
  unfold fx_io at 1. apply wp_bind, wp_ask. intros h1 R1. apply wp_bind, wp_fs. rewrite (ra_fs _ _ _ _ R1).
  destruct (negb _ || _).
  { apply wp_bind, wp_ask. intros h2 R2. apply wp_throw, snapshot_kept; [|done..]. by eapply ran_end. }
  destruct (ft_fs h !! path) as [[]|] eqn:Ep; try (by apply wp_throw, snapshot_kept); [|by apply wp_ret, snapshot_kept].
  destruct (has_all _ _ _ || _) eqn:Em; [|by apply wp_throw, snapshot_kept]. apply orb_true_iff in Em.
  by apply snapshot_removed.
Qed.
End snapshot.

(** ** The stream of a disk *)

(** Only progress is reported, and no fuel runs out. *)
Definition talks {E A} (stop : E -> Prop) (m : Fx E A) : Prop := forall o h,
  (exists l, ft_messages (m o h).1 = ft_messages h ++ l /\ Forall (fun t => tr_is_final t = false) l) /\
  match (m o h).2 with Ok _ => True | Err e => ~ stop e end.
Abbreviation reports := (talks (fun e => e = Exhausted)).

Lemma talks_wp {E A} (stop : E -> Prop) (m : Fx E A) :
  (forall o h, wp m o h (fun h' r => (exists fs, ran h h' fs []) /\ match r with Ok _ => True | Err e => ~ stop e end)) ->
  talks stop m.
Proof. intros Hw o h. destruct (Hw o h) as [[fs R] He]. split; [|done]. exists []. by split; [apply R|]. Qed.
Lemma talks_ret {E A} (stop : E -> Prop) (x : A) : talks stop (mret x).
Proof. intros o h. split; [|done]. exists []. by rewrite app_nil_r. Qed.
Lemma talks_throw {E A} (stop : E -> Prop) e : ~ stop e -> talks stop (fx_throw e : Fx E A).
Proof. intros He o h. split; [|done]. exists []. by rewrite app_nil_r. Qed.
Lemma talks_bind {E A B} (stop : E -> Prop) (m : Fx E A) (f : A -> Fx E B) :
  talks stop m -> (forall x, talks stop (f x)) -> talks stop (m ≫= f).
Proof.
  intros Hm Hf o h. unfold mbind, Fx_bind. destruct (Hm o h) as [(l&El&Fl) He]. destruct (m o h) as [h1 [x|e]]; cbn in *.
  - destruct (Hf x o h1) as [(l'&El'&Fl') He']. split; [|done]. exists (l ++ l'). rewrite El', El, app_assoc.
    split; [done|]. by apply Forall_app.
  - split; [|done]. by exists l.
Qed.
Lemma talks_try {E F A B} (stop : E -> Prop) (stop' : F -> Prop) (m : Fx E A) (f : result E A -> Fx F B) :
  talks stop m -> (forall r, match r with Ok _ => True | Err e => ~ stop e end -> talks stop' (f r)) ->
  talks stop' (fx_try m ≫= f).
Proof.
  intros Hm Hf o h. unfold fx_try, mbind, Fx_bind. destruct (Hm o h) as [(l&El&Fl) He]. destruct (m o h) as [h1 r]; cbn in *.
  destruct (Hf r He o h1) as [(l'&El'&Fl') He']. split; [|done]. exists (l ++ l'). rewrite El', El, app_assoc.
  split; [done|]. by apply Forall_app.
Qed.

Lemma talks_ask {E A} (stop : E -> Prop) (f : FtOracle -> nat -> A) : talks stop (fx_ask f).
Proof. apply talks_wp. intros o h. apply wp_ask. eauto. Qed.
Lemma talks_fs {E : Type} (stop : E -> Prop) : talks stop fx_fs.
Proof. apply talks_wp. intros o h. apply wp_fs. split; [|done]. eexists. apply ran_refl. Qed.
Lemma talks_set_fs {E : Type} (stop : E -> Prop) (fs : Fs) : talks stop (set_fs fs).
Proof. apply talks_wp. intros o h. apply wp_set_fs. eauto. Qed.
Lemma talks_progress {E : Type} (stop : E -> Prop) n : talks stop (fx_send (progress n)).
Proof. intros o [b l]. split; [|done]. exists [progress n]. by split; [|repeat constructor]. Qed.
Lemma reports_images {A} (m : Ob A) : reports (fx_images m).
Proof.
  intros o [b l]. unfold fx_images. destruct (m (fo_obd o) b) as [b' [x|e]]; cbn; (split; [|done]);
    exists []; by rewrite app_nil_r.
Qed.

#[local] Create HintDb talk.
#[local] Hint Resolve talks_ret talks_ask talks_fs talks_set_fs talks_progress reports_images : talk.
#[local] Hint Extern 1 (talks _ (fx_throw _)) => apply talks_throw; congruence : talk.
Ltac talk :=
  repeat first
    [ progress eauto 2 with talk nocore
    | lazymatch goal with
      | |- talks _ (fx_try _ ≫= _) => fail
      | |- talks _ (_ ≫= _) => apply talks_bind; [|intros ?]
      end
    | match goal with
      | |- talks _ (match ?x with _ => _ end) => destruct x
      | |- talks _ (let '_ := ?x in _) => destruct x
      end ].

Lemma talks_os_error {A} : reports (os_error : Fx FtError A).
Proof. unfold os_error. talk. Qed.
#[local] Hint Resolve talks_os_error : talk.
Lemma reports_file_op f : reports (file_op f).
Proof. unfold file_op, fx_io. talk. Qed.
Lemma reports_create_file p : reports (create_file p).
Proof. unfold create_file, fx_io. talk. Qed.
Lemma reports_write_all q w c : reports (write_all q w c).
Proof. unfold write_all, fx_io. talk. Qed.
Lemma reports_flush : reports flush.
Proof. unfold flush, fx_io. talk. Qed.
#[local] Hint Resolve reports_file_op reports_create_file reports_write_all reports_flush : talk.
Lemma reports_create_parent p : reports (create_parent p).
Proof. unfold create_parent. talk. Qed.
Lemma reports_write_chunks q chunks w : reports (write_chunks q chunks w).
Proof. revert w. induction chunks as [|[c|] chunks IH]; intros w; cbn [write_chunks]; talk. Qed.
#[local] Hint Resolve reports_create_parent reports_write_chunks : talk.

Lemma reports_download url path : reports (do_download url path).
Proof.
  unfold do_download. talk. eapply talks_try; [apply reports_write_chunks|]. intros [n|e] He; talk.
  eapply talks_try; [apply reports_file_op|]. intros _ _. by apply talks_throw.
Qed.
Lemma reports_blank path size preallocate : reports (do_create_blank path size preallocate).
Proof. unfold do_create_blank, reserve, set_len, fx_io. talk. Qed.

Lemma reports_copy_chunks fuel dp size q : forall src w lastr,
  (length src < fuel)%nat -> reports (copy_chunks fuel dp size q src w lastr).
Proof.
  induction fuel as [|fuel IH]; intros src w lastr Hf; [lia|]. cbn [copy_chunks]. destruct (_ <? _); [|talk].
  apply talks_bind; [talk|]. intros [n|]; [|talk]. destruct (take _ _) as [|c chunk] eqn:Ec; [talk|].
  apply talks_bind; [talk|]. intros _. apply talks_bind; [talk|]. intros _. apply IH. rewrite length_drop. simpl.
  apply (f_equal length) in Ec. rewrite length_take in Ec. simpl in Ec. lia.
Qed.
Lemma reports_copy_device dp path size : reports (copy_block_device dp path size).
Proof. unfold copy_block_device. talk. apply reports_copy_chunks. lia. Qed.
Lemma reports_of {A} (r : result FtError A) : match r with Ok _ => True | Err e => e <> Exhausted end -> reports (fx_of r).
Proof. intros Hr o h. split; [|by destruct r]. exists []. by rewrite app_nil_r. Qed.

Section disks.
Context `{OciReference}.

Lemma reports_populate manager req : reports (populate_disk manager req).
Proof.
  unfold populate_disk, do_create_from_overlaybd. talk; try apply reports_download; try apply reports_blank.
  eapply talks_try; [apply reports_copy_device|]. intros r Hr. talk. by apply reports_of.
Qed.

(** The stream of a disk creation always ends: progress messages, then exactly one final
    message, which carries the result of the population.  After a failure the file is
    removed when its removal is not refused. *)
Theorem disk_stream_ends manager req o h h' x :
  serve_create_disk manager req o h = (h', x) ->
  let r := (populate_disk manager req o h).2 in
  x = Ok tt /\ r <> Err Exhausted /\
  (exists l, ft_messages h' = ft_messages h ++ l ++ [final_message "" r] /\ Forall (fun t => tr_is_final t = false) l) /\
  (is_ok r = true -> ft_fs h' = ft_fs (populate_disk manager req o h).1) /\
  (is_ok r = false -> (forall n, oo_io (fo_obd o) n = true) ->
     ft_fs h' !! components (nd_path req) = None \/ is_dir (ft_fs h') (components (nd_path req)) = true).
Proof.
  intros Hrun r. destruct (reports_populate manager req o h) as [(l&El&Fl) Hne]. subst r.
  pattern h', x. eapply wp_run; [exact Hrun|]. cbv beta.
  unfold serve_create_disk. apply wp_bind, wp_try. unfold wp at 1. destruct (populate_disk manager req o h) as [h1 r]. cbn in *.
  destruct r as [n|e].
  - apply wp_send. intros h2 R. split_and!; [done..| |by rewrite (ra_fs _ _ _ _ R)|done].
    exists l. by rewrite (ra_messages _ _ _ _ R), El, app_assoc.
  - assert (forall h2 h3 fs, ran h1 h2 fs [] -> ran h2 h3 (ft_fs h2) [final_message "" (Err e)] ->
      ft_fs h3 = fs /\ exists l, ft_messages h3 = ft_messages h ++ l ++ [final_message "" (Err e)] /\ Forall (fun t => tr_is_final t = false) l) as Hend.
    { intros h2 h3 fs R2 R3. rewrite (ra_fs _ _ _ _ R2) in R3. split; [apply R3|]. exists l.
      by rewrite (ra_messages _ _ _ _ R3), (ra_messages _ _ _ _ R2), app_nil_r, El, app_assoc. }
    apply wp_bind, wp_try, wp_file_op.
    + intros h2 fs Hrm R2. apply wp_send. intros h3 R3. destruct (Hend _ _ _ R2 R3) as [-> Hm].
      split_and!; [done|congruence|done|done|]. intros _ _. left. unfold fs_remove_file in Hrm.
      destruct (ft_fs h1 !! _) as [[]|]; try done; injection Hrm as <-; by rewrite lookup_delete_eq.
    + intros h2 t Hc R2. apply wp_send. intros h3 R3. destruct (Hend _ _ _ R2 R3) as [-> Hm].
      split_and!; [done|congruence|done|done|]. intros _ Hio. rewrite Hio in Hc. destruct Hc as [Hc|Hc]; [|done].
      unfold fs_remove_file in Hc. unfold is_dir.
      destruct (ft_fs h1 !! _) as [[]|]; try done; [right; by destruct (components _)|by left].
Qed.
End disks.

(** ** A host *)

Definition text_bytes : string -> Bytes := String.list_ascii_of_string.
(** Reads return three bytes at a time; the body of an answer comes in two chunks. *)
Definition file_oracle (io : nat -> bool) (new_device : nat -> bool) (status : Z) : FtOracle := {|
  fo_obd := {| oo_io := io; oo_command _ := true; oo_manifest := oo_manifest (ready_kernel new_device);
               oo_config := oo_config (ready_kernel new_device); oo_transfer _ := true; oo_attributes _ := true;
               oo_info := oo_info (ready_kernel new_device); oo_block := oo_block (ready_kernel new_device);
               oo_numbers _ := Some "8:16"%string; oo_executable _ _ := true; oo_uuid _ := "0" |};
  fo_error _ := "refused"%string;
  fo_http _ _ := Some (status, "status"%string, [Some (text_bytes "new "); Some (text_bytes "disk")]);
  fo_device _ _ := Some (text_bytes "0123456789"); fo_read _ := Some 3%nat; fo_partial _ := 0%nat;
  fo_fallocate _ := true; fo_size _ := 0; fo_mountinfo _ := None; fo_removed _ _ := false |}.
Definition always (n : nat) : bool := true.
Definition pool_disk : Path := ["pool"; "a01"]%string.
Definition file_host : FtHost := {|
  ft_obd := with_fs (fun fs => <[["pool"]%string := EDir]> (<[pool_disk := EFile (data (text_bytes "old"))]>
                     (<[["pool"; "note"]%string := EFile (data (text_bytes "keep"))]>
                     (<[["snap"]%string := EDir]> (<[["snap"; "vm.snap"]%string := EFile Opaque]>
                     (<[["snap"; "mem.snap"]%string := EFile Opaque]> fs)))))) image_host;
  ft_messages := [] |}.

Lemma device_copy_exact_witness :
  let run := copy_block_device "/dev/sdb" "/pool/a01" 7 (file_oracle always late 200) file_host in
  run.2 = Ok 7 /\ holds_data (ft_fs run.1) pool_disk (text_bytes "0123456").
Proof.
  cbv zeta. set (run := copy_block_device _ _ _ _ _).
  assert (device_copied "/pool/a01" 7 (file_oracle always late 200) file_host pool_disk (text_bytes "0123456789") run.1 run.2)
    as (_&_&_&_&Hok&Hlive).
  { apply (device_copy_exact "/pool/a01" 7 (file_oracle always late 200) file_host pool_disk (text_bytes "0123456789") "/dev/sdb");
      [by vm_compute|by vm_compute|done|]. apply surjective_pairing. }
  assert (run.2 = Ok 7) as Hr. { apply Hlive; [by split|apply (bool_decide_eq_true_1 _); by vm_compute|by vm_compute]. }
  split; [exact Hr|]. exact (proj2 (proj2 (Hok 7 Hr))).
Defined.

(** The transfer of the second chunk fails. *)
Lemma download_atomic_witness :
  let run := do_download "http://x/d" "/pool/a01" (file_oracle (fun n => negb (n =? 6)%nat) late 200) file_host in
  is_ok run.2 = false /\ ft_fs run.1 !! pool_disk = ft_fs file_host !! pool_disk.
Proof.
  cbv zeta. set (run := do_download _ _ _ _). assert (is_ok run.2 = false) as Hr by by vm_compute.
  split; [exact Hr|].
  assert (downloaded_file "http://x/d" "/pool/a01" (file_oracle (fun n => negb (n =? 6)%nat) late 200) file_host run.1 run.2)
    as (_&_&_&Hres).
  { apply (download_atomic "http://x/d" "/pool/a01" (file_oracle (fun n => negb (n =? 6)%nat) late 200) file_host);
      [by vm_compute|by vm_compute|]. apply surjective_pairing. }
  destruct run.2; [done|exact Hres].
Defined.

#[local] Instance file_uuid_text : UuidText.
Proof.
  refine {| uuid_to_string u := String "a" (@uuid_to_string binary_uuid_text u);
            uuid_parse_str s := strip_prefix "a" s ≫= @uuid_parse_str binary_uuid_text |}.
  intros u. cbn [strip_prefix]. rewrite Ascii.eqb_refl. exact (@uuid_parse_to_string binary_uuid_text u).
Defined.
#[local] Instance file_json_text : JsonText := {| json_of_text _ := Some (JObject {["path"%string := JString "/pool"]}) |}.
Lemma file_uuids_plain : uuid_text_plain.
Proof.
  intros u. split; [done|]. constructor; [done|]. destruct u as [|p]; [constructor|]. cbn.
  induction p as [p IH|p IH|]; cbn; by constructor.
Qed.
Definition file_pool : StoragePool := {|
  sp_id := 1%N; sp_name := "pool"; sp_pool_type := Local; sp_status := Active;
  sp_config := JObject {["path"%string := JString "/pool"]}; sp_capacity_bytes := None; sp_allocated_bytes := None |}.

Definition file_request : DeleteStorageFilesRequest := {|
  ds_pool_id := "a1"; ds_pool_kind := 0; ds_config_json := "{}"; ds_object_id := "a01"; ds_upper_layer := false |}.
Lemma cleanup_exact_witness :
  let run := node_delete_storage_files file_request (file_oracle always late 200) file_host in
  run.2 = Ok tt /\ ft_fs run.1 !! pool_disk = None /\
  ft_fs run.1 !! ["pool"; "note"]%string = ft_fs file_host !! ["pool"; "note"]%string.
Proof.
  cbv zeta. set (run := node_delete_storage_files _ _ _). assert (run.2 = Ok tt) as Hr by by vm_compute. split; [exact Hr|].
  destruct (cleanup_exact file_uuids_plain file_pool "{}" 2 false "/pool/a01" file_request (file_oracle always late 200)
              file_host run.1 run.2) as (Hkeep&_&Hgone); [done..|apply surjective_pairing|].
  split.
  - apply (proj1 (Hgone Hr)). vm_compute. left.
  - apply Hkeep. vm_compute. intros Hin. repeat (apply elem_of_cons in Hin as [[=]|Hin]). by apply elem_of_nil in Hin.
Defined.

Lemma only_snapshots_deleted_witness :
  let run := delete_snapshot_dir "file:///snap" (file_oracle always late 200) file_host in
  run.2 = Ok true /\ ft_fs run.1 !! ["snap"; "vm.snap"]%string = None.
Proof.
  cbv zeta. set (run := delete_snapshot_dir _ _ _). assert (run.2 = Ok true) as Hr by by vm_compute. split; [exact Hr|].
  destruct (only_snapshots_deleted "file:///snap" (file_oracle always late 200) file_host run.1 run.2 (surjective_pairing _))
    as (_&_&_&Hgone&_).
  apply (Hgone Hr). by vm_compute.
Defined.

(** The server answered with an error. *)
Definition url_disk : NodeDiskRequest := {| nd_path := "/pool/a01"; nd_size_bytes := 8; nd_source := Some (SourceUrl "http://x/d") |}.
#[local] Instance file_reference : OciReference := {| reference_of s := Some (s, s, None) |}.

Lemma disk_stream_ends_witness :
  let run := serve_create_disk None url_disk (file_oracle always late 404) file_host in
  run.2 = Ok tt /\ exists l, ft_messages run.1 =
    l ++ [Build_TransferResponse "" false 0 "HTTP status from http://x/d" true].
Proof.
  cbv zeta. set (run := serve_create_disk _ _ _ _).
  destruct (disk_stream_ends None url_disk (file_oracle always late 404) file_host run.1 run.2 (surjective_pairing _))
    as (Hok&_&(l&Hl&_)&_).
  split; [exact Hok|]. exists l. rewrite Hl. by vm_compute.
Defined.

(** ** Behaviour that looks unintended *)

(** A creation that fails removes the file that was there before. *)
Example failed_creation_removes_old_disk :
  is_Some (ft_fs file_host !! pool_disk) /\
  ft_fs (serve_create_disk None url_disk (file_oracle always late 404) file_host).1 !! pool_disk = None.
Proof. split; [apply (bool_decide_eq_true_1 _)|]; by vm_compute. Qed.

(** The temporary file of a download does not depend on the extension: two downloads of
    one name with different extensions write the same file. *)
Example downloads_share_temporary :
  with_extension "tmp" (components "/pool/disk.raw") = with_extension "tmp" (components "/pool/disk.img").
Proof. done. Qed.

(** The dump of a database backup is not among the files that are cleaned up. *)
Example dump_not_cleaned :
  json_get (path_config DatabaseBackup "/pool/a01") "path" = Some (JString "/pool/a01.dump") /\
  components "/pool/a01.dump" ∉ map components (object_files "/pool/a01" false).
Proof. split; [done|]. vm_compute. intros Hin. repeat (apply elem_of_cons in Hin as [[=]|Hin]). by apply elem_of_nil in Hin. Qed.

(** When the directory of a disk cannot be created its image stays mounted. *)
Example image_left_mounted :
  let req := {| nd_path := "/pool/note/d"; nd_size_bytes := 4;
                nd_source := Some (SourceOverlaybd {| od_image_ref := "reg:5000/alpine:3"; od_registry_url := "http://reg:5000";
                                                      od_upper_data := None; od_upper_index := None |}) |} in
  let h' := (serve_create_disk (Some image_cache) req (file_oracle always (fun n => (13 <? n)%nat) 200) file_host).1 in
  tr_success <$> last (ft_messages h') = Some false /\ is_Some (ob_mounts (ft_obd h') !! "commit-0"%string).
Proof. split; [|apply (bool_decide_eq_true_1 _)]; by vm_compute. Qed.
