(* ===== verification/SandboxTables.v ===== *)
(** * SandboxTables: sandboxes, sandbox pools and their members

    The statements of [qarax/src/model/sandboxes.rs], [sandbox_pools.rs] and
    [sandbox_pool_members.rs] with the constraints of the schema: one sandbox per
    VM and per name, one pool per template, one membership per VM.  The clock of
    [NOW()] counts seconds here, as the idle timeout does. *)

From S2P Require Import Prelude Text Errors Tables NodeApi World Samples.
From S2P Require Import Hooks Networks Devices.
#[local] Open Scope Z_scope.

(** ** sandboxes *)

Record NewSandbox := {
  ns_name : string;
  ns_vm_template_id : Uuid;
  ns_idle_timeout_secs : option Z;
  ns_instance_type_id : option Uuid;
  ns_network_id : option Uuid
}.

(** A sandbox with the status and an address (its text) of its VM. *)
Record SandboxWithDetailsRow := {
  sd_row : SandboxRow;
  sd_vm_status : option VmStatus;
  sd_ip_address : option string
}.

Definition sandbox_row (id vm_id : Uuid) (vm_template_id : option Uuid) (name : string)
    (idle_timeout_secs : Z) (status : SandboxStatus) (t : Z) : SandboxRow :=
  {| sb_id := id; sb_vm_id := vm_id; sb_vm_template_id := vm_template_id; sb_name := name;
     sb_status := status; sb_idle_timeout_secs := idle_timeout_secs; sb_last_activity_at := t;
     sb_error_message := None; sb_created_at := t |}.

Definition template_exists (db : Db) (t : Uuid) : bool := bool_decide (is_Some (t_vm_templates db !! t)).
Definition vm_exists (db : Db) (v : Uuid) : bool := bool_decide (is_Some (t_vms db !! v)).

(** The unique and foreign keys of the table. *)
Definition sandbox_constraints (r : SandboxRow) (db : Db) : result SqlxError unit :=
  if existsb (fun s => bool_decide (sb_vm_id s = sb_vm_id r)) (rows (t_sandboxes db))
  then Err (unique_violation "sandboxes_vm_id_key")
  else if existsb (fun s => String.eqb (sb_name s) (sb_name r)) (rows (t_sandboxes db))
  then Err (unique_violation "sandboxes_name_key")
  else if negb (vm_exists db (sb_vm_id r)) then Err (fk_violation "sandboxes_vm_id_fkey")
  else if negb (match sb_vm_template_id r with Some t => template_exists db t | None => true end)
  then Err (fk_violation "sandboxes_vm_template_id_fkey")
  else Ok tt.

Definition create_sandbox_tx_with_status (id vm_id : Uuid) (vm_template_id : option Uuid) (name : string)
    (idle_timeout_secs : Z) (status : SandboxStatus) : M SqlxError unit :=
  t ← now;
  execute Tx (fun db =>
    let r := sandbox_row id vm_id vm_template_id name idle_timeout_secs status t in
    sandboxes ← insert_pk "sandboxes_pkey" id r (t_sandboxes db);
    _ ← sandbox_constraints r db;
    Ok (with_sandboxes (fun _ => sandboxes) db, tt)).

Definition create_sandbox_row (id vm_id : Uuid) (vm_template_id : option Uuid) (name : string) (idle_timeout_secs : Z)
  : M SqlxError unit :=
  in_tx (fun e => e)
    (create_sandbox_tx_with_status id vm_id vm_template_id name idle_timeout_secs SbProvisioning).

Definition get_sandbox_row (sandbox_id : Uuid) : M Error SandboxRow :=
  r ← lift_err Sqlx (query Pool (fun db => Ok (t_sandboxes db !! sandbox_id)));
  of_result (ok_or NotFound r).

(** [LEFT JOIN vms], and one interface with an address. *)
Definition sandbox_details (db : Db) (s : SandboxRow) : SandboxWithDetailsRow :=
  {| sd_row := s; sd_vm_status := v_status <$> t_vms db !! sb_vm_id s;
     sd_ip_address := head (omap (M:=list) ni_ip_address
       (List.filter (fun n => bool_decide (ni_vm_id n = sb_vm_id s)) (rows (t_network_interfaces db)))) |}.

Definition newest_first : relation SandboxRow := on_key Z.le (fun s => - sb_created_at s).

Definition list_sandbox_rows : M SqlxError (list SandboxRow) :=
  query Pool (fun db => Ok (merge_sort newest_first (rows (t_sandboxes db)))).

Definition list_with_details : M SqlxError (list SandboxWithDetailsRow) :=
  query Pool (fun db => Ok (sandbox_details db <$> merge_sort newest_first (rows (t_sandboxes db)))).

Definition get_with_details (sandbox_id : Uuid) : M Error SandboxWithDetailsRow :=
  r ← lift_err Sqlx (query Pool (fun db => Ok (sandbox_details db <$> t_sandboxes db !! sandbox_id)));
  of_result (ok_or NotFound r).

Definition set_sandbox_status (status : SandboxStatus) (error_message : option string) (s : SandboxRow)
  : SandboxRow :=
  {| sb_id := sb_id s; sb_vm_id := sb_vm_id s; sb_vm_template_id := sb_vm_template_id s;
     sb_name := sb_name s; sb_status := status; sb_idle_timeout_secs := sb_idle_timeout_secs s;
     sb_last_activity_at := sb_last_activity_at s; sb_error_message := error_message;
     sb_created_at := sb_created_at s |}.

Definition update_sandbox_status (sandbox_id : Uuid) (status : SandboxStatus) (error_message : option string)
  : M SqlxError unit :=
  execute Pool (fun db =>
    Ok (with_sandboxes (alter (set_sandbox_status status error_message) sandbox_id) db, tt)).

Definition touch_sandbox (t : Z) (s : SandboxRow) : SandboxRow :=
  {| sb_id := sb_id s; sb_vm_id := sb_vm_id s; sb_vm_template_id := sb_vm_template_id s;
     sb_name := sb_name s; sb_status := sb_status s; sb_idle_timeout_secs := sb_idle_timeout_secs s;
     sb_last_activity_at := t; sb_error_message := sb_error_message s; sb_created_at := sb_created_at s |}.

(** The number of rows touched. *)
Definition touch_activity (sandbox_id : Uuid) : M SqlxError Z :=
  t ← now;
  execute Pool (fun db =>
    Ok (with_sandboxes (alter (touch_sandbox t) sandbox_id) db,
        if bool_decide (is_Some (t_sandboxes db !! sandbox_id)) then 1 else 0)).

Definition expired_at (t : Z) (s : SandboxRow) : bool :=
  bool_decide (sb_status s = SbReady) && (sb_last_activity_at s + sb_idle_timeout_secs s <? t).

Definition list_expired : M SqlxError (list SandboxRow) :=
  t ← now;
  query Pool (fun db => Ok (List.filter (expired_at t) (rows (t_sandboxes db)))).

Definition delete_sandbox_row (sandbox_id : Uuid) : M SqlxError unit :=
  execute Pool (fun db => Ok (with_sandboxes (base.delete sandbox_id) db, tt)).

(** ** sandbox_pools *)

(** A pool with the name of its template and the counts of its members. *)
Record SandboxPool := {
  sp_pool_row : SandboxPoolRow;
  sp_vm_template_name : string;
  sp_current_ready : Z;
  sp_current_provisioning : Z;
  sp_current_error : Z
}.
Definition pool_id (p : SandboxPool) : Uuid := sbp_id (sp_pool_row p).
Definition pool_template (p : SandboxPool) : Uuid := sbp_vm_template_id (sp_pool_row p).
Definition pool_min_ready (p : SandboxPool) : Z := sbp_min_ready (sp_pool_row p).

Definition in_pool (pool : Uuid) (status : SandboxPoolMemberStatus) (m : SandboxPoolMember) : bool :=
  bool_decide (spm_sandbox_pool_id m = pool) && bool_decide (spm_status m = status).

Definition member_count (pool : Uuid) (status : SandboxPoolMemberStatus) (db : Db) : Z :=
  Z.of_nat (length (List.filter (in_pool pool status) (rows (t_sandbox_pool_members db)))).

(** The joined row; [None] when the template is missing. *)
Definition counted_pool (db : Db) (p : SandboxPoolRow) : option SandboxPool :=
  (fun t => {| sp_pool_row := p; sp_vm_template_name := tpl_name t;
               sp_current_ready := member_count (sbp_id p) MemReady db;
               sp_current_provisioning := member_count (sbp_id p) MemProvisioning db;
               sp_current_error := member_count (sbp_id p) MemError db |})
  <$> t_vm_templates db !! sbp_vm_template_id p.

Definition pool_of_template (t : Uuid) (db : Db) : option SandboxPoolRow :=
  head (List.filter (fun p => bool_decide (sbp_vm_template_id p = t)) (rows (t_sandbox_pools db))).

Section pools.
Context {coll : Collation}.

Definition list_sandbox_pools : M SqlxError (list SandboxPool) :=
  query Pool (fun db => Ok (merge_sort (on_key coll_le sp_vm_template_name)
    (omap (counted_pool db) (rows (t_sandbox_pools db))))).

Definition get_pool_by_template (vm_template_id : Uuid) : M SqlxError SandboxPool :=
  query Pool (fun db => fetch_one (pool_of_template vm_template_id db ≫= counted_pool db)).

Definition get_pool_config (vm_template_id : Uuid) : M SqlxError (option SandboxPoolRow) :=
  query Pool (fun db => Ok (pool_of_template vm_template_id db)).

Definition set_min_ready (n t : Z) (p : SandboxPoolRow) : SandboxPoolRow :=
  {| sbp_id := sbp_id p; sbp_vm_template_id := sbp_vm_template_id p; sbp_min_ready := n;
     sbp_created_at := sbp_created_at p; sbp_updated_at := t |}.

(** [INSERT .. ON CONFLICT (vm_template_id) DO UPDATE]. *)
Definition upsert_pool_row (id vm_template_id : Uuid) (min_ready t : Z) (db : Db) : result SqlxError (Db * unit) :=
  if min_ready <? 0 then Err (check_violation "sandbox_pools_min_ready_check")
  else match pool_of_template vm_template_id db with
  | Some p => Ok (with_sandbox_pools (alter (set_min_ready min_ready t) (sbp_id p)) db, tt)
  | None =>
      pools ← insert_pk "sandbox_pools_pkey" id
        {| sbp_id := id; sbp_vm_template_id := vm_template_id; sbp_min_ready := min_ready;
           sbp_created_at := t; sbp_updated_at := t |} (t_sandbox_pools db);
      if template_exists db vm_template_id then Ok (with_sandbox_pools (fun _ => pools) db, tt)
      else Err (fk_violation "sandbox_pools_vm_template_id_fkey")
  end.

Definition upsert_pool (vm_template_id : Uuid) (min_ready : Z) : M SqlxError SandboxPool :=
  id ← new_uuid;
  t ← now;
  _ ← execute Pool (upsert_pool_row id vm_template_id min_ready t);
  get_pool_by_template vm_template_id.

(** The members of a deleted pool go with it. *)
Definition delete_pool_tx (vm_template_id : Uuid) : M SqlxError unit :=
  execute Tx (fun db =>
    let of_template p := bool_decide (sbp_vm_template_id p = vm_template_id) in
    let gone := sbp_id <$> List.filter of_template (rows (t_sandbox_pools db)) in
    Ok (with_sandbox_pools (keep (fun p => negb (of_template p)))
          (with_sandbox_pool_members
             (keep (fun m => negb (bool_decide (spm_sandbox_pool_id m ∈ gone)))) db), tt)).
End pools.

(** ** sandbox_pool_members *)

Definition member_row (id pool vm t : _) : SandboxPoolMember :=
  {| spm_id := id; spm_sandbox_pool_id := pool; spm_vm_id := vm; spm_status := MemProvisioning;
     spm_error_message := None; spm_created_at := t; spm_updated_at := t |}.

Definition insert_member_row (r : SandboxPoolMember) (db : Db) : result SqlxError (Db * unit) :=
  members ← insert_pk "sandbox_pool_members_pkey" (spm_id r) r (t_sandbox_pool_members db);
  if existsb (fun m => bool_decide (spm_vm_id m = spm_vm_id r)) (rows (t_sandbox_pool_members db))
  then Err (unique_violation "sandbox_pool_members_vm_id_key")
  else if negb (bool_decide (is_Some (t_sandbox_pools db !! spm_sandbox_pool_id r)))
  then Err (fk_violation "sandbox_pool_members_sandbox_pool_id_fkey")
  else if negb (vm_exists db (spm_vm_id r)) then Err (fk_violation "sandbox_pool_members_vm_id_fkey")
  else Ok (with_sandbox_pool_members (fun _ => members) db, tt).

Definition get_member (member_id : Uuid) : M SqlxError SandboxPoolMember :=
  query Pool (fun db => fetch_one (t_sandbox_pool_members db !! member_id)).

Definition create_member (sandbox_pool_id vm_id : Uuid) : M SqlxError SandboxPoolMember :=
  id ← new_uuid;
  t ← now;
  _ ← execute Pool (insert_member_row (member_row id sandbox_pool_id vm_id t));
  get_member id.

Definition oldest_first : relation SandboxPoolMember := on_key Z.le spm_created_at.
#[global] Instance oldest_first_dec : RelDecision oldest_first.
Proof. unfold oldest_first. apply _. Defined.
#[global] Instance oldest_first_total : Total oldest_first.
Proof. unfold oldest_first. apply _. Qed.
#[global] Instance oldest_first_trans : Transitive oldest_first.
Proof. unfold oldest_first. apply _. Qed.

Definition selected_members (p : SandboxPoolMember -> bool) (db : Db) : list SandboxPoolMember :=
  merge_sort oldest_first (List.filter p (rows (t_sandbox_pool_members db))).

Definition list_ready_by_pool (pool : Uuid) : M SqlxError (list SandboxPoolMember) :=
  query Pool (fun db => Ok (selected_members (in_pool pool MemReady) db)).
Definition list_error_by_pool (pool : Uuid) : M SqlxError (list SandboxPoolMember) :=
  query Pool (fun db => Ok (selected_members (in_pool pool MemError) db)).
Definition list_members_by_pool (pool : Uuid) : M SqlxError (list SandboxPoolMember) :=
  query Pool (fun db => Ok (selected_members (fun m => bool_decide (spm_sandbox_pool_id m = pool)) db)).

Definition count_by_status (pool : Uuid) (status : SandboxPoolMemberStatus) : M SqlxError Z :=
  query Pool (fun db => Ok (member_count pool status db)).

Definition set_member_status (status : SandboxPoolMemberStatus) (error_message : option string) (t : Z)
    (m : SandboxPoolMember) : SandboxPoolMember :=
  {| spm_id := spm_id m; spm_sandbox_pool_id := spm_sandbox_pool_id m; spm_vm_id := spm_vm_id m;
     spm_status := status; spm_error_message := error_message; spm_created_at := spm_created_at m;
     spm_updated_at := t |}.

Definition update_member_status (member_id : Uuid) (status : SandboxPoolMemberStatus)
    (error_message : option string) : M SqlxError unit :=
  t ← now;
  execute Pool (fun db =>
    Ok (with_sandbox_pool_members (alter (set_member_status status error_message t) member_id) db, tt)).

Definition delete_member_on (c : Conn) (member_id : Uuid) : M SqlxError unit :=
  execute c (fun db => Ok (with_sandbox_pool_members (base.delete member_id) db, tt)).
Definition delete_member (member_id : Uuid) : M SqlxError unit := delete_member_on Pool member_id.
Definition delete_member_tx (member_id : Uuid) : M SqlxError unit := delete_member_on Tx member_id.

(** A ready member of a pool of the template that nobody else has locked. *)
Definition member_claimable (locked : gset Uuid) (vm_template_id : Uuid) (db : Db) (m : SandboxPoolMember) : bool :=
  bool_decide (spm_status m = MemReady) && bool_decide (spm_id m ∉ locked) &&
  match t_sandbox_pools db !! spm_sandbox_pool_id m with
  | Some p => bool_decide (sbp_vm_template_id p = vm_template_id)
  | None => false
  end.

(** [FOR UPDATE OF spm SKIP LOCKED LIMIT 1]: the oldest one. *)
Definition claim_ready_for_template_tx (locked : nat -> gset Uuid) (vm_template_id : Uuid)
  : M SqlxError (option SandboxPoolMember) := fun o w =>
  query Tx (fun db => Ok (head (selected_members (member_claimable (locked (w_step w)) vm_template_id db) db))) o w.
