(* ===== verification/CreateRequest.v ===== *)
(** * CreateRequest: what a node is told to create

    [build_create_vm_request] of [qarax/src/handlers/vm/handler.rs] with its
    helpers and [net_configs_from_db] of [qarax/src/grpc_client.rs]: the boot
    payload, networks, disks, devices and NUMA placement of a VM that is started
    for the first time.  The parser of a NUMA configuration is a parameter.

    The theorems show that the computation only reads, what a request that could
    be built contains, and that no request is built for a host that lacks a
    network or a local pool of the VM. *)

From S2P Require Import Prelude Text Common Errors Tables NodeApi World Samples HostNuma.
From S2P Require Import VmConfig Hooks Vms Storage Gpus Hosts StorageObjects Ipv4 Networks.
From S2P Require Import Devices Catalog SecurityGroups NetworkPolicy.
From Stdlib Require Import Ascii.
#[local] Open Scope Z_scope.
#[local] Set Default Proof Using "Type".

(** [VmDefaultsSettings]. *)
Record VmDefaults := {
  df_kernel : string;
  df_firmware : option string;
  df_initramfs : option string;
  df_cmdline : string
}.

(** ** Pure helpers *)

(** [u32::MAX << (32 - prefix)], zero for a prefix of zero. *)
Definition prefix_mask (prefix : Z) : Z :=
  if prefix =? 0 then 0 else shl32 u32_max (32 - prefix).

Definition subnet_mask_from_cidr (subnet : string) : option string :=
  prefix ← (split_once "/"%char subnet ≫= fun p => parse_u32 p.2);
  if 32 <? prefix then None else Some (fmt_ipv4 (prefix_mask prefix)).

(** [net_configs_from_db], one interface. *)
Definition normalize_num_queues (value : Z) : option Z := if value <=? 1 then None else Some value.

Definition net_config_of (n : NetworkInterface) : NetConfig :=
  {| nc_id := ni_device_id n; nc_tap := ni_tap_name n; nc_ip := bare_ip <$> ni_ip_address n;
     nc_mask := None; nc_mac := ni_mac_address n; nc_host_mac := ni_host_mac n;
     nc_mtu := Some (ni_mtu n); nc_vhost_user := if ni_vhost_user n then Some true else None;
     nc_vhost_socket := ni_vhost_socket n;
     nc_vhost_mode := (fun m => if String.eqb m "server" then 1 else 0) <$> ni_vhost_mode n;
     nc_num_queues := normalize_num_queues (ni_num_queues n);
     nc_queue_size := Some (ni_queue_size n); nc_offload_tso := Some (ni_offload_tso n);
     nc_offload_ufo := Some (ni_offload_ufo n); nc_offload_csum := Some (ni_offload_csum n);
     nc_pci_segment := if ni_pci_segment n =? 0 then None else Some (ni_pci_segment n);
     nc_iommu := Some (ni_iommu n); nc_bridge := None |}.

(** Assignments to fields of a [NetConfig]. *)
Definition set_passt (c : NetConfig) : NetConfig :=
  {| nc_id := nc_id c; nc_tap := None; nc_ip := None; nc_mask := None; nc_mac := nc_mac c;
     nc_host_mac := nc_host_mac c; nc_mtu := nc_mtu c; nc_vhost_user := Some true;
     nc_vhost_socket := Some "passt"%string; nc_vhost_mode := Some 0;
     nc_num_queues := nc_num_queues c; nc_queue_size := nc_queue_size c;
     nc_offload_tso := nc_offload_tso c; nc_offload_ufo := nc_offload_ufo c;
     nc_offload_csum := nc_offload_csum c; nc_pci_segment := nc_pci_segment c;
     nc_iommu := nc_iommu c; nc_bridge := None |}.
Definition set_mask (mask : option string) (c : NetConfig) : NetConfig :=
  {| nc_id := nc_id c; nc_tap := nc_tap c; nc_ip := nc_ip c; nc_mask := mask; nc_mac := nc_mac c;
     nc_host_mac := nc_host_mac c; nc_mtu := nc_mtu c; nc_vhost_user := nc_vhost_user c;
     nc_vhost_socket := nc_vhost_socket c; nc_vhost_mode := nc_vhost_mode c;
     nc_num_queues := nc_num_queues c; nc_queue_size := nc_queue_size c;
     nc_offload_tso := nc_offload_tso c; nc_offload_ufo := nc_offload_ufo c;
     nc_offload_csum := nc_offload_csum c; nc_pci_segment := nc_pci_segment c;
     nc_iommu := nc_iommu c; nc_bridge := nc_bridge c |}.
Definition set_bridge (bridge : option string) (c : NetConfig) : NetConfig :=
  {| nc_id := nc_id c; nc_tap := nc_tap c; nc_ip := nc_ip c; nc_mask := nc_mask c;
     nc_mac := nc_mac c; nc_host_mac := nc_host_mac c; nc_mtu := nc_mtu c;
     nc_vhost_user := nc_vhost_user c; nc_vhost_socket := nc_vhost_socket c;
     nc_vhost_mode := nc_vhost_mode c; nc_num_queues := nc_num_queues c;
     nc_queue_size := nc_queue_size c; nc_offload_tso := nc_offload_tso c;
     nc_offload_ufo := nc_offload_ufo c; nc_offload_csum := nc_offload_csum c;
     nc_pci_segment := nc_pci_segment c; nc_iommu := nc_iommu c; nc_bridge := bridge |}.

Definition is_passt (network : Network) : bool :=
  bool_decide (net_network_type network = Some "passt"%string).

Definition ip_param (network : Network) (i : nat) (c : NetConfig) : string :=
  let text o := default ""%string o in
  " ip=" +:+ text (nc_ip c) +:+ "::" +:+ text (net_gateway network) +:+ ":" +:+ text (nc_mask c)
    +:+ "::eth" +:+ pretty (Z.of_nat i) +:+ ":off:" +:+ text (net_dns network).

(** A managed network changes the configuration of its interface and may add a
    kernel parameter. *)
Definition apply_network (network : Network) (i : nat) (c : NetConfig) : NetConfig * string :=
  if is_passt network then (set_passt c, ""%string)
  else match nc_ip c with
       | None => (c, ""%string)
       | Some _ =>
           let c := match nc_mask c with
                    | None => set_mask (subnet_mask_from_cidr (net_subnet network)) c
                    | Some _ => c
                    end in
           (c, if bool_decide (net_network_type network = Some "bridge"%string)
                  || bool_decide (net_network_type network = Some "isolated"%string)
               then ip_param network i c else ""%string)
       end.

(** The loop over the interfaces; a network that cannot be read changes nothing. *)
Fixpoint manage_networks (i : nat) (nics : list NetworkInterface) : M Error (list NetConfig * string) :=
  match nics with
  | [] => mret ([], ""%string)
  | nic :: nics' =>
      '(c, param) ← (match ni_network_id nic with
                     | None => mret (net_config_of nic, ""%string)
                     | Some net_id =>
                         network ← attempt (Networks.get net_id);
                         mret (match network with
                               | Ok network => apply_network network i (net_config_of nic)
                               | Err _ => (net_config_of nic, ""%string)
                               end)
                     end);
      '(cs, params) ← manage_networks (S i) nics';
      mret (c :: cs, param +:+ params)
  end.

Section request.
Context `{UuidText} {coll : Collation}.

(** The bridge of every managed network on the host of the VM. *)
Fixpoint attach_bridges (host_id : Uuid) (nics : list NetworkInterface) (cs : list NetConfig)
  : M Error (list NetConfig) :=
  match nics, cs with
  | nic :: nics', c :: cs' =>
      c ← (match ni_network_id nic with
           | None => mret c
           | Some net_id =>
               bridge ← lift_err Sqlx (get_host_bridge host_id net_id);
               match bridge with
               | Some bridge_name => mret (set_bridge (Some bridge_name) c)
               | None => throw (not_attached net_id host_id)
               end
           end);
      rest ← attach_bridges host_id nics' cs';
      mret (c :: rest)
  | _, _ => mret cs
  end.

(** ** Disks *)

Definition iscsi_by_path (config : json) : option string :=
  portal ← (json_get config "portal" ≫= json_as_str);
  iqn ← (json_get config "iqn" ≫= json_as_str);
  lun ← (json_get config "lun" ≫= json_as_i64);
  Some ("/dev/disk/by-path/ip-" +:+ portal +:+ "-iscsi-" +:+ iqn +:+ "-lun-" +:+ pretty (lun : Z))%string.

Definition overlaybd_upper_paths (upper_object : option StorageObject)
  : option string * option string :=
  let path k := upper_object ≫= fun o => json_get (so_config o) k ≫= json_as_str in
  (path "upper_data"%string, path "upper_index"%string).

Definition disk_to_disk_config (disk : VmDisk) (path oci_image_ref registry_url upper_data_path
    upper_index_path : option string) : DiskConfig :=
  {| dc_id := vd_logical_name disk; dc_path := path; dc_readonly := Some (vd_read_only disk);
     dc_direct := if vd_direct disk then Some true else None;
     dc_vhost_user := if vd_vhost_user disk then Some true else None;
     dc_vhost_socket := vd_vhost_socket disk; dc_num_queues := Some (vd_num_queues disk);
     dc_queue_size := Some (vd_queue_size disk); dc_rate_limit_group := vd_rate_limit_group disk;
     dc_pci_segment := if vd_pci_segment disk =? 0 then None else Some (vd_pci_segment disk);
     dc_serial := vd_serial_number disk; dc_oci_image_ref := oci_image_ref;
     dc_registry_url := registry_url; dc_upper_data_path := upper_data_path;
     dc_upper_index_path := upper_index_path |}.

Definition by_id {A} (id : A -> Uuid) (l : list A) : gmap Uuid A :=
  list_to_map ((fun x => (id x, x)) <$> l).

(** One disk; the flag says whether it is on an OverlayBD pool. *)
Definition resolve_disk (objects : gmap Uuid StorageObject) (pools : gmap Uuid StoragePool)
    (disk : VmDisk) (object_id : Uuid) : result Error (DiskConfig * bool) :=
  obj ← ok_or NotFound (objects !! object_id);
  pool ← ok_or NotFound (pools !! so_storage_pool_id obj);
  let text k := default ""%string (json_get (so_config obj) k ≫= json_as_str) in
  match sp_pool_type pool with
  | OverlayBd =>
      let '(data, index) := overlaybd_upper_paths
        (vd_upper_storage_object_id disk ≫= fun uid => objects !! uid) in
      Ok (disk_to_disk_config disk None (Some (text "image_ref"%string))
            (Some (text "registry_url"%string)) data index, true)
  | Local | Nfs =>
      Ok (disk_to_disk_config disk (get_path_from_config (so_config obj)) None None None None, false)
  | Block =>
      path ← ok_or (UnprocessableEntity ("Storage object " +:+ uuid_to_string (so_id obj)
               +:+ " has invalid iSCSI config")) (iscsi_by_path (so_config obj));
      Ok (disk_to_disk_config disk (Some path) None None None None, false)
  end.

Fixpoint resolve_disks (objects : gmap Uuid StorageObject) (pools : gmap Uuid StoragePool)
    (disks : list VmDisk) : result Error (list DiskConfig * bool) :=
  match disks with
  | [] => Ok ([], false)
  | disk :: disks' =>
      match vd_storage_object_id disk with
      | None => resolve_disks objects pools disks'
      | Some object_id =>
          '(c, overlaybd) ← resolve_disk objects pools disk object_id;
          '(cs, any) ← resolve_disks objects pools disks';
          Ok (c :: cs, overlaybd || any)
      end
  end.

(** The host must be attached to every local pool. *)
Fixpoint check_local_pools (host_id : Uuid) (pools : list StoragePool) : M Error unit :=
  match pools with
  | [] => mret tt
  | pool :: pools' =>
      _ ← (if bool_decide (sp_pool_type pool = Local) then
             has_pool ← sqlx_q (host_has_pool host_id (sp_id pool));
             if (has_pool : bool) then mret tt
             else throw (UnprocessableEntity ("Host " +:+ uuid_to_string host_id
                    +:+ " is not attached to local storage pool " +:+ uuid_to_string (sp_id pool)))
           else mret tt);
      check_local_pools host_id pools'
  end.

(** ** NUMA placement *)

Variable numa_config_de : json -> option NumaConfig.

Definition target_nodes (vm : Vm) (allocated_gpus : list HostGpu) : list Z :=
  match allocated_gpus with
  | _ :: _ => merge_sort Z.le (remove_dups (List.filter (fun n => 0 <=? n) (g_numa_node <$> allocated_gpus)))
  | [] =>
      match json_get (v_config (vm_row vm)) "numa_config" ≫= NumaConfig_from_value numa_config_de with
      | Some cfg => match nc_numa_node cfg with Some n => [n] | None => [] end
      | None => []
      end
  end.

Definition numa_placement (vm : Vm) (target_node_ids : list Z) (host_nodes : list HostNumaNode)
  : option NumaPlacement :=
  let host_cpus := concat ((fun n => CpuList.expand_cpu_list (hn_cpu_list n)) <$>
    List.filter (fun n => bool_decide (hn_node_id n ∈ target_node_ids)) host_nodes) in
  if bool_decide (host_cpus = []) then None
  else Some {| np_host_numa_node_ids := target_node_ids;
               np_cpu_pinning := (fun vcpu => {| cp_vcpu := vcpu; cp_host_cpus := host_cpus |})
                                   <$> seqZ 0 (v_boot_vcpus (vm_row vm));
               np_memory_zone_ids := imap (fun i _ => ("zone" +:+ pretty (Z.of_nat i))%string)
                                       target_node_ids |}.

Definition compute_numa_placement (vm : Vm) (allocated_gpus : list HostGpu)
  : M Error (option NumaPlacement) :=
  match v_host_id (vm_row vm) with
  | None => mret None
  | Some host_id =>
      let target_node_ids := target_nodes vm allocated_gpus in
      if bool_decide (target_node_ids = []) then mret None
      else
        host_nodes ← attempt (list_numa_by_host host_id);
        mret (match host_nodes with
              | Ok host_nodes => numa_placement vm target_node_ids host_nodes
              | Err _ => None
              end)
  end.

(** ** Boot payload *)

Variables (defaults : VmDefaults) (sqlx_text : SqlxError -> string).

Record BootPayload := {
  bp_kernel : option string;
  bp_firmware : option string;
  bp_initramfs : option string;
  bp_cmdline : option string
}.

Definition nonempty_text (s : option string) : option string :=
  filter_text (fun s => negb (String.eqb s "")) s.

Definition boot_payload (vm : Vm) : M Error BootPayload :=
  match v_boot_mode (vm_row vm) with
  | Firmware =>
      fw ← of_result (ok_or (UnprocessableEntity ("firmware boot mode requires a firmware path (set "
             +:+ "vm_defaults.firmware or VM_FIRMWARE env var)")) (nonempty_text (df_firmware defaults)));
      mret {| bp_kernel := None; bp_firmware := Some fw; bp_initramfs := None; bp_cmdline := None |}
  | Kernel =>
      match v_boot_source_id (vm_row vm) with
      | Some boot_source_id =>
          resolved ← lift_err (fun e => UnprocessableEntity ("Invalid boot_source_id: " +:+ sqlx_text e))
                       (resolve_boot_source boot_source_id);
          mret {| bp_kernel := Some (rb_kernel_path resolved); bp_firmware := None;
                  bp_initramfs := rb_initramfs_path resolved;
                  bp_cmdline := Some (rb_kernel_params resolved) |}
      | None =>
          mret {| bp_kernel := Some (df_kernel defaults); bp_firmware := None;
                  bp_initramfs := nonempty_text (df_initramfs defaults);
                  bp_cmdline := Some (df_cmdline defaults) |}
      end
  end.

(** ** Random numbers and consoles *)

Definition get_rng_by_vm (vm_id : Uuid) : M SqlxError (option VmRng) :=
  query Pool (fun db =>
    Ok (head (List.filter (fun r => bool_decide (rng_vm_id r = vm_id)) (rows (t_vm_rng db))))).

Definition list_consoles_by_vm (vm_id : Uuid) : M SqlxError (list VmConsole) :=
  query Pool (fun db => Ok (merge_sort (on_key coll_le vc_console_type)
    (List.filter (fun c => bool_decide (vc_vm_id c = vm_id)) (rows (t_vm_consoles db))))).

Definition console_mode_to_proto (m : ConsoleMode) : Z :=
  match m with
  | ConsoleOff => 0 | ConsolePty => 1 | ConsoleTty => 2 | ConsoleFile => 3 | ConsoleSocket => 4
  | ConsoleNull => 5
  end.

Definition console_config (c : VmConsole) : ConsoleConfig :=
  {| cc_mode := console_mode_to_proto (vc_mode c); cc_file := vc_file_path c;
     cc_socket := vc_socket_path c; cc_iommu := Some (vc_iommu c) |}.

(** The last console of the given type. *)
Definition console_of (kind : string) (consoles : list VmConsole) : option ConsoleConfig :=
  foldl (fun acc c => if String.eqb (vc_console_type c) kind then Some (console_config c) else acc)
    None consoles.

Definition guest_agent_vsock : VsockConfig :=
  {| vs_cid := None; vs_socket := None; vs_iommu := None; vs_id := Some "sandbox-exec"%string |}.

Definition vfio_devices (gpus : list HostGpu) : list VfioDeviceConfig :=
  imap (fun i gpu => {| vf_id := ("gpu" +:+ pretty (Z.of_nat i))%string;
                        vf_path := ("/sys/bus/pci/devices/" +:+ g_pci_address gpu)%string;
                        vf_iommu := Some true |}) gpus.

Definition meta_data (v : VmRow) : option string :=
  opt_or (v_cloud_init_meta_data v)
    (_ ← v_cloud_init_user_data v;
     Some ("instance-id: " +:+ uuid_to_string (v_id v) +:+ String "010"%char
           ("local-hostname: " +:+ v_name v +:+ String "010"%char ""))%string).

(** ** The request *)

Definition disk_object_ids (disks : list VmDisk) : list Uuid :=
  remove_dups (concat ((fun d => option_list (vd_storage_object_id d)
                                 ++ option_list (vd_upper_storage_object_id d)) <$> disks)).

Definition overlaybd_cmdline (ip_params : string) : string :=
  "console=ttyS0 root=/dev/vda rw net.ifnames=0 biosdevname=0 init=/.qarax-init" +:+ ip_params.

Definition build_create_vm_request (vm : Vm) : M Error CreateVmRequest :=
  let v := vm_row vm in
  payload ← boot_payload vm;
  db_disks ← sqlx_q (list_disks_by_vm (v_id v));
  db_networks ← sqlx_q (list_nics_by_vm (v_id v));
  '(networks, ip_params) ← manage_networks 0 db_networks;
  networks ← (match v_host_id v with
              | Some host_id => attach_bridges host_id db_networks networks
              | None => mret networks
              end);
  objects ← sqlx_q (get_object_batch (disk_object_ids db_disks));
  let objects_map := by_id so_id objects in
  pools ← sqlx_q (get_pool_batch (remove_dups (so_storage_pool_id <$> rows objects_map)));
  let pools_map := by_id sp_id pools in
  _ ← (match v_host_id v with
       | Some host_id => check_local_pools host_id (rows pools_map)
       | None => mret tt
       end);
  '(disks, has_overlaybd_boot) ← of_result (resolve_disks objects_map pools_map db_disks);
  let ip_params := match v_cloud_init_network_config v with Some _ => ""%string | None => ip_params end in
  let has_vhost_user_network := existsb (fun n => default false (nc_vhost_user n)) networks in
  allocated_gpus ← sqlx_q (Gpus.list_by_vm (v_id v));
  numa ← compute_numa_placement vm allocated_gpus;
  rng ← sqlx_q (get_rng_by_vm (v_id v));
  consoles ← sqlx_q (list_consoles_by_vm (v_id v));
  mret {| cr_vm_id := v_id v; cr_boot_vcpus := v_boot_vcpus v; cr_max_vcpus := v_max_vcpus v;
          cr_memory_size := v_memory_size v; cr_networks := networks; cr_kernel := bp_kernel payload;
          cr_firmware := bp_firmware payload;
          cr_initramfs := if (has_overlaybd_boot : bool) then None else bp_initramfs payload;
          cr_cmdline := if (has_overlaybd_boot : bool) then Some (overlaybd_cmdline ip_params)
                        else (fun s => s +:+ ip_params) <$> bp_cmdline payload;
          cr_memory_shared := (if (has_overlaybd_boot : bool) then false else v_memory_shared v)
                              || has_vhost_user_network;
          cr_memory_hotplug_size := v_memory_hotplug_size v;
          cr_memory_hugepages := v_memory_hugepages v; cr_disks := disks;
          cr_cloud_init_user_data := v_cloud_init_user_data v;
          cr_cloud_init_meta_data := meta_data v;
          cr_cloud_init_network_config := v_cloud_init_network_config v;
          cr_devices := vfio_devices allocated_gpus;
          cr_vsock := if guest_agent_enabled (v_config v) then Some guest_agent_vsock else None;
          cr_numa_placement := numa;
          cr_rng := (fun r => {| rc_src := rng_src r; rc_iommu := Some (rng_iommu r) |}) <$> rng;
          cr_serial := console_of "SERIAL" consoles; cr_console := console_of "CONSOLE" consoles;
          cr_hypervisor := v_hypervisor v |}.
End request.

(** ** Masks *)

(** The mask of a prefix is made of [prefix] ones followed by zeros: together with
    the host part it fills the word. *)
Lemma prefix_mask_value prefix : 0 <= prefix <= 32 -> prefix_mask prefix = 2 ^ 32 - 2 ^ (32 - prefix).
Proof.
  intros Hp. assert (forallb (fun p => prefix_mask p =? 2 ^ 32 - 2 ^ (32 - p)) (seqZ 0 33) = true) as Hall
    by (vm_compute; reflexivity).
  rewrite forallb_forall in Hall. apply Z.eqb_eq, Hall, list_elem_of_In, elem_of_seqZ. lia.
Qed.

(** ** Reading *)

Lemma manage_networks_reads i nics : steps same_but_step (manage_networks i nics).
Proof.
  revert i. induction nics as [|nic nics IH]; intros i; simpl; [apply steps_ret|].
  unfold Networks.get. steps_tac.
Qed.

Section facts.
Context `{UuidText} {coll : Collation}.
Variables (numa_config_de : json -> option NumaConfig) (defaults : VmDefaults)
  (sqlx_text : SqlxError -> string).

Lemma attach_bridges_reads host_id nics cs : steps same_but_step (attach_bridges host_id nics cs).
Proof.
  revert cs. induction nics as [|nic nics IH]; intros [|c cs]; simpl; try apply steps_ret.
  unfold get_host_bridge. steps_tac.
Qed.

Lemma check_local_pools_reads host_id pools : steps same_but_step (check_local_pools host_id pools).
Proof.
  induction pools as [|p pools IH]; simpl; [apply steps_ret|]. unfold host_has_pool. steps_tac.
Qed.

Lemma boot_payload_reads vm : steps same_but_step (boot_payload defaults sqlx_text vm).
Proof.
  unfold boot_payload, resolve_boot_source, get_boot_source, get_object. steps_tac.
Qed.

Lemma build_create_vm_request_reads vm :
  steps same_but_step (build_create_vm_request numa_config_de defaults sqlx_text vm).
Proof.
  unfold build_create_vm_request. apply steps_bind; [apply boot_payload_reads|]. intros payload.
  apply steps_bind; [apply steps_lift_err, query_same_but_step|]. intros disks.
  apply steps_bind; [apply steps_lift_err, query_same_but_step|]. intros nics.
  apply steps_bind; [apply manage_networks_reads|]. intros [cs params].
  apply steps_bind; [case_match; [apply attach_bridges_reads|apply steps_ret]|]. intros networks.
  apply steps_bind; [apply steps_lift_err, query_same_but_step|]. intros objects.
  apply steps_bind; [apply steps_lift_err, query_same_but_step|]. intros pools.
  apply steps_bind; [case_match; [apply check_local_pools_reads|apply steps_ret]|]. intros _.
  apply steps_bind; [apply steps_of_result|]. intros [dcs ov].
  apply steps_bind; [apply steps_lift_err, query_same_but_step|]. intros gpus.
  unfold compute_numa_placement, list_numa_by_host, get_rng_by_vm, list_consoles_by_vm. steps_tac.
Qed.

(** ** What a request contains *)

Definition net_of (db : Db) (host : option Uuid) (nic : NetworkInterface) (c : NetConfig) : Prop :=
  nc_id c = ni_device_id nic /\
  forall n h, ni_network_id nic = Some n -> host = Some h ->
    exists bridge, t_host_networks db !! (h, n) = Some bridge /\ nc_bridge c = Some bridge.

Lemma apply_network_id network i c : nc_id (apply_network network i c).1 = nc_id c.
Proof.
  unfold apply_network. destruct (is_passt network); [done|].
  destruct (nc_ip c) eqn:?; [|done]. by destruct (nc_mask c).
Qed.

Lemma manage_networks_ids i nics o w w' cs params :
  manage_networks i nics o w = (w', Ok (cs, params)) ->
  Forall2 (fun nic c => nc_id c = ni_device_id nic) nics cs.
Proof.
  revert i w cs params. induction nics as [|nic nics IH]; intros i w cs params Hrun; simpl in Hrun.
  { unfold mret, M_ret in Hrun. by injection Hrun as <- <- <-. }
  apply bind_ok_inv in Hrun as ([c param]&w1&Hc&Hrun).
  apply bind_ok_inv in Hrun as ([cs' params']&w2&Hrec&Hret).
  unfold mret, M_ret in Hret. injection Hret as -> <- <-. constructor; [|by eapply IH].
  destruct (ni_network_id nic).
  - apply bind_ok_inv in Hc as (network&w3&Hn&Hret). unfold mret, M_ret in Hret.
    destruct network; [injection Hret as -> Hc|by injection Hret as -> <- <-].
    change c with (c, param).1. rewrite <- Hc. by rewrite apply_network_id.
  - unfold mret, M_ret in Hc. by injection Hc as -> <- <-.
Qed.

Lemma attach_bridges_nets host_id nics cs o w w' cs' :
  Forall2 (fun nic c => nc_id c = ni_device_id nic) nics cs ->
  attach_bridges host_id nics cs o w = (w', Ok cs') ->
  Forall2 (net_of (w_db w) (Some host_id)) nics cs'.
Proof.
  intros Hf. revert w cs'. induction Hf as [|nic c nics cs Hid Hf IH]; intros w cs' Hrun; simpl in Hrun.
  { unfold mret, M_ret in Hrun. by injection Hrun as <- <-. }
  apply bind_ok_inv in Hrun as (c1&w1&Hc&Hrun). apply bind_ok_inv in Hrun as (rest&w2&Hrec&Hret).
  unfold mret, M_ret in Hret. injection Hret as -> <-.
  assert (w_db w1 = w_db w /\ net_of (w_db w) (Some host_id) nic c1) as [D Hc1].
  { destruct (ni_network_id nic) as [n|] eqn:Hn.
    - apply bind_ok_inv in Hc as (bridge&w3&Hb&Hret). apply lift_err_ok_inv in Hb.
      unfold get_host_bridge in Hb. apply query_ok_inv in Hb as [[= Hb] ->].
      destruct bridge as [b|]; [|done]. unfold mret, M_ret in Hret. injection Hret as <- <-.
      split; [done|]. split; [done|]. intros n' h Hn' [= <-]. exists b. simpl in Hb.
      rewrite Hn in Hn'. by injection Hn' as <-.
    - unfold mret, M_ret in Hc. injection Hc as -> <-. split; [done|]. split; [done|].
      intros n h Hn'. congruence. }
  constructor; [done|]. rewrite <- D. by apply IH.
Qed.

Lemma resolve_disks_ids objects pools disks cs any :
  resolve_disks objects pools disks = Ok (cs, any) ->
  dc_id <$> cs = vd_logical_name <$> List.filter (fun d => bool_decide (is_Some (vd_storage_object_id d))) disks.
Proof.
  revert cs any. induction disks as [|d disks IH]; intros cs any; simpl; [by intros [= <- <-]|].
  destruct (vd_storage_object_id d) as [oid|] eqn:Hd; simpl; [|apply IH].
  intros ([c ov]&Hc&([cs' any']&Hrec&[= <- <-])%result_bind_ok)%result_bind_ok.
  rewrite !fmap_cons, (IH _ _ Hrec). f_equal. unfold resolve_disk in Hc.
  apply result_bind_ok in Hc as (obj&_&(pool&_&Hc)%result_bind_ok).
  destruct (sp_pool_type pool); [injection Hc as <- <-; done|injection Hc as <- <-; done| |].
  - destruct (overlaybd_upper_paths _). by injection Hc as <- <-.
  - by apply result_bind_ok in Hc as (path&_&[= <- <-]).
Qed.

Lemma resolve_disks_found objects pools disks cs any d oid :
  resolve_disks objects pools disks = Ok (cs, any) -> d ∈ disks -> vd_storage_object_id d = Some oid ->
  exists obj pool, objects !! oid = Some obj /\ pools !! so_storage_pool_id obj = Some pool.
Proof.
  revert cs any. induction disks as [|e disks IH]; intros cs any Hrun Hin Hd; [by apply elem_of_nil in Hin|].
  simpl in Hrun. apply elem_of_cons in Hin as [->|Hin].
  - rewrite Hd in Hrun. apply result_bind_ok in Hrun as ([c ov]&Hc&_). unfold resolve_disk in Hc.
    apply result_bind_ok in Hc as (obj&Ho%ok_or_ok&(pool&Hp%ok_or_ok&_)%result_bind_ok). eauto.
  - destruct (vd_storage_object_id e).
    + apply result_bind_ok in Hrun as ([c ov]&_&([cs' any']&Hrec&_)%result_bind_ok). eauto.
    + eauto.
Qed.

Lemma check_local_pools_ok host_id pools o w w' :
  check_local_pools host_id pools o w = (w', Ok tt) ->
  forall p, p ∈ pools -> sp_pool_type p = Local -> (host_id, sp_id p) ∈ t_host_storage_pools (w_db w).
Proof.
  revert w. induction pools as [|q pools IH]; intros w Hrun p Hin Hl; [by apply elem_of_nil in Hin|].
  simpl in Hrun. apply bind_ok_inv in Hrun as ([]&w1&Hq&Hrun).
  assert (w_db w1 = w_db w /\ (sp_pool_type q = Local -> (host_id, sp_id q) ∈ t_host_storage_pools (w_db w)))
    as [D Hq'].
  { case_bool_decide.
    - apply bind_ok_inv in Hq as (b&w2&Hb&Hq). apply lift_err_ok_inv in Hb. unfold host_has_pool in Hb.
      apply query_ok_inv in Hb as [[= Hb] ->]. destruct b; [|done].
      unfold mret, M_ret in Hq. injection Hq as <-. split; [done|]. intros _. by apply bool_decide_eq_true in Hb.
    - unfold mret, M_ret in Hq. injection Hq as <-. done. }
  apply elem_of_cons in Hin as [->|Hin]; [by apply Hq'|]. rewrite <- D. by apply (IH w1).
Qed.

(** Tables whose rows are filed under their identifiers. *)
Definition keyed {A} (id : A -> Uuid) (t : gmap Uuid A) : Prop := map_Forall (fun k x => id x = k) t.

Lemma lookup_by_id {A} (id : A -> Uuid) (t : gmap Uuid A) (p : A -> bool) k :
  keyed id t ->
  by_id id (List.filter p (rows t)) !! k = (x ← t !! k; if p x then Some x else None).
Proof.
  intros Ht. assert (NoDup (((fun x => (id x, x)) <$> List.filter p (rows t)).*1)) as Hnd.
  { rewrite <- list_fmap_compose. by apply (NoDup_fmap_filter_rows id). }
  apply option_eq. intros x. unfold by_id. rewrite <- elem_of_list_to_map by done.
  rewrite list_elem_of_fmap. setoid_rewrite elem_of_filter_rows. split.
  - intros (y&[= -> ->]&[k' Hk']&Hp). rewrite (Ht k' y Hk'). rewrite Hk'. simpl. by rewrite Hp.
  - destruct (t !! k) as [y|] eqn:Hk; [|done]. simpl. destruct (p y) eqn:Hp; [|done]. intros [= ->].
    exists x. rewrite (Ht k x Hk). eauto.
Qed.

(** A request that matches the tables. *)
Record request_of (db : Db) (v : VmRow) (req : CreateVmRequest) : Prop := {
  rq_machine : cr_vm_id req = v_id v /\ cr_boot_vcpus req = v_boot_vcpus v /\
    cr_max_vcpus req = v_max_vcpus v /\ cr_memory_size req = v_memory_size v /\
    cr_hypervisor req = v_hypervisor v;
  rq_payload : match v_boot_mode v with
               | Kernel => is_Some (cr_kernel req) /\ cr_firmware req = None
               | Firmware => cr_kernel req = None /\ is_Some (cr_firmware req)
               end;
  rq_networks : exists nics,
    nics ≡ₚ List.filter (fun n => bool_decide (ni_vm_id n = v_id v)) (rows (t_network_interfaces db)) /\
    Forall2 (net_of db (v_host_id v)) nics (cr_networks req);
  rq_disks : exists disks,
    disks ≡ₚ List.filter (fun d => bool_decide (vd_vm_id d = v_id v)) (rows (t_vm_disks db)) /\
    dc_id <$> cr_disks req
      = vd_logical_name <$> List.filter (fun d => bool_decide (is_Some (vd_storage_object_id d))) disks;
  rq_local : forall k d oid obj pool host, t_vm_disks db !! k = Some d -> vd_vm_id d = v_id v ->
    vd_storage_object_id d = Some oid -> t_storage_objects db !! oid = Some obj ->
    t_storage_pools db !! so_storage_pool_id obj = Some pool -> sp_pool_type pool = Local ->
    v_host_id v = Some host -> (host, sp_id pool) ∈ t_host_storage_pools db;
  rq_devices : length (cr_devices req)
    = length (List.filter (fun g => bool_decide (g_vm_id g = Some (v_id v))) (rows (t_host_gpus db)));
  rq_shared : existsb (fun n => default false (nc_vhost_user n)) (cr_networks req) = true ->
    cr_memory_shared req = true
}.

Lemma boot_payload_kind vm o w w' p :
  boot_payload defaults sqlx_text vm o w = (w', Ok p) ->
  w_db w' = w_db w /\
  match v_boot_mode (vm_row vm) with
  | Kernel => is_Some (bp_kernel p) /\ bp_firmware p = None
  | Firmware => bp_kernel p = None /\ is_Some (bp_firmware p)
  end.
Proof.
  intros Hrun. pose proof (boot_payload_reads vm o w) as [D _]. rewrite Hrun in D. split; [exact D|].
  unfold boot_payload in Hrun. destruct (v_boot_mode (vm_row vm)).
  - destruct (v_boot_source_id (vm_row vm)).
    + apply bind_ok_inv in Hrun as (r&w1&_&Hret). unfold mret, M_ret in Hret. injection Hret as -> <-.
      split; [by eexists|done].
    + unfold mret, M_ret in Hrun. injection Hrun as -> <-. split; [by eexists|done].
  - apply bind_ok_inv in Hrun as (r&w1&_&Hret). unfold mret, M_ret in Hret. injection Hret as -> <-.
    split; [done|by eexists].
Qed.

(** The objects of the disks and their pools, as the two batch reads return them. *)
Lemma local_pools_covered (db : Db) disks oid obj pool d :
  keyed so_id (t_storage_objects db) -> keyed sp_id (t_storage_pools db) ->
  d ∈ disks -> vd_storage_object_id d = Some oid ->
  t_storage_objects db !! oid = Some obj -> t_storage_pools db !! so_storage_pool_id obj = Some pool ->
  let objects := by_id so_id (List.filter (fun o => bool_decide (so_id o ∈ disk_object_ids disks))
                   (rows (t_storage_objects db))) in
  let ids := remove_dups (so_storage_pool_id <$> rows objects) in
  pool ∈ rows (by_id sp_id (List.filter (fun p => bool_decide (sp_id p ∈ ids)) (rows (t_storage_pools db)))).
Proof.
  intros Ko Kp Hd Hoid Hobj Hpool objects ids. apply elem_of_rows. exists (so_storage_pool_id obj).
  rewrite (lookup_by_id sp_id) by done. rewrite Hpool. simpl.
  rewrite bool_decide_eq_true_2; [done|]. unfold ids. rewrite elem_of_remove_dups, list_elem_of_fmap.
  exists obj. split; [by apply (Kp _ _ Hpool)|]. apply elem_of_rows. exists oid. unfold objects.
  rewrite (lookup_by_id so_id) by done. rewrite Hobj. simpl. rewrite bool_decide_eq_true_2; [done|].
  rewrite (Ko _ _ Hobj). unfold disk_object_ids. rewrite elem_of_remove_dups, list_elem_of_In, in_concat.
  exists (option_list (vd_storage_object_id d) ++ option_list (vd_upper_storage_object_id d)).
  rewrite <- !list_elem_of_In, list_elem_of_fmap. split; [by exists d|]. rewrite Hoid. by left.
Qed.

Lemma build_request_of vm o w w' req :
  keyed so_id (t_storage_objects (w_db w)) -> keyed sp_id (t_storage_pools (w_db w)) ->
  build_create_vm_request numa_config_de defaults sqlx_text vm o w = (w', Ok req) ->
  request_of (w_db w) (vm_row vm) req.
Proof.
  intros Ko Kp Hrun. apply bind_ok_inv in Hrun as (payload&w1&Hpay&Hrun).
  apply boot_payload_kind in Hpay as [D1 Hpay]. rewrite <- D1 in *. clear D1.
  apply bind_ok_inv in Hrun as (disks&w2&Hd&Hrun). apply lift_err_ok_inv in Hd.
  unfold list_disks_by_vm in Hd. apply query_ok_inv in Hd as [[= Hd] ->].
  apply bind_ok_inv in Hrun as (nics&w2&Hn&Hrun). apply lift_err_ok_inv in Hn.
  unfold list_nics_by_vm in Hn. apply query_ok_inv in Hn as [[= Hn] ->].
  apply bind_ok_inv in Hrun as ([cs params]&w2&Hm&Hrun).
  pose proof (manage_networks_reads 0 nics o (tick (tick w1))) as [D2 _]. rewrite Hm in D2. simpl in D2.
  apply manage_networks_ids in Hm. apply bind_ok_inv in Hrun as (networks&w3&Hb&Hrun).
  assert (w_db w3 = w_db w1 /\ Forall2 (net_of (w_db w1) (v_host_id (vm_row vm))) nics networks) as [D3 Hnets].
  { destruct (v_host_id (vm_row vm)) as [h|].
    - pose proof (attach_bridges_reads h nics cs o w2) as [D3 _]. rewrite Hb in D3. simpl in D3.
      split; [congruence|]. rewrite <- D2. by eapply attach_bridges_nets.
    - unfold mret, M_ret in Hb. injection Hb as -> <-. split; [done|].
      eapply Forall2_impl; [exact Hm|]. intros nic c Hid. by split. }
  apply bind_ok_inv in Hrun as (objects&w4&Ho&Hrun). apply lift_err_ok_inv in Ho.
  unfold get_object_batch in Ho. apply query_ok_inv in Ho as [[= Ho] ->]. simpl in Ho. rewrite D3 in Ho.
  apply bind_ok_inv in Hrun as (pools&w4&Hp&Hrun). apply lift_err_ok_inv in Hp.
  unfold get_pool_batch in Hp. apply query_ok_inv in Hp as [[= Hp] ->]. simpl in Hp. rewrite D3 in Hp.
  apply bind_ok_inv in Hrun as ([]&w4&Hl&Hrun). apply bind_ok_inv in Hrun as ([dcs ov]&w5&Hres&Hrun).
  unfold of_result in Hres. injection Hres as -> Hres.
  assert (w_db w5 = w_db w1 /\ forall h, v_host_id (vm_row vm) = Some h -> forall p,
    p ∈ rows (by_id sp_id pools) -> sp_pool_type p = Local ->
    (h, sp_id p) ∈ t_host_storage_pools (w_db w1)) as [D4 Hlocal].
  { destruct (v_host_id (vm_row vm)) as [h|].
    - pose proof (check_local_pools_reads h (rows (by_id sp_id pools)) o (tick (tick w3))) as [D4 _].
      rewrite Hl in D4. simpl in D4. split; [congruence|]. intros h' [= <-] p Hin Hloc.
      pose proof (check_local_pools_ok _ _ _ _ _ Hl p Hin Hloc) as Hh. simpl in Hh. by rewrite D3 in Hh.
    - unfold mret, M_ret in Hl. by injection Hl as <-. }
  apply bind_ok_inv in Hrun as (gpus&w6&Hg&Hrun). apply lift_err_ok_inv in Hg.
  unfold Gpus.list_by_vm in Hg. apply query_ok_inv in Hg as [[= Hg] ->]. simpl in Hg. rewrite D4 in Hg.
  apply bind_ok_inv in Hrun as (numa&w6&_&Hrun). apply bind_ok_inv in Hrun as (rng&w7&_&Hrun).
  apply bind_ok_inv in Hrun as (consoles&w8&_&Hret). unfold mret, M_ret in Hret. injection Hret as _ <-.
  split; simpl.
  - done.
  - exact Hpay.
  - exists nics. split; [|done]. rewrite <- Hn. simpl. apply merge_sort_Permutation.
  - exists disks. split; [rewrite <- Hd; apply merge_sort_Permutation|by eapply resolve_disks_ids].
  - intros k d oid obj pool host Hk Hv Hoid Hobj Hpool Hloc Hh. apply (Hlocal host Hh); [|done].
    rewrite <- Hp, <- Ho. apply (local_pools_covered (w_db w1) disks oid obj pool d); try done.
    rewrite <- Hd, merge_sort_Permutation. apply elem_of_filter_rows. rewrite bool_decide_eq_true. eauto.
  - unfold vfio_devices. rewrite length_imap, <- Hg. by rewrite merge_sort_Permutation.
  - intros ->. apply orb_true_r.
Qed.

(** A create request that could be built describes the VM as the tables do:
    its size and hypervisor, a kernel or a firmware as the boot mode says, one
    network configuration per interface with the bridge of its network on the
    host of the VM, one disk per attached object, its GPUs, shared memory when a
    network needs it.  No request is built when the host lacks the bridge of a
    network or a local pool of a disk. *)
Theorem create_request_correct vm o w w' req :
  keyed so_id (t_storage_objects (w_db w)) -> keyed sp_id (t_storage_pools (w_db w)) ->
  build_create_vm_request numa_config_de defaults sqlx_text vm o w = (w', Ok req) ->
  request_of (w_db w) (vm_row vm) req.
Proof. apply build_request_of. Qed.
End facts.

(** ** Witness *)

Definition plain_defaults : VmDefaults :=
  {| df_kernel := "/boot/vmlinux"; df_firmware := None; df_initramfs := None; df_cmdline := "quiet" |}.

Definition request_db : Db :=
  with_vm_disks (fun _ => {[20%N := disk_row 20 (plain_disk 1 8 "disk0")]}) devices_db.

Lemma create_request_correct_witness :
  let vm := vm_from_row (H := array_policy_serde)
              (sample_vm 1 "web" (Some 1%N) Created 1 1024 [] JNull) in
  let run := build_create_vm_request (H := binary_uuid_text) (coll := encoding_collation)
               (fun _ => None) plain_defaults (fun _ => "error"%string) vm calm_oracle
               (world_of request_db) in
  exists req, run.2 = Ok req /\ request_of request_db (vm_row vm) req /\ length (cr_disks req) = 1%nat.
Proof.
  intros vm run. destruct run as [w' [req|e]] eqn:Hrun; [|exfalso; vm_compute in Hrun; discriminate].
  exists req. split; [done|]. split.
  - apply (create_request_correct (H := binary_uuid_text) (coll := encoding_collation)
      (fun _ => None) plain_defaults (fun _ => "error"%string) vm calm_oracle (world_of request_db) w').
    + by apply map_Forall_singleton.
    + by apply map_Forall_singleton.
    + exact Hrun.
  - unfold run in Hrun. vm_compute in Hrun. by injection Hrun as _ <-.
Defined.
