(* ===== verification/VmLifecycle.v ===== *)
(** * VmLifecycle: starting and stopping VMs

    The lifecycle handlers of [qarax/src/handlers/vm/handler.rs]: [start] with
    its background task, [stop], [force_stop], [pause] and [resume].  A start
    claims the VM by moving it to [Pending], records a job and spawns a task that
    later creates the VM on the node when needed, starts it and programs its
    firewall; the task is a computation of its own ([run_start_task]), so that
    other operations can run between the two.

    The request to create the VM is built by [CreateRequest] before the task is
    spawned, its firewall by [NetworkPolicy] when the task runs. *)

From S2P Require Import Prelude Text Common Errors Tables NodeApi World Samples.
From S2P Require Import VmConfig Hooks Vms Jobs Storage Gpus Hosts SecurityGroups NetworkPolicy.
From S2P Require Import CreateRequest.
#[local] Open Scope Z_scope.

Section lifecycle.
Context `{UuidText} `{PolicySerde} {coll : Collation} {cidr_order : CidrOrder}.
Variables (to_rfc3339 : Z -> string) (sqlx_text : SqlxError -> string)
  (rpc_error_text : RpcCall -> RpcOutcome -> string).
Variables (numa_config_de : json -> option NumaConfig) (defaults : VmDefaults)
  (rootfs : option string).

Abbreviation set_status := (Vms.update_status to_rfc3339).

(** ** Placement checks *)

Definition persisted_vm_architecture (vm : Vm) : option string :=
  (json_get (v_config (vm_row vm)) "architecture" ≫= json_as_str)
    ≫= Architecture.normalize_architecture.

Definition ensure_host_matches_architecture (host : Host) (architecture : string)
  : result Error unit :=
  match h_architecture host with
  | Some a =>
      if String.eqb a architecture then Ok tt
      else Err (UnprocessableEntity ("selected host architecture " +:+ a
                 +:+ " does not match VM architecture " +:+ architecture))
  | None => Ok tt
  end.

Definition host_for_vm (vm_id : Uuid) : M Error Host :=
  vm ← sqlx_q (Vms.get vm_id);
  host_id ← of_result (ok_or (UnprocessableEntity "VM has no assigned host")
                          (v_host_id (vm_row vm)));
  host ← sqlx_q (get_by_id host_id);
  of_result (ok_or (UnprocessableEntity "assigned host not found") host).

(** ** Start *)

(** The statuses a VM can be started from. *)
Definition start_allowed_from (s : VmStatus) : result Error unit :=
  match s with
  | Running => Err (UnprocessableEntity "VM is already running")
  | Paused => Err (UnprocessableEntity "VM is paused; use POST /vms/{vm_id}/resume instead")
  | Pending => Err (UnprocessableEntity "VM is pending job completion; wait for the job to finish")
  | Migrating => Err (UnprocessableEntity "VM is being migrated; wait for migration to finish")
  | Committing => Err (UnprocessableEntity "VM is being committed; wait for commit to finish")
  | Created | Shutdown | Unknown => Ok tt
  end.

Definition start_job (vm : Vm) (vm_id : Uuid) : NewJob :=
  {| nj_job_type := VmStart;
     nj_description := Some ("Starting VM " +:+ v_name (vm_row vm))%string;
     nj_resource_id := Some vm_id; nj_resource_type := Some resource_types.VM |}.

(** The checks before the VM is claimed. *)
Definition start_checks (vm_id : Uuid) : M Error (Vm * Host) :=
  vm ← sqlx_q (Vms.get vm_id);
  _ ← of_result (start_allowed_from (v_status (vm_row vm)));
  host ← host_for_vm vm_id;
  _ ← (match persisted_vm_architecture vm with
       | Some architecture => of_result (ensure_host_matches_architecture host architecture)
       | None => mret tt
       end);
  _ ← ensure_vm_disk_attachments_can_start vm_id;
  mret (vm, host).

(** Between the claim and the spawn: the request for a VM that was never on a
    node, and the job. *)
Definition start_prepare (vm : Vm) (vm_id : Uuid) : M Error (option CreateVmRequest * Uuid) :=
  create ← (if bool_decide (v_status (vm_row vm) = Created)
            then req ← build_create_vm_request numa_config_de defaults sqlx_text vm; mret (Some req)
            else mret None);
  job ← sqlx_q (Jobs.create (start_job vm vm_id));
  mret (create, j_id job).

(** Claim the VM, prepare the request and the job, spawn the task; a failure of
    the preparation restores the status. *)
Definition start_claim (vm_id : Uuid) (vm : Vm) (host : Host) : M Error Uuid :=
  let original_status := v_status (vm_row vm) in
  _ ← sqlx_q (set_status vm_id Pending);
  start_setup ← attempt (start_prepare vm vm_id);
  match start_setup with
  | Err err =>
      _ ← attempt (set_status vm_id original_status);
      throw err
  | Ok (create, job_id) =>
      _ ← emit (EvSpawn {| st_host := host; st_vm_id := vm_id; st_job_id := job_id;
                           st_create := create; st_original_status := original_status |});
      mret job_id
  end.

Definition start_vm_internal (vm_id : Uuid) : M Error Uuid :=
  '(vm, host) ← start_checks vm_id;
  start_claim vm_id vm host.

(** ** The background task *)

Definition ensure_vm_start_allowed (vm_id : Uuid) : M string unit :=
  vm ← attempt (Vms.get vm_id);
  _ ← of_result (match vm with
                 | Ok _ => Ok tt
                 | Err RowNotFound => Err "VM was deleted before start"%string
                 | Err e => Err ("failed to reload VM before start: " +:+ sqlx_text e)%string
                 end);
  sandbox ← attempt (get_sandbox_by_vm vm_id);
  _ ← of_result (match sandbox with
                 | Ok (Some s) =>
                     if bool_decide (sb_status s = SbDestroying)
                     then Err ("sandbox " +:+ uuid_to_string (sb_id s) +:+ " is being deleted")%string
                     else Ok tt
                 | Ok None => Ok tt
                 | Err e => Err ("failed to reload sandbox before start: " +:+ sqlx_text e)%string
                 end);
  lift_err error_to_string (ensure_vm_disk_attachments_can_start vm_id).

(** [let _ = jobs::mark_failed(..)] and [let _ = vms::update_status(..)]. *)
Definition job_failed (t : StartTask) (msg : string) : M SqlxError unit :=
  _ ← attempt (Jobs.mark_failed (st_job_id t) msg); mret tt.
Definition restore_status (t : StartTask) : M SqlxError unit :=
  _ ← attempt (set_status (st_vm_id t) (st_original_status t)); mret tt.

Definition rpc_failed (name : string) (call : RpcCall) (r : RpcOutcome) : string :=
  (name +:+ " failed: " +:+ rpc_error_text call r)%string.

(** Create the VM on the node; [false] when the task must stop. *)
Definition create_on_node (t : StartTask) (req : CreateVmRequest) : M SqlxError bool :=
  let call := CreateVm (vm_message rootfs req) in
  r ← rpc (st_host t) call;
  if negb (bool_decide (r = RpcOk)) then
    _ ← job_failed t (rpc_failed "create_vm" call r);
    _ ← restore_status t;
    mret false
  else
    allowed ← attempt (ensure_vm_start_allowed (st_vm_id t));
    match allowed with
    | Err msg =>
        _ ← job_failed t msg;
        _ ← rpc (st_host t) (DeleteVm (st_vm_id t));
        _ ← restore_status t;
        mret false
    | Ok _ => _ ← attempt (Jobs.update_progress (st_job_id t) 50); mret true
    end.

(** Start the VM on the node and program its firewall. *)
Definition start_on_node (t : StartTask) : M SqlxError unit :=
  allowed ← attempt (ensure_vm_start_allowed (st_vm_id t));
  match allowed with
  | Err msg => _ ← job_failed t msg; restore_status t
  | Ok _ =>
      r ← rpc (st_host t) (StartVm (st_vm_id t));
      if negb (bool_decide (r = RpcOk)) then
        _ ← job_failed t (rpc_failed "start_vm" (StartVm (st_vm_id t)) r);
        restore_status t
      else
        f ← attempt (sync_vm_firewall_on_host rpc_error_text (st_vm_id t) (h_id (st_host t)));
        match f with
        | Err e =>
            _ ← rpc (st_host t) (ForceStopVm (st_vm_id t));
            _ ← job_failed t ("sync_vm_firewall failed: " +:+ error_to_string e)%string;
            restore_status t
        | Ok _ =>
            _ ← attempt (set_status (st_vm_id t) Running);
            _ ← attempt (Jobs.mark_completed (st_job_id t) None);
            mret tt
        end
  end.

Definition run_start_task (t : StartTask) : M SqlxError unit :=
  running ← attempt (Jobs.mark_running (st_job_id t));
  match running with
  | Err _ => mret tt
  | Ok _ =>
      allowed ← attempt (ensure_vm_start_allowed (st_vm_id t));
      match allowed with
      | Err msg => job_failed t msg
      | Ok _ =>
          proceed ← (match st_create t with
                     | Some req => create_on_node t req
                     | None => mret true
                     end : M SqlxError bool);
          if (proceed : bool) then start_on_node t else mret tt
      end
  end.

(** ** Stop, pause, resume *)

(** [stop] and [force_stop] differ in the call alone. *)
Definition stop_with (call : RpcCall) (vm_id : Uuid) : M Error unit :=
  host ← host_for_vm vm_id;
  r ← rpc host call;
  match r with
  | RpcOk | RpcNotFound =>
      _ ← sqlx_q (set_status vm_id Shutdown);
      _ ← attempt (deallocate_by_vm vm_id);
      mret tt
  | RpcError => throw InternalServerError
  end.
Definition stop (vm_id : Uuid) : M Error unit := stop_with (StopVm vm_id) vm_id.
Definition force_stop (vm_id : Uuid) : M Error unit := stop_with (ForceStopVm vm_id) vm_id.

(** [pause] and [resume]: the node must accept the call. *)
Definition transition_with (call : RpcCall) (status : VmStatus) (vm_id : Uuid) : M Error unit :=
  host ← host_for_vm vm_id;
  r ← rpc host call;
  if bool_decide (r = RpcOk) then sqlx_q (set_status vm_id status)
  else throw InternalServerError.
Definition pause (vm_id : Uuid) : M Error unit := transition_with (PauseVm vm_id) Paused vm_id.
Definition resume (vm_id : Uuid) : M Error unit := transition_with (ResumeVm vm_id) Running vm_id.

(** ** Properties *)


(** *** Computations that only read *)

Lemma vm_get_reads vm_id : steps same_but_step (Vms.get vm_id).
Proof. apply query_same_but_step. Qed.

Lemma host_for_vm_reads vm_id : steps same_but_step (host_for_vm vm_id).
Proof.
  unfold host_for_vm. apply steps_bind; [apply steps_lift_err, vm_get_reads|]. intros vm.
  apply steps_bind; [apply steps_of_result|]. intros host_id.
  apply steps_bind; [apply steps_lift_err, query_same_but_step|]. intros h. apply steps_of_result.
Qed.

Lemma start_checks_reads vm_id : steps same_but_step (start_checks vm_id).
Proof.
  unfold start_checks. apply steps_bind; [apply steps_lift_err, vm_get_reads|]. intros vm.
  apply steps_bind; [apply steps_of_result|]. intros _.
  apply steps_bind; [apply host_for_vm_reads|]. intros h.
  apply steps_bind; [destruct (persisted_vm_architecture vm); [apply steps_of_result|apply steps_ret]|].
  intros _. apply steps_bind; [apply ensure_can_start_reads|]. intros _. apply steps_ret.
Qed.

Lemma ensure_vm_start_allowed_reads vm_id : steps same_but_step (ensure_vm_start_allowed vm_id).
Proof.
  unfold ensure_vm_start_allowed. apply steps_bind; [apply steps_attempt, vm_get_reads|]. intros vm.
  apply steps_bind; [apply steps_of_result|]. intros _.
  apply steps_bind; [apply steps_attempt, query_same_but_step|]. intros sb.
  apply steps_bind; [apply steps_of_result|]. intros _.
  apply steps_lift_err, ensure_can_start_reads.
Qed.

(** *** The background task *)

(** A step of the task: it changes at most the status of its VM, to one of [S],
    and only adds to the log. *)
Definition task_step (t : StartTask) (S : list VmStatus) (w w' : World) : Prop :=
  restatus (st_vm_id t) S w w' /\ log_grows w w'.

#[local] Instance task_step_preorder t S : PreOrder (task_step t S).
Proof.
  split; [intros w; split; reflexivity|].
  intros a b c [R1 L1] [R2 L2]. split; etransitivity; eassumption.
Qed.

Lemma task_step_same t S w w' :
  t_vms (w_db w') = t_vms (w_db w) -> log_grows w w' -> task_step t S w w'.
Proof. intros E L. split; [by left|done]. Qed.

Lemma task_step_reads t S {E A} (m : M E A) : steps same_but_step m -> steps (task_step t S) m.
Proof.
  intros Hm o w. destruct (Hm o w) as (E1&_&E2). apply task_step_same; [by rewrite E1|].
  exists []. by rewrite E2, app_nil_r.
Qed.

Lemma task_step_jobs t S {E A} (m : M E A) : steps jobs_only m -> steps (task_step t S) m.
Proof.
  intros Hm o w. destruct (Hm o w) as [[x E1] E2]. apply task_step_same; [by rewrite E1|].
  exists []. by rewrite E2, app_nil_r.
Qed.

Lemma task_step_rpc t S {E} h c : steps (task_step t S) (rpc h c : M E RpcOutcome).
Proof. intros o w. apply task_step_same; [done|]. by eexists. Qed.

Lemma task_step_status t s : steps (task_step t [s]) (set_status (st_vm_id t) s).
Proof. intros o w. split; [apply update_status_restatus|apply update_status_log_grows]. Qed.

Lemma job_failed_step t S msg : steps (task_step t S) (job_failed t msg).
Proof.
  apply steps_bind; [|intros ?; apply steps_ret]. apply steps_attempt, task_step_jobs, update_job_only.
Qed.

Lemma restore_status_step t : steps (task_step t [st_original_status t]) (restore_status t).
Proof. apply steps_bind; [|intros ?; apply steps_ret]. apply steps_attempt, task_step_status. Qed.

Lemma create_on_node_step t req :
  steps (task_step t [st_original_status t]) (create_on_node t req).
Proof.
  unfold create_on_node. apply steps_bind; [apply task_step_rpc|]. intros r.
  destruct (negb _).
  - apply steps_bind; [apply job_failed_step|]. intros _.
    apply steps_bind; [apply restore_status_step|]. intros _. apply steps_ret.
  - apply steps_bind; [apply steps_attempt, task_step_reads, ensure_vm_start_allowed_reads|].
    intros [?|msg].
    + apply steps_bind; [apply steps_attempt, task_step_jobs, update_job_only|]. intros _.
      apply steps_ret.
    + apply steps_bind; [apply job_failed_step|]. intros _.
      apply steps_bind; [apply task_step_rpc|]. intros _.
      apply steps_bind; [apply restore_status_step|]. intros _. apply steps_ret.
Qed.

Lemma sync_firewall_step t S vm_id host_id :
  steps (task_step t S) (sync_vm_firewall_on_host rpc_error_text vm_id host_id).
Proof.
  apply steps_bind; [apply task_step_reads, require_by_id_reads|]. intros h.
  apply steps_bind; [apply task_step_reads, firewall_interfaces_reads|]. intros ifs.
  apply steps_bind; [apply task_step_rpc|]. intros r.
  case_bool_decide; [apply steps_ret|apply steps_throw].
Qed.

(** A firewall sync that succeeds was accepted by the node of the stored host. *)
Lemma sync_firewall_ok vm_id host_id o w w' :
  sync_vm_firewall_on_host rpc_error_text vm_id host_id o w = (w', Ok tt) ->
  exists h ifs, logged w w' (accepted h (SyncVmFirewall vm_id ifs)).
Proof.
  intros Hrun. apply bind_ok_inv in Hrun as (h&w1&Hh&Hrun).
  apply bind_ok_inv in Hrun as (ifs&w2&Hf&Hrun).
  apply bind_ok_inv in Hrun as (r&w3&Hr&Hrun). case_bool_decide as Hok; [|discriminate]. subst r.
  injection Hrun as ->. apply rpc_logged in Hr. exists h, ifs.
  pose proof (require_by_id_reads host_id o w) as H1%same_but_step_grows. rewrite Hh in H1.
  pose proof (firewall_interfaces_reads vm_id o w1) as H2%same_but_step_grows. rewrite Hf in H2.
  eapply logged_grows_l; [|exact Hr]. by etransitivity.
Qed.

(** The node accepted the start, and the node of the stored host the firewall. *)
Definition started (t : StartTask) (w w' : World) : Prop :=
  task_step t [Running] w w' /\
  logged w w' (accepted (st_host t) (StartVm (st_vm_id t))) /\
  exists h ifs, logged w w' (accepted h (SyncVmFirewall (st_vm_id t) ifs)).
Definition task_outcome (t : StartTask) (w w' : World) : Prop :=
  task_step t [st_original_status t] w w' \/ started t w w'.

Lemma task_step_then t w0 w w' :
  (forall S, task_step t S w0 w) -> task_outcome t w w' -> task_outcome t w0 w'.
Proof.
  intros Hw [Hs|(Hs&Hl&h&ifs&Hf)]; [left; etransitivity; [apply Hw|done]|]. right.
  pose proof (proj2 (Hw [])) as Hg. split_and!.
  - etransitivity; [apply Hw|done].
  - by eapply logged_grows_l.
  - exists h, ifs. by eapply logged_grows_l.
Qed.

(** A computation that only reads is a step of the task, whatever it may set. *)
Lemma task_step_run t {E A} (m : M E A) o w w' r :
  (forall S, steps (task_step t S) m) -> m o w = (w', r) -> forall S, task_step t S w w'.
Proof. intros Hm Hrun S. pose proof (Hm S o w) as Hs. by rewrite Hrun in Hs. Qed.

Lemma finish_started t w0 w1 o :
  (forall S, task_step t S w0 w1) ->
  logged w0 w1 (accepted (st_host t) (StartVm (st_vm_id t))) ->
  (exists h ifs, logged w0 w1 (accepted h (SyncVmFirewall (st_vm_id t) ifs))) ->
  started t w0 ((_ ← attempt (set_status (st_vm_id t) Running);
                 _ ← attempt (Jobs.mark_completed (st_job_id t) None);
                 mret tt : M SqlxError unit) o w1).1.
Proof.
  intros Hw Hl (h&ifs&Hf).
  set (m := _ ← attempt _; _). assert (steps (task_step t [Running]) m) as Hm.
  { apply steps_bind; [apply steps_attempt, task_step_status|]. intros _.
    apply steps_bind; [apply steps_attempt, task_step_jobs, update_job_only|].
    intros _. apply steps_ret. }
  specialize (Hm o w1). pose proof (proj2 Hm) as Hg. split_and!.
  - etransitivity; [apply Hw|exact Hm].
  - by eapply logged_grows_r.
  - exists h, ifs. by eapply logged_grows_r.
Qed.

Lemma start_on_node_outcome t o w : task_outcome t w (start_on_node t o w).1.
Proof.
  unfold start_on_node.
  destruct (ensure_vm_start_allowed (st_vm_id t) o w) as [w1 r1] eqn:E1.
  rewrite (attempt_bind_run _ _ _ _ _ _ E1).
  pose proof (task_step_run t _ _ _ _ _
    (fun S => task_step_reads t S _ (ensure_vm_start_allowed_reads _)) E1) as S1.
  eapply task_step_then; [exact S1|]. destruct r1 as [[]|msg].
  2:{ left. apply (steps_bind (R := task_step t _)); [apply job_failed_step|intros _].
      apply restore_status_step. }
  destruct (rpc_run (E := SqlxError) (st_host t) (StartVm (st_vm_id t)) o w1) as (w2&r2&E2).
  rewrite (bind_run _ _ _ _ _ _ E2).
  pose proof (task_step_run t _ _ _ _ _ (fun S => task_step_rpc t S _ _) E2) as S2.
  case_bool_decide as Hr2; cbn [negb].
  2:{ eapply task_step_then; [exact S2|]. left.
      apply (steps_bind (R := task_step t _)); [apply job_failed_step|intros _].
      apply restore_status_step. }
  subst r2. apply rpc_logged in E2.
  destruct (sync_vm_firewall_on_host rpc_error_text (st_vm_id t) (h_id (st_host t)) o w2) as [w3 r3] eqn:E3.
  rewrite (attempt_bind_run _ _ _ _ _ _ E3).
  pose proof (task_step_run t _ _ _ _ _ (fun S => sync_firewall_step t S _ _) E3) as S3.
  destruct r3 as [[]|e].
  - right. apply sync_firewall_ok in E3 as (h&ifs&Hf). apply finish_started.
    + intros S. etransitivity; [apply S2|apply S3].
    + eapply logged_grows_r; [exact E2|apply (S3 [])].
    + exists h, ifs. eapply logged_grows_l; [apply (S2 [])|exact Hf].
  - left. etransitivity; [apply S2|]. etransitivity; [apply S3|].
    apply (steps_bind (R := task_step t _)); [apply task_step_rpc|intros _].
    apply (steps_bind (R := task_step t _)); [apply job_failed_step|intros _].
    apply restore_status_step.
Qed.

Lemma create_on_node_proceeds t req o w w' :
  create_on_node t req o w = (w', Ok true) ->
  (forall S, task_step t S w w') /\
  logged w w' (accepted (st_host t) (CreateVm (vm_message rootfs req))).
Proof.
  unfold create_on_node.
  destruct (rpc_run (E := SqlxError) (st_host t) (CreateVm (vm_message rootfs req)) o w) as (w1&r1&E1).
  rewrite (bind_run _ _ _ _ _ _ E1).
  pose proof (task_step_run t _ _ _ _ _ (fun S => task_step_rpc t S _ _) E1) as S1.
  case_bool_decide as Hr1; cbn [negb]; [|intros Hrun; by minv]. subst r1. apply rpc_logged in E1.
  destruct (ensure_vm_start_allowed (st_vm_id t) o w1) as [w2 r2] eqn:E2.
  rewrite (attempt_bind_run _ _ _ _ _ _ E2).
  pose proof (task_step_run t _ _ _ _ _
    (fun S => task_step_reads t S _ (ensure_vm_start_allowed_reads _)) E2) as S2.
  destruct r2 as [[]|msg]; [|intros Hrun; by minv].
  destruct (update_progress (st_job_id t) 50 o w2) as [w3 r3] eqn:E3.
  rewrite (attempt_bind_run _ _ _ _ _ _ E3). intros [= <-].
  pose proof (task_step_run t (update_progress _ 50) _ _ _ _
    (fun S => task_step_jobs t S _ (update_job_only _ _)) E3) as S3.
  split.
  - intros S. etransitivity; [apply S1|]. etransitivity; [apply S2|apply S3].
  - eapply logged_grows_r; [exact E1|]. etransitivity; [apply (S2 [])|apply (S3 [])].
Qed.

(** C5. Whatever the database refuses and the nodes answer, a start task touches at
    most the status of its own VM: it leaves it, restores the status from before
    the start, or sets it to [Running], and the last only after the node accepted
    the start, the firewall was programmed and, for a VM that was never on a node,
    the node accepted its creation. *)
Theorem start_task_outcome t o w :
  let w' := (run_start_task t o w).1 in
  task_step t [st_original_status t] w w' \/
  (started t w w' /\
   forall req, st_create t = Some req ->
     logged w w' (accepted (st_host t) (CreateVm (vm_message rootfs req)))).
Proof.
  unfold run_start_task.
  destruct (mark_running (st_job_id t) o w) as [w1 r1] eqn:E1.
  rewrite (attempt_bind_run _ _ _ _ _ _ E1).
  pose proof (task_step_run t (mark_running _) _ _ _ _
    (fun S => task_step_jobs t S _ (update_job_only _ _)) E1) as S1.
  destruct r1 as [[]|e]; [|left; apply S1].
  destruct (ensure_vm_start_allowed (st_vm_id t) o w1) as [w2 r2] eqn:E2.
  rewrite (attempt_bind_run _ _ _ _ _ _ E2).
  pose proof (task_step_run t _ _ _ _ _
    (fun S => task_step_reads t S _ (ensure_vm_start_allowed_reads _)) E2) as S2.
  assert (forall S, task_step t S w w2) as S12 by (intros S; etransitivity; [apply S1|apply S2]).
  destruct r2 as [[]|msg]; [|left; etransitivity; [apply S12|apply job_failed_step]].
  destruct (st_create t) as [req|] eqn:Hcreate; cbn [mret].
  2:{ rewrite (bind_run _ _ o w2 w2 true eq_refl).
      destruct (task_step_then t w w2 _ S12 (start_on_node_outcome t o w2)); [by left|by right]. }
  pose proof (create_on_node_step t req o w2) as S3.
  destruct (create_on_node t req o w2) as [w3 [[]|e]] eqn:E3.
  - rewrite (bind_run _ _ _ _ _ _ E3). apply create_on_node_proceeds in E3 as [S3' Hl].
    pose proof (start_on_node_outcome t o w3) as Hout.
    assert (forall S, task_step t S w w3) as S13 by (intros S; etransitivity; [apply S12|apply S3']).
    assert (log_grows w3 (start_on_node t o w3).1) as Hg by (by destruct Hout as [[]|[[]]]).
    destruct (task_step_then t w w3 _ S13 Hout) as [Hs|Hs]; [by left|right]. split; [done|].
    intros req' [= <-]. eapply logged_grows_l; [apply (S12 [])|]. by eapply logged_grows_r.
  - rewrite (bind_run _ _ _ _ _ _ E3). left. etransitivity; [apply S12|exact S3].
  - rewrite (bind_run_err _ _ _ _ _ _ E3). left. etransitivity; [apply S12|exact S3].
Qed.

(** *** Start *)

Lemma host_for_vm_ok vm_id o w w' h :
  host_for_vm vm_id o w = (w', Ok h) ->
  exists row hid, t_vms (w_db w) !! vm_id = Some row /\ v_host_id row = Some hid /\
    t_hosts (w_db w) !! hid = Some h.
Proof.
  unfold host_for_vm, Vms.get, get_by_id. intros Hrun. minv.
  repeat match goal with
  | Hx : of_result _ _ _ = (_, Ok _) |- _ => injection Hx as ? Hx
  | Hx : ok_or _ _ = Ok _ |- _ => apply ok_or_ok in Hx
  | Hx : fetch_one _ = Ok _ |- _ => apply ok_or_ok, fmap_Some in Hx as (?&?&?)
  end.
  simplify_eq/=. eauto.
Qed.

(** What the checks of a start establish about the tables they read. *)
Definition startable (db : Db) (vm_id : Uuid) (row : VmRow) (host : Host) : Prop :=
  t_vms db !! vm_id = Some row /\
  v_status row ∈ [Created; Shutdown; Unknown] /\
  (exists hid, v_host_id row = Some hid /\ t_hosts db !! hid = Some host) /\
  (forall a b, persisted_vm_architecture (vm_from_row row) = Some a ->
     h_architecture host = Some b -> a = b) /\
  (forall k disk, t_vm_disks db !! k = Some disk -> vd_vm_id disk = vm_id ->
     disk_exclusive db vm_id disk).

Lemma architecture_check row host o w w' :
  match persisted_vm_architecture (vm_from_row row) with
  | Some a => of_result (ensure_host_matches_architecture host a)
  | None => mret tt : M Error unit
  end o w = (w', Ok tt) ->
  same_but_step w w' /\
  forall a b, persisted_vm_architecture (vm_from_row row) = Some a ->
    h_architecture host = Some b -> a = b.
Proof.
  unfold ensure_host_matches_architecture. intros Hrun.
  repeat case_match; injection Hrun as <-; split; try done; intros a b [= <-] [= <-].
  symmetry. by apply String.eqb_eq.
Qed.

Lemma start_checks_ok vm_id o w w' vm host :
  start_checks vm_id o w = (w', Ok (vm, host)) ->
  exists row, vm = vm_from_row row /\ startable (w_db w) vm_id row host.
Proof.
  unfold start_checks, Vms.get. intros Hrun.
  apply bind_ok_inv in Hrun as (x&w1&Hget&Hrun).
  apply lift_err_ok_inv, query_ok_inv in Hget as [(row&Hrow&->)%ok_or_ok%fmap_Some ->].
  apply bind_ok_inv in Hrun as ([]&w2&Hallowed&Hrun). injection Hallowed as <- Hallowed.
  apply bind_ok_inv in Hrun as (h&w3&Hhost&Hrun).
  pose proof (host_for_vm_reads vm_id o (tick w)) as (D3&_&_). rewrite Hhost in D3.
  apply host_for_vm_ok in Hhost as (row'&hid&Hrow'&Hhid&Hh).
  apply bind_ok_inv in Hrun as ([]&w4&Harch&Hrun). apply architecture_check in Harch as [(D4&_&_) Ha].
  apply bind_ok_inv in Hrun as ([]&w5&Hdisk&Hrun). minv.
  exists row. split; [done|]. simplify_eq/=. rewrite D3 in D4. split_and!; [done| |by exists hid|done|].
  - rewrite !elem_of_cons. destruct (v_status row); try discriminate; auto.
  - intros k disk Hk Hvm. rewrite <- D4 in Hk. rewrite <- D4. by eapply can_start_exclusive.
Qed.

(** Events of status transitions; a status update publishes nothing else. *)
Definition is_status_event (e : Event) : Prop :=
  match e with EvVmStatus _ _ _ _ _ _ => True | _ => False end.
Lemma set_status_events vm_id s : steps (log_adds is_status_event) (set_status vm_id s).
Proof.
  unfold Vms.update_status. apply steps_bind.
  { apply steps_attempt, steps_query. intros. by apply log_adds_same. }
  intros r. apply steps_bind.
  { apply steps_execute; [intros; by apply log_adds_same|]. intros w db a _. by apply log_adds_same. }
  intros _. destruct r as [vm|]; [|apply steps_ret]. case_bool_decide; [apply steps_ret|].
  apply steps_bind; [|intros _ o w; apply log_adds_same, (update_status_hooks_frame _ w_log); done].
  apply steps_emit. intros w. eexists. split; [reflexivity|by constructor].
Qed.

Lemma start_prepare_only vm vm_id : steps jobs_only (start_prepare vm vm_id).
Proof.
  apply steps_bind.
  { case_bool_decide; [|apply steps_ret]. apply steps_bind; [|intros ?; apply steps_ret].
    intros o w. destruct (build_create_vm_request_reads numa_config_de defaults sqlx_text vm o w)
      as (D&_&L). by apply jobs_only_same. }
  intros c. apply steps_bind; [apply steps_lift_err, create_only|]. intros j. apply steps_ret.
Qed.

(** A request that was built in a world with the tables of [db]. *)
Definition built (db : Db) (vm : Vm) (req : CreateVmRequest) : Prop :=
  exists o w w', w_db w = db /\
    build_create_vm_request numa_config_de defaults sqlx_text vm o w = (w', Ok req).

Lemma start_prepare_ok vm vm_id o w w' create job_id :
  start_prepare vm vm_id o w = (w', Ok (create, job_id)) ->
  match create with
  | Some req => v_status (vm_row vm) = Created /\ built (w_db w) vm req
  | None => v_status (vm_row vm) <> Created
  end /\
  exists t, t_jobs (w_db w') !! job_id = Some (pending_job job_id (start_job vm vm_id) t).
Proof.
  intros Hrun. apply bind_ok_inv in Hrun as (c&w1&Hc&Hrun).
  apply bind_ok_inv in Hrun as (j&w2&Hj&Hrun). injection Hrun as -> -> <-.
  apply lift_err_ok_inv, create_effect in Hj as (Heq&_&Hj). split.
  - case_bool_decide; [|by minv]. apply bind_ok_inv in Hc as (req&w3&Hb&Hret).
    unfold mret, M_ret in Hret. injection Hret as _ <-. split; [done|]. by exists o, w, w3.
  - exists (j_created_at j). rewrite Hj. by f_equal.
Qed.

(** The tables a request is built from; a status update leaves them. *)
Definition request_view (db : Db) :=
  (t_network_interfaces db, t_host_networks db, t_vm_disks db, t_storage_objects db,
   t_storage_pools db, t_host_storage_pools db, t_host_gpus db).

Lemma request_of_view db db' v req :
  request_view db = request_view db' -> request_of db v req -> request_of db' v req.
Proof.
  intros [= E1 E2 E3 E4 E5 E6 E7] [H1 H2 H3 H4 H5 H6 H7].
  split; unfold net_of in *; rewrite <- ?E1, <- ?E2, <- ?E3, <- ?E4, <- ?E5, <- ?E6, <- ?E7; done.
Qed.

Definition spawned_task (row : VmRow) (host : Host) (vm_id job_id : Uuid)
    (create : option CreateVmRequest) : StartTask :=
  {| st_host := host; st_vm_id := vm_id; st_job_id := job_id; st_create := create;
     st_original_status := v_status row |}.

(** The request a start hands to its task: one that describes the VM for a VM that
    was never on a node, none otherwise. *)
Definition start_request (db : Db) (row : VmRow) (create : option CreateVmRequest) : Prop :=
  match create with
  | Some req => v_status row = Created /\
      (keyed so_id (t_storage_objects db) -> keyed sp_id (t_storage_pools db) -> request_of db row req)
  | None => v_status row <> Created
  end.

Lemma start_inv vm_id o w w' job_id :
  start_vm_internal vm_id o w = (w', Ok job_id) ->
  exists row host t create, startable (w_db w) vm_id row host /\
    start_request (w_db w) row create /\
    t_vms (w_db w') = <[vm_id := set_row_status Pending row]> (t_vms (w_db w)) /\
    t_jobs (w_db w') !! job_id = Some (pending_job job_id (start_job (vm_from_row row) vm_id) t) /\
    exists events, Forall is_status_event events /\
      w_log w' = w_log w ++ events ++ [EvSpawn (spawned_task row host vm_id job_id create)].
Proof.
  intros Hrun. apply bind_ok_inv in Hrun as ([vm host]&w1&Hchecks&Hrun).
  pose proof (start_checks_reads vm_id o w) as (D1&_&L1). rewrite Hchecks in D1, L1. simpl in D1, L1.
  apply start_checks_ok in Hchecks as (row&->&Hst). pose proof Hst as (Hrow&_).
  unfold start_claim in Hrun. apply bind_ok_inv in Hrun as ([]&w2&Hset&Hrun).
  apply lift_err_ok_inv in Hset. pose proof (set_status_events vm_id Pending o w1) as (ev&L2&Hev).
  rewrite Hset in L2. simpl in L2.
  pose proof (update_status_keeps to_rfc3339 (fun w => request_view (w_db w)) vm_id Pending) as Hview.
  specialize (Hview ltac:(done) ltac:(done) ltac:(done) ltac:(done) o w1). unfold keeps in Hview.
  rewrite Hset in Hview. simpl in Hview. apply update_status_ok in Hset.
  apply bind_ok_inv in Hrun as (setup&w3&Hprep&Hrun). apply attempt_inv in Hprep as (r&[= <-]&Hprep).
  destruct setup as [[create jid]|e]; [|by minv].
  pose proof (start_prepare_only (vm_from_row row) vm_id o w2) as Hjobs. rewrite Hprep in Hjobs. simpl in Hjobs.
  apply start_prepare_ok in Hprep as (Hcreate&t&Hjob). injection Hrun as <- <-.
  exists row, host, t, create. split_and!; [done| | |done|].
  - destruct create as [req|]; [|done]. destruct Hcreate as [Hc (o'&wb&wb'&Dw&Hb)]. split; [done|].
    intros Ko Kp. assert (request_view (w_db wb) = request_view (w_db w)) as Hv by (by rewrite Dw, Hview, D1).
    apply (request_of_view (w_db wb)); [done|]. change row with (vm_row (vm_from_row row)) at 1.
    injection Hv as _ _ _ E4 E5 _ _. eapply build_request_of; [| |exact Hb]; [by rewrite E4|by rewrite E5].
  - simpl. rewrite (jobs_only_table t_vms _ _ (fun _ _ => eq_refl) Hjobs), Hset, D1.
    by apply alter_as_insert.
  - exists ev. split; [done|]. simpl. destruct Hjobs as [_ ->]. by rewrite L2, L1, <- app_assoc.
Qed.

(** C6. A start that is accepted was allowed by the stored status, host,
    architecture and disks; it moves the VM to [Pending], records one pending job
    and spawns the task, which creates the VM on the node exactly when the VM was
    in status [Created].  No node has been called yet. *)
Theorem start_accepted vm_id o w w' job_id :
  start_vm_internal vm_id o w = (w', Ok job_id) ->
  exists row host t create, startable (w_db w) vm_id row host /\
    start_request (w_db w) row create /\
    t_vms (w_db w') = <[vm_id := set_row_status Pending row]> (t_vms (w_db w)) /\
    t_jobs (w_db w') !! job_id = Some (pending_job job_id (start_job (vm_from_row row) vm_id) t) /\
    exists events, Forall is_status_event events /\
      w_log w' = w_log w ++ events ++ [EvSpawn (spawned_task row host vm_id job_id create)].
Proof. apply start_inv. Qed.

Lemma start_refused_run vm_id o w w' e :
  served o -> start_vm_internal vm_id o w = (w', Err e) ->
  t_vms (w_db w') = t_vms (w_db w) /\ log_adds is_status_event w w'.
Proof.
  intros Ho. unfold start_vm_internal.
  pose proof (start_checks_reads vm_id o w) as (D1&_&L1).
  destruct (start_checks vm_id o w) as [w1 [[vm host]|e1]] eqn:Hchecks; simpl in D1, L1.
  2:{ rewrite (bind_run_err _ _ _ _ _ _ Hchecks). intros [= <- _]. rewrite D1.
      split; [done|by apply log_adds_same]. }
  rewrite (bind_run _ _ _ _ _ _ Hchecks). apply start_checks_ok in Hchecks as (row&->&Hrow&_).
  rewrite <- D1 in Hrow. unfold start_claim.
  destruct (update_status_run to_rfc3339 vm_id Pending o w1 row Ho Hrow) as (w2&E2&T2&_).
  pose proof (set_status_events vm_id Pending o w1) as A2. rewrite E2 in A2.
  rewrite (bind_run _ _ _ _ _ _ (lift_err_run _ _ _ _ _ _ E2)).
  destruct (start_prepare (vm_from_row row) vm_id o w2) as [w3 r3] eqn:E3.
  rewrite (attempt_bind_run _ _ _ _ _ _ E3).
  pose proof (start_prepare_only (vm_from_row row) vm_id o w2) as J3. rewrite E3 in J3.
  pose proof (jobs_only_table t_vms _ _ (fun _ _ => eq_refl) J3) as T3.
  destruct r3 as [[]|e3]; [discriminate|]. simpl in T3, A2.
  destruct (update_status_run to_rfc3339 vm_id (v_status row) o w3 (set_row_status Pending row) Ho)
    as (w4&E4&T4&_); [by rewrite T3, T2, lookup_insert_eq|].
  pose proof (set_status_events vm_id (v_status row) o w3) as A4. rewrite E4 in A4.
  rewrite (attempt_bind_run _ _ _ _ _ _ E4). intros [= <- _]. split.
  - rewrite T4, T3, T2, insert_insert_eq, D1.
    replace (set_row_status _ _) with row by (by destruct row).
    apply insert_id. by rewrite <- D1.
  - etransitivity; [by apply log_adds_same|]. etransitivity; [exact A2|].
    etransitivity; [apply log_adds_same, (proj2 J3)|exact A4].
Qed.

(** C7. A start that is refused while the database serves every statement leaves the
    vms table as it was and spawns nothing. *)
Theorem start_refused vm_id o w w' e :
  served o -> start_vm_internal vm_id o w = (w', Err e) ->
  t_vms (w_db w') = t_vms (w_db w) /\ log_adds is_status_event w w'.
Proof. apply start_refused_run. Qed.

(** A start writes the vms, the jobs and the queue of the hooks only. *)
Lemma start_keeps_table {A} (tbl : Db -> A) vm_id :
  (forall f db, tbl (with_vms f db) = tbl db) -> (forall f db, tbl (with_jobs f db) = tbl db) ->
  (forall f db, tbl (with_hook_executions f db) = tbl db) ->
  steps (keeps_table tbl) (start_vm_internal vm_id).
Proof.
  intros Hv Hj Hh.
  assert (forall s, steps (keeps_table tbl) (set_status vm_id s)) as Hset.
  { intros s. apply (update_status_keeps to_rfc3339 (fun w => tbl (w_db w))); intros; simpl; auto. }
  apply steps_bind.
  { intros o w. destruct (start_checks_reads vm_id o w) as (D&_&_).
    unfold keeps_table, keeps. by rewrite D. }
  intros [vm host]. apply steps_bind; [apply steps_lift_err, Hset|]. intros _.
  apply steps_bind.
  { apply steps_attempt. intros o w. apply (jobs_only_table tbl); [done|apply start_prepare_only]. }
  intros [[create job]|e].
  - apply steps_bind; [by intros o w|]. intros _. apply steps_ret.
  - apply steps_bind; [apply steps_attempt, Hset|]. intros _. apply steps_throw.
Qed.

(** *** Stop *)

(** No GPU is held by the VM; nobody else's GPU changed hands. *)
Definition gpus_released (vm_id : Uuid) (w w' : World) : Prop :=
  (forall k g, t_host_gpus (w_db w') !! k = Some g -> g_vm_id g <> Some vm_id) /\
  (forall k, (forall g, t_host_gpus (w_db w) !! k = Some g -> g_vm_id g <> Some vm_id) ->
     t_host_gpus (w_db w') !! k = t_host_gpus (w_db w) !! k).

Lemma deallocate_run vm_id o w :
  let w' := (deallocate_by_vm vm_id o w).1 in
  (served o -> gpus_released vm_id w w') /\ t_vms (w_db w') = t_vms (w_db w) /\
  w_log w' = w_log w.
Proof.
  unfold deallocate_by_vm, deallocate.
  rewrite (bind_run _ _ o w (tick w) (o_now o (w_step w)) eq_refl). unfold execute.
  split_and!; [|by case_match|by case_match]. intros Ho. rewrite Ho. simpl. split.
  - intros k g. simpl. rewrite lookup_update_where. intros (g0&Hg0&->)%fmap_Some.
    by case_bool_decide.
  - intros k Hk. simpl. rewrite lookup_update_where.
    destruct (t_host_gpus (w_db w) !! k) as [g|] eqn:Hg; simpl; [|done].
    rewrite bool_decide_false; [done|]. by apply Hk.
Qed.

Lemma stop_with_inv call vm_id o w w' :
  stop_with call vm_id o w = (w', Ok tt) ->
  exists row hid h r l, t_vms (w_db w) !! vm_id = Some row /\ v_host_id row = Some hid /\
    t_hosts (w_db w) !! hid = Some h /\ r <> RpcError /\ Forall is_status_event l /\
    w_log w' = w_log w ++ EvRpc (h_address h) (as_u16 (h_port h)) call r :: l /\
    t_vms (w_db w') = <[vm_id := set_row_status Shutdown row]> (t_vms (w_db w)) /\
    (served o -> gpus_released vm_id w w').
Proof.
  unfold stop_with. intros Hrun. apply bind_ok_inv in Hrun as (h&w1&Hh&Hrun).
  pose proof (host_for_vm_reads vm_id o w) as (D1&_&L1). rewrite Hh in D1, L1. simpl in D1, L1.
  apply host_for_vm_ok in Hh as (row&hid&Hrow&Hhid&Hh).
  apply bind_ok_inv in Hrun as (r&w2&Hr&Hrun). injection Hr as <- Hr.
  set (w2 := add_log _ _) in Hrun. assert (r <> RpcError) as Hne by (by intros ->).
  assert (exists w3, set_status vm_id Shutdown o w2 = (w3, Ok tt) /\
            w' = (deallocate_by_vm vm_id o w3).1) as (w3&Hset&->).
  { destruct r; [| |done]; apply bind_ok_inv in Hrun as ([]&w3&Hset&Hrun);
      apply lift_err_ok_inv in Hset; exists w3; (split; [done|]);
      apply bind_ok_inv in Hrun as (?&?&Hd&Hrun); apply attempt_inv in Hd as (?&_&->);
      by injection Hrun as ->. }
  destruct (deallocate_run vm_id o w3) as (Hg&Hv&Hl).
  pose proof (set_status_events vm_id Shutdown o w2) as (ev&L3&Hev). rewrite Hset in L3. simpl in L3.
  assert (t_host_gpus (w_db w3) = t_host_gpus (w_db w)) as G3.
  { rewrite <- D1. change (t_host_gpus (w_db w1)) with (t_host_gpus (w_db w2)).
    change w3 with (w3, Ok tt : result SqlxError unit).1. rewrite <- Hset.
    by apply (update_status_keeps to_rfc3339 (fun w => t_host_gpus (w_db w))). }
  apply update_status_ok in Hset. exists row, hid, h, r, ev. split_and!; try done.
  - by rewrite Hl, L3, L1, Hr, <- app_assoc.
  - rewrite Hv, Hset. simpl. rewrite D1. by apply alter_as_insert.
  - intros Ho. specialize (Hg Ho). unfold gpus_released in *. by rewrite G3 in Hg.
Qed.

(** A stop, forced or not, that is accepted has called the node of the VM's
    host, which stopped the VM or did not know it; the VM is [Shutdown] and its
    GPUs are free again. *)
Theorem stop_effect (force : bool) vm_id o w w' :
  (if force then force_stop vm_id else stop vm_id) o w = (w', Ok tt) ->
  exists row hid h r l, t_vms (w_db w) !! vm_id = Some row /\ v_host_id row = Some hid /\
    t_hosts (w_db w) !! hid = Some h /\ r <> RpcError /\ Forall is_status_event l /\
    w_log w' = w_log w ++ EvRpc (h_address h) (as_u16 (h_port h))
                            (if force then ForceStopVm vm_id else StopVm vm_id) r :: l /\
    t_vms (w_db w') = <[vm_id := set_row_status Shutdown row]> (t_vms (w_db w)) /\
    (served o -> gpus_released vm_id w w').
Proof. destruct force; apply stop_with_inv. Qed.

(** *** Restart *)

(** No GPU changes hands and no VM is created on a node. *)
Definition creates_vm (e : Event) : Prop :=
  match e with EvRpc _ _ (CreateVm _) _ => True | _ => False end.
Definition reuses (w w' : World) : Prop :=
  keeps_table t_host_gpus w w' /\ log_adds (fun e => ~ creates_vm e) w w'.
#[local] Instance reuses_preorder : PreOrder reuses.
Proof.
  split; [intros w; split; reflexivity|].
  intros a b c [A1 A2] [B1 B2]. split; etransitivity; eassumption.
Qed.

Lemma status_no_create e : is_status_event e -> ~ creates_vm e.
Proof. destruct e as [| ?? [] ? | | |]; simpl; tauto. Qed.

Lemma reuses_reads {E A} (m : M E A) : steps same_but_step m -> steps reuses m.
Proof.
  intros Hm o w. destruct (Hm o w) as (D&_&L). split; [by unfold keeps_table, keeps; rewrite D|].
  by apply log_adds_same.
Qed.

Lemma reuses_jobs {E A} (m : M E A) : steps jobs_only m -> steps reuses m.
Proof.
  intros Hm o w. pose proof (Hm o w) as Hj. split; [|apply log_adds_same, Hj].
  by apply (jobs_only_table t_host_gpus).
Qed.

Lemma reuses_status vm_id s : steps reuses (set_status vm_id s).
Proof.
  intros o w. split.
  - by apply (update_status_keeps to_rfc3339 (fun w => t_host_gpus (w_db w))).
  - destruct (set_status_events vm_id s o w) as (l&L&F). exists l. split; [done|].
    eapply Forall_impl; [exact F|]. apply status_no_create.
Qed.

Lemma reuses_rpc {E} h c :
  ~ creates_vm (EvRpc (h_address h) (as_u16 (h_port h)) c RpcOk) ->
  steps reuses (rpc h c : M E RpcOutcome).
Proof.
  intros Hc o w. split; [done|]. eexists. split; [reflexivity|]. constructor; [|constructor].
  by destruct c.
Qed.

Lemma reuses_emit {E} e : ~ creates_vm e -> steps reuses (emit e : M E unit).
Proof. intros He o w. split; [done|]. exists [e]. split; [done|by constructor]. Qed.

Lemma start_reuses vm_id : steps reuses (start_vm_internal vm_id).
Proof.
  apply steps_bind; [apply reuses_reads, start_checks_reads|]. intros [vm host].
  apply steps_bind; [apply steps_lift_err, reuses_status|]. intros _.
  apply steps_bind; [apply steps_attempt, reuses_jobs, start_prepare_only|].
  intros [[create job]|e].
  - apply steps_bind; [apply reuses_emit; intros []|]. intros _. apply steps_ret.
  - apply steps_bind; [apply steps_attempt, reuses_status|]. intros _. apply steps_throw.
Qed.

Lemma fail_reuses t msg : steps reuses (_ ← job_failed t msg; restore_status t).
Proof.
  apply steps_bind.
  - apply steps_bind; [|intros ?; apply steps_ret]. apply steps_attempt, reuses_jobs, update_job_only.
  - intros _. apply steps_bind; [|intros ?; apply steps_ret]. apply steps_attempt, reuses_status.
Qed.

Lemma sync_firewall_reuses vm_id host_id : steps reuses (sync_vm_firewall_on_host rpc_error_text vm_id host_id).
Proof.
  apply steps_bind; [apply reuses_reads, require_by_id_reads|]. intros h.
  apply steps_bind; [apply reuses_reads, firewall_interfaces_reads|]. intros ifs.
  apply steps_bind; [apply reuses_rpc; intros []|]. intros r.
  case_bool_decide; [apply steps_ret|apply steps_throw].
Qed.

Lemma start_on_node_reuses t : steps reuses (start_on_node t).
Proof.
  apply steps_bind; [apply steps_attempt, reuses_reads, ensure_vm_start_allowed_reads|].
  intros [[]|msg]; [|apply fail_reuses].
  apply steps_bind; [apply reuses_rpc; intros []|]. intros r.
  destruct (negb _); [apply fail_reuses|].
  apply steps_bind; [apply steps_attempt, sync_firewall_reuses|]. intros [[]|e].
  - apply steps_bind; [apply steps_attempt, reuses_status|]. intros _.
    apply steps_bind; [apply steps_attempt, reuses_jobs, update_job_only|]. intros _. apply steps_ret.
  - apply steps_bind; [apply reuses_rpc; intros []|]. intros _. apply fail_reuses.
Qed.

Lemma task_reuses t : st_create t = None -> steps reuses (run_start_task t).
Proof.
  intros Hc. apply steps_bind; [apply steps_attempt, reuses_jobs, update_job_only|].
  intros [[]|e]; [|apply steps_ret].
  apply steps_bind; [apply steps_attempt, reuses_reads, ensure_vm_start_allowed_reads|].
  intros [[]|msg].
  - rewrite Hc. apply steps_bind; [apply steps_ret|]. intros []; [|apply steps_ret].
    apply start_on_node_reuses.
  - apply steps_bind; [|intros ?; apply steps_ret]. apply steps_attempt, reuses_jobs, update_job_only.
Qed.

(** A VM that is stopped and started again comes back without its GPUs, and is
    not created on the node, even when it never was: [stop] accepts the node's
    "not found" for a VM in status [Created] and moves it to [Shutdown]. *)
Theorem restart_reuses force vm_id o1 o2 o3 w w1 w2 job_id :
  served o1 -> (if (force : bool) then force_stop vm_id else stop vm_id) o1 w = (w1, Ok tt) ->
  start_vm_internal vm_id o2 w1 = (w2, Ok job_id) ->
  exists t, EvSpawn t ∈ w_log w2 /\ st_vm_id t = vm_id /\ st_create t = None /\
    let w3 := (run_start_task t o3 w2).1 in
    (forall k g, t_host_gpus (w_db w3) !! k = Some g -> g_vm_id g <> Some vm_id) /\
    log_adds (fun e => ~ creates_vm e) w w3.
Proof.
  intros Ho Hstop Hstart.
  assert (stop_with (if force then ForceStopVm vm_id else StopVm vm_id) vm_id o1 w = (w1, Ok tt))
    as (row&_&h&r&l&_&_&_&_&Hev&L1&T1&[G1 _]%(fun f => f Ho))%stop_with_inv by (by destruct force).
  pose proof (start_reuses vm_id o2 w1) as [G2 A2]. rewrite Hstart in G2, A2.
  apply start_inv in Hstart as (row'&host&t&create&(Hrow'&_)&Hcr&_&_&ev&_&L2).
  rewrite T1, lookup_insert_eq in Hrow'. injection Hrow' as <-.
  destruct create as [req|]; [by destruct Hcr|].
  exists (spawned_task (set_row_status Shutdown row) host vm_id job_id None).
  split; [rewrite L2; apply elem_of_log_last|]. split_and!; [done|done|].
  destruct (task_reuses (spawned_task (set_row_status Shutdown row) host vm_id job_id None) eq_refl o3 w2)
    as [G3 A3]. unfold keeps_table, keeps in *. simpl in *. rewrite G3, G2. split; [done|].
  etransitivity; [|exact A3]. etransitivity; [|exact A2].
  eexists. split; [exact L1|]. constructor; [destruct force; intros []|].
  eapply Forall_impl; [exact Hev|]. apply status_no_create.
Qed.
(** *** A task that gives up early *)

(** The task cannot record that it runs, or its first check fails. *)
Definition gives_up_early (t : StartTask) (o : Oracle) (w : World) : Prop :=
  match mark_running (st_job_id t) o w with
  | (_, Err _) => True
  | (w1, Ok _) => is_ok (ensure_vm_start_allowed (st_vm_id t) o w1).2 = false
  end.

Lemma give_up_keeps_vms t o w :
  gives_up_early t o w -> t_vms (w_db (run_start_task t o w).1) = t_vms (w_db w).
Proof.
  unfold gives_up_early, run_start_task.
  pose proof (update_job_only running_row (st_job_id t) o w) as J1.
  destruct (mark_running (st_job_id t) o w) as [w1 r1] eqn:E1. intros Hgive.
  unfold mark_running in E1. rewrite E1 in J1.
  rewrite (attempt_bind_run _ _ _ _ _ _ E1).
  pose proof (jobs_only_table t_vms _ _ (fun _ _ => eq_refl) J1) as T1. simpl in T1.
  destruct r1 as [[]|e]; [|done].
  pose proof (ensure_vm_start_allowed_reads (st_vm_id t) o w1) as (D2&_&_).
  destruct (ensure_vm_start_allowed (st_vm_id t) o w1) as [w2 [[]|msg]] eqn:E2; [done|].
  rewrite (attempt_bind_run _ _ _ _ _ _ E2). simpl in D2. rewrite <- T1, <- D2.
  apply (steps_bind (R := keeps_table t_vms)); [|intros ?; apply steps_ret].
  apply steps_attempt. intros o' w'. apply (jobs_only_table t_vms); [done|].
  apply update_job_only.
Qed.

Lemma start_from_pending vm_id o w row :
  t_vms (w_db w) !! vm_id = Some row -> v_status row = Pending ->
  is_ok (start_vm_internal vm_id o w).2 = false.
Proof.
  intros Hrow Hp. destruct (start_vm_internal vm_id o w) as [w' [job|e]] eqn:Hrun; [|done].
  apply start_inv in Hrun as (row'&host&t&create&(Hrow'&Hst&_)&_). simplify_eq. rewrite Hp in Hst.
  by apply elem_of_cons in Hst as [?|[?|[?|?%elem_of_nil]%elem_of_cons]%elem_of_cons].
Qed.

(** A start task that gives up before it called the node does not put the status
    back: the VM stays [Pending], and every later start is refused. *)
Theorem early_failure_stays_pending vm_id job_id o1 o2 o3 w w1 :
  start_vm_internal vm_id o1 w = (w1, Ok job_id) ->
  exists t, EvSpawn t ∈ w_log w1 /\ st_vm_id t = vm_id /\
    (gives_up_early t o2 w1 ->
     let w2 := (run_start_task t o2 w1).1 in
     v_status <$> t_vms (w_db w2) !! vm_id = Some Pending /\
     is_ok (start_vm_internal vm_id o3 w2).2 = false).
Proof.
  intros (row&host&jt&create&_&_&T1&_&ev&_&L1)%start_inv.
  exists (spawned_task row host vm_id job_id create). split_and!; [rewrite L1; apply elem_of_log_last|done|].
  intros Hgive%give_up_keeps_vms. simpl. rewrite Hgive, T1, lookup_insert_eq. split; [done|].
  apply (start_from_pending _ _ _ (set_row_status Pending row)); [|done].
  by rewrite Hgive, T1, lookup_insert_eq.
Qed.

(** *** Pause and resume *)

(** A pause or a resume that returns had the node's agreement, and sets the
    status. *)
Theorem transition_effect (pausing : bool) vm_id o w w' :
  (if pausing then pause vm_id else resume vm_id) o w = (w', Ok tt) ->
  exists row hid h, t_vms (w_db w) !! vm_id = Some row /\ v_host_id row = Some hid /\
    t_hosts (w_db w) !! hid = Some h /\
    logged w w' (accepted h (if pausing then PauseVm vm_id else ResumeVm vm_id)) /\
    t_vms (w_db w') = <[vm_id := set_row_status (if pausing then Paused else Running) row]>
                        (t_vms (w_db w)).
Proof.
  set (call := if pausing then PauseVm vm_id else ResumeVm vm_id).
  set (status := if pausing then Paused else Running). intros Hrun.
  assert (transition_with call status vm_id o w = (w', Ok tt)) as Hrun' by (by destruct pausing).
  unfold transition_with in Hrun'. apply bind_ok_inv in Hrun' as (h&w1&Hh&Hrun').
  pose proof (host_for_vm_reads vm_id o w) as (D1&L1). rewrite Hh in D1, L1. simpl in D1, L1.
  apply host_for_vm_ok in Hh as (row&hid&Hrow&Hhid&Hh).
  apply bind_ok_inv in Hrun' as (r&w2&Hr&Hrun'). case_bool_decide as Hok; [|done]. subst r.
  apply lift_err_ok_inv in Hrun'. pose proof (update_status_log_grows to_rfc3339 vm_id status o w2) as G.
  rewrite Hrun' in G. apply update_status_ok in Hrun'.
  assert (w_db w2 = w_db w) as D2 by (injection Hr as <- _; exact D1).
  apply rpc_logged in Hr. exists row, hid, h. split_and!; [done|done|done| |].
  - eapply logged_grows_r; [|exact G]. eapply logged_grows_l; [|exact Hr].
    exists []. by rewrite (proj2 L1), app_nil_r.
  - rewrite Hrun', D2. by apply alter_as_insert.
Qed.
End lifecycle.

(** ** Witnesses *)

Section witnesses.
#[local] Instance witness_uuid_text : UuidText := binary_uuid_text.
#[local] Instance witness_serde : PolicySerde := array_policy_serde.
#[local] Instance witness_collation : Collation := encoding_collation.
#[local] Instance witness_cidr_order : CidrOrder := encoding_cidr_order.

Definition no_text {A} (_ : A) : string := EmptyString.
Definition no_numa (_ : json) : option NumaConfig := None.

(** VM 1, placed on host 2, with a disk of its own and GPU 3. *)
Definition placed_db (status : VmStatus) : Db :=
  disk_db Nfs
    (with_vms (fun _ => {[1%N := sample_vm 1 "web" (Some 2%N) status 2 1024 [] JNull]})
      (with_hosts (fun _ => {[2%N := sample_host 2 "h2" "10.0.0.2" HostUp 8 16384 100000]})
        (with_host_gpus (fun _ => {[3%N := sample_gpu 3 "0000:01:00.0" (Some 1%N)]}) empty_db))).

Abbreviation w_start := (start_vm_internal no_text no_text no_numa plain_defaults).
Abbreviation w_task := (run_start_task no_text no_text (fun _ _ => EmptyString) None).

Definition start_world (status : VmStatus) : World := (w_start 1 calm_oracle (world_of (placed_db status))).1.

Lemma start_accepted_witness :
  (v_status <$> t_vms (w_db (start_world Created)) !! 1%N) = Some Pending /\
  exists job, t_jobs (w_db (start_world Created)) !! 1019%N = Some job /\ j_status job = JobPending.
Proof.
  destruct (start_accepted no_text no_text no_numa plain_defaults 1 calm_oracle
    (world_of (placed_db Created)) (start_world Created) 1019) as (row&host&t&create&_&_&T&J&_);
    [vm_compute; reflexivity|].
  split; [rewrite T; by rewrite lookup_insert_eq|]. eexists. split; [exact J|reflexivity].
Defined.

(** The VM has an interface in a network that has no bridge on its host: the
    create request cannot be built, and the claim is undone. *)
Definition unbridged_nic : NetworkInterface :=
  {| ni_id := 8; ni_vm_id := 1; ni_network_id := Some 9%N; ni_device_id := "net0"; ni_tap_name := None;
     ni_mac_address := None; ni_host_mac := None; ni_ip_address := None; ni_mtu := 1500;
     ni_interface_type := Tap; ni_vhost_user := false; ni_vhost_socket := None; ni_vhost_mode := None;
     ni_num_queues := 1; ni_queue_size := 256; ni_rate_limiter := None; ni_offload_tso := true;
     ni_offload_ufo := true; ni_offload_csum := true; ni_pci_segment := 0; ni_iommu := false |}.

Definition unbridged_db : Db :=
  with_network_interfaces (fun _ => {[8%N := unbridged_nic]})
    (with_networks (fun _ => {[9%N := vpc_network 9 "10.10.1.0/24" "blue"]}) (placed_db Created)).

Lemma start_refused_witness :
  let w := world_of unbridged_db in
  (w_start 1 calm_oracle w).2 = Err (not_attached 9 2) /\
  t_vms (w_db (w_start 1 calm_oracle w).1) = t_vms (w_db w).
Proof.
  split; [vm_compute; reflexivity|].
  refine (proj1 (start_refused no_text no_text no_numa plain_defaults 1 calm_oracle
    (world_of unbridged_db) _ (not_attached 9 2) _ _)); [intros n; reflexivity|vm_compute; reflexivity].
Defined.

Definition sample_task (status : VmStatus) (create : option CreateVmRequest) : StartTask :=
  spawned_task (sample_vm 1 "web" (Some 2%N) status 2 1024 [] JNull)
    (sample_host 2 "h2" "10.0.0.2" HostUp 8 16384 100000) 1 1019 create.

(** The request the start of VM 1 builds. *)
Definition sample_request : option CreateVmRequest :=
  match (build_create_vm_request no_numa plain_defaults no_text
           (vm_from_row (sample_vm 1 "web" (Some 2%N) Created 2 1024 [] JNull))
           calm_oracle (world_of (placed_db Created))).2 with
  | Ok req => Some req
  | Err _ => None
  end.

Lemma start_task_outcome_witness :
  let t := sample_task Created sample_request in
  let w := start_world Created in
  let w' := (w_task t calm_oracle w).1 in
  (v_status <$> t_vms (w_db w') !! 1%N) = Some Running /\
  exists req, sample_request = Some req /\
    logged w w' (accepted (st_host t) (CreateVm (vm_message None req))).
Proof.
  assert ((v_status <$> t_vms (w_db (w_task (sample_task Created sample_request) calm_oracle (start_world Created)).1)
    !! 1%N) = Some Running) as Hrunning by (vm_compute; reflexivity).
  split; [exact Hrunning|]. destruct sample_request as [req|] eqn:Hreq; [|vm_compute in Hreq; discriminate].
  exists req. split; [reflexivity|].
  destruct (start_task_outcome no_text no_text (fun _ _ => EmptyString) None
    (sample_task Created (Some req)) calm_oracle (start_world Created)) as [[Hr _]|[_ Hl]]; [|by apply Hl].
  exfalso. destruct Hr as [E|(st&Hs&E)]; rewrite E in Hrunning; [vm_compute in Hrunning; discriminate|].
  apply list_elem_of_singleton in Hs. subst st. vm_compute in Hrunning. discriminate.
Defined.

Lemma stop_effect_witness :
  let w' := (stop no_text 1 calm_oracle (world_of (placed_db Running))).1 in
  gpus_released 1 (world_of (placed_db Running)) w'.
Proof.
  destruct (stop_effect no_text false 1 calm_oracle (world_of (placed_db Running))
    (stop no_text 1 calm_oracle (world_of (placed_db Running))).1)
    as (?&?&?&?&?&_&_&_&_&_&_&_&Hg); [vm_compute; reflexivity|].
  apply Hg. intros n. reflexivity.
Defined.

(** The node does not know a VM that was never started. *)
Definition unknown_oracle : Oracle :=
  {| o_sql := fun _ => None; o_uuid := fun n => (1000 + N.of_nat n)%N;
     o_now := fun n => Z.of_nat n; o_rpc := fun _ => RpcNotFound;
     o_http := fun _ => HttpResponse 500 None |}.
Definition stopped_world : World := (stop no_text 1 unknown_oracle (world_of (placed_db Created))).1.

Lemma restart_reuses_witness :
  exists t, st_vm_id t = 1%N /\ st_create t = None /\
    let w3 := (w_task t calm_oracle (w_start 1 calm_oracle stopped_world).1).1 in
    log_adds (fun e => ~ creates_vm e) (world_of (placed_db Created)) w3.
Proof.
  destruct (restart_reuses no_text no_text (fun _ _ => EmptyString) no_numa plain_defaults None false 1 unknown_oracle calm_oracle calm_oracle
    (world_of (placed_db Created)) stopped_world (w_start 1 calm_oracle stopped_world).1 1019)
    as (t&_&Hid&Hc&_&Hl);
    [intros n; reflexivity|vm_compute; reflexivity|vm_compute; reflexivity|].
  exists t. split; [exact Hid|]. split; [exact Hc|exact Hl].
Defined.

(** The database refuses every statement of the task. *)
Definition refusing_oracle : Oracle :=
  {| o_sql := fun _ => Some (Database None None); o_uuid := fun _ => 0%N; o_now := fun _ => 0;
     o_rpc := fun _ => RpcOk; o_http := fun _ => HttpResponse 500 None |}.

Lemma early_failure_stays_pending_witness :
  exists t, let w2 := (w_task t refusing_oracle (start_world Shutdown)).1 in
    v_status <$> t_vms (w_db w2) !! 1%N = Some Pending /\
    is_ok (w_start 1 calm_oracle w2).2 = false.
Proof.
  destruct (early_failure_stays_pending no_text no_text (fun _ _ => EmptyString) no_numa plain_defaults None 1 1011 calm_oracle refusing_oracle calm_oracle
    (world_of (placed_db Shutdown)) (start_world Shutdown)) as (t&_&_&Hg);
    [vm_compute; reflexivity|].
  exists t. apply Hg. exact I.
Defined.

Lemma transition_effect_witness :
  let w' := (pause no_text 1 calm_oracle (world_of (placed_db Running))).1 in
  v_status <$> t_vms (w_db w') !! 1%N = Some Paused.
Proof.
  destruct (transition_effect no_text true 1 calm_oracle (world_of (placed_db Running))
    (pause no_text 1 calm_oracle (world_of (placed_db Running))).1)
    as (?&?&?&_&_&_&_&T); [vm_compute; reflexivity|].
  simpl. rewrite T. by rewrite lookup_insert_eq.
Defined.

(** Two start requests whose statements interleave: both pass the checks before
    either claims the VM. *)
Definition racing_starts (vm_id : Uuid) : M Error (Uuid * Uuid) :=
  '(vm1, host1) ← start_checks vm_id;
  '(vm2, host2) ← start_checks vm_id;
  job1 ← start_claim no_text no_text no_numa plain_defaults vm_id vm1 host1;
  job2 ← start_claim no_text no_text no_numa plain_defaults vm_id vm2 host2;
  mret (job1, job2).

Definition spawns (w : World) (vm_id : Uuid) : list Uuid :=
  omap (fun e => match e with
                 | EvSpawn t => if bool_decide (st_vm_id t = vm_id) then Some (st_job_id t) else None
                 | _ => None
                 end) (w_log w).

(** The claim is not conditional on the status the checks saw: two interleaved
    requests both succeed, and two tasks start the same VM. *)
Theorem double_start_race :
  exists w' job1 job2, racing_starts 1 calm_oracle (world_of (placed_db Shutdown)) = (w', Ok (job1, job2)) /\
    job1 <> job2 /\ spawns w' 1 = [job1; job2].
Proof. eexists _, _, _. split; [vm_compute; reflexivity|]. by vm_compute. Qed.
End witnesses.
