(* ===== verification/VmCreate.v ===== *)
(** * VmCreate: the handlers that create a VM

    [create], [create_vm_internal] and [create_vm_with_image_internal] of
    [qarax/src/handlers/vm/handler.rs], with the helpers they call and the
    background task [run_overlaybd_create].

    A creation reads what constrains the host (root disk, boot source, networks,
    GPUs), then, in one transaction, picks the host and writes the VM with its
    addresses, interfaces, security groups, root disk and GPUs.  A VM that boots
    from an image is stored as [Pending]; a task imports the image on the node,
    records it as an object and a disk, and makes the VM [Created].

    - [accel_de] and [overlaybd_url] are the serde forms of two JSON documents.
    - [imported n] is the body of the reply to the import call made at step [n].
    - The address loop runs on fuel: [None] means it is still running, and then
      nothing has been committed. *)

From S2P Require Import Prelude Text Common Errors Tables NodeApi World Samples VmConfig.
From S2P Require Import Hooks Vms Jobs Storage Gpus Hosts Float64 HostNuma StorageObjects Scheduler Ipv4 Networks.
From S2P Require Import Devices Catalog SecurityGroups NetworkPolicy CreateRequest VmLifecycle.
#[local] Open Scope Z_scope.
#[local] Set Default Proof Using "Type".

(** ** Names of devices *)

(** [for i in 0u32.. { if !used.contains(prefix{i}) { return .. } }]. *)
Fixpoint first_unused (fuel : nat) (prefix : string) (i : nat) (used : list string) : option string :=
  match fuel with
  | O => None
  | S fuel' =>
      let id := (prefix +:+ fmt_nat (Z.of_nat i))%string in
      if bool_decide (id ∈ used) then first_unused fuel' prefix (S i) used else Some id
  end.

Definition next_disk_id (existing : list VmDisk) : option string :=
  first_unused (S (length existing)) "disk" 0 (vd_logical_name <$> existing).

Definition next_net_id (existing : list NetworkInterface) : option string :=
  first_unused (S (length existing)) "net" 0 (ni_device_id <$> existing).

(** ** Scheduling *)

Definition set_rv_config (c : json) (vm : ResolvedNewVm) : ResolvedNewVm :=
  {| rv_name := rv_name vm; rv_tags := rv_tags vm; rv_hypervisor := rv_hypervisor vm;
     rv_architecture := rv_architecture vm; rv_boot_vcpus := rv_boot_vcpus vm;
     rv_max_vcpus := rv_max_vcpus vm; rv_cpu_topology := rv_cpu_topology vm;
     rv_kvm_hyperv := rv_kvm_hyperv vm; rv_memory_size := rv_memory_size vm;
     rv_memory_hotplug_size := rv_memory_hotplug_size vm;
     rv_memory_mergeable := rv_memory_mergeable vm; rv_memory_shared := rv_memory_shared vm;
     rv_memory_hugepages := rv_memory_hugepages vm;
     rv_memory_hugepage_size := rv_memory_hugepage_size vm;
     rv_memory_prefault := rv_memory_prefault vm; rv_memory_thp := rv_memory_thp vm;
     rv_boot_source_id := rv_boot_source_id vm;
     rv_root_disk_object_id := rv_root_disk_object_id vm; rv_boot_mode := rv_boot_mode vm;
     rv_description := rv_description vm; rv_image_ref := rv_image_ref vm;
     rv_cloud_init_user_data := rv_cloud_init_user_data vm;
     rv_cloud_init_meta_data := rv_cloud_init_meta_data vm;
     rv_cloud_init_network_config := rv_cloud_init_network_config vm;
     rv_network_id := rv_network_id vm; rv_networks := rv_networks vm;
     rv_security_group_ids := rv_security_group_ids vm;
     rv_accelerator_config := rv_accelerator_config vm; rv_numa_config := rv_numa_config vm;
     rv_persistent_upper_pool_id := rv_persistent_upper_pool_id vm;
     rv_placement_policy := rv_placement_policy vm; rv_config := c |}.

Definition gpu_request (accel : AcceleratorConfig) : GpuRequest :=
  {| gr_count := ac_gpu_count accel; gr_vendor := ac_gpu_vendor accel; gr_model := ac_gpu_model accel;
     gr_min_vram_bytes := ac_min_vram_bytes accel |}.

Definition root_disk_scheduling_requirements (root_disk_object_id : option Uuid)
  : M Error (Z * option Uuid) :=
  match root_disk_object_id with
  | None => mret (0, None)
  | Some object_id =>
      object ← sqlx_q (get_object object_id);
      if negb (bool_decide (so_object_type object ∈ [Disk; Snapshot; OciImage])) then
        throw (UnprocessableEntity "root_disk_object_id must reference a disk-like storage object")
      else
        pool ← sqlx_q (get_pool (so_storage_pool_id object));
        mret (Z.max (so_size_bytes object) 0,
              match sp_pool_type pool with OverlayBd => None | _ => Some (sp_id pool) end)
  end.

(** The loop over the images of a boot source: the first local pool wins, then
    the first shared one. *)
Fixpoint image_pools (images : list Uuid) (constraint : option Uuid) : M Error (option Uuid * bool) :=
  match images with
  | [] => mret (constraint, false)
  | image_id :: images' =>
      obj ← sqlx_q (get_object image_id);
      pool ← sqlx_q (get_pool (so_storage_pool_id obj));
      match sp_pool_type pool with
      | Local => mret (Some (sp_id pool), true)
      | OverlayBd => image_pools images' constraint
      | _ => image_pools images' (opt_or constraint (Some (sp_id pool)))
      end
  end.

Definition merge_pools (root_pool_id boot_pool_id : option Uuid) (boot_is_local : bool) : option Uuid :=
  match root_pool_id, boot_pool_id with
  | _, Some bp => if boot_is_local then Some bp else opt_or root_pool_id (Some bp)
  | rp, None => rp
  end.

Definition default_network (id : string) (network_id : Uuid) (ip : string) : NewVmNetwork :=
  {| nn_id := id; nn_network_id := Some network_id; nn_mac := None; nn_tap := None; nn_ip := Some ip;
     nn_mask := None; nn_mtu := None; nn_host_mac := None; nn_interface_type := None;
     nn_vhost_user := None; nn_vhost_socket := None; nn_vhost_mode := None; nn_num_queues := None;
     nn_queue_size := None; nn_rate_limiter := None; nn_offload_tso := None; nn_offload_ufo := None;
     nn_offload_csum := None; nn_pci_segment := None; nn_iommu := None |}.

(** A disk record with the defaults of [NewVmDisk]. *)
Definition simple_disk (vm_id object : Uuid) (name path : string) (boot_order : Z) (config : json)
    (upper : option Uuid) : NewVmDisk :=
  {| nd_vm_id := vm_id; nd_storage_object_id := Some object; nd_logical_name := name;
     nd_device_path := path; nd_boot_order := Some boot_order; nd_read_only := Some false;
     nd_direct := None; nd_vhost_user := None; nd_vhost_socket := None; nd_num_queues := None;
     nd_queue_size := None; nd_rate_limiter := None; nd_rate_limit_group := None;
     nd_pci_segment := None; nd_serial_number := None; nd_config := config;
     nd_upper_storage_object_id := upper |}.

(** The reply to an import: the reference in the local registry, the digest and
    the size. *)
Record OverlayBdImport := { oi_image_ref : string; oi_digest : string; oi_size_bytes : Z }.

Section creation.
Context `{UuidText} `{PolicySerde} {coll : Collation} {inet : PgInet} {mac : PgMacaddr}.
Variables (control_plane_architecture : string) (config : SchedulingSettings)
  (locked locked_gpus : nat -> gset Uuid).
Variables (accel_de : json -> option AcceleratorConfig) (sqlx_text : SqlxError -> string)
  (defaults : VmDefaults).

Definition boot_source_pool_constraint (boot_source_id : option Uuid) : M Error (option Uuid * bool) :=
  match boot_source_id with
  | None => mret (None, false)
  | Some id =>
      boot_source ← lift_err (fun e => UnprocessableEntity ("invalid boot_source_id: " +:+ sqlx_text e))
                      (get_boot_source id);
      image_pools (bs_kernel_image_id boot_source :: option_list (bs_initrd_image_id boot_source)) None
  end.

Definition resolved_vm_architecture (architecture : option string) : string :=
  default control_plane_architecture (architecture ≫= Architecture.normalize_architecture).

Definition scheduling_request_for_vm (vm : ResolvedNewVm) (accel : option AcceleratorConfig)
  : M Error SchedulingRequest :=
  '(disk_bytes, root_pool_id) ← root_disk_scheduling_requirements (rv_root_disk_object_id vm);
  '(boot_pool_id, boot_is_local) ← boot_source_pool_constraint (rv_boot_source_id vm);
  mret {| sr_memory_bytes := rv_memory_size vm; sr_vcpus := rv_boot_vcpus vm;
          sr_disk_bytes := disk_bytes;
          sr_architecture := Some (resolved_vm_architecture (rv_architecture vm));
          sr_storage_pool_id := merge_pools root_pool_id boot_pool_id boot_is_local;
          sr_required_network_ids := elements (list_to_set (option_list (rv_network_id vm)
            ++ omap nn_network_id (default [] (rv_networks vm))) : gset Uuid);
          sr_gpu := gpu_request <$> accel; sr_placement_policy := rv_placement_policy vm;
          sr_excluded_host_ids := [] |}.

Definition persist_vm_scheduling_metadata (vm : ResolvedNewVm) (architecture : string) : ResolvedNewVm :=
  let c := persist_placement_policy (rv_config vm) (rv_placement_policy vm) in
  set_rv_config
    match c with
    | JObject m =>
        let m := <["architecture" := JString architecture]> m in
        JObject (match rv_numa_config vm with
                 | Some nc => <["numa_config" := nc]> m
                 | None => m
                 end)
    | _ => c
    end vm.

Definition pick_host (request : SchedulingRequest) : M Error Host :=
  host ← sqlx_q (pick_host_now locked config request);
  of_result (ok_or (UnprocessableEntity
    "no hosts in UP state with sufficient resources available for scheduling") host).

Definition validate_root_disk_for_host (host_id object_id : Uuid) (maybe_pool_id : option Uuid)
  : M Error unit :=
  match maybe_pool_id with
  | None => mret tt
  | Some pool_id =>
      has ← sqlx_q (host_has_pool host_id pool_id);
      if (has : bool) then mret tt
      else throw (UnprocessableEntity ("selected host is not attached to the storage pool backing "
             +:+ "root_disk_object_id " +:+ uuid_to_string object_id))
  end.

Definition allocate_vm_gpus (host_id vm_id : Uuid) (accel : AcceleratorConfig) : M Error unit :=
  allocated ← sqlx_q (allocate_gpus_now locked_gpus host_id vm_id (gpu_request accel));
  if as_i32 (Z.of_nat (length allocated)) <? ac_gpu_count accel then
    throw (UnprocessableEntity ("requested " +:+ pretty (ac_gpu_count accel) +:+ " GPUs but only "
             +:+ pretty (Z.of_nat (length allocated)) +:+ " available on selected host"))
  else mret tt.

Definition create_root_disk_record (vm_id root_disk_object_id : Uuid) : M Error unit :=
  _ ← sqlx_q (create_disk_tx (simple_disk vm_id root_disk_object_id "rootfs" "/dev/vda" 0 (JObject ∅) None));
  mret tt.

Definition ensure_ip_address_is_available (network_id : Uuid) (ip_address : string) : M Error unit :=
  allocation ← sqlx_q (get_allocation network_id ip_address);
  match allocation with
  | Some _ => throw (Conflict ("IP address " +:+ ip_address +:+ " is already allocated on network "
                               +:+ uuid_to_string network_id))
  | None => mret tt
  end.

Definition validate_requested_static_ips_are_available (networks : option (list NewVmNetwork))
  : M Error unit :=
  for_all_m (fun net =>
    match nn_network_id net, nn_ip net with
    | Some network_id, Some ip_address => ensure_ip_address_is_available network_id ip_address
    | _, _ => mret tt
    end) (default [] networks).

Definition ensure_security_groups_exist (security_group_ids : option (list Uuid)) : M Error unit :=
  for_all_m (fun id => _ ← sqlx_q (get_group id); mret tt) (default [] security_group_ids).

Definition create_managed_network_interface_tx (fuel : nat) (vm_id network_id : Uuid)
  : M Error (option unit) :=
  ip ← allocate_network_ip_tx fuel vm_id network_id None;
  match ip with
  | None => mret None
  | Some ip =>
      _ ← sqlx_q (create_nic vm_id (default_network "net0" network_id ip));
      mret (Some tt)
  end.

(** A requested address needs no iteration of the loop. *)
Definition register_static_ip (vm_id : Uuid) (net : NewVmNetwork) : M Error unit :=
  match nn_network_id net, nn_ip net with
  | Some net_id, Some ip => _ ← allocate_network_ip_tx 0 vm_id net_id (Some ip); mret tt
  | _, _ => mret tt
  end.
Definition register_static_ips_tx (vm_id : Uuid) (networks : option (list NewVmNetwork)) : M Error unit :=
  for_all_m (register_static_ip vm_id) (default [] networks).

(** ** The two ways to create a VM *)

(** The reads before the transaction: what the host must offer, and the VM with
    its scheduling metadata. *)
Record Plan := {
  pl_vm : ResolvedNewVm;
  pl_request : SchedulingRequest;
  pl_architecture : string;
  pl_accel : option AcceleratorConfig
}.

Definition plan_creation (vm : ResolvedNewVm) : M Error Plan :=
  let accel := rv_accelerator_config vm ≫= AcceleratorConfig_from_value accel_de in
  request ← scheduling_request_for_vm vm accel;
  let architecture := default control_plane_architecture (sr_architecture request) in
  let vm := persist_vm_scheduling_metadata vm architecture in
  _ ← validate_requested_static_ips_are_available (rv_networks vm);
  _ ← ensure_security_groups_exist (rv_security_group_ids vm);
  mret {| pl_vm := vm; pl_request := request; pl_architecture := architecture; pl_accel := accel |}.

(** The host, with the root disk attachable there. *)
Definition place (plan : Plan) : M Error Host :=
  host ← pick_host (pl_request plan);
  _ ← of_result (ensure_host_matches_architecture host (pl_architecture plan));
  _ ← (match rv_root_disk_object_id (pl_vm plan) with
       | None => mret tt
       | Some root_disk_object_id =>
           _ ← validate_root_disk_for_host (h_id host) root_disk_object_id
                 (sr_storage_pool_id (pl_request plan));
           object ← sqlx_q (get_object_for_update root_disk_object_id);
           storage_pool ← sqlx_q (get_pool (so_storage_pool_id object));
           ensure_storage_object_can_be_attached_tx object storage_pool None
       end);
  mret host.

Definition write_root_disk (vm : ResolvedNewVm) (id : Uuid) : M Error unit :=
  match rv_root_disk_object_id vm with
  | None => mret tt
  | Some object => create_root_disk_record id object
  end.

Definition write_networks (fuel : nat) (vm : ResolvedNewVm) (id : Uuid) : M Error (option unit) :=
  _ ← for_all_m (fun net => _ ← sqlx_q (create_nic id net); mret tt) (default [] (rv_networks vm));
  match rv_network_id vm with
  | None => mret (Some tt)
  | Some network_id => create_managed_network_interface_tx fuel id network_id
  end.

Definition write_groups (vm : ResolvedNewVm) (id : Uuid) : M Error unit :=
  for_all_m (fun group => sqlx_q (add_to_vm id group)) (default [] (rv_security_group_ids vm)).

Definition write_gpus (plan : Plan) (host_id id : Uuid) : M Error unit :=
  match pl_accel plan with
  | None => mret tt
  | Some accel => allocate_vm_gpus host_id id accel
  end.

Definition creation_body (fuel : nat) (plan : Plan) : M Error (bool * option Uuid) :=
  host ← place plan;
  let vm := pl_vm plan in
  id ← sqlx_q (Vms.create_tx vm (Some (h_id host)));
  _ ← register_static_ips_tx id (rv_networks vm);
  _ ← write_root_disk vm id;
  done ← write_networks fuel vm id;
  match done with
  | None => mret (false, None)
  | Some _ =>
      _ ← write_groups vm id;
      _ ← write_gpus plan (h_id host) id;
      mret (true, Some id)
  end.

Definition create_vm_internal (fuel : nat) (vm : ResolvedNewVm) : M Error (option Uuid) :=
  plan ← plan_creation vm;
  in_tx_opt from_sqlx (creation_body fuel plan).

(** The boot information must be complete although only the start uses it. *)
Definition check_boot (vm : ResolvedNewVm) : M Error unit :=
  match default Kernel (rv_boot_mode vm) with
  | Kernel =>
      match rv_boot_source_id vm with
      | None => mret tt
      | Some boot_source_id =>
          _ ← lift_err (fun _ => UnprocessableEntity ("Invalid boot_source_id: " +:+ uuid_to_string boot_source_id))
                (resolve_boot_source boot_source_id);
          mret tt
      end
  | Firmware =>
      match nonempty_text (df_firmware defaults) with
      | Some _ => mret tt
      | None => throw (UnprocessableEntity ("firmware boot mode requires a firmware path (set "
                  +:+ "vm_defaults.firmware or VM_FIRMWARE env var)"))
      end
  end.

(** The pool for persistent writes: active, local or NFS, attached to the host. *)
Definition check_upper_pool (host_id upper_pool_id : Uuid) : M Error unit :=
  let text := ("persistent_upper_pool_id " +:+ uuid_to_string upper_pool_id)%string in
  upper_pool ← lift_err (fun e => match e with
                                  | RowNotFound => UnprocessableEntity (text +:+ " not found")
                                  | _ => InternalServerError
                                  end) (get_pool upper_pool_id);
  if negb (bool_decide (sp_status upper_pool = Active)) then
    throw (UnprocessableEntity (text +:+ " is not active"))
  else if negb (bool_decide (sp_pool_type upper_pool ∈ [Local; Nfs])) then
    throw (UnprocessableEntity "persistent_upper_pool_id must be a Local or NFS pool")
  else
    attached ← lift_err (fun _ => InternalServerError) (host_has_pool host_id upper_pool_id);
    if (attached : bool) then mret tt
    else throw (UnprocessableEntity (text +:+ " is not attached to the selected host")).

Definition overlaybd_pool_for (host_id : Uuid) : M Error StoragePool :=
  pool ← lift_err (fun _ => InternalServerError) (find_overlaybd_for_host host_id);
  of_result (ok_or (UnprocessableEntity "no OverlayBD storage pool attached to the selected host") pool).

Definition image_body (fuel : nat) (plan : Plan) : M Error (bool * option (Host * StoragePool * Uuid)) :=
  host ← place plan;
  overlaybd_pool ← overlaybd_pool_for (h_id host);
  let vm := pl_vm plan in
  _ ← check_boot vm;
  _ ← (match rv_persistent_upper_pool_id vm with
       | None => mret tt
       | Some upper_pool_id => check_upper_pool (h_id host) upper_pool_id
       end);
  id ← sqlx_q (create_tx_with_status vm (Some (h_id host)) Pending);
  _ ← register_static_ips_tx id (rv_networks vm);
  done ← write_networks fuel vm id;
  match done with
  | None => mret (false, None)
  | Some _ =>
      _ ← write_groups vm id;
      _ ← write_root_disk vm id;
      _ ← write_gpus plan (h_id host) id;
      mret (true, Some (host, overlaybd_pool, id))
  end.

Definition image_job (image_ref : string) (vm_id : Uuid) : NewJob :=
  {| nj_job_type := ImagePull; nj_description := Some ("Pulling image " +:+ image_ref)%string;
     nj_resource_id := Some vm_id; nj_resource_type := Some resource_types.VM |}.

(** [image_ref] is the one of the request, which every caller has checked. *)
Definition create_vm_with_image_internal (fuel : nat) (image_ref : string) (vm : ResolvedNewVm)
  : M Error (option (Uuid * Uuid)) :=
  plan ← plan_creation vm;
  created ← in_tx_opt from_sqlx (image_body fuel plan);
  match created with
  | None => mret None
  | Some (host, overlaybd_pool, vm_id) =>
      job ← sqlx_q (Jobs.create (image_job image_ref vm_id));
      _ ← emit (EvTask (ImagePullTask host vm_id (j_id job) image_ref overlaybd_pool
                          (rv_persistent_upper_pool_id vm)));
      mret (Some (vm_id, j_id job))
  end.

(** [POST /vms]: the id of the VM, with the job when an image is pulled. *)
Definition create_vm (fuel : nat) (vm : NewVm) : M Error (option (Uuid * option Uuid)) :=
  vm ← resolve_create_request vm;
  match rv_image_ref vm with
  | Some image_ref =>
      r ← create_vm_with_image_internal fuel image_ref vm;
      mret ((fun '(vm_id, job_id) => (vm_id, Some job_id)) <$> r)
  | None =>
      r ← create_vm_internal fuel vm;
      mret ((fun id => (id, None)) <$> r)
  end.

(** ** The image pull *)

Variables (to_rfc3339 : Z -> string) (rpc_error_text : RpcCall -> RpcOutcome -> string)
  (overlaybd_url : json -> option string) (imported : nat -> OverlayBdImport).

Abbreviation set_status := (Vms.update_status to_rfc3339).

(** [client.import_overlaybd_image(..)]. *)
Definition import_overlaybd_image (host : Host) (image_ref registry_url : string)
  : M string OverlayBdImport := fun o w =>
  let call := ImportOverlayBdImage image_ref registry_url in
  match rpc host call o w with
  | (w', Ok RpcOk) => (w', Ok (imported (w_step w)))
  | (w', Ok r) => (w', Err (rpc_error_text call r))
  | (w', Err e) => (w', Err e)
  end.

Definition pull_failed (vm_id job_id : Uuid) (msg : string) : M SqlxError unit :=
  _ ← (attempt (Jobs.mark_failed job_id msg) : M SqlxError _);
  _ ← (attempt (set_status vm_id Unknown) : M SqlxError _);
  mret tt.

Definition image_object (vm_id pool_id : Uuid) (r : OverlayBdImport) (registry_url : string)
  : NewStorageObject :=
  {| no_name := "overlaybd-" +:+ uuid_to_string vm_id; no_storage_pool_id := Some pool_id;
     no_object_type := OciImage; no_size_bytes := oi_size_bytes r;
     no_config := JObject (<["image_ref" := JString (oi_image_ref r)]>
       (<["registry_url" := JString registry_url]>
         (<["digest" := if String.eqb (oi_digest r) "" then JNull else JString (oi_digest r)]> ∅)));
     no_parent_id := None |}.

Definition upper_object (vm_id pool_id : Uuid) : NewStorageObject :=
  {| no_name := "overlaybd-upper-" +:+ uuid_to_string vm_id; no_storage_pool_id := Some pool_id;
     no_object_type := OverlaybdUpper; no_size_bytes := 0; no_config := JObject ∅;
     no_parent_id := None |}.

Definition create_upper (vm_id : Uuid) (upper_pool : option Uuid) : M SqlxError (option Uuid) :=
  match upper_pool with
  | None => mret None
  | Some upper_pool_id =>
      vm ← Vms.get vm_id;
      host_id ← of_result (ok_or RowNotFound (v_host_id (vm_row vm)));
      id ← create_managed (upper_object vm_id upper_pool_id) host_id;
      mret (Some id)
  end.

Definition record_disk (vm_id so_id : Uuid) (logical_name : string) (upper : option Uuid)
  : M SqlxError Uuid :=
  create_disk (simple_disk vm_id so_id logical_name ("/dev/" +:+ logical_name) 0 JNull upper).

(** The steps after the object of the image exists. *)
Definition attach_image (vm_id job_id so_id : Uuid) (digest : string) (upper_pool : option Uuid)
  : M SqlxError unit :=
  existing ← attempt (list_disks_by_vm vm_id);
  match existing with
  | Err e => pull_failed vm_id job_id ("Failed to list existing disks: " +:+ sqlx_text e)
  | Ok existing =>
      let logical_name := default "" (next_disk_id existing) in
      upper ← attempt (create_upper vm_id upper_pool);
      match upper with
      | Err e =>
          _ ← (attempt (delete_object so_id) : M SqlxError _);
          pull_failed vm_id job_id ("Failed to create OverlaybdUpper storage object: " +:+ sqlx_text e)
      | Ok upper =>
          disk ← attempt (record_disk vm_id so_id logical_name upper);
          match disk with
          | Err e =>
              _ ← (attempt (delete_object so_id) : M SqlxError _);
              _ ← (match upper with
                   | Some upper_id => _ ← (attempt (delete_object upper_id) : M SqlxError _); mret tt
                   | None => mret tt
                   end);
              pull_failed vm_id job_id ("Failed to persist OverlayBD disk record: " +:+ sqlx_text e)
          | Ok _ =>
              _ ← (attempt (set_status vm_id Created) : M SqlxError _);
              _ ← (attempt (Jobs.mark_completed job_id
                     (Some (JObject {["digest"%string := JString digest]}))) : M SqlxError _);
              mret tt
          end
      end
  end.

Definition run_overlaybd_create (host : Host) (vm_id job_id : Uuid) (image_ref : string)
    (pool : StoragePool) (upper_pool : option Uuid) : M SqlxError unit :=
  match overlaybd_url (sp_config pool) with
  | None => pull_failed vm_id job_id "OverlayBD pool config missing 'url' field"
  | Some registry_url =>
      r ← attempt (import_overlaybd_image host image_ref registry_url);
      match r with
      | Err e => pull_failed vm_id job_id ("Failed to import OverlayBD image: " +:+ e)
      | Ok r =>
          _ ← (attempt (Jobs.update_progress job_id 50) : M SqlxError _);
          so ← attempt (create_object (image_object vm_id (sp_id pool) r registry_url));
          match so with
          | Err e => pull_failed vm_id job_id
                       ("Failed to create storage object for OverlayBD disk: " +:+ sqlx_text e)
          | Ok so_id => attach_image vm_id job_id so_id (oi_digest r) upper_pool
          end
      end
  end.

(** The spawned task. *)
Definition run_image_pull (host : Host) (vm_id job_id : Uuid) (image_ref : string)
    (pool : StoragePool) (upper_pool : option Uuid) : M SqlxError unit :=
  r ← attempt (Jobs.mark_running job_id);
  match r with
  | Err _ => mret tt
  | Ok _ => run_overlaybd_create host vm_id job_id image_ref pool upper_pool
  end.
End creation.

(** ** Device names *)

Lemma fmt_nat_inj i j : fmt_nat (Z.of_nat i) = fmt_nat (Z.of_nat j) -> i = j.
Proof.
  intros Heq. apply (f_equal parse_magnitude) in Heq.
  rewrite !parse_magnitude_fmt_nat in Heq by lia. injection Heq. lia.
Qed.

Lemma device_name_inj prefix i j :
  (prefix +:+ fmt_nat (Z.of_nat i) = prefix +:+ fmt_nat (Z.of_nat j))%string -> i = j.
Proof.
  intros Heq. apply fmt_nat_inj. induction prefix as [|c p IH]; [exact Heq|].
  apply IH. by injection Heq.
Qed.

Lemma first_unused_spec fuel prefix i used :
  match first_unused fuel prefix i used with
  | Some id => exists n, (i <= n)%nat /\ id = (prefix +:+ fmt_nat (Z.of_nat n))%string /\ (id ∉ used) /\
      forall m, (i <= m < n)%nat -> (prefix +:+ fmt_nat (Z.of_nat m))%string ∈ used
  | None => forall m, (i <= m < i + fuel)%nat -> (prefix +:+ fmt_nat (Z.of_nat m))%string ∈ used
  end.
Proof.
  revert i. induction fuel as [|fuel IH]; intros i; cbn [first_unused]; [lia|].
  case_bool_decide as Hu.
  - specialize (IH (S i)). destruct (first_unused fuel prefix (S i) used) as [id|].
    + destruct IH as (n&Hn&->&Hf&Hl). exists n. split_and!; [lia|done|done|].
      intros m Hm. destruct (decide (m = i)) as [->|]; [done|]. apply Hl. lia.
    + intros m Hm. destruct (decide (m = i)) as [->|]; [done|]. apply IH. lia.
  - exists i. split_and!; [lia|done|done|lia].
Qed.

(** As many names as there are devices, and one more: one of them is unused. *)
Lemma first_unused_total prefix used :
  exists n, first_unused (S (length used)) prefix 0 used = Some (prefix +:+ fmt_nat (Z.of_nat n))%string /\
    ((prefix +:+ fmt_nat (Z.of_nat n))%string ∉ used) /\
    forall m, (m < n)%nat -> (prefix +:+ fmt_nat (Z.of_nat m))%string ∈ used.
Proof.
  pose proof (first_unused_spec (S (length used)) prefix 0 used) as Hs.
  destruct (first_unused _ _ _ _) as [id|].
  - destruct Hs as (n&_&->&Hf&Hl). exists n. split_and!; [done|done|]. intros m Hm. apply Hl. lia.
  - exfalso. set (names := (fun i => (prefix +:+ fmt_nat (Z.of_nat i))%string) <$> seq 0 (S (length used))).
    assert (NoDup names) as Hnd.
    { apply NoDup_fmap_2; [|apply NoDup_seq]. intros i j. apply device_name_inj. }
    assert (names ⊆ used) as Hsub.
    { intros x (i&->&Hi%elem_of_seq)%list_elem_of_fmap. apply Hs. lia. }
    pose proof (NoDup_incl_length (l := names) (l' := used)) as Hlen.
    unfold names in Hlen. rewrite length_fmap, length_seq in Hlen. apply NoDup_ListNoDup in Hnd.
    enough (S (length used) <= length used)%nat by lia. apply Hlen; [exact Hnd|].
    intros x Hx%list_elem_of_In. by apply list_elem_of_In, Hsub.
Qed.

(** The name chosen for a new disk or interface always exists, is unused on
    the VM, and is the first such name. *)
Theorem next_device_id_fresh (disks : list VmDisk) (nics : list NetworkInterface) :
  (exists n, next_disk_id disks = Some ("disk" +:+ fmt_nat (Z.of_nat n))%string /\
     (forall d, d ∈ disks -> vd_logical_name d <> ("disk" +:+ fmt_nat (Z.of_nat n))%string) /\
     forall m, (m < n)%nat -> exists d, d ∈ disks /\ vd_logical_name d = ("disk" +:+ fmt_nat (Z.of_nat m))%string) /\
  (exists n, next_net_id nics = Some ("net" +:+ fmt_nat (Z.of_nat n))%string /\
     (forall d, d ∈ nics -> ni_device_id d <> ("net" +:+ fmt_nat (Z.of_nat n))%string) /\
     forall m, (m < n)%nat -> exists d, d ∈ nics /\ ni_device_id d = ("net" +:+ fmt_nat (Z.of_nat m))%string).
Proof.
  assert (forall A (name : A -> string) (l : list A) prefix,
    exists n, first_unused (S (length l)) prefix 0 (name <$> l) = Some (prefix +:+ fmt_nat (Z.of_nat n))%string /\
      (forall d, d ∈ l -> name d <> (prefix +:+ fmt_nat (Z.of_nat n))%string) /\
      forall m, (m < n)%nat -> exists d, d ∈ l /\ name d = (prefix +:+ fmt_nat (Z.of_nat m))%string) as Hgen.
  { intros A name l prefix. destruct (first_unused_total prefix (name <$> l)) as (n&Hn&Hf&Hl).
    rewrite length_fmap in Hn. exists n. split_and!; [done| |].
    - intros d Hd Heq. apply Hf. rewrite <- Heq. by apply list_elem_of_fmap_2.
    - intros m Hm. destruct (proj1 (list_elem_of_fmap _ _ _) (Hl m Hm)) as (d&Heq&Hd).
      exists d. split; [exact Hd|]. symmetry. exact Heq. }
  split; apply Hgen.
Qed.

(** ** What a creation writes *)

(** What sandboxes and their pools own. *)
Definition sandbox_tables (db : Db) := (t_sandboxes db, t_sandbox_pool_members db).

(** The writes of a creation after the row of the VM: rows are only added, and
    the VMs, hosts and GPUs stay as they are. *)
Record builds (db db' : Db) : Prop := {
  bu_vms : t_vms db' = t_vms db;
  bu_hosts : t_hosts db' = t_hosts db;
  bu_gpus : t_host_gpus db' = t_host_gpus db;
  bu_sandboxes : sandbox_tables db' = sandbox_tables db;
  bu_nics : t_network_interfaces db ⊆ t_network_interfaces db';
  bu_disks : t_vm_disks db ⊆ t_vm_disks db';
  bu_groups : t_vm_security_groups db ⊆ t_vm_security_groups db';
  bu_ips : t_ip_allocations db ⊆ t_ip_allocations db'
}.
#[global] Instance builds_preorder : PreOrder builds.
Proof.
  split; [by intros db|]. intros a b c [] [].
  split; first [congruence | etransitivity; eassumption].
Qed.

(** What the VM must have in the end. *)
Definition has_nic `{PgInet} `{PgMacaddr} (id : Uuid) (net : NewVmNetwork) (db : Db) : Prop :=
  exists k row, nic_row k id net = Ok row /\ t_network_interfaces db !! k = Some row.
(** An address of a network that was free before. *)
Definition has_address (before : Db) (id network_id : Uuid) (a : Z) (db : Db) : Prop :=
  t_ip_allocations before !! (network_id, a) = None /\
  exists r, t_ip_allocations db !! (network_id, a) = Some r /\ ipa_vm_id r = Some id.
Definition has_static `{PgInet} (before : Db) (id : Uuid) (net : NewVmNetwork) (db : Db) : Prop :=
  forall n ip, nn_network_id net = Some n -> nn_ip net = Some ip ->
    exists a, inet_in ip = Some a /\ has_address before id n a db.
Definition has_managed `{PgInet} `{PgMacaddr} (before : Db) (id network_id : Uuid) (db : Db) : Prop :=
  exists a, has_address before id network_id a db /\
    has_nic id (default_network "net0" network_id (inet_text a)) db.
Definition has_root (id object : Uuid) (db : Db) : Prop :=
  exists k d, t_vm_disks db !! k = Some d /\ vd_vm_id d = id /\ vd_storage_object_id d = Some object.
(** As many GPUs of the host as were asked for, all free before. *)
Definition has_gpus (before : Db) (id host_id : Uuid) (count : Z) (db : Db) : Prop :=
  exists l, NoDup (g_id <$> l) /\ Z.of_nat (length l) = count /\
    forall g, g ∈ l -> t_host_gpus db !! g_id g = Some g /\ g_vm_id g = Some id /\
      exists g0, t_host_gpus before !! g_id g = Some g0 /\ g_vm_id g0 = None /\ g_host_id g0 = host_id.

Section creation_facts.
Context `{UuidText} `{PolicySerde} {coll : Collation} {inet : PgInet} {mac : PgMacaddr}.

Lemma has_nic_builds id net db db' : builds db db' -> has_nic id net db -> has_nic id net db'.
Proof. intros B (k&r&Hr&Hk). exists k, r. split; [done|]. by eapply lookup_weaken, bu_nics. Qed.
Lemma has_address_builds before id n a db db' :
  builds db db' -> has_address before id n a db -> has_address before id n a db'.
Proof.
  intros B [Hb (r&Hr&Hv)]. split; [done|]. exists r. split; [|done]. by eapply lookup_weaken, bu_ips.
Qed.
Lemma has_static_builds before id net db db' :
  builds db db' -> has_static before id net db -> has_static before id net db'.
Proof.
  intros B Hs n ip Hn Hip. destruct (Hs n ip Hn Hip) as (a&Ha&Hx). exists a. split; [done|].
  by eapply has_address_builds.
Qed.
Lemma has_managed_builds before id n db db' :
  builds db db' -> has_managed before id n db -> has_managed before id n db'.
Proof.
  intros B (a&Ha&Hn). exists a. split; [by eapply has_address_builds|by eapply has_nic_builds].
Qed.
Lemma has_root_builds id ob db db' : builds db db' -> has_root id ob db -> has_root id ob db'.
Proof. intros B (k&d&Hk&Hd). exists k, d. split; [|done]. by eapply lookup_weaken, bu_disks. Qed.

(** *** Single writes *)

Lemma insert_nic_inv r db db' :
  insert_nic_row r db = Ok db' ->
  t_network_interfaces db !! ni_id r = None /\
  db' = with_network_interfaces (insert (ni_id r) r) db.
Proof.
  unfold insert_nic_row. intros Hrun. apply result_bind_ok in Hrun as (?&_&Hrun).
  apply result_bind_ok in Hrun as (t&Ht&Hrun). unfold insert_pk in Ht.
  destruct (t_network_interfaces db !! ni_id r); [done|]. injection Ht as <-.
  destruct (existsb _ _); [done|]. apply result_bind_ok in Hrun as (?&_&Hrun). by injection Hrun as <-.
Qed.
Lemma insert_disk_inv d db db' :
  insert_disk_row d db = Ok db' ->
  t_vm_disks db !! vd_id d = None /\ db' = with_vm_disks (insert (vd_id d) d) db.
Proof.
  unfold insert_disk_row. intros Hrun. apply result_bind_ok in Hrun as (?&_&Hrun).
  apply result_bind_ok in Hrun as (t&Ht&Hrun). unfold insert_pk in Ht.
  destruct (t_vm_disks db !! vd_id d); [done|]. injection Ht as <-.
  destruct (existsb _ _); [done|]. apply result_bind_ok in Hrun as (?&_&Hrun). by injection Hrun as <-.
Qed.

Lemma create_nic_builds id net : steps (tx_moves builds) (create_nic id net).
Proof.
  apply steps_bind; [apply steps_new_uuid, tx_moves_tick, _|]. intros k.
  apply steps_bind; [|intros ?; apply steps_ret]. apply steps_execute_tx. intros db db' [] Hrun.
  apply unit_result_inv, result_bind_ok in Hrun as (r&Hr&Hrun). apply insert_nic_inv in Hrun as [Hn ->].
  split; try done. by apply insert_subseteq.
Qed.

Lemma create_nic_ok id net o w w' k :
  create_nic id net o w = (w', Ok k) -> has_nic id net (conn_db Tx w').
Proof.
  unfold create_nic. intros Hrun. minv.
  match goal with Hf : unit_result _ = Ok _ |- _ =>
    apply unit_result_inv, result_bind_ok in Hf as (r&Hr&Hf); apply insert_nic_inv in Hf as [_ ->] end.
  exists (ni_id r), r. simpl. rewrite lookup_insert_eq. split; [|done].
  assert (ni_id r = o_uuid o (w_step w)) as ->; [|done].
  unfold nic_row in Hr. apply result_bind_ok in Hr as (?&_&Hr). apply result_bind_ok in Hr as (?&_&Hr).
  apply result_bind_ok in Hr as (?&_&Hr). by injection Hr as <-.
Qed.

Lemma create_disk_tx_builds d : steps (tx_moves builds) (create_disk_tx d).
Proof.
  apply steps_bind; [apply steps_new_uuid, tx_moves_tick, _|]. intros k.
  apply steps_bind; [|intros ?; apply steps_ret]. apply steps_execute_tx. intros db db' [] Hrun.
  apply unit_result_inv, insert_disk_inv in Hrun as [Hn ->]. split; try done. by apply insert_subseteq.
Qed.

Lemma create_disk_tx_ok d o w w' k :
  create_disk_tx d o w = (w', Ok k) -> t_vm_disks (conn_db Tx w') !! k = Some (disk_row k d).
Proof.
  unfold create_disk_tx, create_disk_on. intros Hrun. minv.
  match goal with Hf : unit_result _ = Ok _ |- _ => apply unit_result_inv, insert_disk_inv in Hf as [_ ->] end.
  simpl. apply lookup_insert_eq.
Qed.

Lemma add_to_vm_builds id g : steps (tx_moves builds) (add_to_vm id g).
Proof.
  apply steps_execute_tx. intros db db' [] Hrun. repeat case_match; simplify_eq; [done|].
  split; try done. simpl. set_solver.
Qed.

Lemma add_to_vm_ok id g o w w' :
  add_to_vm id g o w = (w', Ok tt) -> (id, g) ∈ t_vm_security_groups (conn_db Tx w').
Proof.
  unfold add_to_vm. intros Hrun. apply execute_ok_inv in Hrun as (db&Hf&->).
  destruct (bool_decide_reflect ((id, g) ∈ t_vm_security_groups (conn_db Tx w))).
  - injection Hf as <-. exact e.
  - repeat case_match; simplify_eq. simpl. set_solver.
Qed.

Lemma try_allocate_builds n ip v : steps (tx_moves builds) (try_allocate_ip_tx n ip v).
Proof.
  apply steps_bind; [apply steps_new_uuid, tx_moves_tick, _|]. intros k.
  apply steps_bind; [apply steps_now, tx_moves_tick, _|]. intros t. apply steps_execute_tx.
  intros db db' a Hrun. apply result_bind_ok in Hrun as (x&_&Hrun). case_match; [by injection Hrun as <- <-|].
  apply result_bind_ok in Hrun as (?&_&Hrun). injection Hrun as <- <-. split; try done.
  by apply insert_subseteq.
Qed.

Lemma try_allocate_ok n ip v o w w' r :
  try_allocate_ip_tx n ip v o w = (w', Ok (Some r)) ->
  exists a, inet_in ip = Some a /\ ipa_address r = a /\ ipa_vm_id r = v /\
    t_ip_allocations (conn_db Tx w) !! (n, a) = None /\
    t_ip_allocations (conn_db Tx w') !! (n, a) = Some r.
Proof.
  unfold try_allocate_ip_tx. intros Hrun. minv.
  match goal with Hf : _ = Ok (_, Some _) |- _ => apply result_bind_ok in Hf as (a&Ha&Hf); case_match; [done|];
    apply result_bind_ok in Hf as (?&_&Hf); injection Hf as <- <- end.
  apply ok_or_ok in Ha. exists a. simpl. rewrite lookup_insert_eq. by split_and!.
Qed.

(** *** Composite writes *)

Lemma next_available_reads n : steps same_but_step (next_available_ip n).
Proof. unfold next_available_ip, Networks.get. steps_tac. Qed.

Lemma allocate_next_builds fuel vm n : steps (tx_moves builds) (allocate_next fuel vm n).
Proof.
  induction fuel as [|fuel IH]; [apply steps_ret|]. cbn [allocate_next].
  apply steps_bind; [apply steps_lift_err, steps_tx_reads, next_available_reads|].
  intros ip. apply steps_bind; [apply steps_of_result|]. intros a.
  apply steps_bind; [apply steps_lift_err, try_allocate_builds|]. intros [r|]; [apply steps_ret|exact IH].
Qed.

Lemma allocate_ip_builds fuel vm n ip : steps (tx_moves builds) (allocate_network_ip_tx fuel vm n ip).
Proof.
  destruct ip as [ip|]; [|apply allocate_next_builds].
  apply steps_bind; [apply steps_lift_err, try_allocate_builds|]. intros [r|]; [apply steps_ret|apply steps_throw].
Qed.

(** The address a successful allocation returns, in the words of the database. *)
Lemma allocate_ip_ok before fuel vm n ip o w w' s :
  builds before (conn_db Tx w) ->
  allocate_network_ip_tx fuel vm n ip o w = (w', Ok (Some s)) ->
  exists a, s = inet_text a /\ has_address before vm n a (conn_db Tx w') /\
    match ip with Some t => inet_in t = Some a | None => True end.
Proof.
  assert (forall t w1, builds before (conn_db Tx w1) -> forall w2 r,
    try_allocate_ip_tx n t (Some vm) o w1 = (w2, Ok (Some r)) ->
    inet_in t = Some (ipa_address r) /\ has_address before vm n (ipa_address r) (conn_db Tx w2)) as Htry.
  { intros t w1 B w2 r (a&Ha&<-&Hv&Hn&Hr)%try_allocate_ok. split; [done|]. split; [|by exists r].
    destruct (t_ip_allocations before !! _) eqn:Hb; [|done].
    pose proof (lookup_weaken _ _ _ _ Hb (bu_ips _ _ B)). congruence. }
  intros B. destruct ip as [t|]; simpl.
  - intros Hrun. apply bind_ok_inv in Hrun as ([r|]&w1&Hr&Hrun); [|done]. apply lift_err_ok_inv in Hr.
    unfold mret, M_ret in Hrun. injection Hrun as <- <-.
    destruct (Htry _ _ B _ _ Hr) as [Ht Ha]. by exists (ipa_address r).
  - revert w B. induction fuel as [|fuel IH]; intros w B; cbn [allocate_next]; [done|]. intros Hrun.
    apply bind_ok_inv in Hrun as (x&w1&Hx&Hrun). apply lift_err_ok_inv in Hx.
    pose proof (next_available_reads n o w) as (D1&T1&_). rewrite Hx in D1, T1. simpl in D1, T1.
    apply bind_ok_inv in Hrun as (y&w2&Hy&Hrun). unfold of_result in Hy. injection Hy as <- _.
    apply bind_ok_inv in Hrun as (r&w3&Hr&Hrun). apply lift_err_ok_inv in Hr.
    assert (builds before (conn_db Tx w1)) as B1 by (simpl; by rewrite D1, T1).
    destruct r as [r|].
    + unfold mret, M_ret in Hrun. injection Hrun as <- <-. destruct (Htry _ _ B1 _ _ Hr) as [_ Ha].
      by exists (ipa_address r).
    + apply (IH w3); [|exact Hrun]. etransitivity; [exact B1|].
      pose proof (try_allocate_builds n y (Some vm) o w1) as (_&_&B2). by rewrite Hr in B2.
Qed.

Lemma register_one_builds vm net : steps (tx_moves builds) (register_static_ip vm net).
Proof.
  unfold register_static_ip. destruct (nn_network_id net) as [n|]; [|apply steps_ret].
  destruct (nn_ip net) as [ip|]; [|apply steps_ret].
  apply steps_bind; [apply allocate_ip_builds|intros ?; apply steps_ret].
Qed.

Lemma register_builds vm nets : steps (tx_moves builds) (register_static_ips_tx vm nets).
Proof. apply steps_for_all_m. intros net _. apply register_one_builds. Qed.

Lemma register_ok before vm nets o w w' :
  builds before (conn_db Tx w) -> register_static_ips_tx vm nets o w = (w', Ok tt) ->
  forall net, net ∈ default [] nets -> has_static before vm net (conn_db Tx w').
Proof.
  intros B Hrun. eapply (for_all_m_each (R := builds)); [| | |exact B|exact Hrun].
  - apply register_one_builds.
  - intros net o1 w1 w2 B1 Hnet n ip Hn Hip. unfold register_static_ip in Hnet. rewrite Hn, Hip in Hnet.
    apply bind_ok_inv in Hnet as (s&w3&Hs&Hret). unfold mret, M_ret in Hret. injection Hret as <-.
    destruct s as [s|].
    + apply (allocate_ip_ok before) in Hs as (a&_&Ha&Ht); [|done]. eauto.
    + exfalso. apply bind_ok_inv in Hs as ([r|]&w4&_&Hs); discriminate.
  - intros net db db'. apply has_static_builds.
Qed.

Lemma write_root_builds vm id : steps (tx_moves builds) (write_root_disk vm id).
Proof.
  unfold write_root_disk. destruct (rv_root_disk_object_id vm); [|apply steps_ret].
  apply steps_bind; [apply steps_lift_err, create_disk_tx_builds|intros ?; apply steps_ret].
Qed.

Lemma write_root_ok vm id o w w' ob :
  write_root_disk vm id o w = (w', Ok tt) -> rv_root_disk_object_id vm = Some ob ->
  has_root id ob (conn_db Tx w').
Proof.
  unfold write_root_disk. intros Hrun Hob. rewrite Hob in Hrun.
  apply bind_ok_inv in Hrun as (k&w1&Hk&Hret). apply lift_err_ok_inv, create_disk_tx_ok in Hk.
  unfold mret, M_ret in Hret. injection Hret as <-. by eexists _, _.
Qed.

Lemma managed_builds fuel id n : steps (tx_moves builds) (create_managed_network_interface_tx fuel id n).
Proof.
  apply steps_bind; [apply allocate_ip_builds|]. intros [ip|]; [|apply steps_ret].
  apply steps_bind; [apply steps_lift_err, create_nic_builds|intros ?; apply steps_ret].
Qed.

Lemma write_networks_builds fuel vm id : steps (tx_moves builds) (write_networks fuel vm id).
Proof.
  apply steps_bind.
  - apply steps_for_all_m. intros net _.
    apply steps_bind; [apply steps_lift_err, create_nic_builds|intros ?; apply steps_ret].
  - intros _. destruct (rv_network_id vm); [apply managed_builds|apply steps_ret].
Qed.

Lemma write_networks_ok before fuel vm id o w w' :
  builds before (conn_db Tx w) -> write_networks fuel vm id o w = (w', Ok (Some tt)) ->
  (forall net, net ∈ default [] (rv_networks vm) -> has_nic id net (conn_db Tx w')) /\
  (forall n, rv_network_id vm = Some n -> has_managed before id n (conn_db Tx w')).
Proof.
  intros B Hrun. apply bind_ok_inv in Hrun as ([]&w1&Hl&Hrun).
  assert (forall x, steps (tx_moves builds) (_ ← sqlx_q (create_nic id x); mret tt)) as Hbody.
  { intros x. apply steps_bind; [apply steps_lift_err, create_nic_builds|intros ?; apply steps_ret]. }
  pose proof (steps_for_all_m _ (default [] (rv_networks vm)) (fun x _ => Hbody x) o w) as (_&_&B1).
  rewrite Hl in B1. simpl in B1. assert (builds before (conn_db Tx w1)) as B01 by (by etransitivity).
  assert (forall net, net ∈ default [] (rv_networks vm) -> has_nic id net (conn_db Tx w1)) as Hnics.
  { eapply (for_all_m_each (R := builds)); [exact Hbody| | |exact B|exact Hl].
    - intros net o1 w2 w3 _ Hnet. apply bind_ok_inv in Hnet as (k&w4&Hk&Hret).
      apply lift_err_ok_inv, create_nic_ok in Hk. unfold mret, M_ret in Hret. by injection Hret as <-.
    - intros net db db'. apply has_nic_builds. }
  destruct (rv_network_id vm) as [n|].
  - pose proof (managed_builds fuel id n o w1) as (_&_&B2). rewrite Hrun in B2. simpl in B2. split.
    + intros net Hnet. eapply has_nic_builds; [exact B2|by apply Hnics].
    + intros n' [= <-]. apply bind_ok_inv in Hrun as ([ip|]&w2&Hip&Hrun); [|done].
      pose proof (allocate_ip_builds fuel id n None o w1) as (_&_&B3). rewrite Hip in B3. simpl in B3.
      apply (allocate_ip_ok before) in Hip as (a&->&Ha&_); [|done].
      apply bind_ok_inv in Hrun as (k&w3&Hk&Hret). apply lift_err_ok_inv in Hk.
      unfold mret, M_ret in Hret. injection Hret as <-. exists a. split; [|by eapply create_nic_ok].
      pose proof (create_nic_builds id (default_network "net0" n (inet_text a)) o w2) as (_&_&B4).
      rewrite Hk in B4. by eapply has_address_builds.
  - unfold mret, M_ret in Hrun. injection Hrun as <-. by split.
Qed.

Lemma write_groups_builds vm id : steps (tx_moves builds) (write_groups vm id).
Proof. apply steps_for_all_m. intros g _. apply steps_lift_err, add_to_vm_builds. Qed.

Lemma write_groups_ok before vm id o w w' :
  builds before (conn_db Tx w) -> write_groups vm id o w = (w', Ok tt) ->
  forall g, g ∈ default [] (rv_security_group_ids vm) -> (id, g) ∈ t_vm_security_groups (conn_db Tx w').
Proof.
  intros B Hrun. eapply (for_all_m_each (R := builds) _ (fun g db => (id, g) ∈ t_vm_security_groups db));
    [| | |exact B|exact Hrun].
  - intros g. apply steps_lift_err, add_to_vm_builds.
  - intros g o1 w1 w2 _ Hg. apply lift_err_ok_inv in Hg. by eapply add_to_vm_ok.
  - intros g db db' B1 Hg. by apply (bu_groups _ _ B1).
Qed.

(** *** The host *)

Variables (control_plane_architecture : string) (config : SchedulingSettings)
  (locked locked_gpus : nat -> gset Uuid).
Variables (accel_de : json -> option AcceleratorConfig) (sqlx_text : SqlxError -> string)
  (defaults : VmDefaults).

Lemma place_reads plan : steps same_but_step (place config locked plan).
Proof.
  unfold place, pick_host, validate_root_disk_for_host, host_has_pool, get_object_for_update, get_pool,
    ensure_storage_object_can_be_attached_tx, list_disks_by_object.
  apply steps_bind; [apply steps_bind; [|intros ?; apply steps_of_result]|].
  - apply steps_lift_err. intros o w. unfold pick_host_now, pick_host_tx.
    apply (steps_query (R := same_but_step)). apply same_but_step_tick.
  - intros host. steps_tac. apply refuse_other_vm_reads.
Qed.

(** The root disk may be attached: it exists, and when its storage asks for one
    VM at a time, no VM has it. *)
Definition root_free (db : Db) (ob : Uuid) : Prop :=
  exists obj pool, t_storage_objects db !! ob = Some obj /\
    t_storage_pools db !! so_storage_pool_id obj = Some pool /\
    (storage_object_requires_exclusive_attachment obj pool = true ->
     forall k d, t_vm_disks db !! k = Some d -> vd_storage_object_id d <> Some (so_id obj)).

Lemma refuse_any_ok object o w w' db :
  refuse_other_vm object (merge_sort attachment_order
    (List.filter (fun d => bool_decide (vd_storage_object_id d = Some (so_id object)))
       (rows (t_vm_disks db)))) None o w = (w', Ok tt) ->
  forall k d, t_vm_disks db !! k = Some d -> vd_storage_object_id d <> Some (so_id object).
Proof.
  unfold refuse_other_vm. intros Hrun k d Hd Ho. destruct (List.find _ _) eqn:Hfind.
  { apply bind_ok_inv in Hrun as (?&?&_&Hrun). discriminate. }
  pose proof (find_none _ _ Hfind d) as Hnone. cut (Some (vd_vm_id d) = None); [done|].
  eapply bool_decide_eq_true, negb_false_iff, Hnone. apply list_elem_of_In.
  rewrite merge_sort_Permutation, elem_of_filter_rows. split; [eauto|by apply bool_decide_eq_true].
Qed.

Lemma place_ok plan o w w' host :
  w_tx w = Some (w_db w) -> place config locked plan o w = (w', Ok host) ->
  (exists k, t_hosts (w_db w) !! k = Some host) /\
  eligible (w_db w) (pl_request plan) config host = true /\
  forall ob, rv_root_disk_object_id (pl_vm plan) = Some ob -> root_free (w_db w) ob.
Proof.
  intros Htx Hrun. apply bind_ok_inv in Hrun as (h&w1&Hp&Hrun).
  apply bind_ok_inv in Hp as (r&w2&Hr&Hp). apply lift_err_ok_inv in Hr. unfold pick_host_now in Hr.
  apply pick_host_inv in Hr as [-> Hr]. unfold of_result in Hp. injection Hp as <- Hp.
  apply ok_or_ok in Hp as ->. destruct Hr as (Hk&He&_). simpl in Hk, He. rewrite Htx in Hk, He.
  apply bind_ok_inv in Hrun as ([]&w2&Ha&Hrun). unfold of_result in Ha. injection Ha as <- _.
  apply bind_ok_inv in Hrun as ([]&w3&Hroot&Hret). unfold mret, M_ret in Hret. injection Hret as <- <-.
  split_and!; [done|done|]. intros ob Hob. rewrite Hob in Hroot.
  apply bind_ok_inv in Hroot as ([]&w4&Hv&Hroot).
  assert (same_but_step (tick w) w4) as (D4&T4&_).
  { assert (steps same_but_step (validate_root_disk_for_host (h_id h) ob (sr_storage_pool_id (pl_request plan))))
      as Hs by (unfold validate_root_disk_for_host, host_has_pool; steps_tac).
    specialize (Hs o (tick w)). by rewrite Hv in Hs. }
  apply bind_ok_inv in Hroot as (obj&w5&Hobj&Hroot). apply lift_err_ok_inv, query_ok_inv in Hobj as [Hobj ->].
  apply bind_ok_inv in Hroot as (pool&w6&Hpool&Hroot). apply lift_err_ok_inv, query_ok_inv in Hpool as [Hpool ->].
  simpl in *. rewrite T4 in Hobj. simpl in Hobj. rewrite Htx in Hobj. rewrite D4 in Hpool. simpl in *.
  apply ok_or_ok in Hobj, Hpool. exists obj, pool. split_and!; [done|done|]. intros Hex.
  unfold ensure_storage_object_can_be_attached_tx in Hroot.
  apply bind_ok_inv in Hroot as (att&w7&Hatt&Hroot).
  apply lift_err_ok_inv, query_ok_inv in Hatt as [[= <-] ->]. simpl in Hroot.
  rewrite Hex in Hroot. simpl in Hroot. rewrite T4 in Hroot. simpl in Hroot. rewrite Htx in Hroot.
  by eapply refuse_any_ok.
Qed.

(** *** The GPUs *)

Lemma write_gpus_moves plan h id : steps (tx_moves anything) (write_gpus locked_gpus plan h id).
Proof.
  unfold write_gpus. destruct (pl_accel plan) as [a|]; [|apply steps_ret]. unfold allocate_vm_gpus.
  apply steps_bind.
  - apply steps_lift_err. intros o w. unfold allocate_gpus_now. revert o w.
    intros o w. unfold allocate_gpus. apply (steps_bind (R := tx_moves anything)).
    + apply steps_now, tx_moves_tick, _.
    + intros t. by apply steps_execute_tx.
  - intros l. destruct (_ <? _); [apply steps_throw|apply steps_ret].
Qed.

Lemma write_gpus_ok plan h id o w w' :
  write_gpus locked_gpus plan h id o w = (w', Ok tt) ->
  (exists t, conn_db Tx w' = with_host_gpus (fun _ => t) (conn_db Tx w)) /\
  forall a, pl_accel plan = Some a -> ac_gpu_count a <= i32_max -> gpus_ok (t_host_gpus (conn_db Tx w)) ->
    has_gpus (conn_db Tx w) id h (ac_gpu_count a) (conn_db Tx w').
Proof.
  unfold write_gpus. destruct (pl_accel plan) as [a|].
  2:{ unfold mret, M_ret. intros [= <-]. split; [|done]. exists (t_host_gpus (conn_db Tx w)).
      by destruct (conn_db Tx w). }
  intros Hrun. apply bind_ok_inv in Hrun as (l&w1&Hl&Hrun). apply lift_err_ok_inv in Hl.
  destruct (as_i32 _ <? _) eqn:Hc; [done|]. unfold mret, M_ret in Hrun. injection Hrun as <-.
  unfold allocate_gpus_now in Hl. split.
  - unfold allocate_gpus in Hl. minv. destruct (_ <? 0); [discriminate|]. simplify_eq. by eexists.
  - intros a' [= <-] Hmax Hok. pose proof (allocate_NoDup _ _ _ _ _ _ _ _ _ Hok Hl) as Hnd.
    apply allocate_gpus_spec in Hl as (Hlen&Hin&_&_); [|exact Hok]. simpl in Hlen.
    exists l. split_and!; [done| |].
    + apply Z.ltb_ge in Hc. rewrite as_i32_id in Hc; [lia|]. unfold in_range, i32_min, i32_max in *. lia.
    + intros g Hg. destruct (Hin g Hg) as (H1&H2&g0&H3&H4&H5&_). split_and!; [done|done|]. by exists g0.
Qed.

(** *** The whole creation *)

(** A plan asks for what the request asks for. *)
Definition plan_of (vm : ResolvedNewVm) (plan : Plan) : Prop :=
  pl_vm plan = persist_vm_scheduling_metadata vm (pl_architecture plan) /\
  pl_accel plan = rv_accelerator_config vm ≫= AcceleratorConfig_from_value accel_de /\
  sr_memory_bytes (pl_request plan) = rv_memory_size vm /\
  sr_vcpus (pl_request plan) = rv_boot_vcpus vm /\
  sr_gpu (pl_request plan) = gpu_request <$> pl_accel plan /\
  forall n, n ∈ sr_required_network_ids (pl_request plan) <->
    rv_network_id vm = Some n \/ exists net, net ∈ default [] (rv_networks vm) /\ nn_network_id net = Some n.

(** The VM as it was asked for, on a host that was eligible for it, with
    everything that belongs to it. *)
Definition created (status : VmStatus) (before after : Db) (vm : ResolvedNewVm) (id : Uuid) : Prop :=
  exists plan host, plan_of vm plan /\
    (exists k, t_hosts before !! k = Some host) /\
    eligible before (pl_request plan) config host = true /\
    t_vms before !! id = None /\
    sandbox_tables after = sandbox_tables before /\
    t_vms after = <[id := new_row id (pl_vm plan) (Some (h_id host)) status]> (t_vms before) /\
    (forall net, net ∈ default [] (rv_networks vm) -> has_nic id net after /\ has_static before id net after) /\
    (forall n, rv_network_id vm = Some n -> has_managed before id n after) /\
    (forall g, g ∈ default [] (rv_security_group_ids vm) -> (id, g) ∈ t_vm_security_groups after) /\
    (forall ob, rv_root_disk_object_id vm = Some ob -> root_free before ob /\ has_root id ob after) /\
    (forall a, pl_accel plan = Some a -> ac_gpu_count a <= i32_max -> gpus_ok (t_host_gpus before) ->
       has_gpus before id (h_id host) (ac_gpu_count a) after).

Lemma image_pools_reads images c : steps same_but_step (image_pools images c).
Proof.
  revert c. induction images as [|i images IH]; intros c; cbn [image_pools]; [apply steps_ret|].
  unfold get_object, get_pool. steps_tac; apply IH.
Qed.

Lemma boot_constraint_reads b : steps same_but_step (boot_source_pool_constraint sqlx_text b).
Proof.
  unfold boot_source_pool_constraint. destruct b as [b|]; [|apply steps_ret].
  apply steps_bind; [unfold get_boot_source; steps_tac|]. intros s. apply image_pools_reads.
Qed.
#[local] Hint Resolve boot_constraint_reads : qarax.

Lemma plan_reads vm : steps same_but_step (plan_creation control_plane_architecture accel_de sqlx_text vm).
Proof.
  unfold plan_creation, scheduling_request_for_vm, root_disk_scheduling_requirements,
    validate_requested_static_ips_are_available, ensure_ip_address_is_available,
    ensure_security_groups_exist, get_object, get_pool, get_allocation, get_group.
  steps_tac.
Qed.

Lemma plan_ok vm o w w' plan :
  plan_creation control_plane_architecture accel_de sqlx_text vm o w = (w', Ok plan) -> plan_of vm plan.
Proof.
  intros Hrun. apply bind_ok_inv in Hrun as (req&w1&Hreq&Hrun).
  apply bind_ok_inv in Hrun as ([]&w2&_&Hrun). apply bind_ok_inv in Hrun as ([]&w3&_&Hrun).
  unfold mret, M_ret in Hrun. injection Hrun as _ <-.
  apply bind_ok_inv in Hreq as ([db rp]&w4&_&Hreq). apply bind_ok_inv in Hreq as ([bp l]&w5&_&Hreq).
  unfold mret, M_ret in Hreq. injection Hreq as _ <-. split_and!; try done. intros n. cbn.
  rewrite elem_of_elements, elem_of_list_to_set, elem_of_app, list_elem_of_omap. f_equiv.
  destruct (rv_network_id vm); simpl; set_solver.
Qed.

Lemma create_tx_moves vm h s : steps (tx_moves anything) (create_tx_with_status vm h s).
Proof.
  apply steps_bind; [apply steps_new_uuid, tx_moves_tick, _|]. intros id. by apply steps_execute_tx.
Qed.

Lemma builds_moves {E A} (m : M E A) : steps (tx_moves builds) m -> steps (tx_moves anything) m.
Proof. by apply steps_tx_mono. Qed.

Lemma creation_moves fuel plan :
  steps (tx_moves anything) (creation_body config locked locked_gpus fuel plan).
Proof.
  apply steps_bind; [apply steps_tx_reads, place_reads|]. intros host.
  apply steps_bind; [apply steps_lift_err, create_tx_moves|]. intros id.
  apply steps_bind; [apply builds_moves, register_builds|]. intros _.
  apply steps_bind; [apply builds_moves, write_root_builds|]. intros _.
  apply steps_bind; [apply builds_moves, write_networks_builds|]. intros [[]|]; [|apply steps_ret].
  apply steps_bind; [apply builds_moves, write_groups_builds|]. intros _.
  apply steps_bind; [apply write_gpus_moves|]. intros _. apply steps_ret.
Qed.

(** The rows of a VM relative to the tables before: they stay when rows are added. *)
Record furnished (before : Db) (vm : ResolvedNewVm) (id : Uuid) (db : Db) : Prop := {
  fu_nics : forall net, net ∈ default [] (rv_networks vm) -> has_nic id net db;
  fu_static : forall net, net ∈ default [] (rv_networks vm) -> has_static before id net db;
  fu_managed : forall n, rv_network_id vm = Some n -> has_managed before id n db;
  fu_groups : forall g, g ∈ default [] (rv_security_group_ids vm) -> (id, g) ∈ t_vm_security_groups db;
  fu_root : forall ob, rv_root_disk_object_id vm = Some ob -> has_root id ob db
}.

Lemma created_intro status vm plan host id before w w' :
  plan_of vm plan -> (exists k, t_hosts before !! k = Some host) ->
  eligible before (pl_request plan) config host = true -> t_vms before !! id = None ->
  (forall ob, rv_root_disk_object_id (pl_vm plan) = Some ob -> root_free before ob) ->
  builds (with_vms (insert id (new_row id (pl_vm plan) (Some (h_id host)) status)) before) (conn_db Tx w) ->
  furnished before (pl_vm plan) id (conn_db Tx w) ->
  (exists o, write_gpus locked_gpus plan (h_id host) id o w = (w', Ok tt)) ->
  created status before (conn_db Tx w') vm id.
Proof.
  intros Hplan Hk He Hn Hroot B [F1 F2 F3 F4 F5] [o H7].
  apply write_gpus_ok in H7 as [[t Hdb7] H7]. pose proof Hplan as (Hvm&_).
  rewrite Hvm in F1, F2, F3, F4, F5, Hroot. simpl in F1, F2, F3, F4, F5, Hroot.
  exists plan, host. rewrite Hdb7. split_and!; try done.
  - exact (bu_sandboxes _ _ B).
  - change (t_vms (conn_db Tx w) = <[id := new_row id (pl_vm plan) (Some (h_id host)) status]> (t_vms before)).
    by rewrite (bu_vms _ _ B).
  - intros net Hnet. split; [exact (F1 net Hnet)|exact (F2 net Hnet)].
  - intros ob Hob. split; [by apply Hroot|]. exact (F5 ob Hob).
  - intros a Ha Hmax Hok. rewrite <- Hdb7.
    assert (t_host_gpus (conn_db Tx w) = t_host_gpus before) as HG by (by rewrite (bu_gpus _ _ B)).
    specialize (H7 a Ha Hmax). rewrite HG in H7. specialize (H7 Hok).
    unfold has_gpus in *. by rewrite HG in H7.
Qed.

(** Run the next write of the transaction, keeping what it adds. *)
Ltac write_step Hrun a w' Hm B :=
  apply bind_ok_inv in Hrun as (a&w'&Hm&Hrun);
  match type of Hm with ?m ?o ?w = _ =>
    assert (steps (tx_moves builds) m) as B
      by first [apply register_builds | apply write_root_builds | apply write_networks_builds
               | apply write_groups_builds];
    specialize (B o w) as (_&_&B); rewrite Hm in B; simpl fst in B
  end.

Lemma creation_ok fuel vm plan o w w' c r :
  plan_of vm plan -> w_tx w = Some (w_db w) ->
  creation_body config locked locked_gpus fuel plan o w = (w', Ok (c, r)) ->
  match r with
  | Some id => c = true /\ created Created (w_db w) (conn_db Tx w') vm id
  | None => c = false
  end.
Proof.
  intros Hplan Htx Hrun. apply bind_ok_inv in Hrun as (host&w1&Hp&Hrun).
  pose proof (place_reads plan o w) as (D1&T1&_). rewrite Hp in D1, T1. simpl in D1, T1.
  apply place_ok in Hp as (Hk&He&Hroot); [|done].
  apply bind_ok_inv in Hrun as (id&w2&Hid&Hrun). apply lift_err_ok_inv, create_tx_inv in Hid as (Hn&_&Hdb2).
  assert (conn_db Tx w1 = w_db w) as Hc by (simpl; by rewrite T1, Htx). rewrite Hc in Hn, Hdb2.
  write_step Hrun u3 w3 H3 B3. write_step Hrun u4 w4 H4 B4. write_step Hrun d w5 H5 B5.
  destruct d as [[]|]; [|unfold mret, M_ret in Hrun; by injection Hrun as _ <- <-].
  write_step Hrun u6 w6 H6 B6. destruct u3, u4, u6.
  apply bind_ok_inv in Hrun as ([]&w7&H7&Hrun). unfold mret, M_ret in Hrun. injection Hrun as <- <- <-.
  assert (builds (conn_db Tx w3) (conn_db Tx w6)) as B36 by (do 2 (etransitivity; [eassumption|]); done).
  destruct (write_networks_ok (conn_db Tx w2) _ _ _ _ _ _ (transitivity B3 B4) H5) as [N1 N2].
  split; [done|]. eapply created_intro; try eassumption; [| |by exists o].
  - rewrite <- Hdb2. by transitivity (conn_db Tx w3).
  - pose proof (register_ok _ _ _ _ _ _ (reflexivity (conn_db Tx w2)) H3) as R.
    rewrite Hdb2 in N2, R. split; intros x Hx.
    + eapply has_nic_builds; [exact B6|]. by apply N1.
    + eapply has_static_builds; [exact B36|]. exact (R x Hx).
    + eapply has_managed_builds; [exact B6|]. exact (N2 x Hx).
    + by eapply (write_groups_ok _ _ _ _ _ _ (reflexivity (conn_db Tx w5)) H6).
    + eapply has_root_builds; [exact (transitivity B5 B6)|]. by eapply write_root_ok.
Qed.

Lemma image_moves fuel plan :
  steps (tx_moves anything) (image_body config locked locked_gpus defaults fuel plan).
Proof.
  apply steps_bind; [apply steps_tx_reads, place_reads|]. intros host.
  apply steps_bind; [apply steps_tx_reads; unfold overlaybd_pool_for, find_overlaybd_for_host; steps_tac|].
  intros pool. apply steps_bind.
  { apply steps_tx_reads. unfold check_boot, resolve_boot_source, get_boot_source, get_object. steps_tac. }
  intros _. apply steps_bind.
  { apply steps_tx_reads. unfold check_upper_pool, get_pool, host_has_pool. steps_tac. }
  intros _. apply steps_bind; [apply steps_lift_err, create_tx_moves|]. intros id.
  apply steps_bind; [apply builds_moves, register_builds|]. intros _.
  apply steps_bind; [apply builds_moves, write_networks_builds|]. intros [[]|]; [|apply steps_ret].
  apply steps_bind; [apply builds_moves, write_groups_builds|]. intros _.
  apply steps_bind; [apply builds_moves, write_root_builds|]. intros _.
  apply steps_bind; [apply write_gpus_moves|]. intros _. apply steps_ret.
Qed.

Lemma create_vm_spec fuel vm o w :
  let run := create_vm_internal control_plane_architecture config locked locked_gpus accel_de sqlx_text
               fuel vm o w in
  w_log run.1 = w_log w /\
  match run.2 with
  | Ok (Some id) => created Created (w_db w) (w_db run.1) vm id
  | _ => w_db run.1 = w_db w
  end.
Proof.
  unfold create_vm_internal. pose proof (plan_reads vm o w) as (D1&_&L1).
  destruct (plan_creation _ _ _ vm o w) as [w1 [plan|e]] eqn:Hp; simpl in D1, L1.
  2:{ rewrite (bind_run_err _ _ _ _ _ _ Hp). by split. }
  rewrite (bind_run _ _ _ _ _ _ Hp). apply plan_ok in Hp.
  pose proof (in_tx_opt_run from_sqlx _ o w1 (creation_moves fuel plan)) as [L2 Hr]. cbv zeta in *.
  rewrite L2, L1. split; [done|]. destruct (in_tx_opt _ _ o w1) as [w2 [r|e]]; simpl in *; [|congruence].
  destruct Hr as (w3&c&Hb&Hdb). apply (creation_ok fuel vm) in Hb; [|done|done]. simpl in Hb.
  destruct r as [id|]; [destruct Hb as [-> Hb]|subst c; congruence].
  by rewrite Hdb, <- D1.
Qed.

(** C27. Creating a VM is one transaction and calls no node: it stores the VM as
    requested, on a host that was eligible for it, with its addresses,
    interfaces, security groups, root disk and GPUs, or it changes nothing. *)
Theorem create_vm_atomic fuel vm o w :
  let run := create_vm_internal control_plane_architecture config locked locked_gpus accel_de sqlx_text
               fuel vm o w in
  w_log run.1 = w_log w /\
  match run.2 with
  | Ok (Some id) => created Created (w_db w) (w_db run.1) vm id
  | _ => w_db run.1 = w_db w
  end.
Proof. apply create_vm_spec. Qed.

(** *** Creation from an image *)

Lemma image_ok fuel vm plan o w w' c r :
  plan_of vm plan -> w_tx w = Some (w_db w) ->
  image_body config locked locked_gpus defaults fuel plan o w = (w', Ok (c, r)) ->
  match r with
  | Some (host, pool, id) => c = true /\ created Pending (w_db w) (conn_db Tx w') vm id
  | None => c = false
  end.
Proof.
  intros Hplan Htx Hrun. apply bind_ok_inv in Hrun as (host&w1&Hp&Hrun).
  pose proof (place_reads plan o w) as (_&T1&_). rewrite Hp in T1. simpl in T1.
  apply place_ok in Hp as (Hk&He&Hroot); [|done].
  apply bind_ok_inv in Hrun as (pool&w2&H2&Hrun). apply bind_ok_inv in Hrun as ([]&w3&H3&Hrun).
  apply bind_ok_inv in Hrun as ([]&w4&H4&Hrun).
  assert (conn_db Tx w4 = w_db w) as Hc.
  { assert (steps same_but_step (overlaybd_pool_for (h_id host))) as S2
      by (unfold overlaybd_pool_for, find_overlaybd_for_host; steps_tac).
    assert (steps same_but_step (check_boot defaults (pl_vm plan))) as S3
      by (unfold check_boot, resolve_boot_source, get_boot_source, get_object; steps_tac).
    assert (steps same_but_step (match rv_persistent_upper_pool_id (pl_vm plan) with
        | None => mret tt | Some p => check_upper_pool (h_id host) p end)) as S4
      by (unfold check_upper_pool, get_pool, host_has_pool; steps_tac).
    specialize (S2 o w1) as (_&S2&_). specialize (S3 o w2) as (_&S3&_). specialize (S4 o w3) as (_&S4&_).
    rewrite H2 in S2. rewrite H3 in S3. rewrite H4 in S4. simpl in *. by rewrite S4, S3, S2, T1, Htx. }
  apply bind_ok_inv in Hrun as (id&w5&Hid&Hrun). apply lift_err_ok_inv, create_tx_inv in Hid as (Hn&_&Hdb2).
  rewrite Hc in Hn, Hdb2. clear H2 H3 H4.
  write_step Hrun u6 w6 H6 B6. write_step Hrun d w7 H7 B7.
  destruct d as [[]|]; [|unfold mret, M_ret in Hrun; by injection Hrun as _ <- <-].
  write_step Hrun u8 w8 H8 B8. write_step Hrun u9 w9 H9 B9. destruct u6, u8, u9.
  apply bind_ok_inv in Hrun as ([]&w10&H10&Hrun). unfold mret, M_ret in Hrun. injection Hrun as <- <- <-.
  pose proof (transitivity B8 B9) as B89.
  destruct (write_networks_ok (conn_db Tx w5) _ _ _ _ _ _ B6 H7) as [N1 N2].
  split; [done|]. eapply created_intro; try eassumption; [| |by exists o].
  - rewrite <- Hdb2. transitivity (conn_db Tx w6); [done|]. by transitivity (conn_db Tx w7).
  - pose proof (register_ok _ _ _ _ _ _ (reflexivity (conn_db Tx w5)) H6) as R.
    rewrite Hdb2 in N2, R. split; intros x Hx.
    + eapply has_nic_builds; [exact B89|]. by apply N1.
    + eapply has_static_builds; [exact (transitivity B7 B89)|]. exact (R x Hx).
    + eapply has_managed_builds; [exact B89|]. exact (N2 x Hx).
    + apply (bu_groups _ _ B9). by eapply (write_groups_ok _ _ _ _ _ _ (reflexivity (conn_db Tx w7)) H8).
    + by eapply write_root_ok.
Qed.

Lemma created_jobs status before after vm id t :
  created status before after vm id -> created status before (with_jobs (fun _ => t) after) vm id.
Proof. intros (plan&host&Hc). by exists plan, host. Qed.

Lemma image_create_spec fuel image_ref vm o w :
  let run := create_vm_with_image_internal control_plane_architecture config locked locked_gpus accel_de
               sqlx_text defaults fuel image_ref vm o w in
  match run.2 with
  | Ok (Some (id, job_id)) =>
      created Pending (w_db w) (w_db run.1) vm id /\
      (exists t, t_jobs (w_db run.1) !! job_id = Some (pending_job job_id (image_job image_ref id) t)) /\
      exists host pool, w_log run.1 = w_log w ++
        [EvTask (ImagePullTask host id job_id image_ref pool (rv_persistent_upper_pool_id vm))]
  | Ok None => w_db run.1 = w_db w /\ w_log run.1 = w_log w
  | Err _ => w_log run.1 = w_log w /\
      (w_db run.1 = w_db w \/ exists id, created Pending (w_db w) (w_db run.1) vm id)
  end.
Proof.
  unfold create_vm_with_image_internal. pose proof (plan_reads vm o w) as (D1&_&L1).
  destruct (plan_creation _ _ _ vm o w) as [w1 [plan|e]] eqn:Hp; simpl in D1, L1.
  2:{ rewrite (bind_run_err _ _ _ _ _ _ Hp). split; [done|by left]. }
  rewrite (bind_run _ _ _ _ _ _ Hp). apply plan_ok in Hp.
  pose proof (in_tx_opt_run from_sqlx _ o w1 (image_moves fuel plan)) as [L2 Hr]. cbv zeta in *.
  destruct (in_tx_opt _ _ o w1) as [w2 [r|e]] eqn:Htx; simpl in L2, Hr.
  2:{ rewrite (bind_run_err _ _ _ _ _ _ Htx). simpl. split; [congruence|left; congruence]. }
  rewrite (bind_run _ _ _ _ _ _ Htx). destruct Hr as (w3&c&Hb&Hdb).
  apply (image_ok fuel vm) in Hb; [|done|done]. simpl in Hb.
  destruct r as [[[host pool] id]|]; [|subst c; simpl; split; congruence].
  destruct Hb as [-> Hb]. rewrite <- Hdb, D1 in Hb.
  destruct (Jobs.create (image_job image_ref id) o w2) as [w4 [job|e]] eqn:Hj.
  - rewrite (bind_run _ _ _ _ _ _ (lift_err_run _ _ _ _ _ _ Hj)).
    pose proof (create_only (image_job image_ref id) o w2) as [[t D4] L4]. rewrite Hj in D4, L4. simpl in D4, L4.
    pose proof (create_effect _ _ _ _ _ Hj) as (Hpj&_&Hjob). simpl. split_and!.
    + rewrite D4. by apply created_jobs.
    + exists (j_created_at job). by rewrite Hjob, <- Hpj.
    + exists host, pool. by rewrite L4, L2, L1.
  - rewrite (bind_run_err _ _ _ _ _ _ (lift_err_run _ _ _ _ _ _ Hj)).
    pose proof (create_only (image_job image_ref id) o w2) as [[t D4] L4]. rewrite Hj in D4, L4. simpl in D4, L4.
    simpl. split; [congruence|]. right. exists id. rewrite D4. by apply created_jobs.
Qed.

(** Creating a VM from an image that is accepted stores the VM as [Pending]
    with everything that belongs to it, one pending job, and spawns the pull; when
    it is refused nothing is stored, except that a failing insert of the job
    leaves the VM [Pending] with no task that could ever finish it. *)
Theorem image_create_effect fuel image_ref vm o w :
  let run := create_vm_with_image_internal control_plane_architecture config locked locked_gpus accel_de
               sqlx_text defaults fuel image_ref vm o w in
  match run.2 with
  | Ok (Some (id, job_id)) =>
      created Pending (w_db w) (w_db run.1) vm id /\
      (exists t, t_jobs (w_db run.1) !! job_id = Some (pending_job job_id (image_job image_ref id) t)) /\
      exists host pool, w_log run.1 = w_log w ++
        [EvTask (ImagePullTask host id job_id image_ref pool (rv_persistent_upper_pool_id vm))]
  | Ok None => w_db run.1 = w_db w /\ w_log run.1 = w_log w
  | Err _ => w_log run.1 = w_log w /\
      (w_db run.1 = w_db w \/ exists id, created Pending (w_db w) (w_db run.1) vm id)
  end.
Proof. apply image_create_spec. Qed.

(** *** The image pull *)

Variables (to_rfc3339 : Z -> string) (rpc_error_text : RpcCall -> RpcOutcome -> string)
  (overlaybd_url : json -> option string) (imported : nat -> OverlayBdImport).

Abbreviation attach := (attach_image sqlx_text to_rfc3339).
Abbreviation pull := (run_image_pull sqlx_text to_rfc3339 rpc_error_text overlaybd_url imported).

Lemma restatus_same id S w w' : t_vms (w_db w') = t_vms (w_db w) -> restatus id S w w'.
Proof. by left. Qed.

Lemma restatus_storage {E A} id S (m : M E A) : steps (db_moves storage_only) m -> steps (restatus id S) m.
Proof. intros Hm o w. apply restatus_same, (sto_vms _ _ (Hm o w)). Qed.

Lemma restatus_jobs {E A} id S (m : M E A) : steps jobs_only m -> steps (restatus id S) m.
Proof. intros Hm o w. apply restatus_same. by apply (jobs_only_table t_vms _ _ (fun _ _ => eq_refl) (Hm o w)). Qed.

Lemma restatus_reads {E A} id S (m : M E A) : steps same_but_step m -> steps (restatus id S) m.
Proof. intros Hm o w. destruct (Hm o w) as (D&_&_). apply restatus_same. by rewrite D. Qed.

Lemma pull_failed_step id job msg : steps (restatus id [Unknown]) (pull_failed to_rfc3339 id job msg).
Proof.
  apply steps_bind; [apply steps_attempt, restatus_jobs, update_job_only|]. intros _.
  apply steps_bind; [apply steps_attempt, update_status_restatus|]. intros _. apply steps_ret.
Qed.

Lemma create_upper_only id p : steps (db_moves storage_only) (create_upper id p).
Proof.
  destruct p as [p|]; [|apply steps_ret].
  apply steps_bind; [apply steps_db_reads, query_same_but_step|]. intros vm.
  apply steps_bind; [apply steps_of_result|]. intros h.
  apply steps_bind; [apply create_managed_only|]. intros u. apply steps_ret.
Qed.

(** The object of the image is there and stays there. *)
Definition image_stored (pool_id so_id : Uuid) (db : Db) : Prop :=
  exists r, t_storage_objects db !! so_id = Some r /\ so_object_type r = OciImage /\
    so_storage_pool_id r = pool_id.

Lemma create_upper_keeps pool_id so id p o w w' u :
  create_upper id p o w = (w', Ok u) -> image_stored pool_id so (w_db w) -> image_stored pool_id so (w_db w').
Proof.
  destruct p as [p|]; simpl.
  2:{ unfold mret, M_ret. by intros [= <- _]. }
  intros Hrun (r&Hr&Ht). apply bind_ok_inv in Hrun as (vm&w1&Hvm&Hrun).
  apply query_ok_inv in Hvm as [_ ->]. apply bind_ok_inv in Hrun as (h&w2&Hh&Hrun).
  unfold of_result in Hh. injection Hh as <- _. apply bind_ok_inv in Hrun as (x&w3&Hx&Hret).
  unfold mret, M_ret in Hret. injection Hret as <- _. apply bind_ok_inv in Hx as (q&w4&Hq&Hret).
  unfold mret, M_ret in Hret. injection Hret as <- _.
  apply insert_object_ok in Hq as (Hn&Hq&_). simpl in Hn, Hq. exists r. split; [|done].
  rewrite Hq, lookup_insert_ne; [done|]. intros <-. congruence.
Qed.

(** The VM became [Created] with the disk of the image attached. *)
Definition disk_attached (vm_id pool_id : Uuid) (w' : World) : Prop :=
  exists k d so, t_vm_disks (w_db w') !! k = Some d /\ vd_vm_id d = vm_id /\
    vd_storage_object_id d = Some so /\ image_stored pool_id so (w_db w').

Lemma record_disk_run vm_id so name u o w w' r :
  record_disk vm_id so name u o w = (w', r) ->
  t_vms (w_db w') = t_vms (w_db w) /\ t_storage_objects (w_db w') = t_storage_objects (w_db w) /\
  forall k, r = Ok k -> t_vm_disks (w_db w') !! k
    = Some (disk_row k (simple_disk vm_id so name ("/dev/" +:+ name) 0 JNull u)).
Proof.
  unfold record_disk, create_disk, create_disk_on. intros Hrun. unfold mbind, M_bind, new_uuid, execute in Hrun.
  simpl in Hrun. destruct (o_sql o (S (w_step w))); [by injection Hrun as <- <-|].
  destruct (unit_result _) as [[db []]|e] eqn:Hf; [|by injection Hrun as <- <-].
  apply unit_result_inv, insert_disk_inv in Hf as [_ ->]. injection Hrun as <- <-.
  split_and!; [done|done|]. intros k [= <-]. apply lookup_insert_eq.
Qed.

(** The last two writes of a pull. *)
Lemma finish_pull vm_id job_id digest o w :
  let w' := ((_ ← (attempt (Vms.update_status to_rfc3339 vm_id Created) : M SqlxError _);
              _ ← (attempt (Jobs.mark_completed job_id (Some (JObject {["digest"%string := JString digest]})))
                   : M SqlxError _); mret tt) o w).1 in
  restatus vm_id [Created] w w' /\ t_vm_disks (w_db w') = t_vm_disks (w_db w) /\
  t_storage_objects (w_db w') = t_storage_objects (w_db w).
Proof.
  assert (forall A (f : Db -> A), (forall g db, f (with_vms g db) = f db) ->
    (forall g db, f (with_hook_executions g db) = f db) -> (forall g db, f (with_jobs g db) = f db) ->
    steps (keeps_table f) (_ ← (attempt (Vms.update_status to_rfc3339 vm_id Created) : M SqlxError _);
      _ ← (attempt (Jobs.mark_completed job_id (Some (JObject {["digest"%string := JString digest]})))
           : M SqlxError _); mret tt)) as Hk.
  { intros A f Hv Hh Hj. apply steps_bind.
    - apply steps_attempt. by apply update_status_keeps; intros; simpl.
    - intros _. apply steps_bind; [|intros ?; apply steps_ret]. apply steps_attempt. intros o1 w1.
      apply (jobs_only_table f); [intros; apply Hj|apply update_job_only]. }
  cbv zeta. split_and!; [|by apply (Hk _ t_vm_disks)|by apply (Hk _ t_storage_objects)].
  apply (steps_bind (R := restatus vm_id [Created])); [apply steps_attempt, update_status_restatus|]. intros _.
  apply steps_bind; [apply steps_attempt, restatus_jobs, update_job_only|]. intros _. apply steps_ret.
Qed.

Lemma attach_outcome vm_id job_id so pool_id digest upper o w :
  image_stored pool_id so (w_db w) ->
  let w' := (attach vm_id job_id so digest upper o w).1 in
  restatus vm_id [Unknown] w w' \/ (restatus vm_id [Created] w w' /\ disk_attached vm_id pool_id w').
Proof.
  intros Hso. cbv zeta. unfold attach_image.
  assert (steps same_but_step (list_disks_by_vm vm_id)) as Hl by apply query_same_but_step.
  specialize (Hl o w) as (D1&_&_).
  destruct (list_disks_by_vm vm_id o w) as [w1 r1] eqn:H1. rewrite (attempt_bind_run _ _ _ _ _ _ H1).
  simpl in D1. destruct r1 as [existing|e].
  2:{ left. etransitivity; [apply restatus_same; by rewrite D1|apply pull_failed_step]. }
  pose proof (create_upper_only vm_id upper o w1) as S2.
  destruct (create_upper vm_id upper o w1) as [w2 r2] eqn:H2. rewrite (attempt_bind_run _ _ _ _ _ _ H2).
  unfold db_moves in S2. simpl in S2.
  assert (t_vms (w_db w2) = t_vms (w_db w)) as V2 by (by rewrite (sto_vms _ _ S2), D1).
  assert (restatus vm_id [Unknown] w w2) as R2 by (by apply restatus_same).
  assert (forall id, steps (restatus vm_id [Unknown]) (attempt (delete_object id) : M SqlxError _)) as Hdel
    by (intros id; apply steps_attempt, restatus_storage, delete_object_m_only).
  destruct r2 as [u|e].
  2:{ left. etransitivity; [exact R2|].
      apply (steps_bind (R := restatus vm_id [Unknown])); [apply Hdel|intros _; apply pull_failed_step]. }
  apply (create_upper_keeps pool_id so) in H2; [|by rewrite D1].
  destruct (record_disk vm_id so (default "" (next_disk_id existing)) u o w2) as [w3 r3] eqn:H3.
  rewrite (attempt_bind_run _ _ _ _ _ _ H3). apply record_disk_run in H3 as (V3&O3&K3).
  destruct r3 as [k|e].
  - right. destruct (finish_pull vm_id job_id digest o w3) as (R4&K4&O4). cbv zeta in *. split.
    + etransitivity; [apply restatus_same; by rewrite V3, V2|exact R4].
    + eexists k, _, so. rewrite K4, (K3 k eq_refl). split_and!; [done|done|done|].
      unfold image_stored. by rewrite O4, O3.
  - left. etransitivity; [exact R2|]. etransitivity; [apply restatus_same; exact V3|].
    apply (steps_bind (R := restatus vm_id [Unknown])); [apply Hdel|]. intros _.
    apply (steps_bind (R := restatus vm_id [Unknown])); [|intros _; apply pull_failed_step].
    destruct u as [u|]; [|apply steps_ret]. apply steps_bind; [apply Hdel|intros ?; apply steps_ret].
Qed.

Lemma insert_object_log new hosts : steps (keeps w_log) (insert_object new hosts).
Proof.
  apply steps_bind.
  - intros o w. apply resolve_new_object_reads.
  - intros [[id p] c]. apply steps_bind; [by apply steps_execute|intros ?; apply steps_ret].
Qed.
Lemma create_object_log new : steps (keeps w_log) (create_object new).
Proof. apply steps_bind; [apply insert_object_log|intros ?; apply steps_ret]. Qed.

Lemma keeps_log_grows {E A} (m : M E A) : steps (keeps w_log) m -> steps log_grows m.
Proof. intros Hm o w. exists []. rewrite app_nil_r. apply Hm. Qed.

Lemma pull_failed_grows id job msg : steps log_grows (pull_failed to_rfc3339 id job msg).
Proof.
  apply steps_bind; [apply steps_attempt, keeps_log_grows; intros o w; apply update_job_only|]. intros _.
  apply steps_bind; [apply steps_attempt, update_status_log_grows|]. intros _. apply steps_ret.
Qed.

Lemma attach_grows vm_id job_id so digest upper : steps log_grows (attach vm_id job_id so digest upper).
Proof.
  assert (forall id, steps log_grows (attempt (delete_object id) : M SqlxError _)) as Hdel.
  { intros id. apply steps_attempt, keeps_log_grows. apply steps_bind; [by apply steps_now|].
    intros t. by apply steps_execute. }
  apply steps_bind; [apply steps_attempt, keeps_log_grows; by apply steps_query|].
  intros [existing|e]; [|apply pull_failed_grows]. apply steps_bind.
  { apply steps_attempt, keeps_log_grows. unfold create_upper. destruct upper as [p|]; [|apply steps_ret].
    apply steps_bind; [by apply steps_query|]. intros vm. apply steps_bind; [apply steps_of_result|].
    intros h. apply steps_bind; [|intros ?; apply steps_ret].
    apply steps_bind; [apply insert_object_log|intros ?; apply steps_ret]. }
  intros [u|e].
  2:{ apply steps_bind; [apply Hdel|intros _; apply pull_failed_grows]. }
  apply steps_bind.
  { apply steps_attempt, keeps_log_grows. apply steps_bind; [by apply steps_new_uuid|]. intros k.
    apply steps_bind; [by apply steps_execute|intros ?; apply steps_ret]. }
  intros [k|e].
  - apply steps_bind; [apply steps_attempt, update_status_log_grows|]. intros _.
    apply steps_bind; [|intros _; apply steps_ret].
    apply steps_attempt, keeps_log_grows. intros o w. apply update_job_only.
  - apply steps_bind; [apply Hdel|]. intros _. apply steps_bind; [|intros _; apply pull_failed_grows].
    destruct u as [u|]; [|apply steps_ret]. apply steps_bind; [apply Hdel|intros ?; apply steps_ret].
Qed.

(** However the database and the node behave, the image pull of a VM changes
    at most its status, to [Unknown], or to [Created]; the latter only after the
    node imported the image and when the VM has a disk of the image in the pool. *)
Theorem image_pull_outcome host vm_id job_id image_ref pool upper o w :
  let w' := (pull host vm_id job_id image_ref pool upper o w).1 in
  restatus vm_id [Unknown] w w' \/
  (restatus vm_id [Created] w w' /\ disk_attached vm_id (sp_id pool) w' /\
   exists url, overlaybd_url (sp_config pool) = Some url /\
     logged w w' (accepted host (ImportOverlayBdImage image_ref url))).
Proof.
  cbv zeta. unfold run_image_pull. pose proof (update_job_only running_row job_id o w) as J1.
  destruct (Jobs.mark_running job_id o w) as [w1 r1] eqn:H1. unfold Jobs.mark_running in H1. rewrite H1 in J1.
  simpl in J1. rewrite (attempt_bind_run _ _ _ _ _ _ H1).
  pose proof (jobs_only_table t_vms _ _ (fun _ _ => eq_refl) J1) as V1. simpl in V1.
  assert (restatus vm_id [Unknown] w w1) as R1 by (by apply restatus_same).
  destruct r1 as [[]|e]; [|by left]. unfold run_overlaybd_create.
  destruct (overlaybd_url (sp_config pool)) as [url|].
  2:{ left. etransitivity; [exact R1|apply pull_failed_step]. }
  destruct (import_overlaybd_image rpc_error_text imported host image_ref url o w1) as [w2 r2] eqn:H2.
  rewrite (attempt_bind_run _ _ _ _ _ _ H2).
  assert (w_db w2 = w_db w1) as D2 by (unfold import_overlaybd_image, rpc in H2; by destruct (o_rpc o (w_step w1)); injection H2 as <- _).
  assert (restatus vm_id [Unknown] w w2) as R2 by (etransitivity; [exact R1|apply restatus_same; by rewrite D2]).
  destruct r2 as [imp|e]; [|left; etransitivity; [exact R2|apply pull_failed_step]].
  assert (logged w w2 (accepted host (ImportOverlayBdImage image_ref url))) as Hlog.
  { unfold import_overlaybd_image in H2. destruct (rpc host _ o w1) as [w3 r3] eqn:H3.
    destruct r3 as [[| |]|]; try discriminate. injection H2 as <- _. apply rpc_logged in H3.
    eapply logged_grows_l; [|exact H3]. exists []. rewrite app_nil_r. apply J1. }
  pose proof (update_job_only (progress_row 50) job_id o w2) as J3.
  destruct (Jobs.update_progress job_id 50 o w2) as [w3 r3] eqn:H3. unfold Jobs.update_progress in H3.
  rewrite H3 in J3. simpl in J3. rewrite (attempt_bind_run _ _ _ _ _ _ H3).
  pose proof (jobs_only_table t_vms _ _ (fun _ _ => eq_refl) J3) as V3. simpl in V3.
  set (new := image_object vm_id (sp_id pool) imp url).
  pose proof (create_object_only new o w3) as S4. pose proof (create_object_log new o w3) as L4.
  destruct (create_object new o w3) as [w4 r4] eqn:H4. rewrite (attempt_bind_run _ _ _ _ _ _ H4).
  unfold db_moves, keeps in *. simpl in S4, L4.
  assert (t_vms (w_db w4) = t_vms (w_db w)) as V4 by (by rewrite (sto_vms _ _ S4), V3, D2, V1).
  destruct r4 as [so|e].
  2:{ left. etransitivity; [by apply restatus_same|apply pull_failed_step]. }
  assert (image_stored (sp_id pool) so (w_db w4)) as Hso.
  { apply bind_ok_inv in H4 as (r&w5&Hr&Hret). unfold mret, M_ret in Hret. injection Hret as <- <-.
    apply insert_object_ok in Hr as (_&Ht&_&p&c&Hrow&Hp). exists r. rewrite Ht, lookup_insert_eq.
    rewrite Hrow. simpl. split_and!; [done|done|by apply Hp]. }
  destruct (attach_outcome vm_id job_id so (sp_id pool) (oi_digest imp) upper o w4 Hso) as [R5|[R5 Hd]];
    cbv zeta in *.
  - left. etransitivity; [by apply restatus_same|exact R5].
  - right. split_and!; [etransitivity; [by apply restatus_same|exact R5]|exact Hd|].
    exists url. split; [done|]. eapply logged_grows_r; [exact Hlog|].
    transitivity w4; [exists []; rewrite app_nil_r, L4; apply J3|apply attach_grows].
Qed.
End creation_facts.

(** ** Runs *)

Section runs.
#[local] Instance runs_uuid_text : UuidText := binary_uuid_text.
#[local] Instance runs_serde : PolicySerde := array_policy_serde.
#[local] Instance runs_collation : Collation := encoding_collation.
#[local] Instance runs_inet : PgInet := slash32_inet.
#[local] Instance runs_mac : PgMacaddr := colon_mac.

Definition nothing_held (_ : nat) : gset Uuid := ∅.
Definition no_accel (_ : json) : option AcceleratorConfig := None.

(** One host, which is up and has an OverlayBD pool. *)
Definition image_db : Db :=
  with_storage_pools (fun _ => {[6%N := sample_pool 6 OverlayBd 1000 0]})
    (with_host_storage_pools (fun _ => {[(5%N, 6%N)]}) one_host_db).

(** A plain creation on this cluster succeeds and places the VM on the host. *)
Lemma create_vm_runs :
  exists w' id, create_vm_internal "x86_64" default_scheduling nothing_held nothing_held no_accel no_text
    1 web_resolved calm_oracle (world_of image_db) = (w', Ok (Some id)) /\
    (v_host_id <$> t_vms (w_db w') !! id) = Some (Some 5%N).
Proof. eexists _, _. split; vm_compute; reflexivity. Qed.

(** The database refuses the statement that opens the transaction of the job. *)
Definition job_refusing : Oracle :=
  {| o_sql := fun n => if Nat.eqb n 6 then Some OtherSqlx else None;
     o_uuid := fun n => (1000 + N.of_nat n)%N; o_now := fun n => Z.of_nat n;
     o_rpc := fun _ => RpcOk; o_http := fun _ => HttpResponse 500 None |}.

(** The job of an image pull is inserted after the VM is committed: when that
    insert fails the request is refused, but the VM stays [Pending] without a
    task, and no start accepts it. *)
Theorem image_create_strands_vm :
  let run := create_vm_with_image_internal "x86_64" default_scheduling nothing_held nothing_held no_accel
    no_text plain_defaults 1 "alpine" web_resolved job_refusing (world_of image_db) in
  is_ok run.2 = false /\ w_log run.1 = [] /\
  exists id row, t_vms (w_db run.1) !! id = Some row /\ v_status row = Pending /\
    is_ok (start_vm_internal no_text no_text no_numa plain_defaults id calm_oracle run.1).2 = false.
Proof.
  cbv zeta. split; [vm_compute; reflexivity|]. split; [vm_compute; reflexivity|].
  eexists 1003%N, _. split; [vm_compute; reflexivity|]. split; vm_compute; reflexivity.
Qed.
End runs.
