(* ===== verification/Sandboxes.v ===== *)
(** * Sandboxes: short-lived VMs and their prewarmed pools

    [qarax/src/sandbox_runtime.rs] (resolution, the watcher that waits for a VM to
    come up, destruction), [sandbox_pool_manager.rs] (keeping enough prewarmed VMs
    per template), [sandbox_reaper.rs] (removing idle sandboxes) and the handlers
    of [handlers/sandbox/handler.rs] and [pool_handler.rs].

    The watcher of a VM is a loop over what wakes it ([Wake]): the deadline, an
    event of the status bus, the loss of events, the end of the bus, or the tick
    of the job poll.  The list of wake-ups is an argument, so the theorems hold
    for every order in which they arrive; [None] means that it is still waiting. *)

From S2P Require Import Prelude Text Errors Secrets Tables NodeApi World Samples.
From S2P Require Import VmConfig Hooks Vms Jobs Storage Gpus Hosts StorageObjects Scheduler Networks Devices.
From S2P Require Import Catalog SandboxTables CreateRequest VmLifecycle VmCreate.
#[local] Open Scope Z_scope.

(** [SandboxSettings], the fields the operations use. *)
Record SandboxSettings := {
  ss_default_idle_timeout_secs : Z;
  ss_pool_member_idle_timeout_secs : Z
}.
Definition default_sandbox_settings : SandboxSettings :=
  {| ss_default_idle_timeout_secs := 300; ss_pool_member_idle_timeout_secs := 300 |}.

Inductive ReadyOutcome : Type := ReadyNow | Failed (msg : string) | TimedOut | Gone.

Inductive Wake : Type :=
| Deadline
| StatusEvent (vm : Uuid) (new_status : string)
| Lagged
| Closed
| JobTick.

(** [new_status.parse::<VmStatus>().ok()]. *)
Definition all_statuses : list VmStatus :=
  [Unknown; Pending; Created; Running; Paused; Shutdown; Migrating; Committing].
Definition parse_vm_status (s : string) : option VmStatus :=
  List.find (fun st => String.eqb (vm_status_to_string st) s) all_statuses.

Lemma parse_vm_status_to_string st : parse_vm_status (vm_status_to_string st) = Some st.
Proof. by destruct st. Qed.

(** Codes of a refused [exec_vm] other than [NotFound], with the error each gives. *)
Inductive ExecCode : Type := InvalidArgument | FailedPrecondition | DeadlineExceeded | Internal | OtherCode.

Definition is_retryable_guest_agent_error (message : string) : bool :=
  contains "failed to connect to guest-agent socket" message
  || contains "failed to open vsock stream to guest agent" message
  || contains "failed to read guest-agent handshake" message
  || contains "guest-agent handshake exceeds" message
  || contains "guest-agent connect failed" message.

Definition exec_error (status : ExecCode * string) : Error :=
  match status with
  | (InvalidArgument, m) | (FailedPrecondition, m) | (DeadlineExceeded, m) => UnprocessableEntity m
  | (Internal, m) =>
      if is_retryable_guest_agent_error m
      then UnprocessableEntity ("guest agent is not ready yet: " +:+ m)
      else InternalServerError
  | (OtherCode, _) => InternalServerError
  end.

Definition exec_vm {Reply} (reply : nat -> Reply) (status : nat -> ExecCode * string) (host : Host)
    (vm_id : Uuid) (command : list string) (timeout_secs : option Z) : M Error Reply := fun o w =>
  match rpc (E := Error) host (ExecVm vm_id command timeout_secs) o w with
  | (w', Ok RpcOk) => (w', Ok (reply (w_step w)))
  | (w', Ok RpcNotFound) => (w', Err NotFound)
  | (w', Ok RpcError) => (w', Err (exec_error (status (w_step w))))
  | (w', Err e) => (w', Err e)
  end.

(** The request for the VM of a sandbox: the template decides everything but the
    name, the hypervisor, the instance type and the network. *)
Definition sandbox_vm (req : NewSandbox) (hypervisor : Hypervisor) : NewVm :=
  {| nv_name := ns_name req; nv_tags := None; nv_vm_template_id := Some (ns_vm_template_id req);
     nv_instance_type_id := ns_instance_type_id req; nv_hypervisor := Some hypervisor;
     nv_architecture := None; nv_boot_vcpus := None; nv_max_vcpus := None; nv_cpu_topology := None;
     nv_kvm_hyperv := None; nv_memory_size := None; nv_memory_hotplug_size := None;
     nv_memory_mergeable := None; nv_memory_shared := None; nv_memory_hugepages := None;
     nv_memory_hugepage_size := None; nv_memory_prefault := None; nv_memory_thp := None;
     nv_boot_source_id := None; nv_root_disk_object_id := None; nv_boot_mode := None;
     nv_description := None; nv_image_ref := None; nv_cloud_init_user_data := None;
     nv_cloud_init_meta_data := None; nv_cloud_init_network_config := None;
     nv_network_id := ns_network_id req; nv_networks := None; nv_security_group_ids := None;
     nv_accelerator_config := None; nv_numa_config := None; nv_persistent_upper_pool_id := None;
     nv_placement_policy := None; nv_guest_agent := Some true; nv_ha_enabled := None;
     nv_config := JObject ∅ |}.

Definition nil_uuid : Uuid := 0%N.

(** [&id.to_string()[..8]]. *)
Definition short_id `{UuidText} (u : Uuid) : string := String.substring 0 8 (uuid_to_string u).

Section destruction.
Context `{UuidText} `{PolicySerde}.

(** ** Destruction *)

(** [destroy_vm] reports nothing: every failure is only logged. *)
Definition destroy_vm {E} (vm_id : Uuid) : M E unit :=
  _ ← attempt (deallocate_by_vm vm_id);
  vm ← attempt (Vms.get vm_id);
  match vm with
  | Err _ => _ ← attempt (delete_vm vm_id); mret tt
  | Ok vm =>
      _ ← (match v_host_id (vm_row vm) with
           | Some host_id =>
               host ← attempt (get_by_id host_id);
               match host with
               | Ok (Some host) => _ ← rpc host (DeleteVm vm_id); mret tt
               | _ => mret tt
               end
           | None => mret tt
           end);
      _ ← attempt (delete_vm vm_id);
      mret tt
  end.

Definition destroy_member {E} (member : SandboxPoolMember) : M E unit :=
  _ ← attempt (update_member_status (spm_id member) MemDestroying (spm_error_message member));
  _ ← destroy_vm (spm_vm_id member);
  _ ← attempt (delete_member (spm_id member));
  mret tt.

(** ** The reaper *)

Definition reap {E} (sandbox : SandboxRow) : M E unit :=
  marked ← attempt (update_sandbox_status (sb_id sandbox) SbDestroying None);
  match marked with
  | Err _ => mret tt
  | Ok _ => destroy_vm (sb_vm_id sandbox)
  end.

(** One tick of the reaper. *)
Definition reaper_tick {E} (maintenance_mode : bool) : M E unit :=
  if maintenance_mode then mret tt
  else
    expired ← attempt list_expired;
    match expired with
    | Err _ => mret tt
    | Ok expired => for_all_m reap expired
    end.

End destruction.

Section sandboxes.
Context `{UuidText} `{PolicySerde} {coll : Collation} {inet : PgInet} {mac : PgMacaddr}.
Variables (control_plane_architecture : string) (config : SchedulingSettings)
  (locked locked_gpus locked_members : nat -> gset Uuid).
Variables (accel_de : json -> option AcceleratorConfig) (sqlx_text : SqlxError -> string)
  (defaults : VmDefaults) (to_rfc3339 : Z -> string) (numa_config_de : json -> option NumaConfig).
Variables (settings : SandboxSettings).

Abbreviation create_plain :=
  (create_vm_internal control_plane_architecture config locked locked_gpus accel_de sqlx_text).
Abbreviation create_with_image :=
  (create_vm_with_image_internal control_plane_architecture config locked locked_gpus accel_de sqlx_text
     defaults).
Abbreviation start_vm := (start_vm_internal to_rfc3339 sqlx_text numa_config_de defaults).

Definition resolve_sandbox_vm (req : NewSandbox) : M Error ResolvedNewVm :=
  tpl ← lift_err Sqlx (get_template (ns_vm_template_id req));
  resolve_create_request (sandbox_vm req (default Firecracker (tpl_hypervisor tpl))).

(** The VM, with the job of its image pull when it has an image. *)
Definition create_sandbox_vm (fuel : nat) (vm : ResolvedNewVm) : M Error (option (Uuid * Uuid)) :=
  match rv_image_ref vm with
  | Some image_ref => create_with_image fuel image_ref vm
  | None => id ← create_plain fuel vm; mret ((fun id => (id, nil_uuid)) <$> id)
  end.
Definition is_oci (vm : ResolvedNewVm) : bool := bool_decide (is_Some (rv_image_ref vm)).

(** ** Waiting for a VM *)

(** The reaction to a status: whether the wait ends, and otherwise whether the VM
    was started and the job to watch. *)
Definition handle_vm_status (status : VmStatus) (oci start_kicked : bool) (current_job_id vm_id : Uuid)
  : M Error (option ReadyOutcome * (bool * Uuid)) :=
  let same := (start_kicked, current_job_id) in
  match status with
  | Running => mret (Some ReadyNow, same)
  | Shutdown | Unknown => mret (Some (Failed "VM failed to start"), same)
  | Created =>
      if oci && negb start_kicked then
        started ← attempt (start_vm vm_id);
        match started with
        | Ok start_job_id => mret (None, (true, start_job_id))
        | Err e => mret (Some (Failed (error_to_string e)), same)
        end
      else mret (None, same)
  | _ => mret (None, same)
  end.

(** Read the VM and react to its status. *)
Definition resync (oci start_kicked : bool) (job vm_id : Uuid) : M Error (option ReadyOutcome * (bool * Uuid)) :=
  vm ← attempt (Vms.get vm_id);
  match vm with
  | Ok vm => handle_vm_status (v_status (vm_row vm)) oci start_kicked job vm_id
  | Err RowNotFound => mret (Some Gone, (start_kicked, job))
  | Err _ => mret (None, (start_kicked, job))
  end.

(** The poll of the current job. *)
Definition poll_job (job : Uuid) : M Error (option ReadyOutcome) :=
  if bool_decide (job = nil_uuid) then mret None
  else
    j ← attempt (Jobs.get job);
    mret (match j with
          | Ok j => if bool_decide (j_status j = JobFailed)
                    then Some (Failed (default "VM failed to start"%string (j_error j))) else None
          | Err _ => None
          end).

Definition on_wake (wake : Wake) (oci start_kicked : bool) (job vm_id : Uuid)
  : M Error (option ReadyOutcome * (bool * Uuid)) :=
  let same := (start_kicked, job) in
  match wake with
  | Deadline | Closed => mret (Some TimedOut, same)
  | StatusEvent id new_status =>
      if bool_decide (id = vm_id) then
        match parse_vm_status new_status with
        | Some status => handle_vm_status status oci start_kicked job vm_id
        | None => mret (None, same)
        end
      else mret (None, same)
  | Lagged => resync oci start_kicked job vm_id
  | JobTick => out ← poll_job job; mret (out, same)
  end.

Fixpoint watch_loop (wakes : list Wake) (oci start_kicked : bool) (job vm_id : Uuid)
  : M Error (option ReadyOutcome) :=
  match wakes with
  | [] => mret None
  | wake :: wakes' =>
      '(out, (kicked, job')) ← on_wake wake oci start_kicked job vm_id;
      match out with
      | Some out => mret (Some out)
      | None => watch_loop wakes' oci kicked job' vm_id
      end
  end.

Definition watch_for_ready (wakes : list Wake) (vm_id initial_job_id : Uuid) (oci : bool)
  : M Error (option ReadyOutcome) :=
  '(out, (kicked, job)) ← resync oci (negb oci) initial_job_id vm_id;
  match out with
  | Some out => mret (Some out)
  | None => watch_loop wakes oci kicked job vm_id
  end.

(** The spawned watchers: what they write about the sandbox or the member. *)
Definition timed_out_text : string := "timed out waiting for VM to start".

Definition run_sandbox_watch (wakes : list Wake) (sandbox_id vm_id job_id : Uuid) (oci : bool) : M Error unit :=
  out ← watch_for_ready wakes vm_id job_id oci;
  match out with
  | Some ReadyNow => _ ← attempt (update_sandbox_status sandbox_id SbReady None); mret tt
  | Some (Failed msg) => _ ← attempt (update_sandbox_status sandbox_id SbError (Some msg)); mret tt
  | Some TimedOut => _ ← attempt (update_sandbox_status sandbox_id SbError (Some timed_out_text)); mret tt
  | Some Gone | None => mret tt
  end.

Definition run_member_watch (wakes : list Wake) (member_id vm_id job_id : Uuid) (oci : bool) : M Error unit :=
  out ← watch_for_ready wakes vm_id job_id oci;
  match out with
  | Some ReadyNow => _ ← attempt (update_member_status member_id MemReady None); mret tt
  | Some (Failed msg) => _ ← attempt (update_member_status member_id MemError (Some msg)); mret tt
  | Some TimedOut => _ ← attempt (update_member_status member_id MemError (Some timed_out_text)); mret tt
  | Some Gone | None => mret tt
  end.

(** ** The pool manager *)

(** [false]: the creation of the VM is still looking for an address. *)
Definition provision_pool_member (fuel : nat) (pool : SandboxPool) : M Error bool :=
  u ← new_uuid;
  let req := {| ns_name := ("sandbox-pool-" +:+ short_id (pool_template pool) +:+ "-" +:+ short_id u)%string;
                ns_vm_template_id := pool_template pool;
                ns_idle_timeout_secs := Some (ss_pool_member_idle_timeout_secs settings);
                ns_instance_type_id := None; ns_network_id := None |} in
  vm ← resolve_sandbox_vm req;
  made ← create_sandbox_vm fuel vm;
  match made with
  | None => mret false
  | Some (vm_id, initial_job_id) =>
      member ← lift_err Sqlx (create_member (pool_id pool) vm_id);
      started ← (if is_oci vm then mret (Ok initial_job_id) else attempt (start_vm vm_id));
      match started with
      | Err e =>
          _ ← attempt (update_member_status (spm_id member) MemError (Some (error_to_string e)));
          mret true
      | Ok job_id =>
          _ ← emit (EvTask (MemberWatchTask (spm_id member) vm_id job_id (is_oci vm)));
          mret true
      end
  end.

(** [surplus] and [deficit], in [i32]. *)
Definition surplus_of (ready : nat) (min_ready : Z) : Z := as_i32 (as_i32 (Z.of_nat ready) - min_ready).
Definition deficit_of (min_ready ready provisioning : Z) : Z :=
  as_i32 (min_ready - as_i32 (ready + provisioning)).

(** The members to destroy: the first of the list, oldest first. *)
Definition surplus_members (ready : list SandboxPoolMember) (min_ready : Z) : list SandboxPoolMember :=
  take (Z.to_nat (surplus_of (length ready) min_ready)) ready.

Fixpoint provision_times (fuel n : nat) (pool : SandboxPool) : M Error unit :=
  match n with
  | O => mret tt
  | S n' => _ ← attempt (provision_pool_member fuel pool); provision_times fuel n' pool
  end.

Definition refill_pool (fuel : nat) (pool : SandboxPool) : M Error unit :=
  ready ← attempt (count_by_status (pool_id pool) MemReady);
  match ready with
  | Err _ => mret tt
  | Ok ready_count =>
      provisioning ← attempt (count_by_status (pool_id pool) MemProvisioning);
      match provisioning with
      | Err _ => mret tt
      | Ok provisioning_count =>
          provision_times fuel
            (Z.to_nat (deficit_of (pool_min_ready pool) ready_count provisioning_count)) pool
      end
  end.

Definition trim_pool (pool : SandboxPool) : M Error bool :=
  failed ← attempt (list_error_by_pool (pool_id pool));
  match failed with
  | Err _ => mret false
  | Ok failed =>
      _ ← for_all_m destroy_member failed;
      ready ← attempt (list_ready_by_pool (pool_id pool));
      match ready with
      | Err _ => mret false
      | Ok ready => _ ← for_all_m destroy_member (surplus_members ready (pool_min_ready pool)); mret true
      end
  end.

Definition sync_pool (fuel : nat) (pool : SandboxPool) : M Error unit :=
  go ← trim_pool pool;
  if (go : bool) then refill_pool fuel pool else mret tt.

Definition sync_all_pools (fuel : nat) : M Error unit :=
  pools ← lift_err Sqlx list_sandbox_pools;
  for_all_m (sync_pool fuel) pools.

Definition sync_pool_for_template (fuel : nat) (vm_template_id : Uuid) : M Error unit :=
  pool ← lift_err Sqlx (get_pool_by_template vm_template_id);
  sync_pool fuel pool.

(** ** The handlers *)

Definition claim_job (name : string) (sandbox_id : Uuid) : NewJob :=
  {| nj_job_type := SandboxClaim;
     nj_description := Some ("Claimed prewarmed sandbox " +:+ name)%string;
     nj_resource_id := Some sandbox_id; nj_resource_type := Some resource_types.SANDBOX |}.

Definition claim_result : json := JObject {[ "source"%string := JString "prewarmed_pool" ]}.

(** The transaction of a claim; no ready member drops it. *)
Definition claim_body (req : NewSandbox) (idle_timeout_secs : Z)
  : M Error (bool * option (Uuid * Uuid * Uuid)) :=
  member ← lift_err Sqlx (claim_ready_for_template_tx locked_members (ns_vm_template_id req));
  match member with
  | None => mret (false, None)
  | Some member =>
      sandbox_id ← new_uuid;
      job ← lift_err Sqlx (Jobs.create_completed_tx (claim_job (ns_name req) sandbox_id) (Some claim_result));
      _ ← lift_err Sqlx (update_name_tx (spm_vm_id member) (ns_name req));
      _ ← lift_err Sqlx (create_sandbox_tx_with_status sandbox_id (spm_vm_id member)
                           (Some (ns_vm_template_id req)) (ns_name req) idle_timeout_secs SbReady);
      _ ← lift_err Sqlx (delete_member_tx (spm_id member));
      mret (true, Some (sandbox_id, spm_vm_id member, j_id job))
  end.

Definition try_claim_prewarmed_sandbox (req : NewSandbox) (idle_timeout_secs : Z)
  : M Error (option (Uuid * Uuid * Uuid)) :=
  if bool_decide (is_Some (ns_instance_type_id req)) || bool_decide (is_Some (ns_network_id req))
  then mret None
  else
    claimed ← in_tx_opt Sqlx (claim_body req idle_timeout_secs);
    match claimed with
    | None => mret None
    | Some r => _ ← emit (EvTask (PoolRefillTask (ns_vm_template_id req))); mret (Some r)
    end.

(** What follows once the VM exists. *)
Definition register_sandbox (req : NewSandbox) (idle_timeout_secs : Z) (oci : bool) (vm_id initial_job_id : Uuid)
  : M Error (Uuid * Uuid * Uuid) :=
  sandbox_id ← new_uuid;
  stored ← attempt (create_sandbox_row sandbox_id vm_id (Some (ns_vm_template_id req)) (ns_name req)
                      idle_timeout_secs);
  match stored with
  | Err e => _ ← destroy_vm vm_id; throw (Sqlx e)
  | Ok _ =>
      started ← (if oci then mret (Ok initial_job_id) else attempt (start_vm vm_id));
      match started with
      | Err e => _ ← destroy_vm vm_id; _ ← attempt (delete_sandbox_row sandbox_id); throw e
      | Ok job_id =>
          _ ← emit (EvTask (SandboxWatchTask sandbox_id vm_id job_id oci));
          mret (sandbox_id, vm_id, job_id)
      end
  end.

(** [POST /sandboxes]: the ids of the sandbox, its VM and its job. *)
Definition create_sandbox (fuel : nat) (req : NewSandbox) : M Error (option (Uuid * Uuid * Uuid)) :=
  let idle_timeout_secs := default (ss_default_idle_timeout_secs settings) (ns_idle_timeout_secs req) in
  claimed ← try_claim_prewarmed_sandbox req idle_timeout_secs;
  match claimed with
  | Some r => mret (Some r)
  | None =>
      vm ← resolve_sandbox_vm req;
      made ← create_sandbox_vm fuel vm;
      match made with
      | None => mret None
      | Some (vm_id, initial_job_id) =>
          r ← register_sandbox req idle_timeout_secs (is_oci vm) vm_id initial_job_id;
          mret (Some r)
      end
  end.

Definition exec_sandbox {Reply} (reply : nat -> Reply) (status : nat -> ExecCode * string)
    (sandbox_id : Uuid) (command : list string) (timeout_secs : option Z) : M Error Reply :=
  if bool_decide (command = []) then
    throw (UnprocessableEntity "command must contain at least one argument")
  else
    sandbox ← get_sandbox_row sandbox_id;
    if negb (bool_decide (sb_status sandbox = SbReady)) then
      throw (UnprocessableEntity ("sandbox " +:+ uuid_to_string sandbox_id +:+ " is not ready"))
    else
      vm ← sqlx_q (Vms.get (sb_vm_id sandbox));
      if negb (bool_decide (v_status (vm_row vm) = Running)) then
        throw (UnprocessableEntity ("sandbox VM " +:+ uuid_to_string (sb_vm_id sandbox) +:+ " is not running"))
      else
        host_id ← of_result (ok_or (UnprocessableEntity "sandbox VM has no assigned host")
                               (v_host_id (vm_row vm)));
        host ← sqlx_q (get_by_id host_id);
        host ← of_result (ok_or (UnprocessableEntity "assigned host not found") host);
        r ← exec_vm reply status host (sb_vm_id sandbox) command timeout_secs;
        _ ← lift_err Sqlx (touch_activity sandbox_id);
        mret r.

(** [POST /vms/{id}/exec]. *)
Definition exec {Reply} (reply : nat -> Reply) (status : nat -> ExecCode * string)
    (vm_id : Uuid) (command : list string) (timeout_secs : option Z) : M Error Reply :=
  if bool_decide (command = []) then
    throw (UnprocessableEntity "command must contain at least one argument")
  else
    vm ← sqlx_q (Vms.get vm_id);
    if negb (bool_decide (v_status (vm_row vm) = Running)) then
      throw (UnprocessableEntity ("VM " +:+ uuid_to_string vm_id +:+ " is not running"))
    else if negb (vm_guest_agent vm) then
      throw (UnprocessableEntity ("guest agent is not enabled for VM " +:+ uuid_to_string vm_id))
    else
      host_id ← of_result (ok_or (UnprocessableEntity "VM has no assigned host") (v_host_id (vm_row vm)));
      host ← sqlx_q (get_by_id host_id);
      host ← of_result (ok_or (UnprocessableEntity "assigned host not found") host);
      exec_vm reply status host vm_id command timeout_secs.

Definition list_sandboxes : M Error (list SandboxWithDetailsRow) := lift_err Sqlx list_with_details.
Definition get_sandbox (sandbox_id : Uuid) : M Error SandboxWithDetailsRow :=
  get_with_details sandbox_id.

Definition keepalive (sandbox_id : Uuid) : M Error unit :=
  _ ← get_sandbox_row sandbox_id;
  _ ← lift_err Sqlx (touch_activity sandbox_id);
  mret tt.

Definition delete_sandbox (sandbox_id : Uuid) : M Error unit :=
  sandbox ← get_sandbox_row sandbox_id;
  _ ← lift_err Sqlx (update_sandbox_status sandbox_id SbDestroying None);
  destroy_vm (sb_vm_id sandbox).

(** The handlers of the pools. *)
Definition put_sandbox_pool (vm_template_id : Uuid) (min_ready : Z) : M Error SandboxPool :=
  if min_ready <? 0 then throw (UnprocessableEntity "min_ready must be greater than or equal to 0")
  else
    template ← lift_err Sqlx (get_template vm_template_id);
    if bool_decide (is_Some (tpl_image_ref template)) then
      throw (UnprocessableEntity "sandbox VM templates with OCI image_ref are not supported yet")
    else lift_err Sqlx (upsert_pool vm_template_id min_ready).

Definition get_sandbox_pool (vm_template_id : Uuid) : M Error SandboxPool :=
  sqlx_q (get_pool_by_template vm_template_id).

(** The transaction: the conversions of [begin] and [commit] differ. *)
Definition drop_pool (vm_template_id : Uuid) : M Error unit := fun o w =>
  match sqlx_q begin_tx o w with
  | (w1, Err e) => (w1, Err e)
  | (w1, Ok _) =>
      match lift_err Sqlx (delete_pool_tx vm_template_id) o w1 with
      | (w2, Err e) => (set_tx None w2, Err e)
      | (w2, Ok _) => lift_err Sqlx commit_tx o w2
      end
  end.

Definition delete_sandbox_pool (vm_template_id : Uuid) : M Error unit :=
  pool ← lift_err Sqlx (get_pool_config vm_template_id);
  pool ← of_result (ok_or NotFound pool);
  members ← lift_err Sqlx (list_members_by_pool (sbp_id pool));
  _ ← for_all_m destroy_member members;
  drop_pool vm_template_id.
End sandboxes.
