(* ===== verification/SandboxInvariant.v ===== *)
(** * SandboxInvariant: which VM belongs to which sandbox or pool

    The facts about [Sandboxes]: no VM ever belongs to both a sandbox and a pool,
    a claim takes the oldest ready member and is one transaction, a watcher starts
    its VM at most once and ends at its deadline, the reaper removes idle
    sandboxes only; and the races between the pool manager or the reaper and the
    requests. *)

From S2P Require Import Prelude Text Errors Secrets Tables NodeApi World Samples.
From S2P Require Import VmConfig Hooks Vms Jobs Storage Gpus Hosts StorageObjects Scheduler Networks Devices.
From S2P Require Import Catalog SandboxTables CreateRequest VmLifecycle VmCreate Sandboxes.
#[local] Open Scope Z_scope.

(** ** The invariant *)

(** The keys are the ids, the VMs exist, no VM has two sandboxes or two
    memberships, and no VM of a sandbox is still in a pool. *)
Record sandboxes_ok (db : Db) : Prop := {
  ok_sandbox_keys : keyed sb_id (t_sandboxes db);
  ok_member_keys : keyed spm_id (t_sandbox_pool_members db);
  ok_sandbox_vm : forall k s, t_sandboxes db !! k = Some s -> is_Some (t_vms db !! sb_vm_id s);
  ok_member_vm : forall k m, t_sandbox_pool_members db !! k = Some m -> is_Some (t_vms db !! spm_vm_id m);
  ok_sandbox_once : forall k j s s', t_sandboxes db !! k = Some s -> t_sandboxes db !! j = Some s' ->
    sb_vm_id s = sb_vm_id s' -> k = j;
  ok_member_once : forall k j m m', t_sandbox_pool_members db !! k = Some m ->
    t_sandbox_pool_members db !! j = Some m' -> spm_vm_id m = spm_vm_id m' -> k = j;
  ok_apart : forall k j s m, t_sandboxes db !! k = Some s -> t_sandbox_pool_members db !! j = Some m ->
    sb_vm_id s <> spm_vm_id m
}.

Definition keeps_sandboxes (db db' : Db) : Prop := sandboxes_ok db -> sandboxes_ok db'.
#[global] Instance keeps_sandboxes_preorder : PreOrder keeps_sandboxes.
Proof. split; [intros db Hok; exact Hok | intros a b c; unfold keeps_sandboxes; auto]. Qed.

(** Nothing happens to the two tables and no VM disappears. *)
Lemma keeps_sandboxes_same db db' :
  sandbox_tables db' = sandbox_tables db ->
  (forall id, is_Some (t_vms db !! id) -> is_Some (t_vms db' !! id)) -> keeps_sandboxes db db'.
Proof.
  intros [= Es Em] Hv [K1 K2 V1 V2 O1 O2 A]. split; rewrite ?Es, ?Em; first [done | eauto].
Qed.

(** Rows are dropped together with a VM, or on their own. *)
Lemma keeps_sandboxes_less db db' :
  t_sandboxes db' ⊆ t_sandboxes db -> t_sandbox_pool_members db' ⊆ t_sandbox_pool_members db ->
  (forall k s, t_sandboxes db' !! k = Some s -> is_Some (t_vms db !! sb_vm_id s) ->
     is_Some (t_vms db' !! sb_vm_id s)) ->
  (forall k m, t_sandbox_pool_members db' !! k = Some m -> is_Some (t_vms db !! spm_vm_id m) ->
     is_Some (t_vms db' !! spm_vm_id m)) ->
  keeps_sandboxes db db'.
Proof.
  intros Hs Hm Hv1 Hv2 [K1 K2 V1 V2 O1 O2 A].
  assert (forall k s, t_sandboxes db' !! k = Some s -> t_sandboxes db !! k = Some s) as Is
    by (intros k s ?; by eapply lookup_weaken).
  assert (forall k m, t_sandbox_pool_members db' !! k = Some m -> t_sandbox_pool_members db !! k = Some m) as Im
    by (intros k m ?; by eapply lookup_weaken).
  split; [by intros k s ?%Is; apply K1|by intros k m ?%Im; apply K2|eauto..].
Qed.

(** Rows change without their id and VM. *)
Lemma keeps_sandboxes_alter_sandbox f k db :
  (forall s, sb_id (f s) = sb_id s /\ sb_vm_id (f s) = sb_vm_id s) ->
  keeps_sandboxes db (with_sandboxes (alter f k) db).
Proof.
  intros Hf [K1 K2 V1 V2 O1 O2 A].
  assert (forall j s, alter f k (t_sandboxes db) !! j = Some s ->
    exists s0, t_sandboxes db !! j = Some s0 /\ sb_id s = sb_id s0 /\ sb_vm_id s = sb_vm_id s0) as Inv.
  { intros j s. rewrite lookup_alter_Some.
    intros [[-> (s0&Hs0&->)]|[_ Hs]]; [exists s0; by split; [|apply Hf]|by exists s]. }
  split; simpl; [|done| |done| |done|].
  - intros j s (s0&Hs0&->&_)%Inv. by apply K1.
  - intros j s (s0&Hs0&_&->)%Inv. eauto.
  - intros j1 j2 s1 s2 (a&Ha&_&->)%Inv (b&Hb&_&->)%Inv. eauto.
  - intros j1 j2 s m (a&Ha&_&->)%Inv Hm. eauto.
Qed.
Lemma keeps_sandboxes_alter_member f k db :
  (forall m, spm_id (f m) = spm_id m /\ spm_vm_id (f m) = spm_vm_id m) ->
  keeps_sandboxes db (with_sandbox_pool_members (alter f k) db).
Proof.
  intros Hf [K1 K2 V1 V2 O1 O2 A].
  assert (forall j m, alter f k (t_sandbox_pool_members db) !! j = Some m ->
    exists m0, t_sandbox_pool_members db !! j = Some m0 /\ spm_id m = spm_id m0 /\
      spm_vm_id m = spm_vm_id m0) as Inv.
  { intros j m. rewrite lookup_alter_Some.
    intros [[-> (m0&Hm0&->)]|[_ Hm]]; [exists m0; by split; [|apply Hf]|by exists m]. }
  split; simpl; [done| |done| |done| |].
  - intros j m (m0&Hm0&->&_)%Inv. by apply K2.
  - intros j m (m0&Hm0&_&->)%Inv. eauto.
  - intros j1 j2 m1 m2 (a&Ha&_&->)%Inv (b&Hb&_&->)%Inv. eauto.
  - intros j1 j2 s m Hs (a&Ha&_&->)%Inv. eauto.
Qed.

(** A new sandbox, and a new member, of a VM that belongs to neither table. *)
Lemma keeps_sandboxes_new_sandbox r db sandboxes :
  insert_pk "sandboxes_pkey" (sb_id r) r (t_sandboxes db) = Ok sandboxes ->
  sandbox_constraints r db = Ok tt ->
  (forall j m, t_sandbox_pool_members db !! j = Some m -> spm_vm_id m <> sb_vm_id r) ->
  keeps_sandboxes db (with_sandboxes (fun _ => sandboxes) db).
Proof.
  unfold insert_pk, sandbox_constraints. intros Hpk Hc Hfree [K1 K2 V1 V2 O1 O2 A].
  destruct (t_sandboxes db !! sb_id r) eqn:Hn; [discriminate|]. injection Hpk as <-.
  destruct (existsb _ _) eqn:Hu in Hc; [discriminate|]. destruct (existsb _ _) in Hc; [discriminate|].
  destruct (negb (vm_exists db (sb_vm_id r))) eqn:Hv; [discriminate|]. clear Hc.
  apply negb_false_iff, bool_decide_eq_true in Hv.
  assert (forall k s, t_sandboxes db !! k = Some s -> sb_vm_id s <> sb_vm_id r) as Hne.
  { intros k s Hs. pose proof (existsb_rows_false _ _ _ _ Hu Hs) as Hf. by apply bool_decide_eq_false in Hf. }
  split; simpl; [|done| |done| |done|].
  - by apply map_Forall_insert_2.
  - intros k s [[<- <-]|[_ Hs]]%lookup_insert_Some; eauto.
  - intros k j s s' [[<- <-]|[_ Hs]]%lookup_insert_Some [[<- <-]|[_ Hs']]%lookup_insert_Some E; try done.
    + by destruct (Hne _ _ Hs').
    + by destruct (Hne _ _ Hs).
    + eauto.
  - intros k j s m [[<- <-]|[_ Hs]]%lookup_insert_Some Hm E; [by eapply Hfree|]. by eapply A.
Qed.
Lemma keeps_sandboxes_new_member r db db' :
  insert_member_row r db = Ok (db', tt) ->
  (forall k s, t_sandboxes db !! k = Some s -> sb_vm_id s <> spm_vm_id r) ->
  keeps_sandboxes db db'.
Proof.
  unfold insert_member_row, insert_pk. intros Hins Hfree [K1 K2 V1 V2 O1 O2 A].
  destruct (t_sandbox_pool_members db !! spm_id r) eqn:Hn; [discriminate|].
  cbn [mbind result_bind] in Hins.
  destruct (existsb _ _) eqn:Hu in Hins; [discriminate|]. destruct (negb _) in Hins; [discriminate|].
  destruct (negb (vm_exists db (spm_vm_id r))) eqn:Hv; [discriminate|]. injection Hins as <-.
  apply negb_false_iff, bool_decide_eq_true in Hv.
  assert (forall k m, t_sandbox_pool_members db !! k = Some m -> spm_vm_id m <> spm_vm_id r) as Hne.
  { intros k m Hm. pose proof (existsb_rows_false _ _ _ _ Hu Hm) as Hf. by apply bool_decide_eq_false in Hf. }
  split; simpl; [done| |done| |done| |].
  - by apply map_Forall_insert_2.
  - intros k m [[<- <-]|[_ Hm]]%lookup_insert_Some; eauto.
  - intros k j m m' [[<- <-]|[_ Hm]]%lookup_insert_Some [[<- <-]|[_ Hm']]%lookup_insert_Some E; try done.
    + by destruct (Hne _ _ Hm').
    + by destruct (Hne _ _ Hm).
    + eauto.
  - intros k j s m Hs [[<- <-]|[_ Hm]]%lookup_insert_Some E; [by eapply Hfree|]. by eapply A.
Qed.

(** *** Statements *)

Lemma delete_vm_keeps_sandboxes vm_id db : keeps_sandboxes db (delete_vm_cascade vm_id db).
Proof.
  apply keeps_sandboxes_less; simpl; try apply map_filter_subseteq.
  - intros k s [_ Hp]%lookup_keep Hs. apply negb_true_iff, bool_decide_eq_false in Hp.
    by rewrite lookup_delete_ne.
  - intros k m [_ Hp]%lookup_keep Hm. apply negb_true_iff, bool_decide_eq_false in Hp.
    by rewrite lookup_delete_ne.
Qed.

Abbreviation kept := (steps (db_moves keeps_sandboxes)).

(** A computation that leaves the two tables and the ids of the VMs alone. *)
Definition vm_ids (db : Db) : gset Uuid := dom (t_vms db).
Lemma keeps_sandboxes_ids db db' :
  sandbox_tables db' = sandbox_tables db -> vm_ids db' = vm_ids db -> keeps_sandboxes db db'.
Proof. intros Ht Hv. apply keeps_sandboxes_same; [done|]. intros id. rewrite <- !elem_of_dom. fold (vm_ids db) (vm_ids db'). by rewrite Hv. Qed.

Lemma kept_tick w : db_moves keeps_sandboxes w (tick w).
Proof. apply db_moves_tick. Qed.
Lemma kept_log e w : db_moves keeps_sandboxes w (add_log e w).
Proof. apply db_moves_log. Qed.
#[export] Hint Resolve kept_tick kept_log : qarax.

Section statements.
Context `{UuidText} `{PolicySerde}.

Lemma delete_vm_kept vm_id : kept (delete_vm vm_id).
Proof. apply steps_db_execute. intros db db' a [= <- _]. apply delete_vm_keeps_sandboxes. Qed.
Lemma deallocate_kept vm_id : kept (deallocate_by_vm vm_id).
Proof.
  unfold deallocate_by_vm, deallocate. apply steps_bind; [apply steps_now, db_moves_tick|]. intros t.
  apply steps_db_execute. intros db db' a [= <- _]. by apply keeps_sandboxes_ids.
Qed.
Lemma sandbox_status_kept id s e : kept (update_sandbox_status id s e).
Proof. apply steps_db_execute. intros db db' a [= <- _]. by apply keeps_sandboxes_alter_sandbox. Qed.
Lemma touch_kept id : kept (touch_activity id).
Proof.
  apply steps_bind; [apply steps_now, db_moves_tick|]. intros t.
  apply steps_db_execute. intros db db' a [= <- _]. by apply keeps_sandboxes_alter_sandbox.
Qed.
Lemma sandbox_delete_kept id : kept (delete_sandbox_row id).
Proof.
  apply steps_db_execute. intros db db' a [= <- _].
  by apply keeps_sandboxes_less; simpl; [apply delete_subseteq|..].
Qed.
Lemma member_status_kept id s e : kept (update_member_status id s e).
Proof.
  apply steps_bind; [apply steps_now, db_moves_tick|]. intros t.
  apply steps_db_execute. intros db db' a [= <- _]. by apply keeps_sandboxes_alter_member.
Qed.
Lemma member_delete_kept id : kept (delete_member id).
Proof.
  apply steps_db_execute. intros db db' a [= <- _].
  by apply keeps_sandboxes_less; simpl; [|apply delete_subseteq|..].
Qed.
Lemma upsert_kept t n : kept (upsert_pool t n).
Proof.
  unfold upsert_pool. apply steps_bind; [apply steps_new_uuid, db_moves_tick|]. intros id.
  apply steps_bind; [apply steps_now, db_moves_tick|]. intros now.
  apply steps_bind; [|intros _; apply steps_db_reads; unfold get_pool_by_template; steps_tac].
  apply steps_db_execute. intros db db' [] Hf. unfold upsert_pool_row in Hf.
  destruct (_ <? _); [discriminate|]. destruct (pool_of_template t db) as [p|].
  - injection Hf as <-. by apply keeps_sandboxes_ids.
  - apply result_bind_ok in Hf as (pools&_&Hf). destruct (template_exists db t); [|discriminate].
    injection Hf as <-. by apply keeps_sandboxes_ids.
Qed.
#[local] Hint Resolve delete_vm_kept deallocate_kept sandbox_status_kept touch_kept sandbox_delete_kept
  member_status_kept member_delete_kept upsert_kept : qarax.

Lemma destroy_vm_kept {E} vm_id : kept (destroy_vm vm_id : M E unit).
Proof. unfold destroy_vm, Vms.get, get_by_id. steps_tac. Qed.
#[local] Hint Resolve destroy_vm_kept : qarax.

Lemma destroy_member_kept {E} m : kept (destroy_member m : M E unit).
Proof. unfold destroy_member. steps_tac. Qed.
Lemma reaper_kept {E} b : kept (reaper_tick b : M E unit).
Proof. unfold reaper_tick, reap, list_expired. steps_tac. Qed.
End statements.
#[export] Hint Resolve delete_vm_kept deallocate_kept sandbox_status_kept touch_kept sandbox_delete_kept
  member_status_kept member_delete_kept upsert_kept destroy_vm_kept destroy_member_kept reaper_kept : qarax.

(** *** Operations *)

Section operations.
Context `{UuidText} `{PolicySerde} {coll : Collation} {inet : PgInet} {mac : PgMacaddr}.
Variables (control_plane_architecture : string) (config : SchedulingSettings)
  (locked locked_gpus locked_members : nat -> gset Uuid).
Variables (accel_de : json -> option AcceleratorConfig) (sqlx_text : SqlxError -> string)
  (defaults : VmDefaults) (to_rfc3339 : Z -> string) (numa_config_de : json -> option NumaConfig).
Variables (settings : SandboxSettings).

Abbreviation start_vm := (start_vm_internal to_rfc3339 sqlx_text numa_config_de defaults).
Abbreviation create_vm_of :=
  (create_sandbox_vm control_plane_architecture config locked locked_gpus accel_de sqlx_text defaults).
Abbreviation watch := (watch_for_ready sqlx_text defaults to_rfc3339 numa_config_de).

Lemma status_ids vm_id s : steps (keeps_table vm_ids) (Vms.update_status to_rfc3339 vm_id s).
Proof.
  intros o w. unfold keeps_table, keeps, vm_ids.
  destruct (update_status_restatus to_rfc3339 vm_id s o w) as [->|(s'&_&->)]; [done|apply dom_alter_L].
Qed.

Lemma start_kept vm_id : kept (start_vm vm_id).
Proof.
  assert (steps (keeps_table vm_ids) (start_vm vm_id)) as Hids.
  { apply steps_bind.
    { intros o w. destruct (start_checks_reads vm_id o w) as (D&_&_). unfold keeps_table, keeps. by rewrite D. }
    intros [vm host]. apply steps_bind; [apply steps_lift_err, status_ids|]. intros _.
    apply steps_bind.
    { apply steps_attempt. intros o w.
      apply (jobs_only_table vm_ids); [done|apply start_prepare_only]. }
    intros [[create job]|e].
    - apply steps_bind; [by intros o w|]. intros _. apply steps_ret.
    - apply steps_bind; [apply steps_attempt, status_ids|]. intros _. apply steps_throw. }
  intros o w. apply keeps_sandboxes_ids; [|apply Hids].
  by apply (start_keeps_table to_rfc3339 sqlx_text numa_config_de defaults sandbox_tables).
Qed.
#[local] Hint Resolve start_kept : qarax.

Lemma resync_kept oci k j vm_id :
  kept (resync sqlx_text defaults to_rfc3339 numa_config_de oci k j vm_id).
Proof. unfold resync, handle_vm_status, Vms.get. steps_tac. Qed.
#[local] Hint Resolve resync_kept : qarax.

Lemma job_get_kept j : kept (Jobs.get j).
Proof.
  apply steps_db_in_tx. intros o w. unfold Jobs.get_tx, query. by destruct (o_sql o (w_step w)).
Qed.
#[local] Hint Resolve job_get_kept : qarax.

Lemma watch_loop_kept wakes oci k j vm_id :
  kept (watch_loop sqlx_text defaults to_rfc3339 numa_config_de wakes oci k j vm_id).
Proof.
  revert k j. induction wakes as [|wake wakes IH]; intros k j; cbn [watch_loop]; [apply steps_ret|].
  apply steps_bind; [unfold on_wake, handle_vm_status, poll_job; steps_tac|].
  intros [out [k' j']]. destruct out; [apply steps_ret|apply IH].
Qed.
#[local] Hint Resolve watch_loop_kept : qarax.

Lemma watch_kept wakes vm_id job oci : kept (watch wakes vm_id job oci).
Proof.
  unfold watch_for_ready. apply steps_bind; [apply resync_kept|]. intros [out [k' j']]. steps_tac.
Qed.
#[local] Hint Resolve watch_kept : qarax.

Lemma sandbox_watch_kept wakes s vm_id job oci :
  kept (run_sandbox_watch sqlx_text defaults to_rfc3339 numa_config_de wakes s vm_id job oci).
Proof. unfold run_sandbox_watch. steps_tac. Qed.
Lemma member_watch_kept wakes m vm_id job oci :
  kept (run_member_watch sqlx_text defaults to_rfc3339 numa_config_de wakes m vm_id job oci).
Proof. unfold run_member_watch. steps_tac. Qed.

(** A VM that is created belongs to no sandbox and to no pool yet. *)
Lemma create_vm_of_fresh fuel vm o w :
  let run := create_vm_of fuel vm o w in
  sandbox_tables (w_db run.1) = sandbox_tables (w_db w) /\
  (forall id, is_Some (t_vms (w_db w) !! id) -> is_Some (t_vms (w_db run.1) !! id)) /\
  (forall id j, run.2 = Ok (Some (id, j)) -> t_vms (w_db w) !! id = None).
Proof.
  assert (forall status db db' id, created config accel_de status db db' vm id ->
    sandbox_tables db' = sandbox_tables db /\
    (forall i, is_Some (t_vms db !! i) -> is_Some (t_vms db' !! i)) /\ t_vms db !! id = None) as Hc.
  { intros status db db' id (plan&host&_&_&_&Hn&Ht&Hv&_). split_and!; [done| |done].
    intros i Hi. rewrite Hv. by apply lookup_insert_is_Some'; right. }
  unfold create_sandbox_vm. destruct (rv_image_ref vm) as [image_ref|].
  - pose proof (image_create_spec control_plane_architecture config locked locked_gpus accel_de sqlx_text
      defaults fuel image_ref vm o w) as Hr. cbv zeta in Hr.
    destruct (create_vm_with_image_internal _ _ _ _ _ _ _ _ _ _ o w) as [w1 [[[id j]|]|e]]; simpl in *.
    + destruct Hr as [(T&V&N)%Hc _]. split_and!; [done..|]. by intros ? ? [= <- _].
    + destruct Hr as [-> _]. by split_and!.
    + destruct Hr as [_ [->|[id (T&V&_)%Hc]]]; by split_and!.
  - pose proof (create_vm_spec control_plane_architecture config locked locked_gpus accel_de sqlx_text
      fuel vm o w) as [_ Hr]. cbv zeta in Hr. unfold mbind, M_bind.
    destruct (create_vm_internal _ _ _ _ _ _ _ _ o w) as [w1 [[id|]|e]]; simpl in *.
    + apply Hc in Hr as (T&V&N). split_and!; [done..|]. by intros ? ? [= <- _].
    + rewrite Hr. by split_and!.
    + rewrite Hr. by split_and!.
Qed.

(** *** Claims *)

Definition claimed_row (req : NewSandbox) (idle sid t : _) (m : SandboxPoolMember) : SandboxRow :=
  sandbox_row sid (spm_vm_id m) (Some (ns_vm_template_id req)) (ns_name req) idle SbReady t.

(** The tables after a claim: the VM renamed, the sandbox ready, the member gone. *)
Definition claimed_db (r : SandboxRow) (name : string) (m : SandboxPoolMember) (jobs : gmap Uuid Job) (db : Db)
  : Db :=
  with_sandbox_pool_members (base.delete (spm_id m))
    (with_sandboxes (insert (sb_id r) r) (with_vms (alter (set_name name) (spm_vm_id m))
       (with_jobs (fun _ => jobs) db))).

(** The oldest ready member of the template that nobody holds. *)
Definition best_member (held : gset Uuid) (template : Uuid) (db : Db) (m : SandboxPoolMember) : Prop :=
  m ∈ rows (t_sandbox_pool_members db) /\ member_claimable held template db m = true /\
  forall m', m' ∈ rows (t_sandbox_pool_members db) -> member_claimable held template db m' = true ->
    spm_created_at m <= spm_created_at m'.

Lemma claim_query_ok template o w w' m :
  claim_ready_for_template_tx locked_members template o w = (w', Ok (Some m)) ->
  w' = tick w /\ best_member (locked_members (w_step w)) template (conn_db Tx w) m.
Proof.
  unfold claim_ready_for_template_tx. intros [Hq ->]%query_ok_inv. split; [done|].
  injection Hq as Hq. unfold selected_members in Hq. destruct (head_merge_sort _ _ _ Hq) as [Hin Hle].
  apply list_elem_of_In, filter_In in Hin as [Hin Hc]. apply list_elem_of_In in Hin. split_and!; [done|done|].
  intros m' Hm' Hc'. rewrite Forall_forall in Hle. apply Hle.
  apply list_elem_of_In, filter_In. split; [by apply list_elem_of_In|done].
Qed.

Lemma claim_moves req idle : steps (tx_moves anything) (claim_body locked_members req idle).
Proof.
  assert (forall w, tx_moves anything w (tick w)) as Ht by (by intros w).
  apply steps_bind; [apply steps_lift_err; intros o w; by apply (steps_query (R := tx_moves anything))|].
  intros [m|]; [|apply steps_ret]. apply steps_bind; [by apply steps_new_uuid|]. intros sid.
  apply steps_bind; [apply steps_lift_err|].
  { apply steps_bind; [by apply steps_new_uuid|]. intros id. apply steps_bind; [by apply steps_now|]. intros t.
    apply steps_bind; [by apply steps_execute_tx|]. intros _. by apply steps_query. }
  intros job. apply steps_bind; [by apply steps_lift_err, steps_execute_tx|]. intros _.
  apply steps_bind; [apply steps_lift_err, steps_bind; [by apply steps_now|intros t; by apply steps_execute_tx]|].
  intros _. apply steps_bind; [by apply steps_lift_err, steps_execute_tx|]. intros _. apply steps_ret.
Qed.

Lemma create_completed_inv nj res o w w' j :
  Jobs.create_completed_tx nj res o w = (w', Ok j) ->
  exists t, t_jobs (conn_db Tx w) !! j_id j = None /\ j = completed_job (j_id j) nj res t /\
    conn_db Tx w' = with_jobs (insert (j_id j) j) (conn_db Tx w).
Proof.
  intros Hrun. apply bind_ok_inv in Hrun as (id&w1&H1&Hrun). injection H1 as <- _.
  apply bind_ok_inv in Hrun as (t&w2&H2&Hrun). injection H2 as <- _.
  apply bind_ok_inv in Hrun as ([]&w3&H3&Hrun). apply execute_ok_inv in H3 as (db&Hdb&->).
  change (conn_db Tx (tick (tick w))) with (conn_db Tx w) in Hdb.
  apply result_bind_ok in Hdb as (jobs&Hpk&[= <-]). unfold insert_pk in Hpk.
  cbn [j_id completed_job] in Hpk. case_match eqn:Hn; [discriminate|]. injection Hpk as <-.
  apply query_ok_inv in Hrun as [Hj ->]. cbn -[completed_job] in Hj. rewrite lookup_insert_eq in Hj.
  injection Hj as <-. exists t. by split_and!.
Qed.

Lemma update_name_inv vm_id name o w w' :
  update_name_tx vm_id name o w = (w', Ok tt) ->
  conn_db Tx w' = with_vms (alter (set_name name) vm_id) (conn_db Tx w).
Proof.
  unfold update_name_tx, checked_update. intros (db&Hdb&->)%execute_ok_inv.
  change (conn_db Tx (tick w)) with (conn_db Tx w) in Hdb.
  change (db = with_vms (alter (set_name name) vm_id) (conn_db Tx w)). revert Hdb. generalize (conn_db Tx w).
  intros d Hdb. destruct (t_vms d !! vm_id) as [row|] eqn:Hrow.
  - apply result_bind_ok in Hdb as ([]&_&[= <-]). unfold with_vms. f_equal. symmetry. by apply alter_as_insert.
  - injection Hdb as <-. destruct d; unfold with_vms; simpl in *. f_equal.
    apply map_eq. intros k. destruct (decide (k = vm_id)) as [->|]; [|by rewrite lookup_alter_ne].
    by rewrite lookup_alter_eq, Hrow.
Qed.

Lemma sandbox_create_inv sid vid tpl name idle status o w w' :
  create_sandbox_tx_with_status sid vid tpl name idle status o w = (w', Ok tt) ->
  exists t, let r := sandbox_row sid vid tpl name idle status t in
    t_sandboxes (conn_db Tx w) !! sid = None /\ sandbox_constraints r (conn_db Tx w) = Ok tt /\
    conn_db Tx w' = with_sandboxes (insert sid r) (conn_db Tx w).
Proof.
  intros Hrun. apply bind_ok_inv in Hrun as (t&w1&H1&Hrun). injection H1 as <- _.
  apply execute_ok_inv in Hrun as (db&Hdb&->). change (conn_db Tx (tick w)) with (conn_db Tx w) in Hdb.
  apply result_bind_ok in Hdb as (sbs&Hpk&Hdb). apply result_bind_ok in Hdb as ([]&Hc&[= <-]).
  unfold insert_pk in Hpk. case_match eqn:Hn; [discriminate|]. injection Hpk as <-. exists t. by split_and!.
Qed.

Lemma claim_body_ok req idle o w w' c r :
  claim_body locked_members req idle o w = (w', Ok (c, r)) ->
  match r with
  | None => c = false
  | Some (sid, vid, jid) => c = true /\
      exists m t t' , let db := conn_db Tx w in let row := claimed_row req idle sid t m in
        best_member (locked_members (w_step w)) (ns_vm_template_id req) db m /\
        vid = spm_vm_id m /\ t_sandboxes db !! sid = None /\ t_jobs db !! jid = None /\
        sandbox_constraints row (with_vms (alter (set_name (ns_name req)) vid) db) = Ok tt /\
        conn_db Tx w' = claimed_db row (ns_name req) m
          (<[jid := completed_job jid (claim_job (ns_name req) sid) (Some claim_result) t']> (t_jobs db)) db
  end.
Proof.
  intros Hrun. apply bind_ok_inv in Hrun as (m&w1&H1&Hrun). apply lift_err_ok_inv in H1.
  destruct m as [m|]; [|unfold mret, M_ret in Hrun; by injection Hrun as _ <- <-].
  apply claim_query_ok in H1 as [-> Hbest].
  apply bind_ok_inv in Hrun as (sid&w2&H2&Hrun). injection H2 as <- <-.
  apply bind_ok_inv in Hrun as (job&w3&H3&Hrun). apply lift_err_ok_inv, create_completed_inv in H3 as (t'&Hn&Hj&D3).
  apply bind_ok_inv in Hrun as ([]&w4&H4&Hrun). apply lift_err_ok_inv, update_name_inv in H4 as D4.
  apply bind_ok_inv in Hrun as ([]&w5&H5&Hrun). apply lift_err_ok_inv, sandbox_create_inv in H5 as (t&Hs&Hc&D5).
  apply bind_ok_inv in Hrun as ([]&w6&H6&Hrun). apply lift_err_ok_inv, execute_ok_inv in H6 as (db&[= <-]&->).
  unfold mret, M_ret in Hrun. injection Hrun as <- <- <-. split; [done|].
  change (conn_db Tx (tick (tick w))) with (conn_db Tx w) in *.
  rewrite D4, D3 in Hs, Hc. exists m, t, t'. cbv zeta. split_and!; try done.
  change (with_sandbox_pool_members (base.delete (spm_id m)) (conn_db Tx w5) =
    claimed_db (claimed_row req idle (o_uuid o (S (w_step w))) t m) (ns_name req) m
      (<[j_id job := completed_job (j_id job) (claim_job (ns_name req) (o_uuid o (S (w_step w))))
           (Some claim_result) t']> (t_jobs (conn_db Tx w))) (conn_db Tx w)).
  rewrite D5, D4, D3, <- Hj. reflexivity.
Qed.

Lemma claim_keeps req idle held sid t m jobs db :
  best_member held (ns_vm_template_id req) db m ->
  t_sandboxes db !! sid = None ->
  sandbox_constraints (claimed_row req idle sid t m) (with_vms (alter (set_name (ns_name req)) (spm_vm_id m)) db)
    = Ok tt ->
  keeps_sandboxes db (claimed_db (claimed_row req idle sid t m) (ns_name req) m jobs db).
Proof.
  intros (Hin&_&_) Hn Hc Hok. set (row := claimed_row req idle sid t m) in *.
  set (db1 := with_sandbox_pool_members (base.delete (spm_id m))
    (with_vms (alter (set_name (ns_name req)) (spm_vm_id m)) (with_jobs (fun _ => jobs) db))).
  assert (sandboxes_ok db1) as Hok1.
  { assert (forall id, is_Some (t_vms db !! id) -> is_Some (t_vms db1 !! id)) as Hv
      by (intros id Hid; by apply lookup_alter_is_Some).
    revert Hok. apply keeps_sandboxes_less; simpl; [done|apply delete_subseteq|eauto..]. }
  apply elem_of_rows in Hin as [k Hk]. pose proof (ok_member_keys _ Hok _ _ Hk) as Hid. simpl in Hid.
  revert Hok1. apply (keeps_sandboxes_new_sandbox row db1 (<[sid := row]> (t_sandboxes db))).
  - unfold insert_pk. simpl. by rewrite Hn.
  - exact Hc.
  - intros j m' Hm' E. simpl in Hm'. apply lookup_delete_Some in Hm' as [Hne Hm']. apply Hne. rewrite Hid.
    eapply (ok_member_once _ Hok); eauto.
Qed.

Lemma try_claim_kept req idle : kept (try_claim_prewarmed_sandbox locked_members req idle).
Proof.
  unfold try_claim_prewarmed_sandbox. destruct (_ || _); [apply steps_ret|].
  apply steps_bind; [|intros [r|]; steps_tac]. intros o w.
  pose proof (in_tx_opt_run Sqlx _ o w (claim_moves req idle)) as [_ Hr]. cbv zeta in Hr.
  destruct (in_tx_opt _ _ o w) as [w1 [r|e]]; cbn [fst snd] in Hr; [|by apply db_moves_same].
  destruct Hr as (w2&c&Hb&Hdb). apply claim_body_ok in Hb.
  destruct r as [[[sid vid] jid]|]; [|subst c; by apply db_moves_same].
  destruct Hb as (->&m&t&t'&Hbest&->&Hn&_&Hc&D). unfold db_moves. cbn [fst]. rewrite Hdb, D.
  cbn [conn_db w_tx set_tx default] in *. by eapply claim_keeps.
Qed.
#[local] Hint Resolve try_claim_kept : qarax.

(** *** Creation *)

(** No membership of the VM; the insert of its sandbox relies on it. *)
Definition outside (vm_id : Uuid) (db : Db) : Prop :=
  forall j m, t_sandbox_pool_members db !! j = Some m -> spm_vm_id m <> vm_id.
Definition keeps_outside (vm_id : Uuid) (db db' : Db) : Prop :=
  sandboxes_ok db /\ outside vm_id db -> sandboxes_ok db' /\ outside vm_id db'.
#[local] Instance keeps_outside_preorder vm_id : PreOrder (keeps_outside vm_id).
Proof. split; [intros db Hok; exact Hok | intros a b c; unfold keeps_outside; auto]. Qed.

Lemma sandbox_create_kept sid vm_id tpl name idle :
  steps (db_moves (keeps_outside vm_id)) (create_sandbox_row sid vm_id tpl name idle).
Proof.
  apply steps_db_in_tx. apply steps_bind; [apply steps_now, txdb_moves_tick|]. intros t.
  apply steps_txdb_execute. intros db db' [] Hf [Hok Hout].
  apply result_bind_ok in Hf as (sbs&Hpk&Hf). apply result_bind_ok in Hf as ([]&Hc&[= <-]).
  split; [|exact Hout]. revert Hok. exact (keeps_sandboxes_new_sandbox (sandbox_row sid vm_id tpl name idle SbProvisioning t) db sbs Hpk Hc Hout).
Qed.

Lemma resolve_kept req : kept (resolve_sandbox_vm req).
Proof.
  unfold resolve_sandbox_vm, resolve_create_request, get_template, get_instance_type. steps_tac.
Qed.
#[local] Hint Resolve resolve_kept : qarax.

Abbreviation register := (register_sandbox sqlx_text defaults to_rfc3339 numa_config_de).

Lemma register_kept req idle oci vm_id job o w :
  outside vm_id (w_db w) -> sandboxes_ok (w_db w) ->
  sandboxes_ok (w_db (register req idle oci vm_id job o w).1).
Proof.
  intros Hout Hok. unfold register_sandbox.
  rewrite (bind_run _ _ o w (tick w) (o_uuid o (w_step w)) eq_refl).
  set (sid := o_uuid o (w_step w)).
  destruct (create_sandbox_row sid vm_id (Some (ns_vm_template_id req)) (ns_name req) idle o (tick w))
    as [w1 r] eqn:Hr.
  pose proof (sandbox_create_kept sid vm_id (Some (ns_vm_template_id req)) (ns_name req) idle o (tick w)) as Hk.
  rewrite Hr in Hk. destruct Hk as [Hok1 _]; [by split|]. rewrite (attempt_bind_run _ _ _ _ _ _ Hr).
  match goal with |- sandboxes_ok (w_db (?m o w1).1) => assert (kept m) as Hm by steps_tac end.
  exact (Hm o w1 Hok1).
Qed.

Abbreviation create_sb := (create_sandbox control_plane_architecture config locked locked_gpus
  locked_members accel_de sqlx_text defaults to_rfc3339 numa_config_de settings).

Lemma fresh_outside db vm_id : sandboxes_ok db -> t_vms db !! vm_id = None -> outside vm_id db.
Proof. intros Hok Hn j m Hm <-. destruct (ok_member_vm _ Hok _ _ Hm). congruence. Qed.

Lemma create_vm_of_kept fuel vm : kept (create_vm_of fuel vm).
Proof.
  intros o w. destruct (create_vm_of_fresh fuel vm o w) as (T&V&_). by apply keeps_sandboxes_same.
Qed.

Lemma create_sandbox_kept fuel req : kept (create_sb fuel req).
Proof.
  unfold create_sandbox. apply steps_bind; [apply try_claim_kept|]. intros [r|]; [apply steps_ret|].
  apply steps_bind; [apply resolve_kept|]. intros vm o w Hok.
  pose proof (create_vm_of_fresh fuel vm o w) as (T&V&N). pose proof (create_vm_of_kept fuel vm o w Hok) as Hok1.
  destruct (create_vm_of fuel vm o w) as [w1 [made|e]] eqn:Hc; simpl in T, V, N, Hok1.
  2:{ by rewrite (bind_run_err _ _ _ _ _ _ Hc). }
  rewrite (bind_run _ _ _ _ _ _ Hc). destruct made as [[vm_id job]|]; [|exact Hok1].
  assert (outside vm_id (w_db w1)) as Hout.
  { intros j m Hm. injection T as _ Tm. rewrite Tm in Hm. by eapply fresh_outside; [|eapply N|]. }
  unfold mbind, M_bind. pose proof (register_kept req (default (ss_default_idle_timeout_secs settings)
    (ns_idle_timeout_secs req)) (is_oci vm) vm_id job o w1 Hout Hok1) as Hreg.
  by destruct (register _ _ _ _ _ o w1) as [w2 [r|e]].
Qed.

(** *** The pool manager *)

Abbreviation provision := (provision_pool_member control_plane_architecture config locked locked_gpus
  accel_de sqlx_text defaults to_rfc3339 numa_config_de settings).

(** A new member of a VM without a sandbox. *)
Definition unclaimed (vm_id : Uuid) (db : Db) : Prop :=
  forall k s, t_sandboxes db !! k = Some s -> sb_vm_id s <> vm_id.

Lemma member_create_kept pool vm_id o w :
  unclaimed vm_id (w_db w) -> sandboxes_ok (w_db w) ->
  sandboxes_ok (w_db (create_member pool vm_id o w).1).
Proof.
  intros Hun Hok. unfold create_member.
  rewrite (bind_run _ _ o w (tick w) (o_uuid o (w_step w)) eq_refl).
  rewrite (bind_run _ _ o (tick w) (tick (tick w)) (o_now o (S (w_step w))) eq_refl).
  set (r := member_row _ _ _ _). unfold mbind, M_bind, execute.
  destruct (o_sql o _); [exact Hok|]. simpl.
  destruct (insert_member_row r (w_db w)) as [[db []]|e] eqn:Hins; simpl; [|exact Hok].
  unfold get_member, query. destruct (o_sql o _); simpl; by eapply keeps_sandboxes_new_member.
Qed.

Lemma provision_kept fuel pool : kept (provision fuel pool).
Proof.
  unfold provision_pool_member. apply steps_bind; [apply steps_new_uuid, db_moves_tick|]. intros u.
  cbv zeta. apply steps_bind; [apply resolve_kept|]. intros vm o w Hok.
  pose proof (create_vm_of_fresh fuel vm o w) as (T&V&N). pose proof (create_vm_of_kept fuel vm o w Hok) as Hok1.
  destruct (create_vm_of fuel vm o w) as [w1 [made|e]] eqn:Hc; simpl in T, V, N, Hok1.
  2:{ by rewrite (bind_run_err _ _ _ _ _ _ Hc). }
  rewrite (bind_run _ _ _ _ _ _ Hc). destruct made as [[vm_id job]|]; [|exact Hok1].
  assert (unclaimed vm_id (w_db w1)) as Hun.
  { intros k s Hs Hv. injection T as Ts _. rewrite Ts in Hs. destruct (ok_sandbox_vm _ Hok _ _ Hs) as [x Hx].
    rewrite Hv, (N _ _ eq_refl) in Hx. discriminate. }
  pose proof (member_create_kept (pool_id pool) vm_id o w1 Hun Hok1) as Hok2.
  destruct (create_member (pool_id pool) vm_id o w1) as [w2 [m|e]] eqn:Hm.
  2:{ rewrite (bind_run_err _ _ _ _ _ _ (lift_err_run _ _ _ _ _ _ Hm)). exact Hok2. }
  rewrite (bind_run _ _ _ _ _ _ (lift_err_run _ _ _ _ _ _ Hm)).
  match goal with |- sandboxes_ok (w_db (?m o w2).1) => assert (kept m) as Hk by steps_tac end.
  exact (Hk o w2 Hok2).
Qed.
#[local] Hint Resolve provision_kept : qarax.

Lemma provision_times_kept fuel n pool :
  kept (provision_times control_plane_architecture config locked locked_gpus accel_de sqlx_text defaults
          to_rfc3339 numa_config_de settings fuel n pool).
Proof. induction n as [|n IH]; cbn [provision_times]; steps_tac. Qed.
#[local] Hint Resolve provision_times_kept : qarax.

Abbreviation sync := (sync_pool control_plane_architecture config locked locked_gpus accel_de sqlx_text
  defaults to_rfc3339 numa_config_de settings).

Lemma trim_kept pool : kept (trim_pool pool).
Proof.
  unfold trim_pool, list_error_by_pool, list_ready_by_pool. steps_tac.
Qed.
#[local] Hint Resolve trim_kept : qarax.
Lemma sync_kept fuel pool : kept (sync fuel pool).
Proof. unfold sync_pool, refill_pool, count_by_status. steps_tac. Qed.

Lemma drop_pool_kept t : kept (drop_pool t).
Proof.
  intros o w. unfold drop_pool, lift_err, begin_tx, commit_tx, delete_pool_tx, execute.
  destruct (o_sql o (w_step w)); [by apply db_moves_same|]. simpl.
  destruct (o_sql o (S (w_step w))); [by apply db_moves_same|]. simpl.
  destruct (o_sql o (S (S (w_step w)))); [by apply db_moves_same|]. simpl.
  unfold db_moves. simpl. by apply keeps_sandboxes_less; simpl; [|apply map_filter_subseteq|..].
Qed.

(** *** Every sequence of operations *)

Inductive SandboxOp : Type :=
| OpCreate (fuel : nat) (req : NewSandbox)
| OpDelete (sandbox : Uuid) | OpKeepalive (sandbox : Uuid)
| OpReap (maintenance : bool)
| OpSyncAll (fuel : nat) | OpSyncTemplate (fuel : nat) (template : Uuid)
| OpPutPool (template : Uuid) (min_ready : Z) | OpDeletePool (template : Uuid)
| OpSandboxWatch (wakes : list Wake) (sandbox vm job : Uuid) (oci : bool)
| OpMemberWatch (wakes : list Wake) (member vm job : Uuid) (oci : bool)
| OpDeleteVm (vm : Uuid).

Definition run_sandbox_op (op : SandboxOp) : M Error unit :=
  match op with
  | OpCreate fuel req => _ ← create_sb fuel req; mret tt
  | OpDelete id => delete_sandbox id
  | OpKeepalive id => keepalive id
  | OpReap b => reaper_tick b
  | OpSyncAll fuel => sync_all_pools control_plane_architecture config locked locked_gpus accel_de sqlx_text
                        defaults to_rfc3339 numa_config_de settings fuel
  | OpSyncTemplate fuel t =>
      sync_pool_for_template control_plane_architecture config locked locked_gpus accel_de sqlx_text
        defaults to_rfc3339 numa_config_de settings fuel t
  | OpPutPool t n => _ ← put_sandbox_pool t n; mret tt
  | OpDeletePool t => delete_sandbox_pool t
  | OpSandboxWatch wakes s v j oci =>
      run_sandbox_watch sqlx_text defaults to_rfc3339 numa_config_de wakes s v j oci
  | OpMemberWatch wakes m v j oci =>
      run_member_watch sqlx_text defaults to_rfc3339 numa_config_de wakes m v j oci
  | OpDeleteVm v => sqlx_q (delete_vm v)
  end.

Fixpoint run_sandbox_ops (ops : list SandboxOp) : M Error unit :=
  match ops with
  | [] => mret tt
  | op :: ops' => _ ← attempt (run_sandbox_op op) ; run_sandbox_ops ops'
  end.

#[local] Hint Resolve sync_kept drop_pool_kept create_sandbox_kept sandbox_watch_kept member_watch_kept : qarax.

Lemma sandbox_op_kept op : kept (run_sandbox_op op).
Proof.
  destruct op; cbn [run_sandbox_op]; unfold delete_sandbox, keepalive, get_sandbox_row, sync_all_pools,
    sync_pool_for_template, list_sandbox_pools, get_pool_by_template, put_sandbox_pool, get_template,
    delete_sandbox_pool, get_pool_config, list_members_by_pool; steps_tac.
Qed.

Lemma sandbox_ops_kept ops : kept (run_sandbox_ops ops).
Proof.
  induction ops as [|op ops IH]; cbn [run_sandbox_ops]; [apply steps_ret|].
  apply steps_bind; [|intros _; exact IH]. apply steps_attempt, sandbox_op_kept.
Qed.

(** C25. Through any sequence of sandbox operations, pool synchronisations, reaper
    ticks and watchers, whatever statements are refused and whatever the nodes
    answer, a VM belongs to at most one sandbox or one pool, and exists. *)
Theorem sandbox_vms_exclusive ops o w :
  sandboxes_ok (w_db w) -> sandboxes_ok (w_db (run_sandbox_ops ops o w).1).
Proof. apply sandbox_ops_kept. Qed.

(** A request that can use a prewarmed VM claims the oldest ready member of its
    template that nobody else holds, in one transaction: the VM gets the name of
    the sandbox, the sandbox is ready, the member is gone and a finished job
    records it.  A claim that fails or finds no member changes nothing. *)
Theorem claim_outcome req idle o w :
  let run := try_claim_prewarmed_sandbox locked_members req idle o w in
  match run.2 with
  | Ok (Some (sid, vid, jid)) =>
      ns_instance_type_id req = None /\ ns_network_id req = None /\
      exists m t t', best_member (locked_members (S (w_step w))) (ns_vm_template_id req) (w_db w) m /\
        vid = spm_vm_id m /\ is_Some (t_vms (w_db w) !! vid) /\
        w_db run.1 = claimed_db (claimed_row req idle sid t m) (ns_name req) m
          (<[jid := completed_job jid (claim_job (ns_name req) sid) (Some claim_result) t']>
             (t_jobs (w_db w))) (w_db w) /\
        w_log run.1 = w_log w ++ [EvTask (PoolRefillTask (ns_vm_template_id req))]
  | _ => w_db run.1 = w_db w /\ w_log run.1 = w_log w
  end.
Proof.
  unfold try_claim_prewarmed_sandbox. destruct (_ || _) eqn:Hg; [done|].
  apply orb_false_iff in Hg as [G1 G2]. apply bool_decide_eq_false in G1, G2.
  rewrite <- eq_None_not_Some in G1, G2.
  pose proof (in_tx_opt_run Sqlx _ o w (claim_moves req idle)) as [L Hr]. cbv zeta in L, Hr.
  destruct (in_tx_opt _ _ o w) as [w1 [r|e]] eqn:Htx; cbn [fst snd] in L, Hr.
  2:{ by rewrite (bind_run_err _ _ _ _ _ _ Htx). }
  rewrite (bind_run _ _ _ _ _ _ Htx). destruct Hr as (w2&c&Hb&Hdb). apply claim_body_ok in Hb.
  destruct r as [[[sid vid] jid]|]; [|subst c; simpl; by split].
  destruct Hb as (->&m&t&t'&Hbest&->&Hn&Hj&Hc&D). cbn [conn_db w_tx set_tx default from_option] in *.
  simpl. split_and!; [done|done|]. exists m, t, t'. split_and!; [exact Hbest|done| |by rewrite Hdb, D|by rewrite L].
  unfold sandbox_constraints in Hc. destruct (existsb _ _) in Hc; [discriminate|].
  destruct (existsb _ _) in Hc; [discriminate|].
  destruct (negb (vm_exists _ _)) eqn:Hv in Hc; [discriminate|].
  apply negb_false_iff, bool_decide_eq_true in Hv. simpl in Hv. by apply lookup_alter_is_Some in Hv.
Qed.

(** *** The watcher *)

Definition starts (l : list Event) : list StartTask :=
  omap (fun e => match e with EvSpawn t => Some t | _ => None end) l.

Lemma starts_app l l' : starts (l ++ l') = starts l ++ starts l'.
Proof. apply omap_app. Qed.
Lemma starts_status l : Forall is_status_event l -> starts l = [].
Proof. induction 1 as [|e l He Hl IH]; [done|]. by destruct e. Qed.

(** A start that is accepted spawns one task, for this VM; one that is refused
    spawns none. *)
Lemma start_spawns vm_id o w :
  let run := start_vm vm_id o w in
  exists l, w_log run.1 = w_log w ++ l /\
    if is_ok run.2 then exists t, starts l = [t] /\ st_vm_id t = vm_id else starts l = [].
Proof.
  destruct (start_vm vm_id o w) as [w' [job|e]] eqn:Hrun; simpl.
  - apply start_inv in Hrun as (row&host&t&create&_&_&_&_&ev&Hev&L). eexists. split; [exact L|].
    rewrite starts_app, (starts_status ev) by done. eexists. split; [done|]. reflexivity.
  - cut (log_adds is_status_event w w').
    { intros (l&L&F). exists l. split; [done|by apply starts_status]. }
    unfold start_vm_internal in Hrun.
    pose proof (start_checks_reads vm_id o w) as (_&_&L1).
    destruct (start_checks vm_id o w) as [w1 [[vm host]|e1]] eqn:H1; simpl in L1.
    2:{ rewrite (bind_run_err _ _ _ _ _ _ H1) in Hrun. injection Hrun as <- _. by apply log_adds_same. }
    rewrite (bind_run _ _ _ _ _ _ H1) in Hrun. unfold start_claim in Hrun.
    transitivity w1; [by apply log_adds_same|]. pose proof (set_status_events to_rfc3339 vm_id Pending o w1) as A2.
    destruct (Vms.update_status to_rfc3339 vm_id Pending o w1) as [w2 [[]|e2]] eqn:H2; simpl in A2.
    2:{ rewrite (bind_run_err _ _ _ _ _ _ (lift_err_run _ _ _ _ _ _ H2)) in Hrun. by injection Hrun as <- _. }
    rewrite (bind_run _ _ _ _ _ _ (lift_err_run _ _ _ _ _ _ H2)) in Hrun. transitivity w2; [exact A2|].
    apply bind_cases in Hrun as [(e3&_&H3)|(r&w3&H3&Hrun)]; [by apply attempt_inv in H3 as (?&?&_)|].
    apply attempt_inv in H3 as (r'&[= <-]&H3).
    pose proof (start_prepare_only sqlx_text numa_config_de defaults vm vm_id o w2) as [_ L3].
    rewrite H3 in L3. transitivity w3; [by apply log_adds_same|].
    destruct r as [[c j]|e3]; [discriminate|].
    pose proof (set_status_events to_rfc3339 vm_id (v_status (vm_row vm)) o w3) as A4.
    apply bind_cases in Hrun as [(e4&_&H4)|(r&w4&H4&Hrun)]; [by apply attempt_inv in H4 as (?&?&_)|].
    apply attempt_inv in H4 as (r'&_&H4). rewrite H4 in A4. by injection Hrun as <- _.
Qed.

(** How many starts the watcher may still spawn. *)
Definition may_start (oci start_kicked : bool) : nat := if oci && negb start_kicked then 1 else 0.

(** One reaction: the starts it spawned and those left are within the bound, and
    the wait ends as ready only for [running]. *)
Definition reacts (vm_id : Uuid) (oci k : bool) (running : Prop) (w : World)
    (run : World * result Error (option ReadyOutcome * (bool * Uuid))) : Prop :=
  exists out k' j l, run.2 = Ok (out, (k', j)) /\ w_log run.1 = w_log w ++ l /\
    Forall (fun t => st_vm_id t = vm_id) (starts l) /\
    (length (starts l) + (match out with Some _ => 0 | None => may_start oci k' end) <= may_start oci k)%nat /\
    (out = Some ReadyNow -> running).

Lemma reacts_mono vm_id oci k (P Q : Prop) w run : (P -> Q) -> reacts vm_id oci k P w run -> reacts vm_id oci k Q w run.
Proof. intros HPQ (out&k'&j&l&H1&H2&H3&H4&H5). exists out, k', j, l. split_and!; auto. Qed.

Lemma reacts_ret vm_id oci k j (P : Prop) o w (out : option ReadyOutcome) :
  (out = Some ReadyNow -> P) -> reacts vm_id oci k P w ((mret (out, (k, j)) : M Error _) o w).
Proof.
  intros Hout. exists out, k, j, []. rewrite app_nil_r. split_and!; [done|done|constructor| |done].
  simpl. destruct out; lia.
Qed.

Lemma handle_reacts status oci k j vm_id o w :
  reacts vm_id oci k (status = Running) w
    (handle_vm_status sqlx_text defaults to_rfc3339 numa_config_de status oci k j vm_id o w).
Proof.
  unfold handle_vm_status. destruct status; try (by apply reacts_ret).
  destruct (oci && negb k) eqn:Hg; [|by apply reacts_ret].
  destruct (start_spawns vm_id o w) as (l&L&Hs).
  destruct (start_vm vm_id o w) as [w1 r] eqn:Hr. rewrite (attempt_bind_run _ _ _ _ _ _ Hr). simpl in L, Hs.
  destruct r as [job|e]; simpl in Hs.
  - destruct Hs as (t&Hl&Hid). exists None, true, job, l. rewrite Hl. simpl.
    unfold may_start. rewrite Hg, andb_false_r. split_and!; [done|done|by repeat constructor|simpl; lia|done].
  - exists (Some (Failed (error_to_string e))), k, j, l. rewrite Hs. simpl. split_and!; [done|done|done|lia|done].
Qed.

Definition is_running (vm_id : Uuid) (db : Db) : Prop :=
  exists row, t_vms db !! vm_id = Some row /\ v_status row = Running.

Lemma resync_reacts oci k j vm_id o w :
  reacts vm_id oci k (is_running vm_id (w_db w)) w
    (resync sqlx_text defaults to_rfc3339 numa_config_de oci k j vm_id o w).
Proof.
  unfold resync, Vms.get.
  assert (forall r w1, w_log w1 = w_log w ->
    (forall vm, r = Ok vm -> exists row, t_vms (w_db w) !! vm_id = Some row /\ vm_row vm = row) ->
    reacts vm_id oci k (is_running vm_id (w_db w)) w
      ((match r with
        | Ok vm => handle_vm_status sqlx_text defaults to_rfc3339 numa_config_de (v_status (vm_row vm)) oci k j vm_id
        | Err RowNotFound => mret (Some Gone, (k, j))
        | Err _ => mret (None, (k, j))
        end) o w1)) as Hgo.
  { intros r w1 L Hr.
    assert (forall P run, reacts vm_id oci k P w1 run -> reacts vm_id oci k P w run) as Hw.
    { intros P run (out&k'&j'&l&H1&H2&H3). exists out, k', j', l. by rewrite H2, L. }
    apply Hw. destruct r as [vm|e]; [|destruct e; by apply reacts_ret].
    destruct (Hr vm eq_refl) as (row&Hrow&<-). eapply reacts_mono; [|apply handle_reacts].
    intros Hs. by exists (vm_row vm). }
  unfold query. destruct (o_sql o (w_step w)) as [e|] eqn:Ho.
  - rewrite (attempt_bind_run _ _ _ _ (tick w) (Err e)) by (unfold query; by rewrite Ho). by apply (Hgo (Err e) (tick w)).
  - erewrite attempt_bind_run by (unfold query; rewrite Ho; reflexivity). apply (Hgo _ (tick w)); [done|].
    intros vm Hvm. simpl in Hvm. destruct (t_vms (w_db w) !! vm_id) as [row|]; [|discriminate].
    injection Hvm as <-. by exists row.
Qed.

Lemma poll_job_quiet j o w :
  exists out w1, poll_job j o w = (w1, Ok out) /\ w_log w1 = w_log w /\ out <> Some ReadyNow.
Proof.
  unfold poll_job. case_bool_decide; [by exists None, w|].
  assert (w_log (Jobs.get j o w).1 = w_log w) as L.
  { unfold Jobs.get, in_tx, lift_err, begin_tx, commit_tx, Jobs.get_tx, query.
    destruct (o_sql o _); [done|]. simpl. destruct (o_sql o _); [done|]. simpl.
    destruct (fetch_one _); [|done]. simpl. by destruct (o_sql o _). }
  destruct (Jobs.get j o w) as [w1 r] eqn:Hr. rewrite (attempt_bind_run _ _ _ _ _ _ Hr).
  eexists _, w1. split_and!; [done|exact L|]. destruct r; [|done]. by case_bool_decide.
Qed.

Definition told_running (vm_id : Uuid) (wake : Wake) : Prop :=
  wake = StatusEvent vm_id "running" \/ wake = Lagged.

Lemma on_wake_reacts wake oci k j vm_id o w :
  reacts vm_id oci k (told_running vm_id wake) w
    (on_wake sqlx_text defaults to_rfc3339 numa_config_de wake oci k j vm_id o w).
Proof.
  destruct wake as [|id s| | |]; cbn [on_wake]; try (by apply reacts_ret).
  - case_bool_decide; [|by apply reacts_ret]. subst id.
    destruct (parse_vm_status s) as [st|] eqn:Hp; [|by apply reacts_ret].
    eapply reacts_mono; [|apply handle_reacts]. intros ->. left. f_equal.
    unfold parse_vm_status in Hp. apply find_some in Hp as [_ Hs]. by apply String.eqb_eq in Hs.
  - eapply reacts_mono; [|apply resync_reacts]. intros _. by right.
  - destruct (poll_job_quiet j o w) as (out&w1&Hrun&L&Hout). rewrite (bind_run _ _ _ _ _ _ Hrun).
    exists out, k, j, []. rewrite app_nil_r. split_and!; [done|done|constructor| |by intros ->].
    simpl. destruct out; lia.
Qed.

Definition watched (vm_id : Uuid) (bound : nat) (running : Prop) (must_end : Prop) (w : World)
    (run : World * result Error (option ReadyOutcome)) : Prop :=
  exists out l, run.2 = Ok out /\ w_log run.1 = w_log w ++ l /\
    Forall (fun t => st_vm_id t = vm_id) (starts l) /\ (length (starts l) <= bound)%nat /\
    (out = Some ReadyNow -> running) /\ (must_end -> is_Some out).

Lemma watch_loop_watched wakes oci k j vm_id o w :
  watched vm_id (may_start oci k) (exists wake, wake ∈ wakes /\ told_running vm_id wake) (Deadline ∈ wakes) w
    (watch_loop sqlx_text defaults to_rfc3339 numa_config_de wakes oci k j vm_id o w).
Proof.
  revert k j w. induction wakes as [|wake wakes IH]; intros k j w; cbn [watch_loop].
  - exists None, []. rewrite app_nil_r. split_and!; [done|done|constructor|simpl; lia|done|].
    by intros ?%elem_of_nil.
  - destruct (on_wake_reacts wake oci k j vm_id o w) as (out&k'&j'&l&R&L&F&B&T).
    destruct (on_wake _ _ _ _ wake oci k j vm_id o w) as [w1 r1] eqn:Hw. cbn [fst snd] in R, L. subst r1.
    rewrite (bind_run _ _ _ _ _ _ Hw). destruct out as [out|].
    + exists (Some out), l. split_and!; [done|done|done|lia| |done]. intros E. exists wake.
      split; [set_solver|by apply T].
    + destruct (IH k' j' w1) as (out&l'&R'&L'&F'&B'&T'&D'). exists out, (l ++ l').
      rewrite starts_app, length_app, L', L, app_assoc.
      split_and!; [done|done|by apply Forall_app|lia| |].
      * intros E. destruct (T' E) as (wk&Hin&Hr). exists wk. split; [set_solver|done].
      * intros [<-|Hin]%elem_of_cons; [|by apply D']. cbn [on_wake] in Hw. discriminate.
Qed.

(** A watcher starts its VM at most once, and only when it was created from an
    image; it never fails, it ends when its deadline has passed, and it reports the
    VM ready only when the table or the event bus said that the VM is running. *)
Theorem watch_starts_once wakes vm_id job oci o w :
  let run := watch wakes vm_id job oci o w in
  exists out l, run.2 = Ok out /\ w_log run.1 = w_log w ++ l /\
    Forall (fun t => st_vm_id t = vm_id) (starts l) /\
    (length (starts l) <= if oci then 1 else 0)%nat /\
    (Deadline ∈ wakes -> is_Some out) /\
    (out = Some ReadyNow -> is_running vm_id (w_db w) \/
       exists wake, wake ∈ wakes /\ told_running vm_id wake).
Proof.
  cbv zeta. unfold watch_for_ready.
  destruct (resync_reacts oci (negb oci) job vm_id o w) as (out&k&j&l&R&L&F&B&T).
  destruct (resync _ _ _ _ oci (negb oci) job vm_id o w) as [w1 r1] eqn:Hw. cbn [fst snd] in R, L. subst r1.
  rewrite (bind_run _ _ _ _ _ _ Hw).
  assert (may_start oci (negb oci) <= if oci then 1 else 0)%nat as Hb by (by destruct oci).
  destruct out as [out|].
  - exists (Some out), l. split_and!; [done|done|done|lia|done|]. intros E. left. by apply T.
  - destruct (watch_loop_watched wakes oci k j vm_id o w1) as (out&l'&R'&L'&F'&B'&T'&D').
    exists out, (l ++ l'). rewrite starts_app, length_app, L', L, app_assoc.
    split_and!; [done|done|by apply Forall_app|lia|exact D'|]. intros E. right. by apply T'.
Qed.
End operations.

(** ** Destruction *)

Section destruction_facts.
Context `{UuidText} `{PolicySerde}.

(** The tables a destruction touches, pools apart. *)
Definition sandbox_view (db : Db) := (t_vms db, sandbox_tables db).

Lemma destroy_vm_view {E} vm_id o w :
  let run := (destroy_vm vm_id : M E unit) o w in
  run.2 = Ok tt /\
  ((~ served o /\ sandbox_view (w_db run.1) = sandbox_view (w_db w)) \/
   sandbox_view (w_db run.1) = sandbox_view (delete_vm_cascade vm_id (w_db w))).
Proof.
  assert (forall w1 r, sandbox_view (w_db w1) = sandbox_view (w_db w) ->
    r = (_ ← attempt (delete_vm vm_id); mret tt : M E unit) o w1 -> r.2 = Ok tt /\
    ((~ served o /\ sandbox_view (w_db r.1) = sandbox_view (w_db w)) \/
     sandbox_view (w_db r.1) = sandbox_view (delete_vm_cascade vm_id (w_db w)))) as Hdel.
  { intros w1 r Hv ->. unfold delete_vm, mbind, M_bind, attempt, execute.
    destruct (o_sql o (w_step w1)) eqn:Ho; simpl; split; try done.
    - left. split; [|done]. intros Hs. by rewrite Hs in Ho.
    - right. unfold sandbox_view, sandbox_tables in *. simpl in *. congruence. }
  cbv zeta. unfold destroy_vm.
  assert (sandbox_view (w_db (deallocate_by_vm vm_id o w).1) = sandbox_view (w_db w)) as V1.
  { unfold deallocate_by_vm, deallocate, mbind, M_bind, now, execute. by destruct (o_sql o _). }
  destruct (deallocate_by_vm vm_id o w) as [w1 r1] eqn:H1. simpl in V1.
  rewrite (attempt_bind_run _ _ _ _ _ _ H1).
  destruct (Vms.get vm_id o w1) as [w2 r2] eqn:H2. rewrite (attempt_bind_run _ _ _ _ _ _ H2).
  assert (w_db w2 = w_db w1) as D2.
  { unfold Vms.get, query in H2. destruct (o_sql o _); by injection H2 as <- _. }
  destruct r2 as [vm|e]; [|apply (Hdel w2); [congruence|done]].
  match goal with |- context [(?m ≫= ?f) o w2] => assert (exists w3, m o w2 = (w3, Ok tt) /\ w_db w3 = w_db w2)
    as (w3&H3&D3) end.
  { destruct (v_host_id (vm_row vm)) as [hid|]; [|by eexists].
    destruct (get_by_id hid o w2) as [w3 r3] eqn:H3. rewrite (attempt_bind_run _ _ _ _ _ _ H3).
    assert (w_db w3 = w_db w2) as D3.
    { unfold get_by_id, query in H3. destruct (o_sql o _); by injection H3 as <- _. }
    destruct r3 as [[host|]|]; [|by eexists..]. eexists. split; [reflexivity|done]. }
  rewrite (bind_run _ _ _ _ _ _ H3). apply (Hdel w3); [congruence|done].
Qed.

Lemma destroy_vm_served {E} vm_id o w :
  served o -> exists w', (destroy_vm vm_id : M E unit) o w = (w', Ok tt) /\
    sandbox_view (w_db w') = sandbox_view (delete_vm_cascade vm_id (w_db w)).
Proof.
  intros Ho. destruct (destroy_vm_view (E := E) vm_id o w) as [R [[Hn _]|V]]; [done|].
  destruct (destroy_vm vm_id o w) as [w' r]. simpl in *. subst r. by exists w'.
Qed.

(** What the members are after one of them was destroyed. *)
Lemma destroy_member_served {E} m o w :
  served o -> sandboxes_ok (w_db w) -> t_sandbox_pool_members (w_db w) !! spm_id m = Some m ->
  exists w', (destroy_member m : M E unit) o w = (w', Ok tt) /\ sandboxes_ok (w_db w') /\
    t_sandbox_pool_members (w_db w') = base.delete (spm_id m) (t_sandbox_pool_members (w_db w)) /\
    t_vms (w_db w') = base.delete (spm_vm_id m) (t_vms (w_db w)).
Proof.
  intros Ho Hok Hm. pose proof (destroy_member_kept (E := E) m o w Hok) as Hok'.
  unfold destroy_member in *. unfold update_member_status in *.
  set (f := set_member_status MemDestroying (spm_error_message m) (o_now o (w_step w))) in *.
  set (w1 := set_db (with_sandbox_pool_members (alter f (spm_id m)) (w_db w)) (tick (tick w))).
  assert (update_member_status (spm_id m) MemDestroying (spm_error_message m) o w = (w1, Ok tt)) as H1.
  { unfold update_member_status. rewrite (bind_run _ _ o w (tick w) (o_now o (w_step w)) eq_refl).
    by erewrite execute_served. }
  unfold update_member_status in H1. rewrite (attempt_bind_run _ _ _ _ _ _ H1) in *.
  destruct (destroy_vm_served (E := E) (spm_vm_id m) o w1 Ho) as (w2&H2&V2).
  rewrite (bind_run _ _ _ _ _ _ H2) in *.
  unfold delete_member, delete_member_on in *.
  erewrite attempt_bind_run in * by (by apply execute_served). eexists. split; [reflexivity|]. split; [exact Hok'|].
  injection V2 as Hv _ Hmem. simpl in Hv, Hmem |- *. split; [|exact Hv]. rewrite Hmem. apply map_eq. intros k.
  destruct (decide (k = spm_id m)) as [->|Hne]; [by rewrite !lookup_delete_eq|].
  rewrite !lookup_delete_ne by done. unfold keep. rewrite map_lookup_filter, lookup_alter_ne by done.
  destruct (t_sandbox_pool_members (w_db w) !! k) as [x|] eqn:Hx; [|done]. simpl.
  rewrite option_guard_True; [done|]. apply negb_true_iff, bool_decide_eq_false. intros E1. apply Hne.
  eapply (ok_member_once _ Hok); eauto.
Qed.

Lemma destroy_members_served l o w :
  served o -> sandboxes_ok (w_db w) -> NoDup (spm_id <$> l) ->
  (forall m, m ∈ l -> t_sandbox_pool_members (w_db w) !! spm_id m = Some m) ->
  exists w', (for_all_m destroy_member l : M Error unit) o w = (w', Ok tt) /\ sandboxes_ok (w_db w') /\
    forall k m, t_sandbox_pool_members (w_db w') !! k = Some m <->
      t_sandbox_pool_members (w_db w) !! k = Some m /\ k ∉ spm_id <$> l.
Proof.
  intros Ho. revert w. induction l as [|x l IH]; intros w Hok Hnd Hin.
  { exists w. split_and!; [done|done|]. intros k m. set_solver. }
  cbn [for_all_m]. destruct (destroy_member_served (E := Error) x o w Ho Hok) as (w1&H1&Hok1&M1&_).
  { apply Hin. set_solver. }
  rewrite fmap_cons in Hnd. apply NoDup_cons in Hnd as [Hx Hnd].
  rewrite (bind_run _ _ _ _ _ _ H1). destruct (IH w1 Hok1 Hnd) as (w2&H2&Hok2&M2).
  { intros m Hm. rewrite M1, lookup_delete_ne; [apply Hin; set_solver|].
    intros E1. apply Hx. rewrite E1. apply list_elem_of_fmap. eauto. }
  exists w2. split_and!; [done|done|]. intros k m. rewrite M2, M1, lookup_delete_Some. set_solver.
Qed.

(** *** The pool manager *)

Lemma selected_elem p db m :
  m ∈ selected_members p db <-> m ∈ rows (t_sandbox_pool_members db) /\ p m = true.
Proof.
  unfold selected_members. rewrite merge_sort_Permutation, list_elem_of_In, filter_In. by rewrite <- list_elem_of_In.
Qed.

Lemma selected_lookup p db m :
  sandboxes_ok db -> m ∈ selected_members p db ->
  t_sandbox_pool_members db !! spm_id m = Some m /\ p m = true.
Proof.
  intros Hok [Hin Hp]%selected_elem. split; [|done]. apply elem_of_rows in Hin as [k Hk].
  by rewrite (ok_member_keys _ Hok _ _ Hk).
Qed.

Lemma NoDup_fmap_filter {A B} (f : A -> B) (p : A -> bool) l :
  NoDup (f <$> l) -> NoDup (f <$> List.filter p l).
Proof.
  induction l as [|x l IH]; simpl; [done|]. intros [Hx Hl]%NoDup_cons. destruct (p x); [|by apply IH].
  rewrite fmap_cons. apply NoDup_cons. split; [|by apply IH]. intros (y&Heq&Hy)%list_elem_of_fmap. apply Hx.
  apply list_elem_of_fmap. exists y. split; [done|]. apply list_elem_of_In, filter_In in Hy as [Hy _].
  by apply list_elem_of_In.
Qed.

Lemma selected_NoDup p db : sandboxes_ok db -> NoDup (spm_id <$> selected_members p db).
Proof.
  intros Hok. unfold selected_members. rewrite merge_sort_Permutation. apply NoDup_fmap_filter.
  assert (spm_id <$> rows (t_sandbox_pool_members db) = (map_to_list (t_sandbox_pool_members db)).*1) as ->.
  - unfold rows. rewrite <- list_fmap_compose. apply list_fmap_ext. intros i [k m] Hi. simpl.
    apply (ok_member_keys _ Hok). apply elem_of_map_to_list. by eapply list_elem_of_lookup_2.
  - apply NoDup_fst_map_to_list.
Qed.

Definition ready_members (pool : Uuid) (db : Db) : list SandboxPoolMember :=
  selected_members (in_pool pool MemReady) db.

Lemma ready_without_failed pid db db1 :
  sandboxes_ok db -> sandboxes_ok db1 ->
  (forall k m, t_sandbox_pool_members db1 !! k = Some m <->
     t_sandbox_pool_members db !! k = Some m /\ k ∉ spm_id <$> selected_members (in_pool pid MemError) db) ->
  (forall m, m ∈ ready_members pid db1 <-> m ∈ ready_members pid db) /\
  length (ready_members pid db1) = length (ready_members pid db).
Proof.
  intros Hok Hok1 M1.
  assert (forall m, m ∈ ready_members pid db1 <-> m ∈ ready_members pid db) as Hready.
  { intros m. unfold ready_members. rewrite !selected_elem, !elem_of_rows. split.
    - intros [[k Hk] Hp]. split; [|done]. exists k. by apply M1 in Hk as [? _].
    - intros [[k Hk] Hp]. split; [|done]. exists k. apply M1. split; [done|].
      intros (x&->&Hx)%list_elem_of_fmap. apply selected_lookup in Hx as [Hx Hpx]; [|done].
      rewrite Hk in Hx. injection Hx as ->. revert Hp Hpx. unfold in_pool.
      rewrite !andb_true_iff, !bool_decide_eq_true. intros [_ ->] [_ ?]. done. }
  split; [done|]. rewrite <- (length_fmap spm_id), <- (length_fmap spm_id (ready_members pid db)).
  apply Permutation_length, NoDup_Permutation; [by apply selected_NoDup..|]. intros x.
  rewrite !list_elem_of_fmap. by setoid_rewrite Hready.
Qed.

(** A list of rows of the table holds a row exactly when it holds its key. *)
Lemma member_key db (l : list SandboxPoolMember) k m :
  sandboxes_ok db -> (forall x, x ∈ l -> t_sandbox_pool_members db !! spm_id x = Some x) ->
  t_sandbox_pool_members db !! k = Some m -> (k ∈ spm_id <$> l <-> m ∈ l).
Proof.
  intros Hok Hl Hk. rewrite list_elem_of_fmap. pose proof (ok_member_keys _ Hok _ _ Hk) as Hid. simpl in Hid.
  split; [|intros Hm; exists m; by rewrite Hid]. intros (x&->&Hx). pose proof (Hl x Hx) as Hxx.
  rewrite Hk in Hxx. by injection Hxx as ->.
Qed.

(** Synchronising a pool first destroys its failed members and then, when more
    members are ready than configured, exactly as many of the ready ones as are
    too many, the oldest; the other members stay as they are. *)
Theorem trim_pool_effect pool o w :
  served o -> sandboxes_ok (w_db w) -> 0 <= pool_min_ready pool <= i32_max ->
  Z.of_nat (length (ready_members (pool_id pool) (w_db w))) <= i32_max ->
  exists w' gone, trim_pool pool o w = (w', Ok true) /\ sandboxes_ok (w_db w') /\
    Z.of_nat (length gone) =
      Z.max 0 (Z.of_nat (length (ready_members (pool_id pool) (w_db w))) - pool_min_ready pool) /\
    (forall m, m ∈ gone -> m ∈ ready_members (pool_id pool) (w_db w)) /\
    (forall m m', m ∈ gone -> m' ∈ ready_members (pool_id pool) (w_db w) -> m' ∉ gone ->
       spm_created_at m <= spm_created_at m') /\
    (forall k m, t_sandbox_pool_members (w_db w') !! k = Some m <->
       t_sandbox_pool_members (w_db w) !! k = Some m /\ in_pool (pool_id pool) MemError m = false /\ m ∉ gone).
Proof.
  intros Ho Hok Hmin Hlen. set (pid := pool_id pool) in *. unfold trim_pool.
  set (failed := selected_members (in_pool pid MemError) (w_db w)).
  rewrite (attempt_bind_run _ _ _ _ (tick w) (Ok failed)) by (unfold list_error_by_pool; by rewrite query_served).
  destruct (destroy_members_served failed o (tick w) Ho Hok) as (w1&H1&Hok1&M1).
  { by apply selected_NoDup. }
  { intros m Hm. by apply selected_lookup in Hm as [Hm _]. }
  rewrite (bind_run _ _ _ _ _ _ H1). simpl in M1. set (ready := ready_members pid (w_db w1)).
  rewrite (attempt_bind_run _ _ _ _ (tick w1) (Ok ready)) by (unfold list_ready_by_pool; by rewrite query_served).
  destruct (ready_without_failed pid (w_db w) (w_db w1) Hok Hok1 M1) as [Hready Hl].
  fold ready in Hready, Hl.
  set (gone := surplus_members ready (pool_min_ready pool)).
  assert (gone ⊆ ready) as Hsub by (intros m (i&Hi&_)%elem_of_take; by eapply list_elem_of_lookup_2).
  destruct (destroy_members_served gone o (tick w1) Ho Hok1) as (w2&H2&Hok2&M2).
  { unfold gone, surplus_members. rewrite fmap_take.
    eapply sublist_NoDup; [exact (selected_NoDup (in_pool pid MemReady) _ Hok1)|apply sublist_take]. }
  { intros m Hm%Hsub. by apply selected_lookup in Hm as [Hm _]. }
  rewrite (bind_run _ _ _ _ _ _ H2). exists w2, gone. split_and!; [done|done| | | |].
  - unfold gone, surplus_members, surplus_of. rewrite length_take, Hl.
    rewrite !as_i32_id by (rewrite ?as_i32_id; apply in_range_spec; unfold i32_min, i32_max in *; lia). lia.
  - intros m Hm%Hsub. by apply Hready.
  - intros m m' Hm Hm' Hnot. apply Hready in Hm'.
    pose proof (StronglySorted_merge_sort oldest_first
      (List.filter (in_pool pid MemReady) (rows (t_sandbox_pool_members (w_db w1))))) as Hs.
    fold (selected_members (in_pool pid MemReady) (w_db w1)) in Hs. fold (ready_members pid (w_db w1)) in Hs.
    fold ready in Hs. unfold gone, surplus_members in Hm, Hnot.
    rewrite <- (take_drop (Z.to_nat (surplus_of (length ready) (pool_min_ready pool))) ready) in Hs, Hm'.
    apply elem_of_app in Hm' as [Hm'|Hm']; [done|].
    apply StronglySorted_app in Hs as (Hle&_&_). exact (Hle _ _ Hm Hm').
  - intros k m. rewrite M2. simpl. rewrite M1.
    assert (forall x, x ∈ failed -> t_sandbox_pool_members (w_db w) !! spm_id x = Some x) as K1
      by (intros x Hx; by apply selected_lookup in Hx as [? _]).
    assert (forall x, x ∈ gone -> t_sandbox_pool_members (w_db w) !! spm_id x = Some x) as K2
      by (intros x Hx%Hsub%Hready; by apply selected_lookup in Hx as [? _]).
    split.
    + intros [[Hk Hf] Hg]. rewrite (member_key _ _ _ _ Hok K1 Hk) in Hf. rewrite (member_key _ _ _ _ Hok K2 Hk) in Hg.
      split_and!; [done| |done]. apply not_true_is_false. intros Hp. apply Hf, selected_elem. split; [|done].
      apply elem_of_rows. by exists k.
    + intros (Hk&Hp&Hg). split_and!; [done| |by rewrite (member_key _ _ _ _ Hok K2 Hk)].
      rewrite (member_key _ _ _ _ Hok K1 Hk). intros [_ Hp']%selected_elem. congruence.
Qed.

(** *** The reaper *)

(** The row of a sandbox and that of its VM. *)
Definition sandbox_stands (k : Uuid) (s : SandboxRow) (v : option VmRow) (db : Db) : Prop :=
  t_sandboxes db !! k = Some s /\ t_vms db !! sb_vm_id s = v.

Lemma reap_others x k s v o w :
  sb_id x <> k -> sb_vm_id x <> sb_vm_id s -> sandbox_stands k s v (w_db w) ->
  sandbox_stands k s v (w_db ((reap x : M Error unit) o w).1).
Proof.
  intros Hk Hv [Hs Hvm]. unfold reap, update_sandbox_status.
  destruct (o_sql o (w_step w)) as [e|] eqn:Ho.
  { erewrite attempt_bind_run by (unfold execute; rewrite Ho; reflexivity). by split. }
  erewrite attempt_bind_run by (unfold execute; rewrite Ho; reflexivity).
  set (w1 := set_conn_db _ _ _).
  assert (sandbox_stands k s v (w_db w1)) as [Hs1 Hv1] by (split; [simpl; by rewrite lookup_alter_ne|exact Hvm]).
  destruct (destroy_vm_view (E := Error) (sb_vm_id x) o w1) as [_ [[_ V]|V]];
    injection V as V1 V2 _; unfold sandbox_stands; rewrite V1, V2; [by split|]. simpl. split.
  - apply lookup_keep. split; [exact Hs1|]. by apply negb_true_iff, bool_decide_eq_false.
  - by rewrite lookup_delete_ne.
Qed.

(** Reaping a sandbox while every statement is served removes it with its VM. *)
Lemma reap_served x o w :
  served o -> exists w', (reap x : M Error unit) o w = (w', Ok tt) /\
    t_vms (w_db w') = base.delete (sb_vm_id x) (t_vms (w_db w)) /\
    (forall k s, t_sandboxes (w_db w') !! k = Some s -> sb_vm_id s <> sb_vm_id x).
Proof.
  intros Ho. unfold reap, update_sandbox_status.
  set (w1 := set_db (with_sandboxes (alter (set_sandbox_status SbDestroying None) (sb_id x)) (w_db w))
    (tick w)).
  rewrite (attempt_bind_run _ _ _ _ w1 (Ok tt)) by (by apply execute_served).
  destruct (destroy_vm_served (E := Error) (sb_vm_id x) o w1 Ho) as (w'&Hd&V).
  exists w'. split; [exact Hd|].
  injection V as V1 V2 _. simpl in V1, V2. split; [exact V1|]. rewrite V2. intros k s [_ Hp]%lookup_keep.
  by apply negb_true_iff, bool_decide_eq_false in Hp.
Qed.

Lemma not_expired t s :
  sb_status s <> SbReady \/ t <= sb_last_activity_at s + sb_idle_timeout_secs s -> expired_at t s = false.
Proof.
  unfold expired_at. intros [Hst|Ht]; [by rewrite bool_decide_eq_false_2|]. apply andb_false_iff. right. by apply Z.ltb_ge.
Qed.

(** C26. A tick of the reaper touches no sandbox that is not ready or whose idle
    timeout has not passed when the tick begins, nor the VM of such a sandbox,
    whatever statements are refused. *)
Theorem reaper_spares_active b o w k s :
  sandboxes_ok (w_db w) -> t_sandboxes (w_db w) !! k = Some s ->
  sb_status s <> SbReady \/ o_now o (w_step w) <= sb_last_activity_at s + sb_idle_timeout_secs s ->
  sandbox_stands k s (t_vms (w_db w) !! sb_vm_id s) (w_db ((reaper_tick b : M Error unit) o w).1).
Proof.
  intros Hok Hs Hact. unfold reaper_tick. destruct b; [by split|].
  set (t := o_now o (w_step w)) in *. apply not_expired in Hact as Hne. set (l := List.filter (expired_at t) (rows (t_sandboxes (w_db w)))).
  assert (list_expired o w = (tick (tick w), match o_sql o (S (w_step w)) with
    | Some e => Err e | None => Ok l end)) as Hl.
  { unfold list_expired. rewrite (bind_run _ _ o w (tick w) t eq_refl). unfold query. simpl.
    by destruct (o_sql o (S (w_step w))). }
  rewrite (attempt_bind_run _ _ _ _ _ _ Hl). destruct (o_sql o (S (w_step w))); [by split|].
  assert (forall x, x ∈ l -> sb_id x <> k /\ sb_vm_id x <> sb_vm_id s) as Hdiff.
  { intros x Hx. apply list_elem_of_In, filter_In in Hx as [Hx He]. apply list_elem_of_In, elem_of_rows in Hx as [j Hj].
    pose proof (ok_sandbox_keys _ Hok _ _ Hj) as Kj. simpl in Kj. assert (j <> k) as Hjk by (intros ->; congruence).
    split; [congruence|]. intros E. apply Hjk. by eapply (ok_sandbox_once _ Hok). }
  assert (sandbox_stands k s (t_vms (w_db w) !! sb_vm_id s) (w_db (tick (tick w)))) as H1 by (by split).
  revert H1. generalize (tick (tick w)). generalize (t_vms (w_db w) !! sb_vm_id s) as v. clear Hl. clearbody l.
  induction l as [|x l IH]; intros v w1 H1; [exact H1|]. cbn [for_all_m].
  destruct (Hdiff x) as [D1 D2]; [set_solver|]. pose proof (reap_others x k s v o w1 D1 D2 H1) as H2.
  unfold mbind, M_bind. destruct (reap x o w1) as [w2 [[]|e]]; [|exact H2].
  apply IH; [|exact H2]. intros y Hy. apply Hdiff. set_solver.
Qed.
End destruction_facts.

(** ** Failed requests *)

Section failed_request.
Context `{UuidText} `{PolicySerde} {coll : Collation}.
Variables (sqlx_text : SqlxError -> string) (defaults : VmDefaults) (to_rfc3339 : Z -> string)
  (numa_config_de : json -> option NumaConfig).

(** A sandbox request that fails after its VM was created, with the database
    serving every statement, leaves neither the VM nor a sandbox of it. *)
Theorem failed_sandbox_cleans_up req idle oci vm_id job o w w' e :
  served o ->
  register_sandbox sqlx_text defaults to_rfc3339 numa_config_de req idle oci vm_id job o w = (w', Err e) ->
  t_vms (w_db w') !! vm_id = None /\
  (forall k s, t_sandboxes (w_db w') !! k = Some s -> sb_vm_id s <> vm_id) /\
  (forall k m, t_sandbox_pool_members (w_db w') !! k = Some m -> spm_vm_id m <> vm_id).
Proof.
  intros Ho Hrun.
  assert (forall w1 w2, (destroy_vm vm_id : M Error unit) o w1 = (w2, Ok tt) ->
    t_vms (w_db w2) !! vm_id = None /\
    (forall k s, t_sandboxes (w_db w2) !! k = Some s -> sb_vm_id s <> vm_id) /\
    (forall k m, t_sandbox_pool_members (w_db w2) !! k = Some m -> spm_vm_id m <> vm_id)) as Hd.
  { intros w1 w2 H2. destruct (destroy_vm_served (E := Error) vm_id o w1 Ho) as (w3&H3&V).
    rewrite H2 in H3. injection H3 as <-. injection V as V1 V2 V3. rewrite V1, V2, V3. simpl.
    split_and!; [by rewrite lookup_delete_eq| |]; intros k x [_ Hp]%lookup_keep;
      by apply negb_true_iff, bool_decide_eq_false in Hp. }
  unfold register_sandbox in Hrun.
  rewrite (bind_run _ _ o w (tick w) (o_uuid o (w_step w)) eq_refl) in Hrun.
  apply bind_cases in Hrun as [(e1&_&H1)|(r&w1&_&Hrun)]; [by apply attempt_inv in H1 as (?&?&_)|].
  destruct r as [[]|e1].
  - apply bind_cases in Hrun as [(e2&_&H2)|(st&w2&_&Hrun)].
    { destruct oci; [discriminate|by apply attempt_inv in H2 as (?&?&_)]. }
    destruct st as [job_id|e2]; [by apply bind_cases in Hrun as [(?&_&?)|(?&?&_&?)]|].
    destruct (destroy_vm_served (E := Error) vm_id o w2 Ho) as (w3&H3&_).
    rewrite (bind_run _ _ _ _ _ _ H3) in Hrun. unfold delete_sandbox_row in Hrun.
    erewrite attempt_bind_run in Hrun by (by apply execute_served). injection Hrun as <- _.
    destruct (Hd _ _ H3) as (V1&V2&V3). simpl. split_and!; [exact V1| |exact V3].
    intros k s [_ Hs]%lookup_delete_Some. by eapply V2.
  - destruct (destroy_vm_served (E := Error) vm_id o w1 Ho) as (w3&H3&_).
    rewrite (bind_run _ _ _ _ _ _ H3) in Hrun. injection Hrun as <- _. by apply Hd in H3.
Qed.
End failed_request.

(** ** Runs *)

Section runs.
#[local] Instance sandbox_uuid_text : UuidText := binary_uuid_text.
#[local] Instance sandbox_serde : PolicySerde := array_policy_serde.
#[local] Instance sandbox_collation : Collation := encoding_collation.
#[local] Instance sandbox_inet : PgInet := slash32_inet.
#[local] Instance sandbox_mac : PgMacaddr := colon_mac.

Definition box_vm (id : Uuid) (name : string) : VmRow := sample_vm id name (Some 2%N) Running 1 512 [] (JObject ∅).
Definition box_member (id vm : Uuid) (t : Z) : SandboxPoolMember :=
  {| spm_id := id; spm_sandbox_pool_id := 41; spm_vm_id := vm; spm_status := MemReady;
     spm_error_message := None; spm_created_at := t; spm_updated_at := t |}.
Definition box_pool : SandboxPoolRow :=
  {| sbp_id := 41; sbp_vm_template_id := 40; sbp_min_ready := 1; sbp_created_at := 0; sbp_updated_at := 0 |}.
Definition counted_box_pool : SandboxPool :=
  {| sp_pool_row := box_pool; sp_vm_template_name := "box"; sp_current_ready := 2; sp_current_provisioning := 0;
     sp_current_error := 0 |}.

(** A pool that wants one ready VM and has two. *)
Definition box_db : Db :=
  with_vms (fun _ => <[1%N := box_vm 1 "a"]> {[5%N := box_vm 5 "b"]})
    (with_hosts (fun _ => {[2%N := sample_host 2 "h2" "10.0.0.2" HostUp 8 16384 100000]})
      (with_vm_templates (fun _ => {[40%N := set_template_id 40 (template_of "box" None (box_vm 1 "a") [] [])]})
        (with_sandbox_pools (fun _ => {[41%N := box_pool]})
          (with_sandbox_pool_members (fun _ => <[51%N := box_member 51 1 1]> {[52%N := box_member 52 5 2]})
            empty_db)))).

Definition box_request : NewSandbox :=
  {| ns_name := "mine"; ns_vm_template_id := 40; ns_idle_timeout_secs := None; ns_instance_type_id := None;
     ns_network_id := None |}.

Lemma box_db_ok : sandboxes_ok box_db.
Proof.
  split; unfold keyed, map_Forall; simpl.
  - by intros k s Hs.
  - intros k m [[<- <-]|[_ [<- <-]%lookup_singleton_Some]]%lookup_insert_Some; done.
  - by intros k s Hs.
  - intros k m [[<- <-]|[_ [<- <-]%lookup_singleton_Some]]%lookup_insert_Some; by eexists.
  - by intros k j s s' Hs.
  - intros k j m m' [[<- <-]|[_ [<- <-]%lookup_singleton_Some]]%lookup_insert_Some
      [[<- <-]|[_ [<- <-]%lookup_singleton_Some]]%lookup_insert_Some; done.
  - by intros k j s m Hs.
Qed.

Lemma sandbox_vms_exclusive_witness :
  sandboxes_ok (w_db (run_sandbox_ops "x86_64" default_scheduling nothing_held nothing_held nothing_held no_accel
    no_text plain_defaults no_text no_numa default_sandbox_settings
    [OpCreate 1 box_request; OpSyncTemplate 1 40; OpReap false] calm_oracle (world_of box_db)).1).
Proof. apply sandbox_vms_exclusive. exact box_db_ok. Defined.

Lemma trim_pool_effect_witness :
  exists w', trim_pool counted_box_pool calm_oracle (world_of box_db) = (w', Ok true) /\ sandboxes_ok (w_db w').
Proof.
  destruct (trim_pool_effect counted_box_pool calm_oracle (world_of box_db)) as (w'&gone&Hrun&Hok&_).
  - done.
  - exact box_db_ok.
  - by unfold pool_min_ready, i32_max.
  - vm_compute. discriminate.
  - exists w'. by split.
Defined.

(** The world after a claim that came between the two halves of a synchronisation:
    the list of ready members was read before it. *)
Definition listed_ready : list SandboxPoolMember := ready_members 41 box_db.
Definition claimed_run := try_claim_prewarmed_sandbox nothing_held box_request 300 calm_oracle (world_of box_db).
Definition raced_world : World :=
  ((for_all_m destroy_member (surplus_members listed_ready 1) : M Error unit) calm_oracle claimed_run.1).1.

(** The pool manager destroys the oldest ready members it has listed without
    asking again whether they are still members: one that a request has claimed
    in between, also the oldest first, loses its VM and its sandbox. *)
Theorem surplus_race_destroys_sandbox :
  claimed_run.2 = Ok (Some (1002%N, 1%N, 1003%N)) /\
  (sb_status <$> t_sandboxes (w_db claimed_run.1) !! 1002%N) = Some SbReady /\
  t_sandboxes (w_db raced_world) !! 1002%N = None /\ t_vms (w_db raced_world) !! 1%N = None /\
  EvRpc "10.0.0.2" 50051 (DeleteVm 1) RpcOk ∈ w_log raced_world.
Proof.
  split_and!; [vm_compute; reflexivity..|].
  assert (w_log raced_world = [EvTask (PoolRefillTask 40); EvRpc "10.0.0.2" 50051 (DeleteVm 1) RpcOk]) as ->
    by (vm_compute; reflexivity). set_solver.
Qed.

(** A ready sandbox that has been idle for too long, and a late clock. *)
Definition idle_sandbox : SandboxRow := sandbox_row 60 1 (Some 40%N) "mine" 300 SbReady 0.
Definition idle_db : Db := with_sandbox_pool_members (fun _ => ∅) (with_sandboxes (fun _ => {[60%N := idle_sandbox]}) box_db).
Definition late_clock (refused : nat -> option SqlxError) : Oracle :=
  {| o_sql := refused; o_uuid := o_uuid calm_oracle; o_now := fun n => 1000 + Z.of_nat n;
     o_rpc := o_rpc calm_oracle; o_http := o_http calm_oracle |}.
Definition no_refusal (_ : nat) : option SqlxError := None.

Definition expired_list := list_expired (late_clock no_refusal) (world_of idle_db).
Definition kept_alive := keepalive 60 (late_clock no_refusal) expired_list.1.
Definition reaped_world : World :=
  ((for_all_m reap (match expired_list.2 with Ok l => l | Err _ => [] end) : M Error unit)
     (late_clock no_refusal) kept_alive.1).1.

(** A keepalive that is accepted after the reaper has listed the expired
    sandboxes does not save the sandbox: its idle clock is reset, and it is
    destroyed all the same. *)
Theorem reaper_ignores_keepalive :
  kept_alive.2 = Ok tt /\
  (exists s, t_sandboxes (w_db kept_alive.1) !! 60%N = Some s /\ sb_status s = SbReady /\
     forall t, t <= 1300 -> expired_at t s = false) /\
  t_sandboxes (w_db reaped_world) !! 60%N = None /\ t_vms (w_db reaped_world) !! 1%N = None.
Proof.
  split_and!; [vm_compute; reflexivity| |vm_compute; reflexivity..].
  eexists. split_and!; [vm_compute; reflexivity|done|]. intros t Ht. unfold expired_at. simpl.
  destruct (Z.ltb_spec (1003 + 300) t); [lia|done].
Qed.

(** The database refuses the statement that deletes the VM. *)
Definition delete_refused (n : nat) : option SqlxError := if Nat.eqb n 8 then Some OtherSqlx else None.
Definition stranded_world : World := ((reaper_tick false : M Error unit) (late_clock delete_refused) (world_of idle_db)).1.

(** When the deletion of the VM of an expired sandbox is refused once, the sandbox
    stays in status Destroying with its VM in the table and deleted on the node,
    and no later tick of the reaper ever looks at it again. *)
Theorem reaper_strands_sandbox :
  (sb_status <$> t_sandboxes (w_db stranded_world) !! 60%N) = Some SbDestroying /\
  (v_status <$> t_vms (w_db stranded_world) !! 1%N) = Some Running /\
  EvRpc "10.0.0.2" 50051 (DeleteVm 1) RpcOk ∈ w_log stranded_world /\
  forall o, w_db ((reaper_tick false : M Error unit) o stranded_world).1 = w_db stranded_world.
Proof.
  split_and!; [vm_compute; reflexivity..| |].
  - assert (w_log stranded_world = [EvRpc "10.0.0.2" 50051 (DeleteVm 1) RpcOk]) as -> by (vm_compute; reflexivity).
    set_solver.
  - intros o. assert (t_sandboxes (w_db stranded_world) =
      {[60%N := set_sandbox_status SbDestroying None idle_sandbox]}) as Hs by (vm_compute; reflexivity).
    generalize dependent stranded_world. intros w Hs. unfold reaper_tick, list_expired.
    unfold mbind, M_bind, attempt, now, query. simpl.
    destruct (o_sql o (S (w_step w))); simpl; [done|]. rewrite Hs. by vm_compute.
Qed.

Lemma reaper_spares_active_witness :
  sandbox_stands 60 idle_sandbox (t_vms idle_db !! 1%N)
    (w_db ((reaper_tick false : M Error unit) calm_oracle (world_of idle_db)).1).
Proof.
  apply (reaper_spares_active false calm_oracle (world_of idle_db) 60 idle_sandbox).
  - split; unfold keyed, map_Forall; simpl; [|by intros k m Hm| |by intros k m Hm| |by intros k j m m' Hm|by intros k j s m _ Hm].
    + intros k s [<- <-]%lookup_singleton_Some. done.
    + intros k s [<- <-]%lookup_singleton_Some. by eexists.
    + intros k j s s' [<- _]%lookup_singleton_Some [<- _]%lookup_singleton_Some. done.
  - reflexivity.
  - right. by vm_compute.
Defined.

(** A second sandbox of the same name: the insert is refused and the VM removed. *)
Definition duplicate_run := register_sandbox no_text plain_defaults no_text no_numa box_request 300 false 5
  nil_uuid calm_oracle (world_of idle_db).

Lemma failed_sandbox_cleans_up_witness : t_vms (w_db duplicate_run.1) !! 5%N = None.
Proof.
  refine (proj1 (failed_sandbox_cleans_up no_text plain_defaults no_text no_numa box_request 300 false 5
    nil_uuid calm_oracle (world_of idle_db) duplicate_run.1
    (Sqlx (unique_violation "sandboxes_name_key")) _ _)).
  - done.
  - vm_compute. reflexivity.
Defined.
End runs.
