(* ===== verification/Hotplug.v ===== *)
(** * Hotplug: disks, interfaces and security groups of an existing VM

    [attach_disk], [remove_disk], [add_nic], [remove_nic], [attach_security_group]
    and [detach_security_group] of [qarax/src/handlers/vm/handler.rs], and the
    handlers of [qarax/src/handlers/security_group/handler.rs].

    A change is written to the tables and, when the VM exists on a node, applied
    there; a refusal of the node takes the row back.  The firewall of every VM
    concerned is sent to its node again. *)

From S2P Require Import Prelude Text Errors Tables NodeApi World Samples VmConfig Hooks Vms.
From S2P Require Import Jobs Storage Hosts StorageObjects Ipv4 Networks Devices.
From S2P Require Import SecurityGroups NetworkPolicy CreateRequest VmLifecycle VmCreate.
#[local] Open Scope Z_scope.
#[local] Set Default Proof Using "Type".

Record AttachDiskRequest := {
  ad_storage_object_id : Uuid;
  ad_logical_name : option string;
  ad_boot_order : option Z
}.

Definition get_disk (id : Uuid) : M SqlxError VmDisk :=
  query Pool (fun db => fetch_one (t_vm_disks db !! id)).
Definition get_nic (id : Uuid) : M SqlxError NetworkInterface :=
  query Pool (fun db => fetch_one (t_network_interfaces db !! id)).

(** The order after the last one; [i32] addition. *)
Definition next_boot_order (existing : list VmDisk) : Z :=
  match omap vd_boot_order existing with
  | [] => 0
  | b :: bs => as_i32 (foldr Z.max b bs + 1)
  end.

Definition on_node (s : VmStatus) : bool := bool_decide (s ∈ [Running; Shutdown]).

Section hotplug.
Context `{UuidText} `{PolicySerde} {coll : Collation} {inet : PgInet} {mac : PgMacaddr}
  {cidr_order : CidrOrder}.
Variable rpc_error_text : RpcCall -> RpcOutcome -> string.

Abbreviation sync_firewall := (sync_vm_firewall rpc_error_text).

(** ** Disks *)

Definition disk_config_for_hotplug (disk : VmDisk) (obj : StorageObject) (pool : StoragePool)
    (upper_object : option StorageObject) : result Error DiskConfig :=
  match sp_pool_type pool with
  | OverlayBd =>
      let text k := Some (default ""%string (json_get (so_config obj) k ≫= json_as_str)) in
      let '(data, index) := overlaybd_upper_paths upper_object in
      Ok (disk_to_disk_config disk None (text "image_ref"%string) (text "registry_url"%string) data index)
  | Local | Nfs =>
      Ok (disk_to_disk_config disk (get_path_from_config (so_config obj)) None None None None)
  | Block =>
      path ← ok_or (UnprocessableEntity ("Storage object " +:+ uuid_to_string (so_id obj)
                      +:+ " has invalid iSCSI config")) (iscsi_by_path (so_config obj));
      Ok (disk_to_disk_config disk (Some path) None None None None)
  end.

(** A local disk of a VM on a node must be in reach of the host. *)
Definition check_local_attach (vm : Vm) (pool : StoragePool) : M Error unit :=
  if bool_decide (sp_pool_type pool = Local) && on_node (v_status (vm_row vm)) then
    host_id ← of_result (ok_or (UnprocessableEntity "Cannot attach a local disk to a VM with no assigned host")
                           (v_host_id (vm_row vm)));
    has_pool ← sqlx_q (host_has_pool host_id (sp_id pool));
    if (has_pool : bool) then mret tt
    else throw (UnprocessableEntity ("VM's host " +:+ uuid_to_string host_id
                  +:+ " is not attached to local storage pool " +:+ uuid_to_string (sp_id pool)))
  else mret tt.

(** The transaction: the object with its lock, the checks, the row. *)
Definition attach_body (vm : Vm) (vm_id object_id : Uuid) (logical_name : string) (boot_order : Z)
  : M Error (StorageObject * StoragePool * Uuid) :=
  obj ← sqlx_q (get_object_for_update object_id);
  pool ← sqlx_q (get_pool (so_storage_pool_id obj));
  _ ← check_local_attach vm pool;
  _ ← ensure_storage_object_can_be_attached_tx obj pool (Some vm_id);
  id ← sqlx_q (create_disk_tx (simple_disk vm_id object_id logical_name ("/dev/" +:+ logical_name)
                                 boot_order JNull None));
  mret (obj, pool, id).

(** Apply the disk on the node; a refusal deletes the row. *)
Definition apply_disk (vm_id : Uuid) (disk : VmDisk) (obj : StorageObject) (pool : StoragePool)
  : M Error unit :=
  host ← host_for_vm vm_id;
  upper ← (match vd_upper_storage_object_id disk with
           | Some object_id => o ← sqlx_q (get_object object_id); mret (Some o)
           | None => mret None
           end);
  config ← of_result (disk_config_for_hotplug disk obj pool upper);
  r ← rpc host (AddDiskDevice vm_id config);
  if bool_decide (r = RpcOk) then mret tt
  else
    _ ← attempt (delete_disk (vd_id disk));
    throw InternalServerError.

Definition attach_disk (vm_id : Uuid) (req : AttachDiskRequest) : M Error VmDisk :=
  vm ← sqlx_q (Vms.get vm_id);
  if negb (bool_decide (v_status (vm_row vm) ∈ [Created; Running; Shutdown])) then
    throw (UnprocessableEntity "Disks can only be attached to VMs in Created, Running, or Shutdown state")
  else
    existing ← sqlx_q (list_disks_by_vm vm_id);
    let logical_name := default (default "" (next_disk_id existing)) (ad_logical_name req) in
    let boot_order := default (next_boot_order existing) (ad_boot_order req) in
    '(obj, pool, id) ← in_tx from_sqlx (attach_body vm vm_id (ad_storage_object_id req) logical_name boot_order);
    disk ← sqlx_q (get_disk id);
    _ ← (if on_node (v_status (vm_row vm)) then apply_disk vm_id disk obj pool else mret tt);
    mret disk.

(** A call whose failure is an internal error. *)
Definition rpc_or_internal (host : Host) (call : RpcCall) : M Error unit :=
  r ← rpc host call;
  if bool_decide (r = RpcOk) then mret tt else throw InternalServerError.

Definition remove_disk (vm_id : Uuid) (device_id : string) : M Error unit :=
  vm ← sqlx_q (Vms.get vm_id);
  if negb (bool_decide (v_status (vm_row vm) ∈ [Created; Running; Shutdown])) then
    throw (UnprocessableEntity "Disks can only be removed from VMs in Created, Running, or Shutdown state")
  else
    disk ← sqlx_q (get_disk_by_logical_name vm_id device_id);
    disk ← of_result (ok_or NotFound disk);
    _ ← (if on_node (v_status (vm_row vm)) then
           host ← host_for_vm vm_id;
           rpc_or_internal host (RemoveDiskDevice vm_id device_id)
         else mret tt);
    sqlx_q (delete_disk (vd_id disk)).

(** ** Interfaces *)

Definition set_nn_id (id : string) (n : NewVmNetwork) : NewVmNetwork :=
  {| nn_id := id; nn_network_id := nn_network_id n; nn_mac := nn_mac n; nn_tap := nn_tap n;
     nn_ip := nn_ip n; nn_mask := nn_mask n; nn_mtu := nn_mtu n; nn_host_mac := nn_host_mac n;
     nn_interface_type := nn_interface_type n; nn_vhost_user := nn_vhost_user n;
     nn_vhost_socket := nn_vhost_socket n; nn_vhost_mode := nn_vhost_mode n;
     nn_num_queues := nn_num_queues n; nn_queue_size := nn_queue_size n;
     nn_rate_limiter := nn_rate_limiter n; nn_offload_tso := nn_offload_tso n;
     nn_offload_ufo := nn_offload_ufo n; nn_offload_csum := nn_offload_csum n;
     nn_pci_segment := nn_pci_segment n; nn_iommu := nn_iommu n |}.
Definition set_nn_ip (ip : string) (n : NewVmNetwork) : NewVmNetwork :=
  {| nn_id := nn_id n; nn_network_id := nn_network_id n; nn_mac := nn_mac n; nn_tap := nn_tap n;
     nn_ip := Some ip; nn_mask := nn_mask n; nn_mtu := nn_mtu n; nn_host_mac := nn_host_mac n;
     nn_interface_type := nn_interface_type n; nn_vhost_user := nn_vhost_user n;
     nn_vhost_socket := nn_vhost_socket n; nn_vhost_mode := nn_vhost_mode n;
     nn_num_queues := nn_num_queues n; nn_queue_size := nn_queue_size n;
     nn_rate_limiter := nn_rate_limiter n; nn_offload_tso := nn_offload_tso n;
     nn_offload_ufo := nn_offload_ufo n; nn_offload_csum := nn_offload_csum n;
     nn_pci_segment := nn_pci_segment n; nn_iommu := nn_iommu n |}.

(** The two reads of the network and its bridge run concurrently; an error of
    either is ignored. *)
Definition net_config_for_hotplug (nic : NetworkInterface) (host_id : Uuid) : M Error NetConfig :=
  let c := net_config_of nic in
  match ni_network_id nic with
  | None => mret c
  | Some net_id =>
      network ← attempt (Networks.get net_id);
      bridge ← attempt (get_host_bridge host_id net_id);
      let c := match network with
               | Ok network =>
                   if is_passt network then set_passt c
                   else if bool_decide (is_Some (nc_ip c)) && bool_decide (nc_mask c = None)
                   then set_mask (subnet_mask_from_cidr (net_subnet network)) c
                   else c
               | Err _ => c
               end in
      mret (match bridge with Ok (Some bridge) => set_bridge (Some bridge) c | _ => c end)
  end.

Definition delete_nic_and_release_ip (nic : NetworkInterface) : M Error unit :=
  in_tx from_sqlx (
    _ ← sqlx_q (delete_nic_tx (ni_id nic));
    match ni_network_id nic, ni_ip_address nic with
    | Some network_id, Some ip_address =>
        _ ← sqlx_q (release_ip_by_network_and_address_tx network_id ip_address);
        mret tt
    | _, _ => mret tt
    end).

(** The transaction: the address, then the row.  [None]: the address loop is
    still running. *)
Definition add_nic_body (fuel : nat) (vm_id : Uuid) (req : NewVmNetwork) : M Error (bool * option Uuid) :=
  req ← (match nn_network_id req with
         | None => mret (Some req)
         | Some network_id =>
             ip ← allocate_network_ip_tx fuel vm_id network_id (nn_ip req);
             mret ((fun ip => set_nn_ip ip req) <$> ip)
         end);
  match req with
  | None => mret (false, None)
  | Some req =>
      id ← sqlx_q (create_nic vm_id req);
      mret (true, Some id)
  end.

Definition apply_nic (vm_id : Uuid) (nic : NetworkInterface) : M Error unit :=
  host ← host_for_vm vm_id;
  config ← net_config_for_hotplug nic (h_id host);
  r ← rpc host (AddNetworkDevice vm_id config);
  if bool_decide (r = RpcOk) then mret tt
  else
    _ ← attempt (delete_nic_and_release_ip nic);
    throw InternalServerError.

Definition add_nic (fuel : nat) (vm_id : Uuid) (req : NewVmNetwork) : M Error (option NetworkInterface) :=
  vm ← sqlx_q (Vms.get vm_id);
  if negb (bool_decide (v_status (vm_row vm) ∈ [Created; Running])) then
    throw (UnprocessableEntity "NICs can only be added to VMs in Created or Running state")
  else
    existing ← sqlx_q (list_nics_by_vm vm_id);
    let req := if String.eqb (nn_id req) "" then set_nn_id (default "" (next_net_id existing)) req else req in
    if existsb (fun n => String.eqb (ni_device_id n) (nn_id req)) existing then
      throw (Conflict ("NIC device ID '" +:+ nn_id req +:+ "' is already in use on this VM"))
    else
      id ← in_tx_opt from_sqlx (add_nic_body fuel vm_id req);
      match id with
      | None => mret None
      | Some id =>
          nic ← sqlx_q (get_nic id);
          _ ← (if bool_decide (v_status (vm_row vm) = Running) then apply_nic vm_id nic else mret tt);
          _ ← sync_firewall vm_id;
          mret (Some nic)
      end.

Definition list_nics (vm_id : Uuid) : M Error (list NetworkInterface) :=
  _ ← sqlx_q (Vms.get vm_id);
  sqlx_q (list_nics_by_vm vm_id).

Definition remove_nic (vm_id : Uuid) (device_id : string) : M Error unit :=
  vm ← sqlx_q (Vms.get vm_id);
  if negb (bool_decide (v_status (vm_row vm) ∈ [Created; Running])) then
    throw (UnprocessableEntity "NICs can only be removed from VMs in Created or Running state")
  else
    nic ← sqlx_q (get_nic_by_device_id vm_id device_id);
    nic ← of_result (ok_or NotFound nic);
    _ ← (if bool_decide (v_status (vm_row vm) = Running) then
           host ← host_for_vm vm_id;
           rpc_or_internal host (RemoveNetworkDevice vm_id device_id)
         else mret tt);
    _ ← delete_nic_and_release_ip nic;
    sync_firewall vm_id.

(** ** Security groups *)

Definition list_security_groups (vm_id : Uuid) : M Error (list SecurityGroup) :=
  _ ← sqlx_q (Vms.get vm_id);
  sqlx_q (list_groups_by_vm vm_id).

Definition attach_security_group (vm_id security_group_id : Uuid) : M Error unit :=
  _ ← sqlx_q (Vms.get vm_id);
  _ ← sqlx_q (get_group security_group_id);
  _ ← in_tx from_sqlx (sqlx_q (add_to_vm vm_id security_group_id));
  sync_firewall vm_id.

Definition detach_security_group (vm_id security_group_id : Uuid) : M Error unit :=
  _ ← sqlx_q (Vms.get vm_id);
  _ ← sqlx_q (get_group security_group_id);
  _ ← in_tx from_sqlx (sqlx_q (remove_from_vm vm_id security_group_id));
  sync_firewall vm_id.

Definition delete_security_group (security_group_id : Uuid) : M Error unit :=
  _ ← sqlx_q (get_group security_group_id);
  vm_ids ← sqlx_q (list_vm_ids security_group_id);
  _ ← sqlx_q (delete_group security_group_id);
  for_all_m sync_firewall vm_ids.

Definition create_group_rule (security_group_id : Uuid) (rule : NewSecurityGroupRule) : M Error Uuid :=
  _ ← sqlx_q (get_group security_group_id);
  id ← sqlx_q (SecurityGroups.create_rule security_group_id rule);
  _ ← sync_security_group_members rpc_error_text security_group_id;
  mret id.

Definition delete_group_rule (security_group_id rule_id : Uuid) : M Error unit :=
  _ ← sqlx_q (get_group security_group_id);
  _ ← sqlx_q (SecurityGroups.delete_rule security_group_id rule_id);
  sync_security_group_members rpc_error_text security_group_id.
End hotplug.

(** ** Interfaces: what a change leaves *)

Section nic_facts.
Context `{UuidText} `{PolicySerde} {coll : Collation} {inet : PgInet} {mac : PgMacaddr}
  {cidr_order : CidrOrder}.
Variable rpc_error_text : RpcCall -> RpcOutcome -> string.

Definition not_internal (e : Error) : Prop := e <> InternalServerError.

Lemma try_allocate_exact n ip v o w w' r :
  try_allocate_ip_tx n ip v o w = (w', Ok r) ->
  w_db w' = w_db w /\
  match r with
  | None => conn_db Tx w' = conn_db Tx w
  | Some r => inet_in ip = Some (ipa_address r) /\
      t_ip_allocations (conn_db Tx w) !! (n, ipa_address r) = None /\
      conn_db Tx w' = with_ip_allocations (insert (n, ipa_address r) r) (conn_db Tx w)
  end.
Proof.
  unfold try_allocate_ip_tx. intros Hrun. minv.
  match goal with Hf : _ = Ok (_, _) |- _ => apply result_bind_ok in Hf as (a&Ha&Hf) end.
  apply ok_or_ok in Ha. case_match; [by simplify_eq|].
  match goal with Hf : _ = Ok (_, _) |- _ => apply result_bind_ok in Hf as (?&_&Hf); injection Hf as <- <- end.
  done.
Qed.

(** An allocation adds exactly one address. *)
Lemma allocate_ip_exact fuel vm n ip o w w' s :
  allocate_network_ip_tx fuel vm n ip o w = (w', Ok (Some s)) ->
  exists a r, s = inet_text a /\ is_u32 a /\ t_ip_allocations (conn_db Tx w) !! (n, a) = None /\
    conn_db Tx w' = with_ip_allocations (insert (n, a) r) (conn_db Tx w).
Proof.
  assert (forall t w1 w2 r, try_allocate_ip_tx n t (Some vm) o w1 = (w2, Ok (Some r)) ->
    is_u32 (ipa_address r) /\ t_ip_allocations (conn_db Tx w1) !! (n, ipa_address r) = None /\
    conn_db Tx w2 = with_ip_allocations (insert (n, ipa_address r) r) (conn_db Tx w1)) as Htry.
  { intros t w1 w2 r [_ (Hi&Hn&Hdb)]%try_allocate_exact. split_and!; [by eapply inet_in_u32|done|done]. }
  destruct ip as [t|]; cbn [allocate_network_ip_tx].
  - intros Hrun. apply bind_ok_inv in Hrun as ([r|]&w1&Hr&Hrun); [|done]. apply lift_err_ok_inv in Hr.
    unfold mret, M_ret in Hrun. injection Hrun as <- <-. apply Htry in Hr as (Hu&Hn&Hdb).
    by exists (ipa_address r), r.
  - revert w. induction fuel as [|fuel IH]; intros w; cbn [allocate_next]; [done|]. intros Hrun.
    apply bind_ok_inv in Hrun as (x&w1&Hx&Hrun). apply lift_err_ok_inv in Hx.
    pose proof (next_available_reads n o w) as (D1&T1&_). rewrite Hx in D1, T1. simpl in D1, T1.
    apply bind_ok_inv in Hrun as (y&w2&Hy&Hrun). unfold of_result in Hy. injection Hy as <- _.
    assert (conn_db Tx w1 = conn_db Tx w) as Hc by (simpl; by rewrite D1, T1).
    apply bind_ok_inv in Hrun as ([r|]&w3&Hr&Hrun); apply lift_err_ok_inv in Hr.
    + unfold mret, M_ret in Hrun. injection Hrun as <- <-. apply Htry in Hr as (Hu&Hn&Hdb).
      rewrite Hc in Hn, Hdb. by exists (ipa_address r), r.
    + apply try_allocate_exact in Hr as [_ Hr]. apply IH in Hrun as (a&r&Hs&Hu&Hn&Hdb).
      rewrite Hr, Hc in Hn, Hdb. by exists a, r.
Qed.

(** A row and, with a network, its address; both were free. *)
Definition nic_added (nic : NetworkInterface) (db db' : Db) : Prop :=
  t_network_interfaces db !! ni_id nic = None /\
  match ni_network_id nic with
  | None => db' = with_network_interfaces (insert (ni_id nic) nic) db
  | Some n => exists t a r, ni_ip_address nic = Some t /\ inet_in t = Some a /\
      t_ip_allocations db !! (n, a) = None /\
      db' = with_network_interfaces (insert (ni_id nic) nic) (with_ip_allocations (insert (n, a) r) db)
  end.

Lemma create_nic_exact vm_id net o w w' id :
  create_nic vm_id net o w = (w', Ok id) ->
  exists r, nic_row id vm_id net = Ok r /\ ni_id r = id /\ ni_network_id r = nn_network_id net /\
    (forall s, nn_ip net = Some s -> exists t, ni_ip_address r = Some t /\ inet_in t = inet_in s) /\
    t_network_interfaces (conn_db Tx w) !! id = None /\
    conn_db Tx w' = with_network_interfaces (insert id r) (conn_db Tx w).
Proof.
  unfold create_nic. intros Hrun. minv.
  match goal with Hf : unit_result _ = Ok _ |- _ =>
    apply unit_result_inv, result_bind_ok in Hf as (r&Hr&Hf); apply insert_nic_inv in Hf as [Hn ->] end.
  exists r. pose proof Hr as Hrow. unfold nic_row in Hrow.
  apply result_bind_ok in Hrow as (m1&_&Hrow). apply result_bind_ok in Hrow as (m2&_&Hrow).
  apply result_bind_ok in Hrow as (ip&Hip&Hrow). injection Hrow as <-. split_and!; try done.
  intros s Hs. rewrite Hs in Hip. simpl in Hip. apply result_bind_ok in Hip as (t&Ht&Hip).
  injection Hip as <-. apply ok_or_ok in Ht. exists t. split; [done|]. by apply inet_canonical_in.
Qed.

Lemma add_body_moves fuel vm_id req : steps (tx_moves anything) (add_nic_body fuel vm_id req).
Proof.
  unfold add_nic_body. apply steps_bind.
  - destruct (nn_network_id req); [|apply steps_ret].
    apply steps_bind; [apply builds_moves, allocate_ip_builds|intros ?; apply steps_ret].
  - intros [r|]; [|apply steps_ret].
    apply steps_bind; [apply steps_lift_err, builds_moves, create_nic_builds|intros ?; apply steps_ret].
Qed.

Lemma add_body_ok fuel vm_id req o w w' c r :
  w_tx w = Some (w_db w) -> add_nic_body fuel vm_id req o w = (w', Ok (c, r)) ->
  match r with
  | None => c = false
  | Some id => c = true /\ exists nic, ni_id nic = id /\ ni_vm_id nic = vm_id /\
                 nic_added nic (w_db w) (conn_db Tx w')
  end.
Proof.
  intros Htx Hrun. apply bind_ok_inv in Hrun as (q&w1&Hq&Hrun).
  assert (conn_db Tx w = w_db w) as Hc by (simpl; by rewrite Htx).
  destruct q as [q|]; [|unfold mret, M_ret in Hrun; by injection Hrun as _ <- <-].
  apply bind_ok_inv in Hrun as (id&w2&Hid&Hrun). unfold mret, M_ret in Hrun. injection Hrun as <- <- <-.
  split; [done|]. apply lift_err_ok_inv, create_nic_exact in Hid as (nic&Hrow&Hni&Hnet&Hip&Hn&Hdb).
  assert (ni_vm_id nic = vm_id) as Hv.
  { unfold nic_row in Hrow. apply result_bind_ok in Hrow as (?&_&Hrow).
    apply result_bind_ok in Hrow as (?&_&Hrow). apply result_bind_ok in Hrow as (?&_&Hrow). by injection Hrow as <-. }
  exists nic. split_and!; [done|done|]. unfold nic_added. rewrite Hni, Hnet.
  destruct (nn_network_id req) as [n|] eqn:Hreq.
  - apply bind_ok_inv in Hq as (s&w3&Hs&Hret). unfold mret, M_ret in Hret. injection Hret as <- Hret.
    destruct s as [s|]; [|done]. injection Hret as <-.
    apply allocate_ip_exact in Hs as (a&r&->&Hu&Hfree&Hdb3). rewrite Hc in Hfree, Hdb3. simpl. rewrite Hreq.
    rewrite Hdb3 in Hn, Hdb. split; [exact Hn|].
    destruct (Hip _ eq_refl) as (t&Ht&Hin). rewrite inet_in_text in Hin by done. by exists t, a, r.
  - unfold mret, M_ret in Hq. injection Hq as <- <-. rewrite Hreq. rewrite Hc in Hn, Hdb. by split.
Qed.

(** Removing what was added. *)
Lemma delete_nic_undoes nic db o w :
  served o -> nic_added nic db (w_db w) ->
  let w' := (delete_nic_and_release_ip nic o w).1 in
  t_network_interfaces (w_db w') = t_network_interfaces db /\
  t_ip_allocations (w_db w') = t_ip_allocations db.
Proof.
  intros Ho [Hn Hadd]. cbv zeta. unfold delete_nic_and_release_ip, in_tx, begin_tx, lift_err.
  rewrite Ho. simpl. unfold mbind, M_bind, delete_nic_tx, delete_nic_on, execute. simpl. rewrite Ho. simpl.
  destruct (ni_network_id nic) as [n|].
  - destruct Hadd as (t&a&r&Ht&Hin&Hfree&Hdb). rewrite Ht. simpl.
    unfold release_ip_by_network_and_address_tx, release_by_address, execute. simpl. rewrite Ho, Hin. simpl.
    unfold commit_tx. simpl. rewrite Ho. simpl. rewrite Hdb. simpl.
    by rewrite !delete_insert_id.
  - simpl. unfold commit_tx. simpl. rewrite Ho. simpl. rewrite Hadd. simpl. by rewrite delete_insert_id.
Qed.

Lemma host_for_vm_raises vm_id : raises not_internal (host_for_vm vm_id).
Proof. unfold host_for_vm, not_internal. raises_tac. Qed.

Lemma net_config_reads nic h : steps same_but_step (net_config_for_hotplug nic h).
Proof.
  unfold net_config_for_hotplug, Networks.get, get_host_bridge. cbv zeta. destruct (ni_network_id nic); steps_tac.
Qed.

Lemma sync_firewall_raises vm_id : raises not_internal (sync_vm_firewall rpc_error_text vm_id).
Proof.
  assert (forall h r l, raises not_internal (nic_interfaces h r l)) as Hn.
  { intros h r l. induction l as [|n l IH]; simpl; unfold not_internal in *; raises_tac. }
  unfold sync_vm_firewall, sync_vm_firewall_on_host, require_by_id, firewall_interfaces_for_vm,
    checked_rpc, not_internal in *. raises_tac.
Qed.

(** An interface the node refuses is taken back. *)
Lemma apply_nic_refused vm_id nic db o w w' :
  served o -> nic_added nic db (w_db w) ->
  apply_nic vm_id nic o w = (w', Err InternalServerError) ->
  t_network_interfaces (w_db w') = t_network_interfaces db /\
  t_ip_allocations (w_db w') = t_ip_allocations db.
Proof.
  intros Ho Hadd Hrun. unfold apply_nic in Hrun.
  apply bind_err_inv in Hrun as [Hrun|(h&w1&H1&Hrun)]; [by apply host_for_vm_raises in Hrun|].
  apply (reads_run _ _ _ _ _ (host_for_vm_reads _)) in H1 as (D1&_&_).
  apply bind_err_inv in Hrun as [Hrun|(c&w2&H2&Hrun)].
  { exfalso. assert (raises (fun _ => False) (net_config_for_hotplug nic (h_id h))) as Hr
      by (unfold net_config_for_hotplug; cbv zeta; raises_tac).
    exact (Hr _ _ _ _ Hrun). }
  apply (reads_run _ _ _ _ _ (net_config_reads _ _)) in H2 as (D2&_&_).
  apply bind_err_inv in Hrun as [Hrun|(r&w3&H3&Hrun)]; [discriminate|].
  unfold rpc in H3. injection H3 as <- _. case_bool_decide; [discriminate|].
  apply bind_err_inv in Hrun as [Hrun|(x&w4&H4&Hrun)]; [by apply (raises_attempt (P := not_internal)) in Hrun|].
  apply attempt_inv in H4 as (x'&_&H4). unfold throw in Hrun. injection Hrun as <-.
  match type of H4 with _ o ?wx = _ => pose proof (delete_nic_undoes nic db o wx Ho) as Hdel end.
  cbv zeta in Hdel. rewrite H4 in Hdel. apply Hdel. simpl. by rewrite D2, D1.
Qed.

Lemma add_nic_refused_spec fuel vm_id req o w w' :
  served o -> add_nic rpc_error_text fuel vm_id req o w = (w', Err InternalServerError) ->
  t_network_interfaces (w_db w') = t_network_interfaces (w_db w) /\
  t_ip_allocations (w_db w') = t_ip_allocations (w_db w).
Proof.
  intros Ho Hrun. unfold add_nic in Hrun.
  assert (forall (A : Type) (m : M SqlxError A), raises not_internal (sqlx_q m)) as Hq.
  { intros A m. apply raises_lift_err. apply from_sqlx_not_internal. }
  apply bind_err_inv in Hrun as [Hrun|(vm&w1&H1&Hrun)]; [by apply Hq in Hrun|].
  apply lift_err_ok_inv, (reads_run _ _ _ _ _ (vm_get_reads _)) in H1 as (D1&_&_).
  case_match; [discriminate|].
  apply bind_err_inv in Hrun as [Hrun|(existing&w2&H2&Hrun)]; [by apply Hq in Hrun|].
  apply lift_err_ok_inv, (reads_run _ _ _ _ _ (query_same_but_step _ _)) in H2 as (D2&_&_).
  cbv zeta in Hrun. case_match; [discriminate|].
  match type of Hrun with (in_tx_opt _ (add_nic_body _ _ ?q) ≫= _) _ _ = _ => set (req' := q) in * end.
  pose proof (in_tx_opt_run from_sqlx (add_nic_body fuel vm_id req') o w2 (add_body_moves _ _ _)) as [_ Htx].
  apply bind_err_inv in Hrun as [Hrun|(id&w3&H3&Hrun)].
  { rewrite Hrun in Htx. simpl in Htx. rewrite Htx, D2, D1. done. }
  rewrite H3 in Htx. simpl in Htx. destruct Htx as (wb&c&Hb&Hdb).
  apply add_body_ok in Hb; [|done]. destruct id as [id|]; [|discriminate].
  destruct Hb as [-> (nic&Hid&_&Hadd)]. simpl in Hadd.
  apply bind_err_inv in Hrun as [Hrun|(nic'&w4&H4&Hrun)]; [by apply Hq in Hrun|].
  apply lift_err_ok_inv in H4. unfold get_nic in H4. apply query_ok_inv in H4 as [Hnic ->]. simpl in Hnic.
  assert (nic' = nic) as ->.
  { rewrite Hdb in Hnic. destruct Hadd as [_ Hadd]. destruct (ni_network_id nic).
    - destruct Hadd as (?&?&?&?&?&?&Hw). simpl in Hw. rewrite Hw, <- Hid in Hnic. simpl in Hnic.
      rewrite lookup_insert_eq in Hnic. by injection Hnic.
    - simpl in Hadd. rewrite Hadd, <- Hid in Hnic. simpl in Hnic. rewrite lookup_insert_eq in Hnic. by injection Hnic. }
  apply bind_err_inv in Hrun as [Hrun|([]&w5&_&Hrun)].
  - rewrite <- D1, <- D2. case_bool_decide; [|discriminate].
    apply (apply_nic_refused vm_id nic _ o (tick w3) w'); [done| |done]. simpl. rewrite Hdb. exact Hadd.
  - apply bind_err_inv in Hrun as [Hrun|(x&w6&_&Hrun)]; [|discriminate].
    by apply sync_firewall_raises in Hrun.
Qed.

(** An interface whose node refused it leaves no trace: the interfaces and the
    allocated addresses are those before the request. *)
Theorem add_nic_refused_restores fuel vm_id req o w w' :
  served o -> add_nic rpc_error_text fuel vm_id req o w = (w', Err InternalServerError) ->
  t_network_interfaces (w_db w') = t_network_interfaces (w_db w) /\
  t_ip_allocations (w_db w') = t_ip_allocations (w_db w).
Proof. apply add_nic_refused_spec. Qed.
End nic_facts.

(** ** Disks: one VM per exclusive object *)

Section disk_facts.
Context `{UuidText} `{PolicySerde} {coll : Collation}.

(** An object that demands it is attached at most once. *)
Definition disks_exclusive (db : Db) : Prop :=
  (forall k ob, t_storage_objects db !! k = Some ob -> so_id ob = k) /\
  forall k1 k2 d1 d2 oid ob pool,
    t_vm_disks db !! k1 = Some d1 -> t_vm_disks db !! k2 = Some d2 ->
    vd_storage_object_id d1 = Some oid -> vd_storage_object_id d2 = Some oid ->
    t_storage_objects db !! oid = Some ob -> t_storage_pools db !! so_storage_pool_id ob = Some pool ->
    storage_object_requires_exclusive_attachment ob pool = true -> k1 = k2.

Definition keeps_exclusive (db db' : Db) : Prop := disks_exclusive db -> disks_exclusive db'.
#[local] Instance keeps_exclusive_preorder : PreOrder keeps_exclusive.
Proof. split; unfold keeps_exclusive; [by intros db|intros a b c; tauto]. Qed.

Lemma delete_disk_exclusive id : steps (db_moves keeps_exclusive) (delete_disk id).
Proof.
  apply steps_db_execute. intros db db' [] [= <-] [Hid Hex]. split; [done|]. simpl.
  intros k1 k2 d1 d2 oid ob pool [_ H1]%lookup_delete_Some [_ H2]%lookup_delete_Some. by eapply Hex.
Qed.

Lemma attached_nowhere ob pool vm_id o w w' :
  ensure_storage_object_can_be_attached_tx ob pool (Some vm_id) o w = (w', Ok tt) ->
  storage_object_requires_exclusive_attachment ob pool = true ->
  forall k d, t_vm_disks (conn_db Tx w) !! k = Some d -> vd_storage_object_id d <> Some (so_id ob).
Proof.
  unfold ensure_storage_object_can_be_attached_tx, list_disks_by_object. intros Hrun Hex k d Hd Ho.
  apply bind_ok_inv in Hrun as (l&w1&Hl&Hrun). apply lift_err_ok_inv, query_ok_inv in Hl as [[= <-] ->].
  rewrite Hex in Hrun. cbn [negb] in Hrun. destruct (existsb _ _) eqn:Hany; [discriminate|].
  cbn [andb bool_decide] in Hrun. rewrite andb_false_r in Hrun.
  pose proof (refuse_other_vm_ok _ _ _ _ _ _ Hrun _ _ Hd Ho) as Hvm.
  apply not_true_iff_false in Hany. apply Hany, existsb_exists. exists d. split.
  - apply list_elem_of_In. rewrite merge_sort_Permutation. apply elem_of_filter_rows.
    split; [by eexists|]. by apply bool_decide_eq_true.
  - apply bool_decide_eq_true. congruence.
Qed.

Lemma attach_body_moves vm vm_id ob name b : steps (tx_moves anything) (attach_body vm vm_id ob name b).
Proof.
  unfold attach_body. apply steps_bind; [apply steps_tx_reads, steps_lift_err, query_same_but_step|]. intros obj.
  apply steps_bind; [apply steps_tx_reads, steps_lift_err, query_same_but_step|]. intros pool.
  apply steps_bind.
  { apply steps_tx_reads. unfold check_local_attach, host_has_pool. steps_tac. }
  intros _. apply steps_bind.
  { apply steps_tx_reads. unfold ensure_storage_object_can_be_attached_tx, list_disks_by_object.
    apply steps_bind; [apply steps_lift_err, query_same_but_step|]. intros l.
    case_match; [apply steps_throw|]. case_match; [apply steps_ret|apply refuse_other_vm_reads]. }
  intros _. apply steps_bind; [|intros ?; apply steps_ret]. apply steps_lift_err.
  apply steps_bind; [apply steps_new_uuid, tx_moves_tick, _|]. intros k.
  apply steps_bind; [by apply steps_execute_tx|]. intros ?. apply steps_ret.
Qed.

(** What a successful attachment transaction leaves. *)
Definition disk_attached (vm_id object_id : Uuid) (name : string) (disk : VmDisk) (db db' : Db) : Prop :=
  vd_vm_id disk = vm_id /\ vd_storage_object_id disk = Some object_id /\ vd_logical_name disk = name /\
  t_vm_disks db !! vd_id disk = None /\ db' = with_vm_disks (insert (vd_id disk) disk) db.

Lemma attach_body_ok vm vm_id ob name b o w w' obj pool id :
  w_tx w = Some (w_db w) -> attach_body vm vm_id ob name b o w = (w', Ok (obj, pool, id)) ->
  t_storage_objects (w_db w) !! ob = Some obj /\
  t_storage_pools (w_db w) !! so_storage_pool_id obj = Some pool /\
  (storage_object_requires_exclusive_attachment obj pool = true ->
     forall k d, t_vm_disks (w_db w) !! k = Some d -> vd_storage_object_id d <> Some (so_id obj)) /\
  exists disk, vd_id disk = id /\ disk_attached vm_id ob name disk (w_db w) (conn_db Tx w').
Proof.
  intros Htx Hrun. unfold attach_body in Hrun.
  apply bind_ok_inv in Hrun as (obj'&w1&H1&Hrun). apply lift_err_ok_inv, query_ok_inv in H1 as [H1%ok_or_ok ->].
  apply bind_ok_inv in Hrun as (pool'&w2&H2&Hrun). apply lift_err_ok_inv, query_ok_inv in H2 as [H2%ok_or_ok ->].
  apply bind_ok_inv in Hrun as ([]&w3&H3&Hrun).
  assert (same_but_step (tick (tick w)) w3) as (D3&T3&_).
  { eapply reads_run, H3. unfold check_local_attach, host_has_pool. steps_tac. }
  apply bind_ok_inv in Hrun as ([]&w4&H4&Hrun).
  assert (same_but_step w3 w4) as (D4&T4&_).
  { eapply reads_run, H4. unfold ensure_storage_object_can_be_attached_tx, list_disks_by_object.
    apply steps_bind; [apply steps_lift_err, query_same_but_step|]. intros l.
    case_match; [apply steps_throw|]. case_match; [apply steps_ret|apply refuse_other_vm_reads]. }
  apply bind_ok_inv in Hrun as (id'&w5&H5&Hrun). unfold mret, M_ret in Hrun. injection Hrun as <- <- <- <-.
  simpl in *. rewrite Htx in *. simpl in *. split_and!; [done|done| |].
  - intros Hex. pose proof (attached_nowhere _ _ _ _ _ _ H4 Hex) as Hno. simpl in Hno. by rewrite T3 in Hno.
  - apply lift_err_ok_inv in H5. unfold create_disk_tx, create_disk_on in H5. minv.
    match goal with Hf : unit_result _ = Ok _ |- _ =>
      apply unit_result_inv, insert_disk_inv in Hf as [Hn ->] end.
    cbn in Hn |- *. rewrite T4, T3 in Hn |- *. cbn in Hn |- *.
    exists (disk_row (o_uuid o (w_step w4)) (simple_disk vm_id ob name ("/dev/" +:+ name) b JNull None)).
    split; [done|]. by split_and!.
Qed.

Lemma disk_attached_exclusive vm_id ob name disk obj pool db db' :
  t_storage_objects db !! ob = Some obj -> t_storage_pools db !! so_storage_pool_id obj = Some pool ->
  (storage_object_requires_exclusive_attachment obj pool = true ->
     forall k d, t_vm_disks db !! k = Some d -> vd_storage_object_id d <> Some (so_id obj)) ->
  disk_attached vm_id ob name disk db db' -> keeps_exclusive db db'.
Proof.
  intros Hob Hpool Hno (_&Ho&_&Hn&->) [Hid Hex]. split; [done|]. simpl.
  assert (forall k d ob' pool', t_vm_disks db !! k = Some d -> vd_storage_object_id d = Some ob ->
    t_storage_objects db !! ob = Some ob' -> t_storage_pools db !! so_storage_pool_id ob' = Some pool' ->
    storage_object_requires_exclusive_attachment ob' pool' = true -> False) as Hnone.
  { intros k d ob' pool' Hk Hd Hob' Hpool' Hex'. simplify_eq. apply (Hno Hex' k d Hk).
    by rewrite Hd, (Hid _ _ Hob). }
  intros k1 k2 d1 d2 oid ob' pool' [[<- <-]|[_ H1]]%lookup_insert_Some [[<- <-]|[_ H2]]%lookup_insert_Some;
    intros E1 E2 Hob' Hpool' Hx; [done|exfalso|exfalso|by eapply Hex].
  all: simplify_eq.
  - eauto.
  - eauto.
Qed.

Lemma apply_disk_exclusive vm_id disk obj pool :
  steps (db_moves keeps_exclusive) (apply_disk vm_id disk obj pool).
Proof.
  unfold apply_disk. apply steps_bind; [apply steps_db_reads, host_for_vm_reads|]. intros h.
  apply steps_bind. { apply steps_db_reads. unfold get_object. steps_tac. }
  intros u. apply steps_bind; [apply steps_of_result|]. intros c.
  apply steps_bind; [apply steps_rpc; [apply db_moves_tick|apply db_moves_log]|]. intros r.
  destruct (bool_decide _); [apply steps_ret|].
  apply steps_bind; [apply steps_attempt, delete_disk_exclusive|].
  intros _. apply steps_throw.
Qed.

(** The disk went to the node of the VM. *)
Lemma apply_disk_ok vm_id disk obj pool o w w' :
  apply_disk vm_id disk obj pool o w = (w', Ok tt) ->
  w_db w' = w_db w /\
  exists host config, dc_id config = vd_logical_name disk /\
    logged w w' (accepted host (AddDiskDevice vm_id config)).
Proof.
  intros Hrun. unfold apply_disk in Hrun. apply bind_ok_inv in Hrun as (h&w1&H1&Hrun).
  apply (reads_run _ _ _ _ _ (host_for_vm_reads _)) in H1 as (D1&_&L1).
  apply bind_ok_inv in Hrun as (u&w2&H2&Hrun).
  assert (same_but_step w1 w2) as (D2&_&L2).
  { eapply reads_run, H2. unfold get_object. steps_tac. }
  apply bind_ok_inv in Hrun as (c&w3&H3&Hrun). unfold of_result in H3. injection H3 as <- Hc.
  apply bind_ok_inv in Hrun as (r&w4&H4&Hrun). case_bool_decide as Hr; [|].
  2:{ apply bind_ok_inv in Hrun as (?&?&_&Hrun). discriminate. }
  subst r. unfold mret, M_ret in Hrun. injection Hrun as <-.
  split; [unfold rpc in H4; injection H4 as <- _; simpl; congruence|]. exists h, c. split.
  - unfold disk_config_for_hotplug in Hc. destruct (sp_pool_type pool).
    1-2: by injection Hc as <-.
    + destruct (overlaybd_upper_paths u). by injection Hc as <-.
    + apply result_bind_ok in Hc as (?&_&Hc). by injection Hc as <-.
  - apply rpc_logged in H4 as (l&Hl&Hin). exists l. by rewrite Hl, L2, L1.
Qed.

Lemma attach_tx_exclusive vm vm_id ob name b :
  steps (db_moves keeps_exclusive) (in_tx from_sqlx (attach_body vm vm_id ob name b)).
Proof.
  intros o w. destruct (in_tx _ _ o w) as [w' [[[obj pool] id]|e]] eqn:Hrun; simpl.
  - apply in_tx_ok in Hrun as (w2&Hb&Hdb&_&_).
    apply attach_body_ok in Hb as (Hob&Hpool&Hno&disk&_&Hdisk); [|done].
    unfold db_moves. rewrite Hdb. by eapply disk_attached_exclusive.
  - apply db_moves_same. refine (in_tx_err _ _ _ _ _ _ _ Hrun). intros o' w2. apply attach_body_moves.
Qed.

(** C28. Whatever the database and the node answer, attaching a disk never leaves an
    object that must be exclusive attached twice. *)
Theorem attach_disk_exclusive vm_id req o w :
  disks_exclusive (w_db w) -> disks_exclusive (w_db (attach_disk vm_id req o w).1).
Proof.
  cut (steps (db_moves keeps_exclusive) (attach_disk vm_id req)); [intros Hs; apply Hs|].
  unfold attach_disk. apply steps_bind; [apply steps_db_reads, steps_lift_err, vm_get_reads|]. intros vm.
  destruct (negb _); [apply steps_throw|].
  apply steps_bind; [apply steps_db_reads, steps_lift_err, query_same_but_step|]. intros existing.
  apply steps_bind; [apply attach_tx_exclusive|]. intros [[obj pool] id].
  apply steps_bind; [apply steps_db_reads, steps_lift_err, query_same_but_step|]. intros disk.
  apply steps_bind; [|intros ?; apply steps_ret].
  destruct (on_node _); [apply apply_disk_exclusive|apply steps_ret].
Qed.

Lemma attach_tx_ok vm vm_id ob name b o w w' obj pool id :
  in_tx from_sqlx (attach_body vm vm_id ob name b) o w = (w', Ok (obj, pool, id)) ->
  w_log w' = w_log w /\ exists disk, t_vm_disks (w_db w') !! id = Some disk /\
    disk_attached vm_id ob name disk (w_db w) (w_db w').
Proof.
  intros Hrun. pose proof (in_tx_moves (R := anything) from_sqlx _ o w (attach_body_moves vm vm_id ob name b)) as [_ L].
  rewrite Hrun in L. split; [exact L|]. apply in_tx_ok in Hrun as (w2&Hb&Hdb&_&_).
  apply attach_body_ok in Hb as (_&_&_&disk&<-&Hdisk); [|done]. exists disk.
  pose proof Hdisk as (_&_&_&_&Heq). simpl in Heq. rewrite Hdb. split; [|exact Hdisk].
  rewrite Heq. apply lookup_insert_eq.
Qed.

(** A disk that was attached is the only change of the tables, and a VM that
    exists on a node got the device there under the same name. *)
Theorem attach_disk_effect vm_id req o w w' disk :
  attach_disk vm_id req o w = (w', Ok disk) ->
  exists vm, t_vms (w_db w) !! vm_id = Some vm /\ v_status vm ∈ [Created; Running; Shutdown] /\
    disk_attached vm_id (ad_storage_object_id req) (vd_logical_name disk) disk (w_db w) (w_db w') /\
    (v_status vm ∈ [Running; Shutdown] -> exists host config, dc_id config = vd_logical_name disk /\
       logged w w' (accepted host (AddDiskDevice vm_id config))).
Proof.
  intros Hrun. unfold attach_disk in Hrun. apply bind_ok_inv in Hrun as (vm&w1&H1&Hrun).
  apply lift_err_ok_inv, query_ok_inv in H1 as [H1 ->]. simpl in H1.
  destruct (t_vms (w_db w) !! vm_id) as [row|]; [|discriminate]. injection H1 as <-. simpl in Hrun.
  destruct (negb _) eqn:Hs; [discriminate|]. apply negb_false_iff, bool_decide_eq_true in Hs.
  apply bind_ok_inv in Hrun as (existing&w2&H2&Hrun).
  apply lift_err_ok_inv, (reads_run _ _ _ _ _ (query_same_but_step _ _)) in H2 as (D2&_&L2).
  cbv zeta in Hrun. apply bind_ok_inv in Hrun as ([[obj pool] id]&w3&H3&Hrun).
  apply attach_tx_ok in H3 as (L3&row'&Hrow&Hdisk). simpl in D2, L2. rewrite D2 in Hdisk.
  apply bind_ok_inv in Hrun as (disk'&w4&H4&Hrun).
  apply lift_err_ok_inv, query_ok_inv in H4 as [H4%ok_or_ok ->]. simpl in H4. simplify_eq.
  apply bind_ok_inv in Hrun as ([]&w5&H5&Hrun). unfold mret, M_ret in Hrun. injection Hrun as <- <-.
  pose proof Hdisk as (_&_&Hname&_&_). rewrite <- Hname in Hdisk. exists row. split_and!; [done|done| |].
  - destruct (on_node _); [|by injection H5 as <-]. apply apply_disk_ok in H5 as [-> _]. exact Hdisk.
  - intros Hn. unfold on_node in H5. rewrite bool_decide_eq_true_2 in H5 by done.
    apply apply_disk_ok in H5 as (_&h&c&Hc&l&Hl&Hin). exists h, c. split; [done|]. exists l.
    rewrite Hl. simpl. by rewrite L3, L2.
Qed.
End disk_facts.

(** ** Security groups *)

Section group_facts.
Context `{UuidText} `{PolicySerde} {coll : Collation} {cidr_order : CidrOrder}.
Variable rpc_error_text : RpcCall -> RpcOutcome -> string.

(** Joining and leaving a group. *)
Definition change_group (joining : bool) (vm_id group : Uuid) : M Error unit :=
  if joining then attach_security_group rpc_error_text vm_id group
  else detach_security_group rpc_error_text vm_id group.

Definition membership (joining : bool) (vm_id group : Uuid) (s : gset (Uuid * Uuid)) : gset (Uuid * Uuid) :=
  if joining then {[(vm_id, group)]} ∪ s else s ∖ {[(vm_id, group)]}.

Lemma change_group_inv joining vm_id group o w w' :
  change_group joining vm_id group o w = (w', Ok tt) ->
  exists w1, w_log w1 = w_log w /\
    w_db w1 = with_vm_security_groups (membership joining vm_id group) (w_db w) /\
    sync_vm_firewall rpc_error_text vm_id o w1 = (w', Ok tt).
Proof.
  unfold change_group, attach_security_group, detach_security_group, get_group. intros Hrun.
  assert (exists m : M SqlxError unit, (forall o w w', w_tx w = Some (w_db w) -> m o w = (w', Ok tt) ->
      w_tx w' = Some (with_vm_security_groups (membership joining vm_id group) (w_db w)) /\ w_log w' = w_log w) /\
    (sqlx_q (Vms.get vm_id) ≫= fun _ => sqlx_q (query Pool (fun db => fetch_one (t_security_groups db !! group))) ≫= fun _ =>
     in_tx from_sqlx (sqlx_q m) ≫= fun _ => sync_vm_firewall rpc_error_text vm_id) o w = (w', Ok tt))
    as (m&Hm&Hrun').
  { destruct joining; eexists; (split; [|exact Hrun]).
    - intros o1 w1 w2 Htx Hadd. unfold add_to_vm in Hadd. apply execute_ok_inv in Hadd as (db&Hadd&->).
      simpl in *. rewrite Htx in Hadd. simpl in Hadd. case_bool_decide as Hin.
      + injection Hadd as <-. split; [|done]. f_equal. unfold with_vm_security_groups, membership.
        rewrite subseteq_union_1_L by set_solver. by destruct (w_db w1).
      + repeat (destruct (negb _) in Hadd; [discriminate|]). by injection Hadd as <-.
    - intros o1 w1 w2 Htx Hadd. unfold remove_from_vm in Hadd. apply execute_ok_inv in Hadd as (db&[= <-]&->).
      simpl in *. by rewrite Htx. }
  clear Hrun. apply bind_ok_inv in Hrun' as (vm&w1&H1&Hrun).
  apply lift_err_ok_inv, (reads_run _ _ _ _ _ (vm_get_reads _)) in H1 as (D1&_&L1).
  apply bind_ok_inv in Hrun as (g&w2&H2&Hrun).
  apply lift_err_ok_inv, (reads_run _ _ _ _ _ (query_same_but_step _ _)) in H2 as (D2&_&L2).
  apply bind_ok_inv in Hrun as ([]&w3&H3&Hrun). exists w3.
  apply in_tx_ok in H3 as (wb&Hb&Hdb&_&L3). apply lift_err_ok_inv, Hm in Hb as [Tb Lb]; [|done].
  rewrite Hdb, L3, Tb, Lb. simpl. rewrite L2, L1, D2, D1. done.
Qed.

(** A VM that joined or left a group: the membership is the only change, and a
    running or stopped VM has, on the node of its host, exactly the firewall
    of its new groups. *)
Theorem group_change_enforced joining vm_id group o w w' :
  change_group joining vm_id group o w = (w', Ok tt) ->
  w_db w' = with_vm_security_groups (membership joining vm_id group) (w_db w) /\
  forall row host_id, t_vms (w_db w) !! vm_id = Some row -> v_host_id row = Some host_id ->
    v_status row ∈ [Running; Shutdown] ->
    exists host ifs, t_hosts (w_db w) !! host_id = Some host /\ firewall_of (w_db w') vm_id ifs /\
      logged w w' (accepted host (SyncVmFirewall vm_id ifs)).
Proof.
  intros (w1&L1&D1&Hrun)%change_group_inv. unfold sync_vm_firewall in Hrun.
  apply bind_ok_inv in Hrun as (vm&w2&H2&Hrun). apply lift_err_ok_inv, query_ok_inv in H2 as [H2 ->].
  simpl in H2. assert (t_vms (w_db w1) = t_vms (w_db w)) as Hv by (by rewrite D1). rewrite Hv in H2.
  destruct (t_vms (w_db w) !! vm_id) as [row|]; [|discriminate]. injection H2 as <-. simpl in Hrun.
  destruct (v_host_id row) as [hid|] eqn:Hhid.
  2:{ unfold mret, M_ret in Hrun. injection Hrun as <-. split; [exact D1|]. intros; simplify_eq. }
  destruct (negb _) eqn:Hs.
  { unfold mret, M_ret in Hrun. injection Hrun as <-. split; [exact D1|]. intros row' h' [= <-] _ Hin.
    by rewrite bool_decide_eq_true_2 in Hs. }
  apply firewall_sync_spec in Hrun as (D2&host&ifs&Hh&Hf&l&Hl&Hin). simpl in *. rewrite D2, D1. split; [done|].
  intros row' h' [= <-] Hh' _. assert (h' = hid) as -> by congruence. exists host, ifs. rewrite D1 in Hh, Hf. split_and!; [done|done|].
  exists l. by rewrite Hl, L1.
Qed.

Definition sends_firewall (e : Event) : Prop :=
  match e with EvRpc _ _ (SyncVmFirewall _ _) _ => True | _ => False end.

Lemma resume_quiet to_rfc3339 vm_id :
  steps (log_adds (fun e => ~ sends_firewall e)) (resume to_rfc3339 vm_id).
Proof.
  assert (forall E A (m : M E A), steps same_but_step m -> steps (log_adds (fun e => ~ sends_firewall e)) m) as Hreads.
  { intros E A m Hm o w. apply log_adds_same, Hm. }
  unfold resume, transition_with. apply steps_bind; [apply Hreads, host_for_vm_reads|]. intros h.
  apply steps_bind.
  { intros o w. unfold rpc. eexists. split; [reflexivity|]. constructor; [by intros []|constructor]. }
  intros r. destruct (bool_decide _); [|apply steps_throw]. apply steps_lift_err. intros o w.
  destruct (set_status_events to_rfc3339 vm_id Running o w) as (l&Hl&Hall). exists l. split; [done|].
  eapply Forall_impl; [exact Hall|]. intros e He Hf. by destruct e.
Qed.

Lemma resume_keeps to_rfc3339 vm_id : steps (keeps_table t_vm_security_groups) (resume to_rfc3339 vm_id).
Proof.
  assert (forall E A (m : M E A), steps same_but_step m -> steps (keeps_table t_vm_security_groups) m) as Hreads.
  { intros E A m Hm o w. unfold keeps_table, keeps. f_equal. apply Hm. }
  unfold resume, transition_with. apply steps_bind; [apply Hreads, host_for_vm_reads|]. intros h.
  apply steps_bind; [by apply steps_rpc|]. intros r.
  destruct (bool_decide _); [|apply steps_throw]. by apply steps_lift_err, update_status_keeps.
Qed.

(** A paused VM that joins or leaves a group and is then resumed runs with the
    firewall it had before: neither request sends the new one. *)
Theorem paused_group_change_not_applied to_rfc3339 joining vm_id group o1 o2 w w1 w2 row :
  t_vms (w_db w) !! vm_id = Some row -> v_status row = Paused ->
  change_group joining vm_id group o1 w = (w1, Ok tt) -> resume to_rfc3339 vm_id o2 w1 = (w2, Ok tt) ->
  v_status <$> t_vms (w_db w2) !! vm_id = Some Running /\
  t_vm_security_groups (w_db w2) = membership joining vm_id group (t_vm_security_groups (w_db w)) /\
  exists l, w_log w2 = w_log w ++ l /\ Forall (fun e => ~ sends_firewall e) l.
Proof.
  intros Hrow Hs Hc Hr. apply change_group_inv in Hc as (wa&La&Da&Hrun).
  unfold sync_vm_firewall in Hrun. apply bind_ok_inv in Hrun as (vm&wb&H2&Hrun).
  apply lift_err_ok_inv, query_ok_inv in H2 as [H2 ->]. simpl in H2.
  assert (t_vms (w_db wa) = t_vms (w_db w)) as Hv by (by rewrite Da). rewrite Hv, Hrow in H2.
  injection H2 as <-. simpl in Hrun.
  assert (w_db w1 = w_db wa /\ w_log w1 = w_log wa) as [D1 L1].
  { destruct (v_host_id row); [|by injection Hrun as <-]. rewrite Hs in Hrun. by injection Hrun as <-. }
  pose proof (resume_quiet to_rfc3339 vm_id o2 w1) as (l&Hl&Hall). rewrite Hr in Hl. simpl in Hl. split_and!.
  - unfold resume, transition_with in Hr. apply bind_ok_inv in Hr as (h&wc&H3&Hr).
    apply (reads_run _ _ _ _ _ (host_for_vm_reads _)) in H3 as (D3&_&_).
    apply bind_ok_inv in Hr as (r&wd&H4&Hr). unfold rpc in H4. injection H4 as <- _.
    case_bool_decide; [|discriminate]. apply lift_err_ok_inv, update_status_ok in Hr.
    rewrite Hr. simpl. by rewrite D3, D1, Hv, lookup_alter_eq, Hrow.
  - pose proof (resume_keeps to_rfc3339 vm_id o2 w1) as Hk. rewrite Hr in Hk. unfold keeps_table, keeps in Hk.
    simpl in Hk. by rewrite Hk, D1, Da.
  - exists l. by rewrite Hl, L1, La.
Qed.

Lemma sync_firewall_same_db vm_id : steps same_db (sync_vm_firewall rpc_error_text vm_id).
Proof.
  assert (forall E A (m : M E A), steps same_but_step m -> steps same_db m) as Hreads.
  { intros E A m Hm o w. apply Hm. }
  unfold sync_vm_firewall. apply steps_bind; [apply Hreads, steps_lift_err, vm_get_reads|]. intros vm.
  destruct (v_host_id _) as [h|]; [|apply steps_ret]. destruct (negb _); [apply steps_ret|].
  unfold sync_vm_firewall_on_host. apply steps_bind; [apply Hreads, require_by_id_reads|]. intros host.
  apply steps_bind; [apply Hreads, firewall_interfaces_reads|]. intros ifs.
  apply steps_bind; [by apply steps_rpc|]. intros r. destruct (bool_decide _); [apply steps_ret|apply steps_throw].
Qed.

(** Deleting a group deletes it first and updates the nodes then.  When a node
    refuses, the request fails although the group is gone with its rules, the
    remaining members keep the old firewall, and repeating the request answers
    that there is no such group. *)
Theorem delete_group_not_repeatable group o o' w w' e row :
  served o -> served o' -> t_security_groups (w_db w) !! group = Some row ->
  delete_security_group rpc_error_text group o w = (w', Err e) ->
  t_security_groups (w_db w') = delete group (t_security_groups (w_db w)) /\
  (forall k r, t_security_group_rules (w_db w') !! k = Some r -> sgr_security_group_id r <> group) /\
  (delete_security_group rpc_error_text group o' w').2 = Err NotFound.
Proof.
  intros Ho Ho' Hg Hrun. unfold delete_security_group, get_group, list_vm_ids, delete_group in Hrun |- *.
  unfold mbind at 1, M_bind at 1, lift_err at 1 in Hrun. rewrite query_served in Hrun by done.
  cbn [conn_db tick w_db map_err] in Hrun. rewrite Hg in Hrun. cbn [fetch_one ok_or map_err] in Hrun.
  unfold mbind at 1, M_bind at 1, lift_err at 1 in Hrun. rewrite query_served in Hrun by done.
  cbn [map_err] in Hrun. unfold mbind at 1, M_bind at 1, lift_err at 1 in Hrun.
  erewrite execute_served in Hrun by done. cbn [map_err] in Hrun.
  match type of Hrun with for_all_m ?f ?l o ?wx = _ =>
    pose proof (steps_for_all_m (R := same_db) f l (fun x _ => sync_firewall_same_db x) o wx) as D end.
  rewrite Hrun in D. unfold same_db in D. simpl in D. rewrite D. split_and!.
  - done.
  - simpl. intros k r Hk. apply map_lookup_filter_Some in Hk as [_ Hk]. simpl in Hk.
    by apply negb_true_iff, bool_decide_eq_false in Hk.
  - unfold mbind at 1, M_bind at 1, lift_err at 1. rewrite query_served by done. simpl. rewrite D. simpl.
    by rewrite lookup_delete_eq.
Qed.
End group_facts.

(** ** Witnesses *)

Section witnesses.
#[local] Instance hotplug_uuid_text : UuidText := binary_uuid_text.
#[local] Instance hotplug_serde : PolicySerde := array_policy_serde.
#[local] Instance hotplug_collation : Collation := encoding_collation.
#[local] Instance hotplug_inet : PgInet := slash32_inet.
#[local] Instance hotplug_mac : PgMacaddr := colon_mac.
#[local] Instance hotplug_cidr : CidrOrder := encoding_cidr_order.

Definition silent (_ : RpcCall) (_ : RpcOutcome) : string := EmptyString.

(** Every node refuses every call. *)
Definition refused_oracle : Oracle :=
  {| o_sql := fun _ => None; o_uuid := fun n => (1000 + N.of_nat n)%N; o_now := fun n => Z.of_nat n;
     o_rpc := fun _ => RpcError; o_http := fun _ => HttpResponse 500 None |}.

(** A VM on a host with a network, a free disk and a group. *)
Definition hotplug_db (status : VmStatus) : Db :=
  with_networks (fun _ => {[9%N := vpc_network 9 "10.10.1.0/24" "blue"]})
    (with_security_groups (fun _ => {[30%N := {| sg_id := 30; sg_name := "web"; sg_description := None |}]})
      (with_vm_security_groups (fun _ => {[(1%N, 30%N)]})
        (with_vm_disks (fun _ => ∅) (placed_db status)))).

Definition bare_nic : NewVmNetwork :=
  {| nn_id := ""; nn_network_id := Some 9%N; nn_mac := None; nn_tap := None; nn_ip := None; nn_mask := None;
     nn_mtu := None; nn_host_mac := None; nn_interface_type := None; nn_vhost_user := None;
     nn_vhost_socket := None; nn_vhost_mode := None; nn_num_queues := None; nn_queue_size := None;
     nn_rate_limiter := None; nn_offload_tso := None; nn_offload_ufo := None; nn_offload_csum := None;
     nn_pci_segment := None; nn_iommu := None |}.

Definition refused_nic_world : World :=
  (add_nic silent 1 1 bare_nic refused_oracle (world_of (hotplug_db Running))).1.

Lemma add_nic_refused_restores_witness :
  t_ip_allocations (w_db refused_nic_world) = t_ip_allocations (hotplug_db Running).
Proof.
  refine (proj2 (add_nic_refused_restores silent 1 1 bare_nic refused_oracle
    (world_of (hotplug_db Running)) refused_nic_world _ _)).
  - intros n. reflexivity.
  - vm_compute. reflexivity.
Defined.

Definition attach_61 : AttachDiskRequest :=
  {| ad_storage_object_id := 61; ad_logical_name := None; ad_boot_order := None |}.
Definition attached_world : World := (attach_disk 1 attach_61 calm_oracle (world_of (hotplug_db Running))).1.

Lemma attach_disk_exclusive_witness :
  size (t_vm_disks (w_db attached_world)) = 1%nat /\ disks_exclusive (w_db attached_world).
Proof.
  split; [vm_compute; reflexivity|].
  refine (attach_disk_exclusive 1 attach_61 calm_oracle (world_of (hotplug_db Running)) _). split.
  - intros k ob Hk. change (t_storage_objects (w_db (world_of (hotplug_db Running)))) with
      ({[61%N := Storage.sample_object 61 71]} : gmap Uuid StorageObject) in Hk.
    apply lookup_singleton_Some in Hk as [<- <-]. reflexivity.
  - intros k1 k2 d1 d2 oid ob pool Hk. exfalso. revert Hk. simpl. by rewrite lookup_empty.
Defined.

Lemma attach_disk_effect_witness :
  exists disk, t_vm_disks (w_db attached_world) !! vd_id disk = Some disk /\ vd_storage_object_id disk = Some 61%N.
Proof.
  edestruct (attach_disk_effect 1 attach_61 calm_oracle (world_of (hotplug_db Running)) attached_world)
    as (row&_&_&(_&Ho&_&_&Hdb)&_); [vm_compute; reflexivity|].
  eexists. split; [rewrite Hdb; apply lookup_insert_eq|exact Ho].
Defined.

Lemma group_change_enforced_witness :
  let w := world_of (hotplug_db Running) in
  let w' := (change_group silent false 1 30 calm_oracle w).1 in
  exists host ifs, t_hosts (w_db w) !! 2%N = Some host /\ firewall_of (w_db w') 1 ifs /\
    logged w w' (accepted host (SyncVmFirewall 1 ifs)).
Proof.
  cbv zeta. eapply (group_change_enforced silent false 1 30 calm_oracle (world_of (hotplug_db Running)));
    [vm_compute; reflexivity|reflexivity|reflexivity|]. by left.
Defined.

Definition left_group_world : World := (change_group silent false 1 30 calm_oracle (world_of (hotplug_db Paused))).1.
Definition resumed_world : World := (resume no_text 1 calm_oracle left_group_world).1.

Lemma paused_group_change_not_applied_witness :
  t_vm_security_groups (w_db resumed_world) = ∅ /\
  exists l, w_log resumed_world = [] ++ l /\ Forall (fun e => ~ sends_firewall e) l.
Proof.
  destruct (paused_group_change_not_applied silent no_text false 1 30 calm_oracle calm_oracle
    (world_of (hotplug_db Paused)) left_group_world resumed_world
    (sample_vm 1 "web" (Some 2%N) Paused 2 1024 [] JNull)) as (_&Hs&Hl);
    [reflexivity|reflexivity|vm_compute; reflexivity..|].
  split; [|exact Hl]. rewrite Hs. vm_compute. reflexivity.
Defined.

Definition undeleted_world : World :=
  (delete_security_group silent 30 refused_oracle (world_of (hotplug_db Running))).1.

Lemma delete_group_not_repeatable_witness :
  (delete_security_group silent 30 calm_oracle undeleted_world).2 = Err NotFound.
Proof.
  edestruct (delete_group_not_repeatable silent 30 refused_oracle calm_oracle
    (world_of (hotplug_db Running)) undeleted_world) as (_&_&Hr);
    [intros n; reflexivity|intros n; reflexivity|reflexivity|vm_compute; reflexivity|exact Hr].
Defined.
End witnesses.
