(* ===== verification/VmOps.v ===== *)
(** * VmOps: deletion, snapshots, resizing and preflight of a VM

    [delete], [create_snapshot], [restore], [resize_vm], [resize_disk] and
    [preflight_image] of [qarax/src/handlers/vm/handler.rs], with the helpers
    they share with the backup handlers.  [preflighted n] is the body of the
    reply to the preflight call made at step [n]. *)

From S2P Require Import Prelude Text Common Errors Tables Float64 FloatRounding NodeApi World Samples VmConfig.
From S2P Require Import Hooks Vms Jobs Storage Gpus Hosts StorageObjects Scheduler Networks.
From S2P Require Import Devices Catalog SecurityGroups NetworkPolicy CreateRequest VmLifecycle VmCreate Hotplug.
#[local] Open Scope Z_scope.
#[local] Set Default Proof Using "Type".

(** ** Requests *)

Record CreateSnapshotRequest := { cs_name : option string; cs_storage_pool_id : option Uuid }.

Record VmResizeRequest := { rs_desired_vcpus : option Z; rs_desired_ram : option Z }.

Record VmImagePreflightRequest := {
  pf_image_ref : string;
  pf_architecture : option string;
  pf_boot_mode : option BootMode;
  pf_host_id : option Uuid
}.

Definition boot_mode_to_string (m : BootMode) : string :=
  match m with Kernel => "kernel" | Firmware => "firmware" end.

Definition HOTPLUG_MEMORY_INCREMENT_BYTES : Z := 128 * 1024 * 1024.
Definition MIB : Z := 1024 * 1024.

Section operations.
Context `{UuidText} `{PolicySerde} {coll : Collation}.
Variable to_rfc3339 : Z -> string.

Abbreviation set_status := (Vms.update_status to_rfc3339).

(** ** Deletion *)

(** The call to the node, for a VM that was provisioned there. *)
Definition delete_on_node (vm_id : Uuid) (row : VmRow) : M Error unit :=
  if bool_decide (v_status row ∈ [Created; Pending]) then mret tt
  else
    host ← attempt (host_for_vm vm_id);
    match host with
    | Ok host => _ ← rpc host (DeleteVm vm_id); mret tt
    | Err _ => mret tt
    end.

Definition delete (vm_id : Uuid) : M Error unit :=
  vm ← sqlx_q (Vms.get vm_id);
  let row := vm_row vm in
  _ ← attempt (deallocate_by_vm vm_id);
  _ ← delete_on_node vm_id row;
  _ ← attempt (enqueue_matching to_rfc3339 row (vm_status_to_string (v_status row)) "deleted");
  sqlx_q (delete_vm vm_id).

(** ** Snapshots *)

Definition list_snapshots (vm_id : Uuid) (name : option string) : M Error (list VmSnapshot) :=
  _ ← sqlx_q (Vms.get vm_id);
  sqlx_q (list_snapshots_for_vm vm_id name).

Definition record_ready_vm_backup (snapshot : VmSnapshot) : M Error Backup :=
  sqlx_q (create_backup_row
    {| nbk_name := sn_name snapshot; nbk_backup_type := BackupVm; nbk_status := BkReady;
       nbk_vm_id := Some (sn_vm_id snapshot); nbk_snapshot_id := Some (sn_id snapshot);
       nbk_storage_object_id := sn_storage_object_id snapshot |}).

(** The pool of the first disk whose pool can be read and is not an OverlayBD. *)
Fixpoint disk_pool_preference (disks : list VmDisk) : M Error (option Uuid) :=
  match disks with
  | [] => mret None
  | disk :: disks' =>
      found ← (match vd_storage_object_id disk with
               | None => mret None
               | Some so_id =>
                   so ← attempt (get_object so_id);
                   match so with
                   | Err _ => mret None
                   | Ok so =>
                       sp ← attempt (get_pool (so_storage_pool_id so));
                       mret (match sp with
                             | Ok sp => if negb (bool_decide (sp_pool_type sp = OverlayBd))
                                        then Some (sp_id sp) else None
                             | Err _ => None
                             end)
                   end
               end);
      match found with
      | Some id => mret (Some id)
      | None => disk_pool_preference disks'
      end
  end.

Definition snapshot_object (name : string) (pool_id : Uuid) : NewStorageObject :=
  {| no_name := name; no_storage_pool_id := Some pool_id; no_object_type := Snapshot;
     no_size_bytes := 0; no_config := JNull; no_parent_id := None |}.

(** The directory of a snapshot as a URL. *)
Definition snapshot_url (so : StorageObject) : result Error string :=
  dir_path ← ok_or InternalServerError (get_path_from_config (so_config so));
  Ok ("file://" +:+ dir_path)%string.

(** The rows of a snapshot: its object, then the snapshot itself. *)
Definition prepare_snapshot (vm_id : Uuid) (body : CreateSnapshotRequest) : M Error (string * Uuid) :=
  preferred ← (match cs_storage_pool_id body with
               | Some id => mret (Some id)
               | None => disks ← sqlx_q (list_disks_by_vm vm_id); disk_pool_preference disks
               end);
  pool_id ← sqlx_q (pick_active_non_overlaybd preferred);
  pool_id ← of_result (ok_or (UnprocessableEntity "no suitable storage pool available for snapshot") pool_id);
  name ← (match cs_name body with
          | Some name => mret name
          | None => u ← new_uuid; mret ("snapshot-" +:+ String.substring 0 8 (uuid_to_string u))%string
          end);
  so_id ← sqlx_q (create_object (snapshot_object name pool_id));
  so ← sqlx_q (get_object so_id);
  url ← of_result (snapshot_url so);
  id ← sqlx_q (create_snapshot_row {| nsn_vm_id := vm_id; nsn_storage_object_id := so_id; nsn_name := name |});
  mret (url, id).

(** The node pauses the VM, takes the snapshot and resumes the VM. *)
Definition take_snapshot (host : Host) (vm_id : Uuid) (url : string) (id : Uuid) : M Error unit :=
  paused ← rpc host (PauseVm vm_id);
  if negb (bool_decide (paused = RpcOk)) then
    _ ← attempt (update_snapshot_status id SnFailed);
    throw InternalServerError
  else
    snap_result ← rpc host (SnapshotVm vm_id url);
    resume_result ← rpc host (ResumeVm vm_id);
    if bool_decide (snap_result = RpcOk) then
      _ ← sqlx_q (update_snapshot_status id SnReady);
      if bool_decide (resume_result = RpcOk) then mret tt else throw InternalServerError
    else
      _ ← attempt (update_snapshot_status id SnFailed);
      throw InternalServerError.

Definition create_vm_snapshot (vm_id : Uuid) (body : CreateSnapshotRequest) : M Error VmSnapshot :=
  host ← host_for_vm vm_id;
  '(url, id) ← prepare_snapshot vm_id body;
  _ ← take_snapshot host vm_id url id;
  sqlx_q (get_snapshot id).

Definition create_snapshot (vm_id : Uuid) (body : CreateSnapshotRequest) : M Error VmSnapshot :=
  snapshot ← create_vm_snapshot vm_id body;
  _ ← record_ready_vm_backup snapshot;
  mret snapshot.

(** A missing row is a 404; every other error is passed on as it is. *)
Definition snapshot_error (e : SqlxError) : Error :=
  match e with RowNotFound => NotFound | _ => Sqlx e end.

(** The node takes the VM over from the snapshot. *)
Definition restore_on_node (host : Host) (vm_id : Uuid) (vm : Vm) (snapshot : VmSnapshot) : M Error Vm :=
  _ ← sqlx_q (set_status vm_id Pending);
  so ← sqlx_q (get_object (sn_storage_object_id snapshot));
  url ← of_result (snapshot_url so);
  r ← rpc host (RestoreVm vm_id url (v_hypervisor (vm_row vm)));
  if bool_decide (r = RpcOk) then
    _ ← sqlx_q (set_status vm_id Running);
    sqlx_q (Vms.get vm_id)
  else
    _ ← attempt (set_status vm_id Unknown);
    throw InternalServerError.

Definition restore_checks (vm_id snapshot_id : Uuid) : M Error (Vm * VmSnapshot * Host) :=
  vm ← sqlx_q (Vms.get vm_id);
  if bool_decide (v_status (vm_row vm) ∈ [Running; Paused; Pending; Committing])
  then throw (UnprocessableEntity "VM must be stopped before restoring")
  else
    snapshot ← lift_err snapshot_error (get_snapshot snapshot_id);
    if negb (bool_decide (sn_vm_id snapshot = vm_id)) then throw NotFound
    else if negb (bool_decide (sn_status snapshot = SnReady))
    then throw (UnprocessableEntity "snapshot is not in ready state")
    else
      host ← host_for_vm vm_id;
      mret (vm, snapshot, host).

Definition restore_vm_from_snapshot (vm_id snapshot_id : Uuid) : M Error Vm :=
  '(vm, snapshot, host) ← restore_checks vm_id snapshot_id;
  restore_on_node host vm_id vm snapshot.

(** ** Resizing *)

Section resize.
Variable config : SchedulingSettings.

Definition ensure_resize_capacity (vm : Vm) (host : Host) (desired_vcpus desired_ram : option Z)
  : M Error unit :=
  let row := vm_row vm in
  capacity ← sqlx_q (get_resource_capacity (h_id host));
  capacity ← of_result (ok_or NotFound capacity);
  let target_vcpus := default (v_boot_vcpus row) desired_vcpus in
  let target_memory := default (v_memory_size row) desired_ram in
  let over total ratio n := f64_gtb (f64_of_Z n) (f64_floor (f64_mul (f64_of_Z total) ratio)) in
  if match hc_total_cpus capacity with
     | Some total => over total (ss_cpu_oversubscription_ratio config)
                       (as_i64 (as_i64 (hc_allocated_vcpus capacity - v_boot_vcpus row) + target_vcpus))
     | None => false
     end
  then throw (UnprocessableEntity ("resizing to " +:+ pretty target_vcpus
         +:+ " vCPUs would exceed host CPU capacity on " +:+ h_name host))
  else if match hc_total_memory_bytes capacity with
          | Some total => over total (ss_memory_oversubscription_ratio config)
              (as_i64 (as_i64 (hc_allocated_memory_bytes capacity - v_memory_size row) + target_memory))
          | None => false
          end
  then throw (UnprocessableEntity ("resizing to " +:+ pretty target_memory
         +:+ " bytes would exceed host memory capacity on " +:+ h_name host))
  else if match desired_ram, hc_available_memory_bytes capacity with
          | Some ram, Some available =>
              (v_memory_size row <? ram) && (available <=? ss_memory_health_floor_bytes config)
          | _, _ => false
          end
  then throw (UnprocessableEntity ("host " +:+ h_name host
         +:+ " is below the configured memory health floor"))
  else mret tt.

(** The range of memory sizes and the increments of the hypervisor. *)
Definition check_vcpus (row : VmRow) (vcpus : Z) : result Error unit :=
  if (v_boot_vcpus row <=? vcpus) && (vcpus <=? v_max_vcpus row) then Ok tt
  else Err (UnprocessableEntity ("desired_vcpus " +:+ pretty vcpus +:+ " is out of range ["
         +:+ pretty (v_boot_vcpus row) +:+ ", " +:+ pretty (v_max_vcpus row) +:+ "]")).

Definition max_ram (row : VmRow) : Z :=
  as_i64 (v_memory_size row + default 0 (v_memory_hotplug_size row)).

Definition check_ram (row : VmRow) (ram : Z) : result Error unit :=
  if negb ((v_memory_size row <=? ram) && (ram <=? max_ram row))
  then Err (UnprocessableEntity ("desired_ram " +:+ pretty ram +:+ " is out of range ["
         +:+ pretty (v_memory_size row) +:+ ", " +:+ pretty (max_ram row) +:+ "]"))
  else
    let hotplug_addition := as_i64 (ram - v_memory_size row) in
    if negb (Z.rem hotplug_addition HOTPLUG_MEMORY_INCREMENT_BYTES =? 0)
    then Err (UnprocessableEntity ("desired_ram " +:+ pretty ram +:+ " requires a hotplug addition of "
           +:+ pretty hotplug_addition +:+ " bytes, which is not a multiple of "
           +:+ pretty HOTPLUG_MEMORY_INCREMENT_BYTES +:+ " bytes"))
    else Ok tt.

Definition check_opt {A} (check : A -> result Error unit) (x : option A) : result Error unit :=
  match x with Some x => check x | None => Ok tt end.

Definition resized (vm : Vm) (req : VmResizeRequest) : Vm :=
  vm_from_row (set_size (rs_desired_vcpus req) (rs_desired_ram req) (vm_row vm)).

Definition resize_vm (vm_id : Uuid) (req : VmResizeRequest) : M Error Vm :=
  if bool_decide (rs_desired_vcpus req = None) && bool_decide (rs_desired_ram req = None)
  then throw (UnprocessableEntity "At least one of desired_vcpus or desired_ram must be provided")
  else
    vm ← sqlx_q (Vms.get vm_id);
    if negb (bool_decide (v_status (vm_row vm) = Running))
    then throw (UnprocessableEntity "VM must be running to resize CPU or memory")
    else
      _ ← of_result (check_opt (check_vcpus (vm_row vm)) (rs_desired_vcpus req));
      _ ← of_result (check_opt (check_ram (vm_row vm)) (rs_desired_ram req));
      host ← host_for_vm vm_id;
      _ ← ensure_resize_capacity vm host (rs_desired_vcpus req) (rs_desired_ram req);
      _ ← rpc_or_internal host (ResizeVm vm_id (rs_desired_vcpus req) (rs_desired_ram req));
      _ ← sqlx_q (update_resize vm_id (rs_desired_vcpus req) (rs_desired_ram req));
      mret (resized vm req).
End resize.

(** The object to resize and its file. *)
Definition resolve_disk_resize_target (disk : VmDisk) (object : StorageObject) (pool : StoragePool)
  : result Error (Uuid * string) :=
  match sp_pool_type pool, so_object_type object with
  | Local, (Disk | Snapshot) | Nfs, (Disk | Snapshot) =>
      path ← ok_or (UnprocessableEntity "disk has no resolvable host path")
               (get_path_from_config (so_config object));
      Ok (so_id object, path)
  | OverlayBd, OciImage =>
      Err (UnprocessableEntity (if bool_decide (is_Some (vd_upper_storage_object_id disk))
                                then "persistent OverlayBD disk resize is not supported yet"
                                else "ephemeral OverlayBD disks cannot be resized"))
  | OverlayBd, _ =>
      Err (UnprocessableEntity "disk resize is not supported for this OverlayBD storage object")
  | Local, _ | Nfs, _ =>
      Err (UnprocessableEntity "disk resize is only supported for disk and snapshot storage objects")
  | Block, _ =>
      Err (UnprocessableEntity "disk resize is not supported for BLOCK storage pools (resize the LUN on the target)")
  end.

(** The transaction stays open while the node works. *)
Definition resize_disk_body (vm_id so_id : Uuid) (disk : VmDisk) (new_size_bytes : Z) : M Error Uuid :=
  obj ← sqlx_q (get_object_for_update so_id);
  pool_record ← sqlx_q (get_pool (so_storage_pool_id obj));
  '(target, path) ← of_result (resolve_disk_resize_target disk obj pool_record);
  if new_size_bytes <=? so_size_bytes obj then
    throw (UnprocessableEntity ("new_size_bytes " +:+ pretty new_size_bytes
      +:+ " must be greater than current size " +:+ pretty (so_size_bytes obj)))
  else if negb (Z.rem new_size_bytes MIB =? 0) then
    throw (UnprocessableEntity ("new_size_bytes " +:+ pretty new_size_bytes
      +:+ " must be a multiple of 1 MiB (" +:+ pretty MIB +:+ ")"))
  else
    _ ← sqlx_q (update_size_bytes_tx target new_size_bytes);
    host ← host_for_vm vm_id;
    _ ← rpc_or_internal host (ResizeDisk vm_id (vd_logical_name disk) path new_size_bytes);
    mret target.

Definition resize_disk (vm_id : Uuid) (disk_id : string) (new_size_bytes : Z) : M Error StorageObject :=
  vm ← sqlx_q (Vms.get vm_id);
  if negb (bool_decide (v_status (vm_row vm) ∈ [Created; Shutdown]))
  then throw (UnprocessableEntity "VM must be stopped (Created or Shutdown) to resize a disk")
  else
    disk ← sqlx_q (get_disk_by_logical_name vm_id disk_id);
    disk ← of_result (ok_or NotFound disk);
    if vd_vhost_user disk then throw (UnprocessableEntity "vhost-user disks cannot be resized")
    else
      so_id ← of_result (ok_or (UnprocessableEntity "disk has no backing storage object")
                           (vd_storage_object_id disk));
      target ← in_tx from_sqlx (resize_disk_body vm_id so_id disk new_size_bytes);
      sqlx_q (get_object target).

(** ** Preflight *)

Section preflight.
Context {Reply : Type}.
Variables (control_plane_architecture : string) (config : SchedulingSettings)
  (locked : nat -> gset Uuid) (overlaybd_url : json -> option string) (preflighted : nat -> Reply).

Definition preflight_request (architecture : string) : SchedulingRequest :=
  {| sr_memory_bytes := 0; sr_vcpus := 0; sr_disk_bytes := 0; sr_architecture := Some architecture;
     sr_storage_pool_id := None; sr_required_network_ids := []; sr_gpu := None;
     sr_placement_policy := None; sr_excluded_host_ids := [] |}.

(** Without a host in the request the scheduler picks one; its lock is dropped. *)
Definition select_preflight_host (host_id : option Uuid) (architecture : string) : M Error Host :=
  match host_id with
  | Some host_id =>
      host ← require_by_id host_id;
      if negb (bool_decide (h_status host = HostUp))
      then throw (UnprocessableEntity ("selected host " +:+ h_name host +:+ " is not in up state"))
      else
        _ ← of_result (ensure_host_matches_architecture host architecture);
        mret host
  | None =>
      host ← in_dropped_tx (pick_host_now locked config (preflight_request architecture));
      of_result (ok_or (UnprocessableEntity
        "no hosts in UP state with sufficient resources available for scheduling") host)
  end.

(** A call whose reply has a body. *)
Definition preflight_call (host : Host) (image_ref url architecture boot_mode : string)
  : M Error Reply := fun o w =>
  match (rpc_or_internal host (PreflightImage image_ref url architecture boot_mode)) o w with
  | (w', Ok _) => (w', Ok (preflighted (w_step w)))
  | (w', Err e) => (w', Err e)
  end.

Definition preflight_image (body : VmImagePreflightRequest) : M Error (Host * Reply) :=
  if is_blank (pf_image_ref body) then throw (UnprocessableEntity "image_ref is required")
  else
    let architecture := resolved_vm_architecture control_plane_architecture (pf_architecture body) in
    let boot_mode := default Kernel (pf_boot_mode body) in
    host ← select_preflight_host (pf_host_id body) architecture;
    pool ← overlaybd_pool_for (h_id host);
    url ← of_result (ok_or InternalServerError (overlaybd_url (sp_config pool)));
    reply ← preflight_call host (pf_image_ref body) url architecture (boot_mode_to_string boot_mode);
    mret (host, reply).
End preflight.
End operations.

(** ** Resizing stays in range and within the budgets *)

Section resize_facts.
Context `{UuidText} `{PolicySerde}.
Variable config : SchedulingSettings.

Lemma capacity_reads vm host a b : steps same_but_step (ensure_resize_capacity config vm host a b).
Proof. unfold ensure_resize_capacity, get_resource_capacity. cbv zeta. steps_tac. Qed.

(** What a passed capacity check established of the totals of the host. *)
Lemma capacity_ok vm host a b o w w' :
  ensure_resize_capacity config vm host a b o w = (w', Ok tt) ->
  exists h, t_hosts (w_db w) !! h_id host = Some h /\
    (forall total, h_total_cpus h = Some total ->
       f64_gtb (f64_of_Z (as_i64 (as_i64 (allocated v_boot_vcpus (h_id host) (w_db w) - v_boot_vcpus (vm_row vm))
                                  + default (v_boot_vcpus (vm_row vm)) a)))
         (f64_floor (f64_mul (f64_of_Z total) (ss_cpu_oversubscription_ratio config))) = false) /\
    (forall total, h_total_memory_bytes h = Some total ->
       f64_gtb (f64_of_Z (as_i64 (as_i64 (allocated v_memory_size (h_id host) (w_db w) - v_memory_size (vm_row vm))
                                  + default (v_memory_size (vm_row vm)) b)))
         (f64_floor (f64_mul (f64_of_Z total) (ss_memory_oversubscription_ratio config))) = false).
Proof.
  unfold ensure_resize_capacity, get_resource_capacity. cbv zeta. intros Hrun.
  apply bind_ok_inv in Hrun as (c&w1&H1&Hrun). apply lift_err_ok_inv, query_ok_inv in H1 as [[= <-] ->].
  simpl in Hrun. destruct (t_hosts (w_db w) !! h_id host) as [h|]; [|discriminate]. exists h. split; [done|].
  apply bind_ok_inv in Hrun as (c&w2&H2&Hrun). injection H2 as <- <-. cbn [hc_total_cpus hc_total_memory_bytes
    hc_allocated_vcpus hc_allocated_memory_bytes hc_available_memory_bytes] in Hrun.
  destruct (match h_total_cpus h with Some _ => _ | None => _ end) eqn:Hc; [discriminate|].
  destruct (match h_total_memory_bytes h with Some _ => _ | None => _ end) eqn:Hm; [discriminate|].
  split; intros total Ht; [by rewrite Ht in Hc|by rewrite Ht in Hm].
Qed.

Lemma update_resize_ok vm_id a b o w w' row :
  a <> None \/ b <> None -> t_vms (w_db w) !! vm_id = Some row ->
  update_resize vm_id a b o w = (w', Ok tt) ->
  w_db w' = with_vms (insert vm_id (set_size a b row)) (w_db w) /\ w_log w' = w_log w.
Proof.
  intros Hab Hrow Hrun.
  assert (checked_update Pool (set_size a b) vm_id o w = (w', Ok tt)) as Hrun'.
  { unfold update_resize in Hrun. destruct a, b; try exact Hrun. by destruct Hab. }
  unfold checked_update in Hrun'. apply execute_ok_inv in Hrun' as (db&Hf&->). simpl in Hf. rewrite Hrow in Hf.
  apply result_bind_ok in Hf as ([]&_&Hf). by injection Hf as <-.
Qed.

Lemma resize_inv vm_id req o w w' vm :
  resize_vm config vm_id req o w = (w', Ok vm) ->
  exists row hid host, t_vms (w_db w) !! vm_id = Some row /\ v_status row = Running /\
    v_host_id row = Some hid /\ t_hosts (w_db w) !! hid = Some host /\
    check_opt (check_vcpus row) (rs_desired_vcpus req) = Ok tt /\
    check_opt (check_ram row) (rs_desired_ram req) = Ok tt /\
    (exists o1 w1 w2, w_db w1 = w_db w /\ ensure_resize_capacity config (vm_from_row row) host
       (rs_desired_vcpus req) (rs_desired_ram req) o1 w1 = (w2, Ok tt)) /\
    w_log w' = w_log w ++ [accepted host (ResizeVm vm_id (rs_desired_vcpus req) (rs_desired_ram req))] /\
    w_db w' = with_vms (insert vm_id (set_size (rs_desired_vcpus req) (rs_desired_ram req) row)) (w_db w).
Proof.
  unfold resize_vm. intros Hrun. destruct (_ && _) eqn:Hnone; [discriminate|].
  apply bind_ok_inv in Hrun as (vm0&w1&H1&Hrun). apply lift_err_ok_inv, query_ok_inv in H1 as [H1 ->]. simpl in H1.
  destruct (t_vms (w_db w) !! vm_id) as [row|] eqn:Hrow; [|discriminate]. injection H1 as <-. simpl in Hrun.
  case_bool_decide as Hst; [|discriminate]. simpl in Hrun.
  apply bind_ok_inv in Hrun as ([]&w1&H1&Hrun). injection H1 as <- Hv.
  apply bind_ok_inv in Hrun as ([]&w1&H1&Hrun). injection H1 as <- Hr.
  apply bind_ok_inv in Hrun as (host&w1&H1&Hrun).
  pose proof (reads_run _ _ _ _ _ (host_for_vm_reads _) H1) as (D1&_&L1).
  apply host_for_vm_ok in H1 as (row'&hid&Hrow'&Hhid&Hh). simpl in Hrow', D1, L1. simplify_eq.
  apply bind_ok_inv in Hrun as ([]&w2&H2&Hrun).
  pose proof (reads_run _ _ _ _ _ (capacity_reads _ _ _ _) H2) as (D2&_&L2).
  apply bind_ok_inv in Hrun as ([]&w3&H3&Hrun). unfold rpc_or_internal in H3.
  apply bind_ok_inv in H3 as (r&w3'&H3&Hret). case_bool_decide as Hok; [|discriminate].
  unfold mret, M_ret in Hret. injection Hret as <-. subst r. unfold rpc in H3. injection H3 as <- Hr3.
  apply bind_ok_inv in Hrun as ([]&w4&H4&Hrun). unfold mret, M_ret in Hrun. injection Hrun as <- <-.
  apply lift_err_ok_inv, (update_resize_ok _ _ _ _ _ _ row) in H4 as [D4 L4].
  - exists row, hid, host. split_and!; try done.
    + by exists o, w1, w2.
    + rewrite L4. simpl. by rewrite L2, L1, Hr3.
    + rewrite D4. simpl. by rewrite D2, D1.
  - apply andb_false_iff in Hnone as [Hn%bool_decide_eq_false|Hn%bool_decide_eq_false]; auto.
  - simpl. by rewrite D2, D1.
Qed.

Lemma as_i64_mod z : as_i64 z mod 18446744073709551616 = z mod 18446744073709551616.
Proof.
  unfold as_i64. pose proof (Z.mod_pos_bound z 18446744073709551616 ltac:(lia)).
  case_match; [by apply Z.mod_small|]. rewrite <- (Z.mod_add _ 1) by lia. rewrite Z.mod_small; lia.
Qed.

Lemma as_i64_add x y : as_i64 (as_i64 x + y) = as_i64 (x + y).
Proof.
  unfold as_i64 at 1 3. rewrite <- Zplus_mod_idemp_l, as_i64_mod, Zplus_mod_idemp_l. done.
Qed.

(** A resize that passed the check keeps a budget. *)
Lemma resized_budget f hid (db : Db) (vm_id : Uuid) (row row' : VmRow) ratio total :
  t_vms db !! vm_id = Some row -> counted hid row = true -> counted hid row' = true ->
  exact ratio -> exact total -> exact (total * ratio) ->
  exact (allocated f hid (with_vms (insert vm_id row') db)) ->
  f64_gtb (f64_of_Z (as_i64 (as_i64 (allocated f hid db - f row) + f row')))
    (f64_floor (f64_mul (f64_of_Z total) (f64_of_Z ratio))) = false ->
  allocated f hid (with_vms (insert vm_id row') db) <= total * ratio.
Proof.
  intros Hrow Hc Hc' Er Et Etr. rewrite (allocated_replace f hid db vm_id row row' Hrow). unfold charge.
  rewrite Hc, Hc'. intros Ea. unfold exact in *.
  rewrite as_i64_add, as_i64_id by (unfold i64_min, i64_max; lia).
  rewrite floor_budget_exact by lia. intros Hle%Z.ltb_ge. exact Hle.
Qed.

(** The same for any positive ratio, up to rounding. *)
Lemma resized_close f hid (db : Db) (vm_id : Uuid) (row row' : VmRow) ratio total :
  t_vms db !! vm_id = Some row -> counted hid row = true -> counted hid row' = true ->
  positive_double ratio -> exact total ->
  exact (allocated f hid (with_vms (insert vm_id row') db)) ->
  f64_gtb (f64_of_Z (as_i64 (as_i64 (allocated f hid db - f row) + f row')))
    (f64_floor (f64_mul (f64_of_Z total) ratio)) = false ->
  within_ratio (allocated f hid (with_vms (insert vm_id row') db)) total ratio.
Proof.
  intros Hrow Hc Hc' Er Et. rewrite (allocated_replace f hid db vm_id row row' Hrow). unfold charge.
  rewrite Hc, Hc'. intros Ea. unfold exact in *.
  rewrite as_i64_add, as_i64_id by (unfold i64_min, i64_max; lia).
  intros Hle. apply floor_budget_close in Hle; [|done..]. exact Hle.
Qed.

Lemma set_size_counted hid a b row : counted hid (set_size a b row) = counted hid row.
Proof. done. Qed.

(** With integral ratios and sizes that doubles hold exactly a resize keeps the ledger a
    placement keeps. *)
Lemma resize_keeps_ledger rm rc vm_id req o w w' vm :
  ss_memory_oversubscription_ratio config = f64_of_Z rm ->
  ss_cpu_oversubscription_ratio config = f64_of_Z rc ->
  sizes_exact rm rc (w_db w) -> sizes_exact rm rc (w_db w') -> ledger_ok rm rc (w_db w) ->
  resize_vm config vm_id req o w = (w', Ok vm) ->
  ledger_ok rm rc (w_db w').
Proof.
  intros Hrm Hrc (Erm&Erc&Hsizes) (_&_&Hsizes') Hledger Hrun.
  apply resize_inv in Hrun as (row&hid&host&Hrow&Hst&Hhid&Hh&_&_&(o1&w1&w2&D1&Hcap)&_&Hdb).
  apply capacity_ok in Hcap as (h&Hh'&Hcpu&Hmem). rewrite D1 in *. destruct (Hsizes hid host Hh) as (Hid&_&_&Htm&Htc).
  rewrite Hid in *. assert (h = host) as -> by congruence. rewrite Hrm, Hrc in *. simpl in Hcpu, Hmem.
  assert (counted hid row = true) as Hc.
  { unfold counted. rewrite Hhid, Hst. rewrite bool_decide_eq_true_2 by done. reflexivity. }
  intros k h Hk. rewrite Hdb in Hk. simpl in Hk. destruct (Hledger k h Hk) as [Hlm Hlc].
  destruct (Hsizes' k h) as (_&Em&Ec&_); [by rewrite Hdb|].
  rewrite Hdb in *. destruct (decide (k = hid)) as [->|Hne].
  - assert (h = host) as -> by congruence. split; intros total Ht.
    + destruct (Htm _ Ht). eapply resized_budget; eauto.
    + destruct (Htc _ Ht). eapply resized_budget; eauto.
  - assert (forall f, allocated f k (with_vms (insert vm_id (set_size (rs_desired_vcpus req) (rs_desired_ram req) row))
      (w_db w)) = allocated f k (w_db w)) as Hsame.
    { intros f. rewrite (allocated_replace f k _ vm_id row) by done. unfold charge. rewrite set_size_counted.
      unfold counted. rewrite Hhid, bool_decide_eq_false_2 by congruence. simpl. lia. }
    by rewrite !Hsame.
Qed.

(** What the VMs of each host use, and the totals of the hosts, are below 2^53. *)
Definition small_sizes (db : Db) : Prop :=
  forall k h, t_hosts db !! k = Some h ->
    h_id h = k /\ exact (allocated v_memory_size k db) /\ exact (allocated v_boot_vcpus k db) /\
    (forall total, h_total_memory_bytes h = Some total -> exact total) /\
    (forall total, h_total_cpus h = Some total -> exact total).
(** What the VMs of a host use is within the totals it reported times the ratios. *)
Definition within_budgets (db : Db) (k : Uuid) : Prop :=
  forall h, t_hosts db !! k = Some h ->
    (forall total, h_total_memory_bytes h = Some total ->
       within_ratio (allocated v_memory_size k db) total (ss_memory_oversubscription_ratio config)) /\
    (forall total, h_total_cpus h = Some total ->
       within_ratio (allocated v_boot_vcpus k db) total (ss_cpu_oversubscription_ratio config)).

(** C29. After a resize that succeeds the VMs of the host, the resized one included, use at
    most the memory and the CPUs the host reported times the oversubscription ratios, up to
    the relative error 2^-53 of rounding the product: for any positive ratios, whatever the
    host had committed before, as long as what is used and the totals stay below 2^53.  The
    VM was running on that host, its node accepted the sizes and the other hosts have the
    same VMs and sizes as before. *)
Theorem resize_keeps_budgets vm_id req o w w' vm :
  positive_double (ss_memory_oversubscription_ratio config) ->
  positive_double (ss_cpu_oversubscription_ratio config) ->
  small_sizes (w_db w') ->
  resize_vm config vm_id req o w = (w', Ok vm) ->
  exists row k host, t_vms (w_db w) !! vm_id = Some row /\ v_status row = Running /\ v_host_id row = Some k /\
    t_hosts (w_db w) !! k = Some host /\
    w_log w' = w_log w ++ [accepted host (ResizeVm vm_id (rs_desired_vcpus req) (rs_desired_ram req))] /\
    t_vms (w_db w') = <[vm_id := set_size (rs_desired_vcpus req) (rs_desired_ram req) row]> (t_vms (w_db w)) /\
    within_budgets (w_db w') k /\
    forall k' f, k' <> k -> allocated f k' (w_db w') = allocated f k' (w_db w).
Proof.
  intros Hrm Hrc Hsizes Hrun.
  apply resize_inv in Hrun as (row&hid&host&Hrow&Hst&Hhid&Hh&_&_&(o1&w1&w2&D1&Hcap)&Hlog&Hdb).
  exists row, hid, host. split_and!; [done|done|done|done|done|by rewrite Hdb| |].
  - apply capacity_ok in Hcap as (h&Hh'&Hcpu&Hmem). rewrite D1 in *. intros h2 Hk. rewrite Hdb in Hk. simpl in Hk.
    assert (h2 = host) as -> by congruence. destruct (Hsizes hid host) as (Hid&Em&Ec&Htm&Htc); [by rewrite Hdb|]. rewrite Hid in *. assert (h = host) as -> by congruence.
    assert (counted hid row = true) as Hc.
    { unfold counted. rewrite Hhid, Hst. rewrite bool_decide_eq_true_2 by done. reflexivity. }
    rewrite Hdb in *. split; intros total Ht; eapply resized_close; eauto.
  - intros k f Hne. rewrite Hdb, (allocated_replace f k _ vm_id row) by done. unfold charge. rewrite set_size_counted.
    unfold counted. rewrite Hhid, bool_decide_eq_false_2 by congruence. simpl. lia.
Qed.
End resize_facts.

(** ** Disk sizes *)

Section disk_facts.
Context `{UuidText} `{PolicySerde} {coll : Collation}.

(** The node resized the file and the new size was stored with the accounting of
    the pool. *)
Definition grown (vm_id : Uuid) (name : string) (n : Z) (w w' : World) : Prop :=
  exists disk object host path, vd_vm_id disk = vm_id /\ vd_logical_name disk = name /\
    t_storage_objects (w_db w) !! default 0%N (vd_storage_object_id disk) = Some object /\
    so_size_bytes object < n /\ Z.rem n MIB = 0 /\ get_path_from_config (so_config object) = Some path /\
    resize_object_row (so_id object) n (w_db w) = Ok (w_db w') /\
    logged w w' (accepted host (ResizeDisk vm_id name path n)).

Lemma resize_body_same_db vm_id so_id disk n : steps same_db (resize_disk_body vm_id so_id disk n).
Proof.
  assert (forall E A (m : M E A), steps same_but_step m -> steps same_db m) as Hreads.
  { intros E A m Hm o w. apply Hm. }
  unfold resize_disk_body. apply steps_bind; [apply Hreads, steps_lift_err, query_same_but_step|]. intros obj.
  apply steps_bind; [apply Hreads, steps_lift_err, query_same_but_step|]. intros pool.
  apply steps_bind; [apply steps_of_result|]. intros [target path].
  destruct (_ <=? _); [apply steps_throw|]. destruct (negb _); [apply steps_throw|].
  apply steps_bind; [apply steps_lift_err, execute_tx_same_db|]. intros _.
  apply steps_bind; [apply Hreads, host_for_vm_reads|]. intros h.
  apply steps_bind; [|intros ?; apply steps_ret]. unfold rpc_or_internal.
  apply steps_bind; [by apply steps_rpc|]. intros r. destruct (bool_decide _); [apply steps_ret|apply steps_throw].
Qed.

Lemma resize_target_inv disk obj pool target path :
  resolve_disk_resize_target disk obj pool = Ok (target, path) ->
  target = so_id obj /\ get_path_from_config (so_config obj) = Some path.
Proof.
  unfold resolve_disk_resize_target. intros Hr.
  destruct (sp_pool_type pool), (so_object_type obj); try discriminate;
    apply result_bind_ok in Hr as (p&Hp%ok_or_ok&[= <- <-]); done.
Qed.

Lemma rpc_or_internal_ok host call o w w' :
  rpc_or_internal host call o w = (w', Ok tt) ->
  w' = add_log (accepted host call) (tick w).
Proof.
  unfold rpc_or_internal. intros Hrun. apply bind_ok_inv in Hrun as (r&w1&Hr&Hrun).
  case_bool_decide as Hok; [|discriminate]. subst r. unfold mret, M_ret in Hrun. injection Hrun as <-.
  unfold rpc in Hr. injection Hr as <- Hr. unfold accepted. by rewrite Hr.
Qed.

Lemma resize_body_ok vm_id id disk n o w w' target :
  w_tx w = Some (w_db w) -> vd_vm_id disk = vm_id -> vd_storage_object_id disk = Some id ->
  resize_disk_body vm_id id disk n o w = (w', Ok target) ->
  exists object host path, t_storage_objects (w_db w) !! id = Some object /\
    so_size_bytes object < n /\ Z.rem n MIB = 0 /\ get_path_from_config (so_config object) = Some path /\
    resize_object_row (so_id object) n (w_db w) = Ok (conn_db Tx w') /\
    w_log w' = w_log w ++ [accepted host (ResizeDisk vm_id (vd_logical_name disk) path n)].
Proof.
  intros Htx Hvm Hid Hrun. unfold resize_disk_body in Hrun.
  apply bind_ok_inv in Hrun as (obj&w1&H1&Hrun). apply lift_err_ok_inv, query_ok_inv in H1 as [H1%ok_or_ok ->].
  apply bind_ok_inv in Hrun as (pool&w2&H2&Hrun). apply lift_err_ok_inv, query_ok_inv in H2 as [_ ->].
  apply bind_ok_inv in Hrun as ([t path]&w3&H3&Hrun). injection H3 as <- [-> Hpath]%resize_target_inv.
  destruct (Z.leb_spec n (so_size_bytes obj)) as [|Hlt]; [discriminate|].
  destruct (Z.eqb_spec (Z.rem n MIB) 0) as [Hm|]; [|discriminate]. cbn [negb] in Hrun.
  apply bind_ok_inv in Hrun as ([]&w4&H4&Hrun). apply lift_err_ok_inv, execute_ok_inv in H4 as (db&H4&->).
  apply unit_result_inv in H4.
  apply bind_ok_inv in Hrun as (host&w5&H5&Hrun).
  apply (reads_run _ _ _ _ _ (host_for_vm_reads _)) in H5 as (D5&T5&L5).
  apply bind_ok_inv in Hrun as ([]&w6&H6&Hrun). unfold mret, M_ret in Hrun. injection Hrun as <- <-.
  apply rpc_or_internal_ok in H6 as ->. exists obj, host, path. simpl in *. rewrite Htx in *. simpl in *.
  split_and!; try done; [by rewrite T5|by rewrite L5].
Qed.

Lemma resize_tx_grown vm_id id disk n o w0 w w' target :
  same_but_step w0 w -> vd_vm_id disk = vm_id -> vd_storage_object_id disk = Some id ->
  in_tx from_sqlx (resize_disk_body vm_id id disk n) o w = (w', Ok target) ->
  grown vm_id (vd_logical_name disk) n w0 w'.
Proof.
  intros (D0&_&L0) Hvm Hid Hrun. apply in_tx_ok in Hrun as (w2&Hb&Hdb&_&Hl).
  apply resize_body_ok in Hb as (obj&host&path&Hob&Hlt&Hm&Hp&Hr&Hlog); [|done..]. simpl in *.
  exists disk, obj, host, path. rewrite Hid, <- D0, Hdb. split_and!; try done.
  eexists. rewrite Hl, Hlog, L0. split; [reflexivity|set_solver].
Qed.

Lemma logical_name_inv vm_id name o w w' disk :
  get_disk_by_logical_name vm_id name o w = (w', Ok (Some disk)) ->
  vd_vm_id disk = vm_id /\ vd_logical_name disk = name.
Proof.
  intros [[= Hd] _]%query_ok_inv. apply head_Some_elem_of, elem_of_filter_rows in Hd as [_ Hd].
  apply andb_true_iff in Hd as [Hd%bool_decide_eq_true Hn%String.eqb_eq]. done.
Qed.

(** The stored size of a disk changes only together with its file: a resize
    either leaves the tables as they were, or the node accepted the new size,
    which is larger and a multiple of 1 MiB, and the object and the counter of
    its pool carry it.  A success is the second case. *)
Theorem resize_disk_outcome vm_id name n o w :
  let run := resize_disk vm_id name n o w in
  (w_db run.1 = w_db w \/ grown vm_id name n w run.1) /\
  (is_ok run.2 = true -> grown vm_id name n w run.1).
Proof.
  cbv zeta. destruct (resize_disk vm_id name n o w) as [w' r] eqn:Hrun. cbn [fst snd]. unfold resize_disk in Hrun.
  assert (forall w1, same_but_step w w1 -> is_ok r = false -> w' = w1 ->
    (w_db w' = w_db w \/ grown vm_id name n w w') /\ (is_ok r = true -> grown vm_id name n w w')) as Hsame.
  { intros w1 (D&_&_) -> ->. by split; [left|]. }
  apply (bind_reads _ _ _ _ _ _ (steps_lift_err _ _ (vm_get_reads vm_id))) in Hrun
    as [[? ?]|(vm&w1&_&S1&Hrun)]; [by eapply Hsame|].
  destruct (negb _); [injection Hrun as <- <-; by eapply Hsame|].
  apply (bind_reads _ _ _ _ _ _ (steps_lift_err _ _ (query_same_but_step _ _))) in Hrun
    as [[? S2]|(d&w2&Hd&S2&Hrun)]; (assert (same_but_step w _) as S by (etransitivity; [exact S1|exact S2]); clear S1 S2);
    [by eapply Hsame|]. apply lift_err_ok_inv in Hd. unfold mbind at 1, M_bind at 1, of_result at 1 in Hrun.
  destruct d as [disk|]; [|injection Hrun as <- <-; by eapply Hsame]. apply logical_name_inv in Hd as [Hvm <-].
  cbn [ok_or] in Hrun. destruct (vd_vhost_user disk); [injection Hrun as <- <-; by eapply Hsame|].
  unfold mbind at 1, M_bind at 1, of_result at 1 in Hrun.
  destruct (vd_storage_object_id disk) as [id|] eqn:Hid; [|injection Hrun as <- <-; by eapply Hsame].
  cbn [ok_or] in Hrun. apply bind_cases in Hrun as [(e&->&Hrun)|(target&w3&Htx&Hrun)].
  - apply in_tx_err in Hrun; [|apply resize_body_same_db]. split; [left|done]. rewrite Hrun. apply S.
  - assert (grown vm_id (vd_logical_name disk) n w w') as Hg; [|by split; [right|]].
    pose proof (steps_lift_err from_sqlx _ (query_same_but_step Pool
      (fun db => fetch_one (t_storage_objects db !! target))) o w3) as (D&_&L).
    change (query Pool _) with (get_object target) in D, L. rewrite Hrun in D, L. simpl in D, L.
    apply (resize_tx_grown _ _ _ _ _ w) in Htx as (d&ob&h&p&H1&H2&H3&H4&H5&H6&H7&l&Hl&Hin); [|done..].
    exists d, ob, h, p. rewrite D. split_and!; try done. exists l. by rewrite L.
Qed.
End disk_facts.

(** ** Snapshots *)

Section snapshot_facts.
Context `{UuidText} `{PolicySerde} {coll : Collation}.
Variable to_rfc3339 : Z -> string.

Lemma prepare_snapshot_quiet vm_id body : steps (keeps w_log) (prepare_snapshot vm_id body).
Proof.
  assert (forall l, steps (keeps w_log) (disk_pool_preference l)) as Hpref.
  { induction l as [|d l IH]; simpl; [apply steps_ret|].
    apply steps_bind; [unfold get_object, get_pool; steps_tac|]. intros [u|]; [apply steps_ret|exact IH]. }
  unfold prepare_snapshot. apply steps_bind.
  { destruct (cs_storage_pool_id body); [apply steps_ret|].
    apply steps_bind; [apply steps_lift_err; by apply steps_query|]. intros l. apply Hpref. }
  intros p. unfold pick_active_non_overlaybd, pick_preferring, any_pool, create_object, create_returning,
    insert_object, resolve_new_object, pick_active, any_pool, derive_config, get_pool, get_object,
    create_snapshot_row. steps_tac.
Qed.

(** A snapshot is reported only after the node paused the VM, took the snapshot
    and resumed the VM, in this order and with nothing in between, and its row
    is ready. *)
Theorem snapshot_taken vm_id body o w w' s :
  create_vm_snapshot vm_id body o w = (w', Ok s) ->
  exists host url id, t_vm_snapshots (w_db w') !! id = Some s /\ sn_status s = SnReady /\
    w_log w' = w_log w ++ [accepted host (PauseVm vm_id); accepted host (SnapshotVm vm_id url);
                           accepted host (ResumeVm vm_id)].
Proof.
  intros Hrun. unfold create_vm_snapshot in Hrun. apply bind_ok_inv in Hrun as (host&w1&H1&Hrun).
  apply (reads_run _ _ _ _ _ (host_for_vm_reads _)) in H1 as (_&_&L1).
  apply bind_ok_inv in Hrun as ([url id]&w2&H2&Hrun).
  pose proof (prepare_snapshot_quiet vm_id body o w1) as L2. rewrite H2 in L2. unfold keeps in L2. simpl in L2.
  apply bind_ok_inv in Hrun as ([]&w3&H3&Hrun).
  apply lift_err_ok_inv, query_ok_inv in Hrun as [Hs%ok_or_ok ->]. simpl in Hs.
  unfold take_snapshot in H3. apply bind_ok_inv in H3 as (r1&w4&H4&H3). unfold rpc in H4. injection H4 as <- Hr1.
  case_bool_decide as Hp; simpl in H3; [|by apply bind_ok_inv in H3 as (?&?&_&?)].
  apply bind_ok_inv in H3 as (r2&w4&H4&H3). unfold rpc in H4. injection H4 as <- Hr2.
  apply bind_ok_inv in H3 as (r3&w4&H4&H3). unfold rpc in H4. injection H4 as <- Hr3. subst r1.
  case_bool_decide as Hsn; [|by apply bind_ok_inv in H3 as (?&?&_&?)]. subst r2.
  apply bind_ok_inv in H3 as ([]&w4&H4&H3). apply lift_err_ok_inv, execute_ok_inv in H4 as (db&[= <-]&->).
  case_bool_decide as Hres; [|discriminate]. subst r3. unfold mret, M_ret in H3. injection H3 as <-.
  exists host, url, id. simpl in *. split_and!; [done| |].
  - rewrite lookup_alter_eq in Hs. by apply fmap_Some in Hs as (s0&_&->).
  - rewrite L2, L1, <- !app_assoc. simpl. unfold accepted. rewrite Hres, Hsn, Hp. done.
Qed.

Lemma restatus_last id S S' s w w1 w2 :
  restatus id S w w1 -> s ∈ S' -> t_vms (w_db w2) = alter (set_row_status s) id (t_vms (w_db w1)) ->
  restatus id S' w w2.
Proof.
  intros [E|(s'&_&E)] Hs Hw; right; exists s; (split; [done|]); rewrite Hw, E; [done|].
  apply map_eq. intros k. destruct (decide (k = id)) as [->|]; [|by rewrite !lookup_alter_ne].
  rewrite !lookup_alter_eq. by destruct (t_vms (w_db w) !! id).
Qed.

Lemma status_step vm_id status o w w' r :
  sqlx_q (Vms.update_status to_rfc3339 vm_id status) o w = (w', r) ->
  restatus vm_id [status] w w' /\ log_grows w w'.
Proof.
  intros Hs. pose proof (steps_lift_err from_sqlx _ (update_status_restatus to_rfc3339 vm_id status) o w) as R.
  pose proof (steps_lift_err from_sqlx _ (update_status_log_grows to_rfc3339 vm_id status) o w) as G.
  by rewrite Hs in R, G.
Qed.

Lemma restatus_same_db id S w w' : w_db w' = w_db w -> restatus id S w w'.
Proof. intros D. left. by rewrite D. Qed.

(** After the node accepted. *)
Lemma restored_outcome vm_id o w0 w w' r host call :
  restatus vm_id [Pending; Unknown] w0 w -> logged w0 w (accepted host call) ->
  (sqlx_q (Vms.update_status to_rfc3339 vm_id Running) ≫= fun _ => sqlx_q (Vms.get vm_id)) o w = (w', r) ->
  restatus vm_id [Pending; Unknown] w0 w' \/
  restatus vm_id [Running] w0 w' /\ logged w0 w' (accepted host call).
Proof.
  intros R0 Hlog Hrun.
  assert (exists w1, restatus vm_id [Running] w w1 /\ log_grows w w1 /\ same_but_step w1 w') as (w1&R1&G1&S1).
  { apply bind_cases in Hrun as [(e&_&Hs)|([]&w1&Hs&Hrun)]; apply status_step in Hs as [R1 G1].
    - by exists w'.
    - exists w1. split_and!; [done|done|]. by eapply reads_run, Hrun; apply steps_lift_err, vm_get_reads. }
  assert (t_vms (w_db w') = t_vms (w_db w1)) as T1 by (destruct S1 as (D&_&_); by rewrite D).
  destruct R1 as [E1|(s&->%list_elem_of_singleton&E1)].
  - left. etransitivity; [exact R0|]. left. congruence.
  - right. split; [eapply restatus_last; [exact R0|by left|congruence]|].
    eapply logged_grows_r; [exact Hlog|]. etransitivity; [exact G1|]. by apply same_but_step_grows.
Qed.

Definition restored (vm_id : Uuid) (w w' : World) : Prop :=
  restatus vm_id [Pending; Unknown] w w' \/
  restatus vm_id [Running] w w' /\ exists host url hypervisor,
    logged w w' (accepted host (RestoreVm vm_id url hypervisor)).

Lemma restore_on_node_outcome host vm_id vm sn o w w' r :
  restore_on_node to_rfc3339 host vm_id vm sn o w = (w', r) -> restored vm_id w w'.
Proof.
  unfold restore_on_node. intros Hrun.
  apply bind_cases in Hrun as [(e&_&Hs)|([]&w4&Hs&Hrun)]; apply status_step in Hs as [R4 G4].
  { left. by eapply restatus_subseteq, R4; set_solver. }
  assert (restatus vm_id [Pending; Unknown] w w4) as R4' by (eapply restatus_subseteq, R4; set_solver).
  apply (bind_reads _ _ _ _ _ _ (steps_lift_err _ _ (query_same_but_step _ _))) in Hrun
    as [[_ (D5&_&_)]|(so&w5&_&(D5&_&L5)&Hrun)]; [left; etransitivity; [exact R4'|by apply restatus_same_db]|].
  apply (bind_reads _ _ _ _ _ _ (steps_of_result _)) in Hrun
    as [[_ (D6&_&_)]|(url&w6&_&(D6&_&L6)&Hrun)];
    [left; etransitivity; [exact R4'|apply restatus_same_db; congruence]|].
  apply bind_cases in Hrun as [(e&_&Hr)|(r1&w7&Hr&Hrun)]; [discriminate|].
  assert (restatus vm_id [Pending; Unknown] w w7) as R7.
  { etransitivity; [exact R4'|]. apply restatus_same_db. unfold rpc in Hr. injection Hr as <- _. simpl. congruence. }
  case_bool_decide as Hok.
  - subst r1. apply rpc_logged in Hr. eapply restored_outcome in Hrun as [Ho|[Ho Hl]]; [by left| |exact R7|].
    + right. split; [exact Ho|]. by eexists _, _, _.
    + eapply logged_grows_l; [|exact Hr]. etransitivity; [exact G4|]. exists []. by rewrite app_nil_r, L6, L5.
  - left. apply bind_cases in Hrun as [(e&_&Hs)|(x&w8&Hs&Hrun)].
    { unfold attempt in Hs. by destruct (Vms.update_status _ _ _ _ _). }
    unfold throw in Hrun. injection Hrun as <- _.
    pose proof (steps_attempt (F := Error) _ (update_status_restatus to_rfc3339 vm_id Unknown) o w7) as R8.
    rewrite Hs in R8. etransitivity; [exact R7|]. eapply restatus_subseteq, R8. set_solver.
Qed.

Lemma restore_checks_reads vm_id snapshot_id : steps same_but_step (restore_checks vm_id snapshot_id).
Proof.
  unfold restore_checks. apply steps_bind; [apply steps_lift_err, vm_get_reads|]. intros vm.
  case_bool_decide; [apply steps_throw|]. apply steps_bind; [apply steps_lift_err, query_same_but_step|]. intros s.
  destruct (negb _); [apply steps_throw|]. destruct (negb _); [apply steps_throw|].
  apply steps_bind; [apply host_for_vm_reads|]. intros h. apply steps_ret.
Qed.

(** Whatever fails, a restore changes at most the status of its VM, and the VM is
    reported running only after its node accepted the snapshot. *)
Theorem restore_outcome vm_id snapshot_id o w :
  restored vm_id w (restore_vm_from_snapshot to_rfc3339 vm_id snapshot_id o w).1.
Proof.
  destruct (restore_vm_from_snapshot to_rfc3339 vm_id snapshot_id o w) as [w' r] eqn:Hrun. simpl.
  apply (bind_reads _ _ _ _ _ _ (restore_checks_reads vm_id snapshot_id)) in Hrun
    as [[_ (D&_&_)]|([[vm sn] host]&w1&_&(D1&_&L1)&Hrun)]; [left; by apply restatus_same_db|].
  apply restore_on_node_outcome in Hrun as [R|(R&h&u&hv&Hl)].
  - left. etransitivity; [by apply restatus_same_db|exact R].
  - right. split; [etransitivity; [by apply restatus_same_db|exact R]|]. exists h, u, hv.
    eapply logged_grows_l; [|exact Hl]. exists []. by rewrite app_nil_r.
Qed.
End snapshot_facts.

(** ** Deletion *)

Section delete_facts.
Context `{UuidText} `{PolicySerde}.
Variable to_rfc3339 : Z -> string.

Definition deletes_vm (e : Event) : Prop :=
  match e with EvRpc _ _ (DeleteVm _) _ => True | _ => False end.

Definition vms_hosts_log (w : World) := (t_vms (w_db w), t_hosts (w_db w), w_log w).

Lemma deallocate_quiet vm_id : steps (keeps vms_hosts_log) (deallocate_by_vm vm_id).
Proof. unfold deallocate_by_vm, deallocate. steps_tac. Qed.

Lemma delete_on_node_spec vm_id row o w w' :
  t_vms (w_db w) !! vm_id = Some row -> delete_on_node vm_id row o w = (w', Ok tt) ->
  w_db w' = w_db w /\ (v_status row ∈ [Created; Pending] -> w_log w' = w_log w) /\
  (forall hid host, v_status row ∉ [Created; Pending] -> served o -> v_host_id row = Some hid ->
     t_hosts (w_db w) !! hid = Some host ->
     exists r, w_log w' = w_log w ++ [EvRpc (h_address host) (as_u16 (h_port host)) (DeleteVm vm_id) r]).
Proof.
  intros Hrow Hrun. unfold delete_on_node in Hrun. case_bool_decide as Hs; [by injection Hrun as <-|].
  apply bind_ok_inv in Hrun as (h&w1&H1&Hrun). apply attempt_inv in H1 as (h'&[= ->]&H1).
  pose proof (reads_run _ _ _ _ _ (host_for_vm_reads _) H1) as (D1&_&L1).
  assert (w_db w' = w_db w1) as D.
  { destruct h'; [|by injection Hrun as <-]. apply bind_ok_inv in Hrun as (r&w2&H2&Hrun).
    injection Hrun as <-. unfold rpc in H2. by injection H2 as <- _. }
  split_and!; [congruence|done|]. intros hid host _ Ho Hhid Hh.
  assert (h' = Ok host) as ->.
  { unfold host_for_vm, Vms.get, get_by_id in H1. unfold mbind, M_bind, lift_err in H1.
    rewrite !query_served in H1 by done. simpl in H1. rewrite Hrow in H1. simpl in H1. rewrite Hhid in H1.
    simpl in H1. rewrite query_served in H1 by done. simpl in H1. rewrite Hh in H1. by injection H1 as _ <-. }
  apply bind_ok_inv in Hrun as (r&w2&H2&Hrun). injection Hrun as <-. unfold rpc in H2. injection H2 as <- _.
  eexists. simpl. by rewrite L1.
Qed.

Lemma keep_without {K A} `{Countable K} (p : A -> bool) (t : gmap K A) k a :
  keep (fun a => negb (p a)) t !! k = Some a -> p a = false.
Proof. unfold keep. rewrite map_lookup_filter_Some. intros [_ Hp]. by apply negb_true_iff. Qed.

(** Deleting a VM removes its row and everything that refers to it.  The node is
    asked to delete the VM only when its status is neither Created nor Pending:
    a VM whose start is under way, or was started before, is not. *)
Theorem delete_effect vm_id o w w' :
  delete to_rfc3339 vm_id o w = (w', Ok tt) ->
  exists row, t_vms (w_db w) !! vm_id = Some row /\
    t_vms (w_db w') = base.delete vm_id (t_vms (w_db w)) /\
    (forall k d, t_vm_disks (w_db w') !! k = Some d -> vd_vm_id d <> vm_id) /\
    (forall k n, t_network_interfaces (w_db w') !! k = Some n -> ni_vm_id n <> vm_id) /\
    (forall k a, t_ip_allocations (w_db w') !! k = Some a -> ipa_vm_id a <> Some vm_id) /\
    (forall k g, t_host_gpus (w_db w') !! k = Some g -> g_vm_id g <> Some vm_id) /\
    (v_status row ∈ [Created; Pending] -> w_log w' = w_log w) /\
    (forall hid host, v_status row ∉ [Created; Pending] -> served o -> v_host_id row = Some hid ->
       t_hosts (w_db w) !! hid = Some host ->
       exists r, w_log w' = w_log w ++ [EvRpc (h_address host) (as_u16 (h_port host)) (DeleteVm vm_id) r]).
Proof.
  intros Hrun. unfold delete in Hrun. apply bind_ok_inv in Hrun as (vm&w1&H1&Hrun).
  apply lift_err_ok_inv, query_ok_inv in H1 as [H1 ->]. simpl in H1.
  destruct (t_vms (w_db w) !! vm_id) as [row|] eqn:Hrow; [|discriminate]. injection H1 as <-.
  cbn [vm_row vm_from_row] in Hrun. cbv zeta in Hrun.
  apply bind_ok_inv in Hrun as (g&w2&H2&Hrun). apply attempt_inv in H2 as (g'&_&H2).
  pose proof (deallocate_quiet vm_id o (tick w)) as Q2. rewrite H2 in Q2. injection Q2 as T2 Th2 L2.
  simpl in T2, Th2, L2.
  apply bind_ok_inv in Hrun as ([]&w3&H3&Hrun). apply delete_on_node_spec in H3 as (D3&Hq&Hn); [|congruence].
  apply bind_ok_inv in Hrun as (e&w4&H4&Hrun). apply attempt_inv in H4 as (e'&_&H4).
  pose proof (enqueue_matching_frame to_rfc3339 vms_hosts_log row (vm_status_to_string (v_status row)) "deleted"
    ltac:(done) ltac:(done) o w3) as Q4. rewrite H4 in Q4. injection Q4 as T4 Th4 L4.
  apply lift_err_ok_inv, execute_ok_inv in Hrun as (db&[= <-]&->). exists row. simpl. split_and!.
  - done.
  - by rewrite T4, D3, T2.
  - intros k d Hd%keep_without. by apply bool_decide_eq_false in Hd.
  - intros k d Hd%keep_without. by apply bool_decide_eq_false in Hd.
  - intros k d Hd%keep_without. by apply bool_decide_eq_false in Hd.
  - intros k gpu Hg. rewrite lookup_fmap in Hg. apply fmap_Some in Hg as (g0&_&->). simpl.
    case_bool_decide; [done|]. congruence.
  - intros Hs. simpl in L4. rewrite L4, (Hq Hs). exact L2.
  - intros hid host Hs Ho Hhid Hh. simpl in L4. rewrite L4, <- L2. eapply Hn; eauto. by rewrite Th2.
Qed.
End delete_facts.

(** ** Runs *)

Section runs.
#[local] Instance ops_uuid_text : UuidText := binary_uuid_text.
#[local] Instance ops_serde : PolicySerde := array_policy_serde.
#[local] Instance ops_collation : Collation := encoding_collation.
#[local] Instance ops_cidr : CidrOrder := encoding_cidr_order.

(** A running VM of 1 GiB that may grow by 128 MiB, on a host with 16 GiB. *)
Definition growing_vm : VmRow :=
  {| v_id := 1; v_name := "web"; v_tags := []; v_host_id := Some 2%N; v_status := Running;
     v_hypervisor := CloudHv; v_boot_source_id := None; v_boot_mode := Kernel; v_description := None;
     v_boot_vcpus := 2; v_max_vcpus := 4; v_cpu_topology := None; v_kvm_hyperv := false;
     v_memory_size := 2 ^ 30; v_memory_hotplug_size := Some HOTPLUG_MEMORY_INCREMENT_BYTES;
     v_memory_mergeable := false; v_memory_shared := false; v_memory_hugepages := false;
     v_memory_hugepage_size := None; v_memory_prefault := false; v_memory_thp := false;
     v_image_ref := None; v_cloud_init_user_data := None; v_cloud_init_meta_data := None;
     v_cloud_init_network_config := None; v_config := JNull |}.
Definition growing_db : Db :=
  with_vms (fun _ => {[1%N := growing_vm]})
    (with_hosts (fun _ => {[2%N := sample_host 2 "h2" "10.0.0.2" HostUp 8 (2 ^ 34) (2 ^ 40)]}) empty_db).

Definition grow_to (ram : Z) : VmResizeRequest :=
  {| rs_desired_vcpus := None; rs_desired_ram := Some ram |}.
Definition grow (ram : Z) (w : World) : World * result Error Vm :=
  resize_vm default_scheduling 1 (grow_to ram) calm_oracle w.

(** The upper bound of a resize is computed from the size the last resize
    stored: a VM that was created with room for 128 MiB more can be grown by
    256 MiB in two requests, while one request for as much is refused. *)
Theorem resize_range_creeps :
  let limit := v_memory_size growing_vm + HOTPLUG_MEMORY_INCREMENT_BYTES in
  let beyond := limit + HOTPLUG_MEMORY_INCREMENT_BYTES in
  is_ok (grow beyond (world_of growing_db)).2 = false /\
  is_ok (grow limit (world_of growing_db)).2 = true /\
  is_ok (grow beyond (grow limit (world_of growing_db)).1).2 = true.
Proof. cbv zeta. split_and!; vm_compute; reflexivity. Qed.

(** Ratios 1.5 and 1.1, and seven CPUs: the product is not a double. *)
Definition fractional_scheduling : SchedulingSettings :=
  {| ss_memory_oversubscription_ratio := S754_finite false 6755399441055744 (-52);
     ss_cpu_oversubscription_ratio := S754_finite false 4953959590107546 (-52);
     ss_disk_headroom_bytes := 0; ss_memory_health_floor_bytes := 0 |}.
Definition seven_cpus_db : Db :=
  with_hosts (fun _ => {[2%N := sample_host 2 "h2" "10.0.0.2" HostUp 7 (2 ^ 34) (2 ^ 40)]}) growing_db.
Definition grown_world : World :=
  (resize_vm fractional_scheduling 1 (grow_to (2 ^ 30 + HOTPLUG_MEMORY_INCREMENT_BYTES)) calm_oracle
    (world_of seven_cpus_db)).1.

Lemma resize_keeps_budgets_witness :
  within_budgets fractional_scheduling (w_db grown_world) 2 /\ allocated v_memory_size 2 (w_db grown_world) = 2 ^ 30 + 2 ^ 27.
Proof.
  split; [|vm_compute; reflexivity].
  destruct (resize_vm fractional_scheduling 1 (grow_to (2 ^ 30 + HOTPLUG_MEMORY_INCREMENT_BYTES)) calm_oracle
    (world_of seven_cpus_db)) as [w' r] eqn:E. unfold grown_world. rewrite E. cbn [fst].
  destruct r as [vm|]; [|vm_compute in E; discriminate].
  assert (w_db w' = w_db grown_world) as D by (unfold grown_world; by rewrite E).
  destruct (resize_keeps_budgets fractional_scheduling 1 (grow_to (2 ^ 30 + HOTPLUG_MEMORY_INCREMENT_BYTES))
    calm_oracle (world_of seven_cpus_db) w' vm) as (row&k&_&Hrow&_&Hk&_&_&_&Hb&_); [reflexivity|reflexivity| |exact E|].
  - rewrite D. intros k h Hk. assert (t_hosts (w_db grown_world) = t_hosts seven_cpus_db) as Ht by (vm_compute; reflexivity).
    rewrite Ht in Hk. simpl in Hk. apply lookup_singleton_Some in Hk as [<- <-].
    split_and!; [done|split; vm_compute; [discriminate|done]..| |]; intros total [= <-]; done.
  - assert (row = growing_vm) as -> by (vm_compute in Hrow; by injection Hrow). injection Hk as <-. exact Hb.
Defined.

(** A VM that ran before is started and deleted while its start task waits. *)
Definition restarted_world : World :=
  (start_vm_internal no_text no_text no_numa plain_defaults 1 calm_oracle (world_of (placed_db Shutdown))).1.
Definition deleted_world : World := (delete no_text 1 calm_oracle restarted_world).1.

(** Deleting a VM while its start is pending never tells the node: the row is
    gone, the start task gives up, and the VM that the node still holds is not
    deleted by anyone. *)
Theorem delete_during_start_leaks :
  exists t, w_log restarted_world = w_log (world_of (placed_db Shutdown)) ++
      [EvVmStatus 1 "web" Shutdown Pending (Some 2%N) []; EvSpawn t] /\
    let w := (run_start_task no_text no_text (fun _ _ => EmptyString) None t calm_oracle deleted_world).1 in
    t_vms (w_db w) !! 1%N = None /\ Forall (fun e => ~ deletes_vm e) (w_log w).
Proof.
  eexists. split; [vm_compute; reflexivity|]. cbv zeta. split; [vm_compute; reflexivity|].
  vm_compute. repeat constructor; by intros [].
Qed.

Lemma delete_effect_witness :
  t_vms (w_db (delete no_text 1 calm_oracle (world_of (placed_db Running))).1) !! 1%N = None.
Proof.
  destruct (delete_effect no_text 1 calm_oracle (world_of (placed_db Running))
    (delete no_text 1 calm_oracle (world_of (placed_db Running))).1) as (row&_&Ht&_); [vm_compute; reflexivity|].
  rewrite Ht. apply lookup_delete_eq.
Defined.

(** A stopped VM with a ready snapshot. *)
Definition snapshot_db : Db :=
  with_vm_snapshots (fun _ => {[80%N := {| sn_id := 80; sn_vm_id := 1; sn_storage_object_id := 61;
    sn_name := "before"; sn_status := SnReady; sn_created_at := 0 |}]}) (placed_db Shutdown).

(** A restore that fails between the claim and the call to the node, here
    because the object of the snapshot has no path, leaves the VM Pending: neither
    a start nor another restore accepts it. *)
Theorem restore_strands_pending :
  let run := restore_vm_from_snapshot no_text 1 80 calm_oracle (world_of snapshot_db) in
  run.2 = Err InternalServerError /\ v_status <$> t_vms (w_db run.1) !! 1%N = Some Pending /\
  is_ok (start_vm_internal no_text no_text no_numa plain_defaults 1 calm_oracle run.1).2 = false /\
  is_ok (restore_vm_from_snapshot no_text 1 80 calm_oracle run.1).2 = false.
Proof. cbv zeta. split_and!; vm_compute; reflexivity. Qed.

Definition nightly : CreateSnapshotRequest := {| cs_name := Some "nightly"%string; cs_storage_pool_id := None |}.
Definition pooled_db : Db :=
  with_storage_pools (fun _ => {[71%N := StorageObjects.sample_pool 71 Nfs 1000 0]}) (placed_db Running).
Definition snapshot_world : World := (create_vm_snapshot 1 nightly calm_oracle (world_of pooled_db)).1.

Lemma snapshot_taken_witness :
  exists s, sn_status s = SnReady /\ length (w_log snapshot_world) = 3%nat.
Proof.
  destruct (create_vm_snapshot 1 nightly calm_oracle (world_of pooled_db)) as [w' [s|e]] eqn:E;
    [|vm_compute in E; discriminate].
  destruct (snapshot_taken 1 nightly calm_oracle (world_of pooled_db) w' s E) as (h&u&i&_&Hs&Hl).
  exists s. split; [exact Hs|]. unfold snapshot_world. rewrite E. cbn [fst]. rewrite Hl. reflexivity.
Defined.
End runs.
