(* ===== verification/Backups.v ===== *)
(** * Backups: backups of VMs and of the database

    [qarax/src/handlers/backup/handler.rs].  A VM backup is a snapshot taken by a node, a
    database backup a dump the control plane writes with [pg_dump].  The state adds to the
    world the files of the control plane that hold dumps, with the tables a dump
    contains ([None] when it was not finished), and the maintenance switch.  A second
    oracle ends the commands.

    A restore of the database puts back every table as it was when the dump was taken,
    the record of the backup itself excluded, because it is written afterwards; a
    deletion removes the data first and the record only when all reachable hosts have
    confirmed. *)

From S2P Require Import Prelude Text Common Errors Tables Float64 NodeApi World Samples VmConfig.
From S2P Require Import Hooks Vms Jobs Storage Gpus Hosts StorageObjects Scheduler Networks.
From S2P Require Import Devices Catalog SecurityGroups NetworkPolicy CreateRequest VmLifecycle VmCreate Hotplug VmOps.
#[local] Open Scope Z_scope.
#[local] Set Default Proof Using "Type".

(** ** State *)

Record CreateBackupRequest := {
  cb_name : option string; cb_storage_pool_id : option Uuid; cb_backup_type : BackupType; cb_vm_id : option Uuid
}.
Record RestoreBackupResponse := {
  rb_backup_id : Uuid; rb_backup_type : BackupType; rb_vm_id : option Uuid; rb_database_name : option string
}.

Record Plane := {
  pl_world : World;
  pl_dumps : gmap string (option Db);
  pl_maintenance : bool
}.
(** In step [n]: whether a file operation succeeds, how [pg_dump] ends ([Some false]: it
    failed and left a file), the size of a file, the error of the statement that ends
    the sessions, whether [pg_restore] succeeds. *)
Record PlaneOracle := {
  po_world : Oracle; po_io : nat -> bool; po_dump : nat -> option bool; po_size : nat -> option Z;
  po_sessions : nat -> option SqlxError; po_restore : nat -> bool
}.

Definition Bk (A : Type) : Type := PlaneOracle -> Plane -> Plane * result Error A.
#[global] Instance Bk_ret : MRet Bk := fun A x o p => (p, Ok x).
#[global] Instance Bk_bind : MBind Bk := fun A B f m o p =>
  match m o p with
  | (p', Ok x) => f x o p'
  | (p', Err e) => (p', Err e)
  end.
Definition bk_throw {A} (e : Error) : Bk A := fun o p => (p, Err e).
Definition bk_try {A} (m : Bk A) : Bk (result Error A) := fun o p => let '(p', r) := m o p in (p', Ok r).
Definition bk_of {A} (r : result Error A) : Bk A := fun o p => (p, r).
(** A computation on the world. *)
Definition on_world {A} (m : M Error A) : Bk A := fun o p =>
  let '(w, r) := m (po_world o) (pl_world p) in
  ({| pl_world := w; pl_dumps := pl_dumps p; pl_maintenance := pl_maintenance p |}, r).
Definition bk_ask {A} (f : PlaneOracle -> nat -> A) : Bk A := fun o p =>
  ({| pl_world := tick (pl_world p); pl_dumps := pl_dumps p; pl_maintenance := pl_maintenance p |},
   Ok (f o (w_step (pl_world p)))).
Definition set_dumps (f : gmap string (option Db) -> gmap string (option Db)) : Bk unit := fun o p =>
  ({| pl_world := pl_world p; pl_dumps := f (pl_dumps p); pl_maintenance := pl_maintenance p |}, Ok tt).
Definition bk_get {A} (f : Plane -> A) : Bk A := fun o p => (p, Ok (f p)).
Definition set_tables (db : Db) : Bk unit := fun o p =>
  ({| pl_world := set_db db (pl_world p); pl_dumps := pl_dumps p; pl_maintenance := pl_maintenance p |}, Ok tt).
Definition set_maintenance_mode (on : bool) (p : Plane) : Plane :=
  {| pl_world := pl_world p; pl_dumps := pl_dumps p; pl_maintenance := on |}.
(** The body runs with the switch on; dropping the guard switches it off. *)
Definition with_maintenance {A} (m : Bk A) : Bk A := fun o p =>
  let '(p', r) := m o (set_maintenance_mode true p) in (set_maintenance_mode false p', r).

Section handlers.
Context `{UuidText} `{PolicySerde} {coll : Collation}.
Variable to_rfc3339 : Z -> string.
Variable database_name : string.

(** ** Dumps *)

Definition database_backup_name (name : option string) : M Error string :=
  match name with
  | Some name => mret name
  | None => u ← new_uuid; mret ("database-backup-" +:+ String.substring 0 8 (uuid_to_string u))%string
  end.

Definition resolve_database_backup_pool (preferred : option Uuid) : M Error Uuid :=
  pool ← sqlx_q (pick_active_local_pool preferred);
  of_result (ok_or (UnprocessableEntity "no suitable local storage pool available for database backup") pool).

Definition run_pg_dump (dump_path : string) : Bk Z :=
  dir ← bk_ask po_io;
  if dir : bool then
    ended ← bk_ask po_dump;
    match ended with
    | Some true =>
        tables ← bk_get (fun p => w_db (pl_world p));
        _ ← set_dumps (insert dump_path (Some tables));
        size ← bk_ask po_size;
        bk_of (ok_or InternalServerError size)
    | Some false => _ ← set_dumps (insert dump_path None); bk_throw InternalServerError
    | None => bk_throw InternalServerError
    end
  else bk_throw InternalServerError.

Definition cleanup_dump_file (dump_path : string) : Bk unit :=
  ok ← bk_ask po_io;
  if ok : bool then set_dumps (base.delete dump_path) else mret tt.

Definition terminate_database_sessions : Bk unit :=
  e ← bk_ask po_sessions;
  match e with Some e => bk_throw (Sqlx e) | None => mret tt end.

(** [--single-transaction]: all of it or nothing. *)
Definition run_pg_restore (dump_path : string) : Bk unit :=
  ok ← bk_ask po_restore;
  dump ← bk_get (fun p => pl_dumps p !! dump_path);
  match dump with
  | Some (Some tables) => if ok : bool then set_tables tables else bk_throw InternalServerError
  | _ => bk_throw InternalServerError
  end.

(** ** Creation *)

Definition dump_object (name : string) (pool_id : Uuid) (size_bytes : Z) (dump_path : string) : NewStorageObject :=
  {| no_name := name; no_storage_pool_id := Some pool_id; no_object_type := DatabaseBackup;
     no_size_bytes := size_bytes; no_config := JObject {["path"%string := JString dump_path]}; no_parent_id := None |}.

(** What fails after the dump was started removes the file. *)
Definition or_cleanup {A} (dump_path : string) (m : Bk A) : Bk A :=
  r ← bk_try m;
  match r with
  | Ok x => mret x
  | Err e => _ ← cleanup_dump_file dump_path; bk_throw e
  end.

Definition plan_dump (request : CreateBackupRequest) : M Error (Uuid * string * string) :=
  pool_id ← resolve_database_backup_pool (cb_storage_pool_id request);
  name ← database_backup_name (cb_name request);
  storage_pool ← sqlx_q (get_pool pool_id);
  base_path ← of_result (ok_or (UnprocessableEntity "selected storage pool is missing a writable local path")
                (json_get (sp_config storage_pool) "path" ≫= json_as_str));
  u ← new_uuid;
  mret (pool_id, name, base_path +:+ "/" +:+ uuid_to_string u +:+ ".dump")%string.

Definition create_database_backup (request : CreateBackupRequest) : Bk Backup :=
  '(pool_id, name, dump_path) ← on_world (plan_dump request);
  size_bytes ← or_cleanup dump_path (run_pg_dump dump_path);
  storage_object ← or_cleanup dump_path
    (on_world (sqlx_q (create_returning (dump_object name pool_id size_bytes dump_path))));
  on_world (sqlx_q (create_backup_row
    {| nbk_name := name; nbk_backup_type := BackupDatabase; nbk_status := BkReady; nbk_vm_id := None;
       nbk_snapshot_id := None; nbk_storage_object_id := so_id storage_object |})).

Definition create_backup (body : CreateBackupRequest) : Bk Backup :=
  match cb_backup_type body with
  | BackupVm =>
      on_world (
        vm_id ← of_result (ok_or (UnprocessableEntity "vm_id is required when backup_type is vm") (cb_vm_id body));
        snapshot ← create_vm_snapshot vm_id {| cs_name := cb_name body; cs_storage_pool_id := cb_storage_pool_id body |};
        record_ready_vm_backup snapshot)
  | BackupDatabase =>
      match cb_vm_id body with
      | Some _ => bk_throw (UnprocessableEntity "vm_id is not supported when backup_type is database")
      | None => create_database_backup body
      end
  end.

(** ** Restore *)

Definition restore_database (dump_path : string) : Bk unit :=
  with_maintenance (_ ← terminate_database_sessions; run_pg_restore dump_path).

Definition restore_backup (backup_id : Uuid) : Bk RestoreBackupResponse :=
  backup ← on_world (sqlx_q (get_backup backup_id));
  if negb (bool_decide (bk_status backup = BkReady)) then bk_throw (UnprocessableEntity "backup is not in ready state")
  else match bk_backup_type backup with
  | BackupVm =>
      vm_id ← bk_of (ok_or InternalServerError (bk_vm_id backup));
      snapshot_id ← bk_of (ok_or InternalServerError (bk_snapshot_id backup));
      _ ← on_world (restore_vm_from_snapshot to_rfc3339 vm_id snapshot_id);
      mret {| rb_backup_id := bk_id backup; rb_backup_type := bk_backup_type backup; rb_vm_id := Some vm_id;
              rb_database_name := None |}
  | BackupDatabase =>
      storage_object ← on_world (sqlx_q (get_object (bk_storage_object_id backup)));
      dump_path ← bk_of (ok_or InternalServerError (get_path_from_config (so_config storage_object)));
      _ ← restore_database dump_path;
      mret {| rb_backup_id := bk_id backup; rb_backup_type := bk_backup_type backup; rb_vm_id := None;
              rb_database_name := Some database_name |}
  end.

(** ** Deletion *)

(** [sort] and [dedup]. *)
Fixpoint dedup (l : list Uuid) : list Uuid :=
  match l with
  | [] => []
  | x :: l' =>
      match l' with
      | y :: _ => if bool_decide (x = y) then dedup l' else x :: dedup l'
      | [] => [x]
      end
  end.

Definition snapshot_hosts (backup : Backup) (storage_object : StorageObject) : M Error (list Uuid) :=
  host_ids ← sqlx_q (list_host_ids (so_storage_pool_id storage_object));
  vm_host ← (match bk_vm_id backup with
             | Some vm_id => vm ← sqlx_q (Vms.get vm_id); mret (v_host_id (vm_row vm))
             | None => mret None
             end);
  mret (dedup (merge_sort N.le (host_ids ++ match vm_host with Some h => [h] | None => [] end))).

(** The hosts that are up are asked, one after the other; the number of them. *)
Fixpoint delete_on_hosts (url : string) (host_ids : list Uuid) (reached : Z) : M Error Z :=
  match host_ids with
  | [] => mret reached
  | host_id :: host_ids' =>
      host ← require_by_id host_id;
      if negb (bool_decide (h_status host = HostUp)) then delete_on_hosts url host_ids' reached
      else
        r ← rpc host (DeleteSnapshot url);
        if bool_decide (r = RpcOk) then delete_on_hosts url host_ids' (reached + 1) else throw InternalServerError
  end.

Definition delete_vm_data (backup : Backup) (storage_object : StorageObject) (path : string) : M Error unit :=
  host_ids ← snapshot_hosts backup storage_object;
  reached ← delete_on_hosts ("file://" +:+ path) host_ids 0;
  if reached =? 0 then throw (UnprocessableEntity "no UP host can reach the backup's snapshot") else mret tt.

(** A dump that is missing counts as removed. *)
Definition delete_dump (path : string) : Bk unit :=
  ok ← bk_ask po_io;
  dump ← bk_get (fun p => pl_dumps p !! path);
  if ok : bool then set_dumps (base.delete path)
  else match dump with None => mret tt | Some _ => bk_throw InternalServerError end.

Definition delete_backup (backup_id : Uuid) : Bk unit :=
  backup ← on_world (sqlx_q (get_backup backup_id));
  if bool_decide (bk_status backup = BkCreating) then bk_throw (Conflict "backup is still being created")
  else
    storage_object ← on_world (sqlx_q (get_object (bk_storage_object_id backup)));
    _ ← match get_path_from_config (so_config storage_object) with
        | None => mret tt
        | Some path =>
            match bk_backup_type backup with
            | BackupVm => on_world (delete_vm_data backup storage_object path)
            | BackupDatabase => delete_dump path
            end
        end;
    on_world (sqlx_q (delete_object (so_id storage_object))).

Definition list_all_backups (name : option string) (backup_type : option BackupType) : Bk (list Backup) :=
  on_world (sqlx_q (list_backups name backup_type)).
End handlers.

(** ** Rules *)

Lemma bk_bind_inv {A B} (m : Bk A) (f : A -> Bk B) o p p' r :
  (m ≫= f) o p = (p', r) ->
  (exists e, m o p = (p', Err e) /\ r = Err e) \/ exists x p1, m o p = (p1, Ok x) /\ f x o p1 = (p', r).
Proof. unfold mbind, Bk_bind. destruct (m o p) as [p1 [x|e]]; [by eauto|]. intros [= <- <-]. eauto. Qed.
Lemma bk_bind_ok {A B} (m : Bk A) (f : A -> Bk B) o p p' y :
  (m ≫= f) o p = (p', Ok y) -> exists x p1, m o p = (p1, Ok x) /\ f x o p1 = (p', Ok y).
Proof. intros [(e&_&?)|Hx]%bk_bind_inv; [done|exact Hx]. Qed.
Lemma on_world_inv {A} (m : M Error A) o p p' r :
  on_world m o p = (p', r) ->
  m (po_world o) (pl_world p) = (pl_world p', r) /\ pl_dumps p' = pl_dumps p /\ pl_maintenance p' = pl_maintenance p.
Proof. unfold on_world. destruct (m _ _) as [w x]. by intros [= <- <-]. Qed.

(** Only the dumps of the control plane may change. *)
Definition plane_db (p : Plane) : Db := w_db (pl_world p).
Lemma or_cleanup_ok {A} path (m : Bk A) o p p' x : or_cleanup path m o p = (p', Ok x) -> m o p = (p', Ok x).
Proof.
  unfold or_cleanup, bk_try, mbind, Bk_bind. destruct (m o p) as [p1 [y|e]]; [done|].
  destruct (cleanup_dump_file path o p1) as [p2 [?|?]]; done.
Qed.

Lemma run_pg_dump_ok path o p p' n :
  run_pg_dump path o p = (p', Ok n) ->
  plane_db p' = plane_db p /\ pl_dumps p' = <[path := Some (plane_db p)]> (pl_dumps p).
Proof.
  unfold run_pg_dump. intros (dir&p1&[= <- <-]&Hrun)%bk_bind_ok. destruct (po_io _ _); [|done].
  apply bk_bind_ok in Hrun as (e&p2&[= <- <-]&Hrun). destruct (po_dump _ _) as [[]|]; [|by apply bk_bind_ok in Hrun as (?&?&_&?)|done].
  apply bk_bind_ok in Hrun as (t&p3&[= <- <-]&Hrun). apply bk_bind_ok in Hrun as ([]&p4&[= <-]&Hrun).
  apply bk_bind_ok in Hrun as (size&p5&[= <- <-]&Hrun). injection Hrun as <- _. done.
Qed.

Section facts.
Context `{UuidText} `{PolicySerde} {coll : Collation}.

Lemma plan_dump_reads request : steps same_db (plan_dump request).
Proof.
  unfold plan_dump, resolve_database_backup_pool, database_backup_name, pick_active_local_pool, pick_preferring, any_pool, get_pool.
  assert (forall A c (f : Db -> result SqlxError A), steps same_db (query c f)) as Hq.
  { intros A c f. apply steps_query. exact same_db_tick. }
  repeat first
    [ apply steps_bind; [|intros ?] | apply steps_lift_err | apply Hq | apply steps_ret | apply steps_of_result
    | (apply steps_new_uuid; exact same_db_tick)
    | match goal with |- steps _ (match ?x with _ => _ end) => destruct x end ].
Qed.

(** The object of a dump keeps the path it was given. *)
Lemma dump_config name pool_id size path pool id :
  derive_config (dump_object name pool_id size path) pool id = mret (JObject {["path"%string := JString path]}).
Proof.
  assert (absent (JObject {["path"%string := JString path]}) "path" = false) as Ha.
  { unfold absent, json_get. by rewrite lookup_singleton_eq. }
  unfold derive_config. cbn [dump_object no_config no_object_type]. rewrite Ha. done.
Qed.
Lemma insert_object_stored r db db' : insert_object_row r db = Ok db' -> t_storage_objects db' !! so_id r = Some r.
Proof.
  unfold insert_object_row. intros ([]&_&Hrun)%result_bind_ok. apply result_bind_ok in Hrun as (objects&Hins&Hadj).
  unfold insert_pk in Hins. destruct (_ !! _); [done|]. injection Hins as <-.
  apply adjust_inv in Hadj as (sp&n&_&_&_&_&->). cbn. by rewrite lookup_insert_eq.
Qed.
Lemma dump_object_stored name pool_id size path o w w' so :
  create_returning (dump_object name pool_id size path) o w = (w', Ok so) ->
  get_path_from_config (so_config so) = Some path /\ t_storage_objects (w_db w') !! so_id so = Some so.
Proof.
  unfold create_returning, insert_object, resolve_new_object. intros Hrun.
  apply bind_ok_inv in Hrun as ([[id pool] config]&w1&Hres&Hrun).
  apply bind_ok_inv in Hres as (pool'&w2&Hp&Hres). apply bind_ok_inv in Hres as (id'&w3&Hid&Hres).
  apply bind_ok_inv in Hres as (config'&w4&Hc&Hres). rewrite dump_config in Hc. injection Hc as <- <-.
  injection Hres as <- <- <- <-. apply bind_ok_inv in Hrun as ([]&w5&He&Hrun). injection Hrun as <- <-.
  apply execute_ok_inv in He as (db&Hrow&->). split.
  - cbn. unfold get_path_from_config, json_get. cbn. by rewrite lookup_singleton_eq.
  - unfold unit_result in Hrow. apply result_bind_ok in Hrow as (db'&Hrow&[= <-]). cbn.
    by apply (insert_object_stored _ _ _ Hrow).
Qed.

Lemma create_backup_row_stored new o w w' b :
  create_backup_row new o w = (w', Ok b) ->
  bk_backup_type b = nbk_backup_type new /\ bk_status b = nbk_status new /\
  bk_storage_object_id b = nbk_storage_object_id new /\
  t_storage_objects (w_db w') = t_storage_objects (w_db w).
Proof.
  unfold create_backup_row. intros Hrun. minv. destruct (negb _); [done|].
  match goal with Hx : (_ ≫= _) = Ok _ |- _ => apply result_bind_ok in Hx as (backups&Hins&Hx); rename Hx into Hrow end.
  destruct (existsb _ _); [done|]. destruct (existsb _ _); [done|].
  apply result_bind_ok in Hrow as ([]&_&[= <- <-]). done.
Qed.

Section database.
Variables (to_rfc3339 : Z -> string) (database_name : string).

Lemma database_backup_spec request o p p1 b :
  create_database_backup request o p = (p1, Ok b) ->
  exists path so, bk_backup_type b = BackupDatabase /\ bk_status b = BkReady /\
    t_storage_objects (plane_db p1) !! bk_storage_object_id b = Some so /\
    get_path_from_config (so_config so) = Some path /\ pl_dumps p1 !! path = Some (Some (plane_db p)).
Proof.
  unfold create_database_backup. intros ([[pool name] path]&p2&Hplan&Hrun)%bk_bind_ok.
  apply on_world_inv in Hplan as (Hplan&Hd&_). pose proof (plan_dump_reads request (po_world o) (pl_world p)) as Hdb.
  rewrite Hplan in Hdb. unfold same_db in Hdb. cbn in Hdb.
  apply bk_bind_ok in Hrun as (size&p3&Hdump%or_cleanup_ok%run_pg_dump_ok&Hrun). destruct Hdump as [Hdb3 Hd3].
  apply bk_bind_ok in Hrun as (so&p4&Hobj%or_cleanup_ok%on_world_inv&Hrun). destruct Hobj as (Hobj&Hd4&_).
  apply lift_err_ok_inv, dump_object_stored in Hobj as [Hpath Hso].
  apply on_world_inv in Hrun as (Hrow&Hd5&_). apply lift_err_ok_inv, create_backup_row_stored in Hrow as (Ht&Hs&Ho&Hobjs).
  exists path, so. unfold plane_db in *. rewrite Hobjs, Ho. split_and!; [done..|].
  by rewrite Hd5, Hd4, Hd3, lookup_insert_eq, Hdb.
Qed.

Lemma restore_database_spec path o q q' r :
  restore_database path o q = (q', r) ->
  pl_maintenance q' = false /\ pl_dumps q' = pl_dumps q /\
  match r with
  | Ok _ => pl_dumps q !! path = Some (Some (plane_db q'))
  | Err _ => plane_db q' = plane_db q
  end.
Proof.
  unfold restore_database, with_maintenance, terminate_database_sessions, run_pg_restore, mbind, Bk_bind, bk_ask, bk_get. simpl.
  destruct (po_sessions _ _); simpl; [by intros [= <- <-]|].
  destruct (pl_dumps q !! path) as [[db|]|] eqn:Ed; [destruct (po_restore _ _)|..]; simpl; intros [= <- <-]; done.
Qed.

(** C21. A database backup can be restored: whatever happened to the tables after the backup
    was taken, as long as the dump and the rows that lead to it are there, a restore puts
    back every table exactly as it was when the backup was requested, and leaves the
    maintenance mode.  A restore that fails changes no table. *)
Theorem restore_returns_to_backup request o p p1 b o' q q' r :
  create_database_backup request o p = (p1, Ok b) ->
  (forall path d, pl_dumps p1 !! path = Some d -> pl_dumps q !! path = Some d) ->
  t_backups (plane_db q) !! bk_id b = Some b ->
  t_storage_objects (plane_db q) !! bk_storage_object_id b = t_storage_objects (plane_db p1) !! bk_storage_object_id b ->
  restore_backup to_rfc3339 database_name (bk_id b) o' q = (q', r) ->
  match r with
  | Ok _ => plane_db q' = plane_db p /\ pl_maintenance q' = false
  | Err _ => plane_db q' = plane_db q
  end.
Proof.
  intros (path&so&Ht&Hs&Hso&Hpath&Hdump)%database_backup_spec Hd Hb Hobj.
  rewrite Hso in Hobj. apply Hd in Hdump. unfold restore_backup.
  assert (forall A c (f : Db -> result SqlxError A) q0 q1 r0, on_world (sqlx_q (query c f)) o' q0 = (q1, r0) ->
    plane_db q1 = plane_db q0 /\ pl_dumps q1 = pl_dumps q0 /\ (r0 = map_err from_sqlx (f (conn_db c (pl_world q0))) \/ is_ok r0 = false)) as Hq.
  { intros A c f q0 q1 r0 (Hrun&Hd0&_)%on_world_inv. unfold lift_err, query in Hrun.
    destruct (o_sql _ _); injection Hrun as Hw Hr; unfold plane_db; rewrite <-Hw, <-Hr; auto. }
  intros [(e&Hrun%Hq&->)|(b'&q1&Hrun%Hq&Hrest)]%bk_bind_inv; [by destruct Hrun|].
  destruct Hrun as (D1&F1&[Hr|Hr]); [|done]. cbn in Hr. fold (plane_db q) in Hr. rewrite Hb in Hr. injection Hr as ->.
  rewrite Hs, Ht in Hrest. cbn in Hrest.
  apply bk_bind_inv in Hrest as [(e&Hrun%Hq&->)|(so'&q2&Hrun%Hq&Hrest)]; [by rewrite (proj1 Hrun)|].
  destruct Hrun as (D2&F2&[Hr|Hr]); [|done]. cbn in Hr. fold (plane_db q1) in Hr. rewrite D1, Hobj in Hr. injection Hr as ->.
  rewrite Hpath in Hrest. apply bk_bind_inv in Hrest as [(e&[=]&_)|(path'&q3&[= <- <-]&Hrest)].
  apply bk_bind_inv in Hrest as [(e&(Hm&Hf&Hr)%restore_database_spec&->)|([]&q4&(Hm&Hf&Hr)%restore_database_spec&[= <- <-])].
  - by rewrite Hr, D2, D1.
  - split; [|done]. rewrite F2, F1, Hdump in Hr. by injection Hr as <-.
Qed.
End database.
End facts.

(** ** Deletion *)

Lemma elem_of_dedup x l : x ∈ dedup l <-> x ∈ l.
Proof.
  induction l as [|y l IH]; [done|]. destruct l as [|z l]; [done|].
  change (dedup (y :: z :: l)) with (if bool_decide (y = z) then dedup (z :: l) else y :: dedup (z :: l)).
  case_bool_decide as E; [subst; rewrite IH|rewrite elem_of_cons, IH]; rewrite !elem_of_cons; tauto.
Qed.

Lemma delete_object_gone id t db db' so :
  t_storage_objects db !! id = Some so -> delete_object_row id t db = Ok db' ->
  t_storage_objects db' !! id = None /\
  forall k b, t_backups db' !! k = Some b -> t_backups db !! k = Some b /\ bk_storage_object_id b <> id.
Proof.
  intros Hso. unfold delete_object_row. rewrite Hso. intros ([]&_&Hrun)%result_bind_ok.
  apply result_bind_ok in Hrun as (db1&(sp&n&_&_&_&_&->)%adjust_inv&Hrun).
  assert (t_storage_objects db' = base.delete id (t_storage_objects db) /\
          t_backups db' = t_backups (object_cascade id (with_storage_objects (base.delete id) db))) as [-> ->].
  { unfold queue_storage_cleanup in Hrun. destruct (so_managed_host_ids so) as [managed|]; [|by injection Hrun as <-].
    apply result_bind_ok in Hrun as (cleanups&_&Hrun). destruct (t_storage_pools _ !! _) as [sp'|]; [|by injection Hrun as <-].
    destruct (sp_allocated_bytes sp'); [|done]. by apply store_allocated_inv in Hrun as [_ ->]. }
  split; [by rewrite lookup_delete_eq|]. intros k b. cbn. rewrite lookup_keep. intros [Hk Hb]. split; [done|].
  apply negb_true_iff, orb_false_iff in Hb as [Hb _]. by apply bool_decide_eq_false in Hb.
Qed.

Section deletion.
Context `{UuidText} `{PolicySerde} {coll : Collation}.

Definition confirmed (w w' : World) (url : string) (host : Host) : Prop := logged w w' (accepted host (DeleteSnapshot url)).

(** What asking a list of hosts establishes, from [n] confirmations on. *)
Definition asked (url : string) (ids : list Uuid) (n : Z) (w w' : World) (r : result Error Z) : Prop :=
  w_db w' = w_db w /\ log_grows w w' /\
  forall m, r = Ok m -> n <= m /\ (n < m -> exists host, confirmed w w' url host) /\
    forall id host, id ∈ ids -> t_hosts (w_db w) !! id = Some host -> h_status host = HostUp -> confirmed w w' url host.

Lemma require_run id o w w1 r :
  require_by_id id o w = (w1, r) ->
  same_but_step w w1 /\ forall host, r = Ok host -> t_hosts (w_db w) !! id = Some host.
Proof.
  unfold require_by_id, mbind, M_bind, lift_err, get_by_id, query, of_result.
  destruct (o_sql _ _); simpl; [by intros [= <- <-]|]. destruct (_ !! id); simpl; intros [= <- <-]; split; try done.
  by intros host [= <-].
Qed.

Lemma asked_cons url id ids n n' host w w1 w' r :
  t_hosts (w_db w) !! id = Some host -> w_db w1 = w_db w -> log_grows w w1 -> n <= n' ->
  (n < n' \/ h_status host = HostUp -> confirmed w w1 url host) ->
  asked url ids n' w1 w' r -> asked url (id :: ids) n w w' r.
Proof.
  intros Hid D1 G1 Hn Hc (D2&G2&Hm). split_and!; [congruence|by etransitivity|].
  intros m ->. destruct (Hm m eq_refl) as (Hle&Hex&Hall). split_and!; [lia| |].
  - intros Hlt. destruct (decide (n < n')); [exists host; eapply logged_grows_r; [apply Hc; by left|done]|].
    destruct Hex as [x Hx]; [lia|]. exists x. by eapply logged_grows_l.
  - intros id' host' [->|Hin]%elem_of_cons Hh Hup.
    + rewrite Hid in Hh. injection Hh as <-. eapply logged_grows_r; [apply Hc; by right|done].
    + eapply logged_grows_l; [done|]. eapply Hall; [done| |done]. by rewrite D1.
Qed.

Lemma delete_on_hosts_spec url ids : forall n o w w' r,
  delete_on_hosts url ids n o w = (w', r) -> asked url ids n w w' r.
Proof.
  induction ids as [|id ids IH]; intros n o w w' r; cbn [delete_on_hosts].
  { intros [= <- <-]. split_and!; [done..|]. intros m [= <-]. split_and!; [lia|lia|]. by intros ? ? ?%not_elem_of_nil. }
  intros [(e&->&[Hw _]%require_run)|(host&w1&[Hw Hid]%require_run&Hrest)]%bind_cases.
  { split_and!; [apply Hw|by apply same_but_step_grows|done]. }
  specialize (Hid host eq_refl). pose proof (same_but_step_grows _ _ Hw) as Hg. destruct Hw as (D&_&_).
  case_bool_decide as Eup; cbn [negb] in Hrest.
  2: { eapply (asked_cons _ _ _ n n host w w1); [done..|lia| |by eapply IH]. intros [?|?]; [lia|congruence]. }
  apply bind_cases in Hrest as [(e&_&Hr)|(rep&w2&Hr&Hrest)]; [done|].
  assert (w_db w2 = w_db w1 /\ log_grows w1 w2) as [D2 G2].
  { injection Hr as <- _. split; [done|]. by eexists. }
  assert (log_grows w w2) as G by (by etransitivity). case_bool_decide as Eok.
  - subst rep. apply rpc_logged in Hr. eapply (asked_cons _ _ _ n (n + 1) host w w2); [done|congruence|done|lia| |by eapply IH].
    intros _. exact (logged_grows_l _ _ _ _ Hg Hr).
  - injection Hrest as <- <-. split_and!; [congruence|done|done].
Qed.

(** The hosts that may hold the snapshot: those of the pool and the one of the VM. *)
Definition candidate (db : Db) (backup : Backup) (so : StorageObject) (id : Uuid) : Prop :=
  (id, so_storage_pool_id so) ∈ t_host_storage_pools db \/
  exists vm_id row, bk_vm_id backup = Some vm_id /\ t_vms db !! vm_id = Some row /\ v_host_id (vm_row (vm_from_row row)) = Some id.

Lemma snapshot_hosts_spec backup so o w w' r :
  snapshot_hosts backup so o w = (w', r) ->
  same_but_step w w' /\ forall ids id, r = Ok ids -> candidate (w_db w) backup so id -> id ∈ ids.
Proof.
  unfold snapshot_hosts. intros Hrun.
  assert (forall A (f : Db -> result SqlxError A) w w1 r, (sqlx_q (query Pool f) : M Error A) o w = (w1, r) ->
    same_but_step w w1 /\ (r = map_err from_sqlx (f (w_db w)) \/ is_ok r = false)) as Hq.
  { intros A f w0 w1 r0. unfold lift_err, query. destruct (o_sql _ _); intros [= <- <-]; (split; [done|]); auto. }
  apply bind_cases in Hrun as [(e&->&Hl%Hq)|(ids&w1&Hl%Hq&Hrun)]; [by destruct Hl|].
  destruct Hl as [S1 [Hids|]]; [|done]. injection Hids as ->. assert (w_db w1 = w_db w) as D by apply S1.
  apply bind_cases in Hrun as [(e&->&Hv)|(vm_host&w2&Hv&Hrun)].
  { split; [|done]. etransitivity; [exact S1|]. destruct (bk_vm_id backup); [|done].
    apply bind_cases in Hv as [(e'&_&Hv%Hq)|(vm&w2&_&Hv)]; [apply Hv|done]. }
  injection Hrun as <- <-. destruct (bk_vm_id backup) as [vm_id|] eqn:Ev.
  - apply bind_cases in Hv as [(e'&?&_)|(vm&w3&Hg%Hq&[= <- <-])]; [done|]. destruct Hg as [S2 [Hvm|]]; [|done].
    split; [by etransitivity|]. intros ids id [= <-] Hc. apply elem_of_dedup. rewrite merge_sort_Permutation. apply elem_of_app.
    destruct Hc as [Hc|(vm_id'&row&Evm&Hrow&Hh)].
    + left. apply list_elem_of_omap. exists (id, so_storage_pool_id so). split; [by apply elem_of_elements|]. cbn.
      by rewrite decide_True.
    + right. rewrite Ev in Evm. injection Evm as <-. rewrite D, Hrow in Hvm. injection Hvm as ->. rewrite Hh. by left.
  - injection Hv as <- <-. split; [done|]. intros ids id [= <-] Hc. apply elem_of_dedup. rewrite merge_sort_Permutation. apply elem_of_app.
    destruct Hc as [Hc|(vm_id'&row&Evm&_)]; [|congruence].
    left. apply list_elem_of_omap. exists (id, so_storage_pool_id so). split; [by apply elem_of_elements|]. cbn. by rewrite decide_True.
Qed.

(** What has happened to the data of a backup when its record goes. *)
Definition data_gone (p p' : Plane) (backup : Backup) (so : StorageObject) : Prop :=
  match get_path_from_config (so_config so), bk_backup_type backup with
  | Some path, BackupDatabase =>
      pl_dumps p' !! path = None /\ forall other, other <> path -> pl_dumps p' !! other = pl_dumps p !! other
  | Some path, BackupVm =>
      (exists host, confirmed (pl_world p) (pl_world p') ("file://" +:+ path) host) /\
      forall id host, candidate (plane_db p) backup so id -> t_hosts (plane_db p) !! id = Some host ->
        h_status host = HostUp -> confirmed (pl_world p) (pl_world p') ("file://" +:+ path) host
  | None, _ => True
  end.

Lemma delete_vm_data_spec backup so path o w w' r :
  delete_vm_data backup so path o w = (w', r) ->
  w_db w' = w_db w /\ log_grows w w' /\
  (r = Ok tt -> (exists host, confirmed w w' ("file://" +:+ path) host) /\
     forall id host, candidate (w_db w) backup so id -> t_hosts (w_db w) !! id = Some host ->
       h_status host = HostUp -> confirmed w w' ("file://" +:+ path) host).
Proof.
  unfold delete_vm_data.
  intros [(e&->&[Hs _]%snapshot_hosts_spec)|(ids&w1&[Hs Hids]%snapshot_hosts_spec&Hrun)]%bind_cases.
  { split_and!; [apply Hs|by apply same_but_step_grows|done]. }
  pose proof (same_but_step_grows _ _ Hs) as G1. destruct Hs as (D1&_&_).
  apply bind_cases in Hrun as [(e&->&(D2&G2&_)%delete_on_hosts_spec)|(n&w2&(D2&G2&Hok)%delete_on_hosts_spec&Hrun)].
  { split_and!; [congruence|by etransitivity|done]. }
  assert (w' = w2 /\ (r = Ok tt -> n <> 0)) as [-> Hn].
  { destruct (Z.eqb_spec n 0); injection Hrun as <- <-; done. }
  split_and!; [congruence|by etransitivity|]. intros Hr. destruct (Hok n eq_refl) as (Hle&Hex&Hall). split.
  - destruct Hex as [host Hh]; [specialize (Hn Hr); lia|]. exists host. by eapply logged_grows_l.
  - intros id host Hc Hh Hup. eapply logged_grows_l; [exact G1|]. eapply Hall; [by eapply Hids| |done]. by rewrite D1.
Qed.

Lemma delete_dump_spec path o p p' r :
  delete_dump path o p = (p', r) ->
  plane_db p' = plane_db p /\ w_log (pl_world p') = w_log (pl_world p) /\
  (r = Ok tt -> pl_dumps p' !! path = None /\ forall other, other <> path -> pl_dumps p' !! other = pl_dumps p !! other).
Proof.
  unfold delete_dump, mbind, Bk_bind, bk_ask, bk_get. simpl. destruct (po_io _ _); simpl.
  - intros [= <- <-]. split_and!; [done..|]. intros _. simpl. split; [by rewrite lookup_delete_eq|].
    intros other Ho. by rewrite lookup_delete_ne.
  - destruct (pl_dumps p !! path) eqn:E; simpl; intros [= <- <-]; done.
Qed.

Lemma world_query {A} (f : Db -> result SqlxError A) o p p' r :
  on_world (sqlx_q (query Pool f)) o p = (p', r) ->
  same_but_step (pl_world p) (pl_world p') /\ pl_dumps p' = pl_dumps p /\
  forall x, r = Ok x -> f (plane_db p) = Ok x.
Proof.
  intros (Hrun&Hd&_)%on_world_inv. unfold lift_err, query in Hrun.
  destruct (o_sql _ _); injection Hrun as Hw Hr; rewrite <-Hw, <-Hr; (split_and!; [done..|]); [done|].
  intros x. unfold plane_db. cbn. by destruct (f _); intros [= ->].
Qed.

Lemma removal_spec backup so o p p' r :
  (match get_path_from_config (so_config so) with
   | None => mret tt
   | Some path => match bk_backup_type backup with
                  | BackupVm => on_world (delete_vm_data backup so path)
                  | BackupDatabase => delete_dump path
                  end
   end : Bk unit) o p = (p', r) ->
  plane_db p' = plane_db p /\ log_grows (pl_world p) (pl_world p') /\ (r = Ok tt -> data_gone p p' backup so).
Proof.
  unfold data_gone. destruct (get_path_from_config _) as [path|]; [|by intros [= <- <-]].
  destruct (bk_backup_type backup).
  - intros (Hrun&_)%on_world_inv. apply delete_vm_data_spec in Hrun as (D&G&Hok). by split_and!.
  - intros (D&L&Hok)%delete_dump_spec. split_and!; [done| |done]. exists []. by rewrite app_nil_r.
Qed.

(** Deleting a backup removes its data before its record.  When the call fails, for
    whatever reason, no table has changed, so that it can be repeated.  When it succeeds
    the record and its object are gone, and the data went before: the dump is removed and
    no other, or the snapshot was deleted on at least one host and on every host of the
    pool, and the host of the VM, that is up. *)
Theorem delete_backup_outcome backup_id o p p' r :
  (forall k so, t_storage_objects (plane_db p) !! k = Some so -> so_id so = k) ->
  delete_backup backup_id o p = (p', r) ->
  match r with
  | Err _ => plane_db p' = plane_db p
  | Ok _ => exists backup so, t_backups (plane_db p) !! backup_id = Some backup /\ bk_status backup <> BkCreating /\
      t_storage_objects (plane_db p) !! bk_storage_object_id backup = Some so /\
      t_backups (plane_db p') !! backup_id = None /\
      t_storage_objects (plane_db p') !! bk_storage_object_id backup = None /\
      data_gone p p' backup so
  end.
Proof.
  intros Hkeyed. unfold delete_backup.
  intros [(e&((D&_)&_)%world_query&->)|(b&p1&((D1&_&L1)&F1&Hb)%world_query&Hrun)]%bk_bind_inv; [done|].
  specialize (Hb b eq_refl). destruct (t_backups (plane_db p) !! backup_id) as [b'|] eqn:Eb; [|done]. injection Hb as ->.
  case_bool_decide as Est; [by injection Hrun as <- <-|].
  apply bk_bind_inv in Hrun as [(e&((D&_)&_)%world_query&->)|(so&p2&((D2&_&L2)&F2&Hso)%world_query&Hrun)];
    [unfold plane_db; congruence|].
  specialize (Hso so eq_refl). unfold plane_db in Hso. rewrite D1 in Hso. fold (plane_db p) in Hso.
  destruct (t_storage_objects (plane_db p) !! bk_storage_object_id b) as [so'|] eqn:Eso; [|done]. injection Hso as ->.
  assert (plane_db p2 = plane_db p) as D by (unfold plane_db; congruence).
  apply bk_bind_inv in Hrun as [(e&(D3&_)%removal_spec&->)|([]&p3&(D3&G3&Hgone)%removal_spec&Hrun)]; [congruence|].
  specialize (Hgone eq_refl). apply on_world_inv in Hrun as (Hrun&F4&_). unfold lift_err, delete_object in Hrun.
  rewrite (Hkeyed _ _ Eso) in Hrun. unfold mbind, M_bind, now in Hrun. unfold execute in Hrun. simpl in Hrun.
  destruct (o_sql _ _); [injection Hrun as Hw <-; unfold plane_db in *; rewrite <-Hw; cbn; congruence|].
  fold (plane_db p3) in Hrun. rewrite D3, D in Hrun. unfold unit_result in Hrun.
  destruct (delete_object_row _ _ (plane_db p)) as [db|] eqn:Ed; injection Hrun as Hw <-; [|by unfold plane_db in *; rewrite <-Hw; cbn; congruence].
  destruct (delete_object_gone _ _ _ _ _ Eso Ed) as [Hno Hbk]. exists b, so.
  assert (plane_db p' = db) as -> by (unfold plane_db; by rewrite <-Hw).
  split_and!; [done..| |done|].
  - destruct (t_backups db !! backup_id) as [b2|] eqn:E2; [|done]. apply Hbk in E2 as [E2 Hne]. congruence.
  - unfold data_gone in *. rewrite F4. unfold confirmed, candidate, plane_db in *.
    assert (w_log (pl_world p2) = w_log (pl_world p)) as L by congruence.
    assert (w_log (pl_world p') = w_log (pl_world p3)) as L' by (by rewrite <-Hw). unfold logged in *.
    rewrite L', <-L. rewrite D in Hgone. rewrite <-F1, <-F2. exact Hgone.
Qed.
End deletion.

(** ** A control plane *)

#[local] Instance backup_uuid_text : UuidText := binary_uuid_text.
#[local] Instance backup_serde : PolicySerde := array_policy_serde.
#[local] Instance backup_collation : Collation := encoding_collation.

Definition dump_pool : StoragePool := {|
  sp_id := 5%N; sp_name := "dumps"; sp_pool_type := Local; sp_status := Active;
  sp_config := JObject {["path"%string := JString "/srv/dumps"]}; sp_capacity_bytes := Some 1000; sp_allocated_bytes := Some 0 |}.
Definition quiet_plane : Plane := {|
  pl_world := world_of (with_storage_pools (fun _ => {[5%N := dump_pool]}) empty_db); pl_dumps := ∅; pl_maintenance := false |}.
Definition plane_oracle (restores : bool) : PlaneOracle := {|
  po_world := calm_oracle; po_io _ := true; po_dump _ := Some true; po_size _ := Some 100; po_sessions _ := None;
  po_restore _ := restores |}.
Definition database_request : CreateBackupRequest :=
  {| cb_name := Some "nightly"%string; cb_storage_pool_id := Some 5%N; cb_backup_type := BackupDatabase; cb_vm_id := None |}.

Definition backup_run : Plane * result Error Backup :=
  create_database_backup database_request (plane_oracle true) quiet_plane.
Definition nightly : Backup :=
  match backup_run.2 with
  | Ok b => b
  | Err _ => backup_row 0 0 {| nbk_name := ""; nbk_backup_type := BackupVm; nbk_status := BkFailed; nbk_vm_id := None;
                               nbk_snapshot_id := None; nbk_storage_object_id := 0 |}
  end.
Definition restore_run : Plane * result Error RestoreBackupResponse :=
  restore_backup (fun _ => "") "qarax" (bk_id nightly) (plane_oracle true) backup_run.1.
Definition delete_run : Plane * result Error unit := delete_backup (bk_id nightly) (plane_oracle true) backup_run.1.

Lemma backup_run_ok : create_database_backup database_request (plane_oracle true) quiet_plane = (backup_run.1, Ok nightly).
Proof. assert (is_ok backup_run.2 = true) as E by by vm_compute. unfold nightly. fold backup_run. by destruct backup_run as [p [b|e]]. Qed.

(** After the restore the backup is no longer listed. *)
Lemma restore_returns_to_backup_witness :
  is_ok restore_run.2 = true /\ plane_db restore_run.1 = plane_db quiet_plane /\
  bool_decide (is_Some (t_backups (plane_db backup_run.1) !! bk_id nightly)) = true.
Proof.
  assert (is_ok restore_run.2 = true) as Hok by by vm_compute. split; [exact Hok|]. split; [|by vm_compute].
  assert (match restore_run.2 with
          | Ok _ => plane_db restore_run.1 = plane_db quiet_plane /\ pl_maintenance restore_run.1 = false
          | Err _ => plane_db restore_run.1 = plane_db backup_run.1 end) as Hr.
  { apply (restore_returns_to_backup (fun _ => ""%string) "qarax" database_request (plane_oracle true) quiet_plane backup_run.1
             nightly (plane_oracle true) backup_run.1); [exact backup_run_ok|done|by vm_compute|done|apply surjective_pairing]. }
  destruct restore_run.2; [exact (proj1 Hr)|done].
Defined.

Lemma delete_backup_outcome_witness :
  is_ok delete_run.2 = true /\ t_backups (plane_db delete_run.1) !! bk_id nightly = None.
Proof.
  assert (is_ok delete_run.2 = true) as Hok by by vm_compute. split; [exact Hok|].
  assert (forall k so, t_storage_objects (plane_db backup_run.1) !! k = Some so -> so_id so = k) as Hkeyed.
  { apply (map_Forall_to_list (fun k so => so_id so = k)). vm_compute. repeat constructor. }
  pose proof (delete_backup_outcome (bk_id nightly) (plane_oracle true) backup_run.1 delete_run.1 delete_run.2 Hkeyed
                (surjective_pairing _)) as Hout.
  destruct delete_run.2; [|done]. destruct Hout as (b&so&_&_&_&Hno&_). exact Hno.
Defined.
