(* ===== verification/Migration.v ===== *)
(** * Migration: live migration of a VM

    [plan_vm_migration], [execute_planned_vm_migration] and [migrate] of
    [qarax/src/handlers/vm/handler.rs].  A migration is planned by reading, then
    carried out by a task: the target prepares to receive, the source sends, the
    row moves to the target, the source deletes its copy.

    [receiver_url n] is the body of the reply to the receive call of step [n]. *)

From S2P Require Import Prelude Text Common Errors Tables NodeApi World Samples VmConfig.
From S2P Require Import Hooks Vms Jobs Storage Gpus Hosts StorageObjects Networks Devices Catalog.
From S2P Require Import SecurityGroups NetworkPolicy CreateRequest VmLifecycle VmCreate Hotplug VmOps.
#[local] Open Scope Z_scope.
#[local] Set Default Proof Using "Type".

(** [{:?}] of a pool type. *)
Definition pool_type_debug (t : StoragePoolType) : string :=
  match t with Local => "Local" | Nfs => "Nfs" | OverlayBd => "OverlayBd" | Block => "Block" end.

(** [s.replace(pat, by)] for a pattern that is not empty: [skip] counts the
    characters of a match that are still to be dropped. *)
Fixpoint replace_from (pat by_text s : string) (skip : nat) : string :=
  match s with
  | EmptyString => EmptyString
  | String c s' =>
      match skip with
      | S k => replace_from pat by_text s' k
      | O => if String.prefix pat s then by_text +:+ replace_from pat by_text s' (String.length pat - 1)
             else String c (replace_from pat by_text s' 0)
      end
  end.
Definition str_replace (pat by_text s : string) : string := replace_from pat by_text s 0.

Section migration.
Context `{UuidText} `{PolicySerde} {coll : Collation}.
Variables (to_rfc3339 : Z -> string) (sqlx_text : SqlxError -> string)
  (rpc_error_text : RpcCall -> RpcOutcome -> string)
  (numa_config_de : json -> option NumaConfig) (defaults : VmDefaults) (receiver_url : nat -> string).

Abbreviation set_status := (Vms.update_status to_rfc3339).

(** ** The plan *)

(** Every pool must be shared and attached to the target. *)
Fixpoint check_target_pools (target_host_id : Uuid) (unsupported missing : StoragePool -> string)
    (pools : list StoragePool) : M Error unit :=
  match pools with
  | [] => mret tt
  | pool :: pools' =>
      if negb (supports_live_migration (sp_pool_type pool)) then throw (UnprocessableEntity (unsupported pool))
      else
        dest_has_pool ← sqlx_q (host_has_pool target_host_id (sp_id pool));
        if (dest_has_pool : bool) then check_target_pools target_host_id unsupported missing pools'
        else throw (UnprocessableEntity (missing pool))
  end.

(** The pools of some objects, each once. *)
Definition check_object_pools (target_host_id : Uuid) (unsupported missing : StoragePool -> string)
    (object_ids : list Uuid) : M Error unit :=
  if bool_decide (object_ids = []) then mret tt
  else
    objects ← sqlx_q (get_object_batch object_ids);
    pools ← sqlx_q (get_pool_batch (remove_dups (so_storage_pool_id <$> objects)));
    check_target_pools target_host_id unsupported missing pools.

Definition disks_unsupported (pool : StoragePool) : string :=
  "live migration is not supported for pool '" +:+ sp_name pool +:+ "' (type: "
    +:+ pool_type_debug (sp_pool_type pool) +:+ ")".
Definition disks_missing (target : Uuid) (pool : StoragePool) : string :=
  "destination host " +:+ uuid_to_string target +:+ " does not have pool '" +:+ sp_name pool +:+ "' ("
    +:+ pool_type_debug (sp_pool_type pool) +:+ ") attached".
Definition uppers_unsupported (pool : StoragePool) : string :=
  "live migration is not supported: persistent upper layer is on local pool '" +:+ sp_name pool +:+ "'".
Definition uppers_missing (target : Uuid) (pool : StoragePool) : string :=
  "destination host " +:+ uuid_to_string target +:+ " does not have upper layer pool '"
    +:+ sp_name pool +:+ "' attached".

(** The second half of a plan: no GPUs, the pools of the disks and of their upper
    layers, the request for the target. *)
Definition plan_storage (vm_id : Uuid) (target_host : Host) (target_vm : Vm) : M Error CreateVmRequest :=
  gpus ← sqlx_q (Gpus.list_by_vm vm_id);
  if negb (bool_decide (gpus = [])) then
    throw (UnprocessableEntity "live migration is not supported for VMs with attached GPUs")
  else
    db_disks ← sqlx_q (list_disks_by_vm vm_id);
    _ ← check_object_pools (h_id target_host) disks_unsupported (disks_missing (h_id target_host))
          (omap vd_storage_object_id db_disks);
    _ ← check_object_pools (h_id target_host) uppers_unsupported (uppers_missing (h_id target_host))
          (omap vd_upper_storage_object_id db_disks);
    build_create_vm_request numa_config_de defaults sqlx_text target_vm.

Definition plan_vm_migration (vm_id target_host_id : Uuid) : M Error PlannedVmMigration :=
  vm ← sqlx_q (Vms.get vm_id);
  let row := vm_row vm in
  if negb (bool_decide (v_status row ∈ [Running; Paused])) then
    throw (UnprocessableEntity ("VM must be running or paused to migrate (current status: "
             +:+ vm_status_to_string (v_status row) +:+ ")"))
  else if negb (bool_decide (v_hypervisor row = CloudHv)) then
    throw (UnprocessableEntity "live migration is currently only supported for cloud_hv VMs")
  else
    source_host ← host_for_vm vm_id;
    target_host ← require_by_id target_host_id;
    if bool_decide (h_id source_host = h_id target_host) then
      throw (UnprocessableEntity "Source and destination hosts are the same")
    else
      _ ← (match persisted_vm_architecture vm with
           | Some architecture => of_result (ensure_host_matches_architecture target_host architecture)
           | None => mret tt
           end);
      create_req ← plan_storage vm_id target_host (vm_from_row (set_host_id (h_id target_host) row));
      mret {| pm_vm_id := vm_id; pm_vm_name := v_name row; pm_source_host := source_host;
              pm_target_host := target_host; pm_original_status := v_status row;
              pm_create_req := create_req |}.

(** ** The task *)

(** The message for the target: always for Cloud Hypervisor and without NUMA
    placement. *)
Definition migration_message (vm_id : Uuid) (req : CreateVmRequest) : VmMessage :=
  let nonempty s := negb (String.eqb s "") in
  {| vmm_vm_id := vm_id; vmm_hypervisor := 0;
     vmm_boot_vcpus := cr_boot_vcpus req; vmm_max_vcpus := cr_max_vcpus req;
     vmm_memory_size := cr_memory_size req; vmm_memory_hotplug_size := cr_memory_hotplug_size req;
     vmm_memory_shared := if cr_memory_shared req then Some true else None;
     vmm_memory_hugepages := if cr_memory_hugepages req then Some true else None;
     vmm_kernel := filter_text nonempty (cr_kernel req);
     vmm_cmdline := filter_text nonempty (cr_cmdline req);
     vmm_initramfs := filter_text (fun s => negb (is_blank s)) (cr_initramfs req);
     vmm_firmware := filter_text nonempty (cr_firmware req);
     vmm_disks := cr_disks req; vmm_networks := cr_networks req; vmm_rng := cr_rng req;
     vmm_serial := default {| cc_mode := 1; cc_file := None; cc_socket := None; cc_iommu := None |}
                     (cr_serial req);
     vmm_console := cr_console req;
     vmm_cloud_init := (fun user_data =>
       {| ci_user_data := user_data;
          ci_meta_data := default ""%string (cr_cloud_init_meta_data req);
          ci_network_config := default ""%string (cr_cloud_init_network_config req) |})
       <$> cr_cloud_init_user_data req;
     vmm_devices := cr_devices req; vmm_vsock := cr_vsock req; vmm_numa_placement := None |}.

(** A call whose failure ends the migration with a text. *)
Definition migration_call (host : Host) (call : RpcCall) (name : string) : M string unit :=
  r ← rpc host call;
  if bool_decide (r = RpcOk) then mret tt
  else throw (name +:+ " failed: " +:+ rpc_error_text call r)%string.

Definition receive_migration (host : Host) (config : VmMessage) : M string string := fun o w =>
  match migration_call host (ReceiveMigration config 0) "receive_migration" o w with
  | (w', Ok _) => (w', Ok (receiver_url (w_step w)))
  | (w', Err e) => (w', Err e)
  end.

Definition report_progress (job_id : option Uuid) (progress : Z) : M string unit :=
  match job_id with
  | Some job_id => _ ← attempt (update_progress job_id progress); mret tt
  | None => mret tt
  end.

(** The row follows the VM: two statements, whose failures are only logged. *)
Definition move_row (vm_id target : Uuid) (status : VmStatus) : M string unit :=
  _ ← attempt (update_host_id vm_id target);
  _ ← attempt (set_status vm_id status);
  mret tt.

Definition execute_planned_vm_migration (plan : PlannedVmMigration) (job_id : option Uuid) : M string unit :=
  let vm_id := pm_vm_id plan in
  url ← receive_migration (pm_target_host plan) (migration_message vm_id (pm_create_req plan));
  _ ← report_progress job_id 25;
  let actual_receiver_url := str_replace "0.0.0.0" (h_address (pm_target_host plan)) url in
  _ ← migration_call (pm_source_host plan) (SendMigration vm_id actual_receiver_url) "send_migration";
  _ ← report_progress job_id 75;
  _ ← move_row vm_id (h_id (pm_target_host plan)) (pm_original_status plan);
  _ ← rpc (pm_source_host plan) (DeleteVm vm_id);
  mret tt.

Definition run_migrate_task (plan : PlannedVmMigration) (job_id : Uuid) : M SqlxError unit :=
  running ← attempt (mark_running job_id);
  match running with
  | Err _ => mret tt
  | Ok _ =>
      r ← attempt (execute_planned_vm_migration plan (Some job_id));
      match r with
      | Err msg =>
          _ ← attempt (Jobs.mark_failed job_id msg);
          _ ← attempt (set_status (pm_vm_id plan) (pm_original_status plan));
          mret tt
      | Ok _ => _ ← attempt (mark_completed job_id None); mret tt
      end
  end.

(** ** The request *)

Definition migrate_job (plan : PlannedVmMigration) : NewJob :=
  {| nj_job_type := VmMigrate;
     nj_description := Some ("Migrating VM " +:+ pm_vm_name plan +:+ " from host "
       +:+ uuid_to_string (h_id (pm_source_host plan)) +:+ " to "
       +:+ uuid_to_string (h_id (pm_target_host plan)));
     nj_resource_id := Some (pm_vm_id plan); nj_resource_type := Some resource_types.VM |}.

Definition migrate (vm_id target_host_id : Uuid) : M Error Uuid :=
  plan ← plan_vm_migration vm_id target_host_id;
  _ ← sqlx_q (set_status vm_id Migrating);
  job ← sqlx_q (Jobs.create (migrate_job plan));
  _ ← emit (EvTask (MigrateTask plan (j_id job)));
  mret (j_id job).
End migration.

(** ** What a migration does *)

Section migration_facts.
Context `{UuidText} `{PolicySerde} {coll : Collation}.
Variables (to_rfc3339 : Z -> string) (sqlx_text : SqlxError -> string)
  (rpc_error_text : RpcCall -> RpcOutcome -> string)
  (numa_config_de : json -> option NumaConfig) (defaults : VmDefaults) (receiver_url : nat -> string).

Abbreviation execute_migration :=
  (execute_planned_vm_migration to_rfc3339 rpc_error_text receiver_url).

Lemma migration_call_inv host call name o w w' r :
  migration_call rpc_error_text host call name o w = (w', r) ->
  w_db w' = w_db w /\
  exists out, w_log w' = w_log w ++ [EvRpc (h_address host) (as_u16 (h_port host)) call out] /\
    (is_ok r = true <-> out = RpcOk).
Proof.
  unfold migration_call. intros Hrun. apply bind_cases in Hrun as [(e&_&Hr)|(out&w1&Hr&Hrun)]; [discriminate|].
  unfold rpc in Hr. injection Hr as <- Hout.
  case_bool_decide as Hok; injection Hrun as <- <-; (split; [done|]); exists (o_rpc o (w_step w)); subst out.
  - by split.
  - split; [done|]. by split.
Qed.

Lemma report_progress_only job p : steps jobs_only (report_progress job p).
Proof.
  destruct job; [|apply steps_ret]. apply steps_bind; [|intros ?; apply steps_ret].
  apply steps_attempt, update_job_only.
Qed.

(** The table of VMs after the moves of the row: the host, the status, both or
    none, as the database served the two statements. *)
Definition row_moves (vm_id target : Uuid) (status : VmStatus) (w w' : World) : Prop :=
  exists f : VmRow -> VmRow, t_vms (w_db w') = alter f vm_id (t_vms (w_db w)) /\
    forall r, f r ∈ [r; set_host_id target r; set_row_status status r;
                     set_row_status status (set_host_id target r)].

Lemma alter_id_row {K A} `{Countable K} (t : gmap K A) k : alter (fun r => r) k t = t.
Proof.
  apply map_eq. intros j. destruct (decide (j = k)) as [->|]; [|by rewrite lookup_alter_ne].
  rewrite lookup_alter_eq. by destruct (t !! k).
Qed.

Lemma update_host_id_table vm_id target o w :
  let w' := (update_host_id vm_id target o w).1 in
  w_log w' = w_log w /\
  (t_vms (w_db w') = t_vms (w_db w) \/ t_vms (w_db w') = alter (set_host_id target) vm_id (t_vms (w_db w))).
Proof.
  cbv zeta. unfold update_host_id, checked_update, execute. destruct (o_sql o (w_step w)); [by split; [|left]|].
  simpl. destruct (t_vms (w_db w) !! vm_id) as [r|] eqn:Hr; [|by split; [|left]].
  destruct (vm_constraints _ _ _); simpl; [|by split; [|left]]. split; [done|right].
  apply map_eq. intros k. destruct (decide (k = vm_id)) as [->|]; [|by rewrite lookup_insert_ne, lookup_alter_ne].
  by rewrite lookup_insert_eq, lookup_alter_eq, Hr.
Qed.

Lemma move_row_moves vm_id target status o w :
  let w' := (move_row to_rfc3339 vm_id target status o w).1 in
  row_moves vm_id target status w w' /\ log_adds is_status_event w w'.
Proof.
  cbv zeta. unfold move_row, mbind, M_bind, attempt.
  pose proof (update_host_id_table vm_id target o w) as [L1 T1].
  destruct (update_host_id vm_id target o w) as [w1 r1]. simpl in *.
  pose proof (update_status_restatus to_rfc3339 vm_id status o w1) as R2.
  pose proof (set_status_events to_rfc3339 vm_id status o w1) as (l&L2&F2).
  destruct (Vms.update_status to_rfc3339 vm_id status o w1) as [w2 r2]. simpl in *. split.
  - unfold row_moves. destruct T1 as [T1|T1], R2 as [T2|(s&->%list_elem_of_singleton&T2)].
    + exists (fun r => r). rewrite T2, T1, alter_id_row. split; [done|set_solver].
    + exists (set_row_status status). rewrite T2, T1. split; [done|set_solver].
    + exists (set_host_id target). rewrite T2, T1. split; [done|set_solver].
    + exists (fun r => set_row_status status (set_host_id target r)). rewrite T2, T1. split; [|set_solver].
      apply map_eq. intros k. destruct (decide (k = vm_id)) as [->|]; [|by rewrite !lookup_alter_ne].
      rewrite !lookup_alter_eq. by destruct (t_vms (w_db w) !! vm_id).
  - exists l. by rewrite L2, L1.
Qed.

(** The calls of a migration that went through. *)
Definition migrated (plan : PlannedVmMigration) (w w' : World) : Prop :=
  let source := pm_source_host plan in
  exists url events r, Forall is_status_event events /\
    w_log w' = w_log w ++
      [accepted (pm_target_host plan) (ReceiveMigration (migration_message (pm_vm_id plan) (pm_create_req plan)) 0);
       accepted source (SendMigration (pm_vm_id plan) url)] ++ events ++
      [EvRpc (h_address source) (as_u16 (h_port source)) (DeleteVm (pm_vm_id plan)) r] /\
    row_moves (pm_vm_id plan) (h_id (pm_target_host plan)) (pm_original_status plan) w w'.

(** A migration that failed. *)
Definition stayed (w w' : World) : Prop :=
  t_vms (w_db w') = t_vms (w_db w) /\ log_adds (fun e => ~ deletes_vm e /\ ~ sends_firewall e) w w'.

Lemma stayed_call host call name o w w' r :
  match call with ReceiveMigration _ _ | SendMigration _ _ => True | _ => False end ->
  migration_call rpc_error_text host call name o w = (w', r) -> stayed w w'.
Proof.
  intros Hcall (D&out&L&_)%migration_call_inv. split; [by rewrite D|]. eexists. split; [exact L|].
  constructor; [|constructor]. destruct call; try done; by split; intros [].
Qed.

Lemma stayed_trans w1 w2 w3 : stayed w1 w2 -> stayed w2 w3 -> stayed w1 w3.
Proof. intros [T1 L1] [T2 L2]. split; [congruence|by etransitivity]. Qed.

Lemma stayed_jobs w w' : jobs_only w w' -> stayed w w'.
Proof.
  intros Hj. split; [by apply (jobs_only_table t_vms)|]. apply log_adds_same, Hj.
Qed.

Lemma report_progress_run job p o w : exists w1, report_progress job p o w = (w1, Ok tt) /\ jobs_only w w1.
Proof.
  pose proof (report_progress_only job p o w) as J. destruct (report_progress job p o w) as [w1 r] eqn:E.
  exists w1. split; [|exact J]. unfold report_progress in E. destruct job; [|by injection E as <- <-].
  unfold mbind, M_bind, attempt in E. destruct (update_progress _ _ _ _). by injection E as <- <-.
Qed.

(** What follows the hand-over never fails. *)
Lemma migration_finish plan job o w w' r :
  (_ ← report_progress job 75;
   _ ← move_row to_rfc3339 (pm_vm_id plan) (h_id (pm_target_host plan)) (pm_original_status plan);
   _ ← rpc (pm_source_host plan) (DeleteVm (pm_vm_id plan));
   mret tt) o w = (w', r) ->
  r = Ok tt /\ row_moves (pm_vm_id plan) (h_id (pm_target_host plan)) (pm_original_status plan) w w' /\
  exists events out, Forall is_status_event events /\
    w_log w' = w_log w ++ events ++ [EvRpc (h_address (pm_source_host plan))
      (as_u16 (h_port (pm_source_host plan))) (DeleteVm (pm_vm_id plan)) out].
Proof.
  destruct (report_progress_run job 75 o w) as (w1&E1&J1). rewrite (bind_run _ _ _ _ _ _ E1).
  pose proof (move_row_moves (pm_vm_id plan) (h_id (pm_target_host plan)) (pm_original_status plan) o w1)
    as [R2 (l&L2&F2)].
  assert (exists w2, move_row to_rfc3339 (pm_vm_id plan) (h_id (pm_target_host plan)) (pm_original_status plan) o w1
    = (w2, Ok tt)) as [w2 E2].
  { unfold move_row, mbind, M_bind, attempt. destruct (update_host_id _ _ _ _).
    destruct (Vms.update_status _ _ _ _ _). by eexists. }
  rewrite E2 in R2, L2. simpl in R2, L2. rewrite (bind_run _ _ _ _ _ _ E2).
  unfold rpc, mbind, M_bind. intros [= <- <-]. split; [done|]. split.
  - destruct R2 as (f&T&Hf). exists f. split; [|exact Hf]. simpl. rewrite T. f_equal.
    by apply (jobs_only_table t_vms).
  - exists l, (o_rpc o (w_step w2)). split; [exact F2|]. simpl. rewrite L2, (proj2 J1). by rewrite <- app_assoc.
Qed.

Lemma migration_outcome_spec plan job o w :
  let run := execute_migration plan job o w in
  match run.2 with Ok _ => migrated plan w run.1 | Err _ => stayed w run.1 end.
Proof.
  cbv zeta. destruct (execute_migration plan job o w) as [w' r] eqn:Hrun. cbn [fst snd].
  unfold execute_planned_vm_migration in Hrun. cbv zeta in Hrun.
  apply bind_cases in Hrun as [(e&->&Hr)|(url&w1&Hr&Hrun)].
  { unfold receive_migration in Hr.
    destruct (migration_call _ _ _ _ _ _) as [w1 [[]|e1]] eqn:Hc; [discriminate|]. injection Hr as -> ->.
    by apply stayed_call in Hc. }
  unfold receive_migration in Hr.
  destruct (migration_call _ _ _ _ _ _) as [w1' [[]|e1]] eqn:Hc; [|discriminate]. injection Hr as -> Hurl.
  assert (stayed w w1) as St1 by (by apply stayed_call in Hc).
  apply migration_call_inv in Hc as (D1&out1&L1&Hout1). rewrite (proj1 Hout1 eq_refl) in L1. clear Hout1 out1.
  destruct (report_progress_run job 25 o w1) as (w2&E2&J2). rewrite (bind_run _ _ _ _ _ _ E2) in Hrun.
  assert (stayed w w2) as St2 by (eapply stayed_trans; [exact St1|by apply stayed_jobs]).
  apply bind_cases in Hrun as [(e&->&Hc)|([]&w3&Hc&Hrun)].
  { eapply stayed_trans; [exact St2|]. by apply stayed_call in Hc. }
  apply migration_call_inv in Hc as (D3&out3&L3&Hout3). rewrite (proj1 Hout3 eq_refl) in L3. clear Hout3 out3.
  apply migration_finish in Hrun as (->&(f&T&Hf)&events&out&Fe&L).
  exists (str_replace "0.0.0.0" (h_address (pm_target_host plan)) url), events, out.
  split_and!; [exact Fe| |].
  - rewrite L, L3, (proj2 J2), L1. by rewrite <- !app_assoc.
  - exists f. split; [|exact Hf]. rewrite T, D3. f_equal. apply St2.
Qed.

(** C30. A migration moves the row of its VM and has the source delete its copy only
    after the target prepared to receive the VM and the source sent it; one that
    fails changes nothing of the VM and deletes it nowhere. *)
Theorem migration_outcome plan job o w :
  let run := execute_migration plan job o w in
  match run.2 with Ok _ => migrated plan w run.1 | Err _ => stayed w run.1 end.
Proof. apply migration_outcome_spec. Qed.

(** ** What a plan promises *)

Lemma check_target_pools_reads t u m l : steps same_but_step (check_target_pools t u m l).
Proof.
  induction l as [|p l IH]; simpl; [apply steps_ret|]. destruct (negb _); [apply steps_throw|].
  apply steps_bind; [apply steps_lift_err, query_same_but_step|]. intros [|]; [exact IH|apply steps_throw].
Qed.

Lemma check_object_pools_reads t u m l : steps same_but_step (check_object_pools t u m l).
Proof.
  unfold check_object_pools. case_bool_decide; [apply steps_ret|].
  apply steps_bind; [apply steps_lift_err, query_same_but_step|]. intros obs.
  apply steps_bind; [apply steps_lift_err, query_same_but_step|]. intros ps. apply check_target_pools_reads.
Qed.

Lemma check_target_pools_ok t u m l o w w' :
  check_target_pools t u m l o w = (w', Ok tt) ->
  Forall (fun p => supports_live_migration (sp_pool_type p) = true /\
                   (t, sp_id p) ∈ t_host_storage_pools (w_db w)) l.
Proof.
  revert w. induction l as [|p l IH]; intros w Hrun; [constructor|]. cbn [check_target_pools] in Hrun.
  destruct (supports_live_migration (sp_pool_type p)) eqn:Hs; [|discriminate]. cbn [negb] in Hrun.
  apply bind_ok_inv in Hrun as (b&w1&Hb&Hrun). apply lift_err_ok_inv, query_ok_inv in Hb as [[= Hb] ->].
  destruct b; [|discriminate]. apply bool_decide_eq_true in Hb. constructor; [done|]. exact (IH _ Hrun).
Qed.

(** Every pool of these objects is shared and attached to the target. *)
Definition reachable_from (db : Db) (target : Uuid) (oid : Uuid) : Prop :=
  forall k k' ob pool, t_storage_objects db !! k = Some ob -> so_id ob = oid ->
    t_storage_pools db !! k' = Some pool -> sp_id pool = so_storage_pool_id ob ->
    supports_live_migration (sp_pool_type pool) = true /\ (target, sp_id pool) ∈ t_host_storage_pools db.

Lemma check_object_pools_ok t u m l o w w' :
  check_object_pools t u m l o w = (w', Ok tt) -> forall oid, oid ∈ l -> reachable_from (w_db w) t oid.
Proof.
  unfold check_object_pools, get_object_batch, get_pool_batch. intros Hrun oid Hin k k' ob pool Hob Hid Hpool Hpid.
  case_bool_decide as Hl; [subst l; by apply elem_of_nil in Hin|].
  apply bind_ok_inv in Hrun as (obs&w1&H1&Hrun). apply lift_err_ok_inv, query_ok_inv in H1 as [[= <-] ->].
  apply bind_ok_inv in Hrun as (ps&w2&H2&Hrun). apply lift_err_ok_inv, query_ok_inv in H2 as [[= <-] ->].
  apply check_target_pools_ok in Hrun. rewrite Forall_forall in Hrun. simpl in Hrun. apply Hrun.
  apply elem_of_filter_rows. split; [by eexists|]. apply bool_decide_eq_true. rewrite Hpid.
  apply elem_of_remove_dups, list_elem_of_fmap. exists ob. split; [done|].
  apply elem_of_filter_rows. split; [by eexists|]. apply bool_decide_eq_true. by rewrite Hid.
Qed.

Record migratable (db : Db) (vm_id target : Uuid) (plan : PlannedVmMigration) : Prop := {
  mg_row : exists row, t_vms db !! vm_id = Some row /\ v_status row ∈ [Running; Paused] /\
             v_hypervisor row = CloudHv /\ pm_original_status plan = v_status row;
  mg_vm : pm_vm_id plan = vm_id;
  mg_target : t_hosts db !! target = Some (pm_target_host plan);
  mg_moves : h_id (pm_source_host plan) <> h_id (pm_target_host plan);
  mg_gpus : forall k g, t_host_gpus db !! k = Some g -> g_vm_id g <> Some vm_id;
  mg_disks : forall k d oid, t_vm_disks db !! k = Some d -> vd_vm_id d = vm_id ->
    vd_storage_object_id d = Some oid \/ vd_upper_storage_object_id d = Some oid ->
    reachable_from db (h_id (pm_target_host plan)) oid
}.

Lemma no_gpus vm_id o w w' :
  Gpus.list_by_vm vm_id o w = (w', Ok []) ->
  forall k g, t_host_gpus (w_db w) !! k = Some g -> g_vm_id g <> Some vm_id.
Proof.
  intros [[= Hl] _]%query_ok_inv k g Hk Hg. assert (g ∈ []) as ?%elem_of_nil; [|done].
  rewrite <- Hl, merge_sort_Permutation. apply elem_of_filter_rows. split; [by eexists|].
  by apply bool_decide_eq_true.
Qed.

Lemma listed_disk vm_id o w w' l k d :
  list_disks_by_vm vm_id o w = (w', Ok l) -> t_vm_disks (w_db w) !! k = Some d -> vd_vm_id d = vm_id -> d ∈ l.
Proof.
  intros [[= <-] _]%query_ok_inv Hk Hd. rewrite merge_sort_Permutation. apply elem_of_filter_rows.
  split; [by eexists|]. by apply bool_decide_eq_true.
Qed.

Lemma plan_storage_ok vm_id target vm' o w w' req :
  plan_storage sqlx_text numa_config_de defaults vm_id target vm' o w = (w', Ok req) ->
  same_but_step w w' /\
  (forall k g, t_host_gpus (w_db w) !! k = Some g -> g_vm_id g <> Some vm_id) /\
  (forall k d oid, t_vm_disks (w_db w) !! k = Some d -> vd_vm_id d = vm_id ->
    vd_storage_object_id d = Some oid \/ vd_upper_storage_object_id d = Some oid ->
    reachable_from (w_db w) (h_id target) oid).
Proof.
  intros Hrun. apply bind_ok_inv in Hrun as (gpus&w1&H1&Hrun). apply lift_err_ok_inv in H1.
  pose proof (reads_run _ _ _ _ _ (query_same_but_step _ _) H1) as S1.
  case_bool_decide as Hg; [|discriminate]. subst gpus. cbn [negb] in Hrun.
  apply bind_ok_inv in Hrun as (disks&w2&H2&Hrun). apply lift_err_ok_inv in H2.
  pose proof (reads_run _ _ _ _ _ (query_same_but_step _ _) H2) as S2.
  apply bind_ok_inv in Hrun as ([]&w3&H3&Hrun).
  pose proof (reads_run _ _ _ _ _ (check_object_pools_reads _ _ _ _) H3) as S3.
  apply bind_ok_inv in Hrun as ([]&w4&H4&Hrun).
  pose proof (reads_run _ _ _ _ _ (check_object_pools_reads _ _ _ _) H4) as S4.
  pose proof (reads_run _ _ _ _ _ (build_create_vm_request_reads _ _ _ _) Hrun) as S5.
  split; [do 4 (etransitivity; [eassumption|]); exact S5|]. split; [by eapply no_gpus|].
  destruct S1 as (D1&_&_), S2 as (D2&_&_), S3 as (D3&_&_).
  intros k d oid Hk Hd Hoid. rewrite <- D1 in Hk. pose proof (listed_disk _ _ _ _ _ _ _ H2 Hk Hd) as Hin.
  destruct Hoid as [Ho|Ho].
  - rewrite <- D1, <- D2. eapply check_object_pools_ok; [exact H3|]. apply list_elem_of_omap. eauto.
  - rewrite <- D1, <- D2, <- D3. eapply check_object_pools_ok; [exact H4|]. apply list_elem_of_omap. eauto.
Qed.

Lemma migration_planned_spec vm_id target o w w' plan :
  plan_vm_migration sqlx_text numa_config_de defaults vm_id target o w = (w', Ok plan) ->
  same_but_step w w' /\ migratable (w_db w) vm_id target plan.
Proof.
  intros Hrun. unfold plan_vm_migration in Hrun. apply bind_ok_inv in Hrun as (vm&w1&H1&Hrun).
  apply lift_err_ok_inv, query_ok_inv in H1 as [H1 ->]. simpl in H1.
  destruct (t_vms (w_db w) !! vm_id) as [row|] eqn:Hrow; [|discriminate]. injection H1 as <-.
  cbn [vm_row vm_from_row] in Hrun. cbv zeta in Hrun.
  case_bool_decide as Hst; [|discriminate]. cbn [negb] in Hrun. case_bool_decide as Hhv; [|discriminate].
  cbn [negb] in Hrun. apply bind_ok_inv in Hrun as (src&w2&H2&Hrun).
  pose proof (reads_run _ _ _ _ _ (host_for_vm_reads _) H2) as S2.
  apply bind_ok_inv in Hrun as (tgt&w3&H3&Hrun). pose proof (reads_run _ _ _ _ _ (require_by_id_reads _) H3) as S3.
  assert (t_hosts (w_db w2) !! target = Some tgt) as Ht.
  { unfold require_by_id, get_by_id in H3. apply bind_ok_inv in H3 as (h&wh&Hh&H3).
    apply lift_err_ok_inv, query_ok_inv in Hh as [[= <-] ->]. injection H3 as _ H3. by apply ok_or_ok in H3. }
  case_bool_decide as Hne; [discriminate|]. apply bind_ok_inv in Hrun as ([]&w4&H4&Hrun).
  assert (same_but_step w3 w4) as S4.
  { eapply reads_run, H4. destruct (persisted_vm_architecture _); [apply steps_of_result|apply steps_ret]. }
  apply bind_ok_inv in Hrun as (req&w5&H5&Hrun). unfold mret, M_ret in Hrun. injection Hrun as <- <-.
  apply plan_storage_ok in H5 as (S5&Hg&Hd).
  assert (same_but_step w w4) as S by (transitivity (tick w); [done|]; do 2 (etransitivity; [eassumption|]); exact S4).
  split; [by etransitivity|]. destruct S as (D&_&_), S2 as (D2&_&_). rewrite D in Hg, Hd. rewrite D2 in Ht. simpl in Ht.
  split; [by exists row|done|done|done|done|done].
Qed.

(** A migration is planned only for a running or paused Cloud Hypervisor VM
    without GPUs, to another host that has the pools of all its disks and upper
    layers, all of them shared; planning changes nothing. *)
Theorem migration_planned vm_id target o w w' plan :
  plan_vm_migration sqlx_text numa_config_de defaults vm_id target o w = (w', Ok plan) ->
  same_but_step w w' /\ migratable (w_db w) vm_id target plan.
Proof. apply migration_planned_spec. Qed.
End migration_facts.

(** ** Runs *)

Section runs.
#[local] Instance migration_uuid_text : UuidText := binary_uuid_text.
#[local] Instance migration_serde : PolicySerde := array_policy_serde.
#[local] Instance migration_collation : Collation := encoding_collation.

(** A running VM with a disk on a shared pool and a security group, and two hosts
    that have the pool. *)
Definition two_host_db : Db :=
  with_hosts (fun _ => {[2%N := sample_host 2 "h2" "10.0.0.2" HostUp 8 16384 100000;
                         4%N := sample_host 4 "h4" "10.0.0.4" HostUp 8 16384 100000]})
    (with_host_storage_pools (fun _ => {[(2%N, 71%N); (4%N, 71%N)]})
      (with_host_gpus (fun _ => ∅)
        (with_security_groups (fun _ => {[30%N := {| sg_id := 30; sg_name := "web"; sg_description := None |}]})
          (with_vm_security_groups (fun _ => {[(1%N, 30%N)]}) (placed_db Running))))).

Definition listen_url (_ : nat) : string := "tcp://0.0.0.0:49152".
Abbreviation w_migrate := (migrate no_text no_text no_numa plain_defaults).
Abbreviation w_migrate_task := (run_migrate_task no_text (fun _ _ => EmptyString) listen_url).

Definition planned_run := plan_vm_migration no_text no_numa plain_defaults 1 4 calm_oracle (world_of two_host_db).
Definition migrating_world : World := (w_migrate 1 4 calm_oracle (world_of two_host_db)).1.

Lemma migration_planned_witness :
  exists plan, planned_run.2 = Ok plan /\ migratable two_host_db 1 4 plan.
Proof.
  destruct planned_run as [w' [plan|e]] eqn:E; [|vm_compute in E; discriminate].
  exists plan. split; [reflexivity|].
  exact (proj2 (migration_planned no_text no_numa plain_defaults 1 4 calm_oracle (world_of two_host_db) w' plan E)).
Defined.

(** The task of the migration the request spawned. *)
Definition spawned_migration (w : World) : option (PlannedVmMigration * Uuid) :=
  match last (w_log w) with
  | Some (EvTask (MigrateTask plan job)) => Some (plan, job)
  | _ => None
  end.

Definition after_migration (o : Oracle) : World :=
  match spawned_migration migrating_world with
  | Some (plan, job) => (w_migrate_task plan job o migrating_world).1
  | None => migrating_world
  end.

(** A migrated VM runs on its target without the firewall of its groups: none of
    the calls of a migration sends it. *)
Theorem migration_drops_firewall :
  (v_host_id <$> t_vms (w_db (after_migration calm_oracle)) !! 1%N) = Some (Some 4%N) /\
  (v_status <$> t_vms (w_db (after_migration calm_oracle)) !! 1%N) = Some Running /\
  t_vm_security_groups (w_db (after_migration calm_oracle)) = {[(1%N, 30%N)]} /\
  Forall (fun e => ~ sends_firewall e) (w_log (after_migration calm_oracle)).
Proof.
  split_and!; [vm_compute; reflexivity..|]. vm_compute. repeat constructor; by intros [].
Qed.

(** The database refuses the statement that moves the row. *)
Definition host_update_refused : Oracle :=
  {| o_sql := fun n => if Nat.eqb n (w_step migrating_world + 8) then Some OtherSqlx else None;
     o_uuid := fun n => (1000 + N.of_nat n)%N; o_now := fun n => Z.of_nat n;
     o_rpc := fun _ => RpcOk; o_http := fun _ => HttpResponse 500 None |}.

(** When the statement that moves the row fails, the migration is reported
    complete: the row still names the source, whose copy was deleted, while the
    VM runs on the target, which no row names. *)
Theorem migration_loses_vm :
  let w := after_migration host_update_refused in
  (v_host_id <$> t_vms (w_db w) !! 1%N) = Some (Some 2%N) /\
  (v_status <$> t_vms (w_db w) !! 1%N) = Some Running /\
  (exists job, spawned_migration migrating_world = Some job /\
     (j_status <$> t_jobs (w_db w) !! job.2) = Some JobCompleted) /\
  last (w_log w) = Some (EvRpc "10.0.0.2" 50051 (DeleteVm 1) RpcOk).
Proof.
  cbv zeta. split; [vm_compute; reflexivity|]. split; [vm_compute; reflexivity|].
  split; [|vm_compute; reflexivity]. eexists. split; [vm_compute; reflexivity|]. vm_compute. reflexivity.
Qed.
End runs.
