(* ===== verification/Commit.v ===== *)
(** * Commit: an OCI image VM becomes a VM with a disk of its own

    [commit], [find_oci_disk] and [run_vm_commit] of
    [qarax/src/handlers/vm/handler.rs].  The request claims the VM by moving it to
    [Committing]; a task has the node copy the image and its upper layer to a new
    object, then swaps the disk to it and removes the old objects.

    - [oci_image_de] and [upper_de] are the serde forms of two JSON documents.
    - [copied n] is what the stream of the copy call of step [n] reports: the bytes
      written so far, message by message. *)

From S2P Require Import Prelude Text Common Errors Tables Float64 NodeApi World Samples VmConfig.
From S2P Require Import Hooks Vms Jobs Storage Gpus Hosts StorageObjects Networks Devices Catalog.
From S2P Require Import SecurityGroups NetworkPolicy CreateRequest VmLifecycle VmCreate Hotplug VmOps.
#[local] Open Scope Z_scope.
#[local] Set Default Proof Using "Type".

Record CommitVmRequest := { cv_storage_pool_id : Uuid; cv_size_bytes : Z }.

(** [10 + ((bytes_written as f64 / size_bytes as f64) * 70.0) as i32]. *)
Definition commit_percentage (size_bytes bytes_written : Z) : Z :=
  if 0 <? size_bytes
  then as_i32 (10 + f64_as_i32 (f64_mul (f64_div (f64_of_Z bytes_written) (f64_of_Z size_bytes)) (f64_of_Z 70)))
  else 10.

Section commit.
Context `{UuidText} `{PolicySerde} {coll : Collation}.
Variables (to_rfc3339 : Z -> string) (sqlx_text : SqlxError -> string)
  (oci_image_de upper_de : json -> option (string * string)) (copied : nat -> list Z).

Abbreviation set_status := (Vms.update_status to_rfc3339).

(** ** The request *)

Definition find_oci_disk (vm_id : Uuid) : M Error OciDiskInfo :=
  row ← lift_err Sqlx (find_oci_disk_for_vm vm_id);
  row ← of_result (ok_or (UnprocessableEntity "VM has no OCI image disk to commit") row);
  config ← of_result (ok_or (UnprocessableEntity "OCI image storage object has invalid config")
                        (oci_image_de (od_oci_config row)));
  let upper := od_upper_config row ≫= upper_de in
  mret {| ob_disk_id := od_disk_id row; ob_image_ref := config.1; ob_registry_url := config.2;
          ob_upper_data := fst <$> upper; ob_upper_index := snd <$> upper;
          ob_oci_storage_object_id := od_oci_storage_object_id row;
          ob_upper_storage_object_id := od_upper_storage_object_id row |}.

Definition commit_pool_error (e : SqlxError) : Error :=
  match e with RowNotFound => NotFound | _ => InternalServerError end.

(** The target pool: Local or NFS, active, attached to the host. *)
Definition check_commit_pool (host : Host) (pool_id : Uuid) : M Error StoragePool :=
  target_pool ← lift_err commit_pool_error (get_pool pool_id);
  if negb (bool_decide (sp_pool_type target_pool ∈ [Local; Nfs]))
  then throw (UnprocessableEntity "target storage pool must be Local or NFS")
  else if negb (bool_decide (sp_status target_pool = Active))
  then throw (UnprocessableEntity "target storage pool is not active")
  else
    attached ← lift_err (fun _ => InternalServerError) (host_has_pool (h_id host) (sp_id target_pool));
    if (attached : bool) then mret target_pool
    else throw (UnprocessableEntity ("target storage pool " +:+ uuid_to_string pool_id
                  +:+ " is not attached to the VM's host")).

Definition commit_job (vm : Vm) (vm_id : Uuid) : NewJob :=
  {| nj_job_type := VmCommit;
     nj_description := Some ("Committing VM " +:+ v_name (vm_row vm) +:+ " to raw disk")%string;
     nj_resource_id := Some vm_id; nj_resource_type := Some resource_types.VM |}.

(** What follows the claim. *)
Definition commit_claimed (vm_id : Uuid) (vm : Vm) (req : CommitVmRequest) : M Error Uuid :=
  host ← host_for_vm vm_id;
  oci_disk ← find_oci_disk vm_id;
  target_pool ← check_commit_pool host (cv_storage_pool_id req);
  job ← sqlx_q (Jobs.create (commit_job vm vm_id));
  _ ← emit (EvTask (CommitTask
         {| cm_vm_id := vm_id; cm_job_id := j_id job; cm_previous_status := v_status (vm_row vm);
            cm_target_pool_id := sp_id target_pool; cm_size_bytes := cv_size_bytes req |} host oci_disk));
  mret (j_id job).

Definition commit (vm_id : Uuid) (req : CommitVmRequest) : M Error Uuid :=
  vm ← sqlx_q (Vms.get vm_id);
  if bool_decide (v_image_ref (vm_row vm) = None)
  then throw (UnprocessableEntity "VM has no image_ref — only OCI image-based VMs can be committed")
  else
    transitioned ← sqlx_q (try_set_committing vm_id);
    if negb transitioned
    then throw (UnprocessableEntity "VM must be stopped (Created or Shutdown) to commit")
    else commit_claimed vm_id vm req.

(** ** The task *)

(** The progress callback: one update for each new percentage. *)
Fixpoint report_copy (job_id : Uuid) (size_bytes last_pct : Z) (l : list Z) : M string unit :=
  match l with
  | [] => mret tt
  | bytes_written :: l' =>
      let pct := commit_percentage size_bytes bytes_written in
      if negb (pct =? last_pct) then
        _ ← attempt (update_progress job_id pct);
        report_copy job_id size_bytes pct l'
      else report_copy job_id size_bytes last_pct l'
  end.

(** The messages of the stream are handled before the call returns. *)
Definition copy_overlaybd (host : Host) (job_id : Uuid) (path : string) (size_bytes : Z) (d : OciDiskInfo)
  : M string unit := fun o w =>
  (r ← rpc host (CreateDiskFromOverlayBd path size_bytes (ob_image_ref d) (ob_registry_url d)
                   (ob_upper_data d) (ob_upper_index d));
   _ ← report_copy job_id size_bytes 0 (copied (w_step w));
   if bool_decide (r = RpcOk) then mret tt else throw "Failed to copy OverlayBD to raw disk"%string) o w.

(** [UPDATE vm_disks SET storage_object_id = $1, upper_storage_object_id = NULL]. *)
Definition swap_disk_tx (disk_id object : Uuid) : M SqlxError unit :=
  execute Tx (fun db =>
    match t_vm_disks db !! disk_id with
    | None => Ok (db, tt)
    | Some d =>
        let d := set_disk_objects object None d in
        _ ← disk_references d db;
        Ok (with_vm_disks (insert disk_id d) db, tt)
    end).

Definition swap_body (host : Host) (job_id : Uuid) (path : string) (size_bytes : Z) (d : OciDiskInfo)
    (disk_so_id : Uuid) : M string unit :=
  _ ← lift_err sqlx_text (get_object_for_update disk_so_id);
  _ ← copy_overlaybd host job_id path size_bytes d;
  _ ← attempt (update_progress job_id 80);
  _ ← refresh_tx;
  lift_err (fun _ => "Failed to update vm_disk storage object"%string) (swap_disk_tx (ob_disk_id d) disk_so_id).

Definition remove_old_objects (vm_id : Uuid) (d : OciDiskInfo) : M string unit :=
  _ ← attempt (delete_object (ob_oci_storage_object_id d));
  _ ← (match ob_upper_storage_object_id d with
       | Some upper_id => _ ← attempt (delete_object upper_id); mret tt
       | None => mret tt
       end);
  _ ← attempt (clear_image_ref vm_id);
  mret tt.

Definition run_vm_commit_copy_and_swap (vm_id job_id : Uuid) (host : Host) (d : OciDiskInfo)
    (disk_so : StorageObject) (size_bytes : Z) : M string (Uuid * string) :=
  disk_path ← of_result (ok_or "Target storage object has no path in config"%string
                           (get_path_from_config (so_config disk_so)));
  _ ← attempt (update_progress job_id 10);
  _ ← in_tx sqlx_text (swap_body host job_id disk_path size_bytes d (so_id disk_so));
  _ ← remove_old_objects vm_id d;
  mret (so_id disk_so, disk_path).

Definition committed_object (vm_id pool_id : Uuid) (size_bytes : Z) : NewStorageObject :=
  {| no_name := "committed-" +:+ uuid_to_string vm_id; no_storage_pool_id := Some pool_id;
     no_object_type := Disk; no_size_bytes := size_bytes; no_config := JObject ∅; no_parent_id := None |}.

Definition run_vm_commit_inner (p : CommitParams) (host : Host) (d : OciDiskInfo)
  : M string (Uuid * string) :=
  vm ← lift_err sqlx_text (Vms.get (cm_vm_id p));
  host_id ← of_result (ok_or "VM has no host"%string (v_host_id (vm_row vm)));
  disk_so ← lift_err (fun _ => "Failed to create target disk storage object"%string)
    (create_managed_returning (committed_object (cm_vm_id p) (cm_target_pool_id p) (cm_size_bytes p)) host_id);
  r ← attempt (run_vm_commit_copy_and_swap (cm_vm_id p) (cm_job_id p) host d disk_so (cm_size_bytes p));
  match r with
  | Ok x => mret x
  | Err e => _ ← attempt (delete_object (so_id disk_so)); throw e
  end.

Definition commit_result (x : Uuid * string) : json :=
  JObject (<["storage_object_id"%string := JString (uuid_to_string x.1)]>
          (<["path"%string := JString x.2]> ∅)).

Definition run_vm_commit (p : CommitParams) (host : Host) (d : OciDiskInfo) : M SqlxError unit :=
  running ← attempt (mark_running (cm_job_id p));
  match running with
  | Err _ => _ ← attempt (set_status (cm_vm_id p) (cm_previous_status p)); mret tt
  | Ok _ =>
      r ← attempt (run_vm_commit_inner p host d);
      _ ← (match r with
           | Ok x => _ ← attempt (mark_completed (cm_job_id p) (Some (commit_result x))); mret tt
           | Err e => _ ← attempt (Jobs.mark_failed (cm_job_id p) e); mret tt
           end);
      _ ← attempt (set_status (cm_vm_id p) (cm_previous_status p));
      mret tt
  end.
End commit.

(** ** A refused commit keeps its claim *)

Section claim_facts.
Context `{UuidText} `{PolicySerde} {coll : Collation}.
Variables (to_rfc3339 : Z -> string) (oci_image_de upper_de : json -> option (string * string)).

Lemma find_oci_disk_reads vm_id : steps same_but_step (find_oci_disk oci_image_de upper_de vm_id).
Proof. unfold find_oci_disk, find_oci_disk_for_vm. cbv zeta. steps_tac. Qed.

Lemma check_commit_pool_reads host pool : steps same_but_step (check_commit_pool host pool).
Proof. unfold check_commit_pool, get_pool, host_has_pool. steps_tac. Qed.

Lemma commit_claimed_keeps vm_id vm req :
  steps (keeps_table t_vms) (commit_claimed oci_image_de upper_de vm_id vm req).
Proof.
  assert (forall E A (m : M E A), steps same_but_step m -> steps (keeps_table t_vms) m) as Hreads.
  { intros E A m Hm o w. unfold keeps_table, keeps. f_equal. apply Hm. }
  unfold commit_claimed. apply steps_bind; [apply Hreads, host_for_vm_reads|]. intros h.
  apply steps_bind; [apply Hreads, find_oci_disk_reads|]. intros d.
  apply steps_bind; [apply Hreads, check_commit_pool_reads|]. intros p.
  apply steps_bind.
  { apply steps_lift_err. intros o w. apply (jobs_only_table t_vms); [done|]. apply create_only. }
  intros j. apply steps_bind; [by apply steps_emit|]. intros _. apply steps_ret.
Qed.

(** A commit claims its VM before it checks anything else.  When a later check
    fails (no host, no image disk, a pool of the wrong type, inactive or not
    attached) the request is refused and the VM stays [Committing], which no
    start accepts. *)
Theorem refused_commit_keeps_claim vm_id req o w w' e row :
  served o -> t_vms (w_db w) !! vm_id = Some row -> v_image_ref row <> None ->
  v_status row ∈ [Created; Shutdown] ->
  commit oci_image_de upper_de vm_id req o w = (w', Err e) ->
  t_vms (w_db w') = <[vm_id := set_row_status Committing row]> (t_vms (w_db w)) /\
  is_ok (start_allowed_from Committing) = false.
Proof.
  intros Ho Hrow Himg Hst Hrun. split; [|done]. unfold commit, Vms.get, try_set_committing in Hrun.
  unfold mbind at 1, M_bind at 1, lift_err at 1 in Hrun. rewrite query_served in Hrun by done.
  cbn [conn_db] in Hrun. rewrite Hrow in Hrun. cbn in Hrun. rewrite bool_decide_eq_false_2 in Hrun by done.
  unfold mbind at 1, M_bind at 1, lift_err at 1 in Hrun.
  erewrite execute_served in Hrun by done. cbn [conn_db w_db tick map_err] in Hrun.
  change (w_db (tick w)) with (w_db w) in Hrun. rewrite Hrow in Hrun.
  rewrite (bool_decide_eq_true_2 (v_status row ∈ _)) in Hrun by done. cbn [negb] in Hrun.
  match type of Hrun with commit_claimed _ _ _ ?vm _ _ ?wx = _ =>
    pose proof (commit_claimed_keeps vm_id vm req o wx) as K end.
  rewrite Hrun in K. unfold keeps_table, keeps in K. simpl in K. rewrite K. by apply alter_as_insert.
Qed.
End claim_facts.

(** ** The task swaps the disk only after the copy *)

Section task_facts.
Context `{UuidText} `{PolicySerde} {coll : Collation}.
Variables (to_rfc3339 : Z -> string) (sqlx_text : SqlxError -> string) (copied : nat -> list Z).

(** Steps that leave the disks alone and only add to the log. *)
Definition off_disks (w w' : World) : Prop :=
  t_vm_disks (w_db w') = t_vm_disks (w_db w) /\ log_grows w w'.
#[local] Instance off_disks_preorder : PreOrder off_disks.
Proof.
  split; [intros w; split; reflexivity|]. intros a b c [A1 A2] [B1 B2]. split; [congruence|by etransitivity].
Qed.

Lemma off_disks_same w w' : w_db w' = w_db w -> w_log w' = w_log w -> off_disks w w'.
Proof. intros D L. split; [by rewrite D|]. exists []. by rewrite app_nil_r, L. Qed.

Lemma off_disks_reads {E A} (m : M E A) : steps same_but_step m -> steps off_disks m.
Proof. intros Hm o w. destruct (Hm o w) as (D&_&L). by apply off_disks_same. Qed.

Lemma off_disks_jobs {E A} (m : M E A) : steps jobs_only m -> steps off_disks m.
Proof.
  intros Hm o w. pose proof (Hm o w) as Hj. split; [by apply (jobs_only_table t_vm_disks)|].
  exists []. rewrite app_nil_r. apply Hj.
Qed.

Lemma off_disks_storage {E A} (m : M E A) :
  steps (db_moves storage_only) m -> steps (keeps w_log) m -> steps off_disks m.
Proof.
  intros Hm Hl o w. split; [apply (Hm o w)|]. exists []. rewrite app_nil_r. apply Hl.
Qed.

Lemma delete_object_off id : steps off_disks (delete_object id).
Proof. apply off_disks_storage; [apply delete_object_m_only|]. unfold delete_object. steps_tac. Qed.

Lemma insert_object_off new hosts : steps off_disks (insert_object new hosts).
Proof.
  apply off_disks_storage; [apply insert_object_only|]. intros o w.
  pose proof (resolve_new_object_reads new o w) as (_&_&L). unfold insert_object, mbind, M_bind.
  destruct (resolve_new_object new o w) as [w1 [[[id pool] c]|e]]; [|exact L]. simpl in L.
  unfold keeps, execute. destruct (o_sql o (w_step w1)); [exact L|].
  destruct (unit_result _) as [[db []]|e]; exact L.
Qed.

Lemma set_status_off vm_id s : steps off_disks (Vms.update_status to_rfc3339 vm_id s).
Proof.
  intros o w. split; [|apply update_status_log_grows].
  by apply (update_status_keeps to_rfc3339 (fun w => t_vm_disks (w_db w))).
Qed.

Lemma progress_off {F} job p : steps off_disks (attempt (update_progress job p) : M F _).
Proof. apply steps_attempt, off_disks_jobs, update_job_only. Qed.

Lemma report_copy_off job size pct l : steps off_disks (report_copy job size pct l).
Proof.
  revert pct. induction l as [|b l IH]; intros pct; cbn [report_copy]; [apply steps_ret|]. cbv zeta.
  destruct (negb _); [|apply IH]. apply steps_bind; [apply progress_off|]. intros _. apply IH.
Qed.

Definition copy_call (path : string) (size : Z) (d : OciDiskInfo) : RpcCall :=
  CreateDiskFromOverlayBd path size (ob_image_ref d) (ob_registry_url d) (ob_upper_data d) (ob_upper_index d).

Lemma copy_inv host job path size d o w w' r :
  copy_overlaybd copied host job path size d o w = (w', r) ->
  off_disks w w' /\ (is_ok r = true -> logged w w' (accepted host (copy_call path size d))).
Proof.
  unfold copy_overlaybd. intros Hrun. apply bind_cases in Hrun as [(e&_&Hr)|(out&w1&Hr&Hrun)]; [discriminate|].
  assert (off_disks w w1) as O1.
  { unfold rpc in Hr. injection Hr as <- _. split; [done|]. by eexists. }
  assert (off_disks w1 w' /\ (is_ok r = true -> out = RpcOk)) as [O2 Hok].
  { pose proof (report_copy_off job size 0 (copied (w_step w)) o w1) as O2.
    apply bind_cases in Hrun as [(e&->&Hp)|([]&w2&Hp&Hrun)]; rewrite Hp in O2; simpl in O2; [done|].
    case_bool_decide; injection Hrun as <- <-; done. }
  split; [by etransitivity|]. intros Hr'. rewrite (Hok Hr') in Hr. apply rpc_logged in Hr.
  eapply logged_grows_r; [exact Hr|apply O2].
Qed.

Lemma alter_absent {K A} `{Countable K} (f : A -> A) (k : K) (m : gmap K A) : m !! k = None -> alter f k m = m.
Proof.
  intros Hk. apply map_eq. intros j. destruct (decide (j = k)) as [->|]; [|by rewrite lookup_alter_ne].
  by rewrite lookup_alter_eq, Hk.
Qed.

(** The objects a commit removes at its end. *)
Definition old_objects (d : OciDiskInfo) : list Uuid :=
  ob_oci_storage_object_id d :: option_list (ob_upper_storage_object_id d).

(** Steps that also leave the object [id] alone, unless it is one of those. *)
Definition off_object (id : Uuid) (d : OciDiskInfo) (w w' : World) : Prop :=
  off_disks w w' /\ (id ∉ old_objects d -> t_storage_objects (w_db w') !! id = t_storage_objects (w_db w) !! id).
#[local] Instance off_object_preorder id d : PreOrder (off_object id d).
Proof.
  split; [intros w; by split|]. intros a b c [A1 A2] [B1 B2]. split; [by etransitivity|].
  intros Hid. by rewrite B2, A2.
Qed.

Lemma off_object_same id d w w' : w_db w' = w_db w -> w_log w' = w_log w -> off_object id d w w'.
Proof. intros D L. split; [by apply off_disks_same|]. intros _. by rewrite D. Qed.
Lemma off_object_jobs {E A} id d (m : M E A) : steps jobs_only m -> steps (off_object id d) m.
Proof.
  intros Hm o w. split; [by apply off_disks_jobs|]. intros _. f_equal. by apply (jobs_only_table t_storage_objects).
Qed.
Lemma off_object_progress {F} id d job p : steps (off_object id d) (attempt (update_progress job p) : M F _).
Proof. apply steps_attempt, off_object_jobs, update_job_only. Qed.

Definition same_object (id : Uuid) (db db' : Db) : Prop := t_storage_objects db' !! id = t_storage_objects db !! id.
#[local] Instance same_object_preorder id : PreOrder (same_object id).
Proof. split; [done|]. unfold same_object. intros a b c. congruence. Qed.

Lemma delete_object_off_object id d old : old ∈ old_objects d -> steps (off_object id d) (delete_object old).
Proof.
  intros Hold o w. split; [apply delete_object_off|]. intros Hid. assert (old <> id) as Hne by (by intros ->).
  assert (steps (db_moves (same_object id)) (delete_object old)) as Hs;
    [|exact (Hs o w)].
  apply steps_bind; [by apply steps_now|]. intros t. apply steps_db_execute. intros db db' [] Hr%unit_result_inv.
  unfold delete_object_row in Hr. destruct (t_storage_objects db !! old) as [ob|]; [|by injection Hr as <-].
  apply result_bind_ok in Hr as ([]&_&(db1&Hadj&Hq)%result_bind_ok). apply adjust_inv in Hadj as (?&?&_&_&_&_&->).
  apply queue_keeps_objects in Hq. unfold same_object. rewrite Hq. cbn. by rewrite lookup_delete_ne.
Qed.

Lemma report_copy_off_object id d job size pct l : steps (off_object id d) (report_copy job size pct l).
Proof.
  revert pct. induction l as [|b l IH]; intros pct; cbn [report_copy]; [apply steps_ret|]. cbv zeta.
  destruct (negb _); [|apply IH]. apply steps_bind; [apply off_object_progress|]. intros _. apply IH.
Qed.

Lemma copy_off_object id d' host job path size d : steps (off_object id d') (copy_overlaybd copied host job path size d).
Proof.
  intros o w. unfold copy_overlaybd. revert o w.
  assert (forall l, steps (off_object id d') (r ← rpc host (copy_call path size d); _ ← report_copy job size 0 l;
    if bool_decide (r = RpcOk) then mret tt else throw "Failed to copy OverlayBD to raw disk"%string)) as Hs.
  { intros l. apply steps_bind.
    - intros o w. split; [|done]. split; [done|]. by eexists.
    - intros out. apply steps_bind; [apply report_copy_off_object|]. intros _.
      case_bool_decide; [apply steps_ret|apply steps_throw]. }
  intros o w. exact (Hs (copied (w_step w)) o w).
Qed.

(** What a swap of the disk onto the object [so] leaves: the node accepted the copy of the
    image and its upper layer to the path of [so], and the disk is backed by [so] alone. *)
Definition installed (host : Host) (size : Z) (d : OciDiskInfo) (so : StorageObject) (w w' : World) : Prop :=
  exists path, get_path_from_config (so_config so) = Some path /\
    logged w w' (accepted host (copy_call path size d)) /\
    t_vm_disks (w_db w') = alter (set_disk_objects (so_id so) None) (ob_disk_id d) (t_vm_disks (w_db w)) /\
    (so_id so ∉ old_objects d -> t_storage_objects (w_db w') !! so_id so = t_storage_objects (w_db w) !! so_id so).

(** What a commit leaves: a disk object that was not there before, of the size and in the
    pool of the request, onto which the disk was swapped. *)
Definition swapped (p : CommitParams) (host : Host) (d : OciDiskInfo) (w w' : World) : Prop :=
  exists so path,
    t_storage_objects (w_db w) !! so_id so = None /\
    so_storage_pool_id so = cm_target_pool_id p /\ so_object_type so = Disk /\ so_size_bytes so = cm_size_bytes p /\
    get_path_from_config (so_config so) = Some path /\
    logged w w' (accepted host (copy_call path (cm_size_bytes p) d)) /\
    t_vm_disks (w_db w') = alter (set_disk_objects (so_id so) None) (ob_disk_id d) (t_vm_disks (w_db w)) /\
    (so_id so ∉ old_objects d -> t_storage_objects (w_db w') !! so_id so = Some so).

Lemma swap_body_inv host job path size d object o w w' r :
  swap_body sqlx_text copied host job path size d object o w = (w', r) ->
  off_object object d w w' /\
  (is_ok r = true -> logged w w' (accepted host (copy_call path size d)) /\
     t_vm_disks (conn_db Tx w') = alter (set_disk_objects object None) (ob_disk_id d) (t_vm_disks (w_db w)) /\
     t_storage_objects (conn_db Tx w') = t_storage_objects (w_db w')).
Proof.
  unfold swap_body. intros Hrun.
  apply bind_cases in Hrun as [(e&->&Hq)|(ob&w1&Hq&Hrun)];
    (apply (reads_run _ _ _ _ _ (steps_lift_err _ _ (query_same_but_step _ _))) in Hq as (D1&_&L1));
    [split; [by apply off_object_same|done]|].
  pose proof (copy_off_object object d host job path size d o w1) as O2.
  apply bind_cases in Hrun as [(e&->&Hc)|([]&w2&Hc&Hrun)]; rewrite Hc in O2; simpl in O2; apply copy_inv in Hc as [_ Hlog].
  { split; [|done]. etransitivity; [by apply off_object_same|exact O2]. }
  specialize (Hlog eq_refl). apply bind_cases in Hrun as [(e&->&Hp)|(p&w3&Hp&Hrun)].
  { by apply (raises_attempt (P := fun _ => False)) in Hp. }
  pose proof (off_object_progress (F := string) object d job 80 o w2) as O3. rewrite Hp in O3. simpl in O3.
  assert (off_object object d w w3) as O by (do 2 (etransitivity; [|eassumption]); by apply off_object_same).
  assert (logged w w3 (accepted host (copy_call path size d))) as Hlog'.
  { eapply logged_grows_l; [exists []; by rewrite app_nil_r|]. eapply logged_grows_r; [exact Hlog|apply O3]. }
  rewrite (bind_run _ _ _ _ _ _ (eq_refl : (refresh_tx : M string unit) o w3 = _)) in Hrun.
  unfold lift_err, swap_disk_tx, execute in Hrun. simpl in Hrun.
  assert (t_vm_disks (w_db w3) = t_vm_disks (w_db w)) as T3 by apply O.
  destruct (o_sql o (w_step w3)); [injection Hrun as <- <-; split; [|done]; exact O|].
  destruct (t_vm_disks (w_db w3) !! ob_disk_id d) as [x|] eqn:Hx.
  - destruct (disk_references _ _) as [[]|e]; injection Hrun as <- <-; (split; [exact O|]); [|done]. intros _.
    split; [exact Hlog'|]. split; [|done]. simpl. rewrite T3 in *. symmetry. by apply alter_as_insert.
  - injection Hrun as <- <-. split; [exact O|]. intros _. split; [exact Hlog'|]. split; [|done]. simpl. rewrite T3 in *.
    symmetry. by apply alter_absent.
Qed.

Lemma swap_tx_inv host job path size d so o w w' r :
  get_path_from_config (so_config so) = Some path ->
  in_tx sqlx_text (swap_body sqlx_text copied host job path size d (so_id so)) o w = (w', r) ->
  if is_ok r then installed host size d so w w' else off_object (so_id so) d w w'.
Proof.
  intros Hpath. unfold in_tx, lift_err, begin_tx, commit_tx. destruct (o_sql o (w_step w)); simpl.
  { intros [= <- <-]. by apply off_object_same. }
  destruct (swap_body _ _ _ _ _ _ _ _ _ _) as [w2 r2] eqn:Hb. apply swap_body_inv in Hb as [[[T2 G2] K2] Hok].
  simpl in T2, G2, K2. destruct r2 as [[]|e]; simpl.
  - destruct (Hok eq_refl) as (Hlog&Ht&Hs). simpl in Hlog, Ht.
    destruct (o_sql o (w_step w2)); intros [= <- <-]; [by repeat split|].
    exists path. split_and!; [done|done|done|]. intros Hid. simpl. rewrite <- (K2 Hid). f_equal. exact Hs.
  - intros [= <- <-]. by repeat split.
Qed.

(** An installation inside steps that touch neither the disks nor the object. *)
Lemma installed_then host size d so w w1 w2 :
  off_object (so_id so) d w w1 -> installed host size d so w1 w2 -> installed host size d so w w2.
Proof.
  intros [[T1 G1] K1] (path&Hp&Hl&T&K). exists path. split_and!; [done|by eapply logged_grows_l|by rewrite T, T1|].
  intros Hid. by rewrite K, K1.
Qed.
Lemma installed_before host size d so w w1 w2 :
  installed host size d so w w1 -> off_object (so_id so) d w1 w2 -> installed host size d so w w2.
Proof.
  intros (path&Hp&Hl&T&K) [[T2 G2] K2]. exists path. split_and!; [done|by eapply logged_grows_r|by rewrite T2, T|].
  intros Hid. by rewrite K2, K.
Qed.

Lemma clear_image_ref_off_object id d vm_id : steps (off_object id d) (clear_image_ref vm_id).
Proof.
  unfold clear_image_ref, update_row. apply steps_execute; [intros; by apply off_object_same|].
  intros w db a [= <- _]. split; [|done]. split; [done|]. exists []. by rewrite app_nil_r.
Qed.

Lemma remove_old_off id vm_id d : steps (off_object id d) (remove_old_objects vm_id d).
Proof.
  unfold remove_old_objects. apply steps_bind; [apply steps_attempt, delete_object_off_object; left|]. intros _.
  apply steps_bind.
  { destruct (ob_upper_storage_object_id d) as [u|] eqn:Hu; [|apply steps_ret].
    apply steps_bind; [|intros _; apply steps_ret]. apply steps_attempt, delete_object_off_object.
    unfold old_objects. rewrite Hu. right. left. }
  intros _. apply steps_bind; [apply steps_attempt, clear_image_ref_off_object|]. intros _. apply steps_ret.
Qed.

Lemma copy_and_swap_installs vm_id job host d so size o w w' r :
  run_vm_commit_copy_and_swap sqlx_text copied vm_id job host d so size o w = (w', r) ->
  if is_ok r then installed host size d so w w' else off_object (so_id so) d w w'.
Proof.
  unfold run_vm_commit_copy_and_swap. intros Hrun.
  apply bind_cases in Hrun as [(e&->&Hp)|(path&w1&Hp&Hrun)].
  { injection Hp as <- _. done. }
  injection Hp as <- Hp. apply ok_or_ok in Hp.
  pose proof (off_object_progress (F := string) (so_id so) d job 10 o w) as O1.
  apply bind_cases in Hrun as [(e&->&H1)|(x&w1&H1&Hrun)]; rewrite H1 in O1; simpl in O1; [done|].
  apply bind_cases in Hrun as [(e&->&H2)|([]&w2&H2&Hrun)]; apply (swap_tx_inv _ _ _ _ _ _ _ _ _ _ Hp) in H2; simpl in H2.
  { simpl. by etransitivity. }
  pose proof (remove_old_off (so_id so) vm_id d o w2) as O3.
  assert (is_ok r = true /\ off_object (so_id so) d w2 w') as [-> O].
  { unfold remove_old_objects in Hrun, O3. apply bind_cases in Hrun as [(e&->&H3)|([]&w3&H3&Hrun)].
    - exfalso. revert H3. clear. intros H3.
      apply bind_cases in H3 as [(?&_&H3)|(?&?&_&H3)]; [by apply (raises_attempt (P := fun _ => False)) in H3|].
      apply bind_cases in H3 as [(?&_&H3)|(?&?&_&H3)].
      { destruct (ob_upper_storage_object_id d); [|done].
        apply bind_cases in H3 as [(?&_&H3)|(?&?&_&H3)]; [by apply (raises_attempt (P := fun _ => False)) in H3|done]. }
      apply bind_cases in H3 as [(?&_&H3)|(?&?&_&H3)]; [by apply (raises_attempt (P := fun _ => False)) in H3|done].
    - rewrite H3 in O3. injection Hrun as <- <-. done. }
  eapply installed_then; [exact O1|]. by eapply installed_before.
Qed.

Lemma off_object_disks id d w w' : off_object id d w w' -> off_disks w w'.
Proof. by intros []. Qed.

Lemma commit_inner_swaps p host d o w w' r :
  run_vm_commit_inner sqlx_text copied p host d o w = (w', r) ->
  if is_ok r then swapped p host d w w' else off_disks w w'.
Proof.
  unfold run_vm_commit_inner. intros Hrun.
  pose proof (off_disks_reads _ (steps_lift_err sqlx_text _ (vm_get_reads (cm_vm_id p))) o w) as O1.
  pose proof (steps_lift_err sqlx_text _ (vm_get_reads (cm_vm_id p)) o w) as R1.
  apply bind_cases in Hrun as [(e&->&H1)|(vm&w1&H1&Hrun)]; rewrite H1 in O1; simpl in O1; [done|].
  rewrite H1 in R1. destruct R1 as (D1&_&_). simpl in D1.
  apply bind_cases in Hrun as [(e&->&Hh)|(host_id&w1'&Hh&Hrun)]; injection Hh as <- _; [done|].
  apply bind_cases in Hrun as [(e&->&H2)|(so&w2&H2&Hrun)].
  { pose proof (steps_lift_err (fun _ => "Failed to create target disk storage object"%string) _
      (insert_object_off (committed_object (cm_vm_id p) (cm_target_pool_id p) (cm_size_bytes p)) (Some [host_id])) o w1) as O2.
    unfold create_managed_returning in H2. rewrite H2 in O2. simpl in *. by etransitivity. }
  apply lift_err_ok_inv in H2.
  pose proof (insert_object_off (committed_object (cm_vm_id p) (cm_target_pool_id p) (cm_size_bytes p)) (Some [host_id]) o w1) as O2.
  unfold create_managed_returning in H2. rewrite H2 in O2. simpl in O2.
  apply insert_object_ok in H2 as (Hfresh&Hstored&_&pool&config&Hso&Hpool). rewrite D1 in Hfresh.
  assert (t_storage_objects (w_db w2) !! so_id so = Some so) as Hthere by (by rewrite Hstored, lookup_insert_eq).
  apply bind_cases in Hrun as [(e&->&H3)|(x&w3&H3&Hrun)].
  { by apply (raises_attempt (P := fun _ => False)) in H3. }
  apply attempt_inv in H3 as (y&[= <-]&H3). apply copy_and_swap_installs in H3. destruct x as [x|e]; simpl in H3.
  - injection Hrun as <- <-. simpl. destruct H3 as (path&Hp&Hl&T&K). exists so, path.
    assert (off_disks w w2) as [T2 G2] by (by etransitivity).
    split_and!; [done|by rewrite Hso; simpl; rewrite <- (Hpool _ eq_refl)|by rewrite Hso|by rewrite Hso|done| |by rewrite T, T2|].
    + by eapply logged_grows_l.
    + intros Hid. by rewrite K.
  - assert (off_disks w3 w' /\ is_ok r = false) as [O ->].
    { pose proof (steps_attempt (F := string) _ (delete_object_off (so_id so)) o w3) as O.
      apply bind_cases in Hrun as [(e'&->&Hd)|(z&w4&Hd&Hrun)]; rewrite Hd in O; [done|].
      by injection Hrun as <- <-. }
    apply off_object_disks in H3. do 2 (etransitivity; [eassumption|]). by etransitivity.
Qed.

Lemma swapped_then p host d w w1 w2 :
  jobs_only w w1 -> swapped p host d w1 w2 -> swapped p host d w w2.
Proof.
  intros J (so&path&F&Hpool&Ht&Hs&Hp&Hl&T&K). exists so, path.
  pose proof (jobs_only_table t_storage_objects _ _ (fun _ _ => eq_refl) J) as So.
  pose proof (jobs_only_table t_vm_disks _ _ (fun _ _ => eq_refl) J) as Sd. rewrite So in F. rewrite Sd in T.
  split_and!; try done. eapply logged_grows_l; [|exact Hl]. exists []. rewrite app_nil_r. apply J.
Qed.
Lemma swapped_before p host d w w1 w2 :
  swapped p host d w w1 -> off_disks w1 w2 -> t_storage_objects (w_db w2) = t_storage_objects (w_db w1) -> swapped p host d w w2.
Proof.
  intros (so&path&F&Hpool&Ht&Hs&Hp&Hl&T&K) [T2 G2] So. exists so, path. rewrite So, T2.
  split_and!; try done. by eapply logged_grows_r.
Qed.

Abbreviation commit_task := (run_vm_commit to_rfc3339 sqlx_text copied).

(** The steps that follow the inner task keep the disks and the objects. *)
Definition off_storage (w w' : World) : Prop :=
  off_disks w w' /\ t_storage_objects (w_db w') = t_storage_objects (w_db w).
#[local] Instance off_storage_preorder : PreOrder off_storage.
Proof. split; [intros w; by split|]. intros a b c [A1 A2] [B1 B2]. split; [by etransitivity|congruence]. Qed.

Lemma set_status_off_storage vm_id s : steps off_storage (Vms.update_status to_rfc3339 vm_id s).
Proof.
  intros o w. split; [apply set_status_off|].
  by apply (update_status_keeps to_rfc3339 (fun w => t_storage_objects (w_db w))).
Qed.
Lemma job_off_storage {E A} (m : M E A) : steps jobs_only m -> steps off_storage m.
Proof. intros Hm o w. split; [by apply off_disks_jobs|]. by apply (jobs_only_table t_storage_objects). Qed.

(** C31. A commit task leaves the disks of all VMs alone, or the node accepted the copy of
    the image and its upper layer to the path of a disk object that was not there before,
    of the size and in the pool of the request, and then the one disk was moved onto that
    object, which is still there (unless it is itself one of the two that the commit
    replaces). *)
Theorem commit_task_outcome p host d o w :
  let w' := (commit_task p host d o w).1 in
  off_disks w w' \/ swapped p host d w w'.
Proof.
  cbv zeta. destruct (commit_task p host d o w) as [w' r] eqn:Hrun. cbn [fst]. unfold run_vm_commit in Hrun.
  assert (forall w2 w3 x, (_ ← (attempt (Vms.update_status to_rfc3339 (cm_vm_id p) (cm_previous_status p)) : M SqlxError _);
    mret tt : M SqlxError unit) o w2 = (w3, x) -> off_storage w2 w3) as Hset.
  { intros w2 w3 x Hx. assert (steps off_storage (_ ← (attempt (Vms.update_status to_rfc3339 (cm_vm_id p) (cm_previous_status p))
      : M SqlxError _); mret tt : M SqlxError unit)) as Hs; [|specialize (Hs o w2); by rewrite Hx in Hs].
    apply steps_bind; [apply steps_attempt, set_status_off_storage|]. intros _. apply steps_ret. }
  pose proof (steps_attempt (F := SqlxError) _ (update_job_only running_row (cm_job_id p)) o w) as J1.
  apply bind_cases in Hrun as [(e&_&Hm)|(m&w1&Hm&Hrun)]; [by apply (raises_attempt (P := fun _ => False)) in Hm|].
  unfold mark_running in Hm. rewrite Hm in J1. simpl in J1.
  assert (off_disks w w1) as O1.
  { split; [by apply (jobs_only_table t_vm_disks)|]. exists []. rewrite app_nil_r. apply J1. }
  destruct m as [[]|e]; [|left; etransitivity; [exact O1|]; by apply (Hset _ _ _ Hrun)].
  apply bind_cases in Hrun as [(e&_&Hi)|(i&w2&Hi&Hrun)]; [by apply (raises_attempt (P := fun _ => False)) in Hi|].
  apply attempt_inv in Hi as (y&[= <-]&Hi). apply commit_inner_swaps in Hi.
  assert (off_storage w2 w') as O3.
  { assert (steps off_storage (match i with
       | Ok x => _ ← (attempt (mark_completed (cm_job_id p) (Some (commit_result x))) : M SqlxError _); mret tt
       | Err e => _ ← (attempt (Jobs.mark_failed (cm_job_id p) e) : M SqlxError _); mret tt end : M SqlxError unit)) as Hj.
    { destruct i; (apply steps_bind; [apply steps_attempt, job_off_storage, update_job_only|]; intros _; apply steps_ret). }
    specialize (Hj o w2). apply bind_cases in Hrun as [(e&_&H3)|([]&w3&H3&Hrun)]; rewrite H3 in Hj; [exact Hj|].
    etransitivity; [exact Hj|]. by eapply Hset. }
  destruct i as [x|e]; simpl in Hi.
  - right. destruct O3. eapply swapped_before; [|done|done]. by eapply swapped_then.
  - left. etransitivity; [exact O1|]. etransitivity; [exact Hi|]. apply O3.
Qed.
End task_facts.

(** ** Runs *)

Section runs.
#[local] Instance commit_uuid_text : UuidText := binary_uuid_text.
#[local] Instance commit_serde : PolicySerde := array_policy_serde.
#[local] Instance commit_collation : Collation := encoding_collation.

Definition image_vm : VmRow := set_image_ref (Some "alpine"%string) (sample_vm 1 "web" (Some 2%N) Shutdown 2 1024 [] JNull).
Definition image_vm_db : Db := with_vms (insert 1%N image_vm) (placed_db Shutdown).
Definition no_pair (_ : json) : option (string * string) := None.
Definition to_pool_71 : CommitVmRequest := {| cv_storage_pool_id := 71; cv_size_bytes := 1000 |}.
Definition refused_commit_world : World := (commit no_pair no_pair 1 to_pool_71 calm_oracle (world_of image_vm_db)).1.

Lemma refused_commit_keeps_claim_witness :
  (v_status <$> t_vms (w_db refused_commit_world) !! 1%N) = Some Committing.
Proof.
  destruct (commit no_pair no_pair 1 to_pool_71 calm_oracle (world_of image_vm_db)) as [w' [j|e]] eqn:E;
    [vm_compute in E; discriminate|].
  destruct (refused_commit_keeps_claim no_pair no_pair 1 to_pool_71 calm_oracle (world_of image_vm_db) w' e image_vm)
    as [Ht _]; [intros n; reflexivity|reflexivity|discriminate|by right; left|exact E|].
  unfold refused_commit_world. rewrite E. cbn [fst]. rewrite Ht, lookup_insert_eq. reflexivity.
Defined.

(** A commit that goes through: the disk of VM 1 on an image in pool 71, a target pool 72. *)
Definition commit_db : Db :=
  with_storage_pools (fun _ => {[71%N := StorageObjects.sample_pool 71 OverlayBd 100000 0; 72%N := StorageObjects.sample_pool 72 Nfs 100000 0]})
    image_vm_db.
Definition image_disk : OciDiskInfo :=
  {| ob_disk_id := 51; ob_image_ref := "alpine"; ob_registry_url := "registry"; ob_upper_data := None; ob_upper_index := None;
     ob_oci_storage_object_id := 61; ob_upper_storage_object_id := None |}.
Definition to_pool_72 : CommitParams :=
  {| cm_vm_id := 1; cm_job_id := 90; cm_previous_status := Shutdown; cm_target_pool_id := 72; cm_size_bytes := 1000 |}.
Definition commit_host : Host := sample_host 2 "h2" "10.0.0.2" HostUp 8 16384 100000.
Definition commit_run : World * result SqlxError unit :=
  run_vm_commit no_text no_text (fun _ => [250; 500; 1000]) to_pool_72 commit_host image_disk calm_oracle (world_of commit_db).

Lemma commit_task_outcome_witness :
  swapped to_pool_72 commit_host image_disk (world_of commit_db) commit_run.1 /\
  t_storage_objects (w_db commit_run.1) !! 61%N = None.
Proof.
  split; [|by vm_compute].
  destruct (commit_task_outcome no_text no_text (fun _ => [250; 500; 1000]) to_pool_72 commit_host image_disk calm_oracle
    (world_of commit_db)) as [[T _]|Hs]; [|exact Hs].
  exfalso. apply (f_equal (fun m => vd_storage_object_id <$> m !! 51%N)) in T. vm_compute in T. discriminate.
Defined.
End runs.
