(* ===== verification/Transfers.v ===== *)
(** * Transfers: files brought into a pool

    [qarax/src/model/transfers.rs], [qarax/src/transfer_executor.rs] and
    [qarax/src/handlers/transfer/handler.rs].  A transfer is recorded, then a task
    has a node of the pool download or copy the file and records the object.

    - [sqlx_text] and [rpc_error_text] are the texts of errors.
    - [moved n] is the number of bytes the node reports for the call of step [n]. *)

From S2P Require Import Prelude Text Errors Tables Float64 NodeApi World Samples VmConfig Hooks Vms Jobs.
From S2P Require Import Storage Gpus Hosts StorageObjects Networks Devices.
#[local] Open Scope Z_scope.
#[local] Set Default Proof Using "Type".

(** ** The table *)

Record NewTransfer := {
  nt_name : string;
  nt_source : string;
  nt_object_type : StorageObjectType
}.

Definition pending_transfer (id storage_pool_id : Uuid) (new_transfer : NewTransfer)
    (transfer_type : TransferType) (t : Z) : Transfer :=
  {| tr_id := id; tr_name := nt_name new_transfer; tr_transfer_type := transfer_type;
     tr_status := TrPending; tr_source := nt_source new_transfer;
     tr_storage_pool_id := storage_pool_id; tr_object_type := nt_object_type new_transfer;
     tr_storage_object_id := None; tr_total_bytes := None; tr_transferred_bytes := 0;
     tr_error_message := None; tr_created_at := Some t; tr_updated_at := Some t;
     tr_started_at := None; tr_completed_at := None |}.

Definition create_transfer_row (storage_pool_id : Uuid) (new_transfer : NewTransfer)
    (transfer_type : TransferType) : M SqlxError Transfer :=
  id ← new_uuid;
  t ← now;
  let r := pending_transfer id storage_pool_id new_transfer transfer_type t in
  execute Pool (fun db =>
    if 255 <? char_count (nt_name new_transfer) then Err too_long
    else
      transfers ← insert_pk "transfers_pkey" id r (t_transfers db);
      if bool_decide (is_Some (t_storage_pools db !! storage_pool_id))
      then Ok (with_transfers (fun _ => transfers) db, r)
      else Err (fk_violation "transfers_storage_pool_id_fkey")).

Definition get_transfer (transfer_id : Uuid) : M SqlxError Transfer :=
  query Pool (fun db => fetch_one (t_transfers db !! transfer_id)).

(** [ORDER BY created_at DESC]; a row without a date comes first. *)
Definition latest_transfer_first : relation Transfer := fun x y =>
  nulls_last Z.le (tr_created_at y) (tr_created_at x).
#[global] Instance latest_transfer_first_dec : RelDecision latest_transfer_first.
Proof. intros x y. unfold latest_transfer_first. apply _. Defined.

Definition list_transfers_by_pool (pool_id : Uuid) (name_filter : option string)
  : M SqlxError (list Transfer) :=
  query Pool (fun db => Ok (merge_sort latest_transfer_first (List.filter (fun t =>
    bool_decide (tr_storage_pool_id t = pool_id)
    && match name_filter with None => true | Some n => String.eqb (tr_name t) n end)
    (rows (t_transfers db))))).

(** The [UPDATE]s; none fails when the row is gone. *)
Definition running_transfer (now : Z) (t : Transfer) : Transfer :=
  {| tr_id := tr_id t; tr_name := tr_name t; tr_transfer_type := tr_transfer_type t;
     tr_status := TrRunning; tr_source := tr_source t; tr_storage_pool_id := tr_storage_pool_id t;
     tr_object_type := tr_object_type t; tr_storage_object_id := tr_storage_object_id t;
     tr_total_bytes := tr_total_bytes t; tr_transferred_bytes := tr_transferred_bytes t;
     tr_error_message := tr_error_message t; tr_created_at := tr_created_at t;
     tr_updated_at := Some now; tr_started_at := Some now; tr_completed_at := tr_completed_at t |}.
Definition completed_transfer (storage_object_id : Uuid) (bytes_written now : Z) (t : Transfer) : Transfer :=
  {| tr_id := tr_id t; tr_name := tr_name t; tr_transfer_type := tr_transfer_type t;
     tr_status := TrCompleted; tr_source := tr_source t; tr_storage_pool_id := tr_storage_pool_id t;
     tr_object_type := tr_object_type t; tr_storage_object_id := Some storage_object_id;
     tr_total_bytes := tr_total_bytes t; tr_transferred_bytes := bytes_written;
     tr_error_message := tr_error_message t; tr_created_at := tr_created_at t;
     tr_updated_at := Some now; tr_started_at := tr_started_at t; tr_completed_at := Some now |}.
Definition failed_transfer (error_message : string) (now : Z) (t : Transfer) : Transfer :=
  {| tr_id := tr_id t; tr_name := tr_name t; tr_transfer_type := tr_transfer_type t;
     tr_status := TrFailed; tr_source := tr_source t; tr_storage_pool_id := tr_storage_pool_id t;
     tr_object_type := tr_object_type t; tr_storage_object_id := tr_storage_object_id t;
     tr_total_bytes := tr_total_bytes t; tr_transferred_bytes := tr_transferred_bytes t;
     tr_error_message := Some error_message; tr_created_at := tr_created_at t;
     tr_updated_at := Some now; tr_started_at := tr_started_at t; tr_completed_at := Some now |}.

Definition update_transfer (f : Z -> Transfer -> Transfer) (transfer_id : Uuid) : M SqlxError unit :=
  t ← now;
  execute Pool (fun db => Ok (with_transfers (alter (f t) transfer_id) db, tt)).

Definition mark_transfer_running (transfer_id : Uuid) : M SqlxError unit :=
  update_transfer running_transfer transfer_id.
(** The column of the object is a foreign key. *)
Definition mark_transfer_completed (transfer_id storage_object_id : Uuid) (bytes_written : Z)
  : M SqlxError unit :=
  t ← now;
  execute Pool (fun db =>
    match t_transfers db !! transfer_id with
    | None => Ok (db, tt)
    | Some r =>
        if bool_decide (is_Some (t_storage_objects db !! storage_object_id))
        then Ok (with_transfers (insert transfer_id
                   (completed_transfer storage_object_id bytes_written t r)) db, tt)
        else Err (fk_violation "transfers_storage_object_id_fkey")
    end).
Definition mark_transfer_failed (transfer_id : Uuid) (error_message : string) : M SqlxError unit :=
  update_transfer (failed_transfer error_message) transfer_id.

(** ** Execution *)

Record TransferResult := { tx_bytes_written : Z; tx_storage_config : json }.

Inductive TransferError : Type :=
| NoHostAttached
| HostNotFound (host : string)
| MissingPoolPath
| TransferDatabase (e : SqlxError)
| TransferFailed (msg : string).

Section execution.
Context `{UuidText} {coll : Collation}.
Variables (sqlx_text : SqlxError -> string) (rpc_error_text : RpcCall -> RpcOutcome -> string)
  (moved : nat -> Z).

Definition transfer_error_text (e : TransferError) : string :=
  match e with
  | NoHostAttached => "no host attached to pool"
  | HostNotFound h => "host not found: " +:+ h
  | MissingPoolPath => "pool config missing 'path' field"
  | TransferDatabase e => "database error: " +:+ sqlx_text e
  | TransferFailed msg => "transfer failed: " +:+ msg
  end.

(** [download_file] and [copy_file] of the client: the bytes written. *)
Definition transfer_rpc (host : Host) (call : RpcCall) : M TransferError Z := fun o w =>
  match rpc host call o w with
  | (w', Ok RpcOk) => (w', Ok (moved (w_step w)))
  | (w', Ok r) => (w', Err (TransferFailed (rpc_error_text call r)))
  | (w', Err e) => (w', Err e)
  end.

(** What the node is asked to do with the file. *)
Definition transfer_call (t : Transfer) (destination : string) : RpcCall :=
  match tr_transfer_type t with
  | Download => DownloadFile (tr_id t) (tr_source t) destination
  | LocalCopy => CopyFile (tr_id t) (tr_source t) destination
  end.

Definition pool_path (pool : StoragePool) : option string :=
  json_get (sp_config pool) "path" ≫= json_as_str.
Definition transfer_destination (path : string) (t : Transfer) : string := path +:+ "/" +:+ tr_name t.

(** [FilesystemTransferExecutor]. *)
Definition filesystem_execute (transfer : Transfer) (pool : StoragePool) : M TransferError TransferResult :=
  host_id ← lift_err TransferDatabase (find_host_for_pool (sp_id pool));
  host_id ← of_result (ok_or NoHostAttached host_id);
  host ← lift_err TransferDatabase (get_by_id host_id);
  host ← of_result (ok_or (HostNotFound (uuid_to_string host_id)) host);
  path ← of_result (ok_or MissingPoolPath (pool_path pool));
  let destination := transfer_destination path transfer in
  bytes_written ← transfer_rpc host (transfer_call transfer destination);
  mret {| tx_bytes_written := bytes_written;
          tx_storage_config := JObject {["path"%string := JString destination]} |}.

(** [UnsupportedTransferExecutor]. *)
Definition unsupported_execute (transfer : Transfer) (pool : StoragePool) : M TransferError TransferResult :=
  throw (TransferFailed "OverlayBD pools do not support file transfers; use the OCI import path").

Definition executor_for_pool (pool : StoragePool)
  : Transfer -> StoragePool -> M TransferError TransferResult :=
  match sp_pool_type pool with
  | Local | Nfs => filesystem_execute
  | OverlayBd | Block => unsupported_execute
  end.

(** ** The handler *)

Definition infer_transfer_type (source : string) : TransferType :=
  match strip_prefix "http://" source, strip_prefix "https://" source with
  | None, None => LocalCopy
  | _, _ => Download
  end.

Definition create_transfer (pool_id : Uuid) (new_transfer : NewTransfer) : M Error Transfer :=
  pool ← sqlx_q (get_pool pool_id);
  transfer ← sqlx_q (create_transfer_row pool_id new_transfer (infer_transfer_type (nt_source new_transfer)));
  _ ← emit (EvTask (TransferTask transfer pool));
  mret transfer.

Definition transferred_object (transfer : Transfer) (result : TransferResult) : NewStorageObject :=
  {| no_name := tr_name transfer; no_storage_pool_id := Some (tr_storage_pool_id transfer);
     no_object_type := tr_object_type transfer; no_size_bytes := tx_bytes_written result;
     no_config := tx_storage_config result; no_parent_id := None |}.

Definition transfer_failed (transfer_id : Uuid) (msg : string) : M SqlxError unit :=
  _ ← attempt (mark_transfer_failed transfer_id msg);
  mret tt.

(** What follows a successful copy. *)
Definition record_transfer (transfer : Transfer) (result : TransferResult) : M SqlxError unit :=
  object ← attempt (create_object (transferred_object transfer result));
  match object with
  | Ok object_id =>
      _ ← attempt (mark_transfer_completed (tr_id transfer) object_id (tx_bytes_written result));
      mret tt
  | Err e => transfer_failed (tr_id transfer) ("Failed to create storage object: " +:+ sqlx_text e)
  end.

(** The spawned task. *)
Definition run_transfer (transfer : Transfer) (pool : StoragePool) : M SqlxError unit :=
  running ← attempt (mark_transfer_running (tr_id transfer));
  match running with
  | Err _ => mret tt
  | Ok _ =>
      result ← attempt (executor_for_pool pool transfer pool);
      match result with
      | Ok result => record_transfer transfer result
      | Err e => transfer_failed (tr_id transfer) (transfer_error_text e)
      end
  end.

Definition list_transfers (pool_id : Uuid) (name : option string) : M Error (list Transfer) :=
  sqlx_q (list_transfers_by_pool pool_id name).

(** The pool of the path is not compared with the transfer's. *)
Definition get_transfer_of_pool (pool_id transfer_id : Uuid) : M Error Transfer :=
  sqlx_q (get_transfer transfer_id).
End execution.

(** ** The outcome of a transfer *)

Section outcome.
Context `{UuidText} {coll : Collation}.
Variables (sqlx_text : SqlxError -> string) (rpc_error_text : RpcCall -> RpcOutcome -> string)
  (moved : nat -> Z).

Lemma update_transfer_run f id o w :
  served o ->
  exists t, update_transfer f id o w =
    (set_db (with_transfers (alter (f t) id) (w_db w)) (tick (tick w)), Ok tt).
Proof. intros Ho. exists (o_now o (w_step w)). unfold update_transfer, mbind, M_bind, now. by erewrite execute_served. Qed.

(** The executor only reads and calls the node. *)
Definition calls_only (w w' : World) : Prop := w_db w' = w_db w /\ log_grows w w'.
#[local] Instance calls_only_preorder : PreOrder calls_only.
Proof.
  split; [intros w; split; reflexivity|]. intros a b c [A1 A2] [B1 B2]. split; [congruence|by etransitivity].
Qed.
Lemma calls_only_reads {E A} (m : M E A) : steps same_but_step m -> steps calls_only m.
Proof. intros Hm o w. destruct (Hm o w) as (D&_&L). split; [done|]. exists []. by rewrite app_nil_r. Qed.
Lemma transfer_rpc_calls host call : steps calls_only (transfer_rpc rpc_error_text moved host call).
Proof.
  intros o w. unfold transfer_rpc, rpc. cbv zeta. destruct (o_rpc o (w_step w)); (split; [done|]; by eexists).
Qed.
Lemma execute_transfer_calls t pool :
  steps calls_only (executor_for_pool rpc_error_text moved pool t pool).
Proof.
  unfold executor_for_pool. destruct (sp_pool_type pool); try apply steps_throw; unfold filesystem_execute;
    repeat (first [apply steps_ret | apply steps_of_result | apply transfer_rpc_calls
                  | apply steps_lift_err, calls_only_reads, query_same_but_step
                  | apply steps_bind; [|intros ?] | progress cbv zeta]).
Qed.

(** A result was produced by the node: the file is at the destination. *)
Definition delivered (t : Transfer) (pool : StoragePool) (res : TransferResult) (w w' : World) : Prop :=
  exists host path,
    pool_path pool = Some path /\
    tx_storage_config res = JObject {["path"%string := JString (transfer_destination path t)]} /\
    logged w w' (accepted host (transfer_call t (transfer_destination path t))).

Lemma transfer_rpc_ok host call o w w' n :
  transfer_rpc rpc_error_text moved host call o w = (w', Ok n) -> logged w w' (accepted host call).
Proof.
  unfold transfer_rpc. destruct (rpc host call o w) as [w1 [[]|e]] eqn:Hr; intros [= <- _].
  by eapply rpc_logged.
Qed.

Lemma executed_delivers t pool o w w' res :
  executor_for_pool rpc_error_text moved pool t pool o w = (w', Ok res) -> delivered t pool res w w'.
Proof.
  unfold executor_for_pool. intros Hrun.
  assert (filesystem_execute rpc_error_text moved t pool o w = (w', Ok res)) as Hf
    by (destruct (sp_pool_type pool); first [exact Hrun | discriminate]).
  unfold filesystem_execute in Hf.
  apply bind_ok_inv in Hf as (h1&w1&H1&Hf). apply bind_ok_inv in Hf as (h2&w2&H2&Hf).
  apply bind_ok_inv in Hf as (h3&w3&H3&Hf). apply bind_ok_inv in Hf as (h4&w4&H4&Hf).
  apply bind_ok_inv in Hf as (path&w5&H5&Hf). cbv zeta in Hf.
  apply bind_ok_inv in Hf as (n&w6&H6&Hf). unfold mret, M_ret in Hf. injection Hf as <- <-.
  unfold of_result in H2, H4, H5. injection H2 as <- _. injection H4 as <- _.
  injection H5 as <- H5. apply ok_or_ok in H5. apply transfer_rpc_ok in H6.
  exists h4, path. split_and!; [done|done|]. eapply logged_grows_l; [|exact H6].
  apply lift_err_ok_inv in H1, H3. apply query_ok_inv in H1 as [_ ->], H3 as [_ ->].
  exists []. by rewrite app_nil_r.
Qed.

(** An object that comes with its path keeps it. *)
Lemma derive_config_path new pool_id id p :
  no_config new = JObject {["path"%string := JString p]} -> no_object_type new <> OverlaybdUpper ->
  derive_config new pool_id id = mret (no_config new).
Proof.
  intros Hc Ht. unfold derive_config. rewrite Hc, (bool_decide_eq_false_2 (_ = OverlaybdUpper)) by done.
  cbn [andb]. assert (absent (JObject {["path"%string := JString p]}) "path" = false) as -> by reflexivity.
  assert (absent (JObject {["path"%string := JString p]}) "lun" = true) as -> by reflexivity.
  rewrite andb_false_r. cbn [andb negb]. by rewrite andb_false_r.
Qed.

Lemma insert_object_config new hosts o w w' r p :
  no_config new = JObject {["path"%string := JString p]} -> no_object_type new <> OverlaybdUpper ->
  insert_object new hosts o w = (w', Ok r) -> so_config r = no_config new.
Proof.
  intros Hc Ht Hrun. apply bind_ok_inv in Hrun as ([[id pool] c]&w1&Hn&Hrun).
  apply bind_ok_inv in Hrun as ([]&w2&_&Hret). unfold mret, M_ret in Hret. injection Hret as _ <-.
  apply bind_ok_inv in Hn as (p'&w2'&_&Hn). apply bind_ok_inv in Hn as (u&w3&_&Hn).
  rewrite (derive_config_path new p' u p Hc Ht) in Hn. unfold mret, M_ret, mbind, M_bind in Hn.
  by injection Hn as _ _ _ <-.
Qed.

(** What a completed transfer has brought. *)
Definition brought (t : Transfer) (pool : StoragePool) (row' : Transfer) (w w' : World) : Prop :=
  exists host path obj,
    pool_path pool = Some path /\
    logged w w' (accepted host (transfer_call t (transfer_destination path t))) /\
    t_storage_objects (w_db w') = <[so_id obj := obj]> (t_storage_objects (w_db w)) /\
    tr_storage_object_id row' = Some (so_id obj) /\
    so_storage_pool_id obj = tr_storage_pool_id t /\ so_size_bytes obj = tr_transferred_bytes row' /\
    (tr_object_type t <> OverlaybdUpper ->
     get_path_from_config (so_config obj) = Some (transfer_destination path t)).

Definition transferred (t : Transfer) (pool : StoragePool) (w w' : World) : Prop :=
  exists row', t_transfers (w_db w') !! tr_id t = Some row' /\
    ((tr_status row' = TrCompleted /\ brought t pool row' w w') \/
     (tr_status row' = TrFailed /\ is_Some (tr_error_message row') /\
      t_storage_objects (w_db w') = t_storage_objects (w_db w))).

Lemma transfer_failed_run id msg o w w' r row :
  served o -> t_transfers (w_db w) !! id = Some row -> transfer_failed id msg o w = (w', r) ->
  r = Ok tt /\ (exists t, t_transfers (w_db w') !! id = Some (failed_transfer msg t row)) /\
  t_storage_objects (w_db w') = t_storage_objects (w_db w).
Proof.
  intros Ho Hrow Hrun. unfold transfer_failed in Hrun.
  destruct (update_transfer_run (failed_transfer msg) id o w Ho) as [t Ht].
  rewrite (attempt_bind_run _ _ _ _ _ _ Ht) in Hrun. injection Hrun as <- <-. split_and!; [done| |done].
  exists t. simpl. by rewrite lookup_alter_eq, Hrow.
Qed.

(** The object is created before the transfer is marked. *)
Lemma mark_completed_run id object n o w row :
  served o -> t_transfers (w_db w) !! id = Some row -> is_Some (t_storage_objects (w_db w) !! object) ->
  exists t, mark_transfer_completed id object n o w =
    (set_db (with_transfers (insert id (completed_transfer object n t row)) (w_db w)) (tick (tick w)), Ok tt).
Proof.
  intros Ho Hrow Hob. exists (o_now o (w_step w)). unfold mark_transfer_completed, mbind, M_bind, now.
  erewrite execute_served by (first [done | cbn [conn_db w_db tick]; by rewrite Hrow, bool_decide_eq_true_2]).
  done.
Qed.

Definition keeps_transfers (db db' : Db) : Prop := t_transfers db' = t_transfers db.
#[local] Instance keeps_transfers_preorder : PreOrder keeps_transfers.
Proof. split; [by intros ?|]. intros a b c A B. unfold keeps_transfers in *. congruence. Qed.

Lemma create_object_run new o w w' r :
  create_object new o w = (w', r) ->
  w_log w' = w_log w /\ keeps_transfers (w_db w) (w_db w') /\
  match r with Ok id => exists ob, insert_object new None o w = (w', Ok ob) /\ id = so_id ob
  | Err _ => w_db w' = w_db w end.
Proof.
  unfold create_object, create_returning. destruct (insert_object new None o w) as [w1 r1] eqn:Hi.
  assert (w_log w1 = w_log w /\ keeps_transfers (w_db w) (w_db w1) /\ (is_ok r1 = false -> w_db w1 = w_db w)) as Hk.
  { unfold insert_object in Hi. apply bind_cases in Hi as [(e&->&Hn)|([[id pool] c]&w2&Hn&Hi)];
      pose proof (resolve_new_object_reads new o w) as (D&_&L); rewrite Hn in D, L; simpl in D, L.
    { by rewrite D, L. }
    unfold mbind, M_bind, execute in Hi. destruct (o_sql o (w_step w2)); [by injection Hi as <- <-; simpl; rewrite D, L|].
    cbn [conn_db] in Hi.
    destruct (unit_result _) as [[db []]|e] eqn:Hu; injection Hi as <- <-; simpl; rewrite L;
      [|by rewrite D]. split_and!; [done| |done]. apply unit_result_inv in Hu.
    unfold insert_object_row in Hu. apply result_bind_ok in Hu as ([]&_&Hu).
    apply result_bind_ok in Hu as (obs&_&Hadj). apply adjust_inv in Hadj as (?&?&_&_&_&_&->).
    unfold keeps_transfers. simpl. by rewrite D. }
  destruct Hk as (L&K&E). unfold mbind, M_bind. rewrite Hi.
  destruct r1 as [ob|e]; intros [= <- <-]; (split_and!; [done|done|]); [by exists ob|by apply E].
Qed.

Lemma record_transfer_spec t pool res o w0 w w' r row :
  served o -> delivered t pool res w0 w -> t_storage_objects (w_db w) = t_storage_objects (w_db w0) ->
  t_transfers (w_db w) !! tr_id t = Some row ->
  record_transfer sqlx_text t res o w = (w', r) -> r = Ok tt /\ transferred t pool w0 w'.
Proof.
  intros Ho (host&path&Hpath&Hc&Hlog) Hobs Hrow Hrun. unfold record_transfer in Hrun.
  destruct (create_object (transferred_object t res) o w) as [w1 r1] eqn:Hcr.
  rewrite (attempt_bind_run _ _ _ _ _ _ Hcr) in Hrun.
  apply create_object_run in Hcr as (L1&K1&Hcr). unfold keeps_transfers in K1.
  destruct r1 as [id|e].
  - destruct Hcr as (ob&Hins&->). pose proof Hins as Hins'.
    apply insert_object_ok in Hins as (_&Hob&_&pool_id&config&Heq&Hp).
    assert (t_transfers (w_db w1) !! tr_id t = Some row) as Hrow1 by (rewrite K1; exact Hrow).
    assert (is_Some (t_storage_objects (w_db w1) !! so_id ob)) as Hsome by (rewrite Hob, lookup_insert_eq; eauto).
    destruct (mark_completed_run (tr_id t) (so_id ob) (tx_bytes_written res) o w1 row Ho Hrow1 Hsome) as [now Hm].
    rewrite (attempt_bind_run _ _ _ _ _ _ Hm) in Hrun. injection Hrun as <- <-. split; [done|].
    eexists. split; [simpl; apply lookup_insert_eq|]. left. split; [done|]. exists host, path, ob.
    split_and!; [done| |simpl; by rewrite Hob, Hobs|done|by rewrite Heq; apply Hp|by rewrite Heq|].
    + eapply logged_grows_r; [exact Hlog|]. exists []. by rewrite app_nil_r.
    + intros Ht. rewrite (insert_object_config (transferred_object t res) _ _ _ _ _ _ Hc Ht Hins'). simpl. by rewrite Hc.
  - apply (transfer_failed_run _ _ _ _ _ _ row Ho) in Hrun as (->&(n&Ht)&Hs); [|by rewrite K1]. split; [done|].
    eexists. split; [exact Ht|]. right. split_and!; [done|by eexists|]. by rewrite Hs, Hcr.
Qed.

Lemma run_transfer_spec t pool o w w' r row :
  served o -> t_transfers (w_db w) !! tr_id t = Some row ->
  run_transfer sqlx_text rpc_error_text moved t pool o w = (w', r) ->
  r = Ok tt /\ transferred t pool w w'.
Proof.
  intros Ho Hrow Hrun. unfold run_transfer in Hrun.
  destruct (update_transfer_run running_transfer (tr_id t) o w Ho) as [n Hn].
  rewrite (attempt_bind_run _ _ _ _ _ _ Hn) in Hrun.
  set (w1 := set_db _ _) in Hrun.
  assert (t_transfers (w_db w1) !! tr_id t = Some (running_transfer n row)) as Hrow1
    by (simpl; by rewrite lookup_alter_eq, Hrow).
  pose proof (execute_transfer_calls t pool o w1) as [D2 G2].
  destruct (executor_for_pool rpc_error_text moved pool t pool o w1) as [w2 r2] eqn:He. simpl in D2, G2.
  rewrite (attempt_bind_run _ _ _ _ _ _ He) in Hrun.
  assert (t_transfers (w_db w2) !! tr_id t = Some (running_transfer n row)) as Hrow2 by (rewrite D2; exact Hrow1).
  destruct r2 as [res|e].
  - apply executed_delivers in He. eapply (record_transfer_spec t pool res o w w2); [done| | |exact Hrow2|exact Hrun].
    + destruct He as (host&path&Hp&Hc&Hl). by exists host, path.
    + by rewrite D2.
  - apply (transfer_failed_run _ _ _ _ _ _ _ Ho Hrow2) in Hrun as (->&(m&Ht)&Hs). split; [done|].
    eexists. split; [exact Ht|]. right. split_and!; [done|by eexists|]. by rewrite Hs, D2.
Qed.

(** C35. A transfer whose row exists and whose statements are served always ends:
    it is [Completed], and then the node accepted the download or the copy to
    [pool path/name] and the pool has one new object of the reported size with that
    path, named by the row; or it is [Failed] with a message and no object was
    added. *)
Theorem transfer_outcome t pool o w w' r row :
  served o -> t_transfers (w_db w) !! tr_id t = Some row ->
  run_transfer sqlx_text rpc_error_text moved t pool o w = (w', r) ->
  r = Ok tt /\ transferred t pool w w'.
Proof. apply run_transfer_spec. Qed.
End outcome.

(** ** Witnesses and findings *)

Definition transfer_row (id : Uuid) : Transfer :=
  pending_transfer id 5 {| nt_name := "base.img"; nt_source := "http://mirror/base.img"; nt_object_type := Disk |}
    Download 0.
Definition images_pool (t : StoragePoolType) (config : json) : StoragePool :=
  {| sp_id := 5; sp_name := "images"; sp_pool_type := t; sp_status := Active; sp_config := config;
     sp_capacity_bytes := None; sp_allocated_bytes := Some 0 |}.
Definition local_pool : StoragePool := images_pool Local (JObject {["path"%string := JString "/srv/images"]}).
Definition transfer_db : Db :=
  with_hosts (fun _ => {[1%N := sample_host 1 "alpha" "10.0.0.1" HostUp 8 1000 1000]})
    (with_storage_pools (fun _ => {[5%N := local_pool]})
    (with_host_storage_pools (fun _ => {[(1%N, 5%N)]})
    (with_transfers (fun _ => <[20%N := transfer_row 20]> {[21%N := transfer_row 21]}) empty_db))).
Definition one_transfer (t : Transfer) (pool : StoragePool) : M SqlxError unit :=
  run_transfer (H := binary_uuid_text) (fun _ => "refused"%string) (fun _ _ => "refused"%string)
    (fun _ => 4096) t pool.

Lemma transfer_outcome_witness :
  let r := one_transfer (transfer_row 20) local_pool calm_oracle (world_of transfer_db) in
  tr_status <$> t_transfers (w_db r.1) !! 20%N = Some TrCompleted /\
  transferred (transfer_row 20) local_pool (world_of transfer_db) r.1.
Proof.
  intros r. split; [vm_compute; reflexivity|].
  destruct (transfer_outcome (H := binary_uuid_text) (fun _ => "refused"%string) (fun _ _ => "refused"%string)
    (fun _ => 4096) (transfer_row 20) local_pool calm_oracle (world_of transfer_db) r.1 r.2 (transfer_row 20))
    as [_ Ht]; [by intros n|vm_compute; reflexivity|apply surjective_pairing|exact Ht].
Defined.

(** The destination of a transfer is its name, and names are only compared when the
    object is stored: a second transfer of the same name has the node overwrite the
    file of the first object, and is then reported as failed. *)
Theorem transfer_overwrites_object :
  let w1 := (one_transfer (transfer_row 20) local_pool calm_oracle (world_of transfer_db)).1 in
  let w2 := (one_transfer (transfer_row 21) local_pool calm_oracle w1).1 in
  (get_path_from_config ∘ so_config <$> rows (t_storage_objects (w_db w1)) = [Some "/srv/images/base.img"%string]) /\
  t_storage_objects (w_db w2) = t_storage_objects (w_db w1) /\
  tr_status <$> t_transfers (w_db w2) !! 21%N = Some TrFailed /\
  logged w1 w2 (EvRpc "10.0.0.1" 50051 (DownloadFile 21 "http://mirror/base.img" "/srv/images/base.img") RpcOk).
Proof.
  intros w1 w2. split_and!; try (vm_compute; reflexivity).
  eexists [_]. split; [vm_compute; reflexivity|]. constructor.
Qed.

(** Transfers use the [path] of the pool's configuration, which an NFS pool does
    not have (its files are under the mount point): every transfer into one fails
    without contacting a node. *)
Theorem nfs_transfer_always_fails `{UuidText} `{Collation} sqlx_text rpc_text moved t pool o w w' r row :
  sp_pool_type pool = Nfs -> json_get (sp_config pool) "path" = None -> served o ->
  t_transfers (w_db w) !! tr_id t = Some row ->
  run_transfer sqlx_text rpc_text moved t pool o w = (w', r) ->
  tr_status <$> t_transfers (w_db w') !! tr_id t = Some TrFailed.
Proof.
  intros Hn Hp Ho Hrow Hrun. pose proof (run_transfer_spec sqlx_text rpc_text moved t pool o w w' r row Ho Hrow Hrun)
    as (_&row'&Hrow'&[[_ (h&p&ob&Hpath&_)]|[Hs _]]).
  - unfold pool_path in Hpath. by rewrite Hp in Hpath.
  - rewrite Hrow'. simpl. by rewrite Hs.
Qed.
