(* ===== verification/PoolOps.v ===== *)
(** * PoolOps: operations on storage pools

    [qarax/src/handlers/storage_pool/handler.rs]: creating a pool and attaching it
    to hosts, creating a blank or downloaded disk, importing an image, registering
    a LUN; with the handlers of [qarax/src/handlers/storage_object/handler.rs].

    - [sqlx_text] and [rpc_error_text] are the texts of errors, [overlaybd_url] is
      the serde form of an OverlayBD pool's configuration.
    - [written n] is the number of bytes the final message of the call of step [n]
      reports, [imported n] what an import returns. *)

From S2P Require Import Prelude Text Errors Tables Float64 NodeApi World Samples VmConfig Hooks Vms Jobs.
From S2P Require Import Storage Gpus Hosts StorageObjects Networks Devices Catalog SecurityGroups.
From S2P Require Import NetworkPolicy CreateRequest VmLifecycle VmCreate.
#[local] Open Scope Z_scope.
#[local] Set Default Proof Using "Type".

Record CreateDiskRequest := {
  cd_name : string;
  cd_size_bytes : option Z;
  cd_source_url : option string;
  cd_preallocate : bool
}.

Record CreateDiskResponse := { cdr_storage_object_id : Uuid; cdr_job_id : option Uuid }.

Record ImportToPoolRequest := { ip_name : string; ip_image_ref : string }.

Record RegisterLunRequest := { rl_name : string; rl_lun : Z; rl_size_bytes : Z }.

(** [l as u32]. *)
Definition as_u32 (n : Z) : Z := n mod 4294967296.

Section pool_ops.
Context `{UuidText} {coll : Collation}.
Variables (sqlx_text : SqlxError -> string) (rpc_error_text : RpcCall -> RpcOutcome -> string)
  (overlaybd_url : json -> option string) (imported : nat -> OverlayBdImport) (written : nat -> Z).

(** ** Pools and hosts *)

(** A shared pool is attached to every host by a task. *)
Definition create_storage_pool (new_pool : NewStoragePool) : M Error Uuid :=
  id ← sqlx_q (create_pool new_pool);
  _ ← (if is_shared (ns_pool_type new_pool) then emit (EvTask (AttachPoolTask id)) else mret tt);
  mret id.

Definition attach_pool_to (pool : StoragePool) (id : Uuid) (host : Host) : M SqlxError unit :=
  r ← rpc host (AttachStoragePool (sp_id pool));
  match r with
  | RpcOk => _ ← attempt (attach_pool_host id (h_id host)); mret tt
  | _ => mret tt
  end.

Definition run_attach_pool (id : Uuid) : M SqlxError unit :=
  pool ← attempt (get_pool id);
  match pool with
  | Err _ => mret tt
  | Ok pool =>
      up_hosts ← attempt list_up;
      match up_hosts with
      | Err _ => mret tt
      | Ok up_hosts => for_all_m (attach_pool_to pool id) up_hosts
      end
  end.

Definition delete_storage_pool (pool_id : Uuid) : M Error unit := sqlx_q (delete_pool pool_id).

(** The node first, then the row. *)
Definition pool_call (what : string) (host : Host) (call : RpcCall) : M Error unit :=
  r ← rpc host call;
  match r with
  | RpcOk => mret tt
  | _ => throw (UnprocessableEntity (what +:+ rpc_error_text call r))
  end.

Definition attach_host_to_pool (pool_id host_id : Uuid) : M Error unit :=
  pool ← sqlx_q (get_pool pool_id);
  host ← require_by_id host_id;
  _ ← pool_call "Failed to attach pool to node: " host (AttachStoragePool (sp_id pool));
  sqlx_q (attach_pool_host pool_id host_id).

Definition detach_host_from_pool (pool_id host_id : Uuid) : M Error unit :=
  pool ← sqlx_q (get_pool pool_id);
  host ← require_by_id host_id;
  _ ← pool_call "Failed to detach pool from node: " host (DetachStoragePool (sp_id pool));
  sqlx_q (detach_pool_host pool_id host_id).

Definition require_up_host_for_pool (pool_id : Uuid) : M Error Host :=
  host_id ← lift_err (fun _ => InternalServerError) (find_host_for_pool pool_id);
  host_id ← of_result (ok_or (UnprocessableEntity "No host attached to this storage pool") host_id);
  host ← require_by_id host_id;
  if bool_decide (h_status host = HostUp) then mret host
  else throw (UnprocessableEntity "No UP host attached to this storage pool").

(** ** Disks *)

(** The requested size; zero until a download tells it. *)
Definition disk_size (req : CreateDiskRequest) : result Error Z :=
  match cd_size_bytes req, cd_source_url req with
  | Some n, _ => if n <=? 0 then Err (UnprocessableEntity "size_bytes must be greater than 0") else Ok n
  | None, Some _ => Ok 0
  | None, None => Err (UnprocessableEntity "size_bytes is required when source_url is not provided")
  end.

Definition check_disk_pool (pool : StoragePool) (is_blank_disk : bool) (size_bytes : Z) : result Error unit :=
  if negb (bool_decide (sp_pool_type pool ∈ [Local; Nfs]))
  then Err (UnprocessableEntity "Disks can only be created in Local or NFS pools")
  else if negb (bool_decide (sp_status pool = Active))
  then Err (UnprocessableEntity "Storage pool is not active")
  else if is_blank_disk then
    match sp_capacity_bytes pool, sp_allocated_bytes pool with
    | Some capacity, Some allocated =>
        let available := as_i64 (capacity - allocated) in
        if available <? size_bytes
        then Err (UnprocessableEntity ("Insufficient pool capacity: requested " +:+ pretty size_bytes
               +:+ " bytes but only " +:+ pretty available +:+ " available"))
        else Ok tt
    | _, _ => Ok tt
    end
  else Ok tt.

(** [create_disk] of the client: a download carries no [preallocate]. *)
Definition create_disk_msg (path : string) (size_bytes : Z) (source_url : option string)
    (preallocate : bool) : RpcCall :=
  CreateDisk path size_bytes source_url (match source_url with Some _ => false | None => preallocate end).

Definition node_create_disk (host : Host) (path : string) (size_bytes : Z) (source_url : option string)
    (preallocate : bool) {E} : M E (result string Z) := fun o w =>
  let call := create_disk_msg path size_bytes source_url preallocate in
  match rpc host call o w with
  | (w', Ok RpcOk) => (w', Ok (Ok (written (w_step w))))
  | (w', Ok r) => (w', Ok (Err (rpc_error_text call r)))
  | (w', Err e) => (w', Err e)
  end.

Definition blank_object (req : CreateDiskRequest) (pool_id : Uuid) (size_bytes : Z) : NewStorageObject :=
  {| no_name := cd_name req; no_storage_pool_id := Some pool_id; no_object_type := Disk;
     no_size_bytes := size_bytes; no_config := JObject ∅; no_parent_id := None |}.

Definition disk_job (req : CreateDiskRequest) (source_url : string) (object : Uuid) : NewJob :=
  {| nj_job_type := DiskCreate;
     nj_description := Some ("Creating disk " +:+ cd_name req +:+ " from " +:+ source_url);
     nj_resource_id := Some object; nj_resource_type := Some "storage_object"%string |}.

(** The transaction only holds the lock of the object's row. *)
Definition create_blank_disk (host : Host) (object : Uuid) (path : string) (size_bytes : Z)
    (preallocate : bool) : M Error CreateDiskResponse :=
  result ← in_tx from_sqlx
    (_ ← sqlx_q (get_object_for_update object);
     node_create_disk host path size_bytes None preallocate);
  match result with
  | Ok _ => mret {| cdr_storage_object_id := object; cdr_job_id := None |}
  | Err e =>
      _ ← (attempt (delete_object object) : M Error _);
      throw (UnprocessableEntity ("Failed to create disk on node: " +:+ e))
  end.

Definition create_pool_disk (pool_id : Uuid) (req : CreateDiskRequest) : M Error CreateDiskResponse :=
  size_bytes ← of_result (disk_size req);
  pool ← sqlx_q (get_pool pool_id);
  _ ← of_result (check_disk_pool pool (bool_decide (cd_source_url req = None)) size_bytes);
  host ← require_up_host_for_pool pool_id;
  object ← sqlx_q (create_managed (blank_object req pool_id size_bytes) (h_id host));
  so ← sqlx_q (get_object object);
  dest_path ← of_result (ok_or InternalServerError (get_path_from_config (so_config so)));
  match cd_source_url req with
  | Some source_url =>
      job ← sqlx_q (Jobs.create (disk_job req source_url object));
      _ ← emit (EvTask (CreateDiskTask host object (j_id job) dest_path size_bytes source_url
                          (cd_preallocate req)));
      mret {| cdr_storage_object_id := object; cdr_job_id := Some (j_id job) |}
  | None => create_blank_disk host object dest_path size_bytes (cd_preallocate req)
  end.

(** The download task.  [None] for the deletion: the object stays. *)
Definition disk_failed (job_id : Uuid) (object : option Uuid) (msg : string) : M SqlxError unit :=
  _ ← (attempt (Jobs.mark_failed job_id msg) : M SqlxError _);
  match object with
  | Some id => _ ← (attempt (delete_object id) : M SqlxError _); mret tt
  | None => mret tt
  end.

Definition disk_result (object : Uuid) (bytes_written : Z) : json :=
  JObject (<["storage_object_id"%string := JString (uuid_to_string object)]>
          (<["bytes_written"%string := JNumber bytes_written]> ∅)).

(** What follows an accepted download, the lock still held. *)
Definition account_disk (object job_id : Uuid) (bytes_written : Z) : M SqlxError unit :=
  _ ← refresh_tx;
  sized ← attempt (update_size_bytes_tx object bytes_written);
  match sized with
  | Err e =>
      _ ← drop_tx;
      disk_failed job_id (Some object) ("Failed to account for downloaded disk: " +:+ sqlx_text e)
  | Ok _ =>
      committed ← attempt commit_tx;
      match committed with
      | Err e => disk_failed job_id (Some object) (sqlx_text e)
      | Ok _ =>
          _ ← (attempt (Jobs.mark_completed job_id (Some (disk_result object bytes_written))) : M SqlxError _);
          mret tt
      end
  end.

Definition run_disk_create (host : Host) (object job_id : Uuid) (dest_path : string) (size_bytes : Z)
    (source_url : string) (preallocate : bool) : M SqlxError unit :=
  reservation ← attempt (_ ← begin_tx; get_object_for_update object);
  match reservation with
  | Err err => _ ← drop_tx; disk_failed job_id None (sqlx_text err)
  | Ok _ =>
      running ← attempt (Jobs.mark_running job_id);
      match running with
      | Err _ => drop_tx
      | Ok _ =>
          result ← node_create_disk host dest_path size_bytes (Some source_url) preallocate;
          match result with
          | Ok bytes_written => account_disk object job_id bytes_written
          | Err e => _ ← drop_tx; disk_failed job_id (Some object) ("Disk creation failed: " +:+ e)
          end
      end
  end.

(** ** Images *)

Definition import_object (pool_id : Uuid) (req : ImportToPoolRequest) : NewStorageObject :=
  {| no_name := ip_name req; no_storage_pool_id := Some pool_id; no_object_type := OciImage;
     no_size_bytes := 0; no_config := JObject {["image_ref"%string := JString (ip_image_ref req)]};
     no_parent_id := None |}.

Definition import_job (pool_id object : Uuid) (req : ImportToPoolRequest) : NewJob :=
  {| nj_job_type := ImagePull;
     nj_description := Some ("Importing " +:+ ip_image_ref req +:+ " into pool " +:+ uuid_to_string pool_id);
     nj_resource_id := Some object; nj_resource_type := Some "storage_object"%string |}.

(** The job and the object. *)
Definition import_to_pool (pool_id : Uuid) (req : ImportToPoolRequest) : M Error (Uuid * Uuid) :=
  pool ← sqlx_q (get_pool pool_id);
  host ← require_up_host_for_pool pool_id;
  object ← sqlx_q (create_object (import_object pool_id req));
  job ← sqlx_q (Jobs.create (import_job pool_id object req));
  _ ← emit (EvTask (ImportTask host object (j_id job) (ip_image_ref req) pool));
  mret (j_id job, object).

Definition imported_config (r : OverlayBdImport) (registry_url : string) : json :=
  JObject (<["image_ref"%string := JString (oi_image_ref r)]>
          (<["digest"%string := JString (oi_digest r)]>
          (<["registry_url"%string := JString registry_url]> ∅))).

Definition import_result (r : OverlayBdImport) (object : Uuid) : json :=
  JObject (<["image_ref"%string := JString (oi_image_ref r)]>
          (<["digest"%string := JString (oi_digest r)]>
          (<["storage_object_id"%string := JString (uuid_to_string object)]> ∅))).

Definition run_import (host : Host) (object job_id : Uuid) (image_ref : string) (pool : StoragePool)
  : M SqlxError unit :=
  running ← attempt (Jobs.mark_running job_id);
  match running with
  | Err _ => mret tt
  | Ok _ =>
      match overlaybd_url (sp_config pool) with
      | None => disk_failed job_id None "OverlayBD pool config missing 'url' field"
      | Some registry_url =>
          r ← attempt (import_overlaybd_image rpc_error_text imported host image_ref registry_url);
          match r with
          | Ok r =>
              _ ← (attempt (update_object_config object (imported_config r registry_url)) : M SqlxError _);
              _ ← (attempt (Jobs.mark_completed job_id (Some (import_result r object))) : M SqlxError _);
              mret tt
          | Err e => disk_failed job_id (Some object) ("Failed to import OverlayBD image: " +:+ e)
          end
      end
  end.

(** ** LUNs *)

Definition lun_of (o : StorageObject) : option Z :=
  as_u32 <$> (json_get (so_config o) "lun" ≫= json_as_i64).

Definition lun_object (pool_id : Uuid) (req : RegisterLunRequest) : NewStorageObject :=
  {| no_name := rl_name req; no_storage_pool_id := Some pool_id; no_object_type := Disk;
     no_size_bytes := rl_size_bytes req; no_config := JObject {["lun"%string := JNumber (rl_lun req)]};
     no_parent_id := None |}.

Definition check_lun (pool_id : Uuid) (req : RegisterLunRequest) : M Error unit :=
  pool ← sqlx_q (get_pool pool_id);
  if negb (bool_decide (sp_pool_type pool = Block))
  then throw (UnprocessableEntity "LUN registration is only valid for BLOCK pools")
  else if rl_size_bytes req <=? 0
  then throw (UnprocessableEntity "size_bytes must be greater than 0")
  else
    existing ← sqlx_q (list_objects None (Some pool_id) None);
    if existsb (fun o => bool_decide (lun_of o = Some (rl_lun req))) existing
    then throw (Conflict ("LUN " +:+ pretty (rl_lun req) +:+ " is already registered in this pool"))
    else mret tt.

Definition insert_lun (pool_id : Uuid) (req : RegisterLunRequest) : M Error CreateDiskResponse :=
  object ← sqlx_q (create_object (lun_object pool_id req));
  mret {| cdr_storage_object_id := object; cdr_job_id := None |}.

Definition register_lun (pool_id : Uuid) (req : RegisterLunRequest) : M Error CreateDiskResponse :=
  _ ← check_lun pool_id req;
  insert_lun pool_id req.

(** ** Objects *)

Definition create_storage_object (new_object : NewStorageObject) : M Error Uuid :=
  sqlx_q (create_object new_object).
End pool_ops.

(** ** A disk that is downloaded *)

Section disk_facts.
Context `{UuidText} {coll : Collation}.
Variables (sqlx_text : SqlxError -> string) (rpc_error_text : RpcCall -> RpcOutcome -> string)
  (overlaybd_url : json -> option string) (imported : nat -> OverlayBdImport) (written : nat -> Z).

Lemma update_job_run f id o w row :
  served o -> t_jobs (w_db w) !! id = Some row -> (forall t, progress_ok (f t row) = true) ->
  exists t, update_job f id o w = (set_db (with_jobs (<[id := f t row]>) (w_db w)) (tick (tick w)), Ok tt).
Proof.
  intros Ho Hrow Hf. exists (o_now o (w_step w)). unfold update_job, mbind, M_bind, now.
  erewrite execute_served; [done|done|]. cbn [conn_db tick w_db]. by rewrite Hrow, Hf.
Qed.

Lemma commit_served o w :
  served o -> commit_tx o w = (set_tx None (set_db (default (w_db w) (w_tx w)) (tick w)), Ok tt).
Proof. intros Ho. unfold commit_tx. by rewrite Ho. Qed.

Lemma queue_cleanup_objects ob t db db' :
  queue_storage_cleanup ob t db = Ok db' -> t_storage_objects db' = t_storage_objects db.
Proof.
  unfold queue_storage_cleanup, store_allocated. destruct (so_managed_host_ids ob); [|by intros [= <-]].
  intros (c&_&Hq)%result_bind_ok. cbv zeta in Hq.
  destruct (t_storage_pools _ !! _) as [p|]; [|by injection Hq as <-].
  destruct (sp_allocated_bytes p); [|done]. destruct (negb _); [done|]. destruct (_ <? 0); [done|].
  by injection Hq as <-.
Qed.

Lemma delete_object_row_objects id t db db' :
  delete_object_row id t db = Ok db' -> t_storage_objects db' = delete id (t_storage_objects db).
Proof.
  unfold delete_object_row. destruct (t_storage_objects db !! id) as [ob|] eqn:Hob;
    [|intros [= <-]; symmetry; by apply delete_id].
  intros ([]&_&(db1&Hadj&Hq)%result_bind_ok)%result_bind_ok.
  apply adjust_inv in Hadj as (?&?&_&_&_&_&->). by apply queue_cleanup_objects in Hq.
Qed.

(** The object is kept or removed. *)
Definition object_at_most_removed (id : Uuid) (db db' : Db) : Prop :=
  t_storage_objects db' = t_storage_objects db \/ t_storage_objects db' = delete id (t_storage_objects db).

Lemma delete_object_run id o w w' r :
  delete_object id o w = (w', r) ->
  w_tx w' = w_tx w /\ w_log w' = w_log w /\ t_jobs (w_db w') = t_jobs (w_db w) /\
  object_at_most_removed id (w_db w) (w_db w').
Proof.
  intros Hrun. pose proof (delete_object_m_only id o w) as Hs. rewrite Hrun in Hs. simpl in Hs.
  apply sto_jobs in Hs. revert Hrun. unfold delete_object, mbind, M_bind, now, execute. cbn [fst snd].
  destruct (o_sql o _); [intros [= <- <-]; split_and!; try done; by left|].
  destruct (unit_result _) as [[db []]|e] eqn:Hu; intros [= <- <-]; (split_and!; try done); [right|by left].
  apply unit_result_inv in Hu. by apply delete_object_row_objects in Hu.
Qed.

Definition download_job_failed (job : Uuid) (db : Db) : Prop :=
  exists j, t_jobs db !! job = Some j /\ j_status j = JobFailed /\ is_Some (j_error j).

Lemma disk_failed_run job object msg o w w' r row :
  served o -> t_jobs (w_db w) !! job = Some row -> progress_ok row = true ->
  disk_failed job object msg o w = (w', r) ->
  r = Ok tt /\ w_tx w' = w_tx w /\ w_log w' = w_log w /\ download_job_failed job (w_db w') /\
  (match object with
   | Some id => object_at_most_removed id (w_db w) (w_db w')
   | None => t_storage_objects (w_db w') = t_storage_objects (w_db w) end).
Proof.
  intros Ho Hrow Hp Hrun. unfold disk_failed in Hrun.
  destruct (update_job_run (failed_job_row msg None) job o w row Ho Hrow (fun _ => Hp)) as [t Ht].
  rewrite (attempt_bind_run _ _ _ _ _ _ Ht) in Hrun. set (w1 := set_db _ _) in Hrun.
  assert (t_jobs (w_db w1) !! job = Some (failed_job_row msg None t row)) as Hj by apply lookup_insert_eq.
  destruct object as [id|]; [|injection Hrun as <- <-; split_and!; try done; eexists; by split_and!].
  destruct (delete_object id o w1) as [w2 r2] eqn:Hd. rewrite (attempt_bind_run _ _ _ _ _ _ Hd) in Hrun.
  injection Hrun as <- <-. apply delete_object_run in Hd as (X&L&J&Hd). split_and!; try done.
  eexists. rewrite J. by split_and!.
Qed.

(** A completed download: the node accepted it, the object has the reported size. *)
Definition downloaded (host : Host) (object job : Uuid) (path : string) (size : Z) (url : string)
    (row : Job) (w w' : World) : Prop :=
  exists ob n started t,
    t_jobs (w_db w') !! job = Some (completed_row (Some (disk_result object n)) t (running_row started row)) /\
    t_storage_objects (w_db w) !! object = Some ob /\
    t_storage_objects (w_db w') = <[object := set_object_size n ob]> (t_storage_objects (w_db w)) /\
    logged w w' (accepted host (CreateDisk path size (Some url) false)).

(** A refused one: the object is gone unless it is in use. *)
Definition not_downloaded (object job : Uuid) (w w' : World) : Prop :=
  download_job_failed job (w_db w') /\ object_at_most_removed object (w_db w) (w_db w').

Lemma resize_row_objects id n db db' ob :
  t_storage_objects db !! id = Some ob -> resize_object_row id n db = Ok db' ->
  t_storage_objects db' = <[id := set_object_size n ob]> (t_storage_objects db) /\ t_jobs db' = t_jobs db.
Proof.
  intros Hob. unfold resize_object_row. rewrite Hob. destruct (n <? 0); [done|].
  by intros (?&?&_&_&_&_&->)%adjust_inv.
Qed.

Lemma account_disk_run object job n o w w' r row ob :
  served o -> t_jobs (w_db w) !! job = Some row -> progress_ok row = true ->
  t_storage_objects (w_db w) !! object = Some ob ->
  account_disk sqlx_text object job n o w = (w', r) ->
  r = Ok tt /\ w_tx w' = None /\ w_log w' = w_log w /\
  ((exists t, t_jobs (w_db w') !! job = Some (completed_row (Some (disk_result object n)) t row) /\
      t_storage_objects (w_db w') = <[object := set_object_size n ob]> (t_storage_objects (w_db w))) \/
   not_downloaded object job w w').
Proof.
  intros Ho Hrow Hp Hob Hrun. unfold account_disk in Hrun.
  rewrite (bind_run _ _ _ _ _ _ (eq_refl : (refresh_tx : M SqlxError unit) o w = _)) in Hrun.
  unfold update_size_bytes_tx, update_size_on in Hrun.
  destruct (resize_object_row object n (w_db w)) as [db|e] eqn:Hr.
  - erewrite attempt_bind_run in Hrun by (apply execute_served; [done|cbn; by rewrite Hr]).
    cbn beta match in Hrun. erewrite attempt_bind_run in Hrun by (by apply commit_served).
    destruct (resize_row_objects _ _ _ _ _ Hob Hr) as [T J]. cbn beta match in Hrun.
    match type of Hrun with (attempt ?m ≫= _) ?o ?w1 = _ =>
      destruct (update_job_run (completed_row (Some (disk_result object n))) job o w1 row) as [t Ht];
        [done|simpl; by rewrite J|done|] end.
    rewrite (attempt_bind_run _ _ _ _ _ _ Ht) in Hrun. injection Hrun as <- <-.
    split_and!; [done|done|done|]. left. exists t. split; [simpl; apply lookup_insert_eq|exact T].
  - assert (execute Tx (fun db => unit_result (resize_object_row object n db)) o (set_tx (Some (w_db w)) w)
            = (tick (set_tx (Some (w_db w)) w), Err e)) as Hx.
    { unfold execute. cbn [set_tx w_step]. rewrite Ho. cbn. by rewrite Hr. }
    rewrite (attempt_bind_run _ _ _ _ _ _ Hx) in Hrun.
    rewrite (bind_run _ _ _ _ _ _ (eq_refl : (drop_tx : M SqlxError unit) o _ = _)) in Hrun.
    apply (disk_failed_run _ _ _ _ _ _ _ row Ho) in Hrun as (->&X&L&J&O); [|exact Hrow|exact Hp].
    split_and!; [done|by rewrite X|by rewrite L|]. right. by split.
Qed.

Lemma node_create_disk_run {E} host path size url prealloc o w :
  exists w1 (r : result string Z),
    (node_create_disk rpc_error_text written host path size url prealloc : M E _) o w = (w1, Ok r) /\
    w_db w1 = w_db w /\ w_tx w1 = w_tx w /\ log_grows w w1 /\
    (is_ok r = true -> logged w w1 (accepted host (create_disk_msg path size url prealloc))).
Proof.
  unfold node_create_disk. destruct (rpc (E := E) host (create_disk_msg path size url prealloc) o w)
    as [w1 [r|e]] eqn:Hr; [|discriminate].
  assert (w_db w1 = w_db w /\ w_tx w1 = w_tx w /\ log_grows w w1) as (D&X&G).
  { unfold rpc in Hr. injection Hr as <- _. split_and!; [done|done|by eexists]. }
  destruct r; eexists _, _; (split; [reflexivity|]); (split_and!; [done|done|done|]); [|done|done].
  intros _. by eapply rpc_logged.
Qed.

(** A disk populated from a URL: the task always ends its job and closes its
    transaction.  Either the job is [Completed], the node accepted the download to
    the object's path and the object has the size the node reported, or the job is
    [Failed] and the object, when it may be, is removed; no other object changes. *)
Theorem disk_task_outcome host object job path size url prealloc o w w' r row :
  served o -> t_jobs (w_db w) !! job = Some row -> progress_ok row = true ->
  run_disk_create sqlx_text rpc_error_text written host object job path size url prealloc o w = (w', r) ->
  r = Ok tt /\ w_tx w' = None /\
  (downloaded host object job path size url row w w' \/ not_downloaded object job w w').
Proof.
  intros Ho Hrow Hp Hrun. unfold run_disk_create in Hrun.
  set (w1 := set_tx (Some (w_db w)) (tick w)).
  assert ((_ ← begin_tx; get_object_for_update object) o w
          = (tick w1, fetch_one (t_storage_objects (w_db w) !! object))) as Hres.
  { unfold mbind, M_bind, begin_tx. rewrite Ho. unfold get_object_for_update. by rewrite query_served. }
  rewrite (attempt_bind_run _ _ _ _ _ _ Hres) in Hrun.
  destruct (t_storage_objects (w_db w) !! object) as [ob|] eqn:Hob; cbn [fetch_one ok_or] in Hrun.
  2:{ rewrite (bind_run _ _ _ _ _ _ (eq_refl : (drop_tx : M SqlxError unit) o _ = _)) in Hrun.
      apply (disk_failed_run _ _ _ _ _ _ _ row Ho) in Hrun as (->&X&_&J&O); [|exact Hrow|exact Hp].
      split_and!; [done|by rewrite X|]. right. split; [done|by left]. }
  destruct (update_job_run running_row job o (tick w1) row Ho Hrow (fun _ => Hp)) as [t Ht].
  rewrite (attempt_bind_run _ _ _ _ _ _ Ht) in Hrun.
  set (w2 := set_db _ _) in Hrun.
  assert (t_jobs (w_db w2) !! job = Some (running_row t row)) as Hj by apply lookup_insert_eq.
  destruct (node_create_disk_run (E := SqlxError) host path size (Some url) prealloc o w2)
    as (w3&r3&H3&D3&X3&G3&Hlog). rewrite (bind_run _ _ _ _ _ _ H3) in Hrun.
  assert (t_jobs (w_db w3) !! job = Some (running_row t row)) as Hj3 by (rewrite D3; exact Hj).
  assert (t_storage_objects (w_db w3) = t_storage_objects (w_db w)) as T3 by (by rewrite D3).
  destruct r3 as [n|e].
  - apply (account_disk_run _ _ _ _ _ _ _ (running_row t row) ob Ho Hj3 Hp) in Hrun
      as (->&X&L&Hout); [|by rewrite T3]. split_and!; [done|done|].
    destruct Hout as [(t'&J&T)|[J O]]; [left|right].
    + exists ob, n, t, t'. split_and!; [done|done|by rewrite T, T3|]. destruct (Hlog eq_refl) as (l&Hl&Hin).
      exists l. split; [by rewrite L, Hl|done].
    + split; [done|]. unfold object_at_most_removed in *. by rewrite T3 in O.
  - rewrite (bind_run _ _ _ _ _ _ (eq_refl : (drop_tx : M SqlxError unit) o _ = _)) in Hrun.
    apply (disk_failed_run _ _ _ _ _ _ _ (running_row t row) Ho) in Hrun as (->&X&_&J&O); [|exact Hj3|exact Hp].
    split_and!; [done|by rewrite X|]. right. split; [done|]. unfold object_at_most_removed in *.
    change (w_db (set_tx None w3)) with (w_db w3) in O. by rewrite T3 in O.
Qed.
End disk_facts.

(** ** Deletion *)

Lemma unfinished_job_blocks_delete `{UuidText} text id job j o w :
  served o -> t_jobs (w_db w) !! job = Some j -> j_resource_id j = Some id ->
  j_status j = JobPending \/ j_status j = JobRunning ->
  (delete_storage_object text id o w).2 = Err (Conflict "Storage object is still being created").
Proof.
  intros Ho Hj Hid Hst. unfold delete_storage_object.
  unfold mbind at 1, M_bind at 1, lift_err at 1. rewrite query_served by done. cbn [map_err conn_db].
  assert (existsb (fun j => bool_decide (j_resource_id j = Some id)
    && bool_decide (j_status j ∈ [JobPending; JobRunning])) (rows (t_jobs (w_db w))) = true) as ->.
  { apply existsb_exists. exists j. split; [apply list_elem_of_In, elem_of_rows; by exists job|].
    rewrite !bool_decide_eq_true_2; [done|destruct Hst as [-> | ->]; set_solver|done]. }
  done.
Qed.

(** ** LUNs are registered once *)

Section lun_facts.
Context `{UuidText} {coll : Collation}.

Definition luns_distinct (db : Db) : Prop :=
  forall i j a b, t_storage_objects db !! i = Some a -> t_storage_objects db !! j = Some b ->
    so_storage_pool_id a = so_storage_pool_id b -> is_Some (lun_of a) -> lun_of a = lun_of b -> i = j.

Lemma derive_config_lun new pool_id id n o w w' c :
  no_object_type new = Disk -> no_config new = JObject {["lun"%string := JNumber n]} ->
  derive_config new pool_id id o w = (w', Ok c) -> in_range i64_min i64_max n = true ->
  json_get c "lun" = Some (JNumber n).
Proof.
  intros Ht Hc Hrun Hn. unfold derive_config in Hrun. rewrite Ht, Hc in Hrun.
  assert (absent (JObject {["lun"%string := JNumber n]}) "lun" = false) as Ha by reflexivity.
  rewrite Ha, andb_false_r in Hrun. cbn [negb andb] in Hrun.
  rewrite (bool_decide_eq_false_2 (Disk = OverlaybdUpper)), bool_decide_eq_true_2 in Hrun by done.
  cbn [andb] in Hrun. apply bind_ok_inv in Hrun as (p&w1&_&Hrun). unfold mret, M_ret in Hrun.
  injection Hrun as _ <-. destruct p as [p|]; [|done]. case_bool_decide; [|done].
  unfold lun_config. change (json_get (JObject {["lun"%string := JNumber n]}) "lun") with (Some (JNumber n)).
  assert ((Some (JNumber n) ≫= json_as_i64) = Some n) as -> by (simpl; by rewrite Hn). reflexivity.
Qed.

Lemma check_lun_ok pool_id req o w w' :
  check_lun pool_id req o w = (w', Ok tt) ->
  same_but_step w w' /\ 0 < rl_size_bytes req /\
  forall i ob, t_storage_objects (w_db w) !! i = Some ob -> so_storage_pool_id ob = pool_id ->
    lun_of ob <> Some (rl_lun req).
Proof.
  intros Hrun. split.
  { eapply (reads_run (check_lun pool_id req)); [|done]. unfold check_lun, get_pool, list_objects. steps_tac. }
  apply bind_ok_inv in Hrun as (p&w1&Hp&Hrun). apply lift_err_ok_inv, query_ok_inv in Hp as [_ ->].
  destruct (negb _); [discriminate|]. destruct (Z.leb_spec (rl_size_bytes req) 0); [discriminate|].
  split; [done|]. apply bind_ok_inv in Hrun as (l&w2&Hl&Hrun). apply lift_err_ok_inv, query_ok_inv in Hl as [Hl ->].
  injection Hl as <-. destruct (existsb _ _) eqn:He; [discriminate|]. intros i ob Hob Hpool Hlun.
  apply Bool.not_true_iff_false in He. apply He, existsb_exists. exists ob.
  split; [|by apply bool_decide_eq_true_2]. apply List.filter_In. split.
  - apply list_elem_of_In, elem_of_rows. by exists i.
  - rewrite (bool_decide_eq_true_2 (_ = pool_id)) by done. reflexivity.
Qed.

Lemma insert_lun_ok pool_id req o w w' resp :
  0 <= rl_lun req <= u32_max -> insert_lun pool_id req o w = (w', Ok resp) ->
  exists ob, t_storage_objects (w_db w') = <[so_id ob := ob]> (t_storage_objects (w_db w)) /\
    lun_of ob = Some (rl_lun req) /\ so_storage_pool_id ob = pool_id /\ cdr_storage_object_id resp = so_id ob.
Proof.
  intros Hn Hrun. apply bind_ok_inv in Hrun as (id&w1&Hc&Hrun). unfold mret, M_ret in Hrun.
  injection Hrun as <- <-. apply lift_err_ok_inv in Hc. apply bind_ok_inv in Hc as (ob&w2&Hi&Hc).
  unfold mret, M_ret in Hc. injection Hc as <- <-. pose proof Hi as Hi'.
  apply insert_object_ok in Hi as (_&Hob&_&p&c&Heq&Hp). exists ob. split_and!; [done| | |done].
  2:{ rewrite Heq. by apply Hp. }
  unfold insert_object in Hi'. apply bind_ok_inv in Hi' as ([[id pool] c']&w3&Hres&Hi').
  apply bind_ok_inv in Hi' as ([]&w4&_&Hret). unfold mret, M_ret in Hret. injection Hret as _ Hret.
  apply bind_ok_inv in Hres as (pp&w5&_&Hres). apply bind_ok_inv in Hres as (u&w6&_&Hres).
  apply bind_ok_inv in Hres as (c''&w7&Hder&Hres). unfold mret, M_ret in Hres. injection Hres as _ _ _ ->.
  assert (in_range i64_min i64_max (rl_lun req) = true) as Hr
    by (apply in_range_spec; unfold u32_max in Hn; unfold i64_min, i64_max; lia).
  pose proof (derive_config_lun (lun_object pool_id req) _ _ _ _ _ _ _ eq_refl eq_refl Hder Hr) as Hj.
  unfold lun_of. rewrite <- Hret. cbn [so_config object_row]. rewrite Hj. simpl. rewrite Hr. simpl.
  f_equal. unfold as_u32. apply Z.mod_small. unfold u32_max in Hn. lia.
Qed.

(** A registered LUN is the only object of its pool with that number: the
    registration is refused when there is one, and the numbers of a pool stay
    pairwise distinct. *)
Theorem register_lun_distinct pool_id req o w w' resp :
  0 <= rl_lun req <= u32_max -> luns_distinct (w_db w) ->
  register_lun pool_id req o w = (w', Ok resp) ->
  luns_distinct (w_db w') /\ rl_size_bytes req > 0 /\
  exists ob, t_storage_objects (w_db w') = <[so_id ob := ob]> (t_storage_objects (w_db w)) /\
    lun_of ob = Some (rl_lun req) /\ so_storage_pool_id ob = pool_id /\
    cdr_storage_object_id resp = so_id ob.
Proof.
  intros Hn Hd Hrun. apply bind_ok_inv in Hrun as ([]&w1&Hc&Hrun).
  apply check_lun_ok in Hc as (Hs&Hsize&Hfree). destruct Hs as (D1&_&_).
  apply insert_lun_ok in Hrun as (ob&Hob&Hlun&Hp&Hid); [|done]. rewrite D1 in Hob.
  split_and!; [|lia|by exists ob]. intros i j a b. rewrite Hob.
  intros [[<- <-]|[Hi Ha]]%lookup_insert_Some [[<- <-]|[Hj Hb]]%lookup_insert_Some Hpool Hsome Heq.
  - done.
  - exfalso. eapply (Hfree j b); [done|congruence|congruence].
  - exfalso. eapply (Hfree i a); [done|congruence|congruence].
  - by eapply Hd.
Qed.
End lun_facts.

(** ** Attachments follow the node *)

Section attachment_facts.
Context {coll : Collation}.

(** Every new attachment of the pool is of a host in [hosts] whose node accepted it. *)
Definition attached_after (pool : StoragePool) (id : Uuid) (hosts : list Host) (w w' : World) : Prop :=
  log_grows w w' /\
  forall h p, (h, p) ∈ t_host_storage_pools (w_db w') -> (h, p) ∉ t_host_storage_pools (w_db w) ->
    p = id /\ exists host, host ∈ hosts /\ h_id host = h /\
      logged w w' (accepted host (AttachStoragePool (sp_id pool))).

Lemma attach_pool_to_spec pool id host o w w' r :
  attach_pool_to pool id host o w = (w', r) -> r = Ok tt /\ attached_after pool id [host] w w'.
Proof.
  unfold attach_pool_to. intros Hrun.
  destruct (rpc_run (E := SqlxError) host (AttachStoragePool (sp_id pool)) o w) as (w1&out&Hr).
  rewrite (bind_run _ _ _ _ _ _ Hr) in Hrun.
  assert (w_db w1 = w_db w /\ log_grows w w1) as [D1 G1].
  { unfold rpc in Hr. injection Hr as <- _. split; [done|by eexists]. }
  destruct out; [|injection Hrun as <- <-; split; [done|]; split; [done|]; rewrite D1; set_solver..].
  apply rpc_logged in Hr. revert Hrun. unfold mbind, M_bind, attempt, attach_pool_host, execute.
  assert (forall w2, w_db w2 = w_db w -> w_log w2 = w_log w1 -> attached_after pool id [host] w w2) as Hsame.
  { intros w2 D2 L2. split; [destruct G1 as [l Hl]; exists l; by rewrite L2|]. rewrite D2. set_solver. }
  cbn [conn_db]. destruct (o_sql o (w_step w1)); [intros [= <- <-]; split; [done|]; by apply Hsame|].
  repeat case_match; simplify_eq; intros [= <- <-]; (split; [done|]); try by apply Hsame.
  all: repeat case_match; simplify_eq; try by apply Hsame.
  split; [exact G1|]. intros h p Hin Hnot. simpl in Hin. rewrite D1 in Hin.
  apply elem_of_union in Hin as [Hin|Hin]; [|done]. apply elem_of_singleton in Hin as [= -> ->].
  split; [done|]. exists host. split_and!; [by left|done|exact Hr].
Qed.

Lemma attached_after_trans pool id l1 l2 w w1 w2 :
  attached_after pool id l1 w w1 -> attached_after pool id l2 w1 w2 -> attached_after pool id (l1 ++ l2) w w2.
Proof.
  intros [G1 A1] [G2 A2]. split; [by etransitivity|]. intros h p Hin Hnot.
  destruct (decide ((h, p) ∈ t_host_storage_pools (w_db w1))) as [Hin1|Hnot1].
  - destruct (A1 h p Hin1 Hnot) as (->&host&Hh&<-&Hl). split; [done|]. exists host.
    split_and!; [set_solver|done|]. by eapply logged_grows_r.
  - destruct (A2 h p Hin Hnot1) as (->&host&Hh&<-&Hl). split; [done|]. exists host.
    split_and!; [set_solver|done|]. by eapply logged_grows_l.
Qed.

Lemma attach_all_spec pool id hosts o w w' r :
  for_all_m (attach_pool_to pool id) hosts o w = (w', r) -> r = Ok tt /\ attached_after pool id hosts w w'.
Proof.
  revert w. induction hosts as [|host hosts IH]; intros w Hrun; simpl in Hrun.
  { injection Hrun as <- <-. split; [done|]. split; [reflexivity|]. set_solver. }
  destruct (attach_pool_to pool id host o w) as [w1 r1] eqn:H1.
  pose proof (attach_pool_to_spec _ _ _ _ _ _ _ H1) as [-> A1]. rewrite (bind_run _ _ _ _ _ _ H1) in Hrun.
  apply IH in Hrun as [-> A2]. split; [done|]. change (host :: hosts) with ([host] ++ hosts).
  by eapply attached_after_trans.
Qed.

(** The task that attaches a new shared pool records a host only after its node
    accepted the pool, and only hosts that are up: whatever fails on the way, every
    attachment it adds is of this pool, to a host that was up, with the accepted
    call in the log. *)
Theorem attach_task_sound id o w w' r :
  run_attach_pool id o w = (w', r) ->
  r = Ok tt /\
  forall h p, (h, p) ∈ t_host_storage_pools (w_db w') -> (h, p) ∉ t_host_storage_pools (w_db w) ->
    p = id /\ exists host pool, h_id host = h /\ h_status host = HostUp /\
      host ∈ rows (t_hosts (w_db w)) /\ t_storage_pools (w_db w) !! id = Some pool /\
      logged w w' (accepted host (AttachStoragePool (sp_id pool))).
Proof.
  unfold run_attach_pool, get_pool. intros Hrun.
  assert (forall w', w_db w' = w_db w -> forall h p, (h, p) ∈ t_host_storage_pools (w_db w') ->
            (h, p) ∈ t_host_storage_pools (w_db w)) as Hsame by (by intros ? ->).
  unfold mbind at 1, M_bind at 1, attempt at 1, query at 1 in Hrun. cbn [conn_db] in Hrun.
  destruct (o_sql o (w_step w)); [injection Hrun as <- <-; split; [done|]; by intros h p ?%Hsame|].
  destruct (t_storage_pools (w_db w) !! id) as [pool|] eqn:Hp; cbn [fetch_one ok_or] in Hrun;
    [|injection Hrun as <- <-; split; [done|]; by intros h p ?%Hsame].
  unfold list_up, list_with_status in Hrun. unfold mbind at 1, M_bind at 1, attempt at 1, query at 1 in Hrun.
  cbn [conn_db] in Hrun.
  destruct (o_sql o (w_step (tick w))); [injection Hrun as <- <-; split; [done|]; by intros h p ?%Hsame|].
  apply attach_all_spec in Hrun as [-> [_ A]]. split; [done|]. intros h p Hin Hnot.
  destruct (A h p Hin Hnot) as (->&host&Hh&Hid&Hl). split; [done|]. exists host, pool.
  apply elem_of_filter_rows in Hh as [(k&Hk) Hup]. apply bool_decide_eq_true in Hup.
  split_and!; [done|set_solver|apply elem_of_rows; by exists k|done|exact Hl].
Qed.
End attachment_facts.

(** ** Witnesses and findings *)

Definition shared_pool (t : StoragePoolType) : StoragePool :=
  {| sp_id := 5; sp_name := "shared"; sp_pool_type := t; sp_status := Active; sp_config := JObject ∅;
     sp_capacity_bytes := Some 1000; sp_allocated_bytes := Some 0 |}.
Definition pool_db (t : StoragePoolType) : Db :=
  with_hosts (fun _ => {[1%N := sample_host 1 "alpha" "10.0.0.1" HostUp 8 1000 1000]})
    (with_storage_pools (fun _ => {[5%N := shared_pool t]}) empty_db).

Lemma attach_task_witness :
  let r := run_attach_pool 5 calm_oracle (world_of (pool_db Nfs)) in
  (1%N, 5%N) ∈ t_host_storage_pools (w_db r.1) /\
  exists host pool, h_id host = 1%N /\ h_status host = HostUp /\
    logged (world_of (pool_db Nfs)) r.1 (accepted host (AttachStoragePool (sp_id pool))).
Proof.
  intros r. assert ((1%N, 5%N) ∈ t_host_storage_pools (w_db r.1)) as Hin
    by (refine (bool_decide_unpack _ _); vm_compute; exact I).
  split; [exact Hin|].
  destruct (attach_task_sound 5 calm_oracle (world_of (pool_db Nfs)) r.1 r.2 (surjective_pairing r)) as [_ Ha].
  destruct (Ha 1%N 5%N Hin) as (_&host&pool&Hid&Hup&_&_&Hl); [refine (bool_decide_unpack _ _); vm_compute; exact I|].
  by exists host, pool.
Defined.

Definition lun_req (name : string) : RegisterLunRequest :=
  {| rl_name := name; rl_lun := 3; rl_size_bytes := 100 |}.

Lemma register_lun_witness :
  let r := register_lun (H := binary_uuid_text) 5 (lun_req "a") calm_oracle (world_of (pool_db Block)) in
  is_ok r.2 = true /\ luns_distinct (w_db r.1).
Proof.
  intros r. split; [vm_compute; reflexivity|].
  destruct r.2 as [resp|] eqn:Hr; [|vm_compute in Hr; discriminate].
  apply (register_lun_distinct (H := binary_uuid_text) 5 (lun_req "a") calm_oracle (world_of (pool_db Block)) r.1 resp).
  - vm_compute; split; discriminate.
  - intros i j a b Ha. vm_compute in Ha. by destruct i.
  - rewrite <- Hr. apply surjective_pairing.
Defined.

(** The check and the insertion are separate statements, and no constraint of the
    table repeats the check: two requests for one LUN that are checked before either
    stores its object are both accepted. *)
Theorem register_lun_race :
  let w0 := world_of (pool_db Block) in
  let w1 := (check_lun 5 (lun_req "a") calm_oracle w0).1 in
  let w2 := (check_lun 5 (lun_req "b") calm_oracle w1).1 in
  let r3 := insert_lun (H := binary_uuid_text) 5 (lun_req "a") calm_oracle w2 in
  let r4 := insert_lun (H := binary_uuid_text) 5 (lun_req "b") calm_oracle r3.1 in
  (check_lun 5 (lun_req "a") calm_oracle w0).2 = Ok tt /\
  (check_lun 5 (lun_req "b") calm_oracle w1).2 = Ok tt /\
  is_ok r3.2 = true /\ is_ok r4.2 = true /\
  lun_of <$> rows (t_storage_objects (w_db r4.1)) = [Some 3; Some 3].
Proof. vm_compute. done. Qed.

Definition download_req : CreateDiskRequest :=
  {| cd_name := "root"; cd_size_bytes := None; cd_source_url := Some "http://mirror/root.img"%string;
     cd_preallocate := false |}.
Definition nfs_world : World :=
  world_of (with_host_storage_pools (fun _ => {[(1%N, 5%N)]}) (pool_db Nfs)).
Definition requested : World * result Error CreateDiskResponse :=
  create_pool_disk (H := binary_uuid_text) (fun _ _ => "refused"%string) (fun _ => 0) 5 download_req
    calm_oracle nfs_world.
Definition alpha : Host := sample_host 1 "alpha" "10.0.0.1" HostUp 8 1000 1000.
Definition download_path : string :=
  default ""%string (t_storage_objects (w_db requested.1) !! 1003%N ≫= fun ob => get_path_from_config (so_config ob)).
Definition download_task (o : Oracle) (w : World) : World * result SqlxError unit :=
  run_disk_create (H := binary_uuid_text) (fun _ => "refused"%string) (fun _ _ => "refused"%string)
    (fun _ => 700) alpha 1003 1008 download_path 0 "http://mirror/root.img" false o w.

(** The statement of step [n] is refused. *)
Definition refuse_at (n : nat) : Oracle :=
  {| o_sql := fun k => if Nat.eqb k n then Some OtherSqlx else None; o_uuid := o_uuid calm_oracle;
     o_now := o_now calm_oracle; o_rpc := o_rpc calm_oracle; o_http := o_http calm_oracle |}.


Lemma disk_task_witness :
  let r := download_task calm_oracle requested.1 in
  so_size_bytes <$> t_storage_objects (w_db r.1) !! 1003%N = Some 700 /\
  exists row, downloaded (H := binary_uuid_text) alpha 1003 1008 download_path 0 "http://mirror/root.img" row requested.1 r.1 \/
    not_downloaded 1003 1008 requested.1 r.1.
Proof.
  intros r. split; [vm_compute; reflexivity|].
  destruct (t_jobs (w_db requested.1) !! 1008%N) as [row|] eqn:Hrow; [|vm_compute in Hrow; discriminate].
  exists row.
  destruct (disk_task_outcome (H := binary_uuid_text) (fun _ => "refused"%string) (fun _ _ => "refused"%string)
    (fun _ => 700) alpha 1003 1008 download_path 0 "http://mirror/root.img" false calm_oracle requested.1 r.1 r.2 row)
    as (_&_&Hd); [by intros n|exact Hrow| |apply surjective_pairing|exact Hd].
  vm_compute in Hrow. injection Hrow as <-. reflexivity.
Defined.

(** The task that cannot mark its job running returns and leaves the job pending.
    Deleting the object is then refused for good: it is "still being created". *)
Theorem stuck_download_blocks_delete :
  let w1 := (download_task (refuse_at (w_step requested.1 + 3)) requested.1).1 in
  last (w_log requested.1)
    = Some (EvTask (CreateDiskTask alpha 1003 1008 download_path 0 "http://mirror/root.img" false)) /\
  w_log w1 = w_log requested.1 /\ j_status <$> t_jobs (w_db w1) !! 1008%N = Some JobPending /\
  forall o, served o -> (delete_storage_object (H := binary_uuid_text) (fun _ => "refused"%string) 1003 o w1).2
    = Err (Conflict "Storage object is still being created").
Proof.
  intros w1. split; [vm_compute; reflexivity|]. split; [vm_compute; reflexivity|].
  split; [vm_compute; reflexivity|]. intros o Ho.
  destruct (t_jobs (w_db w1) !! 1008%N) as [j|] eqn:Hj; [|vm_compute in Hj; discriminate].
  apply (unfinished_job_blocks_delete (H := binary_uuid_text) _ 1003 1008 j o w1 Ho Hj);
    vm_compute in Hj; injection Hj as <-; [reflexivity|by left].
Qed.
