(* ===== verification/HaMonitor.v ===== *)
(** * HaMonitor: failover of VMs from dead hosts

    [qarax/src/ha_monitor.rs] and [evacuation_scheduling_request] of
    [qarax/src/handlers/host/handler.rs].  One cycle probes every host marked
    down; a host that answers gets the stale copies of VMs that were moved away
    removed, a host that stayed unreachable for the grace period loses its
    highly available VMs to other hosts.

    - The in-memory [MonitorState] is passed from step to step.
    - A probe or a call that times out is a reply other than [RpcOk].
    - [locked n] and [locked_gpus n] are the rows other transactions hold at step
      [n]: the queries that pick hosts and GPUs skip them.
    - [resolution] is the number of clock units in a second.
    - The loop of [pick_failover_host] runs on fuel, one unit more than there are
      hosts; it is shown never to run out.
    - A set turned into a vector has no defined order: [elements] picks one. *)

From S2P Require Import Prelude Text Common Errors Tables NodeApi World Samples VmConfig.
From S2P Require Import Hooks Vms Jobs Storage Gpus Hosts Float64 Scheduler HostNuma CreateRequest VmLifecycle.
#[local] Open Scope Z_scope.

(** [HaSettings]. *)
Record HaSettings := {
  ha_monitor_enabled : bool;
  ha_failover_grace_seconds : Z;
  ha_check_interval_seconds : Z;
  ha_retry_cooldown_seconds : Z
}.
Definition default_ha_settings : HaSettings :=
  {| ha_monitor_enabled := true; ha_failover_grace_seconds := 60;
     ha_check_interval_seconds := 15; ha_retry_cooldown_seconds := 120 |}.

Record MonitorState := {
  ms_unreachable_since : gmap Uuid Z;
  ms_last_attempt : gmap Uuid Z
}.
Definition initial_state : MonitorState := {| ms_unreachable_since := ∅; ms_last_attempt := ∅ |}.
Definition with_unreachable (f : gmap Uuid Z -> gmap Uuid Z) (st : MonitorState) : MonitorState :=
  {| ms_unreachable_since := f (ms_unreachable_since st); ms_last_attempt := ms_last_attempt st |}.
Definition with_attempt (f : gmap Uuid Z -> gmap Uuid Z) (st : MonitorState) : MonitorState :=
  {| ms_unreachable_since := ms_unreachable_since st; ms_last_attempt := f (ms_last_attempt st) |}.

(** The tables and the log stay; the open transaction may be gone. *)
Definition quiet (w w' : World) : Prop := w_db w' = w_db w /\ w_log w' = w_log w.
#[global] Instance quiet_preorder : PreOrder quiet.
Proof. split; [by intros w|intros a b c; unfold quiet; intuition congruence]. Qed.

Lemma reads_quiet {E A} (m : M E A) : steps same_but_step m -> steps quiet m.
Proof. intros Hm o w. by destruct (Hm o w) as (?&_&?). Qed.

(** Hosts the loop can still propose. *)
Definition open_ids (db : Db) (excluded : list Uuid) : gset Uuid :=
  list_to_set (h_id <$> rows (t_hosts db)) ∖ list_to_set excluded.

Lemma open_ids_shrink db excluded h k :
  t_hosts db !! k = Some h -> h_id h ∉ excluded ->
  (size (open_ids db (excluded ++ [h_id h])) < size (open_ids db excluded))%nat.
Proof.
  intros Hk Hex. apply subset_size. unfold open_ids.
  assert (h_id h ∈ (list_to_set (h_id <$> rows (t_hosts db)) : gset Uuid)) as Hin.
  { apply elem_of_list_to_set, list_elem_of_fmap. exists h. split; [done|].
    apply elem_of_rows. by exists k. }
  rewrite list_to_set_app_L. set_solver.
Qed.

Lemma open_ids_bound db excluded : (size (open_ids db excluded) <= size (t_hosts db))%nat.
Proof.
  transitivity (size (list_to_set (h_id <$> rows (t_hosts db)) : gset Uuid)).
  - apply subseteq_size. unfold open_ids. set_solver.
  - etransitivity; [apply size_list_to_set_le|]. rewrite length_fmap. unfold rows.
    by rewrite length_fmap, length_map_to_list.
Qed.

Section monitor.
Context `{UuidText} `{PolicySerde} {coll : Collation}.
Variables (to_rfc3339 : Z -> string) (sqlx_text : SqlxError -> string).
Variables (numa_config_de : json -> option NumaConfig) (defaults : VmDefaults).
Variables (locked locked_gpus : nat -> gset Uuid) (config : SchedulingSettings) (resolution : Z).
(** Names the monitor's messages print with [{:?}]. *)
Variable pool_type_debug : StoragePoolType -> string.
(** The text PostgreSQL prints for a JSON value that is not a string. *)
Variable jsonb_out : json -> string.

Abbreviation set_status := (Vms.update_status to_rfc3339).

(** [start.elapsed() < Duration::from_secs(secs)] at the reading [t]. *)
Definition elapsed_below (t start secs : Z) : bool := Z.max 0 (t - start) <? secs * resolution.

(** ** Picking a target *)

Definition persisted_vm_placement_policy (vm : Vm) : option PlacementPolicy :=
  placement_policy_from_config (v_config (vm_row vm)).

Definition evacuation_scheduling_request (vm : Vm) (source_host_id : Uuid) (gpu : option GpuRequest)
  : M Error SchedulingRequest :=
  nics ← sqlx_q (list_nics_by_vm (v_id (vm_row vm)));
  mret {| sr_memory_bytes := v_memory_size (vm_row vm); sr_vcpus := v_boot_vcpus (vm_row vm);
          sr_disk_bytes := 0; sr_architecture := persisted_vm_architecture vm;
          sr_storage_pool_id := None;
          sr_required_network_ids := elements (list_to_set (omap ni_network_id nics) : gset Uuid);
          sr_gpu := gpu; sr_placement_policy := persisted_vm_placement_policy vm;
          sr_excluded_host_ids := [source_host_id] |}.

Definition gpu_request_for_vm (vm : Vm) : M Error (option GpuRequest) :=
  allocated ← sqlx_q (Gpus.list_by_vm (v_id (vm_row vm)));
  mret (match allocated with
        | [] => None
        | _ =>
            Some {| gr_count := as_i32 (Z.of_nat (length allocated));
                    gr_vendor := head (omap g_vendor allocated);
                    gr_model := head (omap g_model allocated);
                    gr_min_vram_bytes :=
                      match omap g_vram_bytes allocated with
                      | [] => None
                      | v :: vs => Some (foldr Z.min v vs)
                      end |}
        end).

Fixpoint refuse_local (pools : list StoragePool) : result Error unit :=
  match pools with
  | [] => Ok tt
  | pool :: pools' =>
      if negb (is_shared (sp_pool_type pool)) then
        Err (UnprocessableEntity ("disk on pool '" +:+ sp_name pool +:+ "' ("
               +:+ pool_type_debug (sp_pool_type pool)
               +:+ ") is not on shared storage; cannot fail over"))
      else refuse_local pools'
  end.

Definition disk_objects (disks : list VmDisk) : gset Uuid :=
  list_to_set (omap vd_storage_object_id disks ++ omap vd_upper_storage_object_id disks).

Definition shared_disk_pool_ids (vm : Vm) : M Error (list Uuid) :=
  db_disks ← sqlx_q (list_disks_by_vm (v_id (vm_row vm)));
  let so_ids := elements (disk_objects db_disks) in
  match so_ids with
  | [] => mret []
  | _ =>
      objects ← sqlx_q (get_object_batch so_ids);
      let pool_ids := elements (list_to_set (so_storage_pool_id <$> objects) : gset Uuid) in
      pools ← sqlx_q (get_pool_batch pool_ids);
      _ ← of_result (refuse_local pools);
      mret pool_ids
  end.

Fixpoint has_all_pools (host_id : Uuid) (required_pool_ids : list Uuid) : M Error bool :=
  match required_pool_ids with
  | [] => mret true
  | pool_id :: rest =>
      has ← sqlx_q (host_has_pool host_id pool_id);
      if (has : bool) then has_all_pools host_id rest else mret false
  end.

Definition excluding (ids : list Uuid) (r : SchedulingRequest) : SchedulingRequest :=
  {| sr_memory_bytes := sr_memory_bytes r; sr_vcpus := sr_vcpus r; sr_disk_bytes := sr_disk_bytes r;
     sr_architecture := sr_architecture r; sr_storage_pool_id := sr_storage_pool_id r;
     sr_required_network_ids := sr_required_network_ids r; sr_gpu := sr_gpu r;
     sr_placement_policy := sr_placement_policy r; sr_excluded_host_ids := ids |}.

Definition no_destination (vm : Vm) : Error :=
  UnprocessableEntity ("no eligible destination host found for VM '" +:+ v_name (vm_row vm) +:+ "'").

(** The loop; [None] when the fuel is spent. *)
Fixpoint pick_loop (fuel : nat) (vm : Vm) (base : SchedulingRequest) (required_pool_ids excluded : list Uuid)
  : M Error (option Host) :=
  match fuel with
  | O => mret None
  | S fuel' =>
      candidate ← in_dropped_tx (pick_host_now locked config (excluding excluded base));
      match candidate with
      | None => throw (no_destination vm)
      | Some candidate =>
          has ← has_all_pools (h_id candidate) required_pool_ids;
          if (has : bool) then mret (Some candidate)
          else pick_loop fuel' vm base required_pool_ids (excluded ++ [h_id candidate])
      end
  end.

Definition host_count {E} : M E nat := fun o w => (w, Ok (size (t_hosts (w_db w)))).

Definition pick_failover_host (vm : Vm) (dead_host_id : Uuid) (required_pool_ids : list Uuid)
    (gpu_request : option GpuRequest) : M Error (option Host) :=
  base ← evacuation_scheduling_request vm dead_host_id gpu_request;
  n ← host_count;
  pick_loop (S n) vm base required_pool_ids (sr_excluded_host_ids base).

(** ** Moving a VM *)

(** The statements of the transaction, and the transaction. *)
Definition reallocate_body (vm_id target_host_id : Uuid) (gpu_request : GpuRequest) : M Error unit :=
  _ ← sqlx_q (deallocate_by_vm_tx vm_id);
  allocated ← sqlx_q (allocate_gpus_now locked_gpus target_host_id vm_id gpu_request);
  if as_i32 (Z.of_nat (length allocated)) <? gr_count gpu_request then
    throw (UnprocessableEntity ("requested " +:+ pretty (gr_count gpu_request)
             +:+ " GPUs for failover but only " +:+ pretty (Z.of_nat (length allocated))
             +:+ " available on target host"))
  else mret tt.

Definition reallocate_vm_gpus (vm_id target_host_id : Uuid) (gpu_request : GpuRequest)
  : M Error unit :=
  in_tx from_sqlx (reallocate_body vm_id target_host_id gpu_request).

Definition revert_failover_state (vm : Vm) (dead_host_id : Uuid) : M Error unit :=
  let id := v_id (vm_row vm) in
  _ ← attempt (update_host_id id dead_host_id);
  _ ← attempt (set_status id (v_status (vm_row vm)));
  _ ← attempt (update_config id (v_config (vm_row vm)));
  mret tt.

(** Move the GPUs, when the VM has any. *)
Definition move_gpus (vm : Vm) (dead_host_id target_id : Uuid) (gpu_request : option GpuRequest)
  : M Error unit :=
  match gpu_request with
  | None => mret tt
  | Some g =>
      r ← attempt (reallocate_vm_gpus (v_id (vm_row vm)) target_id g);
      match r with
      | Ok _ => mret tt
      | Err e => _ ← revert_failover_state vm dead_host_id; throw e
      end
  end.

(** Start the VM on its new host, or put everything back. *)
Definition restart_moved (vm : Vm) (dead_host_id : Uuid) (gpu_request : option GpuRequest)
  : M Error Uuid :=
  let id := v_id (vm_row vm) in
  r ← attempt (start_vm_internal to_rfc3339 sqlx_text numa_config_de defaults id);
  match r with
  | Ok job_id => mret job_id
  | Err e =>
      _ ← revert_failover_state vm dead_host_id;
      _ ← (match gpu_request with
           | Some g => _ ← attempt (reallocate_vm_gpus id dead_host_id g); mret tt
           | None => mret tt
           end);
      throw e
  end.

(** Tag the VM with the host it leaves and place it on the target.  [Created]
    makes the start path create the VM on the new host. *)
Definition move_row (vm : Vm) (dead_host_id target_id : Uuid) : M Error unit :=
  let id := v_id (vm_row vm) in
  _ ← sqlx_q (update_config id (set_failed_over_from (v_config (vm_row vm)) (Some dead_host_id)));
  _ ← sqlx_q (update_host_id id target_id);
  sqlx_q (set_status id Created).

Definition failover_result (dead_host_id target_id start_job_id : Uuid) : json :=
  JObject {[ "source_host_id"%string := JString (uuid_to_string dead_host_id);
             "target_host_id"%string := JString (uuid_to_string target_id);
             "start_job_id"%string := JString (uuid_to_string start_job_id) ]}.

(** What a failover reads before it acts: the GPUs and the target; [None] when
    the loop that picks the target ran out of fuel. *)
Definition plan_failover (vm : Vm) (dead_host : Host) : M Error (option (option GpuRequest * Host)) :=
  required_pool_ids ← shared_disk_pool_ids vm;
  gpu_request ← gpu_request_for_vm vm;
  target ← pick_failover_host vm (h_id dead_host) required_pool_ids gpu_request;
  mret ((fun t => (gpu_request, t)) <$> target).

Definition execute_failover (vm : Vm) (dead_host : Host) : M Error (option json) :=
  let id := v_id (vm_row vm) in
  plan ← plan_failover vm dead_host;
  match plan with
  | None => mret None
  | Some (gpu_request, target) =>
      _ ← rpc dead_host (ForceStopVm id);
      _ ← rpc dead_host (DeleteVm id);
      _ ← move_row vm (h_id dead_host) (h_id target);
      _ ← move_gpus vm (h_id dead_host) (h_id target) gpu_request;
      start_job_id ← restart_moved vm (h_id dead_host) gpu_request;
      mret (Some (failover_result (h_id dead_host) (h_id target) start_job_id))
  end.

Definition failover_job (vm : Vm) (dead_host : Host) : NewJob :=
  {| nj_job_type := VmFailover;
     nj_description := Some ("Failing over VM " +:+ v_name (vm_row vm) +:+ " from host "
                               +:+ h_name dead_host)%string;
     nj_resource_id := Some (v_id (vm_row vm)); nj_resource_type := Some resource_types.VM |}.

Definition failover_vm (vm : Vm) (dead_host : Host) : M SqlxError unit :=
  job ← attempt (Jobs.create (failover_job vm dead_host));
  match job with
  | Err _ => mret tt
  | Ok job =>
      _ ← attempt (mark_running (j_id job));
      r ← attempt (execute_failover vm dead_host);
      match r with
      | Ok result => _ ← attempt (mark_completed (j_id job) result); mret tt
      | Err e => _ ← attempt (mark_failed (j_id job) (error_to_string e)); mret tt
      end
  end.

(** ** The cycle *)

Definition failover_candidate (vm : Vm) : bool :=
  vm_ha_enabled vm && bool_decide (v_status (vm_row vm) ∈ [Running; Paused; Unknown]).

Definition collect_failover_candidates (host_id : Uuid) : M SqlxError (list Vm) :=
  resident ← Vms.list_by_host host_id;
  mret (List.filter failover_candidate resident).

Fixpoint failover_each (settings : HaSettings) (host : Host) (candidates : list Vm) (st : MonitorState)
  : M SqlxError MonitorState :=
  match candidates with
  | [] => mret st
  | vm :: rest =>
      let id := v_id (vm_row vm) in
      cooling ← (match ms_last_attempt st !! id with
                 | Some attempted =>
                     t ← now; mret (elapsed_below t attempted (ha_retry_cooldown_seconds settings))
                 | None => mret false
                 end);
      if (cooling : bool) then failover_each settings host rest st
      else
        t ← now;
        _ ← failover_vm vm host;
        failover_each settings host rest (with_attempt (<[id := t]>) st)
  end.

Definition failover_host (settings : HaSettings) (host : Host) (st : MonitorState)
  : M SqlxError MonitorState :=
  candidates ← attempt (collect_failover_candidates (h_id host));
  match candidates with
  | Err _ => mret st
  | Ok candidates => failover_each settings host candidates st
  end.

(** Remove the leftover copy of a VM from a host it was moved away from. *)
Definition cleanup_stale_copy (host : Host) (vm : Vm) : M SqlxError unit :=
  let id := v_id (vm_row vm) in
  _ ← rpc host (ForceStopVm id);
  r ← rpc host (DeleteVm id);
  if bool_decide (r = RpcError) then mret tt
  else
    _ ← attempt (update_config id (set_failed_over_from (v_config (vm_row vm)) None));
    mret tt.

Definition cleanup_stale_copies (host : Host) : M SqlxError unit :=
  stale_vms ← attempt (list_failed_over_from jsonb_out (h_id host));
  match stale_vms with
  | Err _ => mret tt
  | Ok stale_vms => for_all_m (cleanup_stale_copy host) stale_vms
  end.

(** One host of the cycle. *)
Definition check_host (settings : HaSettings) (st : MonitorState) (host : Host)
  : M SqlxError MonitorState :=
  r ← rpc host GetNodeInfo;
  if bool_decide (r = RpcOk) then
    _ ← cleanup_stale_copies host;
    mret (with_unreachable (delete (h_id host)) st)
  else
    first_unreachable ← (match ms_unreachable_since st !! h_id host with
                         | Some t => mret t
                         | None => now
                         end);
    t ← now;
    let st' := with_unreachable (<[h_id host := first_unreachable]>) st in
    if elapsed_below t first_unreachable (ha_failover_grace_seconds settings) then mret st'
    else failover_host settings host st'.

Fixpoint check_hosts (settings : HaSettings) (hosts : list Host) (st : MonitorState)
  : M SqlxError MonitorState :=
  match hosts with
  | [] => mret st
  | host :: rest => st' ← check_host settings st host; check_hosts settings rest st'
  end.

Definition run_cycle (settings : HaSettings) (st : MonitorState) : M SqlxError MonitorState :=
  down_hosts ← attempt list_down;
  match down_hosts with
  | Err _ => mret st
  | Ok down_hosts =>
      let retained := with_unreachable
        (fun m => filter (fun kv => kv.1 ∈ h_id <$> down_hosts) m) st in
      check_hosts settings down_hosts retained
  end.

(** ** Properties *)

(** *** The target *)

Lemma pick_in_tx_quiet request : steps quiet (in_dropped_tx (pick_host_now locked config request)).
Proof.
  intros o w. unfold in_dropped_tx, lift_err, begin_tx, pick_host_now, pick_host_tx, query.
  destruct (o_sql o (w_step w)); [done|]. simpl. by destruct (o_sql o (S (w_step w))).
Qed.

Lemma has_all_pools_quiet h pools : steps quiet (has_all_pools h pools).
Proof.
  induction pools as [|p pools IH]; simpl; [apply steps_ret|].
  apply steps_bind; [apply reads_quiet, steps_lift_err, query_same_but_step|].
  intros []; [exact IH|apply steps_ret].
Qed.

Lemma pick_loop_quiet fuel vm base pools excluded : steps quiet (pick_loop fuel vm base pools excluded).
Proof.
  revert excluded. induction fuel as [|fuel IH]; intros excluded; simpl; [apply steps_ret|].
  apply steps_bind; [apply pick_in_tx_quiet|]. intros [h|]; [|apply steps_throw].
  apply steps_bind; [apply has_all_pools_quiet|]. intros []; [apply steps_ret|apply IH].
Qed.

Lemma pick_in_tx_some request o w w' h :
  in_dropped_tx (pick_host_now locked config request) o w = (w', Ok (Some h)) ->
  (exists k, t_hosts (w_db w) !! k = Some h) /\ eligible (w_db w) request config h = true.
Proof.
  unfold in_dropped_tx. destruct (sqlx_q begin_tx o w) as [w1 [[]|e]] eqn:Hb; [|discriminate].
  apply lift_err_ok_inv in Hb. unfold begin_tx in Hb.
  destruct (o_sql o (w_step w)); [discriminate|]. injection Hb as <-.
  destruct (sqlx_q (pick_host_now locked config request) o _) as [w2 r] eqn:Hp. intros [= <- ->].
  apply lift_err_ok_inv in Hp. unfold pick_host_now in Hp.
  apply pick_host_inv in Hp as (_&Hk&Hel&_). done.
Qed.

Lemma has_all_pools_ok h pools o w w' :
  has_all_pools h pools o w = (w', Ok true) ->
  forall p, p ∈ pools -> (h, p) ∈ t_host_storage_pools (w_db w).
Proof.
  revert w. induction pools as [|p pools IH]; intros w Hrun q Hq; [by apply elem_of_nil in Hq|].
  cbn [has_all_pools] in Hrun. apply bind_ok_inv in Hrun as (has&w1&Hhas&Hrun).
  apply lift_err_ok_inv, query_ok_inv in Hhas as [[= <-] ->]. simpl in Hrun.
  case_bool_decide as Hin; [|discriminate].
  apply elem_of_cons in Hq as [->|Hq]; [done|]. by eapply (IH (tick w)).
Qed.

(** What a chosen target has. *)
Definition good_target (db : Db) (base : SchedulingRequest) (pools excluded : list Uuid) (h : Host)
  : Prop :=
  (exists k, t_hosts db !! k = Some h) /\ h_status h = HostUp /\ (h_id h ∉ excluded) /\
  (forall p, p ∈ pools -> (h_id h, p) ∈ t_host_storage_pools db) /\
  (forall net, net ∈ sr_required_network_ids base -> is_Some (t_host_networks db !! (h_id h, net))) /\
  (forall g, sr_gpu base = Some g -> gr_count g <= free_gpus db (h_id h) g) /\
  fits_memory db config base h = true /\ fits_cpu db config base h = true.

Lemma pick_loop_ok fuel vm base pools excluded o w w' h :
  pick_loop fuel vm base pools excluded o w = (w', Ok (Some h)) ->
  good_target (w_db w) base pools excluded h.
Proof.
  revert excluded w. induction fuel as [|fuel IH]; intros excluded w Hrun; [discriminate|].
  cbn [pick_loop] in Hrun. apply bind_ok_inv in Hrun as ([c|]&w1&Hc&Hrun); [|discriminate].
  pose proof (pick_in_tx_quiet (excluding excluded base) o w) as [D1 _]. rewrite Hc in D1. simpl in D1.
  apply pick_in_tx_some in Hc as [Hk Hel].
  apply bind_ok_inv in Hrun as (has&w2&Hhas&Hrun).
  pose proof (has_all_pools_quiet (h_id c) pools o w1) as [D2 _]. rewrite Hhas in D2. simpl in D2.
  destruct has.
  - injection Hrun as <- <-. apply eligible_spec in Hel as (Hup&Hex&_&Hnet&Hm&Hcp&Hg).
    split_and!; try done. rewrite <- D1. by eapply has_all_pools_ok.
  - destruct (IH _ _ Hrun) as (Hkh&Hup&Hex&Hrest). rewrite D2, D1 in *.
    split_and!; try done; [|apply Hrest..]. intros Hin. apply Hex, elem_of_app. by left.
Qed.

Lemma pick_loop_total fuel vm base pools excluded o w :
  (size (open_ids (w_db w) excluded) < fuel)%nat ->
  (pick_loop fuel vm base pools excluded o w).2 <> Ok None.
Proof.
  clear resolution to_rfc3339 sqlx_text numa_config_de defaults. revert excluded w.
  induction fuel as [|fuel IH]; intros excluded w Hsize; [lia|].
  cbn [pick_loop]. pose proof (pick_in_tx_quiet (excluding excluded base) o w) as [D1 _].
  destruct (in_dropped_tx (pick_host_now locked config (excluding excluded base)) o w) as [w1 [[c|]|e]] eqn:Hc;
    [rewrite (bind_run _ _ _ _ _ _ Hc)|by rewrite (bind_run _ _ _ _ _ _ Hc)
    |by rewrite (bind_run_err _ _ _ _ _ _ Hc)].
  apply pick_in_tx_some in Hc as [[k Hk] Hel]. simpl in D1.
  pose proof (has_all_pools_quiet (h_id c) pools o w1) as [D2 _].
  destruct (has_all_pools (h_id c) pools o w1) as [w2 [[]|e]] eqn:Hhas;
    [by rewrite (bind_run _ _ _ _ _ _ Hhas)|rewrite (bind_run _ _ _ _ _ _ Hhas)
    |by rewrite (bind_run_err _ _ _ _ _ _ Hhas)].
  simpl in D2. apply IH. rewrite D2, D1.
  apply eligible_spec in Hel as (_&Hex&_). pose proof (open_ids_shrink _ _ _ _ Hk Hex). simpl in *. lia.
Qed.

Lemma request_inv vm dead gpu o w w' base :
  evacuation_scheduling_request vm dead gpu o w = (w', Ok base) ->
  quiet w w' /\ sr_excluded_host_ids base = [dead] /\ sr_gpu base = gpu /\
  forall k nic net, t_network_interfaces (w_db w) !! k = Some nic ->
    ni_vm_id nic = v_id (vm_row vm) -> ni_network_id nic = Some net ->
    net ∈ sr_required_network_ids base.
Proof.
  unfold evacuation_scheduling_request, list_nics_by_vm. intros Hrun. minv. split_and!; try done.
  intros k nic net Hk Hvm Hnet. simpl.
  apply elem_of_elements, elem_of_list_to_set, list_elem_of_omap. exists nic. split; [|done].
  rewrite merge_sort_Permutation. apply elem_of_filter_rows. split; [by exists k|].
  by apply bool_decide_eq_true.
Qed.

Lemma pick_failover_host_ok vm dead pools gpu o w w' h :
  pick_failover_host vm dead pools gpu o w = (w', Ok (Some h)) ->
  exists base, good_target (w_db w) base pools [dead] h /\ sr_gpu base = gpu /\
    forall k nic net, t_network_interfaces (w_db w) !! k = Some nic ->
      ni_vm_id nic = v_id (vm_row vm) -> ni_network_id nic = Some net ->
      net ∈ sr_required_network_ids base.
Proof.
  intros Hrun. apply bind_ok_inv in Hrun as (base&w1&Hbase&Hrun).
  apply request_inv in Hbase as ([D1 _]&Hex&Hg&Hnet).
  apply bind_ok_inv in Hrun as (n&w2&Hn&Hrun). injection Hn as <- <-.
  apply pick_loop_ok in Hrun. rewrite D1, Hex in Hrun. eauto.
Qed.

Lemma pick_failover_host_fuel vm dead pools gpu o w w' :
  pick_failover_host vm dead pools gpu o w <> (w', Ok None).
Proof.
  clear resolution to_rfc3339 sqlx_text numa_config_de defaults. intros Hrun. apply bind_ok_inv in Hrun as (base&w1&Hbase&Hrun).
  apply bind_ok_inv in Hrun as (n&w2&Hn&Hrun). injection Hn as <- <-.
  refine (pick_loop_total (S (size (t_hosts (w_db w1)))) vm base pools (sr_excluded_host_ids base)
    o w1 _ _); [|by rewrite Hrun].
  pose proof (open_ids_bound (w_db w1) (sr_excluded_host_ids base)). lia.
Qed.

Lemma pick_failover_host_quiet vm dead pools gpu : steps quiet (pick_failover_host vm dead pools gpu).
Proof.
  apply steps_bind; [|intros base].
  - apply reads_quiet, steps_bind; [apply steps_lift_err, query_same_but_step|].
    intros ?. apply steps_ret.
  - apply steps_bind; [done|]. intros n. apply pick_loop_quiet.
Qed.

(** C4. The search for a target ends: it proposes each host at most once.  A target
    is up, is not the host that died, and has every pool and network the VM
    needs, room for it and its GPUs. *)
Theorem pick_failover_host_correct vm dead pools gpu o w :
  match pick_failover_host vm dead pools gpu o w with
  | (_, Ok None) => False
  | (_, Ok (Some h)) =>
      (exists k, t_hosts (w_db w) !! k = Some h) /\ h_status h = HostUp /\ h_id h <> dead /\
      (forall p, p ∈ pools -> (h_id h, p) ∈ t_host_storage_pools (w_db w)) /\
      (forall k nic net, t_network_interfaces (w_db w) !! k = Some nic ->
         ni_vm_id nic = v_id (vm_row vm) -> ni_network_id nic = Some net ->
         is_Some (t_host_networks (w_db w) !! (h_id h, net))) /\
      (forall g, gpu = Some g -> gr_count g <= free_gpus (w_db w) (h_id h) g)
  | (w', Err _) => w_db w' = w_db w
  end.
Proof.
  destruct (pick_failover_host vm dead pools gpu o w) as [w' [[h|]|e]] eqn:Hrun.
  - apply pick_failover_host_ok in Hrun as (base&(Hk&Hup&Hex&Hp&Hnet&Hg&_)&Hgpu&Hreq).
    split_and!; try done; [| |intros g ->; by apply Hg].
    2:{ intros k nic net Hk' Hvm Hn. by eapply Hnet, Hreq. }
    intros Heq. apply Hex. rewrite Heq. by apply list_elem_of_singleton.
  - by apply pick_failover_host_fuel in Hrun.
  - destruct (pick_failover_host_quiet vm dead pools gpu o w) as [Hdb _]. by rewrite Hrun in Hdb.
Qed.

(** *** Shared disks *)

(** Every stored object a disk of the VM uses is on a pool of [pools], and all
    of these are shared. *)
Definition disks_on (db : Db) (vm_id : Uuid) (pools : list Uuid) : Prop :=
  (forall k d oid j ob, t_vm_disks db !! k = Some d -> vd_vm_id d = vm_id ->
     (vd_storage_object_id d = Some oid \/ vd_upper_storage_object_id d = Some oid) ->
     t_storage_objects db !! j = Some ob -> so_id ob = oid -> so_storage_pool_id ob ∈ pools) /\
  (forall k pool, t_storage_pools db !! k = Some pool -> sp_id pool ∈ pools ->
     is_shared (sp_pool_type pool) = true).

Lemma refuse_local_ok pools :
  refuse_local pools = Ok tt -> forall p, p ∈ pools -> is_shared (sp_pool_type p) = true.
Proof.
  induction pools as [|p pools IH]; simpl; intros Hr q Hq; [by apply elem_of_nil in Hq|].
  destruct (is_shared (sp_pool_type p)) eqn:Hs; simpl in Hr; [|discriminate].
  apply elem_of_cons in Hq as [->|Hq]; auto.
Qed.

Lemma disk_objects_elem disks d oid :
  d ∈ disks -> vd_storage_object_id d = Some oid \/ vd_upper_storage_object_id d = Some oid ->
  oid ∈ elements (disk_objects disks).
Proof.
  intros Hd Ho. apply elem_of_elements, elem_of_list_to_set, elem_of_app.
  destruct Ho; [left|right]; apply list_elem_of_omap; eauto.
Qed.

Lemma shared_disk_pool_ids_ok vm o w w' pools :
  shared_disk_pool_ids vm o w = (w', Ok pools) ->
  quiet w w' /\ disks_on (w_db w) (v_id (vm_row vm)) pools.
Proof.
  unfold shared_disk_pool_ids, list_disks_by_vm, get_object_batch, get_pool_batch. intros Hrun.
  apply bind_ok_inv in Hrun as (disks&w1&Hd&Hrun). apply lift_err_ok_inv, query_ok_inv in Hd as [Hd ->].
  assert (forall k d, t_vm_disks (w_db w) !! k = Some d -> vd_vm_id d = v_id (vm_row vm) ->
            d ∈ disks) as Hdisks.
  { intros k d Hk Hvm. injection Hd as <-. rewrite merge_sort_Permutation. apply elem_of_filter_rows.
    split; [by exists k|]. by apply bool_decide_eq_true. }
  destruct (elements (disk_objects disks)) as [|oid0 oids] eqn:Hids.
  - injection Hrun as <- <-. split; [done|]. split; [|intros ??? []%elem_of_nil].
    intros k d oid j ob Hk Hvm Ho. apply (disk_objects_elem disks) in Ho; [|by eapply Hdisks].
    rewrite Hids in Ho. by apply elem_of_nil in Ho.
  - rewrite <- Hids in Hrun. apply bind_ok_inv in Hrun as (objs&w2&Hobj&Hrun).
    apply lift_err_ok_inv, query_ok_inv in Hobj as [[= <-] ->].
    apply bind_ok_inv in Hrun as (ps&w3&Hps&Hrun). apply lift_err_ok_inv, query_ok_inv in Hps as [[= <-] ->].
    apply bind_ok_inv in Hrun as ([]&w4&Hl&Hrun). injection Hl as <- Hl. injection Hrun as <- <-.
    split; [done|]. split.
    + intros k d oid j ob Hk Hvm Ho Hj Hid.
      apply elem_of_elements, elem_of_list_to_set, list_elem_of_fmap. exists ob. split; [done|].
      apply elem_of_filter_rows. split; [by exists j|]. apply bool_decide_eq_true. rewrite Hid.
      eapply disk_objects_elem; [by eapply Hdisks|done].
    + intros k pool Hk Hin. eapply refuse_local_ok; [exact Hl|]. apply elem_of_filter_rows.
      split; [by exists k|]. by apply bool_decide_eq_true.
Qed.

(** *** Moving the GPUs *)

Definition gpus_only (db db' : Db) : Prop := exists t, db' = with_host_gpus (fun _ => t) db.
#[local] Instance gpus_only_preorder : PreOrder gpus_only.
Proof.
  split; [intros db; exists (t_host_gpus db); by destruct db|].
  intros a b c [t1 ->] [t2 ->]. by exists t2.
Qed.

Lemma reallocate_body_moves vm_id target g :
  steps (tx_moves gpus_only) (reallocate_body vm_id target g).
Proof.
  assert (forall w, tx_moves gpus_only w (tick w)) as Htick by (intros; apply tx_moves_tick, _).
  apply steps_bind.
  - apply steps_lift_err, steps_bind; [by apply steps_now|]. intros t. apply steps_execute_tx.
    intros db db' a [= <- _]. by eexists.
  - intros _. apply steps_bind; [|intros l; case_match; [apply steps_throw|apply steps_ret]].
    apply steps_lift_err. intros o w. unfold allocate_gpus_now. revert o w.
    assert (forall lk, steps (tx_moves gpus_only) (allocate_gpus lk target vm_id (gr_count g) (gpu_filter g)))
      as Ha; [|intros o w; apply Ha].
    intros lk. apply steps_bind; [by apply steps_now|]. intros t. apply steps_execute_tx.
    intros db db' a Heq. case_match; [discriminate|]. injection Heq as <- _. by eexists.
Qed.

Lemma reallocate_moves vm_id target g o w :
  let w' := (reallocate_vm_gpus vm_id target g o w).1 in
  gpus_only (w_db w) (w_db w') /\ w_log w' = w_log w.
Proof. apply (in_tx_moves (R := gpus_only)), reallocate_body_moves. Qed.

Lemma as_i32_small n : 0 <= n <= i32_max -> as_i32 n = n.
Proof.
  unfold as_i32, i32_max. intros Hn. rewrite Z.mod_small by lia.
  destruct (Z.leb_spec n 2147483647); lia.
Qed.

(** The rows after a deallocation inside a transaction. *)
Lemma deallocate_tx_ok vm_id o w w' n :
  deallocate_by_vm_tx vm_id o w = (w', Ok n) -> gpus_ok (tx_gpus w) ->
  gpus_ok (tx_gpus w') /\ forall k x, tx_gpus w' !! k = Some x -> g_vm_id x <> Some vm_id.
Proof.
  unfold deallocate_by_vm_tx, deallocate. intros Hrun Hok. minv. unfold tx_gpus. simpl.
  set (t := o_now o (w_step w)). split.
  - eapply (gpus_ok_fmap (fun _ g => if bool_decide (g_vm_id g = Some vm_id)
      then assign_row None t g else g)); [|intros k; apply lookup_update_where|exact Hok].
    intros k g. by case_bool_decide.
  - intros k x. rewrite lookup_update_where. intros (x0&_&->)%fmap_Some. by case_bool_decide.
Qed.

(** What an allocation for a VM without GPUs gives it. *)
Lemma allocate_held lk target vm_id count f o w w' l :
  gpus_ok (tx_gpus w) -> (forall k x, tx_gpus w !! k = Some x -> g_vm_id x <> Some vm_id) ->
  allocate_gpus lk target vm_id count f o w = (w', Ok l) ->
  Z.of_nat (length l) <= count /\
  (forall x, x ∈ l <-> tx_gpus w' !! g_id x = Some x /\ g_vm_id x = Some vm_id) /\
  (forall x, x ∈ l -> g_host_id x = target /\ gpu_matches f x = true).
Proof.
  intros Hok Hfree Hrun.
  destruct (allocate_effect _ _ _ _ _ _ _ _ _ Hok Hrun) as (Hc&_&Hlook&Hin&Hlen).
  set (picked := take _ _) in *.
  assert (forall x, x ∈ l -> exists g0, g0 ∈ picked /\
            x = assign_row (Some vm_id) (o_now o (w_step w)) g0) as Hx.
  { intros x Hx. apply Hin in Hx as [Hp Hx]. rewrite Hlook in Hx.
    apply fmap_Some in Hx as (g0&Hg0&Hx). rewrite decide_True in Hx by done.
    apply list_elem_of_fmap in Hp as (g1&Hid&Hg1). exists g1. split; [done|].
    assert (tx_gpus w !! g_id g1 = Some g1) as Hl1.
    { apply elem_of_take in Hg1 as (j&Hg1&_). apply list_elem_of_lookup_2, gpu_candidates_elem in Hg1
        as ([k Hk]&_&_). destruct Hok as [Hkey _]. by rewrite (Hkey k g1 Hk). }
    rewrite Hid in Hg0. by simplify_eq. }
  split_and!.
  - rewrite Hlen. subst picked. rewrite length_take. lia.
  - intros x. split.
    + intros Hxl. pose proof (proj1 (Hin x) Hxl) as [_ ?]. split; [done|].
      by destruct (Hx x Hxl) as (g0&_&->).
    + intros [Hl Hvm]. apply Hin. split; [|done]. rewrite Hlook in Hl.
      apply fmap_Some in Hl as (g0&Hg0&Hl). case_decide; [done|]. subst x. by apply Hfree in Hg0.
  - intros x (g0&Hg0&->)%Hx. apply elem_of_take in Hg0 as (j&Hg0&_).
    apply list_elem_of_lookup_2, gpu_candidates_elem in Hg0 as (_&Hf&_).
    unfold gpu_free in Hf. apply andb_true_iff in Hf as [Hf Hm]. by crush.
Qed.

(** A refused reallocation leaves every GPU where it was.  An accepted one left
    the VM with exactly the GPUs it asked for, all of them on the target host. *)
Theorem reallocate_atomic vm_id target g o w w' r :
  gpus_ok (t_host_gpus (w_db w)) -> gr_count g <= i32_max ->
  reallocate_vm_gpus vm_id target g o w = (w', r) ->
  match r with
  | Err _ => w_db w' = w_db w
  | Ok _ => exists held : list HostGpu, Z.of_nat (length held) = gr_count g /\ NoDup (g_id <$> held) /\
      (forall x, x ∈ held <-> t_host_gpus (w_db w') !! g_id x = Some x /\ g_vm_id x = Some vm_id) /\
      (forall x, x ∈ held -> g_host_id x = target /\ gpu_matches (gpu_filter g) x = true)
  end.
Proof.
  intros Hok Hmax Hrun. destruct r as [[]|e].
  - apply in_tx_ok in Hrun as (w2&Hbody&Hdb&_&_). unfold reallocate_body in Hbody.
    apply bind_ok_inv in Hbody as (n&w3&Hd&Hbody). apply lift_err_ok_inv in Hd.
    apply deallocate_tx_ok in Hd as [Hok3 Hfree]; [|done].
    apply bind_ok_inv in Hbody as (l&w4&Ha&Hbody). apply lift_err_ok_inv in Ha. unfold allocate_gpus_now in Ha.
    pose proof (allocate_NoDup _ _ _ _ _ _ _ _ _ Hok3 Ha) as Hnd.
    apply allocate_held in Ha as (Hlen&Hheld&Hhost); [|done|done].
    destruct (Z.ltb_spec (as_i32 (Z.of_nat (length l))) (gr_count g)) as [|Hge]; [discriminate|].
    injection Hbody as ->. rewrite as_i32_small in Hge by lia.
    exists l. split_and!; [lia|done| |done]. unfold tx_gpus, conn_db in Hheld. by rewrite Hdb.
  - eapply in_tx_err; [|exact Hrun]. intros o' w0.
    by destruct (reallocate_body_moves vm_id target g o' w0) as (?&_).
Qed.

(** *** Moving the row *)

(** The row of a VM placed on the target. *)
Definition moved_row (vm : Vm) (dead target : Uuid) (r : VmRow) : VmRow :=
  set_row_status Created (set_host_id target
    (set_config (set_failed_over_from (v_config (vm_row vm)) (Some dead)) r)).

Lemma update_config_ok id c o w w' :
  update_config id c o w = (w', Ok tt) ->
  w_db w' = with_vms (alter (set_config c) id) (w_db w) /\ w_log w' = w_log w.
Proof. unfold update_config, update_row. intros Hrun. by minv. Qed.

Lemma update_host_id_ok id h o w w' :
  update_host_id id h o w = (w', Ok tt) ->
  t_vms (w_db w') = alter (set_host_id h) id (t_vms (w_db w)) /\
  t_hosts (w_db w') = t_hosts (w_db w) /\ w_log w' = w_log w.
Proof.
  unfold update_host_id, checked_update. intros (db&Hf&->)%execute_ok_inv. simpl in Hf.
  destruct (t_vms (w_db w) !! id) as [r|] eqn:Hr.
  - apply result_bind_ok in Hf as (?&_&?). simplify_eq/=. split_and!; [|done|done]. symmetry. by apply alter_as_insert.
  - simplify_eq/=. split_and!; [|done|done]. symmetry. apply map_eq. intros k.
    destruct (decide (k = id)) as [->|]; [by rewrite lookup_alter_eq, Hr|by rewrite lookup_alter_ne].
Qed.

Lemma set_status_keeps_hosts id s o w :
  t_hosts (w_db (set_status id s o w).1) = t_hosts (w_db w).
Proof. by apply (update_status_keeps to_rfc3339 (fun w => t_hosts (w_db w))). Qed.

Lemma alter_alter_id (f g : VmRow -> VmRow) id (T : gmap Uuid VmRow) :
  alter f id (alter g id T) = alter (fun r => f (g r)) id T.
Proof.
  apply map_eq. intros k. destruct (decide (k = id)) as [->|]; [|by rewrite !lookup_alter_ne].
  rewrite !lookup_alter_eq. by destruct (T !! id).
Qed.

Lemma move_row_ok vm dead target o w w' :
  move_row vm dead target o w = (w', Ok tt) ->
  t_vms (w_db w') = alter (moved_row vm dead target) (v_id (vm_row vm)) (t_vms (w_db w)) /\
  t_hosts (w_db w') = t_hosts (w_db w).
Proof.
  unfold move_row. intros Hrun. apply bind_ok_inv in Hrun as ([]&w1&Hc&Hrun).
  apply lift_err_ok_inv, update_config_ok in Hc as [D1 _].
  apply bind_ok_inv in Hrun as ([]&w2&Hh&Hrun). apply lift_err_ok_inv, update_host_id_ok in Hh as (T2&H2&_).
  apply lift_err_ok_inv in Hrun. pose proof (set_status_keeps_hosts (v_id (vm_row vm)) Created o w2) as H3.
  rewrite Hrun in H3. apply update_status_ok in Hrun. rewrite Hrun, T2, D1. simpl in *.
  rewrite H3, H2, D1. split; [|done]. by rewrite !alter_alter_id.
Qed.

Lemma move_gpus_only vm dead target gpu o w w' :
  move_gpus vm dead target gpu o w = (w', Ok tt) -> gpus_only (w_db w) (w_db w').
Proof.
  unfold move_gpus. destruct gpu as [g|]; [|intros [= <-]; reflexivity].
  destruct (reallocate_vm_gpus (v_id (vm_row vm)) target g o w) as [w1 r] eqn:Hr.
  rewrite (attempt_bind_run _ _ _ _ _ _ Hr).
  pose proof (reallocate_moves (v_id (vm_row vm)) target g o w) as [D _]. rewrite Hr in D.
  destruct r as [[]|e]; [by intros [= <-]|].
  intros Hrun. apply bind_ok_inv in Hrun as (?&?&_&?). discriminate.
Qed.

Lemma restart_moved_ok vm dead gpu o w w' job_id :
  restart_moved vm dead gpu o w = (w', Ok job_id) ->
  start_vm_internal to_rfc3339 sqlx_text numa_config_de defaults (v_id (vm_row vm)) o w = (w', Ok job_id).
Proof.
  unfold restart_moved.
  destruct (start_vm_internal _ _ _ _ _ o w) as [w1 r] eqn:Hs. rewrite (attempt_bind_run _ _ _ _ _ _ Hs).
  destruct r as [j|e]; [by intros [= <- <-]|]. intros Hrun.
  apply bind_ok_inv in Hrun as (?&?&_&Hrun). apply bind_ok_inv in Hrun as (?&?&_&?). discriminate.
Qed.

Lemma shared_disk_pool_ids_quiet vm : steps quiet (shared_disk_pool_ids vm).
Proof.
  apply reads_quiet, steps_bind; [apply steps_lift_err, query_same_but_step|]. intros disks.
  destruct (elements _); [apply steps_ret|].
  apply steps_bind; [apply steps_lift_err, query_same_but_step|]. intros objs.
  apply steps_bind; [apply steps_lift_err, query_same_but_step|]. intros pools.
  apply steps_bind; [apply steps_of_result|]. intros _. apply steps_ret.
Qed.

Lemma gpu_request_quiet vm : steps quiet (gpu_request_for_vm vm).
Proof.
  apply reads_quiet, steps_bind; [apply steps_lift_err, query_same_but_step|]. intros ?. apply steps_ret.
Qed.

Lemma plan_failover_quiet vm dead : steps quiet (plan_failover vm dead).
Proof.
  apply steps_bind; [apply shared_disk_pool_ids_quiet|]. intros pools.
  apply steps_bind; [apply gpu_request_quiet|]. intros gpu.
  apply steps_bind; [apply pick_failover_host_quiet|]. intros t. apply steps_ret.
Qed.

Lemma plan_failover_ok vm dead o w w' plan :
  plan_failover vm dead o w = (w', Ok plan) ->
  exists gpu target pools base, plan = Some (gpu, target) /\
    disks_on (w_db w) (v_id (vm_row vm)) pools /\
    good_target (w_db w) base pools [h_id dead] target.
Proof.
  intros Hrun. apply bind_ok_inv in Hrun as (pools&w1&Hp&Hrun).
  apply shared_disk_pool_ids_ok in Hp as [[D1 _] Hd].
  apply bind_ok_inv in Hrun as (gpu&w2&Hg&Hrun). pose proof (gpu_request_quiet vm o w1) as [D2 _].
  rewrite Hg in D2. simpl in D2.
  apply bind_ok_inv in Hrun as ([target|]&w3&Ht&Hrun); [|by apply pick_failover_host_fuel in Ht].
  injection Hrun as _ <-. apply pick_failover_host_ok in Ht as (base&Hgood&_). rewrite D2, D1 in Hgood.
  by exists gpu, target, pools, base.
Qed.

(** C2. A failover that succeeds moved a VM whose disks are all on shared storage to
    another host, up and with the same storage; the row names the new host,
    carries the marker of the old one and is [Pending], and the spawned task
    creates the VM on the node before it starts it. *)
Theorem failover_moves_vm vm dead o w w' res :
  execute_failover vm dead o w = (w', Ok res) ->
  exists target row pools job_id host req,
    res = Some (failover_result (h_id dead) (h_id target) job_id) /\
    disks_on (w_db w) (v_id (vm_row vm)) pools /\
    (forall p, p ∈ pools -> (h_id target, p) ∈ t_host_storage_pools (w_db w)) /\
    (exists k, t_hosts (w_db w) !! k = Some target) /\
    h_status target = HostUp /\ h_id target <> h_id dead /\
    t_vms (w_db w) !! v_id (vm_row vm) = Some row /\
    t_vms (w_db w') = <[v_id (vm_row vm) := set_row_status Pending
      (moved_row vm (h_id dead) (h_id target) row)]> (t_vms (w_db w)) /\
    t_hosts (w_db w) !! h_id target = Some host /\
    EvSpawn {| st_host := host; st_vm_id := v_id (vm_row vm); st_job_id := job_id;
               st_create := Some req; st_original_status := Created |} ∈ w_log w'.
Proof.
  set (id := v_id (vm_row vm)). unfold execute_failover. fold id. intros Hrun.
  apply bind_ok_inv in Hrun as (plan&w3&Hplan&Hrun).
  pose proof (plan_failover_quiet vm dead o w) as [D3 _]. rewrite Hplan in D3. simpl in D3.
  apply plan_failover_ok in Hplan as (gpu&target&pools&base&->&Hd&Hk&Hup&Hex&Hpools&_).
  apply bind_ok_inv in Hrun as (?&w4&H4&Hrun). injection H4 as <- _.
  apply bind_ok_inv in Hrun as (?&w5&H5&Hrun). injection H5 as <- _.
  apply bind_ok_inv in Hrun as ([]&w6&Hm&Hrun). apply move_row_ok in Hm as [T6 H6].
  apply bind_ok_inv in Hrun as ([]&w7&Hmg&Hrun). apply move_gpus_only in Hmg as [gs D7].
  assert (t_vms (w_db w7) = t_vms (w_db w6)) as T7 by (by rewrite D7).
  assert (t_hosts (w_db w7) = t_hosts (w_db w6)) as H7 by (by rewrite D7).
  apply bind_ok_inv in Hrun as (job&w8&Hs&Hrun). injection Hrun as <- <-.
  apply restart_moved_ok, start_inv in Hs as (row1&host&t&create&Hst&Hcr&T8&_&ev&_&L8).
  destruct Hst as (Hrow1&_&(hid&Hhid&Hhost)&_).
  rewrite T7, T6 in Hrow1. simpl in Hrow1, T6, H6. rewrite D3 in *. fold id in Hrow1.
  rewrite lookup_alter_eq in Hrow1. apply fmap_Some in Hrow1 as (row&Hrow&->).
  destruct create as [req|]; [|by destruct Hcr].
  exists target, row, pools, job, host, req. split_and!; try done.
  - intros Heq. apply Hex. rewrite Heq. by apply list_elem_of_singleton.
  - rewrite T8, T7, T6. fold id. rewrite (alter_as_insert _ _ _ _ Hrow). apply insert_insert_eq.
  - injection Hhid as <-. by rewrite <- H6, <- H7.
  - rewrite L8. apply elem_of_log_last.
Qed.

(** *** A failover that fails *)

Lemma constraints_ext r r' others db h :
  vm_constraints r others db = Ok tt ->
  v_name r' = v_name r -> v_boot_vcpus r' = v_boot_vcpus r -> v_max_vcpus r' = v_max_vcpus r ->
  v_memory_size r' = v_memory_size r -> v_image_ref r' = v_image_ref r ->
  v_host_id r' = Some h -> h ∈ dom (t_hosts db) ->
  vm_constraints r' others db = Ok tt.
Proof.
  unfold vm_constraints, vm_checks. intros Hok -> -> -> -> -> -> Hdom.
  destruct (_ || _); [discriminate|]. destruct (negb _); [discriminate|]. destruct (negb _); [discriminate|].
  destruct (negb _); [discriminate|]. simpl in *. destruct (existsb _ _); [discriminate|].
  by rewrite bool_decide_true.
Qed.

Lemma constraints_host r others db h :
  vm_constraints r others db = Ok tt -> v_host_id r = Some h -> h ∈ dom (t_hosts db).
Proof.
  unfold vm_constraints. intros Hok Hh. rewrite Hh in Hok.
  destruct (vm_checks r) as [[]|]; simpl in Hok; [|discriminate].
  destruct (existsb _ _); [discriminate|]. by case_bool_decide.
Qed.

Lemma restore_fields c r h : v_host_id r = Some h ->
  set_config (v_config r) (set_row_status (v_status r) (set_host_id h (set_config c r))) = r.
Proof. destruct r. simpl. by intros ->. Qed.

Section failing.
Variables (o : Oracle) (row : VmRow) (dead : Uuid) (db : Db).
Hypothesis (Ho : served o) (Hdead : v_host_id row = Some dead).
Hypothesis (Hcons : vm_constraints row (delete (v_id row) (t_vms db)) db = Ok tt).

(** During the attempt the table is the original one but for the host, the
    status and the configuration of the VM. *)
Definition attempting (w : World) : Prop :=
  t_hosts (w_db w) = t_hosts db /\
  exists r, t_vms (w_db w) = <[v_id row := r]> (t_vms db) /\
    set_config (v_config row) (set_row_status (v_status row) (set_host_id dead r)) = row.

Lemma set_host_run w h :
  attempting w -> h ∈ dom (t_hosts db) ->
  exists w', update_host_id (v_id row) h o w = (w', Ok tt) /\ w_log w' = w_log w /\
    t_hosts (w_db w') = t_hosts db /\
    exists r, t_vms (w_db w) = <[v_id row := r]> (t_vms db) /\
      set_config (v_config row) (set_row_status (v_status row) (set_host_id dead r)) = row /\
      t_vms (w_db w') = <[v_id row := set_host_id h r]> (t_vms db).
Proof.
  intros (Hh&r&Hr&Heq) Hdom. unfold update_host_id, checked_update.
  rewrite (execute_served Pool _ o w
    (with_vms (<[v_id row := set_host_id h r]>) (w_db w)) tt Ho).
  - eexists. split; [reflexivity|]. simpl. split_and!; [done|done|]. exists r.
    split_and!; [done|done|]. by rewrite Hr, insert_insert_eq.
  - simpl. rewrite Hr, lookup_insert_eq, delete_insert_eq.
    rewrite (constraints_ext row _ _ _ h); [done| | | | | | |done|by rewrite Hh].
    + unfold vm_constraints in *. by rewrite Hh.
    + by rewrite <- Heq.
    + by rewrite <- Heq.
    + by rewrite <- Heq.
    + by rewrite <- Heq.
    + by rewrite <- Heq.
Qed.

Lemma revert_run w :
  attempting w -> dead ∈ dom (t_hosts db) ->
  exists w', revert_failover_state (vm_from_row row) dead o w = (w', Ok tt) /\
    t_vms (w_db w') = <[v_id row := row]> (t_vms db).
Proof.
  intros Hw Hdom. unfold revert_failover_state. simpl.
  destruct (set_host_run w dead Hw Hdom) as (w1&E1&_&_&r&_&Heq&T1).
  rewrite (attempt_bind_run _ _ _ _ _ _ E1).
  destruct (update_status_run to_rfc3339 (v_id row) (v_status row) o w1 (set_host_id dead r) Ho)
    as (w2&E2&T2&_); [by rewrite T1, lookup_insert_eq|].
  rewrite (attempt_bind_run _ _ _ _ _ _ E2).
  unfold update_config, update_row.
  rewrite (attempt_bind_run _ _ _ _ _ _ (execute_served Pool _ o w2
    (with_vms (alter (set_config (v_config row)) (v_id row)) (w_db w2)) tt Ho eq_refl)).
  eexists. split; [reflexivity|]. simpl. rewrite T2, T1, insert_insert_eq.
  rewrite (alter_as_insert _ _ _ _ (lookup_insert_eq _ _ _)), insert_insert_eq. by rewrite Heq.
Qed.

Lemma attempting_gpus w w' : gpus_only (w_db w) (w_db w') -> attempting w -> attempting w'.
Proof. unfold attempting. by intros [t ->]. Qed.

Lemma move_row_run w target :
  attempting w -> t_vms (w_db w) = <[v_id row := row]> (t_vms db) -> target ∈ dom (t_hosts db) ->
  exists w', move_row (vm_from_row row) dead target o w = (w', Ok tt) /\ attempting w'.
Proof.
  intros [Hh _] HT Hdom. unfold move_row. simpl.
  set (c := set_failed_over_from (v_config row) (Some dead)).
  set (w1 := set_conn_db Pool (with_vms (alter (set_config c) (v_id row)) (w_db w)) (tick w)).
  assert (update_config (v_id row) c o w = (w1, Ok tt)) as E1.
  { apply (execute_served Pool _ o w _ tt Ho eq_refl). }
  rewrite (bind_run _ _ _ _ _ _ (lift_err_run _ _ _ _ _ _ E1)).
  assert (attempting w1) as A1.
  { split; [exact Hh|]. exists (set_config c row). simpl. rewrite HT.
    rewrite (alter_as_insert _ _ _ _ (lookup_insert_eq _ _ _)), insert_insert_eq. split; [done|].
    by apply restore_fields. }
  destruct (set_host_run w1 target A1 Hdom) as (w2&E2&_&H2&r&_&Heq&T2).
  rewrite (bind_run _ _ _ _ _ _ (lift_err_run _ _ _ _ _ _ E2)).
  destruct (update_status_run to_rfc3339 (v_id row) Created o w2 (set_host_id target r) Ho)
    as (w3&E3&T3&_); [by rewrite T2, lookup_insert_eq|].
  rewrite (lift_err_run _ _ _ _ _ _ E3). eexists. split; [reflexivity|]. split.
  - pose proof (set_status_keeps_hosts (v_id row) Created o w2) as Hk. rewrite E3 in Hk. simpl in Hk. by rewrite Hk.
  - eexists. rewrite T3, T2, insert_insert_eq. split; [reflexivity|exact Heq].
Qed.

Lemma move_gpus_err w w' target gpu e :
  attempting w -> dead ∈ dom (t_hosts db) ->
  move_gpus (vm_from_row row) dead target gpu o w = (w', Err e) ->
  t_vms (w_db w') = <[v_id row := row]> (t_vms db).
Proof.
  intros Hw Hdom. unfold move_gpus. destruct gpu as [g|]; [|discriminate].
  pose proof (reallocate_moves (v_id row) target g o w) as [Hg _].
  simpl vm_row. destruct (reallocate_vm_gpus (v_id row) target g o w) as [w1 r] eqn:Hr.
  rewrite (attempt_bind_run _ _ _ _ _ _ Hr). destruct r as [[]|e']; [discriminate|].
  apply (attempting_gpus _ w1) in Hw; [|exact Hg].
  destruct (revert_run w1 Hw Hdom) as (w2&E2&T2). rewrite (bind_run _ _ _ _ _ _ E2).
  by intros [= <- _].
Qed.

Lemma restart_moved_err w w' gpu e :
  attempting w -> dead ∈ dom (t_hosts db) ->
  restart_moved (vm_from_row row) dead gpu o w = (w', Err e) ->
  t_vms (w_db w') = <[v_id row := row]> (t_vms db).
Proof.
  intros Hw Hdom. unfold restart_moved. simpl vm_row.
  pose proof (start_keeps_table to_rfc3339 sqlx_text numa_config_de defaults t_hosts (v_id row)
    (fun _ _ => eq_refl) (fun _ _ => eq_refl) (fun _ _ => eq_refl) o w) as Hk.
  destruct (start_vm_internal _ _ _ _ (v_id row) o w) as [w1 r] eqn:Hs.
  rewrite (attempt_bind_run _ _ _ _ _ _ Hs). destruct r as [j|e']; [discriminate|].
  apply start_refused_run in Hs as [T1 _]; [|exact Ho].
  assert (attempting w1) as A1.
  { destruct Hw as [Hh (r&Hr&Heq)]. split; [|exists r; by rewrite T1].
    unfold keeps_table, keeps in Hk. simpl in Hk. by rewrite Hk. }
  destruct (revert_run w1 A1 Hdom) as (w2&E2&T2). rewrite (bind_run _ _ _ _ _ _ E2).
  destruct gpu as [g|]; [|intros [= <- _]; exact T2].
  pose proof (reallocate_moves (v_id row) dead g o w2) as [[t D] _].
  destruct (reallocate_vm_gpus (v_id row) dead g o w2) as [w3 r3] eqn:E3. simpl in D.
  unfold mbind at 1, M_bind at 1. rewrite (attempt_bind_run _ _ _ _ _ _ E3).
  intros [= <- _]. by rewrite D.
Qed.
End failing.

(** C3. A failover that fails while the database serves every statement leaves the
    vms table as it was: the VM is still a candidate of the dead host. *)
Theorem failover_failure_restores row dead o w w' e :
  served o -> t_vms (w_db w) !! v_id row = Some row -> v_host_id row = Some (h_id dead) ->
  vm_constraints row (delete (v_id row) (t_vms (w_db w))) (w_db w) = Ok tt ->
  map_Forall (fun k h => h_id h = k) (t_hosts (w_db w)) ->
  execute_failover (vm_from_row row) dead o w = (w', Err e) ->
  t_vms (w_db w') = t_vms (w_db w).
Proof.
  intros Ho Hrow Hhost Hcons Hkey. pose proof (constraints_host _ _ _ _ Hcons Hhost) as Hdom.
  rewrite <- (insert_id _ _ _ Hrow). unfold execute_failover. simpl vm_row.
  pose proof (plan_failover_quiet (vm_from_row row) dead o w) as [D3 _].
  destruct (plan_failover (vm_from_row row) dead o w) as [w3 [plan|e3]] eqn:E3; simpl in D3.
  2:{ rewrite (bind_run_err _ _ _ _ _ _ E3). intros [= <- _]. by rewrite D3, insert_id. }
  rewrite (bind_run _ _ _ _ _ _ E3).
  apply plan_failover_ok in E3 as (gpu&target&pools&base&->&_&[k Hk]&_).
  assert (h_id target ∈ dom (t_hosts (w_db w))) as Htgt.
  { rewrite (Hkey _ _ Hk). apply elem_of_dom. by exists target. }
  destruct (rpc_run (E := Error) dead (ForceStopVm (v_id row)) o w3) as (w4&r4&E4).
  rewrite (bind_run _ _ _ _ _ _ E4). assert (w_db w4 = w_db w3) as D4 by (by injection E4 as <- _).
  destruct (rpc_run (E := Error) dead (DeleteVm (v_id row)) o w4) as (w5&r5&E5).
  rewrite (bind_run _ _ _ _ _ _ E5). assert (w_db w5 = w_db w4) as D5 by (by injection E5 as <- _).
  rewrite D4, D3 in D5.
  assert (attempting row (h_id dead) (w_db w) w5) as A5.
  { split; [by rewrite D5|]. exists row. rewrite D5, insert_id by done. split; [done|].
    destruct row; simpl in *; by subst. }
  destruct (move_row_run o row (h_id dead) (w_db w) Ho Hhost Hcons w5 (h_id target)) as (w6&E6&A6);
    [done|by rewrite D5, insert_id|done|].
  rewrite (bind_run _ _ _ _ _ _ E6).
  destruct (move_gpus (vm_from_row row) (h_id dead) (h_id target) gpu o w6) as [w7 [[]|e7]] eqn:E7.
  2:{ rewrite (bind_run_err _ _ _ _ _ _ E7). intros [= <- _]. by eapply move_gpus_err. }
  rewrite (bind_run _ _ _ _ _ _ E7).
  apply (attempting_gpus _ _ _ _ w7) in A6; [|by eapply move_gpus_only].
  destruct (restart_moved (vm_from_row row) (h_id dead) gpu o w7) as [w8 [job|e8]] eqn:E8;
    [rewrite (bind_run _ _ _ _ _ _ E8); discriminate|].
  rewrite (bind_run_err _ _ _ _ _ _ E8). intros [= <- _]. by eapply restart_moved_err.
Qed.

(** *** When the monitor acts *)

(** Where each VM is and in which status. *)
Definition placement (db : Db) : gmap Uuid (option Uuid * VmStatus) :=
  (fun r => (v_host_id r, v_status r)) <$> t_vms db.

Lemma update_config_placement id c : steps (keeps_table placement) (update_config id c).
Proof.
  apply steps_execute; [done|]. intros w db a [= <- _]. unfold keeps_table, keeps, placement. simpl.
  apply map_eq. intros k. rewrite !lookup_fmap.
  destruct (decide (k = id)) as [->|]; [|by rewrite lookup_alter_ne].
  rewrite lookup_alter_eq. by destruct (t_vms (w_db w) !! id).
Qed.

Lemma cleanup_placement host : steps (keeps_table placement) (cleanup_stale_copies host).
Proof.
  apply steps_bind; [apply steps_attempt, steps_query; done|]. intros [l|e]; [|apply steps_ret].
  apply steps_for_all_m. intros vm _.
  apply steps_bind; [apply steps_rpc; done|]. intros _.
  apply steps_bind; [apply steps_rpc; done|]. intros r. case_bool_decide; [apply steps_ret|].
  apply steps_bind; [apply steps_attempt, update_config_placement|]. intros _. apply steps_ret.
Qed.

(** The monitor gave the host the time the settings ask for, and its probe
    failed. *)
Definition written_off (settings : HaSettings) (st : MonitorState) (host : Host) (o : Oracle)
    (w w' : World) : Prop :=
  (exists reply, reply <> RpcOk /\
     logged w w' (EvRpc (h_address host) (as_u16 (h_port host)) GetNodeInfo reply)) /\
  exists since n, (ms_unreachable_since st !! h_id host = Some since \/ exists m, since = o_now o m) /\
    ha_failover_grace_seconds settings * resolution <= Z.max 0 (o_now o n - since).

(** *** The log of the monitor *)

Lemma quiet_grows {E A} (m : M E A) : steps quiet m -> steps log_grows m.
Proof. intros Hm o w. destruct (Hm o w) as [_ L]. exists []. by rewrite L, app_nil_r. Qed.
Lemma jobs_grow {E A} (m : M E A) : steps jobs_only m -> steps log_grows m.
Proof. intros Hm o w. destruct (Hm o w) as [_ L]. exists []. by rewrite L, app_nil_r. Qed.
Lemma tick_grows w : log_grows w (tick w).
Proof. exists []. by rewrite app_nil_r. Qed.
Lemma rpc_grows {E} h c : steps log_grows (rpc h c : M E RpcOutcome).
Proof. intros o w. by eexists. Qed.
Lemma now_grows {E} : steps log_grows (now : M E Z).
Proof. intros o w. apply tick_grows. Qed.
Lemma update_row_grows f id : steps log_grows (update_row f id).
Proof. apply steps_execute; [apply tick_grows|]. intros w db a _. apply tick_grows. Qed.
Lemma checked_update_grows f id : steps log_grows (checked_update Pool f id).
Proof. apply steps_execute; [apply tick_grows|]. intros w db a _. apply tick_grows. Qed.

Lemma revert_grows vm dead : steps log_grows (revert_failover_state vm dead).
Proof.
  apply steps_bind; [apply steps_attempt, checked_update_grows|]. intros _.
  apply steps_bind; [apply steps_attempt, update_status_log_grows|]. intros _.
  apply steps_bind; [apply steps_attempt, update_row_grows|]. intros _. apply steps_ret.
Qed.
Lemma reallocate_grows vm_id target g : steps log_grows (reallocate_vm_gpus vm_id target g).
Proof.
  intros o w. destruct (reallocate_moves vm_id target g o w) as [_ L]. exists [].
  by rewrite app_nil_r.
Qed.
Lemma start_grows id : steps log_grows (start_vm_internal to_rfc3339 sqlx_text numa_config_de defaults id).
Proof.
  intros o w. destruct (start_reuses to_rfc3339 sqlx_text numa_config_de defaults id o w)
    as [_ (l&L&_)]. by exists l.
Qed.

Lemma execute_failover_grows vm dead : steps log_grows (execute_failover vm dead).
Proof.
  apply steps_bind; [apply quiet_grows, plan_failover_quiet|]. intros [[gpu target]|]; [|apply steps_ret].
  apply steps_bind; [apply rpc_grows|]. intros _. apply steps_bind; [apply rpc_grows|]. intros _.
  apply steps_bind.
  { apply steps_bind; [apply steps_lift_err, update_row_grows|]. intros _.
    apply steps_bind; [apply steps_lift_err, checked_update_grows|]. intros _.
    apply steps_lift_err, update_status_log_grows. }
  intros _. apply steps_bind.
  { unfold move_gpus. destruct gpu; [|apply steps_ret].
    apply steps_bind; [apply steps_attempt, reallocate_grows|]. intros [|]; [apply steps_ret|].
    apply steps_bind; [apply revert_grows|]. intros _. apply steps_throw. }
  intros _. apply steps_bind; [|intros ?; apply steps_ret].
  apply steps_bind; [apply steps_attempt, start_grows|]. intros [|]; [apply steps_ret|].
  apply steps_bind; [apply revert_grows|]. intros _.
  apply steps_bind; [|intros ?; apply steps_throw]. destruct gpu; [|apply steps_ret].
  apply steps_bind; [apply steps_attempt, reallocate_grows|]. intros _. apply steps_ret.
Qed.

Lemma failover_vm_grows vm dead : steps log_grows (failover_vm vm dead).
Proof.
  apply steps_bind; [apply steps_attempt, jobs_grow, create_only|]. intros [j|]; [|apply steps_ret].
  apply steps_bind; [apply steps_attempt, jobs_grow, update_job_only|]. intros _.
  apply steps_bind; [apply steps_attempt, execute_failover_grows|].
  intros [|]; (apply steps_bind; [apply steps_attempt, jobs_grow, update_job_only|]);
    intros _; apply steps_ret.
Qed.

Lemma failover_host_grows settings host st : steps log_grows (failover_host settings host st).
Proof.
  apply steps_bind; [apply steps_attempt, quiet_grows, reads_quiet|].
  { apply steps_bind; [apply query_same_but_step|]. intros ?. apply steps_ret. }
  intros [l|]; [|apply steps_ret]. revert st. induction l as [|vm l IH]; intros st; simpl; [apply steps_ret|].
  apply steps_bind.
  { destruct (_ !! _); [|apply steps_ret]. apply steps_bind; [apply now_grows|]. intros t. apply steps_ret. }
  intros []; [apply IH|]. apply steps_bind; [apply now_grows|]. intros t.
  apply steps_bind; [apply failover_vm_grows|]. intros _. apply IH.
Qed.

Lemma cleanup_grows host : steps log_grows (cleanup_stale_copies host).
Proof.
  apply steps_bind; [apply steps_attempt, steps_query, tick_grows|]. intros [l|]; [|apply steps_ret].
  apply steps_for_all_m. intros vm _. apply steps_bind; [apply rpc_grows|]. intros _.
  apply steps_bind; [apply rpc_grows|]. intros r. case_bool_decide; [apply steps_ret|].
  apply steps_bind; [apply steps_attempt, update_row_grows|]. intros _. apply steps_ret.
Qed.

(** *** The memory of the monitor *)

Lemma failover_each_since settings host l st o w w' st' :
  failover_each settings host l st o w = (w', Ok st') ->
  ms_unreachable_since st' = ms_unreachable_since st.
Proof.
  revert st w. induction l as [|vm l IH]; intros st w Hrun; [by injection Hrun as _ <-|].
  cbn [failover_each] in Hrun. apply bind_ok_inv in Hrun as ([]&w1&_&Hrun); [by eapply IH|].
  apply bind_ok_inv in Hrun as (t&w2&_&Hrun). apply bind_ok_inv in Hrun as ([]&w3&_&Hrun).
  by apply IH in Hrun.
Qed.

Lemma failover_host_since settings host st o w w' st' :
  failover_host settings host st o w = (w', Ok st') ->
  ms_unreachable_since st' = ms_unreachable_since st.
Proof.
  intros Hrun. apply bind_ok_inv in Hrun as ([l|]&w1&_&Hrun).
  - by eapply failover_each_since.
  - by injection Hrun as _ <-.
Qed.

(** A time the monitor remembers is one it knew or a reading of the clock. *)
Definition remembers (o : Oracle) (st st' : MonitorState) : Prop :=
  forall h s, ms_unreachable_since st' !! h = Some s ->
    ms_unreachable_since st !! h = Some s \/ exists m, s = o_now o m.
#[local] Instance remembers_preorder o : PreOrder (remembers o).
Proof.
  split; [by left|]. intros a b c Hab Hbc h s Hs. destruct (Hbc h s Hs) as [Hs'|]; [by apply Hab|by right].
Qed.

Lemma remembers_delete o st h : remembers o st (with_unreachable (delete h) st).
Proof. intros h' s. simpl. intros [_ Hs]%lookup_delete_Some. by left. Qed.

Lemma check_host_case settings st host o w :
  let '(w', r) := check_host settings st host o w in
  (placement (w_db w') = placement (w_db w) \/ written_off settings st host o w w') /\
  log_grows w w' /\ forall st', r = Ok st' -> remembers o st st'.
Proof.
  unfold check_host.
  destruct (rpc_run (E := SqlxError) host GetNodeInfo o w) as (w1&r1&E1).
  rewrite (bind_run _ _ _ _ _ _ E1). injection E1 as <- <-. set (w1 := add_log _ _).
  assert (log_grows w w1) as G1 by (by eexists).
  case_bool_decide as Hprobe.
  - pose proof (cleanup_placement host o w1) as P2. pose proof (cleanup_grows host o w1) as G2.
    destruct (cleanup_stale_copies host o w1) as [w2 [[]|e]] eqn:E2.
    + rewrite (bind_run _ _ _ _ _ _ E2). split_and!; [left; exact P2|by etransitivity|].
      intros st' [= <-]. apply remembers_delete.
    + rewrite (bind_run_err _ _ _ _ _ _ E2). split_and!; [left; exact P2|by etransitivity|discriminate].
  - set (first := match ms_unreachable_since st !! h_id host with Some t => mret t | None => now end
      : M SqlxError Z).
    assert (exists w2 since, first o w1 = (w2, Ok since) /\ w_db w2 = w_db w1 /\ w_log w2 = w_log w1 /\
      (ms_unreachable_since st !! h_id host = Some since \/ exists m, since = o_now o m))
      as (w2&since&E2&D2&L2&Hsince).
    { subst first. destruct (_ !! _) as [t|]; eexists _, _; (split; [reflexivity|]); split_and!; eauto. }
    rewrite (bind_run _ _ _ _ _ _ E2), (bind_run _ _ o w2 (tick w2) (o_now o (w_step w2)) eq_refl).
    set (st1 := with_unreachable _ st).
    assert (remembers o st st1) as R1.
    { intros h s. simpl. intros [[<- <-]|[_ Hs]]%lookup_insert_Some; [exact Hsince|by left]. }
    assert (log_grows w (tick w2)) as G2 by (etransitivity; [exact G1|exists []; by rewrite app_nil_r]).
    destruct (elapsed_below _ _ _) eqn:Hel.
    + split_and!; [left; simpl; by rewrite D2|done|by intros st' [= <-]].
    + pose proof (failover_host_grows settings host st1 o (tick w2)) as G3.
      destruct (failover_host settings host st1 o (tick w2)) as [w3 r3] eqn:E3. simpl in G3.
      split_and!; [right|by etransitivity|].
      * split.
        -- exists (o_rpc o (w_step w)). split; [done|]. eapply logged_grows_r; [|exact G3].
           eexists [_]. simpl. rewrite L2. split; [reflexivity|by apply list_elem_of_singleton].
        -- exists since, (w_step w2). split; [done|]. unfold elapsed_below in Hel.
           by apply Z.ltb_ge in Hel.
      * intros st' ->. apply failover_host_since in E3. intros h s Hs. rewrite E3 in Hs. by apply R1.
Qed.

Lemma written_off_extend settings st st' host o w0 w w' w1 :
  remembers o st st' -> log_grows w0 w -> log_grows w' w1 ->
  written_off settings st' host o w w' -> written_off settings st host o w0 w1.
Proof.
  intros R G0 G1 [(reply&Hr&Hl) (since&n&Hs&He)]. split.
  - exists reply. split; [done|]. eapply logged_grows_r; [|exact G1]. by eapply logged_grows_l.
  - exists since, n. split; [|done]. destruct Hs as [Hs|]; [by apply R|by right].
Qed.

Lemma check_hosts_case settings hosts st o w :
  let w' := (check_hosts settings hosts st o w).1 in
  (placement (w_db w') = placement (w_db w) \/
   exists host, host ∈ hosts /\ written_off settings st host o w w') /\ log_grows w w'.
Proof.
  revert st w. induction hosts as [|host hosts IH]; intros st w.
  { split; [by left|]. exists []. by rewrite app_nil_r. }
  cbn [check_hosts]. pose proof (check_host_case settings st host o w) as Hc.
  destruct (check_host settings st host o w) as [w1 [st1|e]] eqn:E1.
  - rewrite (bind_run _ _ _ _ _ _ E1). destruct Hc as (Hc&G1&R1). specialize (R1 st1 eq_refl).
    destruct (IH st1 w1) as [IHc G2]. split; [|by etransitivity]. destruct Hc as [Hc|Hc].
    + destruct IHc as [Hsame|(h&Hin&Hw)]; [left; by rewrite Hsame|right]. exists h.
      split; [by apply elem_of_cons; right|]. eapply written_off_extend; [exact R1|exact G1| |exact Hw].
      exists []. by rewrite app_nil_r.
    + right. exists host. split; [by apply elem_of_cons; left|].
      eapply written_off_extend; [reflexivity| |exact G2|exact Hc]. exists []. by rewrite app_nil_r.
  - rewrite (bind_run_err _ _ _ _ _ _ E1). destruct Hc as ([Hc|Hc]&G1&_); (split; [|done]); [by left|].
    right. exists host. split; [by apply elem_of_cons; left|done].
Qed.

(** C1. A cycle of the monitor changes the host or the status of a VM only when some
    host was marked down, its probe in this cycle failed, and the grace period
    since the monitor first saw it unreachable had passed. *)
Theorem failover_only_from_dead_hosts settings st o w :
  let w' := (run_cycle settings st o w).1 in
  placement (w_db w') = placement (w_db w) \/
  exists host k, t_hosts (w_db w) !! k = Some host /\ h_status host = HostDown /\
    written_off settings st host o w w'.
Proof.
  unfold run_cycle. destruct (list_down o w) as [w1 r] eqn:Hq.
  rewrite (attempt_bind_run _ _ _ _ _ _ Hq). unfold list_down, list_with_status in Hq.
  destruct r as [hosts|e]; [|left; unfold query in Hq; by case_match; injection Hq as <- _].
  apply query_ok_inv in Hq as [[= <-] ->]. set (st1 := with_unreachable _ st).
  set (hosts := List.filter _ _).
  destruct (check_hosts_case settings hosts st1 o (tick w)) as [[Hsame|(host&Hin&Hw)] _]; [by left|].
  right. apply elem_of_filter_rows in Hin as [[k Hk] Hdown].
  apply bool_decide_eq_true, list_elem_of_singleton in Hdown. exists host, k.
  split_and!; [done|done|]. eapply written_off_extend; [| | |exact Hw].
  - intros h s. simpl. intros [Hs _]%map_lookup_filter_Some. by left.
  - apply tick_grows.
  - exists []. by rewrite app_nil_r.
Qed.

(** *** Cleaning up after a failover *)

Lemma for_all_m_logged {A} (body : A -> M SqlxError unit) (l : list A) x e o w :
  (forall y o w, exists w', body y o w = (w', Ok tt)) -> (forall y, steps log_grows (body y)) ->
  x ∈ l -> (forall w, exists r, logged w (body x o w).1 (e r)) ->
  exists r : RpcOutcome, logged w (for_all_m body l o w).1 (e r).
Proof.
  intros Hok Hg Hin He. revert w. induction l as [|y l IH]; intros w; [by apply elem_of_nil in Hin|].
  cbn [for_all_m]. destruct (Hok y o w) as (w1&E1). rewrite (bind_run _ _ _ _ _ _ E1).
  apply elem_of_cons in Hin as [->|Hin].
  - destruct (He w) as [r Hr]. rewrite E1 in Hr. exists r. eapply logged_grows_r; [exact Hr|].
    by apply (steps_for_all_m (R := log_grows)).
  - destruct (IH Hin w1) as [r Hr]. exists r. eapply logged_grows_l; [|exact Hr].
    pose proof (Hg y o w) as Hgy. by rewrite E1 in Hgy.
Qed.

Lemma cleanup_copy_grows host vm : steps log_grows (cleanup_stale_copy host vm).
Proof.
  apply steps_bind; [apply rpc_grows|]. intros _. apply steps_bind; [apply rpc_grows|]. intros r.
  case_bool_decide; [apply steps_ret|].
  apply steps_bind; [apply steps_attempt, update_row_grows|]. intros _. apply steps_ret.
Qed.

Lemma cleanup_copy_run host vm o w :
  (exists w', cleanup_stale_copy host vm o w = (w', Ok tt)) /\
  exists r, logged w (cleanup_stale_copy host vm o w).1
    (EvRpc (h_address host) (as_u16 (h_port host)) (DeleteVm (v_id (vm_row vm))) r).
Proof.
  unfold cleanup_stale_copy.
  destruct (rpc_run (E := SqlxError) host (ForceStopVm (v_id (vm_row vm))) o w) as (w1&r1&E1).
  destruct (rpc_run (E := SqlxError) host (DeleteVm (v_id (vm_row vm))) o w1) as (w2&r2&E2).
  rewrite (bind_run _ _ _ _ _ _ E1), (bind_run _ _ _ _ _ _ E2).
  assert (logged w w2 (EvRpc (h_address host) (as_u16 (h_port host)) (DeleteVm (v_id (vm_row vm))) r2))
    as Hl.
  { injection E1 as <- _. injection E2 as <- <-. eexists [_; _]. simpl. rewrite <- app_assoc.
    split; [reflexivity|]. apply elem_of_cons. right. by apply list_elem_of_singleton. }
  case_bool_decide; [split; [by eexists|by exists r2]|].
  set (c := set_failed_over_from _ _).
  destruct (update_config (v_id (vm_row vm)) c o w2) as [w3 r3] eqn:E3.
  rewrite (attempt_bind_run _ _ _ _ _ _ E3). split; [by eexists|]. exists r2.
  eapply logged_grows_r; [exact Hl|]. pose proof (update_row_grows (set_config c) (v_id (vm_row vm)) o w2) as G.
  unfold update_config in E3. by rewrite E3 in G.
Qed.

(** The cleanup of a host goes by the marker alone: it also removes a VM that
    has since come back to this very host and runs there. *)
Theorem cleanup_removes_resident host row k o w :
  served o -> t_vms (w_db w) !! k = Some row -> v_host_id row = Some (h_id host) ->
  failed_over_marker jsonb_out (h_id host) row = true ->
  exists r, logged w (cleanup_stale_copies host o w).1
    (EvRpc (h_address host) (as_u16 (h_port host)) (DeleteVm (v_id row)) r).
Proof.
  intros Ho Hk _ Hmark. unfold cleanup_stale_copies, list_failed_over_from.
  rewrite (attempt_bind_run _ _ _ _ _ _ (query_served Pool _ o w Ho)).
  set (l := vm_from_row <$> _).
  destruct (for_all_m_logged (cleanup_stale_copy host) l (vm_from_row row)
    (fun r => EvRpc (h_address host) (as_u16 (h_port host)) (DeleteVm (v_id row)) r) o (tick w))
    as [r Hr].
  - intros y o' w'. apply cleanup_copy_run.
  - apply cleanup_copy_grows.
  - apply list_elem_of_fmap. exists row. split; [done|]. apply elem_of_filter_rows.
    split; [by exists k|done].
  - intros w'. apply cleanup_copy_run.
  - exists r. eapply logged_grows_l; [apply tick_grows|exact Hr].
Qed.
End monitor.

(** ** Witnesses *)

Section witnesses.
#[local] Instance witness_uuid_text : UuidText := binary_uuid_text.
#[local] Instance witness_serde : PolicySerde := array_policy_serde.
#[local] Instance witness_collation : Collation := encoding_collation.

Definition nothing_locked (_ : nat) : gset Uuid := ∅.
Definition gib : Z := 2 ^ 30.

(** VM 1 runs on host 2, which died; host 5 is up. *)
Definition ha_row : VmRow :=
  sample_vm 1 "web" (Some 2%N) Running 2 gib [] (JObject {["ha_enabled"%string := JBool true]}).
Definition dead_host : Host := sample_host 2 "h2" "10.0.0.2" HostDown 8 (16 * gib) (2 ^ 40).
Definition live_host : Host := sample_host 5 "h5" "10.0.0.5" HostUp 8 (16 * gib) (2 ^ 40).
Definition ha_db : Db :=
  with_vms (fun _ => {[1%N := ha_row]})
    (with_hosts (fun _ => {[2%N := dead_host; 5%N := live_host]}) empty_db).

Abbreviation w_failover := (execute_failover no_text no_text no_numa plain_defaults nothing_locked nothing_locked
  default_scheduling no_text).

Lemma failover_moves_vm_witness :
  let w' := (w_failover (vm_from_row ha_row) dead_host calm_oracle (world_of ha_db)).1 in
  exists row, t_vms (w_db w') !! 1%N = Some row /\ v_host_id row = Some 5%N /\ v_status row = Pending.
Proof.
  destruct (failover_moves_vm no_text no_text no_numa plain_defaults nothing_locked nothing_locked default_scheduling
    no_text (vm_from_row ha_row) dead_host calm_oracle (world_of ha_db)
    (w_failover (vm_from_row ha_row) dead_host calm_oracle (world_of ha_db)).1
    (Some (failover_result 2 5 1027)))
    as (target&row&pools&job&host&req&Hres&_&_&_&_&_&_&T&_); [vm_compute; reflexivity|].
  eexists. rewrite T. split; [apply lookup_insert_eq|].
  assert (h_id target = 5%N) as ->; [|split; reflexivity].
  apply (f_equal (fun r => r ≫= fun j => json_get j "target_host_id")) in Hres.
  vm_compute in Hres. injection Hres as Hid.
  change (uuid_to_string 5 = uuid_to_string (h_id target)) in Hid. by apply uuid_to_string_inj in Hid.
Defined.

Lemma pick_failover_host_correct_witness :
  let run := pick_failover_host nothing_locked default_scheduling (vm_from_row ha_row) 2 [] None
    calm_oracle (world_of ha_db) in
  run.2 = Ok (Some live_host) /\ h_id live_host <> 2%N.
Proof.
  pose proof (pick_failover_host_correct nothing_locked default_scheduling (vm_from_row ha_row) 2 [] None
    calm_oracle (world_of ha_db)) as Hpick.
  assert (exists w', pick_failover_host nothing_locked default_scheduling (vm_from_row ha_row) 2 [] None
    calm_oracle (world_of ha_db) = (w', Ok (Some live_host))) as [w' E] by (eexists; vm_compute; reflexivity).
  cbv zeta. rewrite E in *. split; [reflexivity|]. exact (proj1 (proj2 (proj2 Hpick))).
Defined.

(** A VM that boots from a firmware that is not configured cannot be started on
    the target: everything is put back. *)
Definition firmware_row : VmRow :=
  {| v_id := 1; v_name := "web"; v_tags := []; v_host_id := Some 2%N; v_status := Running;
     v_hypervisor := CloudHv; v_boot_source_id := None; v_boot_mode := Firmware;
     v_description := None; v_boot_vcpus := 2; v_max_vcpus := 2; v_cpu_topology := None;
     v_kvm_hyperv := false; v_memory_size := gib; v_memory_hotplug_size := None;
     v_memory_mergeable := false; v_memory_shared := false; v_memory_hugepages := false;
     v_memory_hugepage_size := None; v_memory_prefault := false; v_memory_thp := false;
     v_image_ref := None; v_cloud_init_user_data := None; v_cloud_init_meta_data := None;
     v_cloud_init_network_config := None; v_config := v_config ha_row |}.
Definition firmware_db : Db := with_vms (fun _ => {[1%N := firmware_row]}) ha_db.
Definition no_firmware : Error :=
  UnprocessableEntity "firmware boot mode requires a firmware path (set vm_defaults.firmware or VM_FIRMWARE env var)".

Lemma failover_failure_restores_witness :
  let run := w_failover (vm_from_row firmware_row) dead_host calm_oracle (world_of firmware_db) in
  run.2 = Err no_firmware /\ t_vms (w_db run.1) = t_vms firmware_db.
Proof.
  split; [vm_compute; reflexivity|].
  refine (failover_failure_restores no_text no_text no_numa plain_defaults nothing_locked nothing_locked
    default_scheduling no_text firmware_row dead_host calm_oracle
    (world_of firmware_db) _ no_firmware _ _ _ _ _ _).
  - intros n. reflexivity.
  - reflexivity.
  - reflexivity.
  - vm_compute. reflexivity.
  - apply map_Forall_insert; [reflexivity|]. split; [reflexivity|].
    apply map_Forall_singleton. reflexivity.
  - vm_compute. reflexivity.
Defined.

(** The database refuses one statement of the failover, the one that sets the
    status. *)
Definition flaky_oracle : Oracle :=
  {| o_sql := fun n => if Nat.eqb n 10 then Some OtherSqlx else None;
     o_uuid := fun n => (1000 + N.of_nat n)%N; o_now := fun n => Z.of_nat n;
     o_rpc := fun _ => RpcError; o_http := fun _ => HttpResponse 500 None |}.

(** Only the last two steps of a failover are undone when they fail: an error
    between the new host and the new status leaves the VM on the target host,
    still [Running] there on paper, and no longer a candidate of the dead host. *)
Theorem failover_strands_vm :
  let run := w_failover (vm_from_row ha_row) dead_host flaky_oracle (world_of ha_db) in
  is_ok run.2 = false /\
  placement (w_db run.1) !! 1%N = Some (Some 5%N, Running) /\
  Forall (fun e => ~ creates_vm e) (w_log run.1) /\
  (collect_failover_candidates (h_id dead_host) calm_oracle run.1).2 = Ok [].
Proof. vm_compute. split_and!; try reflexivity. repeat constructor; intros []. Qed.

Definition two_gpu_db : Db :=
  with_host_gpus (fun _ => {[3%N := sample_gpu 3 "0000:01:00.0" (Some 1%N)]}) ha_db.
Lemma reallocate_atomic_witness :
  let g := {| gr_count := 3; gr_vendor := None; gr_model := None; gr_min_vram_bytes := None |} in
  let run := reallocate_vm_gpus nothing_locked 1 5 g calm_oracle (world_of two_gpu_db) in
  is_ok run.2 = false /\ w_db run.1 = two_gpu_db.
Proof.
  set (g := {| gr_count := 3; gr_vendor := None; gr_model := None; gr_min_vram_bytes := None |}).
  cbv zeta. split; [vm_compute; reflexivity|].
  assert (gpus_ok (t_host_gpus two_gpu_db)) as Hok.
  { change (t_host_gpus two_gpu_db) with ({[3%N := sample_gpu 3 "0000:01:00.0" (Some 1%N)]} : gmap Uuid HostGpu). split; [apply map_Forall_singleton; reflexivity|].
    intros k1 k2 g1 g2 [<- _]%lookup_singleton_Some [<- _]%lookup_singleton_Some. done. }
  assert (gr_count g <= i32_max) as Hc by (vm_compute; discriminate).
  pose proof (reallocate_atomic nothing_locked 1 5 g calm_oracle (world_of two_gpu_db) _ _ Hok Hc
    (surjective_pairing _)) as Hr.
  assert (exists e, (reallocate_vm_gpus nothing_locked 1 5 g calm_oracle (world_of two_gpu_db)).2
    = Err e) as [e He] by (eexists; vm_compute; reflexivity).
  rewrite He in Hr. exact Hr.
Defined.

(** Host 2 has been unreachable since reading 0 of the clock. *)
Definition late_oracle : Oracle :=
  {| o_sql := fun _ => None; o_uuid := fun n => (1000 + N.of_nat n)%N;
     o_now := fun n => 1000 + Z.of_nat n; o_rpc := fun _ => RpcError;
     o_http := fun _ => HttpResponse 500 None |}.
Definition waiting_state : MonitorState :=
  {| ms_unreachable_since := {[2%N := 0]}; ms_last_attempt := ∅ |}.
Abbreviation w_cycle := (run_cycle no_text no_text no_numa plain_defaults nothing_locked nothing_locked
  default_scheduling 1 no_text no_text default_ha_settings waiting_state late_oracle (world_of ha_db)).

Lemma failover_only_from_dead_hosts_witness :
  placement (w_db w_cycle.1) <> placement ha_db /\
  exists host k, t_hosts ha_db !! k = Some host /\ h_status host = HostDown /\
    written_off 1 default_ha_settings waiting_state host late_oracle (world_of ha_db) w_cycle.1.
Proof.
  assert (placement (w_db w_cycle.1) <> placement ha_db) as Hne.
  { intros E. apply (f_equal (fun m => m !! 1%N)) in E. vm_compute in E. discriminate. }
  split; [exact Hne|].
  destruct (failover_only_from_dead_hosts no_text no_text no_numa plain_defaults nothing_locked nothing_locked
    default_scheduling 1 no_text no_text default_ha_settings waiting_state late_oracle
    (world_of ha_db)) as [E|E]; [contradiction|exact E].
Defined.

(** VM 1 was moved from host 2 to host 5, and has since migrated back. *)
Definition returned_row : VmRow :=
  sample_vm 1 "web" (Some 2%N) Running 2 gib []
    (JObject {["failed_over_from"%string := JString (uuid_to_string 2)]}).
Definition returned_db : Db := with_vms (fun _ => {[1%N := returned_row]}) ha_db.
Lemma cleanup_removes_resident_witness :
  exists r, logged (world_of returned_db)
    (cleanup_stale_copies no_text dead_host calm_oracle (world_of returned_db)).1
    (EvRpc "10.0.0.2" 50051 (DeleteVm 1) r).
Proof.
  refine (cleanup_removes_resident no_text dead_host returned_row 1 calm_oracle
    (world_of returned_db) _ _ _ _); [intros n; reflexivity|reflexivity|reflexivity|].
  vm_compute. reflexivity.
Defined.
End witnesses.
