(* ===== verification/VmMonitor.v ===== *)
(** * VmMonitor: reconciling VM statuses with the nodes

    [qarax/src/vm_monitor.rs].  A cycle asks the node of every active VM for the
    live state of the VM and writes it back when it differs from the status that
    was read at the start of the cycle.

    [reported n] is the status code of the reply to the call made at step [n].
    The hosts are checked by concurrent tasks; [check_host_vms] is one such task,
    and [run_cycle] runs them one after the other. *)

From S2P Require Import Prelude Errors Tables NodeApi World Samples.
From S2P Require Import VmConfig Hooks Vms Storage Hosts VmLifecycle.
#[local] Open Scope Z_scope.

(** New status of a VM its host does not know. *)
Definition status_when_missing_on_node (current : VmStatus) : option VmStatus :=
  match current with
  | Created => None
  | _ => Some Unknown
  end.

Definition proto_status_to_db (status : Z) (previous_status : VmStatus) : VmStatus :=
  if (status =? 1) && bool_decide (previous_status ∈ [Running; Paused; Shutdown]) then Shutdown
  else if status =? 1 then Created
  else if status =? 2 then Running
  else if status =? 3 then Paused
  else if status =? 4 then Shutdown
  else Unknown.

Section monitor.
Context `{UuidText} `{PolicySerde}.
Variables (to_rfc3339 : Z -> string) (reported : nat -> Z).

Abbreviation set_status := (Vms.update_status to_rfc3339).

(** The reply of [get_vm_info]: how the call ended and the status it reports. *)
Definition get_vm_info (host : Host) (vm_id : Uuid) : M SqlxError (RpcOutcome * Z) := fun o w =>
  match (rpc host (GetVmInfo vm_id) : M SqlxError RpcOutcome) o w with
  | (w', Ok r) => (w', Ok (r, reported (w_step w)))
  | (w', Err e) => (w', Err e)
  end.

Definition check_vm (host : Host) (vm : Vm) : M SqlxError unit :=
  let id := v_id (vm_row vm) in
  let previous_status := v_status (vm_row vm) in
  '(outcome, status) ← get_vm_info host id;
  match outcome with
  | RpcOk =>
      let live_status := proto_status_to_db status previous_status in
      if bool_decide (live_status = previous_status) then mret tt
      else _ ← attempt (set_status id live_status); mret tt
  | RpcNotFound =>
      match status_when_missing_on_node previous_status with
      | Some status => _ ← attempt (set_status id status); mret tt
      | None => mret tt
      end
  | RpcError => mret tt
  end.

(** The task of one host. *)
Definition check_host_vms (host_id : Uuid) (vms : list Vm) : M SqlxError unit :=
  host ← attempt (get_by_id host_id);
  match host with
  | Ok (Some host) => for_all_m (check_vm host) vms
  | _ => mret tt
  end.

(** VMs grouped by host. *)
Definition by_host (vms : list Vm) : gmap Uuid (list Vm) :=
  foldr (fun vm m => match v_host_id (vm_row vm) with
                     | Some h => <[h := vm :: default [] (m !! h)]> m
                     | None => m
                     end) ∅ vms.

Definition run_cycle : M SqlxError unit :=
  active_vms ← attempt list_active;
  match active_vms with
  | Err _ => mret tt
  | Ok vms => for_all_m (fun hv : Uuid * list Vm => check_host_vms hv.1 hv.2) (map_to_list (by_host vms))
  end.

(** ** Properties *)

(** The status a check leaves, by what the node answered. *)
Definition reconciled (outcome : RpcOutcome) (status : Z) (previous : VmStatus) : VmStatus :=
  match outcome with
  | RpcOk => proto_status_to_db status previous
  | RpcNotFound => default previous (status_when_missing_on_node previous)
  | RpcError => previous
  end.

Lemma set_row_status_same r : set_row_status (v_status r) r = r.
Proof. by destruct r. Qed.

Lemma set_status_run id s o w row :
  served o -> t_vms (w_db w) !! id = Some row ->
  t_vms (w_db ((_ ← attempt (set_status id s); mret tt : M SqlxError unit) o w).1)
    = <[id := set_row_status s row]> (t_vms (w_db w)).
Proof.
  intros Ho Hrow. destruct (update_status_run to_rfc3339 id s o w row Ho Hrow) as (w1&E1&T1&_).
  by rewrite (attempt_bind_run _ _ _ _ _ _ E1).
Qed.

Lemma check_vm_run host row o w :
  served o -> t_vms (w_db w) !! v_id row = Some row ->
  t_vms (w_db (check_vm host (vm_from_row row) o w).1)
    = <[v_id row := set_row_status (reconciled (o_rpc o (w_step w)) (reported (w_step w)) (v_status row)) row]>
        (t_vms (w_db w)).
Proof.
  intros Ho Hrow. unfold check_vm, mbind at 1, M_bind at 1, get_vm_info, rpc. simpl.
  set (w1 := add_log _ _).
  assert (t_vms (w_db w) = <[v_id row := set_row_status (v_status row) row]> (t_vms (w_db w))) as Hsame
    by (by rewrite set_row_status_same, insert_id).
  destruct (o_rpc o (w_step w)); simpl; [| |exact Hsame].
  - case_bool_decide as Heq; [rewrite Heq; exact Hsame|]. by apply (set_status_run _ _ o w1).
  - destruct (status_when_missing_on_node (v_status row)); simpl; [|exact Hsame].
    by apply (set_status_run _ _ o w1).
Qed.

(** A check of a VM whose row has not changed since it was read leaves exactly
    the status the node's answer calls for; an unreachable node changes nothing,
    and a VM that was never started stays [Created] when its node does not know
    it. *)
Theorem check_vm_reconciles host row o w :
  served o -> t_vms (w_db w) !! v_id row = Some row ->
  t_vms (w_db (check_vm host (vm_from_row row) o w).1)
    = <[v_id row := set_row_status (reconciled (o_rpc o (w_step w)) (reported (w_step w)) (v_status row)) row]>
        (t_vms (w_db w)) /\
  (o_rpc o (w_step w) = RpcError \/ o_rpc o (w_step w) = RpcNotFound /\ v_status row = Created ->
   t_vms (w_db (check_vm host (vm_from_row row) o w).1) = t_vms (w_db w)).
Proof.
  intros Ho Hrow. split; [by apply check_vm_run|]. rewrite check_vm_run by done.
  intros [->|[-> Hc]]; unfold reconciled; rewrite ?Hc; simpl.
  - by rewrite set_row_status_same, insert_id.
  - rewrite <- Hc, set_row_status_same. by apply insert_id.
Qed.

(** The monitor also checks a VM that is being committed, and a node that does
    not know it, or reports it stopped, makes the monitor replace the status by
    one the VM can be started from. *)
Theorem monitor_breaks_commit_guard host row o w :
  served o -> t_vms (w_db w) !! v_id row = Some row -> v_status row = Committing ->
  o_rpc o (w_step w) = RpcNotFound \/
  o_rpc o (w_step w) = RpcOk /\ (reported (w_step w) = 1 \/ reported (w_step w) = 4) ->
  exists s, start_allowed_from s = Ok tt /\
    t_vms (w_db (check_vm host (vm_from_row row) o w).1)
      = <[v_id row := set_row_status s row]> (t_vms (w_db w)).
Proof.
  intros Ho Hrow Hc Hnode. rewrite check_vm_run by done. eexists. split; [|reflexivity]. rewrite Hc.
  by destruct Hnode as [E|(E&[Es|Es])]; rewrite ?E, ?Es.
Qed.

(** *** VMs the monitor leaves alone *)

(** Only rows of [ids] change. *)
Definition touches (ids : list Uuid) (w w' : World) : Prop :=
  forall k, k ∉ ids -> t_vms (w_db w') !! k = t_vms (w_db w) !! k.
#[local] Instance touches_preorder ids : PreOrder (touches ids).
Proof. split; [by intros w k|]. intros a b c Hab Hbc k Hk. by rewrite Hbc, Hab. Qed.

Lemma set_status_touches id s ids :
  id ∈ ids -> steps (touches ids) (_ ← attempt (set_status id s); mret tt : M SqlxError unit).
Proof.
  intros Hid. apply steps_bind; [|intros ?; apply steps_ret]. apply steps_attempt. intros o w k Hk.
  destruct (update_status_restatus to_rfc3339 id s o w) as [->|(s'&_&->)]; [done|].
  rewrite lookup_alter_ne; [done|]. by intros <-.
Qed.

Lemma check_vm_touches host vm ids : v_id (vm_row vm) ∈ ids -> steps (touches ids) (check_vm host vm).
Proof.
  intros Hid. apply steps_bind; [by intros o w k|]. intros [[] status].
  - cbv zeta. case_bool_decide; [apply steps_ret|by apply set_status_touches].
  - destruct (status_when_missing_on_node _); [by apply set_status_touches|apply steps_ret].
  - apply steps_ret.
Qed.

Lemma by_host_elem vms h l vm : by_host vms !! h = Some l -> vm ∈ l -> vm ∈ vms.
Proof.
  revert l. induction vms as [|x vms IH]; intros l; simpl; [by rewrite lookup_empty|].
  destruct (v_host_id (vm_row x)) as [h'|]; [|intros Hl Hvm; apply elem_of_cons; right; by eapply IH].
  intros [[-> <-]|[_ Hl]]%lookup_insert_Some Hvm; apply elem_of_cons; [|right; by eapply IH].
  apply elem_of_cons in Hvm as [->|Hvm]; [by left|right].
  destruct (by_host vms !! h) as [l'|] eqn:Hl'; [by eapply IH|by apply elem_of_nil in Hvm].
Qed.

(** A cycle never writes a VM that was stopped, in an unknown state, waiting for
    a job, or without a host when the cycle began. *)
Theorem cycle_leaves_inactive o w k row :
  map_Forall (fun id r => v_id r = id) (t_vms (w_db w)) ->
  t_vms (w_db w) !! k = Some row ->
  v_status row ∈ [Shutdown; Unknown; Pending] \/ v_host_id row = None ->
  t_vms (w_db (run_cycle o w).1) !! k = Some row.
Proof.
  intros Hkey Hk Hin. unfold run_cycle. destruct (list_active o w) as [w1 r] eqn:Hq.
  rewrite (attempt_bind_run _ _ _ _ _ _ Hq). unfold list_active in Hq.
  destruct r as [vms|e]; [|unfold query in Hq; by case_match; injection Hq as <- _].
  apply query_ok_inv in Hq as [[= <-] ->]. set (vms := vm_from_row <$> _).
  set (ids := (fun vm => v_id (vm_row vm)) <$> vms).
  assert (k ∉ ids) as Hout.
  { intros (vm&Hid&(r&->&Hr)%list_elem_of_fmap)%list_elem_of_fmap. simpl in Hid.
    apply elem_of_filter_rows in Hr as [[j Hj] Ha]. pose proof (Hkey _ _ Hj) as Hj'. simplify_eq/=.
    apply andb_true_iff in Ha as [Ha Hh]. apply negb_true_iff, bool_decide_eq_false in Ha.
    apply bool_decide_eq_true in Hh as [h Hh]. destruct Hin as [Hin|Hnone]; [done|congruence]. }
  set (m := for_all_m _ _).
  assert (steps (touches ids) m) as Hm; [|rewrite <- Hk; exact (Hm o (tick w) k Hout)].
  apply steps_for_all_m. intros [h l] Hl. apply elem_of_map_to_list in Hl. simpl.
  apply steps_bind; [apply steps_attempt, steps_query; by intros w0 k0|].
  intros [[host|]|]; [|apply steps_ret..]. apply steps_for_all_m. intros vm Hvm.
  apply check_vm_touches, list_elem_of_fmap. exists vm. split; [done|]. by eapply by_host_elem.
Qed.
End monitor.

(** ** Witnesses *)

Section witnesses.
#[local] Instance witness_uuid_text : UuidText := binary_uuid_text.
#[local] Instance witness_serde : PolicySerde := array_policy_serde.

Definition monitored_row (status : VmStatus) : VmRow :=
  sample_vm 1 "web" (Some 2%N) status 2 1024 [] JNull.
Definition monitored (status : VmStatus) : World :=
  world_of (with_vms (fun _ => {[1%N := monitored_row status]}) empty_db).
Definition a_host : Host := sample_host 2 "h2" "10.0.0.2" HostUp 8 16384 100000.

Lemma check_vm_reconciles_witness :
  v_status <$> t_vms (w_db (check_vm no_text (fun _ => 4) a_host (vm_from_row (monitored_row Running))
    calm_oracle (monitored Running)).1) !! 1%N = Some Shutdown.
Proof.
  rewrite (proj1 (check_vm_reconciles no_text (fun _ => 4) a_host (monitored_row Running) calm_oracle
    (monitored Running) (fun n => eq_refl) eq_refl)). reflexivity.
Defined.

Lemma monitor_breaks_commit_guard_witness :
  exists s, start_allowed_from s = Ok tt /\
    t_vms (w_db (check_vm no_text (fun _ => 0) a_host (vm_from_row (monitored_row Committing))
      unknown_oracle (monitored Committing)).1)
      = <[1%N := set_row_status s (monitored_row Committing)]> (t_vms (w_db (monitored Committing))).
Proof.
  apply (monitor_breaks_commit_guard no_text (fun _ => 0) a_host (monitored_row Committing)
    unknown_oracle (monitored Committing));
    [intros n; reflexivity|reflexivity|reflexivity|left; reflexivity].
Defined.

Lemma cycle_leaves_inactive_witness :
  t_vms (w_db (run_cycle no_text (fun _ => 2) calm_oracle (monitored Pending)).1) !! 1%N
    = Some (monitored_row Pending).
Proof.
  apply (cycle_leaves_inactive no_text (fun _ => 2) calm_oracle (monitored Pending) 1 (monitored_row Pending)).
  - apply map_Forall_singleton. reflexivity.
  - reflexivity.
  - left. right. right. left.
Defined.
End witnesses.
