(* ===== verification/HostOps.v ===== *)
(** * HostOps: operations on hosts

    [qarax/src/handlers/host/handler.rs] (registration, deployment, initialisation,
    evacuation) and [qarax/src/resource_monitor.rs].

    - [node_info n] is what the node reports in reply to the call of step [n].
    - [deployed n] is the outcome of [deploy_bootc_host] ([HostDeploy]) for the
      deployment started at step [n].
    - [locked n] are the hosts other transactions hold at step [n].
    - The loop that picks a destination runs on fuel, one unit more than there are
      hosts; it is shown never to run out.
    - The probes of one cycle run concurrently; each writes only the rows of its own
      host, and they are taken in the order of the list here. *)

From S2P Require Import Prelude Text Common Errors Secrets Tables Float64 NodeApi World Samples HostNuma VmConfig.
From S2P Require Import Hooks Vms Jobs Storage Gpus Hosts HostDeploy StorageObjects Scheduler Networks Devices.
From S2P Require Import Catalog SecurityGroups NetworkPolicy CreateRequest VmLifecycle VmCreate Hotplug VmOps.
From S2P Require Import Migration HaMonitor.
#[local] Open Scope Z_scope.

(** ** What a node reports *)

Record GpuInfo := {
  gi_pci_address : string; gi_model : string; gi_vendor : string;
  gi_vram_bytes : Z; gi_iommu_group : Z; gi_numa_node : Z
}.
Record NumaNode := {
  nu_id : Z; nu_cpus : list Z; nu_memory_bytes : Z; nu_distances : list Z
}.
Record NodeInfo := {
  in_hostname : string;
  in_cloud_hypervisor_version : string;
  in_kernel_version : string;
  in_total_cpus : Z;
  in_total_memory_bytes : Z;
  in_available_memory_bytes : Z;
  in_load_average_1m : f64;
  in_disk_total_bytes : Z;
  in_disk_available_bytes : Z;
  in_gpus : list GpuInfo;
  in_node_version : string;
  in_numa_nodes : list NumaNode;
  in_architecture : string;
  in_firecracker_version : option string
}.

Definition metrics_of (info : NodeInfo) : HostMetrics :=
  {| hm_architecture := Some (in_architecture info); hm_total_cpus := in_total_cpus info;
     hm_total_memory_bytes := in_total_memory_bytes info;
     hm_available_memory_bytes := in_available_memory_bytes info;
     hm_load_average := in_load_average_1m info; hm_disk_total_bytes := in_disk_total_bytes info;
     hm_disk_available_bytes := in_disk_available_bytes info |}.

Definition gpu_discovery (g : GpuInfo) : GpuDiscovery :=
  {| gd_pci_address := gi_pci_address g; gd_model := gi_model g; gd_vendor := gi_vendor g;
     gd_vram_bytes := gi_vram_bytes g; gd_iommu_group := gi_iommu_group g;
     gd_numa_node := gi_numa_node g |}.

(** The two writers of NUMA nodes differ in the text of the CPUs. *)
Definition numa_discovery (cpu_text : list Z -> string) (n : NumaNode) : NumaNodeDiscovery :=
  {| nn_node_id := nu_id n; nn_cpu_list := cpu_text (nu_cpus n);
     nn_memory_bytes := if 0 <? nu_memory_bytes n then Some (nu_memory_bytes n) else None;
     nn_distances := nu_distances n |}.
Definition cpus_joined (cpus : list Z) : string := join "," (pretty <$> cpus).

Definition host_status_to_string (s : HostStatus) : string :=
  match s with
  | HostUnknown => "unknown" | HostDown => "down" | HostInstalling => "installing"
  | HostInstallationFailed => "installation_failed" | HostInitializing => "initializing"
  | HostMaintenance => "maintenance" | HostUp => "up"
  end.

Section host_ops.
Context `{UuidText} `{PolicySerde} {coll : Collation}.
Variables (to_rfc3339 : Z -> string) (sqlx_text : SqlxError -> string)
  (rpc_error_text : RpcCall -> RpcOutcome -> string)
  (numa_config_de : json -> option NumaConfig) (defaults : VmDefaults) (receiver_url : nat -> string).
Variables (locked : nat -> gset Uuid) (config : SchedulingSettings).
Variables (node_info : nat -> NodeInfo) (deployed : nat -> result DeployError unit).
Variables (env_var read_to_string : string -> option string).

Abbreviation set_vm_status := (Vms.update_status to_rfc3339).

(** [client.get_node_info()]. *)
Definition get_node_info {E} (host : Host) : M E (option NodeInfo) := fun o w =>
  match rpc host GetNodeInfo o w with
  | (w', Ok RpcOk) => (w', Ok (Some (node_info (w_step w))))
  | (w', Ok _) => (w', Ok None)
  | (w', Err e) => (w', Err e)
  end.

(** ** The resource monitor *)

Definition handle_probe_result (host : Host) (info : option NodeInfo) : M SqlxError unit :=
  match info with
  | Some info =>
      _ ← (attempt (update_versions (h_id host) (in_cloud_hypervisor_version info)
             (in_firecracker_version info) (in_kernel_version info) (in_node_version info)) : M SqlxError _);
      _ ← (attempt (update_resources (h_id host) (metrics_of info)) : M SqlxError _);
      _ ← (attempt (sync_gpus (h_id host) (gpu_discovery <$> in_gpus info)) : M SqlxError _);
      _ ← (attempt (sync_numa_nodes (h_id host)
             (numa_discovery expand_cpu_list_to_string <$> in_numa_nodes info)) : M SqlxError _);
      mret tt
  | None =>
      if bool_decide (h_status host = HostMaintenance) then mret tt
      else _ ← (attempt (Hosts.update_status (h_id host) HostDown) : M SqlxError _); mret tt
  end.

Definition probe_host (host : Host) : M SqlxError unit :=
  info ← get_node_info host;
  handle_probe_result host info.

Definition resource_tick (maintenance_mode : bool) : M SqlxError unit :=
  if maintenance_mode then mret tt
  else
    hosts ← attempt list_probeable;
    match hosts with
    | Err _ => mret tt
    | Ok hosts => for_all_m probe_host hosts
    end.

(** ** Registration *)

Definition list_hosts_handler (name architecture : option string) : M Error (list Host) :=
  sqlx_q (list_hosts name (architecture ≫= Architecture.normalize_architecture)).

Definition add_host (host : NewHost) : M Error Uuid :=
  _ ← validate_unique_name host;
  _ ← of_result (validate_placement host);
  _ ← of_result (validate_credentials host);
  sqlx_q (Hosts.add host).

Definition update_host_handler (host_id : Uuid) (status : HostStatus) : M Error unit :=
  sqlx_q (Hosts.update_status host_id status).

Definition update_placement_handler (host_id : Uuid) (body : UpdateHostPlacementRequest) : M Error unit :=
  _ ← of_result (validate_update_placement body);
  _ ← require_by_id host_id;
  sqlx_q (update_placement host_id body).

Definition list_host_gpus (host_id : Uuid) : M Error (list HostGpu) :=
  _ ← require_by_id host_id;
  sqlx_q (Gpus.list_by_host host_id).
Definition list_numa_nodes (host_id : Uuid) : M Error (list HostNumaNode) :=
  _ ← require_by_id host_id;
  lift_err Sqlx (list_numa_by_host host_id).
Definition host_resources (host_id : Uuid) : M Error HostResourceCapacity :=
  _ ← require_by_id host_id;
  resources ← sqlx_q (get_resource_capacity host_id);
  of_result (ok_or NotFound resources).

(** ** Deployment *)

Definition resolved_host_password (host : Host) : result Error (option string) :=
  match h_credential_ref host with
  | Some r => map_err (fun _ => InternalServerError) (Some <$> Secrets.resolve env_var read_to_string r)
  | None => Ok None
  end.

Definition without_credential (h : Host) : Host :=
  {| h_id := h_id h; h_name := h_name h; h_address := h_address h; h_port := h_port h;
     h_status := h_status h; h_host_user := h_host_user h; h_credential_ref := None;
     h_cloud_hypervisor_version := h_cloud_hypervisor_version h;
     h_firecracker_version := h_firecracker_version h; h_kernel_version := h_kernel_version h;
     h_node_version := h_node_version h; h_last_deployed_image := h_last_deployed_image h;
     h_reservation_class := h_reservation_class h; h_placement_labels := h_placement_labels h;
     h_architecture := h_architecture h; h_total_cpus := h_total_cpus h;
     h_total_memory_bytes := h_total_memory_bytes h;
     h_available_memory_bytes := h_available_memory_bytes h;
     h_load_average := h_load_average h; h_disk_total_bytes := h_disk_total_bytes h;
     h_disk_available_bytes := h_disk_available_bytes h;
     h_resources_updated_at := h_resources_updated_at h |}.

Definition with_password (p : option string) (r : DeployHostRequest) : DeployHostRequest :=
  {| dr_image := dr_image r; dr_ssh_port := dr_ssh_port r; dr_ssh_user := dr_ssh_user r;
     dr_ssh_password := p; dr_ssh_private_key_path := dr_ssh_private_key_path r;
     dr_install_bootc := dr_install_bootc r; dr_reboot := dr_reboot r |}.

(** The task of [spawn_deploy]. *)
Definition run_deploy (host_id : Uuid) (image : string) : M SqlxError unit := fun o w =>
  match deployed (w_step w) with
  | Ok _ =>
      (_ ← (attempt (set_last_deployed_image host_id image) : M SqlxError _);
       _ ← (attempt (Hosts.update_status host_id HostUp) : M SqlxError _);
       mret tt) o w
  | Err _ =>
      (_ ← (attempt (Hosts.update_status host_id HostInstallationFailed) : M SqlxError _);
       mret tt) o w
  end.

Definition deploy (host_id : Uuid) (body : DeployHostRequest) : M Error unit :=
  _ ← of_result (validate_deploy body);
  host ← require_by_id host_id;
  body ← (match dr_ssh_password body, dr_ssh_private_key_path body with
          | None, None => p ← of_result (resolved_host_password host); mret (with_password p body)
          | _, _ => mret body
          end);
  _ ← sqlx_q (Hosts.update_status host_id HostInstalling);
  emit (EvTask (DeployTask (without_credential host) body)).

Definition upgrade_request (host : Host) (image password : string) : DeployHostRequest :=
  {| dr_image := image; dr_ssh_port := None; dr_ssh_user := Some (h_host_user host);
     dr_ssh_password := Some password; dr_ssh_private_key_path := None;
     dr_install_bootc := Some false; dr_reboot := Some true |}.

Definition node_upgrade (host_id : Uuid) : M Error unit :=
  host ← require_by_id host_id;
  image ← of_result (ok_or (UnprocessableEntity "no deployed image recorded for this host; run /deploy first")
                       (h_last_deployed_image host));
  password ← of_result (resolved_host_password host);
  password ← of_result (ok_or (UnprocessableEntity
                "host has no credential reference; register one before upgrading") password);
  _ ← sqlx_q (Hosts.update_status host_id HostInstalling);
  emit (EvTask (DeployTask (without_credential host) (upgrade_request host image password))).

(** ** Initialisation *)

Definition init_host (host_id : Uuid) : M Error Host :=
  host ← require_by_id host_id;
  info ← get_node_info host;
  info ← of_result (ok_or InternalServerError info);
  _ ← sqlx_q (update_versions host_id (in_cloud_hypervisor_version info) (in_firecracker_version info)
                (in_kernel_version info) (in_node_version info));
  _ ← sqlx_q (update_resources host_id (metrics_of info));
  _ ← sqlx_q (Hosts.update_status host_id HostUp);
  _ ← (attempt (sync_numa_nodes host_id (numa_discovery cpus_joined <$> in_numa_nodes info)) : M Error _);
  updated_host ← require_by_id host_id;
  _ ← emit (EvTask (InitPoolsTask host_id host));
  mret updated_host.

Definition reattach_pool (host : Host) (pool : StoragePool) : M SqlxError unit :=
  _ ← rpc host (AttachStoragePool (sp_id pool));
  mret tt.

Definition join_pool (host_id : Uuid) (host : Host) (pool : StoragePool) : M SqlxError unit :=
  r ← rpc host (AttachStoragePool (sp_id pool));
  match r with
  | RpcOk => _ ← (attempt (attach_pool_host (sp_id pool) host_id) : M SqlxError _); mret tt
  | _ => mret tt
  end.

(** The shared pools the host has not joined yet. *)
Definition new_shared (existing all_pools : list StoragePool) : list StoragePool :=
  List.filter (fun p => is_shared (sp_pool_type p) && negb (bool_decide (sp_id p ∈ (sp_id <$> existing))))
    all_pools.

Definition run_init_pools (host_id : Uuid) (host : Host) : M SqlxError unit :=
  existing ← attempt (list_pools_for_host host_id);
  match existing with
  | Err _ => mret tt
  | Ok existing =>
      all_pools ← attempt (list_pools None);
      match all_pools with
      | Err _ => mret tt
      | Ok all_pools =>
          _ ← for_all_m (reattach_pool host) existing;
          for_all_m (join_pool host_id host) (new_shared existing all_pools)
      end
  end.

(** ** Evacuation *)

Definition no_plan (vm : Vm) (last_reason : option string) : Error :=
  UnprocessableEntity ("no eligible destination host found for VM '" +:+ v_name (vm_row vm) +:+ "'"
    +:+ match last_reason with Some reason => ": " +:+ reason | None => "" end).

(** The loop; [None] when the fuel is spent. *)
Fixpoint plan_loop (fuel : nat) (vm : Vm) (base : SchedulingRequest) (excluded : list Uuid)
    (last_reason : option string) : M Error (option PlannedVmMigration) :=
  match fuel with
  | O => mret None
  | S fuel' =>
      candidate ← in_dropped_tx (pick_host_now locked config (excluding excluded base));
      match candidate with
      | None => throw (no_plan vm last_reason)
      | Some candidate =>
          plan ← attempt (plan_vm_migration sqlx_text numa_config_de defaults (v_id (vm_row vm)) (h_id candidate));
          match plan with
          | Ok plan => mret (Some plan)
          | Err (UnprocessableEntity reason) =>
              plan_loop fuel' vm base (excluded ++ [h_id candidate]) (Some reason)
          | Err e => throw e
          end
      end
  end.

(** The fuel is never spent, so the error of the last line does not arise. *)
Definition pick_evacuation_plan (vm : Vm) (source_host_id : Uuid) : M Error PlannedVmMigration :=
  base ← evacuation_scheduling_request vm source_host_id None;
  n ← host_count;
  plan ← plan_loop (S n) vm base (sr_excluded_host_ids base) None;
  of_result (ok_or InternalServerError plan).

Definition evacuation_failure (evacuated : list string) (remaining : option (list string))
    (status : HostStatus) (restored : bool) : json :=
  JObject (<["evacuated_vms"%string := JArray (JString <$> evacuated)]>
          (<["remaining_vms"%string := match remaining with
                                       | Some names => JArray (JString <$> names) | None => JNull end]>
          (<["host_status"%string := JString (host_status_to_string status)]>
          (<["host_status_restored"%string := JBool restored]> ∅)))).

(** The status the host is left with, whether it was restored, and the message. *)
Definition restore_host (host_id : Uuid) (original : HostStatus) (evacuated : list string) (error : string)
  : M SqlxError (HostStatus * bool * string) :=
  if bool_decide (evacuated = []) then
    r ← attempt (Hosts.update_status host_id original);
    mret (match r with
          | Ok _ => (original, true, error +:+ "; host status restored to " +:+ host_status_to_string original)
          | Err e => (HostMaintenance, false,
              error +:+ "; failed to restore host status to " +:+ host_status_to_string original
                +:+ ": " +:+ sqlx_text e)
          end)%string
  else mret (HostMaintenance, false,
         error +:+ "; host left in maintenance after evacuating " +:+ pretty (Z.of_nat (length evacuated))
           +:+ " VM(s)")%string.

Definition fail_host_evacuation (job_id host_id : Uuid) (original : HostStatus) (evacuated : list string)
    (error : string) : M SqlxError unit :=
  '(final_status, restored, error) ← restore_host host_id original evacuated error;
  remaining ← attempt (Vms.list_by_host host_id);
  let remaining := match remaining with
                   | Ok vms => Some ((fun vm => v_name (vm_row vm)) <$> vms) | Err _ => None end in
  _ ← (attempt (mark_failed_with_result job_id error
         (Some (evacuation_failure evacuated remaining final_status restored))) : M SqlxError _);
  mret tt.

(** One VM: the name of a VM that was moved, or the message of the failure. *)
Definition evacuate_vm (host_id vm_id : Uuid) : M string string :=
  vm ← lift_err (fun e => "failed to load resident VM " +:+ uuid_to_string vm_id +:+ ": " +:+ sqlx_text e)%string
         (Vms.get vm_id);
  let name := v_name (vm_row vm) in
  plan ← lift_err (fun e => "failed to plan evacuation for VM '" +:+ name +:+ "': " +:+ error_to_string e)%string
           (pick_evacuation_plan vm host_id);
  _ ← lift_err (fun e => "failed to mark VM '" +:+ name +:+ "' migrating: " +:+ sqlx_text e)%string
        (set_vm_status vm_id Migrating);
  r ← attempt (execute_planned_vm_migration to_rfc3339 rpc_error_text receiver_url plan None);
  match r with
  | Ok _ => mret name
  | Err msg =>
      _ ← (attempt (set_vm_status vm_id (pm_original_status plan)) : M string _);
      throw msg
  end.

Definition evacuation_progress (idx total : nat) : Z :=
  as_i32 (Z.of_nat (idx + 1) * 100 / Z.of_nat total).

(** The loop over the residents; the names of those moved. *)
Fixpoint evacuate_all (job_id host_id : Uuid) (original : HostStatus) (total idx : nat)
    (evacuated : list string) (vms : list Uuid) : M SqlxError bool :=
  match vms with
  | [] => mret true
  | vm_id :: vms' =>
      r ← attempt (evacuate_vm host_id vm_id);
      match r with
      | Err msg => _ ← fail_host_evacuation job_id host_id original evacuated msg; mret false
      | Ok name =>
          _ ← (attempt (update_progress job_id (evacuation_progress idx total)) : M SqlxError _);
          evacuate_all job_id host_id original total (S idx) (evacuated ++ [name]) vms'
      end
  end.

Definition evacuation_result (n : nat) : json :=
  JObject {["evacuated_vms"%string := JNumber (Z.of_nat n)]}.

(** The spawned task. *)
Definition run_evacuation (host_id job_id : Uuid) (original : HostStatus) (vms : list Uuid) : M SqlxError unit :=
  running ← attempt (mark_running job_id);
  match running with
  | Err e => fail_host_evacuation job_id host_id original []
               ("failed to start host evacuation job: " +:+ sqlx_text e)
  | Ok _ =>
      done ← evacuate_all job_id host_id original (Nat.max (length vms) 1) 0 [] vms;
      if (done : bool) then
        _ ← (attempt (mark_completed job_id (Some (evacuation_result (length vms)))) : M SqlxError _);
        mret tt
      else mret tt
  end.

(** The residents that cannot be moved. *)
Definition not_evacuatable (vms : list Vm) : list string :=
  (fun vm => v_name (vm_row vm) +:+ " (" +:+ vm_status_to_string (v_status (vm_row vm)) +:+ ")")%string
    <$> List.filter (fun vm => negb (bool_decide (v_status (vm_row vm) ∈ [Running; Paused]))) vms.

Definition evacuate_job (host : Host) (host_id : Uuid) : NewJob :=
  {| nj_job_type := HostEvacuate;
     nj_description := Some ("Evacuating host " +:+ h_name host +:+ " (" +:+ uuid_to_string (h_id host) +:+ ")")%string;
     nj_resource_id := Some host_id; nj_resource_type := Some resource_types.HOST |}.

Definition evacuate (host_id : Uuid) : M Error Uuid :=
  host ← require_by_id host_id;
  if negb (bool_decide (h_status host ∈ [HostUp; HostMaintenance])) then
    throw (UnprocessableEntity ("host " +:+ h_name host +:+ " must be up or maintenance to evacuate (current status: "
             +:+ host_status_to_string (h_status host) +:+ ")"))
  else
    resident_vms ← sqlx_q (Vms.list_by_host host_id);
    let unsupported_states := not_evacuatable resident_vms in
    if negb (bool_decide (unsupported_states = [])) then
      throw (UnprocessableEntity
        ("host evacuation currently supports only running or paused VMs; incompatible residents: "
           +:+ join ", " unsupported_states))
    else
      _ ← for_all_m (fun vm => _ ← pick_evacuation_plan vm host_id; mret tt) resident_vms;
      _ ← sqlx_q (Hosts.update_status host_id HostMaintenance);
      job ← sqlx_q (Jobs.create (evacuate_job host host_id));
      _ ← emit (EvTask (EvacuateTask host_id (j_id job) (h_status host)
                          ((fun vm => v_id (vm_row vm)) <$> resident_vms)));
      mret (j_id job).
End host_ops.

(** ** The plan of an evacuation *)

Section plan_facts.
Context `{UuidText} `{PolicySerde} {coll : Collation}.
Variables (sqlx_text : SqlxError -> string) (numa_config_de : json -> option NumaConfig) (defaults : VmDefaults).
Variables (locked : nat -> gset Uuid) (config : SchedulingSettings).

Abbreviation plan_for := (plan_vm_migration sqlx_text numa_config_de defaults).
Abbreviation plan_from := (plan_loop sqlx_text numa_config_de defaults locked config).

Lemma plan_vm_migration_reads vm_id target : steps same_but_step (plan_for vm_id target).
Proof.
  unfold plan_vm_migration. apply steps_bind; [apply steps_lift_err, query_same_but_step|]. intros vm. cbv zeta.
  destruct (negb _); [apply steps_throw|]. destruct (negb _); [apply steps_throw|].
  apply steps_bind; [apply host_for_vm_reads|]. intros src. apply steps_bind; [apply require_by_id_reads|].
  intros tgt. case_bool_decide; [apply steps_throw|].
  apply steps_bind; [destruct (persisted_vm_architecture vm); [apply steps_of_result|apply steps_ret]|]. intros _.
  apply steps_bind; [|intros ?; apply steps_ret]. unfold plan_storage.
  apply steps_bind; [apply steps_lift_err, query_same_but_step|]. intros gpus.
  destruct (negb _); [apply steps_throw|].
  apply steps_bind; [apply steps_lift_err, query_same_but_step|]. intros disks.
  do 2 (apply steps_bind; [apply check_object_pools_reads|]; intros _). apply build_create_vm_request_reads.
Qed.

Lemma plan_quiet {E} vm_id target : steps quiet (attempt (plan_for vm_id target) : M E _).
Proof. apply steps_attempt, reads_quiet, plan_vm_migration_reads. Qed.

Lemma plan_loop_quiet fuel vm base excluded reason : steps quiet (plan_from fuel vm base excluded reason).
Proof.
  revert excluded reason. induction fuel as [|fuel IH]; intros excluded reason; simpl; [apply steps_ret|].
  apply steps_bind; [apply pick_in_tx_quiet|]. intros [c|]; [|apply steps_throw].
  apply steps_bind; [apply plan_quiet|]. intros [p|[]]; first [apply steps_ret|apply steps_throw|apply IH].
Qed.

(** The destination of a plan. *)
Definition planned_away (db : Db) (vm : Vm) (excluded : list Uuid) (plan : PlannedVmMigration) : Prop :=
  exists target, (target ∉ excluded) /\ migratable db (v_id (vm_row vm)) target plan.

Lemma plan_loop_ok fuel vm base excluded reason o w w' plan :
  plan_from fuel vm base excluded reason o w = (w', Ok (Some plan)) ->
  planned_away (w_db w) vm excluded plan.
Proof.
  revert excluded reason w. induction fuel as [|fuel IH]; intros excluded reason w Hrun; [discriminate|].
  cbn [plan_loop] in Hrun. apply bind_ok_inv in Hrun as ([c|]&w1&Hc&Hrun); [|discriminate].
  pose proof (pick_in_tx_quiet locked config (excluding excluded base) o w) as [D1 _]. rewrite Hc in D1. simpl in D1.
  apply pick_in_tx_some in Hc as [_ Hel]. apply eligible_spec in Hel as (_&Hex&_). simpl in Hex.
  apply bind_ok_inv in Hrun as (p&w2&Hp&Hrun).
  pose proof (plan_quiet (E := Error) (v_id (vm_row vm)) (h_id c) o w1) as [D2 _]. rewrite Hp in D2. simpl in D2.
  apply attempt_inv in Hp as (p'&[= <-]&Hp). destruct p as [p|[]]; try discriminate.
  - injection Hrun as <- <-. exists (h_id c). split; [done|]. rewrite <- D1.
    by apply migration_planned_spec in Hp as [_ Hm].
  - apply IH in Hrun as (t&Ht&Hm). rewrite D2, D1 in Hm. exists t. split; [|done].
    intros Hin. apply Ht, elem_of_app. by left.
Qed.

Lemma plan_loop_total fuel vm base excluded reason o w :
  (size (open_ids (w_db w) excluded) < fuel)%nat ->
  (plan_from fuel vm base excluded reason o w).2 <> Ok None.
Proof.
  revert excluded reason w. induction fuel as [|fuel IH]; intros excluded reason w Hsize; [lia|].
  cbn [plan_loop]. pose proof (pick_in_tx_quiet locked config (excluding excluded base) o w) as [D1 _].
  destruct (in_dropped_tx (pick_host_now locked config (excluding excluded base)) o w) as [w1 [[c|]|e]] eqn:Hc;
    [rewrite (bind_run _ _ _ _ _ _ Hc)|by rewrite (bind_run _ _ _ _ _ _ Hc)
    |by rewrite (bind_run_err _ _ _ _ _ _ Hc)].
  apply pick_in_tx_some in Hc as [[k Hk] Hel]. simpl in D1.
  pose proof (plan_vm_migration_reads (v_id (vm_row vm)) (h_id c) o w1) as (D2&_&_).
  destruct (plan_for (v_id (vm_row vm)) (h_id c) o w1) as [w2 p] eqn:Hp.
  rewrite (attempt_bind_run _ _ _ _ _ _ Hp). simpl in D2. destruct p as [p|[]]; try done.
  apply IH. rewrite D2, D1.
  apply eligible_spec in Hel as (_&Hex&_). pose proof (open_ids_shrink _ _ _ _ Hk Hex). simpl in *. lia.
Qed.

Abbreviation pick_plan := (pick_evacuation_plan sqlx_text numa_config_de defaults locked config).

Lemma request_quiet vm source gpu : steps quiet (evacuation_scheduling_request vm source gpu).
Proof.
  apply reads_quiet, steps_bind; [apply steps_lift_err, query_same_but_step|]. intros ?. apply steps_ret.
Qed.

Lemma pick_plan_quiet vm source : steps quiet (pick_plan vm source).
Proof.
  apply steps_bind; [apply request_quiet|]. intros base. apply steps_bind; [done|]. intros n.
  apply steps_bind; [apply plan_loop_quiet|]. intros p. apply steps_of_result.
Qed.

Lemma pick_plan_spec vm source o w w' r :
  pick_plan vm source o w = (w', r) ->
  quiet w w' /\
  match r with
  | Ok plan => planned_away (w_db w) vm [source] plan
  | Err _ =>
      (exists w1 e, evacuation_scheduling_request vm source None o w = (w1, Err e)) \/
      exists base w1 n w2 e, evacuation_scheduling_request vm source None o w = (w1, Ok base) /\
        plan_from n vm base [source] None o w1 = (w2, Err e)
  end.
Proof.
  intros Hrun. pose proof (pick_plan_quiet vm source o w) as Hq. rewrite Hrun in Hq. split; [exact Hq|].
  apply bind_cases in Hrun as [(e&->&He)|(base&w1&Hb&Hrun)]; [left; eauto|].
  pose proof (request_inv _ _ _ _ _ _ _ Hb) as ([D1 _]&Hex&_&_). rewrite Hex in Hrun.
  apply bind_cases in Hrun as [(e&->&He)|(n&w2&Hn&Hrun)]; [discriminate|]. injection Hn as <- Hn.
  apply bind_cases in Hrun as [(e&->&He)|(p&w3&Hp&Hrun)]; [right; by eexists _, _, _, _, _|].
  unfold of_result in Hrun. injection Hrun as <- <-. destruct p as [p|].
  - simpl. rewrite <- D1. by eapply plan_loop_ok.
  - exfalso. refine (plan_loop_total (S n) vm base [source] None o w1 _ _); [|by rewrite Hp].
    subst n. pose proof (open_ids_bound (w_db w1) [source]). lia.
Qed.
End plan_facts.

(** ** The outcome of an evacuation *)

Section evacuation_facts.
Context `{UuidText} `{PolicySerde} {coll : Collation}.
Variables (to_rfc3339 : Z -> string) (sqlx_text : SqlxError -> string)
  (rpc_error_text : RpcCall -> RpcOutcome -> string)
  (numa_config_de : json -> option NumaConfig) (defaults : VmDefaults) (receiver_url : nat -> string).
Variables (locked : nat -> gset Uuid) (config : SchedulingSettings).

Abbreviation evacuate_one :=
  (evacuate_vm to_rfc3339 sqlx_text rpc_error_text numa_config_de defaults receiver_url locked config).
Abbreviation evacuate_rest :=
  (evacuate_all to_rfc3339 sqlx_text rpc_error_text numa_config_de defaults receiver_url locked config).

Definition vms_keyed (db : Db) : Prop := map_Forall (fun k r => v_id r = k) (t_vms db).

(** Steps that keep the hosts, the identities of VMs and every VM but those of
    [ids]. *)
Record touches_vms (ids : list Uuid) (w w' : World) : Prop := {
  tv_hosts : t_hosts (w_db w') = t_hosts (w_db w);
  tv_log : log_grows w w';
  tv_keyed : vms_keyed (w_db w) -> vms_keyed (w_db w');
  tv_others : forall k, k ∉ ids -> t_vms (w_db w') !! k = t_vms (w_db w) !! k
}.
#[local] Instance touches_vms_preorder ids : PreOrder (touches_vms ids).
Proof.
  split; [intros w; by split|]. intros a b c [] []. split; [congruence|by etransitivity|auto|].
  intros k Hk. by rewrite tv_others1, tv_others0.
Qed.
Lemma touches_vms_mono ids ids' w w' : ids ⊆ ids' -> touches_vms ids w w' -> touches_vms ids' w w'.
Proof. intros Hs []. split; [done|done|done|]. intros k Hk. apply tv_others0. set_solver. Qed.
Lemma touches_same ids w w' :
  t_hosts (w_db w') = t_hosts (w_db w) -> t_vms (w_db w') = t_vms (w_db w) -> log_grows w w' -> touches_vms ids w w'.
Proof. intros Hh Hv Hl. split; [done|done|unfold vms_keyed; by rewrite Hv|]. intros k _. by rewrite Hv. Qed.
Lemma touches_quiet ids w w' : quiet w w' -> touches_vms ids w w'.
Proof. intros [D L]. apply touches_same; [by rewrite D|by rewrite D|exists []; by rewrite app_nil_r, L]. Qed.
Lemma touches_jobs ids w w' : jobs_only w w' -> touches_vms ids w w'.
Proof.
  intros Hj. apply touches_same; [by apply (jobs_only_table t_hosts)|by apply (jobs_only_table t_vms)|].
  exists []. rewrite app_nil_r. apply Hj.
Qed.

(** Rows altered without changing their identity. *)
Lemma touches_alter id f w w' :
  t_hosts (w_db w') = t_hosts (w_db w) -> log_grows w w' -> (forall r, v_id (f r) = v_id r) ->
  t_vms (w_db w') = alter f id (t_vms (w_db w)) -> touches_vms [id] w w'.
Proof.
  intros Hh Hl Hf Hv. split; [done|done| |].
  - intros Hk k r Hr. rewrite Hv in Hr. destruct (decide (k = id)) as [->|Hne].
    + rewrite lookup_alter_eq in Hr. apply fmap_Some in Hr as (r0&Hr0&->). rewrite Hf. by apply Hk.
    + rewrite lookup_alter_ne in Hr by done. by apply Hk.
  - intros k Hk. rewrite Hv, lookup_alter_ne; [done|]. set_solver.
Qed.

Lemma set_status_touches_vm id s : steps (touches_vms [id]) (Vms.update_status to_rfc3339 id s).
Proof.
  intros o w. assert (t_hosts (w_db (Vms.update_status to_rfc3339 id s o w).1) = t_hosts (w_db w)) as Hh
    by (by apply (update_status_keeps to_rfc3339 (fun w => t_hosts (w_db w)))).
  pose proof (update_status_log_grows to_rfc3339 id s o w) as Hl.
  destruct (update_status_restatus to_rfc3339 id s o w) as [Hv|(s'&_&Hv)]; [by apply touches_same|].
  by eapply (touches_alter id (set_row_status s')).
Qed.

(** [hosted_alike id]: the VM is on the host it was on. *)
Definition hosted_alike (id : Uuid) (w w' : World) : Prop :=
  v_host_id <$> t_vms (w_db w') !! id = v_host_id <$> t_vms (w_db w) !! id.

Lemma set_status_hosted id s o w : hosted_alike id w (Vms.update_status to_rfc3339 id s o w).1.
Proof.
  unfold hosted_alike. destruct (update_status_restatus to_rfc3339 id s o w) as [->|(s'&_&->)]; [done|].
  rewrite lookup_alter_eq. by destruct (t_vms (w_db w) !! id).
Qed.

(** The VM was received by a host that is not [host] and sent there. *)
Definition sent_away (host id : Uuid) (w w' : World) : Prop :=
  exists plan target url, target <> host /\ t_hosts (w_db w) !! target = Some (pm_target_host plan) /\
    logged w w' (accepted (pm_target_host plan) (ReceiveMigration (migration_message id (pm_create_req plan)) 0)) /\
    logged w w' (accepted (pm_source_host plan) (SendMigration id url)).

Lemma sent_away_grows host id w w1 w2 w3 :
  t_hosts (w_db w1) = t_hosts (w_db w) -> log_grows w w1 -> sent_away host id w1 w2 -> log_grows w2 w3 ->
  sent_away host id w w3.
Proof.
  intros Hh G1 (plan&t&url&Hne&Ht&L1&L2) G2. exists plan, t, url. rewrite <- Hh. split_and!; [done|done| |];
    (eapply logged_grows_r; [|exact G2]); by eapply logged_grows_l.
Qed.

Lemma migrated_touches plan w w' :
  t_hosts (w_db w') = t_hosts (w_db w) -> migrated plan w w' ->
  touches_vms [pm_vm_id plan] w w' /\
  exists url, logged w w' (accepted (pm_target_host plan)
      (ReceiveMigration (migration_message (pm_vm_id plan) (pm_create_req plan)) 0)) /\
    logged w w' (accepted (pm_source_host plan) (SendMigration (pm_vm_id plan) url)).
Proof.
  intros Hh (url&events&r&_&L&f&T&Hf). split.
  - eapply touches_alter; [done|by eexists| |exact T]. intros x. specialize (Hf x).
    rewrite !elem_of_cons, elem_of_nil in Hf. destruct Hf as [->|[->|[->|[->|[]]]]]; done.
  - exists url. split; (eexists; split; [exact L|]); rewrite elem_of_app, !elem_of_cons; auto.
Qed.

Lemma execute_keeps_hosts plan o w :
  t_hosts (w_db (execute_planned_vm_migration to_rfc3339 rpc_error_text receiver_url plan None o w).1)
  = t_hosts (w_db w).
Proof.
  assert (steps (keeps_table t_hosts) (execute_planned_vm_migration to_rfc3339 rpc_error_text receiver_url plan None))
    as Hs; [|exact (Hs o w)].
  unfold execute_planned_vm_migration. cbv zeta.
  assert (forall host call name, steps (keeps_table t_hosts) (migration_call rpc_error_text host call name)) as Hcall.
  { intros host call name o' w'. unfold keeps_table, keeps.
    destruct (migration_call rpc_error_text host call name o' w') as [w1 r] eqn:E.
    apply migration_call_inv in E as (D&_). simpl. by rewrite D. }
  apply steps_bind.
  { intros o' w'. unfold receive_migration.
    pose proof (Hcall (pm_target_host plan) (ReceiveMigration (migration_message (pm_vm_id plan) (pm_create_req plan)) 0)
      "receive_migration" o' w') as Hk.
    destruct (migration_call _ _ _ _ _ _) as [w1 [|]]; exact Hk. }
  intros url. apply steps_bind; [apply steps_ret|]. intros _. apply steps_bind; [apply Hcall|]. intros _.
  apply steps_bind; [apply steps_ret|]. intros _. apply steps_bind.
  { unfold move_row. apply steps_bind.
    - apply steps_attempt. unfold update_host_id, checked_update.
      apply steps_execute; [done|]. intros w1 db a Hx. unfold keeps_table, keeps.
      destruct (t_vms (conn_db Pool w1) !! _); [|by injection Hx as <- _].
      apply result_bind_ok in Hx as ([]&_&[= <- _]). done.
    - intros _. apply steps_bind; [|intros ?; apply steps_ret]. apply steps_attempt. intros o' w'.
      by apply (update_status_keeps to_rfc3339 (fun w => t_hosts (w_db w))). }
  intros _. apply steps_bind; [by apply steps_rpc|]. intros _. apply steps_ret.
Qed.

(** One VM. *)
Definition evacuated (host id : Uuid) (w w' : World) (r : result string string) : Prop :=
  touches_vms [id] w w' /\
  match r with Ok _ => sent_away host id w w' | Err _ => hosted_alike id w w' end.

Lemma evacuate_vm_spec host id o w w' r :
  vms_keyed (w_db w) -> evacuate_one host id o w = (w', r) -> evacuated host id w w' r.
Proof.
  intros Hkeyed Hrun. unfold evacuate_vm in Hrun.
  assert (forall w' r, quiet w w' -> is_ok r = false -> evacuated host id w w' r) as Hquiet.
  { intros w1 r1 Hq Hr. split; [by apply touches_quiet|]. destruct r1; [done|]. unfold hosted_alike.
    by rewrite (proj1 Hq). }
  apply bind_cases in Hrun as [(e&->&He)|(vm&w1&Hvm&Hrun)].
  { apply Hquiet; [|done]. apply (reads_run _ _ _ _ _ (steps_lift_err _ _ (query_same_but_step _ _))) in He
      as (D&_&L). by split. }
  apply lift_err_ok_inv, query_ok_inv in Hvm as [Hvm ->]. cbn [conn_db] in Hvm.
  destruct (t_vms (w_db w) !! id) as [row|] eqn:Hrow; [|discriminate]. injection Hvm as <-.
  cbn [vm_row vm_from_row] in Hrun. cbv zeta in Hrun.
  assert (v_id row = id) as Hid by (by apply Hkeyed).
  apply bind_cases in Hrun as [(e&->&He)|(plan&w2&Hp&Hrun)].
  { unfold lift_err in He. destruct (pick_evacuation_plan _ _ _ _ _ _ _ _ _) as [w2 [p|e']] eqn:Hp; [discriminate|].
    injection He as -> _. apply pick_plan_spec in Hp as [[D L] _]. by apply Hquiet. }
  apply lift_err_ok_inv, pick_plan_spec in Hp as [[D2 L2] (target&Hne&Hm)].
  cbn [vm_row vm_from_row] in Hm. rewrite Hid in Hm. change (w_db (tick w)) with (w_db w) in *.
  assert (touches_vms [id] w w2) as T2 by (by apply touches_quiet).
  assert (hosted_alike id w w2) as H2 by (unfold hosted_alike; by rewrite D2).
  pose proof (set_status_touches_vm id Migrating o w2) as T3.
  pose proof (set_status_hosted id Migrating o w2) as H3.
  apply bind_cases in Hrun as [(e&->&He)|([]&w3&Hs&Hrun)].
  { unfold lift_err in He. destruct (Vms.update_status _ _ _ _ _) as [w3 r3]. injection He as -> _.
    split; [by etransitivity|]. unfold hosted_alike in *. by rewrite <- H2. }
  apply lift_err_ok_inv in Hs. rewrite Hs in T3, H3. simpl in T3, H3.
  assert (touches_vms [id] w w3) as T13 by (by etransitivity).
  assert (hosted_alike id w w3) as H13 by (unfold hosted_alike in *; by rewrite <- H2).
  pose proof (migration_outcome_spec to_rfc3339 rpc_error_text receiver_url plan None o w3) as Hout.
  pose proof (execute_keeps_hosts plan o w3) as Hh. cbv zeta in Hout.
  destruct (execute_planned_vm_migration _ _ _ _ _ _ _) as [w4 r4] eqn:He. cbn [fst snd] in Hout, Hh.
  rewrite (attempt_bind_run _ _ _ _ _ _ He) in Hrun.
  destruct r4 as [[]|msg].
  - injection Hrun as <- <-. apply (migrated_touches _ _ _ Hh) in Hout as [T4 (url&L1&L3)].
    rewrite (mg_vm _ _ _ _ Hm) in T4, L1, L3. split; [by etransitivity|].
    exists plan, target, url. split_and!; [set_solver|by apply mg_target in Hm| |];
      (eapply logged_grows_l; [apply (tv_log _ _ _ T13)|]; done).
  - destruct Hout as [V4 (l&L4&_)]. assert (touches_vms [id] w3 w4) as T4 by (apply touches_same; [done|done|by eexists]).
    pose proof (set_status_touches_vm id (pm_original_status plan) o w4) as T5.
    pose proof (set_status_hosted id (pm_original_status plan) o w4) as H5.
    destruct (Vms.update_status to_rfc3339 id (pm_original_status plan) o w4) as [w5 r5] eqn:H6.
    rewrite (attempt_bind_run _ _ _ _ _ _ H6) in Hrun. injection Hrun as <- <-. simpl in T5, H5.
    split; [do 2 (etransitivity; [eassumption|]); exact T5|]. unfold hosted_alike in *. by rewrite H5, V4.
Qed.

(** The host after a failure: restored when nothing was moved. *)
Definition host_after (moved : bool) (o : Oracle) (host : Uuid) (original : HostStatus) (w w' : World) : Prop :=
  (t_hosts (w_db w') = t_hosts (w_db w) /\ (served o -> moved = true)) \/
  (moved = false /\ t_hosts (w_db w') = alter (set_host_status original) host (t_hosts (w_db w))).

Lemma restore_host_spec host original names error o w w' r :
  restore_host sqlx_text host original names error o w = (w', r) ->
  is_ok r = true /\ t_vms (w_db w') = t_vms (w_db w) /\ w_log w' = w_log w /\
  host_after (negb (bool_decide (names = []))) o host original w w'.
Proof.
  unfold restore_host, host_after. case_bool_decide as Hn; cbn [negb].
  - unfold mbind, M_bind, attempt, Hosts.update_status, update_host, execute.
    destruct (o_sql o (w_step w)) eqn:Hs; intros [= <- <-]; (split_and!; [done|done|done|]); [left|by right].
    split; [done|]. intros Ho. by rewrite Ho in Hs.
  - intros [= <- <-]. split_and!; [done|done|done|]. by left.
Qed.

Lemma fail_evacuation_spec job host original names error o w w' r :
  fail_host_evacuation sqlx_text job host original names error o w = (w', r) ->
  r = Ok tt /\ t_vms (w_db w') = t_vms (w_db w) /\ w_log w' = w_log w /\
  host_after (negb (bool_decide (names = []))) o host original w w'.
Proof.
  unfold fail_host_evacuation. intros Hrun.
  destruct (restore_host sqlx_text host original names error o w) as [w1 r1] eqn:Hr.
  pose proof (restore_host_spec _ _ _ _ _ _ _ _ Hr) as (Hok&V1&L1&Hh). destruct r1 as [[[st b] er]|]; [|done].
  rewrite (bind_run _ _ _ _ _ _ Hr) in Hrun.
  destruct (Vms.list_by_host host o w1) as [w2 r2] eqn:Hl.
  pose proof (query_same_but_step Pool _ o w1 : same_but_step w1 (Vms.list_by_host host o w1).1) as (D2&_&L2).
  rewrite Hl in D2, L2. simpl in D2, L2. rewrite (attempt_bind_run _ _ _ _ _ _ Hl) in Hrun. cbv zeta in Hrun.
  match type of Hrun with (attempt (mark_failed_with_result _ ?e ?x) ≫= _) _ _ = _ =>
    pose proof (update_job_only (failed_job_row e x) job o w2) as J3;
    destruct (mark_failed_with_result job e x o w2) as [w3 r3] eqn:Hm end.
  rewrite (attempt_bind_run _ _ _ _ _ _ Hm) in Hrun. injection Hrun as <- <-.
  unfold mark_failed_with_result in Hm. rewrite Hm in J3. simpl in J3.
  pose proof (jobs_only_table t_vms _ _ (fun _ _ => eq_refl) J3) as V3.
  pose proof (jobs_only_table t_hosts _ _ (fun _ _ => eq_refl) J3) as H3. destruct J3 as [_ L3].
  split_and!; [done|by rewrite V3, D2|by rewrite L3, L2|]. unfold host_after in *. by rewrite H3, D2.
Qed.

(** What [n] moves among [vms] leave. *)
Record moved_first (host : Uuid) (vms : list Uuid) (n : nat) (w w' : World) : Prop := {
  mf_bound : (n <= length vms)%nat;
  mf_log : log_grows w w';
  mf_sent : forall id, id ∈ take n vms -> sent_away host id w w';
  mf_kept : forall id, id ∈ drop n vms -> hosted_alike id w w';
  mf_others : forall id, id ∉ vms -> t_vms (w_db w') !! id = t_vms (w_db w) !! id
}.

Lemma moved_none host vms w w' : t_vms (w_db w') = t_vms (w_db w) -> log_grows w w' -> moved_first host vms 0 w w'.
Proof.
  intros Hv Hl. split; [lia|done|by intros id ?%elem_of_nil| |by rewrite Hv].
  intros id _. unfold hosted_alike. by rewrite Hv.
Qed.

Lemma moved_cons host id vms n w w1 w2 :
  id ∉ vms -> t_hosts (w_db w1) = t_hosts (w_db w) -> touches_vms [id] w w1 -> sent_away host id w w1 ->
  moved_first host vms n w1 w2 -> moved_first host (id :: vms) (S n) w w2.
Proof.
  intros Hid Hh [_ G1 _ O1] Hs [B G S K O]. split; simpl.
  - lia.
  - by etransitivity.
  - intros x [->|Hx]%elem_of_cons; [by eapply (sent_away_grows host id w w w1)|].
    by eapply (sent_away_grows host x w w1 w2 w2); [| |apply S|reflexivity].
  - intros x Hx. unfold hosted_alike. rewrite (K x Hx). unfold hosted_alike. rewrite O1; [done|].
    intros ->%list_elem_of_singleton. apply Hid. rewrite <- (take_drop n vms). apply elem_of_app. by right.
  - intros x Hx. rewrite O, O1; [done|set_solver|set_solver].
Qed.

(** Steps before or after that leave the VMs and the hosts alone. *)
Lemma moved_after host vms n w w1 w2 :
  t_vms (w_db w1) = t_vms (w_db w) -> t_hosts (w_db w1) = t_hosts (w_db w) -> log_grows w w1 ->
  moved_first host vms n w1 w2 -> moved_first host vms n w w2.
Proof.
  intros V1 H1 G1 [B G S K O]. split; [done|by etransitivity| | |].
  - intros id Hin. by eapply (sent_away_grows host id w w1 w2 w2); [| |apply S|reflexivity].
  - intros id Hin. unfold hosted_alike. rewrite (K id Hin). by rewrite V1.
  - intros id Hin. by rewrite O, V1.
Qed.
Lemma moved_before host vms n w w1 w2 :
  t_vms (w_db w2) = t_vms (w_db w1) -> log_grows w1 w2 ->
  moved_first host vms n w w1 -> moved_first host vms n w w2.
Proof.
  intros V2 G2 [B G S K O]. split; [done|by etransitivity| | |].
  - intros id Hin. by eapply (sent_away_grows host id w w w1 w2); [|reflexivity|apply S|].
  - intros id Hin. unfold hosted_alike. rewrite V2. by apply K.
  - intros id Hin. by rewrite V2, O.
Qed.

(** After [n] moves the evacuation of the next VM fails. *)
Definition fails_next (host : Uuid) (vms : list Uuid) (n : nat) (o : Oracle) (w : World) : Prop :=
  exists id w1 w2 msg, vms !! n = Some id /\ moved_first host vms n w w1 /\ evacuate_one host id o w1 = (w2, Err msg).

Lemma evacuate_all_spec job host original total idx names vms o w w' r :
  NoDup vms -> vms_keyed (w_db w) ->
  evacuate_rest job host original total idx names vms o w = (w', r) ->
  exists n b, r = Ok b /\ moved_first host vms n w w' /\
    (if b : bool then n = length vms /\ t_hosts (w_db w') = t_hosts (w_db w)
     else fails_next host vms n o w /\ host_after (negb (bool_decide (names = []) && bool_decide (n = 0%nat))) o host original w w').
Proof.
  revert idx names w. induction vms as [|id vms IH]; intros idx names w Hnd Hk Hrun; cbn [evacuate_all] in Hrun.
  { injection Hrun as <- <-. exists 0%nat, true. split_and!; [done|by apply moved_none|done|done]. }
  apply NoDup_cons in Hnd as [Hid Hnd].
  destruct (evacuate_one host id o w) as [w1 r1] eqn:H1. rewrite (attempt_bind_run _ _ _ _ _ _ H1) in Hrun.
  pose proof (evacuate_vm_spec _ _ _ _ _ _ Hk H1) as [T1 R1]. destruct r1 as [name|msg].
  - pose proof (update_job_only (progress_row (evacuation_progress idx total)) job o w1) as J2.
    destruct (update_progress job (evacuation_progress idx total) o w1) as [w2 r2] eqn:H2.
    rewrite (attempt_bind_run _ _ _ _ _ _ H2) in Hrun. unfold update_progress in H2. rewrite H2 in J2. simpl in J2.
    pose proof (touches_jobs [id] _ _ J2) as T2. assert (touches_vms [id] w w2) as T by (by etransitivity).
    apply IH in Hrun as (n&b&->&Hm&Hb); [|done|by apply T].
    exists (S n), b. split; [done|]. pose proof (tv_hosts _ _ _ T) as Hh.
    assert (sent_away host id w w2) as Hs by (eapply (sent_away_grows host id w w w1); [done|reflexivity|done|apply T2]).
    split; [by eapply moved_cons|]. destruct b; [destruct Hb as [-> Hb]; by rewrite Hb, Hh|].
    destruct Hb as [(x&wa&wb&msg&Hx&Hma&Hxr) Hb]. split; [exists x, wa, wb, msg; split_and!; [done|by eapply moved_cons|done]|].
    rewrite (bool_decide_eq_false_2 (S n = 0%nat)), andb_false_r by done.
    rewrite (bool_decide_eq_false_2 (names ++ [name] = [])) in Hb by (by destruct names). cbn in Hb |- *.
    unfold host_after in *. by rewrite Hh in Hb.
  - destruct (fail_host_evacuation sqlx_text job host original names msg o w1) as [w2 r2] eqn:H2.
    pose proof (fail_evacuation_spec _ _ _ _ _ _ _ _ _ H2) as (->&V2&L2&Hh). rewrite (bind_run _ _ _ _ _ _ H2) in Hrun.
    injection Hrun as <- <-. exists 0%nat, false. split; [done|]. destruct T1 as [TH TL TK TO]. split.
    + split; [lia| |by intros x ?%elem_of_nil| |].
      * destruct TL as [l Hl]. exists l. by rewrite L2, Hl.
      * intros x Hx. unfold hosted_alike in *. rewrite V2. destruct (decide (x = id)) as [->|]; [done|].
        rewrite TO; [done|]. by rewrite list_elem_of_singleton.
      * intros x Hx. rewrite V2, TO; [done|]. set_solver.
    + split; [exists id, w, w1, msg; split_and!; [done|by apply moved_none|done]|]. rewrite (bool_decide_eq_true_2 (0%nat = 0%nat)), andb_true_r by done.
      unfold host_after in *. by rewrite TH in Hh.
Qed.

End evacuation_facts.

(** ** Probes *)

Section probe_facts.
Context {coll : Collation}.
Variable node_info : nat -> NodeInfo.

Definition statuses (w : World) : gmap Uuid HostStatus := h_status <$> t_hosts (w_db w).
Definition probe_event (host : Host) (r : RpcOutcome) : Event :=
  EvRpc (h_address host) (as_u16 (h_port host)) GetNodeInfo r.

(** A host of [hosts] that was not in maintenance and did not answer is down; every
    other status is kept. *)
Definition probed (hosts : list Host) (w w' : World) : Prop :=
  log_grows w w' /\
  forall k, statuses w' !! k = statuses w !! k \/
    exists host r, host ∈ hosts /\ h_id host = k /\ h_status host <> HostMaintenance /\ r <> RpcOk /\
      logged w w' (probe_event host r) /\ statuses w' !! k = (fun _ => HostDown) <$> statuses w !! k.

Lemma probed_same hosts w w' : statuses w' = statuses w -> log_grows w w' -> probed hosts w w'.
Proof. intros Hs Hl. split; [done|]. intros k. left. by rewrite Hs. Qed.

Lemma probed_trans l1 l2 w w1 w2 : probed l1 w w1 -> probed l2 w1 w2 -> probed (l1 ++ l2) w w2.
Proof.
  intros [G1 P1] [G2 P2]. split; [by etransitivity|]. intros k.
  destruct (P2 k) as [E2|(h&r&Hin&Hid&Hst&Hr&Hl&E2)].
  - rewrite E2. destruct (P1 k) as [E1|(h&r&Hin&Hid&Hst&Hr&Hl&E1)]; [by left|right].
    exists h, r. split_and!; try done; [apply elem_of_app; by left|by eapply logged_grows_r].
  - right. exists h, r. split_and!; try done; [apply elem_of_app; by right|by eapply logged_grows_l|].
    rewrite E2. destruct (P1 k) as [->|(?&?&_&_&_&_&_&->)]; [done|]. by destruct (statuses w !! k).
Qed.

(** Statements that keep every status. *)
Lemma update_host_statuses f id o w :
  (forall h, h_status (f h) = h_status h) ->
  statuses (update_host f id o w).1 = statuses w /\ w_log (update_host f id o w).1 = w_log w.
Proof.
  intros Hf. unfold update_host, execute. destruct (o_sql o (w_step w)); [done|]. split; [|done].
  apply map_eq. intros k. unfold statuses. simpl. rewrite !lookup_fmap.
  destruct (decide (k = id)) as [->|]; [|by rewrite lookup_alter_ne].
  rewrite lookup_alter_eq. destruct (t_hosts (w_db w) !! id) as [h|]; [|done]. simpl. by rewrite Hf.
Qed.

Definition keeps_hosts (db db' : Db) : Prop := t_hosts db' = t_hosts db.
#[local] Instance keeps_hosts_preorder : PreOrder keeps_hosts.
Proof. split; [by intros ?|]. intros a b c A B. unfold keeps_hosts in *. congruence. Qed.

Lemma sync_gpus_hosts id l o w :
  t_hosts (w_db (sync_gpus id l o w).1) = t_hosts (w_db w) /\ w_log (sync_gpus id l o w).1 = w_log w.
Proof.
  apply (in_tx_moves (R := keeps_hosts)).
  assert (forall w, tx_moves keeps_hosts w (tick w)) as Htick by (intros; apply tx_moves_tick, _).
  apply steps_bind; [by apply steps_now|]. intros t. apply steps_bind.
  - case_bool_decide; [apply steps_ret|]. apply steps_bind; [by apply steps_new_uuids|]. intros ids.
    apply steps_execute_tx. intros db db' a Hx. case_bool_decide; [|discriminate].
    apply result_bind_ok in Hx as (t'&_&[= <- _]). done.
  - intros _. apply steps_execute_tx. by intros db db' a [= <- _].
Qed.

Lemma sync_numa_hosts id l o w :
  t_hosts (w_db (sync_numa_nodes id l o w).1) = t_hosts (w_db w) /\ w_log (sync_numa_nodes id l o w).1 = w_log w.
Proof.
  apply (in_tx_moves (R := keeps_hosts)).
  assert (forall w, tx_moves keeps_hosts w (tick w)) as Htick by (intros; apply tx_moves_tick, _).
  apply steps_bind; [by apply steps_now|]. intros t. apply steps_bind.
  - case_bool_decide; [apply steps_ret|]. apply steps_bind; [by apply steps_new_uuids|]. intros ids.
    apply steps_execute_tx. intros db db' a Hx. destruct (negb _); [discriminate|].
    apply result_bind_ok in Hx as (t'&_&Hx). case_bool_decide; [|discriminate]. by injection Hx as <- _.
  - intros _. apply steps_execute_tx. by intros db db' a [= <- _].
Qed.

(** The statements of a successful probe. *)
Definition status_quiet (w w' : World) : Prop := statuses w' = statuses w /\ w_log w' = w_log w.
#[local] Instance status_quiet_preorder : PreOrder status_quiet.
Proof. split; [by intros w|]. intros a b c [] []. split; congruence. Qed.

Lemma recorded_quiet host info : steps status_quiet (handle_probe_result host (Some info)).
Proof.
  unfold handle_probe_result.
  repeat (apply steps_bind; [apply steps_attempt|intros _]); [| | | |apply steps_ret]; intros o w.
  - by apply update_host_statuses.
  - unfold update_resources, mbind, M_bind, now. etransitivity; [|by apply update_host_statuses]. done.
  - destruct (sync_gpus_hosts (h_id host) (gpu_discovery <$> in_gpus info) o w) as [Hh Hl].
    split; [unfold statuses; by rewrite Hh|done].
  - destruct (sync_numa_hosts (h_id host) (numa_discovery expand_cpu_list_to_string <$> in_numa_nodes info) o w)
      as [Hh Hl]. split; [unfold statuses; by rewrite Hh|done].
Qed.

Lemma probe_host_spec host o w w' r :
  probe_host node_info host o w = (w', r) -> r = Ok tt /\ probed [host] w w'.
Proof.
  unfold probe_host, get_node_info, mbind at 1, M_bind at 1.
  destruct (rpc (E := SqlxError) host GetNodeInfo o w) as [w1 [out|e]] eqn:Hr; [|discriminate].
  assert (w1 = add_log (probe_event host out) (tick w)) as -> by (unfold rpc in Hr; by injection Hr as <- <-).
  set (w1 := add_log _ _). assert (log_grows w w1) as G1 by (exists [probe_event host out]; reflexivity).
  assert (forall w2 s, status_quiet w1 w2 -> s = Ok tt -> (w2, s) = (w', r) -> r = Ok tt /\ probed [host] w w') as Hdone.
  { intros w2 s [Hs Hl] -> [= <- <-]. split; [done|]. apply probed_same; [by rewrite Hs|].
    destruct G1 as [l E]. exists l. by rewrite Hl. }
  assert (forall out', out' <> RpcOk -> out = out' -> handle_probe_result host None o w1 = (w', r) ->
            r = Ok tt /\ probed [host] w w') as Hrefused.
  { intros out' Hne -> Hrun. unfold handle_probe_result in Hrun. case_bool_decide as Hm; [by eapply Hdone|].
    unfold mbind, M_bind, attempt, Hosts.update_status, update_host, execute in Hrun.
    destruct (o_sql o (w_step w1)); [by apply (Hdone (tick w1) (Ok tt))|]. injection Hrun as <- <-. split; [done|].
    split; [exact G1|]. intros k. destruct (decide (k = h_id host)) as [->|Hne'].
    - right. exists host, out'. split_and!; try done; [by left|exists [probe_event host out']; by split; [|left]|].
      unfold statuses. simpl. rewrite !lookup_fmap, lookup_alter_eq. by destruct (t_hosts (w_db w) !! h_id host).
    - left. unfold statuses. simpl. by rewrite !lookup_fmap, lookup_alter_ne. }
  destruct out; intros Hrun; [|by apply (Hrefused RpcNotFound)|by apply (Hrefused RpcError)].
  pose proof (recorded_quiet host (node_info (w_step w)) o w1) as Hq. rewrite Hrun in Hq. simpl in Hq.
  apply (Hdone w' r Hq); [|done]. destruct r as [[]|e]; [done|exfalso].
  assert (raises (fun _ : SqlxError => False) (handle_probe_result host (Some (node_info (w_step w))))) as Hr'
    by (unfold handle_probe_result; raises_tac).
  by eapply Hr'.
Qed.

Lemma probe_all_spec hosts o w w' r :
  for_all_m (probe_host node_info) hosts o w = (w', r) -> r = Ok tt /\ probed hosts w w'.
Proof.
  revert w. induction hosts as [|h hosts IH]; intros w Hrun; simpl in Hrun.
  { injection Hrun as <- <-. split; [done|]. by apply probed_same. }
  destruct (probe_host node_info h o w) as [w1 r1] eqn:H1. pose proof (probe_host_spec _ _ _ _ _ H1) as [-> P1].
  rewrite (bind_run _ _ _ _ _ _ H1) in Hrun. apply IH in Hrun as [-> P2]. split; [done|].
  change (h :: hosts) with ([h] ++ hosts). by eapply probed_trans.
Qed.

Definition hosts_keyed (db : Db) : Prop := map_Forall (fun k h => h_id h = k) (t_hosts db).

(** A cycle of the resource monitor changes the status of a host only to [Down],
    only when the host was [Up] and its node did not answer the probe.  A host in
    maintenance is probed but keeps its status, a host in any other status is left
    alone, and in maintenance mode nothing is probed. *)
Theorem resource_tick_statuses mode o w w' r :
  hosts_keyed (w_db w) -> resource_tick node_info mode o w = (w', r) ->
  r = Ok tt /\ (mode = true -> w' = w) /\
  forall k h, t_hosts (w_db w) !! k = Some h ->
    exists h', t_hosts (w_db w') !! k = Some h' /\
      (h_status h' = h_status h \/
       h_status h = HostUp /\ h_status h' = HostDown /\
       exists out, out <> RpcOk /\ logged w w' (probe_event h out)).
Proof.
  intros Hkey Hrun. unfold resource_tick in Hrun. destruct mode.
  { injection Hrun as <- <-. split_and!; [done|done|]. intros k h Hk. exists h. by split; [|left]. }
  assert (forall w1, w_db w1 = w_db w -> forall k h, t_hosts (w_db w) !! k = Some h ->
    exists h', t_hosts (w_db w1) !! k = Some h' /\ (h_status h' = h_status h \/ h_status h = HostUp /\ h_status h' = HostDown /\
       exists out, out <> RpcOk /\ logged w w1 (probe_event h out))) as Hsame.
  { intros w1 -> k h Hk. exists h. by split; [|left]. }
  unfold list_probeable, list_with_status in Hrun. unfold mbind at 1, M_bind at 1, attempt at 1, query at 1 in Hrun.
  cbn [conn_db] in Hrun. destruct (o_sql o (w_step w)); [injection Hrun as <- <-; by split_and!; [| |apply Hsame]|].
  apply probe_all_spec in Hrun as [-> [_ P]]. split_and!; [done|done|]. intros k h Hk.
  assert (statuses (tick w) !! k = Some (h_status h)) as Hs by (unfold statuses; simpl; by rewrite lookup_fmap, Hk).
  destruct (P k) as [E|(h0&out&Hin&Hid&Hst&Hout&Hl&E)]; rewrite Hs in E; unfold statuses in E; rewrite lookup_fmap in E;
    apply fmap_Some in E as (h'&Hh'&E); exists h'; (split; [done|]); [by left|right].
  apply elem_of_filter_rows in Hin as [[k' Hk'] Hf]. apply bool_decide_eq_true in Hf.
  assert (h_id h0 = k') as Hid' by exact (Hkey _ _ Hk'). rewrite Hid in Hid'. subst k'. rewrite Hk in Hk'. injection Hk' as <-.
  split_and!; [set_solver|done|]. by exists out.
Qed.
End probe_facts.

(** ** Witnesses and findings *)

Definition idle_node (n : nat) : NodeInfo :=
  {| in_hostname := "alpha"; in_cloud_hypervisor_version := "44.0"; in_kernel_version := "6.12";
     in_total_cpus := 8; in_total_memory_bytes := 1000; in_available_memory_bytes := 900;
     in_load_average_1m := f64_of_Z 0; in_disk_total_bytes := 100; in_disk_available_bytes := 50;
     in_gpus := []; in_node_version := "0.1.0"; in_numa_nodes := []; in_architecture := "x86_64";
     in_firecracker_version := None |}.
Definition deaf_oracle : Oracle :=
  {| o_sql := fun _ => None; o_uuid := o_uuid calm_oracle; o_now := o_now calm_oracle;
     o_rpc := fun _ => RpcError; o_http := o_http calm_oracle |}.
Definition watched_host (s : HostStatus) : Host := sample_host 1 "alpha" "10.0.0.1" s 8 1000 1000.
Definition watched_db (s : HostStatus) : Db := with_hosts (fun _ => {[1%N := watched_host s]}) empty_db.

Lemma resource_tick_witness :
  let r := resource_tick idle_node false deaf_oracle (world_of (watched_db HostUp)) in
  h_status <$> t_hosts (w_db r.1) !! 1%N = Some HostDown /\ r.2 = Ok tt.
Proof.
  intros r. split; [vm_compute; reflexivity|].
  destruct (resource_tick_statuses idle_node false deaf_oracle (world_of (watched_db HostUp)) r.1 r.2)
    as [Hr _]; [|apply surjective_pairing|exact Hr].
  intros k h Hk. simpl in Hk. by apply lookup_singleton_Some in Hk as [<- <-].
Defined.

(** The monitor decides by the status it read before the probe: a host that is put
    into maintenance while its node does not answer is marked [Down] all the same,
    and from then on counts as failed. *)
Theorem probe_overrides_maintenance :
  let w0 := world_of (watched_db HostUp) in
  let w1 := (get_node_info idle_node (watched_host HostUp) deaf_oracle w0 : World * result SqlxError _).1 in
  let w2 := (update_host_handler 1 HostMaintenance deaf_oracle w1).1 in
  let w3 := (handle_probe_result (watched_host HostUp) None deaf_oracle w2).1 in
  h_status <$> t_hosts (w_db w2) !! 1%N = Some HostMaintenance /\
  h_status <$> t_hosts (w_db w3) !! 1%N = Some HostDown.
Proof. split; vm_compute; reflexivity. Qed.

(** A status update of a host that does not exist succeeds. *)
Theorem update_missing_host : forall o w host_id status,
  served o -> t_hosts (w_db w) !! host_id = None ->
  update_host_handler host_id status o w = (set_db (with_hosts (alter (set_host_status status) host_id) (w_db w)) (tick w), Ok tt).
Proof.
  intros o w id s Ho Hn. unfold update_host_handler, Hosts.update_status, update_host, lift_err.
  by erewrite execute_served.
Qed.

Section evacuation_run.
#[local] Instance evacuation_uuid_text : UuidText := binary_uuid_text.
#[local] Instance evacuation_serde : PolicySerde := array_policy_serde.
#[local] Instance evacuation_collation : Collation := encoding_collation.

Definition no_floors : SchedulingSettings :=
  {| ss_memory_oversubscription_ratio := f64_of_Z 1; ss_cpu_oversubscription_ratio := f64_of_Z 4;
     ss_disk_headroom_bytes := 0; ss_memory_health_floor_bytes := 0 |}.
Definition evacuation_run : World * result SqlxError unit :=
  run_evacuation no_text no_text (fun _ _ => EmptyString) no_numa plain_defaults listen_url (fun _ => ∅)
    no_floors 2 60 HostUp [1%N] calm_oracle (world_of two_host_db).

Lemma two_host_keyed : vms_keyed two_host_db.
Proof. intros k row Hk. cbn in Hk. by apply lookup_singleton_Some in Hk as [<- <-]. Qed.

Lemma evacuation_run_eq :
  run_evacuation no_text no_text (fun _ _ => EmptyString) no_numa plain_defaults listen_url (fun _ => ∅)
    no_floors 2 60 HostUp [1%N] calm_oracle (world_of two_host_db) = (evacuation_run.1, evacuation_run.2).
Proof. unfold evacuation_run. apply surjective_pairing. Qed.

End evacuation_run.
